(* ===== verification/_CoqProject ===== *)
-Q . S2P
Prelude.v
Cmonad.v
Cutils.v
Sha1.v
Sha1Proofs.v
Md.v
MdProofs.v
Aes.v
AesProofs.v
Cipher.v
NistKw.v
NistKwProofs.v
Wpa.v
WpaProofs.v
Sdio.v
Heap.v
Card.v
CardProofs.v
State.v
Mbox.v
MboxProofs.v
Wmi.v
WmiProofs.v
Bss.v
BssProofs.v
Eapol.v
EapolProofs.v
Pkt.v
PktProofs.v
Init.v
InitProofs.v
HtcProofs.v
ParseProofs.v
Host.v
HostProofs.v
Pbuf.v
PbufProofs.v
PbufChain.v
PbufSearch.v
Inet.v
InetProofs.v
Ethernet.v
Etharp.v
EthernetProofs.v
Link.v
EtharpProofs.v
ArpProofs.v
Acd.v
AcdProofs.v
NetProofs.v
IpOutput.v
Icmp.v
Reass.v
IpInput.v
IpProofs.v
FragProofs.v
IcmpProofs.v
IpInProofs.v
ReassProofs.v
ReassWhole.v
ReassTrip.v
IpTrip.v
IpClaims.v
IcmpErrors.v
Udp.v
UdpTable.v
UdpCalls.v
UdpProofs.v
UdpTrip.v
UdpClaims.v
Timers.v
TimerQueue.v
TimerProofs.v
TimerClaims.v
