(* ===== verification/Prelude.v ===== *)
(** * dsiwifi: the WiFi driver of the DSi

    The program runs on two processors.  The ARM7 side ([arm_iop]) drives an
    Atheros AR6013/6014 card behind a TMIO SDIO controller: it boots the card's
    firmware, scans, chooses a network from the configurations in flash,
    connects, runs the WPA2 handshake and moves packets.  The ARM9 side
    ([arm_host]) connects packets to lwIP.  They share two packet rings in
    memory and exchange small FIFO messages.

    ** Files and sources (paths below src/)

    - Prelude: integers at their width, byte lists, [blit] (memcpy into a
      buffer), little- and big-endian values, shared automation.
    - Cmonad: the effect of the C code, a state monad with memory faults and
      loops cut at a bound ([Hang]); [wlp], [wp], [pres].
    - Cutils: common/source/utils.h.
    - Sha1, Sha1Proofs: crypto/sha1.twl.c against FIPS 180 and RFC 2104.
    - Md, MdProofs: crypto/md.twl.c and pkcs5.twl.c against RFC 2898.
    - Aes, AesProofs: crypto/aes.twl.c (generated tables, key schedules, blocks).
    - Cipher: the part of crypto/cipher.twl.c and cipher_wrap.twl.c behind
      AES-ECB, with the allocated context as a cell that can be freed.
    - NistKw, NistKwProofs: crypto/nist_kw.twl.c.
    - Wpa, WpaProofs: ieee/wpa.twl.c against the 802.11 key hierarchy.
    - Sdio: wifi_sdio.twl.c and wifi_ndma.twl.c on a device given by its
      register reads and writes (class [Hw]).
    - Heap: memory objects and record updates.
    - Card, CardProofs: wifi_card.twl.c 99-376, register and block accesses.
      The class [Card] is what the rest of the driver uses of a card; the SDIO
      bus is an instance, and so are the small cards of the witnesses.
    - State: the static variables of wmi.twl.c ([wmi_static]) and of
      wifi_card.twl.c ([iop]), and the messages of include/dsiwifi_cmds.h.
    - Mbox, MboxProofs: outgoing packets and the bootloader protocol.
    - Wmi, WmiProofs: WMI commands, scan and connect state machine.
    - Bss, BssProofs: [wmi_handle_bss_info], beacons and the choice of network.
    - Eapol, EapolProofs: the four-way and group handshakes.
    - Pkt, PktProofs: incoming packets, events, messages of the ARM9.
    - Init, InitProofs: start-up and shutdown of the card (wifi_card.twl.c
      1108-1163 and 1208-1612); [frame], what interrupts leave alone; a
      simulated card.
    - HtcProofs: the HTC set-up of ath/htc.twl.c with its nested reads, on a
      card whose firmware answers (class [FwCard]).
    - ParseProofs: the loops over received bytes end.
    - Host, HostProofs: arm_host/source/wifi_host.c; lwIP is the class [Lwip].
    - Pbuf, PbufProofs, PbufChain, PbufSearch: arm_host/source/lwip/pbuf.c, the
      packet buffers: reference-counted cells linked to packets, pools, heap.
    - Inet, InetProofs: lwip/inet_chksum.c and def.c against RFC 1071.
    - Ethernet, EthernetProofs: lwip/netif/ethernet.c and the predicates of
      ipv4/ip4_addr.c; [stack] is the state of lwIP below IP.
    - Etharp, EtharpProofs, ArpProofs: lwip/ipv4/etharp.c.
    - Acd, AcdProofs: lwip/ipv4/acd.c, a user of ARP that ARP calls back.
    - Link: data_send_to_lwip with the modelled lwIP behind its calls.
    - NetProofs: the theorems about these layers and their witnesses.
    - IpOutput, IpProofs, FragProofs: the sending half of lwip/ipv4/ip4.c (route,
      header with options, inline checksum) and the cutting half of ip4_frag.c.
    - Icmp, IcmpProofs, IcmpErrors: lwip/ipv4/icmp.c, echo and error messages.
    - Reass, ReassProofs, ReassWhole, ReassTrip: the reassembly of ip4_frag.c:
      its operations, a datagram half put together, fragments in any order.
    - IpInput, IpInProofs: ip4_input; the protocols above IP are the class
      [Transport].
    - IpTrip, IpClaims: two stations, and the theorems about IP and ICMP.
    - Udp, UdpTable, UdpCalls, UdpProofs: lwip/udp.c: its operations, the table of
      control blocks, the calls of an application, input and output; receive
      callbacks are the class [UdpApp].
    - UdpTrip, UdpClaims: UDP as the [Transport] of IP, two stations, and the
      theorems about UDP.
    - Timers, TimerQueue, TimerProofs, TimerClaims: lwip/timeouts.c and the clock
      of sys_arch.c: timeouts and the cyclic timers, against a queue in unbounded
      time; the timer functions of the modules are the class [StackTimers].

    ** How the code is modelled

    A static variable is a field of a record, a function a computation [M S A]
    over the record.  An access outside an object is [Fault].  Buffers reached
    through pointers are objects of a heap with addresses, so that the staging
    buffer, the mailbox buffer and the rings alias as in the code; the two
    processors work on the same heap.  Fixed-width integers are [Z] with their
    wrap-around written as [u8], [u16], [u32].  Loops that wait for hardware are
    cut after [poll_fuel] rounds, a parameter of every theorem; the theorems say
    that the run completes for any positive bound, or for the bound they name.
    Loops over data have a bound computed from the data (a turn per byte), and
    the theorems show that it is never used up.  Uninitialised stack arrays are
    the class [StackEnv], [rand] is [Rand], and no theorem depends on their
    values.  The packet buffers of lwIP are a store of cells and blocks
    ([lmem]); a released cell is gone, so that a use after free is a [Fault];
    old content of pool memory and the answers of malloc are the class
    [PbufEnv].  Loops along a packet have a turn per cell of the store.  [stack]
    is the state of lwIP over a type for what lies above ARP; the classes
    [IpIn] and [UdpIn] say that the variables of IP and of UDP are part of it, so
    that the layers are proved one by one and instantiated with a pair.  The
    helper structures of the reassembly lie in the bytes of the packets, over
    their IP headers, as in the code.  UDP control blocks are cells of a pool,
    linked by their next field; loops along the list have a turn per cell, and
    the search for a port one per port of the dynamic range.  The loop that runs
    the timers that are due is cut at [poll_fuel], and eight turns (or two per
    timeout, when late) are shown to be enough.

    ** What the theorems show

    - Cryptography: streaming SHA-1, HMAC, PBKDF2 and the pairwise keys equal
      their standards; AES decryption inverts encryption; AES key wrapping
      round-trips and rejects exactly what fails the integrity check, without
      leaking key bytes.
    - Bus: on a small controller that is never busy CMD52 reads and writes the
      registers of a card, the internal-memory window round-trips and CMD53 moves
      blocks; these lemmas serve as an instance of the classes that the theorems
      about the driver use, and are no claim about the real controller.
    - Mailbox: [refines m f] states that a computation acts as [f] on abstract
      states, in which the card is the list of packets that it decoded; packets
      and WMI commands arrive unchanged.
    - Scanning: the tick refines [tick_spec]; a round covers every channel; the
      channel index stays inside the table for lists of up to 31 entries.
    - Choice of network: the element parser reads what an encoder writes (names
      of any bytes, RSN elements with up to four pairwise suites); the handler
      makes the choice of [beacon_choice], a decision table, and what a refused
      network leaves behind is part of it.
    - Handshake: what is sent and installed for messages 1 and 3 and for a
      group message, against an access point written from the standard.
    - Packets: delivery from the card's mailbox to the shared ring and to lwIP
      (as far as the first buffer of a packet reaches, 1432 bytes), and from lwIP
      to the card; events of connection, disconnection, errors.
    - Start-up: the initialisation fails with nothing but the card and the
      power controls touched, or ends with the firmware ready and a scan under
      way; a simulated card boots through the bootloader and the HTC set-up by
      computation; the HTC set-up sends its six messages and reads the replies.
    - Parsers: the loops over received bytes end on every input; running out of
      turns ([Hang]) and reading beyond a buffer ([Fault]) are told apart.
    - Host: ring order, lwIP initialised once.
    - Packet buffers: [packet] is the structural invariant of a chain and
      [content] its bytes; every operation is a function of the content.
      Allocation and release restore the store; the checksum over any chain is
      that of RFC 1071 and verifies at the receiver.
    - Network: framing round-trips between stations; the ARP table is valid in
      every reachable state; a packet for an unknown address is sent once the
      answer came; conflict detection announces an uncontested address in
      bounded time and gives a contested one up.
    - IP: a datagram, with or without options, arrives with its header and data;
      one longer than a frame is cut, and whatever order the frames arrive in
      the datagram is put together again and all structures are given back;
      frames with a bad header are dropped without a trace; a ping is answered
      with the data unchanged and a valid checksum.
    - UDP: the table of control blocks stays well-formed under any sequence of
      calls, and no two blocks share a port without consent unless one takes its
      consent back or an address change brings them together; [udp_bind] refuses exactly the conflicting ports and always finds a free
      one; what [udp_sendto] sends reaches the callback that listens, once and
      unchanged, through both stacks down to the frame; a datagram for a port
      that nobody has is answered by an ICMP message.
    - Timers: the list of timeouts refines a sorted queue across the wrap-around
      of the clock; polled often enough each timer of the stack runs exactly once
      per interval, and a late poll ends and catches up.
    - Several theorems pin down faults of the code at its limits: oversized
      packets in both directions, long frames towards lwIP, the receive timeout,
      long channel lists, long network names, refused networks, DHCP before the
      interface exists, datagrams of certain lengths whose last fragment is
      marked too early, control blocks that share a port after a change of the
      address.

    ** Not modelled

    TCP, DHCP, DNS, IGMP, raw sockets and the socket interface of lwIP, its
    threads and interface list, and its parts for IPv6, PPP and 6LoWPAN, which the
    configuration leaves out, as it does forwarding and UDP-Lite; what of them the
    modelled code calls and the libnds functions (FIFO, timers, interrupts, RTC, I2C, flash)
    are parameters or events of a trace; printing, the debug log and the WMIX
    debug events have no effect on the driver; cipher modes, paddings and
    self tests that the driver never calls; the empty compatibility stubs
    (wifi_arm7.c, wifi_arm9.c) and the forwarding functions of
    dsiwifi_arm9.c.  Interrupts are taken only where the code waits for them
    ([wait_ready]); an interrupt between two other statements is not modelled.

    ** Next

    DHCP on the modelled UDP, then TCP;
    the boot conversation on every card that follows the protocol and not only
    on the simulated one, and the replies of BMI commands. *)

From stdpp Require Export base list numbers sets.
From Stdlib Require Export Lia.

Open Scope Z_scope.

(** ** Machine integers

    A w-bit unsigned C value is a [Z] in [[0, 2^w)]; the conversion to the
    width is written out wherever the C code stores into that width. *)

Definition u8 (z : Z) : Z := z mod 256.
Definition u16 (z : Z) : Z := z mod 65536.
Definition u32 (z : Z) : Z := z mod 4294967296.
Definition u64 (z : Z) : Z := z mod 18446744073709551616.

(** Two's complement reading of a 32-bit value. *)
Definition s32 (z : Z) : Z := (z + 2147483648) mod 4294967296 - 2147483648.

Definition byte_ok (z : Z) : Prop := 0 <= z < 256.
Abbreviation bytes := (list Z).
Definition bytes_ok (l : bytes) : Prop := Forall byte_ok l.

(** C truth of an integer used as a condition. *)
Definition nz (z : Z) : bool := negb (z =? 0).

(** Bitwise complement at 16 and 32 bits ([~x] stored back into the width). *)
Definition not16 (z : Z) : Z := 65535 - z.
Definition not32 (z : Z) : Z := 4294967295 - z.

Create HintDb dsiwifi.

(** ** Arithmetic tactics *)

(** Linear arithmetic after turning every [/] and [mod] by a literal into
    its defining equation. *)
Ltac zdm := Z.div_mod_to_equations; lia.

Ltac uwidth := unfold u8, u16, u32, u64, s32, byte_ok in *.

(** Case analysis on every boolean comparison of the goal or of [H]. *)
Ltac case_if :=
  match goal with
  | |- context [if ?b then _ else _] => destruct b eqn:?
  | |- context [match ?x with _ => _ end] => destruct x eqn:?
  end.

(** Boolean comparisons in the context, as propositions. *)
Ltac bprop :=
  repeat match goal with
  | H : (_ =? _) = true |- _ => apply Z.eqb_eq in H
  | H : (_ =? _) = false |- _ => apply Z.eqb_neq in H
  | H : (_ <? _) = true |- _ => apply Z.ltb_lt in H
  | H : (_ <? _) = false |- _ => apply Z.ltb_ge in H
  | H : (_ <=? _) = true |- _ => apply Z.leb_le in H
  | H : (_ <=? _) = false |- _ => apply Z.leb_gt in H
  | H : (_ >? _) = true |- _ => apply Z.gtb_lt in H
  | H : (_ >? _) = false |- _ => rewrite Z.gtb_ltb in H; apply Z.ltb_ge in H
  | H : (_ >=? _) = true |- _ => rewrite Z.geb_leb in H; apply Z.leb_le in H
  | H : (_ >=? _) = false |- _ => rewrite Z.geb_leb in H; apply Z.leb_gt in H
  | H : (_ && _) = true |- _ => apply andb_true_iff in H; destruct H
  | H : (_ && _) = false |- _ => apply andb_false_iff in H
  | H : (_ || _) = true |- _ => apply orb_true_iff in H
  | H : (_ || _) = false |- _ => apply orb_false_iff in H; destruct H
  | H : negb _ = true |- _ => apply negb_true_iff in H
  | H : negb _ = false |- _ => apply negb_false_iff in H
  | H : nz _ = true |- _ => unfold nz in H
  | H : nz _ = false |- _ => unfold nz in H
  end.

(** Decides every integer comparison of the goal that [lia] decides. *)
Ltac zeqb :=
  repeat match goal with
  | |- context [?x =? ?y] =>
      first [rewrite (proj2 (Z.eqb_eq x y)) by lia | rewrite (proj2 (Z.eqb_neq x y)) by lia]
  | |- context [?x <? ?y] =>
      first [rewrite (proj2 (Z.ltb_lt x y)) by lia | rewrite (proj2 (Z.ltb_ge x y)) by lia]
  | |- context [?x <=? ?y] =>
      first [rewrite (proj2 (Z.leb_le x y)) by lia | rewrite (proj2 (Z.leb_gt x y)) by lia]
  end.

(** [bytes_ok] of an explicit list. *)
Ltac fbytes :=
  repeat (apply Forall_cons_2; [first [assumption | unfold byte_ok; lia]|]); apply Forall_nil_2.

Lemma u8_range z : byte_ok (u8 z).
Proof. uwidth; zdm. Qed.
Lemma u16_range z : 0 <= u16 z < 65536.
Proof. uwidth; zdm. Qed.
Lemma u32_range z : 0 <= u32 z < 4294967296.
Proof. uwidth; zdm. Qed.
Lemma u8_id z : byte_ok z -> u8 z = z.
Proof. uwidth; intros; zdm. Qed.
Lemma u16_id z : 0 <= z < 65536 -> u16 z = z.
Proof. uwidth; intros; zdm. Qed.
Lemma u32_id z : 0 <= z < 4294967296 -> u32 z = z.
Proof. uwidth; intros; zdm. Qed.
#[export] Hint Resolve u8_range u16_range u32_range : dsiwifi.

(** ** Bit operations as arithmetic *)

Lemma shiftl_mul z n : 0 <= n -> Z.shiftl z n = z * 2 ^ n.
Proof. apply Z.shiftl_mul_pow2. Qed.

Lemma shiftr_div z n : 0 <= n -> Z.shiftr z n = z / 2 ^ n.
Proof. apply Z.shiftr_div_pow2. Qed.

Lemma testbit_small a n i : 0 <= a < 2 ^ n -> 0 <= n <= i -> Z.testbit a i = false.
Proof.
  intros Ha Hi. destruct (Z.eq_dec a 0) as [->|Hz]; [apply Z.bits_0|].
  apply Z.bits_above_log2; [lia|].
  apply Z.log2_lt_pow2; [lia|].
  eapply Z.lt_le_trans; [apply Ha|]. apply Z.pow_le_mono_r; lia.
Qed.

(** A disjoint [|] is a sum: the low operand is below the shift. *)
Lemma lor_add_disjoint a b n :
  0 <= a < 2 ^ n -> 0 <= n -> Z.lor a (b * 2 ^ n) = a + b * 2 ^ n.
Proof.
  intros Ha Hn. rewrite <- Z.add_lor_land.
  enough (Z.land a (b * 2 ^ n) = 0) as -> by lia.
  apply Z.bits_inj_iff'; intros i Hi. rewrite Z.land_spec, Z.bits_0.
  destruct (Z.lt_ge_cases i n).
  - rewrite Z.mul_pow2_bits_low by lia. apply andb_false_r.
  - rewrite (testbit_small a n) by lia. reflexivity.
Qed.

Lemma lor_disjoint_l a b n :
  0 <= a < 2 ^ n -> 0 <= n -> Z.lor (b * 2 ^ n) a = b * 2 ^ n + a.
Proof. intros. rewrite Z.lor_comm, lor_add_disjoint by lia. lia. Qed.

Lemma land_mask z n : 0 <= n -> Z.land z (2 ^ n - 1) = z mod 2 ^ n.
Proof. intros. rewrite <- Z.land_ones by lia. f_equal. rewrite Z.ones_equiv. lia. Qed.

Lemma lxor_range a b n : 0 <= n -> 0 <= a < 2 ^ n -> 0 <= b < 2 ^ n -> 0 <= Z.lxor a b < 2 ^ n.
Proof.
  intros Hn Ha Hb. assert (0 <= Z.lxor a b) by (apply Z.lxor_nonneg; lia). split; [done|].
  destruct (Z.eq_dec (Z.lxor a b) 0) as [->|]; [lia|].
  destruct (Z.eq_dec n 0) as [->|].
  { exfalso. change (2 ^ 0) with 1 in *. assert (a = 0) by lia. assert (b = 0) by lia.
    subst. done. }
  apply Z.log2_lt_pow2; [lia|]. eapply Z.le_lt_trans; [apply Z.log2_lxor; lia|].
  assert (forall x, 0 <= x < 2 ^ n -> Z.log2 x < n) as Hl.
  { intros x Hx. destruct (Z.eq_dec x 0) as [->|]; [simpl; lia|]. apply Z.log2_lt_pow2; lia. }
  apply Z.max_lub_lt; auto.
Qed.

Lemma lor_range a b n : 0 <= n -> 0 <= a < 2 ^ n -> 0 <= b < 2 ^ n -> 0 <= Z.lor a b < 2 ^ n.
Proof.
  intros Hn Ha Hb. split; [apply Z.lor_nonneg; lia|].
  rewrite <- (Z.mod_small a (2 ^ n)), <- (Z.mod_small b (2 ^ n)) by lia.
  rewrite <- !Z.land_ones, <- Z.land_lor_distr_l, Z.land_ones by lia. apply Z.mod_pos_bound; lia.
Qed.

Lemma land_range a b n : 0 <= n -> 0 <= a < 2 ^ n -> 0 <= b -> 0 <= Z.land a b < 2 ^ n.
Proof.
  intros Hn Ha Hb. split; [apply Z.land_nonneg; lia|].
  rewrite <- (Z.mod_small a (2 ^ n)), <- Z.land_ones by lia.
  rewrite (Z.land_comm a), <- Z.land_assoc, Z.land_comm, Z.land_ones by lia.
  apply Z.mod_pos_bound; lia.
Qed.

(** Complement within [n] bits. *)
Lemma testbit_compl n x i :
  0 <= x < 2 ^ n -> 0 <= i < n -> Z.testbit (2 ^ n - 1 - x) i = negb (Z.testbit x i).
Proof.
  intros Hx Hi. replace (2 ^ n - 1 - x) with (Z.lnot x mod 2 ^ n).
  - rewrite Z.mod_pow2_bits_low by lia. apply Z.lnot_spec; lia.
  - symmetry. apply Z.mod_unique with (-1); [lia|]. rewrite Z.lnot_eq_pred_opp. lia.
Qed.

Lemma byte_lxor a b : byte_ok a -> byte_ok b -> byte_ok (Z.lxor a b).
Proof. unfold byte_ok. change 256 with (2 ^ 8). apply lxor_range. lia. Qed.
#[export] Hint Resolve byte_lxor : dsiwifi.

(** ** Byte strings

    [le_bytes n z]/[le_val] and [be_bytes n z]/[be_val] are the reference
    little- and big-endian encodings of an [8n]-bit integer. *)

Fixpoint le_val (l : bytes) : Z :=
  match l with [] => 0 | b :: l => b + 256 * le_val l end.

Fixpoint le_bytes (n : nat) (z : Z) : bytes :=
  match n with O => [] | S n => u8 z :: le_bytes n (z / 256) end.

Definition be_val (l : bytes) : Z := le_val (reverse l).
Definition be_bytes (n : nat) (z : Z) : bytes := reverse (le_bytes n z).

Lemma length_le_bytes n z : length (le_bytes n z) = n.
Proof. revert z; induction n; intros; simpl; auto. Qed.
Lemma length_be_bytes n z : length (be_bytes n z) = n.
Proof. unfold be_bytes. by rewrite length_reverse, length_le_bytes. Qed.

Lemma le_bytes_ok n z : bytes_ok (le_bytes n z).
Proof. revert z; induction n; intros; simpl; constructor; auto using u8_range. apply IHn. Qed.
Lemma be_bytes_ok n z : bytes_ok (be_bytes n z).
Proof. apply Forall_reverse, le_bytes_ok. Qed.

Lemma le_val_bytes n z : le_val (le_bytes n z) = z mod 256 ^ Z.of_nat n.
Proof.
  revert z; induction n as [|n IH]; intros z; simpl le_bytes; simpl le_val.
  - by rewrite Z.mod_1_r.
  - rewrite IH, Nat2Z.inj_succ, Z.pow_succ_r by lia.
    pose proof (Z.pow_pos_nonneg 256 (Z.of_nat n)).
    rewrite Z.rem_mul_r by lia. unfold u8. lia.
Qed.

Lemma be_val_bytes n z : be_val (be_bytes n z) = z mod 256 ^ Z.of_nat n.
Proof. unfold be_val, be_bytes. by rewrite reverse_involutive, le_val_bytes. Qed.

Lemma le_val_range l : bytes_ok l -> 0 <= le_val l < 256 ^ Z.of_nat (length l).
Proof.
  induction 1 as [|b l Hb Hl IH]; simpl le_val; simpl length; [lia|].
  rewrite Nat2Z.inj_succ, Z.pow_succ_r by lia. unfold byte_ok in Hb. nia.
Qed.

Lemma le_bytes_val l : bytes_ok l -> le_bytes (length l) (le_val l) = l.
Proof.
  induction 1 as [|b l Hb Hl IH]; simpl; [done|]. unfold u8. unfold byte_ok in Hb.
  assert ((b + 256 * le_val l) / 256 = le_val l) as -> by zdm.
  f_equal; [zdm|exact IH].
Qed.

Lemma le_bytes_inj n a b :
  0 <= a < 256 ^ Z.of_nat n -> 0 <= b < 256 ^ Z.of_nat n ->
  le_bytes n a = le_bytes n b -> a = b.
Proof.
  intros Ha Hb E. apply (f_equal le_val) in E. rewrite !le_val_bytes in E.
  by rewrite !Z.mod_small in E by lia.
Qed.

(** [blit off src dst]: the effect of [memcpy(dst + off, src, |src|)] inside
    the bounds of [dst]. *)
Definition blit (off : nat) (src dst : bytes) : bytes :=
  take off dst ++ src ++ drop (off + length src) dst.

Lemma length_blit off src dst :
  (off + length src <= length dst)%nat -> length (blit off src dst) = length dst.
Proof. intros. unfold blit. rewrite !length_app, length_take, length_drop. lia. Qed.

Lemma blit_ok off src dst : bytes_ok src -> bytes_ok dst -> bytes_ok (blit off src dst).
Proof.
  intros. unfold blit, bytes_ok in *. repeat apply Forall_app_2; auto using Forall_take, Forall_drop.
Qed.

Lemma blit_nil off dst : blit off [] dst = dst.
Proof. unfold blit. simpl. by rewrite Nat.add_0_r, take_drop. Qed.

Lemma blit_all src dst : length src = length dst -> blit 0 src dst = src.
Proof. intros E. unfold blit. simpl. rewrite drop_ge by lia. by rewrite app_nil_r. Qed.

(** Reading back the blitted range, and any range that avoids it. *)
Lemma slice_blit off src dst :
  (off <= length dst)%nat -> take (length src) (drop off (blit off src dst)) = src.
Proof.
  intros. unfold blit. rewrite drop_app_length' by (rewrite length_take; lia).
  by rewrite take_app_length.
Qed.

Lemma lookup_blit off src dst i :
  (off + length src <= length dst)%nat ->
  blit off src dst !! i =
    if decide (off <= i < off + length src)%nat then src !! (i - off)%nat else dst !! i.
Proof.
  intros H. unfold blit. case_decide as D.
  - rewrite lookup_app_r by (rewrite length_take; lia). rewrite length_take.
    rewrite lookup_app_l by lia. f_equal; lia.
  - destruct (decide (i < off)%nat).
    + rewrite lookup_app_l by (rewrite length_take; lia). by rewrite lookup_take_lt by lia.
    + rewrite lookup_app_r by (rewrite length_take; lia). rewrite length_take.
      rewrite lookup_app_r by lia. rewrite lookup_drop. f_equal; lia.
Qed.

Lemma take_blit off src dst n :
  (n <= off)%nat -> (off <= length dst)%nat -> take n (blit off src dst) = take n dst.
Proof.
  intros. unfold blit. rewrite take_app_le by (rewrite length_take; lia).
  rewrite take_take. f_equal; lia.
Qed.

(** Filling a buffer from the front, one blit after the other. *)
Lemma take_blit_next k n src buf pre :
  take k buf = pre -> (k <= length buf)%nat -> n = (k + length src)%nat ->
  take n (blit k src buf) = pre ++ src.
Proof.
  intros <- Hk ->. unfold blit. rewrite app_assoc. apply take_app_length'.
  rewrite length_app, length_take. lia.
Qed.

Lemma be_bytes_app n m z : be_bytes (n + m) z = be_bytes n (z / 256 ^ Z.of_nat m) ++ be_bytes m z.
Proof.
  unfold be_bytes. rewrite <- reverse_app. f_equal.
  revert z; induction m as [|m IH]; intros z.
  - change (256 ^ Z.of_nat 0) with 1. by rewrite Nat.add_0_r, Z.div_1_r.
  - rewrite Nat.add_succ_r. simpl le_bytes. rewrite IH, Nat2Z.inj_succ, Z.pow_succ_r by lia.
    rewrite Z.div_div by lia. done.
Qed.

Lemma be_bytes_mod n z : be_bytes n (z mod 256 ^ Z.of_nat n) = be_bytes n z.
Proof.
  unfold be_bytes. f_equal. apply (f_equal (fun x => x)).
  rewrite <- (le_val_bytes n z). rewrite <- (length_le_bytes n z) at 1. apply le_bytes_val, le_bytes_ok.
Qed.

(** A range check by computation. *)
Lemma Forall_range lo hi (l : list Z) :
  forallb (fun z => (lo <=? z) && (z <? hi)) l = true -> Forall (fun z => lo <= z < hi) l.
Proof.
  intros H. apply Forall_forall. intros x Hx. rewrite forallb_forall in H.
  apply list_elem_of_In in Hx. specialize (H x Hx). bprop. lia.
Qed.
