(* ===== verification/Cmonad.v ===== *)
(** The effect of the C code: a state monad whose runs end in a value, in a
    memory fault, or still inside a polling loop.

    - [M S A] is a computation over the static variables [S].
    - [Fault f] is an access outside an object (undefined behaviour in C).
    - [Hang] is a [while] loop that has not left after [poll_fuel] rounds:
      the loops of the driver wait for hardware, so they are cut at a bound
      which is a parameter of every theorem ([Fuel]).

    [wlp]/[wp] are the partial and total correctness predicates, [pres R m]
    says that every completed run of [m] relates its end states by [R]. *)

From S2P Require Import Prelude.

Inductive fault : Type := OobRead | OobWrite | NullDeref | UseAfterFree | DivByZero.

Inductive outcome (A : Type) : Type :=
| Ok (a : A)
| Fault (f : fault)
| Hang.
Arguments Ok {A} a.
Arguments Fault {A} f.
Arguments Hang {A}.

Definition M (S A : Type) : Type := S -> outcome (A * S).

Class Fuel := poll_fuel : nat.

Declare Scope cmonad_scope.
Delimit Scope cmonad_scope with cm.
Open Scope cmonad_scope.

Section Monad.
Context {S : Type}.

Definition ret {A} (a : A) : M S A := fun s => Ok (a, s).
Definition bind {A B} (m : M S A) (k : A -> M S B) : M S B := fun s =>
  match m s with
  | Ok (a, s') => k a s'
  | Fault f => Fault f
  | Hang => Hang
  end.
Definition fail {A} (f : fault) : M S A := fun _ => Fault f.
Definition hang {A} : M S A := fun _ => Hang.
Definition gets {A} (f : S -> A) : M S A := fun s => Ok (f s, s).
Definition modify (f : S -> S) : M S unit := fun s => Ok (tt, f s).

(** A read or write that faults when it is outside its object. *)
Definition ofopt {A} (f : fault) (o : option A) : M S A := fun s =>
  match o with Some a => Ok (a, s) | None => Fault f end.

(** The outcome of a loop over bytes that are already in memory. *)
Definition ofout {A} (o : outcome A) : M S A := fun s =>
  match o with Ok a => Ok (a, s) | Fault f => Fault f | Hang => Hang end.

(** [for (x in l) f(x)] *)
Fixpoint mforeach {A} (l : list A) (f : A -> M S unit) : M S unit :=
  match l with
  | [] => ret tt
  | x :: l => bind (f x) (fun _ => mforeach l f)
  end.

(** [while (true) { r = body(); if (r is Some) return *r; }], at most [n] rounds. *)
Fixpoint mloop {A} (n : nat) (body : M S (option A)) : M S A :=
  match n with
  | O => hang
  | Datatypes.S n => bind body (fun r => match r with Some a => ret a | None => mloop n body end)
  end.

End Monad.

Notation "'let*' x := m 'in' k" := (bind m (fun x => k))
  (at level 10, x binder, m at level 100, k at level 200) : cmonad_scope.
Notation "m ;;; k" := (bind m (fun _ => k))
  (at level 199, right associativity) : cmonad_scope.
Notation "'whenm' b m" := (if b then m else ret tt)
  (at level 9, b at level 8, m at level 8, only parsing) : cmonad_scope.

(** [if( ( ret = m ) != 0 ) return( ret );  k] *)
Definition checked {S} (m k : M S Z) : M S Z :=
  bind m (fun r => if nz r then ret r else k).
Notation "'try*' m 'in' k" := (checked m k) (at level 10, m at level 100, k at level 200) : cmonad_scope.

(** Running a computation on one field of a larger state. *)
Definition zoom {S T A} (prj : S -> T) (upd : T -> S -> S) (m : M T A) : M S A := fun s =>
  match m (prj s) with
  | Ok (a, t) => Ok (a, upd t s)
  | Fault f => Fault f
  | Hang => Hang
  end.

(** ** Equations of runs *)

Lemma bind_assoc {S A B C} (m : M S A) (f : A -> M S B) (g : B -> M S C) s :
  bind (bind m f) g s = bind m (fun a => bind (f a) g) s.
Proof. unfold bind. by destruct (m s) as [[a s']| |]. Qed.
Lemma bind_ret {S A B} (a : A) (k : A -> M S B) s : bind (ret a) k s = k a s.
Proof. done. Qed.
Lemma bind_run {S A B} (m : M S A) (k : A -> M S B) s a s' : m s = Ok (a, s') -> bind m k s = k a s'.
Proof. intros E. unfold bind. by rewrite E. Qed.
Lemma bind_if {S A B} (b : bool) (m1 m2 : M S A) (k : A -> M S B) s :
  bind (if b then m1 else m2) k s = if b then bind m1 k s else bind m2 k s.
Proof. by destruct b. Qed.

(** ** Correctness predicates *)

Definition wlp {S A} (m : M S A) (Q : A -> S -> Prop) (s : S) : Prop :=
  match m s with Ok (a, s') => Q a s' | _ => True end.

Definition wp {S A} (m : M S A) (Q : A -> S -> Prop) (s : S) : Prop :=
  match m s with Ok (a, s') => Q a s' | _ => False end.

(** Memory safety: no run faults. *)
Definition nofault {S A} (m : M S A) (s : S) : Prop :=
  match m s with Fault _ => False | _ => True end.

Section Rules.
Context {S : Type}.
Implicit Types s : S.

Lemma wlp_ret {A} (a : A) (Q : A -> S -> Prop) s : Q a s -> wlp (ret a) Q s.
Proof. done. Qed.
Lemma wlp_bind {A B} (m : M S A) (k : A -> M S B) Q s :
  wlp m (fun a => wlp (k a) Q) s -> wlp (bind m k) Q s.
Proof. unfold wlp, bind. by destruct (m s) as [[a s']| |]. Qed.
(** A postcondition that does not depend on the first computation. *)
Lemma wlp_skip {A B} (m : M S A) (k : A -> M S B) Q s :
  (forall a s, wlp (k a) Q s) -> wlp (bind m k) Q s.
Proof. intros Hk. unfold wlp, bind. destruct (m s) as [[a s']| |]; [apply Hk|done|done]. Qed.
Lemma bind_inv {A B} (m : M S A) (k : A -> M S B) s r : bind m k s = Ok r ->
  exists a s1, m s = Ok (a, s1) /\ k a s1 = Ok r.
Proof. unfold bind. destruct (m s) as [[a s1]| |]; [|done|done]. intros E. by exists a, s1. Qed.
Lemma wlp_gets {A} (f : S -> A) (Q : A -> S -> Prop) s : Q (f s) s -> wlp (gets f) Q s.
Proof. done. Qed.
Lemma wlp_modify f (Q : unit -> S -> Prop) s : Q tt (f s) -> wlp (modify f) Q s.
Proof. done. Qed.
Lemma wlp_ofopt {A} f (o : option A) (Q : A -> S -> Prop) s :
  (forall a, o = Some a -> Q a s) -> wlp (ofopt f o) Q s.
Proof. unfold wlp, ofopt. destruct o; auto. Qed.
Lemma wlp_ofout {A} (o : outcome A) (Q : A -> S -> Prop) s :
  (forall a, o = Ok a -> Q a s) -> wlp (ofout o) Q s.
Proof. unfold wlp, ofout. destruct o; auto. Qed.
Lemma wlp_mono {A} (m : M S A) (P Q : A -> S -> Prop) s :
  wlp m P s -> (forall a s', P a s' -> Q a s') -> wlp m Q s.
Proof. unfold wlp. destruct (m s) as [[a s']| |]; auto. Qed.

Lemma wp_ret {A} (a : A) (Q : A -> S -> Prop) s : Q a s -> wp (ret a) Q s.
Proof. done. Qed.
Lemma wp_bind {A B} (m : M S A) (k : A -> M S B) Q s :
  wp m (fun a => wp (k a) Q) s -> wp (bind m k) Q s.
Proof. unfold wp, bind. by destruct (m s) as [[a s']| |]. Qed.
Lemma wp_gets {A} (f : S -> A) (Q : A -> S -> Prop) s : Q (f s) s -> wp (gets f) Q s.
Proof. done. Qed.
Lemma wp_modify f (Q : unit -> S -> Prop) s : Q tt (f s) -> wp (modify f) Q s.
Proof. done. Qed.
Lemma wp_mono {A} (m : M S A) (P Q : A -> S -> Prop) s :
  wp m P s -> (forall a s', P a s' -> Q a s') -> wp m Q s.
Proof. unfold wp. destruct (m s) as [[a s']| |]; auto. Qed.
Lemma wp_run {A} (m : M S A) (Q : A -> S -> Prop) s :
  wp m Q s <-> exists a s', m s = Ok (a, s') /\ Q a s'.
Proof.
  unfold wp. destruct (m s) as [[a s']| |]; split; try done; eauto;
    intros (?&?&?&?); simplify_eq; auto.
Qed.

Lemma wlp_foreach {A} (l : list A) (f : A -> M S unit) (I : S -> Prop) s :
  I s -> (forall x s, x ∈ l -> I s -> wlp (f x) (fun _ => I) s) ->
  wlp (mforeach l f) (fun _ => I) s.
Proof.
  revert s; induction l as [|x l IH]; intros s Hs Hf; simpl; [done|].
  apply wlp_bind. eapply wlp_mono; [apply Hf; [set_solver|done]|].
  intros [] s' Hs'. apply IH; [done|]. intros; apply Hf; [set_solver|done].
Qed.

Lemma wlp_loop {A} n (body : M S (option A)) (I : S -> Prop) (Q : A -> S -> Prop) s :
  I s ->
  (forall s, I s -> wlp body (fun r s' => match r with Some a => Q a s' | None => I s' end) s) ->
  wlp (mloop n body) Q s.
Proof.
  revert s; induction n as [|n IH]; intros s Hs Hb; simpl; [done|].
  apply wlp_bind. eapply wlp_mono; [apply Hb, Hs|]. intros [a|] s' H'; [done|]. by apply IH.
Qed.

(** A loop that leaves after [k] unsuccessful rounds leaves under any larger
    fuel with the same result. *)
Lemma mloop_mono {A} n m (body : M S (option A)) s r :
  (n <= m)%nat -> mloop n body s = Ok r -> mloop m body s = Ok r.
Proof.
  revert m s; induction n as [|n IH]; intros m s Hm H; [done|].
  destruct m as [|m]; [lia|]. simpl in *. unfold bind in *.
  destruct (body s) as [[[a|] s']| |]; try done. apply IH; [lia|done].
Qed.

(** ** Relations every completed run respects *)

Definition pres (R : S -> S -> Prop) {A} (m : M S A) : Prop :=
  forall s, wlp m (fun _ s' => R s s') s.

Context (R : S -> S -> Prop) `{!PreOrder R}.

Lemma pres_run {A} (m : M S A) s a s' : pres R m -> m s = Ok (a, s') -> R s s'.
Proof. intros H E. specialize (H s). unfold wlp in H. by rewrite E in H. Qed.
Lemma pres_ret {A} (a : A) : pres R (ret a).
Proof. intros s. apply wlp_ret. reflexivity. Qed.
Lemma pres_fail {A} f : pres R (@fail S A f).
Proof. done. Qed.
Lemma pres_hang {A} : pres R (@hang S A).
Proof. done. Qed.
Lemma pres_gets {A} (f : S -> A) : pres R (gets f).
Proof. intros s. apply wlp_gets. reflexivity. Qed.
Lemma pres_ofopt {A} f (o : option A) : pres R (ofopt f o).
Proof. intros s. apply wlp_ofopt. intros. reflexivity. Qed.
Lemma pres_ofout {A} (o : outcome A) : pres R (ofout o).
Proof. intros s. apply wlp_ofout. intros. reflexivity. Qed.
Lemma pres_modify f : (forall s, R s (f s)) -> pres R (modify f).
Proof. intros H s. apply wlp_modify, H. Qed.
Lemma pres_bind {A B} (m : M S A) (k : A -> M S B) :
  pres R m -> (forall a, pres R (k a)) -> pres R (bind m k).
Proof.
  intros Hm Hk s. apply wlp_bind. eapply wlp_mono; [apply Hm|].
  intros a s' H. eapply wlp_mono; [apply Hk|]. intros b s'' H'. by transitivity s'.
Qed.
Lemma pres_foreach {A} (l : list A) (f : A -> M S unit) :
  (forall x, pres R (f x)) -> pres R (mforeach l f).
Proof. intros H. induction l; simpl; auto using pres_ret, pres_bind. Qed.
Lemma pres_loop {A} n (body : M S (option A)) : pres R body -> pres R (mloop n body).
Proof.
  intros H. induction n; simpl; [apply pres_hang|]. apply pres_bind; [done|].
  intros [a|]; auto using pres_ret.
Qed.
Lemma pres_if {A} (b : bool) (m1 m2 : M S A) :
  pres R m1 -> pres R m2 -> pres R (if b then m1 else m2).
Proof. by destruct b. Qed.
End Rules.

Lemma wlp_zoom {S T A} (prj : S -> T) upd (m : M T A) Q s :
  wlp m (fun a t => Q a (upd t s)) (prj s) -> wlp (zoom prj upd m) Q s.
Proof. unfold wlp, zoom. by destruct (m (prj s)) as [[a s']| |]. Qed.

Lemma wp_zoom {S T A} (prj : S -> T) upd (m : M T A) Q s :
  wp m (fun a t => Q a (upd t s)) (prj s) -> wp (zoom prj upd m) Q s.
Proof. unfold wp, zoom. by destruct (m (prj s)) as [[a s']| |]. Qed.

Lemma pres_zoom {S T A} (R : S -> S -> Prop) (prj : S -> T) upd (m : M T A) :
  (forall s t, R s (upd t s)) -> pres R (zoom prj upd m).
Proof. intros H s. apply wlp_zoom. unfold wlp. destruct (m (prj s)) as [[a t]| |]; auto. Qed.

(** The lemmas [pres R op] of the operations of a component are hints of this
    database; [pres_walk R] takes a computation apart down to them. *)
Create HintDb pres discriminated.
#[export] Hint Constants Opaque : pres.
Ltac pres_walk R :=
  repeat lazymatch goal with
    | |- pres _ (ret _) => apply (pres_ret R)
    | |- pres _ (fail _) => apply pres_fail
    | |- pres _ (gets _) => apply (pres_gets R)
    | |- pres _ (mforeach _ _) => apply (pres_foreach R); intros ?
    | |- pres _ (bind _ _) => apply (pres_bind R); [|intros ?]
    | |- pres _ (let _ := _ in _) => cbv zeta
    | |- pres _ (match ?x with _ => _ end) => destruct x
    | |- pres _ _ => solve [auto 1 with pres]
    end.

(** Symbolic execution of a straight-line prefix. *)
Ltac wlp_step :=
  first [ apply wlp_bind | apply wlp_ret | apply wlp_gets | apply wlp_modify ].
Ltac wp_step :=
  first [ apply wp_bind | apply wp_ret | apply wp_gets | apply wp_modify ].
