(* ===== verification/Cutils.v ===== *)
(** common/source/utils.h: byte-order accessors and [round_up].

    A [get] function reads through a pointer: its argument is the rest of the
    object from that pointer on, and a read past the end is [None].  A [put]
    function is the byte string it stores. *)

From S2P Require Import Prelude Cmonad.

(** #define round_up(x, n) ( ((x) + (n)-1) & (~((n)-1)) ), in [int]. *)
Definition round_up (x n : Z) : Z := Z.land (x + n - 1) (Z.lnot (n - 1)).

Definition getle32 (p : bytes) : option Z :=
  match p with
  | c0 :: c1 :: c2 :: c3 :: _ =>
      Some (u32 (c0 + u32 (Z.shiftl c1 8) + u32 (Z.shiftl c2 16) + u32 (Z.shiftl c3 24)))
  | _ => None
  end.

Definition getle64 (p : bytes) : option Z :=
  match p with
  | p0 :: p1 :: p2 :: p3 :: p4 :: p5 :: p6 :: p7 :: _ =>
      let n := p0 in
      let n := Z.lor n (Z.shiftl p1 8) in
      let n := Z.lor n (Z.shiftl p2 16) in
      let n := Z.lor n (Z.shiftl p3 24) in
      let n := Z.lor n (Z.shiftl p4 32) in
      let n := Z.lor n (Z.shiftl p5 40) in
      let n := Z.lor n (Z.shiftl p6 48) in
      let n := Z.lor n (Z.shiftl p7 56) in
      Some (u64 n)
  | _ => None
  end.

Definition getbe64 (p : bytes) : option Z :=
  match p with
  | p0 :: p1 :: p2 :: p3 :: p4 :: p5 :: p6 :: p7 :: _ =>
      let n := 0 in
      let n := Z.lor n (Z.shiftl p0 56) in
      let n := Z.lor n (Z.shiftl p1 48) in
      let n := Z.lor n (Z.shiftl p2 40) in
      let n := Z.lor n (Z.shiftl p3 32) in
      let n := Z.lor n (Z.shiftl p4 24) in
      let n := Z.lor n (Z.shiftl p5 16) in
      let n := Z.lor n (Z.shiftl p6 8) in
      let n := Z.lor n (Z.shiftl p7 0) in
      Some (u64 n)
  | _ => None
  end.

Definition getbe32 (p : bytes) : option Z :=
  match p with
  | p0 :: p1 :: p2 :: p3 :: _ =>
      Some (u32 (Z.lor (Z.lor (Z.lor (Z.shiftl p0 24) (Z.shiftl p1 16)) (Z.shiftl p2 8)) (Z.shiftl p3 0)))
  | _ => None
  end.

Definition getle16 (p : bytes) : option Z :=
  match p with
  | p0 :: p1 :: _ => Some (u32 (Z.lor (Z.shiftl p0 0) (Z.shiftl p1 8)))
  | _ => None
  end.

Definition getbe16 (p : bytes) : option Z :=
  match p with
  | p0 :: p1 :: _ => Some (u32 (Z.lor (Z.shiftl p0 8) (Z.shiftl p1 0)))
  | _ => None
  end.

Definition putle16 (n : Z) : bytes := [u8 n; u8 (Z.shiftr n 8)].
Definition putbe16 (n : Z) : bytes := [u8 (Z.shiftr n 8); u8 n].
Definition putle32 (n : Z) : bytes :=
  [u8 n; u8 (Z.shiftr n 8); u8 (Z.shiftr n 16); u8 (Z.shiftr n 24)].
Definition putbe64 (n : Z) : bytes :=
  [u8 (Z.shiftr n 56); u8 (Z.shiftr n 48); u8 (Z.shiftr n 40); u8 (Z.shiftr n 32);
   u8 (Z.shiftr n 24); u8 (Z.shiftr n 16); u8 (Z.shiftr n 8); u8 (Z.shiftr n 0)].

(** ** The accessors read and write the reference encodings *)

(** Turns [Z.shiftl]/[Z.shiftr] by a literal into [*] and [/]. *)
Ltac zshift := rewrite ?shiftl_mul, ?shiftr_div by lia.

Lemma getle32_val b0 b1 b2 b3 p :
  bytes_ok [b0; b1; b2; b3] -> getle32 (b0 :: b1 :: b2 :: b3 :: p) = Some (le_val [b0; b1; b2; b3]).
Proof.
  intros H. repeat (apply Forall_cons in H as [? H]). simpl. zshift. uwidth. f_equal. zdm.
Qed.

Lemma getle16_val b0 b1 p :
  bytes_ok [b0; b1] -> getle16 (b0 :: b1 :: p) = Some (le_val [b0; b1]).
Proof.
  intros H. repeat (apply Forall_cons in H as [? H]). simpl. uwidth. zshift.
  rewrite (lor_add_disjoint (b0 * 2 ^ 0) b1 8) by lia. f_equal. zdm.
Qed.

Lemma getbe16_val b0 b1 p :
  bytes_ok [b0; b1] -> getbe16 (b0 :: b1 :: p) = Some (be_val [b0; b1]).
Proof.
  intros H. repeat (apply Forall_cons in H as [? H]). unfold getbe16. uwidth. zshift.
  rewrite (lor_disjoint_l (b1 * 2 ^ 0) b0 8) by lia. f_equal. cbn -[Z.mul Z.add]. zdm.
Qed.

Lemma getbe32_val b0 b1 b2 b3 p :
  bytes_ok [b0; b1; b2; b3] -> getbe32 (b0 :: b1 :: b2 :: b3 :: p) = Some (be_val [b0; b1; b2; b3]).
Proof.
  intros H. repeat (apply Forall_cons in H as [? H]). unfold getbe32. uwidth. zshift.
  rewrite <- !Z.lor_assoc.
  rewrite (lor_disjoint_l (b3 * 2 ^ 0) b2 8) by lia.
  rewrite (lor_disjoint_l _ b1 16) by lia.
  rewrite (lor_disjoint_l _ b0 24) by lia.
  f_equal. cbn -[Z.mul Z.add Z.pow]. zdm.
Qed.

Lemma getbe64_val b0 b1 b2 b3 b4 b5 b6 b7 p :
  bytes_ok [b0; b1; b2; b3; b4; b5; b6; b7] ->
  getbe64 (b0 :: b1 :: b2 :: b3 :: b4 :: b5 :: b6 :: b7 :: p) =
    Some (be_val [b0; b1; b2; b3; b4; b5; b6; b7]).
Proof.
  intros H. repeat (apply Forall_cons in H as [? H]). unfold getbe64. uwidth. zshift.
  rewrite Z.lor_0_l, <- !Z.lor_assoc.
  rewrite (lor_disjoint_l (b7 * 2 ^ 0) b6 8) by lia.
  rewrite (lor_disjoint_l _ b5 16) by lia. rewrite (lor_disjoint_l _ b4 24) by lia.
  rewrite (lor_disjoint_l _ b3 32) by lia. rewrite (lor_disjoint_l _ b2 40) by lia.
  rewrite (lor_disjoint_l _ b1 48) by lia. rewrite (lor_disjoint_l _ b0 56) by lia.
  f_equal. cbn -[Z.mul Z.add Z.pow]. zdm.
Qed.

Lemma getle64_val b0 b1 b2 b3 b4 b5 b6 b7 p :
  bytes_ok [b0; b1; b2; b3; b4; b5; b6; b7] ->
  getle64 (b0 :: b1 :: b2 :: b3 :: b4 :: b5 :: b6 :: b7 :: p) =
    Some (le_val [b0; b1; b2; b3; b4; b5; b6; b7]).
Proof.
  intros H. repeat (apply Forall_cons in H as [? H]). unfold getle64. uwidth. zshift.
  rewrite (lor_add_disjoint b0 b1 8) by lia.
  rewrite (lor_add_disjoint _ b2 16) by lia. rewrite (lor_add_disjoint _ b3 24) by lia.
  rewrite (lor_add_disjoint _ b4 32) by lia. rewrite (lor_add_disjoint _ b5 40) by lia.
  rewrite (lor_add_disjoint _ b6 48) by lia. rewrite (lor_add_disjoint _ b7 56) by lia.
  f_equal. cbn -[Z.mul Z.add Z.pow]. zdm.
Qed.

Lemma putle16_bytes n : putle16 n = le_bytes 2 n.
Proof. unfold putle16. zshift. reflexivity. Qed.
Lemma putle32_bytes n : putle32 n = le_bytes 4 n.
Proof. unfold putle32. zshift. simpl. by rewrite !Z.div_div by lia. Qed.
Lemma putbe16_bytes n : putbe16 n = be_bytes 2 n.
Proof. unfold putbe16. zshift. reflexivity. Qed.
Lemma putbe64_bytes n : putbe64 n = be_bytes 8 n.
Proof.
  unfold putbe64. zshift. unfold be_bytes. simpl. rewrite !Z.div_div by lia.
  change (n / 2 ^ 0) with (n / 1). rewrite Z.div_1_r. reflexivity.
Qed.

Lemma round_up_128 x : round_up x 128 = (x + 127) / 128 * 128.
Proof.
  unfold round_up. change (Z.lnot (128 - 1)) with (-128).
  change (-128) with (- 2 ^ 7). replace (- 2 ^ 7) with (Z.lnot (Z.ones 7)) by reflexivity.
  rewrite <- Z.ldiff_land, Z.ldiff_ones_r by lia. zshift. do 2 f_equal. lia.
Qed.

(** A prefix of known length is read whatever follows it. *)
Ltac destruct_len l := repeat (destruct l as [|? l]; cbn [length] in *; try lia).

Lemma getle16_app l p : length l = 2%nat -> bytes_ok l -> getle16 (l ++ p) = Some (le_val l).
Proof. intros E H. destruct_len l. by apply getle16_val. Qed.
Lemma getbe16_app l p : length l = 2%nat -> bytes_ok l -> getbe16 (l ++ p) = Some (be_val l).
Proof. intros E H. destruct_len l. by apply getbe16_val. Qed.
Lemma getle32_app l p : length l = 4%nat -> bytes_ok l -> getle32 (l ++ p) = Some (le_val l).
Proof. intros E H. destruct_len l. by apply getle32_val. Qed.
Lemma getbe32_app l p : length l = 4%nat -> bytes_ok l -> getbe32 (l ++ p) = Some (be_val l).
Proof. intros E H. destruct_len l. by apply getbe32_val. Qed.
Lemma getbe64_app l p : length l = 8%nat -> bytes_ok l -> getbe64 (l ++ p) = Some (be_val l).
Proof. intros E H. destruct_len l. by apply getbe64_val. Qed.

(** Reading back what was written, in either byte order. *)
Theorem get_put_roundtrip n rest :
  (0 <= n < 2 ^ 16 ->
     getle16 (putle16 n ++ rest) = Some n /\ getbe16 (putbe16 n ++ rest) = Some n) /\
  (0 <= n < 2 ^ 32 -> getle32 (putle32 n ++ rest) = Some n) /\
  (0 <= n < 2 ^ 64 -> getbe64 (putbe64 n ++ rest) = Some n).
Proof.
  rewrite putle16_bytes, putbe16_bytes, putle32_bytes, putbe64_bytes.
  rewrite getle16_app, getbe16_app, getle32_app, getbe64_app
    by first [apply length_le_bytes | apply length_be_bytes | apply le_bytes_ok | apply be_bytes_ok].
  rewrite !le_val_bytes, !be_val_bytes.
  split; [intros Hn; split|split; intros Hn]; f_equal; apply Z.mod_small; lia.
Qed.
