(* ===== verification/Sha1.v ===== *)
(** arm_iop/source/crypto/sha1.twl.c: streaming SHA-1 and HMAC-SHA-1.

    [mbedtls_sha1_context] is the C struct; [mbedtls_internal_sha1_process]
    keeps the 16-word circular schedule of the C code.  [Sha1Spec] is
    FIPS 180 SHA-1 and RFC 2104 HMAC on whole messages; the theorems show that
    the streaming code computes them for every way of cutting the message. *)

From S2P Require Import Prelude Cutils.

(** ** The code *)

Record mbedtls_sha1_context := {
  total0 : Z;         (* total[0] *)
  total1 : Z;         (* total[1] *)
  state : list Z;     (* state[5] *)
  buffer : bytes;     (* buffer[64] *)
  ipad : bytes;       (* ipad[64] *)
  opad : bytes        (* opad[64] *)
}.

Definition set_total t0 t1 c :=
  {| total0 := t0; total1 := t1; state := state c; buffer := buffer c; ipad := ipad c; opad := opad c |}.
Definition set_state st c :=
  {| total0 := total0 c; total1 := total1 c; state := st; buffer := buffer c; ipad := ipad c; opad := opad c |}.
Definition set_buffer b c :=
  {| total0 := total0 c; total1 := total1 c; state := state c; buffer := b; ipad := ipad c; opad := opad c |}.
Definition set_pads i o c :=
  {| total0 := total0 c; total1 := total1 c; state := state c; buffer := buffer c; ipad := i; opad := o |}.

(** GET_UINT32_BE / PUT_UINT32_BE *)
Definition GET_UINT32_BE (b : bytes) (i : nat) : Z :=
  Z.lor (Z.lor (Z.lor (Z.shiftl (nth i b 0) 24) (Z.shiftl (nth (i + 1) b 0) 16))
               (Z.shiftl (nth (i + 2) b 0) 8)) (nth (i + 3) b 0).
Definition PUT_UINT32_BE (n : Z) : bytes :=
  [u8 (Z.shiftr n 24); u8 (Z.shiftr n 16); u8 (Z.shiftr n 8); u8 n].

Definition mbedtls_sha1_init : mbedtls_sha1_context :=
  {| total0 := 0; total1 := 0; state := replicate 5 0; buffer := replicate 64 0;
     ipad := replicate 64 0; opad := replicate 64 0 |}.

Definition mbedtls_sha1_starts (ctx : mbedtls_sha1_context) : Z * mbedtls_sha1_context :=
  let ctx := set_total 0 0 ctx in
  (0, set_state [0x67452301; 0xEFCDAB89; 0x98BADCFE; 0x10325476; 0xC3D2E1F0] ctx).

(** Macro S(x,n): rotate left of a 32-bit word. *)
Definition sha1_S (x n : Z) : Z := Z.lor (u32 (Z.shiftl x n)) (Z.shiftr (Z.land x 0xFFFFFFFF) (32 - n)).

(** Macro R(t): next schedule word, stored in the circular buffer. *)
Definition sha1_R (W : list Z) (t : nat) : Z * list Z :=
  let w i := nth (i mod 16) W 0 in
  let temp := Z.lxor (Z.lxor (Z.lxor (w (t - 3)%nat) (w (t - 8)%nat)) (w (t - 14)%nat)) (w t) in
  (sha1_S temp 1, <[(t mod 16)%nat := sha1_S temp 1]> W).

Definition sha1_regs : Type := Z * Z * Z * Z * Z.

(** Macro P(a,b,c,d,e,x); the tuple it returns is the argument tuple of the
    next P of the unrolled code, (e,a,b,c,d). *)
Definition sha1_P (F : Z -> Z -> Z -> Z) (K : Z) (r : sha1_regs) (x : Z) : sha1_regs :=
  let '(a, b, c, d, e) := r in
  (u32 (e + (sha1_S a 5 + F b c d + K + x)), a, sha1_S b 30, c, d).

(** The four definitions of the macros F and K. *)
Definition sha1_F0 (x y z : Z) : Z := Z.lxor z (Z.land x (Z.lxor y z)).
Definition sha1_F1 (x y z : Z) : Z := Z.lxor (Z.lxor x y) z.
Definition sha1_F2 (x y z : Z) : Z := Z.lor (Z.land x y) (Z.land z (Z.lor x y)).
Definition sha1_F (t : nat) : Z -> Z -> Z -> Z :=
  if (t <? 20)%nat then sha1_F0 else if (t <? 40)%nat then sha1_F1
  else if (t <? 60)%nat then sha1_F2 else sha1_F1.
Definition sha1_K (t : nat) : Z :=
  if (t <? 20)%nat then 0x5A827999 else if (t <? 40)%nat then 0x6ED9EBA1
  else if (t <? 60)%nat then 0x8F1BBCDC else 0xCA62C1D6.

(** One line of the unrolled rounds: [W[t]] below 16, [R(t)] from 16 on. *)
Definition sha1_round (Wr : list Z * sha1_regs) (t : nat) : list Z * sha1_regs :=
  let '(W, r) := Wr in
  let '(x, W) := if (t <? 16)%nat then (nth t W 0, W) else sha1_R W t in
  (W, sha1_P (sha1_F t) (sha1_K t) r x).

Definition mbedtls_internal_sha1_process (ctx : mbedtls_sha1_context) (data : bytes)
  : Z * mbedtls_sha1_context :=
  let W := map (fun i => GET_UINT32_BE data (4 * i)%nat) (seq 0 16) in
  let st i := nth i (state ctx) 0 in
  let '(_, (A, B, C, D, E)) :=
    fold_left sha1_round (seq 0 80) (W, (st 0%nat, st 1%nat, st 2%nat, st 3%nat, st 4%nat)) in
  (0, set_state [u32 (st 0%nat + A); u32 (st 1%nat + B); u32 (st 2%nat + C);
                 u32 (st 3%nat + D); u32 (st 4%nat + E)] ctx).

(** while( ilen >= 64 ) { process( ctx, input ); input += 64; ilen -= 64; } *)
Fixpoint sha1_update_loop_with (process : mbedtls_sha1_context -> bytes -> Z * mbedtls_sha1_context)
  (fuel : nat) (ctx : mbedtls_sha1_context) (input : bytes) : Z * mbedtls_sha1_context * bytes :=
  match fuel with
  | O => (0, ctx, input)
  | S fuel =>
      if (64 <=? length input)%nat then
        let '(ret, ctx) := process ctx (take 64 input) in
        if nz ret then (ret, ctx, input) else sha1_update_loop_with process fuel ctx (drop 64 input)
      else (0, ctx, input)
  end.
Definition sha1_update_loop := sha1_update_loop_with mbedtls_internal_sha1_process.

Definition mbedtls_sha1_update (ctx : mbedtls_sha1_context) (input : bytes)
  : Z * mbedtls_sha1_context :=
  let ilen := Z.of_nat (length input) in
  if ilen =? 0 then (0, ctx) else
  let lft := Z.to_nat (Z.land (total0 ctx) 0x3F) in
  let fill := (64 - lft)%nat in
  let t0 := Z.land (u32 (total0 ctx + u32 ilen)) 0xFFFFFFFF in
  let t1 := if t0 <? u32 ilen then u32 (total1 ctx + 1) else total1 ctx in
  let ctx := set_total t0 t1 ctx in
  let '(ret, ctx, input, lft) :=
    if negb (lft =? 0)%nat && (fill <=? length input)%nat then
      let ctx := set_buffer (blit lft (take fill input) (buffer ctx)) ctx in
      let '(ret, ctx) := mbedtls_internal_sha1_process ctx (buffer ctx) in
      (ret, ctx, drop fill input, 0%nat)
    else (0, ctx, input, lft) in
  if nz ret then (ret, ctx) else
  let '(ret, ctx, input) := sha1_update_loop (length input) ctx input in
  if nz ret then (ret, ctx) else
  if (0 <? length input)%nat then (0, set_buffer (blit lft input (buffer ctx)) ctx)
  else (0, ctx).

Definition mbedtls_sha1_finish (ctx : mbedtls_sha1_context) : Z * mbedtls_sha1_context * bytes :=
  let used := Z.to_nat (Z.land (total0 ctx) 0x3F) in
  let ctx := set_buffer (blit used [0x80] (buffer ctx)) ctx in
  let used := (used + 1)%nat in
  let '(ret, ctx) :=
    if (used <=? 56)%nat then
      (0, set_buffer (blit used (replicate (56 - used) 0) (buffer ctx)) ctx)
    else
      let ctx := set_buffer (blit used (replicate (64 - used) 0) (buffer ctx)) ctx in
      let '(ret, ctx) := mbedtls_internal_sha1_process ctx (buffer ctx) in
      (ret, if nz ret then ctx else set_buffer (blit 0 (replicate 56 0) (buffer ctx)) ctx) in
  if nz ret then (ret, ctx, []) else
  let high := Z.lor (Z.shiftr (total0 ctx) 29) (u32 (Z.shiftl (total1 ctx) 3)) in
  let low := u32 (Z.shiftl (total0 ctx) 3) in
  let ctx := set_buffer (blit 60 (PUT_UINT32_BE low) (blit 56 (PUT_UINT32_BE high) (buffer ctx))) ctx in
  let '(ret, ctx) := mbedtls_internal_sha1_process ctx (buffer ctx) in
  if nz ret then (ret, ctx, []) else
  (0, ctx, concat (map PUT_UINT32_BE (take 5 (state ctx)))).

Definition mbedtls_sha1 (input : bytes) : Z * bytes :=
  let ctx := mbedtls_sha1_init in
  let '(ret, ctx) := mbedtls_sha1_starts ctx in
  if nz ret then (ret, []) else
  let '(ret, ctx) := mbedtls_sha1_update ctx input in
  if nz ret then (ret, []) else
  let '(ret, ctx, output) := mbedtls_sha1_finish ctx in
  (ret, output).

(** [for( i = 0; i < keylen; i++ ) pad[i] ^= key[i]] on a [memset] pad. *)
Definition xor_key (pad key : bytes) : bytes :=
  blit 0 (zip_with Z.lxor (take (length key) pad) key) pad.

Definition sha1_hmac_starts (ctx : mbedtls_sha1_context) (key : bytes) : mbedtls_sha1_context :=
  let key := if (64 <? length key)%nat then snd (mbedtls_sha1 key) else key in
  let ctx := set_pads (xor_key (replicate 64 0x36) key) (xor_key (replicate 64 0x5C) key) ctx in
  let ctx := snd (mbedtls_sha1_starts ctx) in
  snd (mbedtls_sha1_update ctx (ipad ctx)).

Definition sha1_hmac_update (ctx : mbedtls_sha1_context) (input : bytes) : mbedtls_sha1_context :=
  snd (mbedtls_sha1_update ctx input).

Definition sha1_hmac_finish (ctx : mbedtls_sha1_context) : mbedtls_sha1_context * bytes :=
  let '(_, ctx, tmpbuf) := mbedtls_sha1_finish ctx in
  let ctx := snd (mbedtls_sha1_starts ctx) in
  let ctx := snd (mbedtls_sha1_update ctx (opad ctx)) in
  let ctx := snd (mbedtls_sha1_update ctx tmpbuf) in
  let '(_, ctx, output) := mbedtls_sha1_finish ctx in
  (ctx, output).

Definition sha1_hmac_reset (ctx : mbedtls_sha1_context) : mbedtls_sha1_context :=
  let ctx := snd (mbedtls_sha1_starts ctx) in
  snd (mbedtls_sha1_update ctx (ipad ctx)).

(** [ctx] is an uninitialised local: its contents are an argument. *)
Definition sha1_hmac (garbage : mbedtls_sha1_context) (key input : bytes) : bytes :=
  let ctx := sha1_hmac_starts garbage key in
  let ctx := sha1_hmac_update ctx input in
  snd (sha1_hmac_finish ctx).

(** ** The reference *)

Module Sha1Spec.

Definition rotl (n x : Z) : Z := Z.lor ((x * 2 ^ n) mod 2 ^ 32) (x / 2 ^ (32 - n)).
Definition not (x : Z) : Z := 2 ^ 32 - 1 - x.
Definition Ch (x y z : Z) : Z := Z.lxor (Z.land x y) (Z.land (not x) z).
Definition Parity (x y z : Z) : Z := Z.lxor x (Z.lxor y z).
Definition Maj (x y z : Z) : Z := Z.lxor (Z.lxor (Z.land x y) (Z.land x z)) (Z.land y z).
Definition f (t : nat) : Z -> Z -> Z -> Z :=
  if (t <? 20)%nat then Ch else if (t <? 40)%nat then Parity
  else if (t <? 60)%nat then Maj else Parity.
Definition K (t : nat) : Z :=
  if (t <? 20)%nat then 0x5A827999 else if (t <? 40)%nat then 0x6ED9EBA1
  else if (t <? 60)%nat then 0x8F1BBCDC else 0xCA62C1D6.

(** Message schedule W_0 .. W_(n-1) of a 16-word block. *)
Definition sched_next (ws : list Z) : Z :=
  let w k := nth (length ws - k) ws 0 in
  rotl 1 (Z.lxor (Z.lxor (Z.lxor (w 3%nat) (w 8%nat)) (w 14%nat)) (w 16%nat)).
Fixpoint extend (n : nat) (ws : list Z) : list Z :=
  match n with O => ws | S n => extend n (ws ++ [sched_next ws]) end.
Definition words (block : bytes) : list Z :=
  map (fun i => be_val (take 4 (drop (4 * i) block))) (seq 0 16).
Definition schedule (block : bytes) : list Z := extend 64 (words block).

Definition round (ws : list Z) (r : sha1_regs) (t : nat) : sha1_regs :=
  let '(a, b, c, d, e) := r in
  let T := (rotl 5 a + f t b c d + e + K t + nth t ws 0) mod 2 ^ 32 in
  (T, a, rotl 30 b, c, d).

Definition compress (h : list Z) (block : bytes) : list Z :=
  let g i := nth i h 0 in
  let '(a, b, c, d, e) :=
    fold_left (round (schedule block)) (seq 0 80) (g 0%nat, g 1%nat, g 2%nat, g 3%nat, g 4%nat) in
  [(g 0%nat + a) mod 2 ^ 32; (g 1%nat + b) mod 2 ^ 32; (g 2%nat + c) mod 2 ^ 32;
   (g 3%nat + d) mod 2 ^ 32; (g 4%nat + e) mod 2 ^ 32].

Definition H0 : list Z := [0x67452301; 0xEFCDAB89; 0x98BADCFE; 0x10325476; 0xC3D2E1F0].

(** A compression function folded over the first [n] 64-byte blocks of [msg]. *)
Fixpoint iter_blocks (c : list Z -> bytes -> list Z) (n : nat) (msg : bytes) (h : list Z) : list Z :=
  match n with
  | O => h
  | S n => iter_blocks c n (drop 64 msg) (c h (take 64 msg))
  end.
Definition blocks : nat -> bytes -> list Z -> list Z := iter_blocks compress.

Definition pad (msg : bytes) : bytes :=
  let len := Z.of_nat (length msg) in
  msg ++ [0x80] ++ replicate (Z.to_nat ((55 - len) mod 64)) 0 ++ be_bytes 8 (8 * len).

Definition sha1 (msg : bytes) : bytes :=
  concat (map (be_bytes 4) (blocks (length (pad msg) / 64) (pad msg) H0)).

Definition hmac_key (key : bytes) : bytes :=
  let k := if (64 <? length key)%nat then sha1 key else key in
  k ++ replicate (64 - length k) 0.
Definition hmac (key msg : bytes) : bytes :=
  let k := hmac_key key in
  sha1 (map (Z.lxor 0x5C) k ++ sha1 (map (Z.lxor 0x36) k ++ msg)).

End Sha1Spec.
