(* ===== verification/Sha1Proofs.v ===== *)
(** SHA-1: the compression loop with its circular schedule is the FIPS 180
    compression function, and the streaming interface hashes the
    concatenation of its inputs. *)

From S2P Require Import Prelude Cutils Sha1.
Import Sha1Spec.

Definition word_ok (w : Z) : Prop := 0 <= w < 2 ^ 32.

(** ** The compression function *)

Lemma sha1_S_rotl x n : word_ok x -> 0 <= n <= 32 -> sha1_S x n = rotl n x.
Proof.
  intros Hx Hn. unfold sha1_S, rotl, u32. change 0xFFFFFFFF with (2 ^ 32 - 1).
  rewrite land_mask, (Z.mod_small x), shiftl_mul, shiftr_div by (unfold word_ok in *; lia). reflexivity.
Qed.

Lemma rotl_ok n x : word_ok x -> 0 <= n <= 32 -> word_ok (rotl n x).
Proof.
  intros [Hx1 Hx2] Hn. unfold rotl, word_ok. apply lor_range; [lia| |].
  - apply Z.mod_pos_bound; lia.
  - pose proof (Z.pow_pos_nonneg 2 (32 - n)). split; [apply Z.div_pos; lia|].
    apply Z.div_lt_upper_bound; [lia|]. nia.
Qed.

Lemma F0_Ch x y z : word_ok x -> word_ok z -> sha1_F0 x y z = Ch x y z.
Proof.
  intros Hx Hz. apply Z.bits_inj_iff'; intros i Hi. unfold sha1_F0, Ch, not.
  rewrite !Z.lxor_spec, !Z.land_spec, !Z.lxor_spec.
  destruct (Z.lt_ge_cases i 32).
  - rewrite testbit_compl by (unfold word_ok in *; lia). by destruct (Z.testbit x i), (Z.testbit y i), (Z.testbit z i).
  - rewrite (testbit_small x 32 i), (testbit_small z 32 i) by (unfold word_ok in *; lia).
    by rewrite andb_false_r.
Qed.

Lemma F2_Maj x y z : sha1_F2 x y z = Maj x y z.
Proof.
  apply Z.bits_inj_iff'; intros i Hi. unfold sha1_F2, Maj.
  rewrite !Z.lxor_spec, !Z.lor_spec, !Z.land_spec, !Z.lor_spec.
  by destruct (Z.testbit x i), (Z.testbit y i), (Z.testbit z i).
Qed.

Lemma sha1_F_f t x y z : word_ok x -> word_ok z -> sha1_F t x y z = f t x y z.
Proof.
  intros. unfold sha1_F, f.
  repeat case_if; auto using F0_Ch, F2_Maj; unfold sha1_F1, Parity; by rewrite Z.lxor_assoc.
Qed.

(** Words of the schedule. *)
Lemma length_extend n ws : length (extend n ws) = (n + length ws)%nat.
Proof. revert ws; induction n; intros; simpl; [done|]. rewrite IHn, length_app. simpl. lia. Qed.

Lemma take_extend n ws : take (length ws) (extend n ws) = ws.
Proof.
  revert ws; induction n as [|n IH]; intros; simpl; [by apply take_ge|].
  set (l := ws ++ [sched_next ws]).
  transitivity (take (length ws) (take (length l) (extend n l))).
  { rewrite take_take. f_equal. unfold l. rewrite length_app. lia. }
  rewrite IH. apply take_app_length.
Qed.

Lemma nth_extend n ws i :
  (length ws <= i < n + length ws)%nat -> nth i (extend n ws) 0 = sched_next (take i (extend n ws)).
Proof.
  revert ws i; induction n as [|n IH]; intros ws i Hi; [lia|]. simpl.
  destruct (decide (i = length ws)) as [->|].
  - pose proof (take_extend n (ws ++ [sched_next ws])) as E.
    pose proof (take_extend (S n) ws) as E'. simpl in E'.
    rewrite E'. rewrite nth_lookup.
    rewrite <- (lookup_take_lt _ (length (ws ++ [sched_next ws]))) by (rewrite length_app; simpl; lia).
    rewrite E, lookup_app_r, Nat.sub_diag by lia. reflexivity.
  - apply IH. rewrite length_app. simpl. lia.
Qed.

Lemma length_words block : length (words block) = 16%nat.
Proof. unfold words. by rewrite length_map, length_seq. Qed.

Lemma schedule_next block t :
  (16 <= t < 80)%nat ->
  nth t (schedule block) 0 =
    rotl 1 (Z.lxor (Z.lxor (Z.lxor (nth (t - 3) (schedule block) 0) (nth (t - 8) (schedule block) 0))
      (nth (t - 14) (schedule block) 0)) (nth (t - 16) (schedule block) 0)).
Proof.
  intros Ht. unfold schedule. rewrite nth_extend by (rewrite length_words; lia).
  unfold sched_next. rewrite length_take, length_extend, length_words.
  rewrite Nat.min_l by lia. rewrite !nth_lookup, !lookup_take_lt by lia. reflexivity.
Qed.

Lemma schedule_init block t : (t < 16)%nat -> nth t (schedule block) 0 = nth t (words block) 0.
Proof.
  intros Ht. unfold schedule. rewrite <- (take_extend 64 (words block)) at 2.
  rewrite !nth_lookup, lookup_take_lt by (rewrite length_words; lia). reflexivity.
Qed.

Lemma GET_UINT32_BE_val b0 b1 b2 b3 pre post :
  bytes_ok [b0; b1; b2; b3] ->
  GET_UINT32_BE (pre ++ [b0; b1; b2; b3] ++ post) (length pre) = be_val [b0; b1; b2; b3].
Proof.
  intros H. unfold GET_UINT32_BE. rewrite !nth_lookup.
  rewrite !(lookup_app_r pre) by lia. replace (length pre - length pre)%nat with 0%nat by lia.
  replace (length pre + 1 - length pre)%nat with 1%nat by lia.
  replace (length pre + 2 - length pre)%nat with 2%nat by lia.
  replace (length pre + 3 - length pre)%nat with 3%nat by lia.
  pose proof (getbe32_val b0 b1 b2 b3 [] H) as E. unfold getbe32 in E. injection E as E. simpl default.
  rewrite <- E. rewrite Z.shiftl_0_r. symmetry. apply u32_id.
  repeat (apply Forall_cons in H as [? H]). uwidth. zshift. change 4294967296 with (2 ^ 32).
  repeat apply lor_range; lia.
Qed.

Lemma GET_UINT32_BE_slice data i :
  (i + 4 <= length data)%nat -> bytes_ok data -> GET_UINT32_BE data i = be_val (take 4 (drop i data)).
Proof.
  intros Hi Hd. rewrite <- (take_drop i data) at 1.
  assert (exists b0 b1 b2 b3, take 4 (drop i data) = [b0; b1; b2; b3]) as (b0 & b1 & b2 & b3 & E).
  { assert (length (take 4 (drop i data)) = 4%nat) as L by (rewrite length_take, length_drop; lia).
    destruct (take 4 (drop i data)) as [|? [|? [|? [|? [|]]]]]; try done; eauto. }
  rewrite <- (take_drop 4 (drop i data)), E.
  replace i with (length (take i data)) at 3 by (rewrite length_take; lia).
  apply GET_UINT32_BE_val. rewrite <- E. apply Forall_take, Forall_drop, Hd.
Qed.

Lemma words_GET data :
  length data = 64%nat -> bytes_ok data ->
  map (fun i => GET_UINT32_BE data (4 * i)%nat) (seq 0 16) = words data.
Proof.
  intros Hl Hd. unfold words. apply map_ext_in. intros i Hi%in_seq.
  apply GET_UINT32_BE_slice; [lia|done].
Qed.

Lemma lxor4_ok a b c d :
  word_ok a -> word_ok b -> word_ok c -> word_ok d -> word_ok (Z.lxor (Z.lxor (Z.lxor a b) c) d).
Proof. intros. unfold word_ok in *. do 3 (apply lxor_range; [lia| |lia]). lia. Qed.

#[local] Opaque schedule.

Lemma schedule_ok block t : bytes_ok block -> (t < 80)%nat -> word_ok (nth t (schedule block) 0).
Proof.
  intros Hb. revert t. induction t as [t IH] using lt_wf_ind. intros Ht.
  destruct (decide (t < 16)%nat) as [Hl|Hl].
  - rewrite schedule_init by done. unfold words. rewrite nth_lookup.
    destruct (map _ _ !! t) as [w|] eqn:E; simpl; [|unfold word_ok; lia].
    apply list_lookup_fmap_Some_1 in E as (i & -> & _). unfold word_ok, be_val.
    assert (bytes_ok (reverse (take 4 (drop (4 * i) block)))) as Hs
      by (apply Forall_reverse, Forall_take, Forall_drop, Hb).
    pose proof (le_val_range _ Hs) as R. split; [lia|].
    eapply Z.lt_le_trans; [apply R|]. change (2 ^ 32) with (256 ^ 4).
    apply Z.pow_le_mono_r; [lia|]. rewrite length_reverse, length_take. lia.
  - rewrite (schedule_next block t) by lia. apply rotl_ok; [|lia]. apply lxor4_ok; apply IH; lia.
Qed.

(** The circular buffer before round [t] holds the last sixteen words. *)
Definition circular (ws W : list Z) (t : nat) : Prop :=
  length W = 16%nat /\
  forall j, (Nat.max 16 t - 16 <= j < Nat.max 16 t)%nat -> nth (j mod 16) W 0 = nth j ws 0.

Definition regs_ok (r : sha1_regs) : Prop :=
  let '(a, b, c, d, e) := r in word_ok a /\ word_ok b /\ word_ok c /\ word_ok d /\ word_ok e.

Lemma nat_mod_shift (i n : nat) : (n <> 0 -> n <= i -> (i - n) mod n = i mod n)%nat.
Proof. intros. rewrite <- (Nat.Div0.mod_add (i - n) 1 n). f_equal. lia. Qed.

Lemma nat_mod16_neq (i j : nat) : (i < j < i + 16 -> j mod 16 <> i mod 16)%nat.
Proof. intros. pose proof (Nat.div_mod_eq i 16). pose proof (Nat.div_mod_eq j 16). lia. Qed.

Lemma circular_R block W t :
  (16 <= t < 80)%nat -> circular (schedule block) W t -> bytes_ok block ->
  sha1_R W t = (nth t (schedule block) 0, <[(t mod 16)%nat := nth t (schedule block) 0]> W) /\
  circular (schedule block) (<[(t mod 16)%nat := nth t (schedule block) 0]> W) (S t).
Proof.
  intros Ht [HL HW] Hb. unfold sha1_R.
  rewrite !HW by lia. rewrite <- (nat_mod_shift t 16) by lia. rewrite HW by lia.
  rewrite sha1_S_rotl, <- (schedule_next block t Ht);
    [|apply lxor4_ok; apply schedule_ok; auto; lia|lia].
  split; [by rewrite nat_mod_shift by lia|]. split; [by rewrite length_insert|].
  intros j Hj. rewrite nth_lookup. destruct (decide (j = t)) as [->|].
  - rewrite nat_mod_shift by lia. by rewrite list_lookup_insert_eq by (rewrite HL; apply Nat.mod_upper_bound; lia).
  - rewrite list_lookup_insert_ne by (rewrite nat_mod_shift by lia; apply nat_mod16_neq; lia).
    rewrite <- nth_lookup. apply HW. lia.
Qed.

Lemma sha1_P_round block r t :
  regs_ok r -> (t < 80)%nat ->
  sha1_P (sha1_F t) (sha1_K t) r (nth t (schedule block) 0) = round (schedule block) r t /\
  regs_ok (round (schedule block) r t).
Proof.
  destruct r as [[[[a b] c] d] e]. intros (Ha&Hb&Hc&Hd&He) Ht. unfold sha1_P, round.
  rewrite !sha1_S_rotl, sha1_F_f by (auto; lia). split.
  - unfold u32. change 4294967296 with (2 ^ 32). change (sha1_K t) with (K t).
    do 4 f_equal. f_equal. lia.
  - repeat split; try apply Hc; try apply Ha; try apply Hd;
      try (apply Z.mod_pos_bound; lia); apply rotl_ok; auto; lia.
Qed.

Lemma rounds_equiv block n t W r :
  bytes_ok block -> (t + n <= 80)%nat -> circular (schedule block) W t -> regs_ok r ->
  snd (fold_left sha1_round (seq t n) (W, r)) = fold_left (round (schedule block)) (seq t n) r.
Proof.
  intros Hb. revert t W r; induction n as [|n IH]; intros t W r Ht HW Hr; [done|].
  cbn [fold_left seq]. unfold sha1_round at 2.
  destruct (sha1_P_round block r t Hr) as [E Hr']; [lia|].
  destruct (t <? 16)%nat eqn:Hlt.
  - apply Nat.ltb_lt in Hlt. destruct HW as [HL HW].
    assert (nth t W 0 = nth t (schedule block) 0) as ->.
    { rewrite <- HW by lia. by rewrite Nat.mod_small by lia. }
    rewrite E. apply IH; auto; [lia|]. split; [done|]. intros j Hj. apply HW. lia.
  - apply Nat.ltb_ge in Hlt. destruct (circular_R block W t) as [-> HW']; [lia|done|done|].
    rewrite E. apply IH; auto. lia.
Qed.

Definition hash_ok (h : list Z) : Prop := length h = 5%nat /\ Forall word_ok h.

Lemma hash_nth h i : hash_ok h -> word_ok (nth i h 0).
Proof.
  intros [L F]. rewrite nth_lookup. destruct (h !! i) eqn:E; simpl; [|unfold word_ok; lia].
  eapply Forall_lookup_1 in F; eauto.
Qed.

Lemma compress_ok h block : hash_ok (compress h block).
Proof.
  unfold compress. destruct (fold_left _ _ _) as [[[[a b] c] d] e].
  split; [done|]. repeat constructor; apply Z.mod_pos_bound; lia.
Qed.

(** One call of the unrolled code is one FIPS compression. *)
Lemma sha1_process_compress ctx data :
  length data = 64%nat -> bytes_ok data -> hash_ok (state ctx) ->
  mbedtls_internal_sha1_process ctx data = (0, set_state (compress (state ctx) data) ctx).
Proof.
  intros Hl Hd Hs. unfold mbedtls_internal_sha1_process, compress. rewrite words_GET by done.
  pose proof (rounds_equiv data 80 0 (words data)
    (nth 0 (state ctx) 0, nth 1 (state ctx) 0, nth 2 (state ctx) 0, nth 3 (state ctx) 0,
     nth 4 (state ctx) 0) Hd) as E.
  destruct (fold_left sha1_round _ _) as [W [[[[a b] c] d] e]]. simpl snd in E.
  rewrite <- E; [reflexivity|lia| |].
  - split; [by rewrite length_words|]. intros j Hj. rewrite schedule_init by lia.
    by rewrite Nat.mod_small by lia.
  - repeat split; apply hash_nth, Hs.
Qed.

(** ** Streaming *)

Section Iter.
Context (c : list Z -> bytes -> list Z).

Lemma iter_blocks_app n m a b h :
  length a = (64 * n)%nat -> iter_blocks c (n + m) (a ++ b) h = iter_blocks c m b (iter_blocks c n a h).
Proof.
  revert a h; induction n as [|n IH]; intros a h Ha; simpl.
  - by destruct a.
  - rewrite take_app_le, drop_app_le by lia. apply IH. rewrite length_drop. lia.
Qed.

Lemma iter_blocks_prefix n a b h :
  (64 * n <= length a)%nat -> iter_blocks c n (a ++ b) h = iter_blocks c n a h.
Proof.
  revert a h; induction n as [|n IH]; intros a h Ha; simpl; [done|].
  rewrite take_app_le, drop_app_le by lia. apply IH. rewrite length_drop. lia.
Qed.

Lemma iter_blocks_ok n msg h :
  (forall h b, hash_ok (c h b)) -> hash_ok h -> hash_ok (iter_blocks c n msg h).
Proof. intros Hc. revert msg h; induction n; intros; simpl; auto. Qed.

Lemma iter_blocks_1 b h : iter_blocks c 1 b h = c h (take 64 b).
Proof. done. Qed.

(** The loop of [mbedtls_sha1_update], for any process step that applies [c]. *)
Lemma update_loop_iter (proc : mbedtls_sha1_context -> bytes -> Z * mbedtls_sha1_context) fuel ctx input :
  (forall h b, hash_ok (c h b)) ->
  (forall ctx d, length d = 64%nat -> bytes_ok d -> hash_ok (state ctx) ->
     proc ctx d = (0, set_state (c (state ctx) d) ctx)) ->
  (length input <= fuel)%nat -> bytes_ok input -> hash_ok (state ctx) ->
  sha1_update_loop_with proc fuel ctx input =
    (0, set_state (iter_blocks c (length input / 64) input (state ctx)) ctx,
     drop (64 * (length input / 64)) input).
Proof.
  intros Hc Hp. revert ctx input; induction fuel as [|fuel IH]; intros ctx input Hf Hi Hs.
  - destruct input; [|simpl in *; lia]. by destruct ctx.
  - cbn [sha1_update_loop_with]. destruct (64 <=? length input)%nat eqn:E.
    + apply Nat.leb_le in E.
      rewrite Hp; [|rewrite length_take; lia|by apply Forall_take|done].
      change (nz 0) with false. cbv iota.
      rewrite IH; [|rewrite length_drop; lia|by apply Forall_drop|apply Hc].
      rewrite length_drop. set (q := ((length input - 64) / 64)%nat).
      assert (length input / 64 = S q)%nat as ->.
      { unfold q. replace (length input) with (length input - 64 + 1 * 64)%nat at 1 by lia.
        rewrite Nat.div_add by lia. lia. }
      rewrite drop_drop. cbn [iter_blocks]. f_equal. f_equal. lia.
    + apply Nat.leb_gt in E. rewrite Nat.div_small by lia. by destruct ctx.
Qed.
End Iter.

Lemma blocks_app n m a b h :
  length a = (64 * n)%nat -> blocks (n + m) (a ++ b) h = blocks m b (blocks n a h).
Proof. apply iter_blocks_app. Qed.
Lemma blocks_prefix n a b h : (64 * n <= length a)%nat -> blocks n (a ++ b) h = blocks n a h.
Proof. apply iter_blocks_prefix. Qed.
Lemma blocks_take q msg h : (64 * q <= length msg)%nat -> blocks q (take (64 * q) msg) h = blocks q msg h.
Proof.
  intros. rewrite <- (take_drop (64 * q) msg) at 2. symmetry. apply blocks_prefix.
  rewrite length_take. lia.
Qed.
Lemma blocks_1 b h : blocks 1 b h = compress h (take 64 b).
Proof. apply (iter_blocks_1 compress). Qed.
Lemma blocks_ok n msg h : hash_ok h -> hash_ok (blocks n msg h).
Proof. apply iter_blocks_ok, compress_ok. Qed.

Lemma H0_ok : hash_ok H0.
Proof. split; [done|]. repeat constructor; unfold word_ok; lia. Qed.

Lemma sha1_update_loop_blocks fuel ctx input :
  (length input <= fuel)%nat -> bytes_ok input -> hash_ok (state ctx) ->
  sha1_update_loop fuel ctx input =
    (0, set_state (blocks (length input / 64) input (state ctx)) ctx,
     drop (64 * (length input / 64)) input).
Proof. apply (update_loop_iter compress); [apply compress_ok|apply sha1_process_compress]. Qed.

(** [ctx] has absorbed exactly [msg]. *)
Record absorbed (ctx : mbedtls_sha1_context) (msg : bytes) : Prop := {
  ab_total0 : total0 ctx = Z.of_nat (length msg) mod 2 ^ 32;
  ab_total1 : total1 ctx = (Z.of_nat (length msg) / 2 ^ 32) mod 2 ^ 32;
  ab_state : state ctx = blocks (length msg / 64) msg H0;
  ab_len : length (buffer ctx) = 64%nat;
  ab_bytes : bytes_ok (buffer ctx);
  ab_rest : take (length msg mod 64) (buffer ctx) = drop (64 * (length msg / 64)) msg
}.

Lemma absorbed_starts ctx :
  length (buffer ctx) = 64%nat -> bytes_ok (buffer ctx) ->
  exists ctx', mbedtls_sha1_starts ctx = (0, ctx') /\ absorbed ctx' [] /\
               ipad ctx' = ipad ctx /\ opad ctx' = opad ctx.
Proof. intros. eexists; split; [reflexivity|]. by repeat split. Qed.

Lemma total_update n k :
  0 <= n -> 0 < k < 2 ^ 32 ->
  let t0 := Z.land (u32 (n mod 2 ^ 32 + u32 k)) 0xFFFFFFFF in
  t0 = (n + k) mod 2 ^ 32 /\
  (if t0 <? u32 k then u32 ((n / 2 ^ 32) mod 2 ^ 32 + 1) else (n / 2 ^ 32) mod 2 ^ 32) =
    ((n + k) / 2 ^ 32) mod 2 ^ 32.
Proof.
  intros Hn Hk. cbv zeta. change 0xFFFFFFFF with (2 ^ 32 - 1). rewrite land_mask by lia.
  rewrite (u32_id k) by lia. unfold u32. change 4294967296 with (2 ^ 32).
  assert (((n mod 2 ^ 32 + k) mod 2 ^ 32) mod 2 ^ 32 = (n + k) mod 2 ^ 32) as ->
    by (rewrite Z.mod_mod, Z.add_mod_idemp_l by lia; done).
  split; [done|].
  pose proof (Z.div_mod n (2 ^ 32) ltac:(lia)). pose proof (Z.div_mod (n + k) (2 ^ 32) ltac:(lia)).
  pose proof (Z.mod_pos_bound n (2 ^ 32) ltac:(lia)). pose proof (Z.mod_pos_bound (n + k) (2 ^ 32) ltac:(lia)).
  destruct ((n + k) mod 2 ^ 32 <? k) eqn:E; bprop.
  - assert ((n + k) / 2 ^ 32 = n / 2 ^ 32 + 1) as -> by nia. by rewrite Z.add_mod_idemp_l by lia.
  - assert ((n + k) / 2 ^ 32 = n / 2 ^ 32) as -> by nia. done.
Qed.

Lemma Zland_63 z : Z.to_nat (Z.land z 0x3F) = Z.to_nat (z mod 64).
Proof. change 0x3F with (2 ^ 6 - 1). rewrite land_mask by lia. done. Qed.

Lemma left_of_total n : Z.to_nat (Z.land (Z.of_nat n mod 2 ^ 32) 0x3F) = (n mod 64)%nat.
Proof.
  rewrite Zland_63. rewrite Z.mod_mod_divide by (by exists (2 ^ 26)).
  rewrite <- (Nat2Z.id (n mod 64)). f_equal. by rewrite Nat2Z.inj_mod.
Qed.

(** Computes the fields of an updated context and nothing else. *)
Ltac sha_fields :=
  cbn [total0 total1 state buffer ipad opad set_total set_state set_buffer set_pads].

(** The tail of [mbedtls_sha1_update] from an aligned position. *)
Lemma absorb_aligned q msg input ctx :
  length msg = (64 * q)%nat -> bytes_ok input ->
  state ctx = blocks q msg H0 -> length (buffer ctx) = 64%nat -> bytes_ok (buffer ctx) ->
  total0 ctx = Z.of_nat (length (msg ++ input)) mod 2 ^ 32 ->
  total1 ctx = (Z.of_nat (length (msg ++ input)) / 2 ^ 32) mod 2 ^ 32 ->
  exists ctx',
    (let '(ret, ctx, input) := sha1_update_loop (length input) ctx input in
     if nz ret then (ret, ctx) else
     if (0 <? length input)%nat then (0, set_buffer (blit 0 input (buffer ctx)) ctx) else (0, ctx))
      = (0, ctx') /\
    absorbed ctx' (msg ++ input) /\ ipad ctx' = ipad ctx /\ opad ctx' = opad ctx.
Proof.
  intros Hm Hi Hs Hl Hb H0' H1'.
  rewrite sha1_update_loop_blocks by (auto; rewrite Hs; apply blocks_ok, H0_ok).
  change (nz 0) with false. cbv iota beta. rewrite length_drop.
  set (k := (length input / 64)%nat).
  assert (length input - 64 * k = length input mod 64)%nat as Hr
    by (pose proof (Nat.div_mod_eq (length input) 64); unfold k; lia).
  assert (length (msg ++ input) / 64 = q + k)%nat as Hq.
  { rewrite length_app, Hm, (Nat.mul_comm 64), Nat.add_comm, Nat.div_add by lia. unfold k. lia. }
  assert (length (msg ++ input) mod 64 = length input mod 64)%nat as Hmod.
  { rewrite length_app, Hm, (Nat.mul_comm 64), Nat.add_comm. apply Nat.Div0.mod_add. }
  assert (drop (64 * (q + k)) (msg ++ input) = drop (64 * k) input) as Hd.
  { rewrite drop_app_ge by lia. f_equal. lia. }
  pose proof (Nat.mod_upper_bound (length input) 64 ltac:(lia)) as Hub.
  destruct (0 <? _)%nat eqn:E.
  - eexists; split; [reflexivity|]. split; [|done]. constructor; sha_fields; auto.
    + rewrite Hq, blocks_app, Hs by lia. done.
    + rewrite length_blit; [done|]. rewrite length_drop. lia.
    + apply blit_ok; [by apply Forall_drop|done].
    + rewrite Hmod, Hq, Hd. rewrite <- Hr. rewrite <- length_drop.
      apply (slice_blit 0). lia.
  - apply Nat.ltb_ge in E. eexists; split; [reflexivity|]. split; [|done]. constructor; sha_fields; auto.
    + rewrite Hq, blocks_app, Hs by lia. done.
    + rewrite Hmod, Hq, Hd. rewrite <- Hr. rewrite (drop_ge input) by lia.
      replace (length input - 64 * k)%nat with 0%nat by lia. done.
Qed.

Lemma sha1_update_absorbs ctx msg input :
  absorbed ctx msg -> bytes_ok input -> Z.of_nat (length input) < 2 ^ 32 ->
  exists ctx', mbedtls_sha1_update ctx input = (0, ctx') /\ absorbed ctx' (msg ++ input) /\
               ipad ctx' = ipad ctx /\ opad ctx' = opad ctx.
Proof.
  intros [T0 T1 St L B Rst] Hi Hsz. unfold mbedtls_sha1_update.
  destruct (Z.of_nat (length input) =? 0) eqn:Ez; bprop.
  { destruct input; [|simpl in Ez; lia]. rewrite app_nil_r. by eexists; repeat split. }
  destruct (total_update (Z.of_nat (length msg)) (Z.of_nat (length input))) as [U0 U1]; [lia|lia|].
  rewrite T0, T1, left_of_total. cbv zeta in U0, U1. rewrite U0 in *. rewrite U1. clear U0 U1.
  rewrite <- Nat2Z.inj_add, <- length_app. set (q := (length msg / 64)%nat) in *.
  pose proof (Nat.div_mod_eq (length msg) 64) as Hdm. fold q in Hdm.
  pose proof (Nat.mod_upper_bound (length msg) 64 ltac:(lia)) as Hub.
  set (r := (length msg mod 64)%nat) in *. unfold set_total at 1.
  destruct (negb (r =? 0)%nat && (64 - r <=? length input)%nat) eqn:E.
  - (* complete the pending block first *)
    apply andb_true_iff in E as [E1 E2]. apply Nat.leb_le in E2.
    set (fill := (64 - r)%nat) in *.
    assert (blit r (take fill input) (buffer ctx) = drop (64 * q) msg ++ take fill input) as Hbl.
    { unfold blit. rewrite Rst, (drop_ge (buffer ctx)); [by rewrite app_nil_r|].
      rewrite length_take. lia. }
    sha_fields. rewrite Hbl. rewrite sha1_process_compress; sha_fields; cycle 1.
    { rewrite length_app, length_drop, length_take. lia. }
    { apply Forall_app; split; [rewrite <- Rst; by apply Forall_take|by apply Forall_take]. }
    { rewrite St. apply blocks_ok, H0_ok. }
    change (nz 0) with false. cbv iota beta. sha_fields.
    assert (msg ++ input = (msg ++ take fill input) ++ drop fill input) as ->
      by (by rewrite <- app_assoc, take_drop).
    edestruct (absorb_aligned (S q) (msg ++ take fill input) (drop fill input)) as (ctx' & E' & A' & P');
      [..|exists ctx'; split; [exact E'|split; [exact A'|exact P']]]; sha_fields; auto.
    + rewrite length_app, length_take. lia.
    + by apply Forall_drop.
    + replace (S q) with (q + 1)%nat by lia.
      rewrite <- (take_drop (64 * q) msg) at 2. rewrite <- app_assoc, blocks_app
        by (rewrite length_take; lia).
      rewrite blocks_1, (take_ge (_ ++ _)) by (rewrite length_app, length_drop, length_take; lia).
      rewrite St, blocks_take by lia. reflexivity.
    + rewrite length_app, length_drop, length_take. lia.
    + apply Forall_app; split; [rewrite <- Rst; by apply Forall_take|by apply Forall_take].
  - change (nz 0) with false. cbv iota beta.
    destruct (decide (r = 0)%nat) as [Hr|Hr].
    + rewrite Hr. apply (absorb_aligned q msg input (set_total _ _ ctx)); sha_fields; auto; lia.
    + (* everything fits in the pending block *)
      assert (length input < 64 - r)%nat as Hlt.
      { apply andb_false_iff in E as [E|E].
        - apply negb_false_iff, Nat.eqb_eq in E. lia.
        - by apply Nat.leb_gt in E. }
      rewrite sha1_update_loop_blocks by (auto; sha_fields; rewrite St; apply blocks_ok, H0_ok).
      rewrite (Nat.div_small (length input) 64) by lia. change (nz 0) with false. cbv iota beta.
      rewrite drop_0. destruct (0 <? length input)%nat eqn:E0; [|apply Nat.ltb_ge in E0; lia].
      assert (length (msg ++ input) / 64 = q /\ length (msg ++ input) mod 64 = r + length input)%nat as [Hq' Hr'].
      { rewrite length_app.
        split; symmetry; [apply (Nat.div_unique _ 64 q (r + length input))|
                          apply (Nat.mod_unique _ 64 q)]; lia. }
      eexists; split; [reflexivity|]. split; [|done]. constructor; sha_fields; auto.
      * rewrite Hq'. change (state ctx = blocks q (msg ++ input) H0). rewrite St.
        symmetry. apply blocks_prefix. lia.
      * rewrite length_blit; lia.
      * by apply blit_ok.
      * rewrite Hr', Hq'. unfold blit. rewrite Rst, app_assoc.
        rewrite take_app_length'; [|rewrite length_app, length_drop; lia].
        rewrite drop_app_le by lia. done.
Qed.

Lemma PUT_BE n : PUT_UINT32_BE n = be_bytes 4 n.
Proof. unfold PUT_UINT32_BE, be_bytes. zshift. simpl. by rewrite !Z.div_div by lia. Qed.

(** The 64-bit length field, from the two 32-bit byte counters. *)
Lemma length_field len :
  0 <= len < 2 ^ 61 ->
  PUT_UINT32_BE (Z.lor (Z.shiftr (len mod 2 ^ 32) 29) (u32 (Z.shiftl ((len / 2 ^ 32) mod 2 ^ 32) 3))) ++
  PUT_UINT32_BE (u32 (Z.shiftl (len mod 2 ^ 32) 3)) = be_bytes 8 (8 * len).
Proof.
  intros Hl. rewrite !PUT_BE. unfold u32. zshift.
  rewrite (Z.mod_small (len / 2 ^ 32)) by zdm.
  rewrite (Z.mod_small (len / 2 ^ 32 * 2 ^ 3)) by zdm.
  rewrite lor_add_disjoint by zdm. change 8%nat with (4 + 4)%nat. rewrite be_bytes_app.
  f_equal; [f_equal; simpl; zdm|].
  rewrite <- (be_bytes_mod 4 (8 * len)). simpl (Z.of_nat 4). f_equal. zdm.
Qed.

Definition live (ctx : mbedtls_sha1_context) : Prop := length (buffer ctx) = 64%nat /\ bytes_ok (buffer ctx).

(** The last block: any context whose state is [h] and whose buffer starts
    with 56 bytes of [tail] closes with the length field. *)
Lemma finish_last ctx tail h len :
  state ctx = h -> hash_ok h -> live ctx -> 0 <= len < 2 ^ 61 ->
  take 56 (buffer ctx) = tail -> length tail = 56%nat ->
  total0 ctx = len mod 2 ^ 32 -> total1 ctx = (len / 2 ^ 32) mod 2 ^ 32 ->
  exists ctx',
    (let high := Z.lor (Z.shiftr (total0 ctx) 29) (u32 (Z.shiftl (total1 ctx) 3)) in
     let low := u32 (Z.shiftl (total0 ctx) 3) in
     let ctx := set_buffer (blit 60 (PUT_UINT32_BE low) (blit 56 (PUT_UINT32_BE high) (buffer ctx))) ctx in
     let '(ret, ctx) := mbedtls_internal_sha1_process ctx (buffer ctx) in
     if nz ret then (ret, ctx, []) else
     (0, ctx, concat (map PUT_UINT32_BE (take 5 (state ctx)))))
      = (0, ctx', concat (map (be_bytes 4) (compress h (tail ++ be_bytes 8 (8 * len))))) /\
    live ctx' /\ ipad ctx' = ipad ctx /\ opad ctx' = opad ctx.
Proof.
  intros Hs Hh [HL HB] Hlen Ht Htl T0 T1. cbv zeta. rewrite T0, T1.
  set (b := blit 60 _ _).
  assert (b = tail ++ be_bytes 8 (8 * len)) as Hb.
  { rewrite <- length_field, app_assoc by done. rewrite <- (take_ge b 64) by
      (unfold b; rewrite !length_blit by (rewrite ?length_blit; simpl; lia); lia).
    apply take_blit_next; [|rewrite length_blit; simpl; lia|done].
    apply take_blit_next; [done|lia|done]. }
  sha_fields. rewrite sha1_process_compress; sha_fields; cycle 1.
  { rewrite Hb, length_app, length_be_bytes. lia. }
  { rewrite Hb, <- Ht. apply Forall_app; split; [by apply Forall_take|apply be_bytes_ok]. }
  { by rewrite Hs. }
  change (nz 0) with false. cbv iota beta. sha_fields. rewrite Hs, Hb.
  exists (set_state (compress h (tail ++ be_bytes 8 (8 * len)))
            (set_buffer (tail ++ be_bytes 8 (8 * len)) ctx)).
  split; [|split; [split; sha_fields|done]].
  - rewrite take_ge by (destruct (compress_ok h (tail ++ be_bytes 8 (8 * len))) as [-> _]; lia).
    rewrite (map_ext PUT_UINT32_BE (be_bytes 4)) by apply PUT_BE. reflexivity.
  - rewrite length_app, length_be_bytes. lia.
  - rewrite <- Ht. apply Forall_app; split; [by apply Forall_take|apply be_bytes_ok].
Qed.

(** Digest of a message whose pad cuts into [n] blocks of which [m] are left. *)
Lemma sha1_pad_blocks msg q tail m :
  (q = length msg / 64)%nat -> length tail = (64 * m)%nat -> length msg = (64 * q + length msg mod 64)%nat ->
  pad msg = take (64 * q) msg ++ tail ->
  sha1 msg = concat (map (be_bytes 4) (blocks m tail (blocks q msg H0))).
Proof.
  intros Hq Hm Hd Hp. unfold sha1. rewrite Hp.
  assert (length (take (64 * q) msg) = 64 * q)%nat as Hl by (rewrite length_take; lia).
  rewrite length_app, Hl, Hm. rewrite <- Nat.mul_add_distr_l, (Nat.mul_comm 64), Nat.div_mul by lia.
  by rewrite blocks_app, blocks_take by lia.
Qed.

Lemma pad_split msg q r :
  length msg = (64 * q + r)%nat -> (r < 64)%nat ->
  pad msg = take (64 * q) msg ++ drop (64 * q) msg ++ [0x80] ++
    replicate (if (r <? 56)%nat then 55 - r else 119 - r) 0 ++ be_bytes 8 (8 * Z.of_nat (length msg)).
Proof.
  intros Hl Hr. unfold pad. rewrite (app_assoc (take _ _)), take_drop. do 3 f_equal.
  f_equal.
  destruct (r <? 56)%nat eqn:E; [apply Nat.ltb_lt in E|apply Nat.ltb_ge in E].
  - rewrite <- (Nat2Z.id (55 - r)). f_equal. symmetry. apply Z.mod_unique with (- Z.of_nat q); lia.
  - rewrite <- (Nat2Z.id (119 - r)). f_equal. symmetry. apply Z.mod_unique with (- Z.of_nat q - 1); lia.
Qed.

(** The two shapes of the padded tail, as what [mbedtls_sha1_finish] feeds to
    the compression function. *)
Lemma sha1_tail_short msg q r :
  (q = length msg / 64)%nat -> (r = length msg mod 64)%nat -> (r < 56)%nat ->
  sha1 msg = concat (map (be_bytes 4) (compress (blocks q msg H0)
    ((drop (64 * q) msg ++ [0x80] ++ replicate (55 - r) 0) ++ be_bytes 8 (8 * Z.of_nat (length msg))))).
Proof.
  intros Hq Hr Hlt. pose proof (Nat.div_mod_eq (length msg) 64) as Hdm. rewrite <- Hq, <- Hr in Hdm.
  pose proof (pad_split msg q r Hdm ltac:(lia)) as Hp.
  replace (r <? 56)%nat with true in Hp by (symmetry; apply Nat.ltb_lt; lia).
  rewrite (sha1_pad_blocks msg q _ 1) with (4 := Hp).
  - rewrite blocks_1, (take_ge (_ ++ _)), <- !app_assoc; [done|].
    rewrite !length_app, length_drop, length_replicate, length_be_bytes. simpl. lia.
  - done.
  - rewrite !length_app, length_drop, length_replicate, length_be_bytes. simpl. lia.
  - by rewrite <- Hr.
Qed.

Lemma sha1_tail_long msg q r :
  (q = length msg / 64)%nat -> (r = length msg mod 64)%nat -> (56 <= r)%nat ->
  sha1 msg = concat (map (be_bytes 4) (compress
    (compress (blocks q msg H0) ((drop (64 * q) msg ++ [0x80]) ++ replicate (63 - r) 0))
    (replicate 56 0 ++ be_bytes 8 (8 * Z.of_nat (length msg))))).
Proof.
  intros Hq Hr Hlt. pose proof (Nat.div_mod_eq (length msg) 64) as Hdm. rewrite <- Hq, <- Hr in Hdm.
  pose proof (Nat.mod_upper_bound (length msg) 64 ltac:(lia)) as Hub. rewrite <- Hr in Hub.
  pose proof (pad_split msg q r Hdm ltac:(lia)) as Hp.
  replace (r <? 56)%nat with false in Hp by (symmetry; apply Nat.ltb_ge; lia).
  replace (119 - r)%nat with (63 - r + 56)%nat in Hp by lia.
  rewrite replicate_add, <- app_assoc, !(app_assoc (drop _ _)), (app_assoc (_ ++ _)) in Hp.
  set (t1 := (drop (64 * q) msg ++ [0x80]) ++ replicate (63 - r) 0) in *.
  assert (length t1 = 64%nat) as L1
    by (unfold t1; rewrite !length_app, length_drop, length_replicate; cbn [length]; lia).
  rewrite (sha1_pad_blocks msg q _ 2) with (4 := Hp).
  - change 2%nat with (1 + 1)%nat. rewrite blocks_app, !blocks_1 by done.
    rewrite !take_ge; [done| |lia]. rewrite length_app, length_replicate, length_be_bytes. lia.
  - done.
  - rewrite !length_app, length_replicate, length_be_bytes. lia.
  - by rewrite <- Hr.
Qed.

Lemma zeros_ok k : bytes_ok (replicate k 0).
Proof. apply Forall_replicate. unfold byte_ok. lia. Qed.

Lemma sha1_finish_digest ctx msg :
  absorbed ctx msg -> Z.of_nat (length msg) < 2 ^ 61 ->
  exists ctx', mbedtls_sha1_finish ctx = (0, ctx', sha1 msg) /\
               live ctx' /\ ipad ctx' = ipad ctx /\ opad ctx' = opad ctx.
Proof.
  intros [T0 T1 St L B Rst] Hsz. unfold mbedtls_sha1_finish. rewrite T0, left_of_total.
  set (q := (length msg / 64)%nat) in *. set (r := (length msg mod 64)%nat) in *.
  pose proof (Nat.div_mod_eq (length msg) 64) as Hdm. fold q r in Hdm.
  pose proof (Nat.mod_upper_bound (length msg) 64 ltac:(lia)) as Hub. fold r in Hub.
  assert (hash_ok (blocks q msg H0)) as Hh by apply blocks_ok, H0_ok.
  sha_fields. set (b1 := blit r [0x80] (buffer ctx)).
  assert (length b1 = 64%nat) as L1 by (unfold b1; rewrite length_blit; simpl; lia).
  assert (bytes_ok b1) as B1 by (apply blit_ok; [repeat constructor; unfold byte_ok; lia|done]).
  assert (take (r + 1) b1 = drop (64 * q) msg ++ [0x80]) as Hb1
    by (apply take_blit_next; [done|lia|done]).
  assert (length (drop (64 * q) msg) = r) as Hdr by (rewrite length_drop; lia).
  destruct (r + 1 <=? 56)%nat eqn:E; [apply Nat.leb_le in E|apply Nat.leb_gt in E].
  - change (nz 0) with false. cbv iota beta. rewrite (sha1_tail_short msg q r) by lia.
    apply (finish_last (set_buffer (blit (r + 1) (replicate (56 - (r + 1)) 0) b1) (set_buffer b1 ctx)));
      sha_fields; auto; [|lia| |].
    + split; sha_fields; [rewrite length_blit; rewrite ?length_replicate; lia|].
      apply blit_ok; auto using zeros_ok.
    + rewrite app_assoc. replace (55 - r)%nat with (56 - (r + 1))%nat by lia.
      apply take_blit_next; [done|lia|rewrite length_replicate; lia].
    + rewrite !length_app, length_replicate. cbn [length]. lia.
  - set (b2 := blit (r + 1) _ _).
    assert (b2 = (drop (64 * q) msg ++ [0x80]) ++ replicate (63 - r) 0) as Hb2.
    { rewrite <- (take_ge b2 64) by (unfold b2; rewrite length_blit; rewrite ?length_replicate; lia).
      unfold b2. replace (64 - (r + 1))%nat with (63 - r)%nat by lia.
      apply take_blit_next; [done|lia|rewrite length_replicate; lia]. }
    assert (length b2 = 64%nat) as L2
      by (rewrite Hb2, !length_app, length_replicate; cbn [length]; lia).
    assert (bytes_ok b2) as B2 by (apply blit_ok; auto using zeros_ok).
    rewrite sha1_process_compress by (sha_fields; rewrite ?St; auto).
    change (nz 0) with false. cbv iota beta. sha_fields.
    rewrite (sha1_tail_long msg q r), <- Hb2 by lia.
    set (c2 := set_state _ _).
    apply (finish_last (set_buffer (blit 0 (replicate 56 0) b2) c2));
      unfold c2; sha_fields; try rewrite St; auto using compress_ok; [|lia].
    split; sha_fields; [rewrite length_blit; rewrite ?length_replicate; lia|].
    apply blit_ok; auto using zeros_ok.
Qed.

(** ** Whole messages *)

(** Feeding a list of chunks, one [mbedtls_sha1_update] call each. *)
Definition sha1_updates (ctx : mbedtls_sha1_context) (chunks : list bytes) : mbedtls_sha1_context :=
  fold_left (fun ctx c => snd (mbedtls_sha1_update ctx c)) chunks ctx.

Lemma sha1_updates_absorb ctx msg chunks :
  absorbed ctx msg -> Forall bytes_ok chunks ->
  Forall (fun c => Z.of_nat (length c) < 2 ^ 32) chunks ->
  absorbed (sha1_updates ctx chunks) (msg ++ concat chunks) /\
  ipad (sha1_updates ctx chunks) = ipad ctx /\ opad (sha1_updates ctx chunks) = opad ctx.
Proof.
  revert ctx msg; induction chunks as [|c chunks IH]; intros ctx msg Ha Hb Hl.
  - simpl. by rewrite app_nil_r.
  - apply Forall_cons in Hb as [Hc Hb], Hl as [Hcl Hl].
    destruct (sha1_update_absorbs ctx msg c Ha Hc Hcl) as (ctx' & E & Ha' & Hi & Ho).
    unfold sha1_updates. cbn [fold_left concat]. rewrite E. cbn [snd]. fold (sha1_updates ctx' chunks).
    rewrite app_assoc, <- Hi, <- Ho. by apply IH.
Qed.

Lemma init_live : live mbedtls_sha1_init.
Proof. split; [done|apply zeros_ok]. Qed.

Lemma finish_ok ctx msg :
  absorbed ctx msg -> Z.of_nat (length msg) < 2 ^ 61 ->
  snd (mbedtls_sha1_finish ctx) = sha1 msg /\ fst (fst (mbedtls_sha1_finish ctx)) = 0.
Proof. intros Ha Hl. by destruct (sha1_finish_digest ctx msg Ha Hl) as (c & -> & _). Qed.

Lemma sha1_chunks ctx chunks :
  live ctx -> Forall bytes_ok chunks -> Forall (fun c => Z.of_nat (length c) < 2 ^ 32) chunks ->
  Z.of_nat (length (concat chunks)) < 2 ^ 61 ->
  snd (mbedtls_sha1_finish (sha1_updates (snd (mbedtls_sha1_starts ctx)) chunks)) = sha1 (concat chunks).
Proof.
  intros [HL HB] Hb Hl Hs. destruct (absorbed_starts ctx HL HB) as (c & E & Ha & _). rewrite E. cbn [snd].
  destruct (sha1_updates_absorb c [] chunks Ha Hb Hl) as [Ha' _]. by apply finish_ok.
Qed.

Lemma mbedtls_sha1_ok input :
  bytes_ok input -> Z.of_nat (length input) < 2 ^ 32 -> mbedtls_sha1 input = (0, sha1 input).
Proof.
  intros Hb Hl. unfold mbedtls_sha1. destruct init_live as [HL HB].
  destruct (absorbed_starts _ HL HB) as (c & -> & Ha & _). change (nz 0) with false. cbv iota beta.
  destruct (sha1_update_absorbs c [] input Ha Hb Hl) as (c2 & -> & Ha2 & _). change (nz 0) with false.
  cbv iota beta. destruct (sha1_finish_digest c2 _ Ha2) as (c3 & -> & _); [simpl; lia|done].
Qed.

Lemma length_sha1 msg : length (sha1 msg) = 20%nat.
Proof.
  unfold sha1. destruct (blocks_ok (length (pad msg) / 64) (pad msg) H0 H0_ok) as [L _].
  set (h := blocks _ _ _) in *. clearbody h. destruct_len h. cbn [map concat].
  rewrite !length_app, !length_be_bytes. done.
Qed.

Lemma sha1_bytes_ok msg : bytes_ok (sha1 msg).
Proof.
  unfold sha1, bytes_ok. apply Forall_concat, Forall_map, Forall_true. intros. apply be_bytes_ok.
Qed.

Lemma hmac_key_ok key : bytes_ok key -> length (hmac_key key) = 64%nat /\ bytes_ok (hmac_key key).
Proof.
  intros Hk. unfold hmac_key. destruct (64 <? length key)%nat eqn:E.
  - rewrite length_app, length_sha1, length_replicate. split; [done|].
    apply Forall_app; split; [apply sha1_bytes_ok|apply zeros_ok].
  - apply Nat.ltb_ge in E. rewrite length_app, length_replicate. split; [lia|].
    apply Forall_app; split; [done|apply zeros_ok].
Qed.

Lemma xor_key_map c key :
  0 <= c -> (length key <= 64)%nat ->
  xor_key (replicate 64 c) key = map (Z.lxor c) (key ++ replicate (64 - length key) 0).
Proof.
  intros Hc Hk. unfold xor_key, blit. simpl take at 1. rewrite length_zip_with, length_take, length_replicate.
  rewrite take_replicate, drop_replicate, map_app, Nat.min_l by lia. simpl app at 1. f_equal.
  - clear Hk. induction key as [|k key IH]; simpl; [done|]. f_equal. apply IH.
  - change (map (Z.lxor c) ?l) with (Z.lxor c <$> l). rewrite fmap_replicate, Z.lxor_0_r. f_equal. lia.
Qed.

Lemma xor_pad_ok c key : byte_ok c -> bytes_ok key ->
  length (map (Z.lxor c) (hmac_key key)) = 64%nat /\ bytes_ok (map (Z.lxor c) (hmac_key key)).
Proof.
  intros Hc Hk. destruct (hmac_key_ok key Hk) as [HL HB]. rewrite length_map. split; [done|].
  apply Forall_map. eapply Forall_impl; [exact HB|]. intros b Hb. by apply byte_lxor.
Qed.

(** [sha1_hmac_starts] leaves a context that has absorbed the inner pad and
    remembers the outer one. *)
Lemma hmac_starts_absorbs ctx key :
  live ctx -> bytes_ok key -> Z.of_nat (length key) < 2 ^ 32 ->
  absorbed (sha1_hmac_starts ctx key) (map (Z.lxor 0x36) (hmac_key key)) /\
  opad (sha1_hmac_starts ctx key) = map (Z.lxor 0x5C) (hmac_key key).
Proof.
  intros Hlive Hk Hl. unfold sha1_hmac_starts.
  set (k := if (64 <? length key)%nat then snd (mbedtls_sha1 key) else key).
  assert (k = if (64 <? length key)%nat then sha1 key else key) as Ek
    by (unfold k; by rewrite mbedtls_sha1_ok).
  assert (length k <= 64)%nat as Hkl.
  { rewrite Ek. destruct (64 <? length key)%nat eqn:E; [rewrite length_sha1; lia|].
    by apply Nat.ltb_ge in E. }
  rewrite !xor_key_map, Ek by lia. fold (hmac_key key).
  destruct (xor_pad_ok 0x36 key) as [HpL HpB]; [unfold byte_ok; lia|done|].
  set (p := map (Z.lxor 54) (hmac_key key)) in *. clearbody p.
  set (ctx1 := set_pads p _ ctx).
  destruct (absorbed_starts ctx1 (proj1 Hlive) (proj2 Hlive)) as (c & E1 & Ha & Hi & Ho).
  rewrite E1. cbn [snd]. rewrite Hi. change (ipad ctx1) with p.
  destruct (sha1_update_absorbs c [] p Ha HpB) as (c2 & E2 & Ha2 & _ & Ho2); [lia|].
  rewrite E2. cbn [snd]. split; [exact Ha2|]. by rewrite Ho2, Ho.
Qed.

Lemma hmac_update_absorbs ctx msg input :
  absorbed ctx msg -> bytes_ok input -> Z.of_nat (length input) < 2 ^ 32 ->
  absorbed (sha1_hmac_update ctx input) (msg ++ input) /\ opad (sha1_hmac_update ctx input) = opad ctx.
Proof.
  intros Ha Hb Hl. unfold sha1_hmac_update.
  by destruct (sha1_update_absorbs ctx msg input Ha Hb Hl) as (c & -> & Ha' & _ & Ho).
Qed.

Lemma hmac_finish_digest ctx msg op :
  absorbed ctx msg -> opad ctx = op -> length op = 64%nat -> bytes_ok op ->
  Z.of_nat (length msg) < 2 ^ 61 ->
  exists ctx', sha1_hmac_finish ctx = (ctx', sha1 (op ++ sha1 msg)) /\ live ctx' /\
    ipad ctx' = ipad ctx /\ opad ctx' = op.
Proof.
  intros Ha Hop HL HB Hs. unfold sha1_hmac_finish.
  destruct (sha1_finish_digest ctx msg Ha Hs) as (c1 & -> & Hl1 & Hi1 & Ho1).
  destruct (absorbed_starts c1 (proj1 Hl1) (proj2 Hl1)) as (c2 & E2 & Ha2 & Hi2 & Ho2).
  rewrite E2. cbn [snd]. rewrite Ho2, Ho1, Hop.
  destruct (sha1_update_absorbs c2 [] op Ha2 HB) as (c3 & E3 & Ha3 & Hi3 & Ho3); [lia|]. rewrite E3. cbn [snd].
  destruct (sha1_update_absorbs c3 _ (sha1 msg) Ha3 (sha1_bytes_ok _)) as (c4 & E4 & Ha4 & Hi4 & Ho4);
    [rewrite length_sha1; lia|]. rewrite E4. cbn [snd].
  destruct (sha1_finish_digest c4 _ Ha4) as (c5 & E5 & Hl5 & Hi5 & Ho5);
    [rewrite !length_app, length_sha1; simpl; lia|]. rewrite E5.
  exists c5. split; [done|]. split; [done|]. split; congruence.
Qed.

Lemma hmac_reset_absorbs ctx ip :
  live ctx -> ipad ctx = ip -> length ip = 64%nat -> bytes_ok ip ->
  absorbed (sha1_hmac_reset ctx) ip /\ ipad (sha1_hmac_reset ctx) = ip /\
  opad (sha1_hmac_reset ctx) = opad ctx.
Proof.
  intros [HL HB] Hip HpL HpB. unfold sha1_hmac_reset.
  destruct (absorbed_starts ctx HL HB) as (c & E1 & Ha & Hi & Ho).
  rewrite E1. cbn [snd]. rewrite Hi, Hip.
  destruct (sha1_update_absorbs c [] ip Ha HpB) as (c2 & E2 & Ha2 & Hi2 & Ho2); [lia|].
  rewrite E2. cbn [snd]. split; [exact Ha2|]. split; congruence.
Qed.

Lemma sha1_hmac_ok ctx key input :
  live ctx -> bytes_ok key -> bytes_ok input ->
  Z.of_nat (length key) < 2 ^ 32 -> Z.of_nat (length input) < 2 ^ 32 ->
  sha1_hmac ctx key input = hmac key input.
Proof.
  intros Hc Hk Hi Hkl Hil. unfold sha1_hmac, hmac.
  destruct (hmac_starts_absorbs ctx key Hc Hk Hkl) as [Ha Ho].
  destruct (hmac_update_absorbs _ _ input Ha Hi Hil) as [Ha2 Ho2]. rewrite Ho in Ho2.
  destruct (xor_pad_ok 0x36 key) as [HpL HpB]; [unfold byte_ok; lia|done|].
  destruct (xor_pad_ok 0x5C key) as [HqL HqB]; [unfold byte_ok; lia|done|].
  destruct (hmac_finish_digest _ _ _ Ha2 Ho2 HqL HqB) as (c & -> & _); [rewrite length_app; lia|done].
Qed.

Lemma length_hmac key msg : length (hmac key msg) = 20%nat.
Proof. apply length_sha1. Qed.
Lemma hmac_bytes_ok key msg : bytes_ok (hmac key msg).
Proof. apply sha1_bytes_ok. Qed.

(** C28: However a message is cut into [mbedtls_sha1_update] calls, and whatever
    the context held before [mbedtls_sha1_starts], [mbedtls_sha1_finish]
    returns the FIPS 180 SHA-1 digest of the concatenated chunks. *)
Theorem sha1_streaming_digest ctx chunks :
  live ctx -> Forall bytes_ok chunks -> Forall (fun c => Z.of_nat (length c) < 2 ^ 32) chunks ->
  Z.of_nat (length (concat chunks)) < 2 ^ 61 ->
  snd (mbedtls_sha1_finish (sha1_updates (snd (mbedtls_sha1_starts ctx)) chunks)) = sha1 (concat chunks).
Proof. apply sha1_chunks. Qed.

(** "a" then "bc": the FIPS 180 example digest. *)
Lemma sha1_streaming_digest_witness :
  snd (mbedtls_sha1_finish (sha1_updates (snd (mbedtls_sha1_starts mbedtls_sha1_init)) [[97]; [98; 99]]))
  = [169; 153; 62; 54; 71; 6; 129; 106; 186; 62; 37; 113; 120; 80; 194; 108; 156; 208; 216; 157].
Proof.
  etransitivity; [apply sha1_streaming_digest|vm_compute; reflexivity].
  - apply init_live.
  - repeat constructor; unfold byte_ok; lia.
  - repeat constructor; vm_compute; reflexivity.
  - vm_compute; reflexivity.
Defined.

(** C29: [sha1_hmac] computes RFC 2104 HMAC-SHA-1 of the input under the key,
    whatever its uninitialised context on the stack contained. *)
Theorem sha1_hmac_rfc2104 ctx key input :
  live ctx -> bytes_ok key -> bytes_ok input ->
  Z.of_nat (length key) < 2 ^ 32 -> Z.of_nat (length input) < 2 ^ 32 ->
  sha1_hmac ctx key input = hmac key input.
Proof. apply sha1_hmac_ok. Qed.

(** RFC 2202 test case 2: key "Jefe". *)
Lemma sha1_hmac_rfc2104_witness :
  sha1_hmac mbedtls_sha1_init [0x4a; 0x65; 0x66; 0x65]
    [0x77; 0x68; 0x61; 0x74; 0x20; 0x64; 0x6f; 0x20; 0x79; 0x61; 0x20; 0x77; 0x61; 0x6e; 0x74; 0x20;
     0x66; 0x6f; 0x72; 0x20; 0x6e; 0x6f; 0x74; 0x68; 0x69; 0x6e; 0x67; 0x3f]
  = [0xef; 0xfc; 0xdf; 0x6a; 0xe5; 0xeb; 0x2f; 0xa2; 0xd2; 0x74;
     0x16; 0xd5; 0xf1; 0x84; 0xdf; 0x9c; 0x25; 0x9a; 0x7c; 0x79].
Proof.
  etransitivity; [apply sha1_hmac_rfc2104|vm_compute; reflexivity].
  - apply init_live.
  - repeat constructor; unfold byte_ok; lia.
  - repeat constructor; unfold byte_ok; lia.
  - vm_compute; reflexivity.
  - vm_compute; reflexivity.
Defined.
