(* ===== verification/Md.v ===== *)
(** arm_iop/source/crypto/md.twl.c and pkcs5.twl.c: the digest layer and
    PBKDF2.

    A context is a C struct with three pointers, [None] being NULL; a
    dereference of a NULL [md_ctx] is a fault.  The allocator is an argument:
    one boolean per [mbedtls_calloc], true when it returns memory. *)

From S2P Require Import Prelude Cmonad Cutils Sha1 Sha1Proofs.
From stdpp Require Import strings.
Open Scope Z_scope.

Inductive mbedtls_md_type_t :=
  MBEDTLS_MD_NONE | MBEDTLS_MD_MD5 | MBEDTLS_MD_SHA1 | MBEDTLS_MD_SHA224 | MBEDTLS_MD_SHA256 |
  MBEDTLS_MD_SHA384 | MBEDTLS_MD_SHA512 | MBEDTLS_MD_RIPEMD160.
#[export] Instance mbedtls_md_type_t_eq_dec : EqDecision mbedtls_md_type_t.
Proof. solve_decision. Defined.

Definition MBEDTLS_ERR_MD_BAD_INPUT_DATA : Z := -0x5100.
Definition MBEDTLS_ERR_MD_ALLOC_FAILED : Z := -0x5180.

Record mbedtls_md_info_t := { name : string; type : mbedtls_md_type_t; size : nat; block_size : nat }.
#[export] Instance mbedtls_md_info_t_eq_dec : EqDecision mbedtls_md_info_t.
Proof. solve_decision. Defined.

Record mbedtls_md_context_t := {
  md_info : option mbedtls_md_info_t;
  md_ctx : option mbedtls_sha1_context;
  hmac_ctx : option bytes                 (* calloc( 2, block_size ) *)
}.
Definition set_md_ctx c m := {| md_info := md_info m; md_ctx := c; hmac_ctx := hmac_ctx m |}.
Definition set_hmac_ctx h m := {| md_info := md_info m; md_ctx := md_ctx m; hmac_ctx := h |}.

Definition mbedtls_sha1_info : mbedtls_md_info_t :=
  {| name := "SHA1"; type := MBEDTLS_MD_SHA1; size := 20; block_size := 64 |}.

Definition supported_digests : list mbedtls_md_type_t := [MBEDTLS_MD_SHA1; MBEDTLS_MD_NONE].

Definition mbedtls_md_info_from_type (t : mbedtls_md_type_t) : option mbedtls_md_info_t :=
  match t with MBEDTLS_MD_SHA1 => Some mbedtls_sha1_info | _ => None end.

Definition mbedtls_md_info_from_string (md_name : option string) : option mbedtls_md_info_t :=
  match md_name with
  | None => None
  | Some n =>
      if bool_decide (n = "SHA1"%string) || bool_decide (n = "SHA"%string)
      then mbedtls_md_info_from_type MBEDTLS_MD_SHA1 else None
  end.

Definition mbedtls_md_init : mbedtls_md_context_t :=
  {| md_info := None; md_ctx := None; hmac_ctx := None |}.

(** The blocks are released; the struct itself keeps its (dangling) pointers,
    which no caller uses again: [md_ctx] and [hmac_ctx] read as NULL. *)
Definition mbedtls_md_free (ctx : mbedtls_md_context_t) : mbedtls_md_context_t :=
  match md_info ctx with
  | None => ctx
  | Some i => {| md_info := Some i; md_ctx := None; hmac_ctx := None |}
  end.

Definition mbedtls_md_clone (dst src : mbedtls_md_context_t) : outcome (Z * mbedtls_md_context_t) :=
  match md_info dst, md_info src with
  | Some di, Some si =>
      if bool_decide (di = si) then
        match type si with
        | MBEDTLS_MD_SHA1 =>
            match md_ctx dst, md_ctx src with
            | Some _, Some c => Ok (0, set_md_ctx (Some c) dst)
            | _, _ => Fault NullDeref
            end
        | _ => Ok (MBEDTLS_ERR_MD_BAD_INPUT_DATA, dst)
        end
      else Ok (MBEDTLS_ERR_MD_BAD_INPUT_DATA, dst)
  | _, _ => Ok (MBEDTLS_ERR_MD_BAD_INPUT_DATA, dst)
  end.

Definition mbedtls_md_setup (alloc1 alloc2 : bool) (info : option mbedtls_md_info_t) (hmac : Z)
  : M mbedtls_md_context_t Z :=
  match info with
  | None => ret MBEDTLS_ERR_MD_BAD_INPUT_DATA
  | Some i =>
      modify (fun _ => {| md_info := Some i; md_ctx := None; hmac_ctx := None |}) ;;;
      match type i with
      | MBEDTLS_MD_SHA1 =>
          if negb alloc1 then ret MBEDTLS_ERR_MD_ALLOC_FAILED else
          modify (set_md_ctx (Some mbedtls_sha1_init)) ;;;
          if nz hmac then
            if negb alloc2 then modify mbedtls_md_free ;;; ret MBEDTLS_ERR_MD_ALLOC_FAILED
            else modify (set_hmac_ctx (Some (replicate (2 * block_size i) 0))) ;;; ret 0
          else ret 0
      | _ => ret MBEDTLS_ERR_MD_BAD_INPUT_DATA
      end
  end.

(** switch( ctx->md_info->type ) around a call on the SHA-1 context. *)
Definition md_dispatch {A} (err : A) (f : mbedtls_sha1_context -> A * mbedtls_sha1_context)
  : M mbedtls_md_context_t A := fun ctx =>
  match md_info ctx with
  | None => Ok (err, ctx)
  | Some i =>
      match type i with
      | MBEDTLS_MD_SHA1 =>
          match md_ctx ctx with
          | None => Fault NullDeref
          | Some c => let '(r, c) := f c in Ok (r, set_md_ctx (Some c) ctx)
          end
      | _ => Ok (err, ctx)
      end
  end.

Definition mbedtls_md_starts : M mbedtls_md_context_t Z :=
  md_dispatch MBEDTLS_ERR_MD_BAD_INPUT_DATA mbedtls_sha1_starts.

Definition mbedtls_md_update (input : bytes) : M mbedtls_md_context_t Z :=
  md_dispatch MBEDTLS_ERR_MD_BAD_INPUT_DATA (fun c => mbedtls_sha1_update c input).

(** Returns the code and the bytes written to [output]. *)
Definition mbedtls_md_finish : M mbedtls_md_context_t (Z * bytes) :=
  md_dispatch (MBEDTLS_ERR_MD_BAD_INPUT_DATA, [])
    (fun c => let '(r, c, out) := mbedtls_sha1_finish c in (r, out, c)).

Definition mbedtls_md_process (data : bytes) : M mbedtls_md_context_t Z :=
  md_dispatch MBEDTLS_ERR_MD_BAD_INPUT_DATA (fun c => mbedtls_internal_sha1_process c data).

Definition mbedtls_md (info : option mbedtls_md_info_t) (input : bytes) : Z * bytes :=
  match info with
  | None => (MBEDTLS_ERR_MD_BAD_INPUT_DATA, [])
  | Some i => match type i with
              | MBEDTLS_MD_SHA1 => mbedtls_sha1 input
              | _ => (MBEDTLS_ERR_MD_BAD_INPUT_DATA, [])
              end
  end.

(** [if( ctx == NULL || ctx->md_info == NULL || ctx->hmac_ctx == NULL )] *)
Definition hmac_guard {A} (err : A) (k : mbedtls_md_info_t -> bytes -> M mbedtls_md_context_t A)
  : M mbedtls_md_context_t A := fun ctx =>
  match md_info ctx, hmac_ctx ctx with
  | Some i, Some h => k i h ctx
  | _, _ => Ok (err, ctx)
  end.

Definition mbedtls_md_hmac_starts (key : bytes) : M mbedtls_md_context_t Z :=
  hmac_guard MBEDTLS_ERR_MD_BAD_INPUT_DATA (fun i h =>
    let* rk :=
      (if (block_size i <? length key)%nat then
         let* r := mbedtls_md_starts in if nz r then ret (r, key) else
         let* r := mbedtls_md_update key in if nz r then ret (r, key) else
         let* '(r, sum) := mbedtls_md_finish in if nz r then ret (r, key) else
         ret (0, take (size i) sum)
       else ret (0, key)) in
    let '(r, key) := rk in
    if nz r then ret r else
    let ipad := xor_key (replicate (block_size i) 0x36) key in
    let opad := xor_key (replicate (block_size i) 0x5C) key in
    modify (set_hmac_ctx (Some (blit (block_size i) opad (blit 0 ipad h)))) ;;;
    try* mbedtls_md_starts in mbedtls_md_update ipad).

Definition mbedtls_md_hmac_update (input : bytes) : M mbedtls_md_context_t Z :=
  hmac_guard MBEDTLS_ERR_MD_BAD_INPUT_DATA (fun _ _ => mbedtls_md_update input).

Definition mbedtls_md_hmac_finish : M mbedtls_md_context_t (Z * bytes) :=
  hmac_guard (MBEDTLS_ERR_MD_BAD_INPUT_DATA, []) (fun i h =>
    let opad := drop (block_size i) h in
    let* '(r, tmp) := mbedtls_md_finish in if nz r then ret (r, []) else
    let* r := mbedtls_md_starts in if nz r then ret (r, []) else
    let* r := mbedtls_md_update (take (block_size i) opad) in if nz r then ret (r, []) else
    let* r := mbedtls_md_update (take (size i) tmp) in if nz r then ret (r, []) else
    mbedtls_md_finish).

Definition mbedtls_md_hmac_reset : M mbedtls_md_context_t Z :=
  hmac_guard MBEDTLS_ERR_MD_BAD_INPUT_DATA (fun i h =>
    try* mbedtls_md_starts in mbedtls_md_update (take (block_size i) h)).

(** The bytes written to [output] come with the code. *)
Definition mbedtls_md_hmac (alloc1 alloc2 : bool) (info : option mbedtls_md_info_t) (key input : bytes)
  : outcome ((Z * bytes) * mbedtls_md_context_t) :=
  match info with
  | None => Ok ((MBEDTLS_ERR_MD_BAD_INPUT_DATA, []), mbedtls_md_init)
  | Some _ =>
      (let* res :=
         (let* r := mbedtls_md_setup alloc1 alloc2 info 1 in if nz r then ret (r, []) else
          let* r := mbedtls_md_hmac_starts key in if nz r then ret (r, []) else
          let* r := mbedtls_md_hmac_update input in if nz r then ret (r, []) else
          mbedtls_md_hmac_finish) in
       modify mbedtls_md_free ;;; ret res) mbedtls_md_init
  end.

Definition mbedtls_md_get_size (info : option mbedtls_md_info_t) : nat :=
  match info with None => 0 | Some i => size i end.
Definition mbedtls_md_get_type (info : option mbedtls_md_info_t) : mbedtls_md_type_t :=
  match info with None => MBEDTLS_MD_NONE | Some i => type i end.
Definition mbedtls_md_get_name (info : option mbedtls_md_info_t) : option string :=
  match info with None => None | Some i => Some (name i) end.

(** ** PBKDF2 *)

(** [for( i = 4; i > 0; i-- ) if( ++counter[i - 1] != 0 ) break;], on the
    reversed counter. *)
Fixpoint counter_incr (rev : bytes) : bytes :=
  match rev with
  | [] => []
  | b :: rest => if nz (u8 (b + 1)) then u8 (b + 1) :: rest else u8 (b + 1) :: counter_incr rest
  end.

(** The rounds [i = 1 .. iteration_count - 1]; [work] and [md1] are the two
    local arrays, cut to [md_size]. *)
Fixpoint pbkdf2_rounds (n : nat) (work md1 : bytes) : M mbedtls_md_context_t (Z * bytes) :=
  match n with
  | O => ret (0, work)
  | S n =>
      let* r := mbedtls_md_hmac_update md1 in if nz r then ret (r, work) else
      let* '(r, md1) := mbedtls_md_hmac_finish in if nz r then ret (r, work) else
      let* r := mbedtls_md_hmac_reset in if nz r then ret (r, work) else
      pbkdf2_rounds n (zip_with Z.lxor work md1) md1
  end.

(** One turn of [while( key_length )]: the block that [counter] selects. *)
Definition pbkdf2_block (salt counter : bytes) (iteration_count : nat)
  : M mbedtls_md_context_t (Z * bytes) :=
  let* r := mbedtls_md_hmac_update salt in if nz r then ret (r, []) else
  let* r := mbedtls_md_hmac_update counter in if nz r then ret (r, []) else
  let* '(r, work) := mbedtls_md_hmac_finish in if nz r then ret (r, []) else
  let* r := mbedtls_md_hmac_reset in if nz r then ret (r, []) else
  pbkdf2_rounds (iteration_count - 1) work work.

(** [while( key_length )]: [out] is what has been written so far.  Every turn
    lowers [key_length] by at least one, so [key_length] turns are enough. *)
Fixpoint pbkdf2_loop (fuel : nat) (md_size : nat) (salt counter : bytes) (iteration_count : nat)
  (key_length : nat) (out : bytes) : M mbedtls_md_context_t (Z * bytes) :=
  match fuel with
  | O => if (key_length =? 0)%nat then ret (0, out) else hang
  | S fuel =>
      if (key_length =? 0)%nat then ret (0, out) else
      let* '(r, work) := pbkdf2_block salt counter iteration_count in
      if nz r then ret (r, out) else
      let use_len := if (key_length <? md_size)%nat then key_length else md_size in
      pbkdf2_loop fuel md_size salt (reverse (counter_incr (reverse counter))) iteration_count
        (key_length - use_len) (out ++ take use_len work)
  end.

Definition mbedtls_pkcs5_pbkdf2_hmac (password salt : bytes) (iteration_count key_length : nat)
  : M mbedtls_md_context_t (Z * bytes) :=
  let* info := gets md_info in
  let md_size := mbedtls_md_get_size info in
  let* r := mbedtls_md_hmac_starts password in if nz r then ret (r, []) else
  pbkdf2_loop key_length md_size salt [0; 0; 0; 1] iteration_count key_length [].
