(* ===== verification/MdProofs.v ===== *)
(** The digest layer and PBKDF2 compute the published functions: a context
    that has been keyed stays keyed through update, finish and reset, and the
    PBKDF2 loop emits the blocks of RFC 2898. *)

From S2P Require Import Prelude Cmonad Cutils Sha1 Sha1Proofs Md.
Import Sha1Spec.

(** ** RFC 2898 PBKDF2 with HMAC-SHA-1 *)
Module Pbkdf2Spec.

(** [U_1 .. U_c], from [U_1]. *)
Fixpoint Us (P : bytes) (c : nat) (u : bytes) : list bytes :=
  match c with O => [] | S c => u :: Us P c (hmac P u) end.

Definition F (P salt : bytes) (c : nat) (i : Z) : bytes :=
  fold_left (zip_with Z.lxor) (Us P c (hmac P (salt ++ be_bytes 4 i))) (replicate 20 0).

Definition pbkdf2 (P salt : bytes) (c dkLen : nat) : bytes :=
  take dkLen (concat (map (fun i => F P salt c (Z.of_nat i)) (seq 1 ((dkLen + 19) / 20)))).

End Pbkdf2Spec.
Import Pbkdf2Spec.

(** ** Keyed contexts *)

Definition ipad_of (K : bytes) : bytes := map (Z.lxor 0x36) (hmac_key K).
Definition opad_of (K : bytes) : bytes := map (Z.lxor 0x5C) (hmac_key K).

(** What [mbedtls_md_setup] establishes for HMAC. *)
Definition ready (ctx : mbedtls_md_context_t) : Prop :=
  md_info ctx = Some mbedtls_sha1_info /\
  (exists c, md_ctx ctx = Some c /\ live c) /\
  (exists h, hmac_ctx ctx = Some h /\ length h = 128%nat).

(** [ctx] computes HMAC under [K] and has been fed [msg]. *)
Definition keyed (K msg : bytes) (ctx : mbedtls_md_context_t) : Prop :=
  md_info ctx = Some mbedtls_sha1_info /\
  (exists c, md_ctx ctx = Some c /\ absorbed c (ipad_of K ++ msg)) /\
  hmac_ctx ctx = Some (ipad_of K ++ opad_of K).

Definition key_ok (K : bytes) : Prop := bytes_ok K /\ Z.of_nat (length K) < 2 ^ 32.

Lemma ipad_of_ok K : key_ok K -> length (ipad_of K) = 64%nat /\ bytes_ok (ipad_of K).
Proof. intros [HK _]. apply xor_pad_ok; [unfold byte_ok; lia|done]. Qed.
Lemma opad_of_ok K : key_ok K -> length (opad_of K) = 64%nat /\ bytes_ok (opad_of K).
Proof. intros [HK _]. apply xor_pad_ok; [unfold byte_ok; lia|done]. Qed.

Lemma absorbed_live c msg : absorbed c msg -> live c.
Proof. intros []. by split. Qed.

(** [okrun E]: the call of equation [E] succeeds with code 0.
    [md_run]: a state-monad run whose three context pointers are known. *)
Ltac okrun E := rewrite E; cbv beta iota; change (nz 0) with false; cbv beta iota.

Ltac md_run :=
  unfold hmac_guard, checked, bind, mbedtls_md_starts, mbedtls_md_update, mbedtls_md_finish,
    md_dispatch, ret, modify, gets in *;
  cbn [md_info md_ctx hmac_ctx set_md_ctx set_hmac_ctx type size block_size mbedtls_sha1_info] in *.

Lemma setup_ready ctx :
  exists ctx', mbedtls_md_setup true true (Some mbedtls_sha1_info) 1 ctx = Ok (0, ctx') /\ ready ctx'.
Proof.
  eexists; split; [reflexivity|]. split; [done|]. split; eexists; split; try reflexivity. apply init_live.
Qed.

(** The key longer than a block is hashed through the same context. *)
Lemma hmac_key_hash c key :
  live c -> key_ok key ->
  exists c', mbedtls_sha1_finish (snd (mbedtls_sha1_update (snd (mbedtls_sha1_starts c)) key))
    = (0, c', sha1 key) /\ live c' /\
    fst (mbedtls_sha1_starts c) = 0 /\ fst (mbedtls_sha1_update (snd (mbedtls_sha1_starts c)) key) = 0.
Proof.
  intros [HL HB] [HK HKl]. destruct (absorbed_starts c HL HB) as (c1 & E1 & Ha & _). rewrite E1. cbn [snd].
  destruct (sha1_update_absorbs c1 [] key Ha HK HKl) as (c2 & E2 & Ha2 & _). rewrite E2. cbn [snd fst].
  destruct (sha1_finish_digest c2 _ Ha2) as (c3 & E3 & Hl3 & _); [simpl; lia|]. eauto.
Qed.

Lemma pads_blit i o h :
  length i = 64%nat -> length o = 64%nat -> length h = 128%nat -> blit 64 o (blit 0 i h) = i ++ o.
Proof.
  intros Hi Ho Hh. rewrite <- (take_ge (blit 64 o _) 128).
  - apply take_blit_next; [|rewrite length_blit; lia|lia].
    apply (take_blit_next 0 64 i h []); [done|lia|lia].
  - rewrite !length_blit; rewrite ?length_blit; lia.
Qed.

Lemma md_hmac_starts_keyed K ctx :
  ready ctx -> key_ok K ->
  exists ctx', mbedtls_md_hmac_starts K ctx = Ok (0, ctx') /\ keyed K [] ctx'.
Proof.
  intros (Hi & (c & Hc & Hlc) & (h & Hh & Hlh)) HK. destruct ctx as [inf cc hh]. simpl in Hi, Hc, Hh. subst.
  pose proof (ipad_of_ok K HK) as [HpL HpB]. pose proof (opad_of_ok K HK) as [HqL HqB].
  assert (forall k c' hl, live c' -> (length k <= 64)%nat -> (k ++ replicate (64 - length k) 0 = hmac_key K) ->
    exists ctx', (modify (set_hmac_ctx (Some (blit 64 (xor_key (replicate 64 0x5C) k)
        (blit 0 (xor_key (replicate 64 0x36) k) h)))) ;;;
      try* mbedtls_md_starts in mbedtls_md_update (xor_key (replicate 64 0x36) k))
      {| md_info := Some mbedtls_sha1_info; md_ctx := Some c'; hmac_ctx := hl |} = Ok (0, ctx') /\
      keyed K [] ctx') as Hfin.
  { intros k c' hl Hl' Hk Ek. rewrite !xor_key_map, Ek by lia. fold (ipad_of K) (opad_of K). md_run.
    destruct (absorbed_starts c' (proj1 Hl') (proj2 Hl')) as (c1 & E1 & Ha & _). okrun E1. cbn [md_info md_ctx set_md_ctx type mbedtls_sha1_info].
    destruct (sha1_update_absorbs c1 [] (ipad_of K) Ha HpB) as (c2 & E2 & Ha2 & _); [lia|]. rewrite E2.
    eexists; split; [reflexivity|]. split; [done|]. split.
    - eexists; split; [reflexivity|]. by rewrite app_nil_r.
    - simpl. by rewrite pads_blit. }
  unfold mbedtls_md_hmac_starts, hmac_guard. cbn [md_info hmac_ctx block_size mbedtls_sha1_info].
  destruct (64 <? length K)%nat eqn:E.
  - destruct (hmac_key_hash c K Hlc HK) as (c' & E3 & Hl' & E1 & E2). unfold bind at 1.
    md_run. destruct (mbedtls_sha1_starts c) as [r1 c1]. cbn [fst snd] in *. subst r1.
    change (nz 0) with false. cbv iota. cbn [md_info md_ctx set_md_ctx type mbedtls_sha1_info].
    destruct (mbedtls_sha1_update c1 K) as [r2 c2]. cbn [fst snd] in *. subst r2.
    change (nz 0) with false. cbv iota. cbn [md_info md_ctx set_md_ctx type mbedtls_sha1_info].
    okrun E3. cbn [size].
    apply (Hfin (take 20 (sha1 K)) c' (Some h) Hl'); rewrite take_ge by (rewrite length_sha1; lia).
    + rewrite length_sha1. lia.
    + unfold hmac_key. by rewrite E.
  - apply (Hfin K c (Some h) Hlc); [by apply Nat.ltb_ge in E|]. unfold hmac_key. by rewrite E.
Qed.

Lemma md_hmac_update_keyed K msg input ctx :
  keyed K msg ctx -> bytes_ok input -> Z.of_nat (length input) < 2 ^ 32 ->
  exists ctx', mbedtls_md_hmac_update input ctx = Ok (0, ctx') /\ keyed K (msg ++ input) ctx'.
Proof.
  intros (Hi & (c & Hc & Ha) & Hh) Hb Hl. destruct ctx as [inf cc hh]. simpl in Hi, Hc, Hh. subst.
  unfold mbedtls_md_hmac_update. md_run.
  destruct (sha1_update_absorbs c _ input Ha Hb Hl) as (c' & E & Ha' & _). rewrite E.
  eexists; split; [reflexivity|]. split; [done|]. split; [|done].
  eexists; split; [reflexivity|]. by rewrite app_assoc.
Qed.

(** [mbedtls_md_hmac_finish] returns the HMAC, and [mbedtls_md_hmac_reset]
    brings the context back to the freshly keyed state. *)
Lemma md_hmac_finish_reset K msg ctx :
  keyed K msg ctx -> key_ok K -> Z.of_nat (length msg) < 2 ^ 60 ->
  exists ctx' ctx'', mbedtls_md_hmac_finish ctx = Ok ((0, hmac K msg), ctx') /\
    mbedtls_md_hmac_reset ctx' = Ok (0, ctx'') /\ keyed K [] ctx''.
Proof.
  intros (Hi & (c & Hc & Ha) & Hh) HK Hl. destruct ctx as [inf cc hh]. simpl in Hi, Hc, Hh. subst.
  pose proof (ipad_of_ok K HK) as [HpL HpB]. pose proof (opad_of_ok K HK) as [HqL HqB].
  destruct (sha1_finish_digest c _ Ha) as (c1 & E1 & Hl1 & _); [rewrite length_app; lia|].
  destruct (absorbed_starts c1 (proj1 Hl1) (proj2 Hl1)) as (c2 & E2 & Ha2 & _).
  destruct (sha1_update_absorbs c2 [] (opad_of K) Ha2 HqB) as (c3 & E3 & Ha3 & _); [lia|].
  destruct (sha1_update_absorbs c3 _ (sha1 (ipad_of K ++ msg)) Ha3 (sha1_bytes_ok _)) as (c4 & E4 & Ha4 & _);
    [rewrite length_sha1; lia|].
  destruct (sha1_finish_digest c4 _ Ha4) as (c5 & E5 & Hl5 & _);
    [rewrite !length_app, length_sha1; simpl; lia|].
  destruct (absorbed_starts c5 (proj1 Hl5) (proj2 Hl5)) as (c6 & E6 & Ha6 & _).
  destruct (sha1_update_absorbs c6 [] (ipad_of K) Ha6 HpB) as (c7 & E7 & Ha7 & _); [lia|].
  exists {| md_info := Some mbedtls_sha1_info; md_ctx := Some c5; hmac_ctx := Some (ipad_of K ++ opad_of K) |},
    {| md_info := Some mbedtls_sha1_info; md_ctx := Some c7; hmac_ctx := Some (ipad_of K ++ opad_of K) |}.
  split; [|split].
  - unfold mbedtls_md_hmac_finish. md_run. okrun E1.
    md_run. okrun E2. md_run.
    rewrite drop_app_length', take_ge by lia. okrun E3. md_run.
    rewrite take_ge by (rewrite length_sha1; lia). okrun E4. md_run.
    by rewrite E5.
  - unfold mbedtls_md_hmac_reset. md_run. okrun E6. md_run.
    rewrite take_app_length' by lia. by rewrite E7.
  - split; [done|]. split; [|done]. eexists; split; [reflexivity|]. by rewrite app_nil_r.
Qed.

Lemma mbedtls_md_hmac_ok key input :
  key_ok key -> bytes_ok input -> Z.of_nat (length input) < 2 ^ 32 ->
  exists ctx, mbedtls_md_hmac true true (Some mbedtls_sha1_info) key input = Ok ((0, hmac key input), ctx).
Proof.
  intros HK Hb Hl. unfold mbedtls_md_hmac.
  destruct (setup_ready mbedtls_md_init) as (c1 & E1 & Hr).
  destruct (md_hmac_starts_keyed key c1 Hr HK) as (c2 & E2 & Hk2).
  destruct (md_hmac_update_keyed key [] input c2 Hk2 Hb Hl) as (c3 & E3 & Hk3).
  destruct (md_hmac_finish_reset key _ c3 Hk3 HK) as (c4 & c5 & E4 & _ & _); [simpl; lia|].
  unfold bind. okrun E1. okrun E2. okrun E3. rewrite E4. unfold modify, ret. eauto.
Qed.

(** ** PBKDF2 *)

Lemma zip_lxor_ok a b : bytes_ok a -> bytes_ok b -> bytes_ok (zip_with Z.lxor a b).
Proof.
  intros Ha; revert b; induction Ha; intros b Hb; destruct Hb; simpl; constructor;
    [by apply byte_lxor|by apply IHHa].
Qed.

Lemma zip_lxor_zeros b n : length b = n -> zip_with Z.lxor (replicate n 0) b = b.
Proof. intros <-. induction b; simpl; f_equal; auto. Qed.

Lemma pbkdf2_rounds_ok K n work md1 ctx :
  keyed K [] ctx -> key_ok K -> bytes_ok md1 -> length md1 = 20%nat ->
  exists ctx', pbkdf2_rounds n work md1 ctx =
      Ok ((0, fold_left (zip_with Z.lxor) (Us K n (hmac K md1)) work), ctx') /\ keyed K [] ctx'.
Proof.
  revert work md1 ctx; induction n as [|n IH]; intros work md1 ctx Hk HK Hb Hl.
  - exists ctx. done.
  - destruct (md_hmac_update_keyed K [] md1 ctx Hk Hb) as (c1 & E1 & Hk1); [lia|].
    destruct (md_hmac_finish_reset K _ c1 Hk1 HK) as (c2 & c3 & E2 & E3 & Hk3); [simpl; lia|].
    destruct (IH (zip_with Z.lxor work (hmac K md1)) (hmac K md1) c3 Hk3 HK (hmac_bytes_ok _ _)
      (length_hmac _ _)) as (c4 & E4 & Hk4).
    exists c4. split; [|done]. cbn [pbkdf2_rounds Us fold_left]. unfold bind.
    okrun E1. okrun E2.
    okrun E3. exact E4.
Qed.

Lemma pbkdf2_block_ok K salt i c ctx :
  keyed K [] ctx -> key_ok K -> bytes_ok salt -> Z.of_nat (length salt) < 2 ^ 32 -> (0 < c)%nat ->
  exists ctx', pbkdf2_block salt (be_bytes 4 i) c ctx = Ok ((0, F K salt c i), ctx') /\ keyed K [] ctx'.
Proof.
  intros Hk HK Hs Hsl Hc.
  destruct (md_hmac_update_keyed K [] salt ctx Hk Hs Hsl) as (c1 & E1 & Hk1).
  destruct (md_hmac_update_keyed K _ (be_bytes 4 i) c1 Hk1 (be_bytes_ok _ _)) as (c2 & E2 & Hk2);
    [rewrite length_be_bytes; lia|].
  destruct (md_hmac_finish_reset K _ c2 Hk2 HK) as (c3 & c4 & E3 & E4 & Hk4);
    [rewrite !length_app, length_be_bytes; simpl; lia|].
  set (u1 := hmac K (salt ++ be_bytes 4 i)).
  destruct (pbkdf2_rounds_ok K (c - 1) u1 u1 c4 Hk4 HK (hmac_bytes_ok _ _) (length_hmac _ _)) as (c5 & E5 & Hk5).
  exists c5. split; [|done]. unfold pbkdf2_block, bind.
  okrun E1. okrun E2.
  okrun E3. okrun E4.
  cbn [app]. fold u1. rewrite E5. do 3 f_equal. unfold F. fold u1.
  destruct c as [|c]; [lia|]. replace (S c - 1)%nat with c by lia. cbn [Us fold_left].
  by rewrite zip_lxor_zeros by apply length_hmac.
Qed.

Lemma counter_incr_le n z : counter_incr (le_bytes n z) = le_bytes n (z + 1).
Proof.
  revert z; induction n as [|n IH]; intros z; [done|]. cbn [le_bytes counter_incr].
  assert (u8 (u8 z + 1) = u8 (z + 1)) as -> by (uwidth; zdm).
  destruct (nz (u8 (z + 1))) eqn:E; unfold nz, u8 in *; bprop.
  - do 2 f_equal. zdm.
  - rewrite IH. do 2 f_equal. zdm.
Qed.

Lemma counter_next i : reverse (counter_incr (reverse (be_bytes 4 i))) = be_bytes 4 (i + 1).
Proof. unfold be_bytes. by rewrite reverse_involutive, counter_incr_le. Qed.

Lemma length_F K salt c i : (0 < c)%nat -> length (F K salt c i) = 20%nat.
Proof.
  intros Hc. unfold F. set (u := hmac K _). assert (length u = 20%nat) as Hu by apply length_hmac.
  clearbody u. revert u Hu. set (w := replicate 20 0). assert (length w = 20%nat) as Hw by done.
  clearbody w. clear Hc. revert w Hw.
  induction c as [|c IH]; intros w Hw u Hu; simpl; [done|].
  apply IH; [rewrite length_zip_with; lia|apply length_hmac].
Qed.

Lemma blocks_needed k : (20 <= k)%nat -> ((k + 19) / 20 = S ((k - 20 + 19) / 20))%nat.
Proof.
  intros. replace (k + 19)%nat with (k - 20 + 19 + 1 * 20)%nat by lia. rewrite Nat.div_add by lia. lia.
Qed.

Lemma pbkdf2_loop_ok K salt c fuel k i out ctx :
  keyed K [] ctx -> key_ok K -> bytes_ok salt -> Z.of_nat (length salt) < 2 ^ 32 -> (0 < c)%nat ->
  (k <= fuel)%nat ->
  exists ctx', pbkdf2_loop fuel 20 salt (be_bytes 4 (Z.of_nat i)) c k out ctx =
    Ok ((0, out ++ take k (concat (map (fun i => F K salt c (Z.of_nat i)) (seq i ((k + 19) / 20))))), ctx').
Proof.
  intros Hk HK Hs Hsl Hc. revert k i out ctx Hk; induction fuel as [|fuel IH]; intros k i out ctx Hk Hf.
  - assert (k = 0)%nat as -> by lia. simpl. rewrite app_nil_r. unfold ret. eauto.
  - cbn [pbkdf2_loop]. destruct (k =? 0)%nat eqn:E0.
    { apply Nat.eqb_eq in E0. subst. simpl. rewrite app_nil_r. unfold ret. eauto. }
    apply Nat.eqb_neq in E0.
    destruct (pbkdf2_block_ok K salt (Z.of_nat i) c ctx Hk HK Hs Hsl Hc) as (c1 & E1 & Hk1).
    unfold bind. okrun E1. rewrite counter_next.
    replace (Z.of_nat i + 1) with (Z.of_nat (S i)) by lia.
    destruct (k <? 20)%nat eqn:E; [apply Nat.ltb_lt in E|apply Nat.ltb_ge in E].
    + destruct (IH (k - k)%nat (S i) (out ++ take k (F K salt c (Z.of_nat i))) c1 Hk1) as (c2 & E2); [lia|].
      rewrite E2. exists c2. do 3 f_equal. rewrite Nat.sub_diag. cbn [take]. rewrite app_nil_r.
      assert ((k + 19) / 20 = 1)%nat as -> by (symmetry; apply (Nat.div_unique _ 20 1 (k - 1)); lia).
      simpl. by rewrite app_nil_r.
    + destruct (IH (k - 20)%nat (S i) (out ++ take 20 (F K salt c (Z.of_nat i))) c1 Hk1) as (c2 & E2); [lia|].
      rewrite E2. exists c2. do 3 f_equal. rewrite <- app_assoc. f_equal.
      rewrite (blocks_needed k) by lia. cbn [seq map concat].
      rewrite (take_ge (F K salt c (Z.of_nat i)) 20) by (rewrite length_F by lia; lia).
      rewrite take_app_ge; rewrite length_F by lia; [done|lia].
Qed.

Lemma pbkdf2_hmac_ok ctx password salt c dkLen :
  ready ctx -> key_ok password -> bytes_ok salt -> Z.of_nat (length salt) < 2 ^ 32 -> (0 < c)%nat ->
  exists ctx', mbedtls_pkcs5_pbkdf2_hmac password salt c dkLen ctx = Ok ((0, pbkdf2 password salt c dkLen), ctx').
Proof.
  intros Hr HK Hs Hsl Hc. unfold mbedtls_pkcs5_pbkdf2_hmac, bind, gets.
  destruct (md_hmac_starts_keyed password ctx Hr HK) as (c1 & E1 & Hk1). okrun E1. destruct Hr as (-> & _). simpl mbedtls_md_get_size.
  apply (pbkdf2_loop_ok password salt c dkLen dkLen 1 [] c1 Hk1 HK Hs Hsl Hc). lia.
Qed.

Definition run_result {A S} (o : outcome (A * S)) : option A :=
  match o with Ok (a, _) => Some a | _ => None end.

(** C30: [mbedtls_pkcs5_pbkdf2_hmac] on a context prepared by [mbedtls_md_setup]
    terminates with code 0 and writes exactly the [dkLen] bytes of RFC 2898
    PBKDF2-HMAC-SHA-1, for every password, salt, positive iteration count and
    length. *)
Theorem pbkdf2_rfc2898 ctx password salt c dkLen :
  ready ctx -> key_ok password -> bytes_ok salt -> Z.of_nat (length salt) < 2 ^ 32 -> (0 < c)%nat ->
  run_result (mbedtls_pkcs5_pbkdf2_hmac password salt c dkLen ctx) = Some (0, pbkdf2 password salt c dkLen).
Proof. intros. edestruct pbkdf2_hmac_ok as [ctx' E]; eauto. by rewrite E. Qed.

(** RFC 6070: "password", "salt", two iterations, 20 bytes. *)
Lemma pbkdf2_rfc2898_witness :
  run_result (mbedtls_pkcs5_pbkdf2_hmac [112; 97; 115; 115; 119; 111; 114; 100] [115; 97; 108; 116] 2 20
    {| md_info := Some mbedtls_sha1_info; md_ctx := Some mbedtls_sha1_init;
       hmac_ctx := Some (replicate 128 0) |})
  = Some (0, [0xea; 0x6c; 0x01; 0x4d; 0xc7; 0x2d; 0x6f; 0x8c; 0xcd; 0x1e;
              0xd9; 0x2a; 0xce; 0x1d; 0x41; 0xf0; 0xd8; 0xde; 0x89; 0x57]).
Proof.
  etransitivity; [apply pbkdf2_rfc2898|vm_compute; reflexivity].
  - split; [done|]. split; eexists; split; try reflexivity. apply init_live.
  - split; [repeat constructor; unfold byte_ok; lia|vm_compute; reflexivity].
  - repeat constructor; unfold byte_ok; lia.
  - vm_compute; reflexivity.
  - lia.
Defined.

(** [mbedtls_md_hmac] returns code 0 with the RFC 2104 HMAC exactly when both
    allocations succeed; otherwise it returns MBEDTLS_ERR_MD_ALLOC_FAILED and
    writes nothing.  A NULL digest is MBEDTLS_ERR_MD_BAD_INPUT_DATA. *)
Theorem md_hmac_result alloc1 alloc2 info key input :
  key_ok key -> bytes_ok input -> Z.of_nat (length input) < 2 ^ 32 ->
  info = None \/ info = Some mbedtls_sha1_info ->
  run_result (mbedtls_md_hmac alloc1 alloc2 info key input) =
    Some (match info with
          | None => (MBEDTLS_ERR_MD_BAD_INPUT_DATA, [])
          | Some _ => if alloc1 && alloc2 then (0, hmac key input) else (MBEDTLS_ERR_MD_ALLOC_FAILED, [])
          end).
Proof.
  intros HK Hb Hl [->| ->]; [done|].
  destruct alloc1; [|done]. destruct alloc2; [|done].
  destruct (mbedtls_md_hmac_ok key input HK Hb Hl) as [ctx E]. by rewrite E.
Qed.

Lemma md_hmac_result_witness :
  run_result (mbedtls_md_hmac true false (Some mbedtls_sha1_info) [1] [2])
    = Some (MBEDTLS_ERR_MD_ALLOC_FAILED, []).
Proof.
  apply (md_hmac_result true false (Some mbedtls_sha1_info) [1] [2]).
  - split; [repeat constructor; unfold byte_ok; lia|vm_compute; reflexivity].
  - repeat constructor; unfold byte_ok; lia.
  - vm_compute; reflexivity.
  - right; reflexivity.
Defined.
