(* ===== verification/Aes.v ===== *)
(** arm_iop/source/crypto/aes.twl.c: AES with generated tables (the build
    defines neither MBEDTLS_AES_ROM_TABLES nor MBEDTLS_AES_FEWER_TABLES).

    The file-scope tables and [aes_init_done] are the record [aes_static], which
    the key-schedule functions thread; a context is the C struct with [rk]
    pointing at [buf].  Words are little-endian columns. *)

From S2P Require Import Prelude Cutils.

Definition MBEDTLS_AES_ENCRYPT : Z := 1.
Definition MBEDTLS_AES_DECRYPT : Z := 0.
Definition MBEDTLS_ERR_AES_INVALID_KEY_LENGTH : Z := -0x0020.

Record aes_tables := {
  FSb : list Z; RSb : list Z; RCON : list Z;
  FT0 : list Z; FT1 : list Z; FT2 : list Z; FT3 : list Z;
  RT0 : list Z; RT1 : list Z; RT2 : list Z; RT3 : list Z
}.
Record aes_static := { aes_init_done : Z; tables : aes_tables }.

Record mbedtls_aes_context := { nr : Z; buf : list Z (* buf[68], rk = buf *) }.

(** ** Table generation *)

(** Table index; every index of the code is masked to the table's size. *)
Definition tbl (t : list Z) (i : Z) : Z := nth (Z.to_nat i) t 0.

Definition ROTL8 (x : Z) : Z := Z.lor (Z.land (u32 (Z.shiftl x 8)) 0xFFFFFFFF) (Z.shiftr x 24).
Definition XTIME (x : Z) : Z := Z.lxor (Z.shiftl x 1) (if nz (Z.land x 0x80) then 0x1B else 0x00).

(** [for( i = 0, x = 1; i < 256; i++ ) { pow[i] = x; log[x] = i; ... }] *)
Fixpoint gen_pow_log (n : nat) (i x : Z) (pow log : list Z) : list Z * list Z :=
  match n with
  | O => (pow, log)
  | S n =>
      gen_pow_log n (i + 1) (Z.land (Z.lxor x (XTIME x)) 0xFF)
        (<[Z.to_nat i := x]> pow) (<[Z.to_nat x := i]> log)
  end.

Fixpoint gen_rcon (n : nat) (x : Z) : list Z :=
  match n with O => [] | S n => x :: gen_rcon n (Z.land (XTIME x) 0xFF) end.

(** One S-box entry: inverse, then the affine map by four rotations. *)
Definition gen_sbox_entry (pow log : list Z) (i : Z) : Z :=
  let x := tbl pow (255 - tbl log i) in
  let rot y := Z.land (Z.lor (Z.shiftl y 1) (Z.shiftr y 7)) 0xFF in
  let y := x in let y := rot y in
  let x := Z.lxor x y in let y := rot y in
  let x := Z.lxor x y in let y := rot y in
  let x := Z.lxor x y in let y := rot y in
  Z.lxor x (Z.lxor y 0x63).

Fixpoint gen_sboxes (pow log : list Z) (n : nat) (i : Z) (F R : list Z) : list Z * list Z :=
  match n with
  | O => (F, R)
  | S n =>
      let x := gen_sbox_entry pow log i in
      gen_sboxes pow log n (i + 1) (<[Z.to_nat i := u8 x]> F) (<[Z.to_nat x := u8 i]> R)
  end.

Definition MUL (pow log : list Z) (x y : Z) : Z :=
  if nz x && nz y then tbl pow ((tbl log x + tbl log y) mod 255) else 0.

Definition gen_ft0 (FSb : list Z) (i : Z) : Z :=
  let x := tbl FSb i in
  let y := Z.land (XTIME x) 0xFF in
  let z := Z.land (Z.lxor y x) 0xFF in
  Z.lxor (Z.lxor (Z.lxor y (Z.shiftl x 8)) (Z.shiftl x 16)) (Z.shiftl z 24).

Definition gen_rt0 (pow log RSb : list Z) (i : Z) : Z :=
  let x := tbl RSb i in
  Z.lxor (Z.lxor (Z.lxor (MUL pow log 0x0E x) (Z.shiftl (MUL pow log 0x09 x) 8))
                 (Z.shiftl (MUL pow log 0x0D x) 16)) (Z.shiftl (MUL pow log 0x0B x) 24).

Definition aes_gen_tables : aes_tables :=
  let '(pow, log) := gen_pow_log 256 0 1 (replicate 256 0) (replicate 256 0) in
  let rcon := gen_rcon 10 1 in
  let '(F, R) := gen_sboxes pow log 255 1 (<[0x00%nat := 0x63]> (replicate 256 0))
                   (<[0x63%nat := 0x00]> (replicate 256 0)) in
  let idx := map Z.of_nat (seq 0 256) in
  let ft0 := map (gen_ft0 F) idx in
  let ft1 := map ROTL8 ft0 in let ft2 := map ROTL8 ft1 in let ft3 := map ROTL8 ft2 in
  let rt0 := map (gen_rt0 pow log R) idx in
  let rt1 := map ROTL8 rt0 in let rt2 := map ROTL8 rt1 in let rt3 := map ROTL8 rt2 in
  {| FSb := F; RSb := R; RCON := rcon; FT0 := ft0; FT1 := ft1; FT2 := ft2; FT3 := ft3;
     RT0 := rt0; RT1 := rt1; RT2 := rt2; RT3 := rt3 |}.

(** [if( aes_init_done == 0 ) { aes_gen_tables(); aes_init_done = 1; }] *)
Definition aes_init_tables (st : aes_static) : aes_static :=
  if aes_init_done st =? 0 then {| aes_init_done := 1; tables := aes_gen_tables |} else st.

(** ** Contexts and key schedules *)

Definition mbedtls_aes_init : mbedtls_aes_context := {| nr := 0; buf := replicate 68 0 |}.

(** [mbedtls_platform_zeroize] is defined to nothing in common.h. *)
Definition mbedtls_aes_free (ctx : mbedtls_aes_context) : mbedtls_aes_context := ctx.

Definition GET_UINT32_LE (b : bytes) (i : nat) : Z :=
  Z.lor (Z.lor (Z.lor (nth i b 0) (Z.shiftl (nth (i + 1) b 0) 8))
               (Z.shiftl (nth (i + 2) b 0) 16)) (Z.shiftl (nth (i + 3) b 0) 24).
Definition PUT_UINT32_LE (n : Z) : bytes :=
  [u8 (Z.land n 0xFF); u8 (Z.land (Z.shiftr n 8) 0xFF); u8 (Z.land (Z.shiftr n 16) 0xFF);
   u8 (Z.land (Z.shiftr n 24) 0xFF)].

(** [( W >> 8k ) & 0xFF] *)
Definition byte_of (w : Z) (k : Z) : Z := Z.land (Z.shiftr w k) 0xFF.

(** Four S-box lookups assembled into a word. *)
Definition sub4 (S : list Z) (a b c d : Z) : Z :=
  Z.lxor (Z.lxor (Z.lxor (tbl S a) (Z.shiftl (tbl S b) 8)) (Z.shiftl (tbl S c) 16)) (Z.shiftl (tbl S d) 24).

Section Tables.
Variable T : aes_tables.

(** The [RK[n] ^ RCON[i] ^ SubWord(RotWord)] term of the three schedules. *)
Definition sched_core (first last : Z) (i : nat) : Z :=
  Z.lxor (Z.lxor first (nth i (RCON T) 0))
    (sub4 (FSb T) (byte_of last 8) (byte_of last 16) (byte_of last 24) (byte_of last 0)).

Fixpoint expand128 (n i : nat) (k0 k1 k2 k3 : Z) : list Z :=
  match n with
  | O => []
  | S n =>
      let k4 := sched_core k0 k3 i in
      let k5 := Z.lxor k1 k4 in
      let k6 := Z.lxor k2 k5 in
      let k7 := Z.lxor k3 k6 in
      k4 :: k5 :: k6 :: k7 :: expand128 n (i + 1) k4 k5 k6 k7
  end.

Fixpoint expand192 (n i : nat) (k0 k1 k2 k3 k4 k5 : Z) : list Z :=
  match n with
  | O => []
  | S n =>
      let k6 := sched_core k0 k5 i in
      let k7 := Z.lxor k1 k6 in
      let k8 := Z.lxor k2 k7 in
      let k9 := Z.lxor k3 k8 in
      let k10 := Z.lxor k4 k9 in
      let k11 := Z.lxor k5 k10 in
      k6 :: k7 :: k8 :: k9 :: k10 :: k11 :: expand192 n (i + 1) k6 k7 k8 k9 k10 k11
  end.

Fixpoint expand256 (n i : nat) (k0 k1 k2 k3 k4 k5 k6 k7 : Z) : list Z :=
  match n with
  | O => []
  | S n =>
      let k8 := sched_core k0 k7 i in
      let k9 := Z.lxor k1 k8 in
      let k10 := Z.lxor k2 k9 in
      let k11 := Z.lxor k3 k10 in
      let k12 := Z.lxor k4
        (sub4 (FSb T) (byte_of k11 0) (byte_of k11 8) (byte_of k11 16) (byte_of k11 24)) in
      let k13 := Z.lxor k5 k12 in
      let k14 := Z.lxor k6 k13 in
      let k15 := Z.lxor k7 k14 in
      k8 :: k9 :: k10 :: k11 :: k12 :: k13 :: k14 :: k15 ::
        expand256 n (i + 1) k8 k9 k10 k11 k12 k13 k14 k15
  end.

(** [switch( ctx->nr )]: the words the schedule stores from [buf[0]] on. *)
Definition expand_key (rounds : Z) (kw : list Z) : list Z :=
  let k i := nth i kw 0 in
  kw ++
  (if rounds =? 10 then expand128 10 0 (k 0%nat) (k 1%nat) (k 2%nat) (k 3%nat)
   else if rounds =? 12 then
     expand192 8 0 (k 0%nat) (k 1%nat) (k 2%nat) (k 3%nat) (k 4%nat) (k 5%nat)
   else if rounds =? 14 then
     expand256 7 0 (k 0%nat) (k 1%nat) (k 2%nat) (k 3%nat) (k 4%nat) (k 5%nat) (k 6%nat) (k 7%nat)
   else []).

(** One word of the decryption schedule. *)
Definition inv_key_word (sk : Z) : Z :=
  Z.lxor (Z.lxor (Z.lxor
    (tbl (RT0 T) (tbl (FSb T) (byte_of sk 0))) (tbl (RT1 T) (tbl (FSb T) (byte_of sk 8))))
    (tbl (RT2 T) (tbl (FSb T) (byte_of sk 16)))) (tbl (RT3 T) (tbl (FSb T) (byte_of sk 24))).

(** The words [mbedtls_aes_setkey_dec] stores, from the encryption schedule. *)
Definition inv_schedule (rounds : nat) (sk : list Z) : list Z :=
  let at4 i := take 4 (drop (4 * i) sk) in
  at4 rounds ++ concat (map (fun i => map inv_key_word (at4 i)) (rev (seq 1 (rounds - 1)))) ++ at4 0%nat.

(** ** Rounds *)

Definition state4 : Type := Z * Z * Z * Z.

Definition add4 (RK : list Z) (x : state4) : state4 :=
  let '(x0, x1, x2, x3) := x in
  (Z.lxor (nth 0 RK 0) x0, Z.lxor (nth 1 RK 0) x1, Z.lxor (nth 2 RK 0) x2, Z.lxor (nth 3 RK 0) x3).

(** [*RK++ ^ T0( a ) ^ T1( b >> 8 ) ^ T2( c >> 16 ) ^ T3( d >> 24 )] *)
Definition round_word (t0 t1 t2 t3 : list Z) (rk a b c d : Z) : Z :=
  Z.lxor (Z.lxor (Z.lxor (Z.lxor rk (tbl t0 (byte_of a 0))) (tbl t1 (byte_of b 8)))
    (tbl t2 (byte_of c 16))) (tbl t3 (byte_of d 24)).

Definition AES_FROUND (RK : list Z) (y : state4) : state4 :=
  let '(y0, y1, y2, y3) := y in
  let w := round_word (FT0 T) (FT1 T) (FT2 T) (FT3 T) in
  (w (nth 0 RK 0) y0 y1 y2 y3, w (nth 1 RK 0) y1 y2 y3 y0,
   w (nth 2 RK 0) y2 y3 y0 y1, w (nth 3 RK 0) y3 y0 y1 y2).

Definition AES_RROUND (RK : list Z) (y : state4) : state4 :=
  let '(y0, y1, y2, y3) := y in
  let w := round_word (RT0 T) (RT1 T) (RT2 T) (RT3 T) in
  (w (nth 0 RK 0) y0 y3 y2 y1, w (nth 1 RK 0) y1 y0 y3 y2,
   w (nth 2 RK 0) y2 y1 y0 y3, w (nth 3 RK 0) y3 y2 y1 y0).

(** The last round, S-box lookups only. *)
Definition last_word (S : list Z) (rk a b c d : Z) : Z :=
  Z.lxor rk (sub4 S (byte_of a 0) (byte_of b 8) (byte_of c 16) (byte_of d 24)).
Definition aes_flast (RK : list Z) (y : state4) : state4 :=
  let '(y0, y1, y2, y3) := y in
  let w := last_word (FSb T) in
  (w (nth 0 RK 0) y0 y1 y2 y3, w (nth 1 RK 0) y1 y2 y3 y0,
   w (nth 2 RK 0) y2 y3 y0 y1, w (nth 3 RK 0) y3 y0 y1 y2).
Definition aes_rlast (RK : list Z) (y : state4) : state4 :=
  let '(y0, y1, y2, y3) := y in
  let w := last_word (RSb T) in
  (w (nth 0 RK 0) y0 y3 y2 y1, w (nth 1 RK 0) y1 y0 y3 y2,
   w (nth 2 RK 0) y2 y1 y0 y3, w (nth 3 RK 0) y3 y2 y1 y0).

(** [for( i = ( ctx->nr >> 1 ) - 1; i > 0; i-- ) { ROUND( Y, X ); ROUND( X, Y ); }] *)
Fixpoint double_rounds (round : list Z -> state4 -> state4) (n : nat) (RK : list Z) (x : state4)
  : list Z * state4 :=
  match n with
  | O => (RK, x)
  | S n => double_rounds round n (drop 8 RK) (round (drop 4 RK) (round RK x))
  end.

Definition get_state (input : bytes) : state4 :=
  (GET_UINT32_LE input 0, GET_UINT32_LE input 4, GET_UINT32_LE input 8, GET_UINT32_LE input 12).
Definition put_state (x : state4) : bytes :=
  let '(x0, x1, x2, x3) := x in
  PUT_UINT32_LE x0 ++ PUT_UINT32_LE x1 ++ PUT_UINT32_LE x2 ++ PUT_UINT32_LE x3.

Definition aes_block (round final : list Z -> state4 -> state4) (ctx : mbedtls_aes_context) (input : bytes)
  : bytes :=
  let RK := buf ctx in
  let x := add4 RK (get_state input) in
  let '(RK, x) := double_rounds round (Z.to_nat (Z.shiftr (nr ctx) 1 - 1)) (drop 4 RK) x in
  let y := round RK x in
  put_state (final (drop 4 RK) y).

Definition mbedtls_internal_aes_encrypt (ctx : mbedtls_aes_context) (input : bytes) : Z * bytes :=
  (0, aes_block AES_FROUND aes_flast ctx input).
Definition mbedtls_internal_aes_decrypt (ctx : mbedtls_aes_context) (input : bytes) : Z * bytes :=
  (0, aes_block AES_RROUND aes_rlast ctx input).

Definition mbedtls_aes_crypt_ecb (ctx : mbedtls_aes_context) (mode : Z) (input : bytes) : Z * bytes :=
  if mode =? MBEDTLS_AES_ENCRYPT then mbedtls_internal_aes_encrypt ctx input
  else mbedtls_internal_aes_decrypt ctx input.

End Tables.

Definition rounds_of (keybits : Z) : option Z :=
  if keybits =? 128 then Some 10 else if keybits =? 192 then Some 12
  else if keybits =? 256 then Some 14 else None.

(** Storing words from the start of [buf]. *)
Definition store_words (ws buf : list Z) : list Z := blit 0 ws buf.

Definition mbedtls_aes_setkey_enc (st : aes_static) (ctx : mbedtls_aes_context) (key : bytes) (keybits : Z)
  : Z * mbedtls_aes_context * aes_static :=
  match rounds_of keybits with
  | None => (MBEDTLS_ERR_AES_INVALID_KEY_LENGTH, ctx, st)
  | Some r =>
      let st := aes_init_tables st in
      let kw := map (fun i => GET_UINT32_LE key (4 * i)) (seq 0 (Z.to_nat (Z.shiftr keybits 5))) in
      (0, {| nr := r; buf := store_words (expand_key (tables st) r kw) (buf ctx) |}, st)
  end.

Definition mbedtls_aes_setkey_dec (st : aes_static) (ctx : mbedtls_aes_context) (key : bytes) (keybits : Z)
  : Z * mbedtls_aes_context * aes_static :=
  let '(ret, cty, st) := mbedtls_aes_setkey_enc st mbedtls_aes_init key keybits in
  if nz ret then (ret, ctx, st) else
  (0, {| nr := nr cty;
         buf := store_words (inv_schedule (tables st) (Z.to_nat (nr cty)) (buf cty)) (buf ctx) |}, st).
