(* ===== verification/AesProofs.v ===== *)
(** AES: the table-driven decryption inverts the table-driven encryption.

    The tables enter only through [good_tables]: every T-table is a GF(2)-linear
    map of the S-box value, the reverse S-box inverts the forward one.  The
    generated tables satisfy it by computation over their 256 entries; the
    linear maps are inverse to each other by computation over 32 basis words. *)

From S2P Require Import Prelude Cutils Aes.

(** ** GF(2)-linear maps on words *)

(** The map that sends bit [i + j] to the [j]-th word of [B]. *)
Fixpoint lin_from (i : Z) (B : list Z) (w : Z) : Z :=
  match B with
  | [] => 0
  | b :: B => Z.lxor (if Z.testbit w i then b else 0) (lin_from (i + 1) B w)
  end.
Definition lin : list Z -> Z -> Z := lin_from 0.

Lemma lin_from_lxor i B x y : 0 <= i -> lin_from i B (Z.lxor x y) = Z.lxor (lin_from i B x) (lin_from i B y).
Proof.
  revert i; induction B as [|b B IH]; intros i Hi; simpl; [done|].
  rewrite IH, Z.lxor_spec by lia. destruct (Z.testbit x i), (Z.testbit y i); simpl;
    apply Z.bits_inj; intros n; rewrite ?Z.lxor_spec, ?Z.bits_0;
    destruct (Z.testbit b n), (Z.testbit (lin_from (i + 1) B x) n), (Z.testbit (lin_from (i + 1) B y) n); done.
Qed.

Lemma lin_lxor B x y : lin B (Z.lxor x y) = Z.lxor (lin B x) (lin B y).
Proof. apply lin_from_lxor. lia. Qed.

Lemma lin_0 B : lin B 0 = 0.
Proof.
  unfold lin. generalize 0 at 1. induction B as [|b B IH]; intros i; simpl; [done|].
  by rewrite Z.bits_0, IH.
Qed.

Lemma lin_compose B C i w : lin B (lin_from i C w) = lin_from i (map (lin B) C) w.
Proof.
  revert i; induction C as [|c C IH]; intros i; simpl; [apply lin_0|].
  rewrite lin_lxor, IH. destruct (Z.testbit w i); [done|]. by rewrite lin_0.
Qed.

Lemma testbit_lin_pow2 n i w j :
  0 <= i -> 0 <= j ->
  Z.testbit (lin_from i (map (fun k => 2 ^ (i + Z.of_nat k)) (seq 0 n)) w) j =
    (i <=? j) && (j <? i + Z.of_nat n) && Z.testbit w j.
Proof.
  revert i; induction n as [|n IH]; intros i Hi Hj; cbn [seq map lin_from].
  - rewrite Z.bits_0. destruct (i <=? j) eqn:?, (j <? i + Z.of_nat 0) eqn:?; bprop; try done. lia.
  - rewrite <- seq_shift, map_map. rewrite Z.lxor_spec.
    rewrite (map_ext _ (fun k => 2 ^ (i + 1 + Z.of_nat k))) by (intros; f_equal; lia).
    rewrite IH by lia. change (Z.of_nat 0) with 0. rewrite Z.add_0_r.
    destruct (Z.eq_dec i j) as [->|Hne].
    + replace (j + 1 <=? j) with false by (symmetry; apply Z.leb_gt; lia).
      replace (j <=? j) with true by (symmetry; apply Z.leb_le; lia).
      replace (j <? j + Z.of_nat (S n)) with true by (symmetry; apply Z.ltb_lt; lia). simpl.
      destruct (Z.testbit w j); rewrite ?Z.pow2_bits_true, ?Z.bits_0 by lia; done.
    + assert (Z.testbit (if Z.testbit w i then 2 ^ i else 0) j = false) as ->.
      { destruct (Z.testbit w i); [apply Z.pow2_bits_false; lia|apply Z.bits_0]. }
      rewrite xorb_false_l. f_equal.
      destruct (i + 1 <=? j) eqn:?, (i <=? j) eqn:?, (j <? i + 1 + Z.of_nat n) eqn:?,
        (j <? i + Z.of_nat (S n)) eqn:?; bprop; try done; lia.
Qed.

Definition word_ok (w : Z) : Prop := 0 <= w < 2 ^ 32.

Lemma lin_identity B w :
  B = map (fun k => 2 ^ (Z.of_nat k)) (seq 0 32) -> word_ok w -> lin B w = w.
Proof.
  intros -> Hw. apply Z.bits_inj_iff'; intros j Hj. unfold lin.
  rewrite (map_ext _ (fun k => 2 ^ (0 + Z.of_nat k))) by done.
  rewrite testbit_lin_pow2 by lia. destruct (j <? 0 + Z.of_nat 32) eqn:E; bprop.
  - replace (0 <=? j) with true by (symmetry; apply Z.leb_le; lia). done.
  - rewrite andb_false_r. symmetry. apply (testbit_small w 32); unfold word_ok in Hw; lia.
Qed.

(** MixColumns and its inverse on a column word, by their matrix columns. *)
Definition basis (c0 c1 c2 c3 : Z) : list Z :=
  let gm a b := fold_right Z.lxor 0 (map (fun k => if Z.testbit a (Z.of_nat k)
                   then Nat.iter k (fun x => Z.land (XTIME x) 0xFF) b else 0) (seq 0 4)) in
  let col x := gm c0 x + 2 ^ 8 * gm c1 x + 2 ^ 16 * gm c2 x + 2 ^ 24 * gm c3 x in
  flat_map (fun k => map (fun j => Nat.iter k ROTL8 (col (2 ^ Z.of_nat j))) (seq 0 8)) (seq 0 4).
Definition MB : list Z := Eval vm_compute in basis 2 1 1 3.
Definition IB : list Z := Eval vm_compute in basis 0x0E 0x09 0x0D 0x0B.

Lemma IB_MB w : word_ok w -> lin IB (lin MB w) = w.
Proof. intros. unfold lin at 2. rewrite lin_compose. apply lin_identity; [vm_compute; reflexivity|done]. Qed.

(** ** Bytes of a word *)

Definition packw (a b c d : Z) : Z := a + 2 ^ 8 * b + 2 ^ 16 * c + 2 ^ 24 * d.

Lemma lxor_add_disjoint a b n :
  0 <= a < 2 ^ n -> 0 <= n -> Z.lxor a (Z.shiftl b n) = a + 2 ^ n * b.
Proof.
  intros Ha Hn. rewrite shiftl_mul, (Z.mul_comm (2 ^ n)) by lia.
  rewrite <- Z.add_nocarry_lxor; [done|].
  apply Z.bits_inj_iff'; intros i Hi. rewrite Z.land_spec, Z.bits_0.
  destruct (Z.lt_ge_cases i n).
  - rewrite Z.mul_pow2_bits_low by lia. apply andb_false_r.
  - rewrite (testbit_small a n) by lia. reflexivity.
Qed.

Lemma xor_pack a b c d :
  byte_ok a -> byte_ok b -> byte_ok c -> byte_ok d ->
  Z.lxor (Z.lxor (Z.lxor a (Z.shiftl b 8)) (Z.shiftl c 16)) (Z.shiftl d 24) = packw a b c d.
Proof.
  unfold byte_ok, packw. intros. rewrite (lxor_add_disjoint a b 8) by lia.
  rewrite (lxor_add_disjoint _ c 16) by lia. rewrite (lxor_add_disjoint _ d 24) by lia. done.
Qed.

Lemma packw_ok a b c d : byte_ok a -> byte_ok b -> byte_ok c -> byte_ok d -> word_ok (packw a b c d).
Proof. unfold byte_ok, packw, word_ok. lia. Qed.

Lemma byte_of_div w k : 0 <= k -> byte_of w k = (w / 2 ^ k) mod 256.
Proof. intros. unfold byte_of. change 0xFF with (2 ^ 8 - 1). by rewrite land_mask, shiftr_div by lia. Qed.

Lemma byte_of_ok w k : 0 <= k -> byte_ok (byte_of w k).
Proof. intros. rewrite byte_of_div by lia. unfold byte_ok. zdm. Qed.

Lemma byte_of_pack a b c d :
  byte_ok a -> byte_ok b -> byte_ok c -> byte_ok d ->
  byte_of (packw a b c d) 0 = a /\ byte_of (packw a b c d) 8 = b /\
  byte_of (packw a b c d) 16 = c /\ byte_of (packw a b c d) 24 = d.
Proof.
  unfold byte_ok, packw. intros. rewrite !byte_of_div by lia.
  change (2 ^ 0) with 1. rewrite Z.div_1_r. repeat split; zdm.
Qed.

Lemma pack_byte_of w : word_ok w -> packw (byte_of w 0) (byte_of w 8) (byte_of w 16) (byte_of w 24) = w.
Proof.
  unfold word_ok, packw. intros. rewrite !byte_of_div by lia. change (2 ^ 0) with 1. rewrite Z.div_1_r. zdm.
Qed.

(** ** The tables *)

Record good_tables (T : aes_tables) : Prop := {
  g_ft0 : forall x, byte_ok x -> tbl (FT0 T) x = lin MB (tbl (FSb T) x);
  g_ft1 : forall x, byte_ok x -> tbl (FT1 T) x = lin MB (Z.shiftl (tbl (FSb T) x) 8);
  g_ft2 : forall x, byte_ok x -> tbl (FT2 T) x = lin MB (Z.shiftl (tbl (FSb T) x) 16);
  g_ft3 : forall x, byte_ok x -> tbl (FT3 T) x = lin MB (Z.shiftl (tbl (FSb T) x) 24);
  g_rt0 : forall x, byte_ok x -> tbl (RT0 T) x = lin IB (tbl (RSb T) x);
  g_rt1 : forall x, byte_ok x -> tbl (RT1 T) x = lin IB (Z.shiftl (tbl (RSb T) x) 8);
  g_rt2 : forall x, byte_ok x -> tbl (RT2 T) x = lin IB (Z.shiftl (tbl (RSb T) x) 16);
  g_rt3 : forall x, byte_ok x -> tbl (RT3 T) x = lin IB (Z.shiftl (tbl (RSb T) x) 24);
  g_inv : forall x, byte_ok x -> tbl (RSb T) (tbl (FSb T) x) = x;
  g_f : forall x, byte_ok (tbl (FSb T) x);
  g_r : forall x, byte_ok (tbl (RSb T) x);
  g_rcon : Forall word_ok (RCON T)
}.

(** A decidable fact about every byte, by enumeration. *)
Lemma all_bytes (P : Z -> bool) :
  forallb P (map Z.of_nat (seq 0 256)) = true -> forall x, byte_ok x -> P x = true.
Proof.
  intros H x Hx. rewrite forallb_forall in H. apply H. apply in_map_iff.
  exists (Z.to_nat x). unfold byte_ok in Hx. split; [lia|]. apply in_seq. lia.
Qed.

Lemma tbl_forall (P : Z -> Prop) t x : Forall P t -> P 0 -> P (tbl t x).
Proof.
  intros F H0. unfold tbl. rewrite nth_lookup. destruct (t !! _) eqn:E; simpl; [|done].
  by eapply Forall_lookup_1 in F.
Qed.

Ltac check_bytes f g :=
  intros x Hx; apply Z.eqb_eq; revert x Hx;
  apply (all_bytes (fun x => f x =? g x)); vm_compute; reflexivity.

Lemma gen_tables_good : good_tables aes_gen_tables.
Proof.
  constructor.
  - check_bytes (fun x => tbl (FT0 aes_gen_tables) x) (fun x => lin MB (tbl (FSb aes_gen_tables) x)).
  - check_bytes (fun x => tbl (FT1 aes_gen_tables) x) (fun x => lin MB (Z.shiftl (tbl (FSb aes_gen_tables) x) 8)).
  - check_bytes (fun x => tbl (FT2 aes_gen_tables) x) (fun x => lin MB (Z.shiftl (tbl (FSb aes_gen_tables) x) 16)).
  - check_bytes (fun x => tbl (FT3 aes_gen_tables) x) (fun x => lin MB (Z.shiftl (tbl (FSb aes_gen_tables) x) 24)).
  - check_bytes (fun x => tbl (RT0 aes_gen_tables) x) (fun x => lin IB (tbl (RSb aes_gen_tables) x)).
  - check_bytes (fun x => tbl (RT1 aes_gen_tables) x) (fun x => lin IB (Z.shiftl (tbl (RSb aes_gen_tables) x) 8)).
  - check_bytes (fun x => tbl (RT2 aes_gen_tables) x) (fun x => lin IB (Z.shiftl (tbl (RSb aes_gen_tables) x) 16)).
  - check_bytes (fun x => tbl (RT3 aes_gen_tables) x) (fun x => lin IB (Z.shiftl (tbl (RSb aes_gen_tables) x) 24)).
  - check_bytes (fun x => tbl (RSb aes_gen_tables) (tbl (FSb aes_gen_tables) x)) (fun x : Z => x).
  - intros x. apply tbl_forall; [|unfold byte_ok; lia]. apply Forall_range. vm_compute. reflexivity.
  - intros x. apply tbl_forall; [|unfold byte_ok; lia]. apply Forall_range. vm_compute. reflexivity.
  - apply Forall_range. vm_compute. reflexivity.
Qed.

(** ** Rounds *)

Definition words4 (x : state4) : Prop :=
  let '(a, b, c, d) := x in word_ok a /\ word_ok b /\ word_ok c /\ word_ok d.
Definition map4 (f : Z -> Z) (x : state4) : state4 :=
  let '(a, b, c, d) := x in (f a, f b, f c, f d).

Section Rounds.
Variable T : aes_tables.
Hypothesis GT : good_tables T.

(** SubBytes then ShiftRows, and the inverse. *)
Definition SS (y : state4) : state4 :=
  let '(y0, y1, y2, y3) := y in
  let s a b c d := sub4 (FSb T) (byte_of a 0) (byte_of b 8) (byte_of c 16) (byte_of d 24) in
  (s y0 y1 y2 y3, s y1 y2 y3 y0, s y2 y3 y0 y1, s y3 y0 y1 y2).
Definition ISS (y : state4) : state4 :=
  let '(y0, y1, y2, y3) := y in
  let s a b c d := sub4 (RSb T) (byte_of a 0) (byte_of b 8) (byte_of c 16) (byte_of d 24) in
  (s y0 y3 y2 y1, s y1 y0 y3 y2, s y2 y1 y0 y3, s y3 y2 y1 y0).

Lemma fsb_pack a b c d : sub4 (FSb T) a b c d =
  packw (tbl (FSb T) a) (tbl (FSb T) b) (tbl (FSb T) c) (tbl (FSb T) d).
Proof. apply xor_pack; apply (g_f T GT). Qed.
Lemma rsb_pack a b c d : sub4 (RSb T) a b c d =
  packw (tbl (RSb T) a) (tbl (RSb T) b) (tbl (RSb T) c) (tbl (RSb T) d).
Proof. apply xor_pack; apply (g_r T GT). Qed.

Lemma SS_ok y : words4 (SS y).
Proof.
  destruct y as [[[a b] c] d]. simpl. rewrite !fsb_pack. repeat split; try apply packw_ok; apply (g_f T GT).
Qed.

Lemma ISS_SS y : words4 y -> ISS (SS y) = y.
Proof.
  destruct y as [[[y0 y1] y2] y3]. intros (H0 & H1 & H2 & H3). unfold ISS, SS. cbv zeta.
  rewrite !fsb_pack.
  assert (forall a b c d,
    byte_of (packw (tbl (FSb T) a) (tbl (FSb T) b) (tbl (FSb T) c) (tbl (FSb T) d)) 0 = tbl (FSb T) a /\
    byte_of (packw (tbl (FSb T) a) (tbl (FSb T) b) (tbl (FSb T) c) (tbl (FSb T) d)) 8 = tbl (FSb T) b /\
    byte_of (packw (tbl (FSb T) a) (tbl (FSb T) b) (tbl (FSb T) c) (tbl (FSb T) d)) 16 = tbl (FSb T) c /\
    byte_of (packw (tbl (FSb T) a) (tbl (FSb T) b) (tbl (FSb T) c) (tbl (FSb T) d)) 24 = tbl (FSb T) d) as HB.
  { intros. apply byte_of_pack; apply (g_f T GT). }
  rewrite !(proj1 (HB _ _ _ _)), !(proj1 (proj2 (HB _ _ _ _))), !(proj1 (proj2 (proj2 (HB _ _ _ _)))),
    !(proj2 (proj2 (proj2 (HB _ _ _ _)))).
  rewrite !rsb_pack, !(g_inv T GT) by (apply byte_of_ok; lia).
  by rewrite !pack_byte_of.
Qed.

(** Four T-table lookups are one linear map of four S-box values. *)
Lemma round_word_F rk a b c d :
  round_word (FT0 T) (FT1 T) (FT2 T) (FT3 T) rk a b c d =
    Z.lxor rk (lin MB (sub4 (FSb T) (byte_of a 0) (byte_of b 8) (byte_of c 16) (byte_of d 24))).
Proof.
  unfold round_word, sub4. rewrite !lin_lxor.
  rewrite (g_ft0 T GT), (g_ft1 T GT), (g_ft2 T GT), (g_ft3 T GT) by (apply byte_of_ok; lia).
  by rewrite <- !Z.lxor_assoc.
Qed.
Lemma round_word_R rk a b c d :
  round_word (RT0 T) (RT1 T) (RT2 T) (RT3 T) rk a b c d =
    Z.lxor rk (lin IB (sub4 (RSb T) (byte_of a 0) (byte_of b 8) (byte_of c 16) (byte_of d 24))).
Proof.
  unfold round_word, sub4. rewrite !lin_lxor.
  rewrite (g_rt0 T GT), (g_rt1 T GT), (g_rt2 T GT), (g_rt3 T GT) by (apply byte_of_ok; lia).
  by rewrite <- !Z.lxor_assoc.
Qed.

(** FIPS 197 rounds: AddRoundKey after MixColumns after ShiftRows and SubBytes. *)
Lemma FROUND_eq RK y : AES_FROUND T RK y = add4 RK (map4 (lin MB) (SS y)).
Proof. destruct y as [[[a b] c] d]. unfold AES_FROUND, add4, map4, SS. by rewrite !round_word_F. Qed.
Lemma RROUND_eq RK y : AES_RROUND T RK y = add4 RK (map4 (lin IB) (ISS y)).
Proof. destruct y as [[[a b] c] d]. unfold AES_RROUND, add4, map4, ISS. by rewrite !round_word_R. Qed.
Lemma flast_eq RK y : aes_flast T RK y = add4 RK (SS y).
Proof. by destruct y as [[[a b] c] d]. Qed.
Lemma rlast_eq RK y : aes_rlast T RK y = add4 RK (ISS y).
Proof. by destruct y as [[[a b] c] d]. Qed.

Lemma inv_key_word_eq sk : word_ok sk -> inv_key_word T sk = lin IB sk.
Proof.
  intros H. unfold inv_key_word.
  rewrite (g_rt0 T GT), (g_rt1 T GT), (g_rt2 T GT), (g_rt3 T GT), !(g_inv T GT)
    by (try apply (g_f T GT); apply byte_of_ok; lia).
  rewrite <- !lin_lxor, xor_pack by (apply byte_of_ok; lia). by rewrite pack_byte_of.
Qed.

(** Adding the same round key twice. *)
Lemma add4_invol RK x : add4 RK (add4 RK x) = x.
Proof.
  destruct x as [[[a b] c] d]. simpl.
  by rewrite <- !Z.lxor_assoc, !Z.lxor_nilpotent, !Z.lxor_0_l.
Qed.

Lemma map4_add4 B RK x :
  map4 (lin B) (add4 RK x) = add4 (map (lin B) RK) (map4 (lin B) x).
Proof.
  destruct x as [[[a b] c] d]. unfold map4, add4. rewrite !lin_lxor.
  assert (forall i, nth i (map (lin B) RK) 0 = lin B (nth i RK 0)) as Hn.
  { intros i. rewrite <- (lin_0 B) at 1. apply map_nth. }
  by rewrite !Hn.
Qed.

Lemma map4_inverse x : words4 x -> map4 (lin IB) (map4 (lin MB) x) = x.
Proof. destruct x as [[[a b] c] d]. intros (? & ? & ? & ?). simpl. by rewrite !IB_MB. Qed.

(** One step back: the decryption round under the transformed key of round [i]
    takes the substituted state of round [i] to that of round [i - 1]. *)
Lemma round_back ek x :
  let x' := AES_FROUND T ek x in
  words4 x' ->
  AES_RROUND T (map (lin IB) ek) (SS x') = SS x.
Proof.
  intros x' H'. rewrite RROUND_eq, ISS_SS by done.
  rewrite <- map4_add4. unfold x'. rewrite FROUND_eq, add4_invol.
  apply map4_inverse, SS_ok.
Qed.

(** ** Whole blocks, with round keys as functions of the round number *)

Fixpoint enc_rounds (ek : nat -> list Z) (n : nat) (x : state4) : state4 :=
  match n with O => x | S n => AES_FROUND T (ek (S n)) (enc_rounds ek n x) end.
Fixpoint dec_rounds (dk : nat -> list Z) (n : nat) (x : state4) : state4 :=
  match n with O => x | S n => AES_RROUND T (dk (S n)) (dec_rounds dk n x) end.

Lemma dec_enc_rounds ek dk N x n :
  (forall i, (0 < i <= N)%nat -> dk i = map (lin IB) (ek (S N - i)%nat)) ->
  (forall n, words4 (enc_rounds ek n x)) -> (n <= N)%nat ->
  dec_rounds dk n (SS (enc_rounds ek N x)) = SS (enc_rounds ek (N - n) x).
Proof.
  intros Hk Hw. induction n as [|n IH]; intros Hn.
  - simpl. by rewrite Nat.sub_0_r.
  - simpl. rewrite IH by lia. rewrite Hk by lia.
    replace (S N - S n)%nat with (S (N - S n))%nat by lia.
    replace (N - n)%nat with (S (N - S n))%nat by lia. apply round_back, (Hw (S (N - S n))).
Qed.

Definition key_at (rk : list Z) (i : nat) : list Z := take 4 (drop (4 * i) rk).

(** A round reads only the four words at the key pointer. *)
Definition reads4 (f : list Z -> state4 -> state4) : Prop :=
  forall RK y, f RK y = f (take 4 RK) y.

Lemma nth_take4 i (RK : list Z) : (i < 4)%nat -> nth i (take 4 RK) 0 = nth i RK 0.
Proof. intros. by rewrite !nth_lookup, lookup_take_lt. Qed.

Lemma reads4_all :
  reads4 add4 /\ reads4 (AES_FROUND T) /\ reads4 (AES_RROUND T) /\
  reads4 (aes_flast T) /\ reads4 (aes_rlast T).
Proof.
  repeat split; intros RK [[[a b] c] d];
    unfold add4, AES_FROUND, AES_RROUND, aes_flast, aes_rlast; rewrite !nth_take4 by lia; done.
Qed.

Fixpoint keyed_rounds (f : list Z -> state4 -> state4) (k : nat -> list Z) (i n : nat) (x : state4) : state4 :=
  match n with O => x | S n => f (k (i + n)%nat) (keyed_rounds f k i n x) end.

Lemma keyed_rounds_first f k i n x :
  keyed_rounds f k i (S n) x = keyed_rounds f k (S i) n (f (k i) x).
Proof.
  induction n as [|n IH]; simpl; [by rewrite Nat.add_0_r|].
  simpl in IH. rewrite IH. do 2 f_equal. lia.
Qed.

Lemma double_rounds_keyed f rk n i x :
  reads4 f ->
  double_rounds f n (drop (4 * i) rk) x = (drop (4 * (i + 2 * n)) rk, keyed_rounds f (key_at rk) i (2 * n) x).
Proof.
  intros Hf. revert i x; induction n as [|n IH]; intros i x.
  - replace (i + 2 * 0)%nat with i by lia. done.
  - cbn [double_rounds]. rewrite !drop_drop.
    replace (4 * i + 8)%nat with (4 * (i + 2))%nat by lia.
    replace (4 * i + 4)%nat with (4 * (S i))%nat by lia. rewrite IH.
    replace (2 * S n)%nat with (S (S (2 * n))) by lia. rewrite !keyed_rounds_first.
    f_equal; [f_equal; lia|]. replace (i + 2)%nat with (S (S i)) by lia. f_equal.
    by rewrite (Hf (drop _ _)), (Hf (drop (4 * i) rk)).
Qed.

Lemma aes_block_rounds f g N ctx input :
  reads4 f -> reads4 g -> nr ctx = 2 * Z.of_nat N + 2 ->
  aes_block f g ctx input =
    put_state (g (key_at (buf ctx) (2 * N + 2))
      (keyed_rounds f (key_at (buf ctx)) 1 (2 * N + 1) (add4 (key_at (buf ctx) 0) (get_state input)))).
Proof.
  intros Hf Hg Hn. unfold aes_block.
  assert (Z.to_nat (Z.shiftr (nr ctx) 1 - 1) = N) as ->.
  { rewrite shiftr_div, Hn by lia. change (2 ^ 1) with 2. zdm. }
  change (drop 4 (buf ctx)) with (drop (4 * 1) (buf ctx)).
  rewrite double_rounds_keyed by done. rewrite drop_drop.
  replace (4 * (1 + 2 * N) + 4)%nat with (4 * (2 * N + 2))%nat by lia.
  rewrite (Hf (drop _ _)), (Hg (drop _ _)). f_equal. f_equal.
  replace (2 * N + 1)%nat with (S (2 * N)) by lia. cbn [keyed_rounds]. f_equal. f_equal.
  rewrite (proj1 reads4_all (buf ctx)). done.
Qed.

Lemma keyed_rounds_enc k n x : keyed_rounds (AES_FROUND T) k 1 n x = enc_rounds k n x.
Proof. induction n as [|n IH]; simpl; [done|]. by rewrite IH. Qed.
Lemma keyed_rounds_dec k n x : keyed_rounds (AES_RROUND T) k 1 n x = dec_rounds k n x.
Proof. induction n as [|n IH]; simpl; [done|]. by rewrite IH. Qed.

(** ** Words and bytes *)

Lemma GET_LE b0 b1 b2 b3 pre rest :
  bytes_ok [b0; b1; b2; b3] ->
  GET_UINT32_LE (pre ++ b0 :: b1 :: b2 :: b3 :: rest) (length pre) = packw b0 b1 b2 b3.
Proof.
  intros H. repeat (apply Forall_cons in H as [? H]). unfold GET_UINT32_LE.
  rewrite !nth_lookup, !(lookup_app_r pre) by lia.
  replace (length pre - length pre)%nat with 0%nat by lia.
  replace (length pre + 1 - length pre)%nat with 1%nat by lia.
  replace (length pre + 2 - length pre)%nat with 2%nat by lia.
  replace (length pre + 3 - length pre)%nat with 3%nat by lia. simpl lookup. simpl default.
  unfold byte_ok, packw in *. zshift. rewrite (lor_add_disjoint b0 b1 8) by lia.
  rewrite (lor_add_disjoint _ b2 16) by lia. rewrite (lor_add_disjoint _ b3 24) by lia. simpl. lia.
Qed.

Lemma PUT_LE w : PUT_UINT32_LE w = [byte_of w 0; byte_of w 8; byte_of w 16; byte_of w 24].
Proof.
  unfold PUT_UINT32_LE. assert (forall x, u8 (Z.land x 0xFF) = Z.land x 0xFF) as Hu.
  { intros. change 0xFF with (2 ^ 8 - 1). rewrite land_mask by lia. unfold u8.
    change 256 with (2 ^ 8). by rewrite Z.mod_mod by lia. }
  by rewrite !Hu.
Qed.

Lemma get_put_state x : words4 x -> get_state (put_state x) = x.
Proof.
  destruct x as [[[a b] c] d]. intros (Ha & Hb & Hc & Hd). unfold get_state, put_state. rewrite !PUT_LE.
  assert (forall w, bytes_ok [byte_of w 0; byte_of w 8; byte_of w 16; byte_of w 24]) as Hw.
  { intros. repeat constructor; apply byte_of_ok; lia. }
  repeat f_equal.
  - etransitivity; [apply (GET_LE _ _ _ _ [])|apply pack_byte_of]; auto.
  - etransitivity; [apply (GET_LE _ _ _ _ [_; _; _; _])|apply pack_byte_of]; auto.
  - etransitivity; [apply (GET_LE _ _ _ _ [_; _; _; _; _; _; _; _])|apply pack_byte_of]; auto.
  - etransitivity; [apply (GET_LE _ _ _ _ [_; _; _; _; _; _; _; _; _; _; _; _] [])|apply pack_byte_of]; auto.
Qed.

Lemma get_state_pack b0 b1 b2 b3 b4 b5 b6 b7 b8 b9 b10 b11 b12 b13 b14 b15 :
  bytes_ok [b0; b1; b2; b3; b4; b5; b6; b7; b8; b9; b10; b11; b12; b13; b14; b15] ->
  get_state [b0; b1; b2; b3; b4; b5; b6; b7; b8; b9; b10; b11; b12; b13; b14; b15] =
    (packw b0 b1 b2 b3, packw b4 b5 b6 b7, packw b8 b9 b10 b11, packw b12 b13 b14 b15).
Proof.
  intros H. repeat (apply Forall_cons in H as [? H]). unfold get_state. repeat f_equal.
  - apply (GET_LE _ _ _ _ []). fbytes.
  - apply (GET_LE _ _ _ _ [_; _; _; _]). fbytes.
  - apply (GET_LE _ _ _ _ [_; _; _; _; _; _; _; _]). fbytes.
  - apply (GET_LE _ _ _ _ [_; _; _; _; _; _; _; _; _; _; _; _] []). fbytes.
Qed.

Lemma put_get_state b : length b = 16%nat -> bytes_ok b -> put_state (get_state b) = b /\ words4 (get_state b).
Proof.
  intros L H. destruct_len b. rewrite get_state_pack by done. repeat (apply Forall_cons in H as [? H]).
  split; [|repeat split; by apply packw_ok].
  unfold put_state. rewrite !PUT_LE.
  repeat match goal with |- context [byte_of (packw ?a ?b ?c ?d) 0] =>
    destruct (byte_of_pack a b c d) as (-> & -> & -> & ->); [done..|] end. done.
Qed.

Lemma put_state_ok x : length (put_state x) = 16%nat /\ bytes_ok (put_state x).
Proof.
  destruct x as [[[a b] c] d]. unfold put_state. rewrite !PUT_LE. split; [done|].
  repeat constructor; apply byte_of_ok; lia.
Qed.

End Rounds.

(** ** Key schedules *)

Lemma lxor_word a b : word_ok a -> word_ok b -> word_ok (Z.lxor a b).
Proof. apply lxor_range. lia. Qed.

Section Schedule.
Variable T : aes_tables.
Hypothesis GT : good_tables T.

Lemma sub4_word a b c d : word_ok (sub4 (FSb T) a b c d).
Proof. rewrite fsb_pack by done. apply packw_ok; apply (g_f T GT). Qed.

Lemma sched_core_word f l i : word_ok f -> word_ok (sched_core T f l i).
Proof.
  intros. unfold sched_core. apply lxor_word; [apply lxor_word; [done|]|apply sub4_word].
  pose proof (tbl_forall word_ok (RCON T) (Z.of_nat i) (g_rcon T GT)) as H'.
  unfold tbl in H'. rewrite Nat2Z.id in H'. apply H'. unfold word_ok. lia.
Qed.

Hint Resolve lxor_word sched_core_word sub4_word : core.

Lemma expand128_ok n i k0 k1 k2 k3 :
  Forall word_ok [k0; k1; k2; k3] ->
  Forall word_ok (expand128 T n i k0 k1 k2 k3) /\ length (expand128 T n i k0 k1 k2 k3) = (4 * n)%nat.
Proof.
  revert i k0 k1 k2 k3; induction n as [|n IH]; intros i k0 k1 k2 k3 H; [done|].
  rewrite !Forall_cons in H. destruct H as (? & ? & ? & ? & _). cbn [expand128]. cbv zeta.
  set (k4 := sched_core T k0 k3 i). assert (word_ok k4) by (unfold k4; auto).
  edestruct (IH (i + 1)%nat) as [F L]; [|split; [repeat (apply Forall_cons; split); [..|exact F]|]].
  all: try (cbn [length]; rewrite L; lia).
  all: rewrite ?Forall_cons; auto 12.
Qed.

Lemma expand192_ok n i k0 k1 k2 k3 k4 k5 :
  Forall word_ok [k0; k1; k2; k3; k4; k5] ->
  Forall word_ok (expand192 T n i k0 k1 k2 k3 k4 k5) /\
  length (expand192 T n i k0 k1 k2 k3 k4 k5) = (6 * n)%nat.
Proof.
  revert i k0 k1 k2 k3 k4 k5; induction n as [|n IH]; intros i k0 k1 k2 k3 k4 k5 H; [done|].
  rewrite !Forall_cons in H. destruct H as (? & ? & ? & ? & ? & ? & _). cbn [expand192]. cbv zeta.
  set (k6 := sched_core T k0 k5 i). assert (word_ok k6) by (unfold k6; auto).
  edestruct (IH (i + 1)%nat) as [F L]; [|split; [repeat (apply Forall_cons; split); [..|exact F]|]].
  all: try (cbn [length]; rewrite L; lia).
  all: rewrite ?Forall_cons; auto 16.
Qed.

Lemma expand256_ok n i k0 k1 k2 k3 k4 k5 k6 k7 :
  Forall word_ok [k0; k1; k2; k3; k4; k5; k6; k7] ->
  Forall word_ok (expand256 T n i k0 k1 k2 k3 k4 k5 k6 k7) /\
  length (expand256 T n i k0 k1 k2 k3 k4 k5 k6 k7) = (8 * n)%nat.
Proof.
  revert i k0 k1 k2 k3 k4 k5 k6 k7; induction n as [|n IH]; intros i k0 k1 k2 k3 k4 k5 k6 k7 H; [done|].
  rewrite !Forall_cons in H. destruct H as (? & ? & ? & ? & ? & ? & ? & ? & _). cbn [expand256]. cbv zeta.
  set (k8 := sched_core T k0 k7 i). assert (word_ok k8) by (unfold k8; auto).
  set (k11 := Z.lxor k3 (Z.lxor k2 (Z.lxor k1 k8))).
  set (k12 := Z.lxor k4 (sub4 _ _ _ _ _)). assert (word_ok k12) by (unfold k12; auto).
  assert (word_ok k11) by (unfold k11; auto).
  edestruct (IH (i + 1)%nat) as [F L]; [|split; [repeat (apply Forall_cons; split); [..|exact F]|]].
  all: try (cbn [length]; rewrite L; lia).
  all: rewrite ?Forall_cons; auto 20.
Qed.

(** Every key size yields [nr + 1] round keys that fit in [buf]. *)
Lemma expand_key_ok keybits r kw :
  rounds_of keybits = Some r -> length kw = Z.to_nat (Z.shiftr keybits 5) -> Forall word_ok kw ->
  Forall word_ok (expand_key T r kw) /\
  (4 * (Z.to_nat r + 1) <= length (expand_key T r kw) <= 68)%nat.
Proof.
  intros Hr Hl Hw. unfold rounds_of in Hr.
  destruct (keybits =? 128) eqn:E1; [|destruct (keybits =? 192) eqn:E2; [|destruct (keybits =? 256) eqn:E3]];
    bprop; try discriminate Hr; injection Hr as <-; subst keybits.
  - change (Z.to_nat (Z.shiftr 128 5)) with 4%nat in Hl. destruct_len kw.
    destruct (expand128_ok 10 0 _ _ _ _ Hw) as [F L]. unfold expand_key. cbn [Z.eqb Pos.eqb nth].
    rewrite length_app, L. split; [by apply Forall_app|cbn [length]; lia].
  - change (Z.to_nat (Z.shiftr 192 5)) with 6%nat in Hl. destruct_len kw.
    destruct (expand192_ok 8 0 _ _ _ _ _ _ Hw) as [F L]. unfold expand_key. cbn [Z.eqb Pos.eqb nth].
    rewrite length_app, L. split; [by apply Forall_app|cbn [length]; lia].
  - change (Z.to_nat (Z.shiftr 256 5)) with 8%nat in Hl. destruct_len kw.
    destruct (expand256_ok 7 0 _ _ _ _ _ _ _ _ Hw) as [F L]. unfold expand_key. cbn [Z.eqb Pos.eqb nth].
    rewrite length_app, L. split; [by apply Forall_app|cbn [length]; lia].
Qed.

(** Slicing a concatenation of four-word keys. *)
Lemma key_at_concat (ls : list (list Z)) j k :
  Forall (fun l => length l = 4%nat) ls -> ls !! j = Some k -> key_at (concat ls) j = k.
Proof.
  intros F. revert j; induction F as [|l ls Hl F IH]; intros j Hj; [done|].
  unfold key_at in *. destruct j as [|j]; simpl in Hj; simplify_eq; cbn [concat].
  - rewrite Nat.mul_0_r, drop_0. by apply take_app_length'.
  - rewrite drop_app_ge, Hl by lia. replace (4 * S j - 4)%nat with (4 * j)%nat by lia. by apply IH.
Qed.

Lemma key_at_store ws b i :
  (4 * i + 4 <= length ws)%nat -> key_at (store_words ws b) i = key_at ws i.
Proof.
  intros H. unfold key_at, store_words, blit. simpl (take 0 b ++ _).
  rewrite drop_app_le by lia. apply take_app_le. rewrite length_drop. lia.
Qed.

Lemma length_key_at ws i : (4 * i + 4 <= length ws)%nat -> length (key_at ws i) = 4%nat.
Proof. intros. unfold key_at. rewrite length_take, length_drop. lia. Qed.

Lemma length_store_words ws b : (length ws <= length b)%nat -> length (store_words ws b) = length b.
Proof. intros. apply length_blit. lia. Qed.

Lemma length_inv_schedule N ws :
  (4 * (N + 2) <= length ws)%nat -> length (inv_schedule T (N + 1) ws) = (4 * (N + 2))%nat.
Proof.
  intros L. unfold inv_schedule. replace (N + 1 - 1)%nat with N by lia.
  fold (key_at ws (N + 1)) (key_at ws 0). rewrite !length_app, !length_key_at by lia.
  enough (length (concat (map (fun i => map (inv_key_word T) (take 4 (drop (4 * i) ws))) (rev (seq 1 N)))) = 4 * N)%nat by lia.
  rewrite length_concat, map_map.
  assert (forall l, Forall (fun i => i <= N)%nat l ->
    list_sum (map (fun i => length (map (inv_key_word T) (take 4 (drop (4 * i) ws)))) l) = (4 * length l)%nat) as H.
  { intros l F. induction F as [|i l Hi F IH]; cbn [map]; [done|].
    change (list_sum (?a :: ?r)) with (a + list_sum r)%nat.
    rewrite length_map, IH. fold (key_at ws i). rewrite length_key_at by lia. cbn [length]. lia. }
  rewrite H; [by rewrite length_rev, length_seq|].
  apply Forall_forall. intros i Hi. apply list_elem_of_In, in_rev, in_seq in Hi. lia.
Qed.

Lemma inv_schedule_keys N ws j :
  Forall word_ok ws -> (4 * (N + 2) <= length ws)%nat -> (j <= N + 1)%nat ->
  key_at (inv_schedule T (N + 1) ws) j =
    if (j =? 0)%nat || (j =? N + 1)%nat then key_at ws (N + 1 - j) else map (lin IB) (key_at ws (N + 1 - j)).
Proof.
  intros F L Hj. unfold inv_schedule. replace (N + 1 - 1)%nat with N by lia.
  fold (key_at ws (N + 1)) (key_at ws 0).
  set (mid := map (fun i => map (inv_key_word T) (take 4 (drop (4 * i) ws))) (rev (seq 1 N))).
  replace (key_at ws (N + 1) ++ concat mid ++ key_at ws 0)
    with (concat ([key_at ws (N + 1)] ++ mid ++ [key_at ws 0]))
    by (rewrite !concat_app; simpl; by rewrite !app_nil_r).
  assert (length mid = N) as Lm by (unfold mid; rewrite length_map, length_rev, length_seq; done).
  apply key_at_concat.
  - repeat apply Forall_app_2; repeat constructor; try (apply length_key_at; lia).
    unfold mid. apply Forall_map, Forall_forall. intros i Hi.
    apply list_elem_of_In, in_rev, in_seq in Hi. rewrite length_map. apply (length_key_at ws i). lia.
  - destruct j as [|j]; [simpl; by rewrite Nat.sub_0_r|].
    change (([key_at ws (N + 1)] ++ mid ++ [key_at ws 0]) !! S j) with ((mid ++ [key_at ws 0]) !! j).
    change (S j =? 0)%nat with false. rewrite orb_false_l.
    destruct (decide (j = N)) as [->|Hne].
    + replace (S N =? N + 1)%nat with true by (symmetry; apply Nat.eqb_eq; lia).
      rewrite lookup_app_r, Lm, Nat.sub_diag by lia. by replace (N + 1 - S N)%nat with 0%nat by lia.
    + replace (S j =? N + 1)%nat with false by (symmetry; apply Nat.eqb_neq; lia).
      rewrite lookup_app_l by lia. unfold mid. rewrite list_lookup_fmap.
      assert (rev (seq 1 N) !! j = Some (N - j)%nat) as ->.
      { rewrite rev_alt. change (reverse (seq 1 N) !! j = Some (N - j)%nat). rewrite reverse_lookup by (rewrite length_seq; lia).
        rewrite length_seq. rewrite lookup_seq_lt by lia. f_equal. lia. }
      simpl. replace (N + 1 - S j)%nat with (N - j)%nat by lia. f_equal.
      apply map_ext_in. intros w Hw. apply inv_key_word_eq; [done|].
      apply (Forall_drop _ (4 * (N - j))), (Forall_take _ 4) in F.
      rewrite Forall_forall in F. by apply F, list_elem_of_In.
Qed.

Lemma add4_words rk x : Forall word_ok rk -> words4 x -> words4 (add4 rk x).
Proof.
  intros F. destruct x as [[[a b] c] d]. intros (? & ? & ? & ?).
  assert (forall i, word_ok (nth i rk 0)).
  { intros i. rewrite nth_lookup. destruct (rk !! i) eqn:E; simpl; [by eapply Forall_lookup_1|unfold word_ok; lia]. }
  unfold add4, words4. split; [|split; [|split]]; apply lxor_word; auto.
Qed.

Lemma MB_word w : word_ok (lin MB w).
Proof.
  unfold lin. assert (Forall word_ok MB) as F by (apply Forall_range; vm_compute; reflexivity).
  revert F. generalize MB as B. generalize 0 as i. intros i B F. revert i.
  induction F as [|b B Hb F IH]; intros i; simpl; [unfold word_ok; lia|].
  apply lxor_word; [|done]. destruct (Z.testbit w i); [done|unfold word_ok; lia].
Qed.

Lemma enc_rounds_words ek n x :
  (forall i, Forall word_ok (ek i)) -> words4 x -> words4 (enc_rounds T ek n x).
Proof.
  intros Hk Hx. destruct n as [|n]; simpl; [done|]. rewrite FROUND_eq by done.
  apply add4_words; [done|]. destruct (SS T _) as [[[a b] c] d]. repeat split; apply MB_word.
Qed.

Lemma key_at_words ws i : Forall word_ok ws -> Forall word_ok (key_at ws i).
Proof. intros. by apply Forall_take, Forall_drop. Qed.

(** The two block functions on schedules derived from the same words. *)
Lemma aes_block_inverse N ws enc dec b :
  Forall word_ok ws -> (4 * (2 * N + 3) <= length ws)%nat ->
  nr enc = 2 * Z.of_nat N + 2 -> nr dec = 2 * Z.of_nat N + 2 ->
  (forall i, (i <= 2 * N + 2)%nat -> key_at (buf enc) i = key_at ws i) ->
  (forall i, (i <= 2 * N + 2)%nat -> key_at (buf dec) i = key_at (inv_schedule T (2 * N + 1 + 1) ws) i) ->
  length b = 16%nat -> bytes_ok b ->
  aes_block (AES_RROUND T) (aes_rlast T) dec (aes_block (AES_FROUND T) (aes_flast T) enc b) = b.
Proof.
  intros F L Hne Hnd Ke Kd Lb Hb. destruct (reads4_all T) as (R0 & R1 & R2 & R3 & R4).
  rewrite (aes_block_rounds T _ _ N dec), (aes_block_rounds T _ _ N enc) by done.
  rewrite keyed_rounds_enc, keyed_rounds_dec.
  destruct (put_get_state b Lb Hb) as [Hpg Hgw].
  set (x0 := add4 (key_at (buf enc) 0) (get_state b)).
  set (ek i := if (i <=? 2 * N + 2)%nat then key_at (buf enc) i else []).
  assert (forall n, (n <= 2 * N + 2)%nat ->
    enc_rounds T (key_at (buf enc)) n x0 = enc_rounds T ek n x0) as Hek.
  { induction n as [|n IH]; intros Hn; simpl; [done|]. rewrite IH by lia. unfold ek at 2.
    by replace (S n <=? 2 * N + 2)%nat with true by (symmetry; apply Nat.leb_le; lia). }
  assert (forall i, Forall word_ok (ek i)) as Hkw.
  { intros i. unfold ek. destruct (i <=? 2 * N + 2)%nat eqn:E; [|constructor].
    apply Nat.leb_le in E. rewrite Ke by done. by apply key_at_words. }
  assert (words4 x0) as Hx0.
  { apply add4_words; [|done]. rewrite Ke by lia. by apply key_at_words. }
  rewrite Hek by lia. set (y := enc_rounds T ek (2 * N + 1) x0).
  rewrite flast_eq, get_put_state, rlast_eq.
  2: { apply add4_words; [|apply SS_ok, GT]. rewrite Ke by lia. by apply key_at_words. }
  rewrite !Kd, !inv_schedule_keys by (auto; lia). cbn [Nat.eqb orb]. rewrite Nat.sub_0_r.
  replace (2 * N + 1 + 1)%nat with (2 * N + 2)%nat by lia.
  rewrite Nat.eqb_refl, orb_true_r, Nat.sub_diag, <- !Ke, add4_invol by lia.
  assert (dec_rounds T (key_at (buf dec)) (2 * N + 1) (SS T y) = SS T x0) as ->.
  { unfold y. rewrite (dec_enc_rounds T GT ek (key_at (buf dec)) (2 * N + 1)).
    - by rewrite Nat.sub_diag.
    - intros i Hi. rewrite Kd, inv_schedule_keys by (auto; lia). unfold ek.
      replace (S (2 * N + 1) - i <=? 2 * N + 2)%nat with true by (symmetry; apply Nat.leb_le; lia).
      replace (i =? 0)%nat with false by (symmetry; apply Nat.eqb_neq; lia).
      replace (i =? 2 * N + 1 + 1)%nat with false by (symmetry; apply Nat.eqb_neq; lia).
      simpl orb. cbv iota. rewrite Ke by lia. do 2 f_equal. lia.
    - intros n. by apply enc_rounds_words.
    - done. }
  rewrite ISS_SS by done. unfold x0. by rewrite add4_invol.
Qed.
End Schedule.

(** ** The interface functions *)

(** The tables are generated before their first use. *)
Definition static_ok (st : aes_static) : Prop := aes_init_done st = 0 \/ tables st = aes_gen_tables.

Lemma init_tables_ok st : static_ok st ->
  tables (aes_init_tables st) = aes_gen_tables /\ static_ok (aes_init_tables st).
Proof.
  intros H. unfold aes_init_tables, static_ok in *. destruct (aes_init_done st =? 0) eqn:E; bprop; simpl.
  - auto.
  - destruct H; [lia|auto].
Qed.

Definition aes_key_ok (key : bytes) (keybits : Z) : Prop :=
  (exists r, rounds_of keybits = Some r) /\ bytes_ok key /\ Z.of_nat (length key) * 8 = keybits.

Lemma rounds_of_cases keybits r : rounds_of keybits = Some r ->
  exists N, r = 2 * Z.of_nat N + 2 /\ (keybits = 128 \/ keybits = 192 \/ keybits = 256).
Proof.
  unfold rounds_of. intros H. destruct (keybits =? 128) eqn:?; [exists 4%nat|
    destruct (keybits =? 192) eqn:?; [exists 5%nat|destruct (keybits =? 256) eqn:?; [exists 6%nat|done]]];
    bprop; simplify_eq; split; auto.
Qed.

Lemma GET_LE_word key i : bytes_ok key -> (i + 4 <= length key)%nat -> word_ok (GET_UINT32_LE key i).
Proof.
  intros Hk Hi. rewrite <- (take_drop i key).
  assert (bytes_ok (drop i key)) as Hd by (by apply Forall_drop).
  assert (length (take i key) = i) as Hl by (rewrite length_take; lia).
  assert (4 <= length (drop i key))%nat as Hl2 by (rewrite length_drop; lia).
  destruct (drop i key) as [|b0 [|b1 [|b2 [|b3 rest]]]]; cbn [length] in Hl2; try lia.
  repeat (apply Forall_cons in Hd as [? Hd]).
  rewrite <- Hl at 2. rewrite GET_LE by fbytes. by apply packw_ok.
Qed.

Lemma key_words_ok key keybits : aes_key_ok key keybits ->
  Forall word_ok (map (fun i => GET_UINT32_LE key (4 * i)) (seq 0 (Z.to_nat (Z.shiftr keybits 5)))).
Proof.
  intros ((r & Hr) & Hb & Hl). apply Forall_map, Forall_forall. intros i Hi.
  apply list_elem_of_In, in_seq in Hi. destruct (rounds_of_cases _ _ Hr) as (N & _ & Hk).
  apply GET_LE_word; [done|]. rewrite shiftr_div in Hi by lia. change (2 ^ 5) with 32 in Hi.
  destruct Hk as [->|[->| ->]]; zdm.
Qed.

Lemma setkey_enc_keys st ctx key keybits :
  static_ok st -> aes_key_ok key keybits ->
  exists N ws ctx' st',
    mbedtls_aes_setkey_enc st ctx key keybits = (0, ctx', st') /\
    static_ok st' /\ tables st' = aes_gen_tables /\
    nr ctx' = 2 * Z.of_nat N + 2 /\ Forall word_ok ws /\ (4 * (2 * N + 3) <= length ws <= 68)%nat /\
    buf ctx' = store_words ws (buf ctx) /\
    ws = expand_key aes_gen_tables (nr ctx')
      (map (fun i => GET_UINT32_LE key (4 * i)) (seq 0 (Z.to_nat (Z.shiftr keybits 5)))) /\
    rounds_of keybits = Some (nr ctx').
Proof.
  intros Hst Hkey. pose proof (key_words_ok _ _ Hkey) as Hw. destruct Hkey as ((r & Hr) & Hb & Hl).
  destruct (rounds_of_cases _ _ Hr) as (N & -> & _). destruct (init_tables_ok _ Hst) as [Ht Hst'].
  unfold mbedtls_aes_setkey_enc. rewrite Hr, Ht.
  destruct (expand_key_ok aes_gen_tables gen_tables_good keybits _
    (map (fun i => GET_UINT32_LE key (4 * i)) (seq 0 (Z.to_nat (Z.shiftr keybits 5)))) Hr) as [F L];
    [by rewrite length_map, length_seq|done|].
  eexists N, _, _, _. split; [reflexivity|]. split; [done|]. split; [done|]. cbn [nr buf].
  split; [done|]. split; [exact F|]. split; [lia|]. split; [reflexivity|]. split; [reflexivity|done].
Qed.

Lemma aes_ecb_inverse st ctxe ctxd key keybits b :
  static_ok st -> aes_key_ok key keybits ->
  length b = 16%nat -> bytes_ok b ->
  let '(re, ce, st1) := mbedtls_aes_setkey_enc st ctxe key keybits in
  let '(rd, cd, st2) := mbedtls_aes_setkey_dec st1 ctxd key keybits in
  re = 0 /\ rd = 0 /\ static_ok st2 /\ tables st1 = aes_gen_tables /\ tables st2 = aes_gen_tables /\
  snd (mbedtls_aes_crypt_ecb (tables st2) cd MBEDTLS_AES_DECRYPT
         (snd (mbedtls_aes_crypt_ecb (tables st2) ce MBEDTLS_AES_ENCRYPT b))) = b.
Proof.
  intros Hst Hkey Lb Hb.
  destruct (setkey_enc_keys st ctxe key keybits Hst Hkey) as (N & ws & ce & st1 & -> & Hst1 & T1 & Hne & F & L & Be & Ews & Hr).
  unfold mbedtls_aes_setkey_dec.
  destruct (setkey_enc_keys st1 mbedtls_aes_init key keybits Hst1 Hkey)
    as (N' & ws' & cy & st2 & -> & Hst2 & T2 & Hny & F' & L' & By & Ews' & Hr').
  assert (nr cy = nr ce) as Hnr by congruence. assert (ws' = ws) as -> by congruence.
  change (nz 0) with false. cbv iota. rewrite T2. repeat (split; [done|]).
  assert (Z.to_nat (nr cy) = 2 * N + 1 + 1)%nat as Hn2 by (rewrite Hnr, Hne; lia).
  unfold mbedtls_aes_crypt_ecb. change (MBEDTLS_AES_DECRYPT =? MBEDTLS_AES_ENCRYPT) with false.
  change (MBEDTLS_AES_ENCRYPT =? MBEDTLS_AES_ENCRYPT) with true. cbv iota. cbn [snd mbedtls_internal_aes_encrypt mbedtls_internal_aes_decrypt].
  apply (aes_block_inverse aes_gen_tables gen_tables_good N ws); auto; cbn [nr buf].
  - lia.
  - congruence.
  - intros i Hi. rewrite Be. apply key_at_store. lia.
  - intros i Hi. rewrite Hn2, By.
    rewrite key_at_store by (rewrite length_inv_schedule; [lia|rewrite length_store_words; simpl; lia]).
    rewrite !inv_schedule_keys; auto using gen_tables_good; try lia.
    + by rewrite key_at_store by lia.
    + apply Forall_app_2; [constructor|]. apply Forall_app_2; [done|].
      apply Forall_drop, Forall_replicate. unfold word_ok. lia.
    + rewrite length_store_words; simpl; lia.
Qed.

(** C27: For every 128-, 192- or 256-bit key, decrypting with the schedule of
    [mbedtls_aes_setkey_dec] undoes encrypting with the schedule of
    [mbedtls_aes_setkey_enc], through the generated T-tables, whether or not the
    tables had been generated before. *)
Theorem aes_decrypt_encrypt st ctxe ctxd key keybits b :
  static_ok st -> aes_key_ok key keybits -> length b = 16%nat -> bytes_ok b ->
  let '(re, ce, st1) := mbedtls_aes_setkey_enc st ctxe key keybits in
  let '(rd, cd, st2) := mbedtls_aes_setkey_dec st1 ctxd key keybits in
  re = 0 /\ rd = 0 /\
  snd (mbedtls_aes_crypt_ecb (tables st2) cd MBEDTLS_AES_DECRYPT
         (snd (mbedtls_aes_crypt_ecb (tables st2) ce MBEDTLS_AES_ENCRYPT b))) = b.
Proof.
  intros Hst Hk Lb Hb. pose proof (aes_ecb_inverse st ctxe ctxd key keybits b Hst Hk Lb Hb) as H.
  destruct (mbedtls_aes_setkey_enc st ctxe key keybits) as [[re ce] st1].
  destruct (mbedtls_aes_setkey_dec st1 ctxd key keybits) as [[rd cd] st2].
  destruct H as (H1 & H2 & _ & _ & _ & H3). split; [exact H1|split; [exact H2|exact H3]].
Qed.

(** The key and plaintext of FIPS 197 appendix C.1. *)
Lemma aes_decrypt_encrypt_witness :
  let key := [0; 1; 2; 3; 4; 5; 6; 7; 8; 9; 10; 11; 12; 13; 14; 15] in
  let pt := [0; 0x11; 0x22; 0x33; 0x44; 0x55; 0x66; 0x77; 0x88; 0x99; 0xaa; 0xbb; 0xcc; 0xdd; 0xee; 0xff] in
  let st := {| aes_init_done := 0; tables := aes_gen_tables |} in
  let '(re, ce, st1) := mbedtls_aes_setkey_enc st mbedtls_aes_init key 128 in
  let '(rd, cd, st2) := mbedtls_aes_setkey_dec st1 mbedtls_aes_init key 128 in
  re = 0 /\ rd = 0 /\
  snd (mbedtls_aes_crypt_ecb (tables st2) cd MBEDTLS_AES_DECRYPT
         (snd (mbedtls_aes_crypt_ecb (tables st2) ce MBEDTLS_AES_ENCRYPT pt))) = pt.
Proof.
  intros key pt st. apply (aes_decrypt_encrypt st mbedtls_aes_init mbedtls_aes_init key 128 pt).
  - left; reflexivity.
  - split; [by eexists|]. split; [unfold key; fbytes|reflexivity].
  - reflexivity.
  - unfold pt; fbytes.
Defined.

(** The same vector: the ciphertext FIPS 197 gives. *)
Example aes_fips197_c1 :
  let st := {| aes_init_done := 0; tables := aes_gen_tables |} in
  let '(_, ce, st1) := mbedtls_aes_setkey_enc st mbedtls_aes_init
    [0; 1; 2; 3; 4; 5; 6; 7; 8; 9; 10; 11; 12; 13; 14; 15] 128 in
  snd (mbedtls_aes_crypt_ecb (tables st1) ce MBEDTLS_AES_ENCRYPT
    [0; 0x11; 0x22; 0x33; 0x44; 0x55; 0x66; 0x77; 0x88; 0x99; 0xaa; 0xbb; 0xcc; 0xdd; 0xee; 0xff])
  = [0x69; 0xc4; 0xe0; 0xd8; 0x6a; 0x7b; 0x04; 0x30; 0xd8; 0xcd; 0xb7; 0x80; 0x70; 0xb4; 0xc5; 0x5a].
Proof. vm_compute. reflexivity. Qed.
