(* ===== verification/Cipher.v ===== *)
(** arm_iop/source/crypto/cipher.twl.c and cipher_wrap.twl.c, with the ciphers
    this build enables (common.h defines MBEDTLS_AES_C and no CBC/CFB/OFB/CTR/
    XTS/GCM/CCM mode): AES in ECB mode, three key sizes.

    A [mbedtls_cipher_context_t] owns its AES context through a pointer that is
    NULL, live or released; [mbedtls_platform_zeroize] is empty, so a released
    context keeps its dangling pointer. *)

From S2P Require Import Prelude Cmonad Cutils Aes.

Definition MBEDTLS_ERR_CIPHER_FEATURE_UNAVAILABLE : Z := -0x6080.
Definition MBEDTLS_ERR_CIPHER_BAD_INPUT_DATA : Z := -0x6100.
Definition MBEDTLS_ERR_CIPHER_ALLOC_FAILED : Z := -0x6180.
Definition MBEDTLS_ERR_CIPHER_FULL_BLOCK_EXPECTED : Z := -0x6280.
Definition MBEDTLS_ERR_CIPHER_AUTH_FAILED : Z := -0x6300.
Definition MBEDTLS_ERR_CIPHER_INVALID_CONTEXT : Z := -0x6380.

Inductive mbedtls_cipher_id_t :=
  MBEDTLS_CIPHER_ID_NONE | MBEDTLS_CIPHER_ID_NULL | MBEDTLS_CIPHER_ID_AES | MBEDTLS_CIPHER_ID_DES |
  MBEDTLS_CIPHER_ID_3DES | MBEDTLS_CIPHER_ID_CAMELLIA | MBEDTLS_CIPHER_ID_ARIA | MBEDTLS_CIPHER_ID_CHACHA20.
#[export] Instance mbedtls_cipher_id_t_eq_dec : EqDecision mbedtls_cipher_id_t.
Proof. solve_decision. Defined.

Inductive mbedtls_cipher_mode_t :=
  MBEDTLS_MODE_NONE | MBEDTLS_MODE_ECB | MBEDTLS_MODE_CBC | MBEDTLS_MODE_CFB | MBEDTLS_MODE_OFB | MBEDTLS_MODE_CTR.
#[export] Instance mbedtls_cipher_mode_t_eq_dec : EqDecision mbedtls_cipher_mode_t.
Proof. solve_decision. Defined.

Inductive mbedtls_operation_t := MBEDTLS_OPERATION_NONE | MBEDTLS_DECRYPT | MBEDTLS_ENCRYPT.
(** The enum's values, passed on as the AES mode. *)
Definition operation_val (o : mbedtls_operation_t) : Z :=
  match o with MBEDTLS_OPERATION_NONE => -1 | MBEDTLS_DECRYPT => 0 | MBEDTLS_ENCRYPT => 1 end.

Record mbedtls_cipher_info_t := {
  base_cipher : mbedtls_cipher_id_t; mode : mbedtls_cipher_mode_t;
  info_key_bitlen : Z; block_size : Z; flags : Z
}.
Definition MBEDTLS_CIPHER_VARIABLE_KEY_LEN : Z := 2.

Definition aes_ecb_info (bits : Z) : mbedtls_cipher_info_t :=
  {| base_cipher := MBEDTLS_CIPHER_ID_AES; mode := MBEDTLS_MODE_ECB; info_key_bitlen := bits;
     block_size := 16; flags := 0 |}.

(** mbedtls_cipher_definitions, up to its NULL terminator. *)
Definition mbedtls_cipher_definitions : list mbedtls_cipher_info_t :=
  [aes_ecb_info 128; aes_ecb_info 192; aes_ecb_info 256].

Inductive aes_ptr := PNull | PLive (c : mbedtls_aes_context) | PFreed.

Record mbedtls_cipher_context_t := {
  cipher_info : option mbedtls_cipher_info_t;
  key_bitlen : Z;
  operation : mbedtls_operation_t;
  cipher_ctx : aes_ptr
}.

(** A cipher context and the AES module's static data. *)
Record cipher_state := { cc : mbedtls_cipher_context_t; aes : aes_static }.
Definition set_cc c s := {| cc := c; aes := aes s |}.
Definition set_cipher_ctx p s :=
  set_cc {| cipher_info := cipher_info (cc s); key_bitlen := key_bitlen (cc s);
            operation := operation (cc s); cipher_ctx := p |} s.

(** memset 0: [MBEDTLS_DECRYPT] is the enum's zero. *)
Definition mbedtls_cipher_init : mbedtls_cipher_context_t :=
  {| cipher_info := None; key_bitlen := 0; operation := MBEDTLS_DECRYPT; cipher_ctx := PNull |}.

Definition mbedtls_cipher_info_from_values (id : mbedtls_cipher_id_t) (bits : Z) (m : mbedtls_cipher_mode_t)
  : option mbedtls_cipher_info_t :=
  find (fun i => bool_decide (base_cipher i = id) && (info_key_bitlen i =? u32 bits)
                 && bool_decide (mode i = m)) mbedtls_cipher_definitions.

(** [if( ctx->cipher_ctx ) ctx->cipher_info->base->ctx_free_func( ctx->cipher_ctx );] *)
Definition mbedtls_cipher_free : M cipher_state unit := fun s =>
  match cipher_ctx (cc s) with
  | PNull => Ok (tt, s)
  | PFreed => Fault UseAfterFree
  | PLive _ => match cipher_info (cc s) with
               | None => Fault NullDeref
               | Some _ => Ok (tt, set_cipher_ctx PFreed s)
               end
  end.

Definition mbedtls_cipher_setup (alloc : bool) (info : option mbedtls_cipher_info_t) : M cipher_state Z :=
  match info with
  | None => ret MBEDTLS_ERR_CIPHER_BAD_INPUT_DATA
  | Some i =>
      modify (set_cc mbedtls_cipher_init) ;;;
      if negb alloc then ret MBEDTLS_ERR_CIPHER_ALLOC_FAILED else
      modify (set_cc {| cipher_info := Some i; key_bitlen := 0; operation := MBEDTLS_DECRYPT;
                        cipher_ctx := PLive mbedtls_aes_init |}) ;;;
      ret 0
  end.

(** A key-schedule call through [cipher_info->base]. *)
Definition call_setkey
  (f : aes_static -> mbedtls_aes_context -> bytes -> Z -> Z * mbedtls_aes_context * aes_static)
  (key : bytes) (bits : Z) : M cipher_state Z := fun s =>
  match cipher_ctx (cc s) with
  | PNull => Fault NullDeref
  | PFreed => Fault UseAfterFree
  | PLive c =>
      let '(r, c, st) := f (aes s) c key bits in
      Ok (r, {| cc := cc (set_cipher_ctx (PLive c) s); aes := st |})
  end.

Definition mbedtls_cipher_setkey (key : bytes) (bits : Z) (op : mbedtls_operation_t) : M cipher_state Z :=
  let* c := gets cc in
  match cipher_info c with
  | None => ret MBEDTLS_ERR_CIPHER_BAD_INPUT_DATA
  | Some i =>
      if (Z.land (flags i) MBEDTLS_CIPHER_VARIABLE_KEY_LEN =? 0) && negb (info_key_bitlen i =? bits)
      then ret MBEDTLS_ERR_CIPHER_BAD_INPUT_DATA else
      modify (fun s => set_cc {| cipher_info := cipher_info (cc s); key_bitlen := bits; operation := op;
                                 cipher_ctx := cipher_ctx (cc s) |} s) ;;;
      match op, mode i with
      | MBEDTLS_ENCRYPT, _ | _, MBEDTLS_MODE_CFB | _, MBEDTLS_MODE_OFB | _, MBEDTLS_MODE_CTR =>
          call_setkey mbedtls_aes_setkey_enc key bits
      | MBEDTLS_DECRYPT, _ => call_setkey mbedtls_aes_setkey_dec key bits
      | _, _ => ret MBEDTLS_ERR_CIPHER_BAD_INPUT_DATA
      end
  end.

(** Returns the code and the bytes written to [output].  Every definition of
    this build is an ECB one; the other modes are compiled out. *)
Definition mbedtls_cipher_update (input : bytes) : M cipher_state (Z * bytes) := fun s =>
  match cipher_info (cc s) with
  | None => Ok ((MBEDTLS_ERR_CIPHER_BAD_INPUT_DATA, []), s)
  | Some i =>
      if block_size i =? 0 then Ok ((MBEDTLS_ERR_CIPHER_INVALID_CONTEXT, []), s) else
      match mode i with
      | MBEDTLS_MODE_ECB =>
          if negb (Z.of_nat (length input) =? block_size i)
          then Ok ((MBEDTLS_ERR_CIPHER_FULL_BLOCK_EXPECTED, []), s) else
          match cipher_ctx (cc s) with
          | PNull => Fault NullDeref
          | PFreed => Fault UseAfterFree
          | PLive c => Ok (mbedtls_aes_crypt_ecb (tables (aes s)) c (operation_val (operation (cc s))) input, s)
          end
      | _ => Ok ((MBEDTLS_ERR_CIPHER_FEATURE_UNAVAILABLE, []), s)
      end
  end.
