(* ===== verification/NistKw.v ===== *)
(** arm_iop/source/crypto/nist_kw.twl.c: NIST SP 800-38F key wrapping.

    [size_t] is 32 bits on the target, so length arithmetic is taken modulo
    2^32.  An output buffer is the byte string from its start; [R2] and [R] are
    offsets into it.  The theorems are proved against the interface
    [BlockCipher]; AES discharges it. *)

From S2P Require Import Prelude Cmonad Cutils Aes AesProofs Cipher.

Inductive mbedtls_nist_kw_mode_t := MBEDTLS_KW_MODE_KW | MBEDTLS_KW_MODE_KWP.

Definition KW_SEMIBLOCK_LENGTH : nat := 8.
Definition MIN_SEMIBLOCKS_COUNT : nat := 3.
Definition NIST_KW_ICV1 : bytes := [0xA6; 0xA6; 0xA6; 0xA6; 0xA6; 0xA6; 0xA6; 0xA6].
Definition NIST_KW_ICV2 : bytes := [0xA6; 0x59; 0x59; 0xA6].

(** [diff |= x ^ y] over the first [n] bytes. *)
Definition mbedtls_nist_kw_safer_memcmp (a b : bytes) (n : nat) : Z :=
  fold_left (fun diff xy => Z.lor diff (Z.lxor (fst xy) (snd xy))) (zip (take n a) (take n b)) 0.

Definition mbedtls_nist_kw_init (st : aes_static) : cipher_state :=
  {| cc := mbedtls_cipher_init; aes := st |}.

Definition mbedtls_nist_kw_setkey (alloc : bool) (id : mbedtls_cipher_id_t) (key : bytes) (keybits : Z)
  (is_wrap : Z) : M cipher_state Z :=
  match mbedtls_cipher_info_from_values id keybits MBEDTLS_MODE_ECB with
  | None => ret MBEDTLS_ERR_CIPHER_BAD_INPUT_DATA
  | Some info =>
      if negb (block_size info =? 16) then ret MBEDTLS_ERR_CIPHER_BAD_INPUT_DATA else
      if negb (bool_decide (id = MBEDTLS_CIPHER_ID_AES)) then ret MBEDTLS_ERR_CIPHER_FEATURE_UNAVAILABLE else
      mbedtls_cipher_free ;;;
      try* mbedtls_cipher_setup alloc (Some info) in
      mbedtls_cipher_setkey key keybits (if nz is_wrap then MBEDTLS_ENCRYPT else MBEDTLS_DECRYPT)
  end.

Definition mbedtls_nist_kw_free : M cipher_state unit := mbedtls_cipher_free.

(** [A[i] ^= ( t >> ( ( sizeof( t ) - 1 - i ) * 8 ) ) & 0xff], for the 8 bytes. *)
Definition calc_a_xor_t (A : bytes) (t : Z) : bytes :=
  zip_with (fun a i => Z.lxor a (Z.land (Z.shiftr t ((7 - Z.of_nat i) * 8)) 0xff)) A (seq 0 8).

Definition semi (b : bytes) (off : nat) : bytes := take 8 (drop off b).

(** [for( t = 1; t <= s; t++ )] of the wrapping function W: [n] turns from [t]. *)
Fixpoint wrap_loop (n : nat) (t : Z) (semiblocks : nat) (R2 : nat) (output : bytes)
  : M cipher_state (Z * bytes) :=
  match n with
  | O => ret (0, output)
  | S n =>
      let inbuff := semi output 0 ++ semi output R2 in
      let* '(r, outbuff) := mbedtls_cipher_update inbuff in
      if nz r then ret (r, output) else
      let output := blit 0 (calc_a_xor_t (take 8 outbuff) t) output in
      let output := blit R2 (semi outbuff 8) output in
      let R2 := (R2 + 8)%nat in
      let R2 := if (semiblocks * 8 <=? R2)%nat then 8%nat else R2 in
      wrap_loop n (t + 1) semiblocks R2 output
  end.

(** Returns the code, the [semiblocks * 8] bytes of [output] and [*out_len]. *)
Definition mbedtls_nist_kw_wrap (m : mbedtls_nist_kw_mode_t) (input : bytes) (out_size : Z)
  : M cipher_state (Z * bytes * Z) :=
  let in_len := Z.of_nat (length input) in
  let prep :=
    match m with
    | MBEDTLS_KW_MODE_KW =>
        if out_size <? u32 (in_len + 8) then None else
        if (in_len <? 16) || negb (in_len mod 8 =? 0) then None else
        Some (NIST_KW_ICV1 ++ input, 0%nat)
    | MBEDTLS_KW_MODE_KWP =>
        let padlen := if negb (in_len mod 8 =? 0) then 8 - in_len mod 8 else 0 in
        if out_size <? u32 (in_len + 8 + padlen) then None else
        if in_len <? 1 then None else
        Some (NIST_KW_ICV2 ++ be_bytes 4 (Z.land in_len 0xffffffff) ++ input ++
              replicate (Z.to_nat padlen) 0, Z.to_nat padlen)
    end in
  match prep with
  | None => ret (MBEDTLS_ERR_CIPHER_BAD_INPUT_DATA, [], 0)
  | Some (output, padlen) =>
      let semiblocks := ((length input + padlen) / 8 + 1)%nat in
      let s := (6 * (semiblocks - 1))%nat in
      let short := match m with MBEDTLS_KW_MODE_KWP => in_len <=? 8 | _ => false end in
      let* '(r, output) :=
        (if short then
           let* '(r, out) := mbedtls_cipher_update (take 16 output) in
           ret (r, if nz r then output else blit 0 out output)
         else if (semiblocks <? MIN_SEMIBLOCKS_COUNT)%nat then ret (MBEDTLS_ERR_CIPHER_BAD_INPUT_DATA, output)
         else wrap_loop s 1 semiblocks 8 output) in
      if nz r then ret (r, replicate (semiblocks * 8) 0, 0)
      else ret (0, output, Z.of_nat (semiblocks * 8))
  end.

(** [for( t = s; t >= 1; t-- )] of W-1: [n] turns down from [t]. *)
Fixpoint unwrap_loop (n : nat) (t : Z) (semiblocks : nat) (R : nat) (A output : bytes)
  : M cipher_state (Z * bytes * bytes) :=
  match n with
  | O => ret (0, A, output)
  | S n =>
      let A := calc_a_xor_t A t in
      let inbuff := A ++ semi output R in
      let* '(r, outbuff) := mbedtls_cipher_update inbuff in
      if nz r then ret (r, A, output) else
      let A := take 8 outbuff in
      let output := blit R (semi outbuff 8) output in
      let R := if (R =? 0)%nat then ((semiblocks - 2) * 8)%nat else (R - 8)%nat in
      unwrap_loop n (t - 1) semiblocks R A output
  end.

(** Returns the code, [A], [output] and [*out_len].  [A] is uninitialised when
    the length check fails; no caller reads it then. *)
Definition unwrap (input : bytes) (semiblocks : nat) : M cipher_state (Z * bytes * bytes * Z) :=
  if (semiblocks <? MIN_SEMIBLOCKS_COUNT)%nat then ret (MBEDTLS_ERR_CIPHER_BAD_INPUT_DATA, [], [], 0) else
  let s := (6 * (semiblocks - 1))%nat in
  let* '(r, A, output) :=
    unwrap_loop s (Z.of_nat s) semiblocks ((semiblocks - 2) * 8) (take 8 input)
      (take ((semiblocks - 1) * 8) (drop 8 input)) in
  if nz r then ret (r, A, replicate ((semiblocks - 1) * 8) 0, 0)
  else ret (0, A, output, Z.of_nat ((semiblocks - 1) * 8)).

(** The KWP checks after decryption: integrity value, length, zero padding. *)
Definition kwp_check (in_len : Z) (A output : bytes) (out_len : Z) : Z * Z * Z :=
  let diff := mbedtls_nist_kw_safer_memcmp NIST_KW_ICV2 A 4 in
  let r := if nz diff then MBEDTLS_ERR_CIPHER_AUTH_FAILED else 0 in
  let Plen := be_val (take 4 (drop 4 A)) in
  let padlen := u32 (in_len - 8 - Plen) in
  let '(padlen, r) := if 7 <? padlen then (Z.land padlen 7, MBEDTLS_ERR_CIPHER_AUTH_FAILED) else (padlen, r) in
  let last := take 8 (drop (Z.to_nat (out_len - 8)) output) in
  let diff := fold_left Z.lor (drop (Z.to_nat (8 - padlen)) last) 0 in
  let r := if nz diff then MBEDTLS_ERR_CIPHER_AUTH_FAILED else r in
  (r, Plen, padlen).

(** Returns the code, the bytes of [output] and [*out_len]. *)
Definition mbedtls_nist_kw_unwrap (m : mbedtls_nist_kw_mode_t) (input : bytes) (out_size : Z)
  : M cipher_state (Z * bytes * Z) :=
  let in_len := Z.of_nat (length input) in
  if out_size <? u32 (in_len - 8) then ret (MBEDTLS_ERR_CIPHER_BAD_INPUT_DATA, [], 0) else
  match m with
  | MBEDTLS_KW_MODE_KW =>
      if (in_len <? 24) || negb (in_len mod 8 =? 0) then ret (MBEDTLS_ERR_CIPHER_BAD_INPUT_DATA, [], 0) else
      let* '(r, A, output, out_len) := unwrap input (length input / 8) in
      let r := if nz r then r else
               if nz (mbedtls_nist_kw_safer_memcmp NIST_KW_ICV1 A 8)
               then MBEDTLS_ERR_CIPHER_AUTH_FAILED else 0 in
      if nz r then ret (r, blit 0 (replicate (Z.to_nat out_len) 0) output, 0) else ret (0, output, out_len)
  | MBEDTLS_KW_MODE_KWP =>
      if (in_len <? 16) || negb (in_len mod 8 =? 0) then ret (MBEDTLS_ERR_CIPHER_BAD_INPUT_DATA, [], 0) else
      let* '(r, A, output, out_len) :=
        (if in_len =? 16 then
           let* '(r, outbuff) := mbedtls_cipher_update input in
           if nz r then ret (r, [], [], 0) else ret (0, take 8 outbuff, semi outbuff 8, 8)
         else unwrap input (length input / 8)) in
      if nz r then ret (r, blit 0 (replicate (Z.to_nat out_len) 0) output, 0) else
      let '(r, Plen, padlen) := kwp_check in_len A output out_len in
      if nz r then ret (r, blit 0 (replicate (Z.to_nat out_len) 0) output, 0) else
      ret (0, blit (Z.to_nat Plen) (replicate (Z.to_nat padlen) 0) output, Plen)
  end.
