(* ===== verification/NistKwProofs.v ===== *)
(** Key wrapping: unwrapping inverts wrapping, and a failed integrity check
    returns no key material.  Proved for any block cipher with an inverse; the
    AES contexts that [mbedtls_nist_kw_setkey] prepares are one. *)

From S2P Require Import Prelude Cmonad Cutils Aes AesProofs Cipher NistKw.

Definition block_ok (b : bytes) : Prop := length b = 16%nat /\ bytes_ok b.

(** What key wrapping needs from a cipher. *)
Class BlockCipher := {
  bc_enc : bytes -> bytes;
  bc_dec : bytes -> bytes;
  bc_enc_ok : forall b, block_ok b -> block_ok (bc_enc b);
  bc_dec_ok : forall b, block_ok b -> block_ok (bc_dec b);
  bc_inv : forall b, block_ok b -> bc_dec (bc_enc b) = b
}.

(** The context [s] runs the block function [f]. *)
Definition runs (s : cipher_state) (f : bytes -> bytes) : Prop :=
  forall b, length b = 16%nat -> mbedtls_cipher_update b s = Ok ((0, f b), s).

(** ** One semiblock step *)

Lemma length_calc A t : length A = 8%nat -> length (calc_a_xor_t A t) = 8%nat.
Proof. intros. unfold calc_a_xor_t. rewrite length_zip_with, length_seq. lia. Qed.

Lemma calc_ok A t : bytes_ok A -> bytes_ok (calc_a_xor_t A t).
Proof.
  intros H. unfold calc_a_xor_t. generalize (seq 0 8) as l. induction H as [|a A Ha H IH]; intros [|i l]; simpl;
    constructor; [|apply IH].
  apply byte_lxor; [done|]. change 0xff with (2 ^ 8 - 1). rewrite land_mask by lia. apply Z.mod_pos_bound. lia.
Qed.

Lemma calc_invol A t : length A = 8%nat -> calc_a_xor_t (calc_a_xor_t A t) t = A.
Proof.
  intros L. unfold calc_a_xor_t. assert (length A <= length (seq 0 8))%nat as H by (rewrite length_seq; lia).
  revert H. generalize (seq 0 8) as l. clear L. induction A as [|a A IH]; intros [|i l] H; simpl in *; try done; [lia|].
  rewrite IH by lia. by rewrite Z.lxor_assoc, Z.lxor_nilpotent, Z.lxor_0_r.
Qed.

Section Loops.
Context `{BC : BlockCipher}.
Variable n : nat.   (* semiblocks of key material *)
Hypothesis Hn : (0 < n)%nat.

Definition kst : Type := bytes * bytes.
Definition kst_ok (x : kst) : Prop :=
  length x.1 = 8%nat /\ bytes_ok x.1 /\ length x.2 = (8 * n)%nat /\ bytes_ok x.2.

Definition wstep (t : Z) (i : nat) (x : kst) : kst :=
  let o := bc_enc (x.1 ++ semi x.2 (8 * i)) in
  (calc_a_xor_t (take 8 o) t, blit (8 * i) (semi o 8) x.2).
Definition ustep (t : Z) (i : nat) (x : kst) : kst :=
  let o := bc_dec (calc_a_xor_t x.1 t ++ semi x.2 (8 * i)) in
  (take 8 o, blit (8 * i) (semi o 8) x.2).

Lemma length_semi b off : (off + 8 <= length b)%nat -> length (semi b off) = 8%nat.
Proof. intros. unfold semi. rewrite length_take, length_drop. lia. Qed.
Lemma semi_ok b off : bytes_ok b -> bytes_ok (semi b off).
Proof. intros. by apply Forall_take, Forall_drop. Qed.

Lemma step_block A R i : length A = 8%nat -> bytes_ok A -> length R = (8 * n)%nat -> bytes_ok R -> (i < n)%nat ->
  block_ok (A ++ semi R (8 * i)).
Proof.
  intros. split; [rewrite length_app, length_semi; lia|].
  apply Forall_app; split; [done|by apply semi_ok].
Qed.

Lemma wstep_ok t i x : kst_ok x -> (i < n)%nat -> kst_ok (wstep t i x).
Proof.
  destruct x as [A R]. intros (HA & HAb & HR & HRb) Hi. simpl in *.
  destruct (bc_enc_ok (A ++ semi R (8 * i))) as [L B]; [by apply step_block|].
  unfold wstep. cbn [fst snd]. set (o := bc_enc (A ++ semi R (8 * i))) in *. clearbody o.
  unfold kst_ok. cbn [fst snd]. split; [apply length_calc; rewrite length_take; lia|]. split; [by apply calc_ok, Forall_take|].
  split; [rewrite length_blit; rewrite ?length_semi; simpl; lia|]. by apply blit_ok; [apply semi_ok|].
Qed.

Lemma semi_blit_same R i v : length v = 8%nat -> (8 * i + 8 <= length R)%nat -> semi (blit (8 * i) v R) (8 * i) = v.
Proof. intros Hv Hi. unfold semi. rewrite <- Hv at 1. apply slice_blit. lia. Qed.

Lemma blit_blit R off v w :
  length v = length w -> (off + length v <= length R)%nat -> blit off v (blit off w R) = blit off v R.
Proof.
  intros Hl Hb. unfold blit. rewrite Hl, take_app_le, take_take, Nat.min_id by (rewrite length_take; lia).
  do 2 f_equal. rewrite app_assoc, drop_app_length' by (rewrite length_app, length_take; lia). done.
Qed.

Lemma blit_semi R i : (8 * i + 8 <= length R)%nat -> blit (8 * i) (semi R (8 * i)) R = R.
Proof.
  intros. unfold blit. rewrite length_semi by lia. unfold semi. rewrite <- drop_drop, take_drop, take_drop. done.
Qed.

Lemma ustep_wstep t i x : kst_ok x -> (i < n)%nat -> ustep t i (wstep t i x) = x.
Proof.
  destruct x as [A R]. intros (HA & HAb & HR & HRb) Hi. simpl in *.
  pose proof (step_block A R i HA HAb HR HRb Hi) as Hb. pose proof (bc_enc_ok _ Hb) as [L B].
  unfold ustep, wstep. cbn [fst snd]. set (o := bc_enc (A ++ semi R (8 * i))) in *.
  assert (length (semi o 8) = 8%nat) as Lo by (rewrite length_semi; lia).
  rewrite calc_invol by (rewrite length_take; lia). rewrite semi_blit_same by lia.
  assert (take 8 o ++ semi o 8 = o) as ->.
  { unfold semi. rewrite (take_ge (drop 8 o)) by (rewrite length_drop; lia). apply take_drop. }
  unfold o at 1 2. rewrite bc_inv by done. rewrite take_app_length' by done.
  f_equal. unfold semi at 1. rewrite drop_app_length' by done. rewrite (take_ge (semi R _)) by (rewrite length_semi; lia).
  rewrite blit_blit by (rewrite ?Lo; rewrite ?length_semi; lia). apply blit_semi. lia.
Qed.

(** ** The loops as iterations of the steps *)

Definition next (i : nat) : nat := if (S i =? n)%nat then 0%nat else S i.
Definition prev (i : nat) : nat := if (i =? 0)%nat then (n - 1)%nat else (i - 1)%nat.

Lemma next_lt i : (i < n)%nat -> (next i < n)%nat.
Proof. intros. unfold next. destruct (S i =? n)%nat eqn:E; [lia|]. apply Nat.eqb_neq in E. lia. Qed.
Lemma prev_next i : (i < n)%nat -> prev (next i) = i.
Proof.
  intros. unfold prev, next. destruct (S i =? n)%nat eqn:E; simpl; [apply Nat.eqb_eq in E; lia|].
  lia.
Qed.
Lemma iter_next_mod k : Nat.iter k next 0%nat = (k mod n)%nat.
Proof.
  induction k as [|k IH]; [by rewrite Nat.Div0.mod_0_l|]. simpl. rewrite IH. unfold next.
  pose proof (Nat.mod_upper_bound k n ltac:(lia)). pose proof (Nat.div_mod_eq k n).
  destruct (S (k mod n) =? n)%nat eqn:E; [apply Nat.eqb_eq in E|apply Nat.eqb_neq in E].
  - apply (Nat.mod_unique _ _ (S (k / n))); lia.
  - apply (Nat.mod_unique _ _ (k / n)); lia.
Qed.

Fixpoint witer (k : nat) (t : Z) (i : nat) (x : kst) : kst :=
  match k with O => x | S k => witer k (t + 1) (next i) (wstep t i x) end.
Fixpoint uiter (k : nat) (t : Z) (i : nat) (x : kst) : kst :=
  match k with O => x | S k => uiter k (t - 1) (prev i) (ustep t i x) end.

Lemma uiter_last k t i x :
  uiter (S k) t i x = ustep (t - Z.of_nat k) (Nat.iter k prev i) (uiter k t i x).
Proof.
  revert t i x; induction k as [|k IH]; intros t i x; [simpl; f_equal; lia|].
  change (uiter (S (S k)) t i x) with (uiter (S k) (t - 1) (prev i) (ustep t i x)).
  rewrite IH. rewrite Nat.iter_succ_r. f_equal. lia.
Qed.

Lemma iter_prev_next k i : (i < n)%nat -> Nat.iter k prev (Nat.iter k next i) = i.
Proof.
  revert i; induction k as [|k IH]; intros i Hi; [done|].
  rewrite Nat.iter_succ_r. simpl Nat.iter at 2. rewrite prev_next; [by apply IH|].
  clear IH. induction k; simpl; auto using next_lt.
Qed.

Lemma witer_ok k t i x : kst_ok x -> (i < n)%nat -> kst_ok (witer k t i x).
Proof. revert t i x; induction k; intros; simpl; auto using wstep_ok, next_lt. Qed.

Lemma uiter_witer k t i x :
  kst_ok x -> (i < n)%nat ->
  uiter k (t + Z.of_nat k - 1) (Nat.iter (k - 1) next i) (witer k t i x) = x.
Proof.
  revert t i x; induction k as [|k IH]; intros t i x Hx Hi; [done|].
  rewrite uiter_last. replace (S k - 1)%nat with k by lia. rewrite iter_prev_next by done.
  simpl witer. replace (t + Z.of_nat (S k) - 1 - Z.of_nat k) with t by lia.
  replace (t + Z.of_nat (S k) - 1) with (t + 1 + Z.of_nat k - 1) by lia.
  destruct k as [|k]; [simpl; by apply ustep_wstep|].
  pose proof (IH (t + 1) (next i) (wstep t i x) ltac:(auto using wstep_ok) ltac:(auto using next_lt)) as E.
  replace (S k - 1)%nat with k in E by lia. rewrite Nat.iter_succ_r, E. by apply ustep_wstep.
Qed.

Lemma semi_app_r (A R : bytes) off : length A = 8%nat -> semi (A ++ R) (8 + off) = semi R off.
Proof. intros. unfold semi. by rewrite drop_app_ge, H, Nat.add_comm, Nat.add_sub by lia. Qed.
Lemma semi_app_l (A R : bytes) : length A = 8%nat -> semi (A ++ R) 0 = A.
Proof. intros. unfold semi. rewrite drop_0. by apply take_app_length'. Qed.
Lemma blit_app_l (A A' R : bytes) : length A = length A' -> blit 0 A' (A ++ R) = A' ++ R.
Proof. intros. unfold blit. simpl. by rewrite drop_app_length'. Qed.
Lemma blit_app_r (A R v : bytes) off : length A = 8%nat -> blit (8 + off) v (A ++ R) = A ++ blit off v R.
Proof.
  intros. unfold blit. rewrite take_app_ge, drop_app_ge, H, <- app_assoc by lia.
  replace (8 + off - 8)%nat with off by lia. by replace (8 + off + length v - 8)%nat with (off + length v)%nat by lia.
Qed.

Lemma wrap_loop_iter s k t i x :
  runs s bc_enc -> kst_ok x -> (i < n)%nat ->
  wrap_loop k t (n + 1) (8 + 8 * i) (x.1 ++ x.2) s =
    Ok ((0, (witer k t i x).1 ++ (witer k t i x).2), s).
Proof.
  intros Hs. revert t i x; induction k as [|k IH]; intros t i x Hx Hi; [done|].
  pose proof (wstep_ok t i x Hx Hi) as Hx'. cbn [wrap_loop witer]. destruct x as [A R].
  destruct Hx as (HA & HAb & HR & HRb). cbn [fst snd] in *.
  rewrite semi_app_l, semi_app_r by done. unfold bind.
  rewrite (Hs (A ++ semi R (8 * i))) by (rewrite length_app, length_semi; lia).
  change (nz 0) with false. cbv beta iota.
  destruct (bc_enc_ok (A ++ semi R (8 * i))) as [L B]; [by apply step_block|].
  assert (length (take 8 (bc_enc (A ++ semi R (8 * i)))) = 8%nat) as Lt by (rewrite length_take; lia).
  rewrite blit_app_l by (rewrite length_calc; lia). rewrite blit_app_r by (apply length_calc; lia).
  change (wstep t i (A, R)) with
    (calc_a_xor_t (take 8 (bc_enc (A ++ semi R (8 * i)))) t, blit (8 * i) (semi (bc_enc (A ++ semi R (8 * i))) 8) R) in *.
  set (x' := (calc_a_xor_t _ t, blit _ _ R)) in *.
  assert ((if ((n + 1) * 8 <=? 8 + 8 * i + 8)%nat then 8%nat else (8 + 8 * i + 8)%nat) = (8 + 8 * next i)%nat) as ->.
  { unfold next. destruct (S i =? n)%nat eqn:E; [apply Nat.eqb_eq in E|apply Nat.eqb_neq in E].
    - rewrite (proj2 (Nat.leb_le _ _)) by lia. lia.
    - rewrite (proj2 (Nat.leb_gt _ _)) by lia. lia. }
  apply (IH (t + 1) (next i) x' Hx' (next_lt i Hi)).
Qed.

Lemma ustep_ok t i x : kst_ok x -> (i < n)%nat -> kst_ok (ustep t i x).
Proof.
  destruct x as [A R]. intros (HA & HAb & HR & HRb) Hi. simpl in *.
  destruct (bc_dec_ok (calc_a_xor_t A t ++ semi R (8 * i))) as [L B];
    [apply step_block; auto using length_calc, calc_ok|].
  unfold ustep. cbn [fst snd]. set (o := bc_dec _) in *. clearbody o.
  unfold kst_ok. cbn [fst snd]. split; [rewrite length_take; lia|]. split; [by apply Forall_take|].
  split; [rewrite length_blit; rewrite ?length_semi; simpl; lia|]. by apply blit_ok; [apply semi_ok|].
Qed.

Lemma prev_lt i : (i < n)%nat -> (prev i < n)%nat.
Proof. intros. unfold prev. destruct (i =? 0)%nat; lia. Qed.

Lemma uiter_ok k t i x : kst_ok x -> (i < n)%nat -> kst_ok (uiter k t i x).
Proof. revert t i x; induction k; intros; simpl; auto using ustep_ok, prev_lt. Qed.

Lemma unwrap_loop_iter s k t i x :
  runs s bc_dec -> kst_ok x -> (i < n)%nat ->
  unwrap_loop k t (n + 1) (8 * i) x.1 x.2 s = Ok ((0, (uiter k t i x).1, (uiter k t i x).2), s).
Proof.
  intros Hs. revert t i x; induction k as [|k IH]; intros t i x Hx Hi; [done|].
  pose proof (ustep_ok t i x Hx Hi) as Hx'. cbn [unwrap_loop uiter]. destruct x as [A R].
  destruct Hx as (HA & HAb & HR & HRb). cbn [fst snd] in *. unfold bind.
  rewrite (Hs (calc_a_xor_t A t ++ semi R (8 * i))) by (rewrite length_app, length_semi, length_calc; lia).
  change (nz 0) with false. cbv beta iota.
  assert ((if (8 * i =? 0)%nat then ((n + 1 - 2) * 8)%nat else (8 * i - 8)%nat) = (8 * prev i)%nat) as ->.
  { unfold prev. destruct (i =? 0)%nat eqn:E; [apply Nat.eqb_eq in E|apply Nat.eqb_neq in E].
    - subst. simpl. lia.
    - rewrite (proj2 (Nat.eqb_neq _ _)) by lia. lia. }
  apply (IH (t - 1) (prev i) (ustep t i (A, R)) Hx' (prev_lt i Hi)).
Qed.
End Loops.

(** ** The integrity check *)

Lemma safer_memcmp_eq a b n :
  length a = length b -> bytes_ok a -> bytes_ok b ->
  nz (mbedtls_nist_kw_safer_memcmp a b n) = false <-> take n a = take n b.
Proof.
  intros L Ha Hb. unfold mbedtls_nist_kw_safer_memcmp, nz. rewrite negb_false_iff, Z.eqb_eq.
  assert (length (take n a) = length (take n b)) as L' by (rewrite !length_take; lia).
  apply (Forall_take _ n) in Ha, Hb. revert L' Ha Hb. generalize (take n a) as x, (take n b) as y. clear.
  assert (forall x y acc, length x = length y -> bytes_ok x -> bytes_ok y ->
    fold_left (fun diff xy => Z.lor diff (Z.lxor (fst xy) (snd xy))) (zip x y) acc = 0 <-> acc = 0 /\ x = y) as H.
  { induction x as [|a x IH]; intros [|b y] acc L Hx Hy; simpl in *; try lia; [intuition congruence|].
    apply Forall_cons in Hx as [Ha Hx], Hy as [Hb Hy]. rewrite IH by (auto; lia).
    rewrite Z.lor_eq_0_iff, Z.lxor_eq_0_iff. intuition congruence. }
  intros x y L Hx Hy. rewrite H by done. intuition congruence.
Qed.

(** ** Round trip *)

Section RoundTrip.
Context `{BC : BlockCipher}.
Variables sw su : cipher_state.
Hypothesis Hw : runs sw bc_enc.
Hypothesis Hu : runs su bc_dec.

Lemma kw_wrap_result input out_size :
  (2 <= length input / 8)%nat -> (length input mod 8 = 0)%nat -> bytes_ok input ->
  Z.of_nat (length input) + 8 <= out_size < 2 ^ 32 ->
  let n := (length input / 8)%nat in
  let x := witer n (6 * n) 1 0 (NIST_KW_ICV1, input) in
  mbedtls_nist_kw_wrap MBEDTLS_KW_MODE_KW input out_size sw =
    Ok ((0, x.1 ++ x.2, Z.of_nat (length input) + 8), sw) /\ kst_ok n x.
Proof.
  intros H2 Hm Hb Hs n x. pose proof (Nat.div_mod_eq (length input) 8) as Hdm. fold n in Hdm, H2.
  assert (kst_ok n (NIST_KW_ICV1, input)) as Hx0.
  { split; [done|]. split; [cbn [fst]; unfold NIST_KW_ICV1; fbytes|]. split; [cbn [snd]; lia|done]. }
  split; [|apply witer_ok; [lia|done|lia]].
  unfold mbedtls_nist_kw_wrap. rewrite u32_id by lia.
  rewrite (proj2 (Z.ltb_ge _ _)) by lia. rewrite (proj2 (Z.ltb_ge _ _)) by lia.
  assert (Z.of_nat (length input) mod 8 = 0) as -> by (rewrite Hdm; zdm).
  cbn [Z.eqb negb orb]. rewrite Nat.add_0_r. fold n.
  replace (n + 1 - 1)%nat with n by lia. unfold MIN_SEMIBLOCKS_COUNT.
  rewrite (proj2 (Nat.ltb_ge _ _)) by lia.
  pose proof (wrap_loop_iter n ltac:(lia) sw (6 * n) 1 0 (NIST_KW_ICV1, input) Hw Hx0 ltac:(lia)) as E.
  fold x in E. cbn [fst snd] in E. change (8 + 8 * 0)%nat with 8%nat in E.
  unfold bind. rewrite E. change (nz 0) with false. cbv beta iota. unfold ret. do 3 f_equal. lia.
Qed.

Lemma kw_unwrap_result A R out_size :
  let n := (length R / 8)%nat in
  (2 <= n)%nat -> (length R mod 8 = 0)%nat -> length A = 8%nat -> bytes_ok A -> bytes_ok R ->
  Z.of_nat (length R) <= out_size < 2 ^ 32 -> Z.of_nat (length R) < 2 ^ 32 - 8 ->
  let y := uiter n (6 * n) (6 * Z.of_nat n) (n - 1) (A, R) in
  mbedtls_nist_kw_unwrap MBEDTLS_KW_MODE_KW (A ++ R) out_size su =
    Ok (if nz (mbedtls_nist_kw_safer_memcmp NIST_KW_ICV1 y.1 8)
        then (MBEDTLS_ERR_CIPHER_AUTH_FAILED, replicate (length R) 0, 0)
        else (0, y.2, Z.of_nat (length R)), su) /\ kst_ok n y.
Proof.
  intros n H2 Hm HA HAb HRb Hs Hs2 y. pose proof (Nat.div_mod_eq (length R) 8) as Hdm. fold n in Hdm.
  assert (kst_ok n (A, R)) as Hx0 by (split; [done|]; split; [done|]; split; [cbn [snd]; lia|done]).
  assert (kst_ok n y) as Hy by (apply uiter_ok; [lia|done|lia]). split; [|done].
  unfold mbedtls_nist_kw_unwrap. rewrite length_app, HA.
  rewrite u32_id by lia. rewrite (proj2 (Z.ltb_ge _ _)) by lia. rewrite (proj2 (Z.ltb_ge _ _)) by lia.
  assert (Z.of_nat (8 + length R) mod 8 = 0) as -> by (rewrite Hdm; zdm). cbn [Z.eqb negb orb].
  assert ((8 + length R) / 8 = n + 1)%nat as ->.
  { replace (8 + length R)%nat with (length R + 1 * 8)%nat by lia. rewrite Nat.div_add by lia. done. }
  unfold unwrap, MIN_SEMIBLOCKS_COUNT. rewrite (proj2 (Nat.ltb_ge _ _)) by lia.
  rewrite take_app_length', drop_app_length' by done.
  replace ((n + 1 - 1) * 8)%nat with (length R) by lia. rewrite (take_ge R) by lia.
  replace (n + 1 - 1)%nat with n by lia. replace ((n + 1 - 2) * 8)%nat with (8 * (n - 1))%nat by lia.
  pose proof (unwrap_loop_iter n ltac:(lia) su (6 * n) (6 * Z.of_nat n) (n - 1) (A, R) Hu Hx0 ltac:(lia)) as E.
  fold y in E. cbn [fst snd] in E. replace (Z.of_nat (6 * n)) with (6 * Z.of_nat n) by lia.
  unfold bind. rewrite E. change (nz 0) with false. cbv beta iota. unfold ret.
  destruct Hy as (_ & _ & Hy2 & _).
  destruct (nz (mbedtls_nist_kw_safer_memcmp NIST_KW_ICV1 y.1 8)) eqn:E8; change (nz 0) with false; cbv iota.
  - change (nz MBEDTLS_ERR_CIPHER_AUTH_FAILED) with true. cbv iota beta. rewrite Nat2Z.id, blit_all;
      [done|rewrite length_replicate; lia].
  - done.
Qed.
End RoundTrip.

Lemma kw_unwrap_wrap_generic `{BlockCipher} sw su input out_size :
  runs sw bc_enc -> runs su bc_dec ->
  (2 <= length input / 8)%nat -> (length input mod 8 = 0)%nat -> bytes_ok input ->
  Z.of_nat (length input) + 8 <= out_size < 2 ^ 32 ->
  exists ct,
    mbedtls_nist_kw_wrap MBEDTLS_KW_MODE_KW input out_size sw = Ok ((0, ct, Z.of_nat (length input) + 8), sw) /\
    mbedtls_nist_kw_unwrap MBEDTLS_KW_MODE_KW ct out_size su = Ok ((0, input, Z.of_nat (length input)), su).
Proof.
  intros Hw Hu H2 Hm Hb Hs. set (n := (length input / 8)%nat) in *.
  destruct (kw_wrap_result sw Hw input out_size H2 Hm Hb Hs) as [E Hx]. fold n in E, Hx.
  set (x := witer n (6 * n) 1 0 (NIST_KW_ICV1, input)) in *.
  exists (x.1 ++ x.2). split; [exact E|]. pose proof (Nat.div_mod_eq (length input) 8) as Hdm. fold n in Hdm.
  pose proof Hx as (HA & HAb & HR & HRb).
  assert (length x.2 = length input) as HRl by lia.
  destruct (kw_unwrap_result su Hu x.1 x.2 out_size) as [E2 _]; rewrite ?HRl; auto; try lia.
  rewrite E2, HRl. fold n. rewrite <- (surjective_pairing x).
  pose proof (uiter_witer n ltac:(lia) (6 * n) 1 0 (NIST_KW_ICV1, input)) as U. fold x in U.
  rewrite iter_next_mod in U by lia.
  assert (((6 * n - 1) mod n)%nat = (n - 1)%nat) as Hmod.
  { symmetry. apply (Nat.mod_unique _ n 5 (n - 1)); lia. }
  rewrite Hmod in U. replace (1 + Z.of_nat (6 * n) - 1) with (6 * Z.of_nat n) in U by lia.
  rewrite U; [done| |lia].
  split; [done|]. split; [cbn [fst]; unfold NIST_KW_ICV1; fbytes|]. split; [cbn [snd]; lia|done].
Qed.

(** ** AES contexts *)

#[local] Opaque aes_gen_tables expand_key inv_schedule.

Definition gen_static : aes_static := {| aes_init_done := 1; tables := aes_gen_tables |}.
Definition aes_enc_block (key : bytes) (bits : Z) (b : bytes) : bytes :=
  let '(_, c, _) := mbedtls_aes_setkey_enc gen_static mbedtls_aes_init key bits in
  snd (mbedtls_aes_crypt_ecb aes_gen_tables c MBEDTLS_AES_ENCRYPT b).
Definition aes_dec_block (key : bytes) (bits : Z) (b : bytes) : bytes :=
  let '(_, c, _) := mbedtls_aes_setkey_dec gen_static mbedtls_aes_init key bits in
  snd (mbedtls_aes_crypt_ecb aes_gen_tables c MBEDTLS_AES_DECRYPT b).

Lemma crypt_ecb_block T c m b : block_ok (snd (mbedtls_aes_crypt_ecb T c m b)).
Proof.
  unfold mbedtls_aes_crypt_ecb, mbedtls_internal_aes_encrypt, mbedtls_internal_aes_decrypt, aes_block.
  destruct (m =? MBEDTLS_AES_ENCRYPT); destruct (double_rounds _ _ _ _); apply put_state_ok.
Qed.

#[local] Opaque mbedtls_aes_crypt_ecb.

(** The schedules depend on the key only. *)
Lemma setkey_enc_static st ctx key bits :
  static_ok st -> aes_key_ok key bits ->
  mbedtls_aes_setkey_enc st ctx key bits =
    (0, snd (fst (mbedtls_aes_setkey_enc gen_static ctx key bits)), aes_init_tables st).
Proof.
  intros Hst ((r & Hr) & _). destruct (init_tables_ok st Hst) as [E _].
  unfold mbedtls_aes_setkey_enc. rewrite Hr, E. cbn [fst snd].
  unfold aes_init_tables at 2. cbn [gen_static aes_init_done Z.eqb tables]. reflexivity.
Qed.

Lemma setkey_dec_static st ctx key bits :
  static_ok st -> aes_key_ok key bits ->
  mbedtls_aes_setkey_dec st ctx key bits =
    (0, snd (fst (mbedtls_aes_setkey_dec gen_static ctx key bits)), aes_init_tables st).
Proof.
  intros Hst Hk. destruct (init_tables_ok st Hst) as [E _]. unfold mbedtls_aes_setkey_dec.
  rewrite (setkey_enc_static st), (setkey_enc_static gen_static) by (auto; by right).
  change (nz 0) with false. cbv iota beta. cbn [fst snd]. rewrite E.
  unfold aes_init_tables at 2. cbn [gen_static aes_init_done Z.eqb tables fst snd]. reflexivity.
Qed.

#[export] Instance AesBlockCipher key bits (Hk : aes_key_ok key bits) : BlockCipher.
Proof.
  refine {| bc_enc := aes_enc_block key bits; bc_dec := aes_dec_block key bits |}.
  - intros b _. unfold aes_enc_block. destruct (mbedtls_aes_setkey_enc _ _ _ _) as [[? ?] ?]. apply crypt_ecb_block.
  - intros b _. unfold aes_dec_block. destruct (mbedtls_aes_setkey_dec _ _ _ _) as [[? ?] ?]. apply crypt_ecb_block.
  - intros b [Hl Hb]. unfold aes_enc_block, aes_dec_block.
    pose proof (aes_ecb_inverse gen_static mbedtls_aes_init mbedtls_aes_init key bits b
      ltac:(by right) Hk Hl Hb) as H.
    rewrite (setkey_enc_static gen_static) in * by (auto; by right).
    change (aes_init_tables gen_static) with gen_static in H.
    rewrite (setkey_dec_static gen_static) in * by (auto; by right).
    change (aes_init_tables gen_static) with gen_static in H. cbn [tables gen_static] in H.
    by destruct H as (_ & _ & _ & _ & _ & H).
Defined.

Lemma aes_bits key bits : aes_key_ok key bits -> bits = 128 \/ bits = 192 \/ bits = 256.
Proof. intros ((r & Hr) & _). by destruct (rounds_of_cases _ _ Hr) as (_ & _ & H). Qed.

(** The state a keyed context is left in. *)
Definition keyed_state (bits : Z) (op : mbedtls_operation_t) (c : mbedtls_aes_context) (st : aes_static)
  : cipher_state :=
  {| cc := {| cipher_info := Some (aes_ecb_info bits); key_bitlen := bits; operation := op;
              cipher_ctx := PLive c |}; aes := st |}.

Lemma kw_setkey_state st key bits (w : bool) c st' :
  aes_key_ok key bits ->
  (if w then mbedtls_aes_setkey_enc else mbedtls_aes_setkey_dec) st mbedtls_aes_init key bits = (0, c, st') ->
  mbedtls_nist_kw_setkey true MBEDTLS_CIPHER_ID_AES key bits (if w then 1 else 0) (mbedtls_nist_kw_init st)
    = Ok (0, keyed_state bits (if w then MBEDTLS_ENCRYPT else MBEDTLS_DECRYPT) c st').
Proof.
  intros Hk E.
  assert (mbedtls_cipher_info_from_values MBEDTLS_CIPHER_ID_AES bits MBEDTLS_MODE_ECB = Some (aes_ecb_info bits)) as Ei.
  { by destruct (aes_bits _ _ Hk) as [->|[->| ->]]. }
  unfold mbedtls_nist_kw_setkey. rewrite Ei. change (negb (block_size (aes_ecb_info bits) =? 16)) with false.
  cbv iota. change (negb (bool_decide (MBEDTLS_CIPHER_ID_AES = MBEDTLS_CIPHER_ID_AES))) with false. cbv iota.
  unfold mbedtls_cipher_free, mbedtls_cipher_setup, mbedtls_cipher_setkey, checked, bind, modify, gets, ret.
  cbn [mbedtls_nist_kw_init cc cipher_ctx mbedtls_cipher_init set_cc negb]. change (nz 0) with false. cbv iota beta.
  cbn [cc cipher_info flags aes_ecb_info info_key_bitlen mode set_cc].
  rewrite (Z.eqb_refl bits). change (Z.land 0 MBEDTLS_CIPHER_VARIABLE_KEY_LEN =? 0) with true. cbn [andb negb].
  destruct w; (change (nz 1) with true || change (nz 0) with false); cbv iota beta;
    unfold call_setkey; cbn [cc cipher_ctx set_cc aes mbedtls_nist_kw_init]; rewrite E; reflexivity.
Qed.

Lemma keyed_state_runs bits op c st :
  tables st = aes_gen_tables ->
  runs (keyed_state bits op c st) (fun b => snd (mbedtls_aes_crypt_ecb aes_gen_tables c (operation_val op) b)).
Proof.
  intros Et b Hb. unfold mbedtls_cipher_update, keyed_state.
  cbn [cc cipher_info aes_ecb_info block_size mode cipher_ctx operation aes]. rewrite Hb, Et.
  change (Z.of_nat 16 =? 16) with true. cbn [Z.eqb negb].
  assert (forall m x, fst (mbedtls_aes_crypt_ecb aes_gen_tables c m x) = 0) as Hr.
  { intros. Transparent mbedtls_aes_crypt_ecb. unfold mbedtls_aes_crypt_ecb. by destruct (m =? _). }
  specialize (Hr (operation_val op) b). destruct (mbedtls_aes_crypt_ecb _ _ _ _) as [r o]. simpl in Hr. by subst.
Qed.
#[local] Opaque mbedtls_aes_crypt_ecb.

Lemma kw_setkey_runs st key bits (w : bool) :
  static_ok st -> aes_key_ok key bits ->
  exists s, mbedtls_nist_kw_setkey true MBEDTLS_CIPHER_ID_AES key bits (if w then 1 else 0)
      (mbedtls_nist_kw_init st) = Ok (0, s) /\
    runs s (if w then aes_enc_block key bits else aes_dec_block key bits) /\ static_ok (aes s) /\
    exists op c, s = keyed_state bits op c (aes_init_tables st).
Proof.
  intros Hst Hk. destruct (init_tables_ok st Hst) as [Et Hst'].
  exists (keyed_state bits (if w then MBEDTLS_ENCRYPT else MBEDTLS_DECRYPT)
    (snd (fst ((if w then mbedtls_aes_setkey_enc else mbedtls_aes_setkey_dec) gen_static mbedtls_aes_init key bits)))
    (aes_init_tables st)).
  split; [|split; [|split; [exact Hst'|eauto]]].
  - apply kw_setkey_state; [done|]. destruct w; [by apply setkey_enc_static|by apply setkey_dec_static].
  - intros b Hb. rewrite (keyed_state_runs _ _ _ _ Et b Hb). do 4 f_equal. destruct w.
    + unfold aes_enc_block. by rewrite (setkey_enc_static gen_static) by (auto; by right).
    + unfold aes_dec_block. by rewrite (setkey_dec_static gen_static) by (auto; by right).
Qed.

(** A context keyed for wrapping ([w]) or unwrapping. *)
Definition keyed_for (st : aes_static) (key : bytes) (bits : Z) (w : bool) (s : cipher_state) : Prop :=
  mbedtls_nist_kw_setkey true MBEDTLS_CIPHER_ID_AES key bits (if w then 1 else 0)
    (mbedtls_nist_kw_init st) = Ok (0, s).

Lemma keyed_for_runs st key bits w s :
  static_ok st -> aes_key_ok key bits -> keyed_for st key bits w s ->
  runs s (if w then aes_enc_block key bits else aes_dec_block key bits).
Proof. intros Hst Hk E. destruct (kw_setkey_runs st key bits w Hst Hk) as (s' & E' & Hr & _).
  unfold keyed_for in E. rewrite E in E'. injection E' as <-. exact Hr.
Qed.

(** C19: AES key wrapping round-trips: what [mbedtls_nist_kw_wrap] produces under
    a key, [mbedtls_nist_kw_unwrap] under the same key accepts and returns the
    original bytes, for every plaintext of at least two whole semiblocks that
    fits the buffers. *)
Theorem aes_kw_unwrap_wrap st key bits sw su input out_size :
  static_ok st -> aes_key_ok key bits -> keyed_for st key bits true sw -> keyed_for st key bits false su ->
  (16 <= length input)%nat -> (length input mod 8 = 0)%nat -> bytes_ok input ->
  Z.of_nat (length input) + 8 <= out_size < 2 ^ 32 ->
  exists ct,
    mbedtls_nist_kw_wrap MBEDTLS_KW_MODE_KW input out_size sw = Ok ((0, ct, Z.of_nat (length input) + 8), sw) /\
    mbedtls_nist_kw_unwrap MBEDTLS_KW_MODE_KW ct out_size su = Ok ((0, input, Z.of_nat (length input)), su).
Proof.
  intros Hst Hk Hw Hu Hl Hm Hb Hs.
  apply (@kw_unwrap_wrap_generic (AesBlockCipher key bits Hk)); auto.
  - exact (keyed_for_runs st key bits true sw Hst Hk Hw).
  - exact (keyed_for_runs st key bits false su Hst Hk Hu).
  - pose proof (Nat.Div0.div_le_mono 16 (length input) 8 Hl). done.
Qed.

(** The fixed key and plaintext of RFC 3394 section 4.1. *)
Definition kek_4_1 : bytes := map Z.of_nat (seq 0 16).
Definition key_4_1 : bytes :=
  [0; 0x11; 0x22; 0x33; 0x44; 0x55; 0x66; 0x77; 0x88; 0x99; 0xaa; 0xbb; 0xcc; 0xdd; 0xee; 0xff].
Definition st_4_1 : aes_static := {| aes_init_done := 0; tables := aes_gen_tables |}.
Definition state_4_1 (w : bool) : cipher_state :=
  match mbedtls_nist_kw_setkey true MBEDTLS_CIPHER_ID_AES kek_4_1 128 (if w then 1 else 0)
          (mbedtls_nist_kw_init st_4_1) with
  | Ok (_, s) => s | _ => mbedtls_nist_kw_init st_4_1
  end.

Lemma keyed_for_4_1 w : keyed_for st_4_1 kek_4_1 128 w (state_4_1 w).
Proof.
  unfold keyed_for, state_4_1.
  destruct (kw_setkey_runs st_4_1 kek_4_1 128 w) as (s & -> & _); [by left| |done].
  split; [by eexists|]. split; [|done]. apply Forall_range. reflexivity.
Qed.

Lemma aes_kw_unwrap_wrap_witness :
  exists ct,
    mbedtls_nist_kw_wrap MBEDTLS_KW_MODE_KW key_4_1 24 (state_4_1 true) = Ok ((0, ct, 24), state_4_1 true) /\
    mbedtls_nist_kw_unwrap MBEDTLS_KW_MODE_KW ct 24 (state_4_1 false) = Ok ((0, key_4_1, 16), state_4_1 false).
Proof.
  apply (aes_kw_unwrap_wrap st_4_1 kek_4_1 128 (state_4_1 true) (state_4_1 false) key_4_1 24).
  - left; reflexivity.
  - split; [by eexists|]. split; [|done]. apply Forall_range. reflexivity.
  - apply keyed_for_4_1.
  - apply keyed_for_4_1.
  - simpl; lia.
  - reflexivity.
  - unfold key_4_1; fbytes.
  - simpl; lia.
Defined.

(** The ciphertext RFC 3394 gives for that pair. *)
Example rfc3394_4_1 :
  match mbedtls_nist_kw_wrap MBEDTLS_KW_MODE_KW key_4_1 24 (state_4_1 true) with
  | Ok ((r, ct, _), _) => (r, ct)
  | _ => (1, [])
  end = (0, [0x1f; 0xa6; 0x8b; 0x0a; 0x81; 0x12; 0xb4; 0x47; 0xae; 0xf3; 0x4b; 0xd8;
             0xfb; 0x5a; 0x7b; 0x82; 0x9d; 0x3e; 0x86; 0x23; 0x71; 0xd2; 0xcf; 0xe5]).
Proof. vm_compute. reflexivity. Qed.

(** C18: [mbedtls_nist_kw_unwrap] in KW mode accepts a ciphertext exactly when the
    inverse wrapping function recovers the integrity value A6A6A6A6A6A6A6A6;
    otherwise it returns MBEDTLS_ERR_CIPHER_AUTH_FAILED, length 0 and a buffer
    of zeros: no unauthenticated key byte leaves the function. *)
Theorem aes_kw_integrity st key bits su A R out_size (Hk : aes_key_ok key bits) :
  static_ok st -> keyed_for st key bits false su ->
  length A = 8%nat -> bytes_ok A -> (16 <= length R)%nat -> (length R mod 8 = 0)%nat -> bytes_ok R ->
  Z.of_nat (length R) <= out_size < 2 ^ 32 -> Z.of_nat (length R) < 2 ^ 32 - 8 ->
  exists icv key_data, length icv = 8%nat /\ length key_data = length R /\
    mbedtls_nist_kw_unwrap MBEDTLS_KW_MODE_KW (A ++ R) out_size su =
      Ok (if bool_decide (icv = NIST_KW_ICV1) then (0, key_data, Z.of_nat (length R))
          else (MBEDTLS_ERR_CIPHER_AUTH_FAILED, replicate (length R) 0, 0), su) /\
    (icv, key_data) = @uiter (AesBlockCipher key bits Hk) (length R / 8)
      (6 * (length R / 8)) (6 * Z.of_nat (length R / 8)) (length R / 8 - 1) (A, R).
Proof.
  intros Hst Hu HA HAb HR Hm HRb Hs Hs2.
  pose proof (Nat.Div0.div_le_mono 16 (length R) 8 HR) as Hn. change (16 / 8)%nat with 2%nat in Hn.
  destruct (@kw_unwrap_result (AesBlockCipher key bits Hk) su
    (keyed_for_runs st key bits false su Hst Hk Hu) A R out_size Hn Hm HA HAb HRb Hs Hs2) as [E (H1 & H2 & H3 & H4)].
  set (y := @uiter _ _ _ _ _ (A, R)) in *. exists y.1, y.2.
  split; [done|]. split; [pose proof (Nat.div_mod_eq (length R) 8); lia|].
  split; [|by rewrite <- surjective_pairing]. rewrite E. f_equal. f_equal.
  pose proof (safer_memcmp_eq NIST_KW_ICV1 y.1 8 ltac:(by rewrite H1)
    ltac:(unfold NIST_KW_ICV1; fbytes) H2) as Hc.
  rewrite !take_ge in Hc by (rewrite ?H1; simpl; lia).
  destruct (nz _); case_bool_decide as D; auto; exfalso; [|destruct Hc as [Hc _]; by rewrite Hc in D].
  destruct Hc as [_ Hc]. discriminate Hc. by rewrite D.
Qed.

Lemma aes_kw_integrity_witness :
  exists icv key_data, length icv = 8%nat /\ length key_data = 16%nat /\
    mbedtls_nist_kw_unwrap MBEDTLS_KW_MODE_KW (replicate 8 0 ++ replicate 16 0) 16 (state_4_1 false) =
      Ok (if bool_decide (icv = NIST_KW_ICV1) then (0, key_data, 16)
          else (MBEDTLS_ERR_CIPHER_AUTH_FAILED, replicate 16 0, 0), state_4_1 false).
Proof.
  assert (aes_key_ok kek_4_1 128) as Hk.
  { split; [by eexists|]. split; [|done]. apply Forall_range. reflexivity. }
  destruct (aes_kw_integrity st_4_1 kek_4_1 128 (state_4_1 false) (replicate 8 0) (replicate 16 0) 16 Hk)
    as (icv & kd & H1 & H2 & H3 & _).
  - left; reflexivity.
  - apply keyed_for_4_1.
  - reflexivity.
  - apply Forall_range; reflexivity.
  - simpl; lia.
  - reflexivity.
  - apply Forall_range; reflexivity.
  - simpl; lia.
  - simpl; lia.
  - exists icv, kd. split; [exact H1|split; [exact H2|exact H3]].
Defined.
