(* ===== verification/Wpa.v ===== *)
(** arm_iop/source/ieee/wpa.twl.c: WPA2 key derivation.

    The locals that the code leaves uninitialised (hash contexts on the stack,
    the 0x200-byte decryption buffer) and the answers of the allocator are the
    class [StackEnv]; the theorems hold for every such environment whose
    contexts have their C sizes ([StackEnvOk]) and whose allocations succeed. *)

From S2P Require Import Prelude Cmonad Cutils Sha1 Sha1Proofs Md MdProofs Aes AesProofs Cipher NistKw NistKwProofs.

Class StackEnv := {
  stack_sha1 : nat -> mbedtls_sha1_context;   (* the [ctx] of the n-th sha1_hmac call *)
  stack_md : mbedtls_md_context_t;            (* [sha1_ctx] of PBKDF2_HMAC_SHA_1 *)
  stack_gtk : bytes;                          (* [gtk_dec] of wpa_decrypt_gtk *)
  heap_gives : nat -> bool                    (* does the n-th calloc of a call return memory? *)
}.
Class StackEnvOk `(E : StackEnv) : Prop := {
  stack_sha1_live : forall n, live (stack_sha1 n);
  stack_gtk_ok : length stack_gtk = 0x200%nat /\ bytes_ok stack_gtk;
  heap_ok : forall n, heap_gives n = true
}.

(** [gtk_keyinfo]: keytype[4], keyidx, unk, key[0x20]; kept as its 0x26 bytes. *)
Definition gtk_keyinfo : Type := bytes.
Definition sizeof_gtk_keyinfo : nat := 0x26.
Definition gtk_keyidx (g : gtk_keyinfo) : Z := nth 4 g 0.
Definition gtk_key (g : gtk_keyinfo) : bytes := take 0x20 (drop 6 g).

(** [ptk_keyinfo]: kck[16], kek[16], tk[16], mic_tx[8], mic_rx[8]. *)
Record ptk_keyinfo := { kck : bytes; kek : bytes; tk : bytes; mic_tx : bytes; mic_rx : bytes }.
Definition ptk_of_bytes (b : bytes) : ptk_keyinfo :=
  {| kck := take 16 b; kek := take 16 (drop 16 b); tk := take 16 (drop 32 b);
     mic_tx := take 8 (drop 48 b); mic_rx := take 8 (drop 56 b) |}.

(** A C string: the bytes before the first NUL of its buffer. *)
Fixpoint cstr (b : bytes) : bytes :=
  match b with [] => [] | c :: b => if c =? 0 then [] else c :: cstr b end.

Section Wpa.
Context `{StackEnv}.

(** Returns the code and what was written to [out]. *)
Definition PBKDF2_HMAC_SHA_1 (pass salt : bytes) (iterations outputBytes : nat) : outcome (Z * bytes) :=
  match mbedtls_md_info_from_type MBEDTLS_MD_SHA1 with
  | None => Ok (104, [])
  | Some info =>
      match mbedtls_md_setup (heap_gives 0) (heap_gives 1) (Some info) 1 stack_md with
      | Ok (r, ctx) =>
          if nz r then Ok (1, []) else
          match mbedtls_pkcs5_pbkdf2_hmac (cstr pass) (cstr salt) iterations outputBytes ctx with
          | Ok ((r, out), ctx) => if nz r then Ok (102, out) else Ok (0, out)
          | Fault f => Fault f
          | Hang => Hang
          end
      | Fault f => Fault f
      | Hang => Hang
      end
  end.

(** The loop shared by [get_arr_min] and [get_arr_max]. *)
Fixpoint arr_a_is_max (a b : bytes) : bool :=
  match a, b with
  | x :: a, y :: b => if x =? y then arr_a_is_max a b else if y <? x then true else false
  | _, _ => false
  end.
Definition get_arr_min (a b : bytes) : bytes := if arr_a_is_max a b then b else a.
Definition get_arr_max (a b : bytes) : bytes := if arr_a_is_max a b then a else b.

(** [pmk] is left as it was when the derivation fails. *)
Definition wpa_calc_pmk (ssid pass pmk : bytes) : outcome bytes :=
  match PBKDF2_HMAC_SHA_1 pass ssid 4096 32 with
  | Ok (_, out) => Ok (blit 0 out pmk)
  | Fault f => Fault f
  | Hang => Hang
  end.

(** The walk over the decrypted key data.  [i] grows by at least two a turn. *)
Fixpoint gtk_parse (fuel : nat) (i : nat) (gtk_dec : bytes) (decrypted_length : nat) (out : gtk_keyinfo)
  : outcome gtk_keyinfo :=
  match fuel with
  | O => Hang
  | S fuel =>
      if (i <? decrypted_length)%nat then
        match gtk_dec !! i, gtk_dec !! (i + 1)%nat with
        | Some ent_type, Some ent_size =>
            let i := (i + 2)%nat in
            let size := Z.to_nat ent_size in
            if (ent_type =? 0xDD) then
              if (i + 4 <=? length gtk_dec)%nat then
                if bool_decide (take 4 (drop i gtk_dec) = [0x00; 0x0f; 0xAC; 0x01])
                   && ((ent_size =? 0x16) || (ent_size =? 0x26)) then
                  if (i + size <=? length gtk_dec)%nat then
                    gtk_parse fuel (i + size) gtk_dec decrypted_length
                      (blit 0 (take size (drop i gtk_dec)) out)
                  else Fault OobRead
                else gtk_parse fuel (i + size) gtk_dec decrypted_length out
              else Fault OobRead
            else gtk_parse fuel (i + size) gtk_dec decrypted_length out
        | _, _ => Fault OobRead
        end
      else Ok out
  end.

(** Returns [out] and the AES module's static data. *)
Definition wpa_decrypt_gtk (kek data : bytes) (st : aes_static) : outcome (gtk_keyinfo * aes_static) :=
  match (let* _ := mbedtls_nist_kw_setkey (heap_gives 0) MBEDTLS_CIPHER_ID_AES kek 128 0 in
         let* '(_, output, out_len) := mbedtls_nist_kw_unwrap MBEDTLS_KW_MODE_KW data 0x200 in
         mbedtls_nist_kw_free ;;; ret (output, out_len)) (mbedtls_nist_kw_init st) with
  | Ok ((output, decrypted_length), s) =>
      let gtk_dec := blit 0 output stack_gtk in
      let out := replicate sizeof_gtk_keyinfo 0 in
      let n := Z.to_nat decrypted_length in
      match gtk_parse (n + 1) 0 gtk_dec n out with
      | Ok out => Ok (out, aes s)
      | Fault f => Fault f
      | Hang => Hang
      end
  | Fault f => Fault f
  | Hang => Hang
  end.

Definition wpa_calc_mic (kck pkt_data : bytes) : bytes :=
  take 16 (sha1_hmac (stack_sha1 0) kck pkt_data).

(** "Pairwise key expansion", with its terminating NUL. *)
Definition ptk_label : bytes :=
  [80; 97; 105; 114; 119; 105; 115; 101; 32; 107; 101; 121; 32; 101; 120; 112; 97; 110; 115; 105; 111; 110; 0].

Definition wpa_calc_ptk (dev_mac ap_mac dev_nonce ap_nonce pmk : bytes) : ptk_keyinfo :=
  let mac_min := get_arr_min dev_mac ap_mac in
  let mac_max := get_arr_max dev_mac ap_mac in
  let nonce_min := get_arr_min ap_nonce dev_nonce in
  let nonce_max := get_arr_max ap_nonce dev_nonce in
  let ptk_data := ptk_label ++ mac_min ++ mac_max ++ nonce_min ++ nonce_max in
  let ptk_out := sha1_hmac (stack_sha1 0) pmk (ptk_data ++ [0]) ++
                 sha1_hmac (stack_sha1 1) pmk (ptk_data ++ [1]) ++
                 sha1_hmac (stack_sha1 2) pmk (ptk_data ++ [2]) ++
                 sha1_hmac (stack_sha1 3) pmk (ptk_data ++ [3]) in
  ptk_of_bytes (take 0x40 ptk_out).

End Wpa.
