(* ===== verification/WpaProofs.v ===== *)
(** WPA2 key derivation: the PMK is PBKDF2, the PTK is the 802.11 PRF and is the
    same on both sides of the handshake, the group key sent by the access point
    is the one installed. *)

From S2P Require Import Prelude Cmonad Cutils Sha1 Sha1Proofs Md MdProofs Aes AesProofs Cipher NistKw NistKwProofs Wpa.
Import Sha1Spec Pbkdf2Spec.

(** ** 802.11 key hierarchy *)
Module WpaSpec.

(** PRF-n: HMAC-SHA-1(K, A || 0 || B || i) for i = 0, 1, ... *)
Definition prf (K A B : bytes) (len : nat) : bytes :=
  take len (concat (map (fun i => hmac K (A ++ [0] ++ B ++ [Z.of_nat i])) (seq 0 (len / 20 + 1)))).

Definition label : bytes :=   (* "Pairwise key expansion" *)
  [80; 97; 105; 114; 119; 105; 115; 101; 32; 107; 101; 121; 32; 101; 120; 112; 97; 110; 115; 105; 111; 110].

(** Big-endian order of equal-length strings. *)
Definition bmin (a b : bytes) : bytes := if be_val a <=? be_val b then a else b.
Definition bmax (a b : bytes) : bytes := if be_val a <=? be_val b then b else a.

Definition ptk (PMK AA SPA ANonce SNonce : bytes) : ptk_keyinfo :=
  ptk_of_bytes (prf PMK label (bmin AA SPA ++ bmax AA SPA ++ bmin ANonce SNonce ++ bmax ANonce SNonce) 64).

(** Key data: a list of (type, payload) elements. *)
Definition encode (kdes : list (Z * bytes)) : bytes :=
  concat (map (fun kde => fst kde :: Z.of_nat (length (snd kde)) :: snd kde) kdes).
Definition is_gtk (kde : Z * bytes) : bool :=
  (fst kde =? 0xDD) && bool_decide (take 4 (snd kde) = [0x00; 0x0f; 0xAC; 0x01]) &&
  ((length (snd kde) =? 0x16)%nat || (length (snd kde) =? 0x26)%nat).
Definition install (out : bytes) (kde : Z * bytes) : bytes :=
  if is_gtk kde then blit 0 (snd kde) out else out.
Definition group_key (kdes : list (Z * bytes)) : bytes := fold_left install kdes (replicate 0x26 0).
Definition kde_ok (kde : Z * bytes) : Prop :=
  byte_ok (fst kde) /\ bytes_ok (snd kde) /\ (length (snd kde) < 256)%nat.

End WpaSpec.
Import WpaSpec.

(** ** Minimum and maximum *)

Lemma be_val_cons x a : bytes_ok a -> be_val (x :: a) = x * 256 ^ Z.of_nat (length a) + be_val a.
Proof.
  intros _. unfold be_val. rewrite reverse_cons.
  assert (forall l y, le_val (l ++ [y]) = le_val l + 256 ^ Z.of_nat (length l) * y) as H.
  { induction l as [|z l IH]; intros y; cbn [app le_val length]; [change (256 ^ Z.of_nat 0) with 1; lia|].
    rewrite IH, Nat2Z.inj_succ, Z.pow_succ_r by lia. lia. }
  rewrite H, length_reverse. lia.
Qed.

Lemma be_val_range a : bytes_ok a -> 0 <= be_val a < 256 ^ Z.of_nat (length a).
Proof. intros. unfold be_val. rewrite <- length_reverse. apply le_val_range. by apply Forall_reverse. Qed.

Lemma arr_a_is_max_spec a b :
  length a = length b -> bytes_ok a -> bytes_ok b -> arr_a_is_max a b = (be_val b <? be_val a).
Proof.
  revert b; induction a as [|x a IH]; intros [|y b] L Ha Hb; simpl in L; try lia; [done|].
  apply Forall_cons in Ha as [Hx Ha], Hb as [Hy Hb]. rewrite !be_val_cons by done.
  pose proof (be_val_range a Ha). pose proof (be_val_range b Hb). assert (length b = length a) as Lb by lia. rewrite ?Lb in *.
  pose proof (Z.pow_pos_nonneg 256 (Z.of_nat (length a)) ltac:(lia) ltac:(lia)).
  simpl. destruct (x =? y) eqn:E; bprop.
  - subst. rewrite IH by (auto; lia). destruct (be_val b <? be_val a) eqn:?, (_ <? _) eqn:? in |- *; bprop; nia.
  - destruct (y <? x) eqn:E2; symmetry; bprop; [apply Z.ltb_lt|apply Z.ltb_ge]; nia.
Qed.

Lemma be_val_inj a b : length a = length b -> bytes_ok a -> bytes_ok b -> be_val a = be_val b -> a = b.
Proof.
  revert b; induction a as [|x a IH]; intros [|y b] L Ha Hb E; simpl in L; try lia; [done|].
  apply Forall_cons in Ha as [Hx Ha], Hb as [Hy Hb]. rewrite !be_val_cons in E by done.
  pose proof (be_val_range a Ha). pose proof (be_val_range b Hb). assert (length b = length a) as Lb by lia.
  rewrite Lb in *. unfold byte_ok in *. assert (x = y) by nia. subst. f_equal. apply IH; auto; lia.
Qed.

Lemma get_arr_min_spec a b : length a = length b -> bytes_ok a -> bytes_ok b -> get_arr_min a b = bmin a b.
Proof.
  intros. unfold get_arr_min, bmin. rewrite arr_a_is_max_spec by done.
  destruct (be_val b <? be_val a) eqn:?, (be_val a <=? be_val b) eqn:?; bprop; auto; lia.
Qed.
Lemma get_arr_max_spec a b : length a = length b -> bytes_ok a -> bytes_ok b -> get_arr_max a b = bmax a b.
Proof.
  intros. unfold get_arr_max, bmax. rewrite arr_a_is_max_spec by done.
  destruct (be_val b <? be_val a) eqn:?, (be_val a <=? be_val b) eqn:?; bprop; auto; lia.
Qed.

Lemma bmin_comm a b : length a = length b -> bytes_ok a -> bytes_ok b -> bmin a b = bmin b a.
Proof.
  intros. unfold bmin. destruct (be_val a <=? be_val b) eqn:?, (be_val b <=? be_val a) eqn:?; bprop; auto; try lia.
  apply be_val_inj; auto; lia.
Qed.
Lemma bmax_comm a b : length a = length b -> bytes_ok a -> bytes_ok b -> bmax a b = bmax b a.
Proof.
  intros. unfold bmax. destruct (be_val a <=? be_val b) eqn:?, (be_val b <=? be_val a) eqn:?; bprop; auto; try lia.
  apply be_val_inj; auto; lia.
Qed.
Lemma bmin_bmax_ok n a b : length a = n -> length b = n -> bytes_ok a -> bytes_ok b ->
  length (bmin a b) = n /\ bytes_ok (bmin a b) /\ length (bmax a b) = n /\ bytes_ok (bmax a b).
Proof. intros. unfold bmin, bmax. by destruct (_ <=? _). Qed.

(** ** Pairwise keys *)

Definition arr_ok (n : nat) (a : bytes) : Prop := length a = n /\ bytes_ok a.

Section Derivation.
Context `{EO : StackEnvOk}.

Lemma hmac_call n key data :
  bytes_ok key -> bytes_ok data -> Z.of_nat (length key) < 2 ^ 32 -> Z.of_nat (length data) < 2 ^ 32 ->
  sha1_hmac (stack_sha1 n) key data = hmac key data.
Proof. intros. apply sha1_hmac_ok; auto. apply stack_sha1_live. Qed.

Lemma wpa_calc_ptk_prf dev ap dn an pmk :
  arr_ok 6 dev -> arr_ok 6 ap -> arr_ok 32 dn -> arr_ok 32 an -> arr_ok 32 pmk ->
  wpa_calc_ptk dev ap dn an pmk = ptk pmk ap dev an dn.
Proof.
  intros [L1 B1] [L2 B2] [L3 B3] [L4 B4] [L5 B5]. unfold wpa_calc_ptk.
  rewrite !get_arr_min_spec, !get_arr_max_spec by (auto; lia).
  rewrite (bmin_comm dev ap), (bmax_comm dev ap) by (auto; lia).
  destruct (bmin_bmax_ok 6 ap dev) as (M1 & M2 & M3 & M4); auto.
  destruct (bmin_bmax_ok 32 an dn) as (N1 & N2 & N3 & N4); auto.
  set (B := bmin ap dev ++ bmax ap dev ++ bmin an dn ++ bmax an dn).
  assert (bytes_ok B) as HB by (by repeat apply Forall_app_2).
  assert (length B = 76%nat) as LB by (unfold B; rewrite !length_app; lia).
  change ptk_label with (label ++ [0]). rewrite <- !(app_assoc label).
  assert (bytes_ok label) as Hlab by (apply Forall_range; reflexivity).
  assert (forall i, byte_ok i -> bytes_ok (label ++ ([0] ++ B) ++ [i])) as Hd.
  { intros i Hi. apply Forall_app_2; [done|]. apply Forall_app_2; [|by constructor].
    apply Forall_app_2; [fbytes|done]. }
  rewrite !hmac_call; auto;
    try (rewrite !length_app, LB; simpl; lia); try lia; try (apply Hd; unfold byte_ok; lia).
  unfold ptk, prf. f_equal. change (64 / 20 + 1)%nat with 4%nat. cbn [seq map concat]. rewrite app_nil_r.
  fold B. by rewrite <- !app_assoc.
Qed.

Lemma wpa_calc_pmk_pbkdf2 ssid pass pmk :
  bytes_ok ssid -> bytes_ok pass -> arr_ok 32 pmk ->
  Z.of_nat (length ssid) < 2 ^ 32 -> Z.of_nat (length pass) < 2 ^ 32 ->
  wpa_calc_pmk ssid pass pmk = Ok (pbkdf2 (cstr pass) (cstr ssid) 4096 32).
Proof.
  intros Hs Hp [Lk Bk] Hsl Hpl. unfold wpa_calc_pmk, PBKDF2_HMAC_SHA_1.
  change (mbedtls_md_info_from_type MBEDTLS_MD_SHA1) with (Some mbedtls_sha1_info). cbv iota.
  rewrite !heap_ok. destruct (setup_ready stack_md) as (ctx & -> & Hr). change (nz 0) with false. cbv iota beta.
  assert (forall b, bytes_ok b -> bytes_ok (cstr b) /\ (length (cstr b) <= length b)%nat) as Hc.
  { induction 1 as [|c b Hcb Hb IH]; cbn [cstr]; [split; [constructor|done]|].
    destruct (c =? 0); [split; [constructor|simpl; lia]|]. destruct IH as [IH1 IH2].
    split; [by constructor|simpl; lia]. }
  destruct (Hc ssid Hs), (Hc pass Hp).
  destruct (pbkdf2_hmac_ok ctx (cstr pass) (cstr ssid) 4096 32 Hr) as (ctx' & ->);
    [split; [done|lia]|done|lia|lia|]. change (nz 0) with false. cbv iota beta.
  f_equal. apply blit_all. unfold pbkdf2. rewrite length_take, Lk.
  change ((32 + 19) / 20)%nat with 2%nat. cbn [seq map concat]. rewrite !length_app, !length_F by lia. simpl. lia.
Qed.
End Derivation.

(** ** Group key *)

Lemma encode_cons kde kdes :
  encode (kde :: kdes) = (fst kde :: Z.of_nat (length (snd kde)) :: snd kde) ++ encode kdes.
Proof. done. Qed.

Lemma encode_bytes kdes : Forall kde_ok kdes -> bytes_ok (encode kdes).
Proof.
  induction 1 as [|kde kdes (H1 & H2 & H3) _ IH]; [constructor|]. rewrite encode_cons.
  apply Forall_app_2; [|done]. constructor; [done|]. constructor; [unfold byte_ok; lia|done].
Qed.

Lemma length_encode kdes : (2 * length kdes <= length (encode kdes))%nat.
Proof.
  induction kdes as [|kde kdes IH]; [done|]. rewrite encode_cons, length_app. cbn [length]. lia.
Qed.

(** One element at position [length pre], with at least four bytes after it. *)
Lemma gtk_parse_step fuel pre kde rest n out :
  kde_ok kde -> (4 <= length rest)%nat -> (length pre < n)%nat ->
  gtk_parse (S fuel) (length pre) (pre ++ (fst kde :: Z.of_nat (length (snd kde)) :: snd kde) ++ rest) n out =
  gtk_parse fuel (length (pre ++ fst kde :: Z.of_nat (length (snd kde)) :: snd kde))
    (pre ++ (fst kde :: Z.of_nat (length (snd kde)) :: snd kde) ++ rest) n (install out kde).
Proof.
  destruct kde as [ty body]. intros (Hty & Hb & Hlen) Hr Hn. cbn [fst snd] in *.
  set (g := pre ++ (ty :: Z.of_nat (length body) :: body) ++ rest). cbn [gtk_parse].
  rewrite (proj2 (Nat.ltb_lt _ _)) by done.
  assert (g !! length pre = Some ty) as ->.
  { unfold g. rewrite lookup_app_r, Nat.sub_diag by lia. done. }
  assert (g !! (length pre + 1)%nat = Some (Z.of_nat (length body))) as ->.
  { unfold g. rewrite lookup_app_r by lia. by replace (length pre + 1 - length pre)%nat with 1%nat by lia. }
  rewrite Nat2Z.id.
  assert (drop (length pre + 2) g = body ++ rest) as Hd.
  { unfold g. rewrite drop_app_ge by lia. by replace (length pre + 2 - length pre)%nat with 2%nat by lia. }
  assert (length g = length pre + 2 + length body + length rest)%nat as Lg
    by (unfold g; rewrite !length_app; cbn [length]; lia).
  replace (length (pre ++ ty :: Z.of_nat (length body) :: body)) with (length pre + 2 + length body)%nat
    by (rewrite length_app; cbn [length]; lia).
  rewrite Hd. unfold install, is_gtk. cbn [fst snd]. destruct (ty =? 0xDD); cbn [andb]; [|done].
  rewrite (proj2 (Nat.leb_le _ _)) by lia.
  assert (forall k : nat, (Z.of_nat (length body) =? Z.of_nat k) = (length body =? k)%nat) as Hk.
  { intros k. destruct (length body =? k)%nat eqn:E; [apply Nat.eqb_eq in E; apply Z.eqb_eq; lia|].
    apply Nat.eqb_neq in E. apply Z.eqb_neq. lia. }
  change 0x16 with (Z.of_nat 0x16). change 0x26 with (Z.of_nat 0x26). rewrite !Hk.
  destruct ((length body =? 0x16)%nat || (length body =? 0x26)%nat) eqn:Es; [|by rewrite !andb_false_r].
  rewrite take_app_le, !andb_true_r by (apply orb_true_iff in Es as [Es|Es]; apply Nat.eqb_eq in Es; lia).
  destruct (bool_decide _); [|done]. rewrite (proj2 (Nat.leb_le _ _)) by lia. by rewrite take_app_length.
Qed.

Lemma gtk_parse_encode kdes pre rest fuel out :
  Forall kde_ok kdes -> (4 <= length rest)%nat -> (length kdes < fuel)%nat ->
  gtk_parse fuel (length pre) (pre ++ encode kdes ++ rest) (length pre + length (encode kdes)) out =
    Ok (fold_left install kdes out).
Proof.
  intros F Hr. revert pre fuel out; induction F as [|kde kdes Hk F IH]; intros pre fuel out Hf.
  - destruct fuel as [|fuel]; [simpl in Hf; lia|]. cbn [gtk_parse encode map concat length].
    by rewrite (proj2 (Nat.ltb_ge _ _)) by lia.
  - destruct fuel as [|fuel]; [simpl in Hf; lia|]. rewrite encode_cons.
    rewrite <- (app_assoc _ (encode kdes)). rewrite gtk_parse_step; auto.
    + rewrite app_assoc.
      set (pre' := pre ++ fst kde :: Z.of_nat (length (snd kde)) :: snd kde).
      replace (length pre + length ((fst kde :: Z.of_nat (length (snd kde)) :: snd kde) ++ encode kdes))%nat
        with (length pre' + length (encode kdes))%nat by (unfold pre'; rewrite !length_app; lia).
      apply IH. cbn [length] in Hf. lia.
    + rewrite length_app. lia.
    + rewrite length_app. cbn [length]. lia.
Qed.

Section Group.
Context `{EO : StackEnvOk}.

Lemma keyed_state_free bits op c st :
  mbedtls_nist_kw_free (keyed_state bits op c st) = Ok (tt, set_cipher_ctx PFreed (keyed_state bits op c st)).
Proof. done. Qed.

(** What [wpa_decrypt_gtk] leaves in [out], given the outcome of the unwrap. *)
Lemma wpa_decrypt_gtk_run st kekb data r pt n s :
  static_ok st -> aes_key_ok kekb 128 -> keyed_for st kekb 128 false s ->
  mbedtls_nist_kw_unwrap MBEDTLS_KW_MODE_KW data 0x200 s = Ok ((r, pt, n), s) ->
  wpa_decrypt_gtk kekb data st =
    match gtk_parse (Z.to_nat n + 1) 0 (blit 0 pt stack_gtk) (Z.to_nat n) (replicate 0x26 0) with
    | Ok out => Ok (out, aes_init_tables st)
    | Fault f => Fault f
    | Hang => Hang
    end.
Proof.
  intros Hst Hk Hs Hu. destruct (kw_setkey_runs st kekb 128 false Hst Hk) as (s' & E0 & _ & _ & (op & c & Es)).
  assert (s' = s) as -> by (unfold keyed_for in Hs; rewrite E0 in Hs; congruence).
  unfold wpa_decrypt_gtk, bind. rewrite heap_ok. rewrite E0. cbv beta iota. rewrite Hu. cbv beta iota.
  rewrite Es. rewrite keyed_state_free. unfold ret. cbv beta iota. reflexivity.
Qed.

(** A group key sent by an access point that holds the same KEK is installed. *)
Lemma gtk_delivered st kekb kdes sw ct :
  static_ok st -> aes_key_ok kekb 128 -> keyed_for st kekb 128 true sw ->
  Forall kde_ok kdes -> (16 <= length (encode kdes) <= 0x1F8)%nat -> (length (encode kdes) mod 8 = 0)%nat ->
  mbedtls_nist_kw_wrap MBEDTLS_KW_MODE_KW (encode kdes) 0x200 sw =
    Ok ((0, ct, Z.of_nat (length (encode kdes)) + 8), sw) ->
  wpa_decrypt_gtk kekb ct st = Ok (group_key kdes, aes_init_tables st).
Proof.
  intros Hst Hk Hw F HL Hm Ew.
  destruct (kw_setkey_runs st kekb 128 false Hst Hk) as (su & Eu & Hru & _).
  destruct (@kw_unwrap_wrap_generic (AesBlockCipher kekb 128 Hk) sw su (encode kdes) 0x200)
    as (ct' & E1 & E2); auto.
  - exact (keyed_for_runs st kekb 128 true sw Hst Hk Hw).
  - pose proof (Nat.Div0.div_le_mono 16 (length (encode kdes)) 8 ltac:(lia)). done.
  - by apply encode_bytes.
  - lia.
  - assert (ct' = ct) as -> by congruence.
    rewrite (wpa_decrypt_gtk_run st kekb ct 0 (encode kdes) (Z.of_nat (length (encode kdes))) su) by done.
    rewrite Nat2Z.id. destruct stack_gtk_ok as [Lg Bg].
    unfold blit. simpl (take 0 stack_gtk ++ _).
    set (rest := drop (length (encode kdes)) stack_gtk).
    pose proof (gtk_parse_encode kdes [] rest (length (encode kdes) + 1) (replicate 0x26 0) F) as P.
    cbn [length app Nat.add] in P.
    rewrite P; [done| |].
    + unfold rest. rewrite length_drop. lia.
    + pose proof (length_encode kdes). lia.
Qed.
End Group.

(** ** The published properties *)

(** An environment for the witnesses: zeroed stack, memory available. *)
#[export] Instance zero_env : StackEnv :=
  {| stack_sha1 := fun _ => mbedtls_sha1_init; stack_md := mbedtls_md_init;
     stack_gtk := replicate 0x200 0; heap_gives := fun _ => true |}.
#[export] Instance zero_env_ok : StackEnvOk zero_env.
Proof. split; [intros; apply init_live|split; [done|apply zeros_ok]|done]. Qed.

(** C23: The pairwise keys are the 802.11 PRF-512 of the PMK over the ordered
    addresses and nonces, and therefore the same keys on both sides: swapping
    the two parties' addresses and nonces changes nothing. *)
Theorem ptk_agreement (E : StackEnv) (EO : StackEnvOk E) dev ap dn an pmk :
  arr_ok 6 dev -> arr_ok 6 ap -> arr_ok 32 dn -> arr_ok 32 an -> arr_ok 32 pmk ->
  wpa_calc_ptk dev ap dn an pmk = ptk pmk ap dev an dn /\
  wpa_calc_ptk dev ap dn an pmk = wpa_calc_ptk ap dev an dn pmk.
Proof.
  intros H1 H2 H3 H4 H5. pose proof (wpa_calc_ptk_prf dev ap dn an pmk H1 H2 H3 H4 H5) as ->.
  split; [done|]. rewrite wpa_calc_ptk_prf by done. unfold ptk.
  destruct H1 as [L1 B1], H2 as [L2 B2], H3 as [L3 B3], H4 as [L4 B4].
  by rewrite (bmin_comm ap dev), (bmax_comm ap dev), (bmin_comm an dn), (bmax_comm an dn) by (auto; lia).
Qed.

Lemma arr_ok_replicate n b : byte_ok b -> arr_ok n (replicate n b).
Proof. intros. split; [apply length_replicate|by apply Forall_replicate]. Qed.

Lemma ptk_agreement_witness :
  wpa_calc_ptk (replicate 6 1) (replicate 6 2) (replicate 32 3) (replicate 32 4) (replicate 32 5) =
  wpa_calc_ptk (replicate 6 2) (replicate 6 1) (replicate 32 4) (replicate 32 3) (replicate 32 5).
Proof.
  apply (ptk_agreement zero_env zero_env_ok (replicate 6 1) (replicate 6 2) (replicate 32 3) (replicate 32 4)
    (replicate 32 5)); apply arr_ok_replicate; unfold byte_ok; lia.
Defined.

(** [wpa_calc_pmk] writes the 32 bytes of PBKDF2-HMAC-SHA-1 with 4096
    iterations of the passphrase salted with the SSID, whatever the buffer and
    the stack held. *)
Theorem pmk_is_pbkdf2 (E : StackEnv) (EO : StackEnvOk E) ssid pass pmk :
  bytes_ok ssid -> bytes_ok pass -> arr_ok 32 pmk ->
  Z.of_nat (length ssid) < 2 ^ 32 -> Z.of_nat (length pass) < 2 ^ 32 ->
  wpa_calc_pmk ssid pass pmk = Ok (pbkdf2 (cstr pass) (cstr ssid) 4096 32).
Proof. apply wpa_calc_pmk_pbkdf2. Qed.

Lemma pmk_is_pbkdf2_witness :
  wpa_calc_pmk [73; 69; 69; 69; 0] [112; 97; 115; 115; 0] (replicate 32 0)
    = Ok (pbkdf2 [112; 97; 115; 115] [73; 69; 69; 69] 4096 32).
Proof.
  apply (pmk_is_pbkdf2 zero_env zero_env_ok [73; 69; 69; 69; 0] [112; 97; 115; 115; 0] (replicate 32 0)).
  - fbytes.
  - fbytes.
  - apply arr_ok_replicate; unfold byte_ok; lia.
  - simpl; lia.
  - simpl; lia.
Defined.

(** C22: A group key sent by an access point is installed unchanged: key data
    that is a list of well-formed elements, wrapped under the KEK, is unwrapped
    and parsed by [wpa_decrypt_gtk] to the payload of its GTK element (the last
    one, zero-padded to the structure), inside the bounds of every buffer. *)
Theorem gtk_delivery (E : StackEnv) (EO : StackEnvOk E) st kekb kdes sw ct :
  static_ok st -> aes_key_ok kekb 128 -> keyed_for st kekb 128 true sw ->
  Forall kde_ok kdes -> (16 <= length (encode kdes) <= 0x1F8)%nat -> (length (encode kdes) mod 8 = 0)%nat ->
  mbedtls_nist_kw_wrap MBEDTLS_KW_MODE_KW (encode kdes) 0x200 sw =
    Ok ((0, ct, Z.of_nat (length (encode kdes)) + 8), sw) ->
  wpa_decrypt_gtk kekb ct st = Ok (group_key kdes, aes_init_tables st).
Proof. apply gtk_delivered. Qed.

(** An RSN element and a 128-bit GTK, index 1. *)
Definition example_kdes : list (Z * bytes) :=
  [(0x30, [1; 0; 0; 15]); (0xDD, [0; 15; 172; 1; 1; 0] ++ replicate 16 7); (0xDD, [])].

Lemma gtk_delivery_witness :
  exists ct,
    wpa_decrypt_gtk kek_4_1 ct st_4_1 =
      Ok ([0; 15; 172; 1; 1; 0] ++ replicate 16 7 ++ replicate 16 0, aes_init_tables st_4_1).
Proof.
  assert (aes_key_ok kek_4_1 128) as Hk.
  { split; [by eexists|]. split; [|done]. apply Forall_range. reflexivity. }
  assert (Forall kde_ok example_kdes) as F.
  { repeat constructor; simpl; unfold byte_ok; lia. }
  destruct (@kw_unwrap_wrap_generic (AesBlockCipher kek_4_1 128 Hk) (state_4_1 true) (state_4_1 false)
    (encode example_kdes) 0x200) as (ct & E1 & _).
  - exact (keyed_for_runs st_4_1 kek_4_1 128 true (state_4_1 true) (or_introl eq_refl) Hk (keyed_for_4_1 true)).
  - exact (keyed_for_runs st_4_1 kek_4_1 128 false (state_4_1 false) (or_introl eq_refl) Hk (keyed_for_4_1 false)).
  - vm_compute; lia.
  - reflexivity.
  - by apply encode_bytes.
  - vm_compute; split; congruence.
  - exists ct. apply (gtk_delivery zero_env zero_env_ok st_4_1 kek_4_1 example_kdes (state_4_1 true) ct).
    + left; reflexivity.
    + exact Hk.
    + apply keyed_for_4_1.
    + exact F.
    + vm_compute; lia.
    + reflexivity.
    + exact E1.
Defined.
