(* ===== verification/Sdio.v ===== *)
(** arm_iop/source/wifi_sdio.twl.c and wifi_ndma.twl.c: the TMIO SDIO
    controller and the DMA engine.

    The hardware is the class [Hw D]: 16- and 32-bit accesses to an absolute
    address on a device state [D], and the data that a DMA transfer delivers or
    accepts by the time the engine is idle again.  A [wifi_sdio_ctx] is the C
    struct; its [buffer] is NULL or an address with the bytes found there, so
    that the caller sees what a read stores. *)

From S2P Require Import Prelude Cmonad Cutils.

Class Hw (D : Type) := {
  hw_r16 : Z -> D -> Z * D;
  hw_r32 : Z -> D -> Z * D;
  hw_w16 : Z -> Z -> D -> D;
  hw_w32 : Z -> Z -> D -> D;
  hw_dma_in : nat -> D -> bytes * D;    (* FIFO to memory, [len] bytes *)
  hw_dma_out : bytes -> D -> D          (* memory to FIFO *)
}.

(** ** Register map (wifi_sdio.h) *)

Definition WIFI_SDIO_OFFS_CMD : Z := 0x000.
Definition WIFI_SDIO_OFFS_PORT_SEL : Z := 0x002.
Definition WIFI_SDIO_OFFS_CMD_PARAM0 : Z := 0x004.
Definition WIFI_SDIO_OFFS_CMD_PARAM1 : Z := 0x006.
Definition WIFI_SDIO_OFFS_STOP : Z := 0x008.
Definition WIFI_SDIO_OFFS_DATA16_BLK_CNT : Z := 0x00A.
Definition WIFI_SDIO_OFFS_RESP0 : Z := 0x00C.
Definition WIFI_SDIO_OFFS_IRQ_STAT0 : Z := 0x01C.
Definition WIFI_SDIO_OFFS_IRQ_STAT1 : Z := 0x01E.
Definition WIFI_SDIO_OFFS_IRQ_MASK : Z := 0x020.
Definition WIFI_SDIO_OFFS_CLK_CNT : Z := 0x024.
Definition WIFI_SDIO_OFFS_DATA16_BLK_LEN : Z := 0x026.
Definition WIFI_SDIO_OFFS_CARD_OPT : Z := 0x028.
Definition WIFI_SDIO_OFFS_ERR_DETAIL0 : Z := 0x02C.
Definition WIFI_SDIO_OFFS_ERR_DETAIL1 : Z := 0x02E.
Definition WIFI_SDIO_OFFS_CARDIRQ_CTL : Z := 0x034.
Definition WIFI_SDIO_OFFS_CARDIRQ_STAT : Z := 0x036.
Definition WIFI_SDIO_OFFS_CARDIRQ_MASK : Z := 0x038.
Definition WIFI_SDIO_OFFS_DATA16_CNT : Z := 0x0D8.
Definition WIFI_SDIO_OFFS_RESET : Z := 0x0E0.
Definition WIFI_SDIO_OFFS_IRQ32 : Z := 0x100.
Definition WIFI_SDIO_OFFS_DATA32_BLK_LEN : Z := 0x104.
Definition WIFI_SDIO_OFFS_DATA32_BLK_CNT : Z := 0x108.
Definition WIFI_SDIO_OFFS_DATA32_FIFO : Z := 0x10C.

Definition WIFI_SDIO_STAT0_CMDRESPEND : Z := 0x0001.
Definition WIFI_SDIO_STAT0_DATAEND : Z := 0x0004.
Definition WIFI_SDIO_STAT1_RXRDY : Z := 0x0100.
Definition WIFI_SDIO_STAT1_TXRQ : Z := 0x0200.
Definition WIFI_SDIO_STAT1_CMD_BUSY : Z := 0x4000.
Definition WIFI_SDIO_MASK_ERR : Z := 0x807F.

Definition REG_SDIO_BASE : Z := 0x4004A00.

(** ** Commands *)

Record wifi_sdio_command := {
  cmd : Z; command_type : Z; response_type : Z; data_transfer : Z; data_direction : Z;
  data_length : Z; secure : Z; unknown : Z
}.
(** The [raw] view of the union: bit-fields from the least significant bit up. *)
Definition raw (c : wifi_sdio_command) : Z :=
  u16 (cmd c + 2 ^ 6 * command_type c + 2 ^ 8 * response_type c + 2 ^ 11 * data_transfer c +
       2 ^ 12 * data_direction c + 2 ^ 13 * data_length c + 2 ^ 14 * secure c + 2 ^ 15 * unknown c).

Definition wifi_sdio_multiple_block : Z := 1.
Definition wifi_sdio_data_write : Z := 0.
Definition wifi_sdio_data_read : Z := 1.
Definition wifi_sdio_resp_none : Z := 3.
Definition wifi_sdio_resp_48bit : Z := 4.

(** ** Context *)

Record cbuffer := { baddr : Z; bdata : bytes }.

Record wifi_sdio_ctx := {
  controller : Z;
  address : Z; port : Z;
  clk_cnt : Z; bus_width : Z;
  buffer : option cbuffer; size : Z;
  resp : list Z;
  status : Z; stat0 : Z; stat1 : Z; err0 : Z; err1 : Z;
  block_size : Z; break_early : bool
}.

Definition set_xfer (b : option cbuffer) (sz : Z) (c : wifi_sdio_ctx) : wifi_sdio_ctx :=
  {| controller := controller c; address := address c; port := port c; clk_cnt := clk_cnt c;
     bus_width := bus_width c; buffer := b; size := sz; resp := resp c; status := status c;
     stat0 := stat0 c; stat1 := stat1 c; err0 := err0 c; err1 := err1 c; block_size := block_size c;
     break_early := break_early c |}.
Definition set_buffer (b : option cbuffer) (c : wifi_sdio_ctx) : wifi_sdio_ctx := set_xfer b (size c) c.
Definition set_status (v : Z) (c : wifi_sdio_ctx) : wifi_sdio_ctx :=
  {| controller := controller c; address := address c; port := port c; clk_cnt := clk_cnt c;
     bus_width := bus_width c; buffer := buffer c; size := size c; resp := resp c; status := v;
     stat0 := stat0 c; stat1 := stat1 c; err0 := err0 c; err1 := err1 c; block_size := block_size c;
     break_early := break_early c |}.
Definition set_result (r : list Z) (s0 s1 e0 e1 : Z) (c : wifi_sdio_ctx) : wifi_sdio_ctx :=
  {| controller := controller c; address := address c; port := port c; clk_cnt := clk_cnt c;
     bus_width := bus_width c; buffer := buffer c; size := size c; resp := r; status := status c;
     stat0 := s0; stat1 := s1; err0 := e0; err1 := e1; block_size := block_size c;
     break_early := break_early c |}.
Definition set_block_size (v : Z) (c : wifi_sdio_ctx) : wifi_sdio_ctx :=
  {| controller := controller c; address := address c; port := port c; clk_cnt := clk_cnt c;
     bus_width := bus_width c; buffer := buffer c; size := size c; resp := resp c; status := status c;
     stat0 := stat0 c; stat1 := stat1 c; err0 := err0 c; err1 := err1 c; block_size := v;
     break_early := break_early c |}.
Definition set_break_early (v : bool) (c : wifi_sdio_ctx) : wifi_sdio_ctx :=
  {| controller := controller c; address := address c; port := port c; clk_cnt := clk_cnt c;
     bus_width := bus_width c; buffer := buffer c; size := size c; resp := resp c; status := status c;
     stat0 := stat0 c; stat1 := stat1 c; err0 := err0 c; err1 := err1 c; block_size := block_size c;
     break_early := v |}.

(** Device and context together: what a function with a [wifi_sdio_ctx*] sees. *)
Record sdio (D : Type) := { hw : D; tmio : wifi_sdio_ctx }.
Arguments hw {D} _.
Arguments tmio {D} _.
Definition set_hw {D} (d : D) (s : sdio D) : sdio D := {| hw := d; tmio := tmio s |}.
Definition upd_tmio {D} (f : wifi_sdio_ctx -> wifi_sdio_ctx) (s : sdio D) : sdio D :=
  {| hw := hw s; tmio := f (tmio s) |}.

Section Sdio.
Context {D : Type} `{Hw D} `{Fuel}.

(** ** Register access *)

Definition wifi_sdio_read16 (c reg : Z) : M D Z := fun d => let '(v, d) := hw_r16 (c + reg) d in Ok (u16 v, d).
Definition wifi_sdio_read32 (c reg : Z) : M D Z := fun d => let '(v, d) := hw_r32 (c + reg) d in Ok (u32 v, d).
Definition wifi_sdio_write16 (c reg val : Z) : M D unit := modify (hw_w16 (c + reg) (u16 val)).
Definition wifi_sdio_write32 (c reg val : Z) : M D unit := modify (hw_w32 (c + reg) (u32 val)).

Definition wifi_sdio_mask16 (c reg clear set : Z) : M D unit :=
  let* val := wifi_sdio_read16 c reg in
  let val := Z.land val (not16 (u16 clear)) in
  let val := Z.lor val (u16 set) in
  wifi_sdio_write16 c reg val.

Definition wifi_sdio_mask32 (c reg clear set : Z) : M D unit :=
  let* val := wifi_sdio_read32 c reg in
  let val := Z.land val (not32 (u32 clear)) in
  let val := Z.lor val (u32 set) in
  wifi_sdio_write32 c reg val.

Definition wifi_sdio_setclk (c data : Z) : M D unit :=
  wifi_sdio_mask16 c WIFI_SDIO_OFFS_CLK_CNT 0x100 0 ;;;
  wifi_sdio_mask16 c WIFI_SDIO_OFFS_CLK_CNT 0x2FF (Z.land data 0x2FF) ;;;
  wifi_sdio_mask16 c WIFI_SDIO_OFFS_CLK_CNT 0x0 0x100.

Definition wifi_sdio_stop (c : Z) : M D unit := wifi_sdio_write16 c WIFI_SDIO_OFFS_STOP 0x100.

Definition wifi_sdio_enable_cardirq (c : Z) (en : bool) : M D unit :=
  if en then
    wifi_sdio_mask16 c WIFI_SDIO_OFFS_CARDIRQ_CTL 0 0x0001 ;;;
    wifi_sdio_mask16 c WIFI_SDIO_OFFS_CARDIRQ_MASK 0x0003 0
  else
    wifi_sdio_mask16 c WIFI_SDIO_OFFS_CARDIRQ_CTL 1 0 ;;;
    wifi_sdio_mask16 c WIFI_SDIO_OFFS_CARDIRQ_MASK 0 3.

Definition wifi_sdio_get_cardirq_stat (c : Z) : M D Z := wifi_sdio_read16 c WIFI_SDIO_OFFS_CARDIRQ_STAT.

Definition wifi_sdio_controller_init (c : Z) : M D unit :=
  if c =? 0 then ret tt else
  wifi_sdio_mask16 c WIFI_SDIO_OFFS_IRQ32 0x0800 0x0000 ;;;
  wifi_sdio_mask16 c WIFI_SDIO_OFFS_IRQ32 0x1000 0x0000 ;;;
  wifi_sdio_mask16 c WIFI_SDIO_OFFS_IRQ32 0x0000 0x0402 ;;;
  wifi_sdio_mask16 c WIFI_SDIO_OFFS_DATA16_CNT 0x0022 0x0002 ;;;
  wifi_sdio_mask16 c WIFI_SDIO_OFFS_DATA16_CNT 0x0020 0x0000 ;;;
  wifi_sdio_write16 c WIFI_SDIO_OFFS_DATA32_BLK_LEN 128 ;;;
  wifi_sdio_write16 c WIFI_SDIO_OFFS_DATA32_BLK_CNT 0x0001 ;;;
  wifi_sdio_mask16 c WIFI_SDIO_OFFS_RESET 0x0003 0x0000 ;;;
  wifi_sdio_mask16 c WIFI_SDIO_OFFS_RESET 0x0000 0x0003 ;;;
  wifi_sdio_write32 c WIFI_SDIO_OFFS_IRQ_MASK 0xFFFFFFFF ;;;
  wifi_sdio_mask16 c 0x0FC 0x0000 0x00DB ;;;
  wifi_sdio_mask16 c 0x0FE 0x0000 0x00DB ;;;
  wifi_sdio_mask16 c WIFI_SDIO_OFFS_PORT_SEL 3 0 ;;;
  wifi_sdio_write16 c WIFI_SDIO_OFFS_CLK_CNT 0x0020 ;;;
  wifi_sdio_write16 c WIFI_SDIO_OFFS_CARD_OPT 0x40EE ;;;
  wifi_sdio_mask16 c WIFI_SDIO_OFFS_IRQ32 0x8000 0x0000 ;;;
  wifi_sdio_mask16 c WIFI_SDIO_OFFS_IRQ32 0x0000 0x0100 ;;;
  wifi_sdio_mask16 c WIFI_SDIO_OFFS_IRQ32 0x0100 0x0000 ;;;
  wifi_sdio_mask16 c WIFI_SDIO_OFFS_PORT_SEL 3 0 ;;;
  wifi_sdio_write16 c WIFI_SDIO_OFFS_DATA16_BLK_LEN 128 ;;;
  wifi_sdio_write16 c WIFI_SDIO_OFFS_STOP 0x0100.

(** ** DMA (wifi_ndma.twl.c), channel 3 *)

Definition REG_NDMA_BASE : Z := 0x04004100.
Definition WIFI_NDMA_CHAN : Z := 3.
Definition REG_NDMA_GLOBAL_CNT : Z := REG_NDMA_BASE.
Definition REG_NDMA_SRC_ADDR : Z := REG_NDMA_BASE + 0x04 + WIFI_NDMA_CHAN * 0x1C.
Definition REG_NDMA_DST_ADDR : Z := REG_NDMA_BASE + 0x08 + WIFI_NDMA_CHAN * 0x1C.
Definition REG_NDMA_TRANSFER_CNT : Z := REG_NDMA_BASE + 0x0C + WIFI_NDMA_CHAN * 0x1C.
Definition REG_NDMA_WRITE_CNT : Z := REG_NDMA_BASE + 0x10 + WIFI_NDMA_CHAN * 0x1C.
Definition REG_NDMA_CNT : Z := REG_NDMA_BASE + 0x1C + WIFI_NDMA_CHAN * 0x1C.
Definition NDMA_ENABLE : Z := 0x80000000.
Definition NDMA_BLOCK_SIZE (n : Z) : Z := Z.shiftl (Z.land n 0xF) 16.
Definition NDMA_STARTUP_MODE (n : Z) : Z := Z.shiftl (Z.land n 0xF) 24.
Definition NDMA_SRC_MODE (n : Z) : Z := Z.shiftl (Z.land n 3) 13.
Definition NDMA_DST_MODE (n : Z) : Z := Z.shiftl (Z.land n 3) 10.
Definition NDMA_STARTUP_WIFI : Z := 9.
Definition NDMA_MODE_INC : Z := 0.
Definition NDMA_MODE_FIXED : Z := 2.

Definition wifi_ndma_init : M D unit :=
  wifi_sdio_write32 REG_NDMA_CNT 0 0 ;;;
  wifi_sdio_write32 REG_NDMA_GLOBAL_CNT 0 1.

(** [while (REG_NDMA_CNT(WIFI_NDMA_CHAN) & NDMA_ENABLE);] *)
Definition wifi_ndma_wait : M D unit :=
  mloop poll_fuel
    (let* v := wifi_sdio_read32 REG_NDMA_CNT 0 in
     ret (if nz (Z.land v NDMA_ENABLE) then None else Some tt)).

(** The programmed control word of a read (FIFO fixed, memory incrementing)
    and of a write. *)
Definition ndma_read_cnt : Z :=
  Z.lor (Z.lor (Z.lor (Z.lor NDMA_ENABLE (NDMA_BLOCK_SIZE (0x80 / 4))) (NDMA_STARTUP_MODE NDMA_STARTUP_WIFI))
    (NDMA_SRC_MODE NDMA_MODE_FIXED)) (NDMA_DST_MODE NDMA_MODE_INC).
Definition ndma_write_cnt : Z :=
  Z.lor (Z.lor (Z.lor (Z.lor NDMA_ENABLE (NDMA_BLOCK_SIZE (0x80 / 4))) (NDMA_STARTUP_MODE NDMA_STARTUP_WIFI))
    (NDMA_SRC_MODE NDMA_MODE_INC)) (NDMA_DST_MODE NDMA_MODE_FIXED).

(** Returns the bytes that the transfer stores at [dst]. *)
Definition wifi_ndma_read (dst len : Z) : M D bytes :=
  wifi_sdio_write32 REG_NDMA_SRC_ADDR 0 (REG_SDIO_BASE + WIFI_SDIO_OFFS_DATA32_FIFO) ;;;
  wifi_sdio_write32 REG_NDMA_DST_ADDR 0 dst ;;;
  wifi_sdio_write32 REG_NDMA_TRANSFER_CNT 0 (len / 4) ;;;
  wifi_sdio_write32 REG_NDMA_WRITE_CNT 0 (0x80 / 4) ;;;
  wifi_sdio_write32 REG_NDMA_CNT 0 ndma_read_cnt ;;;
  (fun d => Ok (hw_dma_in (Z.to_nat (len / 4 * 4)) d)).

Definition wifi_ndma_write (src len : Z) (data : bytes) : M D unit :=
  wifi_ndma_wait ;;;
  wifi_sdio_write32 REG_NDMA_SRC_ADDR 0 src ;;;
  wifi_sdio_write32 REG_NDMA_DST_ADDR 0 (REG_SDIO_BASE + WIFI_SDIO_OFFS_DATA32_FIFO) ;;;
  wifi_sdio_write32 REG_NDMA_TRANSFER_CNT 0 (len / 4) ;;;
  wifi_sdio_write32 REG_NDMA_WRITE_CNT 0 (0x80 / 4) ;;;
  wifi_sdio_write32 REG_NDMA_CNT 0 ndma_write_cnt ;;;
  modify (hw_dma_out (take (Z.to_nat (len / 4 * 4)) data)).

(** ** Commands *)

(** Device operations on a context's state. *)
Definition on_hw {A} (m : M D A) : M (sdio D) A := zoom hw (fun d s => set_hw d s) m.

Definition wifi_sdio_switch_device : M (sdio D) unit :=
  let* t := gets tmio in
  on_hw (wifi_sdio_mask16 (controller t) WIFI_SDIO_OFFS_PORT_SEL 3 (port t)) ;;;
  on_hw (wifi_sdio_setclk (controller t) (clk_cnt t)) ;;;
  if bus_width t =? 4 then on_hw (wifi_sdio_mask16 (controller t) WIFI_SDIO_OFFS_CARD_OPT 0x8000 0)
  else on_hw (wifi_sdio_mask16 (controller t) WIFI_SDIO_OFFS_CARD_OPT 0 0x8000).

(** The words the loop copies for one block, 4 bytes a turn; the pointer
    comparison [buffer != buffer_end] is only met on a multiple of four. *)
Fixpoint pio_read (n : nat) (c : Z) (pos : nat) : M (sdio D) unit :=
  match n with
  | O => ret tt
  | S n =>
      let* v := on_hw (wifi_sdio_read32 c WIFI_SDIO_OFFS_DATA32_FIFO) in
      let* b := gets (fun s => buffer (tmio s)) in
      match b with
      | None => fail NullDeref
      | Some b =>
          if (pos + 4 <=? length (bdata b))%nat then
            modify (upd_tmio (set_buffer (Some {| baddr := baddr b; bdata := blit pos (le_bytes 4 v) (bdata b) |}))) ;;;
            pio_read n c (pos + 4)
          else fail OobWrite
      end
  end.
Fixpoint pio_write (n : nat) (c : Z) (pos : nat) : M (sdio D) unit :=
  match n with
  | O => ret tt
  | S n =>
      let* b := gets (fun s => buffer (tmio s)) in
      match b with
      | None => fail NullDeref
      | Some b =>
          if (pos + 4 <=? length (bdata b))%nat then
            on_hw (wifi_sdio_write32 c WIFI_SDIO_OFFS_DATA32_FIFO (le_val (take 4 (drop pos (bdata b))))) ;;;
            pio_write n c (pos + 4)
          else fail OobRead
      end
  end.

(** The loop-carried locals: bytes left and position in the buffer. *)
Record pio := { left_size : Z; pos : nat }.

(** One turn of [while(true)] in [wifi_sdio_send_command]; [Some] is a [break]. *)
Definition sdio_poll (c : Z) (command : wifi_sdio_command) (has_buffer : bool) (flags : Z) (p : pio)
  : M (sdio D) (bool * pio) :=
  let* t := gets tmio in
  let bs := block_size t in
  let is_block := data_length command =? wifi_sdio_multiple_block in
  let* stat1 := on_hw (wifi_sdio_read16 c WIFI_SDIO_OFFS_IRQ_STAT1) in
  let* cnt32 := on_hw (wifi_sdio_read16 c WIFI_SDIO_OFFS_IRQ32) in
  let* p :=
    (if nz (Z.land cnt32 0x100) && (data_direction command =? wifi_sdio_data_read) && has_buffer then
       on_hw (wifi_sdio_mask16 c WIFI_SDIO_OFFS_IRQ_STAT1 WIFI_SDIO_STAT1_RXRDY 0) ;;;
       if bs - 1 <? left_size p then
         if negb (bs mod 4 =? 0) then fail OobWrite else
         pio_read (Z.to_nat (bs / 4)) c (pos p) ;;;
         ret {| left_size := left_size p - bs; pos := (pos p + Z.to_nat bs)%nat |}
       else ret p
     else ret p) in
  let* p :=
    (if nz (Z.land stat1 WIFI_SDIO_STAT1_TXRQ) && (data_direction command =? wifi_sdio_data_write) && has_buffer then
       on_hw (wifi_sdio_mask16 c WIFI_SDIO_OFFS_IRQ_STAT1 WIFI_SDIO_STAT1_TXRQ 0) ;;;
       if bs - 1 <? left_size p then
         if negb (bs mod 4 =? 0) then fail OobRead else
         pio_write (Z.to_nat (bs / 4)) c (pos p) ;;;
         ret {| left_size := left_size p - bs; pos := (pos p + Z.to_nat bs)%nat |}
       else ret p
     else ret p) in
  if nz (Z.land stat1 WIFI_SDIO_MASK_ERR) then
    modify (upd_tmio (fun t => set_status (Z.lor (status t) 4) t)) ;;; ret (true, p)
  else
    let* end_cond :=
      (if is_block then
         let* stat0 := on_hw (wifi_sdio_read16 c WIFI_SDIO_OFFS_IRQ_STAT0) in
         ret (nz (Z.land stat0 WIFI_SDIO_STAT0_CMDRESPEND) && (left_size p =? 0))
       else ret (negb (nz (Z.land stat1 WIFI_SDIO_STAT1_CMD_BUSY)))) in
    let* done :=
      (if end_cond then
         let* stat0 := on_hw (wifi_sdio_read16 c WIFI_SDIO_OFFS_IRQ_STAT0) in
         modify (upd_tmio (fun t =>
           let st := if nz (Z.land stat0 WIFI_SDIO_STAT0_CMDRESPEND) then Z.lor (status t) 1 else status t in
           let st := if nz (Z.land stat0 WIFI_SDIO_STAT0_DATAEND) then Z.lor st 2 else st in
           set_status st t)) ;;;
         ret (Z.land stat0 flags =? flags)
       else ret false) in
    if done then ret (true, p) else ret (break_early t && (left_size p =? 0), p).

Fixpoint sdio_poll_loop (n : nat) (c : Z) (command : wifi_sdio_command) (has_buffer : bool) (flags : Z) (p : pio)
  : M (sdio D) unit :=
  match n with
  | O => hang
  | S n =>
      let* '(stop, p) := sdio_poll c command has_buffer flags p in
      if (stop : bool) then ret tt else sdio_poll_loop n c command has_buffer flags p
  end.

(** After the loop: status and error registers, acknowledgement, response. *)
Definition sdio_finish (c : Z) (command : wifi_sdio_command) : M (sdio D) unit :=
  let* s0 := on_hw (wifi_sdio_read16 c WIFI_SDIO_OFFS_IRQ_STAT0) in
  let* s1 := on_hw (wifi_sdio_read16 c WIFI_SDIO_OFFS_IRQ_STAT1) in
  let* e0 := on_hw (wifi_sdio_read16 c WIFI_SDIO_OFFS_ERR_DETAIL0) in
  let* e1 := on_hw (wifi_sdio_read16 c WIFI_SDIO_OFFS_ERR_DETAIL1) in
  on_hw (wifi_sdio_write16 c WIFI_SDIO_OFFS_IRQ_STAT0 0) ;;;
  on_hw (wifi_sdio_write16 c WIFI_SDIO_OFFS_IRQ_STAT1 0) ;;;
  let* r :=
    (if response_type command =? wifi_sdio_resp_none then gets (fun s => resp (tmio s)) else
     let word i :=
       let* lo := on_hw (wifi_sdio_read16 c (WIFI_SDIO_OFFS_RESP0 + 4 * i)) in
       let* hi := on_hw (wifi_sdio_read16 c (WIFI_SDIO_OFFS_RESP0 + 4 * i + 2)) in
       ret (Z.lor lo (u32 (Z.shiftl hi 16))) in
     let* r0 := word 0 in let* r1 := word 1 in let* r2 := word 2 in let* r3 := word 3 in
     ret [r0; r1; r2; r3]) in
  modify (upd_tmio (set_result r s0 s1 e0 e1)).

(** Everything up to and including the write of the command register. *)
Definition sdio_start (c : Z) (command : wifi_sdio_command) (args : Z) : M (sdio D) unit :=
  let* t := gets tmio in
  on_hw (mloop poll_fuel
    (let* v := wifi_sdio_read16 c WIFI_SDIO_OFFS_IRQ_STAT1 in
     ret (if nz (Z.land v WIFI_SDIO_STAT1_CMD_BUSY) then None else Some tt))) ;;;
  on_hw (wifi_sdio_write16 c WIFI_SDIO_OFFS_IRQ_STAT0 0) ;;;
  on_hw (wifi_sdio_write16 c WIFI_SDIO_OFFS_IRQ_STAT1 0) ;;;
  on_hw (wifi_sdio_write16 c WIFI_SDIO_OFFS_CMD_PARAM0 (Z.land args 0xFFFF)) ;;;
  on_hw (wifi_sdio_write16 c WIFI_SDIO_OFFS_CMD_PARAM1 (Z.shiftr args 16)) ;;;
  on_hw (wifi_sdio_write16 c WIFI_SDIO_OFFS_DATA16_BLK_LEN (block_size t)) ;;;
  on_hw (wifi_sdio_write16 c WIFI_SDIO_OFFS_DATA16_BLK_CNT (size t / block_size t)) ;;;
  on_hw (wifi_sdio_write16 c WIFI_SDIO_OFFS_DATA32_BLK_LEN (block_size t)) ;;;
  on_hw (wifi_sdio_write16 c WIFI_SDIO_OFFS_DATA32_BLK_CNT (size t / block_size t)) ;;;
  (if data_length command =? wifi_sdio_multiple_block then
     on_hw (wifi_sdio_write16 c WIFI_SDIO_OFFS_DATA16_CNT 0x0002) ;;;
     on_hw (wifi_sdio_write16 c WIFI_SDIO_OFFS_IRQ32
              (if data_direction command =? wifi_sdio_data_read then 0xC02 else 0x1402))
   else ret tt) ;;;
  on_hw (wifi_sdio_write16 c WIFI_SDIO_OFFS_CMD (raw command)).

Definition wifi_sdio_send_command (command : wifi_sdio_command) (args : Z) : M (sdio D) unit :=
  let* t := gets tmio in
  let c := controller t in
  if c =? 0 then ret tt else
  (if block_size t =? 0 then modify (upd_tmio (set_block_size 512)) else ret tt) ;;;
  modify (upd_tmio (set_status 0)) ;;;
  let flags := Z.lor (if response_type command =? wifi_sdio_resp_none then 0 else WIFI_SDIO_STAT0_CMDRESPEND)
                     (if nz (data_transfer command) then WIFI_SDIO_STAT0_DATAEND else 0) in
  let misaligned := match buffer t with Some b => negb (Z.land (baddr b) 3 =? 0) | None => false end in
  if misaligned then modify (upd_tmio (fun t => set_status (Z.lor (status t) 4) t)) else
  sdio_start c command args ;;;
  let is_block := data_length command =? wifi_sdio_multiple_block in
  match buffer t with
  | Some b =>
      if (data_direction command =? wifi_sdio_data_read) && is_block then
        let* got := on_hw (wifi_ndma_read (baddr b) (size t)) in
        if (length got <=? length (bdata b))%nat then
          modify (upd_tmio (set_buffer (Some {| baddr := baddr b; bdata := blit 0 got (bdata b) |})))
        else fail OobWrite
      else if (data_direction command =? wifi_sdio_data_write) && is_block then
        if (Z.to_nat (size t / 4 * 4) <=? length (bdata b))%nat then
          on_hw (wifi_ndma_write (baddr b) (size t) (bdata b))
        else fail OobRead
      else
        sdio_poll_loop poll_fuel c command true flags {| left_size := size t; pos := 0 |} ;;;
        sdio_finish c command
  | None =>
      sdio_poll_loop poll_fuel c command false flags {| left_size := size t; pos := 0 |} ;;;
      sdio_finish c command
  end.

End Sdio.
