(* ===== verification/Heap.v ===== *)
(** Memory objects and record updates.

    The buffers that the driver reaches through pointers (the two mailbox
    buffers, the packet rings of the other processor) are objects of a heap: a
    list of [cbuffer]s, each a base address with its bytes.  A pointer is an
    address; it designates an offset inside the first object that contains it,
    and an access that leaves the object is a fault. *)

From S2P Require Import Prelude Cmonad Sdio.

(** ** Record updates *)

Class Setter {R E : Type} (proj : R -> E) := set : (E -> E) -> R -> R.
Arguments set {R E} proj {_} _ _.

Declare Scope setter_scope.
Open Scope setter_scope.
Notation "s <| f := v |>" := (set f (fun _ => v) s)
  (at level 1, f at level 10, left associativity, format "s <| f := v |>") : setter_scope.

(** The setter of [proj] from the eta expansion [eta] of its record. *)
Ltac mk_setter eta :=
  match goal with
  | |- @Setter ?R ?E ?proj =>
      exact (fun (f : E -> E) (r : R) => ltac:(
        let h := match eta with ?g _ => g | ?g => g end in
        let e := eval cbv beta delta [h] in (eta r) in
        let t := eval pattern (proj r) in e in
        match t with ?g _ => let b := eval cbv beta in (g (f (proj r))) in exact b end))
  end.

(** ** Objects *)

Abbreviation heap_t := (list cbuffer).

Fixpoint h_find (h : heap_t) (p : Z) : option (nat * nat) :=
  match h with
  | [] => None
  | o :: h =>
      if (baddr o <=? p) && (p <? baddr o + Z.of_nat (length (bdata o)))
      then Some (O, Z.to_nat (p - baddr o))
      else match h_find h p with Some (i, k) => Some (S i, k) | None => None end
  end.

(** The bytes from the pointer to the end of its object. *)
Definition h_rest (h : heap_t) (p : Z) : option bytes :=
  match h_find h p with
  | Some (i, k) => match h !! i with Some o => Some (drop k (bdata o)) | None => None end
  | None => None
  end.

(** [n] bytes at [p]. *)
Definition h_load (h : heap_t) (p : Z) (n : nat) : option bytes :=
  match h_rest h p with
  | Some b => if (n <=? length b)%nat then Some (take n b) else None
  | None => None
  end.

Definition h_store (h : heap_t) (p : Z) (src : bytes) : option heap_t :=
  match h_find h p with
  | Some (i, k) =>
      match h !! i with
      | Some o =>
          if (k + length src <=? length (bdata o))%nat
          then Some (<[i := {| baddr := baddr o; bdata := blit k src (bdata o) |}]> h)
          else None
      | None => None
      end
  | None => None
  end.

(** ** Lemmas *)

Lemma h_find_inside h p i k : h_find h p = Some (i, k) ->
  exists o, h !! i = Some o /\ p = baddr o + Z.of_nat k /\ (k < length (bdata o))%nat.
Proof.
  revert i; induction h as [|o h IH]; intros i E; simpl in E; [done|].
  destruct (_ && _) eqn:B.
  - simplify_eq. apply andb_true_iff in B as [B1 B2]. apply Z.leb_le in B1. apply Z.ltb_lt in B2.
    exists o. split; [done|]. split; lia.
  - destruct (h_find h p) as [[j l]|] eqn:F; simplify_eq. by apply IH.
Qed.

(** A store keeps the address and the size of every object. *)
Lemma h_find_insert h i o o' p :
  h !! i = Some o -> baddr o' = baddr o -> length (bdata o') = length (bdata o) ->
  h_find (<[i := o']> h) p = h_find h p.
Proof.
  revert i; induction h as [|x h IH]; intros [|i] E Ha Hl; simplify_eq/=; [by rewrite Ha, Hl|].
  by rewrite IH.
Qed.

Lemma h_store_run h p src i k o :
  h_find h p = Some (i, k) -> h !! i = Some o -> (k + length src <= length (bdata o))%nat ->
  h_store h p src = Some (<[i := {| baddr := baddr o; bdata := blit k src (bdata o) |}]> h).
Proof. intros F E L. unfold h_store. rewrite F, E. by rewrite (proj2 (Nat.leb_le _ _) L). Qed.

Lemma h_store_find h h' p src q : h_store h p src = Some h' -> h_find h' q = h_find h q.
Proof.
  unfold h_store. destruct (h_find h p) as [[i k]|]; [|done]. destruct (h !! i) as [o|] eqn:E; [|done].
  destruct (_ <=? _)%nat eqn:L; [|done]. intros [= <-]. apply Nat.leb_le in L.
  by eapply h_find_insert; [done|done|]; cbn [bdata]; apply length_blit.
Qed.

(** The object behind the pointer after a store, and the objects that the
    store leaves alone. *)
Lemma h_store_lookup h h' p src i k o :
  h_find h p = Some (i, k) -> h !! i = Some o -> h_store h p src = Some h' ->
  h' !! i = Some {| baddr := baddr o; bdata := blit k src (bdata o) |} /\
  (forall j, j <> i -> h' !! j = h !! j) /\ (k + length src <= length (bdata o))%nat.
Proof.
  intros F E. unfold h_store. rewrite F, E. destruct (_ <=? _)%nat eqn:L; [|done]. intros [= <-].
  apply Nat.leb_le in L. split; [apply list_lookup_insert_eq; by eapply lookup_lt_Some|].
  split; [|done]. intros j Hj. by apply list_lookup_insert_ne.
Qed.

Lemma h_rest_run h p i k o : h_find h p = Some (i, k) -> h !! i = Some o -> h_rest h p = Some (drop k (bdata o)).
Proof. intros F E. unfold h_rest. by rewrite F, E. Qed.

(** Objects do not overlap. *)
Definition h_disjoint (h : heap_t) : Prop :=
  forall i j o o', h !! i = Some o -> h !! j = Some o' -> i <> j ->
    baddr o + Z.of_nat (length (bdata o)) <= baddr o' \/ baddr o' + Z.of_nat (length (bdata o')) <= baddr o.

Lemma h_find_some h i o k : h_disjoint h -> h !! i = Some o -> (k < length (bdata o))%nat ->
  h_find h (baddr o + Z.of_nat k) = Some (i, k).
Proof.
  revert i; induction h as [|x h IH]; intros i D E Hk; [done|].
  destruct i as [|i]; simplify_eq/=.
  - rewrite (proj2 (Z.leb_le _ _)), (proj2 (Z.ltb_lt _ _)) by lia. cbn [andb]. do 2 f_equal. lia.
  - rewrite (IH i); [|intros a b o1 o2 H1 H2 Hn; apply (D (S a) (S b) o1 o2 H1 H2); lia|done|done].
    destruct (_ && _) eqn:B; [|done]. apply andb_true_iff in B as [B1 B2].
    apply Z.leb_le in B1. apply Z.ltb_lt in B2.
    destruct (D O (S i) x o eq_refl E ltac:(lia)); lia.
Qed.

Lemma h_find_offset h p i k o n : h_disjoint h -> h_find h p = Some (i, k) -> h !! i = Some o ->
  (k + n < length (bdata o))%nat -> h_find h (p + Z.of_nat n) = Some (i, (k + n)%nat).
Proof.
  intros D F E Hn. destruct (h_find_inside _ _ _ _ F) as (o' & E' & -> & _). simplify_eq.
  rewrite <- Z.add_assoc, <- Nat2Z.inj_add. by apply h_find_some.
Qed.

Lemma h_disjoint_insert h i o o' : h !! i = Some o -> baddr o' = baddr o ->
  length (bdata o') = length (bdata o) -> h_disjoint h -> h_disjoint (<[i := o']> h).
Proof.
  intros E Ha Hl D a b x y Hx Hy Hn. pose proof (lookup_lt_Some _ _ _ E) as Hi.
  destruct (decide (a = i)) as [->|Na]; destruct (decide (b = i)) as [->|Nb]; [done|..].
  - rewrite list_lookup_insert_eq in Hx by done. rewrite list_lookup_insert_ne in Hy by done. simplify_eq.
    rewrite Ha, Hl. eapply (D i b); eauto.
  - rewrite list_lookup_insert_eq in Hy by done. rewrite list_lookup_insert_ne in Hx by done. simplify_eq.
    rewrite Ha, Hl. eapply (D a i); eauto.
  - rewrite !list_lookup_insert_ne in Hx, Hy by done. eapply (D a b); eauto.
Qed.

Lemma h_store_disjoint h p src h' : h_disjoint h -> h_store h p src = Some h' -> h_disjoint h'.
Proof.
  intros D. unfold h_store. destruct (h_find h p) as [[i k]|]; [|done]. destruct (h !! i) as [o|] eqn:E; [|done].
  destruct (_ <=? _)%nat eqn:L; [|done]. intros [= <-]. apply Nat.leb_le in L.
  eapply h_disjoint_insert; [done|done| |done]. cbn [bdata]. by apply length_blit.
Qed.
