(* ===== verification/Card.v ===== *)
(** arm_iop/source/wifi_card.twl.c, lines 100-380: CMD52/CMD53 access to the
    card's function 0 and function 1 registers, and the AR60xx memory window.

    The byte and block primitives are the class [Card C]: every routine above
    them (multi-byte registers, the mailbox, BMI, HTC, WMI) is written against
    the class.  [bus_card] is the implementation on the SDIO controller. *)

From S2P Require Import Prelude Cmonad Cutils Sdio.

(** ** Commands *)

Definition cmd52 : wifi_sdio_command :=
  {| cmd := 52; command_type := 0; response_type := wifi_sdio_resp_48bit; data_transfer := 0;
     data_direction := 0; data_length := 0; secure := 0; unknown := 0 |}.
Definition cmd53_read : wifi_sdio_command :=
  {| cmd := 53; command_type := 0; response_type := wifi_sdio_resp_48bit; data_transfer := 1;
     data_direction := 1; data_length := 1; secure := 1; unknown := 0 |}.
Definition cmd53_read_single : wifi_sdio_command :=
  {| cmd := 53; command_type := 0; response_type := wifi_sdio_resp_48bit; data_transfer := 1;
     data_direction := 1; data_length := 0; secure := 1; unknown := 0 |}.
Definition cmd53_write : wifi_sdio_command :=
  {| cmd := 53; command_type := 0; response_type := wifi_sdio_resp_48bit; data_transfer := 1;
     data_direction := 0; data_length := 1; secure := 1; unknown := 0 |}.
Definition cmd53_write_single : wifi_sdio_command :=
  {| cmd := 53; command_type := 0; response_type := wifi_sdio_resp_48bit; data_transfer := 1;
     data_direction := 0; data_length := 0; secure := 1; unknown := 0 |}.

(** The argument words, as the call sites compose them ([u32]). *)
Definition cmd52_write_args (func addr val : Z) : Z :=
  u32 (Z.lor (Z.lor (Z.lor 0x80000000 (Z.shiftl func 28)) (Z.shiftl addr 9)) val).
Definition cmd52_read_args (func addr : Z) : Z :=
  u32 (Z.lor (Z.shiftl func 28) (Z.shiftl (Z.land addr 0x1FFFF) 9)).
Definition cmd53_32bit_args (addr blkcnt : Z) : Z :=
  u32 (Z.lor (Z.lor (Z.lor (Z.shiftl 1 28) (Z.shiftl 1 26)) (Z.shiftl (Z.land addr 0x1FFFF) 9)) blkcnt).
Definition cmd53_read_args (addr blkcnt : Z) : Z :=
  u32 (Z.lor (Z.lor (Z.lor (Z.lor (Z.shiftl 1 28) (Z.shiftl 1 27)) (Z.shiftl 1 26))
    (Z.shiftl (Z.land addr 0x1FFFF) 9)) blkcnt).
Definition cmd53_write_args (addr blkcnt : Z) : Z :=
  u32 (Z.lor (Z.lor (Z.lor (Z.lor (Z.lor 0x80000000 (Z.shiftl 1 28)) (Z.shiftl 1 27)) (Z.shiftl 1 26))
    (Z.shiftl (Z.land addr 0x1FFFF) 9)) blkcnt).

(** ** On the controller *)

(** The device and [device_curctx], NULL before initialisation. *)
Record bus (D : Type) := { bhw : D; device_curctx : option wifi_sdio_ctx }.
Arguments bhw {D} _.
Arguments device_curctx {D} _.

Section Bus.
Context {D : Type} `{Hw D} `{Fuel}.

(** A computation on [device_curctx->tmio]. *)
Definition on_ctx {A} (m : M (sdio D) A) : M (bus D) A := fun b =>
  match device_curctx b with
  | None => Fault NullDeref
  | Some t =>
      match m {| hw := bhw b; tmio := t |} with
      | Ok (a, s) => Ok (a, {| bhw := hw s; device_curctx := Some (tmio s) |})
      | Fault f => Fault f
      | Hang => Hang
      end
  end.
Definition on_dev {A} (m : M D A) : M (bus D) A :=
  zoom bhw (fun d b => {| bhw := d; device_curctx := device_curctx b |}) m.

(** [if(!device_curctx) return e;] *)
Definition with_ctx {A} (e : A) (k : M (bus D) A) : M (bus D) A := fun b =>
  match device_curctx b with None => Ok (e, b) | Some _ => k b end.

Definition wifi_card_send_command (c : wifi_sdio_command) (args : Z) : M (bus D) unit :=
  with_ctx tt (on_ctx (modify (upd_tmio (set_buffer None)) ;;; wifi_sdio_send_command c args)).

Definition wifi_card_send_command_alt (c : wifi_sdio_command) (args : Z) : M (bus D) unit :=
  with_ctx tt (on_ctx (wifi_sdio_send_command c args)).

(** [device_curctx->tmio.status & 4] *)
Definition failed_status : M (bus D) bool :=
  on_ctx (gets (fun s => nz (Z.land (status (tmio s)) 4))).

Definition wifi_card_write_func_byte (func addr val : Z) : M (bus D) Z :=
  wifi_card_send_command cmd52 (cmd52_write_args func addr val) ;;;
  let* bad := failed_status in
  ret (if (bad : bool) then -1 else 0).

Definition wifi_card_read_func_byte (func addr : Z) : M (bus D) Z :=
  wifi_card_send_command cmd52 (cmd52_read_args func addr) ;;;
  let* bad := failed_status in
  if (bad : bool) then ret 0xFF else
  on_ctx (gets (fun s => Z.land (nth 0 (resp (tmio s)) 0) 0xFF)).

(** The content of the caller's array after the call. *)
Definition read_back (buf : cbuffer) : M (bus D) bytes :=
  on_ctx (gets (fun s => match buffer (tmio s) with Some b => bdata b | None => bdata buf end)).

Definition wifi_card_read_func1_32bit (addr : Z) (buf : cbuffer) (len : Z) : M (bus D) (Z * bytes) :=
  with_ctx (-2, bdata buf)
    (on_ctx (modify (upd_tmio (set_xfer (Some buf) len)) ;;; modify (upd_tmio (set_break_early true))) ;;;
     let* old := on_ctx (gets (fun s => block_size (tmio s))) in
     on_ctx (modify (upd_tmio (set_block_size 4))) ;;;
     wifi_card_send_command_alt cmd53_read_single (cmd53_32bit_args addr (u8 len)) ;;;
     on_ctx (modify (upd_tmio (set_block_size (u16 old)))) ;;;
     let* out := read_back buf in
     let* bad := failed_status in
     ret (if (bad : bool) then -1 else 0, out)).

Definition wifi_card_read_func1_block (addr : Z) (buf : cbuffer) (len : Z) : M (bus D) (Z * bytes) :=
  with_ctx (-2, bdata buf)
    (on_dev wifi_ndma_wait ;;;
     let* c := on_ctx (gets (fun s => controller (tmio s))) in
     on_dev (wifi_sdio_stop c) ;;;
     on_ctx (modify (upd_tmio (set_xfer (Some buf) len))) ;;;
     let* bs := on_ctx (gets (fun s => block_size (tmio s))) in
     (if bs =? 0 then fail DivByZero else ret tt) ;;;
     wifi_card_send_command_alt cmd53_read (cmd53_read_args addr (u8 (len / bs))) ;;;
     on_dev (wifi_sdio_stop c) ;;;
     on_dev wifi_ndma_wait ;;;
     let* out := read_back buf in
     let* bad := failed_status in
     ret (if (bad : bool) then -1 else 0, out)).

Definition wifi_card_write_func1_block (addr : Z) (buf : cbuffer) (len : Z) : M (bus D) Z :=
  with_ctx (-2)
    (on_dev wifi_ndma_wait ;;;
     let* c := on_ctx (gets (fun s => controller (tmio s))) in
     on_dev (wifi_sdio_stop c) ;;;
     on_ctx (modify (upd_tmio (set_xfer (Some buf) len))) ;;;
     let* bs := on_ctx (gets (fun s => block_size (tmio s))) in
     (if bs =? 0 then fail DivByZero else ret tt) ;;;
     wifi_card_send_command_alt cmd53_write (cmd53_write_args addr (u8 (len / bs))) ;;;
     on_dev wifi_ndma_wait ;;;
     on_dev (wifi_sdio_stop c) ;;;
     let* bad := failed_status in
     ret (if (bad : bool) then -1 else 0)).
End Bus.

(** ** The interface *)

Class Card (C : Type) := {
  card_read_byte : Z -> Z -> M C Z;               (* function, address *)
  card_write_byte : Z -> Z -> Z -> M C Z;         (* function, address, value *)
  card_read_32bit : Z -> cbuffer -> Z -> M C (Z * bytes);
  card_read_block : Z -> cbuffer -> Z -> M C (Z * bytes);
  card_write_block : Z -> cbuffer -> Z -> M C Z;
  card_wait : M C unit                            (* [wifi_ndma_wait] *)
}.

#[export] Instance bus_card {D} `{Hw D} `{Fuel} : Card (bus D) := {|
  card_read_byte := wifi_card_read_func_byte;
  card_write_byte := wifi_card_write_func_byte;
  card_read_32bit := wifi_card_read_func1_32bit;
  card_read_block := wifi_card_read_func1_block;
  card_write_block := wifi_card_write_func1_block;
  card_wait := on_dev wifi_ndma_wait
|}.

(** ** Registers wider than a byte *)

Section Regs.
Context {C : Type} `{Card C} `{Fuel}.

Definition wifi_card_write_func0_u8 (addr val : Z) : M C Z := card_write_byte 0 addr (u8 val).
Definition wifi_card_read_func0_u8 (addr : Z) : M C Z := card_read_byte 0 addr.

Definition wifi_card_read_func0_u16 (addr : Z) : M C Z :=
  let* lo := wifi_card_read_func0_u8 addr in
  let* hi := wifi_card_read_func0_u8 (u32 (addr + 1)) in
  ret (u16 (Z.lor lo (Z.shiftl hi 8))).
Definition wifi_card_read_func0_u32 (addr : Z) : M C Z :=
  let* lo := wifi_card_read_func0_u16 addr in
  let* hi := wifi_card_read_func0_u16 (u32 (addr + 2)) in
  ret (u32 (Z.lor lo (Z.shiftl hi 16))).
Definition wifi_card_write_func0_u16 (addr val : Z) : M C Z :=
  let* a := wifi_card_write_func0_u8 addr (Z.land val 0xFF) in
  let* b := wifi_card_write_func0_u8 (u32 (addr + 1)) (Z.shiftr val 8) in
  ret (u16 (Z.lor a (Z.shiftl b 8))).
Definition wifi_card_write_func0_u32 (addr val : Z) : M C Z :=
  let* a := wifi_card_write_func0_u16 addr (Z.land val 0xFFFF) in
  let* b := wifi_card_write_func0_u16 (u32 (addr + 2)) (Z.shiftr val 16) in
  ret (u32 (Z.lor a (Z.shiftl b 16))).

Definition wifi_card_write_func1_u8 (addr val : Z) : M C Z := card_write_byte 1 addr (u8 val).
Definition wifi_card_read_func1_u8 (addr : Z) : M C Z := card_read_byte 1 addr.

Definition wifi_card_read_func1_u16 (addr : Z) : M C Z :=
  let* lo := wifi_card_read_func1_u8 addr in
  let* hi := wifi_card_read_func1_u8 (u32 (addr + 1)) in
  ret (u16 (Z.lor lo (Z.shiftl hi 8))).
Definition wifi_card_read_func1_u32 (addr : Z) : M C Z :=
  let* lo := wifi_card_read_func1_u16 addr in
  let* hi := wifi_card_read_func1_u16 (u32 (addr + 2)) in
  ret (u32 (Z.lor lo (Z.shiftl hi 16))).

(** [wifi_card_alignedbuf_small] is a 16-byte aligned static array; its address
    and old content are arguments. *)
Definition wifi_card_read_func1_u32_fast (small : cbuffer) (addr : Z) : M C Z :=
  let* '(_, b) := card_read_32bit addr small 4 in
  ofopt OobRead (getle32 b).

(** Write from MSB to LSB. *)
Definition wifi_card_write_func1_u16 (addr val : Z) : M C unit :=
  wifi_card_write_func1_u8 (u32 (addr + 1)) (Z.shiftr val 8) ;;;
  wifi_card_write_func1_u8 addr (Z.land val 0xFF) ;;;
  ret tt.
Definition wifi_card_write_func1_u32 (addr val : Z) : M C unit :=
  wifi_card_write_func1_u16 (u32 (addr + 2)) (Z.shiftr val 16) ;;;
  wifi_card_write_func1_u16 addr (Z.land val 0xFFFF).

(** ** Internal memory through the window registers *)

Definition WINDOW_DATA : Z := 0x00474.
Definition WINDOW_WRITE_ADDR : Z := 0x00478.
Definition WINDOW_READ_ADDR : Z := 0x0047C.

Definition wifi_card_read_intern_word (addr : Z) : M C Z :=
  wifi_card_write_func1_u32 WINDOW_READ_ADDR addr ;;; wifi_card_read_func1_u32 WINDOW_DATA.
Definition wifi_card_read_intern_word_fast (small : cbuffer) (addr : Z) : M C Z :=
  wifi_card_write_func1_u32 WINDOW_READ_ADDR addr ;;; wifi_card_read_func1_u32_fast small WINDOW_DATA.
Definition wifi_card_write_intern_word (addr data : Z) : M C unit :=
  wifi_card_write_func1_u32 WINDOW_DATA data ;;; wifi_card_write_func1_u32 WINDOW_WRITE_ADDR addr.

End Regs.
