(* ===== verification/CardProofs.v ===== *)
(** Register access: read-modify-write, the SDIO argument words, the refinement
    of the byte interface by the controller driver, multi-byte registers and
    the memory window. *)

From S2P Require Import Prelude Cmonad Cutils Sdio Card.

(** ** Read-modify-write *)

Lemma mask16_bits x clear set i :
  0 <= x < 2 ^ 16 -> 0 <= clear < 2 ^ 16 -> 0 <= set < 2 ^ 16 -> 0 <= i < 16 ->
  Z.testbit (Z.lor (Z.land x (not16 (u16 clear))) (u16 set)) i =
    Z.testbit set i || (Z.testbit x i && negb (Z.testbit clear i)).
Proof.
  intros Hx Hc Hs Hi. rewrite !u16_id by lia. rewrite Z.lor_spec, Z.land_spec. unfold not16.
  change 65535 with (2 ^ 16 - 1). rewrite testbit_compl by lia.
  by destruct (Z.testbit set i), (Z.testbit x i), (Z.testbit clear i).
Qed.

Lemma mask16_range x clear set :
  0 <= x < 2 ^ 16 -> 0 <= Z.lor (Z.land x (not16 (u16 clear))) (u16 set) < 2 ^ 16.
Proof.
  intros Hx. apply lor_range; [lia| |apply u16_range]. apply land_range; [lia|done|].
  unfold not16. pose proof (u16_range clear). lia.
Qed.

Lemma mask16_run {D} `{Hw D} c reg clear set d x d' :
  hw_r16 (c + reg) d = (x, d') -> 0 <= x < 2 ^ 16 ->
  wifi_sdio_mask16 c reg clear set d =
    Ok (tt, hw_w16 (c + reg) (Z.lor (Z.land x (not16 (u16 clear))) (u16 set)) d').
Proof.
  intros E Hx. unfold wifi_sdio_mask16, wifi_sdio_read16, wifi_sdio_write16, bind, modify. rewrite E.
  rewrite (u16_id x) by lia. rewrite u16_id; [done|]. by apply mask16_range.
Qed.

(** ** Argument words *)

(** The fields of an SDIO argument word: bit [lo], [n] bits. *)
Definition field (w lo n : Z) : Z := (w / 2 ^ lo) mod 2 ^ n.

Lemma lor_field a b n : 0 <= a < 2 ^ n -> 0 <= n -> Z.lor (b * 2 ^ n) a = b * 2 ^ n + a.
Proof. apply lor_disjoint_l. Qed.

Lemma cmd52_write_word func addr val :
  0 <= func < 8 -> 0 <= addr < 2 ^ 17 -> 0 <= val < 256 ->
  cmd52_write_args func addr val = 2 ^ 31 + func * 2 ^ 28 + addr * 2 ^ 9 + val.
Proof.
  intros. unfold cmd52_write_args. zshift. rewrite <- !Z.lor_assoc.
  rewrite (lor_disjoint_l val addr 9) by lia. rewrite (lor_disjoint_l _ func 28) by lia.
  change 0x80000000 with (1 * 2 ^ 31). rewrite (lor_disjoint_l _ 1 31) by lia.
  rewrite u32_id by lia. lia.
Qed.

Lemma cmd52_read_word func addr :
  0 <= func < 8 -> 0 <= addr < 2 ^ 17 ->
  cmd52_read_args func addr = func * 2 ^ 28 + addr * 2 ^ 9.
Proof.
  intros. unfold cmd52_read_args. change 0x1FFFF with (2 ^ 17 - 1). rewrite land_mask, Z.mod_small by lia.
  zshift. rewrite (lor_disjoint_l _ func 28) by lia. rewrite u32_id by lia. lia.
Qed.

Lemma cmd53_word rw addr blkcnt :
  0 <= rw < 2 -> 0 <= addr < 2 ^ 17 -> 0 <= blkcnt < 256 ->
  u32 (Z.lor (Z.lor (Z.lor (Z.lor (Z.lor (rw * 2 ^ 31) (Z.shiftl 1 28)) (Z.shiftl 1 27)) (Z.shiftl 1 26))
    (Z.shiftl (Z.land addr 0x1FFFF) 9)) blkcnt) =
  rw * 2 ^ 31 + 2 ^ 28 + 2 ^ 27 + 2 ^ 26 + addr * 2 ^ 9 + blkcnt.
Proof.
  intros. change 0x1FFFF with (2 ^ 17 - 1). rewrite land_mask, Z.mod_small by lia. zshift.
  rewrite <- !Z.lor_assoc.
  rewrite (lor_disjoint_l blkcnt addr 9) by lia. rewrite (lor_disjoint_l _ 1 26) by lia.
  rewrite (lor_disjoint_l _ 1 27) by lia. rewrite (lor_disjoint_l _ 1 28) by lia.
  rewrite (lor_disjoint_l _ rw 31) by lia. rewrite u32_id by lia. lia.
Qed.

(** ** Multi-byte registers over a register file *)

(** A card whose function-1 bytes behave as plain registers, in the states
    [rf_ok]: [regs s a] is the byte at [a]; reading leaves the registers,
    writing changes that byte only.  SDIO addresses have 17 bits. *)
Class RegFile (C : Type) `{Card C} := {
  rf_ok : C -> Prop;
  regs : C -> Z -> Z;
  regs_byte : forall s a, rf_ok s -> byte_ok (regs s a);
  regs_read : forall s a, rf_ok s -> 0 <= a < 2 ^ 17 ->
    exists s', card_read_byte 1 a s = Ok (regs s a, s') /\ rf_ok s' /\ regs s' = regs s;
  regs_write : forall s a v, rf_ok s -> 0 <= a < 2 ^ 17 -> byte_ok v ->
    exists s', card_write_byte 1 a v s = Ok (0, s') /\ rf_ok s' /\
      regs s' = fun b => if b =? a then v else regs s b
}.

(** The little-endian word at [a]. *)
Definition word16 (r : Z -> Z) (a : Z) : Z := r a + 2 ^ 8 * r (a + 1).
Definition word32 (r : Z -> Z) (a : Z) : Z := word16 r a + 2 ^ 16 * word16 r (a + 2).

Lemma word16_range r a : (forall a, byte_ok (r a)) -> 0 <= word16 r a < 2 ^ 16.
Proof. intros Hr. pose proof (Hr a). pose proof (Hr (a + 1)). unfold byte_ok, word16 in *. lia. Qed.

Section RegFile.
Context {C : Type} `{RegFile C}.

Lemma read_u16 s a : rf_ok s -> 0 <= a < 2 ^ 17 - 1 ->
  exists s', wifi_card_read_func1_u16 a s = Ok (word16 (regs s) a, s') /\ rf_ok s' /\ regs s' = regs s.
Proof.
  intros Hs Ha. unfold wifi_card_read_func1_u16, wifi_card_read_func1_u8, bind. rewrite u32_id by lia.
  destruct (regs_read s a Hs) as (s1 & -> & Hs1 & R1); [lia|].
  destruct (regs_read s1 (a + 1) Hs1) as (s2 & -> & Hs2 & R2); [lia|].
  pose proof (regs_byte s a Hs). pose proof (regs_byte s (a + 1) Hs). unfold byte_ok in *.
  unfold ret, word16. rewrite R1. zshift. rewrite (lor_add_disjoint (regs s a) _ 8) by lia.
  rewrite u16_id by lia. exists s2. split; [do 2 f_equal; lia|]. split; [done|congruence].
Qed.

Lemma read_u32 s a : rf_ok s -> 0 <= a < 2 ^ 17 - 3 ->
  exists s', wifi_card_read_func1_u32 a s = Ok (word32 (regs s) a, s') /\ rf_ok s' /\ regs s' = regs s.
Proof.
  intros Hs Ha. unfold wifi_card_read_func1_u32, bind. rewrite u32_id by lia.
  destruct (read_u16 s a Hs) as (s1 & -> & Hs1 & R1); [lia|].
  destruct (read_u16 s1 (a + 2) Hs1) as (s2 & -> & Hs2 & R2); [lia|].
  pose proof (word16_range (regs s) a (fun b => regs_byte s b Hs)).
  pose proof (word16_range (regs s) (a + 2) (fun b => regs_byte s b Hs)).
  unfold ret, word32. rewrite R1. zshift. rewrite (lor_add_disjoint (word16 (regs s) a) _ 16) by lia.
  rewrite u32_id by lia. exists s2. split; [do 2 f_equal; lia|]. split; [done|congruence].
Qed.

Lemma write_u16 s a v : rf_ok s -> 0 <= a < 2 ^ 17 - 1 -> 0 <= v < 2 ^ 16 ->
  exists s', wifi_card_write_func1_u16 a v s = Ok (tt, s') /\ rf_ok s' /\
    regs s' = fun b => if b =? a then v mod 256 else if b =? a + 1 then v / 256 else regs s b.
Proof.
  intros Hs Ha Hv. unfold wifi_card_write_func1_u16, wifi_card_write_func1_u8, bind. rewrite u32_id by lia.
  change 0xFF with (2 ^ 8 - 1). rewrite land_mask by lia. zshift.
  destruct (regs_write s (a + 1) (u8 (v / 2 ^ 8)) Hs ltac:(lia) (u8_range _)) as (s1 & -> & Hs1 & E1).
  destruct (regs_write s1 a (u8 (v mod 2 ^ 8)) Hs1 ltac:(lia) (u8_range _)) as (s2 & -> & Hs2 & E2).
  exists s2. split; [done|]. split; [done|]. rewrite E2, E1. change (2 ^ 8) with 256.
  rewrite !u8_id by (unfold byte_ok; zdm). reflexivity.
Qed.

Lemma write_u32 s a v : rf_ok s -> 0 <= a < 2 ^ 17 - 3 -> 0 <= v < 2 ^ 32 ->
  exists s', wifi_card_write_func1_u32 a v s = Ok (tt, s') /\ rf_ok s' /\
    regs s' = fun b => if b =? a then v mod 256 else if b =? a + 1 then (v / 256) mod 256
                       else if b =? a + 2 then (v / 65536) mod 256
                       else if b =? a + 3 then v / 16777216 else regs s b.
Proof.
  intros Hs Ha Hv. unfold wifi_card_write_func1_u32, bind. rewrite u32_id by lia.
  change 0xFFFF with (2 ^ 16 - 1). rewrite land_mask by lia. zshift.
  destruct (write_u16 s (a + 2) (v / 2 ^ 16) Hs) as (s1 & -> & Hs1 & E1); [lia|zdm|].
  destruct (write_u16 s1 a (v mod 2 ^ 16) Hs1) as (s2 & -> & Hs2 & E2); [lia|zdm|].
  exists s2. split; [done|]. split; [done|]. rewrite E2, E1. change (2 ^ 16) with 65536.
  replace (a + 2 + 1) with (a + 3) by lia.
  assert ((v mod 65536) mod 256 = v mod 256) as -> by zdm.
  assert (v mod 65536 / 256 = (v / 256) mod 256) as -> by zdm.
  assert (v / 65536 / 256 = v / 16777216) as -> by zdm. done.
Qed.

Lemma write_read_u32 s a v : rf_ok s -> 0 <= a < 2 ^ 17 - 3 -> 0 <= v < 2 ^ 32 ->
  exists s' s'', wifi_card_write_func1_u32 a v s = Ok (tt, s') /\ wifi_card_read_func1_u32 a s' = Ok (v, s'') /\
    forall b, ~ (a <= b < a + 4) -> regs s'' b = regs s b.
Proof.
  intros Hs Ha Hv. destruct (write_u32 s a v Hs Ha Hv) as (s' & E & Hs' & R).
  destruct (read_u32 s' a Hs' Ha) as (s'' & E2 & _ & R2). exists s', s''. split; [done|]. split.
  - rewrite E2. do 2 f_equal. unfold word32, word16. rewrite R. zeqb. zdm.
  - intros b Hb. rewrite R2, R. zeqb. done.
Qed.
End RegFile.

(** ** The memory window

    The card latches WINDOW_DATA and the address bytes; the access is made when
    the least significant address byte is written. *)

Record window := { wregs : Z -> Z; wmem : Z -> Z }.

Definition wset (a v : Z) (r : Z -> Z) : Z -> Z := fun b => if b =? a then v else r b.
Definition wput32 (a v : Z) (r : Z -> Z) : Z -> Z :=
  wset a (v mod 256) (wset (a + 1) ((v / 256) mod 256) (wset (a + 2) ((v / 65536) mod 256)
    (wset (a + 3) (v / 16777216) r))).

Definition wwrite (a v : Z) (s : window) : window :=
  let r := wset a v (wregs s) in
  if a =? WINDOW_WRITE_ADDR then
    {| wregs := r; wmem := wset (word32 r WINDOW_WRITE_ADDR) (word32 r WINDOW_DATA) (wmem s) |}
  else if a =? WINDOW_READ_ADDR then
    {| wregs := wput32 WINDOW_DATA (wmem s (word32 r WINDOW_READ_ADDR)) r; wmem := wmem s |}
  else {| wregs := r; wmem := wmem s |}.

#[export] Instance window_card : Card window := {|
  card_read_byte := fun _ a s => Ok (wregs s a, s);
  card_write_byte := fun _ a v s => Ok (0, wwrite a v s);
  card_read_32bit := fun _ b _ s => Ok ((0, bdata b), s);
  card_read_block := fun _ b _ s => Ok ((0, bdata b), s);
  card_write_block := fun _ _ _ s => Ok (0, s);
  card_wait := ret tt
|}.

Definition window_ok (s : window) : Prop :=
  (forall a, byte_ok (wregs s a)) /\ (forall a, 0 <= wmem s a < 2 ^ 32).

Lemma window_write_u32 a v s : 0 <= a < 2 ^ 32 - 3 -> 0 <= v < 2 ^ 32 ->
  wifi_card_write_func1_u32 a v s =
    Ok (tt, wwrite a (v mod 256) (wwrite (a + 1) ((v / 256) mod 256)
      (wwrite (a + 2) ((v / 65536) mod 256) (wwrite (a + 3) (v / 16777216) s)))).
Proof.
  intros Ha Hv. unfold wifi_card_write_func1_u32, wifi_card_write_func1_u16, wifi_card_write_func1_u8, bind.
  cbn [card_write_byte window_card]. rewrite !(u32_id (a + 2)), !(u32_id (a + 1)) by lia.
  rewrite (u32_id (a + 2 + 1)) by lia. replace (a + 2 + 1) with (a + 3) by lia.
  change 0xFFFF with (2 ^ 16 - 1). change 0xFF with (2 ^ 8 - 1). rewrite !land_mask by lia. zshift.
  unfold ret. do 2 f_equal. unfold u8. change (2 ^ 16) with 65536. change (2 ^ 8) with 256.
  f_equal; [zdm|]. f_equal; [zdm|]. f_equal; [zdm|]. f_equal; zdm.
Qed.

Lemma word32_bytes b0 b1 b2 b3 v : 0 <= v < 2 ^ 32 ->
  b0 = v mod 256 -> b1 = (v / 256) mod 256 -> b2 = (v / 65536) mod 256 -> b3 = v / 16777216 ->
  b0 + 2 ^ 8 * b1 + 2 ^ 16 * (b2 + 2 ^ 8 * b3) = v.
Proof. intros. subst. zdm. Qed.

Lemma word32_wput32 a v r : 0 <= v < 2 ^ 32 -> word32 (wput32 a v r) a = v.
Proof.
  intros Hv. unfold word32, word16, wput32, wset. apply word32_bytes; [done|..]; zeqb; done.
Qed.

Lemma wwrite_plain a v s : a <> WINDOW_WRITE_ADDR -> a <> WINDOW_READ_ADDR ->
  wwrite a v s = {| wregs := wset a v (wregs s); wmem := wmem s |}.
Proof. intros. unfold wwrite. by rewrite !(proj2 (Z.eqb_neq a _)) by done. Qed.

Lemma window_write_data v s : 0 <= v < 2 ^ 32 ->
  wifi_card_write_func1_u32 WINDOW_DATA v s = Ok (tt, {| wregs := wput32 WINDOW_DATA v (wregs s); wmem := wmem s |}).
Proof. intros. rewrite window_write_u32 by (unfold WINDOW_DATA; lia). by rewrite !wwrite_plain by done. Qed.

Lemma window_write_addr a s : 0 <= a < 2 ^ 32 ->
  wifi_card_write_func1_u32 WINDOW_WRITE_ADDR a s =
    Ok (tt, {| wregs := wput32 WINDOW_WRITE_ADDR a (wregs s);
               wmem := wset a (word32 (wregs s) WINDOW_DATA) (wmem s) |}).
Proof.
  intros Ha. rewrite window_write_u32 by (unfold WINDOW_WRITE_ADDR; lia).
  rewrite !(wwrite_plain (WINDOW_WRITE_ADDR + _)) by done. unfold wwrite. rewrite Z.eqb_refl. cbn [wregs wmem].
  fold (wput32 WINDOW_WRITE_ADDR a (wregs s)). rewrite word32_wput32 by done. done.
Qed.

Lemma window_read_addr a s : 0 <= a < 2 ^ 32 ->
  wifi_card_write_func1_u32 WINDOW_READ_ADDR a s =
    Ok (tt, {| wregs := wput32 WINDOW_DATA (wmem s a) (wput32 WINDOW_READ_ADDR a (wregs s)); wmem := wmem s |}).
Proof.
  intros Ha. rewrite window_write_u32 by (unfold WINDOW_READ_ADDR; lia).
  rewrite !(wwrite_plain (WINDOW_READ_ADDR + _)) by done. unfold wwrite.
  rewrite (proj2 (Z.eqb_neq WINDOW_READ_ADDR _)) by done. rewrite Z.eqb_refl. cbn [wregs wmem].
  fold (wput32 WINDOW_READ_ADDR a (wregs s)). rewrite word32_wput32 by done. done.
Qed.

Lemma window_read_data v r m : 0 <= v < 2 ^ 32 ->
  wifi_card_read_func1_u32 WINDOW_DATA {| wregs := wput32 WINDOW_DATA v r; wmem := m |} =
    Ok (v, {| wregs := wput32 WINDOW_DATA v r; wmem := m |}).
Proof.
  intros Hv. unfold wifi_card_read_func1_u32, wifi_card_read_func1_u16, wifi_card_read_func1_u8, bind.
  cbn [card_read_byte window_card]. rewrite !u32_id by (unfold WINDOW_DATA; lia).
  unfold ret, wput32, wset, WINDOW_DATA. cbn [wregs wmem].
  repeat match goal with |- context [?x =? ?y] => let b := eval vm_compute in (x =? y) in change (x =? y) with b end.
  cbv iota. zshift. do 2 f_equal.
  rewrite (lor_add_disjoint (v mod 256) _ 8) by zdm. rewrite (lor_add_disjoint ((v / 65536) mod 256) _ 8) by zdm.
  rewrite !u16_id by zdm. rewrite (lor_add_disjoint _ _ 16) by zdm. rewrite u32_id by zdm. zdm.
Qed.

Lemma window_roundtrip a v s : 0 <= a < 2 ^ 32 -> 0 <= v < 2 ^ 32 ->
  exists s' s'', wifi_card_write_intern_word a v s = Ok (tt, s') /\ wmem s' = wset a v (wmem s) /\
    wifi_card_read_intern_word a s' = Ok (v, s'') /\ wmem s'' = wmem s'.
Proof.
  intros Ha Hv. do 2 eexists. split; [|split; [|split]].
  - unfold wifi_card_write_intern_word, bind. rewrite window_write_data by done. rewrite window_write_addr by done.
    reflexivity.
  - cbn [wregs wmem]. by rewrite word32_wput32.
  - unfold wifi_card_read_intern_word, bind. rewrite window_read_addr by done. cbn [wregs wmem].
    assert (wset a (word32 (wput32 WINDOW_DATA v (wregs s)) WINDOW_DATA) (wmem s) a = v) as ->.
    { unfold wset. rewrite Z.eqb_refl. by apply word32_wput32. }
    by apply window_read_data.
  - done.
Qed.

(** ** A controller for the byte interface

    A small controller with a card behind it, the instance on which the driver
    is run below; it is not taken from the sources.  A write of the command register
    with CMD52 performs the access that the two parameter registers describe
    and loads the response; a DMA transfer out of memory is logged with the
    address of the command it belongs to; controller and DMA engine are never
    busy, and the end of a response is signalled. *)

Record tmdev := { p0 : Z; p1 : Z; rsp : Z; cregs : Z -> Z -> Z; dmalog : list (Z * bytes) }.

Definition tm_exec (d : tmdev) : tmdev :=
  let w := p0 d + 2 ^ 16 * p1 d in
  let f := field w 28 3 in let a := field w 9 17 in
  if field w 31 1 =? 1 then
    {| p0 := p0 d; p1 := p1 d; rsp := field w 0 8;
       cregs := fun g b => if (g =? f) && (b =? a) then field w 0 8 else cregs d g b; dmalog := dmalog d |}
  else {| p0 := p0 d; p1 := p1 d; rsp := cregs d f a; cregs := cregs d; dmalog := dmalog d |}.

Definition tm_read (a : Z) (d : tmdev) : Z :=
  if a =? REG_SDIO_BASE + WIFI_SDIO_OFFS_IRQ_STAT0 then WIFI_SDIO_STAT0_CMDRESPEND
  else if a =? REG_SDIO_BASE + WIFI_SDIO_OFFS_RESP0 then rsp d else 0.
Definition tm_write (a v : Z) (d : tmdev) : tmdev :=
  if a =? REG_SDIO_BASE + WIFI_SDIO_OFFS_CMD_PARAM0 then {| p0 := v; p1 := p1 d; rsp := rsp d; cregs := cregs d; dmalog := dmalog d |}
  else if a =? REG_SDIO_BASE + WIFI_SDIO_OFFS_CMD_PARAM1 then {| p0 := p0 d; p1 := v; rsp := rsp d; cregs := cregs d; dmalog := dmalog d |}
  else if (a =? REG_SDIO_BASE + WIFI_SDIO_OFFS_CMD) && (v =? raw cmd52) then tm_exec d
  else d.

#[export] Instance tm_hw : Hw tmdev := {|
  hw_r16 := fun a d => (tm_read a d, d);
  hw_r32 := fun _ d => (0, d);
  hw_w16 := tm_write;
  hw_w32 := fun _ _ d => d;
  hw_dma_in := fun n d => (replicate n 0, d);
  hw_dma_out := fun b d =>
    {| p0 := p0 d; p1 := p1 d; rsp := rsp d; cregs := cregs d;
       dmalog := dmalog d ++ [(field (p0 d + 2 ^ 16 * p1 d) 9 17, b)] |}
|}.

(** The context [wlan_ctx] after device init. *)
Definition bus_ready (b : bus tmdev) : Prop :=
  exists t, device_curctx b = Some t /\ (controller t = REG_SDIO_BASE /\ block_size t = 128) /\
    (forall g a, byte_ok (cregs (bhw b) g a)).

Lemma tm_rd {B} reg (k : Z -> M (sdio tmdev) B) s :
  bind (on_hw (wifi_sdio_read16 REG_SDIO_BASE reg)) k s = k (u16 (tm_read (REG_SDIO_BASE + reg) (hw s))) s.
Proof. by destruct s. Qed.
Lemma tm_wr {B} reg v (k : unit -> M (sdio tmdev) B) s :
  bind (on_hw (wifi_sdio_write16 REG_SDIO_BASE reg v)) k s =
    k tt (set_hw (tm_write (REG_SDIO_BASE + reg) (u16 v) (hw s)) s).
Proof. done. Qed.
Lemma tm_mod {B} f (k : unit -> M (sdio tmdev) B) s : bind (modify f) k s = k tt (f s).
Proof. done. Qed.
Lemma tm_get {A B} (f : sdio tmdev -> A) (k : A -> M (sdio tmdev) B) s : bind (gets f) k s = k (f s) s.
Proof. done. Qed.
(** A write outside the three registers of the model changes nothing. *)
Lemma tm_write_other reg v d :
  reg <> WIFI_SDIO_OFFS_CMD_PARAM0 -> reg <> WIFI_SDIO_OFFS_CMD_PARAM1 -> reg <> WIFI_SDIO_OFFS_CMD ->
  tm_write (REG_SDIO_BASE + reg) v d = d.
Proof. intros. unfold tm_write. rewrite !(proj2 (Z.eqb_neq _ _)) by lia. done. Qed.

Lemma tm_start `{Fuel} args s :
  (0 < poll_fuel)%nat -> 0 <= args < 2 ^ 32 -> controller (tmio s) = REG_SDIO_BASE ->
  sdio_start REG_SDIO_BASE cmd52 args s =
    Ok (tt, set_hw (tm_exec {| p0 := args mod 2 ^ 16; p1 := args / 2 ^ 16; rsp := rsp (hw s); cregs := cregs (hw s); dmalog := dmalog (hw s) |}) s).
Proof.
  intros Hf Ha Hc. unfold sdio_start. rewrite tm_get.
  assert (forall B (k : unit -> M (sdio tmdev) B),
    bind (on_hw (mloop poll_fuel (let* v := wifi_sdio_read16 REG_SDIO_BASE WIFI_SDIO_OFFS_IRQ_STAT1 in
       ret (if nz (Z.land v WIFI_SDIO_STAT1_CMD_BUSY) then None else Some tt)))) k s = k tt s) as Hbusy.
  { intros. destruct poll_fuel as [|n]; [lia|]. by destruct s. }
  rewrite Hbusy. rewrite !tm_wr. cbn [hw set_hw].
  rewrite !(tm_write_other WIFI_SDIO_OFFS_IRQ_STAT0), !(tm_write_other WIFI_SDIO_OFFS_IRQ_STAT1) by done.
  rewrite !(tm_write_other WIFI_SDIO_OFFS_DATA16_BLK_LEN), !(tm_write_other WIFI_SDIO_OFFS_DATA16_BLK_CNT),
    !(tm_write_other WIFI_SDIO_OFFS_DATA32_BLK_LEN), !(tm_write_other WIFI_SDIO_OFFS_DATA32_BLK_CNT) by done.
  change (data_length cmd52 =? wifi_sdio_multiple_block) with false. cbv iota. rewrite bind_ret.
  assert (u16 (Z.land args 0xFFFF) = args mod 2 ^ 16) as ->.
  { change 0xFFFF with (2 ^ 16 - 1). rewrite land_mask by lia. apply u16_id. zdm. }
  assert (u16 (Z.shiftr args 16) = args / 2 ^ 16) as -> by (rewrite shiftr_div by lia; apply u16_id; zdm).
  reflexivity.
Qed.

Lemma tm_poll d t p : status t = 0 ->
  sdio_poll REG_SDIO_BASE cmd52 false WIFI_SDIO_STAT0_CMDRESPEND p {| hw := d; tmio := t |} =
    Ok ((true, p), {| hw := d; tmio := set_status 1 t |}).
Proof.
  intros Hs. unfold sdio_poll. rewrite tm_get, tm_rd. cbv beta. rewrite tm_rd.
  change (u16 (tm_read _ _)) with 0.
  destruct t; cbn in Hs; subst. reflexivity.
Qed.

Lemma tm_finish d t :
  sdio_finish REG_SDIO_BASE cmd52 {| hw := d; tmio := t |} =
    Ok (tt, {| hw := d; tmio := set_result [Z.lor (u16 (rsp d)) 0; 0; 0; 0] 1 0 0 0 t |}).
Proof. reflexivity. Qed.

Lemma tm_send_cmd52 `{Fuel} args d t :
  (0 < poll_fuel)%nat -> 0 <= args < 2 ^ 32 -> controller t = REG_SDIO_BASE -> block_size t = 128 ->
  let d' := tm_exec {| p0 := args mod 2 ^ 16; p1 := args / 2 ^ 16; rsp := rsp d; cregs := cregs d; dmalog := dmalog d |} in
  exists t', wifi_sdio_send_command cmd52 args {| hw := d; tmio := set_buffer None t |} =
    Ok (tt, {| hw := d'; tmio := t' |}) /\
    (controller t' = REG_SDIO_BASE /\ block_size t' = 128) /\ status t' = 1 /\ nth 0 (resp t') 0 = u16 (rsp d').
Proof.
  intros Hf Ha Hc Hb d'. unfold wifi_sdio_send_command. rewrite tm_get. cbn [tmio set_buffer set_xfer controller buffer].
  rewrite Hc. change (REG_SDIO_BASE =? 0) with false. cbv iota zeta.
  rewrite bind_if, tm_mod, bind_ret, !tm_mod.
  set (t0 := {| hw := d; tmio := _ |}).
  match goal with |- exists t', (if ?b then ?k ?x else ?k ?y) = _ /\ _ =>
    assert ((if b then k x else k y) = k (if b then x else y)) as -> by (by destruct b) end.
  match goal with |- exists t', ?k ?x = _ /\ _ =>
    assert (exists t1, x = {| hw := d; tmio := t1 |} /\ controller t1 = REG_SDIO_BASE /\ status t1 = 0 /\ block_size t1 = 128)
      as (t1 & -> & Hc1 & Hs1 & Hb1)
      by (change (block_size (set_buffer None t)) with (block_size t); rewrite Hb; by eexists) end.
  unfold bind at 1. rewrite tm_start by done. cbv beta iota. cbn [set_hw hw tmio]. fold d'.
  destruct poll_fuel as [|n]; [lia|]. cbn [sdio_poll_loop].
  rewrite bind_assoc. unfold bind at 1.
  change (Z.lor _ _) with WIFI_SDIO_STAT0_CMDRESPEND. 
  unfold set_hw; cbn [tmio]. rewrite tm_poll by done. cbv beta iota. rewrite bind_ret, tm_finish.
  eexists. split; [reflexivity|]. split; [done|]. split; [done|]. cbn. by rewrite Z.lor_0_r.
Qed.

(** The fields of an argument word that the controller transmits. *)
Lemma field_word w : 0 <= w < 2 ^ 32 -> w mod 2 ^ 16 + 2 ^ 16 * (w / 2 ^ 16) = w.
Proof. intros. zdm. Qed.

Lemma tm_exec_log d : dmalog (tm_exec d) = dmalog d.
Proof. unfold tm_exec. by destruct (_ =? 1). Qed.
Lemma tm_exec_write w d : p0 d + 2 ^ 16 * p1 d = w -> field w 31 1 = 1 ->
  rsp (tm_exec d) = field w 0 8 /\
  cregs (tm_exec d) = fun g b => if (g =? field w 28 3) && (b =? field w 9 17) then field w 0 8 else cregs d g b.
Proof. intros E F. unfold tm_exec. rewrite E, F. done. Qed.
Lemma tm_exec_read w d : p0 d + 2 ^ 16 * p1 d = w -> field w 31 1 = 0 ->
  rsp (tm_exec d) = cregs d (field w 28 3) (field w 9 17) /\ cregs (tm_exec d) = cregs d.
Proof. intros E F. unfold tm_exec. rewrite E, F. done. Qed.

Lemma cmd52_write_fields func addr val :
  0 <= func < 8 -> 0 <= addr < 2 ^ 17 -> 0 <= val < 256 ->
  let w := cmd52_write_args func addr val in
  0 <= w < 2 ^ 32 /\ field w 31 1 = 1 /\ field w 28 3 = func /\ field w 9 17 = addr /\ field w 0 8 = val.
Proof. intros. subst w. rewrite cmd52_write_word by done. unfold field. repeat split; zdm. Qed.
Lemma cmd52_read_fields func addr :
  0 <= func < 8 -> 0 <= addr < 2 ^ 17 ->
  let w := cmd52_read_args func addr in
  0 <= w < 2 ^ 32 /\ field w 31 1 = 0 /\ field w 28 3 = func /\ field w 9 17 = addr.
Proof. intros. subst w. rewrite cmd52_read_word by done. unfold field. repeat split; zdm. Qed.

Section TmBus.
Context `{Fuel} (Hfuel : (0 < poll_fuel)%nat).

Lemma bus_send args b : bus_ready b -> 0 <= args < 2 ^ 32 ->
  let d := bhw b in
  let d' := tm_exec {| p0 := args mod 2 ^ 16; p1 := args / 2 ^ 16; rsp := rsp d; cregs := cregs d; dmalog := dmalog d |} in
  exists t', wifi_card_send_command cmd52 args b = Ok (tt, {| bhw := d'; device_curctx := Some t' |}) /\
    (controller t' = REG_SDIO_BASE /\ block_size t' = 128) /\ status t' = 1 /\ nth 0 (resp t') 0 = u16 (rsp d').
Proof.
  intros (t & Et & (Hc & Hb) & _) Ha d d'. unfold wifi_card_send_command, with_ctx, on_ctx. rewrite Et.
  rewrite tm_mod. destruct (tm_send_cmd52 args (bhw b) t Hfuel Ha Hc Hb) as (t' & E & H1 & H2 & H3).
  exists t'. unfold upd_tmio; cbn [hw tmio]. rewrite E. done.
Qed.

Lemma bus_write_byte f a v b : bus_ready b -> 0 <= f < 8 -> 0 <= a < 2 ^ 17 -> byte_ok v ->
  exists b', wifi_card_write_func_byte f a v b = Ok (0, b') /\ bus_ready b' /\
    cregs (bhw b') = (fun g c => if (g =? f) && (c =? a) then v else cregs (bhw b) g c) /\
    dmalog (bhw b') = dmalog (bhw b).
Proof.
  intros Hb Hf Ha Hv. destruct (cmd52_write_fields f a v Hf Ha Hv) as (W & F1 & F2 & F3 & F4).
  destruct (bus_send _ b Hb W) as (t' & E & Hc & Hst & _).
  unfold wifi_card_write_func_byte, bind, failed_status, on_ctx, gets. rewrite E. cbn [device_curctx tmio hw bhw].
  rewrite Hst. cbn [nz Z.land]. eexists. split; [reflexivity|]. cbn [bhw].
  set (d0 := {| p0 := _; p1 := _ |}).
  destruct (tm_exec_write _ d0 (field_word _ W) F1) as (_ & ->). rewrite F2, F3, F4. split; [|split; [done|by rewrite tm_exec_log]].
  exists t'. cbn [device_curctx bhw]. split; [done|]. split; [done|]. intros g c.
  rewrite (proj2 (tm_exec_write _ d0 (field_word _ W) F1)), F2, F3, F4. destruct Hb as (?&?&?&Hr).
  destruct (_ && _); [done|apply Hr].
Qed.

Lemma bus_read_byte f a b : bus_ready b -> 0 <= f < 8 -> 0 <= a < 2 ^ 17 ->
  exists b', wifi_card_read_func_byte f a b = Ok (cregs (bhw b) f a, b') /\ bus_ready b' /\
    cregs (bhw b') = cregs (bhw b) /\ dmalog (bhw b') = dmalog (bhw b).
Proof.
  intros Hb Hf Ha. destruct (cmd52_read_fields f a Hf Ha) as (W & F1 & F2 & F3).
  destruct (bus_send _ b Hb W) as (t' & E & Hc & Hst & Hr).
  unfold wifi_card_read_func_byte, bind, failed_status, on_ctx, gets. rewrite E. cbn [device_curctx tmio hw bhw].
  rewrite Hst. change (nz (Z.land 1 4)) with false. cbv iota. cbn [device_curctx tmio hw bhw].
  rewrite Hr. set (d0 := {| p0 := _; p1 := _ |}) in *.
  destruct (tm_exec_read _ d0 (field_word _ W) F1) as (-> & Ec). rewrite F2, F3. cbn [cregs d0].
  destruct Hb as (?&?&?&Hrg). pose proof (Hrg f a) as Hr1. unfold byte_ok in Hr1.
  rewrite u16_id by lia. change 0xFF with (2 ^ 8 - 1). rewrite land_mask, Z.mod_small by lia.
  eexists. split; [reflexivity|]. cbn [bhw]. rewrite Ec. split; [|split; [done|by rewrite tm_exec_log]]. exists t'. cbn [device_curctx bhw].
  rewrite Ec. done.
Qed.

(** A block write is one CMD53 whose data the DMA engine takes from memory. *)
Lemma tm_start_block cmd args (s : sdio tmdev) :
  cmd = cmd53_write \/ cmd = cmd53_read -> 0 <= args < 2 ^ 32 -> controller (tmio s) = REG_SDIO_BASE ->
  sdio_start REG_SDIO_BASE cmd args s =
    Ok (tt, set_hw {| p0 := args mod 2 ^ 16; p1 := args / 2 ^ 16; rsp := rsp (hw s); cregs := cregs (hw s);
                      dmalog := dmalog (hw s) |} s).
Proof.
  intros Hcmd Ha Hc. unfold sdio_start. rewrite tm_get.
  assert (forall B (k : unit -> M (sdio tmdev) B),
    bind (on_hw (mloop poll_fuel (let* v := wifi_sdio_read16 REG_SDIO_BASE WIFI_SDIO_OFFS_IRQ_STAT1 in
       ret (if nz (Z.land v WIFI_SDIO_STAT1_CMD_BUSY) then None else Some tt)))) k s = k tt s) as Hbusy.
  { intros. destruct poll_fuel as [|n]; [lia|]. by destruct s. }
  rewrite Hbusy. rewrite !tm_wr. cbn [hw set_hw].
  rewrite !(tm_write_other WIFI_SDIO_OFFS_IRQ_STAT0), !(tm_write_other WIFI_SDIO_OFFS_IRQ_STAT1) by done.
  rewrite !(tm_write_other WIFI_SDIO_OFFS_DATA16_BLK_LEN), !(tm_write_other WIFI_SDIO_OFFS_DATA16_BLK_CNT),
    !(tm_write_other WIFI_SDIO_OFFS_DATA32_BLK_LEN), !(tm_write_other WIFI_SDIO_OFFS_DATA32_BLK_CNT) by done.
  assert (u16 (Z.land args 0xFFFF) = args mod 2 ^ 16) as ->.
  { change 0xFFFF with (2 ^ 16 - 1). rewrite land_mask by lia. apply u16_id. zdm. }
  assert (u16 (Z.shiftr args 16) = args / 2 ^ 16) as -> by (rewrite shiftr_div by lia; apply u16_id; zdm).
  destruct Hcmd as [-> | ->]; reflexivity.
Qed.

Lemma cmd53_write_fields addr cnt : 0 <= addr < 2 ^ 17 -> 0 <= cnt < 256 ->
  0 <= cmd53_write_args addr cnt < 2 ^ 32 /\ field (cmd53_write_args addr cnt) 9 17 = addr.
Proof.
  intros Ha Hc.
  assert (cmd53_write_args addr cnt = 1 * 2 ^ 31 + 2 ^ 28 + 2 ^ 27 + 2 ^ 26 + addr * 2 ^ 9 + cnt) as ->
    by (by rewrite <- cmd53_word by lia).
  unfold field. split; zdm.
Qed.

Lemma tm_ndma_wait d : wifi_ndma_wait d = Ok (tt, d).
Proof. unfold wifi_ndma_wait. destruct poll_fuel as [|n]; [lia|]. reflexivity. Qed.

Lemma tm_stop (d : tmdev) : wifi_sdio_stop REG_SDIO_BASE d = Ok (tt, d).
Proof. reflexivity. Qed.

Lemma tm_ndma_write src n data d : n mod 4 = 0 ->
  wifi_ndma_write src n data d = Ok (tt, hw_dma_out (take (Z.to_nat n) data) d).
Proof.
  intros Hn. unfold wifi_ndma_write, bind. rewrite tm_ndma_wait.
  cbn [wifi_sdio_write32 modify hw_w32 tm_hw]. assert (n / 4 * 4 = n) as -> by zdm. reflexivity.
Qed.

Lemma tm_send_block args buf n d t :
  0 <= args < 2 ^ 32 -> controller t = REG_SDIO_BASE -> block_size t = 128 -> baddr buf mod 4 = 0 -> n mod 4 = 0 ->
  0 <= n <= Z.of_nat (length (bdata buf)) ->
  wifi_sdio_send_command cmd53_write args {| hw := d; tmio := set_xfer (Some buf) n t |} =
    Ok (tt, {| hw := {| p0 := args mod 2 ^ 16; p1 := args / 2 ^ 16; rsp := rsp d; cregs := cregs d;
                        dmalog := dmalog d ++ [(field args 9 17, take (Z.to_nat n) (bdata buf))] |};
               tmio := set_status 0 (set_xfer (Some buf) n t) |}).
Proof.
  intros W Hc Hb Hal Hm Hl.
  unfold wifi_sdio_send_command. rewrite tm_get. cbn [tmio hw set_xfer controller block_size buffer size]. rewrite Hc, Hb.
  change (REG_SDIO_BASE =? 0) with false. change (128 =? 0) with false. cbv iota zeta. rewrite bind_ret, tm_mod.
  change 3 with (2 ^ 2 - 1). rewrite land_mask by lia. change (2 ^ 2) with 4. rewrite Hal.
  change (negb (0 =? 0)) with false. cbv iota.
  unfold bind at 1. rewrite tm_start_block by (done || by left). cbv beta iota.
  change (data_direction cmd53_write =? wifi_sdio_data_read) with false. cbn [andb].
  change (data_direction cmd53_write =? wifi_sdio_data_write) with true.
  change (data_length cmd53_write =? wifi_sdio_multiple_block) with true. cbn [andb].
  assert (n / 4 * 4 = n) as -> by zdm. rewrite (proj2 (Nat.leb_le _ _)) by lia.
  unfold on_hw, zoom. rewrite tm_ndma_write by done. cbn [hw_dma_out tm_hw hw set_hw p0 p1 rsp cregs dmalog].
  by rewrite field_word by done.
Qed.

Lemma bus_write_block a buf n b : bus_ready b -> 0 <= a < 2 ^ 17 -> 0 < n <= 0x600 -> n mod 128 = 0 ->
  n <= Z.of_nat (length (bdata buf)) -> baddr buf mod 4 = 0 ->
  exists b', wifi_card_write_func1_block a buf n b = Ok (0, b') /\ bus_ready b' /\ cregs (bhw b') = cregs (bhw b) /\
    dmalog (bhw b') = dmalog (bhw b) ++ [(a, take (Z.to_nat n) (bdata buf))].
Proof.
  intros (t & Et & (Hc & Hb) & Hr) Ha Hn Hm Hl Hal.
  destruct (cmd53_write_fields a (u8 (n / 128)) Ha (u8_range _)) as [W F].
  unfold wifi_card_write_func1_block, with_ctx. rewrite Et.
  unfold on_dev, zoom, on_ctx, bind, gets, modify, failed_status, on_ctx. rewrite tm_ndma_wait, Et.
  cbn [device_curctx bhw hw tmio]. rewrite Hc, tm_stop. cbn [device_curctx bhw hw tmio upd_tmio].
  change (block_size (set_xfer _ _ t)) with (block_size t). rewrite Hb. change (128 =? 0) with false. cbn [ret].
  unfold wifi_card_send_command_alt, with_ctx, on_ctx. cbn [device_curctx hw tmio bhw].
  rewrite tm_send_block by (done || zdm || lia). cbn [device_curctx hw tmio bhw]. rewrite tm_ndma_wait.
  cbn [device_curctx hw tmio bhw]. rewrite tm_stop. cbn [device_curctx hw tmio bhw ret].
  change (nz (Z.land (status (set_status 0 _)) 4)) with false.
  eexists. split; [reflexivity|]. cbn [bhw cregs dmalog]. rewrite F. split; [|done].
  eexists. split; [reflexivity|]. done.
Qed.

(** A block read longer than the buffer: the DMA engine writes behind it. *)
Lemma bus_read_overflow a buf n b : bus_ready b -> 0 <= a < 2 ^ 17 -> n mod 128 = 0 ->
  Z.of_nat (length (bdata buf)) < n -> baddr buf mod 4 = 0 ->
  wifi_card_read_func1_block a buf n b = Fault OobWrite.
Proof.
  intros (t & Et & (Hc & Hb) & Hr) Ha Hm Hl Hal.
  unfold wifi_card_read_func1_block, with_ctx. rewrite Et.
  unfold on_dev, zoom, on_ctx, bind, gets, modify, failed_status, on_ctx. rewrite tm_ndma_wait, Et.
  cbn [device_curctx bhw hw tmio]. rewrite Hc, tm_stop. cbn [device_curctx bhw hw tmio upd_tmio].
  change (block_size (set_xfer _ _ t)) with (block_size t). rewrite Hb. change (128 =? 0) with false. cbn [ret].
  unfold wifi_card_send_command_alt, with_ctx, on_ctx. cbn [device_curctx hw tmio bhw].
  unfold wifi_sdio_send_command. rewrite tm_get. cbn [tmio hw set_xfer controller block_size buffer size]. rewrite Hc, Hb.
  change (REG_SDIO_BASE =? 0) with false. change (128 =? 0) with false. cbv iota zeta. rewrite bind_ret, tm_mod.
  change 3 with (2 ^ 2 - 1). rewrite land_mask by lia. change (2 ^ 2) with 4. rewrite Hal.
  change (negb (0 =? 0)) with false. cbv iota.
  assert (0 <= cmd53_read_args a (u8 (n / 128)) < 2 ^ 32) as W by apply u32_range.
  unfold bind at 1. rewrite tm_start_block by (done || by right). cbv beta iota.
  change (data_direction cmd53_read =? wifi_sdio_data_read) with true.
  change (data_length cmd53_read =? wifi_sdio_multiple_block) with true. cbn [andb].
  assert (n / 4 * 4 = n) as En by zdm.
  unfold bind at 1, on_hw, zoom, wifi_ndma_read, wifi_sdio_write32, bind, modify. cbn [hw_w32 hw_dma_in tm_hw hw set_hw]. rewrite En.
  rewrite length_replicate, (proj2 (Nat.leb_gt _ _)) by lia. done.
Qed.

#[export] Instance bus_regfile : RegFile (bus tmdev) (H := bus_card).
Proof.
  refine {| rf_ok := bus_ready; regs := fun b a => cregs (bhw b) 1 a |}.
  - intros s a (?&?&?&Hr). apply Hr.
  - intros s a Hs Ha. destruct (bus_read_byte 1 a s Hs ltac:(lia) Ha) as (s' & E & Hs' & R & _).
    exists s'. split; [done|]. split; [done|]. by rewrite R.
  - intros s a v Hs Ha Hv. destruct (bus_write_byte 1 a v s Hs ltac:(lia) Ha Hv) as (s' & E & Hs' & R & _).
    exists s'. split; [done|]. split; [done|]. rewrite R. done.
Defined.
End TmBus.

(** ** Theorems *)

(** The context as [wifi_card_init] leaves it (block size 128). *)
Definition tmio0 : wifi_sdio_ctx :=
  {| controller := REG_SDIO_BASE; address := 0; port := 0; clk_cnt := 0; bus_width := 1; buffer := None; size := 0;
     resp := [0; 0; 0; 0]; status := 0; stat0 := 0; stat1 := 0; err0 := 0; err1 := 0; block_size := 128;
     break_early := false |}.
Definition bus0 : bus tmdev :=
  {| bhw := {| p0 := 0; p1 := 0; rsp := 0; cregs := fun _ _ => 0; dmalog := [] |}; device_curctx := Some tmio0 |}.

Lemma bus0_ready : bus_ready bus0.
Proof. exists tmio0. repeat split; done. Qed.

(** A 32-bit function-1 register write (most significant byte first)
    followed by a 32-bit read, both through the controller, returns the value
    written, and no register outside the four bytes changes. *)
Theorem func1_u32_roundtrip `{Fuel} a v b :
  (0 < poll_fuel)%nat -> bus_ready b -> 0 <= a < 2 ^ 17 - 3 -> 0 <= v < 2 ^ 32 ->
  exists b' b'', wifi_card_write_func1_u32 a v b = Ok (tt, b') /\ wifi_card_read_func1_u32 a b' = Ok (v, b'') /\
    forall c, ~ (a <= c < a + 4) -> cregs (bhw b'') 1 c = cregs (bhw b) 1 c.
Proof. intros Hf Hb Ha Hv. exact (@write_read_u32 _ _ (bus_regfile Hf) b a v Hb Ha Hv). Qed.

Lemma func1_u32_roundtrip_witness : let _ : Fuel := 1%nat in
  exists b' b'', wifi_card_write_func1_u32 WINDOW_DATA 0xDEADBEEF bus0 = Ok (tt, b') /\
    wifi_card_read_func1_u32 WINDOW_DATA b' = Ok (0xDEADBEEF, b'').
Proof.
  destruct (@func1_u32_roundtrip 1%nat WINDOW_DATA 0xDEADBEEF bus0) as (b' & b'' & E & E' & _);
    [unfold poll_fuel; lia|apply bus0_ready|unfold WINDOW_DATA; lia|lia|].
  exists b', b''. split; [exact E|exact E'].
Defined.

(** The order of the byte writes drives the memory window: writing an
    internal word stores it at its address and nowhere else, and reading the
    address back returns it. *)
Theorem intern_word_roundtrip a v s : 0 <= a < 2 ^ 32 -> 0 <= v < 2 ^ 32 ->
  exists s' s'', wifi_card_write_intern_word a v s = Ok (tt, s') /\ wmem s' = wset a v (wmem s) /\
    wifi_card_read_intern_word a s' = Ok (v, s'') /\ wmem s'' = wmem s'.
Proof. apply window_roundtrip. Qed.

Lemma intern_word_roundtrip_witness :
  exists s' s'', wifi_card_write_intern_word 0x520000 0x1234 {| wregs := fun _ => 0; wmem := fun _ => 0 |} = Ok (tt, s') /\
    wmem s' = wset 0x520000 0x1234 (fun _ => 0) /\
    wifi_card_read_intern_word 0x520000 s' = Ok (0x1234, s'') /\ wmem s'' = wmem s'.
Proof. apply (intern_word_roundtrip 0x520000 0x1234 {| wregs := fun _ => 0; wmem := fun _ => 0 |}); lia. Defined.

(** The CMD52 and CMD53 argument words carry exactly the direction,
    function, block and increment flags, address and data or block count that
    SDIO assigns to their bit positions. *)
Theorem sdio_argument_words func addr val cnt :
  0 <= func < 8 -> 0 <= addr < 2 ^ 17 -> byte_ok val -> byte_ok cnt ->
  (let w := cmd52_write_args func addr val in
   field w 31 1 = 1 /\ field w 28 3 = func /\ field w 9 17 = addr /\ field w 0 8 = val) /\
  (let w := cmd52_read_args func addr in
   field w 31 1 = 0 /\ field w 28 3 = func /\ field w 9 17 = addr) /\
  (forall dir w, (dir = 0 /\ w = cmd53_read_args addr cnt) \/ (dir = 1 /\ w = cmd53_write_args addr cnt) ->
   field w 31 1 = dir /\ field w 28 3 = 1 /\ field w 27 1 = 1 /\ field w 26 1 = 1 /\ field w 9 17 = addr /\
   field w 0 9 = cnt).
Proof.
  intros Hf Ha Hv Hc. split; [by apply cmd52_write_fields|]. split; [by apply cmd52_read_fields|].
  unfold byte_ok in Hc. intros dir w Hw.
  assert (0 <= dir < 2 /\ w = dir * 2 ^ 31 + 2 ^ 28 + 2 ^ 27 + 2 ^ 26 + addr * 2 ^ 9 + cnt) as (Hd & ->).
  { destruct Hw as [[-> ->]|[-> ->]]; (split; [lia|]); rewrite <- cmd53_word by lia; [|done].
    by rewrite Z.mul_0_l, Z.lor_0_l. }
  unfold field. clear Hw. assert (dir = 0 \/ dir = 1) as [-> | ->] by lia; repeat split; zdm.
Qed.

Lemma sdio_argument_words_witness : field (cmd52_write_args 1 0x474 0xAB) 9 17 = 0x474.
Proof. destruct (sdio_argument_words 1 0x474 0xAB 1) as ((_ & _ & E & _) & _); [lia|lia|unfold byte_ok; lia..|exact E]. Defined.

(** The read-modify-write of a controller register performs one read and
    one write of that register; in the value written a bit of [set] is one, and
    any other bit keeps its value unless [clear] has it. *)
Theorem mask16_semantics {D} `{Hw D} c reg clear set d x d' :
  hw_r16 (c + reg) d = (x, d') -> 0 <= x < 2 ^ 16 -> 0 <= clear < 2 ^ 16 -> 0 <= set < 2 ^ 16 ->
  exists y, wifi_sdio_mask16 c reg clear set d = Ok (tt, hw_w16 (c + reg) y d') /\ 0 <= y < 2 ^ 16 /\
    forall i, 0 <= i < 16 -> Z.testbit y i = Z.testbit set i || (Z.testbit x i && negb (Z.testbit clear i)).
Proof.
  intros E Hx Hcl Hs. eexists. split; [by apply mask16_run|]. split; [by apply mask16_range|].
  intros i Hi. by apply mask16_bits.
Qed.

Lemma mask16_semantics_witness : exists y,
  wifi_sdio_mask16 REG_SDIO_BASE WIFI_SDIO_OFFS_CLK_CNT 0x100 0x20 (bhw bus0) =
    Ok (tt, hw_w16 (REG_SDIO_BASE + WIFI_SDIO_OFFS_CLK_CNT) y (bhw bus0)).
Proof.
  destruct (mask16_semantics REG_SDIO_BASE WIFI_SDIO_OFFS_CLK_CNT 0x100 0x20 (bhw bus0) 0 (bhw bus0)) as (y & E & _);
    [reflexivity|lia|lia|lia|]. exists y. exact E.
Defined.

(** The block-size field (bits 16-19) of both DMA control words is zero,
    not the 32 words of 0x80 bytes the code asks for: [NDMA_BLOCK_SIZE] masks
    its argument with 0xF. *)
Theorem ndma_block_size_is_zero :
  field ndma_read_cnt 16 4 = 0 /\ field ndma_write_cnt 16 4 = 0 /\ field ndma_read_cnt 31 1 = 1 /\
  field ndma_read_cnt 24 4 = NDMA_STARTUP_WIFI /\ field ndma_write_cnt 24 4 = NDMA_STARTUP_WIFI.
Proof. by vm_compute. Qed.
