(* ===== verification/State.v ===== *)
(** The static variables of arm_iop: those of ath/wmi.twl.c ([wmi_static]) and
    those of wifi_card.twl.c and ath/htc.twl.c ([iop]), together with the card,
    the memory objects, the AES tables and the trace of calls into libnds. *)

From S2P Require Import Prelude Cmonad Cutils Aes Wpa Sdio Heap Card.

(** ** Messages to the other processor (include/dsiwifi_cmds.h) *)

Definition WIFI_IPCCMD_INIT_IOP : Z := 1.
Definition WIFI_IPCCMD_INITBUFS : Z := 2.
Definition WIFI_IPCCMD_SENDPKT : Z := 3.
Definition WIFI_IPCCMD_GET_DEVICE_MAC : Z := 4.
Definition WIFI_IPCCMD_GET_AP_MAC : Z := 5.
Definition WIFI_IPCINT_READY : Z := 1.
Definition WIFI_IPCINT_CONNECT : Z := 2.
Definition WIFI_IPCINT_DEVICE_MAC : Z := 3.
Definition WIFI_IPCINT_AP_MAC : Z := 4.
Definition WIFI_IPCINT_PKTDATA : Z := 5.
Definition WIFI_IPCINT_DBGLOG : Z := 6.
Definition WIFI_IPCINT_PKTSENT : Z := 7.

(** The union of a [Wifi_FifoMsg]: not set, a MAC address, or a pointer and a
    length. *)
Inductive fifo_body : Type :=
| FNone
| FMac (mac_addr : bytes)
| FPkt (pkt_data pkt_len : Z).
Record Wifi_FifoMsg := { fcmd : Z; fbody : fifo_body }.

(** Calls into libnds that leave the program. *)
Inductive event : Type :=
| FifoSend (m : Wifi_FifoMsg)
| Poke16 (addr val : Z)
| RtcTransaction (command : bytes)
| I2cPmWrite (reg val : Z)               (* i2cWriteRegister(I2C_PM, ...) *)
| IrqSetAux (mask : Z)
| IrqEnableAux (mask : Z)
| IrqDisableAux (mask : Z)
| IrqDisableTimer3
| TimerStart (channel freq : Z)
| FifoSetHandler.

(** ** WMI *)

Definition AP_OPEN : Z := 0.
Definition AP_WEP : Z := 1.
Definition AP_WPA : Z := 2.
Definition AP_WPA2 : Z := 3.
Definition CRYPT_NONE : Z := 1.
Definition CRYPT_WEP : Z := 2.
Definition CRYPT_TKIP : Z := 3.
Definition CRYPT_AES : Z := 4.
Definition AUTH_NONE : Z := 0.
Definition AUTH_8021X : Z := 1.
Definition AUTH_PSK : Z := 2.
Definition AUTH_FT : Z := 3.

(** [channel_freqs] has 32 entries, [ap_name] 33 bytes; [ap_pass] and
    [ap_wep1]..[ap_wep4] are pointers to the end of the array they point to. *)
Record wmi_static := mk_wmi_static {
  ap_security_type : Z; wmi_device_mac : bytes; device_num_channels : Z; device_cur_channel_idx : Z;
  channel_freqs : list Z; ap_found : bool; ap_channel : Z; ap_bssid : bytes; ap_caps : Z; ap_name : bytes;
  ap_pass : bytes; ap_wep1 : bytes; ap_wep2 : bytes; ap_wep3 : bytes; ap_wep4 : bytes; ap_wepmode : Z;
  ap_pmk : bytes; ap_nvram_idx : Z; ap_snr : Z; num_rounds_scanned : Z; ap_group_crypt_type : Z;
  ap_pair_crypt_type : Z; ap_auth_type : Z; wmi_idk : Z; wmi_bIsReady : bool; scan_done : bool;
  scanning : bool; sent_connect : bool; wmi_bScanning : bool; ap_connected : bool; has_sent_hs2 : bool;
  has_sent_hs4 : bool; device_ap_nonce : bytes; device_nonce : bytes; device_ap_mic : bytes;
  device_gtk_keyinfo : gtk_keyinfo; device_ptk : ptk_keyinfo
}.

Definition eta_wmi (r : wmi_static) : wmi_static := mk_wmi_static
  (ap_security_type r) (wmi_device_mac r) (device_num_channels r) (device_cur_channel_idx r)
  (channel_freqs r) (ap_found r) (ap_channel r) (ap_bssid r) (ap_caps r) (ap_name r) (ap_pass r)
  (ap_wep1 r) (ap_wep2 r) (ap_wep3 r) (ap_wep4 r) (ap_wepmode r) (ap_pmk r) (ap_nvram_idx r) (ap_snr r)
  (num_rounds_scanned r) (ap_group_crypt_type r) (ap_pair_crypt_type r) (ap_auth_type r) (wmi_idk r)
  (wmi_bIsReady r) (scan_done r) (scanning r) (sent_connect r) (wmi_bScanning r) (ap_connected r)
  (has_sent_hs2 r) (has_sent_hs4 r) (device_ap_nonce r) (device_nonce r) (device_ap_mic r)
  (device_gtk_keyinfo r) (device_ptk r).
#[export] Instance set_ap_security_type : Setter ap_security_type := ltac:(mk_setter eta_wmi).
#[export] Instance set_wmi_device_mac : Setter wmi_device_mac := ltac:(mk_setter eta_wmi).
#[export] Instance set_device_num_channels : Setter device_num_channels := ltac:(mk_setter eta_wmi).
#[export] Instance set_device_cur_channel_idx : Setter device_cur_channel_idx := ltac:(mk_setter eta_wmi).
#[export] Instance set_channel_freqs : Setter channel_freqs := ltac:(mk_setter eta_wmi).
#[export] Instance set_ap_found : Setter ap_found := ltac:(mk_setter eta_wmi).
#[export] Instance set_ap_channel : Setter ap_channel := ltac:(mk_setter eta_wmi).
#[export] Instance set_ap_bssid : Setter ap_bssid := ltac:(mk_setter eta_wmi).
#[export] Instance set_ap_caps : Setter ap_caps := ltac:(mk_setter eta_wmi).
#[export] Instance set_ap_name : Setter ap_name := ltac:(mk_setter eta_wmi).
#[export] Instance set_ap_pass : Setter ap_pass := ltac:(mk_setter eta_wmi).
#[export] Instance set_ap_wep1 : Setter ap_wep1 := ltac:(mk_setter eta_wmi).
#[export] Instance set_ap_wep2 : Setter ap_wep2 := ltac:(mk_setter eta_wmi).
#[export] Instance set_ap_wep3 : Setter ap_wep3 := ltac:(mk_setter eta_wmi).
#[export] Instance set_ap_wep4 : Setter ap_wep4 := ltac:(mk_setter eta_wmi).
#[export] Instance set_ap_wepmode : Setter ap_wepmode := ltac:(mk_setter eta_wmi).
#[export] Instance set_ap_pmk : Setter ap_pmk := ltac:(mk_setter eta_wmi).
#[export] Instance set_ap_nvram_idx : Setter ap_nvram_idx := ltac:(mk_setter eta_wmi).
#[export] Instance set_ap_snr : Setter ap_snr := ltac:(mk_setter eta_wmi).
#[export] Instance set_num_rounds_scanned : Setter num_rounds_scanned := ltac:(mk_setter eta_wmi).
#[export] Instance set_ap_group_crypt_type : Setter ap_group_crypt_type := ltac:(mk_setter eta_wmi).
#[export] Instance set_ap_pair_crypt_type : Setter ap_pair_crypt_type := ltac:(mk_setter eta_wmi).
#[export] Instance set_ap_auth_type : Setter ap_auth_type := ltac:(mk_setter eta_wmi).
#[export] Instance set_wmi_idk : Setter wmi_idk := ltac:(mk_setter eta_wmi).
#[export] Instance set_wmi_bIsReady : Setter wmi_bIsReady := ltac:(mk_setter eta_wmi).
#[export] Instance set_scan_done : Setter scan_done := ltac:(mk_setter eta_wmi).
#[export] Instance set_scanning : Setter scanning := ltac:(mk_setter eta_wmi).
#[export] Instance set_sent_connect : Setter sent_connect := ltac:(mk_setter eta_wmi).
#[export] Instance set_wmi_bScanning : Setter wmi_bScanning := ltac:(mk_setter eta_wmi).
#[export] Instance set_ap_connected : Setter ap_connected := ltac:(mk_setter eta_wmi).
#[export] Instance set_has_sent_hs2 : Setter has_sent_hs2 := ltac:(mk_setter eta_wmi).
#[export] Instance set_has_sent_hs4 : Setter has_sent_hs4 := ltac:(mk_setter eta_wmi).
#[export] Instance set_device_ap_nonce : Setter device_ap_nonce := ltac:(mk_setter eta_wmi).
#[export] Instance set_device_nonce : Setter device_nonce := ltac:(mk_setter eta_wmi).
#[export] Instance set_device_ap_mic : Setter device_ap_mic := ltac:(mk_setter eta_wmi).
#[export] Instance set_device_gtk_keyinfo : Setter device_gtk_keyinfo := ltac:(mk_setter eta_wmi).
#[export] Instance set_device_ptk : Setter device_ptk := ltac:(mk_setter eta_wmi).

(** Initial values of the static variables. *)
Definition wmi_init : wmi_static := mk_wmi_static
  AP_OPEN (replicate 6 0) 0 0 (replicate 32 0)
  false 0 (replicate 6 0) 0 (replicate 33 0) [0]
  (replicate 16 0) (replicate 16 0) (replicate 16 0) (replicate 16 0) 0 (replicate 32 0) 0
  0 0 CRYPT_AES CRYPT_AES AUTH_PSK
  0 false false false false false false
  false false (replicate 32 0) (replicate 32 0) (replicate 16 0)
  (replicate 38 0) (ptk_of_bytes (replicate 64 0)).

(** ** The whole driver *)

Record iop (C : Type) := mk_iop {
  card : C; heap : heap_t; mbox_out_buffer : Z; mbox_buffer : Z; ip_data_out_buf_idx : Z;
  ip_data_out_buf : Z; ip_data_out_buf_totlen : Z; mbox_has_lookahead : bool; mbox_lookahead : Z;
  htc_buffer : bytes; device_chip_id : Z; device_manufacturer : Z; device_host_interest_addr : Z;
  device_eeprom_addr : Z; device_eeprom_version : Z; wifi_card_bInitted : bool; wifi_printf_allowed : Z;
  nvram_wep_configs : list bytes; nvram_configs : list bytes; wmi : wmi_static; aes : aes_static;
  rand_seed : Z; trace : list event
}.
Arguments mk_iop {C}.
Arguments card {C} _. Arguments heap {C} _. Arguments mbox_out_buffer {C} _. Arguments mbox_buffer {C} _. Arguments ip_data_out_buf_idx {C} _. Arguments ip_data_out_buf {C} _.
Arguments ip_data_out_buf_totlen {C} _. Arguments mbox_has_lookahead {C} _. Arguments mbox_lookahead {C} _. Arguments htc_buffer {C} _. Arguments device_chip_id {C} _. Arguments device_manufacturer {C} _.
Arguments device_host_interest_addr {C} _. Arguments device_eeprom_addr {C} _. Arguments device_eeprom_version {C} _. Arguments wifi_card_bInitted {C} _. Arguments wifi_printf_allowed {C} _. Arguments nvram_wep_configs {C} _.
Arguments nvram_configs {C} _. Arguments wmi {C} _. Arguments aes {C} _. Arguments rand_seed {C} _. Arguments trace {C} _.

Definition eta_iop {C} (r : iop C) : iop C := mk_iop
  (card r) (heap r) (mbox_out_buffer r) (mbox_buffer r) (ip_data_out_buf_idx r) (ip_data_out_buf r)
  (ip_data_out_buf_totlen r) (mbox_has_lookahead r) (mbox_lookahead r) (htc_buffer r) (device_chip_id r)
  (device_manufacturer r) (device_host_interest_addr r) (device_eeprom_addr r) (device_eeprom_version r)
  (wifi_card_bInitted r) (wifi_printf_allowed r) (nvram_wep_configs r) (nvram_configs r) (wmi r) (aes r)
  (rand_seed r) (trace r).
#[export] Instance set_card {C} : Setter (@card C) := ltac:(mk_setter (@eta_iop C)).
#[export] Instance set_heap {C} : Setter (@heap C) := ltac:(mk_setter (@eta_iop C)).
#[export] Instance set_mbox_out_buffer {C} : Setter (@mbox_out_buffer C) := ltac:(mk_setter (@eta_iop C)).
#[export] Instance set_mbox_buffer {C} : Setter (@mbox_buffer C) := ltac:(mk_setter (@eta_iop C)).
#[export] Instance set_ip_data_out_buf_idx {C} : Setter (@ip_data_out_buf_idx C) := ltac:(mk_setter (@eta_iop C)).
#[export] Instance set_ip_data_out_buf {C} : Setter (@ip_data_out_buf C) := ltac:(mk_setter (@eta_iop C)).
#[export] Instance set_ip_data_out_buf_totlen {C} : Setter (@ip_data_out_buf_totlen C) := ltac:(mk_setter (@eta_iop C)).
#[export] Instance set_mbox_has_lookahead {C} : Setter (@mbox_has_lookahead C) := ltac:(mk_setter (@eta_iop C)).
#[export] Instance set_mbox_lookahead {C} : Setter (@mbox_lookahead C) := ltac:(mk_setter (@eta_iop C)).
#[export] Instance set_htc_buffer {C} : Setter (@htc_buffer C) := ltac:(mk_setter (@eta_iop C)).
#[export] Instance set_device_chip_id {C} : Setter (@device_chip_id C) := ltac:(mk_setter (@eta_iop C)).
#[export] Instance set_device_manufacturer {C} : Setter (@device_manufacturer C) := ltac:(mk_setter (@eta_iop C)).
#[export] Instance set_device_host_interest_addr {C} : Setter (@device_host_interest_addr C) := ltac:(mk_setter (@eta_iop C)).
#[export] Instance set_device_eeprom_addr {C} : Setter (@device_eeprom_addr C) := ltac:(mk_setter (@eta_iop C)).
#[export] Instance set_device_eeprom_version {C} : Setter (@device_eeprom_version C) := ltac:(mk_setter (@eta_iop C)).
#[export] Instance set_wifi_card_bInitted {C} : Setter (@wifi_card_bInitted C) := ltac:(mk_setter (@eta_iop C)).
#[export] Instance set_wifi_printf_allowed {C} : Setter (@wifi_printf_allowed C) := ltac:(mk_setter (@eta_iop C)).
#[export] Instance set_nvram_wep_configs {C} : Setter (@nvram_wep_configs C) := ltac:(mk_setter (@eta_iop C)).
#[export] Instance set_nvram_configs {C} : Setter (@nvram_configs C) := ltac:(mk_setter (@eta_iop C)).
#[export] Instance set_wmi {C} : Setter (@wmi C) := ltac:(mk_setter (@eta_iop C)).
#[export] Instance set_aes {C} : Setter (@aes C) := ltac:(mk_setter (@eta_iop C)).
#[export] Instance set_rand_seed {C} : Setter (@rand_seed C) := ltac:(mk_setter (@eta_iop C)).
#[export] Instance set_trace {C} : Setter (@trace C) := ltac:(mk_setter (@eta_iop C)).

(** The AES tables before their first use. *)
Definition aes_zero : aes_static :=
  let z := replicate 256 0 in
  {| aes_init_done := 0;
     tables := {| FSb := z; RSb := z; RCON := replicate 10 0; FT0 := z; FT1 := z; FT2 := z; FT3 := z;
                  RT0 := z; RT1 := z; RT2 := z; RT3 := z |} |}.

(** [rand()] of the C library: the value returned and the next seed. *)
Class Rand := libc_rand : Z -> Z * Z.

Section State.
Context {C : Type}.

Definition on_card {A} (m : M C A) : M (iop C) A := zoom card (fun c s => s <| card := c |>) m.

Definition emit (e : event) : M (iop C) unit := modify (fun s => s <| trace := trace s ++ [e] |>).
Definition fifoSendDatamsg (m : Wifi_FifoMsg) : M (iop C) unit := emit (FifoSend m).

(** [w.f = v] on the static variables of wmi.twl.c. *)
Definition wset_ (f : wmi_static -> wmi_static) : M (iop C) unit := modify (fun s => s <| wmi := f (wmi s) |>).
Definition wget {A} (f : wmi_static -> A) : M (iop C) A := gets (fun s => f (wmi s)).

(** Memory accesses through a pointer. *)
Definition mem_rest (p : Z) : M (iop C) bytes := fun s =>
  match h_rest (heap s) p with Some b => Ok (b, s) | None => Fault OobRead end.
Definition mem_load (p : Z) (n : nat) : M (iop C) bytes := fun s =>
  match h_load (heap s) p n with Some b => Ok (b, s) | None => Fault OobRead end.
Definition mem_store (p : Z) (src : bytes) : M (iop C) unit := fun s =>
  match h_store (heap s) p src with Some h => Ok (tt, s <| heap := h |>) | None => Fault OobWrite end.

End State.
