(* ===== verification/Mbox.v ===== *)
(** arm_iop/source/wifi_card.twl.c, lines 384-676 and 884-1035, and
    ath/htc.twl.c's [htc_send_pkt]: the mailbox, outgoing packets, and the
    bootloader protocol (BMI). *)

From S2P Require Import Prelude Cmonad Cutils Sdio Heap Card State.

Definition MBOX_TMPBUF_SIZE : Z := 0x600.
Definition DATA_BUF_LEN : Z := 0x600.

Definition F1_HOST_INT_STATUS : Z := 0x400.
Definition F1_MBOX_FRAME : Z := 0x404.
Definition F1_RX_LOOKAHEAD_VALID : Z := 0x405.
Definition F1_RX_LOOKAHEAD0 : Z := 0x408.
Definition F1_INT_STATUS_ENABLE : Z := 0x418.
Definition F1_COUNT4 : Z := 0x450.

Definition MBOXPKT_HTC : Z := 0.
Definition MBOXPKT_WMI : Z := 1.
Definition MBOXPKT_NOACK : Z := 0.
Definition MBOXPKT_REQACK : Z := 1.
Definition MBOXPKT_RETACK : Z := 2.

Definition BMI_DONE : Z := 0x1.
Definition BMI_READ_MEMORY : Z := 0x2.
Definition BMI_WRITE_MEMORY : Z := 0x3.
Definition BMI_EXECUTE : Z := 0x4.
Definition BMI_READ_SOC_REGISTER : Z := 0x6.
Definition BMI_WRITE_SOC_REGISTER : Z := 0x7.
Definition BMI_GET_TARGET_ID : Z := 0x8.
Definition BMI_LZ_STREAM_START : Z := 0xD.
Definition BMI_LZ_DATA : Z := 0xE.

Section Mbox.
Context {C : Type} `{Card C} `{Fuel}.

(** ** The mailbox register *)

Definition wifi_card_mbox_clear : M C unit :=
  wifi_card_read_func1_u8 F1_HOST_INT_STATUS ;;;
  wifi_card_read_func1_u8 F1_MBOX_FRAME ;;;
  wifi_card_read_func1_u8 F1_RX_LOOKAHEAD_VALID ;;;
  mloop poll_fuel
    (let* v := wifi_card_read_func1_u8 F1_RX_LOOKAHEAD_VALID in
     if nz (Z.land v 0x1) then wifi_card_read_func1_u8 0xFF ;;; ret None else ret (Some tt)).

Definition wifi_card_bmi_wait_count4 : M C unit :=
  mloop poll_fuel
    (let* v := wifi_card_read_func1_u8 F1_COUNT4 in ret (if v =? 0 then None else Some tt)).

Fixpoint write_mbox_bytes (n : nat) (val : Z) : M C unit :=
  match n with
  | O => ret tt
  | S n => wifi_card_write_func1_u8 0xFF (Z.land val 0xFF) ;;; write_mbox_bytes n (Z.shiftr val 8)
  end.
Definition wifi_card_write_mbox0_u32 (val : Z) : M C unit := write_mbox_bytes 4 val.

(** [val |= read(0xFF) << i*8] for [i] from [i] to 3, [n] turns. *)
Fixpoint read_mbox_bytes (n : nat) (i val : Z) : M C Z :=
  match n with
  | O => ret val
  | S n =>
      let* b := wifi_card_read_func1_u8 0xFF in
      read_mbox_bytes n (i + 1) (u32 (Z.lor val (Z.shiftl b (i * 8))))
  end.
Definition wifi_card_read_mbox0_u32 : M C Z :=
  mloop poll_fuel
    (let* v := wifi_card_read_func1_u8 F1_RX_LOOKAHEAD_VALID in
     ret (if nz (Z.land v 1) then Some tt else None)) ;;;
  read_mbox_bytes 4 0 0.

(** [while (!(valid & 1) && ++timeout < 10);], [n] more turns at most. *)
Fixpoint wait_lookahead (n : nat) (timeout : Z) : M C unit :=
  match n with
  | O => ret tt
  | S n =>
      let* v := wifi_card_read_func1_u8 F1_RX_LOOKAHEAD_VALID in
      if negb (nz (Z.land v 1)) && (timeout + 1 <? 10) then wait_lookahead n (timeout + 1) else ret tt
  end.
Definition wifi_card_read_mbox0_u32_timeout : M C Z :=
  wait_lookahead 10 0 ;;;
  let* v := wifi_card_read_func1_u8 F1_RX_LOOKAHEAD_VALID in
  if negb (nz (Z.land v 1)) then ret 0xFFFFFFFF else read_mbox_bytes 4 0 0.

(** The message ends at the last address of the mailbox window. *)
Definition wifi_card_mbox0_sendbytes (data : cbuffer) (len : Z) : M C unit :=
  let send_addr := u16 (0x4000 - len) in
  card_write_block send_addr data len ;;;
  let* intval := wifi_card_read_func1_u32 F1_HOST_INT_STATUS in
  if nz (Z.land intval 0x00010000) then
    wifi_card_read_func1_u32 F1_HOST_INT_STATUS ;;; wifi_card_read_func1_u8 F1_RX_LOOKAHEAD_VALID ;;; ret tt
  else ret tt.

(** ** Outgoing packets *)

(** [memcpy(dst, data, len)] with [data] NULL or the bytes behind a pointer. *)
Definition copy_in (dst : Z) (data : option bytes) (len : Z) : M (iop C) unit :=
  match data with
  | None => ret tt
  | Some d =>
      if (Z.to_nat len <=? length d)%nat then mem_store dst (take (Z.to_nat len) d) else fail OobRead
  end.

(** [wifi_card_mbox0_sendbytes(mbox_out_buffer, len)] *)
Definition send_out_buffer (len : Z) : M (iop C) unit :=
  let* out := gets mbox_out_buffer in
  let* b := mem_rest out in
  on_card (wifi_card_mbox0_sendbytes {| baddr := out; bdata := b |} len).

Definition wifi_card_mbox0_send_packet (type ack_type : Z) (data : option bytes) (len idk : Z) : M (iop C) unit :=
  let* out := gets mbox_out_buffer in
  mem_store out ([u8 type; u8 ack_type] ++ le_bytes 2 len ++ le_bytes 2 idk) ;;;
  let len := if MBOX_TMPBUF_SIZE - 0x6 <? len then MBOX_TMPBUF_SIZE - 0x6 else len in
  copy_in (out + 6) data len ;;;
  let len := u16 (len + 6) in
  let len := u16 (round_up len 0x80) in
  send_out_buffer len.

Definition data_send_pkt (pkt_data : bytes) (len : Z) : M (iop C) unit :=
  wifi_card_mbox0_send_packet 0x02 MBOXPKT_NOACK (Some pkt_data) (u16 len) 0.
Definition data_send_pkt_idk (pkt_data : bytes) (len : Z) : M (iop C) unit :=
  wifi_card_mbox0_send_packet 0x02 MBOXPKT_NOACK (Some pkt_data) (u16 len) 0x2008.

Definition wmi_send_pkt (wmi_type ack_type : Z) (data : option bytes) (len : Z) : M (iop C) unit :=
  let* out := gets mbox_out_buffer in
  mem_store out (replicate 8 0) ;;;
  let* idk := wget wmi_idk in
  mem_store out ([u8 MBOXPKT_WMI; u8 ack_type] ++ le_bytes 2 (u16 (len + 2)) ++ le_bytes 2 idk ++ le_bytes 2 wmi_type) ;;;
  let len := if MBOX_TMPBUF_SIZE - 0x8 <? len then MBOX_TMPBUF_SIZE - 0x8 else len in
  copy_in (out + 8) data len ;;;
  let len := u16 (len + 8) in
  let len := u16 (round_up len 0x80) in
  send_out_buffer len.

Definition htc_send_pkt (htc_type ack_type : Z) (data : option bytes) (len : Z) : M (iop C) unit :=
  modify (fun s => s <| htc_buffer := replicate 0x80 0 |>) ;;;
  modify (fun s => s <| htc_buffer := blit 0 (le_bytes 2 htc_type) (htc_buffer s) |>) ;;;
  let len := if 0x80 - 2 <? len then 0x80 - 2 else len in
  match data with
  | None => ret tt
  | Some d =>
      if (Z.to_nat len <=? length d)%nat
      then modify (fun s => s <| htc_buffer := blit 2 (take (Z.to_nat len) d) (htc_buffer s) |>)
      else fail OobRead
  end ;;;
  let len := u16 (len + 2) in
  let* b := gets htc_buffer in
  wifi_card_mbox0_send_packet MBOXPKT_HTC ack_type (Some b) len 0.

(** ** BMI *)

Definition wifi_card_bmi_start_firmware : M C unit := wifi_card_write_mbox0_u32 BMI_DONE.

Fixpoint read_bytes (n : nat) : M C bytes :=
  match n with
  | O => ret []
  | S n => let* b := wifi_card_read_func1_u8 0xFF in let* r := read_bytes n in ret (b :: r)
  end.
(** [for (...; i < len; i++) write(0xFF, data[i])] *)
Definition write_bytes (data : bytes) : M C unit :=
  mforeach data (fun b => wifi_card_write_func1_u8 0xFF b ;;; ret tt).

(** Returns the bytes stored at [out]. *)
Definition wifi_card_bmi_cmd_read_memory (small : cbuffer) (addr len : Z) : M C bytes :=
  if len =? 4 then let* w := wifi_card_read_intern_word_fast small addr in ret (le_bytes 4 w) else
  wifi_card_write_mbox0_u32 BMI_READ_MEMORY ;;;
  wifi_card_write_mbox0_u32 addr ;;;
  wifi_card_write_mbox0_u32 (u32 (len + len mod 4)) ;;;
  let* out := read_bytes (Z.to_nat len) in
  read_bytes (Z.to_nat (len mod 4)) ;;;
  ret out.

Definition wifi_card_bmi_cmd_write_memory (addr : Z) (data : bytes) (len : Z) : M C unit :=
  if (length data <? Z.to_nat len)%nat then fail OobRead else
  if len =? 4 then wifi_card_write_intern_word addr (le_val (take 4 data)) else
  wifi_card_write_mbox0_u32 BMI_WRITE_MEMORY ;;;
  wifi_card_write_mbox0_u32 addr ;;;
  wifi_card_write_mbox0_u32 (u32 (len + len mod 4)) ;;;
  write_bytes (take (Z.to_nat len) data) ;;;
  write_bytes (replicate (Z.to_nat (len mod 4)) 0).

Definition wifi_card_bmi_execute (addr arg : Z) : M C Z :=
  wifi_card_write_mbox0_u32 BMI_EXECUTE ;;;
  wifi_card_write_mbox0_u32 addr ;;;
  wifi_card_write_mbox0_u32 arg ;;;
  wifi_card_read_mbox0_u32.

Definition wifi_card_bmi_read_register (addr : Z) : M C Z :=
  wifi_card_write_mbox0_u32 BMI_READ_SOC_REGISTER ;;;
  wifi_card_write_mbox0_u32 addr ;;;
  wifi_card_read_mbox0_u32.

Definition wifi_card_bmi_write_register (addr val : Z) : M C unit :=
  wifi_card_write_mbox0_u32 BMI_WRITE_SOC_REGISTER ;;;
  wifi_card_write_mbox0_u32 addr ;;;
  wifi_card_write_mbox0_u32 val.

Fixpoint skip_words (n : nat) : M C unit :=
  match n with O => ret tt | S n => wifi_card_read_mbox0_u32 ;;; skip_words n end.

Definition wifi_card_bmi_get_version : M C Z :=
  wifi_card_write_mbox0_u32 BMI_GET_TARGET_ID ;;;
  let* r := wifi_card_read_mbox0_u32 in
  if r =? 0xFFFFFFFF then
    let* len := wifi_card_read_mbox0_u32 in
    if negb (len =? 0xFFFFFFFF) then
      let* r := wifi_card_read_mbox0_u32 in
      skip_words (Z.to_nat (u32 (len / 4 - 2))) ;;;
      ret r
    else ret r
  else ret r.

Definition wifi_card_bmi_lz_start (addr : Z) : M C unit :=
  wifi_card_write_mbox0_u32 BMI_LZ_STREAM_START ;;;
  wifi_card_write_mbox0_u32 addr.

(** [data] is at [addr] in memory. *)
Definition wifi_card_bmi_lz_data (data : cbuffer) (len : Z) : M C unit :=
  if (length (bdata data) <? Z.to_nat len)%nat then fail OobRead else
  wifi_card_write_mbox0_u32 BMI_LZ_DATA ;;;
  wifi_card_write_mbox0_u32 (u32 (len + len mod 4)) ;;;
  let len_bulk := len - len mod 0x80 in
  wifi_card_mbox0_sendbytes data len_bulk ;;;
  write_bytes (drop (Z.to_nat len_bulk) (take (Z.to_nat len) (bdata data))) ;;;
  write_bytes (replicate (Z.to_nat (len mod 4)) 0).

(** [for (int i = 0; i < len; i += chunk_size)], [n] turns at most: the
    fragments' offset and size. *)
Fixpoint fragments (n : nat) (i len chunk_size : Z) : list (Z * Z) :=
  match n with
  | O => []
  | S n =>
      if i <? len then
        (i, if len <? i + chunk_size then len - i else chunk_size) :: fragments n (i + chunk_size) len chunk_size
      else []
  end.

Definition wifi_card_bmi_write_memory (addr : Z) (data : bytes) (len : Z) : M C unit :=
  mforeach (fragments (Z.to_nat len) 0 len 0x1F0) (fun '(i, frag_size) =>
    wifi_card_bmi_cmd_write_memory (u32 (addr + i)) (drop (Z.to_nat i) data) frag_size).

Definition wifi_card_bmi_lz_upload (addr : Z) (data : cbuffer) (len : Z) : M C unit :=
  wifi_card_bmi_lz_start addr ;;;
  mforeach (fragments (Z.to_nat len) 0 len 0x1F8) (fun '(i, frag_size) =>
    wifi_card_bmi_lz_data {| baddr := baddr data + i; bdata := drop (Z.to_nat i) (bdata data) |} frag_size).

End Mbox.
