(* ===== verification/MboxProofs.v ===== *)
(** Outgoing packets and BMI.

    [MboxCard] is what the mailbox code needs of a card.  [mpkt] is a mailbox
    packet as the firmware sees it; [abs] replaces the card of a driver state by
    the list of packets it has received and forgets the staging buffer, and
    [refines m f] says that [m] runs to completion and does to [abs s] what the
    function [f] does.  The WMI and EAPOL files state their commands this way. *)

From S2P Require Import Prelude Cmonad Cutils Sdio Heap Card CardProofs State Mbox.

(** ** The interface of the card *)

(** Block writes are recorded; register accesses other than the byte port of
    the mailbox (0xFF) keep what was sent. *)
Class MboxCard (C : Type) `{Card C} := {
  mc_ok : C -> Prop;
  sent : C -> list (Z * bytes);           (* block writes: address and data *)
  mc_send : forall c a b n, mc_ok c -> 0 <= a < 2 ^ 17 -> 0 < n <= 0x600 -> n mod 128 = 0 ->
    n <= Z.of_nat (length (bdata b)) -> baddr b mod 4 = 0 ->
    exists c', card_write_block a b n c = Ok (0, c') /\ mc_ok c' /\
      sent c' = sent c ++ [(a, take (Z.to_nat n) (bdata b))];
  mc_read : forall c f a, mc_ok c -> 0 <= f < 2 -> 0 <= a < 2 ^ 17 -> a <> 0xFF ->
    exists v c', card_read_byte f a c = Ok (v, c') /\ byte_ok v /\ mc_ok c' /\ sent c' = sent c;
  mc_write : forall c f a v, mc_ok c -> 0 <= f < 2 -> 0 <= a < 2 ^ 17 -> a <> 0xFF -> byte_ok v ->
    exists r c', card_write_byte f a v c = Ok (r, c') /\ mc_ok c' /\ sent c' = sent c
}.

(** A mailbox packet as transmitted: the message has to end at 0x4000, to be
    whole blocks and to contain the announced payload. *)
Record mpkt := { mp_type : Z; mp_ack : Z; mp_ctl : Z; mp_body : bytes }.

Definition decode (m : Z * bytes) : option mpkt :=
  let '(a, b) := m in
  match b with
  | ty :: ak :: l0 :: l1 :: c0 :: c1 :: body =>
      let len := l0 + 256 * l1 in
      if (a + Z.of_nat (length b) =? 0x4000) && (Z.of_nat (length b) mod 0x80 =? 0) &&
         (len <=? Z.of_nat (length body)) then
        Some {| mp_type := ty; mp_ack := ak; mp_ctl := c0 + 256 * c1; mp_body := take (Z.to_nat len) body |}
      else None
  | _ => None
  end.

(** The staging buffer after the header and the payload are in place is a
    packet, whatever the rest of the buffer holds. *)
Lemma decode_frame hd body rest len n ty ak ctl :
  hd = [ty; ak] ++ le_bytes 2 len ++ le_bytes 2 ctl -> 0 <= len < 65536 ->
  Z.of_nat (length body) = len -> n = round_up (len + 6) 0x80 ->
  n <= Z.of_nat (length (hd ++ body ++ rest)) ->
  decode (0x4000 - n, take (Z.to_nat n) (hd ++ body ++ rest)) =
    Some {| mp_type := ty; mp_ack := ak; mp_ctl := u16 ctl; mp_body := body |}.
Proof.
  intros -> Hlen Hb Hn Hle.
  assert (len + 6 <= n /\ n mod 128 = 0) as [H1 H2] by (rewrite Hn, round_up_128; zdm).
  assert (length (take (Z.to_nat n) (([ty; ak] ++ le_bytes 2 len ++ le_bytes 2 ctl) ++ body ++ rest)) = Z.to_nat n) as Hl.
  { rewrite length_take. lia. }
  assert (Z.to_nat n = 6 + (length body + Z.to_nat (n - 6 - len)))%nat as En by lia.
  unfold decode. rewrite Hl. rewrite En at 1.
  cbn [app le_bytes take Nat.add]. rewrite take_app_add.
  assert (u8 len + 256 * u8 (len / 256) = len) as -> by (unfold u8; zdm).
  assert (u8 ctl + 256 * u8 (ctl / 256) = u16 ctl) as -> by (unfold u8, u16; zdm).
  rewrite Z2Nat.id by lia.
  rewrite (proj2 (Z.eqb_eq _ 0x4000)) by lia. change 0x80 with 128. rewrite H2.
  rewrite (proj2 (Z.leb_le _ _)); [|rewrite length_app; lia]. cbn [andb Z.eqb].
  do 2 f_equal. rewrite <- Hb, Nat2Z.id. apply take_app_length.
Qed.

(** ** Driver states and their abstraction *)

(** What the pointers of the driver designate: the staging buffer is object
    [o] at index [i]. *)
Definition out_object {C} (s : iop C) (i : nat) (o : cbuffer) : Prop :=
  h_find (heap s) (mbox_out_buffer s) = Some (i, 0%nat) /\ heap s !! i = Some o /\
  length (bdata o) = 0x600%nat /\ baddr o mod 16 = 0.

Definition clear_object (h : heap_t) (p : Z) : heap_t :=
  match h_find h p with
  | Some (i, _) =>
      match h !! i with
      | Some o => <[i := {| baddr := baddr o; bdata := replicate (length (bdata o)) 0 |}]> h
      | None => h
      end
  | None => h
  end.

(** Abstract states: the card is the list of packets it received, the staging
    buffer is cleared. *)
Definition astate : Type := iop (list (option mpkt)).

Section Abs.
Context {C : Type} `{MboxCard C} `{Fuel}.

Definition iop_ok (s : iop C) : Prop :=
  mc_ok (card s) /\ h_disjoint (heap s) /\ exists i o, out_object s i o.

Definition abs (s : iop C) : astate :=
  mk_iop (map decode (sent (card s))) (clear_object (heap s) (mbox_out_buffer s)) (mbox_out_buffer s)
    (mbox_buffer s) (ip_data_out_buf_idx s) (ip_data_out_buf s) (ip_data_out_buf_totlen s)
    (mbox_has_lookahead s) (mbox_lookahead s) (htc_buffer s) (device_chip_id s) (device_manufacturer s)
    (device_host_interest_addr s) (device_eeprom_addr s) (device_eeprom_version s) (wifi_card_bInitted s)
    (wifi_printf_allowed s) (nvram_wep_configs s) (nvram_configs s) (wmi s) (aes s) (rand_seed s) (trace s).

(** [m] always runs to completion and acts as [f] on abstract states. *)
Definition refines {A} (m : M (iop C) A) (f : astate -> A * astate) : Prop :=
  forall s, iop_ok s -> exists a s', m s = Ok (a, s') /\ iop_ok s' /\ f (abs s) = (a, abs s').

Definition apush (p : mpkt) (a : astate) : astate := a <| card := card a ++ [Some p] |>.

Lemma refines_ret {A} (x : A) : refines (ret x) (fun a => (x, a)).
Proof. intros s Hs. by exists x, s. Qed.

Lemma refines_bind {A B} (m : M (iop C) A) (k : A -> M (iop C) B) f g :
  refines m f -> (forall x, refines (k x) (g x)) ->
  refines (bind m k) (fun a => let '(x, a') := f a in g x a').
Proof.
  intros Hm Hk s Hs. destruct (Hm s Hs) as (x & s1 & E1 & Hs1 & F1).
  destruct (Hk x s1 Hs1) as (y & s2 & E2 & Hs2 & F2). exists y, s2. unfold bind. rewrite E1, F1. done.
Qed.

Lemma refines_ext {A} (m : M (iop C) A) f g : (forall a, f a = g a) -> refines m f -> refines m g.
Proof. intros E Hm s Hs. destruct (Hm s Hs) as (x & s' & ?). exists x, s'. by rewrite <- E. Qed.

Lemma refines_wget {A} (f : wmi_static -> A) : refines (wget f) (fun a => (f (wmi a), a)).
Proof. intros s Hs. by exists (f (wmi s)), s. Qed.

Lemma refines_wset f : refines (wset_ f) (fun a => (tt, a <| wmi := f (wmi a) |>)).
Proof. intros s Hs. by exists tt, (s <| wmi := f (wmi s) |>). Qed.

Lemma refines_emit e : refines (emit e) (fun a => (tt, a <| trace := trace a ++ [e] |>)).
Proof. intros s Hs. by exists tt, (s <| trace := trace s ++ [e] |>). Qed.

Lemma refines_if {A} (b : bool) (m1 m2 : M (iop C) A) f1 f2 :
  refines m1 f1 -> refines m2 f2 -> refines (if b then m1 else m2) (fun a => if b then f1 a else f2 a).
Proof. by destruct b. Qed.

(** *** Writes to the staging buffer *)

Lemma out_store (s : iop C) i o k src :
  h_disjoint (heap s) -> out_object s i o -> (k + length src <= 0x600)%nat -> (k < 0x600)%nat ->
  let o' := {| baddr := baddr o; bdata := blit k src (bdata o) |} in
  mem_store (mbox_out_buffer s + Z.of_nat k) src s = Ok (tt, s <| heap := <[i := o']> (heap s) |>) /\
  out_object (s <| heap := <[i := o']> (heap s) |>) i o' /\ h_disjoint (<[i := o']> (heap s)) /\
  clear_object (<[i := o']> (heap s)) (mbox_out_buffer s) = clear_object (heap s) (mbox_out_buffer s).
Proof.
  intros D (F & E & L & A) Hk Hk' o'.
  assert (length (bdata o') = length (bdata o)) as Ho' by (apply length_blit; lia).
  assert (h_find (<[i := o']> (heap s)) (mbox_out_buffer s) = Some (i, 0%nat)) as F'
    by (by rewrite (h_find_insert _ _ o)).
  pose proof (lookup_lt_Some _ _ _ E) as Hi.
  assert (<[i := o']> (heap s) !! i = Some o') as E' by (by apply list_lookup_insert_eq).
  split; [|split; [|split]].
  - unfold mem_store. rewrite (h_store_run _ _ _ i k o); [done| |done|lia].
    rewrite (h_find_offset _ _ i 0 o k D F E) by lia. done.
  - split; [done|]. split; [done|]. split; [by rewrite Ho'|done].
  - by eapply h_disjoint_insert.
  - unfold clear_object. rewrite F', F, E, E'. cbn [baddr o']. rewrite Ho', list_insert_insert_eq. done.
Qed.

(** *** Sending the staging buffer *)

Lemma mc_read_u32 c a : mc_ok c -> 0xFF < a < 2 ^ 17 - 3 ->
  exists v c', wifi_card_read_func1_u32 a c = Ok (v, c') /\ mc_ok c' /\ sent c' = sent c.
Proof.
  intros Hc Ha. unfold wifi_card_read_func1_u32, wifi_card_read_func1_u16, wifi_card_read_func1_u8, bind.
  rewrite !u32_id by lia. 
  destruct (mc_read c 1 a Hc) as (v0 & c0 & -> & _ & K0 & S0); [lia..|].
  destruct (mc_read c0 1 (a + 1) K0) as (v1 & c1 & -> & _ & K1 & S1); [lia..|]. cbn [ret].
  destruct (mc_read c1 1 (a + 2) K1) as (v2 & c2 & -> & _ & K2 & S2); [lia..|].
  destruct (mc_read c2 1 (a + 2 + 1) K2) as (v3 & c3 & -> & _ & K3 & S3); [lia..|].
  do 2 eexists. split; [reflexivity|]. split; [done|]. congruence.
Qed.

Lemma sendbytes_run c b n : mc_ok c -> 0 < n <= 0x600 -> n mod 128 = 0 -> n <= Z.of_nat (length (bdata b)) ->
  baddr b mod 4 = 0 ->
  exists c', wifi_card_mbox0_sendbytes b n c = Ok (tt, c') /\ mc_ok c' /\
    sent c' = sent c ++ [(0x4000 - n, take (Z.to_nat n) (bdata b))].
Proof.
  intros Hc Hn Hm Hl Ha. unfold wifi_card_mbox0_sendbytes. rewrite u16_id by lia. unfold bind.
  destruct (mc_send c (0x4000 - n) b n Hc) as (c1 & -> & K1 & S1); [lia..|done|lia|done|].
  destruct (mc_read_u32 c1 F1_HOST_INT_STATUS K1) as (v & c2 & -> & K2 & S2); [unfold F1_HOST_INT_STATUS; lia|].
  destruct (nz _).
  - destruct (mc_read_u32 c2 F1_HOST_INT_STATUS K2) as (v' & c3 & -> & K3 & S3); [unfold F1_HOST_INT_STATUS; lia|].
    destruct (mc_read c3 1 F1_RX_LOOKAHEAD_VALID K3) as (v'' & c4 & E4 & _ & K4 & S4); [lia|unfold F1_RX_LOOKAHEAD_VALID; lia|done|].
    unfold wifi_card_read_func1_u8. rewrite E4. exists c4. split; [done|]. split; [done|]. congruence.
  - exists c2. split; [done|]. split; [done|]. congruence.
Qed.

Lemma send_out_run (s : iop C) i o n : iop_ok s -> out_object s i o -> 0 < n <= 0x600 -> n mod 128 = 0 ->
  exists c', send_out_buffer n s = Ok (tt, s <| card := c' |>) /\ iop_ok (s <| card := c' |>) /\
    sent c' = sent (card s) ++ [(0x4000 - n, take (Z.to_nat n) (bdata o))].
Proof.
  intros (Hc & D & _) (F & E & L & A) Hn Hm. unfold send_out_buffer, bind, gets, mem_rest.
  rewrite (h_rest_run _ _ _ _ _ F E), drop_0.
  destruct (h_find_inside _ _ _ _ F) as (o' & E' & Ep & _). simplify_eq. rewrite Z.add_0_r in Ep.
  destruct (sendbytes_run (card s) {| baddr := mbox_out_buffer s; bdata := bdata o |} n Hc Hn Hm) as (c' & Es & Hc' & S').
  { cbn [bdata]. lia. } { cbn [baddr]. rewrite Ep. zdm. }
  exists c'. unfold on_card, zoom. rewrite Es. split; [done|]. split; [|done].
  split; [done|]. split; [done|]. by exists i, o.
Qed.

(** *** Packets *)

Lemma blit_next hd body b : (length hd + length body <= length b)%nat ->
  blit (length hd) body (blit 0 hd b) = hd ++ body ++ drop (length hd + length body) b.
Proof.
  intros Hl. assert (blit 0 hd b = hd ++ drop (length hd) b) as -> by (by destruct b). unfold blit.
  rewrite take_app_length. f_equal. f_equal. rewrite drop_app_ge by lia. rewrite drop_drop. f_equal. lia.
Qed.

(** Header, payload and transmission from any state of the staging buffer. *)
Lemma send_frame_run (s : iop C) i o hd body len ty ak ctl :
  iop_ok s -> out_object s i o -> bdata o = hd ++ body ++ drop (length hd + length body) (bdata o) ->
  hd = [ty; ak] ++ le_bytes 2 len ++ le_bytes 2 ctl -> 0 <= len <= 0x5FA -> Z.of_nat (length body) = len ->
  exists s', send_out_buffer (u16 (round_up (len + 6) 0x80)) s = Ok (tt, s') /\ iop_ok s' /\
    abs s' = apush {| mp_type := ty; mp_ack := ak; mp_ctl := u16 ctl; mp_body := body |} (abs s).
Proof.
  intros Hs Ho Eb Ehd Hlen Hb. destruct Ho as (F & E & L & A).
  assert (0 < round_up (len + 6) 0x80 <= 0x600 /\ round_up (len + 6) 0x80 mod 128 = 0) as [Hn Hm]
    by (rewrite round_up_128; zdm).
  rewrite u16_id by lia.
  destruct (send_out_run s i o (round_up (len + 6) 0x80) Hs) as (c' & Er & Hs' & Sc); [done..|].
  eexists. split; [exact Er|]. split; [exact Hs'|]. unfold abs, apush, set, set_card. cbn -[decode].
  rewrite Sc, map_app. cbn [map]. rewrite Eb. rewrite (decode_frame hd body _ len _ ty ak ctl); [done|done|lia|done|done|].
  rewrite <- Eb, L. lia.
Qed.

(** What a copy from the caller's pointer stores. *)
Definition payload (data : option bytes) (len : Z) : bytes :=
  match data with Some d => take (Z.to_nat len) d | None => [] end.
Definition payload_ok (data : option bytes) (len : Z) : Prop :=
  match data with Some d => len <= Z.of_nat (length d) | None => len = 0 end.

Lemma length_payload data len : payload_ok data len -> 0 <= len -> Z.of_nat (length (payload data len)) = len.
Proof. destruct data; cbn; intros; [rewrite length_take; lia|lia]. Qed.

Lemma copy_in_run (s : iop C) i o k data len :
  h_disjoint (heap s) -> out_object s i o -> payload_ok data len -> 0 <= len -> Z.of_nat k + len <= 0x600 -> (k < 0x600)%nat ->
  let o' := {| baddr := baddr o; bdata := blit k (payload data len) (bdata o) |} in
  let s' := s <| heap := <[i := o']> (heap s) |> in
  exists h', copy_in (mbox_out_buffer s + Z.of_nat k) data len s = Ok (tt, s <| heap := h' |>) /\
    out_object (s <| heap := h' |>) i o' /\ h_disjoint h' /\
    clear_object h' (mbox_out_buffer s) = clear_object (heap s) (mbox_out_buffer s).
Proof.
  intros D Ho Hp Hl Hk Hk' o' s'. pose proof (length_payload _ _ Hp Hl) as Lp. destruct data as [d|]; cbn [copy_in].
  - cbn in Hp. rewrite (proj2 (Nat.leb_le _ _)) by lia.
    destruct (out_store s i o k (payload (Some d) len) D Ho) as (Es & Ho' & D' & Ec); [lia|lia|].
    eexists. split; [exact Es|]. done.
  - exists (heap s). split; [by destruct s|]. split; [|done]. subst o'. cbn [payload]. rewrite blit_nil.
    destruct o; destruct s; done.
Qed.

(** With the header (and the first bytes [pre] of the payload) at the front of
    the staging buffer: the copy of the rest and the transmission. *)
Lemma stage_run (s : iop C) i o b0 hd pre data len n k ty ak ctl :
  mc_ok (card s) -> h_disjoint (heap s) -> out_object s i o ->
  bdata o = blit 0 (hd ++ pre) b0 -> length b0 = 0x600%nat ->
  hd = [ty; ak] ++ le_bytes 2 n ++ le_bytes 2 ctl -> n = Z.of_nat (length pre) + len -> 0 <= len -> n <= 0x5FA ->
  payload_ok data len -> k = (6 + length pre)%nat -> (length pre <= 2)%nat ->
  exists s', (copy_in (mbox_out_buffer s + Z.of_nat k) data len ;;; send_out_buffer (u16 (round_up (n + 6) 0x80))) s
      = Ok (tt, s') /\ iop_ok s' /\
    abs s' = apush {| mp_type := ty; mp_ack := ak; mp_ctl := u16 ctl; mp_body := pre ++ payload data len |} (abs s).
Proof.
  intros Hc D Ho Eo L0 Ehd En Hl Hn Hp Ek Hpre. pose proof (length_payload _ _ Hp Hl) as Lp.
  assert (length (hd ++ pre) = k) as Lk by (rewrite Ehd, Ek; done).
  destruct (copy_in_run s i o k data len D Ho Hp Hl) as (h2 & E2 & Ho2 & D2 & C2); [lia..|].
  unfold bind. rewrite E2.
  assert (blit k (payload data len) (bdata o) = hd ++ (pre ++ payload data len) ++
            drop (k + length (payload data len)) b0) as Eb.
  { rewrite Eo, <- Lk. rewrite blit_next by lia. by rewrite <- !app_assoc. }
  match type of Ho2 with out_object _ _ ?o2 =>
    destruct (send_frame_run (s <| heap := h2 |>) i o2 hd (pre ++ payload data len) n ty ak ctl) as (s' & E3 & Hs' & A3)
  end; [|exact Ho2| |exact Ehd|lia|rewrite length_app; lia|].
  - split; [exact Hc|]. split; [exact D2|]. eexists i, _. exact Ho2.
  - cbn [bdata]. rewrite Eb. f_equal. f_equal.
    assert (length hd + length (pre ++ payload data len) = length (hd ++ pre ++ payload data len))%nat as ->
      by (by rewrite (length_app hd)).
    rewrite (app_assoc hd (pre ++ _) (drop _ _)), drop_app_length. done.
  - exists s'. split; [exact E3|]. split; [done|]. rewrite A3. f_equal.
    unfold abs. cbn -[clear_object decode]. by rewrite C2.
Qed.

(** Storing the header. *)
Lemma header_run {B} (s : iop C) i o hd (k : unit -> M (iop C) B) :
  mc_ok (card s) -> h_disjoint (heap s) -> out_object s i o -> (length hd <= 0x600)%nat ->
  exists s1 o1, (let* x := mem_store (mbox_out_buffer s) hd in k x) s = k tt s1 /\
    mc_ok (card s1) /\ h_disjoint (heap s1) /\ out_object s1 i o1 /\ bdata o1 = blit 0 hd (bdata o) /\
    abs s1 = abs s /\ mbox_out_buffer s1 = mbox_out_buffer s.
Proof.
  intros Hc D Ho Hl. destruct (out_store s i o 0 hd D Ho) as (E1 & Ho1 & D1 & C1); [lia|lia|].
  rewrite Z.add_0_r in E1. do 2 eexists. split; [unfold bind; rewrite E1; reflexivity|].
  split; [exact Hc|]. split; [exact D1|]. split; [exact Ho1|]. split; [done|]. split; [|done].
  unfold abs. cbn -[clear_object decode]. by rewrite C1.
Qed.

Lemma send_packet_refines type ack data len idk : byte_ok type -> byte_ok ack -> 0 <= len <= 0x5FA -> payload_ok data len ->
  refines (wifi_card_mbox0_send_packet type ack data len idk)
    (fun a => (tt, apush {| mp_type := type; mp_ack := ack; mp_ctl := u16 idk; mp_body := payload data len |} a)).
Proof.
  intros Ht Ha Hl Hp s (Hc & D & i & o & Ho).
  unfold wifi_card_mbox0_send_packet. rewrite !u8_id by done. unfold bind at 1, gets at 1. cbv beta iota.
  match goal with |- context [bind (mem_store _ ?hd) ?k s] =>
    destruct (header_run s i o hd k Hc D Ho) as (s1 & o1 & -> & Hc1 & D1 & Ho1 & Eb & A1 & P1) end.
  2: { unfold MBOX_TMPBUF_SIZE. rewrite (proj2 (Z.ltb_ge _ _)) by lia. rewrite (u16_id (len + 6)) by lia. rewrite <- P1.
    destruct (stage_run s1 i o1 (bdata o) ([type; ack] ++ le_bytes 2 len ++ le_bytes 2 idk) [] data len len 6 type ack idk)
      as (s' & E & Hs' & A'); try done; try lia; try (by destruct Ho as (_&_&L&_)); try (cbn; lia).
    exists tt, s'. split; [exact E|]. split; [done|]. by rewrite A', A1. }
  cbn; lia.
Qed.

Lemma wmi_send_refines ty ack data len : byte_ok ack -> 0 <= len <= 0x5F8 -> payload_ok data len ->
  refines (wmi_send_pkt ty ack data len)
    (fun a => (tt, apush {| mp_type := MBOXPKT_WMI; mp_ack := ack; mp_ctl := u16 (wmi_idk (wmi a));
                            mp_body := le_bytes 2 ty ++ payload data len |} a)).
Proof.
  intros Ha Hl Hp s (Hc & D & i & o & Ho).
  unfold wmi_send_pkt. unfold bind at 1, gets at 1. cbv beta iota.
  match goal with |- context [bind (mem_store _ ?hd) ?k s] =>
    destruct (header_run s i o hd k Hc D Ho) as (s1 & o1 & -> & Hc1 & D1 & Ho1 & Eb & A1 & P1); [cbn; lia|] end.
  unfold bind at 1, wget at 1, gets at 1. cbv beta iota. rewrite <- P1.
  match goal with |- context [bind (mem_store _ ?hd) ?k s1] =>
    destruct (header_run s1 i o1 hd k Hc1 D1 Ho1) as (s2 & o2 & -> & Hc2 & D2 & Ho2 & Eb2 & A2 & P2); [cbn; lia|] end.
  unfold MBOX_TMPBUF_SIZE. rewrite (proj2 (Z.ltb_ge _ _)) by lia. rewrite (u16_id (len + 8)) by lia. rewrite <- P2.
  replace (len + 8) with (len + 2 + 6) by lia.
  destruct (stage_run s2 i o2 (bdata o1) ([MBOXPKT_WMI; ack] ++ le_bytes 2 (len + 2) ++ le_bytes 2 (wmi_idk (wmi s1)))
    (le_bytes 2 ty) data len (len + 2) 8 MBOXPKT_WMI ack (wmi_idk (wmi s1)))
    as (s' & E & Hs' & A'); try done; try lia; try (by destruct Ho1 as (_&_&L&_)); try (cbn; lia).
  - rewrite Eb2, (u8_id ack) by done. by rewrite (u16_id (len + 2)) by lia.

  - exists tt, s'. split; [exact E|]. split; [done|]. rewrite A', A2.
    change (wmi_idk (wmi s1)) with (wmi_idk (wmi (abs s1))). by rewrite A1.
Qed.
End Abs.

(** ** Instances *)

(** The SDIO controller with a card behind it. *)
Section BusMbox.
Context `{Fuel} (Hfuel : (0 < poll_fuel)%nat).

#[export] Instance bus_mbox : MboxCard (bus tmdev) (H := bus_card).
Proof.
  refine {| mc_ok := bus_ready; sent := fun b => dmalog (bhw b) |}.
  - intros c a b n Hc Ha Hn Hm Hl Hal.
    destruct (bus_write_block Hfuel a b n c Hc Ha Hn Hm Hl Hal) as (c' & E & Hc' & _ & L). by exists c'.
  - intros c f a Hc Hf Ha _. pose proof Hc as (?&?&?&Hr).
    destruct (bus_read_byte Hfuel f a c Hc ltac:(lia) Ha) as (c' & E & Hc' & _ & L). eexists _, c'.
    split; [exact E|]. split; [apply Hr|]. done.
  - intros c f a v Hc Hf Ha _ Hv.
    destruct (bus_write_byte Hfuel f a v c Hc ltac:(lia) Ha Hv) as (c' & E & Hc' & _ & L). by exists 0, c'.
Defined.
End BusMbox.

(** A card that records block writes and the bytes written to the mailbox
    register 0xFF, and answers reads with zero. *)
Record mlog := { blocks : list (Z * bytes); stream : bytes }.

#[export] Instance mlog_card : Card mlog := {|
  card_read_byte := fun _ _ s => Ok (0, s);
  card_write_byte := fun _ a v s =>
    Ok (0, if a =? 0xFF then {| blocks := blocks s; stream := stream s ++ [v] |} else s);
  card_read_32bit := fun _ b _ s => Ok ((0, bdata b), s);
  card_read_block := fun _ b _ s => Ok ((0, bdata b), s);
  card_write_block := fun a b n s =>
    Ok (0, {| blocks := blocks s ++ [(a, take (Z.to_nat n) (bdata b))]; stream := stream s |});
  card_wait := ret tt
|}.

#[export] Instance mlog_mbox : MboxCard mlog.
Proof.
  refine {| mc_ok := fun _ => True; sent := blocks |}.
  - intros c a b n _ _ _ _ _ _. eexists. split; [reflexivity|]. done.
  - intros c f a _ _ _ _. eexists _, _. split; [reflexivity|]. split; [unfold byte_ok; lia|]. done.
  - intros c f a v _ _ _ _ _. eexists _, _. split; [reflexivity|]. split; [done|]. cbn. by destruct (_ =? _).
Defined.

(** A driver state with the two mailbox buffers allocated. *)
Definition heap0 : heap_t :=
  [{| baddr := 0x3800000; bdata := replicate 0x600 0 |}; {| baddr := 0x3801000; bdata := replicate 0x600 0 |}].
Definition iop0 {C} (c : C) : iop C :=
  mk_iop c heap0 0x3800000 0x3801000 0 0 0 false 0 (replicate 0x80 0) 0 0 0 0 0 false 0 [] [] wmi_init
    aes_zero 0 [].

(** ** BMI *)

Lemma write_mbox_stream n v (c : mlog) :
  write_mbox_bytes n v c = Ok (tt, {| blocks := blocks c; stream := stream c ++ le_bytes n v |}).
Proof.
  revert v c; induction n as [|n IH]; intros v c; cbn [write_mbox_bytes le_bytes].
  - rewrite app_nil_r. by destruct c.
  - unfold bind, wifi_card_write_func1_u8. cbn [card_write_byte mlog_card]. change (0xFF =? 0xFF) with true. cbv iota.
    rewrite IH. cbn [blocks stream]. rewrite <- app_assoc. cbn [app]. change 0xFF with (2 ^ 8 - 1).
    rewrite land_mask, shiftr_div by lia. change (2 ^ 8) with 256. unfold u8. by rewrite Z.mod_mod by lia.
Qed.

Lemma write_bytes_stream data (c : mlog) : bytes_ok data ->
  write_bytes data c = Ok (tt, {| blocks := blocks c; stream := stream c ++ data |}).
Proof.
  unfold write_bytes. intros Hd. revert c; induction Hd as [|b l Hb Hl IH]; intros c; cbn [mforeach].
  - rewrite app_nil_r. by destruct c.
  - unfold bind, wifi_card_write_func1_u8. cbn [card_write_byte mlog_card ret]. change (0xFF =? 0xFF) with true. cbv iota.
    rewrite IH. cbn [blocks stream]. rewrite <- app_assoc. cbn [app]. by rewrite u8_id.
Qed.

Lemma fragments_range n i len chunk : 0 < chunk -> 0 <= i ->
  Forall (fun '(j, sz) => i <= j /\ 0 < sz <= chunk /\ j + sz <= len) (fragments n i len chunk).
Proof.
  revert i; induction n as [|n IH]; intros i Hc Hi; cbn [fragments]; [constructor|].
  destruct (Z.ltb_spec i len); [|constructor]. constructor.
  - destruct (Z.ltb_spec len (i + chunk)); lia.
  - eapply Forall_impl; [apply (IH (i + chunk)); lia|]. intros [j sz]. lia.
Qed.

(** The fragments tile the data. *)
Lemma fragments_tile n i len chunk (data : bytes) :
  0 < chunk -> 0 <= i <= len -> len <= Z.of_nat (length data) -> len - i <= Z.of_nat n ->
  concat (map (fun '(j, sz) => take (Z.to_nat sz) (drop (Z.to_nat j) data)) (fragments n i len chunk)) =
    take (Z.to_nat (len - i)) (drop (Z.to_nat i) data).
Proof.
  revert i; induction n as [|n IH]; intros i Hc Hi Hl Hn; cbn [fragments].
  - assert (len - i = 0) as -> by lia. done.
  - destruct (Z.ltb_spec i len) as [Hlt|]; [|assert (len - i = 0) as -> by lia; done].
    cbn [map concat]. destruct (Z.ltb_spec len (i + chunk)).
    + assert (fragments n (i + chunk) len chunk = []) as ->; [|by rewrite app_nil_r].
      destruct n; cbn [fragments]; [done|]. by rewrite (proj2 (Z.ltb_ge _ _)) by lia.
    + rewrite IH by lia. replace (Z.to_nat (i + chunk)) with (Z.to_nat i + Z.to_nat chunk)%nat by lia.
      rewrite <- drop_drop. replace (Z.to_nat (len - i)) with (Z.to_nat chunk + Z.to_nat (len - (i + chunk)))%nat by lia.
      apply take_take_drop.
Qed.

(** ** Theorems *)

Lemma heap0_disjoint : h_disjoint heap0.
Proof.
  intros i j o o' Hi Hj Hn. destruct i as [|[|i]], j as [|[|j]]; try done; vm_compute in Hi, Hj; simplify_eq; vm_compute.
  - by left.
  - by right.
Qed.
Lemma iop0_out {C} (c : C) : out_object (iop0 c) 0 {| baddr := 0x3800000; bdata := replicate 0x600 0 |}.
Proof. repeat split. Qed.
Lemma iop0_ok {C} `{MboxCard C} c : mc_ok c -> iop_ok (iop0 c).
Proof. intros Hc. split; [done|]. split; [exact heap0_disjoint|]. exists 0%nat. eexists. apply iop0_out. Qed.

(** A packet of at most 0x5FA bytes handed to the mailbox reaches the card
    as exactly one message: whole 0x80-byte blocks ending at address 0x4000,
    from which the card decodes the packet type, the ack request, the control
    field and the payload unchanged; nothing else of the driver state changes. *)
Theorem mbox_packet_framing {C} `{MboxCard C} type ack data len idk (s : iop C) :
  iop_ok s -> byte_ok type -> byte_ok ack -> 0 <= len <= 0x5FA -> payload_ok data len ->
  exists s', wifi_card_mbox0_send_packet type ack data len idk s = Ok (tt, s') /\ iop_ok s' /\
    abs s' = apush {| mp_type := type; mp_ack := ack; mp_ctl := u16 idk; mp_body := payload data len |} (abs s).
Proof.
  intros Hs Ht Ha Hl Hp. destruct (send_packet_refines type ack data len idk Ht Ha Hl Hp s Hs) as ([] & s' & E & Hs' & A).
  exists s'. split; [done|]. split; [done|]. exact (eq_sym (f_equal snd A)).
Qed.

Lemma mbox_packet_framing_witness :
  exists s', wifi_card_mbox0_send_packet 2 0 (Some [1; 2; 3]) 3 0x2008 (iop0 {| blocks := []; stream := [] |}) = Ok (tt, s') /\
    map decode (blocks (card s')) = [Some {| mp_type := 2; mp_ack := 0; mp_ctl := 0x2008; mp_body := [1; 2; 3] |}].
Proof.
  destruct (mbox_packet_framing 2 0 (Some [1; 2; 3]) 3 0x2008 (iop0 {| blocks := []; stream := [] |})) as (s' & E & _ & A);
    [apply iop0_ok; exact I|unfold byte_ok; lia|unfold byte_ok; lia|lia|cbn; lia|].
  exists s'. split; [exact E|]. exact (f_equal card A).
Defined.

(** A WMI command (type and up to 0x5F8 bytes of parameters) reaches the
    card behind the SDIO controller as one mailbox packet of type 1 whose
    payload is the little-endian command number followed by the parameters. *)
Theorem wmi_command_framing `{Fuel} (Hfuel : (0 < poll_fuel)%nat) ty ack data len (s : iop (bus tmdev)) :
  iop_ok (H0 := bus_mbox Hfuel) s -> byte_ok ack -> 0 <= len <= 0x5F8 -> payload_ok data len ->
  exists s', wmi_send_pkt ty ack data len s = Ok (tt, s') /\ bus_ready (card s') /\
    map decode (dmalog (bhw (card s'))) = map decode (dmalog (bhw (card s))) ++
      [Some {| mp_type := MBOXPKT_WMI; mp_ack := ack; mp_ctl := u16 (wmi_idk (wmi s));
               mp_body := le_bytes 2 ty ++ payload data len |}] /\
    wmi s' = wmi s /\ trace s' = trace s.
Proof.
  intros Hs Ha Hl Hp.
  destruct (wmi_send_refines (H0 := bus_mbox Hfuel) ty ack data len Ha Hl Hp s Hs) as ([] & s' & E & Hs' & A).
  apply (f_equal snd) in A. cbn [snd] in A. exists s'. split; [done|]. split; [by destruct Hs'|].
  split; [exact (eq_sym (f_equal card A))|]. split; [exact (eq_sym (f_equal wmi A))|exact (eq_sym (f_equal trace A))].
Qed.

Lemma wmi_command_framing_witness : let _ : Fuel := 1%nat in
  exists s', wmi_send_pkt 0x11 1 (Some [0; 0; 3; 1; 0x6C; 9]) 6 (iop0 bus0) = Ok (tt, s') /\
    map decode (dmalog (bhw (card s'))) =
      [Some {| mp_type := 1; mp_ack := 1; mp_ctl := 0; mp_body := [0x11; 0; 0; 0; 3; 1; 0x6C; 9] |}].
Proof.
  assert (Hf : (0 < @poll_fuel 1%nat)%nat) by (unfold poll_fuel; lia).
  destruct (@wmi_command_framing 1%nat Hf 0x11 1 (Some [0; 0; 3; 1; 0x6C; 9]) 6 (iop0 bus0)) as (s' & E & _ & D & _);
    [apply (@iop0_ok _ _ (bus_mbox Hf)); exact bus0_ready|unfold byte_ok; lia|lia|cbn; lia|].
  exists s'. split; [exact E|exact D].
Defined.

(** A packet of more than 0x5FA bytes is truncated after its length field
    is written: the message that reaches the card announces more payload than it
    carries, and no packet can be decoded from it. *)
Theorem oversized_packet_malformed {C} `{MboxCard C} type ack data len idk (s : iop C) :
  iop_ok s -> byte_ok type -> byte_ok ack -> 0x5FA < len < 65536 -> 0x5FA <= Z.of_nat (length data) ->
  exists s', wifi_card_mbox0_send_packet type ack (Some data) len idk s = Ok (tt, s') /\ iop_ok s' /\
    map decode (sent (card s')) = map decode (sent (card s)) ++ [None].
Proof.
  intros (Hc & D & i & o & Ho) Ht Ha Hl Hd. pose proof Ho as (_ & _ & Lo & _).
  unfold wifi_card_mbox0_send_packet. rewrite !u8_id by done. unfold bind at 1, gets at 1. cbv beta iota.
  match goal with |- context [bind (mem_store _ ?hd) ?k s] =>
    destruct (header_run s i o hd k Hc D Ho) as (s1 & o1 & -> & Hc1 & D1 & Ho1 & Eb & A1 & P1); [cbn; lia|] end.
  unfold MBOX_TMPBUF_SIZE. rewrite (proj2 (Z.ltb_lt _ _)) by lia. rewrite <- P1.
  destruct (copy_in_run s1 i o1 6 (Some data) 0x5FA D1 Ho1) as (h2 & E2 & Ho2 & D2 & C2); [cbn; lia..|].
  unfold bind. change 6 with (Z.of_nat 6) at 1. change (0x600 - 0x6) with 0x5FA. rewrite E2.
  change (u16 (round_up (u16 (0x5FA + 6)) 0x80)) with 0x600.
  assert (iop_ok (s1 <| heap := h2 |>)) as Hs2.
  { split; [exact Hc1|]. split; [exact D2|]. eexists i, _. exact Ho2. }
  destruct (send_out_run _ i _ 0x600 Hs2 Ho2) as (c' & Er & Hs' & Sc); [lia|done|].
  eexists. split; [exact Er|]. split; [exact Hs'|]. cbn [card]. change (card (_ <| card := c' |>)) with c'.
  rewrite Sc, map_app. cbn [map].
  assert (map decode (sent (card s1)) = map decode (sent (card s))) as <- by exact (f_equal card A1).
  f_equal. f_equal. cbn [bdata]. rewrite Eb. change 6%nat with (length ([type; ack] ++ le_bytes 2 len ++ le_bytes 2 idk)).
  assert (length (payload (Some data) 0x5FA) = 0x5FA%nat) as Lp by (cbn [payload]; rewrite length_take; lia).
  rewrite blit_next by (rewrite Lp, Lo; cbn; lia). rewrite Lp, drop_ge by (rewrite Lo; cbn; lia). rewrite app_nil_r.
  rewrite take_ge by (rewrite length_app, Lp; cbn; lia).
  unfold decode. cbn [app le_bytes]. cbn [length]. rewrite Lp.
  assert (u8 len + 256 * u8 (len / 256) = len) as -> by (unfold u8; zdm).
  rewrite (proj2 (Z.leb_gt _ _)) by lia. by rewrite andb_false_r.
Qed.

Lemma oversized_packet_malformed_witness :
  exists s', wifi_card_mbox0_send_packet 2 0 (Some (replicate 0x600 7)) 0x600 0 (iop0 {| blocks := []; stream := [] |}) =
    Ok (tt, s') /\ map decode (blocks (card s')) = [None].
Proof.
  destruct (oversized_packet_malformed 2 0 (replicate 0x600 7) 0x600 0 (iop0 {| blocks := []; stream := [] |})) as (s' & E & _ & A);
    [apply iop0_ok; exact I|unfold byte_ok; lia|unfold byte_ok; lia|lia|rewrite length_replicate; lia|].
  exists s'. split; [exact E|exact A].
Defined.

(** The fragments of a BMI upload tile the data: consecutive, none larger
    than the chunk size, together exactly the bytes of the upload. *)
Theorem bmi_fragments_tile chunk (data : bytes) :
  0 < chunk ->
  let len := Z.of_nat (length data) in
  let frags := fragments (length data) 0 len chunk in
  concat (map (fun '(j, sz) => take (Z.to_nat sz) (drop (Z.to_nat j) data)) frags) = data /\
  Forall (fun '(j, sz) => 0 < sz <= chunk /\ 0 <= j /\ j + sz <= len) frags.
Proof.
  intros Hc len frags. split.
  - subst frags len. rewrite fragments_tile by lia. rewrite Z.sub_0_r, Nat2Z.id. cbn [Z.to_nat]. rewrite drop_0. by apply take_ge.
  - eapply Forall_impl; [by apply fragments_range|]. intros [j sz]. lia.
Qed.

Lemma bmi_fragments_tile_witness :
  concat (map (fun '(j, sz) => take (Z.to_nat sz) (drop (Z.to_nat j) (replicate 0x400 1)))
    (fragments 0x400 0 0x400 0x1F0)) = replicate 0x400 1.
Proof. destruct (bmi_fragments_tile 0x1F0 (replicate 0x400 1)) as [E _]; [lia|exact E]. Defined.

(** What BMI_WRITE_MEMORY puts into the mailbox: the command, the address,
    the padded length, the data and the padding.  The length is announced as
    [len + len % 4] (the comments on the read and LZ commands, which pad in the
    same way, ask for u32 alignment): it is a multiple of four exactly when [len] is even. *)
Theorem bmi_write_memory_stream addr data len (c : mlog) :
  len <> 4 -> 0 <= len < 2 ^ 31 -> len <= Z.of_nat (length data) -> bytes_ok data ->
  wifi_card_bmi_cmd_write_memory addr data len c =
    Ok (tt, {| blocks := blocks c;
               stream := stream c ++ le_bytes 4 BMI_WRITE_MEMORY ++ le_bytes 4 addr ++ le_bytes 4 (len + len mod 4) ++
                         take (Z.to_nat len) data ++ replicate (Z.to_nat (len mod 4)) 0 |}) /\
  ((len + len mod 4) mod 4 = 0 <-> len mod 2 = 0).
Proof.
  intros H4 Hl Hd Hb. split; [|zdm].
  unfold wifi_card_bmi_cmd_write_memory. rewrite (proj2 (Nat.ltb_ge _ _)) by lia. rewrite (proj2 (Z.eqb_neq _ _)) by done.
  unfold bind, wifi_card_write_mbox0_u32. rewrite !write_mbox_stream.
  rewrite !write_bytes_stream by (try apply Forall_replicate; try apply Forall_take; done || (unfold byte_ok; lia)).
  cbn [blocks stream]. rewrite u32_id by zdm. by rewrite <- !app_assoc.
Qed.

Lemma bmi_write_memory_stream_witness :
  wifi_card_bmi_cmd_write_memory 0x520000 [1; 2; 3; 4; 5] 5 {| blocks := []; stream := [] |} =
    Ok (tt, {| blocks := []; stream := [3;0;0;0; 0;0;0x52;0; 6;0;0;0; 1;2;3;4;5; 0] |}).
Proof.
  destruct (bmi_write_memory_stream 0x520000 [1; 2; 3; 4; 5] 5 {| blocks := []; stream := [] |}) as [E _];
    [lia|lia|cbn; lia|fbytes|exact E].
Defined.
