(* ===== verification/Wmi.v ===== *)
(** arm_iop/source/ath/wmi.twl.c, commands and the scan/connect state machine
    (lines 158-208 and 670-1096), and wifi_card.twl.c's notifications
    (lines 1181-1196).

    A command structure is the packed byte string that the C initialiser
    produces. *)

From S2P Require Import Prelude Cmonad Cutils Wpa Sdio Heap Card State Mbox.

Definition WMI_CONNECT_CMD : Z := 0x0001.
Definition WMI_DISCONNECT_CMD : Z := 0x0003.
Definition WMI_SYNCHRONIZE_CMD : Z := 0x0004.
Definition WMI_CREATE_PSTREAM_CMD : Z := 0x0005.
Definition WMI_START_SCAN_CMD : Z := 0x0007.
Definition WMI_SET_SCAN_PARAMS_CMD : Z := 0x0008.
Definition WMI_SET_BSS_FILTER_CMD : Z := 0x0009.
Definition WMI_SET_PROBED_SSID_CMD : Z := 0x000A.
Definition WMI_SET_DISCONNECT_TIMEOUT_CMD : Z := 0x000D.
Definition WMI_GET_CHANNEL_LIST_CMD : Z := 0x000E.
Definition WMI_SET_CHANNEL_PARAMS_CMD : Z := 0x0011.
Definition WMI_SET_POWER_MODE_CMD : Z := 0x0012.
Definition WMI_ADD_CIPHER_KEY_CMD : Z := 0x0016.
Definition WMI_SET_TX_PWR_CMD : Z := 0x001B.
Definition WMI_DELETE_BAD_AP_CMD : Z := 0x001F.
Definition WMI_TARGET_ERROR_REPORT_BITMASK_CMD : Z := 0x0022.
Definition WMI_WMIX_CMD : Z := 0x002E.
Definition WMI_SET_KEEPALIVE_CMD : Z := 0x003D.
Definition WMI_SET_WSC_STATUS_CMD : Z := 0x0041.
Definition WMI_SET_HEARTBEAT_TIMEOUT_CMD : Z := 0x0047.
Definition WMI_SET_FRAMERATES_CMD : Z := 0x0048.
Definition WMI_SET_BITRATE_CMD : Z := 0xF000.
Definition WMIX_DBGLOG_CFG_MODULE_CMD : Z := 0x2009.

Definition IEEE_CRYPT_TKIP : Z := 0x000FAC02.
Definition IEEE_CRYPT_AES_CCMP : Z := 0x000FAC04.
Definition IEEE_AUTH_PSK : Z := 0x000FAC02.

Definition wmi_ieee_to_crypt (ieee : Z) : Z :=
  if ieee =? IEEE_CRYPT_TKIP then CRYPT_TKIP
  else if ieee =? IEEE_CRYPT_AES_CCMP then CRYPT_AES
  else CRYPT_NONE.

(** ** Parameter structures *)

Definition bss_filter_params (filter ieMask : Z) : bytes := [u8 filter; 0; 0; 0] ++ le_bytes 4 ieMask.
Definition channel_params (mhz : Z) : bytes := [0; 0; 3; 1] ++ le_bytes 2 mhz.
Definition scan_params (flags maxact pas minact : Z) : bytes :=
  le_bytes 2 0xFFFF ++ le_bytes 2 0xFFFF ++ le_bytes 2 0xFFFF ++ le_bytes 2 maxact ++ le_bytes 2 pas ++
  [3; u8 flags] ++ le_bytes 2 minact ++ le_bytes 2 0 ++ le_bytes 2 0.
Definition start_scan_params : bytes :=
  le_bytes 4 0 ++ le_bytes 4 0 ++ le_bytes 4 20 ++ le_bytes 4 0 ++ [0; 0] ++ le_bytes 2 0.
Definition pstream_params : bytes :=
  concat (map (le_bytes 4) [20; 20; 9999999; -1; 0; 83200; 83200; 83200; 0; 0; 6000000; 8192; 0]) ++
  le_bytes 2 0x80D0 ++ le_bytes 2 0x0D0 ++ [0; 2; 0xFF; 1; 0; 5; 0].

(** The connect structure: [ssid] at 8, [channel] at 40, [bssid] at 42.
    [strcpy] copies the name up to and including its terminator. *)
Definition connect_params (dot11AuthMode authMode pairc group : Z) (w : wmi_static) : bytes :=
  let name := cstr (ap_name w) in
  let p := [1; dot11AuthMode; authMode; u8 pairc; 0; u8 group; 0; u8 (Z.of_nat (length name))] ++
           replicate 32 0 ++ le_bytes 2 (ap_channel w) ++ replicate 6 0 ++ le_bytes 4 0 in
  let p := blit 8 (name ++ [0]) p in
  blit 42 (take 6 (ap_bssid w)) p.

(** The key length and type that [wmi_add_cipher_key] selects. *)
Definition cipher_type (usage : Z) (w : wmi_static) : Z :=
  if ap_security_type w =? AP_WEP then CRYPT_WEP
  else if usage =? 1 then ap_group_crypt_type w else CRYPT_AES.
Definition cipher_keylen (usage : Z) (w : wmi_static) : Z :=
  if ap_security_type w =? AP_WEP then
    if (ap_wepmode w =? 0x1) || (ap_wepmode w =? 0x5) then 5
    else if (ap_wepmode w =? 0x3) || (ap_wepmode w =? 0x7) then 0x10
    else 13
  else if (if usage =? 1 then ap_group_crypt_type w else CRYPT_AES) =? CRYPT_TKIP then 0x20 else 0x10.

(** The 32 bytes of the key field, from the bytes behind [key]; a TKIP key has
    its two MIC halves swapped. *)
Definition cipher_key (keylen : Z) (key : bytes) : option bytes :=
  let n := Z.to_nat (if keylen <? 0x10 then keylen else 0x10) in
  if (length key <? n)%nat then None else
  let k := blit 0 (take n key) (replicate 32 0) in
  if 0x10 <? keylen then
    if (length key <? 0x20)%nat then None else
    Some (blit 0x18 (take 8 (drop 0x10 key)) (blit 0x10 (take 8 (drop 0x18 key)) k))
  else Some k.

Definition cipher_params (idx usage : Z) (key : bytes) (rsc : option bytes) (w : wmi_static) : option bytes :=
  match cipher_key (cipher_keylen usage w) key with
  | None => None
  | Some k =>
      match rsc with
      | Some r =>
          if (length r <? 8)%nat then None else
          Some ([u8 idx; u8 (cipher_type usage w); u8 usage; cipher_keylen usage w] ++ take 8 r ++ k ++ [3])
      | None => Some ([u8 idx; u8 (cipher_type usage w); u8 usage; cipher_keylen usage w] ++ replicate 8 0 ++ k ++ [3])
      end
  end.

Section Wmi.
Context {C : Type} `{Card C} `{Fuel}.

(** [wmi_send_pkt(ty, MBOXPKT_REQACK, &params, sizeof(params))] *)
Definition send_params (ty : Z) (p : bytes) : M (iop C) unit :=
  wmi_send_pkt ty MBOXPKT_REQACK (Some p) (Z.of_nat (length p)).

(** ** Commands *)

Definition wmi_set_bss_filter (filter ieMask : Z) : M (iop C) unit :=
  send_params WMI_SET_BSS_FILTER_CMD (bss_filter_params filter ieMask).
Definition wmi_set_channel_params (mhz : Z) : M (iop C) unit :=
  send_params WMI_SET_CHANNEL_PARAMS_CMD (channel_params mhz).
Definition wmi_set_scan_params (flags maxact_chdwell_time pas_chdwell_time minact_chdwell_time : Z) : M (iop C) unit :=
  send_params WMI_SET_SCAN_PARAMS_CMD (scan_params flags maxact_chdwell_time pas_chdwell_time minact_chdwell_time).
Definition wmi_start_scan : M (iop C) unit :=
  wset_ (fun w => w <| scan_done := false |>) ;;;
  send_params WMI_START_SCAN_CMD start_scan_params.
Definition wmi_disconnect_cmd : M (iop C) unit := send_params WMI_DISCONNECT_CMD (le_bytes 4 0).
Definition wmi_delete_bad_ap_cmd : M (iop C) unit := send_params WMI_DELETE_BAD_AP_CMD [0].
Definition wmi_create_pstream : M (iop C) unit := send_params WMI_CREATE_PSTREAM_CMD pstream_params.
Definition wmi_set_bitrate : M (iop C) unit := send_params WMI_SET_BITRATE_CMD [0xFF; 0; 0].
Definition wmi_set_framerate : M (iop C) unit :=
  send_params WMI_SET_FRAMERATES_CMD ([1; 0xa4] ++ le_bytes 2 0xFFF7).
Definition wmi_set_tx_power : M (iop C) unit := send_params WMI_SET_TX_PWR_CMD [255].
Definition wmi_dbgoff : M (iop C) unit :=
  send_params WMI_WMIX_CMD (le_bytes 4 WMIX_DBGLOG_CFG_MODULE_CMD ++ le_bytes 4 0xFFFFFFFF ++ le_bytes 4 0).

Definition wmi_add_cipher_key (idx usage : Z) (key : bytes) (rsc : option bytes) : M (iop C) unit :=
  let* w := wget (fun w => w) in
  let* p := ofopt OobRead (cipher_params idx usage key rsc w) in
  send_params WMI_ADD_CIPHER_KEY_CMD p.

Definition wmi_connect_cmd : M (iop C) unit :=
  let* w := wget (fun w => w) in
  if ap_security_type w =? AP_OPEN then
    send_params WMI_CONNECT_CMD (connect_params 1 1 1 1 w)
  else if ap_security_type w =? AP_WEP then
    wmi_add_cipher_key 0 3 (ap_wep1 w) None ;;;
    wmi_add_cipher_key 1 1 (ap_wep2 w) None ;;;
    wmi_add_cipher_key 2 1 (ap_wep3 w) None ;;;
    wmi_add_cipher_key 3 1 (ap_wep4 w) None ;;;
    send_params WMI_CONNECT_CMD (connect_params 2 1 CRYPT_WEP CRYPT_WEP w)
  else
    send_params WMI_CONNECT_CMD (connect_params 1 5 (ap_pair_crypt_type w) (ap_group_crypt_type w) w).

(** ** Scanning and connecting *)

Definition wmi_scan : M (iop C) unit :=
  send_params WMI_TARGET_ERROR_REPORT_BITMASK_CMD (le_bytes 4 0x7F) ;;;
  send_params WMI_SET_HEARTBEAT_TIMEOUT_CMD (le_bytes 4 0) ;;;
  wmi_send_pkt WMI_GET_CHANNEL_LIST_CMD MBOXPKT_REQACK None 0 ;;;
  wmi_set_bss_filter 0 0 ;;;
  send_params WMI_SET_PROBED_SSID_CMD (replicate 35 0) ;;;
  wset_ (fun w => w <| wmi_bScanning := true |>).

Definition wmi_connect : M (iop C) unit :=
  wmi_set_bss_filter 4 0 ;;;
  wmi_set_scan_params 5 200 200 200 ;;;
  let* ch := wget ap_channel in
  wmi_set_channel_params ch ;;;
  wset_ (fun w => w <| wmi_idk := 0x2008 |>) ;;;
  send_params WMI_SYNCHRONIZE_CMD [0] ;;;
  wset_ (fun w => w <| wmi_idk := 0 |>) ;;;
  send_params WMI_SET_POWER_MODE_CMD [2] ;;;
  send_params WMI_SYNCHRONIZE_CMD [0] ;;;
  wmi_create_pstream ;;;
  send_params WMI_SET_WSC_STATUS_CMD [0] ;;;
  send_params WMI_SET_DISCONNECT_TIMEOUT_CMD [5] ;;;
  send_params WMI_SET_KEEPALIVE_CMD [0] ;;;
  wmi_connect_cmd.

(** [device_cur_channel_idx++; if (... > device_num_channels) ...] *)
Definition next_channel (w : wmi_static) : wmi_static :=
  let idx := u8 (device_cur_channel_idx w + 1) in
  let w := w <| device_cur_channel_idx := idx |> in
  let w := if device_num_channels w <? idx
           then (w <| device_cur_channel_idx := 0 |>) <| num_rounds_scanned := u16 (num_rounds_scanned w + 1) |>
           else w in
  if nz (num_rounds_scanned w) && (num_rounds_scanned w mod 5 =? 0) then w <| ap_snr := 0 |> else w.

Definition wmi_scantick : M (iop C) unit :=
  let* w := wget (fun w => w) in
  if device_num_channels w =? 0 then ret tt else
  (if ap_found w && negb (sent_connect w) && (5 - 1 <=? num_rounds_scanned w) then
     wmi_connect ;;; wset_ (fun w => w <| sent_connect := true |>)
   else ret tt) ;;;
  if ap_found w && (5 - 1 <=? num_rounds_scanned w) then ret tt else
  if negb (scanning w) then
    let* mhz := ofopt OobRead (channel_freqs w !! Z.to_nat (device_cur_channel_idx w)) in
    wset_ next_channel ;;;
    if mhz =? 0 then ret tt else
    wmi_set_channel_params mhz ;;;
    wmi_set_scan_params 1 20 50 0 ;;;
    wmi_set_bss_filter 1 0 ;;;
    wmi_start_scan ;;;
    wset_ (fun w => w <| scanning := true |>)
  else ret tt.

Definition wmi_tick : M (iop C) unit :=
  let* b := wget wmi_bScanning in
  if b then wmi_scantick else ret tt.

Definition wmi_is_ready : M (iop C) bool := wget wmi_bIsReady.

(** ** Notifications of the other processor *)

Definition wifi_card_send_ready : M (iop C) unit :=
  fifoSendDatamsg {| fcmd := WIFI_IPCINT_READY; fbody := FNone |}.
Definition wifi_card_send_connect : M (iop C) unit :=
  fifoSendDatamsg {| fcmd := WIFI_IPCINT_CONNECT; fbody := FNone |}.

Definition wmi_post_handshake (tk : option bytes) (gtk_info : option gtk_keyinfo) (rsc : option bytes) : M (iop C) unit :=
  send_params WMI_SYNCHRONIZE_CMD [1] ;;;
  data_send_pkt (le_bytes 2 0x0200) 2 ;;;
  data_send_pkt (le_bytes 2 0x0200) 2 ;;;
  let* sec := wget ap_security_type in
  (if sec =? AP_WPA2 then
     let* tk := ofopt NullDeref tk in
     wmi_add_cipher_key 0 0 tk None ;;;
     let* g := ofopt NullDeref gtk_info in
     wmi_add_cipher_key (gtk_keyidx g) 1 (gtk_key g) rsc
   else ret tt) ;;;
  send_params WMI_SYNCHRONIZE_CMD [1] ;;;
  wifi_card_send_ready.

(** ** Small event handlers *)

(** [memcpy(channel_freqs, channel_entries, num_entries * 2)] on the u16 array. *)
Definition wmi_handle_get_channel_list (pkt_data : bytes) (len : Z) : M (iop C) unit :=
  let* num_entries := ofopt OobRead (pkt_data !! 1%nat) in
  wset_ (fun w => w <| device_num_channels := num_entries |>) ;;;
  let n := Z.to_nat (if 32 <? num_entries then 32 else num_entries) in
  if (length pkt_data <? 2 + 2 * n)%nat then fail OobRead else
  let entry i := le_val (take 2 (drop (2 + 2 * i) pkt_data)) in
  wset_ (fun w => w <| channel_freqs := map entry (seq 0 n) ++ drop n (channel_freqs w) |>).

Definition wmi_handle_scan_complete (pkt_data : bytes) (len : Z) : M (iop C) unit :=
  wset_ (fun w => (w <| scan_done := true |>) <| scanning := false |>).

End Wmi.
