(* ===== verification/WmiProofs.v ===== *)
(** The WMI commands as transformations of abstract states, and the scan/connect
    state machine. *)

From S2P Require Import Prelude Cmonad Cutils Wpa Sdio Heap Card State Mbox MboxProofs Wmi.

(** A WMI command with parameters [p], as the card receives it. *)
Definition wmi_pkt (ctl ty : Z) (p : bytes) : mpkt :=
  {| mp_type := MBOXPKT_WMI; mp_ack := MBOXPKT_REQACK; mp_ctl := u16 ctl; mp_body := le_bytes 2 ty ++ p |}.
Definition acmd (ty : Z) (p : bytes) (a : astate) : astate := apush (wmi_pkt (wmi_idk (wmi a)) ty p) a.
Definition data_pkt (ctl : Z) (p : bytes) : mpkt :=
  {| mp_type := 2; mp_ack := MBOXPKT_NOACK; mp_ctl := ctl; mp_body := p |}.
Definition awmi (f : wmi_static -> wmi_static) (a : astate) : astate := a <| wmi := f (wmi a) |>.
Definition afifo (m : Wifi_FifoMsg) (a : astate) : astate := a <| trace := trace a ++ [FifoSend m] |>.

Definition apushes (l : list mpkt) (a : astate) : astate := a <| card := card a ++ map Some l |>.

Section Runs.
Context {C : Type} `{MboxCard C} `{Fuel}.

(** [m] started in [s] completes and transforms the abstract state by [f]. *)
Definition runs {A} (m : M (iop C) A) (s : iop C) (f : astate -> A * astate) : Prop :=
  exists a s', m s = Ok (a, s') /\ iop_ok s' /\ f (abs s) = (a, abs s').
Definition runs_tt (m : M (iop C) unit) (s : iop C) (f : astate -> astate) : Prop :=
  exists s', m s = Ok (tt, s') /\ iop_ok s' /\ abs s' = f (abs s).

Lemma runs_tt_of m s f : runs m s (fun a => (tt, f a)) -> runs_tt m s f.
Proof. intros ([] & s' & E & Hs & A). exists s'. split; [done|]. split; [done|]. exact (eq_sym (f_equal snd A)). Qed.

Lemma runs_tt_bind {B} (m : M (iop C) unit) (k : unit -> M (iop C) B) s f P :
  runs_tt m s f -> (forall s', iop_ok s' -> abs s' = f (abs s) -> wp (k tt) P s') -> wp (bind m k) P s.
Proof. intros (s' & E & Hs & A) Hk. unfold wp, bind. rewrite E. by apply Hk. Qed.

Lemma runs_tt_seq (m k : M (iop C) unit) s f g :
  runs_tt m s f -> (forall s', iop_ok s' -> abs s' = f (abs s) -> runs_tt k s' g) ->
  runs_tt (m ;;; k) s (fun a => g (f a)).
Proof.
  intros (s1 & E1 & H1' & A1) Hk. destruct (Hk s1 H1' A1) as (s2 & E2 & H2 & A2).
  exists s2. unfold bind. rewrite E1. split; [done|]. split; [done|]. by rewrite A2, A1.
Qed.

Lemma runs_tt_get {A} (f : wmi_static -> A) (k : A -> M (iop C) unit) s g :
  runs_tt (k (f (wmi s))) s g -> runs_tt (bind (wget f) k) s g.
Proof. done. Qed.

Lemma runs_gets {A} (f : iop C -> A) (k : A -> M (iop C) unit) s g :
  runs_tt (k (f s)) s g -> runs_tt (bind (gets f) k) s g.
Proof. done. Qed.

Lemma runs_tt_opt {A} (o : option A) x e (k : A -> M (iop C) unit) s g :
  o = Some x -> runs_tt (k x) s g -> runs_tt (bind (ofopt e o) k) s g.
Proof. by intros ->. Qed.

Lemma runs_tt_out {A} (o : outcome A) x (k : A -> M (iop C) unit) s g :
  o = Ok x -> runs_tt (k x) s g -> runs_tt (bind (ofout o) k) s g.
Proof. by intros ->. Qed.

Lemma runs_tt_ret s : iop_ok s -> runs_tt (ret tt) s (fun a => a).
Proof. intros Hs. by exists s. Qed.

Lemma runs_wset s f : iop_ok s -> runs_tt (wset_ f) s (awmi f).
Proof. intros Hs. by exists (s <| wmi := f (wmi s) |>). Qed.

Lemma runs_fifo s m : iop_ok s -> runs_tt (fifoSendDatamsg m) s (afifo m).
Proof. intros Hs. by exists (s <| trace := trace s ++ [FifoSend m] |>). Qed.

Lemma runs_ext m s f g : runs_tt m s f -> f (abs s) = g (abs s) -> runs_tt m s g.
Proof. intros (s' & E & Hs & A) F. exists s'. split; [done|]. split; [done|]. by rewrite A, F. Qed.

Lemma send_params_runs ty p s : iop_ok s -> Z.of_nat (length p) <= 0x5F8 -> runs_tt (send_params ty p) s (acmd ty p).
Proof.
  intros Hs Hl. apply runs_tt_of.
  destruct (wmi_send_refines ty MBOXPKT_REQACK (Some p) (Z.of_nat (length p))) with (s := s) as (u & s' & E & Hs' & A);
    [unfold byte_ok, MBOXPKT_REQACK; lia|lia|cbn; lia|done|].
  exists u, s'. split; [exact E|]. split; [done|]. rewrite <- A. unfold acmd, wmi_pkt. cbn [payload].
  by rewrite Nat2Z.id, firstn_all.
Qed.

Lemma send_cmd_runs k ty p s : iop_ok s -> wmi_idk (wmi s) = k -> Z.of_nat (length p) <= 0x5F8 ->
  runs_tt (send_params ty p) s (apushes [wmi_pkt k ty p]).
Proof. intros Hs <- Hl. by apply send_params_runs. Qed.

Lemma data_send_runs p len s : iop_ok s -> len = Z.of_nat (length p) -> len <= 0x5FA ->
  runs_tt (data_send_pkt p len) s (apushes [data_pkt 0 p]).
Proof.
  intros Hs -> Hl. apply runs_tt_of. unfold data_send_pkt. rewrite u16_id by lia.
  destruct (send_packet_refines 2 MBOXPKT_NOACK (Some p) (Z.of_nat (length p)) 0) with (s := s) as (u & s' & E & Hs' & A);
    [unfold byte_ok, MBOXPKT_NOACK; lia..|lia|cbn; lia|done|].
  exists u, s'. split; [exact E|]. split; [done|]. rewrite <- A. unfold data_pkt. cbn [payload].
  by rewrite Nat2Z.id, firstn_all.
Qed.

Lemma wmi_send_none_runs k ty s : iop_ok s -> wmi_idk (wmi s) = k ->
  runs_tt (wmi_send_pkt ty MBOXPKT_REQACK None 0) s (apushes [wmi_pkt k ty []]).
Proof.
  intros Hs <-. apply runs_tt_of.
  destruct (wmi_send_refines ty MBOXPKT_REQACK None 0) with (s := s) as (u & s' & E & Hs' & A);
    [unfold byte_ok, MBOXPKT_REQACK; lia|lia|done|done|].
  exists u, s'. split; [exact E|]. split; [done|]. by rewrite <- A.
Qed.

(** The abstract state determines what the code reads. *)
Lemma abs_wmi s a : abs s = a -> wmi s = wmi a.
Proof. by intros <-. Qed.
End Runs.

(** Runs a straight-line sequence of commands. *)
Ltac runs_step :=
  lazymatch goal with
  | |- runs_tt (bind (wget _) _) _ _ => apply runs_tt_get
  | |- runs_tt (bind _ _) _ _ => eapply runs_tt_seq; [|intros ? ? ?]
  | |- runs_tt (wset_ _) _ _ => apply runs_wset; assumption
  | |- runs_tt (send_params _ _) _ _ =>
      eapply send_cmd_runs; [assumption|try eassumption|try (vm_compute; discriminate)]
  | |- runs_tt (fifoSendDatamsg _) _ _ => apply runs_fifo; assumption
  | |- runs_tt (ret tt) _ _ => apply runs_tt_ret; assumption
  | |- runs_tt (wmi_send_pkt _ _ None 0) _ _ => eapply wmi_send_none_runs; [assumption|try eassumption]
  end.

(** The static variables after a step, from the abstract step. *)
Ltac wmi_after H :=
  apply (f_equal wmi) in H;
  match type of H with
  | wmi (abs ?s') = wmi (acmd _ _ (abs ?s)) => change (wmi s' = wmi s) in H
  | wmi (abs ?s') = wmi (awmi ?f (abs ?s)) => change (wmi s' = f (wmi s)) in H
  | wmi (abs ?s') = wmi (afifo _ (abs ?s)) => change (wmi s' = wmi s) in H
  | wmi (abs ?s') = wmi (apush _ (abs ?s)) => change (wmi s' = wmi s) in H
  | wmi (abs ?s') = wmi (apushes _ (abs ?s)) => change (wmi s' = wmi s) in H
  | wmi (abs ?s') = wmi (abs ?s) => change (wmi s' = wmi s) in H
  end.

(** ** Well-formed static variables *)

Record wmi_wf (w : wmi_static) : Prop := {
  wf_name : length (ap_name w) = 33%nat;
  wf_name_str : (length (cstr (ap_name w)) <= 32)%nat;
  wf_bssid : length (ap_bssid w) = 6%nat;
  wf_wep : length (ap_wep1 w) = 16%nat /\ length (ap_wep2 w) = 16%nat /\ length (ap_wep3 w) = 16%nat /\
           length (ap_wep4 w) = 16%nat;
  wf_freqs : length (channel_freqs w) = 32%nat;
  wf_num : 0 <= device_num_channels w < 256;
  wf_idx : 0 <= device_cur_channel_idx w < 256;
  wf_idk : wmi_idk w = 0
}.

Lemma wmi_init_wf : wmi_wf wmi_init.
Proof. split; cbn; repeat split; try lia; reflexivity. Qed.

Lemma apushes_nil a : apushes [] a = a.
Proof. unfold apushes, set, set_card. cbn. rewrite app_nil_r. by destruct a. Qed.
Lemma apushes_app l1 l2 a : apushes l2 (apushes l1 a) = apushes (l1 ++ l2) a.
Proof. unfold apushes, set, set_card. cbn. by rewrite <- app_assoc, <- map_app. Qed.
Lemma apush_apushes p a : apush p a = apushes [p] a.
Proof. done. Qed.
Lemma acmd_apushes ty p a : wmi_idk (wmi a) = 0 -> acmd ty p a = apushes [wmi_pkt 0 ty p] a.
Proof. intros E. unfold acmd. by rewrite E. Qed.
Lemma wmi_apushes l a : wmi (apushes l a) = wmi a.
Proof. done. Qed.
Lemma awmi_apushes f l a : awmi f (apushes l a) = apushes l (awmi f a).
Proof. done. Qed.
Lemma awmi_awmi f g a : awmi f (awmi g a) = awmi (fun w => f (g w)) a.
Proof. done. Qed.
Lemma awmi_id f a : f (wmi a) = wmi a -> awmi f a = a.
Proof. intros E. unfold awmi. rewrite E. by destruct a. Qed.
Lemma afifo_apushes m l a : afifo m (apushes l a) = apushes l (afifo m a).
Proof. done. Qed.
Lemma afifo_awmi m f a : afifo m (awmi f a) = awmi f (afifo m a).
Proof. done. Qed.

(** Normal form of composed transformations: packets, then variables, then
    messages. *)
Ltac abs_norm :=
  cbv beta;
  repeat first [rewrite awmi_apushes | rewrite awmi_awmi | rewrite afifo_apushes | rewrite afifo_awmi
               | rewrite apushes_app].

(** ** Keys *)

Lemma length_cipher_params idx usage key rsc w p : cipher_params idx usage key rsc w = Some p -> length p = 45%nat.
Proof.
  unfold cipher_params. destruct (cipher_key _ _) as [k|] eqn:Ek; [|done].
  assert (length k = 32%nat) as Lk.
  { revert Ek. unfold cipher_key. set (n := Z.to_nat _). assert (n <= 16)%nat as Hn by (subst n; destruct (_ <? _) eqn:?; bprop; lia).
    destruct (length key <? n)%nat eqn:E1; [done|]. apply Nat.ltb_ge in E1.
    assert (length (blit 0 (take n key) (replicate 32 0)) = 32%nat) as L0
      by (rewrite length_blit; rewrite ?length_replicate, ?length_take; lia).
    revert L0. generalize (blit 0 (take n key) (replicate 32 0)) as b0. intros b0 L0.
    destruct (0x10 <? _); [|by intros [= <-]]. destruct (length key <? 32)%nat eqn:E2; [done|]. apply Nat.ltb_ge in E2.
    assert (length (blit 16 (take 8 (drop 24 key)) b0) = 32%nat) as L1
      by (rewrite length_blit; rewrite ?length_take, ?length_drop, ?L0; lia).
    intros [= <-]. rewrite length_blit; rewrite ?length_take, ?length_drop, ?L1; lia. }
  destruct rsc as [r|]; [destruct (length r <? 8)%nat eqn:Er; [done|]; apply Nat.ltb_ge in Er|];
    intros E; apply (inj Some) in E; rewrite <- E; rewrite !length_app, Lk, ?length_take, ?length_replicate; cbn [length]; lia.
Qed.

(** The key material that the card is given. *)
Definition key_cmd (w : wmi_static) (idx usage : Z) (key : bytes) (rsc : option bytes) : mpkt :=
  wmi_pkt 0 WMI_ADD_CIPHER_KEY_CMD (default [] (cipher_params idx usage key rsc w)).

Lemma cipher_key_some keylen key : 0 <= keylen -> (16 <= length key)%nat -> (0x10 < keylen -> (32 <= length key)%nat) ->
  exists k, cipher_key keylen key = Some k.
Proof.
  intros H0 H1 H2. unfold cipher_key. rewrite (proj2 (Nat.ltb_ge _ _)) by (destruct (_ <? _) eqn:?; bprop; lia).
  destruct (0x10 <? keylen) eqn:E; [|eauto]. bprop. rewrite (proj2 (Nat.ltb_ge _ _)) by lia. eauto.
Qed.

Lemma cipher_keylen_range usage w : 0 <= cipher_keylen usage w <= 0x20 /\
  (ap_security_type w = AP_WEP -> cipher_keylen usage w <= 0x10) /\ (usage <> 1 -> cipher_keylen usage w <= 0x10).
Proof.
  unfold cipher_keylen. destruct (ap_security_type w =? AP_WEP) eqn:E1; bprop.
  - destruct (_ || _); [lia|]. destruct (_ || _); lia.
  - destruct (usage =? 1) eqn:E2; bprop; [|change (CRYPT_AES =? CRYPT_TKIP) with false; lia].
    destruct (_ =? CRYPT_TKIP); repeat split; lia || done.
Qed.

Lemma cipher_params_some idx usage key rsc w : (16 <= length key)%nat ->
  (0x10 < cipher_keylen usage w -> (32 <= length key)%nat) ->
  match rsc with Some r => (8 <= length r)%nat | None => True end ->
  exists p, cipher_params idx usage key rsc w = Some p.
Proof.
  intros Hk H32 Hr. pose proof (cipher_keylen_range usage w) as (Hl & _).
  unfold cipher_params. destruct (cipher_key_some (cipher_keylen usage w) key) as (k & ->); [lia|done|done|].
  destruct rsc as [r|]; [|eauto]. rewrite (proj2 (Nat.ltb_ge _ _)) by lia. eauto.
Qed.

Section Commands.
Context {C : Type} `{MboxCard C} `{Fuel}.

Lemma add_cipher_key_runs idx usage key rsc (s : iop C) p : iop_ok s -> wmi_idk (wmi s) = 0 ->
  cipher_params idx usage key rsc (wmi s) = Some p ->
  runs_tt (wmi_add_cipher_key idx usage key rsc) s (apushes [key_cmd (wmi s) idx usage key rsc]).
Proof.
  intros Hs Hi Hp. unfold wmi_add_cipher_key. apply runs_tt_get. eapply runs_tt_opt; [exact Hp|].
  eapply runs_ext; [apply send_params_runs; [done|]|].
  - by rewrite (length_cipher_params _ _ _ _ _ _ Hp).
  - rewrite acmd_apushes by done. unfold key_cmd. by rewrite Hp.
Qed.

(** ** Connecting *)

Lemma length_connect_params a b c d w : wmi_wf w -> length (connect_params a b c d w) = 52%nat.
Proof.
  intros W. pose proof (wf_name_str w W). pose proof (wf_bssid w W) as Hb. unfold connect_params.
  set (p := [1; a; b; _; _; _; _; _] ++ _). assert (length p = 52%nat) as Lp by reflexivity.
  assert (length (blit 8 (cstr (ap_name w) ++ [0]) p) = 52%nat) as L1
    by (rewrite length_blit; rewrite ?length_app, Lp; cbn [length]; lia).
  rewrite length_blit; rewrite L1, ?length_take, ?Hb; lia.
Qed.

(** The packets that [wmi_connect_cmd] sends. *)
Definition connect_cmds (w : wmi_static) : list mpkt :=
  if ap_security_type w =? AP_OPEN then [wmi_pkt 0 WMI_CONNECT_CMD (connect_params 1 1 1 1 w)]
  else if ap_security_type w =? AP_WEP then
    [key_cmd w 0 3 (ap_wep1 w) None; key_cmd w 1 1 (ap_wep2 w) None; key_cmd w 2 1 (ap_wep3 w) None;
     key_cmd w 3 1 (ap_wep4 w) None; wmi_pkt 0 WMI_CONNECT_CMD (connect_params 2 1 CRYPT_WEP CRYPT_WEP w)]
  else [wmi_pkt 0 WMI_CONNECT_CMD (connect_params 1 5 (ap_pair_crypt_type w) (ap_group_crypt_type w) w)].

Definition connect_sequence (w : wmi_static) : list mpkt :=
  [wmi_pkt 0 WMI_SET_BSS_FILTER_CMD (bss_filter_params 4 0);
   wmi_pkt 0 WMI_SET_SCAN_PARAMS_CMD (scan_params 5 200 200 200);
   wmi_pkt 0 WMI_SET_CHANNEL_PARAMS_CMD (channel_params (ap_channel w));
   wmi_pkt 0x2008 WMI_SYNCHRONIZE_CMD [0];
   wmi_pkt 0 WMI_SET_POWER_MODE_CMD [2];
   wmi_pkt 0 WMI_SYNCHRONIZE_CMD [0];
   wmi_pkt 0 WMI_CREATE_PSTREAM_CMD pstream_params;
   wmi_pkt 0 WMI_SET_WSC_STATUS_CMD [0];
   wmi_pkt 0 WMI_SET_DISCONNECT_TIMEOUT_CMD [5];
   wmi_pkt 0 WMI_SET_KEEPALIVE_CMD [0]] ++ connect_cmds w.

Lemma wep_key_runs idx usage key (s : iop C) w : iop_ok s -> wmi s = w -> wmi_wf w -> ap_security_type w = AP_WEP ->
  length key = 16%nat -> runs_tt (wmi_add_cipher_key idx usage key None) s (apushes [key_cmd w idx usage key None]).
Proof.
  intros Hs <- W Hw Hk. destruct (cipher_params_some idx usage key None (wmi s)) as (p & Hp); [lia| |done|].
  { pose proof (cipher_keylen_range usage (wmi s)) as (_ & Hl & _). specialize (Hl Hw). lia. }
  eapply add_cipher_key_runs; [done|by destruct W|exact Hp].
Qed.

Lemma connect_cmd_runs (s : iop C) : iop_ok s -> wmi_wf (wmi s) ->
  runs_tt wmi_connect_cmd s (fun a => apushes (connect_cmds (wmi s)) a).
Proof.
  intros Hs W. pose proof (wf_idk _ W) as Hi. pose proof (wf_wep _ W) as (W1 & W2 & W3 & W4).
  assert (forall a b c d (s' : iop C), iop_ok s' -> wmi s' = wmi s ->
    runs_tt (send_params WMI_CONNECT_CMD (connect_params a b c d (wmi s))) s'
      (apushes [wmi_pkt 0 WMI_CONNECT_CMD (connect_params a b c d (wmi s))])) as Hsend.
  { intros. eapply runs_ext; [apply send_params_runs; [done|by rewrite length_connect_params]|].
    apply acmd_apushes. change (wmi_idk (wmi s') = 0). congruence. }
  unfold wmi_connect_cmd, connect_cmds. apply runs_tt_get.
  destruct (ap_security_type (wmi s) =? AP_OPEN); [by apply Hsend|].
  destruct (ap_security_type (wmi s) =? AP_WEP) eqn:Ew; [|by apply Hsend]. apply Z.eqb_eq in Ew.
  eapply runs_ext.
  - eapply runs_tt_seq; [by apply (wep_key_runs 0 3)|]. intros s1 O1 A1. wmi_after A1.
    eapply runs_tt_seq; [apply (wep_key_runs 1 1 _ _ (wmi s)); done || congruence|]. intros s2 O2 A2. wmi_after A2.
    eapply runs_tt_seq; [apply (wep_key_runs 2 1 _ _ (wmi s)); done || congruence|]. intros s3 O3 A3. wmi_after A3.
    eapply runs_tt_seq; [apply (wep_key_runs 3 1 _ _ (wmi s)); done || congruence|]. intros s4 O4 A4. wmi_after A4.
    apply Hsend; [done|congruence].
  - cbv beta. by rewrite !apushes_app.
Qed.

Lemma idk_zero w : wmi_idk w = 0 -> (w <| wmi_idk := 0x2008 |>) <| wmi_idk := 0 |> = w.
Proof. intros E. destruct w. cbn in E. by subst. Qed.

Lemma connect_runs (s : iop C) : iop_ok s -> wmi_wf (wmi s) ->
  runs_tt wmi_connect s (apushes (connect_sequence (wmi s))).
Proof.
  intros Hs W. pose proof (wf_idk _ W) as Hi.
  unfold wmi_connect, wmi_set_bss_filter, wmi_set_scan_params, wmi_set_channel_params, wmi_create_pstream.
  eapply runs_ext.
  - eapply runs_tt_seq; [runs_step|]. intros s1 O1 A1. wmi_after A1. rewrite <- A1 in Hi.
    eapply runs_tt_seq; [runs_step|]. intros s2 O2 A2. wmi_after A2. rewrite <- A2 in Hi. runs_step. rewrite A2, A1.
    eapply runs_tt_seq; [runs_step|]. intros s3 O3 A3. wmi_after A3.
    eapply runs_tt_seq; [runs_step|]. intros s4 O4 A4. wmi_after A4.
    eapply runs_tt_seq; [apply (send_cmd_runs 0x2008); [done|by rewrite A4|done]|]. intros s5 O5 A5. wmi_after A5.
    eapply runs_tt_seq; [runs_step|]. intros s6 O6 A6. wmi_after A6.
    assert (wmi s6 = wmi s) as E6.
    { rewrite A6, A5, A4, A3, A2, A1. apply idk_zero. by rewrite A2, A1 in Hi. }
    assert (wmi_idk (wmi s6) = 0) as Hi6 by congruence.
    eapply runs_tt_seq; [runs_step|]. intros s7 O7 A7. wmi_after A7. rewrite <- A7 in Hi6.
    eapply runs_tt_seq; [runs_step|]. intros s8 O8 A8. wmi_after A8. rewrite <- A8 in Hi6.
    eapply runs_tt_seq; [runs_step|]. intros s9 O9 A9. wmi_after A9. rewrite <- A9 in Hi6.
    eapply runs_tt_seq; [runs_step|]. intros s10 O10 A10. wmi_after A10. rewrite <- A10 in Hi6.
    eapply runs_tt_seq; [runs_step|]. intros s11 O11 A11. wmi_after A11. rewrite <- A11 in Hi6.
    eapply runs_tt_seq; [runs_step|]. intros s12 O12 A12. wmi_after A12.
    assert (wmi s12 = wmi s) as E12 by congruence.
    pose proof (connect_cmd_runs s12 O12) as Hc. rewrite E12 in Hc. exact (Hc W).
  - cbv beta. rewrite !awmi_apushes, awmi_awmi. rewrite !apushes_app. rewrite awmi_id; [done|]. by apply idk_zero.
Qed.

(** ** Scanning *)

(** The packets that start a scan of one channel. *)
Definition scan_cmds (mhz : Z) : list mpkt :=
  [wmi_pkt 0 WMI_SET_CHANNEL_PARAMS_CMD (channel_params mhz);
   wmi_pkt 0 WMI_SET_SCAN_PARAMS_CMD (scan_params 1 20 50 0);
   wmi_pkt 0 WMI_SET_BSS_FILTER_CMD (bss_filter_params 1 0);
   wmi_pkt 0 WMI_START_SCAN_CMD start_scan_params].

(** Specification of a tick: the packets sent and the new static variables. *)
Definition scan_started (w : wmi_static) : wmi_static :=
  ((next_channel w) <| scan_done := false |>) <| scanning := true |>.
Definition tick_spec (w : wmi_static) : list mpkt * wmi_static :=
  if device_num_channels w =? 0 then ([], w)
  else if ap_found w && (5 - 1 <=? num_rounds_scanned w) then
    if sent_connect w then ([], w) else (connect_sequence w, w <| sent_connect := true |>)
  else if scanning w then ([], w)
  else
    let mhz := nth (Z.to_nat (device_cur_channel_idx w)) (channel_freqs w) 0 in
    if mhz =? 0 then ([], next_channel w) else (scan_cmds mhz, scan_started w).

Lemma next_channel_wf w : wmi_wf w -> wmi_wf (next_channel w).
Proof.
  intros [W1 W2 W3 W4 W5 W6 W7 W8]. unfold next_channel. pose proof (u8_range (device_cur_channel_idx w + 1)) as Hu.
  unfold byte_ok in Hu. destruct (_ <? u8 _); destruct (nz _ && _); split; try assumption; cbn; lia.
Qed.

Lemma tick_spec_wf w : wmi_wf w -> wmi_wf (snd (tick_spec w)).
Proof.
  intros W. pose proof (next_channel_wf w W) as [N1 N2 N3 N4 N5 N6 N7 N8]. pose proof W as [W1 W2 W3 W4 W5 W6 W7 W8].
  unfold tick_spec. destruct (_ =? 0); [done|]. destruct (_ && _); [destruct (sent_connect w); [done|by split]|].
  destruct (scanning w); [done|]. destruct (_ =? 0); [done|]. cbn [snd]. by split.
Qed.

Lemma scan_cmds_runs mhz (s : iop C) : iop_ok s -> wmi_idk (wmi s) = 0 ->
  runs_tt (wmi_set_channel_params mhz ;;; wmi_set_scan_params 1 20 50 0 ;;; wmi_set_bss_filter 1 0 ;;;
           wmi_start_scan ;;; wset_ (fun w => w <| scanning := true |>)) s
    (fun a => awmi (fun w => (w <| scan_done := false |>) <| scanning := true |>) (apushes (scan_cmds mhz) a)).
Proof.
  intros Hs Hi. unfold wmi_set_channel_params, wmi_set_scan_params, wmi_set_bss_filter, wmi_start_scan.
  eapply runs_ext.
  - eapply runs_tt_seq; [runs_step|]. intros s1 O1 A1. wmi_after A1. rewrite <- A1 in Hi.
    eapply runs_tt_seq; [runs_step|]. intros s2 O2 A2. wmi_after A2. rewrite <- A2 in Hi.
    eapply runs_tt_seq; [runs_step|]. intros s3 O3 A3. wmi_after A3. rewrite <- A3 in Hi.
    eapply runs_tt_seq; [|intros s5 O5 A5; apply runs_wset; done].
    eapply runs_tt_seq; [by apply runs_wset|]. intros s4 O4 A4. wmi_after A4.
    apply (send_cmd_runs 0); [done|by rewrite A4|done].
  - by abs_norm.
Qed.

Lemma wmi_scantick_runs (s : iop C) : iop_ok s -> wmi_wf (wmi s) -> device_cur_channel_idx (wmi s) < 32 ->
  runs_tt wmi_scantick s (fun a => awmi (fun _ => snd (tick_spec (wmi s))) (apushes (fst (tick_spec (wmi s))) a)).
Proof.
  intros Hs W Hidx. pose proof (wf_idk _ W) as Hi.
  assert (forall a : astate, wmi a = wmi s -> awmi (fun _ => wmi s) (apushes [] a) = a) as Hid.
  { intros a E. rewrite apushes_nil. apply awmi_id. done. }
  unfold wmi_scantick, tick_spec. apply runs_tt_get.
  destruct (device_num_channels (wmi s) =? 0).
  { eapply runs_ext; [by apply runs_tt_ret|]. by rewrite Hid. }
  destruct (ap_found (wmi s) && (5 - 1 <=? num_rounds_scanned (wmi s))) eqn:Ef.
  { destruct (sent_connect (wmi s)) eqn:Es.
    - rewrite andb_false_r. cbn [andb]. eapply runs_ext; [eapply runs_tt_seq; [by apply runs_tt_ret|intros; by apply runs_tt_ret]|].
      by rewrite Hid.
    - apply andb_true_iff in Ef as [-> ->]. cbn [negb andb].
      eapply runs_ext; [eapply runs_tt_seq; [eapply runs_tt_seq; [by apply connect_runs|intros; by apply runs_wset]|
        intros; by apply runs_tt_ret]|]. done. }
  replace (ap_found (wmi s) && negb (sent_connect (wmi s)) && (5 - 1 <=? num_rounds_scanned (wmi s))) with false
    by (revert Ef; by destruct (ap_found _), (sent_connect _), (_ <=? _)).
  destruct (scanning (wmi s)) eqn:Esc; cbn [negb].
  { eapply runs_ext; [eapply runs_tt_seq; [by apply runs_tt_ret|intros; by apply runs_tt_ret]|]. by rewrite Hid. }
  destruct (lookup_lt_is_Some_2 (channel_freqs (wmi s)) (Z.to_nat (device_cur_channel_idx (wmi s)))) as (mhz & Em).
  { rewrite (wf_freqs _ W). pose proof (wf_idx _ W). lia. }
  rewrite (nth_lookup_Some _ _ 0 _ Em).
  destruct (mhz =? 0) eqn:E0.
  - eapply runs_ext.
    { eapply runs_tt_seq; [by apply runs_tt_ret|]. intros s1 O1 A1. eapply runs_tt_opt; [exact Em|].
      eapply runs_tt_seq; [by apply runs_wset|]. intros s2 O2 A2. rewrite E0. by apply runs_tt_ret. }
    cbv beta. cbn [fst snd]. by rewrite apushes_nil.
  - eapply runs_ext.
    { eapply runs_tt_seq; [by apply runs_tt_ret|]. intros s1 O1 A1. wmi_after A1. eapply runs_tt_opt; [exact Em|].
      eapply runs_tt_seq; [by apply runs_wset|]. intros s2 O2 A2. wmi_after A2. rewrite E0.
      apply scan_cmds_runs; [done|]. rewrite A2, A1. by destruct (next_channel_wf _ W). }
    by abs_norm.
Qed.

Lemma wmi_tick_runs (s : iop C) : iop_ok s -> wmi_wf (wmi s) -> device_cur_channel_idx (wmi s) < 32 ->
  wmi_bScanning (wmi s) = true ->
  runs_tt wmi_tick s (fun a => awmi (fun _ => snd (tick_spec (wmi s))) (apushes (fst (tick_spec (wmi s))) a)).
Proof. intros Hs W Hidx Hb. unfold wmi_tick. apply runs_tt_get. rewrite Hb. by apply wmi_scantick_runs. Qed.

(** *** The channel index *)

Definition idx_ok (w : wmi_static) : Prop := device_num_channels w <= 31 /\ device_cur_channel_idx w <= 31.

Lemma next_channel_idx w : wmi_wf w -> idx_ok w ->
  device_cur_channel_idx (next_channel w) =
    (if device_num_channels w <=? device_cur_channel_idx w then 0 else device_cur_channel_idx w + 1) /\
  device_num_channels (next_channel w) = device_num_channels w /\
  channel_freqs (next_channel w) = channel_freqs w.
Proof.
  intros W [Hn Hi]. pose proof (wf_num _ W). pose proof (wf_idx _ W). unfold next_channel.
  rewrite u8_id by (unfold byte_ok; lia). destruct (Z.ltb_spec (device_num_channels w) (device_cur_channel_idx w + 1)) as [Hc|Hc].
  - change (device_num_channels (w <| device_cur_channel_idx := _ |>)) with (device_num_channels w).
    rewrite (proj2 (Z.ltb_lt _ _)), (proj2 (Z.leb_le _ _)) by lia. by destruct (nz _ && _).
  - change (device_num_channels (w <| device_cur_channel_idx := _ |>)) with (device_num_channels w).
    rewrite (proj2 (Z.ltb_ge _ _)), (proj2 (Z.leb_gt _ _)) by lia. by destruct (nz _ && _).
Qed.

Lemma tick_spec_idx w : wmi_wf w -> idx_ok w -> idx_ok (snd (tick_spec w)).
Proof.
  intros W I. pose proof (next_channel_idx w W I) as (E1 & E2 & _). pose proof I as [Hn Hi]. pose proof (wf_idx _ W).
  assert (idx_ok (next_channel w)) as N.
  { split; rewrite ?E1, ?E2; [done|]. destruct (_ <=? _) eqn:?; bprop; lia. }
  unfold tick_spec. destruct (_ =? 0); [done|]. destruct (_ && _); [by destruct (sent_connect w)|].
  destruct (scanning w); [done|]. by destruct (_ =? 0).
Qed.
End Commands.

(** ** Scan rounds *)

Section Rounds.
Context {C : Type} `{MboxCard C} `{Fuel}.

(** A tick followed by the event that ends the scan it started. *)
Definition tick_and_complete : M (iop C) unit := wmi_tick ;;; wmi_handle_scan_complete [] 0.

Definition completed (w : wmi_static) : wmi_static := (w <| scan_done := true |>) <| scanning := false |>.

(** Scanning, no network found yet. *)
Definition searching (n k : Z) (w : wmi_static) : Prop :=
  wmi_wf w /\ 1 <= n <= 31 /\ device_num_channels w = n /\ device_cur_channel_idx w = k /\ ap_found w = false /\
  scanning w = false /\ wmi_bScanning w = true.

Definition scan_of (mhz : Z) : list mpkt := if mhz =? 0 then [] else scan_cmds mhz.

Lemma searching_tick n k w : searching n k w -> 0 <= k <= n ->
  fst (tick_spec w) = scan_of (nth (Z.to_nat k) (channel_freqs w) 0) /\
  searching n (if n <=? k then 0 else k + 1) (completed (snd (tick_spec w))) /\
  channel_freqs (completed (snd (tick_spec w))) = channel_freqs w /\
  num_rounds_scanned (completed (snd (tick_spec w))) =
    (if n <=? k then u16 (num_rounds_scanned w + 1) else num_rounds_scanned w).
Proof.
  intros (W & Hn & En & Ek & Ef & Es & Eb) Hk.
  assert (idx_ok w) as I by (split; lia).
  pose proof (next_channel_idx w W I) as (N1 & N2 & N3). rewrite En, Ek in N1.
  pose proof (tick_spec_wf w W) as WT.
  assert (snd (tick_spec w) = if nth (Z.to_nat k) (channel_freqs w) 0 =? 0 then next_channel w else scan_started w) as ET.
  { unfold tick_spec. rewrite (proj2 (Z.eqb_neq _ _)), Ef, Es, Ek by lia. cbn [andb]. by destruct (_ =? 0). }
  assert (num_rounds_scanned (next_channel w) = if n <=? k then u16 (num_rounds_scanned w + 1) else num_rounds_scanned w) as NR.
  { unfold next_channel. rewrite Ek, u8_id by (unfold byte_ok; lia).
    change (device_num_channels (w <| device_cur_channel_idx := _ |>)) with (device_num_channels w). rewrite En.
    destruct (Z.leb_spec n k); [rewrite (proj2 (Z.ltb_lt _ _)) by lia|rewrite (proj2 (Z.ltb_ge _ _)) by lia]; by destruct (nz _ && _). }
  assert (ap_found (next_channel w) = ap_found w /\ wmi_bScanning (next_channel w) = wmi_bScanning w) as [NF NB].
  { unfold next_channel. destruct (_ <? u8 _); by destruct (nz _ && _). }
  split.
  { unfold tick_spec, scan_of. rewrite (proj2 (Z.eqb_neq _ _)), Ef, Es, Ek by lia. cbn [andb]. by destruct (_ =? 0). }
  rewrite ET in *. clear ET.
  assert (forall v, (v = next_channel w \/ v = scan_started w) -> wmi_wf v ->
    searching n (if n <=? k then 0 else k + 1) (completed v) /\ channel_freqs (completed v) = channel_freqs w /\
    num_rounds_scanned (completed v) = if n <=? k then u16 (num_rounds_scanned w + 1) else num_rounds_scanned w) as Hv.
  { intros v Ev [V1 V2 V3 V4 V5 V6 V7 V8]. split; [|destruct Ev as [-> | ->]; done].
    split; [by split|]. split; [done|].
    destruct Ev as [-> | ->]; cbn [completed scan_started]; repeat split; try congruence;
      cbn; try congruence. }
  destruct (_ =? 0); apply Hv; auto.
Qed.

Lemma searching_step n k (s : iop C) : iop_ok s -> searching n k (wmi s) -> 0 <= k <= n ->
  runs_tt tick_and_complete s (fun a => awmi (fun _ => completed (snd (tick_spec (wmi s))))
    (apushes (scan_of (nth (Z.to_nat k) (channel_freqs (wmi s)) 0)) a)).
Proof.
  intros Hs Sr Hk. pose proof Sr as (W & Hn & En & Ek & Ef & Es & Eb).
  destruct (searching_tick n k _ Sr Hk) as (Ep & _). rewrite <- Ep.
  unfold tick_and_complete. eapply runs_ext; [eapply runs_tt_seq|].
  - apply wmi_tick_runs; [done|done|lia|done].
  - intros s1 O1 _. unfold wmi_handle_scan_complete. by apply runs_wset.
  - by abs_norm.
Qed.

Fixpoint repeatm (n : nat) (m : M (iop C) unit) : M (iop C) unit :=
  match n with O => ret tt | S n => m ;;; repeatm n m end.

(** [j] more channels, from channel [k] on, without reaching the end. *)
Lemma searching_run n (j : nat) k (s : iop C) : iop_ok s -> searching n k (wmi s) -> 0 <= k -> k + Z.of_nat j <= n ->
  exists s', repeatm j tick_and_complete s = Ok (tt, s') /\ iop_ok s' /\ searching n (k + Z.of_nat j) (wmi s') /\
    channel_freqs (wmi s') = channel_freqs (wmi s) /\ num_rounds_scanned (wmi s') = num_rounds_scanned (wmi s) /\
    card (abs s') = card (abs s) ++
      map Some (concat (map scan_of (take j (drop (Z.to_nat k) (channel_freqs (wmi s)))))).
Proof.
  revert k s; induction j as [|j IH]; intros k s Hs Sr Hk Hj.
  - exists s. rewrite Z.add_0_r. cbn [take map concat]. rewrite app_nil_r. done.
  - destruct (searching_step n k s Hs Sr ltac:(lia)) as (s1 & E1 & O1 & A1).
    destruct (searching_tick n k _ Sr ltac:(lia)) as (_ & S1 & F1 & R1).
    assert (wmi s1 = completed (snd (tick_spec (wmi s)))) as Ew by exact (f_equal wmi A1).
    rewrite <- Ew in S1, F1, R1. assert ((n <=? k) = false) as Ek by (apply Z.leb_gt; lia). rewrite Ek in S1, R1.
    destruct (IH (k + 1) s1 O1 S1 ltac:(lia) ltac:(lia)) as (s2 & E2 & O2 & S2 & F2 & R2 & C2).
    exists s2. cbn [repeatm]. unfold bind. rewrite E1. split; [done|]. split; [done|].
    split; [by replace (k + Z.of_nat (S j)) with (k + 1 + Z.of_nat j) by lia|]. split; [congruence|]. split; [congruence|].
    rewrite C2. pose proof (f_equal card A1) as C1. cbn [card] in C1. rewrite C1.
    change (card (awmi _ (apushes ?l ?a))) with (card a ++ map Some l). rewrite <- app_assoc, <- map_app. f_equal. f_equal.
    rewrite F1. destruct Sr as ([_ _ _ _ W5 _ _ _] & Hn31 & _).
    assert (drop (Z.to_nat k) (channel_freqs (wmi s)) =
      nth (Z.to_nat k) (channel_freqs (wmi s)) 0 :: drop (Z.to_nat (k + 1)) (channel_freqs (wmi s))) as ->.
    { replace (Z.to_nat (k + 1)) with (S (Z.to_nat k)) by lia. apply drop_S.
      destruct (lookup_lt_is_Some_2 (channel_freqs (wmi s)) (Z.to_nat k)) as (x & Ex); [lia|].
      rewrite Ex. f_equal. symmetry. by apply nth_lookup_Some. }
    done.
Qed.

Lemma repeatm_S j m (s : iop C) : repeatm (S j) m s = (repeatm j m ;;; m) s.
Proof.
  revert s; induction j as [|j IH]; intros s.
  - cbn. unfold bind, ret. destruct (m s) as [[[] s']| |]; reflexivity.
  - change (bind m (fun _ => repeatm (S j) m) s = bind (bind m (fun _ => repeatm j m)) (fun _ => m) s).
    rewrite bind_assoc. unfold bind at 1 2. destruct (m s) as [[u s']| |]; [apply IH|reflexivity..].
Qed.

Lemma searching_round n (s : iop C) : iop_ok s -> searching n 0 (wmi s) ->
  exists s', repeatm (S (Z.to_nat n)) tick_and_complete s = Ok (tt, s') /\ iop_ok s' /\ searching n 0 (wmi s') /\
    num_rounds_scanned (wmi s') = u16 (num_rounds_scanned (wmi s) + 1) /\
    card (abs s') = card (abs s) ++
      map Some (concat (map scan_of (take (S (Z.to_nat n)) (channel_freqs (wmi s))))).
Proof.
  intros Hs Sr. pose proof Sr as (_ & Hn & _).
  destruct (searching_run n (Z.to_nat n) 0 s Hs Sr ltac:(lia) ltac:(lia)) as (s1 & E1 & O1 & S1 & F1 & R1 & C1).
  replace (0 + Z.of_nat (Z.to_nat n)) with n in S1 by lia.
  destruct (searching_step n n s1 O1 S1 ltac:(lia)) as (s2 & E2 & O2 & A2).
  destruct (searching_tick n n _ S1 ltac:(lia)) as (_ & S2 & F2 & R2).
  assert (wmi s2 = completed (snd (tick_spec (wmi s1)))) as Ew by exact (f_equal wmi A2).
  rewrite <- Ew in S2, F2, R2. rewrite Z.leb_refl in S2, R2.
  exists s2. rewrite repeatm_S. unfold bind. rewrite E1. split; [done|]. split; [done|]. split; [done|]. split; [congruence|].
  pose proof (f_equal card A2) as C2. change (card (awmi _ (apushes ?l ?a))) with (card a ++ map Some l) in C2.
  rewrite C2, C1, <- app_assoc, <- map_app. f_equal. f_equal. rewrite F1.
  destruct Sr as ([_ _ _ _ W5 _ _ _] & Hn31 & _).
  destruct (lookup_lt_is_Some_2 (channel_freqs (wmi s)) (Z.to_nat n)) as (x & Ex); [lia|].
  rewrite (nth_lookup_Some _ _ 0 _ Ex), (take_S_r _ _ _ Ex). cbn [Z.to_nat drop].
  rewrite map_app, concat_app. cbn [map concat]. by rewrite app_nil_r.
Qed.
End Rounds.

(** ** Reachable scan states *)

Section Reach.
Context {C : Type} `{MboxCard C} `{Fuel}.

(** Ticks, ends of scans, channel lists of at most 31 entries, and anything
    else that leaves the channel table and its index alone. *)
Inductive scan_reach : iop C -> Prop :=
| sr_init s : iop_ok s -> wmi s = wmi_init -> scan_reach s
| sr_tick s s' : scan_reach s -> wmi_tick s = Ok (tt, s') -> scan_reach s'
| sr_complete p len s s' : scan_reach s -> wmi_handle_scan_complete p len s = Ok (tt, s') -> scan_reach s'
| sr_list p len s s' : scan_reach s -> 0 <= nth 1 p 0 <= 31 -> wmi_handle_get_channel_list p len s = Ok (tt, s') -> scan_reach s'
| sr_other s s' : scan_reach s -> iop_ok s' -> wmi_wf (wmi s') ->
    device_num_channels (wmi s') = device_num_channels (wmi s) ->
    device_cur_channel_idx (wmi s') = device_cur_channel_idx (wmi s) -> scan_reach s'.

Definition scan_inv (s : iop C) : Prop := iop_ok s /\ wmi_wf (wmi s) /\ idx_ok (wmi s).

Lemma tick_total s : scan_inv s -> exists s', wmi_tick s = Ok (tt, s') /\ scan_inv s'.
Proof.
  intros (Hs & W & I). destruct (wmi_bScanning (wmi s)) eqn:Eb.
  - pose proof I as [_ Hidx]. destruct (wmi_tick_runs s Hs W ltac:(lia) Eb) as (s' & E & Hs' & A). exists s'. split; [done|].
    split; [done|]. apply abs_wmi in A. rewrite A. split; [by apply tick_spec_wf|by apply tick_spec_idx].
  - exists s. unfold wmi_tick, wget, gets, bind. by rewrite Eb.
Qed.

Lemma channel_list_wf n l w num : wmi_wf w -> 0 <= num < 256 -> length l = n -> (n <= 32)%nat ->
  wmi_wf ((w <| device_num_channels := num |>) <| channel_freqs := l ++ drop n (channel_freqs w) |>).
Proof.
  intros [W1 W2 W3 W4 W5 W6 W7 W8] Hn Hl Hle. split; try assumption. cbn. rewrite length_app, length_drop, W5. lia.
Qed.

Lemma scan_reach_inv s : scan_reach s -> scan_inv s.
Proof.
  induction 1 as [s Hs E|s s' _ IH E|p len s s' _ IH E|p len s s' _ IH Hn E|s s' _ IH Hs' W' En Ei].
  - split; [done|]. rewrite E. split; [apply wmi_init_wf|done].
  - destruct (tick_total s IH) as (s1 & E1 & I1). congruence.
  - destruct IH as (Hs & W & I). destruct W. injection E as <-. done.
  - destruct IH as (Hs & W & I). revert E. unfold wmi_handle_get_channel_list, bind, ofopt.
    destruct (p !! 1%nat) as [num|] eqn:Ep; [|done]. rewrite (nth_lookup_Some _ _ 0 _ Ep) in Hn.
    rewrite (proj2 (Z.ltb_ge _ _)) by lia. cbn [wset_ modify]. destruct (length p <? _)%nat; [done|]. intros [= <-].
    split; [done|]. cbn. split; [apply channel_list_wf; [done|lia|by rewrite length_map, length_seq|lia]|].
    destruct I as [_ I2]. split; cbn; lia.
  - destruct IH as (_ & _ & I). split; [done|]. split; [done|]. destruct I. split; congruence.
Qed.
End Reach.

(** ** Theorems *)

(** A device with three channels, searching. *)
Definition demo_wmi : wmi_static :=
  ((wmi_init <| device_num_channels := 3 |>) <| channel_freqs := [2412; 2437; 2462] ++ replicate 29 0 |>)
    <| wmi_bScanning := true |>.
Definition mlog0 : mlog := {| blocks := []; stream := [] |}.
Definition demo : iop mlog := (iop0 mlog0) <| wmi := demo_wmi |>.

Lemma demo_ok : iop_ok demo.
Proof. split; [exact I|]. split; [exact heap0_disjoint|]. exists 0%nat. eexists. apply (iop0_out mlog0). Qed.
Lemma demo_wf : wmi_wf demo_wmi.
Proof. split; cbn; repeat split; try lia; reflexivity. Qed.
Lemma demo_searching : searching 3 0 demo_wmi.
Proof. split; [exact demo_wf|]. repeat split; lia || reflexivity. Qed.

(** C4: every tick of the scan state machine does what [tick_spec] says, sends
    exactly those commands and changes nothing but the variables of the machine;
    in particular a connection is started once, after four rounds with a network
    found, and a channel is only scanned when no scan is under way. *)
Theorem scan_tick_refines {C} `{MboxCard C} `{Fuel} (s : iop C) :
  iop_ok s -> wmi_wf (wmi s) -> device_cur_channel_idx (wmi s) < 32 -> wmi_bScanning (wmi s) = true ->
  exists s', wmi_tick s = Ok (tt, s') /\ iop_ok s' /\ wmi s' = snd (tick_spec (wmi s)) /\
    card (abs s') = card (abs s) ++ map Some (fst (tick_spec (wmi s))) /\ trace s' = trace s.
Proof.
  intros Hs W Hi Hb. destruct (wmi_tick_runs s Hs W Hi Hb) as (s' & E & Hs' & A). exists s'.
  split; [done|]. split; [done|]. split; [exact (f_equal wmi A)|]. split; [exact (f_equal card A)|exact (f_equal trace A)].
Qed.

Lemma scan_tick_refines_witness : let _ : Fuel := 1%nat in
  exists s', wmi_tick demo = Ok (tt, s') /\ map decode (blocks (card s')) = map Some (scan_cmds 2412).
Proof.
  destruct (@scan_tick_refines mlog _ _ 1%nat demo demo_ok demo_wf eq_refl eq_refl) as (s' & E & _ & _ & A & _).
  exists s'. split; [exact E|exact A].
Defined.

(** C32: a scan round: with [n] channels (1 to 31) and no network found, [n + 1]
    ticks, each followed by its scan-complete event, start a scan of every
    frequency of the channel list in order (and of the table entry behind it, if
    that is not zero), and leave the machine at channel 0 with the round counted. *)
Theorem scan_round_covers {C} `{MboxCard C} `{Fuel} n (s : iop C) :
  iop_ok s -> searching n 0 (wmi s) ->
  exists s', repeatm (S (Z.to_nat n)) tick_and_complete s = Ok (tt, s') /\ searching n 0 (wmi s') /\
    num_rounds_scanned (wmi s') = u16 (num_rounds_scanned (wmi s) + 1) /\
    card (abs s') = card (abs s) ++
      map Some (concat (map scan_of (take (S (Z.to_nat n)) (channel_freqs (wmi s))))).
Proof. intros Hs Hsr. destruct (searching_round n s Hs Hsr) as (s' & E & _ & R). by exists s'. Qed.

Lemma scan_round_covers_witness : let _ : Fuel := 1%nat in
  exists s', repeatm 4 tick_and_complete demo = Ok (tt, s') /\
    map decode (blocks (card s')) = map Some (scan_cmds 2412 ++ scan_cmds 2437 ++ scan_cmds 2462).
Proof.
  destruct (@scan_round_covers mlog _ _ 1%nat 3 demo demo_ok demo_searching) as (s' & E & _ & _ & A).
  exists s'. split; [exact E|exact A].
Defined.

(** C33: from the initial state, as long as every channel list has at most 31
    entries, the tick never reads outside the channel table, whatever else
    happens between the ticks. *)
Theorem scan_index_safe {C} `{MboxCard C} `{Fuel} (s : iop C) :
  scan_reach s -> idx_ok (wmi s) /\ exists s', wmi_tick s = Ok (tt, s').
Proof.
  intros R. pose proof (scan_reach_inv s R) as I. split; [by destruct I as (_ & _ & ?)|].
  destruct (tick_total s I) as (s' & E & _). by exists s'.
Qed.

Lemma scan_index_safe_witness : let _ : Fuel := 1%nat in exists s', wmi_tick (iop0 mlog0) = Ok (tt, s').
Proof.
  destruct (@scan_index_safe mlog _ _ 1%nat (iop0 mlog0)) as [_ R];
    [apply sr_init; [apply iop0_ok; exact I|reflexivity]|exact R].
Defined.

(** The events of a scan with a channel list of [n] entries. *)
Definition long_scan (n : Z) (rounds : nat) : M (iop mlog) unit :=
  let _ : Fuel := 1%nat in
  wmi_handle_get_channel_list ([0; n] ++ concat (replicate 40 (le_bytes 2 2412))) 82 ;;;
  wset_ (fun w => w <| wmi_bScanning := true |>) ;;;
  repeatm rounds tick_and_complete.

(** The number of channels is stored before it is limited to the 32 entries
    of the table, and the index runs up to and including it: with a list of 40
    entries the 33rd tick reads behind [channel_freqs]; even 32 entries are too
    many. *)
Theorem long_channel_list_faults :
  long_scan 40 33 (iop0 mlog0) = Fault OobRead /\ long_scan 32 33 (iop0 mlog0) = Fault OobRead /\
  (exists s', long_scan 31 33 (iop0 mlog0) = Ok (tt, s')).
Proof. split; [vm_compute; reflexivity|]. split; [vm_compute; reflexivity|]. eexists. vm_compute. reflexivity. Qed.

(** Connecting sends the full command sequence: filter, scan and channel
    parameters, synchronisation, power mode, stream, WSC status, timeouts, the
    WEP keys when the network uses WEP, and the connect command with the security
    settings chosen for the network; the static variables are unchanged. *)
Theorem connect_sends_sequence {C} `{MboxCard C} `{Fuel} (s : iop C) :
  iop_ok s -> wmi_wf (wmi s) ->
  exists s', wmi_connect s = Ok (tt, s') /\ iop_ok s' /\ wmi s' = wmi s /\
    card (abs s') = card (abs s) ++ map Some (connect_sequence (wmi s)).
Proof.
  intros Hs W. destruct (connect_runs s Hs W) as (s' & E & Hs' & A). exists s'.
  split; [done|]. split; [done|]. split; [exact (f_equal wmi A)|exact (f_equal card A)].
Qed.

Lemma connect_sends_sequence_witness : let _ : Fuel := 1%nat in
  exists s', wmi_connect demo = Ok (tt, s') /\ map decode (blocks (card s')) = map Some (connect_sequence demo_wmi).
Proof.
  destruct (@connect_sends_sequence mlog _ _ 1%nat demo demo_ok demo_wf) as (s' & E & _ & _ & A).
  exists s'. split; [exact E|exact A].
Defined.

Lemma connect_params_at a b c d w : wmi_wf w ->
  connect_params a b c d w =
    [1; a; b; u8 c; 0; u8 d; 0; u8 (Z.of_nat (length (cstr (ap_name w))))] ++
    take 34 ((cstr (ap_name w) ++ [0]) ++ drop (length (cstr (ap_name w)) + 1)
      (replicate 32 0 ++ le_bytes 2 (ap_channel w))) ++ ap_bssid w ++ [0; 0; 0; 0].
Proof.
  intros W. pose proof (wf_name_str w W) as Hn. pose proof (wf_bssid w W) as Hb.
  unfold connect_params. set (nm := cstr (ap_name w)) in *. set (hd := [1; a; b; _; _; _; _; _]).
  set (ch := le_bytes 2 (ap_channel w)). rewrite take_ge by lia.
  assert (length (nm ++ [0]) = (length nm + 1)%nat) as Ln by (rewrite length_app; cbn; lia).
  assert (blit 8 (nm ++ [0]) (hd ++ replicate 32 0 ++ ch ++ replicate 6 0 ++ le_bytes 4 0) =
    (hd ++ take 34 ((nm ++ [0]) ++ drop (length nm + 1) (replicate 32 0 ++ ch))) ++ replicate 6 0 ++ le_bytes 4 0) as ->.
  { unfold blit. rewrite take_app_length' by done. rewrite <- (app_assoc hd). f_equal. rewrite Ln.
    assert (length (replicate 32 0 ++ ch) = 34%nat) as L34 by done.
    assert (length ((nm ++ [0]) ++ drop (length nm + 1) (replicate 32 0 ++ ch)) = 34%nat) as Lt
      by (rewrite length_app, length_drop, Ln, L34; lia).
    rewrite (take_ge ((nm ++ [0]) ++ drop _ _)) by lia. rewrite <- (app_assoc (nm ++ [0])). f_equal.
    rewrite drop_app_ge by (cbn [length hd]; lia). change (length hd) with 8%nat.
    replace (8 + (length nm + 1) - 8)%nat with (length nm + 1)%nat by lia.
    rewrite (app_assoc (replicate 32 0)). apply drop_app_le. rewrite L34. lia. }
  set (mid := take 34 _). assert (length mid = 34%nat) as Lm.
  { subst mid. rewrite length_take, !length_app, length_drop. change (length (replicate 32 0 ++ ch)) with 34%nat. cbn [length]. lia. }
  unfold blit. rewrite take_app_length' by (rewrite length_app, Lm; done). rewrite <- (app_assoc hd). f_equal. f_equal. f_equal.
  rewrite Hb. rewrite drop_app_ge by (rewrite length_app, Lm; cbn [length hd]; lia). rewrite length_app, Lm. done.
Qed.

(** The channel field (bytes 40 and 41) of the connect command is the channel
    of the chosen network as long as its name has at most 31 characters; with 32
    characters the terminator that [strcpy] appends falls on the field's low
    byte, which is sent as zero. *)
Theorem connect_channel_field a b c d w : wmi_wf w -> 0 <= ap_channel w < 65536 ->
  le_val (take 2 (drop 40 (connect_params a b c d w))) =
    (if (length (cstr (ap_name w)) <=? 31)%nat then ap_channel w else ap_channel w / 256 * 256).
Proof.
  intros W Hc. rewrite connect_params_at by done. pose proof (wf_name_str w W) as Hn.
  set (nm := cstr (ap_name w)) in *. set (ch := le_bytes 2 (ap_channel w)). set (hd := [1; a; b; _; _; _; _; _]).
  assert (length ((nm ++ [0]) ++ drop (length nm + 1) (replicate 32 0 ++ ch)) = 34%nat) as Lt.
  { rewrite !length_app, length_drop. change (length (replicate 32 0 ++ ch)) with 34%nat. cbn [length]. lia. }
  rewrite (take_ge ((nm ++ [0]) ++ _)) by lia.
  rewrite drop_app_ge by (cbn [length hd]; lia). change (40 - length hd)%nat with 32%nat.
  destruct (length nm <=? 31)%nat eqn:E.
  - apply Nat.leb_le in E. rewrite drop_app_le by lia. rewrite drop_app_ge by (rewrite length_app; cbn; lia).
    rewrite drop_drop, length_app. replace (length nm + 1 + (32 - (length nm + length [0%Z])))%nat with 32%nat by (cbn; lia).
    change (drop 32 (replicate 32 0 ++ ch)) with ch. rewrite (take_app_length' ch) by reflexivity. subst ch. rewrite le_val_bytes.
    apply Z.mod_small. change (256 ^ Z.of_nat 2) with 65536. lia.
  - apply Nat.leb_gt in E. assert (length nm = 32%nat) as L by lia. rewrite L in *. rewrite drop_app_le by lia.
    change (drop (32 + 1) (replicate 32 0 ++ ch)) with [u8 (ap_channel w / 256)].
    rewrite <- (app_assoc nm), drop_app_length' by lia. cbn [app take le_val]. unfold u8. rewrite take_0. cbn [le_val]. zdm.
Qed.

Lemma connect_channel_field_witness :
  le_val (take 2 (drop 40 (connect_params 1 5 4 4
    ((demo_wmi <| ap_name := replicate 32 65 ++ [0] |>) <| ap_channel := 2412 |>)))) = 2304.
Proof.
  rewrite connect_channel_field; [reflexivity|split; cbn; repeat split; try lia; reflexivity|cbn; lia].
Defined.
