(* ===== verification/Bss.v ===== *)
(** arm_iop/source/ath/wmi.twl.c, [wmi_handle_bss_info] (lines 210-506): the
    information elements of a beacon and the choice of an access point among
    the stored configurations. *)

From S2P Require Import Prelude Cmonad Cutils Wpa Sdio Heap Card State Mbox Wmi.

(** ** Stored configurations (wifi_card.h) *)

(** A [nvram_cfg] is its 0x200 bytes, a [nvram_cfg_wep] its 0x100 bytes; the
    fields that both have are at the same offsets. *)
Definition cfg_field (off n : nat) (c : bytes) : bytes := take n (drop off c).
Definition cfg_byte (off : nat) (c : bytes) : Z := nth off c 0.
Definition cfg_ssid := cfg_field 0x40 0x20.
Definition cfg_wep_key1 := cfg_field 0x80 0x10.
Definition cfg_wep_key2 := cfg_field 0x90 0x10.
Definition cfg_wep_key3 := cfg_field 0xA0 0x10.
Definition cfg_wep_key4 := cfg_field 0xB0 0x10.
Definition cfg_wep_mode := cfg_byte 0xE6.
Definition cfg_wpa_mode := cfg_byte 0xE7.     (* [status] of a [nvram_cfg_wep] *)
Definition cfg_ssid_len := cfg_byte 0xE8.
Definition cfg_slot_idx := cfg_byte 0xEF.
Definition cfg_pmk := cfg_field 0x100 0x20.
Definition cfg_pass := cfg_field 0x120 0x40.
Definition cfg_wpa_type := cfg_byte 0x181.

Definition WPATYPE_WPA_TKIP : Z := 4.
Definition WPATYPE_WPA2_TKIP : Z := 5.
Definition WPATYPE_WPA_AES : Z := 6.
Definition WPATYPE_WPA2_AES : Z := 7.

(** [strncpy(dst, src, n)]: the bytes of [src] up to its terminator, padded
    with zeros to [n]; [None] when the source ends before both. *)
Definition strncpy (dst src : bytes) (n : nat) : option bytes :=
  let s := cstr src in
  if (length src <? n)%nat && (length s =? length src)%nat then None
  else Some (blit 0 (take n s ++ replicate (n - length s) 0) dst).

(** ** Information elements *)

Record ie_info := { ie_ssid : bytes; ie_sec : Z; ie_group : Z; ie_pair : Z; ie_auth : Z }.
Definition ie_none : ie_info :=
  {| ie_ssid := replicate 33 0; ie_sec := AP_OPEN; ie_group := CRYPT_NONE; ie_pair := CRYPT_NONE; ie_auth := AUTH_NONE |}.

Definition eta_ie (r : ie_info) : ie_info :=
  Build_ie_info (ie_ssid r) (ie_sec r) (ie_group r) (ie_pair r) (ie_auth r).
#[export] Instance set_ie_ssid : Setter ie_ssid := ltac:(mk_setter eta_ie).
#[export] Instance set_ie_sec : Setter ie_sec := ltac:(mk_setter eta_ie).
#[export] Instance set_ie_group : Setter ie_group := ltac:(mk_setter eta_ie).
#[export] Instance set_ie_pair : Setter ie_pair := ltac:(mk_setter eta_ie).
#[export] Instance set_ie_auth : Setter ie_auth := ltac:(mk_setter eta_ie).

(** The pairwise suites: the last one read, stopping at AES. *)
Fixpoint rsn_pairwise (n : nat) (p : bytes) (pairc : Z) : option Z :=
  match n with
  | O => Some pairc
  | S n =>
      match getbe32 p with
      | None => None
      | Some cipher =>
          let pairc := wmi_ieee_to_crypt cipher in
          if pairc =? CRYPT_AES then Some pairc else rsn_pairwise n (drop 4 p) pairc
      end
  end.

(** The key management suites: the last one read, stopping at PSK. *)
Fixpoint rsn_authkey (n : nat) (p : bytes) (auth_type : Z) : option Z :=
  match n with
  | O => Some auth_type
  | S n =>
      match getbe32 p with
      | None => None
      | Some auth =>
          let auth_type := Z.land auth 0xFF in
          if auth =? IEEE_AUTH_PSK then Some auth_type else rsn_authkey n (drop 4 p) auth_type
      end
  end.

Definition parse_rsn (p : bytes) (st : ie_info) : option ie_info :=
  let st := st <| ie_sec := AP_WPA2 |> in
  match getle16 p with
  | None => None
  | Some version =>
      if negb (version =? 0x0001) then Some st else
      match getbe32 (drop 2 p), getle16 (drop 6 p) with
      | Some group_cipher, Some num_pairwise =>
          let st := st <| ie_group := wmi_ieee_to_crypt group_cipher |> in
          let np := if 4 <? num_pairwise then 4 else num_pairwise in
          match rsn_pairwise (Z.to_nat np) (drop 8 p) (ie_pair st) with
          | None => None
          | Some pairc =>
              let st := st <| ie_pair := pairc |> in
              let idx := (8 + 4 * Z.to_nat np)%nat in
              match getle16 (drop idx p) with
              | None => None
              | Some num_authkey =>
                  let na := if 4 <? num_authkey then 4 else num_authkey in
                  match rsn_authkey (Z.to_nat na) (drop (idx + 2) p) (ie_auth st) with
                  | None => None
                  | Some auth =>
                      let st := st <| ie_auth := auth |> in
                      Some (if pairc =? CRYPT_TKIP then st <| ie_sec := AP_WPA |> else st)
                  end
              end
          end
      | _, _ => None
      end
  end.

(** One element with identifier [id] and length [len], body at [p]. *)
Definition parse_ie (id len : Z) (p : bytes) (st : ie_info) : option ie_info :=
  let ssid :=
    if (id =? 0) && (len <=? 0x20) then
      match p with [] => None | b :: _ => Some (nz b) end
    else Some false in
  match ssid with
  | None => None
  | Some true =>
      match strncpy (ie_ssid st) p (Z.to_nat len) with
      | None => None
      | Some s => Some (st <| ie_ssid := s |>)
      end
  | Some false => if id =? 0x30 then parse_rsn p st else Some st
  end.

(** [while (data_left > 0)]; every turn moves [read_ptr] by two bytes or more,
    so that a fuel above the length of the buffer is never used up.  [Hang] is
    a loop that has not left with the fuel, [Fault] a read beyond the buffer. *)
Fixpoint parse_ies (fuel : nat) (p : bytes) (data_left : Z) (st : ie_info) : outcome ie_info :=
  match fuel with
  | O => Hang
  | S fuel =>
      if 0 <? data_left then
        match p with
        | id :: len :: p =>
            match parse_ie id len p st with
            | None => Fault OobRead
            | Some st => parse_ies fuel (drop (Z.to_nat len) p) (data_left - 2 - len) st
            end
        | _ => Fault OobRead
        end
      else Ok st
  end.

(** ** Choice of an access point *)

(** The fixed part of the event. *)
Record bss := { bss_channel : Z; bss_snr : Z; bss_bssid : bytes; bss_capability : Z }.
Definition bss_of (p : bytes) : bss :=
  {| bss_channel := le_val (take 2 p); bss_snr := nth 3 p 0; bss_bssid := take 6 (drop 6 p);
     bss_capability := le_val (take 2 (drop 26 p)) |}.

(** [strcpy(ap_name, name)] *)
Definition set_name (name : bytes) (w : wmi_static) : wmi_static :=
  w <| ap_name := blit 0 (cstr name ++ [0]) (ap_name w) |>.

(** The configured SSID as [tmp_2]. *)
Definition cfg_name (c : bytes) (n : nat) : option bytes := strncpy (replicate 33 0) (cfg_ssid c) n.

(** The body of the first loop for a matching configuration, up to the decision
    whether the network can be used; the locals [sec_type_enum],
    [group_crypto], [pair_crypto] and [auth_type] live in [st]. *)
Definition wpa_candidate (i : Z) (c name : bytes) (w : wmi_static) : wmi_static :=
  (set_name name (w <| ap_nvram_idx := i + 3 |>)) <| ap_pass := cfg_pass c |> <| ap_pmk := cfg_pmk c |>.

Definition wpa_wep_keys (c : bytes) (w : wmi_static) : wmi_static :=
  w <| ap_wepmode := cfg_wep_mode c |> <| ap_wep1 := cfg_wep_key1 c |> <| ap_wep2 := cfg_wep_key2 c |>
    <| ap_wep3 := cfg_wep_key3 c |> <| ap_wep4 := cfg_wep_key4 c |> <| ap_pass := cfg_wep_key1 c |>.

(** The flash values that stand in for a missing RSN element. *)
Definition flash_crypto (wpa_type : Z) (st : ie_info) : bool * ie_info :=
  let st := st <| ie_sec := AP_WPA2 |> <| ie_auth := AUTH_PSK |> in
  if (wpa_type =? WPATYPE_WPA_TKIP) || (wpa_type =? WPATYPE_WPA_AES) then (false, st)
  else if wpa_type =? WPATYPE_WPA2_TKIP then (true, st <| ie_group := CRYPT_TKIP |> <| ie_pair := CRYPT_AES |>)
  else if wpa_type =? WPATYPE_WPA2_AES then (true, st <| ie_group := CRYPT_AES |> <| ie_pair := CRYPT_AES |>)
  else (false, st).

(** The security settings for the candidate: [false] is a [continue]. *)
Definition wpa_security (wpa_type : Z) (w : wmi_static) (st : ie_info) : bool * ie_info :=
  let open_pass := nth 0 (ap_pass w) 0 =? 0 in
  let st := if open_pass then st <| ie_sec := AP_OPEN |> else st in
  let '(ok, st) :=
    if negb open_pass && (ie_auth st =? AUTH_NONE) && (ie_sec st =? AP_OPEN)
    then flash_crypto wpa_type st else (true, st) in
  if negb ok then (false, st) else
  let st := if (ie_pair st =? CRYPT_AES) && (ie_auth st =? AUTH_PSK) then st <| ie_sec := AP_WPA2 |> else st in
  let st := if ie_sec st =? AP_WEP
            then st <| ie_group := CRYPT_WEP |> <| ie_pair := CRYPT_WEP |> <| ie_auth := AUTH_NONE |> else st in
  (negb (ie_sec st =? AP_WPA), st).

(** The accepted network. *)
Definition wpa_accept (b : bss) (st : ie_info) (w : wmi_static) : wmi_static :=
  w <| ap_security_type := ie_sec st |> <| ap_group_crypt_type := u8 (ie_group st) |>
    <| ap_pair_crypt_type := u8 (ie_pair st) |> <| ap_auth_type := ie_auth st |> <| ap_snr := bss_snr b |>
    <| ap_channel := bss_channel b |> <| ap_caps := bss_capability b |> <| ap_bssid := bss_bssid b |>
    <| ap_found := true |>.

(** One turn of the first loop: the new static variables and locals, and
    whether the loop ends here with a network; [None] is a read out of bounds. *)
Definition try_config (i : Z) (c : bytes) (b : bss) (w : wmi_static) (st : ie_info)
  : option (bool * wmi_static * ie_info) :=
  if (nth 0 (cfg_ssid c) 0 =? 0) || (cfg_wpa_mode c =? 0xFF) || (cfg_slot_idx c =? 0) then Some (false, w, st) else
  let n := Z.to_nat (if 0x20 <? cfg_ssid_len c then 0x20 else cfg_ssid_len c) in
  match cfg_name c n with
  | None => None
  | Some name =>
      if bool_decide (cstr (ie_ssid st) = cstr name) && (ap_snr w <? bss_snr b) then
        let w := wpa_candidate i c name w in
        let '(w, st) := if nz (cfg_wep_mode c) then (wpa_wep_keys c w, st <| ie_sec := AP_WEP |>) else (w, st) in
        let '(ok, st) := wpa_security (cfg_wpa_type c) w st in
        if ok then Some (true, wpa_accept b st w, st) else Some (false, w, st)
      else Some (false, w, st)
  end.

(** One turn of the second loop (configurations of the DS). *)
Definition try_wep_config (i : Z) (c : bytes) (b : bss) (w : wmi_static) (st : ie_info)
  : option (bool * wmi_static) :=
  if (nth 0 (cfg_ssid c) 0 =? 0) || (cfg_wpa_mode c =? 0xFF) || (cfg_slot_idx c =? 0) then Some (false, w) else
  match cfg_name c 0x20 with
  | None => None
  | Some name =>
      if bool_decide (cstr (ie_ssid st) = cstr name) && (ap_snr w <? bss_snr b) then
        let w := set_name name (w <| ap_nvram_idx := i |> <| ap_channel := bss_channel b |> <| ap_caps := bss_capability b |>) in
        let w := wpa_wep_keys c w in
        let w := w <| ap_pmk := replicate 32 0 |> <| ap_snr := bss_snr b |> in
        let w := if nth 0 (ap_pass w) 0 =? 0
                 then w <| ap_security_type := AP_OPEN |> <| ap_group_crypt_type := CRYPT_NONE |>
                        <| ap_pair_crypt_type := CRYPT_NONE |> <| ap_auth_type := AUTH_NONE |>
                 else w <| ap_security_type := AP_WEP |> <| ap_group_crypt_type := CRYPT_WEP |>
                        <| ap_pair_crypt_type := CRYPT_WEP |> <| ap_auth_type := AUTH_NONE |> in
        Some (true, w <| ap_bssid := bss_bssid b |> <| ap_found := true |>)
      else Some (false, w)
  end.

Fixpoint try_configs (i : Z) (cs : list bytes) (b : bss) (w : wmi_static) (st : ie_info)
  : option (bool * wmi_static * ie_info) :=
  match cs with
  | [] => Some (false, w, st)
  | c :: cs =>
      match try_config i c b w st with
      | None => None
      | Some (true, w, st) => Some (true, w, st)
      | Some (false, w, st) => try_configs (i + 1) cs b w st
      end
  end.

Fixpoint try_wep_configs (i : Z) (cs : list bytes) (b : bss) (w : wmi_static) (st : ie_info)
  : option (bool * wmi_static) :=
  match cs with
  | [] => Some (false, w)
  | c :: cs =>
      match try_wep_config i c b w st with
      | None => None
      | Some (true, w) => Some (true, w)
      | Some (false, w) => try_wep_configs (i + 1) cs b w st
      end
  end.

(** ** The handler *)

Section Bss.
Context {C : Type} `{Card C} `{Fuel}.

(** The two loops over the stored configurations (lines 319-491). *)
Definition bss_choose (b : bss) (st : ie_info) : M (iop C) unit :=
  let* w := wget (fun w => w) in
  let* cs := gets nvram_configs in
  let* '(chosen, w, st) := ofopt OobRead (try_configs 0 (take 3 cs) b w st) in
  wset_ (fun _ => w) ;;;
  (if (chosen : bool) then wmi_set_bss_filter 0 0 else ret tt) ;;;
  if ap_found w then ret tt else
  let* ws := gets nvram_wep_configs in
  let* '(chosen, w) := ofopt OobRead (try_wep_configs 0 (take 3 ws) b w st) in
  wset_ (fun _ => w) ;;;
  (if (chosen : bool) then wmi_set_bss_filter 0 0 else ret tt).

Definition wmi_handle_bss_info (pkt_data : bytes) (len : Z) : M (iop C) unit :=
  if len <=? 0x1C then ret tt else
  if (length pkt_data <? 0x1C)%nat then fail OobRead else
  let b := bss_of pkt_data in
  (if bss_snr b <? 0x20 then ret tt else
   let data_left := s32 (len - 0x10 - 0xC) in
   let* st := ofout (parse_ies (S (length pkt_data)) (drop 0x1C pkt_data) data_left ie_none) in
   bss_choose b (if nz (Z.land (bss_capability b) 0x10) then st else st <| ie_sec := AP_OPEN |>)) ;;;
  wset_ (fun w => w <| scan_done := true |>).

End Bss.
