(* ===== verification/BssProofs.v ===== *)
(** Beacons: the element parser reads back what an encoder writes; what is true
    of an accepted and of a rejected network. *)

From S2P Require Import Prelude Cmonad Cutils Wpa Sdio Heap Card State Mbox MboxProofs Wmi WmiProofs Bss.

(** ** Information elements *)

Module BeaconSpec.

(** An RSN element: version, group suite, pairwise suites, key management
    suites, and what follows them (capabilities, PMKIDs). *)
Record rsn := { r_version : Z; r_group : Z; r_pair : list Z; r_auth : list Z; r_tail : bytes }.
Inductive ie :=
| Ssid (name : bytes)
| Rsn (r : rsn)
| Other (id : Z) (body : bytes).

Definition suites (l : list Z) : bytes := le_bytes 2 (Z.of_nat (length l)) ++ concat (map (be_bytes 4) l).
Definition rsn_body (r : rsn) : bytes :=
  le_bytes 2 (r_version r) ++ be_bytes 4 (r_group r) ++ suites (r_pair r) ++ suites (r_auth r) ++ r_tail r.
Definition body (i : ie) : bytes := match i with Ssid n => n | Rsn r => rsn_body r | Other _ b => b end.
Definition ident (i : ie) : Z := match i with Ssid _ => 0 | Rsn _ => 0x30 | Other id _ => id end.
Definition encode (i : ie) : bytes := ident i :: Z.of_nat (length (body i)) :: body i.

Definition suites_ok (l : list Z) : Prop := Forall (fun s => 0 <= s < 2 ^ 32) l.
(** A name is any sequence of bytes; an RSN element has both lists, of which
    the pairwise one has at most four suites (the parser stops after four and
    then takes the fifth for the count of the next list). *)
Definition ie_ok (i : ie) : Prop :=
  (length (body i) < 256)%nat /\
  match i with
  | Ssid n => True
  | Rsn r => 0 <= r_version r < 2 ^ 16 /\ 0 <= r_group r < 2 ^ 32 /\ (length (r_pair r) <= 4)%nat /\
      suites_ok (r_pair r) /\ suites_ok (r_auth r)
  | Other id _ => id <> 0 /\ id <> 0x30
  end.

(** AES when it is offered, else what the last suite is; [old] when the list
    is empty. *)
Definition pairwise (old : Z) (l : list Z) : Z :=
  if bool_decide (IEEE_CRYPT_AES_CCMP ∈ l) then CRYPT_AES
  else match last l with Some s => wmi_ieee_to_crypt s | None => old end.
(** PSK when it is offered, else the type byte of the last suite; [old] when
    the list is empty. *)
Definition keymgmt (old : Z) (l : list Z) : Z :=
  if bool_decide (IEEE_AUTH_PSK ∈ l) then AUTH_PSK
  else match last l with Some s => s mod 256 | None => old end.

(** A name is written over the start of the one before it, up to its first
    zero byte and with zeros in place of the rest.  Empty (hidden) names, names
    that start with a zero byte and names beyond 32 bytes are ignored. *)
Definition padded (n : bytes) : bytes := cstr n ++ replicate (length n - length (cstr n)) 0.
Definition apply (st : ie_info) (i : ie) : ie_info :=
  match i with
  | Ssid n => if (length n <=? 32)%nat && nz (nth 0 n 0) then st <| ie_ssid := blit 0 (padded n) (ie_ssid st) |> else st
  | Rsn r =>
      if r_version r =? 1 then
        let p := pairwise (ie_pair st) (r_pair r) in
        {| ie_ssid := ie_ssid st; ie_sec := if p =? CRYPT_TKIP then AP_WPA else AP_WPA2;
           ie_group := wmi_ieee_to_crypt (r_group r); ie_pair := p; ie_auth := keymgmt (ie_auth st) (take 4 (r_auth r)) |}
      else st <| ie_sec := AP_WPA2 |>
  | Other _ _ => st
  end.

(** The byte after the last element is read when that element is an empty name. *)
Definition followed (l : list ie) (rest : bytes) : Prop := rest <> [] \/ last l <> Some (Ssid []).

End BeaconSpec.
Import BeaconSpec.

Lemma getbe32_be s rest : 0 <= s < 2 ^ 32 -> getbe32 (be_bytes 4 s ++ rest) = Some s.
Proof.
  intros Hs. rewrite getbe32_app by (apply length_be_bytes || apply be_bytes_ok). rewrite be_val_bytes.
  f_equal. by apply Z.mod_small.
Qed.
Lemma getle16_le n rest : 0 <= n < 2 ^ 16 -> getle16 (le_bytes 2 n ++ rest) = Some n.
Proof.
  intros Hs. rewrite getle16_app by (apply length_le_bytes || apply le_bytes_ok). rewrite le_val_bytes.
  f_equal. by apply Z.mod_small.
Qed.

Lemma drop_be s rest : drop 4 (be_bytes 4 s ++ rest) = rest.
Proof. apply drop_app_length'. by rewrite length_be_bytes. Qed.

Lemma crypt_aes s : wmi_ieee_to_crypt s = CRYPT_AES <-> s = IEEE_CRYPT_AES_CCMP.
Proof.
  unfold wmi_ieee_to_crypt. destruct (s =? IEEE_CRYPT_TKIP) eqn:E1; bprop; [subst; done|].
  destruct (s =? IEEE_CRYPT_AES_CCMP) eqn:E2; bprop; [by subst|]. by split.
Qed.

Lemma rsn_pairwise_read l rest old : suites_ok l ->
  rsn_pairwise (length l) (concat (map (be_bytes 4) l) ++ rest) old = Some (pairwise old l).
Proof.
  intros Hs. revert old. induction Hs as [|s l Hs Hf IH]; intros old; [done|].
  cbn [length rsn_pairwise map concat]. rewrite <- app_assoc, getbe32_be, drop_be by done. unfold pairwise.
  destruct (wmi_ieee_to_crypt s =? CRYPT_AES) eqn:E.
  - apply Z.eqb_eq in E as E'. apply crypt_aes in E'. subst s. by rewrite bool_decide_true by set_solver.
  - apply Z.eqb_neq in E. rewrite crypt_aes in E. rewrite IH. unfold pairwise. f_equal.
    rewrite (bool_decide_ext (IEEE_CRYPT_AES_CCMP ∈ s :: l) (IEEE_CRYPT_AES_CCMP ∈ l)) by set_solver.
    rewrite last_cons. by destruct (last l).
Qed.

Lemma rsn_authkey_read k l rest old : suites_ok l ->
  rsn_authkey (Nat.min k (length l)) (concat (map (be_bytes 4) l) ++ rest) old = Some (keymgmt old (take k l)).
Proof.
  intros Hs. revert k old. induction Hs as [|s l Hs Hf IH]; intros k old; [rewrite take_nil; by destruct k|].
  destruct k as [|k]; [done|].
  cbn [length Nat.min rsn_authkey map concat take]. rewrite <- app_assoc, getbe32_be, drop_be by done.
  change 0xFF with (2 ^ 8 - 1). rewrite land_mask by lia. change (2 ^ 8) with 256. unfold keymgmt at 1.
  destruct (s =? IEEE_AUTH_PSK) eqn:E.
  - apply Z.eqb_eq in E. subst s. by rewrite bool_decide_true by set_solver.
  - apply Z.eqb_neq in E. rewrite IH. unfold keymgmt. f_equal.
    rewrite (bool_decide_ext (IEEE_AUTH_PSK ∈ s :: take k l) (IEEE_AUTH_PSK ∈ take k l)) by set_solver.
    rewrite last_cons. by destruct (last (take k l)).
Qed.

Lemma length_suites l : length (concat (map (be_bytes 4) l)) = (4 * length l)%nat.
Proof. induction l as [|s l IH]; [done|]. cbn [map concat length]. rewrite length_app, length_be_bytes, IH. lia. Qed.

Lemma clip4 (l : list Z) :
  Z.to_nat (if 4 <? Z.of_nat (length l) then 4 else Z.of_nat (length l)) = Nat.min 4 (length l).
Proof. destruct (4 <? _) eqn:E; bprop; lia. Qed.

Lemma parse_rsn_read r rest st : ie_ok (Rsn r) -> parse_rsn (rsn_body r ++ rest) st = Some (apply st (Rsn r)).
Proof.
  intros (Hlen & Hv & Hg & Hp & Fp & Fa). unfold parse_rsn, rsn_body. rewrite <- !app_assoc.
  rewrite getle16_le by done. cbn [apply]. destruct (r_version r =? 1); cbn [negb]; [|done]. cbv zeta.
  assert (length (r_auth r) < 256)%nat as La.
  { cbn [body] in Hlen. unfold rsn_body, suites in Hlen. rewrite !length_app, !length_suites in Hlen. lia. }
  set (v := le_bytes 2 (r_version r)). assert (length v = 2%nat) as Lv by apply length_le_bytes.
  rewrite (drop_app_length' v) by done. rewrite getbe32_be by done.
  replace (drop 6 (v ++ be_bytes 4 (r_group r) ++ suites (r_pair r) ++ suites (r_auth r) ++ r_tail r ++ rest))
    with (suites (r_pair r) ++ suites (r_auth r) ++ r_tail r ++ rest)
    by (rewrite (app_assoc v); by rewrite drop_app_length' by (rewrite length_app, length_be_bytes, Lv; done)).
  unfold suites at 1. rewrite <- !app_assoc, getle16_le by lia. rewrite clip4, Nat.min_r by lia.
  assert (drop 8 (v ++ be_bytes 4 (r_group r) ++ suites (r_pair r) ++ suites (r_auth r) ++ r_tail r ++ rest)
    = concat (map (be_bytes 4) (r_pair r)) ++ suites (r_auth r) ++ r_tail r ++ rest) as E8.
  { unfold suites at 1. rewrite <- !app_assoc. rewrite (app_assoc v), (app_assoc (_ ++ be_bytes 4 _)).
    by rewrite drop_app_length' by (rewrite !length_app, length_be_bytes, length_le_bytes, Lv; done). }
  rewrite E8. cbn [ie_pair set set_ie_group set_ie_sec].
  rewrite rsn_pairwise_read by done.
  rewrite <- drop_drop, E8. rewrite (drop_app_length' (concat _)) by (by rewrite length_suites).
  unfold suites at 1. rewrite <- !app_assoc, getle16_le by lia. rewrite clip4.
  rewrite <- (drop_drop _ 2 (8 + _)), <- (drop_drop _ _ 8), E8. rewrite (drop_app_length' (concat _)) by (by rewrite length_suites).
  unfold suites. rewrite <- !app_assoc. rewrite (drop_app_length' (le_bytes 2 _)) by done.
  rewrite rsn_authkey_read by done. by destruct (pairwise _ _ =? CRYPT_TKIP).
Qed.

(** ** Strings *)

Lemma cstr_nonzero n rest : Forall (fun c => c <> 0) n -> cstr (n ++ 0 :: rest) = n.
Proof.
  induction 1 as [|c n Hc Hf IH]; [done|]. cbn [app cstr]. rewrite (proj2 (Z.eqb_neq _ _)) by lia. by rewrite IH.
Qed.
Lemma cstr_stops l : Forall (fun c => c <> 0) (cstr l).
Proof.
  induction l as [|c l IH]; [done|]. cbn [cstr]. destruct (c =? 0) eqn:E; [constructor|]. bprop. by constructor.
Qed.

Lemma take_cstr n rest : take (length n) (cstr (n ++ rest)) = cstr n.
Proof.
  induction n as [|c n IH]; [done|]. cbn [app cstr length]. destruct (c =? 0); [done|]. cbn [take]. by rewrite IH.
Qed.
Lemma length_cstr l : (length (cstr l) <= length l)%nat.
Proof. induction l as [|c l IH]; cbn [cstr length]; [lia|]. destruct (c =? 0); cbn [length]; lia. Qed.

Lemma strncpy_name dst n rest : strncpy dst (n ++ rest) (length n) = Some (blit 0 (padded n) dst).
Proof.
  unfold strncpy. rewrite (proj2 (Nat.ltb_ge _ _)) by (rewrite length_app; lia). cbn [andb].
  pose proof (take_cstr n rest) as E. rewrite E. unfold padded. do 4 f_equal.
  apply (f_equal length) in E. rewrite length_take in E. pose proof (length_cstr n). lia.
Qed.

(** ** The parser *)

Lemma parse_ie_read i rest st : ie_ok i -> body i ++ rest <> [] \/ i <> Ssid [] ->
  parse_ie (ident i) (Z.of_nat (length (body i))) (body i ++ rest) st = Some (apply st i).
Proof.
  intros Hi Hr. unfold parse_ie. destruct i as [n|r|id b]; cbn [ident body apply].
  - rewrite Z.eqb_refl. cbn [andb]. destruct (Nat.leb_spec (length n) 32) as [Hl|Hl].
    2: { rewrite (proj2 (Z.leb_gt _ _)) by lia. done. }
    rewrite (proj2 (Z.leb_le _ _)) by lia. cbn [andb]. destruct n as [|c n].
    + cbn [app body] in *. destruct rest as [|x rest]; [by destruct Hr|]. cbn [nth nz Z.eqb negb length Z.of_nat].
      destruct (nz x); [|done]. unfold strncpy. cbn [Nat.ltb Nat.leb andb Z.to_nat take]. cbn [Nat.sub replicate app].
      f_equal. destruct st as [ss ? ? ? ?]. unfold blit. cbn. by rewrite drop_0.
    + cbn [app nth]. destruct (nz c); [|done]. rewrite Nat2Z.id.
      change (c :: n ++ rest) with ((c :: n) ++ rest). by rewrite strncpy_name.
  - change (0x30 =? 0) with false. cbn [andb]. change (0x30 =? 0x30) with true. cbv iota. by apply parse_rsn_read.
  - destruct Hi as (_ & H0 & H30). by rewrite (proj2 (Z.eqb_neq id 0)), (proj2 (Z.eqb_neq id 0x30)) by done.
Qed.

Lemma followed_cons i l rest : followed (i :: l) rest ->
  (body i ++ concat (map encode l) ++ rest <> [] \/ i <> Ssid []) /\ (l = [] \/ followed l rest).
Proof.
  unfold followed. rewrite last_cons. intros Hf. destruct l as [|i2 l].
  - cbn [map concat app last]. split; [|by left]. destruct Hf as [Hr|Hi]; [left|right].
    + intros E. by apply app_eq_nil in E as [_ E].
    + intros ->. by apply Hi.
  - split; [left|right].
    + intros E. apply app_eq_nil in E as [_ E]. done.
    + destruct Hf as [Hr|Hi]; [by left|right]. destruct (last (i2 :: l)) eqn:E; [done|]. by apply last_None in E.
Qed.

Lemma parse_ies_read l rest st fuel : Forall ie_ok l -> l = [] \/ followed l rest ->
  (length (concat (map encode l)) < fuel)%nat ->
  parse_ies fuel (concat (map encode l) ++ rest) (Z.of_nat (length (concat (map encode l)))) st =
    Ok (fold_left apply l st).
Proof.
  intros Hl. revert st fuel. induction Hl as [|i l Hi Hl IH]; intros st fuel Hr Hf; destruct fuel as [|fuel]; try (cbn in Hf; lia).
  - done.
  - destruct Hr as [Hr|Hr]; [done|]. apply followed_cons in Hr as [Hr1 Hr2].
    cbn [map concat] in *. rewrite length_app in *. cbn [encode app length] in *.
    cbn [parse_ies]. rewrite (proj2 (Z.ltb_lt _ _)) by lia. rewrite <- app_assoc. rewrite parse_ie_read by done.
    rewrite Nat2Z.id, drop_app_length. cbn [fold_left].
    replace (Z.of_nat _ - 2 - Z.of_nat _) with (Z.of_nat (length (concat (map encode l)))) by lia. apply IH; [done|lia].
Qed.

(** ** Stored names *)

(** A configuration is in use when none of the three tests skips it. *)
Definition cfg_used (c : bytes) : Prop :=
  nth 0 (cfg_ssid c) 0 <> 0 /\ cfg_wpa_mode c <> 0xFF /\ cfg_slot_idx c <> 0.
Definition cfg_ok (c : bytes) : Prop := length c = 0x200%nat.
Definition wep_cfg_ok (c : bytes) : Prop := length c = 0x100%nat.
(** The network name that a configuration stands for. *)
Definition cfg_network (c : bytes) : bytes :=
  take (Z.to_nat (Z.min 0x20 (cfg_ssid_len c))) (cstr (cfg_ssid c)).

Lemma cfg_used_test c :
  (nth 0 (cfg_ssid c) 0 =? 0) || (cfg_wpa_mode c =? 0xFF) || (cfg_slot_idx c =? 0) = false <-> cfg_used c.
Proof. unfold cfg_used. rewrite !orb_false_iff, !Z.eqb_neq. tauto. Qed.

Lemma length_cfg_ssid c : (0x100 <= length c)%nat -> length (cfg_ssid c) = 32%nat.
Proof. intros Hc. unfold cfg_ssid, cfg_field. rewrite length_take, length_drop. lia. Qed.

Lemma cfg_name_some c n : (0x100 <= length c)%nat -> (n <= 32)%nat ->
  exists name, cfg_name c n = Some name /\ cstr name = take n (cstr (cfg_ssid c)) /\ length name = 33%nat.
Proof.
  intros Hc Hn. pose proof (length_cfg_ssid c Hc) as L. pose proof (length_cstr (cfg_ssid c)) as Lc.
  unfold cfg_name, strncpy. rewrite L, (proj2 (Nat.ltb_ge _ _)) by lia. cbn [andb]. eexists; split; [done|].
  set (s := cstr (cfg_ssid c)) in *.
  assert (length (take n s ++ replicate (n - length s) 0%Z) <= 32)%nat as L2
    by (rewrite length_app, length_take, length_replicate; lia).
  split.
  - unfold blit. cbn [take app Nat.add]. rewrite drop_replicate, <- app_assoc, <- replicate_add.
    match goal with |- context [_ ++ replicate ?k 0] => destruct k eqn:E; [lia|] end.
    cbn [replicate]. rewrite take_0. apply cstr_nonzero. apply Forall_take, cstr_stops.
  - rewrite length_blit by (rewrite length_replicate; lia). by rewrite length_replicate.
Qed.

Lemma ssid_len_clip c :
  Z.to_nat (if 0x20 <? cfg_ssid_len c then 0x20 else cfg_ssid_len c) = Z.to_nat (Z.min 0x20 (cfg_ssid_len c)).
Proof. destruct (0x20 <? cfg_ssid_len c) eqn:E; bprop; f_equal; lia. Qed.

(** ** The choice *)

(** Configuration [c] stands for the network of the beacon, which is stronger
    than the one taken before. *)
Definition matches (c : bytes) (b : bss) (w : wmi_static) (st : ie_info) : Prop :=
  cfg_used c /\ cstr (ie_ssid st) = cfg_network c /\ ap_snr w < bss_snr b.
Definition matches_ds (c : bytes) (b : bss) (w : wmi_static) (st : ie_info) : Prop :=
  cfg_used c /\ cstr (ie_ssid st) = cstr (cfg_ssid c) /\ ap_snr w < bss_snr b.
#[export] Instance cfg_used_dec c : Decision (cfg_used c).
Proof. unfold cfg_used. apply _. Defined.
#[export] Instance matches_dec c b w st : Decision (matches c b w st).
Proof. unfold matches. apply _. Defined.
#[export] Instance matches_ds_dec c b w st : Decision (matches_ds c b w st).
Proof. unfold matches_ds. apply _. Defined.

(** The password of a configuration. *)
Definition cfg_key (c : bytes) : bytes := if nz (cfg_wep_mode c) then cfg_wep_key1 c else cfg_pass c.

(** The terms on which a network is joined. *)
Record terms := { t_sec : Z; t_group : Z; t_pair : Z; t_auth : Z }.

(** The terms for a network with the elements [st] under configuration [c],
    [None] when it is refused: AES with a pre-shared key makes WPA2; without a
    password the network is open; a WEP configuration makes WEP; a network
    without RSN element gets the terms stored in the configuration, which must
    be WPA2; WPA1 is refused. *)
Definition terms_of (c : bytes) (st : ie_info) : option terms :=
  let sec := if nz (cfg_wep_mode c) then AP_WEP else ie_sec st in
  if (ie_pair st =? CRYPT_AES) && (ie_auth st =? AUTH_PSK) then
    Some {| t_sec := AP_WPA2; t_group := ie_group st; t_pair := CRYPT_AES; t_auth := AUTH_PSK |}
  else if nth 0 (cfg_key c) 0 =? 0 then
    Some {| t_sec := AP_OPEN; t_group := ie_group st; t_pair := ie_pair st; t_auth := ie_auth st |}
  else if sec =? AP_WEP then
    Some {| t_sec := AP_WEP; t_group := CRYPT_WEP; t_pair := CRYPT_WEP; t_auth := AUTH_NONE |}
  else if (sec =? AP_OPEN) && (ie_auth st =? AUTH_NONE) then
    if cfg_wpa_type c =? WPATYPE_WPA2_TKIP then
      Some {| t_sec := AP_WPA2; t_group := CRYPT_TKIP; t_pair := CRYPT_AES; t_auth := AUTH_PSK |}
    else if cfg_wpa_type c =? WPATYPE_WPA2_AES then
      Some {| t_sec := AP_WPA2; t_group := CRYPT_AES; t_pair := CRYPT_AES; t_auth := AUTH_PSK |}
    else None
  else if sec =? AP_WPA then None
  else Some {| t_sec := sec; t_group := ie_group st; t_pair := ie_pair st; t_auth := ie_auth st |}.

(** A configuration that is considered becomes the stored identity, taken or
    not: number, name, password, PMK and, for WEP, its keys. *)
Definition named (i : Z) (c : bytes) (w : wmi_static) : wmi_static :=
  let w := w <| ap_nvram_idx := i + 3 |> <| ap_name := blit 0 (cfg_network c ++ [0]) (ap_name w) |>
             <| ap_pass := cfg_key c |> <| ap_pmk := cfg_pmk c |> in
  if nz (cfg_wep_mode c) then
    w <| ap_wepmode := cfg_wep_mode c |> <| ap_wep1 := cfg_wep_key1 c |> <| ap_wep2 := cfg_wep_key2 c |>
      <| ap_wep3 := cfg_wep_key3 c |> <| ap_wep4 := cfg_wep_key4 c |>
  else w.
(** The network of beacon [b] is taken on the terms [t]. *)
Definition joined (b : bss) (t : terms) (w : wmi_static) : wmi_static :=
  w <| ap_security_type := t_sec t |> <| ap_group_crypt_type := u8 (t_group t) |>
    <| ap_pair_crypt_type := u8 (t_pair t) |> <| ap_auth_type := t_auth t |> <| ap_snr := bss_snr b |>
    <| ap_channel := bss_channel b |> <| ap_caps := bss_capability b |> <| ap_bssid := bss_bssid b |>
    <| ap_found := true |>.
(** What a refusal leaves in the locals: a network without RSN element counts
    as WPA2 with a pre-shared key for the configurations that follow. *)
Definition refused_info (st : ie_info) : ie_info :=
  if (ie_sec st =? AP_OPEN) && (ie_auth st =? AUTH_NONE)
  then st <| ie_sec := AP_WPA2 |> <| ie_auth := AUTH_PSK |> else st.

(** The first of the matching configurations that is not refused. *)
Fixpoint first_network (i : Z) (cs : list bytes) (b : bss) (st : ie_info) (w : wmi_static) : bool * wmi_static :=
  match cs with
  | [] => (false, w)
  | c :: cs =>
      if decide (matches c b w st) then
        match terms_of c st with
        | Some t => (true, joined b t (named i c w))
        | None => first_network (i + 1) cs b (refused_info st) (named i c w)
        end
      else first_network (i + 1) cs b st w
  end.

(** The first matching configuration of the DS, open or WEP. *)
Definition joined_ds (i : Z) (c : bytes) (b : bss) (w : wmi_static) : wmi_static :=
  let open := nth 0 (cfg_wep_key1 c) 0 =? 0 in
  w <| ap_nvram_idx := i |> <| ap_name := blit 0 (cstr (cfg_ssid c) ++ [0]) (ap_name w) |>
    <| ap_pass := cfg_wep_key1 c |> <| ap_pmk := replicate 32 0 |> <| ap_wepmode := cfg_wep_mode c |>
    <| ap_wep1 := cfg_wep_key1 c |> <| ap_wep2 := cfg_wep_key2 c |> <| ap_wep3 := cfg_wep_key3 c |>
    <| ap_wep4 := cfg_wep_key4 c |>
    <| ap_security_type := if open then AP_OPEN else AP_WEP |>
    <| ap_group_crypt_type := if open then CRYPT_NONE else CRYPT_WEP |>
    <| ap_pair_crypt_type := if open then CRYPT_NONE else CRYPT_WEP |> <| ap_auth_type := AUTH_NONE |>
    <| ap_snr := bss_snr b |> <| ap_channel := bss_channel b |> <| ap_caps := bss_capability b |>
    <| ap_bssid := bss_bssid b |> <| ap_found := true |>.
Fixpoint first_network_ds (i : Z) (cs : list bytes) (b : bss) (st : ie_info) (w : wmi_static) : bool * wmi_static :=
  match cs with
  | [] => (false, w)
  | c :: cs => if decide (matches_ds c b w st) then (true, joined_ds i c b w) else first_network_ds (i + 1) cs b st w
  end.

(** A beacon below the threshold changes nothing; the configurations of the DS
    are tried while no network has been found. *)
Definition beacon_choice (cs ws : list bytes) (b : bss) (st : ie_info) (w : wmi_static) : bool * wmi_static :=
  if bss_snr b <? 0x20 then (false, w) else
  let '(taken, w1) := first_network 0 cs b st w in
  if ap_found w1 then (taken, w1) else first_network_ds 0 ws b st w1.

Lemma cstr_set_name name w : cstr (ap_name (set_name name w)) = cstr name.
Proof.
  unfold set_name. cbn [ap_name set set_ap_name]. unfold blit. cbn [take app]. rewrite <- app_assoc. cbn [app].
  apply cstr_nonzero, cstr_stops.
Qed.

Ltac eqb_cases :=
  repeat match goal with |- context [?x =? ?y] => destruct (Z.eqb_spec x y); try lia; subst; cbn in *; try done end.

(** The decision table of the first loop. *)
Lemma wpa_security_terms i c name w st : cstr name = cfg_network c ->
  let '(w1, st1) := if nz (cfg_wep_mode c) then (wpa_wep_keys c (wpa_candidate i c name w), st <| ie_sec := AP_WEP |>)
                    else (wpa_candidate i c name w, st) in
  w1 = named i c w /\
  match terms_of c st with
  | Some t => exists st2, wpa_security (cfg_wpa_type c) w1 st1 = (true, st2) /\
      {| t_sec := ie_sec st2; t_group := ie_group st2; t_pair := ie_pair st2; t_auth := ie_auth st2 |} = t
  | None => wpa_security (cfg_wpa_type c) w1 st1 = (false, refused_info st)
  end.
Proof.
  intros Hn. destruct (if nz (cfg_wep_mode c) then _ else _) as [w1 st1] eqn:Ew.
  assert (w1 = named i c w) as ->.
  { unfold named, wpa_wep_keys, wpa_candidate, set_name, cfg_key in *. rewrite Hn in Ew.
    destruct (nz (cfg_wep_mode c)); injection Ew as <- _; reflexivity. }
  split; [done|]. assert (ap_pass (named i c w) = cfg_key c) as Hp by (unfold named, cfg_key; by destruct (nz (cfg_wep_mode c))).
  unfold wpa_security, terms_of, refused_info, flash_crypto. rewrite Hp. cbv zeta. revert Ew.
  generalize (nth 0 (cfg_key c) 0 =? 0) as ko. intros ko Ew. destruct st as [ss sec g p a].
  unfold AP_OPEN, AP_WEP, AP_WPA, AP_WPA2, CRYPT_AES, CRYPT_TKIP, CRYPT_WEP, AUTH_NONE, AUTH_PSK,
    WPATYPE_WPA_TKIP, WPATYPE_WPA_AES, WPATYPE_WPA2_TKIP, WPATYPE_WPA2_AES in *.
  destruct (nz (cfg_wep_mode c)); injection Ew as _ <-; destruct ko; cbn; eqb_cases; cbn in *; eauto.
Qed.

(** One turn of each loop. *)
Lemma try_config_ref i c b w st : cfg_ok c -> exists st',
  try_config i c b w st = Some (if decide (matches c b w st) then
    match terms_of c st with Some t => (true, joined b t (named i c w), st') | None => (false, named i c w, refused_info st) end
  else (false, w, st)).
Proof.
  intros Hc. unfold try_config. destruct (_ || _ || _) eqn:U.
  { exists st. rewrite decide_False; [done|]. intros (Hu & _). apply cfg_used_test in Hu. congruence. }
  apply cfg_used_test in U. rewrite ssid_len_clip.
  destruct (cfg_name_some c (Z.to_nat (Z.min 32 (cfg_ssid_len c)))) as (name & -> & Hn & Ln); [by rewrite Hc; lia|lia|].
  fold (cfg_network c) in Hn. rewrite Hn.
  assert (bool_decide (cstr (ie_ssid st) = cfg_network c) && (ap_snr w <? bss_snr b) = bool_decide (matches c b w st)) as ->.
  { apply eq_bool_prop_intro. rewrite andb_True, !bool_decide_spec. unfold matches. rewrite Is_true_true, Z.ltb_lt. tauto. }
  rewrite <- decide_bool_decide. destruct (decide (matches c b w st)); [|by exists st].
  pose proof (wpa_security_terms i c name w st Hn) as T. cbv zeta.
  destruct (if nz (cfg_wep_mode c) then _ else _) as [w1 st1]. destruct T as [-> T].
  destruct (terms_of c st) as [t|]; [|exists st; by rewrite T].
  destruct T as (st2 & -> & <-). exists st2. reflexivity.
Qed.

Lemma refused_ssid st : ie_ssid (refused_info st) = ie_ssid st.
Proof. unfold refused_info. by destruct (_ && _). Qed.

(** The first loop; the name in the locals is that of the beacon as long as no
    network is taken. *)
Lemma try_configs_ref i cs b w st : Forall cfg_ok cs -> exists st',
  try_configs i cs b w st = Some (first_network i cs b st w, st') /\
  ((first_network i cs b st w).1 = true \/ ie_ssid st' = ie_ssid st).
Proof.
  intros Hcs. revert i w st. induction Hcs as [|c cs Hc Hcs IH]; intros i w st; [exists st; split; [done|by right]|].
  cbn [try_configs first_network]. destruct (try_config_ref i c b w st Hc) as [st' ->].
  destruct (decide (matches c b w st)); [|apply IH]. destruct (terms_of c st) as [t|].
  - exists st'. split; [done|by left].
  - destruct (IH (i + 1) (named i c w) (refused_info st)) as (st2 & E & R). rewrite refused_ssid in R. by exists st2.
Qed.

Lemma first_network_found i cs b st w : (first_network i cs b st w).1 = true -> ap_found (first_network i cs b st w).2 = true.
Proof.
  revert i st w. induction cs as [|c cs IH]; intros i st w; cbn [first_network]; [done|].
  destruct (decide _); [destruct (terms_of c st)|]; auto.
Qed.

Lemma try_wep_config_ref i c b w st : wep_cfg_ok c ->
  try_wep_config i c b w st = Some (if decide (matches_ds c b w st) then (true, joined_ds i c b w) else (false, w)).
Proof.
  intros Hc. unfold try_wep_config. destruct (_ || _ || _) eqn:U.
  { rewrite decide_False; [done|]. intros (Hu & _). apply cfg_used_test in Hu. congruence. }
  apply cfg_used_test in U. destruct (cfg_name_some c 0x20) as (name & -> & Hn & Ln); [by rewrite Hc|lia|].
  pose proof (length_cstr (cfg_ssid c)) as Lc. rewrite length_cfg_ssid in Lc by (rewrite Hc; lia).
  rewrite take_ge in Hn by lia. rewrite Hn.
  assert (bool_decide (cstr (ie_ssid st) = cstr (cfg_ssid c)) && (ap_snr w <? bss_snr b) = bool_decide (matches_ds c b w st)) as ->.
  { apply eq_bool_prop_intro. rewrite andb_True, !bool_decide_spec. unfold matches_ds. rewrite Is_true_true, Z.ltb_lt. tauto. }
  rewrite <- decide_bool_decide. destruct (decide (matches_ds c b w st)); [|done].
  unfold joined_ds, set_name, wpa_wep_keys. rewrite Hn. cbv zeta. cbn [ap_pass set set_ap_pass set_ap_pmk set_ap_snr].
  by destruct (nth 0 (cfg_wep_key1 c) 0 =? 0).
Qed.

Lemma first_ds_ssid i cs b w st st' : ie_ssid st' = ie_ssid st -> first_network_ds i cs b st' w = first_network_ds i cs b st w.
Proof.
  intros E. revert i. induction cs as [|c cs IH]; intros i; [done|]. cbn [first_network_ds].
  rewrite (decide_ext (matches_ds c b w st') (matches_ds c b w st)) by (unfold matches_ds; by rewrite E). by rewrite IH.
Qed.

Lemma try_wep_configs_ref i cs b w st : Forall wep_cfg_ok cs ->
  try_wep_configs i cs b w st = Some (first_network_ds i cs b st w).
Proof.
  intros Hcs. revert i. induction Hcs as [|c cs Hc Hcs IH]; intros i; [done|].
  cbn [try_wep_configs first_network_ds]. rewrite try_wep_config_ref by done. by destruct (decide _).
Qed.

(** *** Well-formedness *)

Lemma length_cfg_field off n c : (off + n <= length c)%nat -> length (cfg_field off n c) = n.
Proof. intros. unfold cfg_field. rewrite length_take, length_drop. lia. Qed.

Lemma set_name_wf name w : length name = 33%nat -> (length (cstr name) <= 32)%nat -> wmi_wf w -> wmi_wf (set_name name w).
Proof.
  intros Ln Lc W. pose proof (wf_name _ W) as Hn. pose proof (cstr_set_name name w) as Hc. destruct W.
  split; try assumption; cbn [ap_name set_name set set_ap_name] in *.
  - rewrite length_blit; rewrite ?length_app, Hn; cbn [length]; lia.
  - by rewrite Hc.
Qed.

Lemma wep_keys_wf c w : (0x100 <= length c)%nat -> wmi_wf w -> wmi_wf (wpa_wep_keys c w).
Proof. intros Lc []. split; try assumption. repeat split; apply length_cfg_field; lia. Qed.

Lemma cfg_name_wf c n name w : (0x100 <= length c)%nat -> (n <= 32)%nat -> cfg_name c n = Some name -> wmi_wf w ->
  wmi_wf (set_name name w).
Proof.
  intros Lc Hn E W. destruct (cfg_name_some c n Lc Hn) as (nm & E2 & Hc & Ln). rewrite E in E2.
  apply (inj Some) in E2. subst nm. apply set_name_wf; [done| |done]. rewrite Hc, length_take. lia.
Qed.

Lemma try_config_wf i c b w st ch w' st' : cfg_ok c -> length (bss_bssid b) = 6%nat -> wmi_wf w ->
  try_config i c b w st = Some (ch, w', st') -> wmi_wf w'.
Proof.
  intros Hc Hb W. assert (0x100 <= length c)%nat as Lc by (rewrite Hc; lia).
  unfold try_config. destruct (_ || _ || _); [by intros [= <- <- <-]|].
  rewrite ssid_len_clip. destruct (cfg_name _ _) as [name|] eqn:En; [|done].
  destruct (bool_decide _ && _); [|by intros [= <- <- <-]].
  assert (wmi_wf (wpa_candidate i c name w)) as W1.
  { assert (wmi_wf (w <| ap_nvram_idx := i + 3 |>)) as W0 by (by destruct W; split).
    eapply cfg_name_wf in W0; [|exact Lc| |exact En]; [|lia]. by destruct W0; split. }
  destruct (if nz (cfg_wep_mode c) then _ else _) as [w1 st1] eqn:Ew.
  assert (wmi_wf w1) as W2 by (destruct (nz (cfg_wep_mode c)); injection Ew as <- <-; [by apply wep_keys_wf|done]).
  destruct (wpa_security _ w1 st1) as [ok st2]. destruct ok; intros [= <- <- <-]; [|done].
  destruct W2; split; assumption.
Qed.

Lemma try_configs_wf i cs b w st ch w' st' : Forall cfg_ok cs -> length (bss_bssid b) = 6%nat -> wmi_wf w ->
  try_configs i cs b w st = Some (ch, w', st') -> wmi_wf w'.
Proof.
  intros Hcs Hb. revert i w st. induction Hcs as [|c cs Hc Hcs IH]; intros i w st W; cbn [try_configs].
  - by intros [= <- <- <-].
  - destruct (try_config i c b w st) as [[[[] w1] st1]|] eqn:E; [| |done]; pose proof (try_config_wf _ _ _ _ _ _ _ _ Hc Hb W E).
    + by intros [= <- <- <-].
    + by apply IH.
Qed.

Lemma try_wep_config_wf i c b w st ch w' : wep_cfg_ok c -> length (bss_bssid b) = 6%nat -> wmi_wf w ->
  try_wep_config i c b w st = Some (ch, w') -> wmi_wf w'.
Proof.
  intros Hc Hb W. assert (0x100 <= length c)%nat as Lc by (rewrite Hc; lia).
  unfold try_wep_config. destruct (_ || _ || _); [by intros [= <- <-]|].
  destruct (cfg_name _ _) as [name|] eqn:En; [|done]. destruct (bool_decide _ && _); [|by intros [= <- <-]].
  match goal with |- context [set_name name ?w0] => set (w1 := set_name name w0); assert (wmi_wf w1) as W1 end.
  { apply (cfg_name_wf c 0x20); [done|lia|done|]. by destruct W; split. }
  pose proof (wep_keys_wf c w1 Lc W1) as W2. revert W2. generalize (wpa_wep_keys c w1) as w2. intros w2 W2 E.
  apply (inj Some), (f_equal snd) in E. cbn [snd] in E. rewrite <- E.
  destruct (nth 0 _ 0 =? 0); destruct W2; split; assumption.
Qed.

Lemma try_wep_configs_wf i cs b w st ch w' : Forall wep_cfg_ok cs -> length (bss_bssid b) = 6%nat -> wmi_wf w ->
  try_wep_configs i cs b w st = Some (ch, w') -> wmi_wf w'.
Proof.
  intros Hcs Hb. revert i w. induction Hcs as [|c cs Hc Hcs IH]; intros i w W; cbn [try_wep_configs].
  - by intros [= <- <-].
  - destruct (try_wep_config i c b w st) as [[[] w1]|] eqn:E; [| |done]; pose proof (try_wep_config_wf _ _ _ _ _ _ _ Hc Hb W E).
    + by intros [= <- <-].
    + by apply IH.
Qed.

(** ** The handler *)

Definition event_pkt (hdr : bytes) (ies : list ie) : bytes := hdr ++ concat (map encode ies).
(** The fields of the elements as the handler uses them: without the privacy
    bit the network counts as open. *)
Definition event_info (hdr : bytes) (ies : list ie) : ie_info :=
  let st := fold_left apply ies ie_none in
  if nz (Z.land (bss_capability (bss_of hdr)) 0x10) then st else st <| ie_sec := AP_OPEN |>.
Definition filter_off : mpkt := wmi_pkt 0 WMI_SET_BSS_FILTER_CMD (bss_filter_params 0 0).

(** The choice that a beacon event makes, in the state [s]. *)
Definition event_choice {C} (s : iop C) (hdr : bytes) (ies : list ie) : bool * wmi_static :=
  beacon_choice (take 3 (nvram_configs s)) (take 3 (nvram_wep_configs s)) (bss_of hdr) (event_info hdr ies) (wmi s).

Section Handler.
Context {C : Type} `{MboxCard C} `{Fuel}.

Lemma event_read hdr ies : length hdr = 0x1C%nat -> Forall ie_ok ies -> last ies <> Some (Ssid []) ->
  Z.of_nat (length (event_pkt hdr ies)) < 2 ^ 31 ->
  bss_of (event_pkt hdr ies) = bss_of hdr /\
  parse_ies (S (length (event_pkt hdr ies))) (drop 0x1C (event_pkt hdr ies))
    (s32 (Z.of_nat (length (event_pkt hdr ies)) - 0x10 - 0xC)) ie_none = Ok (fold_left apply ies ie_none).
Proof.
  intros Lh Hi Hf Hl. unfold event_pkt in *. split.
  - unfold bss_of. rewrite !drop_app_le, !take_app_le, app_nth1 by (rewrite ?length_drop; lia). done.
  - rewrite drop_app_length' by done. rewrite length_app in *. rewrite Lh in *.
    replace (s32 _) with (Z.of_nat (length (concat (map encode ies)))) by (unfold s32; zdm).
    pose proof (parse_ies_read ies [] ie_none (S (28 + length (concat (map encode ies))))) as E.
    rewrite app_nil_r in E. apply E; [done|by right; right|lia].
Qed.

(** The choice of the two loops, with the command that ends each of them. *)
Lemma choose_runs (ch : bool) (s : iop C) : iop_ok s -> wmi_idk (wmi s) = 0 ->
  runs_tt (if ch then wmi_set_bss_filter 0 0 else ret tt) s (apushes (if ch then [filter_off] else [])).
Proof.
  intros Hs Hi. destruct ch; [by apply send_cmd_runs|].
  eapply runs_ext; [by apply runs_tt_ret|]. by rewrite apushes_nil.
Qed.

Lemma bss_choose_runs b st (s : iop C) (ch c2 : bool) w1 st1 w2 : iop_ok s -> wmi_wf w1 -> wmi_wf w2 ->
  try_configs 0 (take 3 (nvram_configs s)) b (wmi s) st = Some (ch, w1, st1) ->
  (c2 = false /\ w2 = w1 /\ ap_found w1 = true \/ ap_found w1 = false /\
   try_wep_configs 0 (take 3 (nvram_wep_configs s)) b w1 st1 = Some (c2, w2)) ->
  runs_tt (bss_choose b st) s
    (fun a => apushes ((if ch then [filter_off] else []) ++ (if c2 then [filter_off] else [])) (awmi (fun _ => w2) a)).
Proof.
  intros Hs W1 W2 E1 Hw2. unfold bss_choose. apply runs_tt_get, runs_gets.
  eapply runs_tt_opt; [exact E1|]. cbv beta iota. eapply runs_ext.
  - eapply runs_tt_seq; [by apply runs_wset|]. intros s1 O1 A1.
    assert (wmi s1 = w1) as Ew1 by (by apply (f_equal wmi) in A1).
    assert (nvram_wep_configs s1 = nvram_wep_configs s) as Ec1 by (by apply (f_equal nvram_wep_configs) in A1).
    eapply runs_tt_seq; [apply choose_runs; [done|rewrite Ew1; apply W1]|]. intros s2 O2 A2.
    assert (nvram_wep_configs s2 = nvram_wep_configs s1) as Ec2 by (by apply (f_equal nvram_wep_configs) in A2).
    apply (f_equal wmi) in A2. change (wmi s2 = wmi s1) in A2.
    instantiate (1 := fun a => apushes (if c2 then [filter_off] else []) (awmi (fun _ => w2) a)).
    destruct Hw2 as [(-> & -> & ->)|(-> & E2)].
    + eapply runs_ext; [by apply runs_tt_ret|]. rewrite apushes_nil. symmetry. apply awmi_id. change (w1 = wmi s2). congruence.
    + apply runs_gets. rewrite Ec2, Ec1. eapply runs_tt_opt; [exact E2|]. cbv beta iota.
      eapply runs_tt_seq; [by apply runs_wset|]. intros s3 O3 A3. apply choose_runs; [done|].
      apply (f_equal wmi) in A3. change (wmi s3 = w2) in A3. rewrite A3. apply W2.
  - cbv beta. by rewrite awmi_apushes, apushes_app.
Qed.

Lemma bss_choose_ref hdr ies (s : iop C) : iop_ok s -> wmi_wf (wmi s) ->
  Forall cfg_ok (nvram_configs s) -> Forall wep_cfg_ok (nvram_wep_configs s) ->
  length hdr = 0x1C%nat -> 0x20 <= bss_snr (bss_of hdr) ->
  let '(taken, w') := event_choice s hdr ies in
  wmi_wf w' /\ runs_tt (bss_choose (bss_of hdr) (event_info hdr ies)) s
    (fun a => apushes (if taken then [filter_off] else []) (awmi (fun _ => w') a)).
Proof.
  intros Hs W Hcs Hws Lh Hsnr. unfold event_choice, beacon_choice. rewrite (proj2 (Z.ltb_ge _ _)) by done.
  set (b := bss_of hdr) in *. set (st := event_info hdr ies).
  assert (length (bss_bssid b) = 6%nat) as Hb by (subst b; unfold bss_of; cbn [bss_bssid]; rewrite length_take, length_drop; lia).
  pose proof (Forall_take _ 3 _ Hcs) as Hcs3. pose proof (Forall_take _ 3 _ Hws) as Hws3.
  destruct (try_configs_ref 0 (take 3 (nvram_configs s)) b (wmi s) st Hcs3) as (st1 & E1 & S1).
  pose proof (first_network_found 0 (take 3 (nvram_configs s)) b st (wmi s)) as Hf.
  destruct (first_network 0 (take 3 (nvram_configs s)) b st (wmi s)) as [ch w1]. cbn [fst snd] in *.
  pose proof (try_configs_wf _ _ _ _ _ _ _ _ Hcs3 Hb W E1) as W1.
  destruct (ap_found w1) eqn:Ef.
  - split; [done|]. eapply runs_ext; [apply (bss_choose_runs b st s ch false w1 st1 w1); [done..|by left]|].
    by rewrite app_nil_r.
  - destruct ch; [by specialize (Hf eq_refl)|]. destruct S1 as [|S1]; [done|].
    pose proof (try_wep_configs_ref 0 (take 3 (nvram_wep_configs s)) b w1 st1 Hws3) as E2.
    rewrite (first_ds_ssid _ _ _ _ _ _ S1) in E2.
    destruct (first_network_ds 0 (take 3 (nvram_wep_configs s)) b st w1) as [c2 w2].
    pose proof (try_wep_configs_wf _ _ _ _ _ _ _ Hws3 Hb W1 E2) as W2. split; [done|].
    apply (bss_choose_runs b st s false c2 w1 st1 w2); [done..|by right].
Qed.

Lemma bss_info_runs hdr ies (s : iop C) : iop_ok s -> wmi_wf (wmi s) ->
  Forall cfg_ok (nvram_configs s) -> Forall wep_cfg_ok (nvram_wep_configs s) ->
  length hdr = 0x1C%nat -> ies <> [] -> Forall ie_ok ies -> last ies <> Some (Ssid []) ->
  Z.of_nat (length (event_pkt hdr ies)) < 2 ^ 31 ->
  let '(taken, w') := event_choice s hdr ies in
  wmi_wf w' /\ runs_tt (wmi_handle_bss_info (event_pkt hdr ies) (Z.of_nat (length (event_pkt hdr ies)))) s
      (fun a => apushes (if taken then [filter_off] else []) (awmi (fun _ => w' <| scan_done := true |>) a)).
Proof.
  intros Hs W Hcs Hws Lh Hne Hi Hf Hl. destruct (event_read hdr ies Lh Hi Hf Hl) as [Eb Ep].
  assert (length hdr < length (event_pkt hdr ies))%nat as Hlen.
  { unfold event_pkt. rewrite length_app. destruct ies; [done|]. cbn. lia. }
  unfold wmi_handle_bss_info. rewrite (proj2 (Z.leb_gt _ _)), (proj2 (Nat.ltb_ge _ _)) by lia. cbv zeta.
  rewrite Eb, Ep. destruct (Z.ltb_spec (bss_snr (bss_of hdr)) 0x20) as [Hsnr|Hsnr].
  - unfold event_choice, beacon_choice. rewrite (proj2 (Z.ltb_lt _ _)) by done. split; [done|].
    eapply runs_ext; [eapply runs_tt_seq; [by apply runs_tt_ret|]; intros s1 O1 A1; by apply runs_wset|].
    cbv beta. by rewrite apushes_nil.
  - pose proof (bss_choose_ref hdr ies s Hs W Hcs Hws Lh Hsnr) as R. destruct (event_choice s hdr ies) as [taken w'].
    destruct R as [W' R]. split; [done|]. eapply runs_ext.
    + eapply runs_tt_seq; [eapply runs_tt_out; [done|exact R]|]. intros s1 O1 A1. by apply runs_wset.
    + cbv beta. by rewrite awmi_apushes, awmi_awmi.
Qed.

End Handler.

(** ** Theorems *)

(** A beacon of the network "home" on 2412 MHz: WPA2, AES, pre-shared key. *)
Definition beacon_hdr : bytes :=
  [0x6C; 0x09; 1; 0x30; 0; 0] ++ [2; 1; 1; 1; 1; 1] ++ replicate 14 0 ++ [0x11; 0].
Definition home : bytes := [104; 111; 109; 101].
Definition home_rsn (suite : Z) : ie := Rsn {| r_version := 1; r_group := suite; r_pair := [suite]; r_auth := [IEEE_AUTH_PSK]; r_tail := [0; 0] |}.
Definition beacon_ies : list ie := [Ssid home; Other 1 [0x82; 0x84]; home_rsn IEEE_CRYPT_AES_CCMP].
(** A configuration for it. *)
Definition home_cfg : bytes :=
  blit 0x120 [112; 97; 115; 115] (blit 0x100 (replicate 32 7) (blit 0xEF [1] (blit 0xE8 [4] (blit 0x40 home (replicate 0x200 0))))).
Definition demo_home : iop mlog := (demo <| nvram_configs := [home_cfg] |>) <| nvram_wep_configs := [] |>.

Lemma demo_home_ok : iop_ok demo_home.
Proof. exact demo_ok. Qed.
Lemma beacon_ies_ok : Forall ie_ok beacon_ies.
Proof.
  unfold beacon_ies, home_rsn. apply Forall_cons. split; [|apply Forall_cons; split; [|apply Forall_singleton]];
    (split; [vm_compute; lia|]).
  - done.
  - lia.
  - do 2 (split; [vm_compute; split; done|]). split; [vm_compute; lia|].
    split; apply Forall_singleton; vm_compute; split; done.
Qed.
Definition tkip_ies : list ie := [Ssid home; home_rsn IEEE_CRYPT_TKIP].
Lemma tkip_ies_ok : Forall ie_ok tkip_ies.
Proof.
  unfold tkip_ies, home_rsn. apply Forall_cons. split; [|apply Forall_singleton]; (split; [vm_compute; lia|]).
  - done.
  - do 2 (split; [vm_compute; split; done|]). split; [vm_compute; lia|].
    split; apply Forall_singleton; vm_compute; split; done.
Qed.

(** C31: the element parser reads back a beacon.  The elements are any sequence
    of names (any bytes, up to 255 of them), RSN elements of any version with
    both suite lists, of which the pairwise one has at most four suites, and
    other elements with any body; anything may follow them (something must,
    when the last one is an empty name, since the parser looks at its first
    byte).  The parser applies them in order: a name of 1 to 32 bytes is written
    over the start of the name stored before, other names are ignored; an RSN
    element of version 1 sets the group cipher, the preferred pairwise cipher
    (AES when offered) and the preferred key management (PSK when among the
    first four) and makes the network WPA2, or WPA when TKIP is preferred; one
    of another version makes it WPA2 and is not read further; all other elements
    are skipped.  It neither runs out of turns nor reads out of bounds.  With
    more than four pairwise suites it would take the fifth for a count. *)
Theorem beacon_elements_roundtrip l rest st :
  Forall ie_ok l -> followed l rest ->
  parse_ies (S (length (concat (map encode l)))) (concat (map encode l) ++ rest)
    (Z.of_nat (length (concat (map encode l)))) st = Ok (fold_left apply l st).
Proof. intros Hl Hr. apply parse_ies_read; [done|by right|lia]. Qed.

(** Two names: the shorter second one leaves the tail of the first. *)
Definition two_names : list ie := [Ssid home; Ssid [104; 105]; Ssid []; home_rsn IEEE_CRYPT_AES_CCMP].
Lemma two_names_ok : Forall ie_ok two_names.
Proof.
  pose proof beacon_ies_ok as H. unfold beacon_ies in H. apply Forall_cons in H as [H1 H]. apply Forall_cons in H as [_ H].
  apply Forall_cons in H as [H2 _]. repeat (apply Forall_cons_2; [first [exact H1|exact H2|split; [vm_compute; lia|done]]|]). constructor.
Qed.

Lemma beacon_elements_roundtrip_witness :
  parse_ies (S (length (concat (map encode beacon_ies)))) (concat (map encode beacon_ies) ++ [])
    (Z.of_nat (length (concat (map encode beacon_ies)))) ie_none =
    Ok {| ie_ssid := home ++ replicate 29 0; ie_sec := AP_WPA2; ie_group := CRYPT_AES; ie_pair := CRYPT_AES; ie_auth := AUTH_PSK |} /\
  parse_ies (S (length (concat (map encode two_names)))) (concat (map encode two_names) ++ [7])
    (Z.of_nat (length (concat (map encode two_names)))) ie_none =
    Ok {| ie_ssid := [104; 105; 109; 101] ++ replicate 29 0; ie_sec := AP_WPA2; ie_group := CRYPT_AES; ie_pair := CRYPT_AES; ie_auth := AUTH_PSK |}.
Proof.
  split.
  - rewrite (beacon_elements_roundtrip beacon_ies [] ie_none beacon_ies_ok) by (by right). vm_compute. reflexivity.
  - rewrite (beacon_elements_roundtrip two_names [7] ie_none two_names_ok) by (by left). vm_compute. reflexivity.
Defined.

(** C5: the handler of beacons makes the choice that [beacon_choice] states, and
    nothing else: a beacon below the signal threshold leaves the variables as
    they are; else the first of the three stored configurations that is in use,
    has the name of the beacon and is not refused gives the network, if it is
    stronger than the network taken before, on the terms of [terms_of] (WPA2 for
    AES with a pre-shared key, open without a password, WEP, the stored terms
    without an RSN element; WPA1 refused), with the BSSID, channel, signal and
    capabilities of this beacon; when none is taken and no network was found
    before, the first matching configuration of the DS does.  A configuration
    that matches and is then refused still replaces number, name, password, PMK
    (and WEP keys), which [named] states.  One SET_BSS_FILTER command is sent
    when a network is taken and none otherwise; the scan is marked as done. *)
Theorem beacon_handler_outcome {C} `{MboxCard C} `{Fuel} hdr ies (s : iop C) :
  iop_ok s -> wmi_wf (wmi s) ->
  Forall cfg_ok (nvram_configs s) -> Forall wep_cfg_ok (nvram_wep_configs s) ->
  length hdr = 0x1C%nat -> ies <> [] -> Forall ie_ok ies -> last ies <> Some (Ssid []) ->
  Z.of_nat (length (event_pkt hdr ies)) < 2 ^ 31 ->
  let '(taken, w') := beacon_choice (take 3 (nvram_configs s)) (take 3 (nvram_wep_configs s))
                        (bss_of hdr) (event_info hdr ies) (wmi s) in
  exists s', wmi_handle_bss_info (event_pkt hdr ies) (Z.of_nat (length (event_pkt hdr ies))) s = Ok (tt, s') /\
    iop_ok s' /\ wmi_wf w' /\
    abs s' = apushes (if taken then [filter_off] else []) (awmi (fun _ => w' <| scan_done := true |>) (abs s)).
Proof.
  intros Hs W Hc Hw Lh Hne Hi Hf Hl.
  pose proof (bss_info_runs hdr ies s Hs W Hc Hw Lh Hne Hi Hf Hl) as R. unfold event_choice in R.
  destruct (beacon_choice _ _ _ _ _) as [taken w']. destruct R as (W' & s' & E & Hs' & A). by exists s'.
Qed.

(** The network "home" is taken as WPA2, with its password and PMK; a beacon
    of the same name that offers TKIP only is refused, but leaves them. *)
Lemma beacon_handler_outcome_witness : let _ : Fuel := 1%nat in
  (exists s', wmi_handle_bss_info (event_pkt beacon_hdr beacon_ies) (Z.of_nat (length (event_pkt beacon_hdr beacon_ies))) demo_home = Ok (tt, s') /\
     ap_security_type (wmi s') = AP_WPA2 /\ ap_found (wmi s') = true /\ ap_channel (wmi s') = 2412 /\
     cstr (ap_pass (wmi s')) = [112; 97; 115; 115] /\ map decode (blocks (card s')) = [Some filter_off]) /\
  (exists s', wmi_handle_bss_info (event_pkt beacon_hdr tkip_ies) (Z.of_nat (length (event_pkt beacon_hdr tkip_ies))) demo_home = Ok (tt, s') /\
     ap_found (wmi s') = false /\ ap_pmk (wmi s') = replicate 32 7 /\ map decode (blocks (card s')) = []).
Proof.
  split.
  - pose proof (@beacon_handler_outcome mlog _ _ 1%nat beacon_hdr beacon_ies demo_home demo_home_ok demo_wf
      ltac:(by repeat constructor) ltac:(constructor) eq_refl ltac:(discriminate) beacon_ies_ok ltac:(discriminate) eq_refl) as R.
    set (ch := beacon_choice _ _ _ _ _) in R.
    assert (ap_security_type ch.2 = AP_WPA2 /\ ap_found ch.2 = true /\ ap_channel ch.2 = 2412 /\
      cstr (ap_pass ch.2) = [112; 97; 115; 115] /\ ch.1 = true) as F by (repeat split; vm_compute; reflexivity).
    clearbody ch. destruct ch as [taken w']. cbn [fst snd] in F. destruct F as (F1 & F2 & F3 & F4 & ->).
    destruct R as (s' & E & _ & _ & A). exists s'. split; [exact E|].
    pose proof (f_equal wmi A) as Aw. change (wmi s' = w' <| scan_done := true |>) in Aw. rewrite Aw.
    repeat (split; [assumption|]). exact (f_equal card A).
  - pose proof (@beacon_handler_outcome mlog _ _ 1%nat beacon_hdr tkip_ies demo_home demo_home_ok demo_wf
      ltac:(by repeat constructor) ltac:(constructor) eq_refl ltac:(discriminate) tkip_ies_ok ltac:(discriminate) eq_refl) as R.
    set (ch := beacon_choice _ _ _ _ _) in R.
    assert (ap_found ch.2 = false /\ ap_pmk ch.2 = replicate 32 7 /\ ch.1 = false) as F by (repeat split; vm_compute; reflexivity).
    clearbody ch. destruct ch as [taken w']. cbn [fst snd] in F. destruct F as (F1 & F2 & ->).
    destruct R as (s' & E & _ & _ & A). exists s'. split; [exact E|].
    pose proof (f_equal wmi A) as Aw. change (wmi s' = w' <| scan_done := true |>) in Aw. rewrite Aw.
    repeat (split; [assumption|]). exact (f_equal card A).
Defined.

(** A network that is refused still overwrites the stored identity: when a
    configuration names a WPA1 network (TKIP only), the loop goes on without
    recording it, but [ap_nvram_idx], [ap_name], [ap_pass] and [ap_pmk] are
    already those of the refused network, while the BSSID, the channel and the
    security type stay those of a network accepted before. *)
Theorem refused_network_overwrites_identity i c b w st :
  cfg_ok c -> matches c b w st -> cfg_wep_mode c = 0 -> nth 0 (cfg_pass c) 0 <> 0 ->
  ie_sec st = AP_WPA -> ie_pair st = CRYPT_TKIP ->
  try_config i c b w st = Some (false, w <| ap_nvram_idx := i + 3 |> <| ap_name := blit 0 (cfg_network c ++ [0]) (ap_name w) |>
    <| ap_pass := cfg_pass c |> <| ap_pmk := cfg_pmk c |>, st).
Proof.
  intros Hc Hm Hw Hp Hsec Hpair. destruct (try_config_ref i c b w st Hc) as [st' ->]. rewrite decide_True by done.
  unfold terms_of, named, cfg_key, refused_info. rewrite Hw, Hsec, Hpair. cbn [nz Z.eqb negb]. by rewrite (proj2 (Z.eqb_neq (nth 0 (cfg_pass c) 0) 0)) by done.
Qed.

Lemma refused_network_overwrites_identity_witness :
  let st := fold_left apply [Ssid home; home_rsn IEEE_CRYPT_TKIP] ie_none in
  let w := demo_wmi <| ap_found := true |> <| ap_bssid := replicate 6 9 |> in
  exists w' st', try_config 0 home_cfg (bss_of beacon_hdr) w st = Some (false, w', st') /\
    ap_bssid w' = replicate 6 9 /\ ap_found w' = true /\ ap_pmk w' = replicate 32 7.
Proof.
  intros st w. eexists _, _. split; [apply (refused_network_overwrites_identity 0 home_cfg (bss_of beacon_hdr) w st)|].
  - reflexivity.
  - split; [|split; vm_compute; reflexivity]. repeat split; vm_compute; discriminate.
  - reflexivity.
  - vm_compute. discriminate.
  - reflexivity.
  - reflexivity.
  - repeat split; vm_compute; reflexivity.
Defined.
