(* ===== verification/Eapol.v ===== *)
(** The WPA2 handshake: arm_iop/source/ath/wmi.twl.c, lines 1098-1345, and the
    dispatch of data frames, wifi_card.twl.c lines 568-629. *)

From S2P Require Import Prelude Cmonad Cutils Aes Wpa Sdio Heap Card State Mbox Wmi.

(** ** Frames

    The packed structure that the three senders fill in: link header (idk, AP
    MAC, own MAC, length, SNAP with type 0x888E), EAPOL header, key descriptor.
    The key descriptor without key data has 95 bytes. *)

Definition KEYDESC_LEN : Z := 95.

Definition eapol_link (dst src : bytes) (data_len : Z) : bytes :=
  [0x00; 0x1C] ++ dst ++ src ++ putbe16 data_len ++ [0xAA; 0xAA; 0x03; 0; 0; 0; 0x88; 0x8E].

(** From [version] to [end]; this is what the MIC covers. *)
Definition eapol_key (keyinfo replay_cnt : Z) (nonce mic keydata : bytes) : bytes :=
  [1; 3] ++ putbe16 (KEYDESC_LEN + Z.of_nat (length keydata)) ++ [2] ++ putbe16 keyinfo ++ putbe16 0 ++
  putbe64 replay_cnt ++ nonce ++ replicate 16 0 ++ replicate 8 0 ++ replicate 8 0 ++ mic ++
  putbe16 (Z.of_nat (length keydata)) ++ keydata.

(** The RSN element of message 2; the group suite is the access point's. *)
Definition hs2_keydata (group_crypt : Z) : bytes :=
  [0x30; 0x14; 0x01; 0x00; 0x00; 0x0f; 0xac; if group_crypt =? CRYPT_AES then 0x04 else 0x02; 0x01; 0x00; 0x00; 0x0f; 0xac;
   0x04; 0x01; 0x00; 0x00; 0x0f; 0xac; 0x02; 0x00; 0x00].

(** [data_hdr], its MIC computed with [kck] over the frame with a zero MIC. *)
Definition eapol_frame `{StackEnv} (kck dst src : bytes) (keyinfo replay_cnt : Z) (nonce keydata : bytes) : bytes :=
  let mic := wpa_calc_mic kck (eapol_key keyinfo replay_cnt nonce (replicate 16 0) keydata) in
  eapol_link dst src (8 + 4 + KEYDESC_LEN + Z.of_nat (length keydata)) ++
  eapol_key keyinfo replay_cnt nonce mic keydata.

(** [for (i = 0; i < n; i++) test_nonce[i] = rand();] *)
Fixpoint rand_bytes `{Rand} (n : nat) (seed : Z) : bytes * Z :=
  match n with
  | O => ([], seed)
  | S n =>
      let '(v, seed) := libc_rand seed in
      let '(l, seed) := rand_bytes n seed in (u8 v :: l, seed)
  end.

Section Eapol.
Context {C : Type} `{Card C} `{Fuel} `{StackEnv} `{Rand}.

Definition data_send_wpa_handshake2 (dst_bssid src_bssid : bytes) (replay_cnt : Z) : M (iop C) unit :=
  let* seed := gets rand_seed in
  let '(test_nonce, seed) := rand_bytes 32 seed in
  modify (fun s => s <| rand_seed := seed |>) ;;;
  wset_ (fun w => w <| device_nonce := test_nonce |>) ;;;
  wset_ (fun w => w <| device_ptk :=
    wpa_calc_ptk src_bssid dst_bssid (device_nonce w) (device_ap_nonce w) (ap_pmk w) |>) ;;;
  let* w := wget (fun w => w) in
  let frame := eapol_frame (kck (device_ptk w)) dst_bssid src_bssid 0x010A replay_cnt test_nonce
                 (hs2_keydata (ap_group_crypt_type w)) in
  data_send_pkt frame (Z.of_nat (length frame)) ;;;
  wset_ (fun w => w <| has_sent_hs2 := true |>).

Definition data_send_wpa_handshake4 (dst_bssid src_bssid : bytes) (replay_cnt : Z) : M (iop C) unit :=
  let* w := wget (fun w => w) in
  let frame := eapol_frame (kck (device_ptk w)) dst_bssid src_bssid 0x030A replay_cnt (replicate 32 0) [] in
  data_send_pkt frame (Z.of_nat (length frame)) ;;;
  wset_ (fun w => w <| has_sent_hs4 := true |>).

Definition data_send_wpa_gtkrenew (dst_bssid src_bssid : bytes) (replay_cnt : Z) : M (iop C) unit :=
  let* w := wget (fun w => w) in
  let frame := eapol_frame (kck (device_ptk w)) dst_bssid src_bssid 0x0302 replay_cnt (replicate 32 0) [] in
  data_send_pkt frame (Z.of_nat (length frame)) ;;;
  wset_ (fun w => w <| has_sent_hs4 := true |>).

Definition data_send_link (ip_data : bytes) (ip_data_len : Z) : M (iop C) unit := data_send_pkt_idk ip_data ip_data_len.

(** ** Received frames *)

(** [n] bytes at offset [off] of the structure behind the pointer. *)
Definition auth_field (off n : nat) (p : bytes) : M (iop C) bytes :=
  if (off + n <=? length p)%nat then ret (take n (drop off p)) else fail OobRead.

(** [wpa_decrypt_gtk(device_ptk.kek, body, keydata_len, &device_gtk_keyinfo)] *)
Definition decrypt_gtk (body : bytes) (keydata_len : Z) : M (iop C) unit := fun s =>
  if (length body <? Z.to_nat keydata_len)%nat then Fault OobRead else
  match wpa_decrypt_gtk (kek (device_ptk (wmi s))) (take (Z.to_nat keydata_len) body) (aes s) with
  | Ok (g, st) => Ok (tt, (s <| aes := st |>) <| wmi := (wmi s) <| device_gtk_keyinfo := g |> |>)
  | Fault f => Fault f
  | Hang => Hang
  end.

(** Decrypt the group key and hand both keys to the card. *)
Definition install_keys (body : bytes) (keydata_len : Z) (rsc : bytes) : M (iop C) unit :=
  decrypt_gtk body keydata_len ;;;
  let* w := wget (fun w => w) in
  wmi_post_handshake (Some (tk (device_ptk w))) (Some (device_gtk_keyinfo w)) (Some rsc).

Definition data_handle_auth (pkt_data : bytes) (len : Z) (dev_bssid ap_bssid : bytes) : M (iop C) unit :=
  let* keyinfo := ofopt OobRead (getbe16 (drop 5 pkt_data)) in
  let* keydata_len := ofopt OobRead (getbe16 (drop 97 pkt_data)) in
  let* replay := ofopt OobRead (getbe64 (drop 9 pkt_data)) in
  if keyinfo =? 0x008A then
    let* nonce := auth_field 17 32 pkt_data in
    wset_ (fun w => w <| device_ap_nonce := nonce |>) ;;;
    data_send_wpa_handshake2 ap_bssid dev_bssid replay
  else if keyinfo =? 0x13CA then
    let* mic := auth_field 81 16 pkt_data in
    wset_ (fun w => w <| device_ap_mic := mic |>) ;;;
    data_send_wpa_handshake4 ap_bssid dev_bssid replay ;;;
    install_keys (drop 99 pkt_data) keydata_len (drop 65 pkt_data)
  else if keyinfo =? 0x1382 then
    data_send_wpa_gtkrenew ap_bssid dev_bssid replay ;;;
    install_keys (drop 99 pkt_data) keydata_len (drop 65 pkt_data)
  else ret tt.

(** [pkt_data] is at address [p]: a key frame is handled here, any other frame
    is announced to the other processor by its address. *)
Definition data_handle_pkt (p : Z) (len : Z) : M (iop C) unit :=
  let* pkt_data := mem_rest p in
  let* type := ofopt OobRead (getbe16 (drop 22 pkt_data)) in
  if type =? 0x888E then
    let* dst := auth_field 2 6 pkt_data in
    let* src := auth_field 8 6 pkt_data in
    data_handle_auth (drop 24 pkt_data) (len - 24) dst src
  else
    let len := if DATA_BUF_LEN - 6 <? len then DATA_BUF_LEN - 6 else len in
    fifoSendDatamsg {| fcmd := WIFI_IPCINT_PKTDATA; fbody := FPkt p len |}.

End Eapol.
