(* ===== verification/EapolProofs.v ===== *)
(** The four-way handshake seen from the access point: what the driver answers
    to messages 1 and 3 and to the group message, and the keys it installs. *)

From S2P Require Import Prelude Cmonad Cutils Sha1 Sha1Proofs Md Aes AesProofs Cipher NistKw NistKwProofs Wpa WpaProofs Sdio Heap Card State Mbox MboxProofs Wmi WmiProofs Eapol.
Import Sha1Spec WpaSpec.

(** ** Key frames of the access point *)

Module EapolSpec.

(** An EAPOL-Key frame (802.11, descriptor type 2). *)
Record msg := { m_info : Z; m_replay : Z; m_nonce : bytes; m_rsc : bytes; m_mic : bytes; m_keydata : bytes }.

Definition msg_ok (m : msg) : Prop :=
  0 <= m_info m < 2 ^ 16 /\ 0 <= m_replay m < 2 ^ 64 /\ arr_ok 32 (m_nonce m) /\ arr_ok 8 (m_rsc m) /\
  arr_ok 16 (m_mic m) /\ Z.of_nat (length (m_keydata m)) < 2 ^ 15.

Definition before_replay (m : msg) : bytes :=
  [2; 3] ++ be_bytes 2 (95 + Z.of_nat (length (m_keydata m))) ++ [2] ++ be_bytes 2 (m_info m) ++ be_bytes 2 16.
Definition encode_msg (m : msg) : bytes :=
  before_replay m ++ be_bytes 8 (m_replay m) ++ m_nonce m ++ replicate 16 0 ++ m_rsc m ++ replicate 8 0 ++ m_mic m ++
  be_bytes 2 (Z.of_nat (length (m_keydata m))) ++ m_keydata m.

(** What the access point reads in the answer [e] (from the EAPOL version on). *)
Definition r_info (e : bytes) : Z := be_val (take 2 (drop 5 e)).
Definition r_replay (e : bytes) : Z := be_val (take 8 (drop 9 e)).
Definition r_nonce (e : bytes) : bytes := take 32 (drop 17 e).
Definition r_keydata (e : bytes) : bytes := take (Z.to_nat (be_val (take 2 (drop 97 e)))) (drop 99 e).
Definition r_mic (e : bytes) : bytes := take 16 (drop 81 e).
(** Its check of the integrity code: HMAC-SHA1-128 with the KCK over the frame
    with the code zeroed. *)
Definition mic_valid (KCK e : bytes) : Prop := r_mic e = take 16 (hmac KCK (blit 81 (replicate 16 0) e)).

(** An answer from [SPA] to [AA] that the access point accepts. *)
Definition answer (AA SPA KCK : bytes) (info replay : Z) (nonce keydata f : bytes) : Prop :=
  exists e, f = eapol_link AA SPA (8 + Z.of_nat (length e)) ++ e /\
    be_val (take 2 (drop 2 e)) = Z.of_nat (length e) - 4 /\
    r_info e = info /\ r_replay e = replay /\ r_nonce e = nonce /\ r_keydata e = keydata /\ mic_valid KCK e.

End EapolSpec.
Import EapolSpec.

(** ** Fields at offsets *)

Lemma drop_at (pre rest : bytes) n : length pre = n -> drop n (pre ++ rest) = rest.
Proof. intros <-. apply drop_app_length. Qed.
Lemma take_at (pre rest : bytes) n : length pre = n -> take n (pre ++ rest) = pre.
Proof. intros <-. apply take_app_length. Qed.

Lemma getbe16_be n rest : 0 <= n < 2 ^ 16 -> getbe16 (be_bytes 2 n ++ rest) = Some n.
Proof.
  intros Hn. rewrite getbe16_app by (apply length_be_bytes || apply be_bytes_ok). rewrite be_val_bytes. f_equal. by apply Z.mod_small.
Qed.
Lemma getbe64_be n rest : 0 <= n < 2 ^ 64 -> getbe64 (be_bytes 8 n ++ rest) = Some n.
Proof.
  intros Hn. rewrite getbe64_app by (apply length_be_bytes || apply be_bytes_ok). rewrite be_val_bytes. f_equal. by apply Z.mod_small.
Qed.

Lemma msg_fields m : msg_ok m ->
  getbe16 (drop 5 (encode_msg m)) = Some (m_info m) /\ getbe64 (drop 9 (encode_msg m)) = Some (m_replay m) /\
  take 32 (drop 17 (encode_msg m)) = m_nonce m /\ take 8 (drop 65 (encode_msg m)) = m_rsc m /\
  take 16 (drop 81 (encode_msg m)) = m_mic m /\
  getbe16 (drop 97 (encode_msg m)) = Some (Z.of_nat (length (m_keydata m))) /\
  drop 99 (encode_msg m) = m_keydata m /\ length (encode_msg m) = (99 + length (m_keydata m))%nat.
Proof.
  intros (Hi & Hr & [Ln _] & [Lr _] & [Lm _] & Hk). unfold encode_msg, before_replay.
  assert (forall z, length (be_bytes 2 z) = 2%nat) as L2 by (intros; apply length_be_bytes).
  assert (forall z, length (be_bytes 8 z) = 8%nat) as L8 by (intros; apply length_be_bytes).
  assert (length (replicate 16 0%Z) = 16%nat) as Lz by done. assert (length (replicate 8 0%Z) = 8%nat) as Lz8 by done.
  revert Lz Lz8. generalize (replicate 16 0) as z16, (replicate 8 0) as z8. intros z16 z8 Lz Lz8.
  assert (0 <= Z.of_nat (length (m_keydata m)) < 2 ^ 16) as Hk' by lia.
  set (a := be_bytes 2 (95 + _)). assert (length a = 2%nat) as La by apply L2. clearbody a.
  repeat split.
  - rewrite <- !app_assoc, (app_assoc [2; 3]), (app_assoc (_ ++ a)).
    rewrite drop_at by (rewrite !length_app, La; done). by apply getbe16_be.
  - rewrite drop_at by (rewrite !length_app, La, !L2; done). by apply getbe64_be.
  - rewrite app_assoc, drop_at by (rewrite !length_app, La, !L2, L8; done). by apply take_at.
  - do 3 rewrite app_assoc. rewrite drop_at by (rewrite !length_app, La, !L2, L8, Ln, Lz; done). by apply take_at.
  - do 5 rewrite app_assoc. rewrite drop_at by (rewrite !length_app, La, !L2, L8, Ln, Lz, Lr, Lz8; done). by apply take_at.
  - do 6 rewrite app_assoc. rewrite drop_at by (rewrite !length_app, La, !L2, L8, Ln, Lz, Lr, Lz8, Lm; done). by apply getbe16_be.
  - do 7 rewrite app_assoc. by rewrite drop_at by (rewrite !length_app, La, !L2, L8, Ln, Lz, Lr, Lz8, Lm; done).
  - rewrite !length_app, La, !L2, L8, Ln, Lz, Lr, Lz8, Lm. cbn [length]. lia.
Qed.

(** ** Answers of the driver *)

Definition key_head (info replay : Z) (nonce keydata : bytes) : bytes :=
  ([1; 3] ++ putbe16 (KEYDESC_LEN + Z.of_nat (length keydata)) ++ [2] ++ putbe16 info ++ putbe16 0) ++
  putbe64 replay ++ nonce ++ replicate 16 0 ++ replicate 8 0 ++ replicate 8 0.

Lemma eapol_key_split info replay nonce mic keydata :
  eapol_key info replay nonce mic keydata =
    key_head info replay nonce keydata ++ mic ++ putbe16 (Z.of_nat (length keydata)) ++ keydata.
Proof. unfold eapol_key, key_head. by rewrite <- !app_assoc. Qed.

Lemma length_key_head info replay nonce keydata : length nonce = 32%nat -> length (key_head info replay nonce keydata) = 81%nat.
Proof. intros Ln. unfold key_head. by rewrite !length_app, Ln. Qed.

Lemma be_val_put16 n : 0 <= n < 2 ^ 16 -> be_val (putbe16 n) = n.
Proof. intros. rewrite putbe16_bytes, be_val_bytes. by apply Z.mod_small. Qed.
Lemma be_val_put64 n : 0 <= n < 2 ^ 64 -> be_val (putbe64 n) = n.
Proof. intros. rewrite putbe64_bytes, be_val_bytes. by apply Z.mod_small. Qed.

Lemma key_head_fields info replay nonce keydata rest :
  0 <= info < 2 ^ 16 -> 0 <= replay < 2 ^ 64 -> length nonce = 32%nat -> Z.of_nat (length keydata) < 2 ^ 15 ->
  let e := key_head info replay nonce keydata ++ rest in
  be_val (take 2 (drop 2 e)) = KEYDESC_LEN + Z.of_nat (length keydata) /\
  r_info e = info /\ r_replay e = replay /\ r_nonce e = nonce.
Proof.
  intros Hi Hr Ln Hk e. subst e. unfold key_head, r_info, r_replay, r_nonce.
  rewrite <- !app_assoc. repeat split.
  - rewrite (drop_at [1; 3]), (take_at (putbe16 _)) by done. apply be_val_put16. unfold KEYDESC_LEN. lia.
  - rewrite (app_assoc [1; 3]), (app_assoc (_ ++ putbe16 _)). rewrite (drop_at (_ ++ [2])), (take_at (putbe16 _)) by done.
    by apply be_val_put16.
  - rewrite (app_assoc [1; 3]), (app_assoc (_ ++ putbe16 _)), (app_assoc (_ ++ [2])), (app_assoc (_ ++ putbe16 info)).
    rewrite (drop_at (_ ++ putbe16 0)), (take_at (putbe64 _)) by done. by apply be_val_put64.
  - rewrite (app_assoc [1; 3]), (app_assoc (_ ++ putbe16 _)), (app_assoc (_ ++ [2])), (app_assoc (_ ++ putbe16 info)),
      (app_assoc (_ ++ putbe16 0)). rewrite (drop_at (_ ++ putbe64 replay)) by done. by apply take_at.
Qed.

Lemma eapol_key_ok info replay nonce mic keydata : bytes_ok nonce -> bytes_ok mic -> bytes_ok keydata ->
  bytes_ok (eapol_key info replay nonce mic keydata).
Proof.
  intros. unfold eapol_key. rewrite !putbe16_bytes, putbe64_bytes.
  repeat apply Forall_app_2; try apply be_bytes_ok; try apply zeros_ok; try assumption;
    repeat constructor; unfold byte_ok; lia.
Qed.

Section Answers.
Context `{EO : StackEnvOk}.

(** Every frame of [eapol_frame] is an answer that the access point accepts. *)
Lemma eapol_frame_answer KCK AA SPA info replay nonce keydata :
  arr_ok 16 KCK -> 0 <= info < 2 ^ 16 -> 0 <= replay < 2 ^ 64 -> arr_ok 32 nonce ->
  Z.of_nat (length keydata) < 2 ^ 15 -> bytes_ok keydata ->
  answer AA SPA KCK info replay nonce keydata (eapol_frame KCK AA SPA info replay nonce keydata).
Proof.
  intros [Lk Bk] Hi Hr [Ln Bn] Hk Bkd. unfold eapol_frame. set (mic := wpa_calc_mic _ _).
  pose proof (length_key_head info replay nonce keydata Ln) as Lh.
  assert (length mic = 16%nat) as Lm.
  { subst mic. unfold wpa_calc_mic. rewrite hmac_call; [by rewrite length_take, length_hmac|done| |lia|].
    - by apply eapol_key_ok; [|apply zeros_ok|].
    - rewrite eapol_key_split, !length_app, Lh. cbn. lia. }
  exists (eapol_key info replay nonce mic keydata).
  pose proof (key_head_fields info replay nonce keydata (mic ++ putbe16 (Z.of_nat (length keydata)) ++ keydata) Hi Hr Ln Hk) as F.
  rewrite <- eapol_key_split in F. destruct F as (F0 & F1 & F2 & F3).
  assert (length (eapol_key info replay nonce mic keydata) = (99 + length keydata)%nat) as Le
    by (rewrite eapol_key_split, !length_app, Lh, Lm; cbn [putbe16 length]; lia).
  split; [f_equal; f_equal; rewrite Le; unfold KEYDESC_LEN; lia|]. rewrite Le.
  split; [rewrite F0; unfold KEYDESC_LEN; lia|]. do 3 (split; [done|]). rewrite eapol_key_split. split.
  - unfold r_keydata. rewrite (app_assoc (key_head _ _ _ _)). rewrite (drop_at (_ ++ mic)), (take_at (putbe16 _)) by
      (rewrite ?length_app, ?Lh, ?Lm; done). rewrite be_val_put16, Nat2Z.id by lia.
    rewrite (app_assoc (_ ++ mic)), (drop_at (_ ++ putbe16 _)) by (rewrite !length_app, Lh, Lm; done). apply firstn_all.
  - unfold mic_valid, r_mic. rewrite (drop_at (key_head _ _ _ _)), (take_at mic) by done.
    unfold blit. rewrite (take_at (key_head _ _ _ _)) by done.
    rewrite (app_assoc (key_head _ _ _ _) mic), (drop_at (_ ++ mic)) by (rewrite length_app, Lh, Lm; done).
    rewrite <- eapol_key_split. subst mic. unfold wpa_calc_mic. apply f_equal, hmac_call; [done| |lia|].
    + by apply eapol_key_ok; [|apply zeros_ok|].
    + rewrite eapol_key_split, !length_app, Lh. cbn. lia.
Qed.
End Answers.

(** ** Keys *)

Lemma arr_slice n k m (b : bytes) : arr_ok m b -> (k + n <= m)%nat -> arr_ok n (take n (drop k b)).
Proof. intros [L B] H. split; [rewrite length_take, length_drop; lia|]. by apply Forall_take, Forall_drop. Qed.

Lemma prf_ok K A B : arr_ok 64 (prf K A B 64).
Proof.
  unfold prf. change (64 / 20 + 1)%nat with 4%nat. cbn [seq map concat]. split.
  - rewrite length_take, !length_app, !length_hmac. done.
  - apply Forall_take. repeat apply Forall_app_2; try apply hmac_bytes_ok. constructor.
Qed.

Definition ptk_ok (p : ptk_keyinfo) : Prop := arr_ok 16 (kck p) /\ arr_ok 16 (kek p) /\ arr_ok 16 (tk p).
Lemma ptk_is_ok PMK AA SPA an sn : ptk_ok (ptk PMK AA SPA an sn).
Proof.
  unfold ptk. set (P := prf _ _ _ _). assert (arr_ok 64 P) as HP by apply prf_ok. clearbody P.
  unfold ptk_ok, ptk_of_bytes. cbn [kck kek tk]. split; [apply (arr_slice 16 0 64 P); [done|lia]|].
  split; (apply (arr_slice 16 _ 64); [done|lia]).
Qed.

Lemma rand_bytes_ok `{Rand} n seed : arr_ok n (fst (rand_bytes n seed)).
Proof.
  revert seed. induction n as [|n IH]; intros seed; [split; [done|constructor]|]. cbn [rand_bytes].
  destruct (libc_rand seed) as [v seed1]. specialize (IH seed1). destruct (rand_bytes n seed1) as [l seed2]. cbn [fst] in *.
  destruct IH as [L B]. split; [cbn; lia|]. constructor; [apply u8_range|done].
Qed.

Definition arand (z : Z) (a : astate) : astate := a <| rand_seed := z |>.
Definition aaes (x : aes_static) (a : astate) : astate := a <| State.aes := x |>.

Lemma aaes_apushes x l a : aaes x (apushes l a) = apushes l (aaes x a).
Proof. done. Qed.

(** ** Messages 2 and 4 *)

Section Handshake.
Context {C : Type} `{MboxCard C} `{Fuel} `{EO : StackEnvOk} `{Rand}.

Lemma runs_rand z (s : iop C) : iop_ok s -> runs_tt (modify (fun s => s <| rand_seed := z |>)) s (arand z).
Proof. intros Hs. by exists (s <| rand_seed := z |>). Qed.

Lemma frame_send_runs KCK AA SPA info replay nonce keydata (s : iop C) :
  iop_ok s -> arr_ok 16 KCK -> arr_ok 6 AA -> arr_ok 6 SPA -> 0 <= info < 2 ^ 16 -> 0 <= replay < 2 ^ 64 ->
  arr_ok 32 nonce -> Z.of_nat (length keydata) <= 0x500 -> bytes_ok keydata ->
  let f := eapol_frame KCK AA SPA info replay nonce keydata in
  runs_tt (data_send_pkt f (Z.of_nat (length f))) s (apushes [data_pkt 0 f]).
Proof.
  intros Hs Hk [L1 _] [L2 _] Hi Hr Hn Hl Hb f. apply data_send_runs; [done|done|].
  destruct (eapol_frame_answer KCK AA SPA info replay nonce keydata) as (e & Ef & El & _); [done..|lia|done|].
  subst f. unfold eapol_frame. rewrite length_app.
  assert (length (eapol_link AA SPA (8 + 4 + KEYDESC_LEN + Z.of_nat (length keydata))) = 24%nat) as ->
    by (unfold eapol_link; rewrite !length_app, L1, L2; done).
  rewrite eapol_key_split, !length_app, length_key_head by apply Hn.
  unfold wpa_calc_mic. rewrite length_take. cbn [putbe16 length]. lia.
Qed.

(** The variables after message 2. *)
Definition after_hs2 (AA SPA anonce snonce : bytes) (w : wmi_static) : wmi_static :=
  w <| device_ap_nonce := anonce |> <| device_nonce := snonce |>
    <| device_ptk := ptk (ap_pmk w) AA SPA anonce snonce |> <| has_sent_hs2 := true |>.

Definition snonce_of (s : iop C) : bytes := fst (rand_bytes 32 (rand_seed s)).

Lemma handshake2_runs AA SPA anonce replay (s : iop C) : iop_ok s ->
  arr_ok 6 AA -> arr_ok 6 SPA -> arr_ok 32 anonce -> arr_ok 32 (ap_pmk (wmi s)) -> 0 <= replay < 2 ^ 64 ->
  exists f, answer AA SPA (kck (ptk (ap_pmk (wmi s)) AA SPA anonce (snonce_of s))) 0x010A replay (snonce_of s)
              (hs2_keydata (ap_group_crypt_type (wmi s))) f /\
    runs_tt (wset_ (fun w => w <| device_ap_nonce := anonce |>) ;;; data_send_wpa_handshake2 AA SPA replay) s
      (fun a => apushes [data_pkt 0 f] (awmi (after_hs2 AA SPA anonce (snonce_of s)) (arand (snd (rand_bytes 32 (rand_seed s))) a))).
Proof.
  intros Hs HA HS Han Hpmk Hr. unfold snonce_of. pose proof (rand_bytes_ok 32 (rand_seed s)) as Hsn.
  destruct (rand_bytes 32 (rand_seed s)) as [sn seed'] eqn:Er. cbn [fst snd] in *.
  set (P := ptk (ap_pmk (wmi s)) AA SPA anonce sn). destruct (ptk_is_ok (ap_pmk (wmi s)) AA SPA anonce sn) as (Hkck & _). fold P in Hkck.
  set (kd := hs2_keydata (ap_group_crypt_type (wmi s))).
  assert (bytes_ok kd /\ Z.of_nat (length kd) = 22) as [Bkd Lkd].
  { subst kd. unfold hs2_keydata. split; [|done]. apply Forall_range. by destruct (_ =? _). }
  exists (eapol_frame (kck P) AA SPA 0x010A replay sn kd). split; [apply eapol_frame_answer; done || lia|].
  eapply runs_ext.
  - eapply runs_tt_seq; [by apply runs_wset|]. intros s1 O1 A1.
    assert (rand_seed s1 = rand_seed s) as E1 by (by apply (f_equal rand_seed) in A1). wmi_after A1.
    unfold data_send_wpa_handshake2. apply runs_gets. rewrite E1, Er.
    eapply runs_tt_seq; [by apply runs_rand|]. intros s2 O2 A2. apply (f_equal wmi) in A2. change (wmi s2 = wmi s1) in A2.
    eapply runs_tt_seq; [by apply runs_wset|]. intros s3 O3 A3. wmi_after A3.
    eapply runs_tt_seq; [by apply runs_wset|]. intros s4 O4 A4. wmi_after A4.
    apply runs_tt_get.
    assert (wmi s4 = (wmi s) <| device_ap_nonce := anonce |> <| device_nonce := sn |> <| device_ptk := P |>) as E4.
    { rewrite A4, A3, A2, A1. cbn [device_nonce device_ap_nonce ap_pmk set set_device_nonce set_device_ap_nonce].
      by rewrite wpa_calc_ptk_prf. }
    rewrite E4. cbn [device_ptk ap_group_crypt_type set set_device_ptk set_device_nonce set_device_ap_nonce]. fold kd.
    eapply runs_tt_seq; [apply frame_send_runs; done || lia|]. intros s5 O5 A5. by apply runs_wset.
  - cbv beta. rewrite !awmi_apushes. f_equal. unfold after_hs2, awmi, arand. 
    change (wmi (abs s)) with (wmi s).
    cbn [device_nonce device_ap_nonce ap_pmk set set_device_nonce set_device_ap_nonce set_wmi set_rand_seed wmi].
    by rewrite wpa_calc_ptk_prf.
Qed.

(** The acknowledgements of message 3 and of the group message. *)
Definition ack_frame (p : ptk_keyinfo) (info : Z) (AA SPA : bytes) (replay : Z) : bytes :=
  eapol_frame (kck p) AA SPA info replay (replicate 32 0) [].

Lemma ack_answer p info AA SPA replay : ptk_ok p -> 0 <= info < 2 ^ 16 -> 0 <= replay < 2 ^ 64 ->
  answer AA SPA (kck p) info replay (replicate 32 0) [] (ack_frame p info AA SPA replay).
Proof.
  intros (Hk & _) Hi Hr. assert (arr_ok 32 (replicate 32 0)) as Hz by (split; [done|apply zeros_ok]).
  apply eapol_frame_answer; done || constructor.
Qed.

Lemma ack_runs p info AA SPA replay (s : iop C) : iop_ok s -> device_ptk (wmi s) = p -> ptk_ok p ->
  arr_ok 6 AA -> arr_ok 6 SPA -> 0 <= info < 2 ^ 16 -> 0 <= replay < 2 ^ 64 ->
  runs_tt (let* w := wget (fun w => w) in
           let frame := eapol_frame (kck (device_ptk w)) AA SPA info replay (replicate 32 0) [] in
           data_send_pkt frame (Z.of_nat (length frame)) ;;; wset_ (fun w => w <| has_sent_hs4 := true |>)) s
    (fun a => apushes [data_pkt 0 (ack_frame p info AA SPA replay)] (awmi (fun w => w <| has_sent_hs4 := true |>) a)).
Proof.
  intros Hs <- (Hk & _) HA HS Hi Hr. assert (arr_ok 32 (replicate 32 0)) as Hz by (split; [done|apply zeros_ok]).
  apply runs_tt_get. eapply runs_ext.
  - eapply runs_tt_seq; [apply frame_send_runs; done || constructor|]. intros s5 O5 A5. by apply runs_wset.
  - done.
Qed.

(** ** Installation of the keys *)

(** ADD_CIPHER_KEY as the firmware reads it: index, type, usage, length, receive
    counter, key (a TKIP key has its two MIC halves exchanged), flags. *)
Definition wire_key (ty idx usage : Z) (key rsc : bytes) : mpkt :=
  wmi_pkt 0 WMI_ADD_CIPHER_KEY_CMD
    ([idx; ty; usage; if ty =? CRYPT_TKIP then 0x20 else 0x10] ++ rsc ++
     (if ty =? CRYPT_TKIP then take 16 key ++ take 8 (drop 24 key) ++ take 8 (drop 16 key) else take 16 key ++ replicate 16 0) ++ [3]).

Lemma cipher_key_spec (tkip : bool) key : (if tkip then length key = 32 else 16 <= length key)%nat ->
  cipher_key (if tkip then 0x20 else 0x10) key =
    Some (if tkip then take 16 key ++ take 8 (drop 24 key) ++ take 8 (drop 16 key) else take 16 key ++ replicate 16 0).
Proof.
  unfold cipher_key. destruct tkip; intros Hl.
  - change (0x20 <? 0x10) with false. change (0x10 <? 0x20) with true. cbv iota. change (Z.to_nat 16) with 16%nat.
    rewrite Hl. change (32 <? 16)%nat with false. change (32 <? 32)%nat with false. cbv iota. f_equal.
    assert (length (take 16 key) = 16%nat) as L1 by (rewrite length_take; lia).
    assert (length (take 8 (drop 24 key)) = 8%nat) as L2 by (rewrite length_take, length_drop; lia).
    assert (length (take 8 (drop 16 key)) = 8%nat) as L3 by (rewrite length_take, length_drop; lia).
    revert L1 L2 L3. generalize (take 16 key) as k1, (take 8 (drop 24 key)) as k2, (take 8 (drop 16 key)) as k3.
    intros k1 k2 k3 L1 L2 L3. do 17 (destruct k1 as [|? k1]; try done). do 9 (destruct k2 as [|? k2]; try done).
    by do 9 (destruct k3 as [|? k3]; try done).
  - change (0x10 <? 0x10) with false. cbv iota. change (Z.to_nat 16) with 16%nat.
    rewrite (proj2 (Nat.ltb_ge _ _)) by lia. f_equal.
    unfold blit. rewrite length_take, Nat.min_l by lia. done.
Qed.

Lemma key_cmd_wire w idx usage key rsc : ap_security_type w <> AP_WEP -> 0 <= idx < 256 -> 0 <= usage < 256 ->
  let ty := if usage =? 1 then ap_group_crypt_type w else CRYPT_AES in
  0 <= ty < 256 -> (if (ty =? CRYPT_TKIP)%Z then length key = 32 else 16 <= length key)%nat ->
  match rsc with Some r => (8 <= length r)%nat | None => True end ->
  (exists p, cipher_params idx usage key rsc w = Some p) /\
  key_cmd w idx usage key rsc = wire_key ty idx usage key (match rsc with Some r => take 8 r | None => replicate 8 0 end).
Proof.
  intros Hsec Hi Hu ty Ht Hk Hr. unfold key_cmd, wire_key, cipher_params, cipher_type, cipher_keylen.
  rewrite (proj2 (Z.eqb_neq (ap_security_type w) AP_WEP)) by done. fold ty. rewrite cipher_key_spec by done.
  rewrite !u8_id by done. destruct rsc as [r|]; [rewrite (proj2 (Nat.ltb_ge _ _)) by lia|]; eauto.
Qed.

Lemma wire_key_runs w idx usage key rsc (s : iop C) : iop_ok s -> wmi s = w -> wmi_idk w = 0 ->
  ap_security_type w = AP_WPA2 -> 0 <= idx < 256 -> 0 <= usage < 256 ->
  let ty := if usage =? 1 then ap_group_crypt_type w else CRYPT_AES in
  0 <= ty < 256 -> (if (ty =? CRYPT_TKIP)%Z then length key = 32 else 16 <= length key)%nat ->
  match rsc with Some r => (8 <= length r)%nat | None => True end ->
  runs_tt (wmi_add_cipher_key idx usage key rsc) s
    (apushes [wire_key ty idx usage key (match rsc with Some r => take 8 r | None => replicate 8 0 end)]).
Proof.
  intros Hs <- Hi Hsec H1' H2' ty H3' H4 H5. assert (ap_security_type (wmi s) <> AP_WEP) as Hw by (by rewrite Hsec).
  destruct (key_cmd_wire (wmi s) idx usage key rsc Hw H1' H2' H3' H4 H5) as [[p Ep] K].
  pose proof (add_cipher_key_runs idx usage key rsc s p Hs Hi Ep) as R. rewrite K in R. exact R.
Qed.

Lemma runs_sync (s : iop C) : iop_ok s -> wmi_idk (wmi s) = 0 ->
  runs_tt (send_params WMI_SYNCHRONIZE_CMD [1]) s (apushes [wmi_pkt 0 WMI_SYNCHRONIZE_CMD [1]]).
Proof. intros. by apply send_cmd_runs. Qed.

(** What the card and the other processor are told after a handshake. *)
Definition ready_msg : Wifi_FifoMsg := {| fcmd := WIFI_IPCINT_READY; fbody := FNone |}.
Definition install_cmds (gtype : Z) (TK GTK rsc : bytes) : list mpkt :=
  [wmi_pkt 0 WMI_SYNCHRONIZE_CMD [1]; data_pkt 0 [0x00; 0x02]; data_pkt 0 [0x00; 0x02];
   wire_key CRYPT_AES 0 0 TK (replicate 8 0); wire_key gtype (gtk_keyidx GTK) 1 (gtk_key GTK) rsc;
   wmi_pkt 0 WMI_SYNCHRONIZE_CMD [1]].

Lemma post_handshake_runs TK GTK rsc (s : iop C) : iop_ok s -> wmi_idk (wmi s) = 0 -> ap_security_type (wmi s) = AP_WPA2 ->
  0 <= ap_group_crypt_type (wmi s) < 256 -> (16 <= length TK)%nat -> length GTK = 0x26%nat -> bytes_ok GTK -> (8 <= length rsc)%nat ->
  runs_tt (wmi_post_handshake (Some TK) (Some GTK) (Some rsc)) s
    (fun a => apushes (install_cmds (ap_group_crypt_type (wmi s)) TK GTK (take 8 rsc)) (afifo ready_msg a)).
Proof.
  intros Hs Hi Hsec Hg Ht Lg Bg Hr. unfold wmi_post_handshake.
  assert (0 <= gtk_keyidx GTK < 256) as Hidx.
  { unfold gtk_keyidx. destruct (nth_in_or_default 4 GTK 0) as [Hin| ->]; [|lia].
    apply (proj1 (Forall_forall _ _) Bg). by apply list_elem_of_In. }
  assert (length (gtk_key GTK) = 32%nat) as Lk by (unfold gtk_key; rewrite length_take, length_drop, Lg; done).
  eapply runs_ext.
  - eapply runs_tt_seq; [by apply runs_sync|]. intros s1 O1 A1. wmi_after A1.
    eapply runs_tt_seq; [by apply data_send_runs|]. intros s2 O2 A2. wmi_after A2.
    eapply runs_tt_seq; [by apply data_send_runs|]. intros s3 O3 A3. wmi_after A3.
    assert (wmi s3 = wmi s) as E3 by congruence. apply runs_tt_get. rewrite E3, Hsec. change (AP_WPA2 =? AP_WPA2) with true. cbv iota.
    eapply runs_tt_seq.
    + eapply runs_tt_opt; [done|]. eapply runs_tt_seq.
      * apply (wire_key_runs (wmi s) 0 0 TK None); done || congruence || lia.
      * intros s4 O4 A4. wmi_after A4. eapply runs_tt_opt; [done|].
        apply (wire_key_runs (wmi s) (gtk_keyidx GTK) 1 (gtk_key GTK) (Some rsc)); try (done || congruence || lia).
        rewrite Lk. destruct (_ =? CRYPT_TKIP); lia.
    + intros s5 O5 A5. apply (f_equal wmi) in A5. change (wmi s5 = wmi s3) in A5.
      eapply runs_tt_seq; [apply runs_sync; [done|congruence]|]. intros s6 O6 A6. by apply runs_fifo.
  - cbv beta. by rewrite !afifo_apushes, !apushes_app.
Qed.

Lemma install_step g kde : arr_ok 0x26 g -> kde_ok kde -> arr_ok 0x26 (install g kde).
Proof.
  intros [L B] (H1' & H2' & H3'). unfold install. destruct (is_gtk kde) eqn:Eg; [|done].
  unfold is_gtk in Eg. apply andb_true_iff in Eg as [_ Eg].
  assert (length (snd kde) <= 0x26)%nat as Hl by (apply orb_true_iff in Eg as [Eg|Eg]; apply Nat.eqb_eq in Eg; rewrite Eg; lia).
  split; [rewrite length_blit; lia|by apply blit_ok].
Qed.
Lemma group_key_ok kdes : Forall kde_ok kdes -> arr_ok 0x26 (group_key kdes).
Proof.
  unfold group_key. assert (arr_ok 0x26 (replicate 0x26 0)) as Hz by (split; [done|apply zeros_ok]). revert Hz.
  generalize (replicate 0x26 0) as g. intros g Hg Hk. revert g Hg. induction Hk as [|k l Hk Hl IH]; intros g Hg; [done|].
  cbn [fold_left]. apply IH. by apply install_step.
Qed.

Definition with_gtk (g : bytes) (w : wmi_static) : wmi_static := w <| device_gtk_keyinfo := g |>.

Lemma decrypt_gtk_runs ct g x (s : iop C) : iop_ok s ->
  wpa_decrypt_gtk (kek (device_ptk (wmi s))) ct (State.aes s) = Ok (g, x) ->
  runs_tt (decrypt_gtk ct (Z.of_nat (length ct))) s (fun a => awmi (with_gtk g) (aaes x a)).
Proof.
  intros Hs Eg. unfold runs_tt, decrypt_gtk. rewrite Nat2Z.id, (proj2 (Nat.ltb_ge _ _)), firstn_all, Eg by lia.
  eexists. split; [done|]. split; [exact Hs|done].
Qed.

(** A key message that the access point made for this session. *)
Record wrapped (x : aes_static) (KEK : bytes) (kdes : list (Z * bytes)) (ct : bytes) : Prop := {
  wr_kdes : Forall kde_ok kdes;
  wr_len : (16 <= length (encode kdes) <= 0x1F8)%nat /\ (length (encode kdes) mod 8 = 0)%nat;
  wr_ct : exists sw, keyed_for x KEK 128 true sw /\
    mbedtls_nist_kw_wrap MBEDTLS_KW_MODE_KW (encode kdes) 0x200 sw = Ok ((0, ct, Z.of_nat (length (encode kdes)) + 8), sw)
}.

Lemma install_keys_runs kdes ct rsc (s : iop C) : iop_ok s -> wmi_idk (wmi s) = 0 ->
  ap_security_type (wmi s) = AP_WPA2 -> 0 <= ap_group_crypt_type (wmi s) < 256 ->
  static_ok (State.aes s) -> ptk_ok (device_ptk (wmi s)) ->
  wrapped (State.aes s) (kek (device_ptk (wmi s))) kdes ct -> (8 <= length rsc)%nat ->
  runs_tt (install_keys ct (Z.of_nat (length ct)) rsc) s
    (fun a => apushes (install_cmds (ap_group_crypt_type (wmi s)) (tk (device_ptk (wmi s))) (group_key kdes) (take 8 rsc))
       (afifo ready_msg (awmi (with_gtk (group_key kdes)) (aaes (aes_init_tables (State.aes s)) a)))).
Proof.
  intros Hs Hi Hsec Hg Hst (_ & [Lkek Bkek] & [Ltk _]) [Fk [HL Hm] (sw & Hkf & Ew)] Hr.
  assert (aes_key_ok (kek (device_ptk (wmi s))) 128) as Hk
    by (split; [by eexists|]; split; [done|]; rewrite Lkek; done).
  pose proof (gtk_delivered _ _ kdes sw ct Hst Hk Hkf Fk HL Hm Ew) as Eg.
  destruct (group_key_ok kdes Fk) as [Lg Bg]. unfold install_keys. eapply runs_ext.
  - eapply runs_tt_seq; [by apply decrypt_gtk_runs|]. intros s1 O1 A1. apply (f_equal wmi) in A1.
    change (wmi s1 = with_gtk (group_key kdes) (wmi s)) in A1. apply runs_tt_get. rewrite A1.
    unfold with_gtk. cbn [device_ptk device_gtk_keyinfo set set_device_gtk_keyinfo].
    pose proof (post_handshake_runs (tk (device_ptk (wmi s))) (group_key kdes) rsc s1 O1) as R. rewrite A1 in R.
    apply R; try done. lia.
  - done.
Qed.

(** ** The handler *)

Definition auth_of (m : msg) (SPA AA : bytes) : M (iop C) unit :=
  data_handle_auth (encode_msg m) (Z.of_nat (length (encode_msg m))) SPA AA.

Lemma auth_msg1_runs m SPA AA (s : iop C) : iop_ok s -> msg_ok m -> m_info m = 0x008A ->
  arr_ok 6 AA -> arr_ok 6 SPA -> arr_ok 32 (ap_pmk (wmi s)) ->
  exists f, answer AA SPA (kck (ptk (ap_pmk (wmi s)) AA SPA (m_nonce m) (snonce_of s))) 0x010A (m_replay m) (snonce_of s)
              (hs2_keydata (ap_group_crypt_type (wmi s))) f /\
    runs_tt (auth_of m SPA AA) s (fun a => apushes [data_pkt 0 f]
      (awmi (after_hs2 AA SPA (m_nonce m) (snonce_of s)) (arand (snd (rand_bytes 32 (rand_seed s))) a))).
Proof.
  intros Hs Hm Hi HA HS Hp. destruct (msg_fields m Hm) as (F1 & F2 & F3 & F4 & F5 & F6 & F7 & F8).
  pose proof Hm as (_ & Hr & Hn & _).
  destruct (handshake2_runs AA SPA (m_nonce m) (m_replay m) s Hs HA HS Hn Hp Hr) as (f & Ha & R).
  exists f. split; [exact Ha|]. unfold auth_of, data_handle_auth. rewrite F1, F2, F6.
  do 3 (eapply runs_tt_opt; [done|]). rewrite Hi. change (0x8A =? 0x8A) with true. cbv iota.
  unfold auth_field. rewrite (proj2 (Nat.leb_le _ _)) by lia. rewrite F3. exact R.
Qed.

(** The session state in which keys are installed. *)
Record session (s : iop C) (p : ptk_keyinfo) (gtype : Z) : Prop := {
  ss_ok : iop_ok s;
  ss_idk : wmi_idk (wmi s) = 0;
  ss_sec : ap_security_type (wmi s) = AP_WPA2;
  ss_group : ap_group_crypt_type (wmi s) = gtype /\ 0 <= gtype < 256;
  ss_aes : static_ok (State.aes s);
  ss_ptk : device_ptk (wmi s) = p /\ ptk_ok p
}.

Lemma ack_install_runs p gtype info kdes m SPA AA (s : iop C) : session s p gtype -> msg_ok m ->
  0 <= info < 2 ^ 16 -> arr_ok 6 AA -> arr_ok 6 SPA -> wrapped (State.aes s) (kek p) kdes (m_keydata m) ->
  runs_tt ((let* w := wget (fun w => w) in
            let frame := eapol_frame (kck (device_ptk w)) AA SPA info (m_replay m) (replicate 32 0) [] in
            data_send_pkt frame (Z.of_nat (length frame)) ;;; wset_ (fun w => w <| has_sent_hs4 := true |>)) ;;;
           install_keys (drop 99 (encode_msg m)) (Z.of_nat (length (m_keydata m))) (drop 65 (encode_msg m))) s
    (fun a => apushes (data_pkt 0 (ack_frame p info AA SPA (m_replay m)) :: install_cmds gtype (tk p) (group_key kdes) (m_rsc m))
       (afifo ready_msg (awmi (fun w => with_gtk (group_key kdes) (w <| has_sent_hs4 := true |>))
          (aaes (aes_init_tables (State.aes s)) a)))).
Proof.
  intros [Hs Hi Hsec [Hg Hg'] Hst [Hp Hpok]] Hm Hinfo HA HS Hw.
  destruct (msg_fields m Hm) as (_ & _ & _ & F4 & _ & _ & F7 & F8). pose proof Hm as (_ & Hr & _). eapply runs_ext.
  - eapply runs_tt_seq; [by apply ack_runs|]. intros s1 O1 A1.
    assert (State.aes s1 = State.aes s) as Ea by (by apply (f_equal State.aes) in A1). apply (f_equal wmi) in A1.
    change (wmi s1 = (wmi s) <| has_sent_hs4 := true |>) in A1.
    rewrite F7. pose proof (install_keys_runs kdes (m_keydata m) (drop 65 (encode_msg m)) s1 O1) as R.
    rewrite A1, Ea in R. cbn [wmi_idk ap_security_type ap_group_crypt_type device_ptk set set_has_sent_hs4] in R.
    rewrite Hp, Hg, F4 in R. apply R; try done. rewrite length_drop. lia.
  - cbv beta. by rewrite aaes_apushes, awmi_apushes, afifo_apushes, apushes_app.
Qed.

Definition after_msg3 (m : msg) (kdes : list (Z * bytes)) (w : wmi_static) : wmi_static :=
  with_gtk (group_key kdes) (w <| device_ap_mic := m_mic m |> <| has_sent_hs4 := true |>).

Lemma auth_msg3_runs p gtype kdes m SPA AA (s : iop C) : session s p gtype -> msg_ok m -> m_info m = 0x13CA ->
  arr_ok 6 AA -> arr_ok 6 SPA -> wrapped (State.aes s) (kek p) kdes (m_keydata m) ->
  runs_tt (auth_of m SPA AA) s
    (fun a => apushes (data_pkt 0 (ack_frame p 0x030A AA SPA (m_replay m)) :: install_cmds gtype (tk p) (group_key kdes) (m_rsc m))
       (afifo ready_msg (awmi (after_msg3 m kdes) (aaes (aes_init_tables (State.aes s)) a)))).
Proof.
  intros Hss Hm Hi HA HS Hw. destruct (msg_fields m Hm) as (F1 & F2 & F3 & F4 & F5 & F6 & F7 & F8).
  unfold auth_of, data_handle_auth. rewrite F1, F2, F6. do 3 (eapply runs_tt_opt; [done|]). rewrite Hi.
  change (0x13CA =? 0x8A) with false. change (0x13CA =? 0x13CA) with true. cbv iota.
  unfold auth_field. rewrite (proj2 (Nat.leb_le _ _)) by lia. rewrite F5. eapply runs_ext.
  - eapply (runs_tt_seq (wset_ _)); [apply runs_wset, Hss|]. intros s1 O1 A1.
    assert (State.aes s1 = State.aes s) as Ea by (by apply (f_equal State.aes) in A1). wmi_after A1.
    pose proof (ack_install_runs p gtype 0x030A kdes m SPA AA s1) as R. rewrite Ea in R. apply R; try (done || lia).
    destruct Hss. split; rewrite ?A1, ?Ea; done.
  - done.
Qed.

Lemma auth_group_runs p gtype kdes m SPA AA (s : iop C) : session s p gtype -> msg_ok m -> m_info m = 0x1382 ->
  arr_ok 6 AA -> arr_ok 6 SPA -> wrapped (State.aes s) (kek p) kdes (m_keydata m) ->
  runs_tt (auth_of m SPA AA) s
    (fun a => apushes (data_pkt 0 (ack_frame p 0x0302 AA SPA (m_replay m)) :: install_cmds gtype (tk p) (group_key kdes) (m_rsc m))
       (afifo ready_msg (awmi (fun w => with_gtk (group_key kdes) (w <| has_sent_hs4 := true |>))
          (aaes (aes_init_tables (State.aes s)) a)))).
Proof.
  intros Hss Hm Hi HA HS Hw. destruct (msg_fields m Hm) as (F1 & F2 & F3 & F4 & F5 & F6 & F7 & F8).
  unfold auth_of, data_handle_auth. rewrite F1, F2, F6. do 3 (eapply runs_tt_opt; [done|]). rewrite Hi.
  apply (ack_install_runs p gtype 0x0302 kdes m); done || lia.
Qed.

End Handshake.

(** Any key data can be wrapped. *)
Lemma wrapped_exists x KEK kdes : static_ok x -> arr_ok 16 KEK -> Forall kde_ok kdes ->
  (16 <= length (encode kdes) <= 0x1F8)%nat -> (length (encode kdes) mod 8 = 0)%nat ->
  exists ct, wrapped x KEK kdes ct /\ length ct = (length (encode kdes) + 8)%nat.
Proof.
  intros Hx [Lk Bk] F HL Hm. assert (aes_key_ok KEK 128) as Hk by (split; [by eexists|]; split; [done|]; rewrite Lk; done).
  destruct (kw_setkey_runs x KEK 128 true Hx Hk) as (sw & Esw & Hsw & _).
  pose proof (Nat.Div0.div_le_mono 16 (length (encode kdes)) 8 ltac:(lia)) as Hd. change (16 / 8)%nat with 2%nat in Hd.
  destruct (@kw_wrap_result (AesBlockCipher KEK 128 Hk) sw Hsw (encode kdes) 0x200 Hd Hm) as [E (H1 & _ & H2 & _)];
    [by apply encode_bytes|lia|].
  eexists. split; [split; [done|done|]; exists sw; split; [exact Esw|exact E]|].
  rewrite length_app. pose proof (Nat.div_mod_eq (length (encode kdes)) 8). lia.
Qed.

(** ** Theorems *)

(** A session with the network "home". *)
#[local] Instance demo_rand : Rand := fun seed => (seed * 7 + 3, seed + 1).
Definition demo_auth : iop mlog := demo <| wmi := demo_wmi <| ap_security_type := AP_WPA2 |> <| ap_pmk := replicate 32 5 |> |>.
Definition demo_AA : bytes := [2; 1; 1; 1; 1; 1].
Definition demo_SPA : bytes := [0; 9; 191; 1; 2; 3].
Definition demo_msg (info : Z) (keydata : bytes) : msg :=
  {| m_info := info; m_replay := 1; m_nonce := replicate 32 9; m_rsc := [1; 0; 0; 0; 0; 0; 0; 0]; m_mic := replicate 16 0; m_keydata := keydata |}.

Lemma demo_msg_ok info keydata : 0 <= info < 2 ^ 16 -> Z.of_nat (length keydata) < 2 ^ 15 -> msg_ok (demo_msg info keydata).
Proof. intros. split; [done|]. split; [cbn; lia|]. repeat split; try done; try apply Forall_range; reflexivity. Qed.
Lemma demo_mac_ok : arr_ok 6 demo_AA /\ arr_ok 6 demo_SPA.
Proof. repeat split; apply Forall_range; reflexivity. Qed.
Lemma demo_pmk_ok : arr_ok 32 (ap_pmk (wmi demo_auth)).
Proof. split; [done|]. apply Forall_range. reflexivity. Qed.

(** Message 1 of the handshake: the driver takes a fresh nonce, derives the
    session keys as 802.11 prescribes from the PMK, the two addresses and the
    two nonces, and sends message 2, which the access point accepts: addressed
    to it, key information 0x010A, the replay counter echoed, the nonce and RSN
    element inside, and a valid integrity code under the KCK. *)
Theorem handshake_message2 {C} `{MboxCard C} `{Fuel} (E : StackEnv) (EO : StackEnvOk E) `{Rand} m SPA AA (s : iop C) :
  iop_ok s -> msg_ok m -> m_info m = 0x008A -> arr_ok 6 AA -> arr_ok 6 SPA -> arr_ok 32 (ap_pmk (wmi s)) ->
  let P := ptk (ap_pmk (wmi s)) AA SPA (m_nonce m) (snonce_of s) in
  exists f s', data_handle_auth (encode_msg m) (Z.of_nat (length (encode_msg m))) SPA AA s = Ok (tt, s') /\ iop_ok s' /\
    answer AA SPA (kck P) 0x010A (m_replay m) (snonce_of s) (hs2_keydata (ap_group_crypt_type (wmi s))) f /\
    card (abs s') = card (abs s) ++ [Some (data_pkt 0 f)] /\
    device_ptk (wmi s') = P /\ device_nonce (wmi s') = snonce_of s /\ has_sent_hs2 (wmi s') = true /\ trace s' = trace s.
Proof.
  intros Hs Hm Hi HA HS Hp P. destruct (auth_msg1_runs m SPA AA s Hs Hm Hi HA HS Hp) as (f & Ha & s' & Er & Hs' & A).
  exists f, s'. split; [exact Er|]. split; [done|]. split; [exact Ha|]. split; [exact (f_equal card A)|].
  split; [exact (f_equal (fun a => device_ptk (wmi a)) A)|]. split; [exact (f_equal (fun a => device_nonce (wmi a)) A)|].
  split; [exact (f_equal (fun a => has_sent_hs2 (wmi a)) A)|exact (f_equal trace A)].
Qed.

Lemma handshake_message2_witness : let _ : Fuel := 1%nat in exists f s',
  data_handle_auth (encode_msg (demo_msg 0x8A [])) 99 demo_SPA demo_AA demo_auth = Ok (tt, s') /\
  map decode (MboxProofs.blocks (card s')) = [Some (data_pkt 0 f)] /\ device_nonce (wmi s') = map (fun i => u8 (7 * i + 3)) (seqZ 0 32).
Proof.
  destruct (@handshake_message2 mlog _ _ 1%nat zero_env zero_env_ok demo_rand (demo_msg 0x8A []) demo_SPA demo_AA demo_auth)
    as (f & s' & E & _ & _ & A & _ & N & _).
  - exact demo_ok.
  - by apply demo_msg_ok.
  - reflexivity.
  - apply demo_mac_ok.
  - apply demo_mac_ok.
  - exact demo_pmk_ok.
  - exists f, s'. split; [exact E|]. split; [exact A|]. rewrite N. vm_compute. reflexivity.
Defined.

Section FourWay.
Context {C : Type} `{MboxCard C} `{Fuel} `{EO : StackEnvOk} `{Rand}.

(** The state after message 2 is ready for message 3. *)
Lemma session_after_hs2 m SPA AA (s s' : iop C) f z : iop_ok s' -> wmi_idk (wmi s) = 0 -> ap_security_type (wmi s) = AP_WPA2 ->
  0 <= ap_group_crypt_type (wmi s) < 256 -> static_ok (State.aes s) ->
  abs s' = apushes [data_pkt 0 f] (awmi (after_hs2 AA SPA (m_nonce m) (snonce_of s)) (arand z (abs s))) ->
  session s' (ptk (ap_pmk (wmi s)) AA SPA (m_nonce m) (snonce_of s)) (ap_group_crypt_type (wmi s)) /\ State.aes s' = State.aes s.
Proof.
  intros Hs' Hi Hsec Hg Hst A. assert (State.aes s' = State.aes s) as Ea by (by apply (f_equal State.aes) in A).
  apply (f_equal wmi) in A. change (wmi s' = after_hs2 AA SPA (m_nonce m) (snonce_of s) (wmi s)) in A.
  split; [|done]. split; rewrite ?A, ?Ea; try done. split; [done|apply ptk_is_ok].
Qed.

Lemma four_way_runs m1 m3 kdes SPA AA (s : iop C) :
  iop_ok s -> wmi_idk (wmi s) = 0 -> ap_security_type (wmi s) = AP_WPA2 -> 0 <= ap_group_crypt_type (wmi s) < 256 ->
  static_ok (State.aes s) -> arr_ok 32 (ap_pmk (wmi s)) -> arr_ok 6 AA -> arr_ok 6 SPA ->
  msg_ok m1 -> m_info m1 = 0x008A -> msg_ok m3 -> m_info m3 = 0x13CA ->
  let P := ptk (ap_pmk (wmi s)) AA SPA (m_nonce m1) (snonce_of s) in
  wrapped (State.aes s) (kek P) kdes (m_keydata m3) ->
  exists f2 f4 s', (auth_of m1 SPA AA ;;; auth_of m3 SPA AA) s = Ok (tt, s') /\ iop_ok s' /\
    answer AA SPA (kck P) 0x010A (m_replay m1) (snonce_of s) (hs2_keydata (ap_group_crypt_type (wmi s))) f2 /\
    answer AA SPA (kck P) 0x030A (m_replay m3) (replicate 32 0) [] f4 /\
    card (abs s') = card (abs s) ++ map Some ([data_pkt 0 f2; data_pkt 0 f4] ++
      install_cmds (ap_group_crypt_type (wmi s)) (tk P) (group_key kdes) (m_rsc m3)) /\
    trace s' = trace s ++ [FifoSend ready_msg].
Proof.
  intros Hs Hi Hsec Hg Hst Hp HA HS Hm1 Hi1 Hm3 Hi3 P Hw.
  destruct (auth_msg1_runs m1 SPA AA s Hs Hm1 Hi1 HA HS Hp) as (f2 & Ha2 & s1 & E1 & Hs1 & A1).
  destruct (session_after_hs2 m1 SPA AA s s1 f2 _ Hs1 Hi Hsec Hg Hst A1) as [Hss Ea]. rewrite <- Ea in Hw.
  destruct (auth_msg3_runs P _ kdes m3 SPA AA s1 Hss Hm3 Hi3 HA HS Hw) as (s2 & E2 & Hs2 & A2).
  exists f2, (ack_frame P 0x030A AA SPA (m_replay m3)), s2. split; [unfold bind; by rewrite E1, E2|]. split; [done|].
  split; [exact Ha2|]. split; [apply ack_answer; [apply ptk_is_ok|lia|apply Hm3]|]. rewrite A1 in A2. split.
  - rewrite (f_equal card A2). cbn [card apushes afifo awmi aaes arand set set_card set_trace set_wmi set_aes set_rand_seed].
    by rewrite <- app_assoc.
  - exact (f_equal trace A2).
Qed.
End FourWay.

(** C1: the four-way handshake: from a chosen WPA2 network whose access point
    has the same PMK, message 1 and then message 3 (its key data wrapped with
    the KEK of the session) make the driver send messages 2 and 4, both valid
    under the KCK, then install as pairwise key the TK of the session and as
    group key the GTK of the key data with its index and receive counter, both
    between two SYNCHRONIZE commands, and announce READY to the other processor;
    nothing else is sent. *)
Theorem four_way_handshake {C} `{MboxCard C} `{Fuel} (E : StackEnv) (EO : StackEnvOk E) `{Rand} m1 m3 kdes SPA AA (s : iop C) :
  iop_ok s -> wmi_idk (wmi s) = 0 -> ap_security_type (wmi s) = AP_WPA2 -> 0 <= ap_group_crypt_type (wmi s) < 256 ->
  static_ok (State.aes s) -> arr_ok 32 (ap_pmk (wmi s)) -> arr_ok 6 AA -> arr_ok 6 SPA ->
  msg_ok m1 -> m_info m1 = 0x008A -> msg_ok m3 -> m_info m3 = 0x13CA ->
  let P := ptk (ap_pmk (wmi s)) AA SPA (m_nonce m1) (snonce_of s) in
  wrapped (State.aes s) (kek P) kdes (m_keydata m3) ->
  exists f2 f4 s',
    (data_handle_auth (encode_msg m1) (Z.of_nat (length (encode_msg m1))) SPA AA ;;;
     data_handle_auth (encode_msg m3) (Z.of_nat (length (encode_msg m3))) SPA AA) s = Ok (tt, s') /\ iop_ok s' /\
    answer AA SPA (kck P) 0x010A (m_replay m1) (snonce_of s) (hs2_keydata (ap_group_crypt_type (wmi s))) f2 /\
    answer AA SPA (kck P) 0x030A (m_replay m3) (replicate 32 0) [] f4 /\
    card (abs s') = card (abs s) ++ map Some ([data_pkt 0 f2; data_pkt 0 f4] ++
      install_cmds (ap_group_crypt_type (wmi s)) (tk P) (group_key kdes) (m_rsc m3)) /\
    trace s' = trace s ++ [FifoSend ready_msg].
Proof. apply four_way_runs. Qed.

Lemma four_way_handshake_witness : let _ : Fuel := 1%nat in exists ct f2 f4 s',
  let P := ptk (replicate 32 5) demo_AA demo_SPA (replicate 32 9) (snonce_of demo_auth) in
  (data_handle_auth (encode_msg (demo_msg 0x8A [])) (Z.of_nat (length (encode_msg (demo_msg 0x8A [])))) demo_SPA demo_AA ;;;
   data_handle_auth (encode_msg (demo_msg 0x13CA ct)) (Z.of_nat (length (encode_msg (demo_msg 0x13CA ct)))) demo_SPA demo_AA)
    demo_auth = Ok (tt, s') /\
  map decode (MboxProofs.blocks (card s')) = map Some ([data_pkt 0 f2; data_pkt 0 f4] ++
    install_cmds CRYPT_AES (tk P) ([0; 15; 172; 1; 1; 0] ++ replicate 16 7 ++ replicate 16 0) [1; 0; 0; 0; 0; 0; 0; 0]) /\
  trace s' = [FifoSend ready_msg].
Proof.
  pose proof (ptk_is_ok (replicate 32 5) demo_AA demo_SPA (replicate 32 9) (snonce_of demo_auth)) as HP.
  set (P := ptk (replicate 32 5) demo_AA demo_SPA (replicate 32 9) (snonce_of demo_auth)) in *. destruct HP as (_ & HP & _).
  destruct (wrapped_exists (State.aes demo_auth) (kek P) example_kdes) as (ct & Hw & Lct).
  - left. reflexivity.
  - exact HP.
  - repeat constructor; simpl; unfold byte_ok; lia.
  - vm_compute; lia.
  - reflexivity.
  - change (length ct = 40)%nat in Lct.
    destruct (@four_way_handshake mlog _ _ 1%nat zero_env zero_env_ok demo_rand (demo_msg 0x8A []) (demo_msg 0x13CA ct)
      example_kdes demo_SPA demo_AA demo_auth) as (f2 & f4 & s' & E & _ & _ & _ & A & T).
    + exact demo_ok.
    + reflexivity.
    + reflexivity.
    + vm_compute. split; congruence.
    + left. reflexivity.
    + exact demo_pmk_ok.
    + apply demo_mac_ok.
    + apply demo_mac_ok.
    + by apply demo_msg_ok.
    + reflexivity.
    + apply demo_msg_ok; [lia|]. rewrite Lct. lia.
    + reflexivity.
    + exact Hw.
    + exists ct, f2, f4, s'. split; [exact E|]. split; [exact A|exact T].
Defined.

(** C20: renewal of the group key: in an established session, the group message
    with key data wrapped with the KEK is acknowledged by a valid frame with
    key information 0x0302 and the replay counter echoed, the new GTK replaces
    the old one in the card, and READY is announced. *)
Theorem group_key_renewal {C} `{MboxCard C} `{Fuel} (E : StackEnv) (EO : StackEnvOk E) `{Rand} p gtype kdes m SPA AA (s : iop C) :
  session s p gtype -> msg_ok m -> m_info m = 0x1382 -> arr_ok 6 AA -> arr_ok 6 SPA ->
  wrapped (State.aes s) (kek p) kdes (m_keydata m) ->
  exists f s', data_handle_auth (encode_msg m) (Z.of_nat (length (encode_msg m))) SPA AA s = Ok (tt, s') /\
    answer AA SPA (kck p) 0x0302 (m_replay m) (replicate 32 0) [] f /\
    card (abs s') = card (abs s) ++ map Some (data_pkt 0 f :: install_cmds gtype (tk p) (group_key kdes) (m_rsc m)) /\
    device_gtk_keyinfo (wmi s') = group_key kdes /\ trace s' = trace s ++ [FifoSend ready_msg] /\ session s' p gtype.
Proof.
  intros Hss Hm Hi HA HS Hw.
  destruct (auth_group_runs p gtype kdes m SPA AA s Hss Hm Hi HA HS Hw) as (s' & Er & Hs' & A).
  exists (ack_frame p 0x0302 AA SPA (m_replay m)), s'. split; [exact Er|].
  split; [apply ack_answer; [apply Hss|lia|apply Hm]|]. split; [exact (f_equal card A)|].
  split; [exact (f_equal (fun a => device_gtk_keyinfo (wmi a)) A)|]. split; [exact (f_equal trace A)|].
  assert (State.aes s' = aes_init_tables (State.aes s)) as Ea by exact (f_equal State.aes A). apply (f_equal wmi) in A.
  change (wmi s' = with_gtk (group_key kdes) ((wmi s) <| has_sent_hs4 := true |>)) in A. destruct Hss.
  split; rewrite ?A, ?Ea; try done. by apply init_tables_ok.
Qed.

Definition demo_ptk : ptk_keyinfo := ptk_of_bytes (replicate 64 3).
Definition demo_session : iop mlog := demo_auth <| wmi := (wmi demo_auth) <| device_ptk := demo_ptk |> |>.
Lemma demo_session_ok : session demo_session demo_ptk CRYPT_AES.
Proof.
  split; [exact demo_ok|done|done|split; [done|vm_compute; split; congruence]|by left|].
  split; [done|]. repeat split; apply Forall_range; reflexivity.
Qed.

Lemma group_key_renewal_witness : let _ : Fuel := 1%nat in exists ct f s',
  data_handle_auth (encode_msg (demo_msg 0x1382 ct)) (Z.of_nat (length (encode_msg (demo_msg 0x1382 ct)))) demo_SPA demo_AA demo_session = Ok (tt, s') /\
  map decode (MboxProofs.blocks (card s')) = map Some (data_pkt 0 f :: install_cmds CRYPT_AES (replicate 16 3)
    ([0; 15; 172; 1; 1; 0] ++ replicate 16 7 ++ replicate 16 0) [1; 0; 0; 0; 0; 0; 0; 0]).
Proof.
  destruct (wrapped_exists (State.aes demo_session) (kek demo_ptk) example_kdes) as (ct & Hw & Lct).
  - left. reflexivity.
  - split; [done|]. apply Forall_range. reflexivity.
  - repeat constructor; simpl; unfold byte_ok; lia.
  - vm_compute; lia.
  - reflexivity.
  - change (length ct = 40)%nat in Lct.
    destruct (@group_key_renewal mlog _ _ 1%nat zero_env zero_env_ok demo_rand demo_ptk CRYPT_AES example_kdes (demo_msg 0x1382 ct)
      demo_SPA demo_AA demo_session) as (f & s' & E & _ & A & _).
    + exact demo_session_ok.
    + apply demo_msg_ok; [lia|]. rewrite Lct. lia.
    + reflexivity.
    + apply demo_mac_ok.
    + apply demo_mac_ok.
    + exact Hw.
    + exists ct, f, s'. split; [exact E|exact A].
Defined.
