(* ===== verification/Pkt.v ===== *)
(** Received packets: wifi_card.twl.c lines 682-878 and 1165-1206,
    [wmi_handle_pkt] (ath/wmi.twl.c, lines 508-666), [htc_handle_pkt]
    (ath/htc.twl.c), and the messages of the other processor (wifi_card.twl.c,
    lines 1037-1105).

    The packet buffer is an object of the heap: a handler that reads another
    packet overwrites it under its caller. *)

From S2P Require Import Prelude Cmonad Cutils Wpa Sdio Heap Card State Mbox Wmi Bss Eapol.

Definition WMI_GET_CHANNEL_LIST_RESP : Z := 0x000E.
Definition WMI_READY_EVENT : Z := 0x1001.
Definition WMI_CONNECT_EVENT : Z := 0x1002.
Definition WMI_DISCONNECT_EVENT : Z := 0x1003.
Definition WMI_BSS_INFO_EVENT : Z := 0x1004.
Definition WMI_CMD_ERROR_EVENT : Z := 0x1005.
Definition WMI_REG_DOMAIN_EVENT : Z := 0x1006.
Definition WMI_SCAN_COMPLETE_EVENT : Z := 0x100A.
Definition WMI_TARGET_ERROR_REPORT_EVENT : Z := 0x100D.

Definition HTC_MSG_READY : Z := 1.
Definition HTC_MSG_CONN_SVC : Z := 2.
Definition HTC_MSG_SETUP_COMPLETE : Z := 4.

(** The parameters of the scan set up after the regulatory domain is known. *)
Definition wmi_handshake_7 : bytes :=
  [0xff;0xff; 0xff;0xff; 0xff;0xff; 0x14;0; 0x32;0;3;0; 0;0;0;0; 0;0;0;0].

(** Service requests: endpoint, 1, flags. *)
Definition wmi_handshake (i : Z) : bytes := [i; 1; if i =? 0 then 0 else 5; 0; 0; 0].

(** The records of an ack trailer; [has] and [la] are the lookahead found so
    far.  Every record has two bytes or more.  [Hang] is a loop that has not
    left with the fuel, [Fault] a read beyond the buffer. *)
Fixpoint parse_acks (fuel : nat) (ack : bytes) (ack_idx ack_len : Z) (has : bool) (la : Z) : outcome (bool * Z) :=
  match fuel with
  | O => if ack_idx <? ack_len then Hang else Ok (has, la)
  | S fuel =>
      if ack_idx <? ack_len then
        let i := Z.to_nat ack_idx in
        match ack !! i, ack !! (i + 1)%nat with
        | Some type, Some len =>
            let j := (i + 2)%nat in
            let next := u16 (ack_idx + 2 + len) in
            if (type =? 2) && (len =? 6) && negb has then
              match ack !! j with
              | Some b0 =>
                  if b0 =? 0xAA then
                    match ack !! (j + 5)%nat with
                    | Some b5 =>
                        if b5 =? 0x55 then
                          match getle32 (drop (j + 1) ack) with
                          | Some v => parse_acks fuel ack next ack_len true v
                          | None => Fault OobRead
                          end
                        else parse_acks fuel ack next ack_len has la
                    | None => Fault OobRead
                    end
                  else parse_acks fuel ack next ack_len has la
              | None => Fault OobRead
              end
            else parse_acks fuel ack next ack_len has la
        | _, _ => Fault OobRead
        end
      else Ok (has, la)
  end.

Section Pkt.
Context {C : Type} `{Card C} `{Fuel} `{StackEnv} `{Rand}.

(** ** WMI events *)

Definition wifi_card_host_interest_addr : M (iop C) Z := gets device_host_interest_addr.

(** [ap_found = false; ...; wmi_scan();], as three events do it *)
Definition drop_connection : M (iop C) unit :=
  wset_ (fun w => w <| ap_found := false |> <| ap_connected := false |> <| sent_connect := false |>
                    <| num_rounds_scanned := 0 |>) ;;;
  wmi_disconnect_cmd ;;;
  wmi_delete_bad_ap_cmd ;;;
  wmi_scan.

Definition handle_ready (pkt_data : bytes) : M (iop C) unit :=
  if (length pkt_data <? 6)%nat then fail OobRead
  else wset_ (fun w => w <| wmi_device_mac := take 6 pkt_data |>).

Definition handle_reg_domain : M (iop C) unit :=
  let* a := wifi_card_host_interest_addr in
  let* idk_addr := on_card (wifi_card_read_intern_word a) in
  on_card (wifi_card_write_intern_word idk_addr 0x3) ;;;
  send_params WMI_SET_SCAN_PARAMS_CMD wmi_handshake_7 ;;;
  wmi_dbgoff ;;;
  wset_ (fun w => w <| wmi_bIsReady := true |>).

Definition handle_cmd_error : M (iop C) unit :=
  let* v := on_card (wifi_card_read_func1_u32 0x400) in
  on_card (wifi_card_write_func1_u32 0x400 v) ;;;
  send_params WMI_TARGET_ERROR_REPORT_BITMASK_CMD (le_bytes 4 0x7F).

Definition handle_connect : M (iop C) unit :=
  wset_ (fun w => w <| ap_connected := true |>) ;;;
  wifi_card_send_connect ;;;
  let* sec := wget ap_security_type in
  if (sec =? AP_OPEN) || (sec =? AP_WEP) then wmi_post_handshake None None None else ret tt.

Definition handle_disconnect (pkt_data : bytes) : M (iop C) unit :=
  let* disconnectReason := ofopt OobRead (pkt_data !! 8%nat) in
  let* w := wget (fun w => w) in
  (if negb (ap_connected w) && sent_connect w then drop_connection else ret tt) ;;;
  let* connected := wget ap_connected in
  if connected && ((disconnectReason =? 4) || (disconnectReason =? 1) || (disconnectReason =? 5))
  then drop_connection else ret tt.

Definition handle_target_error (pkt_data : bytes) : M (iop C) unit :=
  let* err_id := ofopt OobRead (getle32 pkt_data) in
  send_params WMI_TARGET_ERROR_REPORT_BITMASK_CMD (le_bytes 4 0x7F) ;;;
  if err_id =? 0x8 then drop_connection else ret tt.

Definition wmi_handle_pkt (pkt_cmd : Z) (pkt_data : bytes) (len : Z) : M (iop C) unit :=
  if pkt_cmd =? WMI_READY_EVENT then handle_ready pkt_data
  else if pkt_cmd =? WMI_REG_DOMAIN_EVENT then handle_reg_domain
  else if pkt_cmd =? WMI_GET_CHANNEL_LIST_RESP then wmi_handle_get_channel_list pkt_data len
  else if pkt_cmd =? WMI_CMD_ERROR_EVENT then handle_cmd_error
  else if pkt_cmd =? WMI_SCAN_COMPLETE_EVENT then wmi_handle_scan_complete pkt_data len
  else if pkt_cmd =? WMI_BSS_INFO_EVENT then wmi_handle_bss_info pkt_data len
  else if pkt_cmd =? WMI_CONNECT_EVENT then handle_connect
  else if pkt_cmd =? WMI_DISCONNECT_EVENT then handle_disconnect pkt_data
  else if pkt_cmd =? WMI_TARGET_ERROR_REPORT_EVENT then handle_target_error pkt_data
  else ret tt.

(** ** HTC *)

(** [readpkt] is [wifi_card_mbox0_readpkt]. *)
Definition htc_handle_pkt (readpkt : M (iop C) Z) (pkt_cmd : Z) : M (iop C) unit :=
  if pkt_cmd =? HTC_MSG_READY then
    mforeach [0; 1; 2; 3; 4] (fun i =>
      htc_send_pkt HTC_MSG_CONN_SVC MBOXPKT_NOACK (Some (wmi_handshake i)) 6 ;;;
      readpkt ;;; ret tt) ;;;
    htc_send_pkt HTC_MSG_SETUP_COMPLETE MBOXPKT_NOACK None 0 ;;;
    on_card (wifi_card_write_func1_u32 F1_INT_STATUS_ENABLE 0x010300D1) ;;;
    on_card (wifi_card_write_func0_u8 0x4 0x3) ;;;
    ret tt
  else ret tt.

(** ** Reading a packet *)

(** [while (timeout--) { ... if (sts & 1) break; }] with [timeout = n]: the
    value of [timeout] behind the loop. *)
Fixpoint wait_rx (n : nat) : M (iop C) Z :=
  match n with
  | O => ret (-1)
  | S n =>
      let* sts := on_card (wifi_card_read_func1_u8 F1_HOST_INT_STATUS) in
      if nz (Z.land sts 1) then ret (Z.of_nat n) else wait_rx n
  end.

(** [lookahead] of the last packet's trailer, or from the card. *)
Definition next_header : M (iop C) Z :=
  let* has := gets mbox_has_lookahead in
  if has then
    let* h := gets mbox_lookahead in
    modify (fun s => s <| mbox_has_lookahead := false |>) ;;; ret h
  else on_card (wifi_card_read_func1_u32 F1_RX_LOOKAHEAD0).

Definition data_next_buf : M (iop C) Z :=
  let* s := gets (fun s => s) in
  let rings := ip_data_out_buf_totlen s / DATA_BUF_LEN in
  if rings =? 0 then fail DivByZero else
  modify (fun s => s <| ip_data_out_buf_idx := (ip_data_out_buf_idx s + 1) mod rings |>) ;;;
  ret (ip_data_out_buf s + DATA_BUF_LEN * ip_data_out_buf_idx s).

(** At most four bytes are taken out of the FIFO. *)
Fixpoint discard (n : nat) : M (iop C) unit :=
  match n with
  | O => ret tt
  | S n =>
      let* sts := on_card (wifi_card_read_func1_u8 F1_HOST_INT_STATUS) in
      if negb (nz (Z.land sts 1)) then ret tt else
      on_card (wifi_card_read_func1_u8 0xFF) ;;; discard n
  end.

(** [wifi_card_read_func1_block(addr, p, n)] into memory. *)
Definition read_block (addr p n : Z) : M (iop C) unit :=
  let* b := mem_rest p in
  let* '(_, b') := on_card (card_read_block addr {| baddr := p; bdata := b |} n) in
  mem_store p b'.

Definition is_data (pkt_type : Z) : bool :=
  (pkt_type =? 2) || (pkt_type =? 3) || (pkt_type =? 4) || (pkt_type =? 5).

(** The dispatch on the packet type, the packet being at [rb]. *)
Definition dispatch (readpkt : M (iop C) Z) (pkt_type rb len_pkt : Z) : M (iop C) unit :=
  let* hdr := mem_load rb 8 in
  let pkt_cmd := le_val (drop 6 hdr) in
  if pkt_type =? MBOXPKT_HTC then htc_handle_pkt readpkt pkt_cmd
  else if pkt_type =? MBOXPKT_WMI then
    let* pkt_data := mem_rest (rb + 8) in
    wmi_handle_pkt pkt_cmd pkt_data (u32 (len_pkt - 2))
  else if is_data pkt_type then data_handle_pkt (rb + 6) len_pkt
  else ret tt.

(** The ack trailer at [ack]. *)
Definition handle_acks (ack ack_len : Z) : M (iop C) unit :=
  modify (fun s => s <| mbox_has_lookahead := false |>) ;;;
  if ack_len =? 0 then ret tt else
  let* b := mem_rest ack in
  let* s := gets (fun s => s) in
  let* '(has, la) := ofout (parse_acks (Z.to_nat ack_len) b 0 ack_len false (mbox_lookahead s)) in
  modify (fun s => (s <| mbox_has_lookahead := has |>) <| mbox_lookahead := la |>).

(** The reader behind the wait (lines 733-877). *)
Definition read_one (readpkt : M (iop C) Z) : M (iop C) Z :=
  let* header := next_header in
  let pkt_type := Z.land header 0xFF in
  let ack_present := Z.land (Z.shiftr header 8) 0xFF in
  let len := Z.shiftr header 16 in
  let full_len := u16 (round_up (len + 6) 0x80) in
  let* ring := gets ip_data_out_buf in
  let* rb := (if nz ring && is_data pkt_type then data_next_buf else gets mbox_buffer) in
  if 0x2000 <? len then
    discard 4 ;;; on_card (wifi_card_read_func1_u32 F1_RX_LOOKAHEAD0) ;;; ret 0
  else
  read_block (u16 (0x4000 - full_len)) rb full_len ;;;
  if full_len =? 0 then ret 0 else
  if full_len <? 6 then ret full_len else
  on_card card_wait ;;;
  let* hdr := mem_load rb 8 in
  let ack_len := if ack_present =? 0 then 0 else nth 4 hdr 0 in
  let len_pkt := u16 (len - ack_len) in
  dispatch readpkt pkt_type rb len_pkt ;;;
  handle_acks (rb + 6 + len_pkt) ack_len ;;;
  ret len.

(** [if (!timeout) return 0;] *)
Definition readpkt_body (readpkt : M (iop C) Z) : M (iop C) Z :=
  let* timeout := wait_rx 100 in
  if timeout =? 0 then ret 0 else read_one readpkt.

(** A packet that makes its handler read further packets nests; [depth] bounds
    the nesting. *)
Fixpoint wifi_card_mbox0_readpkt (depth : nat) : M (iop C) Z :=
  match depth with
  | O => hang
  | S depth => readpkt_body (wifi_card_mbox0_readpkt depth)
  end.

(** ** Interrupt, timer and messages *)

Definition wifi_card_process_pkts (depth : nat) : M (iop C) unit :=
  let* int_sts := on_card (wifi_card_read_func1_u32 F1_HOST_INT_STATUS) in
  on_card (wifi_card_write_func1_u32 F1_HOST_INT_STATUS int_sts) ;;;
  wifi_card_mbox0_readpkt depth ;;; ret tt.

Definition wifi_card_irq (depth : nat) : M (iop C) unit := wifi_card_process_pkts depth.

Definition wifi_card_tick : M (iop C) unit :=
  let* b := gets wifi_card_bInitted in
  if negb b then ret tt else wmi_tick.

Definition wifi_card_initted : M (iop C) bool :=
  let* b := gets wifi_card_bInitted in
  if b then wmi_is_ready else ret false.

(** A message of [len] bytes; [device_init] is [wifi_card_device_init]. *)
Definition wifi_card_handleMsg (device_init : M (iop C) Z) (len : Z) (msg : Wifi_FifoMsg) : M (iop C) unit :=
  if len <? 4 then ret tt else
  let cmd := fcmd msg in
  if cmd =? WIFI_IPCCMD_INIT_IOP then
    modify (fun s => s <| wifi_printf_allowed := 1 |>) ;;; device_init ;;; ret tt
  else if cmd =? WIFI_IPCCMD_INITBUFS then
    match fbody msg with
    | FPkt data len => modify (fun s => (s <| ip_data_out_buf := data |>) <| ip_data_out_buf_totlen := len |>)
    | _ => fail OobRead
    end
  else if cmd =? WIFI_IPCCMD_SENDPKT then
    match fbody msg with
    | FPkt data len =>
        let* b := mem_rest data in
        data_send_pkt_idk b len ;;;
        mem_store data (le_bytes 4 0xF00FF00F)
    | _ => fail OobRead
    end
  else if cmd =? WIFI_IPCCMD_GET_DEVICE_MAC then
    let* mac := wget wmi_device_mac in
    fifoSendDatamsg {| fcmd := WIFI_IPCINT_DEVICE_MAC; fbody := FMac mac |}
  else if cmd =? WIFI_IPCCMD_GET_AP_MAC then
    let* mac := wget ap_bssid in
    fifoSendDatamsg {| fcmd := WIFI_IPCINT_AP_MAC; fbody := FMac mac |}
  else ret tt.

End Pkt.
