(* ===== verification/PktProofs.v ===== *)
(** Received packets: the ack trailer, delivery of data packets, the connection
    events, and two defects of the reader. *)

From S2P Require Import Prelude Cmonad Cutils Wpa WpaProofs Sdio Heap Card CardProofs State Mbox MboxProofs Wmi WmiProofs Bss Eapol Pkt.

(** ** The ack trailer *)

Module AckSpec.

(** A record: type and payload. *)
Definition rec : Type := Z * bytes.
Definition encode (l : list rec) : bytes :=
  concat (map (fun r => fst r :: Z.of_nat (length (snd r)) :: snd r) l).
Definition rec_ok (r : rec) : Prop := byte_ok (fst r) /\ bytes_ok (snd r) /\ (length (snd r) < 256)%nat.

(** A lookahead record: AA, the header of the next packet, 55. *)
Definition lookahead (r : rec) : option Z :=
  if (fst r =? 2) && (length (snd r) =? 6)%nat && (nth 0 (snd r) 0 =? 0xAA) && (nth 5 (snd r) 0 =? 0x55)
  then Some (le_val (take 4 (drop 1 (snd r)))) else None.
Fixpoint first_lookahead (l : list rec) : option Z :=
  match l with
  | [] => None
  | r :: l => match lookahead r with Some v => Some v | None => first_lookahead l end
  end.

End AckSpec.
Import AckSpec.

Definition found_in (has : bool) (la : Z) (l : list rec) : bool * Z :=
  if has then (true, la) else match first_lookahead l with Some v => (true, v) | None => (false, la) end.

Lemma lookup_after (pre rest : bytes) n : (pre ++ rest) !! (length pre + n)%nat = rest !! n.
Proof. rewrite lookup_app_r by lia. f_equal. lia. Qed.
Lemma drop_after (pre rest : bytes) n : drop (length pre + n) (pre ++ rest) = drop n rest.
Proof. by rewrite drop_app_add. Qed.

(** One turn of the loop. *)
Lemma parse_acks_step fuel pre r l rest total has la :
  rec_ok r -> (length pre + length (encode (r :: l)) <= total)%nat -> Z.of_nat total < 65536 ->
  parse_acks (S fuel) (pre ++ encode (r :: l) ++ rest) (Z.of_nat (length pre)) (Z.of_nat total) has la =
  let pre' := pre ++ fst r :: Z.of_nat (length (snd r)) :: snd r in
  let '(has', la') := found_in has la [r] in
  parse_acks fuel (pre' ++ encode l ++ rest) (Z.of_nat (length pre')) (Z.of_nat total) has' la'.
Proof.
  destruct r as [ty p]. intros (Ht & Hp & Hl) Ht2 Ht3. cbn [fst snd] in *.
  change (encode ((ty, p) :: l)) with ((ty :: Z.of_nat (length p) :: p) ++ encode l) in *.
  rewrite length_app in Ht2. cbn [length] in Ht2.
  cbn [parse_acks]. rewrite (proj2 (Z.ltb_lt _ _)) by lia. rewrite Nat2Z.id.
  rewrite <- (app_assoc (ty :: _)). cbn [app].
  pose proof (lookup_after pre (ty :: Z.of_nat (length p) :: p ++ encode l ++ rest) 0) as E0.
  pose proof (lookup_after pre (ty :: Z.of_nat (length p) :: p ++ encode l ++ rest) 1) as E1.
  rewrite Nat.add_0_r in E0. rewrite E0, E1. cbn [lookup list_lookup].
  assert (pre ++ ty :: Z.of_nat (length p) :: p ++ encode l ++ rest =
    (pre ++ ty :: Z.of_nat (length p) :: p) ++ encode l ++ rest) as EB by (rewrite <- app_assoc; done).
  assert (u16 (Z.of_nat (length pre) + 2 + Z.of_nat (length p)) =
    Z.of_nat (length (pre ++ ty :: Z.of_nat (length p) :: p))) as ->
    by (rewrite length_app; cbn [length]; rewrite u16_id by lia; lia).
  unfold found_in, first_lookahead, lookahead. cbn [fst snd].
  destruct (ty =? 2) eqn:Ety; cbn [andb]; [|rewrite EB; by destruct has].
  destruct (Z.of_nat (length p) =? 6) eqn:El; cbn [andb].
  2: { assert ((length p =? 6)%nat = false) as -> by (apply Nat.eqb_neq; apply Z.eqb_neq in El; lia).
       rewrite EB. by destruct has. }
  apply Z.eqb_eq in El. assert (length p = 6%nat) as Lp by lia. rewrite Lp in EB |- *. cbn [Nat.eqb andb].
  destruct has; cbn [negb]; [by rewrite EB|].
  destruct p as [|b0 [|b1 [|b2 [|b3 [|b4 [|b5 [|]]]]]]]; try done.
  pose proof (lookup_after pre (ty :: Z.of_nat 6 :: [b0; b1; b2; b3; b4; b5] ++ encode l ++ rest) 2) as F2.
  pose proof (lookup_after pre (ty :: Z.of_nat 6 :: [b0; b1; b2; b3; b4; b5] ++ encode l ++ rest) 7) as F7.
  pose proof (drop_after pre (ty :: Z.of_nat 6 :: [b0; b1; b2; b3; b4; b5] ++ encode l ++ rest) 3) as D3.
  cbn [length app] in *. rewrite F2. cbn [lookup list_lookup nth].
  destruct (b0 =? 0xAA); cbn [andb]; [|by rewrite EB].
  rewrite <- !Nat.add_assoc. cbn [Nat.add]. rewrite F7. cbn [lookup list_lookup app].
  destruct (b5 =? 0x55); [|by rewrite EB]. rewrite D3. cbn [drop app].
  rewrite (getle32_val b1 b2 b3 b4); [by rewrite EB|].
  repeat (apply Forall_cons in Hp as [? Hp]). repeat (apply Forall_cons_2; [assumption|]). constructor.
Qed.

Lemma found_in_cons has la r l : found_in has la (r :: l) = let '(h, v) := found_in has la [r] in found_in h v l.
Proof. unfold found_in. cbn [first_lookahead]. destruct has; [done|]. by destruct (lookahead r). Qed.

Lemma parse_acks_read l pre rest fuel has la :
  Forall rec_ok l -> Z.of_nat (length (pre ++ encode l)) < 65536 -> (length l <= fuel)%nat ->
  parse_acks fuel (pre ++ encode l ++ rest) (Z.of_nat (length pre)) (Z.of_nat (length (pre ++ encode l))) has la =
    Ok (found_in has la l).
Proof.
  intros Hl. revert pre fuel has la. induction Hl as [|r l Hr Hl IH]; intros pre fuel has la Ht Hf.
  - rewrite app_nil_r. unfold found_in. cbn [first_lookahead].
    destruct fuel; cbn [parse_acks]; rewrite Z.ltb_irrefl; by destruct has.
  - destruct fuel as [|fuel]; [cbn in Hf; lia|].
    rewrite length_app in *. rewrite parse_acks_step by (done || lia). cbv zeta. rewrite (found_in_cons has la r l).
    destruct (found_in has la [r]) as [h v].
    set (pre' := pre ++ fst r :: Z.of_nat (length (snd r)) :: snd r).
    assert (length pre + length (encode (r :: l)) = length (pre' ++ encode l))%nat as E.
    { subst pre'. change (encode (r :: l)) with ((fst r :: Z.of_nat (length (snd r)) :: snd r) ++ encode l).
      rewrite !length_app. lia. }
    rewrite E. apply IH; [lia|cbn in Hf; lia].
Qed.

Lemma length_acks l : (length l <= length (encode l))%nat.
Proof. induction l as [|r l IH]; [done|]. unfold encode in *. cbn [map concat]. rewrite length_app. cbn [length]. lia. Qed.

(** ** The receiving side of the card *)

(** What the mailbox shows to the reader: a queue of packets (whole blocks),
    bit 0 of the interrupt status when it is not empty, the first four bytes of
    the first packet in the lookahead register, and the packet in a block read
    that ends at 0x4000. *)
Class RxCard (C : Type) `{Card C} := {
  rx_ok : C -> Prop;
  rx_queue : C -> list bytes;
  rx_status : forall c, rx_ok c -> exists v c', card_read_byte 1 F1_HOST_INT_STATUS c = Ok (v, c') /\
    nz (Z.land v 1) = negb (bool_decide (rx_queue c = [])) /\ rx_ok c' /\ rx_queue c' = rx_queue c;
  rx_lookahead : forall c p q i, rx_ok c -> rx_queue c = p :: q -> 0 <= i < 4 ->
    exists c', card_read_byte 1 (F1_RX_LOOKAHEAD0 + i) c = Ok (nth (Z.to_nat i) p 0, c') /\ rx_ok c' /\ rx_queue c' = rx_queue c;
  rx_block : forall c p q b n, rx_ok c -> rx_queue c = p :: q -> n = Z.of_nat (length p) -> n mod 128 = 0 ->
    0 < n <= Z.of_nat (length (bdata b)) -> baddr b mod 4 = 0 -> n <= 0x4000 ->
    exists c', card_read_block (0x4000 - n) b n c = Ok ((0, blit 0 p (bdata b)), c') /\ rx_ok c' /\ rx_queue c' = q;
  rx_wait : forall c, rx_ok c -> exists c', card_wait c = Ok (tt, c') /\ rx_ok c' /\ rx_queue c' = rx_queue c
}.

Section Rx.
Context {C : Type} `{RxCard C} `{Fuel} `{StackEnv} `{Rand}.

Lemma rx_header c p q : rx_ok c -> rx_queue c = p :: q -> bytes_ok p ->
  exists c', wifi_card_read_func1_u32 F1_RX_LOOKAHEAD0 c = Ok (le_val [nth 0 p 0; nth 1 p 0; nth 2 p 0; nth 3 p 0], c') /\
    rx_ok c' /\ rx_queue c' = rx_queue c.
Proof.
  intros Hc Hq Hb.
  assert (forall k, byte_ok (nth k p 0)) as Hk.
  { intros k. destruct (nth_in_or_default k p 0) as [Hin| ->]; [|unfold byte_ok; lia].
    apply (proj1 (Forall_forall _ _) Hb). by apply list_elem_of_In. }
  unfold wifi_card_read_func1_u32, wifi_card_read_func1_u16, wifi_card_read_func1_u8, bind.
  change (u32 (F1_RX_LOOKAHEAD0 + 2)) with (F1_RX_LOOKAHEAD0 + 2). change (u32 (F1_RX_LOOKAHEAD0 + 2 + 1)) with (F1_RX_LOOKAHEAD0 + 3).
  change (u32 (F1_RX_LOOKAHEAD0 + 1)) with (F1_RX_LOOKAHEAD0 + 1).
  destruct (rx_lookahead c p q 0 Hc Hq) as (c1 & E1 & H1' & Q1); [lia|]. rewrite Z.add_0_r in E1. rewrite E1. rewrite <- Q1 in Hq.
  destruct (rx_lookahead c1 p q 1 H1' Hq) as (c2 & -> & H2' & Q2); [lia|]. rewrite <- Q2 in Hq. cbn [ret].
  destruct (rx_lookahead c2 p q 2 H2' Hq) as (c3 & -> & H3' & Q3); [lia|]. rewrite <- Q3 in Hq.
  destruct (rx_lookahead c3 p q 3 H3' Hq) as (c4 & -> & H4' & Q4); [lia|].
  exists c4. split; [|split; [done|congruence]]. cbn [ret]. do 2 f_equal.
  change (Z.to_nat 0) with 0%nat. change (Z.to_nat 1) with 1%nat. change (Z.to_nat 2) with 2%nat. change (Z.to_nat 3) with 3%nat.
  pose proof (Hk 0%nat). pose proof (Hk 1%nat). pose proof (Hk 2%nat). pose proof (Hk 3%nat). unfold byte_ok in *.
  zshift. rewrite (lor_add_disjoint (nth 0 p 0) _ 8), (lor_add_disjoint (nth 2 p 0) _ 8) by lia.
  rewrite !u16_id by lia. rewrite (lor_add_disjoint _ _ 16) by lia. rewrite u32_id by lia. unfold ret. do 2 f_equal.
  cbn [le_val]. lia.
Qed.

Lemma wait_rx_ready n (s : iop C) : rx_ok (card s) -> rx_queue (card s) <> [] ->
  exists c', wait_rx (S n) s = Ok (Z.of_nat n, s <| card := c' |>) /\ rx_ok c' /\ rx_queue c' = rx_queue (card s).
Proof.
  intros Hc Hq. destruct (rx_status (card s) Hc) as (v & c' & E & Hv & Hc' & Q). exists c'. split; [|done].
  cbn [wait_rx]. unfold bind at 1, on_card, zoom, wifi_card_read_func1_u8. rewrite E, Hv, bool_decide_false by done. done.
Qed.

(** The remembered lookahead describes the first packet of the queue. *)
Definition coherent (s : iop C) : Prop :=
  mbox_has_lookahead s = true -> forall p q, rx_queue (card s) = p :: q ->
  mbox_lookahead s = le_val [nth 0 p 0; nth 1 p 0; nth 2 p 0; nth 3 p 0].

Lemma next_header_run (s : iop C) p q : rx_ok (card s) -> rx_queue (card s) = p :: q -> bytes_ok p -> coherent s ->
  exists c', next_header s = Ok (le_val [nth 0 p 0; nth 1 p 0; nth 2 p 0; nth 3 p 0], s <| card := c' |> <| mbox_has_lookahead := false |>) /\
    rx_ok c' /\ rx_queue c' = p :: q.
Proof.
  intros Hc Hq Hb Hco. unfold next_header, bind, gets. destruct (mbox_has_lookahead s) eqn:Eh.
  - exists (card s). rewrite (Hco Eh p q Hq). split; [|done]. unfold modify, ret. by destruct s.
  - destruct (rx_header (card s) p q Hc Hq Hb) as (c' & E & Hc' & Q). exists c'. unfold on_card, zoom. rewrite E.
    split; [|split; [done|congruence]]. f_equal. f_equal. destruct s. cbn in Eh. by subst.
Qed.

(** *** A packet in memory *)

(** After a block read into the object [i] at [k]. *)
Definition stored (i k : nat) (o : cbuffer) (p : bytes) (h : heap_t) : heap_t :=
  <[i := {| baddr := baddr o; bdata := blit k p (bdata o) |}]> h.

Lemma blit_blit_drop k p (b : bytes) : (k + length p <= length b)%nat -> blit k (blit 0 p (drop k b)) b = blit k p b.
Proof.
  intros Hl. unfold blit at 1. rewrite length_blit by (rewrite length_drop; lia). rewrite length_drop.
  rewrite (drop_ge b (k + (length b - k))) by lia. rewrite app_nil_r. unfold blit. cbn [take app Nat.add]. by rewrite drop_drop.
Qed.

Lemma read_block_run (s : iop C) p q i k o rb : rx_ok (card s) -> rx_queue (card s) = p :: q ->
  h_find (heap s) rb = Some (i, k) -> heap s !! i = Some o -> (k + length p <= length (bdata o))%nat ->
  Z.of_nat (length p) mod 128 = 0 -> (0 < length p)%nat -> Z.of_nat (length p) <= 0x2080 -> rb mod 4 = 0 ->
  exists c', read_block (u16 (0x4000 - Z.of_nat (length p))) rb (Z.of_nat (length p)) s =
      Ok (tt, s <| card := c' |> <| heap := stored i k o p (heap s) |>) /\ rx_ok c' /\ rx_queue c' = q.
Proof.
  intros Hc Hq Hf Ho Hl Hm Hp Hp2 Ha. unfold read_block, bind, mem_rest. rewrite (h_rest_run _ _ _ _ _ Hf Ho).
  rewrite u16_id by lia. unfold on_card, zoom.
  destruct (rx_block (card s) p q {| baddr := rb; bdata := drop k (bdata o) |} (Z.of_nat (length p)) Hc Hq) as (c' & E & Hc' & Q);
    [done|done|cbn [bdata]; rewrite length_drop; lia|done|lia|].
  exists c'. rewrite E. cbn [bdata]. split; [|done]. unfold mem_store.
  change (heap (s <| card := c' |>)) with (heap s).
  rewrite (h_store_run _ _ _ i k o Hf Ho) by (rewrite length_blit; rewrite length_drop; lia).
  by rewrite blit_blit_drop.
Qed.

Lemma stored_find i k o p h a : h !! i = Some o -> (k + length p <= length (bdata o))%nat ->
  h_find (stored i k o p h) a = h_find h a.
Proof. intros Ho Hl. apply (h_find_insert h i o); [done|done|]. cbn [bdata]. by apply length_blit. Qed.

(** Memory behind the packet, [n] bytes into it. *)
Lemma stored_rest i k o p h rb n : h_disjoint h -> h_find h rb = Some (i, k) -> h !! i = Some o ->
  (k + length p <= length (bdata o))%nat -> (n < length p)%nat ->
  h_rest (stored i k o p h) (rb + Z.of_nat n) = Some (drop n p ++ drop (k + length p) (bdata o)).
Proof.
  intros D F Ho Hl Hn. rewrite (h_rest_run _ _ i (k + n)%nat {| baddr := baddr o; bdata := blit k p (bdata o) |}).
  - f_equal. cbn [bdata]. unfold blit. rewrite drop_app_ge by (rewrite length_take; lia).
    rewrite length_take, Nat.min_l by lia. replace (k + n - k)%nat with n by lia. by rewrite drop_app_le by lia.
  - rewrite stored_find by done. apply (h_find_offset h rb i k o n); done || lia.
  - apply list_lookup_insert_eq. by eapply lookup_lt_Some.
Qed.

Lemma stored_load i k o p h rb n m : h_disjoint h -> h_find h rb = Some (i, k) -> h !! i = Some o ->
  (k + length p <= length (bdata o))%nat -> (n + m <= length p)%nat -> (n < length p)%nat ->
  h_load (stored i k o p h) (rb + Z.of_nat n) m = Some (take m (drop n p)).
Proof.
  intros D F Ho Hl Hn Hn'. unfold h_load. rewrite stored_rest by done.
  rewrite (proj2 (Nat.leb_le _ _)) by (rewrite length_app, length_drop; lia). f_equal.
  apply take_app_le. rewrite length_drop. lia.
Qed.

(** *** Packets as the card sends them *)

Record rxpkt := { x_type : Z; x_ack : Z; x_b4 : Z; x_b5 : Z; x_body : bytes; x_trailer : list rec; x_pad : bytes }.
Definition x_len (x : rxpkt) : nat := (length (x_body x) + length (encode (x_trailer x)))%nat.
Definition x_bytes (x : rxpkt) : bytes :=
  [x_type x; x_ack x] ++ le_bytes 2 (Z.of_nat (x_len x)) ++ [x_b4 x; x_b5 x] ++ x_body x ++ encode (x_trailer x) ++ x_pad x.
(** Without an ack trailer, byte 4 can be anything. *)
Record rxpkt_ok (x : rxpkt) : Prop := {
  xo_bytes : bytes_ok (x_bytes x);
  xo_len : (2 <= x_len x <= 0x5FA)%nat;
  xo_block : Z.of_nat (length (x_bytes x)) = round_up (Z.of_nat (x_len x) + 6) 0x80;
  xo_recs : Forall rec_ok (x_trailer x);
  xo_ack : if x_ack x =? 0 then x_trailer x = [] else x_b4 x = Z.of_nat (length (encode (x_trailer x)))
}.

Lemma length_x_bytes x : length (x_bytes x) = (6 + x_len x + length (x_pad x))%nat.
Proof. unfold x_bytes, x_len. rewrite !length_app. cbn [length le_bytes]. lia. Qed.

Definition x_header (x : rxpkt) : Z := x_type x + 256 * x_ack x + 65536 * Z.of_nat (x_len x).

Lemma x_head_bytes x : rxpkt_ok x ->
  le_val [nth 0 (x_bytes x) 0; nth 1 (x_bytes x) 0; nth 2 (x_bytes x) 0; nth 3 (x_bytes x) 0] = x_header x /\
  byte_ok (x_type x) /\ byte_ok (x_ack x) /\
  (Z.of_nat (length (x_bytes x)) mod 128 = 0 /\ 8 <= Z.of_nat (length (x_bytes x)) <= 0x600).
Proof.
  intros Hx. pose proof (xo_bytes x Hx) as Hb. pose proof (xo_len x Hx) as Hl. pose proof (xo_block x Hx) as Hk.
  rewrite round_up_128 in Hk.
  split; [|split; [|split]].
  - unfold x_bytes, x_header. cbn [app le_bytes nth le_val]. unfold u8. zdm.
  - by apply Forall_cons in Hb as [? _].
  - apply Forall_cons in Hb as [_ Hb]. by apply Forall_cons in Hb as [? _].
  - pose proof (length_x_bytes x). zdm.
Qed.

(** What the reader takes from the header word. *)
Lemma header_fields x : rxpkt_ok x ->
  Z.land (x_header x) 0xFF = x_type x /\ Z.land (Z.shiftr (x_header x) 8) 0xFF = x_ack x /\
  Z.shiftr (x_header x) 16 = Z.of_nat (x_len x) /\
  u16 (round_up (Z.of_nat (x_len x) + 6) 0x80) = Z.of_nat (length (x_bytes x)).
Proof.
  intros Hx. destruct (x_head_bytes x Hx) as (_ & Ht & Ha & Hm & Hr). pose proof (xo_len x Hx) as Hl. unfold byte_ok in *.
  change 0xFF with (2 ^ 8 - 1). rewrite !land_mask, !shiftr_div by lia. unfold x_header. change (2 ^ 8) with 256. change (2 ^ 16) with 65536.
  split; [zdm|]. split; [zdm|]. split; [zdm|]. rewrite <- (xo_block x Hx). apply u16_id. lia.
Qed.

Lemma x_at_body x n : (n <= length (x_body x))%nat ->
  drop (6 + n) (x_bytes x) = drop n (x_body x) ++ encode (x_trailer x) ++ x_pad x.
Proof.
  intros Hn. unfold x_bytes. rewrite !(app_assoc _ (le_bytes _ _)), (app_assoc _ [x_b4 x; x_b5 x]).
  rewrite drop_app_ge by (rewrite !length_app; cbn; lia). rewrite !length_app. cbn [length le_bytes].
  replace (6 + n - _)%nat with n by lia. by rewrite drop_app_le.
Qed.

Lemma x_ack_len x : rxpkt_ok x ->
  (if x_ack x =? 0 then 0 else nth 4 (take 8 (x_bytes x)) 0) = Z.of_nat (length (encode (x_trailer x))).
Proof.
  intros Hx. pose proof (xo_ack x Hx) as Ha. destruct (x_ack x =? 0); [by rewrite Ha|].
  unfold x_bytes. cbn [app le_bytes take nth]. done.
Qed.

(** *** The reader *)

(** Where a packet of type [ty] goes, and the next ring index. *)
Definition to_ring (ty : Z) (s : iop C) : bool := nz (ip_data_out_buf s) && is_data ty.
Definition rings (s : iop C) : Z := ip_data_out_buf_totlen s / DATA_BUF_LEN.
Definition dest (ty : Z) (s : iop C) : Z :=
  if to_ring ty s then ip_data_out_buf s + DATA_BUF_LEN * ip_data_out_buf_idx s else mbox_buffer s.
Definition next_idx (ty : Z) (s : iop C) : Z :=
  if to_ring ty s then (ip_data_out_buf_idx s + 1) mod rings s else ip_data_out_buf_idx s.

(** The destination is [k] bytes into object [i] and has room for a packet. *)
Record dest_ok (ty : Z) (s : iop C) (i k : nat) (o : cbuffer) : Prop := {
  do_disjoint : h_disjoint (heap s);
  do_find : h_find (heap s) (dest ty s) = Some (i, k);
  do_obj : heap s !! i = Some o;
  do_room : (k + 0x600 <= length (bdata o))%nat;
  do_align : dest ty s mod 4 = 0;
  do_rings : to_ring ty s = true -> rings s <> 0
}.

Lemma pick_run ty (s : iop C) : (to_ring ty s = true -> rings s <> 0) ->
  (if to_ring ty s then data_next_buf else gets mbox_buffer) s = Ok (dest ty s, s <| ip_data_out_buf_idx := next_idx ty s |>).
Proof.
  intros Hr. unfold dest, next_idx. destruct (to_ring ty s); [|by destruct s].
  unfold data_next_buf, bind, gets. fold (rings s). rewrite (proj2 (Z.eqb_neq _ _)) by auto. done.
Qed.

(** The state once the packet is in memory. *)
Definition received (x : rxpkt) (c : C) (i k : nat) (o : cbuffer) (s : iop C) : iop C :=
  s <| card := c |> <| mbox_has_lookahead := false |> <| ip_data_out_buf_idx := next_idx (x_type x) s |>
    <| heap := stored i k o (x_bytes x) (heap s) |>.

Lemma readpkt_reads r x q i k o (s : iop C) : rx_ok (card s) -> rx_queue (card s) = x_bytes x :: q ->
  rxpkt_ok x -> coherent s -> dest_ok (x_type x) s i k o ->
  exists c', rx_ok c' /\ rx_queue c' = q /\
    readpkt_body r s =
      (dispatch r (x_type x) (dest (x_type x) s) (Z.of_nat (length (x_body x))) ;;;
       handle_acks (dest (x_type x) s + 6 + Z.of_nat (length (x_body x))) (Z.of_nat (length (encode (x_trailer x)))) ;;;
       ret (Z.of_nat (x_len x))) (received x c' i k o s).
Proof.
  intros Hc Hq Hx Hco Hd. destruct (x_head_bytes x Hx) as (Eh & Ht & Ha & Hm & Hr).
  destruct (header_fields x Hx) as (F1 & F2 & F3 & F4). pose proof (xo_bytes x Hx) as Hb. pose proof (xo_len x Hx) as Hl.
  pose proof (do_room _ _ _ _ _ Hd) as Hroom.
  destruct (wait_rx_ready 99 s Hc) as (c1 & E1 & Hc1 & Q1); [by rewrite Hq|]. rewrite Hq in Q1.
  destruct (next_header_run (s <| card := c1 |>) (x_bytes x) q) as (c2 & E2 & Hc2 & Q2); [exact Hc1|exact Q1|exact Hb| |].
  { intros Hh p' q' Hq'. apply (Hco Hh p' q'). change (rx_queue c1 = p' :: q') in Hq'. congruence. }
  rewrite Eh in E2. change (next_header (s <| card := c1 |>) = Ok (x_header x, s <| card := c2 |> <| mbox_has_lookahead := false |>)) in E2.
  set (s2 := s <| card := c2 |> <| mbox_has_lookahead := false |> <| ip_data_out_buf_idx := next_idx (x_type x) s |>).
  destruct (read_block_run s2 (x_bytes x) q i k o (dest (x_type x) s)) as (c3 & E3 & Hc3 & Q3);
    [exact Hc2|exact Q2|apply Hd|apply Hd|lia|done|lia|lia|apply Hd|].
  destruct (rx_wait c3 Hc3) as (c4 & E4 & Hc4 & Q4). exists c4. split; [done|]. split; [congruence|].
  unfold readpkt_body. rewrite (bind_run _ _ _ _ _ E1). change (Z.of_nat 99 =? 0) with false. cbv iota. unfold read_one.
  rewrite (bind_run _ _ _ _ _ E2). cbv zeta. rewrite F1, F2, F3, F4.
  rewrite (bind_run (gets ip_data_out_buf) _ (s <| card := c2 |> <| mbox_has_lookahead := false |>) _ _ eq_refl).
  set (s1 := s <| card := c2 |> <| mbox_has_lookahead := false |>).
  assert ((if nz (ip_data_out_buf s1) && is_data (x_type x) then data_next_buf else gets mbox_buffer) s1 = Ok (dest (x_type x) s, s2)) as Ep
    by exact (pick_run (x_type x) s1 (do_rings _ _ _ _ _ Hd)).
  rewrite (bind_run _ _ _ _ _ Ep).
  rewrite (proj2 (Z.ltb_ge _ _)) by lia. rewrite (bind_run _ _ _ _ _ E3).
  rewrite (proj2 (Z.eqb_neq _ 0)), (proj2 (Z.ltb_ge _ 6)) by lia.
  assert (on_card card_wait (s2 <| card := c3 |> <| heap := stored i k o (x_bytes x) (heap s2) |>) = Ok (tt, received x c4 i k o s)) as E5
    by (unfold on_card, zoom; cbn [card set set_card set_heap]; rewrite E4; done).
  rewrite (bind_run _ _ _ _ _ E5).
  assert (mem_load (dest (x_type x) s) 8 (received x c4 i k o s) = Ok (take 8 (x_bytes x), received x c4 i k o s)) as E6.
  { unfold mem_load. change (heap (received x c4 i k o s)) with (stored i k o (x_bytes x) (heap s)).
    pose proof (stored_load i k o (x_bytes x) (heap s) (dest (x_type x) s) 0 8) as L. rewrite Z.add_0_r in L.
    rewrite L; [done|apply Hd|apply Hd|apply Hd|lia|lia|lia]. }
  rewrite (bind_run _ _ _ _ _ E6). rewrite (x_ack_len x Hx).
  assert (u16 (Z.of_nat (x_len x) - Z.of_nat (length (encode (x_trailer x)))) = Z.of_nat (length (x_body x))) as ->
    by (unfold x_len in *; rewrite u16_id by lia; lia).
  done.
Qed.

Lemma handle_acks_run a l rest (s : iop C) : Forall rec_ok l -> Z.of_nat (length (encode l)) < 65536 ->
  (l <> [] -> h_rest (heap s) a = Some (encode l ++ rest)) ->
  let '(h, v) := found_in false (mbox_lookahead s) l in
  handle_acks a (Z.of_nat (length (encode l))) s = Ok (tt, s <| mbox_has_lookahead := h |> <| mbox_lookahead := v |>).
Proof.
  intros Hl Hlen Hrest. unfold handle_acks. rewrite (bind_run (modify _) _ s tt _ eq_refl).
  destruct l as [|r l].
  - cbn [found_in first_lookahead encode map concat length]. change (Z.of_nat 0 =? 0) with true. cbv iota. unfold ret. by destruct s.
  - set (L := r :: l) in *. assert (length L <= length (encode L))%nat as Hll by apply length_acks.
    assert (length L <> 0)%nat as HL by done. rewrite (proj2 (Z.eqb_neq _ 0)) by lia.
    assert (mem_rest a (s <| mbox_has_lookahead := false |>) = Ok (encode L ++ rest, s <| mbox_has_lookahead := false |>)) as E1
      by (unfold mem_rest; change (heap (s <| mbox_has_lookahead := false |>)) with (heap s); by rewrite Hrest).
    rewrite (bind_run _ _ _ _ _ E1). rewrite (bind_run (gets _) _ _ _ _ eq_refl).
    pose proof (parse_acks_read L [] rest (Z.to_nat (Z.of_nat (length (encode L)))) false (mbox_lookahead s) Hl) as P.
    cbn [app] in P. change (Z.of_nat (length [])) with 0 in P. rewrite Nat2Z.id in *.
    change (mbox_lookahead (s <| mbox_has_lookahead := false |>)) with (mbox_lookahead s). rewrite P by done.
    by destruct (found_in false (mbox_lookahead s) L) as [h v].
Qed.

(** The lookahead that the trailer announces is that of the next packet. *)
Definition truthful (l : list rec) (q : list bytes) : Prop :=
  forall v p q', first_lookahead l = Some v -> q = p :: q' -> v = le_val [nth 0 p 0; nth 1 p 0; nth 2 p 0; nth 3 p 0].

Lemma found_coherent l la v q : truthful l q -> found_in false la l = (true, v) ->
  forall p q', q = p :: q' -> v = le_val [nth 0 p 0; nth 1 p 0; nth 2 p 0; nth 3 p 0].
Proof.
  intros Ht Ef p q' Hq. unfold found_in in Ef. destruct (first_lookahead l) as [w|] eqn:Ew; [|done].
  injection Ef as <-. by apply (Ht w p q').
Qed.

(** *** Data packets *)

Definition frame_type (body : bytes) : Z := be_val (take 2 (drop 22 body)).
Record data_ok (x : rxpkt) : Prop := {
  d_pkt : rxpkt_ok x;
  d_type : is_data (x_type x) = true;
  d_body : (24 <= length (x_body x))%nat;
  d_frame : frame_type (x_body x) <> 0x888E
}.
Definition pktdata (a : Z) (n : nat) : event := FifoSend {| fcmd := WIFI_IPCINT_PKTDATA; fbody := FPkt a (Z.of_nat n) |}.

Lemma data_pkt_run a n body rest (s : iop C) : (24 <= length body)%nat -> bytes_ok body -> frame_type body <> 0x888E ->
  (n <= 0x5FA)%nat -> h_rest (heap s) a = Some (body ++ rest) ->
  data_handle_pkt a (Z.of_nat n) s = Ok (tt, s <| trace := trace s ++ [pktdata a n] |>).
Proof.
  intros Hb Hok Hf Hn Hr. unfold data_handle_pkt.
  assert (mem_rest a s = Ok (body ++ rest, s)) as E1 by (unfold mem_rest; by rewrite Hr).
  rewrite (bind_run _ _ _ _ _ E1).
  assert (getbe16 (drop 22 (body ++ rest)) = Some (frame_type body)) as ->.
  { rewrite drop_app_le by lia. rewrite <- (take_drop 2 (drop 22 body)) at 1. rewrite <- app_assoc.
    rewrite getbe16_app; [done|rewrite length_take, length_drop; lia|by apply Forall_take, Forall_drop]. }
  rewrite (bind_run (ofopt OobRead (Some (frame_type body))) _ s _ _ eq_refl). rewrite (proj2 (Z.eqb_neq _ _)) by done. cbv zeta.
  rewrite (proj2 (Z.ltb_ge _ _)) by (unfold DATA_BUF_LEN; lia). done.
Qed.

(** Once the packet is in memory: its first bytes, the bytes behind the header,
    and the outcome of its ack trailer. *)
Lemma received_head x c i k o (s : iop C) : rxpkt_ok x -> dest_ok (x_type x) s i k o ->
  mem_load (dest (x_type x) s) 8 (received x c i k o s) = Ok (take 8 (x_bytes x), received x c i k o s).
Proof.
  intros Hx Hd. destruct (x_head_bytes x Hx) as (_ & _ & _ & _ & Hr). pose proof (do_room _ _ _ _ _ Hd) as Hroom.
  unfold mem_load. change (heap (received x c i k o s)) with (stored i k o (x_bytes x) (heap s)).
  pose proof (stored_load i k o (x_bytes x) (heap s) (dest (x_type x) s) 0 8) as L. rewrite Z.add_0_r in L.
  rewrite L; [done|apply Hd|apply Hd|apply Hd|lia|lia|lia].
Qed.

Lemma received_rest x c i k o (s : iop C) n : rxpkt_ok x -> dest_ok (x_type x) s i k o ->
  (n <= length (x_body x))%nat -> (6 + n < length (x_bytes x))%nat ->
  h_rest (heap (received x c i k o s)) (dest (x_type x) s + 6 + Z.of_nat n) =
    Some (drop n (x_body x) ++ encode (x_trailer x) ++ x_pad x ++ drop (k + length (x_bytes x)) (bdata o)).
Proof.
  intros Hx Hd Hn Hn'. destruct (x_head_bytes x Hx) as (_ & _ & _ & _ & Hr). pose proof (do_room _ _ _ _ _ Hd) as Hroom.
  change (heap (received x c i k o s)) with (stored i k o (x_bytes x) (heap s)).
  replace (dest (x_type x) s + 6 + Z.of_nat n) with (dest (x_type x) s + Z.of_nat (6 + n)) by lia.
  rewrite (stored_rest i k o); [|apply Hd|apply Hd|apply Hd|lia|lia]. rewrite x_at_body by done. by rewrite <- !app_assoc.
Qed.

Lemma received_acks x c i k o (s s2 : iop C) : rxpkt_ok x -> dest_ok (x_type x) s i k o ->
  heap s2 = heap (received x c i k o s) -> mbox_lookahead s2 = mbox_lookahead s ->
  let '(h, v) := found_in false (mbox_lookahead s) (x_trailer x) in
  handle_acks (dest (x_type x) s + 6 + Z.of_nat (length (x_body x))) (Z.of_nat (length (encode (x_trailer x)))) s2 =
    Ok (tt, s2 <| mbox_has_lookahead := h |> <| mbox_lookahead := v |>).
Proof.
  intros Hx Hd Eh El. pose proof (xo_len x Hx) as Hl. unfold x_len in Hl. rewrite <- El.
  apply (handle_acks_run _ (x_trailer x) (x_pad x ++ drop (k + length (x_bytes x)) (bdata o))); [apply Hx|lia|].
  intros Hne. rewrite Eh, received_rest; [by rewrite drop_all|done|done|lia|].
  pose proof (length_acks (x_trailer x)). rewrite length_x_bytes. unfold x_len.
  destruct (x_trailer x); [done|]. cbn [length] in *. lia.
Qed.

(** The state after a data packet has been read. *)
Definition delivered (x : rxpkt) (c : C) (i k : nat) (o : cbuffer) (s : iop C) : iop C :=
  let '(h, v) := found_in false (mbox_lookahead s) (x_trailer x) in
  (received x c i k o s) <| trace := trace s ++ [pktdata (dest (x_type x) s + 6) (length (x_body x))] |>
    <| mbox_has_lookahead := h |> <| mbox_lookahead := v |>.

Lemma dispatch_data r x c i k o (s : iop C) : data_ok x -> dest_ok (x_type x) s i k o ->
  dispatch r (x_type x) (dest (x_type x) s) (Z.of_nat (length (x_body x))) (received x c i k o s) =
    Ok (tt, (received x c i k o s) <| trace := trace s ++ [pktdata (dest (x_type x) s + 6) (length (x_body x))] |>).
Proof.
  intros [Hx Hty Hb Hf] Hd. pose proof (xo_len x Hx) as Hl. pose proof (xo_bytes x Hx) as Hok. unfold x_len in Hl.
  pose proof (length_x_bytes x) as Lx. unfold x_len in Lx.
  assert (bytes_ok (x_body x)) as Bb.
  { pose proof (x_at_body x 0 ltac:(lia)) as Ed. cbn [drop] in Ed. apply (Forall_drop _ 6) in Hok. rewrite Nat.add_0_r in Ed.
    rewrite Ed in Hok. by apply Forall_app in Hok as [? _]. }
  pose proof (received_rest x c i k o s 0 Hx Hd ltac:(lia) ltac:(lia)) as M0. rewrite Z.add_0_r, drop_0 in M0.
  unfold dispatch. rewrite (bind_run _ _ _ _ _ (received_head x c i k o s Hx Hd)). cbv zeta. unfold is_data in Hty.
  assert (x_type x <> 0 /\ x_type x <> 1) as [Ht0 Ht1] by (split; intros Et; rewrite Et in Hty; discriminate).
  rewrite (proj2 (Z.eqb_neq (x_type x) MBOXPKT_HTC)), (proj2 (Z.eqb_neq (x_type x) MBOXPKT_WMI)) by done.
  unfold is_data. rewrite Hty.
  refine (data_pkt_run _ _ (x_body x) (encode (x_trailer x) ++ x_pad x ++ drop (k + length (x_bytes x)) (bdata o))
    (received x c i k o s) _ _ _ _ M0); try done. lia.
Qed.

Lemma data_delivered r x q i k o (s : iop C) : rx_ok (card s) -> rx_queue (card s) = x_bytes x :: q ->
  data_ok x -> coherent s -> truthful (x_trailer x) q -> dest_ok (x_type x) s i k o ->
  exists c', rx_ok c' /\ rx_queue c' = q /\
    readpkt_body r s = Ok (Z.of_nat (x_len x), delivered x c' i k o s) /\ coherent (delivered x c' i k o s).
Proof.
  intros Hc Hq Hok Hco Htr Hd. pose proof (d_pkt x Hok) as Hx.
  destruct (readpkt_reads r x q i k o s Hc Hq Hx Hco Hd) as (c' & Hc' & Q' & E).
  exists c'. split; [done|]. split; [done|]. rewrite E, (bind_run _ _ _ _ _ (dispatch_data r x c' i k o s Hok Hd)). clear E.
  set (s2 := (received x c' i k o s) <| trace := trace s ++ [pktdata (dest (x_type x) s + 6) (length (x_body x))] |>).
  pose proof (received_acks x c' i k o s s2 Hx Hd eq_refl eq_refl) as Ea. unfold delivered. fold s2.
  destruct (found_in false (mbox_lookahead s) (x_trailer x)) as [h v] eqn:Ef.
  split; [by rewrite (bind_run _ _ _ _ _ Ea)|].
  intros Hh p q' Hq'. destruct h; [|done]. change (rx_queue c' = p :: q') in Hq'. rewrite Q' in Hq'.
  exact (found_coherent _ _ _ _ Htr Ef p q' Hq').
Qed.

(** *** The ring *)

Record ring_ok (s : iop C) (i : nat) (o : cbuffer) : Prop := {
  ro_disjoint : h_disjoint (heap s);
  ro_find : h_find (heap s) (ip_data_out_buf s) = Some (i, 0%nat);
  ro_obj : heap s !! i = Some o;
  ro_len : Z.of_nat (length (bdata o)) = ip_data_out_buf_totlen s;
  ro_rings : 0 < rings s;
  ro_idx : 0 <= ip_data_out_buf_idx s < rings s;
  ro_ptr : nz (ip_data_out_buf s) = true /\ ip_data_out_buf s mod 4 = 0
}.

Definition slot (s : iop C) (m : Z) : Z := ip_data_out_buf s + DATA_BUF_LEN * m.
Definition slot_off (m : Z) : nat := Z.to_nat (DATA_BUF_LEN * m).
Definition slot_bytes (o : cbuffer) (m : Z) : bytes := take 0x600 (drop (slot_off m) (bdata o)).

Lemma slot_room s i o m : ring_ok s i o -> 0 <= m < rings s -> (slot_off m + 0x600 <= length (bdata o))%nat.
Proof.
  intros Hr Hm. pose proof (ro_len s i o Hr) as L. unfold rings, slot_off, DATA_BUF_LEN in *.
  assert (1536 * (ip_data_out_buf_totlen s / 1536) <= ip_data_out_buf_totlen s) by (apply Z.mul_div_le; lia). nia.
Qed.

Lemma ring_dest ty s i o : ring_ok s i o -> is_data ty = true ->
  to_ring ty s = true /\ dest ty s = slot s (ip_data_out_buf_idx s) /\ dest_ok ty s i (slot_off (ip_data_out_buf_idx s)) o.
Proof.
  intros Hr Hty. pose proof (ro_idx s i o Hr) as Hi. pose proof (ro_ptr s i o Hr) as [Hp Ha].
  pose proof (slot_room s i o _ Hr Hi) as Hroom. pose proof (ro_rings s i o Hr) as Hrg.
  assert (to_ring ty s = true) as Ht by (unfold to_ring; by rewrite Hp, Hty).
  assert (dest ty s = slot s (ip_data_out_buf_idx s)) as Hd by (unfold dest; by rewrite Ht).
  split; [done|]. split; [done|]. split; rewrite ?Hd; [apply Hr| |apply Hr|done| |lia].
  - unfold slot. replace (DATA_BUF_LEN * ip_data_out_buf_idx s) with (Z.of_nat (slot_off (ip_data_out_buf_idx s)))
      by (unfold slot_off, DATA_BUF_LEN; lia).
    rewrite (h_find_offset _ _ i 0 o _ (ro_disjoint s i o Hr) (ro_find s i o Hr) (ro_obj s i o Hr)) by lia. done.
  - unfold slot, DATA_BUF_LEN. zdm.
Qed.

Definition with_pkt (m : Z) (p : bytes) (o : cbuffer) : cbuffer :=
  {| baddr := baddr o; bdata := blit (slot_off m) p (bdata o) |}.

Lemma delivered_ring x c s i o : ring_ok s i o -> is_data (x_type x) = true -> (length (x_bytes x) <= 0x600)%nat ->
  let s' := delivered x c i (slot_off (ip_data_out_buf_idx s)) o s in
  ring_ok s' i (with_pkt (ip_data_out_buf_idx s) (x_bytes x) o) /\
  rings s' = rings s /\ (forall m, slot s' m = slot s m) /\ ip_data_out_buf_idx s' = (ip_data_out_buf_idx s + 1) mod rings s.
Proof.
  intros Hr Hty Hl s'. destruct (ring_dest _ _ _ _ Hr Hty) as (Ht & _ & _).
  pose proof (slot_room s i o _ Hr (ro_idx s i o Hr)) as Hroom. pose proof (ro_rings s i o Hr) as Hrg.
  assert (length (bdata (with_pkt (ip_data_out_buf_idx s) (x_bytes x) o)) = length (bdata o)) as Ll
    by (cbn [bdata with_pkt]; apply length_blit; lia).
  assert (heap s' = <[i := with_pkt (ip_data_out_buf_idx s) (x_bytes x) o]> (heap s) /\
    ip_data_out_buf s' = ip_data_out_buf s /\ ip_data_out_buf_totlen s' = ip_data_out_buf_totlen s /\
    ip_data_out_buf_idx s' = next_idx (x_type x) s) as (E1 & E2 & E3 & E4)
    by (subst s'; unfold delivered; by destruct (found_in _ _ _)).
  unfold next_idx in E4. rewrite Ht in E4.
  assert (rings s' = rings s) as E5 by (unfold rings; by rewrite E3).
  split; [|split; [done|split; [intros m; unfold slot; by rewrite E2|done]]].
  destruct Hr as [D F O L R I P]. split; rewrite ?E1, ?E2, ?E3, ?E4, ?E5; try done.
  - by apply (h_disjoint_insert _ _ o).
  - by rewrite (h_find_insert _ i o).
  - apply list_lookup_insert_eq. by eapply lookup_lt_Some.
  - by rewrite Ll.
  - by apply Z.mod_pos_bound.
Qed.

(** A slot is the packet just written or what it was. *)
Lemma slot_same m p o : (slot_off m + 0x600 <= length (bdata o))%nat -> (length p <= 0x600)%nat ->
  take (length p) (slot_bytes (with_pkt m p o) m) = p.
Proof.
  intros Hr Hl. unfold slot_bytes, with_pkt. cbn [bdata]. rewrite take_take, Nat.min_l by lia. by apply slice_blit; lia.
Qed.
Lemma slot_other m m' p o : (slot_off m + 0x600 <= length (bdata o))%nat -> (length p <= 0x600)%nat -> m <> m' -> 0 <= m -> 0 <= m' ->
  slot_bytes (with_pkt m p o) m' = slot_bytes o m'.
Proof.
  intros Hr Hl Hne Hm Hm'. unfold slot_bytes, with_pkt. cbn [bdata]. apply list_eq. intros j.
  destruct (decide (j < 0x600)%nat); [|by rewrite !lookup_take_ge by lia].
  rewrite !lookup_take_lt by done. rewrite !lookup_drop, lookup_blit by lia. case_decide as Hd; [|done].
  exfalso. unfold slot_off, DATA_BUF_LEN in *. nia.
Qed.

(** *** A stream of data packets *)

Fixpoint truthful_all (xs : list rxpkt) : Prop :=
  match xs with [] => True | x :: xs => truthful (x_trailer x) (map x_bytes xs) /\ truthful_all xs end.
Fixpoint read_all (readpkt : M (iop C) Z) (n : nat) : M (iop C) unit :=
  match n with O => ret tt | S n => readpkt_body readpkt ;;; read_all readpkt n end.
(** The ring slot of the [j]-th packet from now. *)
Definition nth_slot (s : iop C) (j : nat) : Z := (ip_data_out_buf_idx s + Z.of_nat j) mod rings s.

Lemma mod_ne a d n : 0 <= a < n -> 0 < d < n -> (a + d) mod n <> a.
Proof.
  intros Ha Hd. destruct (Z_lt_le_dec (a + d) n); [rewrite Z.mod_small by lia; lia|].
  replace (a + d) with (a + d - n + 1 * n) by lia. rewrite Z.mod_add, Z.mod_small by lia. lia.
Qed.

Record stream_result (xs : list rxpkt) (s s' : iop C) (i : nat) (o o' : cbuffer) : Prop := {
  sr_card : rx_ok (card s') /\ rx_queue (card s') = [];
  sr_ring : ring_ok s' i o' /\ rings s' = rings s /\ (forall m, slot s' m = slot s m);
  sr_idx : ip_data_out_buf_idx s' = nth_slot s (length xs);
  sr_trace : trace s' = trace s ++ imap (fun j x => pktdata (slot s (nth_slot s j) + 6) (length (x_body x))) xs;
  sr_wmi : wmi s' = wmi s;
  sr_other : forall m, 0 <= m < rings s -> (forall j, (j < length xs)%nat -> nth_slot s j <> m) -> slot_bytes o' m = slot_bytes o m;
  sr_kept : Z.of_nat (length xs) <= rings s -> forall j x, xs !! j = Some x ->
    take (length (x_bytes x)) (slot_bytes o' (nth_slot s j)) = x_bytes x
}.

Lemma stream_run r xs i (s : iop C) o : rx_ok (card s) -> rx_queue (card s) = map x_bytes xs -> Forall data_ok xs ->
  truthful_all xs -> coherent s -> ring_ok s i o ->
  exists s' o', read_all r (length xs) s = Ok (tt, s') /\ stream_result xs s s' i o o'.
Proof.
  intros Hc Hq Hxs. revert s o Hc Hq. induction Hxs as [|x xs Hx Hxs IH]; intros s o Hc Hq Htr Hco Hr.
  - exists s, o. split; [done|]. split; try done.
    + unfold nth_slot. cbn [length]. rewrite Z.add_0_r, Z.mod_small; [done|apply Hr].
    + cbn [imap]. by rewrite app_nil_r.
  - destruct Htr as [Ht Htr]. destruct (x_head_bytes x (d_pkt x Hx)) as (_ & _ & _ & _ & Hlx).
    destruct (ring_dest _ _ _ _ Hr (d_type x Hx)) as (_ & Ed & Hd).
    destruct (data_delivered r x (map x_bytes xs) i _ o s Hc Hq Hx Hco Ht Hd) as (c1 & Hc1 & Q1 & E1 & Hco1).
    destruct (delivered_ring x c1 s i o Hr (d_type x Hx) ltac:(lia)) as (Hr1 & Rg1 & Sl1 & I1).
    set (s1 := delivered x c1 i (slot_off (ip_data_out_buf_idx s)) o s) in *.
    assert (card s1 = c1 /\ wmi s1 = wmi s /\ trace s1 = trace s ++ [pktdata (slot s (ip_data_out_buf_idx s) + 6) (length (x_body x))])
      as (Ec & Ew & Et) by (subst s1; unfold delivered; rewrite <- Ed; by destruct (found_in _ _ _)).
    destruct (IH s1 (with_pkt (ip_data_out_buf_idx s) (x_bytes x) o)) as (s' & o' & E2 & [[C1 C2] (R1 & R2 & R3) RI RT RW RO RK]); [by rewrite Ec|by rewrite Ec|done|done|exact Hr1|].
    exists s', o'. split; [cbn [length read_all]; by rewrite (bind_run _ _ _ _ _ E1)|].
    pose proof (ro_idx s i o Hr) as Hidx. pose proof (ro_rings s i o Hr) as Hrg.
    pose proof (slot_room s i o _ Hr Hidx) as Hroom.
    assert (forall j, nth_slot s1 j = nth_slot s (S j)) as Hns.
    { intros j. unfold nth_slot. rewrite I1, Rg1, Zplus_mod_idemp_l. f_equal. lia. }
    assert (nth_slot s 0 = ip_data_out_buf_idx s) as Hn0 by (unfold nth_slot; rewrite Z.add_0_r; by apply Z.mod_small).
    split.
    + done.
    + split; [done|]. split; [congruence|]. intros m. by rewrite R3.
    + cbn [length]. by rewrite RI, Hns.
    + rewrite RT, Et, <- app_assoc. f_equal. cbn [imap app]. rewrite Hn0. f_equal. apply imap_ext. intros j y _. cbn [compose].
      by rewrite Sl1, Hns.
    + congruence.
    + intros m Hm Hj. rewrite RO; [|by rewrite Rg1|intros j Hjl; rewrite Hns; apply Hj; cbn [length]; lia].
      apply slot_other; [done|lia| |lia|lia]. rewrite <- Hn0. apply Hj. cbn [length]. lia.
    + intros Hlen j y Hy. cbn [length] in Hlen. destruct j as [|j].
      * cbn in Hy. injection Hy as <-. rewrite Hn0. rewrite RO; [apply slot_same; lia|by rewrite Rg1|].
        intros j Hj. rewrite Hns. unfold nth_slot. apply mod_ne; lia.
      * cbn in Hy. rewrite <- Hns. apply RK; [|done]. rewrite Rg1. lia.
Qed.

(** What a reader of memory finds at a slot. *)
Lemma slot_load x (s : iop C) i o m : ring_ok s i o -> 0 <= m < rings s -> rxpkt_ok x ->
  take (length (x_bytes x)) (slot_bytes o m) = x_bytes x ->
  h_load (heap s) (slot s m + 6) (length (x_body x)) = Some (x_body x).
Proof.
  intros Hr Hm Hx Es. destruct (x_head_bytes x Hx) as (_ & _ & _ & _ & Hlx). pose proof (slot_room s i o m Hr Hm) as Hroom.
  pose proof (length_x_bytes x) as Lx. unfold x_len in Lx.
  unfold slot_bytes in Es. rewrite take_take, Nat.min_l in Es by lia.
  unfold h_load. rewrite (h_rest_run _ _ i (slot_off m + 6)%nat o); [|
    replace (slot s m + 6) with (ip_data_out_buf s + Z.of_nat (slot_off m + 6)) by (unfold slot, slot_off, DATA_BUF_LEN; lia);
    rewrite (h_find_offset _ _ i 0 o _ (ro_disjoint s i o Hr) (ro_find s i o Hr) (ro_obj s i o Hr)) by lia; done|apply Hr].
  rewrite (proj2 (Nat.leb_le _ _)) by (rewrite length_drop; lia). f_equal. rewrite <- drop_drop.
  pose proof (x_at_body x 0 ltac:(lia)) as Eb. rewrite drop_0, Nat.add_0_r in Eb.
  transitivity (take (length (x_body x)) (drop 6 (x_bytes x))); [|rewrite Eb; apply take_app_length].
  rewrite <- Es, skipn_firstn_comm, take_take. f_equal. lia.
Qed.

End Rx.

(** ** The wait for a packet *)

Section Wait.
Context {C : Type} `{Card C} `{Fuel} `{StackEnv} `{Rand}.

(** The values that successive reads of the interrupt status give. *)
Inductive polls : C -> list Z -> C -> Prop :=
| polls_nil c : polls c [] c
| polls_cons c v c1 l c2 : card_read_byte 1 F1_HOST_INT_STATUS c = Ok (v, c1) -> polls c1 l c2 -> polls c (v :: l) c2.

Definition idle (v : Z) : Prop := nz (Z.land v 1) = false.

Lemma wait_rx_idle l n c' (s : iop C) : polls (card s) l c' -> Forall idle l ->
  wait_rx (length l + n) s = wait_rx n (s <| card := c' |>).
Proof.
  intros Hp Hl. remember (card s) as c eqn:Ec. revert s Ec. induction Hp as [c|c v c1 l c2 E Hp IH]; intros s ->.
  - by destruct s.
  - apply Forall_cons in Hl as [Hv Hl]. cbn [length Nat.add wait_rx]. unfold bind, on_card, zoom, wifi_card_read_func1_u8. rewrite E.
    unfold idle in Hv. rewrite Hv. by rewrite (IH Hl (s <| card := c1 |>)).
Qed.

Lemma wait_rx_ready_at n v c' (s : iop C) : card_read_byte 1 F1_HOST_INT_STATUS (card s) = Ok (v, c') -> ~ idle v ->
  wait_rx (S n) s = Ok (Z.of_nat n, s <| card := c' |>).
Proof.
  intros E Hv. cbn [wait_rx]. unfold bind, on_card, zoom, wifi_card_read_func1_u8. rewrite E.
  unfold idle in Hv. apply not_false_is_true in Hv. by rewrite Hv.
Qed.
End Wait.

(** ** A queue of packets *)

(** The mailbox by itself: packets to read, everything else ignored. *)
Record rxq := { queue : list bytes }.

#[export] Instance rxq_card : Card rxq := {|
  card_read_byte := fun f a c =>
    let p := match queue c with p :: _ => p | [] => [] end in
    Ok (if a =? F1_HOST_INT_STATUS then if bool_decide (queue c = []) then 0 else 1
        else if (F1_RX_LOOKAHEAD0 <=? a) && (a <? F1_RX_LOOKAHEAD0 + 4) then nth (Z.to_nat (a - F1_RX_LOOKAHEAD0)) p 0 else 0, c);
  card_write_byte := fun _ _ _ c => Ok (0, c);
  card_read_32bit := fun _ b _ c => Ok ((0, bdata b), c);
  card_read_block := fun _ b _ c =>
    match queue c with
    | p :: q => if (length p <=? length (bdata b))%nat then Ok ((0, blit 0 p (bdata b)), {| queue := q |}) else Fault OobWrite
    | [] => Ok ((0, bdata b), c)
    end;
  card_write_block := fun _ _ _ c => Ok (0, c);
  card_wait := fun c => Ok (tt, c)
|}.

#[export] Instance rxq_rx : RxCard rxq.
Proof.
  refine {| rx_ok := fun _ => True; rx_queue := queue |}.
  - intros c _. eexists _, c. split; [reflexivity|]. split; [|done]. by destruct (bool_decide _).
  - intros c p q i _ Hq Hi. exists c. split; [|done]. cbn [card_read_byte rxq_card]. rewrite Hq.
    rewrite (proj2 (Z.eqb_neq _ _)) by (unfold F1_RX_LOOKAHEAD0, F1_HOST_INT_STATUS; lia).
    rewrite (proj2 (Z.leb_le _ _)), (proj2 (Z.ltb_lt _ _)) by lia. cbn [andb]. do 3 f_equal. lia.
  - intros c p q b n _ Hq Hn Hm Hl Ha Hn2. exists {| queue := q |}. cbn [card_read_block rxq_card]. rewrite Hq.
    rewrite (proj2 (Nat.leb_le _ _)) by lia. done.
  - intros c _. by exists c.
Defined.

(** ** Connection events *)

(** The commands of [wmi_scan] and of a dropped connection. *)
Definition scan_setup : list mpkt :=
  [wmi_pkt 0 WMI_TARGET_ERROR_REPORT_BITMASK_CMD (le_bytes 4 0x7F); wmi_pkt 0 WMI_SET_HEARTBEAT_TIMEOUT_CMD (le_bytes 4 0);
   wmi_pkt 0 WMI_GET_CHANNEL_LIST_CMD []; wmi_pkt 0 WMI_SET_BSS_FILTER_CMD (bss_filter_params 0 0);
   wmi_pkt 0 WMI_SET_PROBED_SSID_CMD (replicate 35 0)].
Definition drop_cmds : list mpkt :=
  [wmi_pkt 0 WMI_DISCONNECT_CMD (le_bytes 4 0); wmi_pkt 0 WMI_DELETE_BAD_AP_CMD [0]] ++ scan_setup.
(** The variables afterwards: no network, the scan starts over. *)
Definition dropped (w : wmi_static) : wmi_static :=
  w <| ap_found := false |> <| ap_connected := false |> <| sent_connect := false |> <| num_rounds_scanned := 0 |>
    <| wmi_bScanning := true |>.
Definition must_drop (reason : Z) (w : wmi_static) : bool :=
  if ap_connected w then (reason =? 4) || (reason =? 1) || (reason =? 5) else sent_connect w.

Definition connected_msg : Wifi_FifoMsg := {| fcmd := WIFI_IPCINT_CONNECT; fbody := FNone |}.
Definition keyless_cmds : list mpkt :=
  [wmi_pkt 0 WMI_SYNCHRONIZE_CMD [1]; data_pkt 0 [0x00; 0x02]; data_pkt 0 [0x00; 0x02]; wmi_pkt 0 WMI_SYNCHRONIZE_CMD [1]].

Section Events.
Context {C : Type} `{MboxCard C} `{Fuel} `{StackEnv} `{Rand}.

Lemma runs_cmd ty p (s : iop C) : iop_ok s -> wmi_idk (wmi s) = 0 -> Z.of_nat (length p) <= 0x5F8 ->
  runs_tt (send_params ty p) s (apushes [wmi_pkt 0 ty p]).
Proof. intros. by apply send_cmd_runs. Qed.

Ltac step_cmd := eapply runs_tt_seq; [apply runs_cmd; [assumption|congruence|vm_compute; discriminate]|
  let s := fresh "s" in let O := fresh "O" in let A := fresh "A" in intros s O A; wmi_after A].

Lemma wmi_scan_runs (s : iop C) : iop_ok s -> wmi_idk (wmi s) = 0 ->
  runs_tt wmi_scan s (fun a => apushes scan_setup (awmi (fun w => w <| wmi_bScanning := true |>) a)).
Proof.
  intros Hs Hi. unfold wmi_scan, wmi_set_bss_filter. eapply runs_ext.
  - step_cmd. step_cmd.
    eapply runs_tt_seq; [apply (wmi_send_none_runs 0); [assumption|congruence]|]. intros s2 O2 A2. wmi_after A2.
    step_cmd. step_cmd. by apply runs_wset.
  - cbv beta. by rewrite !awmi_apushes, !apushes_app.
Qed.

Lemma drop_connection_runs (s : iop C) : iop_ok s -> wmi_idk (wmi s) = 0 ->
  runs_tt drop_connection s (fun a => apushes drop_cmds (awmi dropped a)).
Proof.
  intros Hs Hi. unfold drop_connection, wmi_disconnect_cmd, wmi_delete_bad_ap_cmd. eapply runs_ext.
  - eapply runs_tt_seq; [by apply runs_wset|]. intros s1 O1 A1. wmi_after A1.
    assert (wmi_idk (wmi s1) = 0) as Hi1 by (rewrite A1; exact Hi). step_cmd. step_cmd. apply wmi_scan_runs; [done|congruence].
  - cbv beta. by rewrite !awmi_apushes, !apushes_app, awmi_awmi.
Qed.

Lemma disconnect_runs pkt reason (s : iop C) : iop_ok s -> wmi_idk (wmi s) = 0 -> pkt !! 8%nat = Some reason ->
  runs_tt (handle_disconnect pkt) s
    (fun a => if must_drop reason (wmi s) then apushes drop_cmds (awmi dropped a) else a).
Proof.
  intros Hs Hi Hp. unfold handle_disconnect, must_drop. rewrite Hp. eapply runs_tt_opt; [done|]. apply runs_tt_get.
  destruct (ap_connected (wmi s)) eqn:Ec; cbn [negb andb].
  - eapply runs_ext; [eapply runs_tt_seq; [by apply runs_tt_ret|]|].
    + intros s1 O1 A1. wmi_after A1. apply runs_tt_get. rewrite A1, Ec. cbn [andb].
      instantiate (1 := fun a => if (reason =? 4) || (reason =? 1) || (reason =? 5) then apushes drop_cmds (awmi dropped a) else a).
      destruct (_ || _ || _); [|by apply runs_tt_ret]. apply drop_connection_runs; [done|congruence].
    + done.
  - destruct (sent_connect (wmi s)).
    + eapply runs_ext; [eapply runs_tt_seq; [by apply drop_connection_runs|]|].
      * intros s1 O1 A1. apply (f_equal wmi) in A1. change (wmi s1 = dropped (wmi s)) in A1.
        apply runs_tt_get. rewrite A1. cbn [ap_connected dropped andb set]. by apply runs_tt_ret.
      * done.
    + eapply runs_ext; [eapply runs_tt_seq; [by apply runs_tt_ret|]|].
      * intros s1 O1 A1. wmi_after A1. apply runs_tt_get. rewrite A1, Ec. cbn [andb]. by apply runs_tt_ret.
      * done.
Qed.

Lemma target_error_runs pkt err (s : iop C) : iop_ok s -> wmi_idk (wmi s) = 0 -> getle32 pkt = Some err ->
  runs_tt (handle_target_error pkt) s (fun a => if err =? 8
    then apushes (wmi_pkt 0 WMI_TARGET_ERROR_REPORT_BITMASK_CMD (le_bytes 4 0x7F) :: drop_cmds) (awmi dropped a)
    else apushes [wmi_pkt 0 WMI_TARGET_ERROR_REPORT_BITMASK_CMD (le_bytes 4 0x7F)] a).
Proof.
  intros Hs Hi He. unfold handle_target_error. rewrite He. eapply runs_tt_opt; [done|]. eapply runs_ext.
  - step_cmd. instantiate (1 := fun a => if err =? 8 then apushes drop_cmds (awmi dropped a) else a).
    destruct (err =? 8); [apply drop_connection_runs; [done|congruence]|by apply runs_tt_ret].
  - cbv beta. destruct (err =? 8); [|done]. by rewrite awmi_apushes, apushes_app.
Qed.

Lemma keyless_runs (s : iop C) : iop_ok s -> wmi_idk (wmi s) = 0 -> ap_security_type (wmi s) <> AP_WPA2 ->
  runs_tt (wmi_post_handshake None None None) s
    (fun a => apushes keyless_cmds (afifo {| fcmd := WIFI_IPCINT_READY; fbody := FNone |} a)).
Proof.
  intros Hs Hi Hsec. unfold wmi_post_handshake. eapply runs_ext.
  - step_cmd.
    eapply runs_tt_seq; [by apply data_send_runs|]. intros s2 O2 A2. wmi_after A2.
    eapply runs_tt_seq; [by apply data_send_runs|]. intros s3 O3 A3. wmi_after A3.
    apply runs_tt_get. rewrite (proj2 (Z.eqb_neq (ap_security_type (wmi s3)) AP_WPA2)) by congruence.
    eapply runs_tt_seq; [by apply runs_tt_ret|]. intros s4 O4 A4. wmi_after A4. step_cmd. by apply runs_fifo.
  - cbv beta. by rewrite !afifo_apushes, !apushes_app.
Qed.

Lemma connect_event_runs (s : iop C) : iop_ok s -> wmi_idk (wmi s) = 0 ->
  runs_tt handle_connect s (fun a =>
    let a := afifo connected_msg (awmi (fun w => w <| ap_connected := true |>) a) in
    if (ap_security_type (wmi s) =? AP_OPEN) || (ap_security_type (wmi s) =? AP_WEP)
    then apushes keyless_cmds (afifo {| fcmd := WIFI_IPCINT_READY; fbody := FNone |} a) else a).
Proof.
  intros Hs Hi. unfold handle_connect, wifi_card_send_connect. eapply runs_ext.
  - eapply runs_tt_seq; [by apply runs_wset|]. intros s1 O1 A1. wmi_after A1.
    eapply runs_tt_seq; [by apply runs_fifo|]. intros s2 O2 A2. wmi_after A2. apply runs_tt_get.
    assert (ap_security_type (wmi s2) = ap_security_type (wmi s)) as Es by (by rewrite A2, A1). rewrite Es.
    instantiate (1 := fun a => if (ap_security_type (wmi s) =? AP_OPEN) || (ap_security_type (wmi s) =? AP_WEP)
      then apushes keyless_cmds (afifo {| fcmd := WIFI_IPCINT_READY; fbody := FNone |} a) else a).
    destruct (_ || _) eqn:Eo; [|by apply runs_tt_ret]. apply keyless_runs; [done|by rewrite A2, A1|].
    rewrite Es. intros Ew. rewrite Ew in Eo. discriminate.
  - done.
Qed.

End Events.

(** ** Theorems *)

(** The ack trailer: on any sequence of well-formed records, whatever
    follows them in memory, the parser keeps the header announced by the first
    lookahead record and skips all others; it never reads beyond the records
    and its fuel (one turn per byte) is never used up. *)
Theorem ack_trailer_roundtrip l rest la :
  Forall rec_ok l -> Z.of_nat (length (encode l)) < 65536 ->
  parse_acks (length (encode l)) (encode l ++ rest) 0 (Z.of_nat (length (encode l))) false la =
    Ok (match first_lookahead l with Some v => (true, v) | None => (false, la) end).
Proof.
  intros Hl Hlen. pose proof (parse_acks_read l [] rest (length (encode l)) false la Hl) as P. cbn [app length] in P.
  apply P; [done|apply length_acks].
Qed.

Definition demo_trailer : list rec := [(1, [5; 6]); (2, [0xAA; 2; 0; 0x20; 0; 0x55]); (2, [0xAA; 9; 9; 9; 9; 0x55])].
Lemma demo_trailer_ok : Forall rec_ok demo_trailer.
Proof. repeat constructor; cbn; unfold byte_ok; lia. Qed.

Lemma ack_trailer_roundtrip_witness :
  parse_acks 20 (encode demo_trailer ++ [7]) 0 20 false 0 = Ok (true, 0x200002).
Proof. exact (ack_trailer_roundtrip demo_trailer [7] 0 demo_trailer_ok eq_refl). Defined.

(** C21: delivery of received data: when the mailbox holds a sequence of data
    packets (not EAPOL frames) and the ring is set up, reading as many packets
    empties the mailbox and announces every packet once, in order, with the
    address of its ring slot and its length without the trailer; the ring index
    advances by one slot a packet, modulo the number of slots, nothing else is
    announced and the connection state is not touched.  When there are no more
    packets than slots, each announced address holds its packet at the end. *)
Theorem data_stream_delivered {C} `{RxCard C} `{Fuel} `{StackEnv} `{Rand} r xs i o (s : iop C) :
  rx_ok (card s) -> rx_queue (card s) = map x_bytes xs -> Forall data_ok xs ->
  truthful_all xs -> coherent s -> ring_ok s i o ->
  exists s', read_all r (length xs) s = Ok (tt, s') /\ rx_queue (card s') = [] /\
    trace s' = trace s ++ imap (fun j x => pktdata (slot s (nth_slot s j) + 6) (length (x_body x))) xs /\
    ip_data_out_buf_idx s' = (ip_data_out_buf_idx s + Z.of_nat (length xs)) mod rings s /\ wmi s' = wmi s /\
    (Z.of_nat (length xs) <= rings s -> forall j x, xs !! j = Some x ->
       h_load (heap s') (slot s (nth_slot s j) + 6) (length (x_body x)) = Some (x_body x)).
Proof.
  intros Hc Hq Hxs Ht Hco Hr. destruct (stream_run r xs i s o Hc Hq Hxs Ht Hco Hr) as (s' & o' & E & [[_ Q] (R1 & R2 & R3) RI RT RW _ RK]).
  exists s'. split; [done|]. split; [done|]. split; [done|]. split; [done|]. split; [done|].
  intros Hn j x Hx. rewrite <- R3. apply (slot_load x s' i o'); [done| | |by apply RK].
  - rewrite R2. unfold nth_slot. apply Z.mod_pos_bound, Hr.
  - apply (proj1 (Forall_lookup _ _) Hxs j x Hx).
Qed.

Definition demo_pkt (b : Z) (t : list rec) : rxpkt :=
  {| x_type := 2; x_ack := 2; x_b4 := Z.of_nat (length (encode t)); x_b5 := 0; x_body := replicate 30 b; x_trailer := t;
     x_pad := replicate (128 - 36 - length (encode t)) 0 |}.
Definition demo_xs : list rxpkt :=
  [demo_pkt 1 [(2, [0xAA; 2; 2; 30; 0; 0x55])]; demo_pkt 7 []].
Definition demo_ring : iop rxq :=
  (iop0 {| queue := map x_bytes demo_xs |})
    <| heap := [{| baddr := 0x2000000; bdata := replicate 0xC00 0 |}] |> <| ip_data_out_buf := 0x2000000 |>
    <| ip_data_out_buf_totlen := 0xC00 |>.

Lemma demo_xs_ok : Forall data_ok demo_xs /\ truthful_all demo_xs.
Proof.
  split.
  - repeat constructor; try (vm_compute; lia); try reflexivity; try (apply Forall_range; reflexivity);
      vm_compute; congruence.
  - repeat split; intros v p q' E1 E2; [injection E1 as <-; injection E2 as <- _; reflexivity|discriminate].
Qed.

Lemma demo_ring_ok : ring_ok demo_ring 0 {| baddr := 0x2000000; bdata := replicate 0xC00 0 |}.
Proof.
  split; try reflexivity; try (vm_compute; split; congruence).
  intros [|a] [|b] x y Hx Hy Hn; try done; cbn in Hx, Hy; by destruct a || by destruct b.
Qed.

Lemma data_stream_delivered_witness : let _ : Fuel := 1%nat in let _ : Rand := fun z => (z, z) in
  exists s', read_all hang 2 demo_ring = Ok (tt, s') /\ trace s' = [pktdata 0x2000006 30; pktdata 0x2000606 30] /\
    h_load (heap s') 0x2000606 30 = Some (replicate 30 7).
Proof.
  intros F R. destruct (data_stream_delivered hang demo_xs 0 {| baddr := 0x2000000; bdata := replicate 0xC00 0 |} demo_ring)
    as (s' & E & _ & T & _ & _ & K).
  - exact I.
  - reflexivity.
  - apply demo_xs_ok.
  - apply demo_xs_ok.
  - intros Hf. discriminate.
  - exact demo_ring_ok.
  - exists s'. split; [exact E|]. split; [exact T|]. apply (K ltac:(vm_compute; congruence) 1%nat (demo_pkt 7 []) eq_refl).
Defined.

(** The test for a timeout is inverted at its boundary: after 100 polls
    without data the counter is -1, so that the reader goes on and reads a
    packet that is not there; when the data arrives with the 100th poll the
    counter is 0 and the reader reports a timeout and leaves the packet. *)
Theorem rx_timeout_misjudged {C} `{Card C} `{Fuel} `{StackEnv} `{Rand} r l c' (s : iop C) :
  polls (card s) l c' ->
  (length l = 100%nat -> Forall idle l -> readpkt_body r s = read_one r (s <| card := c' |>)) /\
  (forall v c2, length l = 99%nat -> Forall idle l -> card_read_byte 1 F1_HOST_INT_STATUS c' = Ok (v, c2) -> ~ idle v ->
     readpkt_body r s = Ok (0, s <| card := c2 |>)).
Proof.
  intros Hp. split; [intros Hl Hi|intros v c2 Hl Hi E Hv]; unfold readpkt_body.
  - pose proof (wait_rx_idle l 0 c' s Hp Hi) as Ew. rewrite Nat.add_0_r, Hl in Ew. cbn [wait_rx] in Ew.
    unfold ret in Ew. by rewrite (bind_run _ _ _ _ _ Ew).
  - pose proof (wait_rx_idle l 1 c' s Hp Hi) as Ew. rewrite Hl in Ew. change (99 + 1)%nat with 100%nat in Ew.
    rewrite (wait_rx_ready_at 0 v c2 (s <| card := c' |>)) in Ew by done. by rewrite (bind_run _ _ _ _ _ Ew).
Qed.

(** On an empty mailbox the reader takes the header 0 for a packet and hands it
    to the HTC handler instead of returning. *)
Lemma idle_polls n : polls {| queue := [] |} (replicate n 0) {| queue := [] |}.
Proof. induction n as [|n IH]; [constructor|]. by econstructor. Qed.

Lemma rx_timeout_misjudged_witness : let _ : Fuel := 1%nat in let _ : Rand := fun z => (z, z) in
  let s := (iop0 {| queue := [] |}) <| mbox_has_lookahead := false |> in
  readpkt_body hang s = read_one hang s.
Proof.
  intros F R s. destruct (rx_timeout_misjudged hang (replicate 100 0) {| queue := [] |} s (idle_polls 100)) as [H1 _].
  rewrite H1; [reflexivity|reflexivity|]. apply Forall_replicate. reflexivity.
Defined.

(** C40: a packet longer than the buffer overruns it: the reader accepts lengths
    up to 0x2000 but the mailbox buffer has 0x600 bytes, so that on the SDIO
    controller the block read of a WMI packet of 0x5FB to 0x2000 bytes writes
    behind the buffer. *)
Theorem rx_oversized_overflows `{Fuel} `{StackEnv} `{Rand} d len i o (s : iop (bus tmdev)) :
  (0 < poll_fuel)%nat -> bus_ready (card s) -> nz (Z.land (cregs (bhw (card s)) 1 F1_HOST_INT_STATUS) 1) = true ->
  mbox_has_lookahead s = true -> mbox_lookahead s = MBOXPKT_WMI + 65536 * len -> 0x5FA < len <= 0x2000 ->
  h_find (heap s) (mbox_buffer s) = Some (i, 0%nat) -> heap s !! i = Some o -> length (bdata o) = 0x600%nat ->
  mbox_buffer s mod 4 = 0 ->
  wifi_card_mbox0_readpkt (S d) s = Fault OobWrite.
Proof.
  intros Hfuel Hb Hst Hh Hla Hlen Hf Ho Ll Hal. cbn [wifi_card_mbox0_readpkt]. unfold readpkt_body.
  destruct (bus_read_byte Hfuel 1 F1_HOST_INT_STATUS (card s) Hb) as (b' & E & Hb' & _); [lia|unfold F1_HOST_INT_STATUS; lia|].
  assert (wait_rx 100 s = Ok (99, s <| card := b' |>)) as Ew.
  { change 100%nat with (S 99). apply (wait_rx_ready_at 99 (cregs (bhw (card s)) 1 F1_HOST_INT_STATUS) b' s);
      [exact E|unfold idle; by rewrite Hst]. }
  rewrite (bind_run _ _ _ _ _ Ew). change (99 =? 0) with false. cbv iota. unfold read_one.
  assert (next_header (s <| card := b' |>) = Ok (MBOXPKT_WMI + 65536 * len, s <| card := b' |> <| mbox_has_lookahead := false |>)) as En.
  { rewrite <- Hla. unfold next_header, bind, gets.
    change (mbox_has_lookahead (s <| card := b' |>)) with (mbox_has_lookahead s). by rewrite Hh. }
  rewrite (bind_run _ _ _ _ _ En). cbv zeta. unfold MBOXPKT_WMI.
  change 0xFF with (2 ^ 8 - 1). rewrite !land_mask, !shiftr_div by lia.
  assert ((1 + 65536 * len) mod 2 ^ 8 = 1) as -> by zdm. assert ((1 + 65536 * len) / 2 ^ 16 = len) as -> by zdm.
  rewrite (bind_run (gets ip_data_out_buf) _ _ _ _ eq_refl). change (is_data 1) with false. rewrite andb_false_r.
  rewrite (bind_run (gets mbox_buffer) _ _ _ _ eq_refl). rewrite (proj2 (Z.ltb_ge _ _)) by lia.
  rewrite round_up_128. set (n := (len + 6 + 127) / 128 * 128).
  assert (0x600 < n <= 0x2080 /\ n mod 128 = 0) as [Hn Hm] by (subst n; zdm). clearbody n. rewrite (u16_id n), u16_id by lia.
  unfold bind at 1, read_block, bind at 1, mem_rest. cbn [heap mbox_buffer set set_card set_mbox_has_lookahead].
  rewrite (h_rest_run _ _ _ _ _ Hf Ho). unfold bind at 1, on_card, zoom.
  assert (card_read_block (0x4000 - n) {| baddr := mbox_buffer s; bdata := drop 0 (bdata o) |} n b' = Fault OobWrite) as Eo.
  { apply (bus_read_overflow Hfuel); [done|lia|done| |done]. cbn [bdata]. rewrite drop_0, Ll. lia. }
  change (card (s <| card := b' |> <| mbox_has_lookahead := false |>)) with b'. by rewrite Eo.
Qed.

Definition demo_bus : iop (bus tmdev) :=
  (iop0 {| bhw := {| p0 := 0; p1 := 0; rsp := 0; cregs := fun _ _ => 1; dmalog := [] |}; device_curctx := Some tmio0 |})
    <| mbox_has_lookahead := true |> <| mbox_lookahead := 1 + 65536 * 0x600 |>.

Lemma rx_oversized_overflows_witness : let _ : Fuel := 1%nat in let _ : Rand := fun z => (z, z) in
  wifi_card_mbox0_readpkt 1 demo_bus = Fault OobWrite.
Proof.
  intros F R. assert (Hf : (0 < @poll_fuel 1%nat)%nat) by (unfold poll_fuel; lia).
  apply (@rx_oversized_overflows 1%nat _ R 0 0x600 1 {| baddr := 0x3801000; bdata := replicate 0x600 0 |} demo_bus Hf).
  - exists tmio0. repeat split; unfold byte_ok; cbn; lia.
  - reflexivity.
  - reflexivity.
  - reflexivity.
  - lia.
  - reflexivity.
  - reflexivity.
  - reflexivity.
  - reflexivity.
Defined.

(** The end of a connection: on a disconnect event the driver starts over
    exactly when it was trying to connect, or was connected and the reason is
    1, 4 or 5: it forgets the network, sends DISCONNECT and DELETE_BAD_AP once
    and sets up a new scan; in every other case the event changes nothing and
    sends nothing. *)
Theorem disconnect_restarts_scan {C} `{MboxCard C} `{Fuel} `{StackEnv} `{Rand} pkt reason len (s : iop C) :
  iop_ok s -> wmi_idk (wmi s) = 0 -> pkt !! 8%nat = Some reason ->
  exists s', wmi_handle_pkt WMI_DISCONNECT_EVENT pkt len s = Ok (tt, s') /\ iop_ok s' /\
    (if must_drop reason (wmi s)
     then abs s' = apushes drop_cmds (awmi dropped (abs s)) else abs s' = abs s).
Proof.
  intros Hs Hi Hp. destruct (disconnect_runs pkt reason s Hs Hi Hp) as (s' & E & Hs' & A).
  exists s'. split; [exact E|]. split; [done|]. by destruct (must_drop reason (wmi s)).
Qed.

Lemma disconnect_restarts_scan_witness : let _ : Fuel := 1%nat in let _ : Rand := fun z => (z, z) in
  let s := demo <| wmi := demo_wmi <| ap_connected := true |> <| ap_found := true |> |> in
  exists s', wmi_handle_pkt WMI_DISCONNECT_EVENT [0; 0; 0; 0; 0; 0; 0; 0; 4] 9 s = Ok (tt, s') /\
    ap_found (wmi s') = false /\ map decode (blocks (card s')) = map Some drop_cmds.
Proof.
  intros F R s. destruct (disconnect_restarts_scan [0; 0; 0; 0; 0; 0; 0; 0; 4] 4 9 s) as (s' & E & _ & A).
  - exact demo_ok.
  - reflexivity.
  - reflexivity.
  - exists s'. split; [exact E|]. split; [exact (f_equal (fun a => ap_found (wmi a)) A)|exact (f_equal card A)].
Defined.

(** A fatal error of the firmware (target error 8) also starts over, after
    the error mask has been written again; any other target error only
    rewrites the mask. *)
Theorem target_error_recovers {C} `{MboxCard C} `{Fuel} `{StackEnv} `{Rand} err rest len (s : iop C) :
  iop_ok s -> wmi_idk (wmi s) = 0 -> 0 <= err < 2 ^ 32 ->
  exists s', wmi_handle_pkt WMI_TARGET_ERROR_REPORT_EVENT (le_bytes 4 err ++ rest) len s = Ok (tt, s') /\ iop_ok s' /\
    abs s' = if err =? 8
      then apushes (wmi_pkt 0 WMI_TARGET_ERROR_REPORT_BITMASK_CMD (le_bytes 4 0x7F) :: drop_cmds) (awmi dropped (abs s))
      else apushes [wmi_pkt 0 WMI_TARGET_ERROR_REPORT_BITMASK_CMD (le_bytes 4 0x7F)] (abs s).
Proof.
  intros Hs Hi He. destruct (target_error_runs (le_bytes 4 err ++ rest) err s Hs Hi) as (s' & E & Hs' & A); [|by exists s'].
  rewrite getle32_app by (apply length_le_bytes || apply le_bytes_ok). rewrite le_val_bytes. f_equal. by apply Z.mod_small.
Qed.

Lemma target_error_recovers_witness : let _ : Fuel := 1%nat in let _ : Rand := fun z => (z, z) in
  exists s', wmi_handle_pkt WMI_TARGET_ERROR_REPORT_EVENT [8; 0; 0; 0] 4 demo = Ok (tt, s') /\
    num_rounds_scanned (wmi s') = 0 /\ length (blocks (card s')) = 8%nat.
Proof.
  intros F R. destruct (target_error_recovers 8 [] 4 demo) as (s' & E & _ & A).
  - exact demo_ok.
  - reflexivity.
  - lia.
  - exists s'. split; [exact E|]. split; [exact (f_equal (fun a => num_rounds_scanned (wmi a)) A)|].
    rewrite <- (length_map decode). exact (f_equal (fun a => length (card a)) A).
Defined.

(** A connect event is announced to the other processor; on an open or WEP
    network the link is ready at once (synchronisation, two empty frames,
    READY), on a WPA2 network nothing more happens until the handshake. *)
Theorem connect_event_announced {C} `{MboxCard C} `{Fuel} `{StackEnv} `{Rand} pkt len (s : iop C) :
  iop_ok s -> wmi_idk (wmi s) = 0 ->
  exists s', wmi_handle_pkt WMI_CONNECT_EVENT pkt len s = Ok (tt, s') /\ iop_ok s' /\
    wmi s' = (wmi s) <| ap_connected := true |> /\
    let keyless := (ap_security_type (wmi s) =? AP_OPEN) || (ap_security_type (wmi s) =? AP_WEP) in
    trace s' = trace s ++ FifoSend connected_msg ::
      (if keyless then [FifoSend {| fcmd := WIFI_IPCINT_READY; fbody := FNone |}] else []) /\
    card (abs s') = card (abs s) ++ map Some (if keyless then keyless_cmds else []).
Proof.
  intros Hs Hi. destruct (connect_event_runs s Hs Hi) as (s' & E & Hs' & A). exists s'. split; [exact E|]. split; [done|].
  cbv zeta in A |- *. destruct (_ || _).
  - split; [exact (f_equal wmi A)|]. split; [|exact (f_equal card A)]. apply (f_equal trace) in A. change (trace s') with (trace (abs s')). rewrite A.
    cbn [trace apushes afifo awmi set set_card set_trace set_wmi]. by rewrite <- app_assoc.
  - split; [exact (f_equal wmi A)|]. split; [exact (f_equal trace A)|]. cbn [map]. rewrite app_nil_r. exact (f_equal card A).
Qed.

Lemma connect_event_announced_witness : let _ : Fuel := 1%nat in let _ : Rand := fun z => (z, z) in
  exists s', wmi_handle_pkt WMI_CONNECT_EVENT [] 0 demo = Ok (tt, s') /\
    trace s' = [FifoSend connected_msg; FifoSend {| fcmd := WIFI_IPCINT_READY; fbody := FNone |}] /\
    map decode (blocks (card s')) = map Some keyless_cmds.
Proof.
  intros F R. destruct (connect_event_announced [] 0 demo) as (s' & E & _ & _ & T & A).
  - exact demo_ok.
  - reflexivity.
  - exists s'. split; [exact E|]. split; [exact T|exact A].
Defined.
