(* ===== verification/Init.v ===== *)
(** Bringing the card up and down: wifi_card.twl.c lines 1108-1163 and
    1208-1612.

    These functions work on [device_curctx] itself, so they are written on the
    SDIO controller ([bus D]) and not on the [Card] interface.  The flash
    contents, the allocator's answers and the interrupts that are taken while
    the code waits are arguments. *)

From S2P Require Import Prelude Cmonad Cutils Wpa Sdio Heap Card State Mbox Wmi Bss Eapol Pkt.

Definition CHIP_ID_AR6002 : Z := 0x02000001.
Definition CHIP_ID_AR6013 : Z := 0x0D000000.
Definition CHIP_ID_AR6014 : Z := 0x0D000001.
Definition AR6002_HOST_INTEREST_ADDRESS : Z := 0x00500400.
Definition AR601x_HOST_INTEREST_ADDRESS : Z := 0x00520000.
Definition NVRAM_ADDR_WIFICFG : Z := 0x1F400.
Definition WRITE_FOUT_1 : Z := 0x72.
Definition WRITE_FOUT_2 : Z := 0x74.
Definition IRQ_WIFI_SDIO_CARDIRQ : Z := Z.shiftl 1 11.
Definition SDIO_TICK_INTERVAL_MS : Z := 1.

Definition cmd5 : wifi_sdio_command :=
  {| cmd := 5; command_type := 0; response_type := 7; data_transfer := 0; data_direction := 0; data_length := 0;
     secure := 0; unknown := 0 |}.
Definition cmd3 : wifi_sdio_command :=
  {| cmd := 3; command_type := 0; response_type := wifi_sdio_resp_48bit; data_transfer := 0; data_direction := 0;
     data_length := 0; secure := 0; unknown := 0 |}.
Definition cmd7 : wifi_sdio_command :=
  {| cmd := 7; command_type := 0; response_type := 5; data_transfer := 0; data_direction := 0; data_length := 0;
     secure := 0; unknown := 0 |}.

(** [memset(ctx, 0, sizeof(wifi_card_ctx))] *)
Definition zero_ctx : wifi_sdio_ctx :=
  {| controller := 0; address := 0; port := 0; clk_cnt := 0; bus_width := 0; buffer := None; size := 0;
     resp := [0; 0; 0; 0]; status := 0; stat0 := 0; stat1 := 0; err0 := 0; err1 := 0; block_size := 0;
     break_early := false |}.
Definition eta_ctx (c : wifi_sdio_ctx) : wifi_sdio_ctx :=
  Build_wifi_sdio_ctx (controller c) (address c) (port c) (clk_cnt c) (bus_width c) (buffer c) (size c) (resp c)
    (status c) (stat0 c) (stat1 c) (err0 c) (err1 c) (block_size c) (break_early c).
#[export] Instance set_controller : Setter controller := ltac:(mk_setter eta_ctx).
#[export] Instance set_address : Setter address := ltac:(mk_setter eta_ctx).
#[export] Instance set_port : Setter port := ltac:(mk_setter eta_ctx).
#[export] Instance set_clk_cnt : Setter clk_cnt := ltac:(mk_setter eta_ctx).
#[export] Instance set_bus_width : Setter bus_width := ltac:(mk_setter eta_ctx).
#[export] Instance set_ctx_block_size : Setter block_size := ltac:(mk_setter eta_ctx).
#[export] Instance set_ctx_break_early : Setter break_early := ltac:(mk_setter eta_ctx).

(** Is an interrupt of the card taken at this point? *)
Class Irq (D : Type) := irq_taken : D -> bool * D.

(** How the identification of the card ends. *)
Inductive opcond := OpSkip | OpDone | OpFail.

Section Init.
Context {D : Type} `{Hw D} `{Fuel} `{StackEnv} `{Rand} `{Irq D}.

Abbreviation drv := (iop (bus D)).

Definition upd_ctx (f : wifi_sdio_ctx -> wifi_sdio_ctx) : M (bus D) unit := on_ctx (modify (upd_tmio f)).
Definition ctx_get {A} (f : wifi_sdio_ctx -> A) : M (bus D) A := on_ctx (gets (fun s => f (tmio s))).

Definition wifi_card_switch_device : M (bus D) unit := on_ctx wifi_sdio_switch_device.
Definition wifi_card_setclk (data : Z) : M (bus D) unit := on_dev (wifi_sdio_setclk REG_SDIO_BASE data).
Definition wifi_card_stop : M (bus D) unit := on_dev (wifi_sdio_stop REG_SDIO_BASE).

(** ** Identification *)

(** CMD5 until the card reports that it is ready; [OpSkip] on an error. *)
Fixpoint op_cond (n : nat) (ocr : Z) : M (bus D) opcond :=
  match n with
  | O => hang
  | S n =>
      let* err := mloop poll_fuel
        (wifi_card_send_command cmd5 ocr ;;;
         let* st := ctx_get status in
         ret (if nz (Z.land st 4) then Some true else if nz (Z.land st 1) then Some false else None)) in
      if (err : bool) then ret OpSkip else
      let* r := ctx_get (fun c => nth 0 (resp c) 0) in
      if nz (Z.land r 0x80000000) then ret OpDone else op_cond n (Z.land r 0xFFFFFF)
  end.

(** CMD5, CMD3, CMD7. *)
Definition identify : M (bus D) opcond :=
  let* r := op_cond poll_fuel 0 in
  match r with
  | OpDone =>
      wifi_card_send_command cmd3 0 ;;;
      let* bad := failed_status in
      if (bad : bool) then ret OpFail else
      let* r0 := ctx_get (fun c => nth 0 (resp c) 0) in
      upd_ctx (fun c => c <| address := u16 (Z.shiftr r0 16) |>) ;;;
      let* a := ctx_get address in
      wifi_card_send_command cmd7 (u32 (Z.shiftl a 16)) ;;;
      let* bad := failed_status in
      ret (if (bad : bool) then OpFail else OpDone)
  | r => ret r
  end.

(** A register write followed by [if(ctx->tmio.status & 4) return -1;] *)
Definition write_checked (addr val : Z) (k : M (bus D) Z) : M (bus D) Z :=
  wifi_card_write_func0_u8 addr val ;;;
  let* bad := failed_status in
  if (bad : bool) then ret (-1) else k.

(** From [skip_opcond:] to the end of the block: bus width and block sizes. *)
Definition setup_bus : M (bus D) Z :=
  wifi_card_write_func0_u8 0x2 0x0 ;;;
  wifi_card_write_func0_u8 0x2 0x2 ;;;
  wifi_card_send_command cmd52 (Z.shiftl 0x07 9) ;;;
  let* bad := failed_status in
  if (bad : bool) then ret (-1) else
  let* r0 := ctx_get (fun c => nth 0 (resp c) 0) in
  let bus_interface_control := Z.lor (Z.land r0 0xFF) 0x82 in
  write_checked 0x07 bus_interface_control (
  upd_ctx (fun c => c <| bus_width := 4 |>) ;;;
  wifi_card_switch_device ;;;
  write_checked 0x12 0x02 (
  let* bs := ctx_get block_size in
  write_checked 0x110 (Z.land bs 0xFF) (
  write_checked 0x111 (Z.shiftr bs 8) (
  write_checked 0x10 (Z.land bs 0xFF) (
  write_checked 0x11 (Z.shiftr bs 8) (ret 0)))))).

(** ** wifi_card_wlan_init *)

(** Up to the test read of the revision register. *)
Definition power_up : M drv unit :=
  on_card (upd_ctx (fun c => c <| port := 0 |> <| address := 0 |> <| break_early := false |> <| block_size := 128 |>)) ;;;
  on_card (on_dev (fun d => let '(v, d) := hw_r16 0x4004C04 d in Ok (tt, hw_w16 0x4004C04 (Z.land (u16 v) (not16 0x100)) d))) ;;;
  emit (RtcTransaction [WRITE_FOUT_1; 0x80]) ;;;
  emit (RtcTransaction [WRITE_FOUT_2; 0x00]) ;;;
  emit (I2cPmWrite 0x30 0x13) ;;;
  on_card (on_dev (modify (hw_w16 0x4004020 0x1))) ;;;
  on_card (
    upd_ctx (fun c => c <| bus_width := 4 |>) ;;;
    wifi_card_switch_device ;;;
    wifi_card_read_func0_u8 0x00 ;;;
    let* bad := failed_status in
    if (bad : bool) then upd_ctx (fun c => c <| bus_width := 1 |>) ;;; wifi_card_switch_device else ret tt).

(** Function 1 enabled and ready. *)
Definition enable_func1 : M (bus D) unit :=
  wifi_card_write_func0_u8 0x02 0x02 ;;;
  mloop poll_fuel (let* v := wifi_card_read_func0_u8 0x3 in ret (if v =? 0x02 then Some tt else None)).

(** Chip identification; the host interest area depends on the chip. *)
Definition read_chip : M drv unit :=
  let* m := on_card (wifi_card_read_func0_u32 0x1007) in
  modify (fun s => s <| device_manufacturer := m |>) ;;;
  let* id := on_card (wifi_card_read_intern_word 0x000040ec) in
  modify (fun s => s <| device_chip_id := id |>) ;;;
  modify (fun s => s <| device_host_interest_addr :=
    if id =? CHIP_ID_AR6002 then AR6002_HOST_INTEREST_ADDRESS else AR601x_HOST_INTEREST_ADDRESS |>).

(** The bootloader conversation, ended by BMI_DONE. *)
Definition boot_firmware (hi : Z) : M (bus D) unit :=
  wifi_card_read_intern_word (hi + 0x58) ;;;
  wifi_card_write_intern_word 0x4000 0x00000100 ;;;
  wifi_card_read_intern_word 0x40C0 ;;;
  wifi_card_bmi_get_version ;;;
  wifi_card_bmi_cmd_write_memory hi (le_bytes 4 0x2) 4 ;;;
  let* scratch0 := wifi_card_bmi_read_register 0x0180C0 in
  wifi_card_bmi_write_register 0x0180C0 (Z.lor scratch0 0x8) ;;;
  let* wlan_system_sleep := wifi_card_bmi_read_register 0x0040C4 in
  wifi_card_bmi_write_register 0x0040C4 (Z.lor wlan_system_sleep 1) ;;;
  wifi_card_bmi_write_register 0x004028 0x5 ;;;
  wifi_card_bmi_write_register 0x004020 0x0 ;;;
  wifi_card_bmi_cmd_write_memory (hi + 0x6C) (le_bytes 4 0x80) 4 ;;;
  wifi_card_bmi_cmd_write_memory (hi + 0x74) (le_bytes 4 0x63) 4 ;;;
  wifi_card_bmi_start_firmware ;;;
  mloop poll_fuel (let* r := wifi_card_read_intern_word (hi + 0x58) in ret (if r =? 1 then Some tt else None)).

Definition read_eeprom : M drv unit :=
  let* hi := gets device_host_interest_addr in
  let* a := on_card (wifi_card_read_intern_word (hi + 0x54)) in
  modify (fun s => s <| device_eeprom_addr := a |>) ;;;
  let* v := on_card (wifi_card_read_intern_word (u32 (a + 0x10))) in
  modify (fun s => s <| device_eeprom_version := v |>).

Definition enable_irqs : M drv unit :=
  emit (IrqSetAux IRQ_WIFI_SDIO_CARDIRQ) ;;;
  emit (IrqEnableAux IRQ_WIFI_SDIO_CARDIRQ) ;;;
  on_card (on_dev (wifi_sdio_enable_cardirq REG_SDIO_BASE true)) ;;;
  on_card (wifi_card_write_func1_u32 F1_INT_STATUS_ENABLE 0x010300D1) ;;;
  on_card (wifi_card_write_func0_u8 0x4 0x3) ;;;
  emit (TimerStart 3 (1000 / SDIO_TICK_INTERVAL_MS)).

(** [while (!wmi_is_ready());]: the flag is set by the interrupt handler. *)
Definition wait_ready (depth : nat) : M drv unit :=
  mloop poll_fuel
    (let* r := wmi_is_ready in
     if (r : bool) then ret (Some tt) else
     let* taken := on_card (on_dev (fun d => Ok (irq_taken d))) in
     (if (taken : bool) then wifi_card_irq depth else ret tt) ;;;
     ret None).

Definition wifi_card_wlan_init (depth : nat) : M drv Z :=
  let* s := gets (fun s => s) in
  if (mbox_out_buffer s =? 0) || (mbox_buffer s =? 0) then hang else
  power_up ;;;
  on_card wifi_card_stop ;;;
  let* r := on_card identify in
  match r with
  | OpFail => ret (-1)
  | _ =>
      let* e := on_card setup_bus in
      if nz e then ret e else
      let* bad := on_card (wifi_card_read_func0_u8 0x00 ;;; failed_status) in
      if (bad : bool) then ret (-1) else
      on_card enable_func1 ;;;
      read_chip ;;;
      let* hi := gets device_host_interest_addr in
      on_card (boot_firmware hi) ;;;
      read_eeprom ;;;
      modify (fun s => s <| wifi_card_bInitted := true |>) ;;;
      enable_irqs ;;;
      wait_ready depth ;;;
      wmi_scan ;;;
      ret 0
  end.

(** The only device is the WLAN card; its context becomes the current one. *)
Definition wifi_card_device_init (depth : nat) : M drv Z :=
  modify (fun s => s <| card := {| bhw := bhw (card s);
    device_curctx := Some (zero_ctx <| controller := REG_SDIO_BASE |> <| clk_cnt := 0 |> <| bus_width := 1 |>) |} |>) ;;;
  wifi_card_wlan_init depth.

(** ** wifi_card_init, wifi_card_deinit *)

(** [mbox_buffer] and [mbox_out_buffer] as the allocator returns them;
    [flash a n] are the [n] bytes of the firmware flash at [a]. *)
Definition wifi_card_init (in_buf out_buf : option cbuffer) (flash : Z -> nat -> bytes) : M drv unit :=
  let ptr b := match b with Some o => baddr o | None => 0 end in
  let objs b := match b with Some o => [o] | None => [] end in
  modify (fun s => s <| heap := heap s ++ objs in_buf ++ objs out_buf |>) ;;;
  modify (fun s => (s <| mbox_buffer := ptr in_buf |>) <| mbox_out_buffer := ptr out_buf |>) ;;;
  let end_addr := u32 (le_val (flash 0x20 4%nat) * 0x8) in
  let wep := flash (u32 (end_addr - 0x400)) 0x300%nat in
  let cfg := flash NVRAM_ADDR_WIFICFG 0x600%nat in
  modify (fun s => s <| nvram_wep_configs := map (fun i => take 0x100 (drop (0x100 * i) wep)) [0; 1; 2]%nat |>) ;;;
  modify (fun s => s <| nvram_configs := map (fun i => take 0x200 (drop (0x200 * i) cfg)) [0; 1; 2]%nat |>) ;;;
  on_card (on_dev wifi_ndma_init) ;;;
  on_card (on_dev (wifi_sdio_controller_init REG_SDIO_BASE)) ;;;
  emit FifoSetHandler.

Definition wifi_card_deinit : M drv unit :=
  on_card (on_dev (wifi_sdio_enable_cardirq REG_SDIO_BASE false)) ;;;
  emit (IrqDisableAux IRQ_WIFI_SDIO_CARDIRQ) ;;;
  emit IrqDisableTimer3 ;;;
  let* b := gets wifi_card_bInitted in
  (if b then
     on_card (wifi_card_write_func1_u32 F1_INT_STATUS_ENABLE 0x0) ;;;
     on_card (wifi_card_write_func0_u8 0x4 0x0) ;;; ret tt
   else ret tt) ;;;
  modify (fun s => s <| wifi_card_bInitted := false |>).

End Init.
