(* ===== verification/InitProofs.v ===== *)
(** Start-up and interrupts: what no interrupt changes, what an initialisation
    that returns leaves behind, that it fails without a card, and a simulated
    card on which it runs to the end. *)

From S2P Require Import Prelude Cmonad Cutils Wpa WpaProofs Sdio Heap Card State Mbox MboxProofs Wmi Bss Eapol Pkt Init.

(** ** The frame of interrupts *)

(** Place and size of the memory objects. *)
Definition h_shape (h : heap_t) : list (Z * nat) := map (fun o => (baddr o, length (bdata o))) h.

Lemma h_store_shape h p src h' : h_store h p src = Some h' -> h_shape h' = h_shape h.
Proof.
  unfold h_store. destruct (h_find h p) as [[i k]|]; [|done]. destruct (h !! i) as [o|] eqn:E; [|done].
  destruct (_ <=? _)%nat eqn:L; [|done]. intros [= <-]. apply Nat.leb_le in L. unfold h_shape.
  change (map ?f ?l) with (f <$> l). rewrite list_fmap_insert. apply list_insert_id. rewrite list_lookup_fmap, E. cbn.
  by rewrite length_blit.
Qed.

Section Frame.
Context {C : Type}.

(** What packets and timer ticks leave alone. *)
Record frame (s s' : iop C) : Prop := {
  fr_heap : h_shape (heap s') = h_shape (heap s);
  fr_bufs : mbox_out_buffer s' = mbox_out_buffer s /\ mbox_buffer s' = mbox_buffer s;
  fr_ring : ip_data_out_buf s' = ip_data_out_buf s /\ ip_data_out_buf_totlen s' = ip_data_out_buf_totlen s;
  fr_chip : device_chip_id s' = device_chip_id s /\ device_manufacturer s' = device_manufacturer s /\
    device_host_interest_addr s' = device_host_interest_addr s;
  fr_rom : device_eeprom_addr s' = device_eeprom_addr s /\ device_eeprom_version s' = device_eeprom_version s;
  fr_init : wifi_card_bInitted s' = wifi_card_bInitted s;
  fr_cfg : nvram_configs s' = nvram_configs s /\ nvram_wep_configs s' = nvram_wep_configs s;
  fr_trace : exists tr, trace s' = trace s ++ tr
}.

#[export] Instance frame_pre : PreOrder frame.
Proof.
  split; [intros s; split; try done; exists []; by rewrite app_nil_r|].
  intros s1 s2 s3 [A1 [A2 A2'] [A3 A3'] (A4 & A4' & A4'') [A5 A5'] A6 [A7 A7'] [t1 T1]]
    [B1 [B2 B2'] [B3 B3'] (B4 & B4' & B4'') [B5 B5'] B6 [B7 B7'] [t2 T2]].
  split; try (repeat split; congruence). exists (t1 ++ t2). by rewrite T2, T1, app_assoc.
Qed.

(** A change of the fields that are not part of the frame. *)
Lemma frame_step (s s' : iop C) : heap s' = heap s -> trace s' = trace s ->
  mbox_out_buffer s' = mbox_out_buffer s -> mbox_buffer s' = mbox_buffer s -> ip_data_out_buf s' = ip_data_out_buf s ->
  ip_data_out_buf_totlen s' = ip_data_out_buf_totlen s -> device_chip_id s' = device_chip_id s ->
  device_manufacturer s' = device_manufacturer s -> device_host_interest_addr s' = device_host_interest_addr s ->
  device_eeprom_addr s' = device_eeprom_addr s -> device_eeprom_version s' = device_eeprom_version s ->
  wifi_card_bInitted s' = wifi_card_bInitted s -> nvram_configs s' = nvram_configs s ->
  nvram_wep_configs s' = nvram_wep_configs s -> frame s s'.
Proof. intros E1 E2. intros. split; try done; [by rewrite E1|exists []; by rewrite app_nil_r]. Qed.

Lemma frame_modify f : (forall s, frame s (f s)) -> pres frame (modify f).
Proof. apply pres_modify. Qed.
Lemma frame_wset f : pres frame (wset_ f).
Proof. apply frame_modify. intros s. by apply frame_step. Qed.
Lemma frame_on_card {A} (m : M C A) : pres frame (on_card m).
Proof. apply pres_zoom. intros s t. by apply frame_step. Qed.
Lemma frame_emit e : pres frame (emit e).
Proof. apply frame_modify. intros s. split; try done. by exists [e]. Qed.
Lemma frame_fifo m : pres frame (fifoSendDatamsg m).
Proof. apply frame_emit. Qed.
Lemma frame_rest p : pres frame (mem_rest p).
Proof. intros s. unfold wlp, mem_rest. by destruct (h_rest _ _). Qed.
Lemma frame_load p n : pres frame (mem_load p n).
Proof. intros s. unfold wlp, mem_load. by destruct (h_load _ _ _). Qed.
Lemma frame_store p b : pres frame (mem_store p b).
Proof.
  intros s. unfold wlp, mem_store. destruct (h_store (heap s) p b) as [h|] eqn:E; [|done].
  split; try done; [by apply (h_store_shape _ _ _ _ E)|]. exists []. by rewrite app_nil_r.
Qed.
Lemma frame_ofopt {A} f (o : option A) : pres frame (ofopt f o).
Proof. apply (pres_ofopt frame). Qed.
Lemma frame_ofout {A} (o : outcome A) : pres frame (ofout o).
Proof. apply (pres_ofout frame). Qed.
Lemma frame_wget {A} (f : wmi_static -> A) : pres frame (wget f).
Proof. apply (pres_gets frame). Qed.
End Frame.

#[export] Hint Resolve frame_wset frame_on_card frame_emit frame_fifo frame_rest frame_load frame_store
  frame_ofopt frame_ofout frame_wget : pres.
#[export] Hint Extern 1 (pres frame (modify _)) => apply frame_modify; intros ?; apply frame_step; reflexivity : pres.

Section Handlers.
Context {C : Type} `{Card C} `{Fuel} `{StackEnv} `{Rand}.

Lemma frame_copy_in d b n : pres frame (copy_in (C := C) d b n).
Proof. unfold copy_in. pres_walk (@frame C). Qed.
Lemma frame_send_out n : pres frame (send_out_buffer (C := C) n).
Proof. unfold send_out_buffer. pres_walk (@frame C). Qed.
#[local] Hint Resolve frame_copy_in frame_send_out : pres.
Lemma frame_send_packet t a d n i : pres frame (wifi_card_mbox0_send_packet (C := C) t a d n i).
Proof. unfold wifi_card_mbox0_send_packet. pres_walk (@frame C). Qed.
#[local] Hint Resolve frame_send_packet : pres.
Lemma frame_wmi_send t a d n : pres frame (wmi_send_pkt (C := C) t a d n).
Proof. unfold wmi_send_pkt. pres_walk (@frame C). Qed.
Lemma frame_htc_send t a d n : pres frame (htc_send_pkt (C := C) t a d n).
Proof. unfold htc_send_pkt. pres_walk (@frame C). Qed.
#[local] Hint Resolve frame_wmi_send frame_htc_send : pres.
Lemma frame_params t p : pres frame (send_params (C := C) t p).
Proof. unfold send_params. pres_walk (@frame C). Qed.
#[local] Hint Resolve frame_params : pres.
Lemma frame_cipher i u k r : pres frame (wmi_add_cipher_key (C := C) i u k r).
Proof. unfold wmi_add_cipher_key. pres_walk (@frame C). Qed.
Lemma frame_filter a b : pres frame (wmi_set_bss_filter (C := C) a b).
Proof. unfold wmi_set_bss_filter. pres_walk (@frame C). Qed.
Lemma frame_data p n : pres frame (data_send_pkt (C := C) p n).
Proof. unfold data_send_pkt. pres_walk (@frame C). Qed.
#[local] Hint Resolve frame_cipher frame_filter frame_data : pres.
Lemma frame_scan : pres frame (wmi_scan (C := C)).
Proof. unfold wmi_scan. pres_walk (@frame C). Qed.
Lemma frame_connect : pres frame (wmi_connect (C := C)).
Proof.
  unfold wmi_connect, wmi_connect_cmd, wmi_set_scan_params, wmi_set_channel_params, wmi_create_pstream. pres_walk (@frame C).
Qed.
Lemma frame_post k g r : pres frame (wmi_post_handshake (C := C) k g r).
Proof. unfold wmi_post_handshake, wifi_card_send_ready. pres_walk (@frame C). Qed.
#[local] Hint Resolve frame_scan frame_connect frame_post : pres.
Lemma frame_drop : pres frame (drop_connection (C := C)).
Proof. unfold drop_connection, wmi_disconnect_cmd, wmi_delete_bad_ap_cmd. pres_walk (@frame C). Qed.
Lemma frame_bss p n : pres frame (wmi_handle_bss_info (C := C) p n).
Proof. unfold wmi_handle_bss_info, bss_choose. pres_walk (@frame C). Qed.
#[local] Hint Resolve frame_drop frame_bss : pres.
Lemma frame_wmi_pkt c p n : pres frame (wmi_handle_pkt (C := C) c p n).
Proof.
  unfold wmi_handle_pkt, handle_ready, handle_reg_domain, wmi_handle_get_channel_list, handle_cmd_error,
    wmi_handle_scan_complete, handle_connect, handle_disconnect, handle_target_error, wifi_card_host_interest_addr,
    wmi_dbgoff, wifi_card_send_connect.
  pres_walk (@frame C).
Qed.
Lemma frame_htc_pkt r c : pres frame r -> pres frame (htc_handle_pkt (C := C) r c).
Proof. intros Hr. unfold htc_handle_pkt. pres_walk (@frame C). Qed.

(** *** Key frames *)

Lemma frame_decrypt b n : pres frame (decrypt_gtk (C := C) b n).
Proof.
  intros s. unfold wlp, decrypt_gtk. destruct (_ <? _)%nat; [done|].
  destruct (wpa_decrypt_gtk _ _ _) as [[g st]| |]; [|done|done]. by apply frame_step.
Qed.
Lemma frame_hs2 d c r : pres frame (data_send_wpa_handshake2 (C := C) d c r).
Proof. unfold data_send_wpa_handshake2. pres_walk (@frame C). Qed.
Lemma frame_hs4 d c r : pres frame (data_send_wpa_handshake4 (C := C) d c r).
Proof. unfold data_send_wpa_handshake4. pres_walk (@frame C). Qed.
Lemma frame_renew d c r : pres frame (data_send_wpa_gtkrenew (C := C) d c r).
Proof. unfold data_send_wpa_gtkrenew. pres_walk (@frame C). Qed.
#[local] Hint Resolve frame_wmi_pkt frame_decrypt frame_hs2 frame_hs4 frame_renew : pres.
Lemma frame_data_pkt p n : pres frame (data_handle_pkt (C := C) p n).
Proof. unfold data_handle_pkt, data_handle_auth, install_keys, auth_field. pres_walk (@frame C). Qed.
#[local] Hint Resolve frame_data_pkt : pres.

(** *** The reader *)

Lemma frame_wait_rx n : pres frame (wait_rx (C := C) n).
Proof. induction n; cbn [wait_rx]; pres_walk (@frame C). Qed.
Lemma frame_discard n : pres frame (discard (C := C) n).
Proof. induction n; cbn [discard]; pres_walk (@frame C). Qed.
Lemma frame_read_block a p n : pres frame (read_block (C := C) a p n).
Proof. unfold read_block. pres_walk (@frame C). Qed.
#[local] Hint Resolve frame_wait_rx frame_discard frame_read_block : pres.
Lemma frame_readpkt depth : pres frame (wifi_card_mbox0_readpkt (C := C) depth).
Proof.
  induction depth as [|depth IH]; cbn [wifi_card_mbox0_readpkt]; [apply pres_hang|].
  pose proof (fun c => frame_htc_pkt _ c IH) as Hh.
  unfold readpkt_body, read_one, next_header, data_next_buf, dispatch, handle_acks. pres_walk (@frame C).
Qed.
Lemma frame_irq depth : pres frame (wifi_card_irq (C := C) depth).
Proof. pose proof (frame_readpkt depth). unfold wifi_card_irq, wifi_card_process_pkts. pres_walk (@frame C). Qed.
Lemma frame_tick : pres frame (wifi_card_tick (C := C)).
Proof.
  unfold wifi_card_tick, wmi_tick, wmi_scantick, wmi_set_channel_params, wmi_set_scan_params, wmi_start_scan.
  pres_walk (@frame C).
Qed.
End Handlers.

(** ** Runs of the initialisation *)

Section Steps.
Context {C : Type} `{Card C} `{Fuel} `{StackEnv} `{Rand}.

(** Nothing but the card has changed. *)
Definition only_card (s s' : iop C) : Prop := s' = s <| card := card s' |>.

Lemma only_card_run {A} (m : M C A) (s s' : iop C) a : on_card m s = Ok (a, s') -> only_card s s'.
Proof. unfold on_card, zoom. destruct (m (card s)) as [[b c]| |]; [|done|done]. by intros [= -> <-]. Qed.
#[export] Instance only_card_pre : PreOrder only_card.
Proof.
  split; [by intros []|]. intros s1 s2 s3 E1 E2. unfold only_card in *. transitivity (s2 <| card := card s3 |>); [exact E2|].
  by rewrite E1.
Qed.

(** The connection state is the same. *)
Definition same_wmi (s s' : iop C) : Prop := wmi s' = wmi s.
#[export] Instance same_wmi_pre : PreOrder same_wmi.
Proof. split; [by intros s|]. unfold same_wmi. intros. congruence. Qed.

Lemma wmi_on_card {A} (m : M C A) : pres same_wmi (on_card m).
Proof. by apply pres_zoom. Qed.
Lemma wmi_store p b : pres same_wmi (mem_store p b).
Proof. intros s. unfold wlp, mem_store. by destruct (h_store _ _ _). Qed.
Lemma wmi_rest p : pres same_wmi (mem_rest p).
Proof. intros s. unfold wlp, mem_rest. by destruct (h_rest _ _). Qed.
Lemma wmi_wget {A} (f : wmi_static -> A) : pres same_wmi (wget f).
Proof. apply (pres_gets same_wmi). Qed.
#[local] Hint Resolve wmi_on_card wmi_store wmi_rest wmi_wget : pres.
Lemma wmi_send_same t a d n : pres same_wmi (wmi_send_pkt t a d n).
Proof. unfold wmi_send_pkt, copy_in, send_out_buffer. pres_walk same_wmi. Qed.
#[local] Hint Resolve wmi_send_same : pres.

Lemma scan_sets (s s' : iop C) : wmi_scan s = Ok (tt, s') -> wmi s' = (wmi s) <| wmi_bScanning := true |>.
Proof.
  unfold wmi_scan, wmi_set_bss_filter, send_params. intros E.
  apply bind_inv in E as (? & s1 & E1 & E). apply bind_inv in E as (? & s2 & E2 & E). apply bind_inv in E as (? & s3 & E3 & E).
  apply bind_inv in E as (? & s4 & E4 & E). apply bind_inv in E as (? & s5 & E5 & E).
  apply (pres_run same_wmi) in E1, E2, E3, E4, E5; try apply wmi_send_same. unfold same_wmi in *.
  unfold wset_, modify in E. injection E as <-. cbn. congruence.
Qed.
End Steps.

(** The calls into the console's hardware before the card answers, and those
    that enable its interrupts. *)
Definition power_events : list event :=
  [RtcTransaction [WRITE_FOUT_1; 0x80]; RtcTransaction [WRITE_FOUT_2; 0x00]; I2cPmWrite 0x30 0x13].
Definition irq_events : list event :=
  [IrqSetAux IRQ_WIFI_SDIO_CARDIRQ; IrqEnableAux IRQ_WIFI_SDIO_CARDIRQ; TimerStart 3 1000].
Definition host_interest (chip : Z) : Z :=
  if chip =? CHIP_ID_AR6002 then AR6002_HOST_INTEREST_ADDRESS else AR601x_HOST_INTEREST_ADDRESS.

Section Boot.
Context {D : Type} `{Hw D} `{Fuel} `{StackEnv} `{Rand} `{Irq D}.

Lemma power_up_run (s s' : iop (bus D)) : power_up s = Ok (tt, s') ->
  s' = s <| card := card s' |> <| trace := trace s ++ power_events |>.
Proof.
  unfold power_up. intros E.
  apply bind_inv in E as (? & s1 & E1 & E). apply bind_inv in E as (? & s2 & E2 & E).
  apply bind_inv in E as (? & s3 & E3 & E). apply bind_inv in E as (? & s4 & E4 & E).
  apply bind_inv in E as (? & s5 & E5 & E). apply bind_inv in E as (? & s6 & E6 & E).
  apply only_card_run in E1, E2, E6, E. unfold emit, modify in E3, E4, E5.
  injection E3 as _ E3. injection E4 as _ E4. injection E5 as _ E5. unfold only_card in *.
  rewrite E, E6, <- E5, <- E4, <- E3, E2, E1. cbn. unfold power_events. by rewrite <- !app_assoc.
Qed.

(** [return -1] or [return 0] *)
Definition code (r : Z) (_ : bus D) : Prop := r = 0 \/ r = -1.
Lemma write_checked_code a v (k : M (bus D) Z) s : (forall s, wlp k code s) -> wlp (write_checked a v k) code s.
Proof.
  intros Hk. unfold write_checked. apply wlp_skip. intros ? ?. apply wlp_skip. intros [] ?; [by right|apply Hk].
Qed.
Lemma setup_bus_code s : wlp (setup_bus (D := D)) code s.
Proof.
  unfold setup_bus. do 3 (apply wlp_skip; intros ? ?). apply wlp_skip. intros [] ?; [by right|].
  apply wlp_skip. intros ? ?. cbv zeta. apply write_checked_code. intros ?. do 2 (apply wlp_skip; intros ? ?).
  apply write_checked_code. intros ?. apply wlp_skip. intros ? ?. do 4 (apply write_checked_code; intros ?). by left.
Qed.

(** The wait ends with the flag set, and the frame is kept. *)
Lemma wait_ready_run depth (s s' : iop (bus D)) : wait_ready depth s = Ok (tt, s') ->
  frame s s' /\ wmi_bIsReady (wmi s') = true.
Proof.
  intros E. assert (wlp (wait_ready depth) (fun _ s' => frame s s' /\ wmi_bIsReady (wmi s') = true) s) as Hw;
    [|unfold wlp in Hw; by rewrite E in Hw]. clear E.
  unfold wait_ready. apply (wlp_loop _ _ (fun s1 => frame s s1)); [reflexivity|]. intros s1 Hs1.
  apply wlp_bind. unfold wmi_is_ready, wget. apply wlp_gets. destruct (wmi_bIsReady (wmi s1)) eqn:R; [by split|].
  apply wlp_bind. eapply wlp_mono; [apply (frame_on_card (on_dev (fun d => Ok (irq_taken d))) s1)|].
  intros t s2 H12. apply wlp_bind.
  eapply (wlp_mono _ (fun _ s3 => frame s2 s3)).
  - destruct t; [apply frame_irq|by apply wlp_ret].
  - intros [] s3 H23. apply wlp_ret. transitivity s1; [done|]. by transitivity s2.
Qed.

Lemma read_chip_run (s s' : iop (bus D)) : read_chip s = Ok (tt, s') ->
  device_host_interest_addr s' = host_interest (device_chip_id s') /\ wmi s' = wmi s /\ trace s' = trace s.
Proof.
  unfold read_chip. intros E.
  apply bind_inv in E as (m & s1 & E1 & E). apply bind_inv in E as (? & s2 & E2 & E).
  apply bind_inv in E as (id & s3 & E3 & E). apply bind_inv in E as (? & s4 & E4 & E).
  apply only_card_run in E1, E3. unfold modify in E2, E4, E. injection E2 as _ E2. injection E4 as _ E4. injection E as E.
  unfold only_card in *. rewrite <- E, <- E4, E3, <- E2, E1. done.
Qed.

Lemma read_eeprom_run (s s' : iop (bus D)) : read_eeprom s = Ok (tt, s') -> exists a v,
  s' = s <| card := card s' |> <| device_eeprom_addr := a |> <| device_eeprom_version := v |>.
Proof.
  unfold read_eeprom. intros E. apply bind_inv in E as (hi & s0 & E0 & E). injection E0 as _ <-.
  apply bind_inv in E as (a & s1 & E1 & E). apply bind_inv in E as (? & s2 & E2 & E).
  apply bind_inv in E as (v & s3 & E3 & E). apply only_card_run in E1, E3. unfold modify in E2, E.
  injection E2 as _ E2. injection E as E. exists a, v. unfold only_card in *. rewrite <- E, E3, <- E2, E1. done.
Qed.

Lemma enable_irqs_run (s s' : iop (bus D)) : enable_irqs s = Ok (tt, s') ->
  s' = s <| card := card s' |> <| trace := trace s ++ irq_events |>.
Proof.
  unfold enable_irqs. intros E.
  apply bind_inv in E as (? & s1 & E1 & E). apply bind_inv in E as (? & s2 & E2 & E).
  apply bind_inv in E as (? & s3 & E3 & E). apply bind_inv in E as (? & s4 & E4 & E).
  apply bind_inv in E as (? & s5 & E5 & E). apply only_card_run in E3, E4, E5. unfold emit, modify in E1, E2, E.
  injection E1 as _ E1. injection E2 as _ E2. injection E as E. unfold only_card in *.
  rewrite <- E, E5, E4, E3, <- E2, <- E1. cbn. unfold irq_events. by rewrite <- !app_assoc.
Qed.

(** What a successful initialisation leaves behind. *)
Record booted (s s' : iop (bus D)) : Prop := {
  bo_init : wifi_card_bInitted s' = true;
  bo_wmi : wmi_bIsReady (wmi s') = true /\ wmi_bScanning (wmi s') = true;
  bo_chip : device_host_interest_addr s' = host_interest (device_chip_id s');
  bo_trace : exists tr, trace s' = trace s ++ irq_events ++ tr
}.

(** From the chip identification to the end. *)
Lemma boot_tail depth (s s' : iop (bus D)) r :
  (let* hi := gets device_host_interest_addr in
   on_card (boot_firmware hi) ;;; read_eeprom ;;; modify (fun s => s <| wifi_card_bInitted := true |>) ;;;
   enable_irqs ;;; wait_ready depth ;;; wmi_scan ;;; ret 0) s = Ok (r, s') ->
  device_host_interest_addr s = host_interest (device_chip_id s) -> r = 0 /\ booted s s'.
Proof.
  intros E Hc. apply bind_inv in E as (hi & s0 & E0 & E). injection E0 as _ <-.
  apply bind_inv in E as (? & s1 & E1 & E). apply bind_inv in E as ([] & s2 & E2 & E). apply bind_inv in E as (? & s3 & E3 & E).
  apply bind_inv in E as ([] & s4 & E4 & E). apply bind_inv in E as ([] & s5 & E5 & E). apply bind_inv in E as ([] & s6 & E6 & E).
  injection E as <- <-. split; [done|]. apply only_card_run in E1. apply read_eeprom_run in E2 as (a & v & E2).
  unfold modify in E3. injection E3 as _ E3. apply enable_irqs_run in E4. unfold only_card in E1.
  destruct (wait_ready_run _ _ _ E5) as [F5 R5]. pose proof (scan_sets _ _ E6) as W6.
  pose proof (pres_run frame _ _ _ _ frame_scan E6) as F6.
  assert (frame s4 s6) as F by (by transitivity s5). clear F5 F6.
  destruct F as [_ _ _ (F1 & _ & F2) _ F3 _ [tr F4]].
  assert (s4 = s <| card := card s4 |> <| device_eeprom_addr := a |> <| device_eeprom_version := v |>
    <| wifi_card_bInitted := true |> <| trace := trace s ++ irq_events |>) as Es.
  { rewrite E4, <- E3, E2, E1. done. }
  rewrite Es in F1, F2, F3, F4. cbn in F1, F2, F3, F4. split.
  - done.
  - rewrite W6. by split.
  - by rewrite F1, F2.
  - exists tr. by rewrite F4, app_assoc.
Qed.

(** What a failed initialisation has touched: the card and the console. *)
Definition unbooted (s s' : iop (bus D)) : Prop := s' = s <| card := card s' |> <| trace := trace s ++ power_events |>.

Lemma wlan_init_runs depth (s s' : iop (bus D)) r : wifi_card_wlan_init depth s = Ok (r, s') ->
  (r = -1 /\ unbooted s s') \/ (r = 0 /\ exists s1, trace s1 = trace s ++ power_events /\ booted s1 s').
Proof.
  unfold wifi_card_wlan_init. intros E. apply bind_inv in E as (? & s0 & E0 & E). injection E0 as <- <-.
  destruct (_ || _); [done|]. apply bind_inv in E as ([] & s1 & E1 & E). apply power_up_run in E1.
  apply bind_inv in E as (? & s2 & E2 & E). apply only_card_run in E2. apply bind_inv in E as (o & s3 & E3 & E).
  apply only_card_run in E3. assert (forall t, only_card s3 t -> unbooted s t) as Hu.
  { intros t Ht. unfold unbooted, only_card in *. rewrite Ht, E3, E2, E1. done. }
  assert (forall (m : M (iop (bus D)) Z), m = (let* e := on_card setup_bus in
      if nz e then ret e else
      let* bad := on_card (wifi_card_read_func0_u8 0x00 ;;; failed_status) in
      if (bad : bool) then ret (-1) else
      on_card enable_func1 ;;; read_chip ;;;
      let* hi := gets device_host_interest_addr in
      on_card (boot_firmware hi) ;;; read_eeprom ;;; modify (fun s => s <| wifi_card_bInitted := true |>) ;;;
      enable_irqs ;;; wait_ready depth ;;; wmi_scan ;;; ret 0) -> m s3 = Ok (r, s') ->
    (r = -1 /\ unbooted s s') \/ (r = 0 /\ exists s1, trace s1 = trace s ++ power_events /\ booted s1 s')) as Hmain.
  { clear E. intros m -> E. apply bind_inv in E as (e & s4 & E4 & E).
    pose proof (setup_bus_code (card s3)) as Hcode. unfold wlp in Hcode. unfold on_card, zoom in E4.
    destruct (setup_bus (card s3)) as [[e' c]| |]; [|done|done]. injection E4 as -> <-.
    destruct Hcode as [->| ->]; cbn [nz negb Z.eqb] in E; [|injection E as <- <-; left; split; [done|by apply Hu]].
    apply bind_inv in E as (bad & s5 & E5 & E). apply only_card_run in E5.
    assert (only_card s3 s5) as H35 by (transitivity (s3 <| card := c |>); [done|exact E5]).
    destruct bad; [injection E as <- <-; left; split; [done|by apply Hu]|]. right.
    apply bind_inv in E as (? & s6 & E6 & E). apply only_card_run in E6. apply bind_inv in E as ([] & s7 & E7 & E).
    destruct (read_chip_run _ _ E7) as (Hc & _ & T7). destruct (boot_tail _ _ _ _ E Hc) as [-> B]. split; [done|].
    exists s7. split; [|done]. assert (unbooted s s6) as Hu6 by (apply Hu; by transitivity s5).
    rewrite T7, Hu6. done. }
  destruct o; [exact (Hmain _ eq_refl E)|exact (Hmain _ eq_refl E)|].
  injection E as <- <-. left. split; [done|]. by apply Hu.
Qed.
End Boot.

(** ** A card to boot

    A device that plays the controller and an AR6013 behind it: identification,
    function 0 and 1 registers, the memory window, the bootloader's protocol on
    the mailbox and, once it runs, a firmware that announces itself, answers
    every service request and reports its address and regulatory domain. *)

Record sim := mk_sim {
  sm_present : bool;                (* does a card answer? *)
  sm_arg : Z; sm_resp : Z;          (* argument and response of the command *)
  sm_regs : Z -> Z;                 (* function 1 registers, by byte *)
  sm_mem : Z -> Z;                  (* internal memory, by word *)
  sm_in : bytes; sm_out : bytes;    (* bytes of the bootloader's mailbox *)
  sm_run : bool;                    (* the firmware runs *)
  sm_rx : list bytes;               (* packets for the driver *)
  sm_tx : list bytes                (* packets from the driver *)
}.
Definition eta_sim (d : sim) : sim :=
  mk_sim (sm_present d) (sm_arg d) (sm_resp d) (sm_regs d) (sm_mem d) (sm_in d) (sm_out d) (sm_run d) (sm_rx d) (sm_tx d).
#[export] Instance set_sm_arg : Setter sm_arg := ltac:(mk_setter eta_sim).
#[export] Instance set_sm_resp : Setter sm_resp := ltac:(mk_setter eta_sim).
#[export] Instance set_sm_regs : Setter sm_regs := ltac:(mk_setter eta_sim).
#[export] Instance set_sm_mem : Setter sm_mem := ltac:(mk_setter eta_sim).
#[export] Instance set_sm_in : Setter sm_in := ltac:(mk_setter eta_sim).
#[export] Instance set_sm_out : Setter sm_out := ltac:(mk_setter eta_sim).
#[export] Instance set_sm_run : Setter sm_run := ltac:(mk_setter eta_sim).
#[export] Instance set_sm_rx : Setter sm_rx := ltac:(mk_setter eta_sim).
#[export] Instance set_sm_tx : Setter sm_tx := ltac:(mk_setter eta_sim).

Definition upd (f : Z -> Z) (a v : Z) : Z -> Z := fun x => if x =? a then v else f x.
Definition reg_word (d : sim) (a : Z) : Z := le_val (map (sm_regs d) [a; a + 1; a + 2; a + 3]).

(** A packet of the firmware, padded to one block. *)
Definition sim_pkt (type cmd : Z) (body : bytes) : bytes :=
  take 128 ([type; 0] ++ le_bytes 2 (2 + Z.of_nat (length body)) ++ [0; 0] ++ le_bytes 2 cmd ++ body ++ replicate 128 0).

(** What the bootloader does with the bytes received so far. *)
Definition sim_bmi (d : sim) : sim :=
  let done := d <| sm_in := [] |> in
  match le_val (take 4 (sm_in d)), length (sm_in d) with
  | 8, 4%nat => done <| sm_out := concat (map (le_bytes 4) [0xFFFFFFFF; 12; 0x20000188; 1]) |>
  | 6, 8%nat => done <| sm_out := le_bytes 4 (sm_mem d (le_val (drop 4 (sm_in d)))) |>
  | 7, 12%nat => done <| sm_mem := upd (sm_mem d) (le_val (take 4 (drop 4 (sm_in d)))) (le_val (drop 8 (sm_in d))) |>
  | 1, 4%nat => done <| sm_run := true |> <| sm_mem := upd (sm_mem d) (AR601x_HOST_INTEREST_ADDRESS + 0x58) 1 |>
      <| sm_rx := [sim_pkt MBOXPKT_HTC HTC_MSG_READY (replicate 6 0)] |>
  | _, _ => d
  end.

(** What the firmware does with a packet. *)
Definition sim_fw (b : bytes) (d : sim) : sim :=
  let d := d <| sm_tx := sm_tx d ++ [b] |> in
  if (nth 0 b 0 =? MBOXPKT_HTC) && (nth 6 b 0 =? HTC_MSG_CONN_SVC) then
    d <| sm_rx := sm_rx d ++ [sim_pkt MBOXPKT_HTC 3 (replicate 8 0)] |>
  else if (nth 0 b 0 =? MBOXPKT_HTC) && (nth 6 b 0 =? HTC_MSG_SETUP_COMPLETE) then
    d <| sm_rx := sm_rx d ++ [sim_pkt MBOXPKT_WMI WMI_READY_EVENT [2; 4; 6; 8; 10; 12; 0; 0];
                              sim_pkt MBOXPKT_WMI WMI_REG_DOMAIN_EVENT (replicate 4 0)] |>
  else d.

Definition sim_read (f a : Z) (d : sim) : Z * sim :=
  if f =? 0 then (if a =? 3 then 2 else if a =? 0x1007 then 0x71 else if a =? 0x1008 then 2 else 0, d)
  else if a =? 0xFF then (nth 0 (sm_out d) 0, d <| sm_out := drop 1 (sm_out d) |>)
  else if a =? F1_RX_LOOKAHEAD_VALID then (if sm_run d then 0 else Z.b2z (negb (bool_decide (sm_out d = []))), d)
  else if a =? F1_HOST_INT_STATUS then (Z.b2z (negb (bool_decide (sm_rx d = []))), d)
  else if (F1_RX_LOOKAHEAD0 <=? a) && (a <? F1_RX_LOOKAHEAD0 + 4) then
    (nth (Z.to_nat (a - F1_RX_LOOKAHEAD0)) (nth 0 (sm_rx d) []) 0, d)
  else (sm_regs d a, d).

Definition sim_write (f a v : Z) (d : sim) : sim :=
  if f =? 0 then d
  else if a =? 0xFF then sim_bmi (d <| sm_in := sm_in d ++ [v] |>)
  else
    let d := d <| sm_regs := upd (sm_regs d) a v |> in
    if a =? WINDOW_WRITE_ADDR then d <| sm_mem := upd (sm_mem d) (reg_word d WINDOW_WRITE_ADDR) (reg_word d WINDOW_DATA) |>
    else if a =? WINDOW_READ_ADDR then
      let w := le_bytes 4 (sm_mem d (reg_word d WINDOW_READ_ADDR)) in
      d <| sm_regs := fun x => if (WINDOW_DATA <=? x) && (x <? WINDOW_DATA + 4) then nth (Z.to_nat (x - WINDOW_DATA)) w 0
                               else sm_regs d x |>
    else d.

(** The command register. *)
Definition sim_cmd (v : Z) (d : sim) : sim :=
  let w := sm_arg d in
  if v =? raw cmd5 then d <| sm_resp := if w =? 0 then 0x00FF8000 else 0x90FF8000 |>
  else if v =? raw cmd3 then d <| sm_resp := 0x00010000 |>
  else if v =? raw cmd52 then
    let f := Z.shiftr w 28 mod 8 in let a := Z.shiftr w 9 mod 2 ^ 17 in
    if Z.testbit w 31 then (sim_write f a (w mod 256) d) <| sm_resp := w mod 256 |>
    else let '(b, d) := sim_read f a d in d <| sm_resp := b |>
  else d.

Definition sim_r16 (a : Z) (d : sim) : Z :=
  if a =? REG_SDIO_BASE + WIFI_SDIO_OFFS_IRQ_STAT0 then WIFI_SDIO_STAT0_CMDRESPEND
  else if a =? REG_SDIO_BASE + WIFI_SDIO_OFFS_IRQ_STAT1 then (if sm_present d then 0 else 0x40)
  else if a =? REG_SDIO_BASE + WIFI_SDIO_OFFS_RESP0 then sm_resp d mod 2 ^ 16
  else if a =? REG_SDIO_BASE + WIFI_SDIO_OFFS_RESP0 + 2 then sm_resp d / 2 ^ 16 else 0.
Definition sim_w16 (a v : Z) (d : sim) : sim :=
  if a =? REG_SDIO_BASE + WIFI_SDIO_OFFS_CMD_PARAM0 then d <| sm_arg := sm_arg d / 2 ^ 16 * 2 ^ 16 + v |>
  else if a =? REG_SDIO_BASE + WIFI_SDIO_OFFS_CMD_PARAM1 then d <| sm_arg := sm_arg d mod 2 ^ 16 + v * 2 ^ 16 |>
  else if a =? REG_SDIO_BASE + WIFI_SDIO_OFFS_CMD then sim_cmd v d else d.

#[export] Instance sim_hw : Hw sim := {|
  hw_r16 := fun a d => (sim_r16 a d, d);
  hw_r32 := fun _ d => (0, d);
  hw_w16 := sim_w16;
  hw_w32 := fun _ _ d => d;
  hw_dma_in := fun n d => (take n (nth 0 (sm_rx d) [] ++ replicate n 0), d <| sm_rx := drop 1 (sm_rx d) |>);
  hw_dma_out := sim_fw
|}.
(** The interrupt is taken while packets wait. *)
#[export] Instance sim_irq : Irq sim := fun d => (negb (bool_decide (sm_rx d = [])), d).

Definition sim0 (present : bool) : sim :=
  mk_sim present 0 0 (fun _ => 0) (upd (fun _ => 0) 0x40ec CHIP_ID_AR6013) [] [] false [] [].

(** ** No card in the slot *)

(** [m] completes from every state of [I] in a state of [I]. *)
Definition tot {S A} (I : S -> Prop) (m : M S A) : Prop := forall s, I s -> wp m (fun _ s' => I s') s.

Section Tot.
Context {S : Type} (I : S -> Prop).
Lemma tot_ret {A} (a : A) : tot I (ret a).
Proof. by intros s Hs. Qed.
Lemma tot_gets {A} (f : S -> A) : tot I (gets f).
Proof. by intros s Hs. Qed.
Lemma tot_modify f : (forall s, I s -> I (f s)) -> tot I (modify f).
Proof. intros Hf s Hs. by apply Hf. Qed.
Lemma tot_bind {A B} (m : M S A) (k : A -> M S B) : tot I m -> (forall a, tot I (k a)) -> tot I (bind m k).
Proof. intros Hm Hk s Hs. apply wp_bind. eapply wp_mono; [by apply Hm|]. intros a s' Hs'. by apply Hk. Qed.
Lemma tot_seq {A B} (m : M S A) (k : A -> M S B) Q s : tot I m -> I s ->
  (forall a s', I s' -> wp (k a) Q s') -> wp (bind m k) Q s.
Proof. intros Hm Hs Hk. apply wp_bind. eapply wp_mono; [by apply Hm|]. intros a s' Hs'. by apply Hk. Qed.
Lemma tot_zoom {T A} (prj : T -> S) upd (J : T -> Prop) (m : M S A) :
  (forall t, J t -> I (prj t)) -> (forall t s, J t -> I s -> J (upd s t)) -> tot I m -> tot J (zoom prj upd m).
Proof. intros Hp Hu Hm t Ht. apply wp_zoom. eapply wp_mono; [by apply Hm, Hp|]. intros a s' Hs'. by apply Hu. Qed.
End Tot.
#[local] Hint Resolve tot_ret tot_gets : core.

(** A controller with no card to answer: in the states [dead] it stays whatever
    is written, it is not busy, and it reports an error. *)
Record no_card {D} `{Hw D} (dead : D -> Prop) : Prop := {
  nc_r16 : forall a d, dead d -> dead (snd (hw_r16 a d));
  nc_w16 : forall a v d, dead d -> dead (hw_w16 a v d);
  nc_stat : forall d, dead d -> let v := u16 (fst (hw_r16 (REG_SDIO_BASE + WIFI_SDIO_OFFS_IRQ_STAT1) d)) in
    nz (Z.land v WIFI_SDIO_MASK_ERR) = true /\ nz (Z.land v WIFI_SDIO_STAT1_CMD_BUSY) = false
}.

Section Dead.
Context {D : Type} `{Hw D} `{Fuel} `{StackEnv} `{Rand} `{Irq D}.
Context (dead : D -> Prop) (Hno : no_card dead) (Hfuel : (0 < poll_fuel)%nat).
Let dead_r16 := nc_r16 dead Hno.
Let dead_w16 := nc_w16 dead Hno.
Let dead_stat := nc_stat dead Hno.

Lemma dead_read c r : tot dead (wifi_sdio_read16 c r).
Proof. intros d Hd. unfold wp, wifi_sdio_read16. pose proof (dead_r16 (c + r) d Hd) as Hr. by destruct (hw_r16 (c + r) d). Qed.
Lemma dead_write c r v : tot dead (wifi_sdio_write16 c r v).
Proof. intros d Hd. by apply dead_w16. Qed.
Lemma dead_mask c r x y : tot dead (wifi_sdio_mask16 c r x y).
Proof. apply tot_bind; [apply dead_read|]. intros v. apply dead_write. Qed.

(** A context of the controller, as the layers above see it. *)
Definition sdio_dead (s : sdio D) : Prop := dead (hw s) /\ controller (tmio s) = REG_SDIO_BASE.
Definition bus_dead (b : bus D) : Prop := dead (bhw b) /\ exists t, device_curctx b = Some t /\ controller t = REG_SDIO_BASE.

Lemma dead_on_hw {A} (m : M D A) : tot dead m -> tot sdio_dead (on_hw m).
Proof. intros Hm. apply (tot_zoom dead); [by intros t []|by intros t d [] ?|done]. Qed.
Lemma dead_on_dev {A} (m : M D A) : tot dead m -> tot bus_dead (on_dev m).
Proof. intros Hm. apply (tot_zoom dead); [by intros t []|by intros t d [] ?|done]. Qed.
Lemma wp_ctx {A} (m : M (sdio D) A) Q b : bus_dead b ->
  (forall t, device_curctx b = Some t -> controller t = REG_SDIO_BASE ->
     wp m (fun a s => Q a {| bhw := hw s; device_curctx := Some (tmio s) |}) {| hw := bhw b; tmio := t |}) -> wp (on_ctx m) Q b.
Proof.
  intros (Hd & t & Et & Ht) Hm. unfold wp, on_ctx. rewrite Et. specialize (Hm t Et Ht). unfold wp in Hm.
  by destruct (m _) as [[a s]| |].
Qed.
Lemma dead_on_ctx {A} (m : M (sdio D) A) : tot sdio_dead m -> tot bus_dead (on_ctx m).
Proof.
  intros Hm b Hb. apply wp_ctx; [done|]. intros t Et Ht. eapply wp_mono; [apply Hm; split; [apply Hb|done]|].
  intros a s [H1' H2']. split; [done|]. by exists (tmio s).
Qed.

(** The stop of the polling loop, at its first turn. *)
Lemma dead_poll cmd flags p (s : sdio D) : sdio_dead s ->
  wp (sdio_poll REG_SDIO_BASE cmd false flags p)
    (fun r s' => sdio_dead s' /\ fst r = true /\ nz (Z.land (status (tmio s')) 4) = true) s.
Proof.
  intros Hs. unfold sdio_poll. apply wp_bind, wp_gets. apply wp_bind.
  eapply (wp_mono _ (fun v s' => sdio_dead s' /\ nz (Z.land v WIFI_SDIO_MASK_ERR) = true)).
  { unfold on_hw. apply wp_zoom. destruct Hs as [Hd Hc]. pose proof (dead_r16 (REG_SDIO_BASE + WIFI_SDIO_OFFS_IRQ_STAT1) _ Hd) as Hr.
    pose proof (dead_stat _ Hd) as [He _]. unfold wp, wifi_sdio_read16.
    destruct (hw_r16 (REG_SDIO_BASE + WIFI_SDIO_OFFS_IRQ_STAT1) (hw s)) as [v d']. by split. }
  intros v s1 [Hs1 Hv]. apply (tot_seq sdio_dead); [apply dead_on_hw, dead_read|done|]. intros c s2 Hs2.
  rewrite !andb_false_r. apply (tot_seq sdio_dead); [auto|done|]. intros p1 s3 Hs3.
  apply (tot_seq sdio_dead); [auto|done|]. intros p2 s4 Hs4. rewrite Hv. apply wp_bind, wp_modify, wp_ret.
  split; [exact Hs4|]. split; [done|]. cbn [tmio upd_tmio set_status status]. rewrite Z.land_comm, Z.land_lor_distr_r.
  change (Z.land 4 4) with 4. unfold nz. apply negb_true_iff, Z.eqb_neq. intros E.
  apply (f_equal (fun z => Z.testbit z 2)) in E. rewrite Z.lor_spec in E. cbn in E. by rewrite orb_true_r in E.
Qed.

Lemma dead_finish cmd (s : sdio D) st : sdio_dead s -> status (tmio s) = st ->
  wp (sdio_finish REG_SDIO_BASE cmd) (fun _ s' => sdio_dead s' /\ status (tmio s') = st) s.
Proof.
  intros Hs Hst. set (I := fun s : sdio D => sdio_dead s /\ status (tmio s) = st). assert (I s) as HI by done.
  assert (forall A (m : M D A), tot dead m -> tot I (on_hw m)) as Hhw.
  { intros A m Hm. apply (tot_zoom dead); [by intros t [[] _]|by intros t d [[] ?] ?|done]. }
  assert (forall r, tot I (on_hw (wifi_sdio_read16 REG_SDIO_BASE r))) as Hr by (intros; apply Hhw, dead_read).
  assert (forall r v, tot I (on_hw (wifi_sdio_write16 REG_SDIO_BASE r v))) as Hw' by (intros; apply Hhw, dead_write).
  enough (tot I (sdio_finish REG_SDIO_BASE cmd)) as Ht by exact (Ht s HI).
  unfold sdio_finish. cbv zeta.
  repeat (apply tot_bind; [first [apply Hr|apply Hw'|destruct (_ =? _); [auto|repeat (apply tot_bind; [|intros ?]); auto]]|intros ?]).
  apply tot_modify. intros s' [[H1' H2'] H3']. by split; [split|].
Qed.
Lemma dead_start cmd args : tot sdio_dead (sdio_start REG_SDIO_BASE cmd args).
Proof.
  assert (forall r v, tot sdio_dead (on_hw (wifi_sdio_write16 REG_SDIO_BASE r v))) as Hw' by (intros; apply dead_on_hw, dead_write).
  unfold sdio_start. apply tot_bind; [auto|]. intros t. apply tot_bind.
  { apply dead_on_hw. destruct poll_fuel as [|n]; [lia|]. cbn [mloop]. intros d Hd. apply wp_bind, wp_bind.
    pose proof (dead_r16 (REG_SDIO_BASE + WIFI_SDIO_OFFS_IRQ_STAT1) _ Hd) as Hr. pose proof (dead_stat _ Hd) as [_ Hb].
    unfold wp at 1, wifi_sdio_read16. destruct (hw_r16 _ d) as [v d']. cbn in Hb, Hr. by rewrite Hb. }
  intros _. repeat (apply tot_bind; [first [apply Hw'|destruct (_ =? _); [apply tot_bind; [apply Hw'|intros _; apply Hw']|auto]]|intros _]).
  apply Hw'.
Qed.

(** A command fails. *)
Definition failed (b : bus D) : Prop := bus_dead b /\ exists t, device_curctx b = Some t /\ nz (Z.land (status t) 4) = true.

Lemma dead_send cmd args (s : sdio D) : sdio_dead s -> buffer (tmio s) = None ->
  wp (wifi_sdio_send_command cmd args) (fun _ s' => sdio_dead s' /\ nz (Z.land (status (tmio s')) 4) = true) s.
Proof.
  intros Hs Hb. unfold wifi_sdio_send_command. apply wp_bind, wp_gets. rewrite (proj2 Hs), Hb. change (REG_SDIO_BASE =? 0) with false. cbv iota zeta.
  apply (tot_seq sdio_dead); [destruct (_ =? _); [apply tot_modify; by intros ? []|auto]|done|]. intros _ s1 Hs1.
  apply wp_bind, wp_modify. apply (tot_seq sdio_dead); [apply dead_start|exact Hs1|]. intros _ s2 Hs2. apply wp_bind.
  eapply (wp_mono _ (fun _ s' => sdio_dead s' /\ nz (Z.land (status (tmio s')) 4) = true)).
  - destruct poll_fuel as [|n]; [lia|]. cbn [sdio_poll_loop]. apply wp_bind. eapply wp_mono; [by apply dead_poll|].
    intros [stop p] s3 (Hs3 & Hstop & Hst). cbn in Hstop. rewrite Hstop. by apply wp_ret.
  - intros _ s3 [Hs3 Hst]. eapply wp_mono; [by apply (dead_finish _ _ (status (tmio s3)))|]. intros _ s4 [Hs4 ->]. done.
Qed.

Lemma dead_command cmd args (b : bus D) : bus_dead b -> wp (wifi_card_send_command cmd args) (fun _ => failed) b.
Proof.
  intros Hb. unfold wifi_card_send_command, with_ctx. pose proof Hb as (_ & t0 & Et & _). unfold wp at 1. rewrite Et.
  refine (_ : wp (on_ctx _) (fun _ => failed) b). apply wp_ctx; [done|]. intros t E Ht.
  apply wp_bind, wp_modify. eapply wp_mono; [apply dead_send; [split; [apply Hb|exact Ht]|done]|].
  intros _ s [[H1' H2'] Hst]. split; [split; [done|]|]; by exists (tmio s).
Qed.
Lemma failed_test (Q : bool -> bus D -> Prop) b : failed b -> Q true b -> wp failed_status Q b.
Proof.
  intros (Hb & t & Et & Hst) HQ. unfold failed_status. apply wp_ctx; [done|]. intros t' Et' _. apply wp_gets. cbn [tmio].
  rewrite Et in Et'. injection Et' as <-. rewrite Hst. destruct b as [d c]. cbn [bhw device_curctx hw tmio] in *. by rewrite <- Et.
Qed.

Lemma dead_write_reg a v (b : bus D) : bus_dead b -> wp (wifi_card_write_func0_u8 a v) (fun _ => failed) b.
Proof.
  intros Hb. unfold wifi_card_write_func0_u8. cbn [card_write_byte bus_card]. unfold wifi_card_write_func_byte. apply wp_bind.
  eapply wp_mono; [by apply dead_command|]. intros x b1 Hb1. apply wp_bind. apply failed_test; [done|]. by apply wp_ret.
Qed.
Lemma dead_read_reg a (b : bus D) : bus_dead b -> wp (wifi_card_read_func0_u8 a) (fun _ => failed) b.
Proof.
  intros Hb. unfold wifi_card_read_func0_u8. cbn [card_read_byte bus_card]. unfold wifi_card_read_func_byte. apply wp_bind.
  eapply wp_mono; [by apply dead_command|]. intros ? b1 Hb1. apply wp_bind. apply failed_test; [done|]. by apply wp_ret.
Qed.

Lemma dead_upd_ctx f : (forall c, controller (f c) = controller c) -> tot bus_dead (upd_ctx f).
Proof. intros Hf. apply dead_on_ctx, tot_modify. intros s [H1' H2']. split; [done|]. cbn. by rewrite Hf. Qed.
Lemma dead_switch : tot bus_dead wifi_card_switch_device.
Proof.
  assert (forall c r x y, tot sdio_dead (on_hw (wifi_sdio_mask16 c r x y))) as Hm by (intros; apply dead_on_hw, dead_mask).
  apply dead_on_ctx. unfold wifi_sdio_switch_device. apply tot_bind; [auto|]. intros t. apply tot_bind; [apply Hm|]. intros _.
  apply tot_bind; [apply dead_on_hw; unfold wifi_sdio_setclk; repeat (apply tot_bind; [apply dead_mask|intros _]); apply dead_mask|].
  intros _. destruct (_ =? _); apply Hm.
Qed.

(** The identification is skipped, the bus set-up fails at its first check. *)
Lemma dead_identify (b : bus D) : bus_dead b -> wp identify (fun r b' => r = OpSkip /\ bus_dead b') b.
Proof.
  intros Hb. unfold identify. apply wp_bind. eapply (wp_mono _ (fun r b' => r = OpSkip /\ bus_dead b')); [|by intros r b1 [-> Hb1]].
  assert (exists n, poll_fuel = S n) as [n En] by (destruct poll_fuel as [|n]; [lia|by exists n]). rewrite En.
  cbn [op_cond]. rewrite En. cbn [mloop]. do 3 apply wp_bind.
  eapply wp_mono; [by apply dead_command|]. intros ? b1 (Hb1 & t & Et & Hst). apply wp_bind. unfold ctx_get. apply wp_ctx; [done|].
  intros t' Et' _. apply wp_gets. cbn [tmio hw]. rewrite Et in Et'. injection Et' as <-. rewrite Hst. apply wp_ret, wp_ret, wp_ret.
  split; [done|]. destruct Hb1 as (Hd & t2 & Et2 & Hc). rewrite Et in Et2. injection Et2 as <-. split; [done|]. by exists t.
Qed.
Lemma dead_setup (b : bus D) : bus_dead b -> wp setup_bus (fun r b' => r = -1 /\ bus_dead b') b.
Proof.
  intros Hb. unfold setup_bus. apply wp_bind. eapply wp_mono; [by apply dead_write_reg|]. intros ? b1 [Hb1 _].
  apply wp_bind. eapply wp_mono; [by apply dead_write_reg|]. intros ? b2 [Hb2 _].
  apply wp_bind. eapply wp_mono; [by apply dead_command|]. intros ? b3 Hb3.
  apply wp_bind. apply failed_test; [done|]. apply wp_ret. split; [done|apply Hb3].
Qed.
Definition iop_dead (s : iop (bus D)) : Prop := bus_dead (card s).
Lemma dead_on_card {A} (m : M (bus D) A) : tot bus_dead m -> tot iop_dead (on_card m).
Proof. intros Hm. by apply (tot_zoom bus_dead). Qed.
Lemma dead_power_up : tot iop_dead power_up.
Proof.
  assert (forall e, tot iop_dead (emit e)) as He by (intros e; by apply tot_modify).
  unfold power_up. apply tot_bind; [by apply dead_on_card, dead_upd_ctx|]. intros _.
  apply tot_bind; [apply dead_on_card, dead_on_dev|].
  { intros d Hd. unfold wp. pose proof (dead_r16 0x4004C04 d Hd) as Hr. destruct (hw_r16 0x4004C04 d) as [v d']. by apply dead_w16. }
  intros _. do 3 (apply tot_bind; [apply He|intros _]).
  apply tot_bind; [apply dead_on_card, dead_on_dev, tot_modify; intros; by apply dead_w16|]. intros _.
  apply dead_on_card. apply tot_bind; [by apply dead_upd_ctx|]. intros _. apply tot_bind; [apply dead_switch|]. intros _ b Hb.
  apply wp_bind. eapply wp_mono; [by apply dead_read_reg|]. intros ? b1 Hb1. apply wp_bind. apply failed_test; [done|].
  apply (tot_seq bus_dead); [by apply dead_upd_ctx|apply Hb1|]. intros _ b2 Hb2. by apply dead_switch.
Qed.

Lemma dead_init depth (s : iop (bus D)) : iop_dead s -> mbox_out_buffer s <> 0 -> mbox_buffer s <> 0 ->
  exists s', wifi_card_wlan_init depth s = Ok (-1, s').
Proof.
  intros Hs Ho Hi. assert (wp (wifi_card_wlan_init depth) (fun r _ => r = -1) s) as Hw'.
  2: { apply wp_run in Hw' as (r & s' & E & ->). by exists s'. }
  unfold wifi_card_wlan_init. apply wp_bind, wp_gets. rewrite (proj2 (Z.eqb_neq _ _) Ho), (proj2 (Z.eqb_neq _ _) Hi). cbn [orb].
  apply (tot_seq iop_dead); [apply dead_power_up|done|]. intros _ s1 H1'.
  apply (tot_seq iop_dead); [apply dead_on_card, dead_on_dev, dead_write|done|]. intros _ s2 H2'. apply wp_bind.
  apply wp_zoom. eapply wp_mono; [by apply dead_identify|]. intros r b [-> Hb]. apply wp_bind.
  apply wp_zoom. eapply wp_mono; [by apply dead_setup|]. intros e b2 [-> _]. by apply wp_ret.
Qed.
End Dead.

(** ** Claims *)

(** C25: the outcome of the initialisation on any hardware: when it returns, it
    returns -1 and has touched nothing but the card and the three power
    controls; or it returns 0, and then the firmware has reported ready and a
    scan is under way, the driver is marked initialised, the host interest area
    is that of the chip, and the interrupts and the timer were enabled after the
    power controls.  With no card behind the controller it does return, with
    -1, as soon as the buffers are allocated. *)
Theorem init_outcome {D} `{Hw D} `{Fuel} `{StackEnv} `{Rand} `{Irq D} depth (s : iop (bus D)) :
  (forall r s', wifi_card_wlan_init depth s = Ok (r, s') ->
    (r = -1 /\ unbooted s s') \/ (r = 0 /\ exists s1, trace s1 = trace s ++ power_events /\ booted s1 s')) /\
  (forall dead, no_card dead -> (0 < poll_fuel)%nat -> iop_dead dead s -> mbox_out_buffer s <> 0 -> mbox_buffer s <> 0 ->
    exists s', wifi_card_wlan_init depth s = Ok (-1, s') /\ unbooted s s').
Proof.
  split; [intros r s'; apply wlan_init_runs|]. intros dead Hno Hf Hs Ho Hi. destruct (dead_init dead Hno Hf depth s Hs Ho Hi) as [s' E].
  exists s'. split; [done|]. by destruct (wlan_init_runs depth s s' (-1) E) as [[_ Hu]|[Hr _]].
Qed.

(** The context that [wifi_card_device_init] sets up. *)
Definition with_ctx0 (present : bool) : iop (bus sim) :=
  iop0 {| bhw := sim0 present;
    device_curctx := Some (zero_ctx <| controller := REG_SDIO_BASE |> <| clk_cnt := 0 |> <| bus_width := 1 |>) |}.
#[local] Instance sim_fuel : Fuel := 12%nat.
#[local] Instance sim_rand : Rand := fun z => (z, z).
Definition code_of {A S} (o : outcome (A * S)) : option A := match o with Ok (r, _) => Some r | _ => None end.
Lemma code_of_ok {A S} (o : outcome (A * S)) r : code_of o = Some r -> exists s', o = Ok (r, s').
Proof. destruct o as [[a s]| |]; try done. intros [= ->]. by exists s. Qed.

(** With the card present the initialisation runs to the end, through the
    bootloader, the HTC set-up and the first WMI events. *)
Lemma boot_code : code_of (wifi_card_wlan_init 3 (with_ctx0 true)) = Some 0.
Proof. vm_compute. reflexivity. Qed.
(** The simulated controller without its card. *)
Definition absent (d : sim) : Prop := sm_present d = false.
Lemma sim_cmd_present v d : sm_present (sim_cmd v d) = sm_present d.
Proof.
  unfold sim_cmd. repeat (destruct (_ =? _); [done|]). destruct (_ =? _); [|done].
  destruct (Z.testbit _ _).
  - unfold sim_write. cbn. destruct (_ =? 0); [done|]. destruct (_ =? 0xFF).
    + unfold sim_bmi. cbn. by repeat case_match.
    + by destruct (_ =? _); [|destruct (_ =? _)].
  - unfold sim_read. by repeat case_match; simplify_eq.
Qed.
Lemma absent_no_card : no_card absent.
Proof.
  split.
  - done.
  - intros a v d Hd. cbn. unfold sim_w16. destruct (_ =? _); [done|]. destruct (_ =? _); [done|].
    destruct (_ =? _); [|done]. unfold absent. by rewrite sim_cmd_present.
  - intros d Hd. cbn. unfold sim_r16. change (_ =? _) with false at 1. change (_ =? _) with true at 1. cbv iota.
    unfold absent in Hd. rewrite Hd. by split.
Qed.

Lemma init_outcome_witness :
  (exists s', wifi_card_wlan_init 3 (with_ctx0 true) = Ok (0, s') /\ exists s1, trace s1 = power_events /\ booted s1 s') /\
  (exists s', wifi_card_wlan_init 3 (with_ctx0 false) = Ok (-1, s') /\ unbooted (with_ctx0 false) s').
Proof.
  split.
  - destruct (code_of_ok _ _ boot_code) as [s' E]. exists s'. split; [exact E|].
    destruct (proj1 (init_outcome 3 (with_ctx0 true)) 0 s' E) as [[Hr _]|[_ Hb]]; [discriminate|exact Hb].
  - apply (proj2 (init_outcome 3 (with_ctx0 false)) absent absent_no_card).
    + unfold poll_fuel, sim_fuel. lia.
    + split; [reflexivity|]. eexists. split; reflexivity.
    + discriminate.
    + discriminate.
Defined.
