(* ===== verification/HtcProofs.v ===== *)
(** The HTC set-up: the service requests that the driver sends when the
    firmware announces itself, with the nested reads of the replies.

    [FwCard] is a card whose firmware answers: a block write makes it queue
    packets.  Its two sides, [MboxCard] and [RxCard], are strengthened to
    instances that remember what the other side holds ([tx_side], [rx_side]),
    so that the lemmas on sending and on reading apply unchanged. *)

From S2P Require Import Prelude Cmonad Cutils Wpa WpaProofs Sdio Heap Card State Mbox MboxProofs Wmi WmiProofs Bss Eapol Pkt PktProofs Init InitProofs.

Import AckSpec.

Class FwCard (C : Type) `{MboxCard C} `{!RxCard C} := {
  fw_reply : Z * bytes -> list bytes;
  fw_send : forall c a b n r c', mc_ok c -> rx_ok c -> card_write_block a b n c = Ok (r, c') ->
    rx_ok c' /\ rx_queue c' = rx_queue c ++ fw_reply (a, take (Z.to_nat n) (bdata b));
  fw_read : forall c f a v c', mc_ok c -> rx_ok c -> a <> 0xFF -> card_read_byte f a c = Ok (v, c') ->
    rx_ok c' /\ rx_queue c' = rx_queue c;
  fw_write : forall c f a v r c', mc_ok c -> rx_ok c -> a <> 0xFF -> card_write_byte f a v c = Ok (r, c') ->
    rx_ok c' /\ rx_queue c' = rx_queue c;
  fw_block : forall c a b n r c', mc_ok c -> rx_ok c -> card_read_block a b n c = Ok (r, c') ->
    mc_ok c' /\ sent c' = sent c;
  fw_wait : forall c r c', mc_ok c -> rx_ok c -> card_wait c = Ok (r, c') -> mc_ok c' /\ sent c' = sent c
}.

Section Sides.
Context {C : Type} `{FwCard C}.

(** Reading, while what was sent is [l]. *)
Definition rx_side (l : list (Z * bytes)) : RxCard C.
Proof.
  refine {| rx_ok := fun c => rx_ok c /\ mc_ok c /\ sent c = l; rx_queue := rx_queue |}.
  - intros c (Hr & Hm & Hs). destruct (rx_status c Hr) as (v & c' & E & Hv & Hr' & Q).
    destruct (mc_read c 1 F1_HOST_INT_STATUS Hm) as (v2 & c2 & E2 & _ & Hm' & S'); [lia|unfold F1_HOST_INT_STATUS; lia|done|].
    rewrite E in E2. injection E2 as <- <-. exists v, c'. repeat split; try done. congruence.
  - intros c p q i (Hr & Hm & Hs) Hq Hi. destruct (rx_lookahead c p q i Hr Hq Hi) as (c' & E & Hr' & Q).
    destruct (mc_read c 1 (F1_RX_LOOKAHEAD0 + i) Hm) as (v2 & c2 & E2 & _ & Hm' & S');
      [lia|unfold F1_RX_LOOKAHEAD0; lia|unfold F1_RX_LOOKAHEAD0; lia|].
    rewrite E in E2. injection E2 as <- <-. exists c'. repeat split; try done. congruence.
  - intros c p q b n (Hr & Hm & Hs) Hq H1' H2' H3' H4' H5'.
    destruct (rx_block c p q b n Hr Hq H1' H2' H3' H4' H5') as (c' & E & Hr' & Q).
    destruct (fw_block _ _ _ _ _ _ Hm Hr E) as [Hm' S']. exists c'. repeat split; try done. congruence.
  - intros c (Hr & Hm & Hs). destruct (rx_wait c Hr) as (c' & E & Hr' & Q).
    destruct (fw_wait _ _ _ Hm Hr E) as [Hm' S']. exists c'. repeat split; try done. congruence.
Defined.

(** Sending, from a state with [l] sent and the queue [q]: every message adds
    the firmware's reply to the queue. *)
Definition tx_ok (l : list (Z * bytes)) (q : list bytes) (c : C) : Prop :=
  mc_ok c /\ rx_ok c /\ exists l', sent c = l ++ l' /\ rx_queue c = q ++ concat (map fw_reply l').
Definition tx_side (l : list (Z * bytes)) (q : list bytes) : MboxCard C.
Proof.
  refine {| mc_ok := tx_ok l q; sent := sent |}.
  - intros c a b n (Hm & Hr & l' & S1 & Q1) Ha Hn Hn2 Hl Hal.
    destruct (mc_send c a b n Hm Ha Hn Hn2 Hl Hal) as (c' & E & Hm' & S'). exists c'. split; [done|]. split; [|done].
    destruct (fw_send _ _ _ _ _ _ Hm Hr E) as [Hr' Q']. split; [done|]. split; [done|].
    exists (l' ++ [(a, take (Z.to_nat n) (bdata b))]). rewrite S', Q', S1, Q1, map_app, concat_app. cbn [map concat].
    by rewrite app_nil_r, !app_assoc.
  - intros c f a (Hm & Hr & l' & S1 & Q1) Hf Ha Hna. destruct (mc_read c f a Hm Hf Ha Hna) as (v & c' & E & Hv & Hm' & S').
    destruct (fw_read _ _ _ _ _ Hm Hr Hna E) as [Hr' Q']. exists v, c'. repeat split; try done; [apply Hv|apply Hv|].
    exists l'. by rewrite S', Q'.
  - intros c f a v (Hm & Hr & l' & S1 & Q1) Hf Ha Hna Hv. destruct (mc_write c f a v Hm Hf Ha Hna Hv) as (r & c' & E & Hm' & S').
    destruct (fw_write _ _ _ _ _ _ Hm Hr Hna E) as [Hr' Q']. exists r, c'. repeat split; try done.
    exists l'. by rewrite S', Q'.
Defined.
End Sides.

(** ** Buffers, by the shape of the heap *)

Lemma h_find_shape h h' p : h_shape h' = h_shape h -> h_find h' p = h_find h p.
Proof.
  revert h'; induction h as [|o h IH]; intros [|o' h'] E; try done. unfold h_shape in E. cbn [map] in E.
  injection E as Eb El Eh. cbn [h_find]. by rewrite Eb, El, (IH h' Eh).
Qed.
Lemma shape_lookup h h' j o : h_shape h' = h_shape h -> h !! j = Some o ->
  exists o', h' !! j = Some o' /\ baddr o' = baddr o /\ length (bdata o') = length (bdata o).
Proof.
  intros E Hj. assert (h_shape h' !! j = Some (baddr o, length (bdata o))) as Hs.
  { rewrite E. unfold h_shape. change (map ?f ?l) with (f <$> l). by rewrite list_lookup_fmap, Hj. }
  unfold h_shape in Hs. change (map ?f ?l) with (f <$> l) in Hs. rewrite list_lookup_fmap in Hs.
  destruct (h' !! j) as [o'|]; [|done]. injection Hs as ? ?. by exists o'.
Qed.

Section Setup.
Context {C : Type} `{FwCard C} `{Fuel} `{StackEnv} `{Rand}.

(** The buffer of incoming packets. *)
Definition in_object (s : iop C) (j : nat) (o : cbuffer) : Prop :=
  h_find (heap s) (mbox_buffer s) = Some (j, 0%nat) /\ heap s !! j = Some o /\ (0x600 <= length (bdata o))%nat.
Record bufs_ok (s : iop C) : Prop := {
  bf_disjoint : h_disjoint (heap s);
  bf_out : exists i o, out_object s i o;
  bf_in : exists j o, in_object s j o;
  bf_align : mbox_buffer s mod 4 = 0
}.

(** What interrupts never change includes the buffers. *)
Lemma frame_bufs s s' : frame s s' -> bufs_ok s -> bufs_ok s'.
Proof.
  intros [Eh [Eo Ei] _ _ _ _ _ _] [D (i & o & F & E & L & A) (j & p & F2 & E2 & L2) Al].
  assert (h_shape (heap s) = h_shape (heap s')) as Eh' by done. split.
  - intros a b x y Hx Hy Hab. destruct (shape_lookup _ _ a x Eh' Hx) as (x' & Hx' & <- & <-).
    destruct (shape_lookup _ _ b y Eh' Hy) as (y' & Hy' & <- & <-). by apply (D a b).
  - destruct (shape_lookup _ _ i o Eh E) as (o' & Ho' & Ea & El). exists i, o'. split; [|split; [done|]].
    + by rewrite Eo, (h_find_shape _ _ _ Eh).
    + by rewrite El, Ea.
  - destruct (shape_lookup _ _ j p Eh E2) as (p' & Hp' & Ea & El). exists j, p'. split; [|split; [done|]].
    + by rewrite Ei, (h_find_shape _ _ _ Eh).
    + by rewrite El.
  - by rewrite Ei.
Qed.

(** ** Requests *)

Definition htc_pkt (ty : Z) (p : bytes) : mpkt :=
  {| mp_type := MBOXPKT_HTC; mp_ack := MBOXPKT_NOACK; mp_ctl := 0; mp_body := le_bytes 2 ty ++ p |}.

Lemma htc_send_refines `{M' : !MboxCard C} ty data len : 0 <= len <= 0x7E -> payload_ok data len ->
  exists b, refines (htc_send_pkt ty MBOXPKT_NOACK data len)
    (fun a => (tt, apush (htc_pkt ty (payload data len)) (a <| htc_buffer := b |>))).
Proof.
  intros Hl Hp. set (b := le_bytes 2 ty ++ payload data len ++ replicate (Z.to_nat (0x7E - len)) 0).
  pose proof (length_payload data len Hp ltac:(lia)) as Lp.
  assert (blit 2 (payload data len) (blit 0 (le_bytes 2 ty) (replicate 0x80 0)) = b) as Eb.
  { subst b. change 2%nat with (length (le_bytes 2 ty)) at 1. rewrite blit_next by (cbn [length le_bytes]; rewrite length_replicate; lia).
    cbn [length le_bytes]. rewrite drop_replicate. do 3 f_equal. lia. }
  exists b. intros s Hs. unfold htc_send_pkt. rewrite !(bind_run (modify _) _ _ tt _ eq_refl).
  rewrite (proj2 (Z.ltb_ge _ _)) by lia.
  set (s1 := s <| htc_buffer := b |>).
  assert (forall k : M (iop C) unit, bind (match data with
      | None => ret tt
      | Some d => if (Z.to_nat len <=? length d)%nat
          then modify (fun s => s <| htc_buffer := blit 2 (take (Z.to_nat len) d) (htc_buffer s) |>) else fail OobRead
      end) (fun _ => k) (s <| htc_buffer := replicate 0x80 0 |> <| htc_buffer := blit 0 (le_bytes 2 ty) (htc_buffer (s <| htc_buffer := replicate 0x80 0 |>)) |>)
    = k s1) as Hcopy.
  { intros k. destruct data as [d|]; cbn [payload payload_ok] in *.
    - rewrite (proj2 (Nat.leb_le _ _)) by lia. unfold bind, modify. cbn [htc_buffer set set_htc_buffer]. rewrite Eb. done.
    - unfold bind, ret. rewrite blit_nil in Eb. cbn [htc_buffer set set_htc_buffer]. rewrite Eb. done. }
  rewrite Hcopy. rewrite (bind_run (gets htc_buffer) _ _ _ _ eq_refl). change (htc_buffer s1) with b. rewrite u16_id by lia.
  destruct (send_packet_refines MBOXPKT_HTC MBOXPKT_NOACK (Some b) (len + 2) 0) with (s := s1) as ([] & s' & E & Hs' & A).
  - unfold byte_ok, MBOXPKT_HTC. lia.
  - unfold byte_ok, MBOXPKT_NOACK. lia.
  - lia.
  - cbn [payload_ok]. subst b. rewrite !length_app. cbn [length le_bytes]. lia.
  - exact Hs.
  - exists tt, s'. split; [exact E|]. split; [done|]. rewrite <- A. cbn [payload].
    assert (take (Z.to_nat (len + 2)) b = le_bytes 2 ty ++ payload data len) as ->; [|done].
    subst b. rewrite app_assoc. apply take_app_length'. rewrite length_app. cbn [length le_bytes]. lia.
Qed.

(** Initialised on both sides, with the reader about to ask the card for the
    next header. *)
Record quiet (s : iop C) : Prop := {
  qu_mc : mc_ok (card s);
  qu_rx : rx_ok (card s);
  qu_bufs : bufs_ok s;
  qu_la : mbox_has_lookahead s = false
}.
(** The variables of WMI and the calls to the outside are as before. *)
Definition calm (s s' : iop C) : Prop := wmi s' = wmi s /\ trace s' = trace s.
#[local] Instance calm_pre : PreOrder calm.
Proof. split; [by split|]. intros s1 s2 s3 [A1 A2] [B1 B2]. split; congruence. Qed.

(** A request adds one message to what was sent and its reply to the queue. *)
Lemma htc_request_run ty data len (s : iop C) : quiet s -> 0 <= len <= 0x7E -> payload_ok data len ->
  exists s' m, htc_send_pkt ty MBOXPKT_NOACK data len s = Ok (tt, s') /\ quiet s' /\ calm s s' /\
    decode m = Some (htc_pkt ty (payload data len)) /\ sent (card s') = sent (card s) ++ [m] /\
    rx_queue (card s') = rx_queue (card s) ++ fw_reply m.
Proof.
  intros [Hm Hr Hb Hla] Hl Hp.
  destruct (htc_send_refines (M' := tx_side (sent (card s)) (rx_queue (card s))) ty data len Hl Hp) as [b Href].
  destruct (Href s) as ([] & s' & E & (Ht & _) & A).
  { split; [|split; [apply Hb|apply Hb]]. split; [done|]. split; [done|]. exists []. by rewrite !app_nil_r. }
  pose proof (f_equal (fun a => card (snd a)) A) as Ac. cbn -[decode] in Ac.
  destruct Ht as (Hm' & Hr' & l' & S' & Q'). rewrite S', map_app in Ac. apply app_inv_head in Ac.
  destruct l' as [|m [|]]; try done. injection Ac as Ac. cbn [map concat] in Q'. rewrite app_nil_r in Q'.
  exists s', m. split; [exact E|]. split; [|split; [|done]].
  - split; [done|done| |].
    + refine (frame_bufs s s' _ Hb). exact (pres_run frame _ _ _ _ (frame_htc_send _ _ _ _) E).
    + rewrite <- Hla. exact (eq_sym (f_equal (fun a => mbox_has_lookahead (snd a)) A)).
  - split; [exact (eq_sym (f_equal (fun a => wmi (snd a)) A))|exact (eq_sym (f_equal (fun a => trace (snd a)) A))].
Qed.

(** *** Replies *)

Definition x_cmd (x : rxpkt) : Z := le_val (drop 6 (take 8 (x_bytes x))).
Record svc_reply (x : rxpkt) : Prop := {
  sv_pkt : rxpkt_ok x;
  sv_type : x_type x = MBOXPKT_HTC;
  sv_cmd : x_cmd x <> HTC_MSG_READY;
  sv_la : first_lookahead (x_trailer x) = None
}.

Lemma quiet_dest (s : iop C) : quiet s -> exists j o, dest_ok MBOXPKT_HTC s j 0 o.
Proof.
  intros [_ _ [D _ (j & o & F & E & L) Al] _]. exists j, o.
  assert (to_ring MBOXPKT_HTC s = false) as Et by (unfold to_ring; by rewrite andb_false_r).
  assert (dest MBOXPKT_HTC s = mbox_buffer s) as Ed by (unfold dest; by rewrite Et).
  split; rewrite ?Ed; try done. by rewrite Et.
Qed.

(** The reader on a packet of the HTC channel, up to the handler. *)
Lemma htc_read_run d x q (s : iop C) : quiet s -> rx_queue (card s) = x_bytes x :: q -> rxpkt_ok x -> x_type x = MBOXPKT_HTC ->
  exists c' j o, dest_ok MBOXPKT_HTC s j 0 o /\ mc_ok c' /\ rx_ok c' /\ sent c' = sent (card s) /\ rx_queue c' = q /\
    wifi_card_mbox0_readpkt (S d) s =
      (htc_handle_pkt (wifi_card_mbox0_readpkt d) (x_cmd x) ;;;
       handle_acks (mbox_buffer s + 6 + Z.of_nat (length (x_body x))) (Z.of_nat (length (encode (x_trailer x)))) ;;;
       ret (Z.of_nat (x_len x))) (received x c' j 0 o s).
Proof.
  intros Hs Hq Hx Ht. destruct (quiet_dest s Hs) as (j & o & Hd).
  assert (dest MBOXPKT_HTC s = mbox_buffer s) as Ed by (unfold dest, to_ring; by rewrite andb_false_r).
  pose proof Hd as Hd'. rewrite <- Ht in Hd'.
  destruct (readpkt_reads (H0 := rx_side (sent (card s))) (wifi_card_mbox0_readpkt d) x q j 0 o s) as (c' & (Hr & Hm & Hs') & Q & E);
    [by split; [apply Hs|split; [apply Hs|]]|done|done|intros Hf; by rewrite (qu_la s Hs) in Hf|done|].
  exists c', j, o. split; [done|]. repeat (split; [done|]). cbn [wifi_card_mbox0_readpkt]. rewrite E.
  unfold dispatch. rewrite Ht, Ed.
  pose proof (received_head x c' j 0 o s Hx Hd') as Eh. rewrite Ht, Ed in Eh.
  unfold bind at 1 3. rewrite (bind_run _ _ _ _ _ Eh). cbv zeta. done.
Qed.

Lemma htc_reply_run d x q (s : iop C) : quiet s -> rx_queue (card s) = x_bytes x :: q -> svc_reply x ->
  exists s', wifi_card_mbox0_readpkt (S d) s = Ok (Z.of_nat (x_len x), s') /\ quiet s' /\ calm s s' /\
    sent (card s') = sent (card s) /\ rx_queue (card s') = q.
Proof.
  intros Hs Hq [Hx Ht Hc Hla]. destruct (htc_read_run d x q s Hs Hq Hx Ht) as (c' & j & o & Hd & Hm & Hr & S' & Q & E).
  rewrite <- Ht in Hd. pose proof (received_acks x c' j 0 o s (received x c' j 0 o s) Hx Hd eq_refl eq_refl) as Ea.
  unfold found_in in Ea. rewrite Hla in Ea.
  assert (dest (x_type x) s = mbox_buffer s) as Ed by (unfold dest, to_ring; rewrite Ht; by rewrite andb_false_r).
  rewrite Ed in Ea. unfold htc_handle_pkt in E. rewrite (proj2 (Z.eqb_neq _ _) Hc) in E.
  rewrite (bind_run (ret tt) _ _ _ _ eq_refl), (bind_run _ _ _ _ _ Ea) in E.
  eexists. split; [exact E|]. split; [|by split; [split|]].
  split; [done|done| |done]. refine (frame_bufs s _ _ (qu_bufs s Hs)).
  exact (pres_run frame _ _ _ _ (frame_readpkt (S d)) E).
Qed.

(** *** The whole exchange *)

Definition svc_request (i : Z) : mpkt := htc_pkt HTC_MSG_CONN_SVC (wmi_handshake i).
Definition setup_complete : mpkt := htc_pkt HTC_MSG_SETUP_COMPLETE [].
(** The firmware answers a service request with one packet. *)
Definition answers (i : Z) : Prop := forall m, decode m = Some (svc_request i) -> exists x, fw_reply m = [x_bytes x] /\ svc_reply x.

Lemma services_run d (js : list Z) (s : iop C) : quiet s -> rx_queue (card s) = [] -> Forall answers js ->
  exists s', mforeach js (fun i =>
      htc_send_pkt HTC_MSG_CONN_SVC MBOXPKT_NOACK (Some (wmi_handshake i)) 6 ;;;
      wifi_card_mbox0_readpkt (S d) ;;; ret tt) s = Ok (tt, s') /\ quiet s' /\ calm s s' /\
    map decode (sent (card s')) = map decode (sent (card s)) ++ map (fun i => Some (svc_request i)) js /\
    rx_queue (card s') = [].
Proof.
  intros Hs Hq Hi. revert s Hs Hq. induction Hi as [|i js Hi His IH]; intros s Hs Hq.
  - exists s. split; [done|]. split; [done|]. split; [done|]. cbn [map]. by rewrite app_nil_r.
  - destruct (htc_request_run HTC_MSG_CONN_SVC (Some (wmi_handshake i)) 6 s Hs) as (s1 & m & E1 & Hs1 & C1 & D1 & S1 & Q1);
      [lia|done|]. change (payload (Some (wmi_handshake i)) 6) with (wmi_handshake i) in D1.
    destruct (Hi m D1) as (x & Ex & Hx). rewrite Hq, Ex in Q1. cbn [app] in Q1.
    destruct (htc_reply_run d x [] s1 Hs1 Q1 Hx) as (s2 & E2 & Hs2 & C2 & S2 & Q2).
    destruct (IH s2 Hs2 Q2) as (s3 & E3 & Hs3 & C3 & S3 & Q3). exists s3. split; [|split; [done|]].
    + cbn [mforeach]. unfold bind at 1. rewrite (bind_run _ _ _ _ _ E1), (bind_run _ _ _ _ _ E2). exact E3.
    + split; [by transitivity s1; [|transitivity s2]|]. split; [|done].
      rewrite S3, S2, S1, map_app. cbn [map]. unfold svc_request at 1. by rewrite D1, <- app_assoc.
Qed.

(** *** Registers *)

Lemma mc_write_u32 `{M' : !MboxCard C} c a v : mc_ok c -> 0xFF < a < 2 ^ 17 - 3 ->
  exists c', wifi_card_write_func1_u32 a v c = Ok (tt, c') /\ mc_ok c' /\ sent c' = sent c.
Proof.
  intros Hc Ha. assert (forall z, byte_ok (u8 z)) as Hb by (intros z; unfold byte_ok, u8; zdm).
  unfold wifi_card_write_func1_u32, wifi_card_write_func1_u16, wifi_card_write_func1_u8, bind. rewrite (u32_id (a + 2)), !u32_id by lia.
  destruct (mc_write c 1 (a + 2 + 1) (u8 (Z.shiftr (Z.shiftr v 16) 8)) Hc) as (r0 & c0 & -> & K0 & S0); [lia..|apply Hb|].
  destruct (mc_write c0 1 (a + 2) (u8 (Z.land (Z.shiftr v 16) 0xFF)) K0) as (r1 & c1 & -> & K1 & S1); [lia..|apply Hb|]. cbn [ret].
  destruct (mc_write c1 1 (a + 1) (u8 (Z.shiftr (Z.land v 0xFFFF) 8)) K1) as (r2 & c2 & -> & K2 & S2); [lia..|apply Hb|].
  destruct (mc_write c2 1 a (u8 (Z.land (Z.land v 0xFFFF) 0xFF)) K2) as (r3 & c3 & -> & K3 & S3); [lia..|apply Hb|].
  exists c3. split; [done|]. split; [done|]. congruence.
Qed.

(** Register accesses change neither side. *)
Lemma reg_run {A} (m : M C A) (s : iop C) : quiet s ->
  (forall l q c, tx_ok l q c -> exists a c', m c = Ok (a, c') /\ tx_ok l q c' /\ sent c' = sent c) ->
  exists a c', on_card m s = Ok (a, s <| card := c' |>) /\ quiet (s <| card := c' |>) /\
    sent c' = sent (card s) /\ rx_queue c' = rx_queue (card s).
Proof.
  intros Hs Hm. destruct (Hm (sent (card s)) (rx_queue (card s)) (card s)) as (a & c' & E & (K & R & l' & S' & Q') & Es).
  { split; [apply Hs|]. split; [apply Hs|]. exists []. by rewrite !app_nil_r. }
  exists a, c'. split; [unfold on_card, zoom; by rewrite E|]. rewrite Es in S'.
  destruct l' as [|m' l']. 2: { apply (f_equal length) in S'. rewrite length_app in S'. cbn [length] in S'. lia. }
  cbn [map concat] in Q'. rewrite app_nil_r in Q'. split; [|done]. destruct Hs as [_ _ [D Ho Hi Al] Hl]. by split; [..|split|].
Qed.

Lemma irq_enable_run (s : iop C) : quiet s ->
  exists c', (on_card (wifi_card_write_func1_u32 F1_INT_STATUS_ENABLE 0x010300D1) ;;;
      on_card (wifi_card_write_func0_u8 0x4 0x3) ;;; ret tt) s = Ok (tt, s <| card := c' |>) /\ quiet (s <| card := c' |>) /\
    sent c' = sent (card s) /\ rx_queue c' = rx_queue (card s).
Proof.
  intros Hs. destruct (reg_run (wifi_card_write_func1_u32 F1_INT_STATUS_ENABLE 0x010300D1) s Hs) as ([] & c1 & E1 & H1' & S1 & Q1).
  { intros l q c Hc. destruct (mc_write_u32 (M' := tx_side l q) c F1_INT_STATUS_ENABLE 0x010300D1 Hc) as (c' & E & K & S');
      [unfold F1_INT_STATUS_ENABLE; lia|]. by exists tt, c'. }
  destruct (reg_run (wifi_card_write_func0_u8 0x4 0x3) (s <| card := c1 |>) H1') as (r & c2 & E2 & H2' & S2 & Q2).
  { intros l q c Hc. unfold wifi_card_write_func0_u8.
    destruct (mc_write (MboxCard := tx_side l q) c 0 0x4 (u8 0x3) Hc) as (r & c' & E & K & S'); [lia|lia|done|vm_compute; split; congruence|].
    by exists r, c'. }
  exists c2. rewrite (bind_run _ _ _ _ _ E1), (bind_run _ _ _ _ _ E2). split; [done|]. split; [exact H2'|].
  cbn [card set set_card] in S2, Q2. split; congruence.
Qed.

(** The interrupt status is read and written back. *)
Lemma irq_status_run {B} (s : iop C) : quiet s ->
  exists c', (forall k : M (iop C) B, (let* sts := on_card (wifi_card_read_func1_u32 F1_HOST_INT_STATUS) in
      on_card (wifi_card_write_func1_u32 F1_HOST_INT_STATUS sts) ;;; k) s = k (s <| card := c' |>)) /\
    quiet (s <| card := c' |>) /\ sent c' = sent (card s) /\ rx_queue c' = rx_queue (card s).
Proof.
  intros Hs. destruct (reg_run (wifi_card_read_func1_u32 F1_HOST_INT_STATUS) s Hs) as (v & c1 & E1 & H1' & S1 & Q1).
  { intros l q c Hc. apply (mc_read_u32 (H0 := tx_side l q) c F1_HOST_INT_STATUS Hc). unfold F1_HOST_INT_STATUS. lia. }
  destruct (reg_run (wifi_card_write_func1_u32 F1_HOST_INT_STATUS v) (s <| card := c1 |>) H1') as ([] & c2 & E2 & H2' & S2 & Q2).
  { intros l q c Hc. destruct (mc_write_u32 (M' := tx_side l q) c F1_HOST_INT_STATUS v Hc) as (c' & E & K & S');
      [unfold F1_HOST_INT_STATUS; lia|]. by exists tt, c'. }
  exists c2. split; [|split; [exact H2'|]].
  - intros k. rewrite (bind_run _ _ _ _ _ E1), (bind_run _ _ _ _ _ E2). done.
  - cbn [card set set_card] in S2, Q2. split; congruence.
Qed.

(** *** The announcement of the firmware *)

Record ready_pkt (x : rxpkt) : Prop := {
  rd_pkt : rxpkt_ok x;
  rd_type : x_type x = MBOXPKT_HTC;
  rd_cmd : x_cmd x = HTC_MSG_READY;
  rd_trailer : x_trailer x = []
}.

Lemma ready_run d x (s : iop C) : quiet s -> rx_queue (card s) = [x_bytes x] -> ready_pkt x -> Forall answers [0; 1; 2; 3; 4] ->
  exists s' m, wifi_card_mbox0_readpkt (S (S d)) s = Ok (Z.of_nat (x_len x), s') /\ quiet s' /\ calm s s' /\
    map decode (sent (card s')) = map decode (sent (card s)) ++ map Some (map svc_request [0; 1; 2; 3; 4] ++ [setup_complete]) /\
    decode m = Some setup_complete /\ rx_queue (card s') = fw_reply m.
Proof.
  intros Hs Hq [Hx Ht Hc Htr] Ha. destruct (htc_read_run (S d) x [] s Hs Hq Hx Ht) as (c' & j & o & Hd & Hm & Hr & S' & Q & E).
  set (s0 := received x c' j 0 o s) in *. rewrite Hc, Htr in E.
  assert (quiet s0) as H0'.
  { split; [done|done| |done]. pose proof Hd as [_ Fd Od Rd _ _]. assert (dest MBOXPKT_HTC s = mbox_buffer s) as Ed by (unfold dest, to_ring; by rewrite andb_false_r).
    rewrite Ed in Fd. destruct (x_head_bytes x Hx) as (_ & _ & _ & _ & Hl).
    assert (h_shape (heap s0) = h_shape (heap s)) as Esh.
    { apply (h_store_shape (heap s) (mbox_buffer s) (x_bytes x)). rewrite (h_store_run _ _ _ j 0 o Fd Od) by lia. done. }
    refine (frame_bufs s s0 _ (qu_bufs s Hs)). split; try done. exists []. by rewrite app_nil_r. }
  destruct (services_run d [0; 1; 2; 3; 4] s0 H0' Q Ha) as (s1 & E1 & H1' & C1 & S1 & Q1).
  destruct (htc_request_run HTC_MSG_SETUP_COMPLETE None 0 s1 H1') as (s2 & m & E2 & H2' & C2 & D2 & S2 & Q2); [lia|done|].
  destruct (irq_enable_run s2 H2') as (c3 & E3 & H3' & S3 & Q3).
  exists (s2 <| card := c3 |> <| mbox_has_lookahead := false |>), m.
  split; [|split; [|split; [|split; [|split; [done|]]]]].
  - rewrite E. unfold htc_handle_pkt. change (HTC_MSG_READY =? HTC_MSG_READY) with true. cbv iota.
    unfold bind at 1. rewrite (bind_run _ _ _ _ _ E1), (bind_run _ _ _ _ _ E2), E3. done.
  - destruct H3' as [K1 K2 [B1 B2 B3 B4] K4]. by split; [..|split|].
  - assert (calm s s0) as C0 by done. transitivity s0; [done|]. transitivity s1; [done|exact C2].
  - change (map decode (sent c3) = map decode (sent (card s)) ++ map Some (map svc_request [0; 1; 2; 3; 4] ++ [setup_complete])).
    rewrite S3, S2, map_app, S1. change (card s0) with c'. rewrite S', <- app_assoc. cbn [map]. by rewrite D2.
  - change (rx_queue c3 = fw_reply m). rewrite Q3, Q2, Q1. done.
Qed.
End Setup.

(** ** A card with a firmware *)

Record fwq := { fq_sent : list (Z * bytes); fq_queue : list bytes }.

Definition demo_reply : rxpkt :=
  {| x_type := MBOXPKT_HTC; x_ack := 0; x_b4 := 0; x_b5 := 0; x_body := [3; 0; 0; 1; 0; 1; 0; 0]; x_trailer := [];
     x_pad := replicate 114 0 |}.
Definition demo_ready : rxpkt :=
  {| x_type := MBOXPKT_HTC; x_ack := 0; x_b4 := 0; x_b5 := 0; x_body := [1; 0; 8; 0; 4; 6; 0; 0]; x_trailer := [];
     x_pad := replicate 114 0 |}.
(** Service requests are answered, other messages are not. *)
Definition demo_answer (m : Z * bytes) : list bytes :=
  match decode m with
  | Some p => if bool_decide (take 2 (mp_body p) = le_bytes 2 HTC_MSG_CONN_SVC) then [x_bytes demo_reply] else []
  | None => []
  end.

#[export] Instance fwq_card : Card fwq := {|
  card_read_byte := fun f a c =>
    Ok (if negb (f =? 1) then 0
        else if a =? F1_HOST_INT_STATUS then Z.b2z (negb (bool_decide (fq_queue c = [])))
        else if (F1_RX_LOOKAHEAD0 <=? a) && (a <? F1_RX_LOOKAHEAD0 + 4)
        then u8 (nth (Z.to_nat (a - F1_RX_LOOKAHEAD0)) (nth 0 (fq_queue c) []) 0) else 0, c);
  card_write_byte := fun _ _ _ c => Ok (0, c);
  card_read_32bit := fun _ b _ c => Ok ((0, bdata b), c);
  card_read_block := fun _ b n c =>
    Ok ((0, blit 0 (nth 0 (fq_queue c) []) (bdata b)), {| fq_sent := fq_sent c; fq_queue := drop 1 (fq_queue c) |});
  card_write_block := fun a b n c =>
    let m := (a, take (Z.to_nat n) (bdata b)) in
    Ok (0, {| fq_sent := fq_sent c ++ [m]; fq_queue := fq_queue c ++ demo_answer m |});
  card_wait := ret tt
|}.

#[export] Instance fwq_mbox : MboxCard fwq.
Proof.
  refine {| mc_ok := fun _ => True; sent := fq_sent |}.
  - intros c a b n _ _ _ _ _ _. eexists. split; [reflexivity|]. done.
  - intros c f a _ _ _ _. eexists _, _. split; [reflexivity|]. split; [|done]. cbn.
    unfold byte_ok, u8. destruct (f =? 1); cbn [negb]; [|lia].
    destruct (a =? _); [destruct (bool_decide _); cbn; lia|]. destruct (_ && _); [apply Z.mod_pos_bound; lia|lia].
  - intros c f a v _ _ _ _ _. eexists _, _. split; [reflexivity|]. done.
Defined.

#[export] Instance fwq_rx : RxCard fwq.
Proof.
  refine {| rx_ok := fun c => Forall bytes_ok (fq_queue c); rx_queue := fq_queue |}.
  - intros c Hc. eexists _, c. split; [reflexivity|]. split; [|done]. cbn. by destruct (bool_decide _).
  - intros c p q i Hc Hq Hi. exists c. split; [|done]. cbn [card_read_byte fwq_card]. rewrite Hq in *. apply Forall_cons in Hc as [Hp _].
    change (1 =? 1) with true. cbn [negb]. rewrite (proj2 (Z.eqb_neq _ _)) by (unfold F1_RX_LOOKAHEAD0, F1_HOST_INT_STATUS; lia).
    rewrite (proj2 (Z.leb_le _ _)), (proj2 (Z.ltb_lt _ _)) by lia. cbn [andb negb Z.eqb Pos.eqb nth].
    replace (F1_RX_LOOKAHEAD0 + i - F1_RX_LOOKAHEAD0) with i by lia. rewrite u8_id; [done|].
    destruct (nth_in_or_default (Z.to_nat i) p 0) as [Hin| ->]; [|unfold byte_ok; lia].
    apply (proj1 (Forall_forall _ _) Hp). by apply list_elem_of_In.
  - intros c p q b n Hc Hq Hn Hm Hl Ha Hn2. eexists. split; [cbn; rewrite Hq; reflexivity|]. cbn. rewrite Hq in *.
    split; [|by rewrite drop_0]. apply Forall_cons in Hc as [_ Hc]. by rewrite drop_0.
  - intros c Hc. by exists c.
Defined.

Lemma demo_reply_ok : svc_reply demo_reply.
Proof.
  split; try reflexivity; [|vm_compute; congruence].
  split; try reflexivity; [apply Forall_range; reflexivity|vm_compute; lia|constructor].
Qed.
Lemma demo_ready_ok : ready_pkt demo_ready.
Proof. split; try reflexivity. split; try reflexivity; [apply Forall_range; reflexivity|vm_compute; lia|constructor]. Qed.

#[export] Instance fwq_fw : FwCard fwq.
Proof.
  refine {| fw_reply := demo_answer |}.
  - intros c a b n r c' _ Hc [= <- <-]. cbn. split; [|done]. apply Forall_app. split; [done|]. unfold demo_answer.
    destruct (decode _); [|constructor]. destruct (bool_decide _); [|constructor]. constructor; [apply demo_reply_ok|constructor].
  - by intros c f a v c' _ Hc _ [= <- <-].
  - by intros c f a v r c' _ Hc _ [= <- <-].
  - by intros c a b n r c' _ _ [= <- <-].
  - by intros c r c' _ _ [= <- <-].
Defined.

Lemma demo_answers : Forall answers [0; 1; 2; 3; 4].
Proof.
  repeat constructor; intros m Hm; exists demo_reply; (split; [|exact demo_reply_ok]); cbn [fw_reply fwq_fw]; unfold demo_answer;
    rewrite Hm; reflexivity.
Qed.

(** The witness's state: buffers allocated, the announcement in the mailbox. *)
Definition demo_announced : iop fwq := iop0 {| fq_sent := []; fq_queue := [x_bytes demo_ready] |}.
Lemma demo_quiet : quiet demo_announced.
Proof.
  split; [exact I| | |reflexivity].
  - constructor; [apply demo_ready_ok|constructor].
  - split.
    + exact heap0_disjoint.
    + eexists 0%nat, _. apply iop0_out.
    + exists 1%nat, {| baddr := 0x3801000; bdata := replicate 0x600 0 |}. split; [reflexivity|]. split; [reflexivity|]. cbn [bdata]. rewrite length_replicate. lia.
    + reflexivity.
Qed.

(** C24: the set-up of the HTC layer: when the interrupt handler finds the
    firmware's announcement as the only packet, and the firmware answers each
    service request, the driver sends the five requests and the completion
    message, in this order and nothing else, reads each reply before it sends
    the next request, returns, and leaves in the mailbox only what the firmware
    answers to the completion; the variables of WMI, the buffers and the calls
    to the other processor are untouched. *)
Theorem htc_setup {C} `{FwCard C} `{Fuel} `{StackEnv} `{Rand} d x (s : iop C) :
  quiet s -> rx_queue (card s) = [x_bytes x] -> ready_pkt x -> Forall answers [0; 1; 2; 3; 4] ->
  exists s' m, wifi_card_irq (S (S d)) s = Ok (tt, s') /\ quiet s' /\ frame s s' /\ calm s s' /\
    map decode (sent (card s')) = map decode (sent (card s)) ++ map Some (map svc_request [0; 1; 2; 3; 4] ++ [setup_complete]) /\
    decode m = Some setup_complete /\ rx_queue (card s') = fw_reply m.
Proof.
  intros Hs Hq Hx Ha. destruct (irq_status_run (B := unit) s Hs) as (c1 & E1 & H1' & S1 & Q1).
  destruct (ready_run d x (s <| card := c1 |>) H1') as (s' & m & E & Hs' & Hc & Hsent & Hm & Hq'); [exact (eq_trans Q1 Hq)|done|done|].
  assert (wifi_card_irq (S (S d)) s = Ok (tt, s')) as Ei.
  { unfold wifi_card_irq, wifi_card_process_pkts. rewrite E1, (bind_run _ _ _ _ _ E). done. }
  exists s', m. split; [done|]. split; [done|]. split; [exact (pres_run frame _ _ _ _ (frame_irq (S (S d))) Ei)|]. split; [exact Hc|].
  split; [|done]. rewrite Hsent. change (card (s <| card := c1 |>)) with c1. by rewrite S1.
Qed.

Lemma htc_setup_witness : let _ : Fuel := 1%nat in let _ : Rand := fun z => (z, z) in
  exists s', wifi_card_irq 2 demo_announced = Ok (tt, s') /\ fq_queue (card s') = [] /\
    map decode (fq_sent (card s')) = map Some (map svc_request [0; 1; 2; 3; 4] ++ [setup_complete]).
Proof.
  intros F R. destruct (htc_setup 0 demo_ready demo_announced demo_quiet eq_refl demo_ready_ok demo_answers)
    as (s' & m & E & _ & _ & _ & Hs & Hm & Hq).
  exists s'. split; [exact E|]. split; [|exact Hs].
  change (fq_queue (card s')) with (rx_queue (card s')). rewrite Hq. cbn [fw_reply fwq_fw]. unfold demo_answer. rewrite Hm. reflexivity.
Defined.

(** The trailer of the announcement itself is read after the nested reads have
    overwritten the buffer: here it announces the next header, and the driver
    ends without a remembered lookahead, while the same trailer on any other
    packet of this channel is found. *)
Definition demo_trailed (cmd : Z) : rxpkt :=
  {| x_type := MBOXPKT_HTC; x_ack := 2; x_b4 := 8; x_b5 := 0; x_body := [cmd; 0; 8; 0; 4; 6; 0; 0];
     x_trailer := [(2, [0xAA; 0; 0; 8; 0; 0x55])]; x_pad := replicate 106 0 |}.
Definition trailed_run (cmd : Z) : option (bool * Z) :=
  let _ : Fuel := 1%nat in let _ : Rand := fun z => (z, z) in
  match wifi_card_irq 2 (iop0 {| fq_sent := []; fq_queue := [x_bytes (demo_trailed cmd)] |}) with
  | Ok (_, s') => Some (mbox_has_lookahead s', mbox_lookahead s')
  | _ => None
  end.
Lemma ready_trailer_lost : trailed_run HTC_MSG_READY = Some (false, 0) /\ trailed_run 5 = Some (true, 0x80000).
Proof. vm_compute. by split. Qed.
