(* ===== verification/ParseProofs.v ===== *)
(** The loops over received bytes end: the walk over the information elements
    of a beacon, over the records of an ack trailer and over the key data of a
    handshake message, on every input, well-formed or not. *)

From S2P Require Import Prelude Cmonad Cutils Wpa Sdio Heap Card State Mbox Wmi Bss BssProofs Eapol Pkt.

Lemma lookup_byte (l : bytes) i b : bytes_ok l -> l !! i = Some b -> 0 <= b < 256.
Proof. intros Hl Hi. exact (proj1 (Forall_lookup _ _) Hl i b Hi). Qed.

(** One turn for every byte that is left is enough. *)
Lemma parse_acks_ends ack len n idx has la : bytes_ok ack -> 0 <= idx -> len < 256 ->
  (Z.to_nat (len - idx) <= n)%nat -> parse_acks n ack idx len has la <> Hang.
Proof.
  intros Hb. revert idx has la; induction n as [|n IH]; intros idx has la Hi Hl Hn; cbn [parse_acks].
  - assert (idx <? len = false) as -> by (apply Z.ltb_ge; lia). done.
  - destruct (idx <? len) eqn:E; [|done]. apply Z.ltb_lt in E.
    destruct (ack !! Z.to_nat idx) as [ty|]; [|done]. destruct (ack !! (Z.to_nat idx + 1)%nat) as [k|] eqn:Ek; [|done].
    pose proof (lookup_byte ack _ k Hb Ek) as Hk. rewrite u16_id by lia.
    assert (forall h v, parse_acks n ack (idx + 2 + k) len h v <> Hang) as Hstep by (intros; apply IH; lia).
    destruct (_ && _); [|apply Hstep]. destruct (ack !! (Z.to_nat idx + 2)%nat) as [b0|]; [|done]. destruct (b0 =? 0xAA); [|apply Hstep].
    destruct (ack !! (Z.to_nat idx + 2 + 5)%nat) as [b5|]; [|done]. destruct (b5 =? 0x55); [|apply Hstep]. destruct (getle32 _); [apply Hstep|done].
Qed.

(** An element takes two bytes at least, of the buffer and of [data_left]. *)
Lemma parse_ies_ends fuel p left st : bytes_ok p -> (Nat.min (length p) (Z.to_nat left) < fuel)%nat -> parse_ies fuel p left st <> Hang.
Proof.
  revert p left st; induction fuel as [|fuel IH]; intros p left st Hb Hf; [lia|].
  cbn [parse_ies]. destruct (Z.ltb_spec 0 left) as [Hl|]; [|done]. destruct p as [|id [|len p]]; [done..|].
  apply Forall_cons in Hb as [_ [Hlen Hb]%Forall_cons]. unfold byte_ok in Hlen.
  destruct (parse_ie id len p st); [|done]. cbn [length] in Hf. apply IH; [by apply Forall_drop|]. rewrite length_drop. lia.
Qed.

Lemma gtk_parse_ends gtk n fuel i out : (n - i < fuel)%nat -> gtk_parse fuel i gtk n out <> Hang.
Proof.
  revert i out; induction fuel as [|fuel IH]; intros i out Hf; [lia|]. cbn [gtk_parse].
  destruct (i <? n)%nat eqn:E; [|done]. apply Nat.ltb_lt in E.
  destruct (gtk !! i) as [ty|]; [|done]. destruct (gtk !! (i + 1)%nat) as [k|]; [|done].
  assert (forall o, gtk_parse fuel (i + 2 + Z.to_nat k) gtk n o <> Hang) as Hstep by (intros; apply IH; lia).
  destruct (ty =? 0xDD); [|apply Hstep]. destruct (i + 2 + 4 <=? _)%nat; [|done].
  destruct (_ && _); [|apply Hstep]. destruct (_ <=? _)%nat; [apply Hstep|done].
Qed.

(** C26: the three loops over received bytes end on every input, well-formed
    or not, each with a result or at a read beyond the buffer, within these
    numbers of turns: the walk over the elements of a beacon within one more
    than the bytes of the buffer and also within one more than the length the
    packet claims, whichever is less; the walk over an ack trailer within the
    bytes of the trailer; the walk over decrypted key data within one more than
    its bytes.  The bounds that the model gives the loops are not below these. *)
Theorem parsers_terminate :
  (forall fuel p left st, bytes_ok p -> (Nat.min (length p) (Z.to_nat left) < fuel)%nat -> parse_ies fuel p left st <> Hang) /\
  (forall fuel ack len has la, bytes_ok ack -> len < 256 -> (Z.to_nat len <= fuel)%nat -> parse_acks fuel ack 0 len has la <> Hang) /\
  (forall fuel gtk n out, (n < fuel)%nat -> gtk_parse fuel 0 gtk n out <> Hang).
Proof.
  split; [|split].
  - intros fuel p left st. apply parse_ies_ends.
  - intros fuel ack len has la Hb Hl Hf. apply parse_acks_ends; [done|lia|done|lia].
  - intros fuel gtk n out Hf. apply gtk_parse_ends. lia.
Qed.

(** A beacon cut off inside an element, elements behind the length that the
    packet claims, a trailer whose record runs past its end, key data that ends
    inside an element. *)
Lemma parsers_terminate_witness :
  (parse_ies 4 [48; 20; 1] 3 ie_none <> Hang /\ parse_ies 4 [48; 20; 1] 3 ie_none = Fault OobRead) /\
  (parse_ies 3 [1; 0; 1; 0; 1; 0; 1; 0] 2 ie_none <> Hang /\ parse_ies 3 [1; 0; 1; 0; 1; 0; 1; 0] 2 ie_none = Ok ie_none) /\
  (parse_acks 3 [1; 200; 9; 9] 0 3 false 5 <> Hang /\ parse_acks 3 [1; 200; 9; 9] 0 3 false 5 = Ok (false, 5)) /\
  gtk_parse 4 0 [0xDD; 0x16; 0] 3 [] <> Hang.
Proof.
  destruct parsers_terminate as (H1 & H2 & H3). split; [|split; [|split]].
  - split; [|reflexivity]. apply (H1 4%nat [48; 20; 1] 3 ie_none); [apply Forall_range; reflexivity|vm_compute; lia].
  - split; [|reflexivity]. apply (H1 3%nat [1; 0; 1; 0; 1; 0; 1; 0] 2 ie_none); [apply Forall_range; reflexivity|vm_compute; lia].
  - split; [|reflexivity]. apply (H2 3%nat [1; 200; 9; 9] 3 false 5); [apply Forall_range; reflexivity|lia|lia].
  - apply (H3 4%nat [0xDD; 0x16; 0] 3%nat []). lia.
Defined.
