(* ===== verification/Host.v ===== *)
(** arm_host/source/wifi_host.c: the ARM9 side.

    lwIP is the class [Lwip L]: the calls that wifi_host.c makes, on an abstract
    stack state [L].  The packet rings are heap objects; [memUncached] only
    changes the cacheability of an address and is the identity here. *)

From S2P Require Import Prelude Cmonad Cutils Sdio Heap State.

Definition DATA_BUF_RINGS : Z := 6.
Definition DATA_IN_BUF_RINGS : Z := 6.
Definition HOST_BUF_LEN : Z := 0x600.
Definition IF_MTU_SIZE : Z := 0x570.
Definition BUF_FREE : bytes := le_bytes 4 0xF00FF00F.
Definition IPADDR_NONE : Z := 0xFFFFFFFF.
Definition ERR_OK : Z := 0.

Inductive assoc_status := ASSOCSTATUS_SEARCHING | ASSOCSTATUS_ACQUIRINGDHCP | ASSOCSTATUS_ASSOCIATED.

(** What wifi_host.c uses of lwIP: set-up, the address of the interface, packet
    allocation (the length of the first segment) and input, timers. *)
Class Lwip (L : Type) := {
  lwip_init : L -> L;
  netif_add : L -> bool * L;           (* with addresses IPADDR_NONE; false is NULL *)
  netif_bring_up : L -> L;             (* set_default, set_up, set_link_up, netbios *)
  dhcp_start : L -> L;
  netif_ip : L -> Z;
  pbuf_alloc : Z -> L -> option Z * L;
  netif_input : bytes -> L -> Z * L;
  pbuf_free : L -> L;
  lwip_poll : L -> L;                  (* sys_check_timeouts, tcpip_thread_poll_one *)
  sys_now_inc : L -> L
}.

(** The fields that [ath_init_fn] sets. *)
Record netif := { ni_mtu : Z; ni_hwaddr : bytes }.

Inductive hevent : Type :=
| HFifoSend (m : Wifi_FifoMsg)
| ConnectHandler
| ReconnectHandler
| HTimerStart (channel freq : Z)
| HFifoSetHandler.

Record host (L : Type) := mk_host {
  h_device_mac : bytes; h_ap_mac : bytes; host_bInitted : bool; host_bLwipInitted : bool;
  host_bNeedsDHCPRenew : bool; ip_data_buf_idx : Z; h_heap : heap_t; ip_data_buf : Z; ip_data_in_buf : Z;
  ath_netif : option netif; lwip : L; has_connect_handler : bool; has_reconnect_handler : bool;
  display_counter : Z; inc_cnt : Z; sec_cnt : Z; h_trace : list hevent
}.
Arguments mk_host {L}.
Arguments h_device_mac {L} _. Arguments h_ap_mac {L} _. Arguments host_bInitted {L} _.
Arguments host_bLwipInitted {L} _. Arguments host_bNeedsDHCPRenew {L} _. Arguments ip_data_buf_idx {L} _.
Arguments h_heap {L} _. Arguments ip_data_buf {L} _. Arguments ip_data_in_buf {L} _. Arguments ath_netif {L} _.
Arguments lwip {L} _. Arguments has_connect_handler {L} _. Arguments has_reconnect_handler {L} _.
Arguments display_counter {L} _. Arguments inc_cnt {L} _. Arguments sec_cnt {L} _. Arguments h_trace {L} _.

Definition eta_host {L} (r : host L) : host L := mk_host
  (h_device_mac r) (h_ap_mac r) (host_bInitted r) (host_bLwipInitted r) (host_bNeedsDHCPRenew r) (ip_data_buf_idx r)
  (h_heap r) (ip_data_buf r) (ip_data_in_buf r) (ath_netif r) (lwip r) (has_connect_handler r)
  (has_reconnect_handler r) (display_counter r) (inc_cnt r) (sec_cnt r) (h_trace r).
#[export] Instance set_h_device_mac {L} : Setter (@h_device_mac L) := ltac:(mk_setter (@eta_host L)).
#[export] Instance set_h_ap_mac {L} : Setter (@h_ap_mac L) := ltac:(mk_setter (@eta_host L)).
#[export] Instance set_host_bInitted {L} : Setter (@host_bInitted L) := ltac:(mk_setter (@eta_host L)).
#[export] Instance set_host_bLwipInitted {L} : Setter (@host_bLwipInitted L) := ltac:(mk_setter (@eta_host L)).
#[export] Instance set_host_bNeedsDHCPRenew {L} : Setter (@host_bNeedsDHCPRenew L) := ltac:(mk_setter (@eta_host L)).
#[export] Instance set_ip_data_buf_idx {L} : Setter (@ip_data_buf_idx L) := ltac:(mk_setter (@eta_host L)).
#[export] Instance set_h_heap {L} : Setter (@h_heap L) := ltac:(mk_setter (@eta_host L)).
#[export] Instance set_ath_netif {L} : Setter (@ath_netif L) := ltac:(mk_setter (@eta_host L)).
#[export] Instance set_lwip {L} : Setter (@lwip L) := ltac:(mk_setter (@eta_host L)).
#[export] Instance set_display_counter {L} : Setter (@display_counter L) := ltac:(mk_setter (@eta_host L)).
#[export] Instance set_inc_cnt {L} : Setter (@inc_cnt L) := ltac:(mk_setter (@eta_host L)).
#[export] Instance set_sec_cnt {L} : Setter (@sec_cnt L) := ltac:(mk_setter (@eta_host L)).
#[export] Instance set_h_trace {L} : Setter (@h_trace L) := ltac:(mk_setter (@eta_host L)).

Section Host.
Context {L : Type} `{Lwip L}.

Definition hemit (e : hevent) : M (host L) unit := modify (fun s => s <| h_trace := h_trace s ++ [e] |>).
Definition fifo_send (m : Wifi_FifoMsg) : M (host L) unit := hemit (HFifoSend m).
Definition on_lwip (f : L -> L) : M (host L) unit := modify (fun s => s <| lwip := f (lwip s) |>).
Definition lwip_call {A} (f : L -> A * L) : M (host L) A := fun s =>
  let '(a, l) := f (lwip s) in Ok (a, s <| lwip := l |>).
Definition hstore (p : Z) (b : bytes) : M (host L) unit := fun s =>
  match h_store (h_heap s) p b with Some h => Ok (tt, s <| h_heap := h |>) | None => Fault OobWrite end.
Definition hload (p : Z) (n : nat) : M (host L) bytes := fun s =>
  match h_load (h_heap s) p n with Some b => Ok (b, s) | None => Fault OobRead end.

(** ** Packet rings *)

Definition data_init_bufs : M (host L) unit :=
  mforeach [0; 1; 2; 3; 4; 5] (fun i =>
    let* a := gets ip_data_buf in hstore (a + HOST_BUF_LEN * i) BUF_FREE) ;;;
  mforeach [0; 1; 2; 3; 4; 5] (fun i =>
    let* a := gets ip_data_in_buf in hstore (a + HOST_BUF_LEN * i) BUF_FREE).

Definition host_next_buf : M (host L) Z :=
  let* s := gets (fun s => s) in
  modify (fun s => s <| ip_data_buf_idx := (ip_data_buf_idx s + 1) mod DATA_BUF_RINGS |>) ;;;
  ret (ip_data_buf s + HOST_BUF_LEN * ip_data_buf_idx s).

(** [ip_data] are the bytes behind the pointer. *)
Definition host_send_link (ip_data : bytes) (ip_data_len : Z) : M (host L) Z :=
  if ip_data_len =? 0 then ret ERR_OK else
  let len := if HOST_BUF_LEN <? ip_data_len then HOST_BUF_LEN else ip_data_len in
  let* dst := host_next_buf in
  if (length ip_data <? Z.to_nat len)%nat then fail OobRead else
  hstore dst (take (Z.to_nat len) ip_data) ;;;
  fifo_send {| fcmd := WIFI_IPCCMD_SENDPKT; fbody := FPkt dst len |} ;;;
  ret ERR_OK.

(** The first segment of the packet only. *)
Definition ath_link_output (payload : bytes) (len : Z) : M (host L) Z := host_send_link payload len.

Definition ath_init_fn : M (host L) Z :=
  modify (fun s => s <| ath_netif := Some {| ni_mtu := IF_MTU_SIZE; ni_hwaddr := take 6 (h_device_mac s) |} |>) ;;;
  ret ERR_OK.

Definition ath_lwip_tick : M (host L) unit := on_lwip lwip_poll.

Definition data_send_to_lwip (data len : Z) : M (host L) unit :=
  let len := if HOST_BUF_LEN - 6 <? len then HOST_BUF_LEN - 6 else len in
  let* p := lwip_call (pbuf_alloc len) in
  match p with
  | None => hstore (data - 6) BUF_FREE
  | Some plen =>
      let len := if plen <? len then plen else len in
      let* b := hload data (Z.to_nat len) in
      hstore (data - 6) BUF_FREE ;;;
      let* err := lwip_call (netif_input b) in
      if negb (err =? ERR_OK) then on_lwip pbuf_free else ret tt
  end.

(** ** Messages to the ARM7 *)

Definition wifi_host_get_mac : M (host L) unit := fifo_send {| fcmd := WIFI_IPCCMD_GET_DEVICE_MAC; fbody := FNone |}.
Definition wifi_host_get_ap_mac : M (host L) unit := fifo_send {| fcmd := WIFI_IPCCMD_GET_AP_MAC; fbody := FNone |}.
Definition wifi_host_init_bufs : M (host L) unit :=
  data_init_bufs ;;;
  let* a := gets ip_data_in_buf in
  fifo_send {| fcmd := WIFI_IPCCMD_INITBUFS; fbody := FPkt a (HOST_BUF_LEN * DATA_IN_BUF_RINGS) |}.
Definition wifi_host_init_iop : M (host L) unit := fifo_send {| fcmd := WIFI_IPCCMD_INIT_IOP; fbody := FNone |}.

(** ** lwIP *)

(** [handler(); dhcp_start(); host_bNeedsDHCPRenew = false;] *)
Definition restart_dhcp : M (host L) unit :=
  let* h := gets has_reconnect_handler in
  (if h then hemit ReconnectHandler else ret tt) ;;;
  on_lwip dhcp_start ;;;
  modify (fun s => s <| host_bNeedsDHCPRenew := false |>).

Definition wifi_host_lwip_init : M (host L) unit :=
  let* s := gets (fun s => s) in
  if host_bLwipInitted s then
    if host_bNeedsDHCPRenew s then restart_dhcp else ret tt
  else
  on_lwip lwip_init ;;;
  let* ok := lwip_call netif_add in
  if negb ok then ret tt else
  ath_init_fn ;;;
  on_lwip netif_bring_up ;;;
  on_lwip dhcp_start ;;;
  let* h := gets has_connect_handler in
  (if h then hemit ConnectHandler else ret tt) ;;;
  modify (fun s => (s <| host_bLwipInitted := true |>) <| host_bNeedsDHCPRenew := false |>).

(** ** Messages of the ARM7 *)

Definition wifi_host_handleMsg (len : Z) (msg : Wifi_FifoMsg) : M (host L) unit :=
  if len <? 4 then ret tt else
  let cmd := fcmd msg in
  if cmd =? WIFI_IPCINT_READY then
    wifi_host_get_mac ;;; wifi_host_get_ap_mac ;;; wifi_host_init_bufs ;;;
    modify (fun s => s <| host_bInitted := true |>)
  else if cmd =? WIFI_IPCINT_CONNECT then modify (fun s => s <| host_bNeedsDHCPRenew := true |>)
  else if cmd =? WIFI_IPCINT_DEVICE_MAC then
    match fbody msg with
    | FMac mac => modify (fun s => s <| h_device_mac := take 6 mac |>)
    | _ => fail OobRead
    end
  else if cmd =? WIFI_IPCINT_AP_MAC then
    match fbody msg with
    | FMac mac => modify (fun s => s <| h_ap_mac := take 6 mac |>) ;;; wifi_host_lwip_init
    | _ => fail OobRead
    end
  else if cmd =? WIFI_IPCINT_PKTDATA then
    match fbody msg with FPkt data len => data_send_to_lwip data len | _ => fail OobRead end
  else if cmd =? WIFI_IPCINT_PKTSENT then
    match fbody msg with FPkt data _ => hstore data BUF_FREE | _ => fail OobRead end
  else ret tt.

(** ** Status and timer *)

Definition wifi_host_get_ipaddr : M (host L) Z := gets (fun s => netif_ip (lwip s)).

Definition wifi_host_get_status : M (host L) assoc_status :=
  let* s := gets (fun s => s) in
  if host_bLwipInitted s then
    let* ip := wifi_host_get_ipaddr in
    ret (if negb (ip =? IPADDR_NONE) then ASSOCSTATUS_ASSOCIATED else ASSOCSTATUS_ACQUIRINGDHCP)
  else ret ASSOCSTATUS_SEARCHING.

Definition wifi_host_tick_display : M (host L) unit :=
  modify (fun s => s <| display_counter := if 2 * 1000 <? display_counter s then 0 else display_counter s + 1 |>).

Definition wifi_host_tick : M (host L) unit :=
  let* s := gets (fun s => s) in
  (if inc_cnt s =? 1 then on_lwip sys_now_inc ;;; modify (fun s => s <| inc_cnt := 0 |>)
   else modify (fun s => s <| inc_cnt := inc_cnt s + 1 |>)) ;;;
  (if sec_cnt s =? 1000 then
     modify (fun s => s <| sec_cnt := 0 |>) ;;;
     let* ip := wifi_host_get_ipaddr in
     if (host_bLwipInitted s && (ip =? IPADDR_NONE)) || (ip =? 0) then restart_dhcp else ret tt
   else modify (fun s => s <| sec_cnt := sec_cnt s + 1 |>)) ;;;
  if host_bLwipInitted s then ath_lwip_tick ;;; wifi_host_tick_display else ret tt.

Definition wifi_host_init : M (host L) unit :=
  hemit (HTimerStart 3 1000) ;;;
  hemit HFifoSetHandler ;;;
  wifi_host_init_iop.

End Host.
