(* ===== verification/HostProofs.v ===== *)
(** The ARM9 side: its packet ring, the way of a packet from lwIP to the card
    and from the card to lwIP, the life of the lwIP interface, and the timer. *)

From stdpp Require Import relations.
From S2P Require Import Prelude Cmonad Cutils Wpa WpaProofs Sdio Heap Card State Mbox MboxProofs Wmi WmiProofs Bss Eapol Pkt PktProofs Host.

(** ** Sending *)

Section Sending.
Context {L : Type} `{Lwip L}.

(** The six slots of [ip_data_buf] are object [i]. *)
Record hring_ok (s : host L) (i : nat) (o : cbuffer) : Prop := {
  hr_disjoint : h_disjoint (h_heap s);
  hr_find : h_find (h_heap s) (ip_data_buf s) = Some (i, 0%nat);
  hr_obj : h_heap s !! i = Some o;
  hr_len : Z.of_nat (length (bdata o)) = HOST_BUF_LEN * DATA_BUF_RINGS;
  hr_idx : 0 <= ip_data_buf_idx s < DATA_BUF_RINGS
}.
Definition hslot (s : host L) (m : Z) : Z := ip_data_buf s + HOST_BUF_LEN * m.
Definition hnth_slot (s : host L) (j : nat) : Z := (ip_data_buf_idx s + Z.of_nat j) mod DATA_BUF_RINGS.
Definition sendpkt_msg (a : Z) (n : nat) : Wifi_FifoMsg := {| fcmd := WIFI_IPCCMD_SENDPKT; fbody := FPkt a (Z.of_nat n) |}.

(** The state after one packet. *)
Definition host_sent (p : bytes) (i : nat) (o : cbuffer) (s : host L) : host L :=
  s <| ip_data_buf_idx := (ip_data_buf_idx s + 1) mod DATA_BUF_RINGS |>
    <| h_heap := <[i := with_pkt (ip_data_buf_idx s) p o]> (h_heap s) |>
    <| h_trace := h_trace s ++ [HFifoSend (sendpkt_msg (hslot s (ip_data_buf_idx s)) (length p))] |>.

Lemma hslot_room s i o m : hring_ok s i o -> 0 <= m < DATA_BUF_RINGS -> (slot_off m + 0x600 <= length (bdata o))%nat.
Proof. intros Hr Hm. pose proof (hr_len s i o Hr). unfold slot_off, DATA_BUF_LEN, HOST_BUF_LEN, DATA_BUF_RINGS in *. lia. Qed.

Lemma hslot_find s i o m n : hring_ok s i o -> 0 <= m < DATA_BUF_RINGS -> (n < 0x600)%nat ->
  h_find (h_heap s) (hslot s m + Z.of_nat n) = Some (i, (slot_off m + n)%nat).
Proof.
  intros Hr Hm Hn. pose proof (hslot_room s i o m Hr Hm) as Hroom.
  replace (hslot s m + Z.of_nat n) with (ip_data_buf s + Z.of_nat (slot_off m + n))
    by (unfold hslot, slot_off, DATA_BUF_LEN, HOST_BUF_LEN in *; lia).
  rewrite (h_find_offset _ _ i 0 o _ (hr_disjoint s i o Hr) (hr_find s i o Hr) (hr_obj s i o Hr)) by lia. done.
Qed.

Lemma host_send_run p i o (s : host L) : hring_ok s i o -> (0 < length p <= 0x600)%nat ->
  host_send_link p (Z.of_nat (length p)) s = Ok (ERR_OK, host_sent p i o s) /\ hring_ok (host_sent p i o s) i (with_pkt (ip_data_buf_idx s) p o).
Proof.
  intros Hr Hp. pose proof (hr_idx s i o Hr) as Hi. pose proof (hslot_room s i o _ Hr Hi) as Hroom.
  pose proof (hslot_find s i o _ 0 Hr Hi ltac:(lia)) as Hf. rewrite Z.add_0_r, Nat.add_0_r in Hf.
  assert (length (bdata (with_pkt (ip_data_buf_idx s) p o)) = length (bdata o)) as Ll
    by (cbn [bdata with_pkt]; apply length_blit; lia).
  split.
  - unfold host_send_link. rewrite (proj2 (Z.eqb_neq _ 0)), (proj2 (Z.ltb_ge _ _)) by (unfold HOST_BUF_LEN; lia). cbv zeta.
    assert (host_next_buf s = Ok (hslot s (ip_data_buf_idx s), s <| ip_data_buf_idx := (ip_data_buf_idx s + 1) mod DATA_BUF_RINGS |>)) as E1 by done.
    rewrite (bind_run _ _ _ _ _ E1). rewrite Nat2Z.id, (proj2 (Nat.ltb_ge _ _)), firstn_all by lia.
    set (s1 := s <| ip_data_buf_idx := (ip_data_buf_idx s + 1) mod DATA_BUF_RINGS |>).
    assert (hstore (hslot s (ip_data_buf_idx s)) p s1 = Ok (tt, s1 <| h_heap := <[i := with_pkt (ip_data_buf_idx s) p o]> (h_heap s) |>)) as E2.
    { unfold hstore. change (h_heap s1) with (h_heap s). rewrite (h_store_run _ _ _ i (slot_off (ip_data_buf_idx s)) o); [done|done|apply Hr|lia]. }
    by rewrite (bind_run _ _ _ _ _ E2).
  - destruct Hr as [D F O Len I]. split; cbn [h_heap host_sent ip_data_buf ip_data_buf_idx set set_h_trace set_h_heap set_ip_data_buf_idx].
    + by apply (h_disjoint_insert _ _ o).
    + by rewrite (h_find_insert _ i o).
    + apply list_lookup_insert_eq. by eapply lookup_lt_Some.
    + by rewrite Ll.
    + apply Z.mod_pos_bound. unfold DATA_BUF_RINGS. lia.
Qed.

(** *** Several packets *)

Fixpoint send_list (ps : list bytes) : M (host L) unit :=
  match ps with [] => ret tt | p :: ps => ath_link_output p (Z.of_nat (length p)) ;;; send_list ps end.

Record sends (ps : list bytes) (s s' : host L) (i : nat) (o o' : cbuffer) : Prop := {
  se_ring : hring_ok s' i o' /\ ip_data_buf s' = ip_data_buf s;
  se_idx : ip_data_buf_idx s' = hnth_slot s (length ps);
  se_trace : h_trace s' = h_trace s ++ imap (fun j p => HFifoSend (sendpkt_msg (hslot s (hnth_slot s j)) (length p))) ps;
  se_lwip : lwip s' = lwip s;
  se_other : forall m, 0 <= m < DATA_BUF_RINGS -> (forall j, (j < length ps)%nat -> hnth_slot s j <> m) -> slot_bytes o' m = slot_bytes o m;
  se_kept : Z.of_nat (length ps) <= DATA_BUF_RINGS -> forall j p, ps !! j = Some p ->
    take (length p) (slot_bytes o' (hnth_slot s j)) = p
}.

Definition pkt_size_ok (p : bytes) : Prop := (0 < length p <= 0x600)%nat.

Lemma send_list_run ps i (s : host L) o : hring_ok s i o -> Forall pkt_size_ok ps ->
  exists s' o', send_list ps s = Ok (tt, s') /\ sends ps s s' i o o'.
Proof.
  intros Hr Hps. revert s o Hr. induction Hps as [|p ps Hp Hps IH]; intros s o Hr.
  - exists s, o. split; [done|]. split; try done.
    + unfold hnth_slot. cbn [length]. rewrite Z.add_0_r, Z.mod_small; [done|apply Hr].
    + cbn [imap]. by rewrite app_nil_r.
  - destruct (host_send_run p i o s Hr Hp) as [E1 Hr1]. set (s1 := host_sent p i o s) in *.
    destruct (IH s1 _ Hr1) as (s' & o' & E2 & [[R1 R2] RI RT RL RO RK]).
    exists s', o'. split; [cbn [send_list]; unfold ath_link_output; by rewrite (bind_run _ _ _ _ _ E1)|].
    pose proof (hr_idx s i o Hr) as Hidx. pose proof (hslot_room s i o _ Hr Hidx) as Hroom. destruct Hp as [_ Hp].
    assert (forall j, hnth_slot s1 j = hnth_slot s (S j)) as Hns.
    { intros j. unfold hnth_slot. change (ip_data_buf_idx s1) with ((ip_data_buf_idx s + 1) mod DATA_BUF_RINGS).
      rewrite Zplus_mod_idemp_l. f_equal. lia. }
    assert (hnth_slot s 0 = ip_data_buf_idx s) as Hn0 by (unfold hnth_slot; rewrite Z.add_0_r; by apply Z.mod_small).
    split.
    + done.
    + cbn [length]. by rewrite RI, Hns.
    + rewrite RT. change (h_trace s1) with (h_trace s ++ [HFifoSend (sendpkt_msg (hslot s (ip_data_buf_idx s)) (length p))]).
      rewrite <- app_assoc. f_equal. cbn [imap app]. rewrite Hn0. f_equal. apply imap_ext. intros j y _. cbn [compose].
      by rewrite Hns.
    + done.
    + intros m Hm Hj. rewrite RO; [|done|intros j Hjl; rewrite Hns; apply Hj; cbn [length]; lia].
      apply slot_other; [done|lia| |lia|lia]. rewrite <- Hn0. apply Hj. cbn [length]. lia.
    + intros Hlen j y Hy. cbn [length] in Hlen. destruct j as [|j].
      * cbn in Hy. injection Hy as <-. rewrite Hn0. rewrite RO; [by apply slot_same|done|].
        intros j Hj. rewrite Hns. unfold hnth_slot. apply mod_ne; lia.
      * cbn in Hy. rewrite <- Hns. apply RK; [lia|done].
Qed.

Lemma hslot_load p (s : host L) i o m : hring_ok s i o -> 0 <= m < DATA_BUF_RINGS -> (0 < length p <= 0x600)%nat ->
  take (length p) (slot_bytes o m) = p -> exists rest, h_rest (h_heap s) (hslot s m) = Some (p ++ rest).
Proof.
  intros Hr Hm Hp Es. pose proof (hslot_find s i o m 0 Hr Hm ltac:(lia)) as Hf. rewrite Z.add_0_r, Nat.add_0_r in Hf.
  rewrite (h_rest_run _ _ _ _ _ Hf (hr_obj s i o Hr)). exists (drop (length p) (drop (slot_off m) (bdata o))).
  unfold slot_bytes in Es. rewrite take_take, Nat.min_l in Es by lia. rewrite <- Es at 1. by rewrite take_drop.
Qed.
End Sending.

(** ** The ARM7 side of a transmission *)

Section Receiver.
Context {C : Type} `{MboxCard C} `{Fuel} `{StackEnv} `{Rand}.

(** Two states with the same abstract memory differ in the staging buffer only. *)
Lemma abs_heap (s1 s : iop C) i o : iop_ok s1 -> out_object s i o -> heap (abs s1) = heap (abs s) ->
  mbox_out_buffer s1 = mbox_out_buffer s ->
  (forall p, h_find (heap s1) p = h_find (heap s) p) /\ (forall j, j <> i -> heap s1 !! j = heap s !! j).
Proof.
  intros (_ & _ & i1 & o1 & F1 & O1 & _) (F & O & _) E Eo. cbn [heap abs] in E.
  unfold clear_object in E. rewrite F, F1, O, O1 in E. rewrite Eo in F1.
  assert (forall p, h_find (heap s1) p = h_find (heap s) p) as Hf.
  { intros p. apply (f_equal (fun h => h_find h p)) in E.
    rewrite (h_find_insert _ i1 o1), (h_find_insert _ i o) in E; try done; cbn [bdata]; by rewrite length_replicate. }
  split; [done|]. intros j Hj. rewrite Hf, F in F1. injection F1 as <-.
  apply (f_equal (fun h => h !! j)) in E. by rewrite !list_lookup_insert_ne in E by done.
Qed.

Definition sent_pkt (p : bytes) : mpkt := {| mp_type := 2; mp_ack := MBOXPKT_NOACK; mp_ctl := 0x2008; mp_body := p |}.

Lemma sendpkt_run init a p rest i o j k (s : iop C) : iop_ok s -> out_object s i o ->
  h_find (heap s) a = Some (j, k) -> j <> i -> h_rest (heap s) a = Some (p ++ rest) -> (4 <= length p <= 0x5FA)%nat ->
  exists s', wifi_card_handleMsg init 12 (sendpkt_msg a (length p)) s = Ok (tt, s') /\
    card (abs s') = card (abs s) ++ [Some (sent_pkt p)] /\ h_load (heap s') a 4 = Some BUF_FREE /\
    wmi s' = wmi s /\ trace s' = trace s.
Proof.
  intros Hs Ho Hf Hj Hr Hp. unfold wifi_card_handleMsg. change (12 <? 4) with false. cbv iota zeta.
  cbn [fcmd fbody sendpkt_msg]. change (WIFI_IPCCMD_SENDPKT =? WIFI_IPCCMD_INIT_IOP) with false.
  change (WIFI_IPCCMD_SENDPKT =? WIFI_IPCCMD_INITBUFS) with false. change (WIFI_IPCCMD_SENDPKT =? WIFI_IPCCMD_SENDPKT) with true. cbv iota.
  assert (mem_rest a s = Ok (p ++ rest, s)) as E1 by (unfold mem_rest; by rewrite Hr). rewrite (bind_run _ _ _ _ _ E1).
  destruct (send_packet_refines 2 MBOXPKT_NOACK (Some (p ++ rest)) (Z.of_nat (length p)) 0x2008) with (s := s)
    as (u & s1 & E2 & Hs1 & A); [unfold byte_ok; lia|unfold byte_ok, MBOXPKT_NOACK; lia|lia|cbn; rewrite length_app; lia|done|].
  destruct u. apply (f_equal snd) in A. cbn [snd] in A.
  assert (data_send_pkt_idk (p ++ rest) (Z.of_nat (length p)) s = Ok (tt, s1)) as E2'
    by (unfold data_send_pkt_idk; rewrite u16_id by lia; exact E2).
  rewrite (bind_run _ _ _ _ _ E2').
  destruct (abs_heap s1 s i o Hs1 Ho) as [F2 O2]; [exact (eq_sym (f_equal heap A))|exact (eq_sym (f_equal mbox_out_buffer A))|].
  destruct (h_find_inside _ _ _ _ Hf) as (oj & Oj & _ & _).
  rewrite (h_rest_run _ _ _ _ _ Hf Oj) in Hr. apply (inj Some) in Hr.
  assert (length (drop k (bdata oj)) = length (p ++ rest)) as Ll by (by rewrite Hr). rewrite length_drop, length_app in Ll.
  set (h' := <[j := {| baddr := baddr oj; bdata := blit k BUF_FREE (bdata oj) |}]> (heap s1)).
  assert (mem_store a (le_bytes 4 0xF00FF00F) s1 = Ok (tt, s1 <| heap := h' |>)) as E3.
  { unfold mem_store. rewrite (h_store_run _ _ _ j k oj); [done|by rewrite F2|by rewrite O2|cbn; lia]. }
  exists (s1 <| heap := h' |>). split; [exact E3|].
  split; [|split; [|split; [exact (eq_sym (f_equal wmi A))|exact (eq_sym (f_equal trace A))]]].
  - change (card (abs (s1 <| heap := h' |>))) with (card (abs s1)). rewrite <- A. cbn [card apush set set_card payload].
    unfold sent_pkt. by rewrite Nat2Z.id, take_app_length.
  - change (heap (s1 <| heap := h' |>)) with h'. unfold h_load.
    rewrite (h_rest_run _ _ j k {| baddr := baddr oj; bdata := blit k BUF_FREE (bdata oj) |}).
    + cbn [bdata]. rewrite (proj2 (Nat.leb_le _ _)) by (rewrite length_drop, length_blit; cbn; lia). f_equal.
      apply (slice_blit k BUF_FREE). lia.
    + subst h'. rewrite (h_find_insert _ j oj); [by rewrite F2|by rewrite O2|done|]. cbn [bdata]. apply length_blit. cbn. lia.
    + subst h'. apply list_lookup_insert_eq. eapply lookup_lt_Some. rewrite O2 by done. exact Oj.
Qed.
End Receiver.

(** ** Received packets *)

Section Input.
Context {L : Type} `{Lwip L}.

Definition pktdata_msg (a : Z) (n : nat) : Wifi_FifoMsg := {| fcmd := WIFI_IPCINT_PKTDATA; fbody := FPkt a (Z.of_nat n) |}.

(** The stack after a packet of [n] bytes [b] has been offered to it. *)
Definition lwip_offer (n : Z) (b : bytes) (l : L) : L :=
  match pbuf_alloc n l with
  | (None, l) => l
  | (Some _, l) => let '(err, l) := netif_input b l in if negb (err =? ERR_OK) then pbuf_free l else l
  end.
(** The first segment of a packet holds what was asked for, but no more than [room]
    bytes: pbuf.c gives segments of 1432 bytes ([Link.alloc_frame], [Link.first_room]). *)
Definition first_segment (room : Z) : Prop := 0 <= room /\ forall n l, match pbuf_alloc n l with (Some m, _) => m = Z.min n room | (None, _) => True end.
(** What of a packet is copied into its first segment. *)
Definition kept (room : Z) (b : bytes) : bytes := take (Z.to_nat room) b.

Lemma h_load_take h p n k b : h_load h p n = Some b -> h_load h p (Nat.min n k) = Some (take k b).
Proof.
  unfold h_load. destruct (h_rest h p) as [r|]; [|done]. destruct (n <=? length r)%nat eqn:E; [|done]. apply Nat.leb_le in E. intros [= <-].
  rewrite (proj2 (Nat.leb_le _ _)) by lia. by rewrite take_take, Nat.min_comm.
Qed.
Lemma to_lwip_run room a n b j k o (s : host L) : first_segment room -> (n <= 0x5FA)%nat -> h_load (h_heap s) a n = Some b ->
  h_find (h_heap s) (a - 6) = Some (j, k) -> h_heap s !! j = Some o -> (k + 6 <= length (bdata o))%nat ->
  data_send_to_lwip a (Z.of_nat n) s = Ok (tt, s <| lwip := lwip_offer (Z.of_nat n) (kept room b) (lwip s) |>
    <| h_heap := <[j := {| baddr := baddr o; bdata := blit k BUF_FREE (bdata o) |}]> (h_heap s) |>).
Proof.
  intros [Hroom Hpool] Hn Hb Hf Ho Hk. unfold data_send_to_lwip. rewrite (proj2 (Z.ltb_ge _ _)) by (unfold HOST_BUF_LEN; lia). cbv zeta.
  set (h' := <[j := {| baddr := baddr o; bdata := blit k BUF_FREE (bdata o) |}]> (h_heap s)).
  assert (forall l, hstore (a - 6) BUF_FREE (s <| lwip := l |>) = Ok (tt, s <| lwip := l |> <| h_heap := h' |>)) as Es.
  { intros l. unfold hstore. change (h_heap (s <| lwip := l |>)) with (h_heap s).
    rewrite (h_store_run _ _ _ j k o); [done|done|done|cbn; lia]. }
  unfold bind at 1, lwip_call at 1. pose proof (Hpool (Z.of_nat n) (lwip s)) as Hp. unfold lwip_offer.
  destruct (pbuf_alloc (Z.of_nat n) (lwip s)) as [[m|] l]; [|exact (Es l)].
  subst m. cbv zeta. set (len := if _ <? _ then _ else _). assert (Z.to_nat len = Nat.min n (Z.to_nat room)) as Hlen.
  { subst len. destruct (_ <? _) eqn:E; [apply Z.ltb_lt in E|apply Z.ltb_ge in E]; lia. }
  rewrite Hlen. assert (hload a (Nat.min n (Z.to_nat room)) (s <| lwip := l |>) = Ok (kept room b, s <| lwip := l |>)) as El.
  { unfold hload. change (h_heap (s <| lwip := l |>)) with (h_heap s). by rewrite (h_load_take _ _ _ _ _ Hb). }
  rewrite (bind_run _ _ _ _ _ El), (bind_run _ _ _ _ _ (Es l)). unfold bind at 1, lwip_call at 1.
  change (lwip (s <| lwip := l |> <| h_heap := h' |>)) with l. destruct (netif_input (kept room b) l) as [err l2].
  unfold on_lwip, modify, ret. by destruct (negb (err =? ERR_OK)).
Qed.

(** The ring of received packets: [n] slots from [base], object [i]. *)
Record in_ring (base n : Z) (s : host L) (i : nat) (o : cbuffer) : Prop := {
  in_disjoint : h_disjoint (h_heap s);
  in_find : h_find (h_heap s) base = Some (i, 0%nat);
  in_obj : h_heap s !! i = Some o;
  in_len : DATA_BUF_LEN * n <= Z.of_nat (length (bdata o))
}.
(** A slot with a packet for lwIP. *)
Definition slot_holds (n : Z) (o : cbuffer) (mb : Z * bytes) : Prop :=
  0 <= fst mb < n /\ (length (snd mb) <= 0x5FA)%nat /\ take (length (snd mb)) (drop 6 (slot_bytes o (fst mb))) = snd mb.
Definition in_slot (base m : Z) : Z := base + DATA_BUF_LEN * m.

Lemma in_slot_find base n s i o m k : in_ring base n s i o -> 0 <= m < n -> (k < 0x600)%nat ->
  h_find (h_heap s) (in_slot base m + Z.of_nat k) = Some (i, (slot_off m + k)%nat) /\ (slot_off m + 0x600 <= length (bdata o))%nat.
Proof.
  intros [D F O Ln] Hm Hk. assert (slot_off m + 0x600 <= length (bdata o))%nat as Hroom
    by (unfold slot_off, DATA_BUF_LEN in *; lia).
  split; [|done]. replace (in_slot base m + Z.of_nat k) with (base + Z.of_nat (slot_off m + k))
    by (unfold in_slot, slot_off, DATA_BUF_LEN in *; lia).
  rewrite (h_find_offset _ _ i 0 o _ D F O) by lia. done.
Qed.

(** One message hands its packet to lwIP and frees its slot only. *)
Lemma pktdata_run room base n m b i o (s : host L) : first_segment room -> in_ring base n s i o -> slot_holds n o (m, b) ->
  let s' := s <| lwip := lwip_offer (Z.of_nat (length b)) (kept room b) (lwip s) |> <| h_heap := <[i := with_pkt m BUF_FREE o]> (h_heap s) |> in
  wifi_host_handleMsg 12 (pktdata_msg (in_slot base m + 6) (length b)) s = Ok (tt, s') /\ in_ring base n s' i (with_pkt m BUF_FREE o).
Proof.
  intros Hpool Hr (Hm & Hb & Eb) s'. cbn [fst snd] in *.
  destruct (in_slot_find base n s i o m 6 Hr Hm ltac:(lia)) as [F6 Hroom].
  destruct (in_slot_find base n s i o m 0 Hr Hm ltac:(lia)) as [F0 _]. rewrite Z.add_0_r, Nat.add_0_r in F0.
  change (Z.of_nat 6) with 6 in F6. pose proof (in_obj _ _ _ _ _ Hr) as O.
  assert (length (bdata (with_pkt m BUF_FREE o)) = length (bdata o)) as Ll
    by (cbn [bdata with_pkt]; apply length_blit; cbn; lia).
  split.
  - change (data_send_to_lwip (in_slot base m + 6) (Z.of_nat (length b)) s = Ok (tt, s')).
    apply (to_lwip_run room _ _ b i (slot_off m) o); [done|lia| |by replace (in_slot base m + 6 - 6) with (in_slot base m) by lia|done|lia].
    unfold h_load. rewrite (h_rest_run _ _ _ _ _ F6 O), (proj2 (Nat.leb_le _ _)) by (rewrite length_drop; lia). f_equal.
    rewrite <- Eb at 2. unfold slot_bytes. rewrite skipn_firstn_comm, take_take, drop_drop. f_equal. lia.
  - destruct Hr as [D F O' Ln]. split; cbn [h_heap s' set set_h_heap set_lwip].
    + by apply (h_disjoint_insert _ _ o).
    + by rewrite (h_find_insert _ i o).
    + apply list_lookup_insert_eq. by eapply lookup_lt_Some.
    + by rewrite Ll.
Qed.

Definition handle_all (base : Z) (l : list (Z * bytes)) : M (host L) unit :=
  mforeach l (fun mb => wifi_host_handleMsg 12 (pktdata_msg (in_slot base (fst mb) + 6) (length (snd mb)))).
Definition offer_all (room : Z) (l : list (Z * bytes)) (st : L) : L :=
  foldl (fun st mb => lwip_offer (Z.of_nat (length (snd mb))) (kept room (snd mb)) st) st l.

Lemma slot_holds_other n o m b m' : slot_holds n o (m', b) -> m <> m' -> 0 <= m < n -> (slot_off m + 0x600 <= length (bdata o))%nat ->
  slot_holds n (with_pkt m BUF_FREE o) (m', b).
Proof.
  intros (Hm' & Hb & Eb) Hne Hm Hroom. split; [done|]. split; [done|]. cbn [fst snd] in *.
  rewrite slot_other; [done|done|cbn; lia|done|lia|lia].
Qed.

Lemma handle_all_run room base n l i o (s : host L) : first_segment room -> in_ring base n s i o -> NoDup l.*1 -> Forall (slot_holds n o) l ->
  exists s' o', handle_all base l s = Ok (tt, s') /\ in_ring base n s' i o' /\ lwip s' = offer_all room l (lwip s) /\
    (forall m, 0 <= m < n -> m ∈ l.*1 -> take 4 (slot_bytes o' m) = BUF_FREE) /\
    (forall m, 0 <= m < n -> m ∉ l.*1 -> slot_bytes o' m = slot_bytes o m).
Proof.
  intros Hpool. revert o s. induction l as [|[m b] l IH]; intros o s Hr Hnd Hl.
  { exists s, o. split; [done|]. split; [done|]. split; [done|]. split; [|done]. intros m _ Hm. by apply elem_of_nil in Hm. }
  cbn in Hnd. apply NoDup_cons in Hnd as [Hnin Hnd]. apply Forall_cons in Hl as [Hb Hl].
  destruct (pktdata_run room base n m b i o s Hpool Hr Hb) as [E1 Hr1]. cbv zeta in E1, Hr1.
  pose proof Hb as (Hm & _ & _). cbn [fst] in Hm.
  destruct (in_slot_find base n s i o m 0 Hr Hm ltac:(lia)) as [_ Hroom].
  destruct (IH _ _ Hr1 Hnd) as (s' & o' & E2 & Hr2 & El & Hin & Hout).
  { apply Forall_forall. intros [m' b'] Hin. rewrite Forall_forall in Hl. apply (slot_holds_other n o m b'); [by apply Hl| |done|done].
    intros ->. apply Hnin. apply list_elem_of_fmap. by exists (m', b'). }
  exists s', o'. split; [unfold handle_all; cbn [mforeach fst snd]; by rewrite (bind_run _ _ _ _ _ E1)|].
  split; [done|]. split; [by rewrite El|]. cbn [fmap list_fmap fst]. split; intros k Hk Hkin.
  - destruct (decide (k = m)) as [->|Hne].
    + rewrite Hout by done. apply (slot_same m BUF_FREE); [done|cbn; lia].
    + apply Hin; [done|]. set_solver.
  - rewrite Hout by set_solver. apply slot_other; [done|cbn; lia|set_solver|lia|lia].
Qed.

Lemma slot_start base n s i o m : in_ring base n s i o -> 0 <= m < n ->
  h_load (h_heap s) (in_slot base m) 4 = Some (take 4 (slot_bytes o m)).
Proof.
  intros Hr Hm. destruct (in_slot_find base n s i o m 0 Hr Hm ltac:(lia)) as [F Hroom]. rewrite Z.add_0_r, Nat.add_0_r in F.
  unfold h_load. rewrite (h_rest_run _ _ _ _ _ F (in_obj _ _ _ _ _ Hr)), (proj2 (Nat.leb_le _ _)) by (rewrite length_drop; lia).
  f_equal. unfold slot_bytes. by rewrite take_take.
Qed.
End Input.

(** ** The life of the interface *)

(** A stack that counts the calls of [lwip_init]. *)
Class Counted (L : Type) `{Lwip L} := {
  inits : L -> nat;
  inits_init : forall l, inits (lwip_init l) = S (inits l);
  inits_add : forall l, fst (netif_add l) = true /\ inits (snd (netif_add l)) = inits l;
  inits_up : forall l, inits (netif_bring_up l) = inits l;
  inits_dhcp : forall l, inits (dhcp_start l) = inits l;
  inits_alloc : forall n l, inits (snd (pbuf_alloc n l)) = inits l;
  inits_input : forall b l, inits (snd (netif_input b l)) = inits l;
  inits_free : forall l, inits (pbuf_free l) = inits l;
  inits_poll : forall l, inits (lwip_poll l) = inits l;
  inits_now : forall l, inits (sys_now_inc l) = inits l
}.

Section Life.
Context {L : Type} `{Counted L}.

(** Everything that happens on the ARM9: messages, ticks, packets of lwIP. *)
Inductive host_step : host L -> host L -> Prop :=
| step_msg len m s s' : wifi_host_handleMsg len m s = Ok (tt, s') -> host_step s s'
| step_tick s s' : wifi_host_tick s = Ok (tt, s') -> host_step s s'
| step_out p n s s' e : ath_link_output p n s = Ok (e, s') -> host_step s s'.

Definition init_once (s : host L) : Prop := inits (lwip s) = if host_bLwipInitted s then 1%nat else 0%nat.
(** Steps that are not an initialisation. *)
Definition same_life (s s' : host L) : Prop :=
  inits (lwip s') = inits (lwip s) /\ host_bLwipInitted s' = host_bLwipInitted s.

#[local] Instance same_life_pre : PreOrder same_life.
Proof. split; [by intros s|]. intros s1 s2 s3 [H1' H2'] [H3 H4]. split; congruence. Qed.

Lemma life_pres {A} (m : M (host L) A) s a s' : pres same_life m -> m s = Ok (a, s') -> init_once s -> init_once s'.
Proof. intros Hm E Hs. destruct (pres_run _ m s a s' Hm E) as [H1' H2']. unfold init_once. by rewrite H1', H2'. Qed.

Lemma pres_keep f : (forall s, lwip (f s) = lwip s /\ host_bLwipInitted (f s) = host_bLwipInitted s) -> pres same_life (modify f).
Proof. intros Hf. apply pres_modify. intros s. destruct (Hf s) as [E1 E2]. split; [by rewrite E1|done]. Qed.
Lemma pres_lwip f : (forall l, inits (f l) = inits l) -> pres same_life (on_lwip f).
Proof. intros Hf. apply pres_modify. intros s. split; [apply Hf|done]. Qed.
Lemma pres_hstore p b : pres same_life (hstore p b).
Proof. intros s. unfold wlp, hstore. by destruct (h_store _ _ _). Qed.
Lemma pres_hload p n : pres same_life (hload p n).
Proof. intros s. unfold wlp, hload. by destruct (h_load _ _ _). Qed.
Lemma pres_call {A} (f : L -> A * L) : (forall l, inits (snd (f l)) = inits l) -> pres same_life (lwip_call f).
Proof. intros Hf s. unfold wlp, lwip_call. specialize (Hf (lwip s)). by destruct (f (lwip s)) as [a l]. Qed.

Lemma pres_emit e : pres same_life (hemit e).
Proof. apply pres_keep. by intros. Qed.
Lemma pres_fifo m : pres same_life (fifo_send m).
Proof. apply pres_emit. Qed.

#[local] Hint Resolve pres_hstore pres_hload pres_emit pres_fifo : pres.
#[local] Hint Extern 1 (pres same_life (modify _)) => apply pres_keep; intros ?; done : pres.
#[local] Hint Extern 1 (pres same_life (on_lwip _)) =>
  apply pres_lwip; intros ?; first [apply inits_dhcp | apply inits_free | apply inits_poll | apply inits_now] : pres.
#[local] Hint Extern 1 (pres same_life (lwip_call _)) =>
  apply pres_call; intros ?; first [apply inits_alloc | apply inits_input] : pres.

Lemma pres_out p n : pres same_life (ath_link_output p n).
Proof. unfold ath_link_output, host_send_link, host_next_buf. pres_walk same_life. Qed.
Lemma pres_restart : pres same_life restart_dhcp.
Proof. unfold restart_dhcp. pres_walk same_life. Qed.
#[local] Hint Resolve pres_restart : pres.
Lemma pres_to_lwip a n : pres same_life (data_send_to_lwip a n).
Proof. unfold data_send_to_lwip. pres_walk same_life. Qed.
Lemma pres_init_bufs : pres same_life wifi_host_init_bufs.
Proof. unfold wifi_host_init_bufs, data_init_bufs. pres_walk same_life. Qed.
#[local] Hint Resolve pres_to_lwip pres_init_bufs : pres.
Lemma pres_tick : pres same_life wifi_host_tick.
Proof. unfold wifi_host_tick, wifi_host_get_ipaddr, ath_lwip_tick, wifi_host_tick_display. pres_walk same_life. Qed.

Lemma lwip_init_once (s s' : host L) : wifi_host_lwip_init s = Ok (tt, s') -> init_once s -> init_once s'.
Proof.
  intros E Hs. unfold wifi_host_lwip_init in E. rewrite (bind_run _ _ s s s) in E by done.
  destruct (host_bLwipInitted s) eqn:B.
  { eapply (life_pres (if host_bNeedsDHCPRenew s then restart_dhcp else ret tt)); [|exact E|done]. pres_walk same_life. }
  unfold init_once in Hs. rewrite B in Hs.
  unfold bind at 1, on_lwip at 1, modify in E. unfold bind at 1, lwip_call in E.
  change (lwip (s <| lwip := lwip_init (lwip s) |>)) with (lwip_init (lwip s)) in E.
  destruct (inits_add (lwip_init (lwip s))) as [Ea Ei]. destruct (netif_add (lwip_init (lwip s))) as [ok l]. cbn [fst snd] in *.
  subst ok. cbn [negb] in E. rewrite inits_init, Hs in Ei. unfold ath_init_fn, on_lwip, bind, modify, ret, gets in E.
  destruct (has_connect_handler _) in E; cbv beta iota delta [hemit modify] in E; injection E as <-;
    unfold init_once; cbn; by rewrite inits_dhcp, inits_up.
Qed.

Lemma handleMsg_once len m (s s' : host L) : wifi_host_handleMsg len m s = Ok (tt, s') -> init_once s -> init_once s'.
Proof.
  intros E Hs. destruct (fcmd m =? WIFI_IPCINT_AP_MAC) eqn:EA; [apply Z.eqb_eq in EA|].
  - unfold wifi_host_handleMsg in E. destruct (len <? 4); [by injection E as <-|]. rewrite EA in E. cbv zeta in E.
    change (WIFI_IPCINT_AP_MAC =? WIFI_IPCINT_READY) with false in E. change (WIFI_IPCINT_AP_MAC =? WIFI_IPCINT_CONNECT) with false in E.
    change (WIFI_IPCINT_AP_MAC =? WIFI_IPCINT_DEVICE_MAC) with false in E. change (WIFI_IPCINT_AP_MAC =? WIFI_IPCINT_AP_MAC) with true in E.
    cbv iota in E. destruct (fbody m) as [| |mac]; try done. eapply lwip_init_once; [exact E|done].
  - eapply (life_pres (wifi_host_handleMsg len m)); [|exact E|done]. unfold wifi_host_handleMsg, wifi_host_get_mac, wifi_host_get_ap_mac. rewrite EA. pres_walk same_life.
Qed.

Lemma host_step_once (s s' : host L) : host_step s s' -> init_once s -> init_once s'.
Proof.
  intros [len m s1 s1' E|s1 s1' E|p n s1 s1' e E] Hs.
  - by eapply handleMsg_once.
  - by eapply (life_pres wifi_host_tick); [apply pres_tick|exact E|].
  - by eapply (life_pres (ath_link_output p n)); [apply pres_out|exact E|].
Qed.

End Life.

(** ** The timer before the interface exists *)

Section Ticks.
Context {L : Type} `{Lwip L}.

Definition ticks (n : nat) : M (host L) unit := mforeach (replicate n tt) (fun _ => wifi_host_tick).

(** Only the two counters and the clock of lwIP change. *)
Record waiting (n : nat) (s s' : host L) : Prop := {
  w_sec : sec_cnt s' = sec_cnt s + Z.of_nat n;
  w_init : host_bLwipInitted s' = false;
  w_ip : netif_ip (lwip s') = netif_ip (lwip s);
  w_trace : h_trace s' = h_trace s;
  w_handler : has_reconnect_handler s' = has_reconnect_handler s
}.

Lemma tick_waits (s : host L) : (forall l : L, netif_ip (sys_now_inc l) = netif_ip l) -> host_bLwipInitted s = false -> sec_cnt s <> 1000 ->
  exists s', wifi_host_tick s = Ok (tt, s') /\ waiting 1 s s'.
Proof.
  intros Hl Hi Hc. unfold wifi_host_tick, bind, gets, modify, on_lwip. rewrite (proj2 (Z.eqb_neq (sec_cnt s) 1000)) by done. rewrite Hi.
  destruct (inc_cnt s =? 1); eexists; (split; [reflexivity|]); split; cbn; auto.
Qed.

Lemma ticks_wait n (s : host L) : (forall l : L, netif_ip (sys_now_inc l) = netif_ip l) -> host_bLwipInitted s = false ->
  0 <= sec_cnt s -> sec_cnt s + Z.of_nat n <= 1000 -> exists s', ticks n s = Ok (tt, s') /\ waiting n s s'.
Proof.
  intros Hl. revert s. induction n as [|n IH]; intros s Hi H0 Hc.
  { exists s. split; [done|]. split; try done. lia. }
  destruct (tick_waits s Hl Hi ltac:(lia)) as (s1 & E1 & [S1 I1 P1 T1 H1]).
  destruct (IH s1 I1 ltac:(lia) ltac:(lia)) as (s' & E2 & [S2 I2 P2 T2 H2]).
  exists s'. split; [unfold ticks; cbn [replicate mforeach]; by rewrite (bind_run _ _ _ _ _ E1)|].
  split; [lia|done|congruence|congruence|congruence].
Qed.

Lemma ticks_snoc n s s1 : ticks n s = Ok (tt, s1) -> ticks (S n) s = wifi_host_tick s1.
Proof.
  revert s. induction n as [|n IH]; intros s E.
  - unfold ticks in *. cbn [replicate mforeach] in *. unfold ret in E. injection E as <-. unfold bind, ret. by destruct (wifi_host_tick s) as [[[] ?]| |].
  - unfold ticks in E. cbn [replicate mforeach] in E. unfold bind in E.
    change (ticks (S (S n)) s) with (bind wifi_host_tick (fun _ => ticks (S n)) s). unfold bind.
    destruct (wifi_host_tick s) as [[[] s2]| |]; try done. by apply IH.
Qed.

(** The tick in which the second is full. *)
Lemma tick_prods (s : host L) : (forall l : L, netif_ip (sys_now_inc l) = netif_ip l) -> host_bLwipInitted s = false -> sec_cnt s = 1000 ->
  netif_ip (lwip s) = 0 ->
  exists s' l, wifi_host_tick s = Ok (tt, s') /\ lwip s' = dhcp_start l /\ host_bLwipInitted s' = false /\
    h_trace s' = h_trace s ++ (if has_reconnect_handler s then [ReconnectHandler] else []).
Proof.
  intros Hl Hi Hc Hz.
  unfold wifi_host_tick, wifi_host_get_ipaddr, restart_dhcp, hemit, bind, gets, modify, on_lwip, ret. rewrite Hc, Hi. cbn [Z.eqb Pos.eqb andb orb].
  destruct (inc_cnt s =? 1); cbn; rewrite ?Hl, Hz; cbn; destruct (has_reconnect_handler s); cbn;
    eexists _, _; (split; [reflexivity|]); repeat split; by rewrite ?app_nil_r.
Qed.
End Ticks.

(** ** A small stack *)

Record tstack := { t_inits : nat; t_ip : Z; t_inputs : list bytes; t_dhcp : nat }.
#[export] Instance tstack_lwip : Lwip tstack := {|
  lwip_init := fun l => {| t_inits := S (t_inits l); t_ip := t_ip l; t_inputs := t_inputs l; t_dhcp := t_dhcp l |};
  netif_add := fun l => (true, {| t_inits := t_inits l; t_ip := IPADDR_NONE; t_inputs := t_inputs l; t_dhcp := t_dhcp l |});
  netif_bring_up := fun l => l;
  dhcp_start := fun l => {| t_inits := t_inits l; t_ip := t_ip l; t_inputs := t_inputs l; t_dhcp := S (t_dhcp l) |};
  netif_ip := t_ip;
  pbuf_alloc := fun n l => (Some (Z.min n 1432), l);
  netif_input := fun b l => (ERR_OK, {| t_inits := t_inits l; t_ip := t_ip l; t_inputs := t_inputs l ++ [b]; t_dhcp := t_dhcp l |});
  pbuf_free := fun l => l; lwip_poll := fun l => l; sys_now_inc := fun l => l |}.
#[export] Instance tstack_counted : Counted tstack.
Proof. by refine {| inits := t_inits |}. Defined.

(** The memory of the two processors: the staging buffer and the two rings. *)
Definition shared_heap : heap_t :=
  [{| baddr := 0x3800000; bdata := replicate 0x600 0 |}; {| baddr := 0x2400000; bdata := replicate 0x2400 0 |};
   {| baddr := 0x2410000; bdata := replicate 0x2400 0 |}].
Definition host0 (h : heap_t) : host tstack :=
  mk_host (replicate 6 0) (replicate 6 0) false false false 0 h 0x2400000 0x2410000 None
    {| t_inits := 0; t_ip := 0; t_inputs := []; t_dhcp := 0 |} true true 0 0 0 [].

Lemma shared_disjoint : h_disjoint shared_heap.
Proof.
  intros [|[|[|a]]] [|[|[|b]]] x y Hx Hy Hn; try done; cbn in Hx, Hy; try (by destruct a); try (by destruct b);
    injection Hx as <-; injection Hy as <-; vm_compute; lia || (left; congruence) || (right; congruence).
Qed.
Lemma host0_ring : hring_ok (host0 shared_heap) 1 {| baddr := 0x2400000; bdata := replicate 0x2400 0 |}.
Proof. split; [exact shared_disjoint|reflexivity|reflexivity|reflexivity|vm_compute; split; congruence]. Qed.

(** ** Properties *)

(** Sending from lwIP: whatever packets of 1 to 0x600 bytes lwIP hands out,
    each goes to the next slot of the ring, modulo six, and is announced once,
    in order, with the address of its slot and its length; slots that are not
    used keep their bytes, and with at most six packets every announced address
    still holds its packet at the end. *)
Theorem host_packets_announced {L} `{Lwip L} ps i o (s : host L) : hring_ok s i o -> Forall pkt_size_ok ps ->
  exists s' o', send_list ps s = Ok (tt, s') /\ hring_ok s' i o' /\
    h_trace s' = h_trace s ++ imap (fun j p => HFifoSend (sendpkt_msg (hslot s (hnth_slot s j)) (length p))) ps /\
    (forall m, 0 <= m < DATA_BUF_RINGS -> (forall j, (j < length ps)%nat -> hnth_slot s j <> m) -> slot_bytes o' m = slot_bytes o m) /\
    (Z.of_nat (length ps) <= DATA_BUF_RINGS -> forall j p, ps !! j = Some p -> take (length p) (slot_bytes o' (hnth_slot s j)) = p).
Proof.
  intros Hr Hps. destruct (send_list_run ps i s o Hr Hps) as (s' & o' & E & [[R _] _ T _ O K]).
  exists s', o'. split; [exact E|]. split; [exact R|]. split; [exact T|]. split; [exact O|exact K].
Qed.

Lemma host_packets_announced_witness : exists s' o',
  send_list [[1; 2; 3]; [4; 5]] (host0 shared_heap) = Ok (tt, s') /\
  h_trace s' = [HFifoSend (sendpkt_msg 0x2400000 3); HFifoSend (sendpkt_msg 0x2400600 2)] /\ take 2 (slot_bytes o' 1) = [4; 5].
Proof.
  destruct (host_packets_announced [[1; 2; 3]; [4; 5]] 1 _ (host0 shared_heap) host0_ring) as (s' & o' & E & _ & T & _ & K).
  - repeat constructor.
  - exists s', o'. split; [exact E|]. split; [exact T|]. exact (K ltac:(vm_compute; congruence) 1%nat [4; 5] eq_refl).
Defined.

(** C2: transmission through both processors: a packet of 4 to 0x5FA bytes that
    lwIP hands to the ARM9 side is copied to a slot of the shared ring and
    announced; when the ARM7 side handles that message the card receives
    exactly one packet, of type 2, whose payload is the packet, and the slot is
    marked free.  Connection state and messages of the ARM7 do not change. *)
Theorem transmit_end_to_end {L} `{Lwip L} {C} `{MboxCard C} `{Fuel} `{StackEnv} `{Rand} init p i o j oj (sh : host L) (s : iop C) :
  hring_ok sh j oj -> iop_ok s -> out_object s i o -> i <> j -> heap s = h_heap sh -> (4 <= length p <= 0x5FA)%nat ->
  exists sh' m s', ath_link_output p (Z.of_nat (length p)) sh = Ok (ERR_OK, sh') /\ h_trace sh' = h_trace sh ++ [HFifoSend m] /\
    wifi_card_handleMsg init 12 m (s <| heap := h_heap sh' |>) = Ok (tt, s') /\
    card (abs s') = card (abs s) ++ [Some (sent_pkt p)] /\
    h_load (heap s') (hslot sh (ip_data_buf_idx sh)) 4 = Some BUF_FREE /\ wmi s' = wmi s /\ trace s' = trace s.
Proof.
  intros Hr Hs Ho Hne Hh Hp. destruct (host_send_run p j oj sh Hr ltac:(lia)) as [E1 Hr1].
  pose proof (hr_idx sh j oj Hr) as Hidx. pose proof (hslot_room sh j oj _ Hr Hidx) as Hroom.
  exists (host_sent p j oj sh), (sendpkt_msg (hslot sh (ip_data_buf_idx sh)) (length p)).
  set (sh1 := host_sent p j oj sh) in *. set (s1 := s <| heap := h_heap sh1 |>).
  assert (forall q, h_find (heap s1) q = h_find (heap s) q) as Hf.
  { intros q. rewrite Hh. apply (h_find_insert _ j oj); [apply Hr|done|]. cbn [bdata with_pkt]. apply length_blit. lia. }
  assert (out_object s1 i o) as Ho1.
  { destruct Ho as (O1 & O2 & O3). split; [rewrite Hf; exact O1|]. split; [|exact O3].
    change (heap s1) with (<[j := with_pkt (ip_data_buf_idx sh) p oj]> (h_heap sh)). rewrite list_lookup_insert_ne by done. by rewrite <- Hh. }
  assert (iop_ok s1) as Hs1 by (split; [apply Hs|]; split; [exact (hr_disjoint _ _ _ Hr1)|by exists i, o]).
  destruct (hslot_load p sh1 j _ (ip_data_buf_idx sh) Hr1 Hidx ltac:(lia)) as [rest Hrest]; [apply slot_same; lia|].
  pose proof (hslot_find sh1 j _ (ip_data_buf_idx sh) 0 Hr1 Hidx ltac:(lia)) as F0. rewrite Z.add_0_r in F0.
  destruct (sendpkt_run init (hslot sh (ip_data_buf_idx sh)) p rest i o j _ s1 Hs1 Ho1 F0 (not_eq_sym Hne) Hrest Hp)
    as (s' & E2 & A & Bf & W & T).
  exists s'. split; [exact E1|]. split; [done|]. split; [exact E2|]. split; [exact A|]. by split.
Qed.

Lemma transmit_end_to_end_witness : let _ : Fuel := 1%nat in let _ : Rand := fun z => (z, z) in
  exists m s', wifi_card_handleMsg (ret 0) 12 m ((iop0 mlog0) <| heap := [{| baddr := 0x3800000; bdata := replicate 0x600 0 |};
      {| baddr := 0x2400000; bdata := [1; 2; 3; 4; 5] ++ replicate 0x23FB 0 |}; {| baddr := 0x2410000; bdata := replicate 0x2400 0 |}] |>) = Ok (tt, s') /\
    map decode (blocks (card s')) = [Some (sent_pkt [1; 2; 3; 4; 5])] /\ h_load (heap s') 0x2400000 4 = Some BUF_FREE.
Proof.
  intros F R. destruct (transmit_end_to_end (ret 0) [1; 2; 3; 4; 5] 0 {| baddr := 0x3800000; bdata := replicate 0x600 0 |} 1 _
    (host0 shared_heap) ((iop0 mlog0) <| heap := shared_heap |>) host0_ring) as (sh' & m & s' & E1 & _ & E2 & A & Bf & _).
  - split; [exact I|]. split; [exact shared_disjoint|]. eexists _, _. repeat split; reflexivity.
  - repeat split; reflexivity.
  - done.
  - reflexivity.
  - cbn. lia.
  - exists m, s'. apply (f_equal (fun r => match r with Ok (_, s) => h_heap s | _ => [] end)) in E1. rewrite <- E1 in E2.
    split; [exact E2|]. split; [exact A|exact Bf].
Defined.

(** The slots that a stream of packets fills, with their frames. *)
Definition filled {C} `{RxCard C} (s : iop C) (xs : list rxpkt) : list (Z * bytes) :=
  imap (fun j x => (nth_slot s j, x_body x)) xs.

Lemma filled_slots {C} `{RxCard C} (s : iop C) xs : 0 < rings s -> Z.of_nat (length xs) <= rings s -> NoDup (filled s xs).*1.
Proof.
  intros Hr Hl. apply NoDup_alt. intros a b m Ha Hb. rewrite !list_lookup_fmap in Ha, Hb. unfold filled in Ha, Hb.
  rewrite !list_lookup_imap in Ha, Hb.
  destruct (xs !! a) as [x|] eqn:Ea; [|done]. destruct (xs !! b) as [y|] eqn:Eb; [|done]. cbn in Ha, Hb.
  apply lookup_lt_Some in Ea. apply lookup_lt_Some in Eb. injection Ha as Ha. injection Hb as Hb. rewrite <- Hb in Ha. unfold nth_slot in Ha.
  destruct (Nat.lt_trichotomy a b) as [Hab|[Hab|Hab]]; [exfalso|done|exfalso].
  - apply (mod_ne ((ip_data_out_buf_idx s + Z.of_nat a) mod rings s) (Z.of_nat b - Z.of_nat a) (rings s)); [by apply Z.mod_pos_bound|lia|].
    rewrite Zplus_mod_idemp_l, Ha. f_equal. lia.
  - apply (mod_ne ((ip_data_out_buf_idx s + Z.of_nat b) mod rings s) (Z.of_nat a - Z.of_nat b) (rings s)); [by apply Z.mod_pos_bound|lia|].
    rewrite Zplus_mod_idemp_l, <- Ha. f_equal. lia.
Qed.

Lemma x_body_kept x (sl : bytes) : rxpkt_ok x -> take (length (x_bytes x)) sl = x_bytes x ->
  take (length (x_body x)) (drop 6 sl) = x_body x.
Proof.
  intros Hx Es. pose proof (length_x_bytes x) as Lx. unfold x_len in Lx.
  pose proof (x_at_body x 0 ltac:(lia)) as Eb. rewrite drop_0, Nat.add_0_r in Eb.
  transitivity (take (length (x_body x)) (drop 6 (x_bytes x))); [|rewrite Eb; apply take_app_length].
  rewrite <- Es, skipn_firstn_comm, take_take. f_equal. lia.
Qed.

(** C3: reception through both processors: when the mailbox of the card holds
    no more data packets than the ring has slots, the ARM7 side reads them into
    the shared ring and announces them, and the ARM9 side, handling the
    messages in order on the same memory, offers the frames of the packets to
    lwIP in the order of reception, each once, and marks every used slot free.
    Of each frame lwIP gets what fits the first segment of a packet, whose size
    [room] is 1432 bytes with the [pbuf_alloc] of pbuf.c: all of a frame up to
    that, the first [room] bytes of a longer one. *)
Theorem receive_end_to_end {L} `{Lwip L} {C} `{RxCard C} `{Fuel} `{StackEnv} `{Rand} room r xs i o (s : iop C) (sh : host L) :
  first_segment (L := L) room -> rx_ok (card s) -> rx_queue (card s) = map x_bytes xs -> Forall data_ok xs ->
  truthful_all xs -> coherent s -> ring_ok s i o -> Z.of_nat (length xs) <= rings s ->
  exists s' sh', read_all r (length xs) s = Ok (tt, s') /\
    trace s' = trace s ++ map (fun mb => pktdata (in_slot (ip_data_out_buf s) (fst mb) + 6) (length (snd mb))) (filled s xs) /\
    handle_all (ip_data_out_buf s) (filled s xs) (sh <| h_heap := heap s' |>) = Ok (tt, sh') /\
    lwip sh' = foldl (fun st b => lwip_offer (Z.of_nat (length b)) (take (Z.to_nat room) b) st) (lwip sh) (map x_body xs) /\
    forall mb, mb ∈ filled s xs -> h_load (h_heap sh') (in_slot (ip_data_out_buf s) (fst mb)) 4 = Some BUF_FREE.
Proof.
  intros Hpool Hc Hq Hxs Ht Hco Hr Hl.
  destruct (stream_run r xs i s o Hc Hq Hxs Ht Hco Hr) as (s' & o' & E & [[_ Q] (R1 & R2 & R3) RI RT RW _ RK]).
  pose proof (ro_rings s i o Hr) as Hrg.
  assert (in_ring (ip_data_out_buf s) (rings s) (sh <| h_heap := heap s' |>) i o') as Hin.
  { destruct R1 as [D F O Ln Rg I P]. pose proof (R3 0) as Eb. unfold slot in Eb. rewrite !Z.add_0_r in Eb.
    split; [exact D|rewrite <- Eb; exact F|exact O|]. rewrite Ln, <- R2. unfold rings, DATA_BUF_LEN. zdm. }
  destruct (handle_all_run room (ip_data_out_buf s) (rings s) (filled s xs) i o' _ Hpool Hin) as (sh' & o2 & E2 & Hin2 & El & Hfree & _).
  - by apply filled_slots.
  - apply Forall_lookup. intros j mb Hmb. unfold filled in Hmb. rewrite list_lookup_imap in Hmb.
    destruct (xs !! j) as [x|] eqn:Ex; [|done]. cbn in Hmb. injection Hmb as <-.
    pose proof (proj1 (Forall_lookup _ _) Hxs j x Ex) as Hx. pose proof (d_pkt x Hx) as Hp. split; [by apply Z.mod_pos_bound|]. cbn [fst snd].
    destruct (x_head_bytes x Hp) as (_ & _ & _ & _ & Hlx). pose proof (length_x_bytes x) as Lx. unfold x_len in Lx.
    split; [lia|]. apply x_body_kept; [done|by apply RK].
  - exists s', sh'. split; [exact E|]. split; [|split; [exact E2|split]].
    + rewrite RT. f_equal. unfold filled. apply list_eq. intros j.
      rewrite list_lookup_imap. change (map ?f ?l) with (f <$> l). rewrite list_lookup_fmap, list_lookup_imap. by destruct (xs !! j).
    + rewrite El. unfold offer_all, filled, kept. change (lwip (sh <| h_heap := heap s' |>)) with (lwip sh).
      generalize (lwip sh) as st. generalize (nth_slot s) as g. clear. induction xs as [|x xs IH]; intros g st; [done|].
      cbn [imap foldl map fst snd]. apply (IH (fun j => g (S j))).
    + intros mb Hmb. pose proof (list_elem_of_fmap_2 fst _ _ Hmb) as Hm.
      assert (0 <= fst mb < rings s) as Hb.
      { apply list_elem_of_lookup in Hmb as [j Hj]. unfold filled in Hj. rewrite list_lookup_imap in Hj.
        destruct (xs !! j); [|done]. cbn in Hj. injection Hj as <-. by apply Z.mod_pos_bound. }
      rewrite (slot_start _ (rings s) _ i o2 _ Hin2 Hb). f_equal. by apply Hfree.
Qed.

Lemma receive_end_to_end_witness : let _ : Fuel := 1%nat in let _ : Rand := fun z => (z, z) in
  exists s' sh', read_all hang 2 demo_ring = Ok (tt, s') /\
    handle_all 0x2000000 [(0, replicate 30 1); (1, replicate 30 7)] ((host0 []) <| h_heap := heap s' |>) = Ok (tt, sh') /\
    t_inputs (lwip sh') = [replicate 30 1; replicate 30 7] /\ h_load (h_heap sh') 0x2000600 4 = Some BUF_FREE.
Proof.
  intros F R. destruct (receive_end_to_end 1432 hang demo_xs 0 {| baddr := 0x2000000; bdata := replicate 0xC00 0 |} demo_ring (host0 []))
    as (s' & sh' & E1 & _ & E2 & El & Hf).
  - split; [lia|]. by intros n l.
  - exact I.
  - reflexivity.
  - apply demo_xs_ok.
  - apply demo_xs_ok.
  - intros Hf. discriminate.
  - exact demo_ring_ok.
  - vm_compute. congruence.
  - exists s', sh'. split; [exact E1|]. split; [exact E2|]. split; [exact (f_equal t_inputs El)|].
    apply (Hf (1, replicate 30 7)). apply list_elem_of_lookup. by exists 1%nat.
Defined.

(** LwIP is initialised at most once: along any sequence of messages, timer
    ticks and packets of lwIP that starts with an uninitialised stack,
    [lwip_init] has been called exactly once when the flag is set and never
    otherwise, whatever the order in which CONNECT, READY and MAC messages
    arrive and how often they repeat ([netif_add] has to succeed: the only
    initialisation function it runs returns ERR_OK). *)
Theorem lwip_initialised_once {L} `{Counted L} (s0 s : host L) :
  inits (lwip s0) = 0%nat -> host_bLwipInitted s0 = false -> rtc host_step s0 s ->
  inits (lwip s) = (if host_bLwipInitted s then 1 else 0)%nat.
Proof.
  intros H0' Hb Hsteps. assert (init_once s0) as Hi by (unfold init_once; by rewrite Hb).
  clear H0' Hb. induction Hsteps as [s|s1 s2 s3 Hst _ IH]; [exact Hi|]. apply IH. by eapply host_step_once.
Qed.

(** The state after a message, for concrete runs. *)
Definition after_msg (m : Wifi_FifoMsg) (s : host tstack) : host tstack :=
  match wifi_host_handleMsg 12 m s with Ok (_, s) => s | _ => s end.
Definition demo_mac_msg : Wifi_FifoMsg := {| fcmd := WIFI_IPCINT_AP_MAC; fbody := FMac [1; 2; 3; 4; 5; 6] |}.

Lemma lwip_initialised_once_witness :
  let s := after_msg demo_mac_msg (after_msg demo_mac_msg (host0 [])) in
  rtc host_step (host0 []) s /\ host_bLwipInitted s = true /\ inits (lwip s) = 1%nat.
Proof.
  intros s. assert (rtc host_step (host0 []) s) as Hr.
  { eapply rtc_l; [apply (step_msg 12 demo_mac_msg); vm_compute; reflexivity|].
    eapply rtc_l; [apply (step_msg 12 demo_mac_msg); vm_compute; reflexivity|]. vm_compute. apply rtc_refl. }
  split; [exact Hr|]. split; [vm_compute; reflexivity|].
  exact (lwip_initialised_once (host0 []) s eq_refl eq_refl Hr).
Defined.

(** The once-a-second retry of DHCP does not wait for the interface: in its
    condition [&&] binds before [||], so that with an address of zero, which a
    [struct netif] that was never added has, the 1001st tick starts DHCP (and
    calls the reconnect handler) although lwIP was not initialised. *)
Theorem dhcp_before_interface {L} `{Lwip L} (s : host L) :
  (forall l : L, netif_ip (sys_now_inc l) = netif_ip l) ->
  host_bLwipInitted s = false -> sec_cnt s = 0 -> netif_ip (lwip s) = 0 ->
  exists s' l, ticks 1001 s = Ok (tt, s') /\ host_bLwipInitted s' = false /\ lwip s' = dhcp_start l /\
    h_trace s' = h_trace s ++ (if has_reconnect_handler s then [ReconnectHandler] else []).
Proof.
  intros Hl Hi Hc Hz. destruct (ticks_wait 1000 s Hl Hi) as (s1 & E1 & [S1 I1 P1 T1 H1]); [lia|lia|].
  destruct (tick_prods s1 Hl I1) as (s' & l & E2 & El & Hi' & T); [lia|congruence|].
  exists s', l. rewrite (ticks_snoc _ _ _ E1). split; [exact E2|]. split; [exact Hi'|]. split; [exact El|]. by rewrite T, T1, H1.
Qed.

Lemma dhcp_before_interface_witness : exists s',
  ticks 1001 (host0 shared_heap) = Ok (tt, s') /\ host_bLwipInitted s' = false /\ h_trace s' = [ReconnectHandler].
Proof.
  destruct (dhcp_before_interface (host0 shared_heap)) as (s' & l & E & Hi & _ & T); [done|reflexivity|reflexivity|reflexivity|].
  exists s'. split; [exact E|]. split; [exact Hi|exact T].
Defined.
