(* ===== verification/Pbuf.v ===== *)
(** arm_host/source/lwip/pbuf.c: packet buffers, in the configuration of
    include/lwip/lwipopts.h.

    A pbuf is a cell of a store, linked to the next one of its packet; a cell
    can be shared and is released when its reference count falls to zero.  The
    memory behind a cell is a block: a payload pointer is a block with an
    offset, counted from the end of the structure when the block is the cell's
    own.  Accesses outside a block and to a released cell are faults.  Released
    pool memory is handed out again with its old content, which is therefore an
    argument ([stale]), as are the answers of malloc. *)

From stdpp Require Import gmap.
From S2P Require Import Prelude Cmonad Cutils Heap.

(** ** Configuration *)

Definition MEM_ALIGNMENT : Z := 4.
Definition LWIP_MEM_ALIGN_SIZE (x : Z) : Z := u32 (x + MEM_ALIGNMENT - 1) / MEM_ALIGNMENT * MEM_ALIGNMENT.
Definition TCP_MSS : Z := 1460.
Definition ETH_PAD_SIZE : Z := 2.
Definition PBUF_TRANSPORT_HLEN : Z := 20.
Definition PBUF_IP_HLEN : Z := 20.
Definition PBUF_LINK_HLEN : Z := 14 + ETH_PAD_SIZE.
Definition PBUF_LINK_ENCAPSULATION_HLEN : Z := 0.
Definition MEMP_NUM_PBUF : Z := 1024.
Definition PBUF_POOL_SIZE : Z := 512.
Definition SIZEOF_STRUCT_PBUF : Z := 16.
Definition PBUF_POOL_BUFSIZE : Z :=
  LWIP_MEM_ALIGN_SIZE (TCP_MSS + PBUF_IP_HLEN + PBUF_TRANSPORT_HLEN + PBUF_LINK_ENCAPSULATION_HLEN + PBUF_LINK_HLEN).
Definition PBUF_POOL_BUFSIZE_ALIGNED : Z := LWIP_MEM_ALIGN_SIZE PBUF_POOL_BUFSIZE.

(** The layers, with the headroom of 0x30 bytes that this port adds to each. *)
Definition PBUF_TRANSPORT : Z := PBUF_LINK_ENCAPSULATION_HLEN + PBUF_LINK_HLEN + PBUF_IP_HLEN + PBUF_TRANSPORT_HLEN + 0x30.
Definition PBUF_IP : Z := PBUF_LINK_ENCAPSULATION_HLEN + PBUF_LINK_HLEN + PBUF_IP_HLEN + 0x30.
Definition PBUF_LINK : Z := PBUF_LINK_ENCAPSULATION_HLEN + PBUF_LINK_HLEN + 0x30.
Definition PBUF_RAW_TX : Z := PBUF_LINK_ENCAPSULATION_HLEN + 0x30.
Definition PBUF_RAW : Z := 0x30.

Definition PBUF_TYPE_FLAG_STRUCT_DATA_CONTIGUOUS : Z := 0x80.
Definition PBUF_TYPE_FLAG_DATA_VOLATILE : Z := 0x40.
Definition PBUF_TYPE_ALLOC_SRC_MASK : Z := 0x0F.
Definition PBUF_ALLOC_FLAG_RX : Z := 0x0100.
Definition PBUF_ALLOC_FLAG_DATA_CONTIGUOUS : Z := 0x0200.
Definition PBUF_TYPE_ALLOC_SRC_MASK_STD_HEAP : Z := 0.
Definition PBUF_TYPE_ALLOC_SRC_MASK_STD_MEMP_PBUF : Z := 1.
Definition PBUF_TYPE_ALLOC_SRC_MASK_STD_MEMP_PBUF_POOL : Z := 2.

Inductive pbuf_type := PBUF_RAM | PBUF_ROM | PBUF_REF | PBUF_POOL.
#[export] Instance pbuf_type_eq_dec : EqDecision pbuf_type.
Proof. solve_decision. Defined.
Definition type_bits (t : pbuf_type) : Z :=
  match t with
  | PBUF_RAM => Z.lor (Z.lor PBUF_ALLOC_FLAG_DATA_CONTIGUOUS PBUF_TYPE_FLAG_STRUCT_DATA_CONTIGUOUS) PBUF_TYPE_ALLOC_SRC_MASK_STD_HEAP
  | PBUF_ROM => PBUF_TYPE_ALLOC_SRC_MASK_STD_MEMP_PBUF
  | PBUF_REF => Z.lor PBUF_TYPE_FLAG_DATA_VOLATILE PBUF_TYPE_ALLOC_SRC_MASK_STD_MEMP_PBUF
  | PBUF_POOL => Z.lor (Z.lor PBUF_ALLOC_FLAG_RX PBUF_TYPE_FLAG_STRUCT_DATA_CONTIGUOUS) PBUF_TYPE_ALLOC_SRC_MASK_STD_MEMP_PBUF_POOL
  end.

Definition ERR_OK : Z := 0.
Definition ERR_MEM : Z := -1.
Definition ERR_BUF : Z := -2.
Definition ERR_VAL : Z := -6.
Definition ERR_ARG : Z := -16.
Definition NETIF_NO_INDEX : Z := 0.

(** ** State *)

Definition NULL : Z := 0.
Record ptr := mk_ptr { pblk : Z; poff : Z }.
Definition null_ptr : ptr := mk_ptr NULL 0.

Record pbuf := mk_pbuf {
  pb_next : Z; pb_payload : ptr; pb_tot_len : Z; pb_len : Z; pb_type : Z; pb_flags : Z; pb_ref : Z; pb_if_idx : Z
}.
Definition eta_pbuf (b : pbuf) : pbuf :=
  mk_pbuf (pb_next b) (pb_payload b) (pb_tot_len b) (pb_len b) (pb_type b) (pb_flags b) (pb_ref b) (pb_if_idx b).
#[export] Instance set_pb_next : Setter pb_next := ltac:(mk_setter eta_pbuf).
#[export] Instance set_pb_payload : Setter pb_payload := ltac:(mk_setter eta_pbuf).
#[export] Instance set_pb_tot_len : Setter pb_tot_len := ltac:(mk_setter eta_pbuf).
#[export] Instance set_pb_len : Setter pb_len := ltac:(mk_setter eta_pbuf).
#[export] Instance set_pb_flags : Setter pb_flags := ltac:(mk_setter eta_pbuf).
#[export] Instance set_pb_ref : Setter pb_ref := ltac:(mk_setter eta_pbuf).
#[export] Instance set_pb_if_idx : Setter pb_if_idx := ltac:(mk_setter eta_pbuf).

(** Cells, blocks, free elements of the two pools, the next block number, the
    request to the TCP layer to release out-of-order data, calls of malloc. *)
Record lmem := mk_lmem {
  pbs : gmap Z pbuf; dat : gmap Z bytes; pool_left : Z; ref_left : Z; next_blk : Z;
  ooseq_pending : bool; ooseq_calls : Z; mallocs : nat
}.
Definition eta_lmem (m : lmem) : lmem :=
  mk_lmem (pbs m) (dat m) (pool_left m) (ref_left m) (next_blk m) (ooseq_pending m) (ooseq_calls m) (mallocs m).
#[export] Instance set_pbs : Setter pbs := ltac:(mk_setter eta_lmem).
#[export] Instance set_dat : Setter dat := ltac:(mk_setter eta_lmem).
#[export] Instance set_pool_left : Setter pool_left := ltac:(mk_setter eta_lmem).
#[export] Instance set_ref_left : Setter ref_left := ltac:(mk_setter eta_lmem).
#[export] Instance set_next_blk : Setter next_blk := ltac:(mk_setter eta_lmem).
#[export] Instance set_ooseq_pending : Setter ooseq_pending := ltac:(mk_setter eta_lmem).
#[export] Instance set_ooseq_calls : Setter ooseq_calls := ltac:(mk_setter eta_lmem).
#[export] Instance set_mallocs : Setter mallocs := ltac:(mk_setter eta_lmem).

Class PbufEnv := {
  stale : Z -> Z -> Z;            (* old content of a block: block and offset *)
  mem_gives : nat -> bool;        (* does the n-th malloc return memory? *)
  callback_ok : bool              (* the answer of tcpip_try_callback *)
}.

Section Pbuf.
Context `{PbufEnv}.

(** ** Cells and blocks *)

Definition getp (p : Z) : M lmem pbuf := fun s =>
  if p =? NULL then Fault NullDeref else
  match pbs s !! p with Some b => Ok (b, s) | None => Fault UseAfterFree end.
Definition setp (p : Z) (b : pbuf) : M lmem unit := modify (fun s => s <| pbs := <[p := b]> (pbs s) |>).
Definition updp (p : Z) (f : pbuf -> pbuf) : M lmem unit := let* b := getp p in setp p (f b).

(** [memcpy] from and to a payload; no access when [n] is zero. *)
Definition pread (q : ptr) (n : Z) : M lmem bytes := fun s =>
  if n =? 0 then Ok ([], s) else
  match dat s !! pblk q with
  | Some d => if (0 <=? poff q) && (0 <=? n) && (poff q + n <=? Z.of_nat (length d))
              then Ok (take (Z.to_nat n) (drop (Z.to_nat (poff q)) d), s) else Fault OobRead
  | None => Fault UseAfterFree
  end.
Definition pwrite (q : ptr) (b : bytes) : M lmem unit := fun s =>
  if (length b =? 0)%nat then Ok (tt, s) else
  match dat s !! pblk q with
  | Some d => if (0 <=? poff q) && (poff q + Z.of_nat (length b) <=? Z.of_nat (length d))
              then Ok (tt, s <| dat := <[pblk q := blit (Z.to_nat (poff q)) b d]> (dat s) |>) else Fault OobWrite
  | None => Fault UseAfterFree
  end.
Definition ptr_add (q : ptr) (n : Z) : ptr := mk_ptr (pblk q) (poff q + n).

(** ** Allocators *)

Definition stale_bytes (b : Z) (n : nat) : bytes := map (fun i => u8 (stale b (Z.of_nat i))) (seq 0 n).

(** A new block of [n] bytes behind the structure. *)
Definition new_block (n : Z) : M lmem Z := fun s =>
  let b := next_blk s in
  Ok (b, s <| dat := <[b := stale_bytes b (Z.to_nat n)]> (dat s) |> <| next_blk := b + 1 |>).
Definition memp_malloc_pool : M lmem Z :=
  let* n := gets pool_left in
  if n =? 0 then ret NULL else
  modify (fun s => s <| pool_left := n - 1 |>) ;;; new_block PBUF_POOL_BUFSIZE_ALIGNED.
Definition memp_malloc_pbuf : M lmem Z :=
  let* n := gets ref_left in
  if n =? 0 then ret NULL else
  modify (fun s => s <| ref_left := n - 1 |>) ;;; new_block 0.
Definition mem_malloc (n : Z) : M lmem Z :=
  let* k := gets mallocs in
  modify (fun s => s <| mallocs := S k |>) ;;;
  if mem_gives k then new_block n else ret NULL.

Definition drop_cell (p : Z) : M lmem unit :=
  modify (fun s => s <| pbs := delete p (pbs s) |> <| dat := delete p (dat s) |>).
Definition memp_free_pool (p : Z) : M lmem unit := drop_cell p ;;; modify (fun s => s <| pool_left := pool_left s + 1 |>).
Definition memp_free_pbuf (p : Z) : M lmem unit := drop_cell p ;;; modify (fun s => s <| ref_left := ref_left s + 1 |>).
Definition mem_free (p : Z) : M lmem unit := drop_cell p.

(** ** pbuf_free *)

Definition pbuf_get_allocsrc (b : pbuf) : Z := Z.land (pb_type b) PBUF_TYPE_ALLOC_SRC_MASK.

Definition release (p : Z) (b : pbuf) : M lmem unit :=
  let alloc_src := pbuf_get_allocsrc b in
  if alloc_src =? PBUF_TYPE_ALLOC_SRC_MASK_STD_MEMP_PBUF_POOL then memp_free_pool p
  else if alloc_src =? PBUF_TYPE_ALLOC_SRC_MASK_STD_MEMP_PBUF then memp_free_pbuf p
  else if alloc_src =? PBUF_TYPE_ALLOC_SRC_MASK_STD_HEAP then mem_free p
  else ret tt.

(** Every turn releases a cell or leaves the loop. *)
Fixpoint free_loop (fuel : nat) (p count : Z) : M lmem Z :=
  match fuel with
  | O => hang
  | S fuel =>
      if p =? NULL then ret count else
      updp p (fun b => b <| pb_ref := u8 (pb_ref b - 1) |>) ;;;
      let* b := getp p in
      if pb_ref b =? 0 then release p b ;;; free_loop fuel (pb_next b) (u8 (count + 1))
      else ret count
  end.
(** One turn per cell of the store, and one to leave. *)
Definition chain_fuel : M lmem nat := gets (fun s => S (size (pbs s))).
Definition pbuf_free (p : Z) : M lmem Z :=
  if p =? NULL then ret 0 else let* n := chain_fuel in free_loop n p 0.

(** ** pbuf_alloc *)

Definition pbuf_init_alloced_pbuf (p : Z) (pay : ptr) (tot_len len : Z) (type : pbuf_type) (flags : Z) : M lmem unit :=
  setp p (mk_pbuf NULL pay tot_len len (u8 (type_bits type)) flags 1 NETIF_NO_INDEX).

Definition pbuf_pool_is_empty : M lmem unit :=
  let* queued := gets ooseq_pending in
  modify (fun s => s <| ooseq_pending := true |>) ;;;
  if (queued : bool) then ret tt else
  modify (fun s => s <| ooseq_calls := ooseq_calls s + 1 |>) ;;;
  if callback_ok then ret tt else modify (fun s => s <| ooseq_pending := false |>).

Definition pbuf_alloc_reference (pay : ptr) (length : Z) (type : pbuf_type) : M lmem Z :=
  let* p := memp_malloc_pbuf in
  if p =? NULL then ret NULL else
  pbuf_init_alloced_pbuf p pay length length type 0 ;;; ret p.

(** [do { ... } while (rem_len > 0)]; [p] is the head and [last] the last cell. *)
Fixpoint pool_loop (fuel : nat) (offset rem_len p last : Z) : M lmem Z :=
  match fuel with
  | O => hang
  | S fuel =>
      let* q := memp_malloc_pool in
      if q =? NULL then
        pbuf_pool_is_empty ;;; (if p =? NULL then ret 0 else pbuf_free p) ;;; ret NULL
      else
      let qlen := Z.min rem_len (u16 (PBUF_POOL_BUFSIZE_ALIGNED - LWIP_MEM_ALIGN_SIZE offset)) in
      pbuf_init_alloced_pbuf q (mk_ptr q (LWIP_MEM_ALIGN_SIZE offset)) rem_len qlen PBUF_POOL 0 ;;;
      (if p =? NULL then ret tt else updp last (fun b => b <| pb_next := q |>)) ;;;
      let p := if p =? NULL then q else p in
      let rem_len := u16 (rem_len - qlen) in
      if 0 <? rem_len then pool_loop fuel 0 rem_len p q else ret p
  end.

Definition pbuf_alloc (layer length : Z) (type : pbuf_type) : M lmem Z :=
  let offset := u16 layer in
  match type with
  | PBUF_REF | PBUF_ROM => pbuf_alloc_reference null_ptr length type
  | PBUF_POOL => pool_loop (S (Z.to_nat length)) offset length NULL NULL
  | PBUF_RAM =>
      let payload_len := u32 (LWIP_MEM_ALIGN_SIZE offset + LWIP_MEM_ALIGN_SIZE length) in
      let alloc_len := u32 (LWIP_MEM_ALIGN_SIZE SIZEOF_STRUCT_PBUF + payload_len) in
      if (payload_len <? LWIP_MEM_ALIGN_SIZE length) || (alloc_len <? LWIP_MEM_ALIGN_SIZE length) then ret NULL else
      let* p := mem_malloc payload_len in
      if p =? NULL then ret NULL else
      pbuf_init_alloced_pbuf p (mk_ptr p (LWIP_MEM_ALIGN_SIZE offset)) length length type 0 ;;; ret p
  end.

(** ** pbuf_realloc *)

(** Step over the cells that stay, to the new last one. *)
Fixpoint realloc_walk (fuel : nat) (q rem_len shrink : Z) : M lmem (Z * Z) :=
  match fuel with
  | O => hang
  | S fuel =>
      let* b := getp q in
      if pb_len b <? rem_len then
        setp q (b <| pb_tot_len := u16 (pb_tot_len b - shrink) |>) ;;;
        realloc_walk fuel (pb_next b) (u16 (rem_len - pb_len b)) shrink
      else ret (q, rem_len)
  end.
(** [mem_trim] returns its argument unchanged with the C library's malloc. *)
Definition pbuf_realloc (p new_len : Z) : M lmem unit :=
  let* b := getp p in
  if pb_tot_len b <=? new_len then ret tt else
  let shrink := u16 (pb_tot_len b - new_len) in
  let* n := chain_fuel in
  let* '(q, rem_len) := realloc_walk n p new_len shrink in
  updp q (fun b => b <| pb_len := rem_len |> <| pb_tot_len := rem_len |>) ;;;
  let* b := getp q in
  (if pb_next b =? NULL then ret 0 else pbuf_free (pb_next b)) ;;;
  updp q (fun b => b <| pb_next := NULL |>).

(** ** Headers *)

Definition pbuf_add_header_impl (p header_size_increment : Z) (force : bool) : M lmem Z :=
  if (p =? NULL) || (0xFFFF <? header_size_increment) then ret 1 else
  if header_size_increment =? 0 then ret 0 else
  let increment_magnitude := u16 header_size_increment in
  let* b := getp p in
  if u16 (increment_magnitude + pb_tot_len b) <? increment_magnitude then ret 1 else
  let pay := ptr_add (pb_payload b) (- header_size_increment) in
  if (if nz (Z.land (pb_type b) PBUF_TYPE_FLAG_STRUCT_DATA_CONTIGUOUS) then poff pay <? 0 else negb force) then ret 1 else
  setp p (b <| pb_payload := pay |> <| pb_len := u16 (pb_len b + increment_magnitude) |>
            <| pb_tot_len := u16 (pb_tot_len b + increment_magnitude) |>) ;;;
  ret 0.
Definition pbuf_add_header (p header_size_increment : Z) : M lmem Z := pbuf_add_header_impl p header_size_increment false.
Definition pbuf_add_header_force (p header_size_increment : Z) : M lmem Z := pbuf_add_header_impl p header_size_increment true.

Definition pbuf_remove_header (p header_size_decrement : Z) : M lmem Z :=
  if (p =? NULL) || (0xFFFF <? header_size_decrement) then ret 1 else
  if header_size_decrement =? 0 then ret 0 else
  let increment_magnitude := u16 header_size_decrement in
  let* b := getp p in
  if pb_len b <? increment_magnitude then ret 1 else
  setp p (b <| pb_payload := ptr_add (pb_payload b) header_size_decrement |>
            <| pb_len := u16 (pb_len b - increment_magnitude) |>
            <| pb_tot_len := u16 (pb_tot_len b - increment_magnitude) |>) ;;;
  ret 0.

Definition pbuf_header_impl (p header_size_increment : Z) (force : bool) : M lmem Z :=
  if header_size_increment <? 0 then pbuf_remove_header p (- header_size_increment)
  else pbuf_add_header_impl p header_size_increment force.
Definition pbuf_header (p header_size_increment : Z) : M lmem Z := pbuf_header_impl p header_size_increment false.
Definition pbuf_header_force (p header_size_increment : Z) : M lmem Z := pbuf_header_impl p header_size_increment true.

Fixpoint free_header_loop (fuel : nat) (p free_left : Z) : M lmem Z :=
  match fuel with
  | O => hang
  | S fuel =>
      if (free_left =? 0) || (p =? NULL) then ret p else
      let* b := getp p in
      if pb_len b <=? free_left then
        setp p (b <| pb_next := NULL |>) ;;;
        pbuf_free p ;;;
        free_header_loop fuel (pb_next b) (u16 (free_left - pb_len b))
      else pbuf_remove_header p free_left ;;; free_header_loop fuel p 0
  end.
Definition pbuf_free_header (q size : Z) : M lmem Z := let* n := chain_fuel in free_header_loop (S n) q size.

(** ** Chains *)

Fixpoint clen_loop (fuel : nat) (p len : Z) : M lmem Z :=
  match fuel with
  | O => hang
  | S fuel => if p =? NULL then ret len else let* b := getp p in clen_loop fuel (pb_next b) (u16 (len + 1))
  end.
Definition pbuf_clen (p : Z) : M lmem Z := let* n := chain_fuel in clen_loop n p 0.

Definition pbuf_ref (p : Z) : M lmem unit :=
  if p =? NULL then ret tt else updp p (fun b => b <| pb_ref := u8 (pb_ref b + 1) |>).

(** Up to the last cell of [h]: the length of [t] is added to every total. *)
Fixpoint cat_loop (fuel : nat) (p t : Z) : M lmem Z :=
  match fuel with
  | O => hang
  | S fuel =>
      let* b := getp p in
      if pb_next b =? NULL then ret p else
      let* bt := getp t in
      setp p (b <| pb_tot_len := u16 (pb_tot_len b + pb_tot_len bt) |>) ;;;
      cat_loop fuel (pb_next b) t
  end.
Definition pbuf_cat (h t : Z) : M lmem unit :=
  if (h =? NULL) || (t =? NULL) then ret tt else
  let* n := chain_fuel in
  let* p := cat_loop n h t in
  let* bt := getp t in
  updp p (fun b => b <| pb_tot_len := u16 (pb_tot_len b + pb_tot_len bt) |>) ;;;
  updp p (fun b => b <| pb_next := t |>).
Definition pbuf_chain (h t : Z) : M lmem unit := pbuf_cat h t ;;; pbuf_ref t.

Definition pbuf_dechain (p : Z) : M lmem Z :=
  let* b := getp p in
  let q := pb_next b in
  let* tail_gone :=
    (if q =? NULL then ret 1 else
     updp q (fun bq => bq <| pb_tot_len := u16 (pb_tot_len b - pb_len b) |>) ;;;
     updp p (fun b => b <| pb_next := NULL |> <| pb_tot_len := pb_len b |>) ;;;
     pbuf_free q) in
  ret (if 0 <? tail_gone then NULL else q).

(** ** Copies *)

(** [memcpy(dst + doff, src + soff, n)] between payloads *)
Definition pmove (dst : ptr) (src : ptr) (n : Z) : M lmem unit := let* b := pread src n in pwrite dst b.

(** What ends a turn of the copy loop early. *)
Fixpoint copy_loop (fuel : nat) (p_to offset_to p_from offset_from copy_len : Z) : M lmem Z :=
  match fuel with
  | O => hang
  | S fuel =>
      let* bt := getp p_to in
      let* bf := getp p_from in
      let room := u32 (pb_len bt - offset_to) in
      let have := u32 (pb_len bf - offset_from) in
      let len := Z.min copy_len (if have <=? room then have else room) in
      pmove (ptr_add (pb_payload bt) offset_to) (ptr_add (pb_payload bf) offset_from) len ;;;
      let offset_to := u32 (offset_to + len) in
      let offset_from := u32 (offset_from + len) in
      let copy_len := u16 (copy_len - len) in
      let '(p_from, offset_from) := if pb_len bf <=? offset_from then (pb_next bf, 0) else (p_from, offset_from) in
      if (p_from =? NULL) && negb (copy_len =? 0) then ret ERR_ARG else
      let '(p_to, offset_to) := if offset_to =? pb_len bt then (pb_next bt, 0) else (p_to, offset_to) in
      if (p_to =? NULL) && negb (copy_len =? 0) then ret ERR_ARG else
      let queued p := (if p =? NULL then ret false else
        let* b := getp p in ret ((pb_len b =? pb_tot_len b) && negb (pb_next b =? NULL))) in
      let* qf := queued p_from in
      if (qf : bool) then ret ERR_VAL else
      let* qt := queued p_to in
      if (qt : bool) then ret ERR_VAL else
      if copy_len =? 0 then ret ERR_OK else copy_loop fuel p_to offset_to p_from offset_from copy_len
  end.
(** Every turn but the last moves on in one of the two chains. *)
Definition pbuf_copy_partial_pbuf (p_to p_from copy_len offset : Z) : M lmem Z :=
  if p_from =? NULL then ret ERR_ARG else
  let* bf := getp p_from in
  if pb_tot_len bf <? copy_len then ret ERR_ARG else
  if p_to =? NULL then ret ERR_ARG else
  let* bt := getp p_to in
  if pb_tot_len bt <? offset + copy_len then ret ERR_ARG else
  let* n := chain_fuel in
  copy_loop (2 * n) p_to offset p_from 0 copy_len.
Definition pbuf_copy (p_to p_from : Z) : M lmem Z :=
  if p_from =? NULL then ret ERR_ARG else
  let* bf := getp p_from in
  pbuf_copy_partial_pbuf p_to p_from (pb_tot_len bf) 0.

(** [out] is the caller's buffer, [left] the number of bytes copied so far. *)
Fixpoint copy_partial_loop (fuel : nat) (p : Z) (out : bytes) (left len offset : Z) : M lmem (Z * bytes) :=
  match fuel with
  | O => hang
  | S fuel =>
      if (len =? 0) || (p =? NULL) then ret (left, out) else
      let* b := getp p in
      if negb (offset =? 0) && (pb_len b <=? offset) then
        copy_partial_loop fuel (pb_next b) out left len (u16 (offset - pb_len b))
      else
        let buf_copy_len := u16 (pb_len b - offset) in
        let buf_copy_len := if len <? buf_copy_len then len else buf_copy_len in
        let* d := pread (ptr_add (pb_payload b) offset) buf_copy_len in
        if Z.of_nat (length out) <? left + Z.of_nat (length d) then fail OobWrite else
        copy_partial_loop fuel (pb_next b) (blit (Z.to_nat left) d out) (u16 (left + buf_copy_len))
          (u16 (len - buf_copy_len)) 0
  end.
(** [dataptr] is NULL or the caller's buffer; its new content is returned. *)
Definition pbuf_copy_partial (buf : Z) (dataptr : option bytes) (len offset : Z) : M lmem (Z * bytes) :=
  match dataptr with
  | None => ret (0, [])
  | Some out =>
      if buf =? NULL then ret (0, out) else
      let* n := chain_fuel in
      copy_partial_loop n buf out 0 len offset
  end.

(** The cell that holds the offset, and the offset inside it. *)
Fixpoint skip_loop (fuel : nat) (q offset_left : Z) : M lmem (Z * Z) :=
  match fuel with
  | O => hang
  | S fuel =>
      if q =? NULL then ret (q, offset_left) else
      let* b := getp q in
      if pb_len b <=? offset_left then skip_loop fuel (pb_next b) (u16 (offset_left - pb_len b))
      else ret (q, offset_left)
  end.
Definition pbuf_skip_const (p in_offset : Z) : M lmem (Z * Z) := let* n := chain_fuel in skip_loop n p in_offset.
Definition pbuf_skip (p in_offset : Z) : M lmem (Z * Z) := pbuf_skip_const p in_offset.

(** NULL, a pointer into the packet, or the caller's buffer. *)
Inductive contiguous := CNull | CInside (q : ptr) | CCopied (b : bytes).
Definition pbuf_get_contiguous (p : Z) (buffer : option bytes) (bufsize len offset : Z) : M lmem contiguous :=
  match buffer with
  | None => ret CNull
  | Some out =>
      if p =? NULL then ret CNull else
      if bufsize <? len then ret CNull else
      let* '(q, out_offset) := pbuf_skip_const p offset in
      if q =? NULL then ret CNull else
      let* b := getp q in
      if out_offset + len <=? pb_len b then ret (CInside (ptr_add (pb_payload b) out_offset)) else
      let* '(n, out) := pbuf_copy_partial q (Some out) len out_offset in
      ret (if n =? len then CCopied out else CNull)
  end.

(** [data] are the bytes still to be copied, [total] their number. *)
Fixpoint take_loop (fuel : nat) (p : Z) (data : bytes) (total : Z) : M lmem Z :=
  match fuel with
  | O => hang
  | S fuel =>
      if total =? 0 then ret ERR_OK else
      let* b := getp p in
      let n := if pb_len b <? total then pb_len b else total in
      if Z.of_nat (length data) <? n then fail OobRead else
      pwrite (pb_payload b) (take (Z.to_nat n) data) ;;;
      take_loop fuel (pb_next b) (drop (Z.to_nat n) data) (total - n)
  end.
Definition pbuf_take (buf : Z) (dataptr : option bytes) (len : Z) : M lmem Z :=
  if buf =? NULL then ret ERR_ARG else
  match dataptr with
  | None => ret ERR_ARG
  | Some data =>
      let* b := getp buf in
      if pb_tot_len b <? len then ret ERR_MEM else
      let* n := chain_fuel in take_loop n buf data len
  end.
Definition pbuf_take_at (buf : Z) (dataptr : bytes) (len offset : Z) : M lmem Z :=
  let* '(q, target_offset) := pbuf_skip buf offset in
  if q =? NULL then ret ERR_MEM else
  let* b := getp q in
  if pb_tot_len b <? target_offset + len then ret ERR_MEM else
  let first_copy_len := u16 (Z.min (pb_len b - target_offset) len) in
  if Z.of_nat (length dataptr) <? first_copy_len then fail OobRead else
  pwrite (ptr_add (pb_payload b) target_offset) (take (Z.to_nat first_copy_len) dataptr) ;;;
  let remaining_len := u16 (len - first_copy_len) in
  if 0 <? remaining_len then pbuf_take (pb_next b) (Some (drop (Z.to_nat first_copy_len) dataptr)) remaining_len
  else ret ERR_OK.

Definition pbuf_clone (layer : Z) (type : pbuf_type) (p : Z) : M lmem Z :=
  let* b := getp p in
  let* q := pbuf_alloc layer (pb_tot_len b) type in
  if q =? NULL then ret NULL else
  pbuf_copy q p ;;; ret q.
Definition pbuf_coalesce (p layer : Z) : M lmem Z :=
  let* b := getp p in
  if pb_next b =? NULL then ret p else
  let* q := pbuf_clone layer PBUF_RAM p in
  if q =? NULL then ret p else
  pbuf_free p ;;; ret q.

(** ** Bytes and searches *)

Definition pbuf_try_get_at (p offset : Z) : M lmem Z :=
  let* '(q, q_idx) := pbuf_skip_const p offset in
  if q =? NULL then ret (-1) else
  let* b := getp q in
  if q_idx <? pb_len b then let* d := pread (ptr_add (pb_payload b) q_idx) 1 in ret (nth 0 d 0) else ret (-1).
Definition pbuf_get_at (p offset : Z) : M lmem Z :=
  let* r := pbuf_try_get_at p offset in
  ret (if 0 <=? r then u8 r else 0).
Definition pbuf_put_at (p offset data : Z) : M lmem unit :=
  let* '(q, q_idx) := pbuf_skip p offset in
  if q =? NULL then ret tt else
  let* b := getp q in
  if q_idx <? pb_len b then pwrite (ptr_add (pb_payload b) q_idx) [data] else ret tt.

(** [for (i = 0; i < n; i++)], [k] turns left. *)
Fixpoint memcmp_loop (k : nat) (q start i : Z) (s2 : bytes) : M lmem Z :=
  match k with
  | O => ret 0
  | S k =>
      let* a := pbuf_get_at q (u16 (start + i)) in
      let* b := ofopt OobRead (s2 !! Z.to_nat i) in
      if negb (a =? b) then ret (u16 (Z.min (i + 1) 0xFFFF)) else memcmp_loop k q start (i + 1) s2
  end.
Definition pbuf_memcmp (p offset : Z) (s2 : bytes) (n : Z) : M lmem Z :=
  let* b := getp p in
  if pb_tot_len b <? offset + n then ret 0xFFFF else
  let* '(q, start) := pbuf_skip_const p offset in
  memcmp_loop (Z.to_nat n) q start 0 s2.

(** [for (i = start_offset; i <= max_cmp_start; i++)] with a 16-bit [i]. *)
Fixpoint memfind_loop (fuel : nat) (p : Z) (mem : bytes) (mem_len i max_cmp_start : Z) : M lmem Z :=
  match fuel with
  | O => hang
  | S fuel =>
      if i <=? max_cmp_start then
        let* plus := pbuf_memcmp p i mem mem_len in
        if plus =? 0 then ret i else memfind_loop fuel p mem mem_len (u16 (i + 1)) max_cmp_start
      else ret 0xFFFF
  end.
Definition pbuf_memfind (p : Z) (mem : bytes) (mem_len start_offset : Z) : M lmem Z :=
  let* b := getp p in
  let max_cmp_start := u16 (pb_tot_len b - mem_len) in
  if mem_len + start_offset <=? pb_tot_len b then
    memfind_loop (Z.to_nat 65537) p mem mem_len start_offset max_cmp_start
  else ret 0xFFFF.
(** [substr] are the characters before the terminating NUL. *)
Definition pbuf_strstr (p : Z) (substr : option bytes) : M lmem Z :=
  match substr with
  | None | Some [] => ret 0xFFFF
  | Some l =>
      let* b := getp p in
      if pb_tot_len b =? 0xFFFF then ret 0xFFFF else
      if 0xFFFF <=? Z.of_nat (length l) then ret 0xFFFF else
      pbuf_memfind p l (Z.of_nat (length l)) 0
  end.

End Pbuf.
