(* ===== verification/PbufProofs.v ===== *)
(** Packets in the store: a chain of cells is a list, its content a byte
    string, and every operation of pbuf.c is described on these. *)

From stdpp Require Import gmap.
From S2P Require Import Prelude Cmonad Cutils Heap Pbuf.

(** Reduces updates of the store and of a cell. *)
Ltac fields := cbv beta iota delta [set set_pbs set_dat set_pool_left set_ref_left set_next_blk set_ooseq_pending set_ooseq_calls set_mallocs
  pbs dat pool_left ref_left next_blk ooseq_pending ooseq_calls mallocs set_pb_next set_pb_payload set_pb_tot_len set_pb_len
  set_pb_flags set_pb_ref set_pb_if_idx pb_next pb_payload pb_tot_len pb_len pb_type pb_flags pb_ref pb_if_idx].
(** Equality of stores, field by field. *)
Ltac store_eq := fields; f_equal; try done; try lia.

(** ** Chains *)

(** The cells from [p] to the end of the packet, with their addresses. *)
Fixpoint chain (h : gmap Z pbuf) (p : Z) (l : list (Z * pbuf)) : Prop :=
  match l with
  | [] => p = NULL
  | (q, b) :: l => p = q /\ q <> NULL /\ h !! q = Some b /\ chain h (pb_next b) l
  end.

Lemma chain_det h p l l' : chain h p l -> chain h p l' -> l = l'.
Proof.
  revert p l'; induction l as [|[q b] l IH]; intros p [|[q' b'] l'] Hl Hl'; cbn in *; try done.
  - by destruct Hl' as (-> & ? & _).
  - by destruct Hl as (-> & ? & _).
  - destruct Hl as (-> & _ & Hb & Hl), Hl' as (<- & _ & Hb' & Hl'). simplify_eq. f_equal. by apply (IH (pb_next b)).
Qed.

Lemma chain_in h p l q : chain h p l -> q ∈ l.*1 -> exists l1 b l2, l = l1 ++ (q, b) :: l2 /\ chain h q ((q, b) :: l2).
Proof.
  revert p; induction l as [|[r b] l IH]; intros p Hl Hq; cbn in Hq; [by apply elem_of_nil in Hq|].
  destruct Hl as (-> & Hr & Hb & Hl). apply elem_of_cons in Hq as [->|Hq].
  - by exists [], b, l.
  - destruct (IH _ Hl Hq) as (l1 & b' & l2 & -> & Hc). by exists ((r, b) :: l1), b', l2.
Qed.

(** A chain that ends does not meet itself. *)
Lemma chain_nodup h p l : chain h p l -> NoDup l.*1.
Proof.
  revert p; induction l as [|[r b] l IH]; intros p Hl; cbn; [constructor|].
  destruct Hl as (-> & Hr & Hb & Hl). constructor; [|by apply (IH (pb_next b))]. intros Hin.
  destruct (chain_in _ _ _ _ Hl Hin) as (l1 & b' & l2 & -> & Hc). destruct Hc as (_ & _ & Hb' & Hc). simplify_eq.
  pose proof (chain_det _ _ _ _ Hl Hc) as E. apply (f_equal length) in E. rewrite length_app in E. cbn in E. lia.
Qed.

Lemma chain_dom h p l : chain h p l -> list_to_set l.*1 ⊆ dom h.
Proof.
  revert p; induction l as [|[r b] l IH]; intros p Hl; cbn; [set_solver|]. destruct Hl as (-> & _ & Hb & Hl).
  apply union_subseteq. split; [|by apply (IH (pb_next b))]. apply singleton_subseteq_l. by apply elem_of_dom_2 in Hb.
Qed.

(** The bound of the loops is enough for every chain. *)
Lemma chain_size h p l : chain h p l -> (length l <= size h)%nat.
Proof.
  intros Hl. rewrite <- size_dom. rewrite <- (length_fmap fst l).
  rewrite <- (size_list_to_set (C := gset Z) l.*1) by (by eapply chain_nodup). apply subseteq_size. by eapply chain_dom.
Qed.

Lemma chain_insert h p l q b : chain h p l -> q ∉ l.*1 -> chain (<[q := b]> h) p l.
Proof.
  revert p; induction l as [|[r c] l IH]; intros p Hl Hq; cbn in *; [done|]. apply not_elem_of_cons in Hq as [Hn Hq].
  destruct Hl as (-> & Hr & Hc & Hl). split; [done|]. split; [done|]. split; [by rewrite lookup_insert_ne|by apply IH].
Qed.
Lemma chain_delete h p l q : chain h p l -> q ∉ l.*1 -> chain (delete q h) p l.
Proof.
  revert p; induction l as [|[r c] l IH]; intros p Hl Hq; cbn in *; [done|]. apply not_elem_of_cons in Hq as [Hn Hq].
  destruct Hl as (-> & Hr & Hc & Hl). split; [done|]. split; [done|]. split; [by rewrite lookup_delete_ne|by apply IH].
Qed.
Lemma chain_app h p l1 q b l2 : chain h p (l1 ++ (q, b) :: l2) -> chain h q ((q, b) :: l2).
Proof. revert p; induction l1 as [|[r c] l1 IH]; intros p Hl; cbn in *; [by destruct Hl as (-> & ?)|]. destruct Hl as (_ & _ & _ & Hl). by apply (IH _ Hl). Qed.

(** ** Content *)

(** The payload of a cell lies inside its block. *)
Definition cell_ok (d : gmap Z bytes) (b : pbuf) : Prop :=
  0 <= pb_len b /\ exists c, d !! pblk (pb_payload b) = Some c /\ 0 <= poff (pb_payload b) /\
    poff (pb_payload b) + pb_len b <= Z.of_nat (length c).
Definition cell_data (d : gmap Z bytes) (b : pbuf) : bytes :=
  match d !! pblk (pb_payload b) with
  | Some c => take (Z.to_nat (pb_len b)) (drop (Z.to_nat (poff (pb_payload b))) c)
  | None => []
  end.
Definition content (d : gmap Z bytes) (l : list (Z * pbuf)) : bytes := concat (map (fun x => cell_data d (snd x)) l).

Fixpoint sum_len (l : list (Z * pbuf)) : Z := match l with [] => 0 | x :: l => pb_len (snd x) + sum_len l end.
(** The invariant of the structure: [tot_len] is the length from here on. *)
Fixpoint totals (l : list (Z * pbuf)) : Prop :=
  match l with [] => True | x :: l' => pb_tot_len (snd x) = sum_len l /\ totals l' end.

Record packet (s : lmem) (p : Z) (l : list (Z * pbuf)) : Prop := {
  pk_chain : chain (pbs s) p l;
  pk_cells : Forall (fun x => cell_ok (dat s) (snd x)) l;
  pk_totals : totals l;
  pk_len : sum_len l < 65536
}.

Lemma length_cell d b : cell_ok d b -> Z.of_nat (length (cell_data d b)) = pb_len b.
Proof.
  intros (H0 & c & E & H1 & H2). unfold cell_data. rewrite E, length_take, length_drop. lia.
Qed.
Lemma length_content d l : Forall (fun x => cell_ok d (snd x)) l -> Z.of_nat (length (content d l)) = sum_len l.
Proof.
  intros Hl. induction Hl as [|x l Hx Hl IH]; [done|]. unfold content in *. cbn [map concat sum_len]. rewrite length_app.
  rewrite Nat2Z.inj_add, IH, length_cell by done. done.
Qed.
Lemma sum_len_pos d l : Forall (fun x => cell_ok d (snd x)) l -> 0 <= sum_len l.
Proof. intros Hl. rewrite <- (length_content d) by done. lia. Qed.
Lemma content_cons d x l : content d (x :: l) = cell_data d (snd x) ++ content d l.
Proof. done. Qed.
Lemma content_app d l1 l2 : content d (l1 ++ l2) = content d l1 ++ content d l2.
Proof. unfold content. by rewrite map_app, concat_app. Qed.

Lemma packet_tail s p q b l : packet s p ((q, b) :: l) -> packet s (pb_next b) l.
Proof.
  intros [(_ & _ & _ & Hc) Ho Ht Hl]. apply Forall_cons in Ho as [[Hb _] Ho]. destruct Ht as [_ Ht]. split; [done|done|done|].
  cbn [sum_len snd] in *. lia.
Qed.
Lemma packet_head s p q b l : packet s p ((q, b) :: l) ->
  p = q /\ q <> NULL /\ pbs s !! q = Some b /\ cell_ok (dat s) b /\ pb_tot_len b = pb_len b + sum_len l /\
  0 <= pb_len b < 65536 /\ 0 <= sum_len l < 65536.
Proof.
  intros [(-> & Hq & Hb & Hc) Ho [Ht _] Hl]. apply Forall_cons in Ho as [Hob Ho]. cbn [sum_len snd] in *.
  pose proof (sum_len_pos _ _ Ho). pose proof (proj1 Hob). repeat (split; [done|]). lia.
Qed.

(** ** Runs *)

Lemma getp_run {B} s q b (k : pbuf -> M lmem B) : q <> NULL -> pbs s !! q = Some b -> bind (getp q) k s = k b s.
Proof. intros Hq Hb. unfold bind, getp. by rewrite (proj2 (Z.eqb_neq _ _) Hq), Hb. Qed.
Lemma updp_run {B} s q b f (k : M lmem B) : q <> NULL -> pbs s !! q = Some b ->
  (updp q f ;;; k) s = k (s <| pbs := <[q := f b]> (pbs s) |>).
Proof. intros Hq Hb. unfold updp. rewrite bind_assoc, (getp_run _ _ _ _ Hq Hb). done. Qed.

Lemma chain_fuel_run {B} s (k : nat -> M lmem B) : bind chain_fuel k s = k (S (size (pbs s))) s.
Proof. done. Qed.

Lemma pread_cell s b off n : cell_ok (dat s) b -> 0 <= off -> 0 <= n -> off + n <= pb_len b ->
  pread (ptr_add (pb_payload b) off) n s = Ok (take (Z.to_nat n) (drop (Z.to_nat off) (cell_data (dat s) b)), s).
Proof.
  intros (H0 & c & E & H1 & H2) Ho Hn Hl. unfold pread, ptr_add, cell_data. cbn [pblk poff]. rewrite E.
  destruct (n =? 0) eqn:En; [apply Z.eqb_eq in En; subst; by rewrite take_0|].
  rewrite (proj2 (Z.leb_le _ _)), (proj2 (Z.leb_le _ _)), (proj2 (Z.leb_le _ _)) by lia. cbn [andb]. do 2 f_equal.
  rewrite skipn_firstn_comm, take_take, drop_drop. f_equal; [lia|]. f_equal. lia.
Qed.

Lemma blit_twice k d1 d2 out : (k + length d1 + length d2 <= length out)%nat ->
  blit (k + length d1) d2 (blit k d1 out) = blit k (d1 ++ d2) out.
Proof.
  intros Hl. apply list_eq; intros i. rewrite !lookup_blit; rewrite ?length_blit, ?length_app; try lia.
  repeat case_decide; try lia; try done.
  - rewrite lookup_app_r by lia. f_equal. lia.
  - by rewrite lookup_app_l by lia.
Qed.

(** ** pbuf_copy_partial *)

Lemma copy_partial_loop_run s l : forall p fuel out left len off,
  packet s p l -> (length l < fuel)%nat -> 0 <= left -> 0 <= len -> 0 <= off < 65536 ->
  left + len <= Z.of_nat (length out) -> left + len < 65536 ->
  copy_partial_loop fuel p out left len off s =
    Ok ((left + Z.min len (Z.max 0 (sum_len l - off)),
         blit (Z.to_nat left) (take (Z.to_nat len) (drop (Z.to_nat off) (content (dat s) l))) out), s).
Proof.
  induction l as [|[q b] l IH]; intros p fuel out left len off Hp Hf H0 Hn Ho Hb Hw; (destruct fuel as [|fuel]; [cbn in Hf; lia|]); cbn [copy_partial_loop].
  - destruct Hp as [-> _ _ _]. cbn [sum_len]. rewrite orb_true_r. cbn [content map concat]. rewrite drop_nil, take_nil, blit_nil.
    unfold ret. do 3 f_equal. lia.
  - destruct (packet_head _ _ _ _ _ Hp) as (-> & Hq & Hb' & Hc & Ht & Hlb & Hls). pose proof (packet_tail _ _ _ _ _ Hp) as Hp'.
    rewrite (proj2 (Z.eqb_neq q NULL) Hq), orb_false_r. destruct (len =? 0) eqn:E0.
    { apply Z.eqb_eq in E0 as ->. rewrite take_0, blit_nil. unfold ret. do 3 f_equal. lia. }
    apply Z.eqb_neq in E0. rewrite (getp_run _ _ _ _ Hq Hb'). rewrite content_cons. cbn [snd sum_len length] in *.
    pose proof (length_cell _ _ Hc) as Hlc. destruct (negb (off =? 0) && (pb_len b <=? off)) eqn:Es.
    + apply andb_true_iff in Es as [_ Es%Z.leb_le]. rewrite u16_id by lia. rewrite IH by (done || lia).
      rewrite drop_app_ge by lia. do 3 f_equal; [lia|]. do 3 f_equal. lia.
    + assert (off < pb_len b \/ off = 0) as Hs by (destruct (off =? 0) eqn:?; destruct (pb_len b <=? off) eqn:?; cbn in Es; try done; lia).
      set (n := if len <? u16 (pb_len b - off) then len else u16 (pb_len b - off)).
      assert (n = Z.min len (pb_len b - off)) as Hn' by (subst n; rewrite u16_id by lia; destruct (len <? _) eqn:E; lia).
      clearbody n. rewrite (bind_run _ _ _ _ _ (pread_cell _ _ off n Hc ltac:(lia) ltac:(lia) ltac:(lia))). set (d := take (Z.to_nat n) _).
      assert (Z.of_nat (length d) = n) as Hd by (subst d; rewrite length_take, length_drop; lia).
      rewrite (proj2 (Z.ltb_ge _ _)) by lia. rewrite !u16_id by lia. rewrite IH; rewrite ?length_blit; try (done || lia).
      do 3 f_equal; [lia|]. replace (Z.to_nat (left + n)) with (Z.to_nat left + length d)%nat by lia. rewrite drop_0.
      rewrite blit_twice by (rewrite length_take; lia). f_equal. rewrite (drop_app_le (cell_data _ _)) by lia. subst d.
      rewrite take_app. rewrite length_drop. f_equal; [|f_equal; lia].
      destruct (Z_le_gt_dec len (pb_len b - off)); [f_equal; lia|]. rewrite !take_ge; rewrite ?length_drop; [done|lia|lia].
Qed.

Lemma pbuf_copy_partial_run s p l out len off :
  packet s p l -> 0 <= len < 65536 -> 0 <= off < 65536 -> len <= Z.of_nat (length out) ->
  pbuf_copy_partial p (Some out) len off s =
    Ok ((Z.min len (Z.max 0 (sum_len l - off)),
         blit 0 (take (Z.to_nat len) (drop (Z.to_nat off) (content (dat s) l))) out), s).
Proof.
  intros Hp Hl Ho Hb. unfold pbuf_copy_partial. destruct (p =? NULL) eqn:E.
  - apply Z.eqb_eq in E as ->. destruct Hp as [Hc _ _ _]. destruct l as [|[q b] l]; [|by destruct Hc as (<- & ? & _)].
    cbn [content map concat]. rewrite drop_nil, take_nil, blit_nil. unfold ret. cbn [sum_len]. do 3 f_equal. lia.
  - rewrite chain_fuel_run. pose proof (chain_size _ _ _ (pk_chain _ _ _ Hp)).
    by rewrite (copy_partial_loop_run s l) by (done || lia).
Qed.

(** ** Writes into a packet *)

(** The blocks behind the cells; [owned]: no two cells share one. *)
Definition blocks (l : list (Z * pbuf)) : list Z := map (fun x => pblk (pb_payload (snd x))) l.
Definition owned (l : list (Z * pbuf)) : Prop := NoDup (blocks l).

(** Only the blocks [bs] may have changed, and no block its size. *)
Record frame_dat (bs : list Z) (d d' : gmap Z bytes) : Prop := {
  fr_out : forall k, k ∉ bs -> d' !! k = d !! k;
  fr_size : forall k c, d !! k = Some c -> exists c', d' !! k = Some c' /\ length c' = length c
}.
Lemma frame_refl bs d : frame_dat bs d d.
Proof. split; eauto. Qed.
Lemma frame_trans bs d1 d2 d3 : frame_dat bs d1 d2 -> frame_dat bs d2 d3 -> frame_dat bs d1 d3.
Proof.
  intros [A1 A2] [B1 B2]. split; [intros k Hk; by rewrite B1, A1|]. intros k c Hc.
  destruct (A2 _ _ Hc) as (c1 & E1 & L1). destruct (B2 _ _ E1) as (c2 & E2 & L2). exists c2. split; [done|congruence].
Qed.
Lemma frame_mono bs bs' d d' : (forall k, k ∈ bs -> k ∈ bs') -> frame_dat bs d d' -> frame_dat bs' d d'.
Proof. intros Hs [A B]. split; [|done]. intros k Hk. apply A. by intros ?%Hs. Qed.
Lemma frame_insert k c c' d : d !! k = Some c -> length c' = length c -> frame_dat [k] d (<[k := c']> d).
Proof.
  intros Hc Hl. split.
  - intros j Hj. apply lookup_insert_ne. by intros ->; apply Hj; set_solver.
  - intros j cj Hj. destruct (decide (j = k)) as [->|Hn]; [rewrite lookup_insert_eq; simplify_eq; eauto|rewrite lookup_insert_ne by done; eauto].
Qed.

Lemma frame_cell_ok bs d d' b : frame_dat bs d d' -> cell_ok d b -> cell_ok d' b.
Proof.
  intros [_ Hs] (H0 & c & E & H1 & H2). split; [done|]. destruct (Hs _ _ E) as (c' & E' & L). exists c'. by rewrite L.
Qed.
Lemma frame_cell_data bs d d' b : frame_dat bs d d' -> pblk (pb_payload b) ∉ bs -> cell_data d' b = cell_data d b.
Proof. intros [Ho _] Hb. unfold cell_data. by rewrite Ho. Qed.
Lemma frame_content bs d d' l : frame_dat bs d d' -> (forall k, k ∈ blocks l -> k ∉ bs) -> content d' l = content d l.
Proof.
  intros Hf Hd. induction l as [|x l IH]; [done|]. rewrite !content_cons, IH by (intros k Hk; apply Hd; by apply list_elem_of_further).
  f_equal. eapply frame_cell_data; [done|]. apply Hd. by apply list_elem_of_here.
Qed.
Lemma frame_packet bs s d' p l : frame_dat bs (dat s) d' -> packet s p l -> packet (s <| dat := d' |>) p l.
Proof. intros Hf [Hc Ho Ht Hl]. split; [done| |done|done]. eapply Forall_impl; [exact Ho|]. intros x. by apply frame_cell_ok with bs. Qed.

Lemma pwrite_cell s b off d : cell_ok (dat s) b -> 0 <= off -> off + Z.of_nat (length d) <= pb_len b ->
  exists d', pwrite (ptr_add (pb_payload b) off) d s = Ok (tt, s <| dat := d' |>) /\
    frame_dat [pblk (pb_payload b)] (dat s) d' /\ cell_data d' b = blit (Z.to_nat off) d (cell_data (dat s) b).
Proof.
  intros (H0 & c & E & H1 & H2) Ho Hl. unfold pwrite, ptr_add. cbn [pblk poff]. destruct (length d =? 0)%nat eqn:E0.
  { apply Nat.eqb_eq, nil_length_inv in E0 as ->. exists (dat s). rewrite blit_nil. split; [by destruct s|]. split; [apply frame_refl|done]. }
  rewrite E, (proj2 (Z.leb_le _ _)), (proj2 (Z.leb_le _ _)) by lia. cbn [andb]. eexists. split; [reflexivity|]. split.
  - eapply frame_insert; [done|]. apply length_blit. lia.
  - unfold cell_data. rewrite lookup_insert_eq, E. apply list_eq; intros i.
    rewrite lookup_blit by (rewrite length_take, length_drop; lia).
    destruct (decide (i < Z.to_nat (pb_len b))%nat).
    + rewrite !lookup_take_lt, !lookup_drop by lia. rewrite lookup_blit by lia. repeat case_decide; try lia; [|done]. f_equal. lia.
    + rewrite !lookup_take_ge by lia. case_decide; [lia|done].
Qed.

(** ** pbuf_take *)

Lemma take_loop_run l : forall s p fuel data total,
  packet s p l -> owned l -> (length l < fuel)%nat -> 0 <= total <= sum_len l -> total <= Z.of_nat (length data) ->
  exists d', take_loop fuel p data total s = Ok (ERR_OK, s <| dat := d' |>) /\ frame_dat (blocks l) (dat s) d' /\
    content d' l = blit 0 (take (Z.to_nat total) data) (content (dat s) l).
Proof.
  induction l as [|[q b] l IH]; intros s p fuel data total Hp Hw Hf Ht Hd; (destruct fuel as [|fuel]; [cbn in Hf; lia|]); cbn [take_loop].
  { cbn [sum_len] in Ht. rewrite (proj2 (Z.eqb_eq _ _)) by lia. exists (dat s). split; [by destruct s|]. split; [apply frame_refl|].
    replace (Z.to_nat total) with 0%nat by lia. by rewrite take_0, blit_nil. }
  destruct (packet_head _ _ _ _ _ Hp) as (-> & Hq & Hb' & Hc & Htl & Hlb & Hls). pose proof (packet_tail _ _ _ _ _ Hp) as Hp'.
  cbn [sum_len snd length] in *. apply NoDup_cons in Hw as [Hnb Hw]. cbn [snd] in Hnb. destruct (total =? 0) eqn:E0.
  { apply Z.eqb_eq in E0 as ->. exists (dat s). split; [by destruct s|]. split; [apply frame_refl|]. by rewrite take_0, blit_nil. }
  apply Z.eqb_neq in E0. rewrite (getp_run _ _ _ _ Hq Hb'). set (n := if pb_len b <? total then pb_len b else total).
  assert (n = Z.min (pb_len b) total) as Hn by (subst n; destruct (_ <? _) eqn:E; lia). clearbody n. rewrite (proj2 (Z.ltb_ge _ _)) by lia.
  destruct (pwrite_cell s b 0 (take (Z.to_nat n) data) Hc) as (d1 & E1 & F1 & C1); [lia|rewrite length_take; lia|].
  replace (ptr_add (pb_payload b) 0) with (pb_payload b) in E1 by (destruct b as [? [] ? ? ? ? ? ?]; unfold ptr_add; cbn; f_equal; lia).
  rewrite (bind_run _ _ _ _ _ E1).
  destruct (IH (s <| dat := d1 |>) (pb_next b) fuel (drop (Z.to_nat n) data) (total - n)) as (d' & E & F & C);
    [by eapply frame_packet|done|lia|lia|rewrite length_drop; lia|].
  change (dat (s <| dat := d1 |>)) with d1 in F, C. exists d'. split; [rewrite E; by destruct s|]. cbn [blocks map snd]. split.
  { eapply frame_trans; [eapply frame_mono; [|exact F1]|eapply frame_mono; [|exact F]].
    - intros k ->%list_elem_of_singleton. apply list_elem_of_here.
    - intros k Hk. by apply list_elem_of_further. }
  rewrite !content_cons. cbn [snd]. rewrite (frame_cell_data _ _ _ _ F Hnb), C1, C.
  rewrite (frame_content _ _ _ l F1) by (intros k Hk ->%list_elem_of_singleton; done).
  pose proof (length_cell _ _ Hc) as Hlc. pose proof (length_content _ _ (pk_cells _ _ _ Hp')) as Hct.
  apply list_eq; intros i. rewrite lookup_blit by (rewrite length_take, length_app; lia).
  destruct (decide (i < length (cell_data (dat s) b))%nat).
  - rewrite lookup_app_l by (rewrite length_blit; rewrite ?length_take; lia). rewrite lookup_blit by (rewrite length_take; lia).
    rewrite !length_take. repeat case_decide; try lia; [|by rewrite lookup_app_l by lia]. rewrite !lookup_take_lt by lia. done.
  - rewrite !lookup_app_r by (rewrite ?length_blit; rewrite ?length_take; lia). rewrite length_blit by (rewrite length_take; lia).
    rewrite lookup_blit by (rewrite length_take, length_drop; lia). rewrite !length_take, length_drop. repeat case_decide; try lia; [|done].
    rewrite !lookup_take_lt, lookup_drop by lia. f_equal. lia.
Qed.

Lemma pbuf_take_run s p l data len :
  packet s p l -> owned l -> p <> NULL -> 0 <= len <= sum_len l -> len <= Z.of_nat (length data) ->
  exists d', pbuf_take p (Some data) len s = Ok (ERR_OK, s <| dat := d' |>) /\ frame_dat (blocks l) (dat s) d' /\
    content d' l = blit 0 (take (Z.to_nat len) data) (content (dat s) l).
Proof.
  intros Hp Hw Hn Hl Hd. unfold pbuf_take. rewrite (proj2 (Z.eqb_neq _ _) Hn). destruct l as [|[q b] l]; [by destruct Hp as [? _ _ _]|].
  destruct (packet_head _ _ _ _ _ Hp) as (-> & Hq & Hb & Hc & Ht & _ & _). rewrite (getp_run _ _ _ _ Hq Hb). cbn [sum_len snd] in Hl.
  rewrite (proj2 (Z.ltb_ge _ _)) by lia. rewrite chain_fuel_run. pose proof (chain_size _ _ _ (pk_chain _ _ _ Hp)).
  apply (take_loop_run ((q, b) :: l)); [done|done|lia|cbn [sum_len snd]; lia|done].
Qed.

(** ** pbuf_free *)

(** The cells that only their predecessor holds, up to the first shared one. *)
Fixpoint sole (l : list (Z * pbuf)) : list (Z * pbuf) :=
  match l with [] => [] | x :: l => if pb_ref (snd x) =? 1 then x :: sole l else [] end.
Definition shared (l : list (Z * pbuf)) : list (Z * pbuf) := drop (length (sole l)) l.

Fixpoint dels {V} (m : gmap Z V) (ks : list Z) : gmap Z V :=
  match ks with [] => m | k :: ks => dels (delete k m) ks end.
Lemma lookup_dels {V} (m : gmap Z V) ks k : dels m ks !! k = if decide (k ∈ ks) then None else m !! k.
Proof.
  revert m; induction ks as [|j ks IH]; intros m; cbn [dels]; [done|]. rewrite IH.
  destruct (decide (k ∈ ks)), (decide (k ∈ j :: ks)); try done.
  - exfalso. set_solver.
  - destruct (decide (k = j)) as [->|]; [by rewrite lookup_delete_eq|exfalso; set_solver].
  - apply lookup_delete_ne. set_solver.
Qed.

Definition src_count (src : Z) (l : list (Z * pbuf)) : Z :=
  Z.of_nat (length (filter (fun x => pbuf_get_allocsrc (snd x) = src) l)).
Definition known_src (b : pbuf) : Prop :=
  pbuf_get_allocsrc b = PBUF_TYPE_ALLOC_SRC_MASK_STD_MEMP_PBUF_POOL \/
  pbuf_get_allocsrc b = PBUF_TYPE_ALLOC_SRC_MASK_STD_MEMP_PBUF \/ pbuf_get_allocsrc b = PBUF_TYPE_ALLOC_SRC_MASK_STD_HEAP.

(** The store after releasing the packet [l]: its sole cells are gone, the first
    shared one has lost a reference. *)
Definition drop_ref (m : gmap Z pbuf) (l : list (Z * pbuf)) : gmap Z pbuf :=
  match l with [] => m | (q, b) :: _ => <[q := b <| pb_ref := u8 (pb_ref b - 1) |>]> m end.
Definition after_free (s : lmem) (l : list (Z * pbuf)) : lmem :=
  s <| pbs := drop_ref (dels (pbs s) (sole l).*1) (shared l) |> <| dat := dels (dat s) (sole l).*1 |>
    <| pool_left := pool_left s + src_count PBUF_TYPE_ALLOC_SRC_MASK_STD_MEMP_PBUF_POOL (sole l) |>
    <| ref_left := ref_left s + src_count PBUF_TYPE_ALLOC_SRC_MASK_STD_MEMP_PBUF (sole l) |>.

Lemma src_count_cons src x l : src_count src (x :: l) = (if pbuf_get_allocsrc (snd x) =? src then 1 else 0) + src_count src l.
Proof.
  unfold src_count. rewrite filter_cons. destruct (pbuf_get_allocsrc (snd x) =? src) eqn:E; case_decide; cbn [length]; lia.
Qed.

Lemma release_run s q b : known_src b ->
  release q b s = Ok (tt, s <| pbs := delete q (pbs s) |> <| dat := delete q (dat s) |>
    <| pool_left := pool_left s + src_count PBUF_TYPE_ALLOC_SRC_MASK_STD_MEMP_PBUF_POOL [(q, b)] |>
    <| ref_left := ref_left s + src_count PBUF_TYPE_ALLOC_SRC_MASK_STD_MEMP_PBUF [(q, b)] |>).
Proof.
  intros Hs. unfold release. rewrite !src_count_cons. cbn [snd]. destruct s as [ps ds pl rl nb op oc mc].
  destruct Hs as [E|[E|E]]; rewrite E; unfold src_count, PBUF_TYPE_ALLOC_SRC_MASK_STD_MEMP_PBUF_POOL,
    PBUF_TYPE_ALLOC_SRC_MASK_STD_MEMP_PBUF, PBUF_TYPE_ALLOC_SRC_MASK_STD_HEAP; cbn [Z.eqb Pos.eqb length filter list_filter];
    unfold memp_free_pool, memp_free_pbuf, mem_free, drop_cell, bind, modify; cbv beta iota; do 2 f_equal; store_eq.
Qed.

Lemma free_loop_run l : forall s p fuel c,
  chain (pbs s) p l -> Forall (fun x => known_src (snd x) /\ 0 <= pb_ref (snd x) < 256) l -> (length l < fuel)%nat ->
  free_loop fuel p c s = Ok (match sole l with [] => c | _ => u8 (c + Z.of_nat (length (sole l))) end, after_free s l).
Proof.
  induction l as [|[q b] l IH]; intros s p fuel c Hc Hk Hf; (destruct fuel as [|fuel]; [cbn in Hf; lia|]); cbn [free_loop].
  { cbn in Hc. subst p. rewrite Z.eqb_refl. unfold after_free, shared, src_count, ret. destruct s. do 2 f_equal. cbn [sole drop length dels drop_ref filter list_filter fmap list_fmap]. store_eq. }
  destruct Hc as (-> & Hq & Hb & Hc). apply Forall_cons in Hk as [[Hs Hr] Hk]. cbn [snd length] in *.
  rewrite (proj2 (Z.eqb_neq _ _) Hq). rewrite (updp_run _ _ b _ _ Hq Hb).
  rewrite (getp_run _ q (b <| pb_ref := u8 (pb_ref b - 1) |>)) by (done || apply lookup_insert_eq). cbn [pb_ref pb_next set_pb_ref set].
  assert ((u8 (pb_ref b - 1) =? 0) = (pb_ref b =? 1)) as -> by (unfold u8; destruct (pb_ref b =? 1) eqn:E; zdm).
  destruct (pb_ref b =? 1) eqn:E1.
  - rewrite (bind_run _ _ _ _ _ (release_run _ q (b <| pb_ref := u8 (pb_ref b - 1) |>) Hs)).
    rewrite IH; [|cbn; rewrite delete_insert_eq; apply chain_delete; [done|]|done|lia].
    + unfold after_free, shared. cbn [sole snd]. rewrite E1. cbn [length drop dels fmap list_fmap]. f_equal. f_equal.
      * destruct (sole l); unfold u8; cbn [length]; zdm.
      * destruct s as [ps ds pl rl nb op oc mc]. cbn [fst]. rewrite !src_count_cons. cbn [snd].
        change (pbuf_get_allocsrc (b <| pb_ref := u8 (pb_ref b - 1) |>)) with (pbuf_get_allocsrc b).
        change (src_count ?x []) with 0. store_eq. by rewrite delete_insert_eq.
    + pose proof (chain_nodup (pbs s) q ((q, b) :: l)) as Hn. cbn in Hn. apply NoDup_cons in Hn as [? _]; done.
  - unfold after_free, shared, src_count. cbn [sole snd]. rewrite E1. destruct s as [ps ds pl rl nb op oc mc].
    cbn [drop length dels drop_ref filter list_filter fmap list_fmap]. unfold ret. do 2 f_equal. store_eq.
Qed.

Definition releasable (l : list (Z * pbuf)) : Prop := Forall (fun x => known_src (snd x) /\ 0 <= pb_ref (snd x) < 256) l.
Lemma pbuf_free_run s p l : chain (pbs s) p l -> releasable l ->
  pbuf_free p s = Ok (u8 (Z.of_nat (length (sole l))), after_free s l).
Proof.
  intros Hc Hr. pose proof (chain_size _ _ _ Hc) as Hs. pose proof (free_loop_run l s p (S (size (pbs s))) 0 Hc Hr ltac:(lia)) as E.
  replace (match sole l with [] => 0 | _ => _ end) with (u8 (Z.of_nat (length (sole l)))) in E by (by destruct (sole l)).
  unfold pbuf_free. destruct (p =? NULL) eqn:Ep; [|exact E]. cbn [free_loop] in E. by rewrite Ep in E.
Qed.

(** ** pbuf_alloc *)

(** Block numbers from [next_blk] on are unused. *)
Record store_ok (s : lmem) : Prop := {
  so_next : 0 < next_blk s;
  so_pbs : forall k, next_blk s <= k -> pbs s !! k = None;
  so_dat : forall k, next_blk s <= k -> dat s !! k = None;
  so_pool : 0 <= pool_left s
}.

Lemma chain_link h p l1 r b b' t l2 :
  chain h p (l1 ++ [(r, b)]) -> chain h t l2 -> pb_next b' = t -> r ∉ l1.*1 -> r ∉ l2.*1 ->
  chain (<[r := b']> h) p (l1 ++ (r, b') :: l2).
Proof.
  revert p; induction l1 as [|[x c] l1 IH]; intros p H1 H2 Hn Hr1 Hr2; cbn in *.
  - destruct H1 as (-> & Hr & Hb & _). split; [done|]. split; [done|]. split; [apply lookup_insert_eq|].
    rewrite Hn. by apply chain_insert.
  - destruct H1 as (-> & Hx & Hc & H1). apply not_elem_of_cons in Hr1 as [Hne Hr1]. split; [done|]. split; [done|].
    split; [by rewrite lookup_insert_ne|by apply IH].
Qed.

(** Totals of the front of a packet that [rem] more bytes will follow. *)
Fixpoint totals_rem (l : list (Z * pbuf)) (rem : Z) : Prop :=
  match l with [] => True | x :: l' => pb_tot_len (snd x) = sum_len l + rem /\ totals_rem l' rem end.
Lemma totals_rem_0 l : totals_rem l 0 -> totals l.
Proof. induction l as [|x l IH]; [done|]. intros [H1 H2]. split; [lia|by apply IH]. Qed.
Lemma sum_len_app l1 l2 : sum_len (l1 ++ l2) = sum_len l1 + sum_len l2.
Proof. induction l1 as [|x l1 IH]; cbn [app sum_len]; lia. Qed.
Lemma totals_rem_app l1 l2 rem : totals_rem (l1 ++ l2) rem <-> totals_rem l1 (sum_len l2 + rem) /\ totals_rem l2 rem.
Proof.
  induction l1 as [|x l1 IH]; cbn [app totals_rem]; [tauto|]. rewrite IH. cbn [sum_len]. rewrite sum_len_app.
  split; intros [A B]; (split; [|tauto]); [split; [lia|tauto]|destruct A; lia].
Qed.

Definition pool_type : Z := u8 (type_bits PBUF_POOL).
(** A cell the pool has just handed out for [off] bytes of headroom. *)
Definition pool_cell (x : Z * pbuf) : Prop :=
  pb_type (snd x) = pool_type /\ pb_ref (snd x) = 1 /\ pblk (pb_payload (snd x)) = fst x /\
  0 <= poff (pb_payload (snd x)) /\ 0 <= pb_len (snd x) /\ poff (pb_payload (snd x)) + pb_len (snd x) <= PBUF_POOL_BUFSIZE_ALIGNED.

(** The store after taking the cells [l] from the pool for the front of a packet
    of [total] bytes behind [off] bytes of headroom, [rem] bytes being open. *)
Record pool_inv `{PbufEnv} (s0 s : lmem) (p : Z) (l : list (Z * pbuf)) (off total rem : Z) : Prop := {
  pi_chain : chain (pbs s) p l;
  pi_keys : l.*1 = seqZ (next_blk s0) (Z.of_nat (length l));
  pi_cells : Forall pool_cell l;
  pi_sum : sum_len l + rem = total;
  pi_totals : totals_rem l rem;
  pi_pbs : forall k, k ∉ l.*1 -> pbs s !! k = pbs s0 !! k;
  pi_dat : forall k, dat s !! k = if decide (k ∈ l.*1) then Some (stale_bytes k (Z.to_nat PBUF_POOL_BUFSIZE_ALIGNED)) else dat s0 !! k;
  pi_rest : s = s0 <| pbs := pbs s |> <| dat := dat s |> <| pool_left := pool_left s0 - Z.of_nat (length l) |>
              <| next_blk := next_blk s0 + Z.of_nat (length l) |>;
  pi_full : l <> [] -> 0 < rem -> total - rem + off = PBUF_POOL_BUFSIZE_ALIGNED * Z.of_nat (length l);
  pi_last : l <> [] -> rem = 0 -> total + off <= PBUF_POOL_BUFSIZE_ALIGNED * Z.of_nat (length l) /\
              (length l = 1%nat \/ PBUF_POOL_BUFSIZE_ALIGNED * (Z.of_nat (length l) - 1) < total + off);
  pi_head : forall q b l', l = (q, b) :: l' ->
              poff (pb_payload b) = off /\ pb_len b = Z.min total (PBUF_POOL_BUFSIZE_ALIGNED - off) /\
              Forall (fun x => poff (pb_payload (snd x)) = 0) l'
}.

Lemma fst_snoc_link {A B} (l : list (A * B)) r b b' : (l ++ [(r, b')]).*1 = (l ++ [(r, b)]).*1.
Proof. by rewrite !fmap_app. Qed.

Section Alloc.
Context `{PbufEnv}.

Lemma length_stale b n : length (stale_bytes b n) = n.
Proof. unfold stale_bytes. by rewrite length_map, length_seq. Qed.

Lemma memp_malloc_pool_run {B} s (k : Z -> M lmem B) : 0 < pool_left s ->
  bind memp_malloc_pool k s = k (next_blk s) (s <| pool_left := pool_left s - 1 |>
    <| dat := <[next_blk s := stale_bytes (next_blk s) (Z.to_nat PBUF_POOL_BUFSIZE_ALIGNED)]> (dat s) |> <| next_blk := next_blk s + 1 |>).
Proof.
  intros Hl. unfold memp_malloc_pool, bind at 1 2, gets. rewrite (proj2 (Z.eqb_neq _ _)) by lia. done.
Qed.

Definition taken (s : lmem) (h : gmap Z pbuf) : lmem :=
  s <| pool_left := pool_left s - 1 |>
    <| dat := <[next_blk s := stale_bytes (next_blk s) (Z.to_nat PBUF_POOL_BUFSIZE_ALIGNED)]> (dat s) |> <| next_blk := next_blk s + 1 |>
    <| pbs := h |>.
Definition fresh_cell (q cur rem : Z) : pbuf :=
  mk_pbuf NULL (mk_ptr q cur) rem (Z.min rem (PBUF_POOL_BUFSIZE_ALIGNED - cur)) pool_type 0 1 NETIF_NO_INDEX.

Lemma fresh_pool_cell q cur rem : 0 <= cur <= PBUF_POOL_BUFSIZE_ALIGNED -> 0 <= rem -> pool_cell (q, fresh_cell q cur rem).
Proof. intros Hc Hr. unfold pool_cell. cbn [snd fst fresh_cell pb_type pb_ref pb_payload pblk poff pb_len]. repeat split; lia. Qed.

(** The first turn of the loop, with an element in the pool. *)
Lemma pool_inv_first s off total : store_ok s -> 0 <= off < PBUF_POOL_BUFSIZE_ALIGNED -> 0 <= total ->
  pool_inv s (taken s (<[next_blk s := fresh_cell (next_blk s) off total]> (pbs s))) (next_blk s)
    [(next_blk s, fresh_cell (next_blk s) off total)] off total (total - pb_len (fresh_cell (next_blk s) off total)).
Proof.
  intros Hs Ho Ht. pose proof (so_next _ Hs) as Hn. set (b := fresh_cell (next_blk s) off total).
  assert (pb_len b = Z.min total (PBUF_POOL_BUFSIZE_ALIGNED - off)) as Hb by done. split.
  - split; [done|]. split; [unfold NULL; lia|]. split; [apply lookup_insert_eq|done].
  - done.
  - constructor; [|constructor]. apply fresh_pool_cell; lia.
  - cbn [sum_len snd]. lia.
  - split; [|done]. cbn [sum_len snd]. change (pb_tot_len b) with total. lia.
  - intros k Hk. apply lookup_insert_ne. intros <-. apply Hk. cbn. set_solver.
  - intros k. change (dat (taken _ _)) with (<[next_blk s := stale_bytes (next_blk s) (Z.to_nat PBUF_POOL_BUFSIZE_ALIGNED)]> (dat s)).
    cbn [fmap list_fmap fst]. case_decide as D.
    + apply list_elem_of_singleton in D as ->. by rewrite lookup_insert_eq.
    + apply lookup_insert_ne. set_solver.
  - unfold taken. destruct s. store_eq.
  - intros _ Hr. cbn [length]. lia.
  - intros _ Hr. cbn [length]. lia.
  - intros q c l' [= <- <- <-]. split; [done|]. split; [done|constructor].
Qed.

(** A later one: the new cell is linked from the last. *)
Lemma pool_inv_next s0 s l r bl off total rem :
  pool_inv s0 s (next_blk s0) (l ++ [(r, bl)]) off total rem -> store_ok s0 -> 0 < rem ->
  let b := fresh_cell (next_blk s) 0 rem in
  pool_inv s0 (taken s (<[r := bl <| pb_next := next_blk s |>]> (<[next_blk s := b]> (pbs s)))) (next_blk s0)
    ((l ++ [(r, bl <| pb_next := next_blk s |>)]) ++ [(next_blk s, b)]) off total (rem - pb_len b).
Proof.
  intros [Hc Hk Hcl Hsum Htot Hpb Hdt Hre Hfu Hla Hhd] Hs Hr b. pose proof (so_next _ Hs) as Hn.
  set (n := Z.of_nat (length (l ++ [(r, bl)]))) in *.
  assert (next_blk s = next_blk s0 + n) as Hq by (by rewrite Hre). assert (0 < n) as Hn0 by (subst n; rewrite length_app; cbn; lia).
  assert (pb_len b = Z.min rem PBUF_POOL_BUFSIZE_ALIGNED) as Hb by (subst b; cbn [fresh_cell pb_len]; lia).
  assert (next_blk s ∉ (l ++ [(r, bl)]).*1) as Hqn by (rewrite Hk; intros ?%elem_of_seqZ; lia).
  pose proof (chain_nodup _ _ _ Hc) as Hnd. rewrite fmap_app in Hnd, Hqn. cbn in Hnd, Hqn.
  assert (r ∉ l.*1) as Hrl by (apply NoDup_app in Hnd as (_ & Hd & _); intros Hin; by apply (Hd r Hin), list_elem_of_singleton).
  assert (((l ++ [(r, bl <| pb_next := next_blk s |>)]) ++ [(next_blk s, b)]).*1 = (l ++ [(r, bl)]).*1 ++ [next_blk s]) as Hkeys
    by (by rewrite !fmap_app).
  assert (length ((l ++ [(r, bl <| pb_next := next_blk s |>)]) ++ [(next_blk s, b)]) = S (length (l ++ [(r, bl)]))) as Hlen
    by (rewrite !length_app; cbn; lia).
  specialize (Hfu ltac:(by destruct l) Hr). split; rewrite ?Hkeys, ?Hlen, ?Nat2Z.inj_succ; fold n.
  - rewrite <- app_assoc. eapply (chain_link _ _ l r bl _ (next_blk s)).
    + apply chain_insert; [done|by rewrite fmap_app].
    + split; [done|]. split; [unfold NULL; lia|]. split; [apply lookup_insert_eq|done].
    + done.
    + done.
    + cbn. set_solver.
  - rewrite Hk, Hq. replace (Z.succ n) with (n + 1) by lia. by rewrite seqZ_app by lia.
  - apply Forall_app in Hcl as [Hcl Hcr]. repeat apply Forall_app_2; [done| |].
    + constructor; [|constructor]. by apply Forall_cons in Hcr as [? _].
    + constructor; [|constructor]. apply fresh_pool_cell; [vm_compute; split; discriminate|lia].
  - rewrite !sum_len_app in *. cbn [sum_len snd] in *. change (pb_len (bl <| pb_next := next_blk s |>)) with (pb_len bl). lia.
  - apply totals_rem_app in Htot as [T1 T2]. rewrite <- app_assoc, totals_rem_app. cbn [app totals_rem sum_len snd] in *.
    change (pb_len (bl <| pb_next := next_blk s |>)) with (pb_len bl). change (pb_tot_len (bl <| pb_next := next_blk s |>)) with (pb_tot_len bl).
    change (pb_tot_len b) with rem. split; [|split; [lia|split; [lia|done]]].
    replace (_ + _) with (pb_len bl + 0 + rem) by lia. done.
  - intros k [Hk1 Hk2]%not_elem_of_app. change (pbs (taken _ ?h)) with h.
    rewrite fmap_app in Hk1. rewrite !lookup_insert_ne by (cbn in *; set_solver). apply Hpb. by rewrite fmap_app.
  - intros k. change (dat (taken _ _)) with (<[next_blk s := stale_bytes (next_blk s) (Z.to_nat PBUF_POOL_BUFSIZE_ALIGNED)]> (dat s)).
    destruct (decide (k = next_blk s)) as [->|Hne].
    + rewrite lookup_insert_eq, decide_True by set_solver. done.
    + rewrite lookup_insert_ne, Hdt by done. repeat case_decide; try done; set_solver.
  - rewrite Hre. unfold taken. fold n. destruct s, s0. store_eq.
  - intros _ Hr'. lia.
  - intros _ Hr'. lia.
  - intros q c l' Hl'. destruct l as [|[q0 c0] l]; cbn in Hl'; injection Hl' as <- <- <-.
    + destruct (Hhd _ _ [] eq_refl) as (H1 & H2 & _). split; [done|]. split; [done|]. by repeat constructor.
    + destruct (Hhd _ _ (l ++ [(r, bl)]) eq_refl) as (H1 & H2 & H3). split; [done|]. split; [done|]. apply Forall_app in H3 as [H3 H4].
      apply Forall_cons in H4 as [H4 _]. repeat apply Forall_app_2; [done|by repeat constructor|by repeat constructor].
Qed.

Definition abandon : Z -> M lmem Z := fun p => pbuf_pool_is_empty ;;; (if p =? NULL then ret 0 else pbuf_free p) ;;; ret NULL.

(** A turn takes an element of the pool, or the packet is given up. *)
Lemma pool_turn s fuel off rem p r : 0 < pool_left s -> 0 <= off < PBUF_POOL_BUFSIZE_ALIGNED -> LWIP_MEM_ALIGN_SIZE off = off ->
  0 < next_blk s -> 0 <= rem < 65536 -> (p = NULL \/ r <> NULL /\ r <> next_blk s) ->
  forall bl, p <> NULL -> pbs s !! r = Some bl ->
  let b := fresh_cell (next_blk s) off rem in
  pool_loop (S fuel) off rem p r s =
    (if 0 <? rem - pb_len b then pool_loop fuel 0 (rem - pb_len b) p (next_blk s) else ret p)
      (taken s (<[r := bl <| pb_next := next_blk s |>]> (<[next_blk s := b]> (pbs s)))).
Proof.
  intros Hp Ho Ha Hn Hr Hpr bl Hp0 Hbl b. cbn [pool_loop]. rewrite memp_malloc_pool_run by done.
  rewrite (proj2 (Z.eqb_neq _ _)) by (unfold NULL; lia). rewrite Ha. destruct Hpr as [|[Hr0 Hrq]]; [done|].
  assert (0 < PBUF_POOL_BUFSIZE_ALIGNED < 65536) as HB by (vm_compute; done). rewrite u16_id by lia.
  unfold pbuf_init_alloced_pbuf, setp. rewrite (bind_run _ _ _ _ _ eq_refl). rewrite (proj2 (Z.eqb_neq _ _) Hp0).
  rewrite (updp_run _ _ bl) by (try done; fields; by rewrite lookup_insert_ne).
  change (Z.min rem (PBUF_POOL_BUFSIZE_ALIGNED - off)) with (pb_len b).
  assert (pb_len b = Z.min rem (PBUF_POOL_BUFSIZE_ALIGNED - off)) as Hb by done. rewrite u16_id by lia. by destruct s.
Qed.

Lemma pool_turn_first s fuel off rem : 0 < pool_left s -> 0 <= off < PBUF_POOL_BUFSIZE_ALIGNED -> LWIP_MEM_ALIGN_SIZE off = off ->
  0 < next_blk s -> 0 <= rem < 65536 ->
  let b := fresh_cell (next_blk s) off rem in
  pool_loop (S fuel) off rem NULL NULL s =
    (if 0 <? rem - pb_len b then pool_loop fuel 0 (rem - pb_len b) (next_blk s) (next_blk s) else ret (next_blk s))
      (taken s (<[next_blk s := b]> (pbs s))).
Proof.
  intros Hp Ho Ha Hn Hr b. cbn [pool_loop]. rewrite memp_malloc_pool_run by done.
  rewrite (proj2 (Z.eqb_neq _ _)) by (unfold NULL; lia). rewrite Ha.
  assert (0 < PBUF_POOL_BUFSIZE_ALIGNED < 65536) as HB by (vm_compute; done). rewrite u16_id by lia.
  unfold pbuf_init_alloced_pbuf, setp. rewrite (bind_run _ _ _ _ _ eq_refl). cbn [Z.eqb NULL].
  change (Z.min rem (PBUF_POOL_BUFSIZE_ALIGNED - off)) with (pb_len b).
  assert (pb_len b = Z.min rem (PBUF_POOL_BUFSIZE_ALIGNED - off)) as Hb by done. rewrite u16_id by lia. by destruct s.
Qed.

Lemma pool_loop_run fuel : forall s s0 l r bl off total rem,
  pool_inv s0 s (next_blk s0) (l ++ [(r, bl)]) off total rem -> store_ok s0 -> 0 < rem < 65536 -> rem <= Z.of_nat fuel -> 0 <= pool_left s ->
  (exists l' s', pool_loop fuel 0 rem (next_blk s0) r s = Ok (next_blk s0, s') /\ pool_inv s0 s' (next_blk s0) l' off total 0 /\ l' <> [] /\ 0 <= pool_left s') \/
  (exists l' s' rem', pool_loop fuel 0 rem (next_blk s0) r s = abandon (next_blk s0) s' /\
     pool_inv s0 s' (next_blk s0) l' off total rem' /\ pool_left s' = 0 /\ l' <> [] /\ 0 < rem').
Proof.
  induction fuel as [|fuel IH]; intros s s0 l r bl off total rem Hi Hs Hr Hf Hp0; [lia|].
  pose proof (so_next _ Hs) as Hn. pose proof (pi_rest _ _ _ _ _ _ _ Hi) as Hre.
  assert (pool_left s = pool_left s0 - Z.of_nat (length (l ++ [(r, bl)]))) as Hpl by (by rewrite Hre).
  assert (next_blk s = next_blk s0 + Z.of_nat (length (l ++ [(r, bl)]))) as Hnb by (by rewrite Hre).
  destruct (Z_lt_le_dec 0 (pool_left s)) as [Hp|Hp].
  - pose proof (pool_inv_next _ _ _ _ _ _ _ _ Hi Hs ltac:(lia)) as Hi'. cbv zeta in Hi'.
    assert (pbs s !! r = Some bl /\ r <> NULL /\ r < next_blk s) as (Hbl & Hr0 & Hrn).
    { pose proof (chain_app _ _ _ _ _ _ (pi_chain _ _ _ _ _ _ _ Hi)) as (_ & ? & ? & _). split; [done|]. split; [done|].
      assert (r ∈ (l ++ [(r, bl)]).*1) as Hin by (rewrite fmap_app; set_solver). rewrite (pi_keys _ _ _ _ _ _ _ Hi) in Hin.
      apply elem_of_seqZ in Hin. lia. }
    rewrite (pool_turn _ _ _ _ _ _ Hp) with (bl := bl); try done; try (unfold NULL; lia); [|right; split; [done|lia]].
    set (b := fresh_cell (next_blk s) 0 rem) in *. assert (pb_len b = Z.min rem PBUF_POOL_BUFSIZE_ALIGNED) as Hb by (subst b; cbn [fresh_cell pb_len]; lia).
    assert (0 < PBUF_POOL_BUFSIZE_ALIGNED) as HB by done. destruct (0 <? rem - pb_len b) eqn:E.
    + apply Z.ltb_lt in E. by apply (IH _ s0 _ _ _ _ _ _ Hi' Hs); cbn; lia.
    + apply Z.ltb_ge in E. left. eexists _, _. split; [reflexivity|]. replace (rem - pb_len b) with 0 in Hi' by lia. split; [exact Hi'|]. split; [by destruct l|]. cbn. lia.
  - right. assert (pool_left s = 0) as E0 by lia.
    exists (l ++ [(r, bl)]), s, rem. split; [|split; [done|split; [done|split; [by destruct l|lia]]]].
    cbn [pool_loop]. unfold memp_malloc_pool. rewrite bind_assoc. unfold bind at 1, gets. by rewrite E0.
Qed.

Lemma sole_all l : Forall pool_cell l -> sole l = l.
Proof.
  intros Hl. induction Hl as [|x l (_ & Hr & _) Hl IH]; [done|]. cbn [sole]. by rewrite Hr, IH.
Qed.
Lemma pool_src x : pool_cell x -> pbuf_get_allocsrc (snd x) = PBUF_TYPE_ALLOC_SRC_MASK_STD_MEMP_PBUF_POOL.
Proof. intros (Ht & _). unfold pbuf_get_allocsrc. by rewrite Ht. Qed.
Lemma pool_src_counts l : Forall pool_cell l ->
  src_count PBUF_TYPE_ALLOC_SRC_MASK_STD_MEMP_PBUF_POOL l = Z.of_nat (length l) /\ src_count PBUF_TYPE_ALLOC_SRC_MASK_STD_MEMP_PBUF l = 0.
Proof.
  intros Hl. induction Hl as [|x l Hx Hl [IH1 IH2]]; [done|]. rewrite !src_count_cons, (pool_src _ Hx), IH1, IH2. cbn [length]. cbn -[Z.of_nat]. lia.
Qed.
Lemma pool_releasable l : Forall pool_cell l -> releasable l.
Proof.
  intros Hl. eapply Forall_impl; [exact Hl|]. intros x Hx. pose proof (pool_src _ Hx) as E. destruct Hx as (_ & -> & _).
  split; [by left|lia].
Qed.

(** Releasing a packet of the pool restores the store. *)
Lemma after_free_pool s0 s p l off total rem : pool_inv s0 s p l off total rem -> store_ok s0 ->
  after_free s l = s0 <| next_blk := next_blk s |>.
Proof.
  intros Hi Hs. pose proof (pi_keys _ _ _ _ _ _ _ Hi) as Hk. destruct (pool_src_counts _ (pi_cells _ _ _ _ _ _ _ Hi)) as [C1 C2].
  unfold after_free, shared. rewrite (sole_all _ (pi_cells _ _ _ _ _ _ _ Hi)), C1, C2, drop_all. cbn [drop_ref].
  assert (dels (pbs s) l.*1 = pbs s0) as ->.
  { apply map_eq; intros k. rewrite lookup_dels. case_decide as D; [|by apply (pi_pbs _ _ _ _ _ _ _ Hi)].
    rewrite Hk in D. apply elem_of_seqZ in D. symmetry. apply (so_pbs _ Hs). lia. }
  assert (dels (dat s) l.*1 = dat s0) as ->.
  { apply map_eq; intros k. rewrite lookup_dels, (pi_dat _ _ _ _ _ _ _ Hi). case_decide as D; [|done].
    rewrite Hk in D. apply elem_of_seqZ in D. symmetry. apply (so_dat _ Hs). lia. }
  rewrite (pi_rest _ _ _ _ _ _ _ Hi). destruct s0. store_eq.
Qed.

(** The request to the TCP layer when the pool is empty: not twice at a time. *)
Definition out_of_pool (s : lmem) : lmem :=
  if ooseq_pending s then s else s <| ooseq_pending := callback_ok |> <| ooseq_calls := ooseq_calls s + 1 |>.
Lemma pbuf_pool_is_empty_run s : pbuf_pool_is_empty s = Ok (tt, out_of_pool s).
Proof.
  unfold pbuf_pool_is_empty, out_of_pool, bind, gets, modify, ret. destruct s as [ps ds pl rl nb op oc mc]. fields.
  destruct op; [done|]. fields. by destruct callback_ok.
Qed.
Lemma out_of_pool_frame s : pbs (out_of_pool s) = pbs s /\ dat (out_of_pool s) = dat s /\ pool_left (out_of_pool s) = pool_left s /\
  next_blk (out_of_pool s) = next_blk s.
Proof. unfold out_of_pool. by destruct (ooseq_pending s). Qed.

(** The elements of the pool that a packet needs. *)
Definition pool_segments (off total : Z) : Z :=
  Z.max 1 ((total + off + PBUF_POOL_BUFSIZE_ALIGNED - 1) / PBUF_POOL_BUFSIZE_ALIGNED).

Lemma abandon_run s0 s p l off total rem : pool_inv s0 s p l off total rem -> store_ok s0 ->
  abandon p s = Ok (NULL, out_of_pool (s0 <| next_blk := next_blk s |>)).
Proof.
  intros Hi Hs. unfold abandon. rewrite (bind_run _ _ _ _ _ (pbuf_pool_is_empty_run s)).
  destruct (out_of_pool_frame s) as (Ep & _). pose proof (pi_chain _ _ _ _ _ _ _ Hi) as Hc.
  pose proof (pbuf_free_run (out_of_pool s) p l ltac:(by rewrite Ep) (pool_releasable _ (pi_cells _ _ _ _ _ _ _ Hi))) as E.
  assert (after_free (out_of_pool s) l = out_of_pool (after_free s l)) as E'.
  { unfold after_free, out_of_pool. destruct s as [ps ds pl rl nb op oc mc]. fields. by destruct op. }
  rewrite <- (after_free_pool _ _ _ _ _ _ _ Hi Hs), <- E'. destruct (p =? NULL) eqn:E0; [|by rewrite (bind_run _ _ _ _ _ E)].
  unfold pbuf_free in E. rewrite E0 in E. unfold ret in E. assert (out_of_pool s = after_free (out_of_pool s) l) as <- by congruence. done.
Qed.

Definition layers : list Z := [PBUF_TRANSPORT; PBUF_IP; PBUF_LINK; PBUF_RAW].
Lemma layer_bounds off : off ∈ layers -> 0 <= off < PBUF_POOL_BUFSIZE_ALIGNED /\ LWIP_MEM_ALIGN_SIZE off = off /\ u16 off = off.
Proof. intros Hl. repeat (apply elem_of_cons in Hl as [->|Hl]; [by vm_compute|]). by apply not_elem_of_nil in Hl. Qed.

Lemma pbuf_alloc_pool_run s off total : store_ok s -> off ∈ layers -> 0 <= total < 65536 ->
  (pool_segments off total <= pool_left s /\
   exists l s', pbuf_alloc off total PBUF_POOL s = Ok (next_blk s, s') /\ pool_inv s s' (next_blk s) l off total 0 /\
     Z.of_nat (length l) = pool_segments off total) \/
  (pool_left s < pool_segments off total /\
   pbuf_alloc off total PBUF_POOL s = Ok (NULL, out_of_pool (s <| next_blk := next_blk s + pool_left s |>))).
Proof.
  intros Hs Hl Ht. destruct (layer_bounds _ Hl) as (Ho & Ha & Hu). unfold pbuf_alloc. rewrite Hu. pose proof (so_next _ Hs) as Hn.
  assert (0 < PBUF_POOL_BUFSIZE_ALIGNED) as HB by done. assert (forall n, n = pool_segments off total <->
    1 <= n /\ total + off <= PBUF_POOL_BUFSIZE_ALIGNED * n /\ (n = 1 \/ PBUF_POOL_BUFSIZE_ALIGNED * (n - 1) < total + off)) as Hseg.
  { intros n. unfold pool_segments. change PBUF_POOL_BUFSIZE_ALIGNED with 1516 in *. zdm. }
  destruct (Z.eq_dec (pool_left s) 0) as [E0|E0].
  { right. split; [unfold pool_segments; lia|]. cbn [pool_loop]. unfold memp_malloc_pool. rewrite bind_assoc. unfold bind at 1, gets.
    rewrite E0, Z.eqb_refl, bind_ret, Z.eqb_refl. rewrite (bind_run _ _ _ _ _ (pbuf_pool_is_empty_run s)). rewrite Z.add_0_r. by destruct s. }
  pose proof (so_pool _ Hs) as Hp0. rewrite pool_turn_first by (done || lia). set (b := fresh_cell _ _ _).
  pose proof (pool_inv_first s off total Hs Ho ltac:(lia)) as Hi. fold b in Hi.
  assert (pb_len b = Z.min total (PBUF_POOL_BUFSIZE_ALIGNED - off)) as Hb by done. destruct (0 <? total - pb_len b) eqn:E.
  - apply Z.ltb_lt in E. destruct (pool_loop_run (Z.to_nat total) _ s [] _ _ _ _ _ Hi Hs) as [(l & s' & R & I & Hne & Hpl)|(l & s' & rem & R & I & Hz & Hne & Hr)];
      [lia|lia|cbn; lia| |].
    + left. pose proof (pi_last _ _ _ _ _ _ _ I Hne eq_refl) as HL. assert (Z.of_nat (length l) = pool_segments off total) as HS.
      { apply Hseg. destruct l; [done|]. cbn [length] in *. lia. }
      split; [|exists l, s'; by rewrite R].
      assert (pool_left s' = pool_left s - Z.of_nat (length l)) by (by rewrite (pi_rest _ _ _ _ _ _ _ I)). lia.
    + right. rewrite R, (abandon_run _ _ _ _ _ _ _ I Hs). pose proof (pi_full _ _ _ _ _ _ _ I Hne Hr) as HF.
      assert (pool_left s' = pool_left s - Z.of_nat (length l)) by (by rewrite (pi_rest _ _ _ _ _ _ _ I)).
      assert (next_blk s' = next_blk s + Z.of_nat (length l)) as -> by (by rewrite (pi_rest _ _ _ _ _ _ _ I)).
      split; [|by replace (Z.of_nat (length l)) with (pool_left s) by lia].
      destruct (proj1 (Hseg _) eq_refl) as (_ & HS & _). pose proof (pi_sum _ _ _ _ _ _ _ I). nia.
  - apply Z.ltb_ge in E. left. replace (total - pb_len b) with 0 in Hi by lia. pose proof (pi_last _ _ _ _ _ _ _ Hi ltac:(done) eq_refl) as HL.
    assert (1 = pool_segments off total) as HS by (apply Hseg; cbn [length] in HL; lia). split; [lia|]. eexists _, _. split; [reflexivity|].
    split; [exact Hi|]. by rewrite <- HS.
Qed.

Lemma pool_inv_packet s0 s p l off total : pool_inv s0 s p l off total 0 -> total < 65536 -> packet s p l /\ owned l /\ sum_len l = total.
Proof.
  intros Hi Ht. pose proof (pi_sum _ _ _ _ _ _ _ Hi) as Hsum. pose proof (pi_chain _ _ _ _ _ _ _ Hi) as Hc. split; [split|split].
  - done.
  - apply Forall_forall. intros [q b] Hx. destruct (proj1 (Forall_forall _ _) (pi_cells _ _ _ _ _ _ _ Hi) _ Hx) as (_ & _ & Hb & H0 & H1 & H2).
    cbn [fst snd] in *. split; [done|]. exists (stale_bytes q (Z.to_nat PBUF_POOL_BUFSIZE_ALIGNED)).
    rewrite Hb, (pi_dat _ _ _ _ _ _ _ Hi), decide_True by (apply list_elem_of_fmap; by exists (q, b)). split; [done|]. rewrite length_stale. lia.
  - apply totals_rem_0, (pi_totals _ _ _ _ _ _ _ Hi).
  - lia.
  - unfold owned. replace (blocks l) with l.*1; [by eapply chain_nodup|]. symmetry. apply Forall_fmap_ext_1.
    eapply Forall_impl; [apply (pi_cells _ _ _ _ _ _ _ Hi)|]. by intros x (_ & _ & Hb & _).
  - lia.
Qed.

Lemma align_size len : 0 <= len < 65536 -> len <= LWIP_MEM_ALIGN_SIZE len < 65540.
Proof. intros Hl. unfold LWIP_MEM_ALIGN_SIZE, MEM_ALIGNMENT. rewrite u32_id by lia. Z.div_mod_to_equations. lia. Qed.

(** One cell with its own memory. *)
Definition ram_cell (q off len : Z) : pbuf := mk_pbuf NULL (mk_ptr q off) len len (u8 (type_bits PBUF_RAM)) 0 1 NETIF_NO_INDEX.
Definition ram_store (s : lmem) (off len : Z) : lmem :=
  s <| mallocs := S (mallocs s) |>
    <| dat := <[next_blk s := stale_bytes (next_blk s) (Z.to_nat (off + LWIP_MEM_ALIGN_SIZE len))]> (dat s) |>
    <| next_blk := next_blk s + 1 |> <| pbs := <[next_blk s := ram_cell (next_blk s) off len]> (pbs s) |>.

Lemma pbuf_alloc_ram_run s off len : store_ok s -> off ∈ layers -> 0 <= len < 65536 ->
  pbuf_alloc off len PBUF_RAM s =
    if mem_gives (mallocs s) then Ok (next_blk s, ram_store s off len) else Ok (NULL, s <| mallocs := S (mallocs s) |>).
Proof.
  intros Hs Hl Ht. destruct (layer_bounds _ Hl) as (Ho & Ha & Hu). unfold pbuf_alloc. rewrite Hu, Ha. pose proof (so_next _ Hs) as Hn.
  pose proof (align_size _ Ht) as Hal.
  change (LWIP_MEM_ALIGN_SIZE SIZEOF_STRUCT_PBUF) with 16. change PBUF_POOL_BUFSIZE_ALIGNED with 1516 in Ho.
  rewrite !u32_id; rewrite ?u32_id; try lia. rewrite !(proj2 (Z.ltb_ge _ _)) by lia. cbn [orb].
  unfold mem_malloc. rewrite !bind_assoc. unfold bind at 1, gets. rewrite bind_assoc. unfold bind at 1, modify.
  destruct (mem_gives (mallocs s)); [|done]. unfold new_block, bind at 1.
  assert ((next_blk s =? NULL) = false) as En by (apply Z.eqb_neq; unfold NULL; lia). destruct s as [ps ds pl rl nb op oc mc]. cbn [next_blk] in En. fields. by rewrite En.
Qed.

Lemma ram_packet s off len : store_ok s -> off ∈ layers -> 0 <= len < 65536 ->
  packet (ram_store s off len) (next_blk s) [(next_blk s, ram_cell (next_blk s) off len)].
Proof.
  intros Hs Hl Ht. pose proof (so_next _ Hs) as Hn. destruct (layer_bounds _ Hl) as (Ho & _). split.
  - split; [done|]. split; [unfold NULL; lia|]. split; [apply lookup_insert_eq|done].
  - constructor; [|constructor]. cbn [snd]. split; [cbn; lia|]. eexists. split; [apply lookup_insert_eq|]. rewrite length_stale. cbn [ram_cell pb_payload poff pb_len].
    pose proof (align_size _ Ht). lia.
  - cbn. lia.
  - cbn. lia.
Qed.
End Alloc.

(** ** Headers *)

(** The first cell with its payload moved by [n] bytes. *)
Definition moved (b : pbuf) (n : Z) : pbuf :=
  b <| pb_payload := ptr_add (pb_payload b) n |> <| pb_len := pb_len b - n |> <| pb_tot_len := pb_tot_len b - n |>.
Definition put_cell (s : lmem) (p : Z) (b : pbuf) : lmem := s <| pbs := <[p := b]> (pbs s) |>.
Lemma moved_0 b : moved b 0 = b.
Proof. destruct b as [? [] ? ? ? ? ? ?]. unfold moved, ptr_add. fields. cbn. f_equal; [f_equal; lia|lia|lia]. Qed.
Lemma put_cell_id s p b : pbs s !! p = Some b -> put_cell s p b = s.
Proof. intros Hb. unfold put_cell. rewrite insert_id by done. by destruct s. Qed.
Lemma moved_moved b m n : moved (moved b m) n = moved b (m + n).
Proof. destruct b as [? [] ? ? ? ? ? ?]. unfold moved, ptr_add. fields. cbn. f_equal; [f_equal; lia|lia|lia]. Qed.

Lemma packet_moved s p b l n : packet s p ((p, b) :: l) -> cell_ok (dat s) (moved b n) -> sum_len ((p, b) :: l) - n < 65536 ->
  packet (put_cell s p (moved b n)) p ((p, moved b n) :: l).
Proof.
  intros Hp Hc Hl. destruct (packet_head _ _ _ _ _ Hp) as (_ & Hq & Hb & _ & Ht & _). destruct Hp as [Hch Ho Hto Hle].
  pose proof (chain_nodup _ _ _ Hch) as Hnd. cbn in Hnd. apply NoDup_cons in Hnd as [Hni _]. destruct Hch as (_ & _ & _ & Hch).
  apply Forall_cons in Ho as [_ Ho]. destruct Hto as [_ Hto]. cbn [sum_len snd] in *. split.
  - split; [done|]. split; [done|]. split; [apply lookup_insert_eq|]. by apply chain_insert.
  - by constructor.
  - split; [|done]. cbn [sum_len snd]. change (pb_tot_len (moved b n)) with (pb_tot_len b - n). change (pb_len (moved b n)) with (pb_len b - n). lia.
  - cbn [sum_len snd]. change (pb_len (moved b n)) with (pb_len b - n). lia.
Qed.

Lemma pbuf_remove_header_run s p b l n : packet s p ((p, b) :: l) -> 0 <= n <= pb_len b ->
  pbuf_remove_header p n s = Ok (0, put_cell s p (moved b n)) /\ packet (put_cell s p (moved b n)) p ((p, moved b n) :: l) /\
  content (dat s) ((p, moved b n) :: l) = drop (Z.to_nat n) (content (dat s) ((p, b) :: l)).
Proof.
  intros Hp Hn. destruct (packet_head _ _ _ _ _ Hp) as (_ & Hq & Hb & Hc & Ht & Hl & Hls).
  pose proof (pk_len _ _ _ Hp) as Hpl. cbn [sum_len snd] in Hpl.
  assert (cell_ok (dat s) (moved b n)) as Hc'.
  { destruct Hc as (H0 & c & E & H1 & H2). split; [cbn; lia|]. exists c. split; [done|]. cbn. lia. }
  split; [|split].
  - unfold pbuf_remove_header. rewrite (proj2 (Z.eqb_neq _ _) Hq), (proj2 (Z.ltb_ge _ _)) by lia. cbn [orb]. destruct (n =? 0) eqn:E.
    + apply Z.eqb_eq in E as ->. by rewrite moved_0, put_cell_id.
    + rewrite (getp_run _ _ _ _ Hq Hb). rewrite (u16_id n) by lia. rewrite (proj2 (Z.ltb_ge _ _)) by lia. rewrite !u16_id by lia. done.
  - apply packet_moved; [done|done|]. cbn [sum_len snd]. lia.
  - rewrite !content_cons. cbn [snd]. rewrite drop_app_le by (pose proof (length_cell _ _ Hc); lia). f_equal. destruct Hc as (H0 & c & E & H1 & H2).
    unfold cell_data. change (pblk (pb_payload (moved b n))) with (pblk (pb_payload b)). rewrite E.
    change (pb_len (moved b n)) with (pb_len b - n). change (poff (pb_payload (moved b n))) with (poff (pb_payload b) + n).
    rewrite skipn_firstn_comm, drop_drop. f_equal; [lia|]. f_equal. lia.
Qed.

Definition contiguous_type (b : pbuf) : Prop := nz (Z.land (pb_type b) PBUF_TYPE_FLAG_STRUCT_DATA_CONTIGUOUS) = true.

Lemma pbuf_add_header_run s p b l n : packet s p ((p, b) :: l) -> contiguous_type b -> 0 <= n <= poff (pb_payload b) ->
  sum_len ((p, b) :: l) + n < 65536 ->
  pbuf_add_header p n s = Ok (0, put_cell s p (moved b (- n))) /\ packet (put_cell s p (moved b (- n))) p ((p, moved b (- n)) :: l) /\
  drop (Z.to_nat n) (content (dat s) ((p, moved b (- n)) :: l)) = content (dat s) ((p, b) :: l).
Proof.
  intros Hp Hct Hn Hs. destruct (packet_head _ _ _ _ _ Hp) as (_ & Hq & Hb & Hc & Ht & Hl & Hls). cbn [sum_len snd] in Hs.
  assert (cell_ok (dat s) (moved b (- n))) as Hc'.
  { destruct Hc as (H0 & c & E & H1 & H2). split; [cbn; lia|]. exists c. split; [done|]. cbn. lia. }
  pose proof (packet_moved s p b l (- n) Hp Hc' ltac:(cbn [sum_len snd]; lia)) as Hp'. split; [|split; [done|]].
  - unfold pbuf_add_header, pbuf_add_header_impl. rewrite (proj2 (Z.eqb_neq _ _) Hq), (proj2 (Z.ltb_ge _ _)) by lia. cbn [orb]. destruct (n =? 0) eqn:E.
    + apply Z.eqb_eq in E as ->. change (- 0) with 0. by rewrite moved_0, put_cell_id.
    + rewrite (getp_run _ _ _ _ Hq Hb). rewrite (u16_id n), (u16_id (n + _)) by lia. rewrite (proj2 (Z.ltb_ge _ _)) by lia.
      rewrite Hct. cbn [ptr_add poff]. rewrite (proj2 (Z.ltb_ge _ _)) by (cbn; lia). rewrite !u16_id by lia.
      unfold moved. replace (pb_len b - - n) with (pb_len b + n) by lia. by replace (pb_tot_len b - - n) with (pb_tot_len b + n) by lia.
  - destruct (pbuf_remove_header_run _ _ _ _ n Hp') as (_ & _ & E); [cbn; lia|]. rewrite moved_moved in E.
    replace (- n + n) with 0 in E by lia. rewrite moved_0 in E. symmetry. exact E.
Qed.
