(* ===== verification/PbufChain.v ===== *)
(** Operations of pbuf.c that join, cut, copy and search packets. *)

From stdpp Require Import gmap.
From S2P Require Import Prelude Cmonad Cutils Heap Pbuf PbufProofs.

(** ** Rewriting the cells of a chain *)

Fixpoint puts (m : gmap Z pbuf) (l : list (Z * pbuf)) : gmap Z pbuf :=
  match l with [] => m | (q, b) :: l => puts (<[q := b]> m) l end.
(** The links of [l] lead from [p] to [e]. *)
Fixpoint linked (p : Z) (l : list (Z * pbuf)) (e : Z) : Prop :=
  match l with [] => p = e | (q, b) :: l => p = q /\ q <> NULL /\ linked (pb_next b) l e end.

Lemma lookup_puts m l k : k ∉ l.*1 -> puts m l !! k = m !! k.
Proof.
  revert m; induction l as [|[q b] l IH]; intros m Hk; [done|]. cbn in *. apply not_elem_of_cons in Hk as [Hn Hk].
  rewrite IH by done. by apply lookup_insert_ne.
Qed.
Lemma lookup_puts_in m l q b : NoDup l.*1 -> (q, b) ∈ l -> puts m l !! q = Some b.
Proof.
  revert m; induction l as [|[r c] l IH]; intros m Hn Hin; [by apply not_elem_of_nil in Hin|]. cbn in *. apply NoDup_cons in Hn as [Hr Hn].
  apply elem_of_cons in Hin as [E|Hin]; [|by apply IH]. simplify_eq. rewrite lookup_puts by done. apply lookup_insert_eq.
Qed.
Lemma chain_linked h p l e l2 : linked p l e -> (forall q b, (q, b) ∈ l -> h !! q = Some b) -> chain h e l2 -> chain h p (l ++ l2).
Proof.
  revert p; induction l as [|[q b] l IH]; intros p Hl Hh Hc; cbn in *; [by subst|]. destruct Hl as (-> & Hq & Hl).
  split; [done|]. split; [done|]. split; [apply Hh; by apply list_elem_of_here|]. apply IH; [done| |done].
  intros r c Hin. apply Hh. by apply list_elem_of_further.
Qed.
Lemma linked_app p l1 l2 e : linked p (l1 ++ l2) e <-> exists m, linked p l1 m /\ linked m l2 e.
Proof.
  revert p; induction l1 as [|[q b] l1 IH]; intros p; cbn [app linked].
  - split; [intros H; by exists p|]. by intros (m & -> & H).
  - rewrite IH. naive_solver.
Qed.
Lemma chain_to_linked h p l : chain h p l -> linked p l NULL.
Proof. revert p; induction l as [|[q b] l IH]; intros p Hl; [done|]. destruct Hl as (-> & Hq & _ & Hl). split; [done|]. split; [done|by apply IH]. Qed.
Lemma chain_lookup h p l q b : chain h p l -> (q, b) ∈ l -> h !! q = Some b.
Proof.
  revert p; induction l as [|[r c] l IH]; intros p Hl Hin; [by apply not_elem_of_nil in Hin|]. destruct Hl as (-> & _ & Hc & Hl).
  apply elem_of_cons in Hin as [E|Hin]; [by simplify_eq|by eapply IH].
Qed.
Lemma chain_split h p l1 l2 : chain h p (l1 ++ l2) -> exists m, linked p l1 m /\ chain h m l2.
Proof.
  revert p; induction l1 as [|[q b] l1 IH]; intros p Hl; [by exists p|]. destruct Hl as (-> & Hq & _ & Hl).
  destruct (IH _ Hl) as (m & ? & ?). by exists m.
Qed.
Lemma chain_puts_ne h e l2 l' : chain h e l2 -> (forall k, k ∈ l'.*1 -> k ∉ l2.*1) -> chain (puts h l') e l2.
Proof.
  revert e; induction l2 as [|[r c] l2 IH]; intros e Hc Hd; [done|]. destruct Hc as (-> & Hr & Hrc & Hc). split; [done|]. split; [done|].
  split; [rewrite lookup_puts; [done|]; intros Hin; apply (Hd _ Hin); apply list_elem_of_here|].
  apply IH; [done|]. intros k Hk Hk'. apply (Hd _ Hk). by apply list_elem_of_further.
Qed.
(** The cells of a front replaced by [l'], at their addresses. *)
Lemma chain_puts h p l' e l2 : linked p l' e -> NoDup l'.*1 -> chain h e l2 -> (forall k, k ∈ l'.*1 -> k ∉ l2.*1) ->
  chain (puts h l') p (l' ++ l2).
Proof.
  intros Hl Hn Hc Hd. apply (chain_linked _ _ _ e); [done|intros q b; by apply lookup_puts_in|]. by apply chain_puts_ne.
Qed.
Lemma puts_snoc h l r b : puts h (l ++ [(r, b)]) = <[r := b]> (puts h l).
Proof. revert h; induction l as [|[q c] l IH]; intros h; [done|]. cbn. apply IH. Qed.

Lemma totals_iff l : totals l <-> totals_rem l 0.
Proof. induction l as [|x l IH]; [done|]. cbn [totals totals_rem]. rewrite IH, Z.add_0_r. done. Qed.
Lemma totals_rem_bound d l rem : totals_rem l rem -> Forall (fun x => cell_ok d (snd x)) l -> 0 <= rem ->
  Forall (fun x => 0 <= pb_tot_len (snd x) <= sum_len l + rem) l.
Proof.
  intros Ht Hc Hr. induction l as [|x l IH]; [constructor|]. destruct Ht as [Hx Ht]. pose proof (sum_len_pos _ _ Hc) as Hs.
  apply Forall_cons in Hc as [Hxc Hc]. constructor; [lia|]. destruct Hxc as [Hxl _]. eapply Forall_impl; [by apply IH|].
  intros y. cbn [sum_len]. lia.
Qed.

(** ** pbuf_cat *)

Definition longer (n : Z) (x : Z * pbuf) : Z * pbuf := (fst x, (snd x) <| pb_tot_len := pb_tot_len (snd x) + n |>).

Lemma fst_longer n l : (map (longer n) l).*1 = l.*1.
Proof. induction l as [|x l IH]; [done|]. cbn. by f_equal. Qed.

Lemma cat_loop_run t bt l : forall s p r b fuel,
  chain (pbs s) p (l ++ [(r, b)]) -> pbs s !! t = Some bt -> t <> NULL -> t ∉ l.*1 ->
  Forall (fun x => 0 <= pb_tot_len (snd x) + pb_tot_len bt < 65536) l -> (length l < fuel)%nat ->
  cat_loop fuel p t s = Ok (r, s <| pbs := puts (pbs s) (map (longer (pb_tot_len bt)) l) |>).
Proof.
  induction l as [|[q c] l IH]; intros s p r b fuel Hc Ht Ht0 Htl Hw Hf; (destruct fuel as [|fuel]; [cbn in Hf; lia|]); cbn [cat_loop].
  - destruct Hc as (-> & Hr & Hb & Hn). rewrite (getp_run _ _ _ _ Hr Hb). cbn in Hn. rewrite Hn, Z.eqb_refl. by destruct s.
  - pose proof (chain_nodup _ _ _ Hc) as Hnd. cbn in Hnd. apply NoDup_cons in Hnd as [Hq Hnd].
    cbn [app chain] in Hc. destruct Hc as (-> & Hq0 & Hqc & Hc). cbn in Htl. apply not_elem_of_cons in Htl as [Htq Htl].
    apply Forall_cons in Hw as [Hwc Hw]. cbn [snd length] in *.
    rewrite (getp_run _ _ _ _ Hq0 Hqc). assert (pb_next c <> NULL) as Hn by (destruct l as [|[]]; by destruct Hc as (-> & ? & _)).
    rewrite (proj2 (Z.eqb_neq _ _) Hn), (getp_run _ _ _ _ Ht0 Ht). unfold setp. rewrite (bind_run _ _ _ _ _ eq_refl).
    rewrite u16_id by lia. rewrite (IH _ _ r b); [by destruct s| | |done|done|done|lia].
    + fields. by apply chain_insert.
    + fields. by rewrite lookup_insert_ne.
Qed.

Lemma linked_longer n p l e : linked p (map (longer n) l) e <-> linked p l e.
Proof. revert p; induction l as [|[q b] l IH]; intros p; cbn; [done|]. by rewrite <- (IH (pb_next b)). Qed.
Lemma sum_len_longer n l : sum_len (map (longer n) l) = sum_len l.
Proof. induction l as [|x l IH]; [done|]. cbn [map sum_len]. by rewrite IH. Qed.
Lemma content_longer d n l : content d (map (longer n) l) = content d l.
Proof. induction l as [|x l IH]; [done|]. cbn [map]. by rewrite !content_cons, IH. Qed.
Lemma cells_longer d n l : Forall (fun x => cell_ok d (snd x)) l -> Forall (fun x => cell_ok d (snd x)) (map (longer n) l).
Proof. intros Hl. induction Hl; by constructor. Qed.
Lemma totals_longer n l rem : totals_rem l rem -> totals_rem (map (longer n) l) (rem + n).
Proof.
  induction l as [|x l IH]; [done|]. intros [Hx Hl]. split; [|by apply IH]. 
  pose proof (sum_len_longer n (x :: l)) as E. cbn [map] in E. rewrite E. cbn [longer snd]. change (pb_tot_len ((snd x) <| pb_tot_len := ?v |>)) with v. lia.
Qed.

Definition joined (l : list (Z * pbuf)) (r : Z) (b : pbuf) (t n : Z) : list (Z * pbuf) :=
  map (longer n) l ++ [(r, b <| pb_tot_len := pb_tot_len b + n |> <| pb_next := t |>)].

Lemma joined_packet s h l r b t l2 :
  packet s h (l ++ [(r, b)]) -> packet s t l2 -> (forall k, k ∈ (l ++ [(r, b)]).*1 -> k ∉ l2.*1) ->
  sum_len (l ++ [(r, b)]) + sum_len l2 < 65536 ->
  packet (s <| pbs := puts (pbs s) (joined l r b t (sum_len l2)) |>) h (joined l r b t (sum_len l2) ++ l2).
Proof.
  intros H1 H2 Hd Hs. destruct H1 as [Hc Ho Ht Hl], H2 as [Hc2 Ho2 Ht2 Hl2]. pose proof (chain_nodup _ _ _ Hc) as Hnd.
  assert ((joined l r b t (sum_len l2)).*1 = (l ++ [(r, b)]).*1) as Hk by (unfold joined; by rewrite !fmap_app, fst_longer).
  apply Forall_app in Ho as [Ho Hr]. apply Forall_cons in Hr as [Hr _]. split.
  - apply (chain_puts _ _ _ t); rewrite ?Hk; try done. destruct (chain_split _ _ _ _ Hc) as (m & Hm & -> & Hr0 & _). apply linked_app.
    exists r. rewrite linked_longer. done.
  - apply Forall_app_2; [|done]. apply Forall_app_2; [by apply cells_longer|]. by constructor.
  - apply totals_iff, totals_rem_app. split; [|by apply totals_iff]. rewrite totals_iff, totals_rem_app in Ht. destruct Ht as [Ht1 [Ht2' _]].
    cbn [sum_len snd] in *. apply totals_rem_app. cbn [sum_len snd totals_rem].
    change (pb_len (b <| pb_tot_len := ?v |> <| pb_next := ?w |>)) with (pb_len b).
    change (pb_tot_len (b <| pb_tot_len := ?v |> <| pb_next := ?w |>)) with v. split; [|split; [lia|done]].
    replace (pb_len b + 0 + (sum_len l2 + 0)) with (pb_len b + 0 + 0 + sum_len l2) by lia. by apply totals_longer.
  - unfold joined. rewrite !sum_len_app, sum_len_longer. rewrite sum_len_app in Hs. exact Hs.
Qed.

Lemma pbuf_cat_run s h l r b t l2 :
  packet s h (l ++ [(r, b)]) -> packet s t l2 -> t <> NULL -> (forall k, k ∈ (l ++ [(r, b)]).*1 -> k ∉ l2.*1) ->
  sum_len (l ++ [(r, b)]) + sum_len l2 < 65536 ->
  pbuf_cat h t s = Ok (tt, s <| pbs := puts (pbs s) (joined l r b t (sum_len l2)) |>).
Proof.
  intros H1 H2 Ht0 Hd Hs. destruct l2 as [|[t' bt] l2]; [by destruct H2 as [-> _ _ _]|].
  destruct (packet_head _ _ _ _ _ H2) as (-> & _ & Hbt & _ & Htb & Hb1 & Hb2). assert (sum_len ((t', bt) :: l2) = pb_tot_len bt) as Hsum by (cbn; lia).
  rewrite Hsum in *. assert (0 <= pb_tot_len bt) by lia. destruct H1 as [Hc Ho Htt Hl]. pose proof (chain_nodup _ _ _ Hc) as Hnd. rewrite fmap_app in Hnd. cbn in Hnd.
  assert (h <> NULL) as Hh by (destruct l as [|[]]; by destruct Hc as (-> & ? & _)). unfold pbuf_cat.
  rewrite (proj2 (Z.eqb_neq _ _) Hh), (proj2 (Z.eqb_neq _ _) Ht0). cbn [orb]. rewrite chain_fuel_run.
  assert (t' ∉ (l ++ [(r, b)]).*1) as Htl by (intros Hin; by apply (Hd _ Hin), list_elem_of_here).
  rewrite fmap_app in Htl. apply not_elem_of_app in Htl as [Htl Htr].
  pose proof (totals_rem_bound (dat s) _ 0 (proj1 (totals_iff _) Htt) Ho ltac:(lia)) as Hbd. apply Forall_app in Hbd as [Hbd Hbr].
  apply Forall_cons in Hbr as [Hbr _]. cbn [snd] in Hbr.
  assert (r ∉ l.*1) as Hrl by (apply NoDup_app in Hnd as (_ & Hx & _); intros Hin; by apply (Hx r Hin), list_elem_of_singleton).
  pose proof (chain_lookup _ _ _ r b Hc ltac:(set_solver)) as Hrb. pose proof (chain_app _ _ _ _ _ _ Hc) as (_ & Hr0 & _).
  rewrite (bind_run _ _ _ _ _ (cat_loop_run t' bt l s h r b (S (size (pbs s))) Hc Hbt Ht0 Htl ltac:(eapply Forall_impl; [exact Hbd|]; cbv beta; intros; lia)
    ltac:(pose proof (chain_size _ _ _ Hc) as Hz; rewrite length_app in Hz; cbn in Hz; lia))).
  set (s1 := s <| pbs := _ |>). assert (pbs s1 !! t' = Some bt) as E1 by (subst s1; fields; rewrite lookup_puts; rewrite ?fst_longer; done).
  assert (pbs s1 !! r = Some b) as E2 by (subst s1; fields; rewrite lookup_puts; rewrite ?fst_longer; done).
  rewrite (getp_run _ _ _ _ Ht0 E1). rewrite (updp_run _ _ b _ _ Hr0 E2). unfold updp.
  rewrite (getp_run _ r (b <| pb_tot_len := u16 (pb_tot_len b + pb_tot_len bt) |>)) by (done || (fields; apply lookup_insert_eq)).
  rewrite u16_id by lia. unfold setp, modify, joined. rewrite puts_snoc. subst s1. do 2 f_equal. destruct s. store_eq. by rewrite insert_insert_eq.
Qed.

(** ** pbuf_realloc *)

(** Every cell uses its own memory (RAM and POOL packets). *)
Definition own (l : list (Z * pbuf)) : Prop := Forall (fun x => pblk (pb_payload (snd x)) = fst x) l.
Lemma own_blocks l : own l -> blocks l = l.*1.
Proof. intros Hl. by apply Forall_fmap_ext_1. Qed.
Lemma own_owned s p l : own l -> packet s p l -> owned l.
Proof. intros Hl [Hc _ _ _]. unfold owned. rewrite own_blocks by done. by eapply chain_nodup. Qed.

Lemma own_longer n l : own l -> own (map (longer n) l).
Proof. intros Hl. induction Hl; by constructor. Qed.

Lemma sole_incl l k : k ∈ (sole l).*1 -> k ∈ l.*1.
Proof.
  induction l as [|x l IH]; [done|]. cbn [sole]. destruct (pb_ref (snd x) =? 1); [|by intros ?%not_elem_of_nil].
  cbn. intros [->|Hk]%elem_of_cons; [apply list_elem_of_here|apply list_elem_of_further; auto].
Qed.
Lemma shared_incl l k : k ∈ (shared l).*1 -> k ∈ l.*1.
Proof.
  unfold shared. generalize (length (sole l)) as n. induction l as [|x l IH]; intros n; [by rewrite drop_nil|].
  destruct n; [by rewrite drop_0|]. cbn. intros Hk. apply list_elem_of_further. by eapply IH.
Qed.
Lemma after_free_pbs s l k : k ∉ l.*1 -> pbs (after_free s l) !! k = pbs s !! k.
Proof.
  intros Hk. change (pbs (after_free s l)) with (drop_ref (dels (pbs s) (sole l).*1) (shared l)).
  assert (dels (pbs s) (sole l).*1 !! k = pbs s !! k) as E by (rewrite lookup_dels; case_decide as D; [by apply sole_incl in D|done]).
  destruct (shared l) as [|[q b] l'] eqn:Es; cbn [drop_ref]; [done|]. rewrite lookup_insert_ne; [done|]. intros <-.
  apply Hk, shared_incl. rewrite Es. apply list_elem_of_here.
Qed.
Lemma after_free_dat s l k : k ∉ l.*1 -> dat (after_free s l) !! k = dat s !! k.
Proof.
  intros Hk. change (dat (after_free s l)) with (dels (dat s) (sole l).*1). rewrite lookup_dels.
  case_decide as D; [by apply sole_incl in D|done].
Qed.

(** What depends only on a cell's payload. *)
Lemma content_ext d d' l : (forall k, k ∈ blocks l -> d' !! k = d !! k) -> content d' l = content d l.
Proof.
  intros Hd. induction l as [|x l IH]; [done|]. rewrite !content_cons, IH by (intros k Hk; apply Hd; by apply list_elem_of_further).
  f_equal. unfold cell_data. by rewrite Hd by apply list_elem_of_here.
Qed.
Lemma cells_ext d d' l : (forall k, k ∈ blocks l -> d' !! k = d !! k) ->
  Forall (fun x => cell_ok d (snd x)) l -> Forall (fun x => cell_ok d' (snd x)) l.
Proof.
  intros Hd Hl. induction Hl as [|x l (H0 & c & E & H1) Hl IH]; constructor.
  - split; [done|]. exists c. by rewrite Hd by apply list_elem_of_here.
  - apply IH. intros k Hk. apply Hd. by apply list_elem_of_further.
Qed.

Lemma realloc_walk_run l : forall s p n shrink fuel,
  chain (pbs s) p l -> Forall (fun x => cell_ok (dat s) (snd x) /\ pb_len (snd x) < 65536) l -> totals l -> 0 <= n < 65536 -> n + shrink = sum_len l -> 0 <= shrink ->
  sum_len l < 65536 -> l <> [] -> (length l < fuel)%nat ->
  exists l1 q b l2 rem, l = l1 ++ (q, b) :: l2 /\ sum_len l1 + rem = n /\ 0 <= rem <= pb_len b /\
    realloc_walk fuel p n shrink s = Ok ((q, rem), s <| pbs := puts (pbs s) (map (longer (- shrink)) l1) |>).
Proof.
  induction l as [|[q b] l IH]; intros s p n shrink fuel Hc Ho Ht Hn Hsum Hsh Hb Hne Hf; [done|]. destruct fuel as [|fuel]; [cbn in Hf; lia|].
  pose proof (chain_nodup _ _ _ Hc) as Hnd. cbn in Hnd. apply NoDup_cons in Hnd as [Hq _].
  destruct Hc as (-> & Hq0 & Hqb & Hc). destruct Ht as [Htb Ht]. pose proof Ho as Ho'. apply Forall_cons in Ho' as [[[Hb0 Hbb] Hb1] Ho'].
  cbn [realloc_walk sum_len snd length] in *. rewrite (getp_run _ _ _ _ Hq0 Hqb). destruct (pb_len b <? n) eqn:E.
  - apply Z.ltb_lt in E. unfold setp. rewrite (bind_run _ _ _ _ _ eq_refl). rewrite !u16_id by lia.
    destruct (IH (s <| pbs := <[q := b <| pb_tot_len := pb_tot_len b - shrink |>]> (pbs s) |>) (pb_next b) (n - pb_len b) shrink fuel)
      as (l1 & r & c & l2 & rem & -> & Hs1 & Hrem & E'); try done; try lia.
    + by apply chain_insert.
    + intros ->. cbn in Hsum. lia.
    + exists ((q, b) :: l1), r, c, l2, rem. split; [done|]. cbn [sum_len snd map]. split; [lia|]. split; [lia|].
      rewrite E'. destruct s. store_eq. 
  - apply Z.ltb_ge in E. exists [], q, b, l, n. split; [done|]. cbn [sum_len map puts]. split; [lia|]. split; [lia|]. by destruct s.
Qed.

Definition cut (b : pbuf) (n : Z) : pbuf := b <| pb_len := n |> <| pb_tot_len := n |> <| pb_next := NULL |>.

Lemma cell_data_cut d b n : 0 <= n <= pb_len b -> cell_data d (cut b n) = take (Z.to_nat n) (cell_data d b).
Proof.
  intros Hn. unfold cell_data. change (pb_payload (cut b n)) with (pb_payload b). change (pb_len (cut b n)) with n.
  destruct (d !! pblk (pb_payload b)); [|by rewrite take_nil]. rewrite take_take. f_equal. lia.
Qed.
Lemma cell_lens s p l : packet s p l -> Forall (fun x => cell_ok (dat s) (snd x) /\ pb_len (snd x) < 65536) l.
Proof.
  intros [_ Ho _ Hl]. clear p. induction Ho as [|x l Hx Ho IH]; [constructor|]. pose proof (sum_len_pos _ _ Ho). pose proof (proj1 Hx).
  cbn [sum_len] in Hl. constructor; [split; [done|lia]|apply IH; lia].
Qed.

Lemma pbs_put s q b : pbs (put_cell s q b) = <[q := b]> (pbs s).
Proof. done. Qed.

(** The end of the function: cell [q] becomes the last, what follows is released. *)
Lemma cut_run s q b l n : q <> NULL -> pbs s !! q = Some b -> chain (pbs s) (pb_next b) l -> q ∉ l.*1 -> releasable l ->
  (updp q (fun b => b <| pb_len := n |> <| pb_tot_len := n |>) ;;;
   let* b := getp q in
   (if pb_next b =? NULL then ret 0 else pbuf_free (pb_next b)) ;;;
   updp q (fun b => b <| pb_next := NULL |>)) s = Ok (tt, put_cell (after_free s l) q (cut b n)).
Proof.
  intros Hq Hb Hc Hql Hr. rewrite (updp_run _ _ b _ _ Hq Hb). set (c := b <| pb_len := n |> <| pb_tot_len := n |>).
  fold (put_cell s q c). set (s1 := put_cell s q c). assert (pbs s1 !! q = Some c) as Hc1 by apply lookup_insert_eq.
  rewrite (getp_run _ _ _ _ Hq Hc1). change (pb_next c) with (pb_next b).
  assert (chain (pbs s1) (pb_next b) l) as Hch by (by apply chain_insert). pose proof (pbuf_free_run _ _ _ Hch Hr) as Ef.
  assert (forall k, (if pb_next b =? NULL then ret 0 else pbuf_free (pb_next b)) s1 = Ok (k, after_free s1 l) ->
    ((if pb_next b =? NULL then ret 0 else pbuf_free (pb_next b)) ;;; updp q (fun b => b <| pb_next := NULL |>)) s1 =
      Ok (tt, put_cell (after_free s l) q (cut b n))) as Hend.
  { intros k E. rewrite (bind_run _ _ _ _ _ E). unfold updp.
    rewrite (getp_run _ q c) by (try done; by rewrite after_free_pbs). unfold setp, modify, put_cell. do 2 f_equal. subst s1. unfold after_free, put_cell.
    destruct s. store_eq. apply map_eq; intros j. destruct (decide (j = q)) as [->|Hj]; [by rewrite !lookup_insert_eq|].
    rewrite !lookup_insert_ne by done. assert (dels (<[q:=c]> pbs) (sole l).*1 !! j = dels pbs (sole l).*1 !! j) as E'
      by (rewrite !lookup_dels; case_decide; [done|by rewrite lookup_insert_ne]).
    destruct (shared l) as [|[r d] ?]; cbn [drop_ref]; [done|]. destruct (decide (j = r)) as [->|]; [by rewrite !lookup_insert_eq|by rewrite !lookup_insert_ne]. }
  destruct (pb_next b =? NULL) eqn:En; [|by eapply Hend]. apply (Hend 0). unfold pbuf_free in Ef. rewrite En in Ef. unfold ret in *. congruence.
Qed.

(** The packet that is left. *)
Definition trimmed (l1 : list (Z * pbuf)) (q : Z) (b : pbuf) (sh rem : Z) : list (Z * pbuf) :=
  map (longer sh) l1 ++ [(q, cut b rem)].
Definition after_realloc (s : lmem) (l1 : list (Z * pbuf)) (q : Z) (b : pbuf) (l2 : list (Z * pbuf)) (sh rem : Z) : lmem :=
  put_cell (after_free (s <| pbs := puts (pbs s) (map (longer sh) l1) |>) l2) q (cut b rem).

Lemma pbuf_realloc_run s p l n : packet s p l -> releasable l -> 0 <= n < sum_len l ->
  exists l1 q b l2 rem, l = l1 ++ (q, b) :: l2 /\ sum_len l1 + rem = n /\ 0 <= rem <= pb_len b /\
    pbuf_realloc p n s = Ok (tt, after_realloc s l1 q b l2 (n - sum_len l) rem).
Proof.
  intros Hp Hrel Hn. destruct l as [|[p' b0] l]; [cbn in Hn; lia|]. pose proof (packet_head _ _ _ _ _ Hp) as (-> & Hp0 & Hb0 & Hc0 & Ht0 & _).
  pose proof (cell_lens _ _ _ Hp) as Hcl. pose proof Hp as [Hc Ho Ht Hl]. set (l0 := (p', b0) :: l) in *.
  assert (pb_tot_len b0 = sum_len l0) as Etot by (subst l0; cbn [sum_len snd]; lia).
  destruct (realloc_walk_run l0 s p' n (sum_len l0 - n) (S (size (pbs s))) Hc Hcl Ht) as (l1 & q & b & l2 & rem & El & Hs1 & Hrem & Ew);
    try lia; [done|pose proof (chain_size _ _ _ Hc); lia|]. exists l1, q, b, l2, rem. split; [done|]. split; [done|]. split; [done|].
  unfold pbuf_realloc. rewrite (getp_run _ _ _ _ Hp0 Hb0), Etot, (proj2 (Z.leb_gt _ _)) by lia. rewrite chain_fuel_run, u16_id by lia.
  rewrite (bind_run _ _ _ _ _ Ew). replace (- (sum_len l0 - n)) with (n - sum_len l0) by lia. clearbody l0. subst l0.
  pose proof (chain_nodup _ _ _ Hc) as Hnd. rewrite fmap_app in Hnd. cbn in Hnd. apply NoDup_app in Hnd as (_ & Hx & Hy). apply NoDup_cons in Hy as [Hy _].
  destruct (chain_split _ _ _ _ Hc) as (m & Hlk & -> & Hq0 & Hqb & Hc2). apply Forall_app in Hrel as [_ Hrel]. apply Forall_cons in Hrel as [_ Hrel].
  apply (cut_run _ q b l2); try done.
  - fields. rewrite lookup_puts; [done|]. rewrite fst_longer. intros Hin. apply (Hx _ Hin), list_elem_of_here.
  - fields. apply chain_puts_ne; [done|]. rewrite fst_longer. intros k Hk Hk2. apply (Hx _ Hk). by apply list_elem_of_further.
Qed.

Lemma trimmed_packet s p l1 q b l2 rem : let l := l1 ++ (q, b) :: l2 in packet s p l -> own l -> 0 <= rem <= pb_len b ->
  let n := sum_len l1 + rem in
  let s' := after_realloc s l1 q b l2 (n - sum_len l) rem in
  let l' := trimmed l1 q b (n - sum_len l) rem in
  packet s' p l' /\ content (dat s') l' = take (Z.to_nat n) (content (dat s) l) /\ own l'.
Proof.
  intros l Hp Hown Hrem n s' l'. pose proof Hp as [Hc Ho Ht Hl]. pose proof (chain_nodup _ _ _ Hc) as Hnd.
  assert (l'.*1 = l1.*1 ++ [q]) as Hk by (subst l'; unfold trimmed; by rewrite fmap_app, fst_longer).
  assert (forall k, k ∈ l1.*1 ++ [q] -> k ∉ l2.*1) as Hd2.
  { subst l. rewrite fmap_app in Hnd. cbn in Hnd. intros k Hk' Hk2. apply NoDup_app in Hnd as (_ & Hx & Hy). apply NoDup_cons in Hy as [Hy _].
    apply elem_of_app in Hk' as [Hk'| ->%list_elem_of_singleton]; [apply (Hx _ Hk'); by apply list_elem_of_further|done]. }
  assert (own l') as Hown'.
  { subst l l'. apply Forall_app in Hown as [O1 O2]. apply Forall_cons in O2 as [O2 _]. apply Forall_app_2; [|by constructor].
    by apply own_longer. }
  assert (forall k, k ∈ blocks l' -> dat s' !! k = dat s !! k) as Hdat.
  { intros k Hin. rewrite (own_blocks _ Hown'), Hk in Hin. subst s'. unfold after_realloc. change (dat (put_cell ?t _ _)) with (dat t).
    by rewrite after_free_dat by auto. }
  apply Forall_app in Ho as [Ho1 Ho2]. apply Forall_cons in Ho2 as [Ho2 Ho3]. cbn [snd] in Ho2.
  assert (content (dat s) l' = take (Z.to_nat n) (content (dat s) l)) as Hcont.
  { subst l l' n. unfold trimmed. rewrite !content_app, content_longer, content_cons. cbn [content map concat snd]. rewrite app_nil_r, cell_data_cut by done.
    pose proof (length_content _ _ Ho1) as L1. pose proof (length_cell _ _ Ho2). rewrite take_app_ge by lia. f_equal.
    rewrite take_app_le by lia. f_equal. lia. }
  split; [|split; [by rewrite (content_ext (dat s))|done]]. unfold l in Ht. rewrite totals_iff, totals_rem_app in Ht.
  assert (sum_len l = sum_len l1 + (pb_len b + sum_len l2)) as Hsl by (subst l; rewrite sum_len_app; done). split.
  - rewrite <- (app_nil_r l'). apply (chain_linked _ _ _ NULL); [| |done].
    + destruct (chain_split _ _ _ _ Hc) as (m & Hlk & -> & Hq0 & _). apply linked_app. exists q. by rewrite linked_longer.
    + intros k c Hin. subst s'. unfold after_realloc. rewrite pbs_put. apply elem_of_app in Hin as [Hin|Hin].
      * assert (k ∈ l1.*1) as Hk1 by (rewrite <- (fst_longer (n - sum_len l)); by apply (list_elem_of_fmap_2 fst _ (k, c))).
        subst l. rewrite fmap_app in Hnd. apply NoDup_app in Hnd as (Hn1 & Hx & _).
        rewrite lookup_insert_ne by (intros ->; apply (Hx _ Hk1), list_elem_of_here).
        rewrite after_free_pbs by (apply Hd2, elem_of_app; by left). apply lookup_puts_in; [by rewrite fst_longer|done].
      * apply list_elem_of_singleton in Hin. simplify_eq. apply lookup_insert_eq.
  - apply (cells_ext (dat s)); [done|]. apply Forall_app_2; [by apply cells_longer|]. constructor; [|constructor].
    destruct Ho2 as (H0 & c & E & H1 & H2). split; [cbn; lia|]. exists c. split; [done|]. cbn. lia.
  - apply totals_iff, totals_rem_app. destruct Ht as [Ht1 _]. split; [|split; [cbn; lia|done]].
    apply (totals_longer (n - sum_len l)) in Ht1. cbn [sum_len snd] in *. change (pb_len (cut b rem)) with rem. 
    by replace (rem + 0 + 0) with (pb_len b + sum_len l2 + 0 + (n - sum_len l)) by lia.
  - subst l'. unfold trimmed. rewrite sum_len_app, sum_len_longer. cbn [sum_len snd]. change (pb_len (cut b rem)) with rem. destruct Ho2 as [H0 _].
    pose proof (sum_len_pos _ _ Ho3). lia.
Qed.

(** ** pbuf_copy *)

(** No queue: a cell whose total is its own length is the last one. *)
Fixpoint no_queue (l : list (Z * pbuf)) : Prop :=
  match l with [] => True | x :: l' => (l' = [] \/ 0 < sum_len l') /\ no_queue l' end.
(** The rest of the packet from offset [off] of its first cell on. *)
Definition advance (l : list (Z * pbuf)) (off : Z) : list (Z * pbuf) * Z :=
  match l with
  | [] => ([], 0)
  | (q, b) :: l' => if pb_len b <=? off then (l', 0) else (l, off)
  end.
Definition addr (l : list (Z * pbuf)) : Z := match l with [] => NULL | (q, _) :: _ => q end.
Definition first_len (l : list (Z * pbuf)) : Z := match l with [] => 0 | (_, b) :: _ => pb_len b end.

Lemma chain_addr h p l : chain h p l -> p = addr l.
Proof. destruct l as [|[q b] l]; [done|]. by intros (-> & _). Qed.

Lemma advance_spec s p q b l off : packet s p ((q, b) :: l) -> no_queue ((q, b) :: l) -> 0 <= off <= pb_len b ->
  let '(l', off') := advance ((q, b) :: l) off in
  packet s (addr l') l' /\ no_queue l' /\ 0 <= off' <= first_len l' /\ sum_len l' - off' = sum_len ((q, b) :: l) - off /\
  drop (Z.to_nat off') (content (dat s) l') = drop (Z.to_nat off) (content (dat s) ((q, b) :: l)).
Proof.
  intros Hp Hq Ho. destruct (packet_head _ _ _ _ _ Hp) as (-> & Hq0 & _ & Hc & _ & Hlb & _). pose proof (packet_tail _ _ _ _ _ Hp) as Hp'.
  unfold advance. destruct (pb_len b <=? off) eqn:E; [apply Z.leb_le in E|apply Z.leb_gt in E].
  - pose proof (chain_addr _ _ _ (pk_chain _ _ _ Hp')) as Ea. rewrite <- Ea. destruct Hq as [_ Hq]. split; [done|]. split; [done|].
    split. { destruct l as [|[r c] l]; cbn; [lia|]. destruct (packet_head _ _ _ _ _ Hp') as (_ & _ & _ & _ & _ & ? & _). lia. }
    cbn [sum_len snd]. split; [lia|]. rewrite content_cons. cbn [snd]. rewrite drop_app_ge by (pose proof (length_cell _ _ Hc); lia).
    rewrite drop_0. pose proof (length_cell _ _ Hc). replace (Z.to_nat off - _)%nat with 0%nat by lia. by rewrite drop_0.
  - split; [done|]. split; [done|]. split; [cbn; lia|]. split; [done|done].
Qed.

(** The code's form of it, with [<=] in the source and [==] in the target. *)
Lemma advance_pair s q b l off : packet s q ((q, b) :: l) ->
  (if pb_len b <=? off then (pb_next b, 0) else (q, off)) = (addr (fst (advance ((q, b) :: l) off)), snd (advance ((q, b) :: l) off)).
Proof.
  intros Hp. unfold advance. destruct (_ <=? _); [|done]. cbn [fst snd]. f_equal.
  apply (chain_addr _ _ _ (pk_chain _ _ _ (packet_tail _ _ _ _ _ Hp))).
Qed.
Lemma advance_pair_eq s q b l off : packet s q ((q, b) :: l) -> off <= pb_len b ->
  (if off =? pb_len b then (pb_next b, 0) else (q, off)) = (addr (fst (advance ((q, b) :: l) off)), snd (advance ((q, b) :: l) off)).
Proof.
  intros Hp Ho. rewrite <- (advance_pair s) by done. destruct (off =? pb_len b) eqn:E; [apply Z.eqb_eq in E|apply Z.eqb_neq in E].
  - by rewrite (proj2 (Z.leb_le _ _)) by lia.
  - by rewrite (proj2 (Z.leb_gt _ _)) by lia.
Qed.

(** The test for a queue finds none. *)
Definition queued (p : Z) : M lmem bool :=
  if p =? NULL then ret false else let* b := getp p in ret ((pb_len b =? pb_tot_len b) && negb (pb_next b =? NULL)).
Lemma queued_run s l : packet s (addr l) l -> no_queue l -> queued (addr l) s = Ok (false, s).
Proof.
  intros Hp Hq. unfold queued. destruct l as [|[q b] l]; [done|]. destruct (packet_head _ _ _ _ _ Hp) as (_ & Hq0 & Hb & Hc & Ht & Hl & Hs).
  cbn [addr]. rewrite (proj2 (Z.eqb_neq _ _) Hq0), (getp_run _ _ _ _ Hq0 Hb). unfold ret. do 2 f_equal.
  destruct Hq as [[->|H0] _]; [|rewrite (proj2 (Z.eqb_neq _ _)); [done|lia]].
  pose proof (pk_chain _ _ _ (packet_tail _ _ _ _ _ Hp)) as E. cbn in E. rewrite E. by rewrite andb_false_r.
Qed.

Lemma blit_behind c r x : blit (length c) x (c ++ r) = c ++ blit 0 x r.
Proof. unfold blit. rewrite take_app_length, take_0. cbn [app Nat.add]. by rewrite drop_app_add. Qed.
Lemma blit_app_le c r x off : (off + length x <= length c)%nat -> blit off x (c ++ r) = blit off x c ++ r.
Proof.
  intros Hl. unfold blit. rewrite take_app_le, drop_app_le by lia. by rewrite <- !app_assoc.
Qed.

Lemma pmove_run s bt bf ot fo k : cell_ok (dat s) bt -> cell_ok (dat s) bf -> 0 <= ot -> 0 <= fo -> 0 <= k -> ot + k <= pb_len bt -> fo + k <= pb_len bf ->
  exists d', pmove (ptr_add (pb_payload bt) ot) (ptr_add (pb_payload bf) fo) k s = Ok (tt, s <| dat := d' |>) /\
    frame_dat [pblk (pb_payload bt)] (dat s) d' /\
    cell_data d' bt = blit (Z.to_nat ot) (take (Z.to_nat k) (drop (Z.to_nat fo) (cell_data (dat s) bf))) (cell_data (dat s) bt).
Proof.
  intros Ht Hf H1 H2 H3 H4 H5. unfold pmove. rewrite (bind_run _ _ _ _ _ (pread_cell _ _ _ _ Hf H2 H3 H5)).
  apply pwrite_cell; [done|done|]. rewrite length_take, length_drop. pose proof (length_cell _ _ Hf). lia.
Qed.

(** One turn of the loop: [k] bytes, up to the end of one of the two cells. *)
Lemma copy_turn s qt bt lt qf bf lf ot fo n fuel :
  packet s qt ((qt, bt) :: lt) -> packet s qf ((qf, bf) :: lf) -> owned ((qt, bt) :: lt) ->
  (forall k, k ∈ blocks ((qf, bf) :: lf) -> k ∉ blocks ((qt, bt) :: lt)) -> no_queue ((qt, bt) :: lt) -> no_queue ((qf, bf) :: lf) ->
  0 <= ot <= pb_len bt -> 0 <= fo <= pb_len bf -> 0 <= n ->
  n + ot <= sum_len ((qt, bt) :: lt) -> n + fo <= sum_len ((qf, bf) :: lf) ->
  let k := Z.min n (Z.min (pb_len bf - fo) (pb_len bt - ot)) in
  let to' := advance ((qt, bt) :: lt) (ot + k) in
  let from' := advance ((qf, bf) :: lf) (fo + k) in
  exists d1, copy_loop (S fuel) qt ot qf fo n s =
      (if n - k =? 0 then ret ERR_OK else copy_loop fuel (addr (fst to')) (snd to') (addr (fst from')) (snd from') (n - k)) (s <| dat := d1 |>) /\
    frame_dat (blocks ((qt, bt) :: lt)) (dat s) d1 /\
    content d1 ((qt, bt) :: lt) = blit (Z.to_nat ot) (take (Z.to_nat k) (drop (Z.to_nat fo) (content (dat s) ((qf, bf) :: lf)))) (content (dat s) ((qt, bt) :: lt)).
Proof.
  intros Ht Hf Hw Hd Hqt Hqf Ho1 Ho2 Hn Hn1 Hn2 k to' from'.
  destruct (packet_head _ _ _ _ _ Ht) as (_ & Ht0 & Htb & Htc & _ & Htl & Hts). destruct (packet_head _ _ _ _ _ Hf) as (_ & Hf0 & Hfb & Hfc & _ & Hfl & Hfs).
  pose proof (length_cell _ _ Htc) as Hlt. pose proof (length_cell _ _ Hfc) as Hlf.
  pose proof (pk_len _ _ _ Ht) as HLt. pose proof (pk_len _ _ _ Hf) as HLf. cbn [sum_len snd] in Hn1, Hn2, HLt, HLf.
  destruct (pmove_run s bt bf ot fo k Htc Hfc) as (d1 & Em & F1 & C1); try lia. exists d1. split; [|split].
  - cbn [copy_loop]. rewrite (getp_run _ _ _ _ Ht0 Htb), (getp_run _ _ _ _ Hf0 Hfb). rewrite (u32_id (pb_len bf - fo)), (u32_id (pb_len bt - ot)) by lia.
    replace (Z.min n (if pb_len bf - fo <=? pb_len bt - ot then _ else _)) with k by (destruct (_ <=? _) eqn:E; lia).
    rewrite (bind_run _ _ _ _ _ Em). rewrite !u32_id, u16_id by lia.
    assert (frame_dat (blocks ((qt, bt) :: lt)) (dat s) d1) as F by (eapply frame_mono; [|exact F1]; intros j ->%list_elem_of_singleton; apply list_elem_of_here).
    pose proof (frame_packet _ _ _ _ _ F Ht) as Ht1. pose proof (frame_packet _ _ _ _ _ F Hf) as Hf1.
    pose proof (advance_spec _ _ _ _ _ (ot + k) Ht1 Hqt ltac:(lia)) as At. pose proof (advance_spec _ _ _ _ _ (fo + k) Hf1 Hqf ltac:(lia)) as Af.
    fold to' in At. fold from' in Af. set (s1 := s <| dat := d1 |>) in *.
    rewrite (advance_pair _ _ _ _ (fo + k) Hf), (advance_pair_eq _ _ _ _ (ot + k) Ht) by lia. fold from' to'.
    destruct to' as [lt' ot']. destruct from' as [lf' fo']. cbn [fst snd]. destruct At as (At1 & At2 & At3 & At4 & _), Af as (Af1 & Af2 & Af3 & Af4 & _).
    cbn [sum_len snd] in At4, Af4.
    assert (forall l o, packet s1 (addr l) l -> 0 <= o <= first_len l -> n - k <= sum_len l - o -> (addr l =? NULL) && negb (n - k =? 0) = false) as Hnull.
    { intros l o Hp Ho Hl. destruct (addr l =? NULL) eqn:E; [|done]. destruct l as [|[r c] l]; [|by apply Z.eqb_eq in E; destruct (packet_head _ _ _ _ _ Hp) as (_ & ? & _)].
      cbn in Hl, Ho. rewrite (proj2 (Z.eqb_eq (n - k) 0)) by lia. done. }
    rewrite (Hnull lf' fo') by (done || lia). rewrite (Hnull lt' ot') by (done || lia).
    rewrite (bind_run _ _ _ _ _ (queued_run _ _ Af1 Af2)), (bind_run _ _ _ _ _ (queued_run _ _ At1 At2)). done.
  - eapply frame_mono; [|exact F1]. intros j ->%list_elem_of_singleton. apply list_elem_of_here.
  - rewrite !content_cons. cbn [snd]. apply NoDup_cons in Hw as [Hw _]. rewrite C1, (frame_content _ _ _ lt F1) by (intros j Hj ->%list_elem_of_singleton; done).
    rewrite drop_app_le, take_app_le by (rewrite ?length_drop; lia). by rewrite blit_app_le by (rewrite length_take, length_drop; lia).
Qed.

Lemma advance_write d d' q b l off x : cell_ok d b -> owned ((q, b) :: l) -> off <= pb_len b ->
  let '(l', off') := advance ((q, b) :: l) off in
  frame_dat (blocks l') d d' -> content d' l' = blit (Z.to_nat off') x (content d l') ->
  frame_dat (blocks ((q, b) :: l)) d d' /\ content d' ((q, b) :: l) = blit (Z.to_nat off) x (content d ((q, b) :: l)).
Proof.
  intros Hc Hw Ho. unfold advance. destruct (pb_len b <=? off) eqn:E; [apply Z.leb_le in E|done]. intros F C.
  apply NoDup_cons in Hw as [Hw _]. split; [eapply frame_mono; [|exact F]; intros k Hk; by apply list_elem_of_further|].
  rewrite !content_cons, C. cbn [snd] in *. rewrite (frame_cell_data _ _ _ _ F Hw). pose proof (length_cell _ _ Hc).
  replace (Z.to_nat off) with (length (cell_data d b)) by lia. by rewrite blit_behind.
Qed.
Lemma advance_blocks l off k : k ∈ blocks (fst (advance l off)) -> k ∈ blocks l.
Proof.
  destruct l as [|[q b] l]; [done|]. unfold advance. destruct (_ <=? _); [|done]. intros Hk. by apply list_elem_of_further.
Qed.
Lemma advance_owned l off : owned l -> owned (fst (advance l off)).
Proof. destruct l as [|[q b] l]; [done|]. unfold advance. destruct (_ <=? _); [|done]. by intros [_ ?]%NoDup_cons. Qed.
Lemma advance_length q b l off : length (fst (advance ((q, b) :: l) off)) = if pb_len b <=? off then length l else S (length l).
Proof. unfold advance. by destruct (_ <=? _). Qed.

Lemma copy_loop_run fuel : forall s lt lf ot fo n,
  packet s (addr lt) lt -> packet s (addr lf) lf -> owned lt -> (forall k, k ∈ blocks lf -> k ∉ blocks lt) -> no_queue lt -> no_queue lf ->
  lt <> [] -> lf <> [] -> 0 <= ot <= first_len lt -> 0 <= fo <= first_len lf -> 0 <= n ->
  n + ot <= sum_len lt -> n + fo <= sum_len lf -> (length lt + length lf <= fuel)%nat ->
  exists d', copy_loop fuel (addr lt) ot (addr lf) fo n s = Ok (ERR_OK, s <| dat := d' |>) /\ frame_dat (blocks lt) (dat s) d' /\
    content d' lt = blit (Z.to_nat ot) (take (Z.to_nat n) (drop (Z.to_nat fo) (content (dat s) lf))) (content (dat s) lt).
Proof.
  induction fuel as [|fuel IH]; intros s lt lf ot fo n Ht Hf Hw Hd Hqt Hqf Ht0 Hf0 Ho1 Ho2 Hn Hn1 Hn2 Hfuel;
    (destruct lt as [|[qt bt] lt]; [done|]); (destruct lf as [|[qf bf] lf]; [done|]); [cbn in Hfuel; lia|]. cbn [addr first_len] in *.
  destruct (copy_turn s qt bt lt qf bf lf ot fo n fuel Ht Hf Hw Hd Hqt Hqf Ho1 Ho2 Hn Hn1 Hn2) as (d1 & E1 & F1 & C1).
  set (k := Z.min n _) in *. assert (k = Z.min n (Z.min (pb_len bf - fo) (pb_len bt - ot))) as Hk by done. clearbody k.
  rewrite E1. destruct (n - k =? 0) eqn:Ek; [apply Z.eqb_eq in Ek|apply Z.eqb_neq in Ek].
  { exists d1. split; [done|]. split; [done|]. rewrite C1. do 3 f_equal. lia. }
  destruct (packet_head _ _ _ _ _ Ht) as (_ & _ & _ & Htc & _ & Htl & Hts). destruct (packet_head _ _ _ _ _ Hf) as (_ & _ & _ & Hfc & _ & Hfl & Hfs).
  pose proof (frame_packet _ _ _ _ _ F1 Ht) as Ht1. pose proof (frame_packet _ _ _ _ _ F1 Hf) as Hf1.
  pose proof (advance_spec _ _ _ _ _ (ot + k) Ht1 Hqt ltac:(lia)) as At. pose proof (advance_spec _ _ _ _ _ (fo + k) Hf1 Hqf ltac:(lia)) as Af.
  pose proof (advance_length qt bt lt (ot + k)) as Lt. pose proof (advance_length qf bf lf (fo + k)) as Lf.
  pose proof (fun j => advance_blocks ((qt, bt) :: lt) (ot + k) j) as Bt. pose proof (fun j => advance_blocks ((qf, bf) :: lf) (fo + k) j) as Bf.
  pose proof (advance_owned _ (ot + k) Hw) as Wt. pose proof (fun x d' => advance_write d1 d' qt bt lt (ot + k) x (frame_cell_ok _ _ _ _ F1 Htc) Hw ltac:(lia)) as Wr.
  destruct (advance ((qt, bt) :: lt) (ot + k)) as [lt' ot']. destruct (advance ((qf, bf) :: lf) (fo + k)) as [lf' fo']. cbn [fst snd] in *.
  destruct At as (At1 & At2 & At3 & At4 & _), Af as (Af1 & Af2 & Af3 & Af4 & Af5).
  destruct (IH _ lt' lf' ot' fo' (n - k) At1 Af1) as (d' & E & F & C); try done; try lia.
  - intros j Hj Hj'. apply (Hd _ (Bf _ Hj)), (Bt _ Hj').
  - intros ->. cbn [sum_len snd first_len] in *. lia.
  - intros ->. cbn [sum_len snd first_len] in *. lia.
  - rewrite Lt, Lf. cbn [length] in Hfuel. destruct (pb_len bt <=? ot + k) eqn:X1, (pb_len bf <=? fo + k) eqn:X2; lia.
  - exists d'. split; [rewrite E; by destruct s|]. change (dat (s <| dat := d1 |>)) with d1 in *. destruct (Wr _ _ F C) as [F' C'].
    split; [by eapply frame_trans|]. rewrite C', C1, Af5. rewrite (frame_content _ _ _ ((qf, bf) :: lf) F1 Hd).
    set (G := content (dat s) ((qf, bf) :: lf)). pose proof (length_content _ _ (pk_cells _ _ _ Hf)) as LG. fold G in LG.
    pose proof (length_content _ _ (pk_cells _ _ _ Ht)) as LT.
    assert (length (take (Z.to_nat k) (drop (Z.to_nat fo) G)) = Z.to_nat k) as Lk by (rewrite length_take, length_drop; lia).
    replace (Z.to_nat (ot + k)) with (Z.to_nat ot + length (take (Z.to_nat k) (drop (Z.to_nat fo) G)))%nat by lia.
    rewrite blit_twice by (rewrite Lk, length_take, length_drop; lia). f_equal.
    replace (Z.to_nat (fo + k)) with (Z.to_nat fo + Z.to_nat k)%nat by lia. rewrite <- drop_drop, take_take_drop. f_equal. lia.
Qed.

Lemma pbuf_copy_run s pt lt pf lf :
  packet s pt lt -> packet s pf lf -> owned lt -> (forall k, k ∈ blocks lf -> k ∉ blocks lt) -> no_queue lt -> no_queue lf ->
  pt <> NULL -> pf <> NULL -> sum_len lf <= sum_len lt ->
  exists d', pbuf_copy pt pf s = Ok (ERR_OK, s <| dat := d' |>) /\ frame_dat (blocks lt) (dat s) d' /\
    content d' lt = blit 0 (content (dat s) lf) (content (dat s) lt).
Proof.
  intros Ht Hf Hw Hd Hqt Hqf Ht0 Hf0 Hl. destruct lt as [|[qt bt] lt]; [by destruct Ht as [? _ _ _]|]. destruct lf as [|[qf bf] lf]; [by destruct Hf as [? _ _ _]|].
  destruct (packet_head _ _ _ _ _ Ht) as (-> & _ & Htb & _ & Htt & Htl & Hts). destruct (packet_head _ _ _ _ _ Hf) as (-> & _ & Hfb & _ & Hft & Hfl & Hfs).
  unfold pbuf_copy, pbuf_copy_partial_pbuf. cbn [sum_len snd] in Hl. rewrite (proj2 (Z.eqb_neq _ _) Hf0), !(getp_run _ _ _ _ Hf0 Hfb), (proj2 (Z.eqb_neq _ _) Ht0).
  rewrite (proj2 (Z.ltb_ge _ _)) by lia. rewrite (getp_run _ _ _ _ Ht0 Htb), (proj2 (Z.ltb_ge _ _)) by lia. rewrite chain_fuel_run.
  pose proof (chain_size _ _ _ (pk_chain _ _ _ Ht)). pose proof (chain_size _ _ _ (pk_chain _ _ _ Hf)).
  destruct (copy_loop_run (2 * S (size (pbs s))) s ((qt, bt) :: lt) ((qf, bf) :: lf) 0 0 (pb_tot_len bf)) as (d' & E & F & C);
    try done; cbn [first_len sum_len snd]; try lia.
  exists d'. split; [done|]. split; [done|]. rewrite C, drop_0, take_ge; [done|]. pose proof (length_content _ _ (pk_cells _ _ _ Hf)) as LG.
  cbn [sum_len snd] in LG. lia.
Qed.

(** ** pbuf_clone and pbuf_coalesce *)

Section Clone.
Context `{PbufEnv}.

Lemma cells_below s l : store_ok s -> Forall (fun x => cell_ok (dat s) (snd x)) l -> forall k, k ∈ blocks l -> k < next_blk s.
Proof.
  intros Hs Hl k Hk. apply list_elem_of_fmap in Hk as (x & -> & Hx). destruct (proj1 (Forall_forall _ _) Hl _ Hx) as (_ & c & E & _).
  destruct (Z_lt_le_dec (pblk (pb_payload (snd x))) (next_blk s)); [done|]. by rewrite (so_dat _ Hs) in E.
Qed.
Lemma chain_below s p l : store_ok s -> chain (pbs s) p l -> forall k, k ∈ l.*1 -> k < next_blk s.
Proof.
  intros Hs Hl k Hk. apply list_elem_of_fmap in Hk as ([q b] & -> & Hx). cbn [fst]. pose proof (chain_lookup _ _ _ _ _ Hl Hx) as E.
  destruct (Z_lt_le_dec q (next_blk s)); [done|]. by rewrite (so_pbs _ Hs) in E.
Qed.

Lemma ram_store_dat s off n k : k <> next_blk s -> dat (ram_store s off n) !! k = dat s !! k.
Proof. intros Hk. unfold ram_store. apply lookup_insert_ne. done. Qed.
Lemma ram_store_chain s off n p l : store_ok s -> chain (pbs s) p l -> chain (pbs (ram_store s off n)) p l.
Proof.
  intros Hs Hc. apply chain_insert; [done|]. intros Hin. pose proof (chain_below _ _ _ Hs Hc _ Hin). lia.
Qed.
Lemma ram_store_packet s off n p l : store_ok s -> packet s p l -> packet (ram_store s off n) p l /\ content (dat (ram_store s off n)) l = content (dat s) l.
Proof.
  intros Hs [Hc Ho Ht Hl]. assert (forall k, k ∈ blocks l -> dat (ram_store s off n) !! k = dat s !! k) as Hd.
  { intros k Hk. apply ram_store_dat. pose proof (cells_below _ _ Hs Ho _ Hk). lia. }
  split; [|by apply content_ext]. split; [by apply ram_store_chain|by apply (cells_ext (dat s))|done|done].
Qed.

(** The copy is a packet of one cell. *)
Lemma pbuf_clone_run s p l layer : store_ok s -> packet s p l -> no_queue l -> p <> NULL -> layer ∈ layers ->
  let q := next_blk s in
  if mem_gives (mallocs s) then
    exists d', pbuf_clone layer PBUF_RAM p s = Ok (q, (ram_store s layer (sum_len l)) <| dat := d' |>) /\
      packet ((ram_store s layer (sum_len l)) <| dat := d' |>) q [(q, ram_cell q layer (sum_len l))] /\
      content d' [(q, ram_cell q layer (sum_len l))] = content (dat s) l /\ (forall k, k <> q -> d' !! k = dat s !! k)
  else pbuf_clone layer PBUF_RAM p s = Ok (NULL, s <| mallocs := S (mallocs s) |>).
Proof.
  intros Hs Hp Hq Hp0 Hl q. destruct l as [|[p' b] l]; [by destruct Hp as [? _ _ _]|]. destruct (packet_head _ _ _ _ _ Hp) as (-> & _ & Hb & _ & Ht & Hlb & Hls).
  pose proof (pk_len _ _ _ Hp) as Hlen. set (n := sum_len ((p', b) :: l)) in *. assert (pb_tot_len b = n) as Hn by (subst n; cbn [sum_len snd]; lia).
  assert (0 <= n) as Hn0 by (subst n; cbn [sum_len snd]; lia). clearbody n.
  pose proof (pbuf_alloc_ram_run s layer n Hs Hl ltac:(lia)) as Ea. unfold pbuf_clone. rewrite (getp_run _ _ _ _ Hp0 Hb), Hn.
  destruct (mem_gives (mallocs s)); rewrite (bind_run _ _ _ _ _ Ea); [|done].
  assert (q <> NULL) as Hq0 by (pose proof (so_next _ Hs); subst q; unfold NULL; lia). fold q. rewrite (proj2 (Z.eqb_neq _ _) Hq0).
  pose proof (ram_packet s layer n Hs Hl ltac:(lia)) as Hr. fold q in Hr. destruct (ram_store_packet s layer n _ _ Hs Hp) as [Hp1 Hc1].
  destruct (pbuf_copy_run _ _ _ _ _ Hr Hp1) as (d' & E & F & C); try done.
  - apply NoDup_singleton.
  - intros k Hk Hin. apply list_elem_of_singleton in Hin. cbn in Hin. pose proof (cells_below _ _ Hs (pk_cells _ _ _ Hp) _ Hk). lia.
  - cbn. split; [by left|done].
  - cbn [sum_len snd]. cbn. cbn [sum_len snd] in *. lia.
  - rewrite (bind_run _ _ _ _ _ E). exists d'. split; [done|]. split; [by eapply frame_packet|]. split.
    + rewrite C, Hc1, blit_all; [done|]. apply Nat2Z.inj. rewrite !(length_content (dat _)); [|apply (pk_cells _ _ _ Hr)|apply (pk_cells _ _ _ Hp)].
      cbn. cbn [sum_len snd] in *. lia.
    + intros k Hk. rewrite (fr_out _ _ _ F) by (cbn; intros ?%list_elem_of_singleton; done). by apply ram_store_dat.
Qed.

Lemma after_free_gone s p l k : chain (pbs s) p l -> k ∈ (sole l).*1 -> pbs (after_free s l) !! k = None /\ dat (after_free s l) !! k = None.
Proof.
  intros Hc Hk. change (pbs (after_free s l)) with (drop_ref (dels (pbs s) (sole l).*1) (shared l)).
  change (dat (after_free s l)) with (dels (dat s) (sole l).*1). rewrite lookup_dels, decide_True by done. split; [|done].
  assert (dels (pbs s) (sole l).*1 !! k = None) as E by (by rewrite lookup_dels, decide_True).
  destruct (shared l) as [|[q b] l'] eqn:Es; cbn [drop_ref]; [done|]. rewrite lookup_insert_ne; [done|]. intros <-.
  pose proof (chain_nodup _ _ _ Hc) as Hnd. assert (l = sole l ++ shared l) as El.
  { unfold shared. clear. induction l as [|x l IH]; [done|]. cbn [sole]. destruct (pb_ref (snd x) =? 1); [|done]. cbn. by f_equal. }
  rewrite El, Es, fmap_app in Hnd. apply NoDup_app in Hnd as (_ & Hd & _). apply (Hd _ Hk), list_elem_of_here.
Qed.

Lemma pbuf_coalesce_run s p b l layer : store_ok s -> packet s p ((p, b) :: l) -> no_queue ((p, b) :: l) -> releasable ((p, b) :: l) -> layer ∈ layers ->
  let q := next_blk s in let n := sum_len ((p, b) :: l) in
  (l = [] -> pbuf_coalesce p layer s = Ok (p, s)) /\
  (l <> [] -> mem_gives (mallocs s) = false -> pbuf_coalesce p layer s = Ok (p, s <| mallocs := S (mallocs s) |>)) /\
  (l <> [] -> mem_gives (mallocs s) = true -> exists s', pbuf_coalesce p layer s = Ok (q, s') /\
     packet s' q [(q, ram_cell q layer n)] /\ content (dat s') [(q, ram_cell q layer n)] = content (dat s) ((p, b) :: l) /\
     (forall k, k ∈ (sole ((p, b) :: l)).*1 -> pbs s' !! k = None /\ dat s' !! k = None) /\
     (forall k, k <> q -> k ∉ ((p, b) :: l).*1 -> pbs s' !! k = pbs s !! k /\ dat s' !! k = dat s !! k)).
Proof.
  intros Hs Hp Hq Hr Hl q n. destruct (packet_head _ _ _ _ _ Hp) as (_ & Hp0 & Hb & _). pose proof (pk_chain _ _ _ Hp) as Hc.
  pose proof (chain_below _ _ _ Hs Hc) as Hbl. assert (forall k : M lmem Z, l <> [] -> (if pb_next b =? NULL then ret p else k) = k) as Hnext.
  { intros k Hne. rewrite (proj2 (Z.eqb_neq _ _)); [done|]. destruct l as [|[r c] l]; [done|]. destruct Hc as (_ & _ & _ & -> & ? & _). done. }
  unfold pbuf_coalesce. pose proof (pbuf_clone_run _ _ _ layer Hs Hp Hq Hp0 Hl) as Hcl. cbv zeta in Hcl. fold q n in Hcl.
  rewrite (getp_run _ _ _ _ Hp0 Hb). split; [|split].
  - intros ->. destruct Hc as (_ & _ & _ & Hn). cbn in Hn. by rewrite Hn.
  - intros Hne Hm. rewrite Hnext by done. rewrite Hm in Hcl. by rewrite (bind_run _ _ _ _ _ Hcl).
  - intros Hne Hm. rewrite Hnext by done. rewrite Hm in Hcl. destruct Hcl as (d' & E & Hpq & Cq & Fq). rewrite (bind_run _ _ _ _ _ E).
    assert (q <> NULL) as Hq0 by (pose proof (so_next _ Hs); subst q; unfold NULL; lia). rewrite (proj2 (Z.eqb_neq _ _) Hq0).
    set (s1 := (ram_store s layer n) <| dat := d' |>) in *. assert (chain (pbs s1) p ((p, b) :: l)) as Hc1 by (by apply ram_store_chain).
    rewrite (bind_run _ _ _ _ _ (pbuf_free_run _ _ _ Hc1 Hr)). eexists. split; [reflexivity|].
    assert (q ∉ ((p, b) :: l).*1) as Hql by (intros Hin; specialize (Hbl _ Hin); lia).
    assert (forall k, k ∈ blocks [(q, ram_cell q layer n)] -> dat (after_free s1 ((p, b) :: l)) !! k = dat s1 !! k) as Hd.
    { intros k ->%list_elem_of_singleton. by apply after_free_dat. }
    split; [|split; [|split]].
    + destruct Hpq as [(_ & _ & Hqc & _) Ho Ht Hln]. split; [|by apply (cells_ext (dat s1))|done|done]. split; [done|]. split; [done|]. split; [|done].
      by rewrite after_free_pbs.
    + rewrite (content_ext (dat s1)) by done. exact Cq.
    + intros k Hk. by eapply after_free_gone.
    + intros k Hkq Hk. rewrite after_free_pbs, after_free_dat by done. split; [|by apply Fq]. by apply lookup_insert_ne.
Qed.
End Clone.
