(* ===== verification/PbufSearch.v ===== *)
(** Single bytes and searches: pbuf_skip, pbuf_get_at, pbuf_put_at,
    pbuf_memcmp and pbuf_memfind on the content of a packet. *)

From stdpp Require Import gmap.
From S2P Require Import Prelude Cmonad Cutils Heap Pbuf PbufProofs PbufChain.

Lemma skip_loop_run s l : forall p off fuel, packet s p l -> 0 <= off < 65536 -> (length l < fuel)%nat ->
  (sum_len l <= off /\ skip_loop fuel p off s = Ok ((NULL, off - sum_len l), s)) \/
  (exists l1 q b l2, l = l1 ++ (q, b) :: l2 /\ 0 <= off - sum_len l1 < pb_len b /\ packet s q ((q, b) :: l2) /\
     skip_loop fuel p off s = Ok ((q, off - sum_len l1), s)).
Proof.
  induction l as [|[q b] l IH]; intros p off fuel Hp Ho Hf; (destruct fuel as [|fuel]; [cbn in Hf; lia|]); cbn [skip_loop].
  - left. destruct Hp as [-> _ _ _]. cbn. split; [lia|]. unfold ret. do 3 f_equal. lia.
  - destruct (packet_head _ _ _ _ _ Hp) as (-> & Hq & Hb & Hc & Ht & Hl & Hls). rewrite (proj2 (Z.eqb_neq _ _) Hq), (getp_run _ _ _ _ Hq Hb).
    cbn [length sum_len snd] in *. destruct (pb_len b <=? off) eqn:E; [apply Z.leb_le in E|apply Z.leb_gt in E].
    + rewrite u16_id by lia. destruct (IH _ (off - pb_len b) fuel (packet_tail _ _ _ _ _ Hp)) as [[H1 E1]|(l1 & r & c & l2 & -> & H1 & Hp1 & E1)]; try lia.
      * left. split; [lia|]. rewrite E1. do 3 f_equal. lia.
      * right. exists ((q, b) :: l1), r, c, l2. split; [done|]. cbn [sum_len snd]. split; [lia|]. split; [done|]. rewrite E1. do 3 f_equal. lia.
    + right. exists [], q, b, l. split; [done|]. cbn [sum_len]. split; [lia|]. split; [done|]. unfold ret. do 3 f_equal. lia.
Qed.

Lemma pbuf_skip_run s p l off : packet s p l -> 0 <= off < 65536 ->
  (sum_len l <= off /\ pbuf_skip_const p off s = Ok ((NULL, off - sum_len l), s)) \/
  (exists l1 q b l2, l = l1 ++ (q, b) :: l2 /\ 0 <= off - sum_len l1 < pb_len b /\ packet s q ((q, b) :: l2) /\
     pbuf_skip_const p off s = Ok ((q, off - sum_len l1), s)).
Proof.
  intros Hp Ho. unfold pbuf_skip_const. rewrite chain_fuel_run. pose proof (chain_size _ _ _ (pk_chain _ _ _ Hp)).
  apply skip_loop_run; [done|done|lia].
Qed.

(** The byte of a cell inside the packet. *)
Lemma content_lookup s p l1 q b l2 i : packet s p (l1 ++ (q, b) :: l2) -> 0 <= i < pb_len b ->
  content (dat s) (l1 ++ (q, b) :: l2) !! Z.to_nat (sum_len l1 + i) = cell_data (dat s) b !! Z.to_nat i.
Proof.
  intros Hp Hi. pose proof (pk_cells _ _ _ Hp) as Ho. apply Forall_app in Ho as [Ho1 Ho2]. apply Forall_cons in Ho2 as [Ho2 _].
  pose proof (length_content _ _ Ho1). pose proof (length_cell _ _ Ho2) as L. cbn [snd] in L. rewrite content_app, lookup_app_r by lia.
  rewrite content_cons, lookup_app_l by (cbn [snd]; lia). f_equal. lia.
Qed.

Definition bytes_of (d : gmap Z bytes) (l : list (Z * pbuf)) : Prop := bytes_ok (content d l).

Lemma pbuf_get_at_run s p l off : packet s p l -> bytes_of (dat s) l -> 0 <= off < 65536 ->
  pbuf_get_at p off s = Ok (default 0 (content (dat s) l !! Z.to_nat off), s).
Proof.
  intros Hp Hby Ho. unfold pbuf_get_at, pbuf_try_get_at. destruct (pbuf_skip_run _ _ _ _ Hp Ho) as [[Hl E]|(l1 & q & b & l2 & -> & Hi & Hq & E)].
  - rewrite bind_assoc, (bind_run _ _ _ _ _ E). cbv beta iota. rewrite Z.eqb_refl, bind_ret. rewrite lookup_ge_None_2; [done|].
    pose proof (length_content _ _ (pk_cells _ _ _ Hp)). lia.
  - destruct (packet_head _ _ _ _ _ Hq) as (_ & Hq0 & Hb & Hc & _). rewrite bind_assoc, (bind_run _ _ _ _ _ E). cbv beta iota.
    rewrite (proj2 (Z.eqb_neq _ _) Hq0), bind_assoc, (getp_run _ _ _ _ Hq0 Hb), (proj2 (Z.ltb_lt _ _)) by lia.
    rewrite bind_assoc, (bind_run _ _ _ _ _ (pread_cell _ _ (off - sum_len l1) 1 Hc ltac:(lia) ltac:(lia) ltac:(lia))), bind_ret.
    pose proof (content_lookup _ _ _ _ _ _ (off - sum_len l1) Hp Hi) as EL. replace (sum_len l1 + (off - sum_len l1)) with off in EL by lia.
    destruct (lookup_lt_is_Some_2 (cell_data (dat s) b) (Z.to_nat (off - sum_len l1))) as [x Hx]; [pose proof (length_cell _ _ Hc); lia|].
    rewrite EL, Hx. rewrite (drop_S _ x) by done. change (Z.to_nat 1) with 1%nat. cbn [firstn nth default]. rewrite Hx in EL.
    pose proof (Forall_lookup_1 _ _ _ _ Hby EL) as Hxb. unfold byte_ok in Hxb. rewrite (proj2 (Z.leb_le _ _)), u8_id by (unfold byte_ok; lia). done.
Qed.

(** The length of the common start. *)
Fixpoint agree (a b : bytes) : nat :=
  match a, b with x :: a, y :: b => if x =? y then S (agree a b) else O | _, _ => O end.

Lemma memcmp_loop_run s q l k : forall start i s2, packet s q l -> bytes_of (dat s) l -> 0 <= start -> 0 <= i ->
  start + i + Z.of_nat k <= sum_len l -> i + Z.of_nat k <= Z.of_nat (length s2) ->
  let a := take k (drop (Z.to_nat (start + i)) (content (dat s) l)) in
  let b := take k (drop (Z.to_nat i) s2) in
  memcmp_loop k q start i s2 s = Ok (if (agree a b =? k)%nat then 0 else u16 (Z.min (i + Z.of_nat (agree a b) + 1) 0xFFFF), s).
Proof.
  induction k as [|k IH]; intros start i s2 Hp Hby Hs Hi Hl H2; cbn [memcmp_loop]; [done|]. pose proof (pk_len _ _ _ Hp) as Hlen.
  pose proof (length_content _ _ (pk_cells _ _ _ Hp)) as LC. rewrite u16_id by lia. rewrite (bind_run _ _ _ _ _ (pbuf_get_at_run _ _ _ (start + i) Hp Hby ltac:(lia))).
  destruct (lookup_lt_is_Some_2 (content (dat s) l) (Z.to_nat (start + i))) as [x Hx]; [lia|].
  destruct (lookup_lt_is_Some_2 s2 (Z.to_nat i)) as [y Hy]; [lia|]. rewrite Hx, Hy. cbn [ofopt bind default].
  rewrite (drop_S _ x), (drop_S s2 y) by done. cbn [firstn agree]. unfold bind, ofopt, default, id. destruct (x =? y) eqn:E; cbn [negb].
  - rewrite IH by (done || lia). replace (Z.to_nat (start + (i + 1))) with (S (Z.to_nat (start + i))) by lia.
    replace (Z.to_nat (i + 1)) with (S (Z.to_nat i)) by lia. cbn [Nat.eqb]. destruct (agree _ _ =? k)%nat; [done|]. do 4 f_equal. lia.
  - cbn [Nat.eqb]. unfold ret. do 4 f_equal. lia.
Qed.

Lemma agree_full a b : length a = length b -> agree a b = length a <-> a = b.
Proof.
  revert b; induction a as [|x a IH]; intros [|y b] Hl; cbn in *; try done. destruct (x =? y) eqn:E; [apply Z.eqb_eq in E as ->|apply Z.eqb_neq in E].
  - split; [intros H; f_equal; apply IH; lia|]. intros [= <-]. f_equal. by apply IH.
  - split; [done|]. intros [= -> _]. done.
Qed.
Lemma agree_le a b : (agree a b <= length a)%nat.
Proof. revert b; induction a as [|x a IH]; intros [|y b]; cbn; try lia. destruct (x =? y); [specialize (IH b)|]; lia. Qed.

(** Is [mem] at offset [i]? *)
Definition occurs (c mem : bytes) (i : Z) : Prop := take (length mem) (drop (Z.to_nat i) c) = mem.
#[export] Instance occurs_dec c mem i : Decision (occurs c mem i) := decide_rel eq _ _.

Lemma packet_tot s p q b l : packet s p ((q, b) :: l) -> pb_tot_len b = sum_len ((q, b) :: l).
Proof. intros Hp. destruct (packet_head _ _ _ _ _ Hp) as (_ & _ & _ & _ & Ht & _). exact Ht. Qed.

Lemma pbuf_memcmp_run s p l off s2 : packet s p l -> p <> NULL -> bytes_of (dat s) l -> 0 <= off -> off + Z.of_nat (length s2) <= sum_len l ->
  (0 < length s2)%nat ->
  let k := agree (take (length s2) (drop (Z.to_nat off) (content (dat s) l))) s2 in
  pbuf_memcmp p off s2 (Z.of_nat (length s2)) s = Ok (if (k =? length s2)%nat then 0 else u16 (Z.min (Z.of_nat k + 1) 0xFFFF), s).
Proof.
  intros Hp Hp0 Hby Ho Hl Hs k. pose proof (pk_len _ _ _ Hp) as Hlen. unfold pbuf_memcmp.
  destruct l as [|[p' b0] l]; [by destruct Hp as [? _ _ _]|]. pose proof (packet_tot _ _ _ _ _ Hp) as Ht. pose proof (packet_head _ _ _ _ _ Hp) as (-> & _ & Hb0 & _).
  rewrite (getp_run _ _ _ _ Hp0 Hb0), Ht. set (l0 := (p', b0) :: l) in *. clearbody l0. rewrite (proj2 (Z.ltb_ge _ _)) by lia.
  destruct (pbuf_skip_run _ _ _ off Hp ltac:(lia)) as [[H1 _]|(l1 & q & b & l2 & -> & Hi & Hq & E)]; [lia|].
  rewrite (bind_run _ _ _ _ _ E). cbv beta iota. pose proof (pk_cells _ _ _ Hp) as Ho'. apply Forall_app in Ho' as [Ho1 _]. pose proof (length_content _ _ Ho1) as L1.
  subst k. unfold bytes_of in Hby. rewrite content_app in Hby |- *. apply Forall_app in Hby as [_ Hby].
  rewrite sum_len_app in Hl, Hlen. rewrite (memcmp_loop_run s q ((q, b) :: l2)); try done; try lia.
  rewrite Nat2Z.id. rewrite drop_app_ge by lia. rewrite drop_0, (take_ge s2) by lia.
  replace (Z.to_nat (off - sum_len l1 + 0)) with (Z.to_nat off - length (content (dat s) l1))%nat by lia. done.
Qed.

Lemma pbuf_memcmp_zero s p l off s2 : packet s p l -> p <> NULL -> bytes_of (dat s) l -> 0 <= off -> off + Z.of_nat (length s2) <= sum_len l ->
  (0 < length s2)%nat -> exists r, pbuf_memcmp p off s2 (Z.of_nat (length s2)) s = Ok (r, s) /\ (r = 0 <-> occurs (content (dat s) l) s2 off).
Proof.
  intros Hp Hp0 Hby Ho Hl Hs. eexists. split; [by apply (pbuf_memcmp_run s p l)|]. unfold occurs. set (a := take (length s2) _).
  pose proof (length_content _ _ (pk_cells _ _ _ Hp)) as LC. assert (length a = length s2) as La by (subst a; rewrite length_take, length_drop; lia).
  pose proof (agree_le a s2) as Hle. rewrite <- (agree_full a s2 La), La. destruct (agree a s2 =? length s2)%nat eqn:E.
  - apply Nat.eqb_eq in E. done.
  - apply Nat.eqb_neq in E. split; [|done]. pose proof (pk_len _ _ _ Hp). rewrite u16_id by lia. lia.
Qed.

(** ** pbuf_memfind *)

(** The first offset from [i] on, of [n] candidates, at which [mem] occurs. *)
Fixpoint first_at (c mem : bytes) (i : Z) (n : nat) : option Z :=
  match n with
  | O => None
  | S n => if decide (occurs c mem i) then Some i else first_at c mem (i + 1) n
  end.

Lemma first_at_some c mem n : forall i r, first_at c mem i n = Some r <->
  i <= r < i + Z.of_nat n /\ occurs c mem r /\ forall j, i <= j < r -> ~ occurs c mem j.
Proof.
  induction n as [|n IH]; intros i r; cbn [first_at]; [split; [done|intros (? & _); lia]|]. destruct (decide (occurs c mem i)) as [Hi|Hi].
  - split; [intros [= <-]; split; [lia|split; [done|intros; lia]]|]. intros (Hr & Ho & Hj). f_equal.
    destruct (Z.eq_dec i r); [done|]. exfalso. apply (Hj i); [lia|done].
  - rewrite IH. split; intros (Hr & Ho & Hj).
    + split; [lia|]. split; [done|]. intros j Hlt. destruct (Z.eq_dec i j) as [->|]; [done|]. apply Hj. lia.
    + assert (i <> r) by (by intros ->). split; [lia|]. split; [done|]. intros j Hlt. apply Hj. lia.
Qed.
Lemma first_at_none c mem n : forall i, first_at c mem i n = None <-> forall j, i <= j < i + Z.of_nat n -> ~ occurs c mem j.
Proof.
  induction n as [|n IH]; intros i; cbn [first_at]; [split; [intros _ j Hj; lia|done]|]. destruct (decide (occurs c mem i)) as [Hi|Hi].
  - split; [done|]. intros Hj. exfalso. apply (Hj i); [lia|done].
  - rewrite IH. split; intros Hj j Hlt; [|apply Hj; lia]. destruct (Z.eq_dec i j) as [->|]; [done|]. apply Hj. lia.
Qed.

Lemma memfind_loop_run s p l mem n : forall fuel i, packet s p l -> p <> NULL -> bytes_of (dat s) l -> (0 < length mem)%nat -> 0 <= i ->
  i + Z.of_nat n = sum_len l - Z.of_nat (length mem) + 1 -> (n < fuel)%nat ->
  memfind_loop fuel p mem (Z.of_nat (length mem)) i (sum_len l - Z.of_nat (length mem)) s =
    Ok (default 0xFFFF (first_at (content (dat s) l) mem i n), s).
Proof.
  induction n as [|n IH]; intros fuel i Hp Hp0 Hby Hm Hi Hn Hf; (destruct fuel as [|fuel]; [lia|]); cbn [memfind_loop first_at].
  - by rewrite (proj2 (Z.leb_gt _ _)) by lia.
  - rewrite (proj2 (Z.leb_le _ _)) by lia. pose proof (pk_len _ _ _ Hp) as Hlen.
    destruct (pbuf_memcmp_zero s p l i mem Hp Hp0 Hby Hi ltac:(lia) Hm) as (r & E & Hr). rewrite (bind_run _ _ _ _ _ E).
    destruct (decide (occurs (content (dat s) l) mem i)) as [Ho|Ho].
    + rewrite (proj2 (Z.eqb_eq _ _)) by (by apply Hr). done.
    + rewrite (proj2 (Z.eqb_neq _ _)) by (by intros ?%Hr). rewrite u16_id by lia. apply IH; try done; lia.
Qed.

Lemma pbuf_memfind_run s p l mem start : packet s p l -> p <> NULL -> bytes_of (dat s) l -> (0 < length mem)%nat -> 0 <= start ->
  pbuf_memfind p mem (Z.of_nat (length mem)) start s =
    Ok (default 0xFFFF (first_at (content (dat s) l) mem start (Z.to_nat (sum_len l - Z.of_nat (length mem) + 1 - start))), s).
Proof.
  intros Hp Hp0 Hby Hm Hs. pose proof (pk_len _ _ _ Hp) as Hlen. unfold pbuf_memfind. destruct l as [|[p' b0] l]; [by destruct Hp as [? _ _ _]|].
  pose proof (packet_tot _ _ _ _ _ Hp) as Ht. pose proof (packet_head _ _ _ _ _ Hp) as (-> & _ & Hb0 & _).
  rewrite (getp_run _ _ _ _ Hp0 Hb0), Ht. set (l0 := (p', b0) :: l) in *. clearbody l0. destruct (_ <=? sum_len l0) eqn:E; [apply Z.leb_le in E|apply Z.leb_gt in E].
  - rewrite u16_id by lia. apply memfind_loop_run; try done; lia.
  - replace (Z.to_nat _) with 0%nat by lia. done.
Qed.
