(* ===== verification/Inet.v ===== *)
(** arm_host/source/lwip/inet_chksum.c and def.c: the Internet checksum over a
    buffer and over the cells of a packet, with LWIP_CHKSUM_ALGORITHM 2, and
    the byte order of 16- and 32-bit values. *)

From stdpp Require Import gmap.
From S2P Require Import Prelude Cmonad Cutils Heap Pbuf.

(** ** Byte order *)

Definition PP_HTONS (x : Z) : Z := u16 (Z.lor (Z.shiftl (Z.land x 0x00ff) 8) (Z.shiftr (Z.land x 0xff00) 8)).
Definition PP_HTONL (x : Z) : Z :=
  Z.lor (Z.lor (Z.lor (Z.shiftl (Z.land x 0x000000ff) 24) (Z.shiftl (Z.land x 0x0000ff00) 8))
    (Z.shiftr (Z.land x 0x00ff0000) 8)) (Z.shiftr (Z.land x 0xff000000) 24).
Definition lwip_htons (n : Z) : Z := PP_HTONS n.
Definition lwip_htonl (n : Z) : Z := PP_HTONL n.

Definition SWAP_BYTES_IN_WORD (w : Z) : Z := Z.lor (Z.shiftl (Z.land w 0xff) 8) (Z.shiftr (Z.land w 0xff00) 8).
Definition FOLD_U32T (u : Z) : Z := u32 (Z.shiftr u 16 + Z.land u 0x0000ffff).

(** ** The sum of a buffer *)

(** [while (len > 1) { sum += *ps++; len -= 2; }]: the sum and what is left. *)
Fixpoint add_words (data : bytes) (sum : Z) : Z * bytes :=
  match data with
  | x :: y :: data => add_words data (u32 (sum + (x + 256 * y)))
  | _ => (sum, data)
  end.

(** [odd] is the lowest bit of the address; [t1] and [t0] are the bytes of [t]. *)
Definition lwip_standard_chksum (odd : bool) (data : bytes) : Z :=
  let '(t1, data) := match odd, data with true, x :: data => (x, data) | _, _ => (0, data) end in
  let '(sum, data) := add_words data 0 in
  let t0 := match data with x :: _ => x | [] => 0 end in
  let sum := u32 (sum + (t0 + 256 * t1)) in
  let sum := FOLD_U32T sum in
  let sum := FOLD_U32T sum in
  let sum := if odd then SWAP_BYTES_IN_WORD sum else sum in
  u16 sum.

Definition inet_chksum (odd : bool) (data : bytes) : Z := not16 (lwip_standard_chksum odd data).

(** ** Packets *)

Class Addresses := odd_address : ptr -> bool.

Section Inet.
Context `{Addresses}.

(** LWIP_CHKSUM(q->payload, n) *)
Definition chksum_cell (q : ptr) (n : Z) : M lmem Z :=
  let* d := pread q n in ret (lwip_standard_chksum (odd_address q) d).

(** The loop over the cells; [swapped] is the parity of the bytes so far. *)
Fixpoint chksum_loop (fuel : nat) (q acc : Z) (swapped : bool) : M lmem (Z * bool) :=
  match fuel with
  | O => hang
  | S fuel =>
      if q =? NULL then ret (acc, swapped) else
      let* b := getp q in
      let* c := chksum_cell (pb_payload b) (pb_len b) in
      let acc := FOLD_U32T (u32 (acc + c)) in
      if negb (pb_len b mod 2 =? 0) then chksum_loop fuel (pb_next b) (SWAP_BYTES_IN_WORD acc) (negb swapped)
      else chksum_loop fuel (pb_next b) acc swapped
  end.

(** The end shared by the pseudo checksums. *)
Definition chksum_finish (proto proto_len acc : Z) : Z :=
  let acc := u32 (acc + lwip_htons (u16 proto)) in
  let acc := u32 (acc + lwip_htons proto_len) in
  let acc := FOLD_U32T acc in
  let acc := FOLD_U32T acc in
  not16 (Z.land acc 0xffff).

Definition inet_cksum_pseudo_base (p proto proto_len acc : Z) : M lmem Z :=
  let* n := chain_fuel in
  let* '(acc, swapped) := chksum_loop n p acc false in
  let acc := if (swapped : bool) then SWAP_BYTES_IN_WORD acc else acc in
  ret (chksum_finish proto proto_len acc).

(** The sum of the two addresses, in network byte order. *)
Definition chksum_addresses (src dest : Z) : Z :=
  let acc := Z.land src 0xffff in
  let acc := u32 (acc + Z.land (Z.shiftr src 16) 0xffff) in
  let acc := u32 (acc + Z.land dest 0xffff) in
  let acc := u32 (acc + Z.land (Z.shiftr dest 16) 0xffff) in
  FOLD_U32T (FOLD_U32T acc).
Definition inet_chksum_pseudo (p proto proto_len src dest : Z) : M lmem Z :=
  inet_cksum_pseudo_base p proto proto_len (chksum_addresses src dest).
Definition ip_chksum_pseudo (p proto proto_len src dest : Z) : M lmem Z := inet_chksum_pseudo p proto proto_len src dest.

(** Only the first [chksum_len] bytes are summed. *)
Fixpoint chksum_partial_loop (fuel : nat) (q chksum_len acc : Z) (swapped : bool) : M lmem (Z * bool) :=
  match fuel with
  | O => hang
  | S fuel =>
      if (q =? NULL) || (chksum_len =? 0) then ret (acc, swapped) else
      let* b := getp q in
      let chklen := if chksum_len <? pb_len b then chksum_len else pb_len b in
      let* c := chksum_cell (pb_payload b) chklen in
      let chksum_len := u16 (chksum_len - chklen) in
      let acc := FOLD_U32T (u32 (acc + c)) in
      if negb (pb_len b mod 2 =? 0) then chksum_partial_loop fuel (pb_next b) chksum_len (SWAP_BYTES_IN_WORD acc) (negb swapped)
      else chksum_partial_loop fuel (pb_next b) chksum_len acc swapped
  end.
Definition inet_cksum_pseudo_partial_base (p proto proto_len chksum_len acc : Z) : M lmem Z :=
  let* n := chain_fuel in
  let* '(acc, swapped) := chksum_partial_loop n p chksum_len acc false in
  let acc := if (swapped : bool) then SWAP_BYTES_IN_WORD acc else acc in
  ret (chksum_finish proto proto_len acc).
Definition inet_chksum_pseudo_partial (p proto proto_len chksum_len src dest : Z) : M lmem Z :=
  inet_cksum_pseudo_partial_base p proto proto_len chksum_len (chksum_addresses src dest).
Definition ip_chksum_pseudo_partial (p proto proto_len chksum_len src dest : Z) : M lmem Z :=
  inet_chksum_pseudo_partial p proto proto_len chksum_len src dest.

Definition inet_chksum_pbuf (p : Z) : M lmem Z :=
  let* n := chain_fuel in
  let* '(acc, swapped) := chksum_loop n p 0 false in
  let acc := if (swapped : bool) then SWAP_BYTES_IN_WORD acc else acc in
  ret (not16 (Z.land acc 0xffff)).

End Inet.
