(* ===== verification/InetProofs.v ===== *)
(** The checksum routines compute the one's complement sum of RFC 1071,
    whatever the alignment of the data and however it is cut into cells. *)

From stdpp Require Import gmap.
From S2P Require Import Prelude Cmonad Cutils Heap Pbuf PbufProofs PbufChain PbufSearch Inet.

(** ** The reference *)

(** One's complement addition of 16-bit values. *)
Definition oc_add (a b : Z) : Z := let s := a + b in if s <? 65536 then s else s - 65535.
(** The sum of the big-endian words of a message, an odd byte padded with zero. *)
Fixpoint rfc1071_sum (l : bytes) : Z :=
  match l with
  | [] => 0
  | [x] => 256 * x
  | x :: y :: l => oc_add (256 * x + y) (rfc1071_sum l)
  end.
Definition rfc1071_checksum (l : bytes) : Z := not16 (rfc1071_sum l).

(** ** Sums modulo 65535 *)

(** The representative of [a] in 1..65535, and 0 for 0 alone. *)
Definition norm (a : Z) : Z := if a =? 0 then 0 else (a - 1) mod 65535 + 1.
(** Equal sums: congruent, and both or neither zero. *)
Definition ceq (a b : Z) : Prop := 0 <= a /\ 0 <= b /\ a mod 65535 = b mod 65535 /\ (a = 0 <-> b = 0).
Infix "≈" := ceq (at level 70).

Lemma ceq_refl a : 0 <= a -> a ≈ a.
Proof. unfold ceq. tauto. Qed.
#[export] Instance ceq_sym : Symmetric ceq.
Proof. intros a b. unfold ceq. intuition lia. Qed.
#[export] Instance ceq_trans : Transitive ceq.
Proof. intros a b c. unfold ceq. intuition lia. Qed.
#[export] Instance ceq_add : Proper (ceq ==> ceq ==> ceq) Z.add.
Proof.
  intros a a' (A1 & A2 & A3 & A4) b b' (B1 & B2 & B3 & B4). unfold ceq. split; [lia|]. split; [lia|]. split; [|lia].
  by rewrite (Z.add_mod a), (Z.add_mod a'), A3, B3.
Qed.
#[export] Instance ceq_mul : Proper (ceq ==> ceq ==> ceq) Z.mul.
Proof.
  intros a a' (A1 & A2 & A3 & A4) b b' (B1 & B2 & B3 & B4). unfold ceq. split; [nia|]. split; [nia|]. split; [|nia].
  by rewrite (Z.mul_mod a), (Z.mul_mod a'), A3, B3.
Qed.
Lemma ceq_65536 a : 0 <= a -> 65536 * a ≈ a.
Proof. intros Ha. unfold ceq. split; [lia|]. split; [lia|]. split; [zdm|lia]. Qed.

Lemma norm_range a : 0 <= norm a < 65536.
Proof. unfold norm. destruct (a =? 0); zdm. Qed.
Lemma norm_ceq a : 0 <= a -> norm a ≈ a.
Proof.
  intros Ha. unfold norm, ceq. destruct (a =? 0) eqn:E; [apply Z.eqb_eq in E as ->; lia|apply Z.eqb_neq in E].
  split; [zdm|]. split; [done|]. split; [|zdm]. rewrite <- Zplus_mod_idemp_l. zdm.
Qed.
(** A 16-bit value with the same sum is the representative. *)
Lemma norm_unique a w : 0 <= w < 65536 -> w ≈ a -> w = norm a.
Proof. intros Hw (H1 & H2 & H3 & H4). unfold norm. destruct (a =? 0) eqn:E; [lia|apply Z.eqb_neq in E]. zdm. Qed.
Lemma norm_eq a b : a ≈ b -> norm a = norm b.
Proof. intros H. apply norm_unique; [apply norm_range|]. destruct H as (H1 & H2 & H3). transitivity a; [by apply norm_ceq|done]. Qed.

(** ** The reference in these terms *)

Lemma oc_add_ceq a b : 0 <= a < 65536 -> 0 <= b < 65536 -> 0 <= oc_add a b < 65536 /\ oc_add a b ≈ a + b.
Proof.
  intros Ha Hb. unfold oc_add, ceq. destruct (a + b <? 65536) eqn:E; [apply Z.ltb_lt in E|apply Z.ltb_ge in E]; [lia|].
  split; [lia|]. split; [lia|]. split; [lia|]. split; [zdm|lia].
Qed.

(** Induction two bytes at a time. *)
Lemma pairs_ind (P : bytes -> Prop) : P [] -> (forall x, P [x]) -> (forall x y l, P l -> P (x :: y :: l)) -> forall l, P l.
Proof.
  intros H0 H1 H2 l. enough (P l /\ forall x, P (x :: l)) by tauto. induction l as [|y l [IH1 IH2]]; [by split|]. split; [done|].
  intros x. by apply H2.
Qed.

Lemma rfc1071_norm l : bytes_ok l -> rfc1071_sum l = norm (256 * le_val l).
Proof.
  induction l as [|x|x y l IH] using pairs_ind; intros Hl; [done| |]; cbn [rfc1071_sum le_val].
  - apply Forall_cons in Hl as [Hx _]. unfold byte_ok in Hx. apply norm_unique; [lia|]. replace (256 * (x + 256 * 0)) with (256 * x) by lia. apply ceq_refl. lia.
  - apply Forall_cons in Hl as [Hx Hl]. apply Forall_cons in Hl as [Hy Hl]. unfold byte_ok in *. rewrite (IH Hl).
    destruct (oc_add_ceq (256 * x + y) (norm (256 * le_val l)) ltac:(lia) (norm_range _)) as [Hr Hc].
    apply norm_unique; [done|]. pose proof (le_val_range _ Hl) as HL. transitivity (256 * x + y + norm (256 * le_val l)); [done|].
    replace (256 * (x + 256 * (y + 256 * le_val l))) with (256 * x + 65536 * y + 65536 * (256 * le_val l)) by lia.
    apply ceq_add; [apply ceq_add; [apply ceq_refl; lia|symmetry; apply ceq_65536; lia]|].
    transitivity (256 * le_val l); [apply norm_ceq; lia|symmetry; apply ceq_65536; lia].
Qed.

(** ** The operations on 16-bit words *)

Lemma swap_val w : 0 <= w < 65536 -> SWAP_BYTES_IN_WORD w = w mod 256 * 256 + w / 256.
Proof.
  intros Hw. unfold SWAP_BYTES_IN_WORD. change 255 with (2 ^ 8 - 1). rewrite land_mask by lia. rewrite shiftl_mul by lia.
  assert (Z.shiftr (Z.land w 65280) 8 = w / 256) as ->.
  { rewrite Z.shiftr_land, shiftr_div by lia. change (Z.shiftr 65280 8) with (2 ^ 8 - 1). rewrite land_mask by lia. apply Z.mod_small. change (2 ^ 8) with 256. zdm. }
  rewrite Z.lor_comm, (lor_add_disjoint (w / 256) (w mod 2 ^ 8) 8); change (2 ^ 8) with 256; zdm.
Qed.
Lemma swap_range w : 0 <= w < 65536 -> 0 <= SWAP_BYTES_IN_WORD w < 65536.
Proof. intros Hw. rewrite swap_val by done. zdm. Qed.
Lemma swap_ceq w : 0 <= w < 65536 -> SWAP_BYTES_IN_WORD w ≈ 256 * w.
Proof. intros Hw. rewrite swap_val by done. unfold ceq. split; [zdm|]. split; [lia|]. split; zdm. Qed.

Lemma fold_val u : 0 <= u < 4294967296 -> FOLD_U32T u = u / 65536 + u mod 65536.
Proof.
  intros Hu. unfold FOLD_U32T. rewrite shiftr_div by lia. change 65535 with (2 ^ 16 - 1). rewrite land_mask by lia. change (2 ^ 16) with 65536.
  apply u32_id. zdm.
Qed.
Lemma fold_ceq u : 0 <= u < 4294967296 -> FOLD_U32T u ≈ u.
Proof. intros Hu. rewrite fold_val by done. unfold ceq. split; [zdm|]. split; [lia|]. split; zdm. Qed.
Lemma fold_fold u : 0 <= u < 4294967296 -> FOLD_U32T (FOLD_U32T u) = norm u.
Proof.
  intros Hu. pose proof (fold_ceq u Hu) as H1. rewrite (fold_val u) in * by done. set (v := u / 65536 + u mod 65536) in *.
  assert (0 <= v <= 131070) as Hv by (subst v; zdm). apply norm_unique; [rewrite fold_val by lia; clearbody v; zdm|].
  transitivity v; [apply fold_ceq; lia|done].
Qed.
(** Adding a sum to a 16-bit accumulator. *)
Lemma fold_add a c : 0 <= a < 65536 -> 0 <= c < 65536 -> FOLD_U32T (u32 (a + c)) = norm (a + c).
Proof.
  intros Ha Hc. rewrite u32_id by lia. apply norm_unique; [rewrite fold_val by lia; zdm|]. apply fold_ceq. lia.
Qed.

(** ** lwip_standard_chksum *)

Lemma add_words_run data : bytes_ok data -> forall sum, 0 <= sum -> sum + 65535 * (Z.of_nat (length data) / 2) < 4294967296 ->
  exists s rest, add_words data sum = (s, rest) /\ sum <= s <= sum + 65535 * (Z.of_nat (length data) / 2) /\ bytes_ok rest /\
    (rest = [] \/ exists x, rest = [x] /\ Z.of_nat (length data) mod 2 = 1) /\ s + le_val rest ≈ sum + le_val data.
Proof.
  induction data as [|x|x y l IH] using pairs_ind; intros Hd sum Hs Hb; cbn [add_words].
  - exists sum, []. split; [done|]. cbn [length]. split; [zdm|]. split; [done|]. split; [by left|]. cbn. apply ceq_refl. lia.
  - exists sum, [x]. split; [done|]. cbn [length]. split; [zdm|]. split; [done|]. split; [right; eauto|]. apply ceq_refl.
    pose proof (le_val_range _ Hd). lia.
  - apply Forall_cons in Hd as [Hx Hd]. apply Forall_cons in Hd as [Hy Hd]. unfold byte_ok in *. cbn [length] in *.
    assert (Z.of_nat (S (S (length l))) / 2 = Z.of_nat (length l) / 2 + 1) as E2 by zdm. rewrite E2 in *.
    assert (0 <= Z.of_nat (length l) / 2) as Hh by zdm. rewrite u32_id by lia.
    destruct (IH Hd (sum + (x + 256 * y)) ltac:(lia) ltac:(lia)) as (s & rest & E & Hsr & Hro & Hrest & Hc). exists s, rest. split; [done|].
    split; [lia|]. split; [done|]. split.
    { destruct Hrest as [->|(z & -> & Hz)]; [by left|]. right. exists z. split; [done|]. zdm. }
    transitivity (sum + (x + 256 * y) + le_val l); [done|]. pose proof (le_val_range _ Hd). cbn [le_val].
    replace (sum + (x + 256 * (y + 256 * le_val l))) with (sum + (x + 256 * y) + 65536 * le_val l) by lia.
    apply ceq_add; [apply ceq_refl; lia|]. symmetry. apply ceq_65536. lia.
Qed.

Lemma standard_chksum_norm odd data : bytes_ok data -> Z.of_nat (length data) <= 0x20000 ->
  lwip_standard_chksum odd data = norm (le_val data).
Proof.
  intros Hd Hl. unfold lwip_standard_chksum.
  assert (forall t1 dat, 0 <= t1 < 256 -> bytes_ok dat -> (0 < t1 -> Z.of_nat (length dat) <= 0x1FFFF) -> Z.of_nat (length dat) <= 0x20000 ->
    let '(sum, rest) := add_words dat 0 in
    FOLD_U32T (FOLD_U32T (u32 (sum + (match rest with x :: _ => x | [] => 0 end + 256 * t1)))) = norm (le_val dat + 256 * t1)) as Hmain.
  { intros t1 dd Ht Hdd Ht' Hlen. destruct (add_words_run dd Hdd 0 ltac:(lia) ltac:(zdm)) as (s & rest & E & Hs & Hro & Hrest & Hc). rewrite E.
    assert (match rest with x :: _ => x | [] => 0 end = le_val rest) as -> by (destruct Hrest as [->|(z & -> & _)]; cbn; lia).
    assert (0 <= le_val rest < 256 /\ s + le_val rest + 256 * t1 < 4294967296) as [Hr1 Hr2].
    { destruct Hrest as [->|(z & -> & Hz)]; cbn [le_val]; [destruct (Z.eq_dec t1 0); zdm|]. apply Forall_cons in Hro as [Hz' _]. unfold byte_ok in Hz'. zdm. }
    replace (s + (le_val rest + 256 * t1)) with (s + le_val rest + 256 * t1) by lia. rewrite u32_id by lia. rewrite fold_fold by lia.
    apply norm_eq. apply ceq_add; [done|apply ceq_refl; lia]. }
  destruct odd; [destruct data as [|x data]|].
  - done.
  - apply Forall_cons in Hd as [Hx Hd]. unfold byte_ok in Hx. cbn [length] in Hl. specialize (Hmain x data Hx Hd ltac:(lia) ltac:(lia)).
    destruct (add_words data 0) as [sum rest]. rewrite Hmain. pose proof (le_val_range _ Hd). pose proof (norm_range (le_val data + 256 * x)) as Hn.
    rewrite u16_id by (by apply swap_range). apply norm_unique; [by apply swap_range|]. transitivity (256 * norm (le_val data + 256 * x)); [by apply swap_ceq|].
    transitivity (256 * (le_val data + 256 * x)); [apply ceq_mul; [by apply ceq_refl|apply norm_ceq; lia]|]. cbn [le_val].
    replace (256 * (le_val data + 256 * x)) with (65536 * x + 256 * le_val data) by lia. apply ceq_add; [apply ceq_65536; lia|apply ceq_refl; lia].
  - specialize (Hmain 0 data ltac:(lia) Hd ltac:(lia) Hl). assert (match data with [] => (0, data) | _ => (0, data) end = (0, data)) as E by (by destruct data).
    destruct (add_words data 0) as [sum rest]. rewrite Hmain, Z.add_0_r. apply u16_id, norm_range.
Qed.

(** ** Packets *)

Section Packets.
Context `{Addresses}.

Lemma le_val_app a b : le_val (a ++ b) = le_val a + 256 ^ Z.of_nat (length a) * le_val b.
Proof.
  induction a as [|x a IH]; cbn [app le_val length]; [lia|]. rewrite IH, Nat2Z.inj_succ, Z.pow_succ_r by lia. lia.
Qed.

(** The weight of a byte string after an even or odd number of bytes. *)
Definition weight (odd : bool) : Z := if odd then 256 else 1.
Lemma weight_pos b : 0 < weight b.
Proof. by destruct b. Qed.
Lemma weight_sq b : weight b * weight b ≈ 1.
Proof. destruct b; [|by apply ceq_refl]. apply (ceq_65536 1). lia. Qed.
Lemma weight_flip b : 256 * weight b ≈ weight (negb b).
Proof. destruct b; cbn [weight negb]; [apply (ceq_65536 1); lia|by apply ceq_refl]. Qed.
Lemma pow_weight n : 0 <= n -> 256 ^ n ≈ weight (negb (n mod 2 =? 0)).
Proof.
  intros Hn. revert n Hn. apply natlike_ind; [by apply ceq_refl|]. intros n Hn IH. rewrite Z.pow_succ_r by done.
  transitivity (256 * weight (negb (n mod 2 =? 0))); [apply ceq_mul; [by apply ceq_refl|done]|].
  replace (Z.succ n mod 2 =? 0) with (negb (n mod 2 =? 0)) by (destruct (n mod 2 =? 0) eqn:E1, (Z.succ n mod 2 =? 0) eqn:E2; zdm).
  apply weight_flip.
Qed.

Lemma ptr_add_0 q : ptr_add q 0 = q.
Proof. destruct q. unfold ptr_add. cbn. f_equal. lia. Qed.

Lemma chksum_cell_run s b n : cell_ok (dat s) b -> bytes_ok (cell_data (dat s) b) -> 0 <= n <= pb_len b -> pb_len b < 65536 ->
  chksum_cell (pb_payload b) n s = Ok (norm (le_val (take (Z.to_nat n) (cell_data (dat s) b))), s).
Proof.
  intros Hc Hb Hn Hl. unfold chksum_cell. pose proof (pread_cell s b 0 n Hc ltac:(lia) ltac:(lia) ltac:(lia)) as E. rewrite ptr_add_0, drop_0 in E.
  rewrite (bind_run _ _ _ _ _ E). unfold ret. do 2 f_equal. apply standard_chksum_norm; [by apply Forall_take|]. rewrite length_take. lia.
Qed.

(** The accumulator after a cell: [sum] bytes are summed, an odd number if [sw]. *)
Lemma chksum_step acc sw sum c len : 0 <= acc < 65536 -> 0 <= sum -> 0 <= c -> 0 <= len -> acc ≈ weight sw * sum ->
  let acc1 := FOLD_U32T (u32 (acc + norm c)) in
  let odd := negb (len mod 2 =? 0) in
  let acc2 := if odd then SWAP_BYTES_IN_WORD acc1 else acc1 in
  0 <= acc2 < 65536 /\ acc2 ≈ weight (xorb sw odd) * (sum + weight sw * c) /\ weight sw * 256 ^ len ≈ weight (xorb sw odd).
Proof.
  intros Ha Hs Hc Hl Hacc acc1 odd acc2. pose proof (weight_pos sw) as Hw. subst acc1 acc2. rewrite fold_add by (done || apply norm_range).
  pose proof (norm_range (acc + norm c)) as Hr. pose proof (norm_range c).
  assert (norm (acc + norm c) ≈ weight sw * (sum + weight sw * c)) as H1.
  { transitivity (acc + norm c); [apply norm_ceq; lia|]. rewrite Z.mul_add_distr_l, Z.mul_assoc. apply ceq_add; [done|].
    transitivity (1 * c); [rewrite Z.mul_1_l; by apply norm_ceq|]. apply ceq_mul; [symmetry; apply weight_sq|by apply ceq_refl]. }
  assert (weight sw * 256 ^ len ≈ weight (xorb sw odd)) as H2.
  { transitivity (weight sw * weight odd); [apply ceq_mul; [apply ceq_refl; lia|by apply pow_weight]|].
    destruct odd, sw; cbn; try (by apply ceq_refl). apply (ceq_65536 1). lia. }
  split; [|split; [|done]].
  - destruct odd; [by apply swap_range|done].
  - destruct odd; [|by rewrite xorb_false_r]. rewrite xorb_true_r. transitivity (256 * norm (acc + norm c)); [by apply swap_ceq|].
    transitivity (256 * (weight sw * (sum + weight sw * c))); [apply ceq_mul; [by apply ceq_refl|done]|]. rewrite Z.mul_assoc.
    apply ceq_mul; [apply weight_flip|apply ceq_refl; nia].
Qed.

Lemma chksum_loop_run s l : forall p fuel acc sw sum, packet s p l -> bytes_of (dat s) l -> (length l < fuel)%nat ->
  0 <= acc < 65536 -> 0 <= sum -> acc ≈ weight sw * sum ->
  exists acc' sw', chksum_loop fuel p acc sw s = Ok ((acc', sw'), s) /\ 0 <= acc' < 65536 /\
    acc' ≈ weight sw' * (sum + weight sw * le_val (content (dat s) l)).
Proof.
  induction l as [|[q b] l IH]; intros p fuel acc sw sum Hp Hby Hf Ha Hs Hacc; (destruct fuel as [|fuel]; [cbn in Hf; lia|]); cbn [chksum_loop].
  - destruct Hp as [-> _ _ _]. exists acc, sw. split; [done|]. split; [done|]. cbn [content map concat le_val]. by rewrite Z.mul_0_r, Z.add_0_r.
  - destruct (packet_head _ _ _ _ _ Hp) as (-> & Hq & Hb & Hc & Ht & Hlb & Hls). unfold bytes_of in Hby. rewrite content_cons in Hby |- *.
    apply Forall_app in Hby as [Hby1 Hby2]. cbn [snd length] in *. rewrite (proj2 (Z.eqb_neq _ _) Hq), (getp_run _ _ _ _ Hq Hb).
    rewrite (bind_run _ _ _ _ _ (chksum_cell_run _ b (pb_len b) Hc Hby1 ltac:(lia) ltac:(lia))). pose proof (length_cell _ _ Hc) as HL. rewrite take_ge by lia.
    set (c := le_val (cell_data (dat s) b)). pose proof (le_val_range _ Hby1) as Hc0. pose proof (le_val_range _ Hby2) as Hr0.
    destruct (chksum_step acc sw sum c (pb_len b) Ha Hs ltac:(lia) ltac:(lia) Hacc) as (A1 & A2 & A3). pose proof (weight_pos sw) as Hw.
    set (odd := negb (pb_len b mod 2 =? 0)) in *. set (acc1 := FOLD_U32T _) in *.
    destruct (IH (pb_next b) fuel (if odd then SWAP_BYTES_IN_WORD acc1 else acc1) (xorb sw odd) (sum + weight sw * c)
      (packet_tail _ _ _ _ _ Hp) Hby2 ltac:(lia) A1 ltac:(subst c; nia) A2) as (acc' & sw' & E & Hr & Hc').
    exists acc', sw'. split; [destruct odd; [by rewrite xorb_true_r in E|by rewrite xorb_false_r in E]|]. split; [done|].
    etransitivity; [exact Hc'|]. apply ceq_mul; [apply ceq_refl; pose proof (weight_pos sw'); lia|]. rewrite le_val_app, Z.mul_add_distr_l, Z.add_assoc.
    apply ceq_add; [apply ceq_refl; subst c; nia|]. rewrite Z.mul_assoc, HL. apply ceq_mul; [by symmetry|apply ceq_refl; lia].
Qed.

Lemma unswap acc sw v : 0 <= acc < 65536 -> 0 <= v -> acc ≈ weight sw * v ->
  (if sw then SWAP_BYTES_IN_WORD acc else acc) = norm v.
Proof.
  intros Ha Hv Hacc. destruct sw; cbn [weight] in Hacc.
  - apply norm_unique; [by apply swap_range|]. transitivity (256 * acc); [by apply swap_ceq|]. transitivity (65536 * v); [|by apply ceq_65536].
    replace (65536 * v) with (256 * (256 * v)) by lia. apply ceq_mul; [by apply ceq_refl|done].
  - apply norm_unique; [done|]. by rewrite Z.mul_1_l in Hacc.
Qed.

(** Only a front of the packet is summed. *)
Lemma chksum_partial_loop_run s l : forall p fuel n acc sw sum, packet s p l -> bytes_of (dat s) l -> (length l < fuel)%nat -> 0 <= n < 65536 ->
  0 <= acc < 65536 -> 0 <= sum -> acc ≈ weight sw * sum ->
  exists acc' sw', chksum_partial_loop fuel p n acc sw s = Ok ((acc', sw'), s) /\ 0 <= acc' < 65536 /\
    acc' ≈ weight sw' * (sum + weight sw * le_val (take (Z.to_nat n) (content (dat s) l))).
Proof.
  induction l as [|[q b] l IH]; intros p fuel n acc sw sum Hp Hby Hf Hn Ha Hs Hacc; (destruct fuel as [|fuel]; [cbn in Hf; lia|]); cbn [chksum_partial_loop].
  - destruct Hp as [-> _ _ _]. exists acc, sw. split; [done|]. split; [done|]. cbn [content map concat]. rewrite take_nil. cbn [le_val]. by rewrite Z.mul_0_r, Z.add_0_r.
  - destruct (packet_head _ _ _ _ _ Hp) as (-> & Hq & Hb & Hc & Ht & Hlb & Hls). unfold bytes_of in Hby. rewrite content_cons in Hby |- *.
    apply Forall_app in Hby as [Hby1 Hby2]. cbn [snd length] in *. rewrite (proj2 (Z.eqb_neq _ _) Hq). cbn [orb]. destruct (n =? 0) eqn:E0.
    { apply Z.eqb_eq in E0 as ->. exists acc, sw. split; [done|]. split; [done|]. rewrite take_0. cbn [le_val]. by rewrite Z.mul_0_r, Z.add_0_r. }
    rewrite (getp_run _ _ _ _ Hq Hb). set (k := if n <? pb_len b then n else pb_len b).
    assert (k = Z.min n (pb_len b)) as Hk by (subst k; destruct (_ <? _) eqn:E; lia). clearbody k.
    rewrite (bind_run _ _ _ _ _ (chksum_cell_run _ b k Hc Hby1 ltac:(lia) ltac:(lia))). pose proof (length_cell _ _ Hc) as HL. rewrite u16_id by lia.
    set (c := le_val (take (Z.to_nat k) (cell_data (dat s) b))). assert (bytes_ok (take (Z.to_nat k) (cell_data (dat s) b))) as Hbk by (by apply Forall_take).
    assert (bytes_ok (take (Z.to_nat (n - k)) (content (dat s) l))) as Hbr by (by apply Forall_take).
    pose proof (le_val_range _ Hbk) as Hc0. pose proof (le_val_range _ Hbr) as Hr0.
    destruct (chksum_step acc sw sum c (pb_len b) Ha Hs ltac:(lia) ltac:(lia) Hacc) as (A1 & A2 & A3). pose proof (weight_pos sw) as Hw.
    set (odd := negb (pb_len b mod 2 =? 0)) in *. set (acc1 := FOLD_U32T _) in *.
    destruct (IH (pb_next b) fuel (n - k) (if odd then SWAP_BYTES_IN_WORD acc1 else acc1) (xorb sw odd) (sum + weight sw * c)
      (packet_tail _ _ _ _ _ Hp) Hby2 ltac:(lia) ltac:(lia) A1 ltac:(subst c; nia) A2) as (acc' & sw' & E & Hr & Hc').
    exists acc', sw'. split; [destruct odd; [by rewrite xorb_true_r in E|by rewrite xorb_false_r in E]|]. split; [done|].
    etransitivity; [exact Hc'|]. apply ceq_mul; [apply ceq_refl; pose proof (weight_pos sw'); lia|].
    rewrite take_app, le_val_app, Z.mul_add_distr_l, Z.add_assoc. replace (take (Z.to_nat n) (cell_data (dat s) b)) with (take (Z.to_nat k) (cell_data (dat s) b))
      by (destruct (Z_le_gt_dec n (pb_len b)); [f_equal; lia|rewrite !take_ge by lia; done]).
    replace (Z.to_nat n - length (cell_data (dat s) b))%nat with (Z.to_nat (n - k)) by lia.
    apply ceq_add; [apply ceq_refl; subst c; nia|]. rewrite Z.mul_assoc, length_take. destruct (Z_le_gt_dec n (pb_len b)).
    { replace (Z.to_nat (n - k)) with 0%nat by lia. rewrite take_0. cbn [le_val]. rewrite !Z.mul_0_r. by apply ceq_refl. }
    replace (Z.of_nat (Init.Nat.min (Z.to_nat k) (length (cell_data (dat s) b)))) with (pb_len b) by lia. apply ceq_mul; [by symmetry|apply ceq_refl; lia].
Qed.

Lemma chksum_finish_run proto plen v : 0 <= proto < 256 -> 0 <= plen < 65536 -> 0 <= v ->
  chksum_finish proto plen (norm v) = not16 (norm (v + 256 * proto + SWAP_BYTES_IN_WORD plen)).
Proof.
  intros Hp Hl Hv. unfold chksum_finish, lwip_htons, PP_HTONS. fold (SWAP_BYTES_IN_WORD (u16 proto)). fold (SWAP_BYTES_IN_WORD plen).
  rewrite (u16_id proto) by lia. pose proof (swap_range proto ltac:(lia)) as R1. pose proof (swap_range plen Hl) as R2. pose proof (norm_range v) as R3.
  rewrite (u16_id (SWAP_BYTES_IN_WORD proto)), (u16_id (SWAP_BYTES_IN_WORD plen)) by done. rewrite !u32_id; rewrite ?u32_id; try lia. rewrite fold_fold by lia.
  change 65535 with (2 ^ 16 - 1) at 1. rewrite land_mask by lia. change (2 ^ 16) with 65536. rewrite Z.mod_small by apply norm_range. f_equal. apply norm_eq.
  apply ceq_add; [|apply ceq_refl; lia]. rewrite swap_val by lia. replace (proto mod 256 * 256 + proto / 256) with (256 * proto) by zdm.
  apply ceq_add; [by apply norm_ceq|apply ceq_refl; lia].
Qed.

Lemma chksum_addresses_run src dest : 0 <= src < 4294967296 -> 0 <= dest < 4294967296 -> chksum_addresses src dest = norm (src + dest).
Proof.
  intros Hs Hd. unfold chksum_addresses. change 65535 with (2 ^ 16 - 1). rewrite !land_mask, !shiftr_div by lia. change (2 ^ 16) with 65536.
  assert (forall a, 0 <= a < 4294967296 -> a mod 65536 + (a / 65536) mod 65536 ≈ a) as Hsum.
  { intros a Ha. rewrite (Z.mod_small (a / 65536)) by zdm. unfold ceq. split; [zdm|]. split; [lia|]. split; zdm. }
  pose proof (Z.mod_pos_bound src 65536 ltac:(lia)). pose proof (Z.mod_pos_bound (src / 65536) 65536 ltac:(lia)).
  pose proof (Z.mod_pos_bound dest 65536 ltac:(lia)). pose proof (Z.mod_pos_bound (dest / 65536) 65536 ltac:(lia)).
  set (a := src mod 65536) in *. set (b := (src / 65536) mod 65536) in *. set (c := dest mod 65536) in *. set (d := (dest / 65536) mod 65536) in *.
  rewrite (u32_id (a + b)), (u32_id (a + b + c)), (u32_id (a + b + c + d)) by lia. rewrite fold_fold by lia. apply norm_eq. rewrite <- Z.add_assoc.
  apply ceq_add; by apply Hsum.
Qed.

(** A checksum in memory, as the code stores it and as RFC 1071 defines it. *)
Lemma checksum_bytes l : bytes_ok l -> le_bytes 2 (not16 (norm (le_val l))) = be_bytes 2 (rfc1071_checksum l).
Proof.
  intros Hl. unfold rfc1071_checksum. rewrite rfc1071_norm by done. pose proof (le_val_range _ Hl). pose proof (norm_range (le_val l)) as Hr.
  assert (norm (256 * le_val l) = SWAP_BYTES_IN_WORD (norm (le_val l))) as ->.
  { symmetry. apply norm_unique; [by apply swap_range|]. transitivity (256 * norm (le_val l)); [by apply swap_ceq|].
    apply ceq_mul; [by apply ceq_refl|apply norm_ceq; lia]. }
  rewrite swap_val by done. set (w := norm _) in *. clearbody w. unfold be_bytes, not16. cbn [le_bytes]. cbn [reverse rev_append rev app].
  change (reverse [?a; ?b]) with [b; a]. unfold u8. clear - Hr. f_equal; [|f_equal]; zdm.
Qed.

Definition pseudo_header (src dest : bytes) (proto len : Z) : bytes := src ++ dest ++ [0; proto] ++ be_bytes 2 len.

Lemma pseudo_header_sum src dest proto len data : length src = 4%nat -> length dest = 4%nat -> bytes_ok src -> bytes_ok dest -> 0 <= proto < 256 -> 0 <= len < 65536 ->
  bytes_ok data ->
  norm (le_val src + le_val dest + le_val data + 256 * proto + SWAP_BYTES_IN_WORD len) = norm (le_val (pseudo_header src dest proto len ++ data)).
Proof.
  intros Ls Ld Hs Hd Hp Hl Hda. unfold pseudo_header. rewrite <- !app_assoc, !le_val_app, Ls, Ld, length_be_bytes. cbn [length app le_val].
  pose proof (le_val_range _ Hs). pose proof (le_val_range _ Hd). pose proof (le_val_range _ Hda).
  assert (le_val (be_bytes 2 len) = SWAP_BYTES_IN_WORD len) as ->.
  { rewrite swap_val by done. unfold be_bytes. cbn [le_bytes]. change (reverse [?a; ?b]) with [b; a]. cbn [le_val]. unfold u8. clear - Hl. zdm. }
  pose proof (swap_range len Hl). apply norm_eq. set (L := SWAP_BYTES_IN_WORD len) in *. set (x := le_val src) in *. set (y := le_val dest) in *. set (z := le_val data) in *.
  change (256 ^ Z.of_nat 4) with (65536 * 65536). change (256 ^ Z.of_nat 2) with 65536.
  assert (forall a b, 0 <= a -> 0 <= b -> a ≈ b -> a ≈ 65536 * b) as Hmul by (intros a b Ha Hb Hab; transitivity b; [done|symmetry; by apply ceq_65536]).
  replace (x + y + z + 256 * proto + L) with (x + (y + (256 * proto + (L + z)))) by lia. apply ceq_add; [apply ceq_refl; lia|].
  rewrite <- Z.mul_assoc. apply Hmul; [lia|nia|]. apply Hmul; [lia|nia|]. apply ceq_add; [apply ceq_refl; lia|].
  rewrite <- Z.mul_assoc. apply Hmul; [lia|nia|]. apply Hmul; [lia|nia|]. apply ceq_add; [rewrite Z.mul_0_r, Z.add_0_r; apply ceq_refl; lia|].
  apply Hmul; [lia|nia|]. apply ceq_add; [apply ceq_refl; lia|]. apply Hmul; [lia|lia|]. apply ceq_refl. lia.
Qed.

Lemma inet_chksum_pseudo_run s p l proto plen src dest : packet s p l -> bytes_of (dat s) l -> 0 <= proto < 256 -> 0 <= plen < 65536 ->
  length src = 4%nat -> length dest = 4%nat -> bytes_ok src -> bytes_ok dest ->
  inet_chksum_pseudo p proto plen (le_val src) (le_val dest) s =
    Ok (not16 (norm (le_val (pseudo_header src dest proto plen ++ content (dat s) l))), s).
Proof.
  intros Hp Hby Hpr Hpl Ls Ld Hs Hd. unfold inet_chksum_pseudo, inet_cksum_pseudo_base. rewrite chain_fuel_run.
  pose proof (le_val_range _ Hs) as Rs. rewrite Ls in Rs. pose proof (le_val_range _ Hd) as Rd. rewrite Ld in Rd. change (256 ^ Z.of_nat 4) with 4294967296 in *.
  pose proof (le_val_range _ Hby) as Rc. rewrite chksum_addresses_run by done. pose proof (chain_size _ _ _ (pk_chain _ _ _ Hp)) as Hz.
  destruct (chksum_loop_run s l p (S (size (pbs s))) (norm (le_val src + le_val dest)) false (le_val src + le_val dest) Hp Hby ltac:(lia) (norm_range _) ltac:(lia))
    as (acc & sw & E & Hr & Hc); [cbn [weight]; rewrite Z.mul_1_l; apply norm_ceq; lia|].
  rewrite (bind_run _ _ _ _ _ E). cbv beta iota. cbn [weight] in Hc. rewrite !Z.mul_1_l in Hc. rewrite (unswap acc sw (le_val src + le_val dest + le_val (content (dat s) l)) Hr ltac:(lia) Hc).
  rewrite chksum_finish_run by (done || lia). unfold ret. by rewrite pseudo_header_sum.
Qed.

Lemma inet_chksum_pseudo_partial_run s p l proto plen n src dest : packet s p l -> bytes_of (dat s) l -> 0 <= proto < 256 -> 0 <= plen < 65536 -> 0 <= n < 65536 ->
  length src = 4%nat -> length dest = 4%nat -> bytes_ok src -> bytes_ok dest ->
  inet_chksum_pseudo_partial p proto plen n (le_val src) (le_val dest) s =
    Ok (not16 (norm (le_val (pseudo_header src dest proto plen ++ take (Z.to_nat n) (content (dat s) l)))), s).
Proof.
  intros Hp Hby Hpr Hpl Hn Ls Ld Hs Hd. unfold inet_chksum_pseudo_partial, inet_cksum_pseudo_partial_base. rewrite chain_fuel_run.
  pose proof (le_val_range _ Hs) as Rs. rewrite Ls in Rs. pose proof (le_val_range _ Hd) as Rd. rewrite Ld in Rd. change (256 ^ Z.of_nat 4) with 4294967296 in *.
  assert (bytes_ok (take (Z.to_nat n) (content (dat s) l))) as Hbt by (by apply Forall_take).
  pose proof (le_val_range _ Hbt) as Rc. rewrite chksum_addresses_run by done. pose proof (chain_size _ _ _ (pk_chain _ _ _ Hp)) as Hz.
  destruct (chksum_partial_loop_run s l p (S (size (pbs s))) n (norm (le_val src + le_val dest)) false (le_val src + le_val dest) Hp Hby ltac:(lia) Hn (norm_range _) ltac:(lia))
    as (acc & sw & E & Hr & Hc); [cbn [weight]; rewrite Z.mul_1_l; apply norm_ceq; lia|].
  rewrite (bind_run _ _ _ _ _ E). cbv beta iota. cbn [weight] in Hc. rewrite !Z.mul_1_l in Hc. rewrite (unswap acc sw (le_val src + le_val dest + le_val (take (Z.to_nat n) (content (dat s) l))) Hr ltac:(lia) Hc).
  rewrite chksum_finish_run by (done || lia). unfold ret. by rewrite pseudo_header_sum.
Qed.

Lemma inet_chksum_pbuf_run s p l : packet s p l -> bytes_of (dat s) l ->
  inet_chksum_pbuf p s = Ok (not16 (norm (le_val (content (dat s) l))), s).
Proof.
  intros Hp Hby. unfold inet_chksum_pbuf. rewrite chain_fuel_run. pose proof (chain_size _ _ _ (pk_chain _ _ _ Hp)) as Hz. pose proof (le_val_range _ Hby) as Rc.
  destruct (chksum_loop_run s l p (S (size (pbs s))) 0 false 0 Hp Hby ltac:(lia) ltac:(lia) ltac:(lia)) as (acc & sw & E & Hr & Hc); [by apply ceq_refl|].
  rewrite (bind_run _ _ _ _ _ E). cbv beta iota. cbn [weight] in Hc. rewrite !Z.mul_1_l, Z.add_0_l in Hc. rewrite (unswap acc sw (le_val (content (dat s) l)) Hr ltac:(lia) Hc).
  unfold ret. change 65535 with (2 ^ 16 - 1) at 1. rewrite land_mask by lia. change (2 ^ 16) with 65536. by rewrite Z.mod_small by apply norm_range.
Qed.
End Packets.

Lemma pseudo_header_ok src dest proto len : bytes_ok src -> bytes_ok dest -> 0 <= proto < 256 -> bytes_ok (pseudo_header src dest proto len).
Proof.
  intros Hs Hd Hp. unfold pseudo_header. repeat apply Forall_app_2; [done|done| |apply be_bytes_ok]. repeat constructor; unfold byte_ok; lia.
Qed.

(** A message whose checksum field, at an even offset, holds the checksum of the
    message with the field zero has checksum zero. *)
Lemma checksum_zero a b c : bytes_ok a -> bytes_ok b -> Nat.Even (length a) -> c = not16 (norm (le_val (a ++ [0; 0] ++ b))) ->
  not16 (norm (le_val (a ++ le_bytes 2 c ++ b))) = 0.
Proof.
  intros Ha Hb [k Hk] ->. set (V := le_val (a ++ [0; 0] ++ b)). pose proof (norm_range V) as Hr.
  assert (bytes_ok (a ++ [0; 0] ++ b)) as Hok by (repeat apply Forall_app_2; [done|repeat constructor; unfold byte_ok; lia|done]).
  pose proof (le_val_range _ Hok) as HV. fold V in HV. set (c := not16 (norm V)). assert (0 <= c < 65536) as Hc by (subst c; unfold not16; lia).
  assert (le_val (a ++ le_bytes 2 c ++ b) = V + 256 ^ Z.of_nat (length a) * c) as ->.
  { subst V. rewrite !le_val_app, length_le_bytes, le_val_bytes. change (256 ^ Z.of_nat 2) with 65536. rewrite (Z.mod_small c) by done. cbn [length le_val]. change (256 ^ Z.of_nat 2) with 65536. lia. }
  assert (256 ^ Z.of_nat (length a) ≈ 1) as Hw by (pose proof (pow_weight (Z.of_nat (length a)) ltac:(lia)) as E;
    replace (Z.of_nat (length a) mod 2) with 0 in E by zdm; exact E).
  assert (norm (V + 256 ^ Z.of_nat (length a) * c) = 65535) as ->; [|done]. symmetry. apply norm_unique; [lia|].
  transitivity (norm V + 1 * c); [replace (norm V + 1 * c) with 65535 by (subst c; unfold not16; lia); apply ceq_refl; lia|].
  apply ceq_add; [apply norm_ceq; lia|]. apply ceq_mul; [by symmetry|apply ceq_refl; lia].
Qed.
