(* ===== verification/Ethernet.v ===== *)
(** arm_host/source/lwip/netif/ethernet.c: Ethernet framing of this port, where
    every frame carries two leading bytes, an 802.3 length and a SNAP header,
    and the address predicates of ipv4/ip4_addr.c.

    [stack U] is the part of lwIP below IP: packet memory, the ARP table, the
    interface and the frames handed to the driver; [U] is the state of what lies
    above (IP, address conflict detection), whose entry points are arguments. *)

From stdpp Require Import gmap.
From S2P Require Import Prelude Cmonad Cutils Heap Pbuf Inet.

(** ** State *)

Inductive etharp_state :=
| ETHARP_STATE_EMPTY | ETHARP_STATE_PENDING | ETHARP_STATE_STABLE
| ETHARP_STATE_STABLE_REREQUESTING_1 | ETHARP_STATE_STABLE_REREQUESTING_2.
#[export] Instance etharp_state_eq_dec : EqDecision etharp_state.
Proof. solve_decision. Defined.

(** One waiting packet per entry (ARP_QUEUEING is 0); [ar_netif]: is the pointer
    to the interface set? *)
Record etharp_entry := mk_entry {
  ar_q : Z; ar_ipaddr : Z; ar_netif : bool; ar_ethaddr : bytes; ar_ctime : Z; ar_state : etharp_state
}.
Definition eta_entry (e : etharp_entry) : etharp_entry :=
  mk_entry (ar_q e) (ar_ipaddr e) (ar_netif e) (ar_ethaddr e) (ar_ctime e) (ar_state e).
#[export] Instance set_ar_q : Setter ar_q := ltac:(mk_setter eta_entry).
#[export] Instance set_ar_ipaddr : Setter ar_ipaddr := ltac:(mk_setter eta_entry).
#[export] Instance set_ar_netif : Setter ar_netif := ltac:(mk_setter eta_entry).
#[export] Instance set_ar_ethaddr : Setter ar_ethaddr := ltac:(mk_setter eta_entry).
#[export] Instance set_ar_ctime : Setter ar_ctime := ltac:(mk_setter eta_entry).
#[export] Instance set_ar_state : Setter ar_state := ltac:(mk_setter eta_entry).

(** The interface; addresses are 32-bit values in network byte order; [nf_hint]
    is NULL or the hint of the connection that is sending. *)
Record netif_t := mk_netif {
  nf_hwaddr : bytes; nf_ip : Z; nf_netmask : Z; nf_gw : Z; nf_flags : Z; nf_num : Z; nf_hint : option Z
}.
Definition eta_netif (n : netif_t) : netif_t :=
  mk_netif (nf_hwaddr n) (nf_ip n) (nf_netmask n) (nf_gw n) (nf_flags n) (nf_num n) (nf_hint n).
#[export] Instance set_nf_hint : Setter nf_hint := ltac:(mk_setter eta_netif).

Record stack (U : Type) := mk_stack {
  mem : lmem; arp_table : list etharp_entry; nif : netif_t; sent : list bytes; upper : U
}.
Arguments mk_stack {U}.
Arguments mem {U} _. Arguments arp_table {U} _. Arguments nif {U} _. Arguments sent {U} _. Arguments upper {U} _.
Definition eta_stack {U} (s : stack U) : stack U := mk_stack (mem s) (arp_table s) (nif s) (sent s) (upper s).
#[export] Instance set_mem {U} : Setter (@mem U) := ltac:(mk_setter (@eta_stack U)).
#[export] Instance set_arp_table {U} : Setter (@arp_table U) := ltac:(mk_setter (@eta_stack U)).
#[export] Instance set_nif {U} : Setter (@nif U) := ltac:(mk_setter (@eta_stack U)).
#[export] Instance set_sent {U} : Setter (@sent U) := ltac:(mk_setter (@eta_stack U)).
#[export] Instance set_upper {U} : Setter (@upper U) := ltac:(mk_setter (@eta_stack U)).

(** ** IPv4 addresses *)

Definition IPADDR_ANY : Z := 0.
Definition IPADDR_BROADCAST : Z := 0xFFFFFFFF.
Definition NETIF_FLAG_UP : Z := 0x01.
Definition NETIF_FLAG_BROADCAST : Z := 0x02.
Definition NETIF_FLAG_LINK_UP : Z := 0x04.
Definition NETIF_FLAG_ETHARP : Z := 0x08.
Definition NETIF_FLAG_ETHERNET : Z := 0x10.
Definition NETIF_FLAG_IGMP : Z := 0x20.
Definition NETIF_FLAG_MLD6 : Z := 0x40.

Definition ip4_addr_isany_val (a : Z) : bool := a =? IPADDR_ANY.
Definition ip4_addr_net_eq (a b mask : Z) : bool := Z.land a mask =? Z.land b mask.
Definition ip4_addr_ismulticast (a : Z) : bool := Z.land a (PP_HTONL 0xf0000000) =? PP_HTONL 0xe0000000.
Definition ip4_addr_islinklocal (a : Z) : bool := Z.land a (PP_HTONL 0xffff0000) =? PP_HTONL 0xa9fe0000.
Definition ip4_addr_get_byte (a : Z) (idx : nat) : Z := nth idx (le_bytes 4 a) 0.
Definition ip4_addr_isbroadcast_u32 (addr : Z) (n : netif_t) : bool :=
  if (not32 addr =? IPADDR_ANY) || (addr =? IPADDR_ANY) then true
  else if Z.land (nf_flags n) NETIF_FLAG_BROADCAST =? 0 then false
  else if addr =? nf_ip n then false
  else ip4_addr_net_eq addr (nf_ip n) (nf_netmask n) &&
       (Z.land addr (not32 (nf_netmask n)) =? Z.land IPADDR_BROADCAST (not32 (nf_netmask n))).

(** ** Framing *)

Definition ETH_HWADDR_LEN : Z := 6.
Definition SIZEOF_ETH_HDR : Z := 22 + ETH_PAD_SIZE.
Definition ETHTYPE_IP : Z := 0x0800.
Definition ETHTYPE_ARP : Z := 0x0806.
Definition PBUF_FLAG_LLBCAST : Z := 0x08.
Definition PBUF_FLAG_LLMCAST : Z := 0x10.
Definition LL_IP4_MULTICAST_ADDR_0 : Z := 0x01.
Definition LL_IP4_MULTICAST_ADDR_1 : Z := 0x00.
Definition LL_IP4_MULTICAST_ADDR_2 : Z := 0x5e.
Definition ethbroadcast : bytes := repeat 0xff 6.
Definition ethzero : bytes := repeat 0 6.

(** Offsets in struct eth_hdr. *)
Definition ETH_PADDING : Z := 0.
Definition ETH_DEST : Z := 2.
Definition ETH_SRC : Z := 8.
Definition ETH_LEN : Z := 14.
Definition ETH_SNAP : Z := 16.
Definition ETH_TYPE : Z := 22.

Definition netif_get_index (n : netif_t) : Z := u8 (nf_num n + 1).

(** The size of a slot of the packet rings (wifi_host.c). *)
Definition DATA_BUF_LEN : Z := 0x600.

Section Ethernet.
Context `{PbufEnv} {U : Type}.

Definition onmem {A} (m : M lmem A) : M (stack U) A := zoom mem (fun t s => s <| mem := t |>) m.

(** netif->linkoutput is ath_link_output of wifi_host.c, which calls data_send_link
    with the first cell: nothing is sent of an empty one, and no more than fits a
    slot of the ring of a long one. *)
Definition linkoutput (p : Z) : M (stack U) Z :=
  let* b := onmem (getp p) in
  if pb_len b =? 0 then ret ERR_OK else
  let len := if DATA_BUF_LEN <? pb_len b then DATA_BUF_LEN else pb_len b in
  let* d := onmem (pread (pb_payload b) len) in
  modify (fun s => s <| sent := sent s ++ [d] |>) ;;; ret ERR_OK.

Definition ethernet_output (p : Z) (src dst : bytes) (eth_type : Z) : M (stack U) Z :=
  let eth_type_be := lwip_htons eth_type in
  let* r := onmem (pbuf_add_header p SIZEOF_ETH_HDR) in
  if negb (r =? 0) then ret ERR_BUF else
  let* b := onmem (getp p) in
  let put off d := onmem (pwrite (ptr_add (pb_payload b) off) d) in
  put ETH_TYPE (le_bytes 2 eth_type_be) ;;;
  put ETH_DEST dst ;;;
  put ETH_SRC src ;;;
  put ETH_SNAP [0xAA; 0xAA; 0x03; 0x00; 0x00; 0x00] ;;;
  put ETH_PADDING [0x00; 0x1C] ;;;
  put ETH_LEN (le_bytes 2 (lwip_htons (u16 (pb_len b - 14)))) ;;;
  linkoutput p.

(** ** Input *)

Definition mark (p flag : Z) : M (stack U) unit := onmem (updp p (fun b => b <| pb_flags := Z.lor (pb_flags b) flag |>)).
Definition free_and_return (p : Z) : M (stack U) Z := onmem (pbuf_free p) ;;; ret ERR_OK.

(** [ip4_input] and [etharp_input] take the packet over. *)
Definition ethernet_input (ip4_input etharp_input : Z -> M (stack U) unit) (p : Z) : M (stack U) Z :=
  let* b := onmem (getp p) in
  if pb_len b <=? SIZEOF_ETH_HDR then free_and_return p else
  let* n := gets nif in
  (if pb_if_idx b =? NETIF_NO_INDEX then onmem (updp p (fun b => b <| pb_if_idx := netif_get_index n |>)) else ret tt) ;;;
  let* hdr := onmem (pread (pb_payload b) SIZEOF_ETH_HDR) in
  let type := le_val (take 2 (drop 22 hdr)) in
  let dest := take 6 (drop 2 hdr) in
  (if negb (Z.land (nth 0 dest 0) 1 =? 0) then
     if nth 0 dest 0 =? LL_IP4_MULTICAST_ADDR_0 then
       if (nth 1 dest 0 =? LL_IP4_MULTICAST_ADDR_1) && (nth 2 dest 0 =? LL_IP4_MULTICAST_ADDR_2)
       then mark p PBUF_FLAG_LLMCAST else ret tt
     else if bool_decide (dest = ethbroadcast) then mark p PBUF_FLAG_LLBCAST else ret tt
   else ret tt) ;;;
  let to_layer (f : Z -> M (stack U) unit) :=
    if Z.land (nf_flags n) NETIF_FLAG_ETHARP =? 0 then free_and_return p else
    let* r := onmem (pbuf_remove_header p SIZEOF_ETH_HDR) in
    if negb (r =? 0) then free_and_return p else f p ;;; ret ERR_OK in
  if type =? PP_HTONS ETHTYPE_IP then to_layer ip4_input
  else if type =? PP_HTONS ETHTYPE_ARP then to_layer etharp_input
  else free_and_return p.

End Ethernet.
