(* ===== verification/Etharp.v ===== *)
(** arm_host/source/lwip/ipv4/etharp.c: the ARP table, address resolution with
    one waiting packet per entry, and ARP messages.

    Configuration: ARP_QUEUEING, ETHARP_SUPPORT_STATIC_ENTRIES,
    ETHARP_TABLE_MATCH_NETIF and LWIP_AUTOIP are 0, LWIP_NETIF_HWADDRHINT and
    LWIP_ACD are 1; LWIP_DEBUG is defined (as 0), so freed entries are cleared. *)

From stdpp Require Import gmap.
From S2P Require Import Prelude Cmonad Cutils Heap Pbuf Inet Ethernet.

Definition ARP_TABLE_SIZE : Z := 10.
Definition ARP_MAXAGE : Z := 300.
Definition ARP_AGE_REREQUEST_USED_UNICAST : Z := ARP_MAXAGE - 30.
Definition ARP_AGE_REREQUEST_USED_BROADCAST : Z := ARP_MAXAGE - 15.
Definition ARP_MAXPENDING : Z := 5.
Definition ETHARP_FLAG_TRY_HARD : Z := 1.
Definition ETHARP_FLAG_FIND_ONLY : Z := 2.
Definition SIZEOF_ETHARP_HDR : Z := 28.
Definition LWIP_IANA_HWTYPE_ETHERNET : Z := 1.
Definition ARP_REQUEST : Z := 1.
Definition ARP_REPLY : Z := 2.
Definition ERR_RTE : Z := -4.

(** state >= ETHARP_STATE_STABLE *)
Definition is_stable (st : etharp_state) : bool :=
  match st with ETHARP_STATE_EMPTY | ETHARP_STATE_PENDING => false | _ => true end.
Definition empty_entry : etharp_entry := mk_entry NULL IPADDR_ANY false ethzero 0 ETHARP_STATE_EMPTY.

(** ** The search *)

(** Candidates of the sweep; ARP_TABLE_SIZE means none. *)
Record cands := mk_cands {
  c_empty : Z; c_old_stable : Z; c_old_pending : Z; c_old_queue : Z; age_stable : Z; age_pending : Z; age_queue : Z
}.
Definition no_cands : cands := mk_cands ARP_TABLE_SIZE ARP_TABLE_SIZE ARP_TABLE_SIZE ARP_TABLE_SIZE 0 0 0.
(** An entry that does not match becomes a candidate if it is older. *)
Definition consider (c : cands) (i : Z) (e : etharp_entry) : cands :=
  match ar_state e with
  | ETHARP_STATE_EMPTY => c
  | ETHARP_STATE_PENDING =>
      if negb (ar_q e =? NULL) then
        if age_queue c <=? ar_ctime e
        then mk_cands (c_empty c) (c_old_stable c) (c_old_pending c) i (age_stable c) (age_pending c) (ar_ctime e) else c
      else
        if age_pending c <=? ar_ctime e
        then mk_cands (c_empty c) (c_old_stable c) i (c_old_queue c) (age_stable c) (ar_ctime e) (age_queue c) else c
  | _ =>
      if age_stable c <=? ar_ctime e
      then mk_cands (c_empty c) i (c_old_pending c) (c_old_queue c) (ar_ctime e) (age_pending c) (age_queue c) else c
  end.
(** The index of a match, or the candidates. *)
Fixpoint sweep (ipaddr : option Z) (t : list etharp_entry) (i : Z) (c : cands) : Z + cands :=
  match t with
  | [] => inr c
  | e :: t =>
      if (c_empty c =? ARP_TABLE_SIZE) && bool_decide (ar_state e = ETHARP_STATE_EMPTY) then
        sweep ipaddr t (i + 1)
          (mk_cands i (c_old_stable c) (c_old_pending c) (c_old_queue c) (age_stable c) (age_pending c) (age_queue c))
      else if negb (bool_decide (ar_state e = ETHARP_STATE_EMPTY)) then
        if match ipaddr with Some a => a =? ar_ipaddr e | None => false end then inl i
        else sweep ipaddr t (i + 1) (consider c i e)
      else sweep ipaddr t (i + 1) c
  end.

Section Etharp.
Context `{PbufEnv} {U : Type}.
(** acd.c: the check for address conflicts, given the ARP message. *)
Context (acd_arp_reply : bytes -> M (stack U) unit).

Definition entry (i : Z) : M (stack U) etharp_entry := fun s =>
  match arp_table s !! Z.to_nat i with Some e => if 0 <=? i then Ok (e, s) else Fault OobRead | None => Fault OobRead end.
Definition upd_entry (i : Z) (f : etharp_entry -> etharp_entry) : M (stack U) unit :=
  let* e := entry i in modify (fun s => s <| arp_table := <[Z.to_nat i := f e]> (arp_table s) |>).

Definition etharp_free_entry (i : Z) : M (stack U) unit :=
  let* e := entry i in
  (if negb (ar_q e =? NULL) then onmem (pbuf_free (ar_q e)) ;;; upd_entry i (fun e => e <| ar_q := NULL |>) else ret tt) ;;;
  upd_entry i (fun e => e <| ar_state := ETHARP_STATE_EMPTY |> <| ar_ctime := 0 |> <| ar_netif := false |>
                          <| ar_ipaddr := IPADDR_ANY |> <| ar_ethaddr := ethzero |>).

Definition etharp_find_entry (ipaddr : option Z) (flags : Z) : M (stack U) Z :=
  let* t := gets arp_table in
  match sweep ipaddr t 0 no_cands with
  | inl i => ret i
  | inr c =>
      if negb (Z.land flags ETHARP_FLAG_FIND_ONLY =? 0) ||
         ((c_empty c =? ARP_TABLE_SIZE) && (Z.land flags ETHARP_FLAG_TRY_HARD =? 0)) then ret ERR_MEM else
      let finish i :=
        (match ipaddr with Some a => upd_entry i (fun e => e <| ar_ipaddr := a |>) | None => ret tt end) ;;;
        upd_entry i (fun e => e <| ar_ctime := 0 |>) ;;; ret i in
      if c_empty c <? ARP_TABLE_SIZE then finish (c_empty c)
      else if c_old_stable c <? ARP_TABLE_SIZE then etharp_free_entry (c_old_stable c) ;;; finish (c_old_stable c)
      else if c_old_pending c <? ARP_TABLE_SIZE then etharp_free_entry (c_old_pending c) ;;; finish (c_old_pending c)
      else if c_old_queue c <? ARP_TABLE_SIZE then etharp_free_entry (c_old_queue c) ;;; finish (c_old_queue c)
      else ret ERR_MEM
  end.

(** ** Messages *)

Definition etharp_raw (ethsrc_addr ethdst_addr hwsrc_addr : bytes) (ipsrc_addr : Z) (hwdst_addr : bytes) (ipdst_addr opcode : Z) : M (stack U) Z :=
  let* p := onmem (pbuf_alloc PBUF_LINK SIZEOF_ETHARP_HDR PBUF_RAM) in
  if p =? NULL then ret ERR_MEM else
  let* b := onmem (getp p) in
  let put off d := onmem (pwrite (ptr_add (pb_payload b) off) d) in
  put 6 (le_bytes 2 (lwip_htons opcode)) ;;;
  put 8 hwsrc_addr ;;;
  put 18 hwdst_addr ;;;
  put 14 (le_bytes 4 ipsrc_addr) ;;;
  put 24 (le_bytes 4 ipdst_addr) ;;;
  put 0 (le_bytes 2 (PP_HTONS LWIP_IANA_HWTYPE_ETHERNET)) ;;;
  put 2 (le_bytes 2 (PP_HTONS ETHTYPE_IP)) ;;;
  put 4 [ETH_HWADDR_LEN] ;;;
  put 5 [4] ;;;
  ethernet_output p ethsrc_addr ethdst_addr ETHTYPE_ARP ;;;
  onmem (pbuf_free p) ;;;
  ret ERR_OK.

Definition etharp_request_dst (ipaddr : Z) (hw_dst_addr : bytes) : M (stack U) Z :=
  let* n := gets nif in
  etharp_raw (nf_hwaddr n) hw_dst_addr (nf_hwaddr n) (nf_ip n) ethzero ipaddr ARP_REQUEST.
Definition etharp_request (ipaddr : Z) : M (stack U) Z := etharp_request_dst ipaddr ethbroadcast.
Definition etharp_acd_probe (ipaddr : Z) : M (stack U) Z :=
  let* n := gets nif in
  etharp_raw (nf_hwaddr n) ethbroadcast (nf_hwaddr n) IPADDR_ANY ethzero ipaddr ARP_REQUEST.
Definition etharp_acd_announce (ipaddr : Z) : M (stack U) Z :=
  let* n := gets nif in
  etharp_raw (nf_hwaddr n) ethbroadcast (nf_hwaddr n) ipaddr ethzero ipaddr ARP_REQUEST.

(** ** Table maintenance *)

Definition non_unicast (ipaddr : Z) (n : netif_t) : bool :=
  ip4_addr_isany_val ipaddr || ip4_addr_isbroadcast_u32 ipaddr n || ip4_addr_ismulticast ipaddr.

Definition etharp_update_arp_entry (ipaddr : Z) (ethaddr : bytes) (flags : Z) : M (stack U) Z :=
  let* n := gets nif in
  if non_unicast ipaddr n then ret ERR_ARG else
  let* i := etharp_find_entry (Some ipaddr) flags in
  if i <? 0 then ret i else
  upd_entry i (fun e => e <| ar_state := ETHARP_STATE_STABLE |>) ;;;
  upd_entry i (fun e => e <| ar_netif := true |>) ;;;
  upd_entry i (fun e => e <| ar_ethaddr := ethaddr |>) ;;;
  upd_entry i (fun e => e <| ar_ctime := 0 |>) ;;;
  let* e := entry i in
  (if negb (ar_q e =? NULL) then
     upd_entry i (fun e => e <| ar_q := NULL |>) ;;;
     ethernet_output (ar_q e) (nf_hwaddr n) ethaddr ETHTYPE_IP ;;;
     onmem (pbuf_free (ar_q e)) ;;; ret tt
   else ret tt) ;;;
  ret ERR_OK.

Definition tmr_entry (i : Z) : M (stack U) unit :=
  let* e := entry i in
  if bool_decide (ar_state e = ETHARP_STATE_EMPTY) then ret tt else
  upd_entry i (fun e => e <| ar_ctime := u16 (ar_ctime e + 1) |>) ;;;
  let* e := entry i in
  if (ARP_MAXAGE <=? ar_ctime e) || (bool_decide (ar_state e = ETHARP_STATE_PENDING) && (ARP_MAXPENDING <=? ar_ctime e))
  then etharp_free_entry i else
  match ar_state e with
  | ETHARP_STATE_STABLE_REREQUESTING_1 => upd_entry i (fun e => e <| ar_state := ETHARP_STATE_STABLE_REREQUESTING_2 |>)
  | ETHARP_STATE_STABLE_REREQUESTING_2 => upd_entry i (fun e => e <| ar_state := ETHARP_STATE_STABLE |>)
  | ETHARP_STATE_PENDING => if ar_netif e then etharp_request (ar_ipaddr e) ;;; ret tt else fail NullDeref
  | _ => ret tt
  end.
Definition table_indices : list Z := seqZ 0 ARP_TABLE_SIZE.
Definition etharp_tmr : M (stack U) unit := mforeach table_indices tmr_entry.

Definition etharp_cleanup_netif : M (stack U) unit :=
  mforeach table_indices (fun i =>
    let* e := entry i in
    if negb (bool_decide (ar_state e = ETHARP_STATE_EMPTY)) && ar_netif e then etharp_free_entry i else ret tt).

(** The index and the two addresses it points to, or -1. *)
Definition etharp_find_addr (ipaddr : option Z) : M (stack U) (option (Z * bytes * Z)) :=
  let* i := etharp_find_entry ipaddr ETHARP_FLAG_FIND_ONLY in
  if i <? 0 then ret None else
  let* e := entry i in
  ret (if is_stable (ar_state e) then Some (i, ar_ethaddr e, ar_ipaddr e) else None).
Definition etharp_get_entry (i : Z) : M (stack U) (option (Z * bool * bytes)) :=
  if i <? ARP_TABLE_SIZE then
    let* e := entry i in
    ret (if is_stable (ar_state e) then Some (ar_ipaddr e, ar_netif e, ar_ethaddr e) else None)
  else ret None.

(** ** Input *)

Definition etharp_input (p : Z) : M (stack U) unit :=
  let* b := onmem (getp p) in
  let* h := onmem (pread (pb_payload b) 8) in
  if negb (le_val (take 2 h) =? PP_HTONS LWIP_IANA_HWTYPE_ETHERNET) || negb (nth 4 h 0 =? ETH_HWADDR_LEN) ||
     negb (nth 5 h 0 =? 4) || negb (le_val (take 2 (drop 2 h)) =? PP_HTONS ETHTYPE_IP)
  then onmem (pbuf_free p) ;;; ret tt else
  let* hdr := onmem (pread (pb_payload b) SIZEOF_ETHARP_HDR) in
  acd_arp_reply hdr ;;;
  let sipaddr := le_val (take 4 (drop 14 hdr)) in
  let dipaddr := le_val (take 4 (drop 24 hdr)) in
  let shwaddr := take 6 (drop 8 hdr) in
  let opcode := le_val (take 2 (drop 6 hdr)) in
  let* n := gets nif in
  let for_us := if ip4_addr_isany_val (nf_ip n) then false else dipaddr =? nf_ip n in
  let from_us := if ip4_addr_isany_val (nf_ip n) then false else sipaddr =? nf_ip n in
  etharp_update_arp_entry sipaddr shwaddr (if for_us then ETHARP_FLAG_TRY_HARD else ETHARP_FLAG_FIND_ONLY) ;;;
  (if (opcode =? PP_HTONS ARP_REQUEST) && (for_us && negb from_us) then
     etharp_raw (nf_hwaddr n) shwaddr (nf_hwaddr n) (nf_ip n) shwaddr sipaddr ARP_REPLY ;;; ret tt
   else ret tt) ;;;
  onmem (pbuf_free p) ;;; ret tt.

(** ** Output *)

Definition ETHARP_SET_ADDRHINT (i : Z) : M (stack U) unit :=
  modify (fun s => match nf_hint (nif s) with Some _ => s <| nif := (nif s) <| nf_hint := Some i |> |> | None => s end).

Definition etharp_output_to_arp_index (q arp_idx : Z) : M (stack U) Z :=
  let* e := entry arp_idx in
  (if bool_decide (ar_state e = ETHARP_STATE_STABLE) then
     if ARP_AGE_REREQUEST_USED_BROADCAST <=? ar_ctime e then
       let* r := etharp_request (ar_ipaddr e) in
       if r =? ERR_OK then upd_entry arp_idx (fun e => e <| ar_state := ETHARP_STATE_STABLE_REREQUESTING_1 |>) else ret tt
     else if ARP_AGE_REREQUEST_USED_UNICAST <=? ar_ctime e then
       let* r := etharp_request_dst (ar_ipaddr e) (ar_ethaddr e) in
       if r =? ERR_OK then upd_entry arp_idx (fun e => e <| ar_state := ETHARP_STATE_STABLE_REREQUESTING_1 |>) else ret tt
     else ret tt
   else ret tt) ;;;
  let* n := gets nif in
  let* e := entry arp_idx in
  ethernet_output q (nf_hwaddr n) (ar_ethaddr e) ETHTYPE_IP.

Definition PBUF_NEEDS_COPY (b : pbuf) : bool := nz (Z.land (pb_type b) PBUF_TYPE_FLAG_DATA_VOLATILE).
Fixpoint copy_needed (fuel : nat) (p : Z) : M lmem bool :=
  match fuel with
  | O => hang
  | S fuel => if p =? NULL then ret false else let* b := getp p in if PBUF_NEEDS_COPY b then ret true else copy_needed fuel (pb_next b)
  end.

Definition etharp_query (ipaddr q : Z) : M (stack U) Z :=
  let* n := gets nif in
  if ip4_addr_isbroadcast_u32 ipaddr n || ip4_addr_ismulticast ipaddr || ip4_addr_isany_val ipaddr then ret ERR_ARG else
  let* i := etharp_find_entry (Some ipaddr) ETHARP_FLAG_TRY_HARD in
  if i <? 0 then ret i else
  let* e := entry i in
  let is_new_entry := bool_decide (ar_state e = ETHARP_STATE_EMPTY) in
  (if is_new_entry then upd_entry i (fun e => e <| ar_state := ETHARP_STATE_PENDING |> <| ar_netif := true |>) else ret tt) ;;;
  let* result :=
    (if is_new_entry || (q =? NULL) then
       let* r := etharp_request ipaddr in
       let* e := entry i in
       (if (r =? ERR_OK) && bool_decide (ar_state e = ETHARP_STATE_PENDING) && negb is_new_entry
        then upd_entry i (fun e => e <| ar_ctime := 0 |>) else ret tt) ;;;
       ret r
     else ret ERR_MEM) in
  if q =? NULL then ret result else
  let* e := entry i in
  if is_stable (ar_state e) then
    ETHARP_SET_ADDRHINT i ;;;
    ethernet_output q (nf_hwaddr n) (ar_ethaddr e) ETHTYPE_IP
  else if bool_decide (ar_state e = ETHARP_STATE_PENDING) then
    let* copy := onmem (let* k := chain_fuel in copy_needed k q) in
    let* p := (if (copy : bool) then onmem (pbuf_clone PBUF_LINK PBUF_RAM q) else onmem (pbuf_ref q) ;;; ret q) in
    if p =? NULL then ret ERR_MEM else
    (if negb (ar_q e =? NULL) then onmem (pbuf_free (ar_q e)) ;;; ret tt else ret tt) ;;;
    upd_entry i (fun e => e <| ar_q := p |>) ;;;
    ret ERR_OK
  else ret result.

(** The first stable entry for the address. *)
Fixpoint find_stable (t : list etharp_entry) (a i : Z) : option Z :=
  match t with
  | [] => None
  | e :: t => if is_stable (ar_state e) && (a =? ar_ipaddr e) then Some i else find_stable t a (i + 1)
  end.

Definition etharp_output (q ipaddr : Z) : M (stack U) Z :=
  let* n := gets nif in
  if ip4_addr_isbroadcast_u32 ipaddr n then ethernet_output q (nf_hwaddr n) ethbroadcast ETHTYPE_IP
  else if ip4_addr_ismulticast ipaddr then
    let mcastaddr := [LL_IP4_MULTICAST_ADDR_0; LL_IP4_MULTICAST_ADDR_1; LL_IP4_MULTICAST_ADDR_2;
                      Z.land (ip4_addr_get_byte ipaddr 1) 0x7f; ip4_addr_get_byte ipaddr 2; ip4_addr_get_byte ipaddr 3] in
    ethernet_output q (nf_hwaddr n) mcastaddr ETHTYPE_IP
  else
    let outside := negb (ip4_addr_net_eq ipaddr (nf_ip n) (nf_netmask n)) && negb (ip4_addr_islinklocal ipaddr) in
    if outside && ip4_addr_isany_val (nf_gw n) then ret ERR_RTE else
    let dst_addr := if outside then nf_gw n else ipaddr in
    let* t := gets arp_table in
    let hinted := match nf_hint n with
      | Some h => if h <? ARP_TABLE_SIZE then
          match t !! Z.to_nat h with Some e => if is_stable (ar_state e) && (dst_addr =? ar_ipaddr e) then Some h else None | None => None end
          else None
      | None => None
      end in
    match hinted with
    | Some h => etharp_output_to_arp_index q h
    | None =>
        match find_stable t dst_addr 0 with
        | Some i => ETHARP_SET_ADDRHINT i ;;; etharp_output_to_arp_index q i
        | None => etharp_query dst_addr q
        end
    end.

End Etharp.
