(* ===== verification/EthernetProofs.v ===== *)
(** Ethernet framing: what is sent, and that input undoes output. *)

From stdpp Require Import gmap.
From S2P Require Import Prelude Cmonad Cutils Heap Pbuf PbufProofs PbufChain Inet InetProofs Ethernet.

(** Reduces updates of the stack. *)
Ltac sfields := cbv beta iota delta [set set_mem set_arp_table set_nif set_sent set_upper mem arp_table nif sent upper].

Section Ethernet.
Context `{PbufEnv} {U : Type}.
Implicit Types s : stack U.

(** The stack with another packet memory. *)
Definition with_mem s (m : lmem) : stack U := s <| mem := m |>.
Definition with_dat (m : lmem) (d : gmap Z bytes) : lmem := m <| dat := d |>.

Lemma with_mem_mem s m m' : with_mem (with_mem s m) m' = with_mem s m'.
Proof. by destruct s. Qed.
Lemma with_mem_id s : with_mem s (mem s) = s.
Proof. by destruct s. Qed.
Lemma with_dat_dat m d d' : with_dat (with_dat m d) d' = with_dat m d'.
Proof. by destruct m. Qed.
Lemma with_dat_id m : with_dat m (dat m) = m.
Proof. by destruct m. Qed.

Lemma onmem_run {A B} s (m : M lmem A) a t (k : A -> M (stack U) B) : m (mem s) = Ok (a, t) -> bind (onmem m) k s = k a (with_mem s t).
Proof. intros E. unfold bind, onmem, zoom. by rewrite E. Qed.
Lemma onmem_getp {B} s q b (k : pbuf -> M (stack U) B) : q <> NULL -> pbs (mem s) !! q = Some b -> bind (onmem (getp q)) k s = k b s.
Proof.
  intros Hq Hb. rewrite (onmem_run s (getp q) b (mem s)); [by rewrite with_mem_id|]. unfold getp. by rewrite (proj2 (Z.eqb_neq _ _) Hq), Hb.
Qed.

(** ** Writing the fields of a header *)

Fixpoint put_all {A} (b : pbuf) (ws : list (Z * bytes)) (k : M (stack U) A) : M (stack U) A :=
  match ws with [] => k | (off, d) :: ws => onmem (pwrite (ptr_add (pb_payload b) off) d) ;;; put_all b ws k end.
Definition blits (ws : list (Z * bytes)) (c : bytes) : bytes := fold_left (fun c w => blit (Z.to_nat (fst w)) (snd w) c) ws c.
Definition fits (n : Z) (ws : list (Z * bytes)) : bool :=
  forallb (fun w => (0 <=? fst w) && (fst w + Z.of_nat (length (snd w)) <=? n)) ws.

Lemma put_all_run {A} b ws (k : M (stack U) A) : forall s, cell_ok (dat (mem s)) b -> fits (pb_len b) ws = true ->
  exists d, put_all b ws k s = k (with_mem s (with_dat (mem s) d)) /\ frame_dat [pblk (pb_payload b)] (dat (mem s)) d /\
    cell_data d b = blits ws (cell_data (dat (mem s)) b).
Proof.
  induction ws as [|[off w] ws IH]; intros s Hc Hf; cbn [put_all].
  - exists (dat (mem s)). split; [by rewrite with_dat_id, with_mem_id|]. split; [apply frame_refl|done].
  - cbn [fits forallb fst snd] in Hf. apply andb_true_iff in Hf as [[H1%Z.leb_le H2%Z.leb_le]%andb_true_iff Hf].
    destruct (pwrite_cell (mem s) b off w Hc H1 H2) as (d1 & E1 & F1 & C1). rewrite (onmem_run _ _ _ _ _ E1).
    destruct (IH (with_mem s (with_dat (mem s) d1))) as (d & E & F & C); [by eapply frame_cell_ok|done|].
    change (dat (mem (with_mem s (with_dat (mem s) d1)))) with d1 in F, C. exists d. split; [|split; [by eapply frame_trans|]].
    + fold (with_dat (mem s) d1). rewrite E. rewrite with_mem_mem. change (mem (with_mem s ?m)) with m. by rewrite with_dat_dat.
    + rewrite C, C1. done.
Qed.

(** ** Output *)

(** The header of this port: two bytes for the driver, an 802.3 header, SNAP. *)
Definition eth_header (src dst : bytes) (len eth_type : Z) : bytes :=
  [0x00; 0x1C] ++ dst ++ src ++ be_bytes 2 len ++ [0xAA; 0xAA; 0x03; 0; 0; 0] ++ be_bytes 2 eth_type.

Lemma length_eth_header src dst len eth_type : length src = 6%nat -> length dst = 6%nat -> length (eth_header src dst len eth_type) = 24%nat.
Proof. intros H1 H2. unfold eth_header. by rewrite !length_app, H1, H2, !length_be_bytes. Qed.

Lemma htons_bytes n : 0 <= n < 65536 -> le_bytes 2 (lwip_htons n) = be_bytes 2 n.
Proof.
  intros Hn. unfold lwip_htons, PP_HTONS. fold (SWAP_BYTES_IN_WORD n). rewrite u16_id by (by apply swap_range). rewrite swap_val by done.
  unfold be_bytes. cbn [le_bytes]. change (reverse [?a; ?b]) with [b; a]. unfold u8. f_equal; [|f_equal]; zdm.
Qed.

Definition eth_writes (src dst : bytes) (len eth_type : Z) : list (Z * bytes) :=
  [(ETH_TYPE, be_bytes 2 eth_type); (ETH_DEST, dst); (ETH_SRC, src); (ETH_SNAP, [0xAA; 0xAA; 0x03; 0x00; 0x00; 0x00]);
   (ETH_PADDING, [0x00; 0x1C]); (ETH_LEN, be_bytes 2 len)].
Lemma eth_blits src dst len eth_type h rest : length src = 6%nat -> length dst = 6%nat -> length h = 24%nat ->
  blits (eth_writes src dst len eth_type) (h ++ rest) = eth_header src dst len eth_type ++ rest.
Proof.
  intros Hs Hd Hh. pose proof (length_be_bytes 2 len) as HL. pose proof (length_be_bytes 2 eth_type) as HT. unfold eth_writes, eth_header.
  set (L := be_bytes 2 len) in *. set (T := be_bytes 2 eth_type) in *. clearbody L T. destruct_len src. destruct_len dst. destruct_len h. destruct_len L. destruct_len T. done.
Qed.

Lemma cell_moved_back d b n : cell_ok d b -> 0 <= n <= poff (pb_payload b) ->
  cell_ok d (moved b (- n)) /\ exists h, length h = Z.to_nat n /\ cell_data d (moved b (- n)) = h ++ cell_data d b.
Proof.
  intros (H0 & c & E & H1 & H2) Hn. split.
  - split; [cbn; lia|]. exists c. split; [done|]. cbn. lia.
  - exists (take (Z.to_nat n) (drop (Z.to_nat (poff (pb_payload b) - n)) c)). split; [rewrite length_take, length_drop; lia|].
    unfold cell_data. change (pblk (pb_payload (moved b (- n)))) with (pblk (pb_payload b)). rewrite E.
    change (pb_len (moved b (- n))) with (pb_len b - - n). change (poff (pb_payload (moved b (- n)))) with (poff (pb_payload b) + - n).
    replace (Z.to_nat (pb_len b - - n)) with (Z.to_nat n + Z.to_nat (pb_len b))%nat by lia.
    replace (poff (pb_payload b) + - n) with (poff (pb_payload b) - n) by lia. rewrite <- take_take_drop. f_equal. f_equal. rewrite drop_drop. f_equal. lia.
Qed.

(** The memory after sending packet [p] whose first cell is [b]. *)
Definition after_output (m : lmem) (p : Z) (b : pbuf) (d : gmap Z bytes) : lmem := put_cell (with_dat m d) p (moved b (- SIZEOF_ETH_HDR)).

Lemma linkoutput_run s p b : p <> NULL -> pbs (mem s) !! p = Some b -> cell_ok (dat (mem s)) b -> 0 < pb_len b <= DATA_BUF_LEN ->
  linkoutput p s = Ok (ERR_OK, s <| sent := sent s ++ [cell_data (dat (mem s)) b] |>).
Proof.
  intros Hp Hb Hc Hlen. unfold linkoutput. rewrite (onmem_getp _ _ _ _ Hp Hb), (proj2 (Z.eqb_neq _ _)), (proj2 (Z.ltb_ge _ _)) by lia. cbv zeta. pose proof (pread_cell (mem s) b 0 (pb_len b) Hc) as E.
  rewrite ptr_add_0, drop_0 in E. rewrite (onmem_run _ _ _ _ _ (E ltac:(lia) ltac:(destruct Hc; lia) ltac:(lia))).
  rewrite take_ge by (pose proof (length_cell _ _ Hc); lia). by rewrite with_mem_id.
Qed.

Lemma ethernet_output_run s p b l src dst eth_type :
  packet (mem s) p ((p, b) :: l) -> contiguous_type b -> SIZEOF_ETH_HDR <= poff (pb_payload b) -> sum_len ((p, b) :: l) + SIZEOF_ETH_HDR < 65536 ->
  length src = 6%nat -> length dst = 6%nat -> 0 <= eth_type < 65536 -> pb_len b + SIZEOF_ETH_HDR <= DATA_BUF_LEN ->
  exists d, let b' := moved b (- SIZEOF_ETH_HDR) in
    let frame := eth_header src dst (pb_len b + 10) eth_type ++ cell_data (dat (mem s)) b in
    ethernet_output p src dst eth_type s =
      Ok (ERR_OK, (with_mem s (after_output (mem s) p b d)) <| sent := sent s ++ [frame] |>) /\
    frame_dat [pblk (pb_payload b)] (dat (mem s)) d /\ cell_data d b' = frame.
Proof.
  intros Hp Hct Ho Hl Hs Hd Ht Hfit. destruct (packet_head _ _ _ _ _ Hp) as (_ & Hp0 & Hb & Hc & _ & Hlb & Hls). change SIZEOF_ETH_HDR with 24 in *.
  cbn [sum_len snd] in Hl. destruct (pbuf_add_header_run (mem s) p b l 24 Hp Hct ltac:(lia) ltac:(cbn [sum_len snd]; lia)) as (Ea & _ & _).
  destruct (cell_moved_back (dat (mem s)) b 24 Hc ltac:(lia)) as (Hc' & h & Hh & Eh). set (b' := moved b (- (24))) in *.
  set (s1 := with_mem s (put_cell (mem s) p b')). assert (pbs (mem s1) !! p = Some b') as Hb' by apply lookup_insert_eq.
  assert (pb_len b' = pb_len b + 24) as Hlb' by (change (pb_len b') with (pb_len b - -24); lia).
  set (ws := eth_writes src dst (pb_len b + 10) eth_type).
  destruct (put_all_run b' ws (linkoutput p) s1 Hc') as (d & E & F & C).
  { unfold fits, ws, eth_writes. cbn [forallb fst snd]. rewrite Hs, Hd, !length_be_bytes, Hlb'. unfold ETH_TYPE, ETH_DEST, ETH_SRC, ETH_SNAP, ETH_PADDING, ETH_LEN.
    cbn [length]. rewrite !andb_true_iff, !Z.leb_le. lia. }
  exists d. cbv zeta. change (dat (mem s1)) with (dat (mem s)) in F, C. rewrite Eh in C. unfold ws in C. rewrite (eth_blits _ _ _ _ _ _ Hs Hd Hh) in C.
  split; [|split; [done|done]]. unfold ethernet_output. rewrite (onmem_run _ _ _ _ _ Ea). cbn [Z.eqb negb]. change (with_mem s (put_cell (mem s) p b')) with s1.
  rewrite (onmem_getp s1 p b' _ Hp0 Hb'). rewrite (htons_bytes eth_type) by done. rewrite u16_id by lia. rewrite (htons_bytes (pb_len b' - 14)) by lia.
  replace (pb_len b' - 14) with (pb_len b + 10) by lia. change (put_all b' ws (linkoutput p) s1 = Ok (ERR_OK, (with_mem s (after_output (mem s) p b d))
    <| sent := sent s ++ [eth_header src dst (pb_len b + 10) eth_type ++ cell_data (dat (mem s)) b] |>)). rewrite E.
  rewrite (linkoutput_run _ p b'); [|done|done|by eapply frame_cell_ok|lia]. change (dat (mem (with_mem s1 (with_dat (mem s1) d)))) with d. rewrite C.
  do 2 f_equal.
Qed.

(** ** Input *)

(** The link-layer flags by the first bytes of the destination address. *)
Definition cast_flag (dest : bytes) : Z :=
  if Z.land (nth 0 dest 0) 1 =? 0 then 0
  else if nth 0 dest 0 =? LL_IP4_MULTICAST_ADDR_0 then
    if (nth 1 dest 0 =? LL_IP4_MULTICAST_ADDR_1) && (nth 2 dest 0 =? LL_IP4_MULTICAST_ADDR_2) then PBUF_FLAG_LLMCAST else 0
  else if bool_decide (dest = ethbroadcast) then PBUF_FLAG_LLBCAST else 0.
(** Changes of a cell that leave its links and its payload alone. *)
Definition same_cell (b b' : pbuf) : Prop :=
  pb_next b' = pb_next b /\ pb_payload b' = pb_payload b /\ pb_tot_len b' = pb_tot_len b /\ pb_len b' = pb_len b.
Lemma packet_same_cell (m : lmem) p b b' l : packet m p ((p, b) :: l) -> same_cell b b' -> packet (put_cell m p b') p ((p, b') :: l).
Proof.
  intros [Hc Ho Ht Hl] (S1 & S2 & S3 & S4). pose proof (chain_nodup _ _ _ Hc) as Hnd. cbn in Hnd. apply NoDup_cons in Hnd as [Hni _].
  destruct Hc as (_ & Hp0 & Hb & Hc). apply Forall_cons in Ho as [Hob Ho]. destruct Ht as [Ht1 Ht]. cbn [sum_len snd] in *. split.
  - split; [done|]. split; [done|]. split; [apply lookup_insert_eq|]. rewrite S1. by apply chain_insert.
  - constructor; [|done]. cbn [snd]. unfold cell_ok in *. by rewrite S2, S4.
  - split; [|done]. cbn [sum_len snd]. by rewrite S3, S4.
  - cbn [sum_len snd]. by rewrite S4.
Qed.
Lemma put_cell_put (m : lmem) p b b' : put_cell (put_cell m p b) p b' = put_cell m p b'.
Proof. unfold put_cell. destruct m. fields. by rewrite insert_insert_eq. Qed.

Lemma mark_run {B} s p b flag (k : M (stack U) B) : p <> NULL -> pbs (mem s) !! p = Some b ->
  (mark p flag ;;; k) s = k (with_mem s (put_cell (mem s) p (b <| pb_flags := Z.lor (pb_flags b) flag |>))).
Proof.
  intros Hp Hb. unfold mark. rewrite (onmem_run s _ tt (put_cell (mem s) p (b <| pb_flags := Z.lor (pb_flags b) flag |>))); [done|].
  unfold updp. by rewrite (getp_run _ _ _ _ Hp Hb).
Qed.

Definition marked (n : netif_t) (b : pbuf) (dest : bytes) : pbuf :=
  let b := if pb_if_idx b =? NETIF_NO_INDEX then b <| pb_if_idx := netif_get_index n |> else b in
  if cast_flag dest =? 0 then b else b <| pb_flags := Z.lor (pb_flags b) (cast_flag dest) |>.
Lemma marked_same n b dest : same_cell b (marked n b dest).
Proof. unfold marked. destruct (pb_if_idx b =? NETIF_NO_INDEX), (cast_flag dest =? 0); done. Qed.

Lemma free_return_run s p l : chain (pbs (mem s)) p l -> releasable l -> free_and_return p s = Ok (ERR_OK, with_mem s (after_free (mem s) l)).
Proof. intros Hc Hr. unfold free_and_return. by rewrite (onmem_run _ _ _ _ _ (pbuf_free_run _ _ _ Hc Hr)). Qed.

(** Up to the choice of the layer: the marks on the packet. *)
Lemma ethernet_input_marks ip4_input etharp_input s p b l :
  packet (mem s) p ((p, b) :: l) -> SIZEOF_ETH_HDR < pb_len b ->
  let hdr := take 24 (cell_data (dat (mem s)) b) in
  let type := le_val (take 2 (drop 22 hdr)) in
  let s1 := with_mem s (put_cell (mem s) p (marked (nif s) b (take 6 (drop 2 hdr)))) in
  let to_layer (f : Z -> M (stack U) unit) :=
    if Z.land (nf_flags (nif s)) NETIF_FLAG_ETHARP =? 0 then free_and_return p else
    let* r := onmem (pbuf_remove_header p SIZEOF_ETH_HDR) in
    if negb (r =? 0) then free_and_return p else f p ;;; ret ERR_OK in
  ethernet_input ip4_input etharp_input p s =
    (if type =? PP_HTONS ETHTYPE_IP then to_layer ip4_input
     else if type =? PP_HTONS ETHTYPE_ARP then to_layer etharp_input else free_and_return p) s1.
Proof.
  intros Hp Hl hdr type s1 to_layer. destruct (packet_head _ _ _ _ _ Hp) as (_ & Hp0 & Hb & Hc & _). unfold ethernet_input.
  rewrite (onmem_getp _ _ _ _ Hp0 Hb), (proj2 (Z.leb_gt _ _)) by lia. rewrite (bind_run _ _ _ _ _ (eq_refl : gets nif s = Ok (nif s, s))).
  set (b1 := if pb_if_idx b =? NETIF_NO_INDEX then b <| pb_if_idx := netif_get_index (nif s) |> else b).
  set (s0 := with_mem s (put_cell (mem s) p b1)).
  assert (forall (k : M (stack U) Z), ((if pb_if_idx b =? NETIF_NO_INDEX then onmem (updp p (fun b => b <| pb_if_idx := netif_get_index (nif s) |>)) else ret tt) ;;; k) s = k s0) as Hidx.
  { intros k. subst s0 b1. destruct (pb_if_idx b =? NETIF_NO_INDEX).
    - rewrite (onmem_run s _ tt (put_cell (mem s) p (b <| pb_if_idx := netif_get_index (nif s) |>))); [done|].
      unfold updp. by rewrite (getp_run _ _ _ _ Hp0 Hb).
    - by rewrite put_cell_id, with_mem_id. }
  rewrite Hidx. pose proof (pread_cell (mem s0) b 0 SIZEOF_ETH_HDR Hc ltac:(lia) ltac:(done) ltac:(lia)) as Er. rewrite ptr_add_0, drop_0 in Er.
  rewrite (onmem_run s0 _ _ _ _ Er), with_mem_id. change (dat (mem s0)) with (dat (mem s)). change (take (Z.to_nat SIZEOF_ETH_HDR) (cell_data (dat (mem s)) b)) with hdr.
  cbv zeta. fold type to_layer. assert (pbs (mem s0) !! p = Some b1) as Hb1 by apply lookup_insert_eq. set (dest := take 6 (drop 2 hdr)).
  assert (forall flag, with_mem s0 (put_cell (mem s0) p (b1 <| pb_flags := Z.lor (pb_flags b1) flag |>)) =
    with_mem s (put_cell (mem s) p (b1 <| pb_flags := Z.lor (pb_flags b1) flag |>))) as Hs0.
  { intros flag. subst s0. rewrite with_mem_mem. change (mem (with_mem s ?m)) with m. by rewrite put_cell_put. }
  assert (s1 = with_mem s (put_cell (mem s) p (if cast_flag dest =? 0 then b1 else b1 <| pb_flags := Z.lor (pb_flags b1) (cast_flag dest) |>))) as -> by done.
  unfold cast_flag. destruct (Z.land (nth 0 dest 0) 1 =? 0); cbn [negb]; [done|].
  destruct (nth 0 dest 0 =? LL_IP4_MULTICAST_ADDR_0).
  - destruct (_ && _); [|done]. by rewrite (mark_run _ _ _ _ _ Hp0 Hb1), Hs0.
  - destruct (bool_decide _); [|done]. by rewrite (mark_run _ _ _ _ _ Hp0 Hb1), Hs0.
Qed.

(** A frame for IP or ARP reaches its layer without its header. *)
Lemma ethernet_input_run ip4_input etharp_input s p b l hdr rest eth_type (f : Z -> M (stack U) unit) :
  packet (mem s) p ((p, b) :: l) -> cell_data (dat (mem s)) b = hdr ++ rest -> length hdr = 24%nat -> rest <> [] ->
  Z.land (nf_flags (nif s)) NETIF_FLAG_ETHARP <> 0 -> drop 22 hdr = be_bytes 2 eth_type ->
  (eth_type = ETHTYPE_IP /\ f = ip4_input \/ eth_type = ETHTYPE_ARP /\ f = etharp_input) ->
  let b' := moved (marked (nif s) b (take 6 (drop 2 hdr))) SIZEOF_ETH_HDR in
  let m' := put_cell (mem s) p b' in
  ethernet_input ip4_input etharp_input p s = (f p ;;; ret ERR_OK) (with_mem s m') /\
  packet m' p ((p, b') :: l) /\ content (dat m') ((p, b') :: l) = rest ++ content (dat (mem s)) l.
Proof.
  intros Hp Hd Hh Hr Hfl Hty Hf b' m'. destruct (packet_head _ _ _ _ _ Hp) as (_ & Hp0 & Hb & Hc & _). pose proof (length_cell _ _ Hc) as Hlc.
  rewrite Hd, length_app, Hh in Hlc. assert (0 < Z.of_nat (length rest)) as Hr0 by (destruct rest; [done|cbn; lia]).
  set (b1 := marked (nif s) b (take 6 (drop 2 hdr))) in *. pose proof (marked_same (nif s) b (take 6 (drop 2 hdr))) as Hsame. fold b1 in Hsame.
  pose proof (packet_same_cell _ _ _ _ _ Hp Hsame) as Hp1. destruct Hsame as (S1 & S2 & S3 & S4).
  destruct (pbuf_remove_header_run _ _ _ _ 24 Hp1 ltac:(lia)) as (Er & Hp2 & C2). fold b' in Er, Hp2, C2. rewrite put_cell_put in Er, Hp2. fold m' in Er, Hp2.
  split; [|split; [done|]].
  - rewrite (ethernet_input_marks _ _ _ _ _ _ Hp) by (change SIZEOF_ETH_HDR with 24; lia). rewrite Hd, take_app_length' by done. fold b1.
    assert (take 2 (drop 22 hdr) = be_bytes 2 eth_type) as -> by (rewrite Hty; apply take_ge; by rewrite length_be_bytes).
    rewrite (proj2 (Z.eqb_neq _ _) Hfl). set (s1 := with_mem s (put_cell (mem s) p b1)).
    assert ((let* r := onmem (pbuf_remove_header p SIZEOF_ETH_HDR) in if negb (r =? 0) then free_and_return p else f p ;;; ret ERR_OK) s1 =
      (f p ;;; ret ERR_OK) (with_mem s m')) as Hend by (rewrite (onmem_run s1 _ _ _ _ Er); done).
    destruct Hf as [[-> ->]|[-> ->]]; exact Hend.
  - change (dat m') with (dat (mem s)). change (dat (put_cell (mem s) p b1)) with (dat (mem s)) in C2. etransitivity; [exact C2|]. rewrite content_cons. cbn [snd].
    assert (cell_data (dat (mem s)) b1 = cell_data (dat (mem s)) b) as -> by (unfold cell_data; by rewrite S2, S4). rewrite Hd.
    rewrite <- app_assoc. by rewrite drop_app_length' by done.
Qed.
End Ethernet.
