(* ===== verification/Link.v ===== *)
(** data_send_to_lwip of arm_host/source/wifi_host.c with the packet buffers and
    the Ethernet layer of lwIP behind its calls (Host.v leaves them abstract):
    what IP and ARP are given for a frame of the card. *)

From stdpp Require Import gmap.
From S2P Require Import Prelude Cmonad Cutils Heap Pbuf PbufProofs PbufChain Inet InetProofs Ethernet EthernetProofs.

Section Link.
Context `{PbufEnv} {U : Type} (ip4_input etharp_input : Z -> M (stack U) unit).
Implicit Types s : stack U.

(** [frame] are the bytes at [data]. *)
Definition receive_frame (frame : bytes) : M (stack U) unit :=
  let len := Z.of_nat (length frame) in
  let len := if DATA_BUF_LEN - 6 <? len then DATA_BUF_LEN - 6 else len in
  let* p := onmem (pbuf_alloc PBUF_IP len PBUF_POOL) in
  if p =? NULL then ret tt else
  let* b := onmem (getp p) in
  let len := if pb_len b <? len then pb_len b else len in
  onmem (pwrite (pb_payload b) (take (Z.to_nat len) frame)) ;;;
  let* r := ethernet_input ip4_input etharp_input p in
  if negb (r =? ERR_OK) then onmem (pbuf_free p) ;;; ret tt else ret tt.

(** The longest frame that fits the first buffer of a packet. *)
Definition first_room : Z := PBUF_POOL_BUFSIZE_ALIGNED - PBUF_IP.

Lemma take_stale b k n : (k <= n)%nat -> take k (stale_bytes b n) = stale_bytes b k.
Proof. intros Hk. unfold stale_bytes. rewrite firstn_map, take_seq. by rewrite Nat.min_l by lia. Qed.

(** The packet that is allocated for a frame: one cell, or two. *)
Lemma alloc_frame (m : lmem) n : store_ok m -> 0 < n <= DATA_BUF_LEN - 6 -> pool_segments PBUF_IP n <= pool_left m ->
  let p := next_blk m in
  exists b l m', pbuf_alloc PBUF_IP n PBUF_POOL m = Ok (p, m') /\ packet m' p ((p, b) :: l) /\ owned ((p, b) :: l) /\
    pb_len b = Z.min n first_room /\ Forall pool_cell ((p, b) :: l) /\ Z.of_nat (length l) + 1 = pool_segments PBUF_IP n /\
    (forall k, k < p -> pbs m' !! k = pbs m !! k /\ dat m' !! k = dat m !! k) /\
    content (dat m') l = stale_bytes (p + 1) (Z.to_nat (n - first_room)) /\ poff (pb_payload b) = PBUF_IP /\
    (forall k, k ∉ ((p, b) :: l).*1 -> pbs m' !! k = pbs m !! k /\ dat m' !! k = dat m !! k) /\ pool_left m' = pool_left m - pool_segments PBUF_IP n /\ next_blk m' = p + pool_segments PBUF_IP n.
Proof.
  intros Hs Hn Hp p. change (DATA_BUF_LEN - 6) with 1530 in Hn. change first_room with 1432.
  destruct (pbuf_alloc_pool_run m PBUF_IP n Hs ltac:(unfold layers; set_solver) ltac:(lia)) as [(_ & l0 & m' & E & Hi & Hlen)|[Hx _]]; [|lia].
  destruct (pool_inv_packet _ _ _ _ _ _ Hi ltac:(lia)) as (Hpk & Hown & Hsum). pose proof (pi_keys _ _ _ _ _ _ _ Hi) as Hkeys. fold p in Hkeys, Hpk, E.
  destruct l0 as [|[p' b] l]; [exfalso; cbn in Hlen; unfold pool_segments in Hlen; lia|]. pose proof (packet_head _ _ _ _ _ Hpk) as (-> & _ & _ & Hbc & _).
  destruct (pi_head _ _ _ _ _ _ _ Hi p' b l eq_refl) as (Hoff & Hlb & Htl). change (PBUF_POOL_BUFSIZE_ALIGNED - PBUF_IP) with 1432 in Hlb.
  exists b, l, m'. cbn [length] in Hlen. split; [done|]. split; [done|]. split; [done|]. split; [done|]. split; [apply (pi_cells _ _ _ _ _ _ _ Hi)|].
  split; [lia|]. split.
  { intros k Hk. assert (k ∉ ((p', b) :: l).*1) as Hni by (rewrite Hkeys; intros ?%elem_of_seqZ; lia).
    rewrite (pi_pbs _ _ _ _ _ _ _ Hi k Hni), (pi_dat _ _ _ _ _ _ _ Hi k), decide_False by done. done. }
  split; [|split; [done|split; [|split]]].
  2: { intros k Hni. by rewrite (pi_pbs _ _ _ _ _ _ _ Hi k Hni), (pi_dat _ _ _ _ _ _ _ Hi k), decide_False by done. }
  2: { rewrite (pi_rest _ _ _ _ _ _ _ Hi). cbn [length]. change (pool_left (_ <| next_blk := _ |>)) with (pool_left m - Z.of_nat (S (length l))). lia. }
  2: { rewrite (pi_rest _ _ _ _ _ _ _ Hi). cbn [length]. change (next_blk (_ <| next_blk := _ |>)) with (next_blk m + Z.of_nat (S (length l))).
    pose proof (pi_keys _ _ _ _ _ _ _ Hi) as Hk0. cbn [fmap list_fmap fst length] in Hk0. rewrite Nat2Z.inj_succ, seqZ_cons in Hk0 by lia. apply (f_equal (hd 0)) in Hk0. cbn in Hk0. lia. }
  pose proof (pi_cells _ _ _ _ _ _ _ Hi) as Hcells. pose proof (pi_dat _ _ _ _ _ _ _ Hi) as Hdat. cbn [sum_len snd] in Hsum.
  assert (n + 84 + 1515 <= 3129) as Hbig by lia. unfold pool_segments in Hlen. change PBUF_POOL_BUFSIZE_ALIGNED with 1516 in Hlen. change PBUF_IP with 84 in Hlen.
  destruct l as [|[q c] [|? ?]]; [| |exfalso; cbn [length] in Hlen; zdm].
  - cbn [length] in Hlen. replace (Z.to_nat (n - 1432)) with 0%nat by zdm. done.
  - cbn [length] in Hlen, Hkeys. assert (q = p' + 1) as -> by (cbn in Hkeys; injection Hkeys; lia).
    apply Forall_cons in Htl as [Hc0 _]. apply Forall_cons in Hcells as [_ Hcells]. apply Forall_cons in Hcells as [(_ & _ & Hblk & _ & Hc1 & Hc2) _].
    cbn [fst snd sum_len] in *. rewrite content_cons. cbn [content map concat snd]. rewrite app_nil_r. unfold cell_data. rewrite Hblk, Hdat, Hc0.
    rewrite decide_True by (cbn; set_solver). rewrite drop_0. change (Z.to_nat PBUF_POOL_BUFSIZE_ALIGNED) with 1516%nat. rewrite take_stale by (change PBUF_POOL_BUFSIZE_ALIGNED with 1516 in Hc2; lia). f_equal. zdm.
Qed.

(** A packet that arrived: its cells, all from the pool, and its content. *)
Lemma receive_frame_run s hdr rest eth_type (f : Z -> M (stack U) unit) :
  let frame := hdr ++ rest in
  store_ok (mem s) -> length hdr = 24%nat -> rest <> [] -> Z.of_nat (length frame) <= DATA_BUF_LEN - 6 ->
  pool_segments PBUF_IP (Z.of_nat (length frame)) <= pool_left (mem s) ->
  Z.land (nf_flags (nif s)) NETIF_FLAG_ETHARP <> 0 -> drop 22 hdr = be_bytes 2 eth_type ->
  (eth_type = ETHTYPE_IP /\ f = ip4_input \/ eth_type = ETHTYPE_ARP /\ f = etharp_input) ->
  let p := next_blk (mem s) in
  exists b l m, receive_frame frame s = (f p ;;; ret tt) (with_mem s m) /\ packet m p ((p, b) :: l) /\
    Forall (fun x => pb_type (snd x) = pool_type /\ pb_ref (snd x) = 1 /\ pblk (pb_payload (snd x)) = fst x) ((p, b) :: l) /\
    Z.of_nat (length l) + 1 = pool_segments PBUF_IP (Z.of_nat (length frame)) /\
    (forall k, k < p -> pbs m !! k = pbs (mem s) !! k /\ dat m !! k = dat (mem s) !! k) /\
    content (dat m) ((p, b) :: l) = take (Z.to_nat (first_room - 24)) rest ++
      stale_bytes (p + 1) (Z.to_nat (Z.of_nat (length frame) - first_room)) /\ poff (pb_payload b) = PBUF_IP + SIZEOF_ETH_HDR /\
    (forall k, k ∉ ((p, b) :: l).*1 -> pbs m !! k = pbs (mem s) !! k /\ dat m !! k = dat (mem s) !! k) /\
    pool_left m = pool_left (mem s) - pool_segments PBUF_IP (Z.of_nat (length frame)) /\ next_blk m = p + pool_segments PBUF_IP (Z.of_nat (length frame)).
Proof.
  intros frame Hs Hh Hr Hlen Hpool Hfl Hty Hf p. set (n := Z.of_nat (length frame)) in *.
  assert (24 < n) as Hn by (subst n frame; rewrite length_app, Hh; destruct rest; [done|cbn; lia]).
  destruct (alloc_frame (mem s) n Hs ltac:(lia) Hpool) as (b & l & m1 & Ea & Hpk & Hown & Hlb & Hcells & Hseg & Hold & Hst & Hoff & Hrest & Hleft & Hnb). fold p in Ea, Hpk, Hown, Hcells, Hold, Hst.
  change first_room with 1432 in *. destruct (packet_head _ _ _ _ _ Hpk) as (_ & Hp0 & Hb & Hc & _). pose proof (length_cell _ _ Hc) as Hlc.
  unfold receive_frame. fold n. rewrite (proj2 (Z.ltb_ge _ _)) by lia. rewrite (onmem_run _ _ _ _ _ Ea), (proj2 (Z.eqb_neq _ _) Hp0).
  set (s1 := with_mem s m1). rewrite (onmem_getp s1 _ _ _ Hp0 Hb). replace (if pb_len b <? n then pb_len b else n) with (pb_len b) by (destruct (_ <? _) eqn:E; lia).
  set (w := take (Z.to_nat (pb_len b)) frame). assert (Z.of_nat (length w) = pb_len b) as Hlw by (subst w; rewrite length_take; lia).
  destruct (pwrite_cell m1 b 0 w Hc ltac:(lia) ltac:(lia)) as (d & Ew & F & C). rewrite ptr_add_0 in Ew. rewrite (onmem_run s1 _ _ _ _ Ew).
  change (Z.to_nat 0) with 0%nat in C. rewrite blit_all in C by lia. fold (with_dat m1 d). subst s1. rewrite with_mem_mem. set (s2 := with_mem s (with_dat m1 d)).
  assert (w = hdr ++ take (Z.to_nat (1432 - 24)) rest) as Hw.
  { subst w frame. rewrite take_app_ge by lia. f_equal. rewrite Hh. destruct (Z_le_gt_dec n 1432); [|f_equal; lia].
    rewrite !take_ge; [done|subst n; rewrite length_app, Hh in *; lia|subst n; rewrite length_app, Hh in *; lia]. }
  pose proof (frame_packet _ _ _ _ _ F Hpk) as Hpk2. change (m1 <| dat := d |>) with (mem s2) in Hpk2.
  destruct (ethernet_input_run ip4_input etharp_input s2 p b l hdr (take (Z.to_nat (1432 - 24)) rest) eth_type f Hpk2) as (Ei & Hpk3 & C3); try done.
  { change (dat (mem s2)) with d. congruence. }
  { destruct rest; [done|]. done. }
  set (b' := moved _ _) in *. set (m' := put_cell _ _ _) in *. exists b', l, m'. split.
  { unfold bind at 1. rewrite Ei. unfold bind. change (with_mem s2 m') with (with_mem s m'). by destruct (f p _) as [[[] ?]| |]. }
  split; [done|]. split; [|split; [done|split]].
  - apply Forall_cons in Hcells as [Hc1 Hc2]. constructor.
    + cbn [snd fst] in *. destruct Hc1 as (T1 & T2 & T3 & _). subst b'. unfold marked. cbn [snd fst] in *.
      destruct (pb_if_idx b =? NETIF_NO_INDEX), (cast_flag _ =? 0); done.
    + eapply Forall_impl; [exact Hc2|]. by intros x (T1 & T2 & T3 & _).
  - intros k Hk. destruct (Hold k Hk) as [O1 O2]. subst m'. rewrite pbs_put. change (pbs (mem s2)) with (pbs m1). change (dat (put_cell (mem s2) p b')) with d.
    rewrite lookup_insert_ne by lia. split; [done|]. rewrite (fr_out _ _ _ F); [done|]. apply Forall_cons in Hcells as [(_ & _ & T3 & _) _]. cbn in T3. rewrite T3.
    intros ->%list_elem_of_singleton. lia.
  - split; [|split; [|split; [|done]]].
    2: { pose proof (marked_same (nif s2) b (take 6 (drop 2 hdr))) as (_ & Hpay & _).
      change (poff (pb_payload b')) with (poff (pb_payload (marked (nif s2) b (take 6 (drop 2 hdr)))) + 24). rewrite Hpay. by rewrite Hoff. }
    2: { intros k Hk. destruct (Hrest k Hk) as [O1 O2]. apply not_elem_of_cons in Hk as [Hk _]. cbn [fst] in Hk. subst m'. rewrite pbs_put.
      change (pbs (mem s2)) with (pbs m1). change (dat (put_cell (mem s2) p b')) with d. rewrite lookup_insert_ne by done. split; [done|].
      rewrite (fr_out _ _ _ F); [done|]. apply Forall_cons in Hcells as [(_ & _ & T3 & _) _]. cbn in T3. rewrite T3. by intros ->%list_elem_of_singleton. }
    rewrite C3. f_equal. change (dat (mem s2)) with d. rewrite <- Hst. apply (frame_content _ _ _ _ F). apply NoDup_cons in Hown as [Hx _]. by intros k Hk ->%list_elem_of_singleton.
Qed.
End Link.
