(* ===== verification/EtharpProofs.v ===== *)
(** The ARP table: its invariant, the choice of an entry, and address
    resolution from a waiting packet to the frame that carries it. *)

From stdpp Require Import gmap.
From S2P Require Import Prelude Cmonad Cutils Heap Pbuf PbufProofs PbufChain Inet InetProofs Ethernet EthernetProofs Etharp.

(** ** The sweep *)

Definition live (e : etharp_entry) : Prop := ar_state e <> ETHARP_STATE_EMPTY.
Definition stable (e : etharp_entry) : Prop := is_stable (ar_state e) = true.
Definition pending_free (e : etharp_entry) : Prop := ar_state e = ETHARP_STATE_PENDING /\ ar_q e = NULL.
Definition pending_queue (e : etharp_entry) : Prop := ar_state e = ETHARP_STATE_PENDING /\ ar_q e <> NULL.

(** [x] is the first [k] entries' oldest of class [P], of age [a]; 10 if none. *)
Definition oldest (t : list etharp_entry) (k : nat) (P : etharp_entry -> Prop) (x a : Z) : Prop :=
  (forall j e, (j < k)%nat -> t !! j = Some e -> P e -> x <> ARP_TABLE_SIZE /\ ar_ctime e <= a) /\
  (x = ARP_TABLE_SIZE /\ a = 0 \/ 0 <= x < Z.of_nat k /\ exists e, t !! Z.to_nat x = Some e /\ P e /\ ar_ctime e = a).
Definition first_empty (t : list etharp_entry) (k : nat) (x : Z) : Prop :=
  x = ARP_TABLE_SIZE /\ (forall j e, (j < k)%nat -> t !! j = Some e -> live e) \/
  0 <= x < Z.of_nat k /\ exists e, t !! Z.to_nat x = Some e /\ ~ live e.
Record cands_ok (t : list etharp_entry) (k : nat) (c : cands) : Prop := {
  co_empty : first_empty t k (c_empty c);
  co_stable : oldest t k stable (c_old_stable c) (age_stable c);
  co_pending : oldest t k pending_free (c_old_pending c) (age_pending c);
  co_queue : oldest t k pending_queue (c_old_queue c) (age_queue c)
}.

Lemma oldest_skip t k P x a e : oldest t k P x a -> t !! k = Some e -> ~ P e \/ x <> ARP_TABLE_SIZE /\ ar_ctime e <= a -> oldest t (S k) P x a.
Proof.
  intros [H1 H2] He Hs. split.
  - intros j e' Hj Hje Hp. destruct (decide (j = k)) as [->|]; [|apply (H1 j e'); [lia|done|done]]. simplify_eq. tauto.
  - destruct H2 as [H2|(H2 & H3)]; [by left|right]. split; [lia|done].
Qed.
Lemma oldest_take t k P x a e : oldest t k P x a -> t !! k = Some e -> P e -> a <= ar_ctime e -> (k < 10)%nat -> oldest t (S k) P (Z.of_nat k) (ar_ctime e).
Proof.
  intros [H1 H2] He Hp Ha Hk. unfold oldest, ARP_TABLE_SIZE in *. split.
  - intros j e' Hj Hje Hp'. split; [lia|]. destruct (decide (j = k)) as [->|]; [by simplify_eq|]. destruct (H1 j e') as [_ ?]; [lia|done|done|lia].
  - right. split; [lia|]. exists e. by rewrite Nat2Z.id.
Qed.

Lemma consider_ok t k c e : cands_ok t k c -> t !! k = Some e -> live e -> (k < 10)%nat -> 0 <= ar_ctime e ->
  cands_ok t (S k) (consider c (Z.of_nat k) e).
Proof.
  intros [H1 H2 H3 H4] He Hl Hk Hc.
  assert (first_empty t (S k) (c_empty c)) as H1'.
  { destruct H1 as [[E H1]|[Hx H1]]; [left|right; split; [lia|done]]. split; [done|]. intros j e' Hj Hje.
    destruct (decide (j = k)) as [->|]; [by simplify_eq|]. apply (H1 j); [lia|done]. }
  assert (forall P x a, oldest t k P x a -> ~ P e -> oldest t (S k) P x a) as Hskip by (intros P x a Ho Hn; eapply oldest_skip; eauto).
  assert (forall P x a, oldest t k P x a -> P e -> a <=? ar_ctime e = false -> oldest t (S k) P x a) as Hold.
  { intros P x a Ho Hp Ha%Z.leb_gt. eapply oldest_skip; [done|done|]. right. destruct Ho as [_ [[-> ->]|[Hx _]]]; [lia|]. unfold ARP_TABLE_SIZE. lia. }
  unfold consider. destruct (ar_state e) eqn:Es; [done| | | |].
  1: { destruct (ar_q e =? NULL) eqn:Eq; cbn [negb]; [apply Z.eqb_eq in Eq|apply Z.eqb_neq in Eq].
    - assert (pending_free e) as Hp by done. destruct (age_pending c <=? ar_ctime e) eqn:E; split; cbn; try (apply Hskip; [done|]; unfold stable, pending_queue; rewrite Es; cbn; naive_solver); try done.
      + apply Z.leb_le in E. by eapply oldest_take.
      + by eapply Hold.
    - assert (pending_queue e) as Hp by done. destruct (age_queue c <=? ar_ctime e) eqn:E; split; cbn; try (apply Hskip; [done|]; unfold stable, pending_free; rewrite Es; cbn; naive_solver); try done.
      + apply Z.leb_le in E. by eapply oldest_take.
      + by eapply Hold. }
  all: assert (stable e) as Hp by (unfold stable; by rewrite Es);
    destruct (age_stable c <=? ar_ctime e) eqn:E; split; cbn; try (apply Hskip; [done|]; unfold pending_free, pending_queue; rewrite Es; naive_solver); try done;
    [apply Z.leb_le in E; by eapply oldest_take|by eapply Hold].
Qed.

Definition no_match (ip : option Z) (t : list etharp_entry) (k : nat) : Prop :=
  forall j e, (j < k)%nat -> t !! j = Some e -> live e -> ip <> Some (ar_ipaddr e).

Lemma sweep_spec ip t suf : forall k c, drop k t = suf -> length t = 10%nat -> (k <= 10)%nat -> Forall (fun e => 0 <= ar_ctime e) t ->
  cands_ok t k c -> no_match ip t k ->
  match sweep ip suf (Z.of_nat k) c with
  | inl i => 0 <= i < 10 /\ exists e, t !! Z.to_nat i = Some e /\ live e /\ ip = Some (ar_ipaddr e)
  | inr c => cands_ok t 10 c /\ no_match ip t 10
  end.
Proof.
  induction suf as [|e suf IH]; intros k c Hd Hlen Hk Hag Hc Hn; cbn [sweep].
  - assert (k = 10)%nat as -> by (apply (f_equal length) in Hd; rewrite length_drop in Hd; cbn in Hd; lia). done.
  - assert (t !! k = Some e) as He by (pose proof (lookup_drop t k 0) as E; rewrite Hd, Nat.add_0_r in E; done).
    assert (k < 10)%nat as Hk' by (apply lookup_lt_Some in He; lia). assert (drop (S k) t = suf) as Hd' by (rewrite (drop_S _ _ _ He) in Hd; by simplify_eq).
    assert (0 <= ar_ctime e) as Hce by (by apply (Forall_lookup_1 _ _ _ _ Hag He)). replace (Z.of_nat k + 1) with (Z.of_nat (S k)) by lia.
    assert (~ live e -> no_match ip t (S k)) as Hn0.
    { intros Hl j e' Hj Hje Hle. destruct (decide (j = k)) as [->|]; [by simplify_eq|]. apply (Hn j); [lia|done|done]. }
    assert (forall c', c_old_stable c' = c_old_stable c -> c_old_pending c' = c_old_pending c -> c_old_queue c' = c_old_queue c ->
      age_stable c' = age_stable c -> age_pending c' = age_pending c -> age_queue c' = age_queue c -> ~ live e -> first_empty t (S k) (c_empty c') -> cands_ok t (S k) c') as Hsk.
    { intros c' E1 E2 E3 E4 E5 E6 Hl Hf. destruct Hc as [H1 H2 H3 H4]. unfold live in Hl. assert (ar_state e = ETHARP_STATE_EMPTY) as Es by (destruct (ar_state e); naive_solver).
      split; [done| | |]; rewrite ?E1, ?E2, ?E3, ?E4, ?E5, ?E6; (eapply oldest_skip; [done|done|left]); unfold stable, pending_free, pending_queue; rewrite Es; cbn; naive_solver. }
    destruct (bool_decide (ar_state e = ETHARP_STATE_EMPTY)) eqn:Eb; [apply bool_decide_eq_true in Eb|apply bool_decide_eq_false in Eb].
    + assert (~ live e) as Hl by (unfold live; naive_solver). rewrite andb_true_r. cbn [negb]. destruct (c_empty c =? ARP_TABLE_SIZE) eqn:Ee.
      * apply IH; try done; [|by apply Hn0]. apply Hsk; try done. right. cbn [c_empty]. split; [lia|]. exists e. by rewrite Nat2Z.id.
      * apply IH; try done; [|by apply Hn0]. apply Hsk; try done. apply Z.eqb_neq in Ee. destruct (co_empty _ _ _ Hc) as [[? _]|[Hx He']]; [done|]. right. split; [lia|done].
    + rewrite andb_false_r. cbn [negb]. destruct (match ip with Some a => a =? ar_ipaddr e | None => false end) eqn:Em.
      * split; [lia|]. exists e. rewrite Nat2Z.id. split; [done|]. split; [done|]. destruct ip; [|done]. apply Z.eqb_eq in Em. by subst.
      * apply IH; try done; [by apply consider_ok|]. intros j e' Hj Hje Hle. destruct (decide (j = k)) as [->|]; [|by apply (Hn j); [lia| |]].
        simplify_eq. intros ->. by rewrite Z.eqb_refl in Em.
Qed.

(** ** The invariant of the table *)

Definition entry_ok (e : etharp_entry) : Prop :=
  match ar_state e with
  | ETHARP_STATE_EMPTY => e = empty_entry
  | ETHARP_STATE_PENDING => ar_netif e = true /\ 0 <= ar_ctime e < ARP_MAXPENDING
  | _ => ar_q e = NULL /\ ar_netif e = true /\ 0 <= ar_ctime e < ARP_MAXAGE
  end.
(** One entry for an address. *)
Definition unique_ip (t : list etharp_entry) : Prop :=
  forall i j e e', t !! i = Some e -> t !! j = Some e' -> live e -> live e' -> ar_ipaddr e = ar_ipaddr e' -> i = j.
Record table_ok (t : list etharp_entry) : Prop := {
  to_len : length t = 10%nat;
  to_unique : unique_ip t;
  to_entries : Forall entry_ok t
}.

Lemma live_dec e : live e \/ ar_state e = ETHARP_STATE_EMPTY.
Proof. unfold live. destruct (ar_state e); auto; left; done. Qed.
Lemma entry_ok_ctime e : entry_ok e -> 0 <= ar_ctime e.
Proof. unfold entry_ok. destruct (ar_state e); [intros ->; done|lia..]. Qed.
Lemma table_ok_ctime t : table_ok t -> Forall (fun e => 0 <= ar_ctime e) t.
Proof. intros Ht. eapply Forall_impl; [apply (to_entries _ Ht)|]. apply entry_ok_ctime. Qed.
Lemma empty_table_ok : table_ok (repeat empty_entry 10).
Proof.
  split; [done| |].
  - intros i j e e' Hi _ Hl. apply list_elem_of_lookup_2, list_elem_of_In, repeat_spec in Hi. subst. done.
  - apply Forall_forall. intros e He%list_elem_of_In%repeat_spec. by subst.
Qed.

(** Replacing an entry. *)
Lemma table_ok_insert t i e : table_ok t -> entry_ok e ->
  (live e -> forall j e', j <> i -> t !! j = Some e' -> live e' -> ar_ipaddr e' <> ar_ipaddr e) -> table_ok (<[i := e]> t).
Proof.
  intros [H1 H2 H3] He Hu. split; [by rewrite length_insert| |].
  - intros j k f f' Hj Hk Hlf Hlf' Eip. apply list_lookup_insert_Some in Hj as [(-> & -> & _)|[Hj1 Hj2]]; apply list_lookup_insert_Some in Hk as [(-> & -> & _)|[Hk1 Hk2]]; try done.
    + exfalso. apply (Hu Hlf k f'); auto.
    + exfalso. apply (Hu Hlf' j f); auto.
    + by apply (H2 j k f f').
  - by apply Forall_insert.
Qed.
Lemma table_ok_free t i : table_ok t -> table_ok (<[i := empty_entry]> t).
Proof. intros Ht. apply table_ok_insert; [done|done|]. by intros []. Qed.
(** The same address and another state. *)
Lemma table_ok_same t i e e' : table_ok t -> t !! i = Some e -> live e -> ar_ipaddr e' = ar_ipaddr e -> entry_ok e' -> table_ok (<[i := e']> t).
Proof.
  intros Ht Hi Hl Eip He. apply table_ok_insert; [done|done|]. intros _ j f Hj Hjf Hlf Ef. apply Hj, (to_unique _ Ht j i f e); [done|done|done|done|congruence].
Qed.
(** A new address. *)
Lemma table_ok_new t i e a : table_ok t -> no_match (Some a) t 10 -> ar_ipaddr e = a -> entry_ok e -> table_ok (<[i := e]> t).
Proof.
  intros Ht Hn Ea He. apply table_ok_insert; [done|done|]. intros _ j f _ Hjf Hlf Ef. apply (Hn j f); [|done|done|congruence].
  apply lookup_lt_Some in Hjf. rewrite (to_len _ Ht) in Hjf. done.
Qed.

Section Arp.
Context `{PbufEnv} {U : Type}.
Implicit Types s : stack U.

(** Operations that leave table and interface alone. *)
Definition same_net s s' : Prop := arp_table s' = arp_table s /\ nif s' = nif s.
#[export] Instance same_net_preorder : PreOrder same_net.
Proof. split; [by intros s|]. intros s1 s2 s3 [A1 A2] [B1 B2]. split; congruence. Qed.

Lemma same_net_onmem {A} (m : M lmem A) : pres same_net (onmem m).
Proof. apply pres_zoom. by intros s t. Qed.
Lemma same_net_linkoutput p : pres same_net (linkoutput p).
Proof.
  unfold linkoutput. pres_walk same_net; try apply same_net_onmem. by apply pres_modify.
Qed.
Lemma same_net_output p src dst ty : pres same_net (ethernet_output p src dst ty).
Proof. unfold ethernet_output. cbv zeta. pres_walk same_net; try apply same_net_onmem. apply same_net_linkoutput. Qed.
Lemma same_net_raw a b c d e f g : pres same_net (etharp_raw a b c d e f g).
Proof.
  unfold etharp_raw. cbv zeta. pres_walk same_net; try apply same_net_onmem. apply same_net_output.
Qed.
Lemma same_net_request_dst a b : pres same_net (etharp_request_dst a b).
Proof. unfold etharp_request_dst. pres_walk same_net. apply same_net_raw. Qed.
Lemma same_net_request a : pres same_net (etharp_request a).
Proof. apply same_net_request_dst. Qed.
End Arp.
#[export] Hint Resolve same_net_onmem same_net_linkoutput same_net_output same_net_raw same_net_request_dst same_net_request : pres.

Section Table.
Context `{PbufEnv} {U : Type} (acd_arp_reply : bytes -> M (stack U) unit).
Implicit Types s : stack U.

Definition with_table s (t : list etharp_entry) : stack U := s <| arp_table := t |>.
Lemma with_table_table s t t' : with_table (with_table s t) t' = with_table s t'.
Proof. by destruct s. Qed.

Lemma arp_table_with s t : arp_table (with_table s t) = t.
Proof. done. Qed.

Lemma entry_run {B} s i e (k : etharp_entry -> M (stack U) B) : 0 <= i -> arp_table s !! Z.to_nat i = Some e -> bind (entry i) k s = k e s.
Proof. intros Hi He. unfold bind, entry. by rewrite He, (proj2 (Z.leb_le _ _) Hi). Qed.
Lemma upd_entry_run {B} s i e f (k : M (stack U) B) : 0 <= i -> arp_table s !! Z.to_nat i = Some e ->
  (upd_entry i f ;;; k) s = k (with_table s (<[Z.to_nat i := f e]> (arp_table s))).
Proof. intros Hi He. unfold upd_entry. rewrite bind_assoc, (entry_run _ _ _ _ Hi He). done. Qed.
Lemma upd_entry_end s i e f : 0 <= i -> arp_table s !! Z.to_nat i = Some e ->
  upd_entry i f s = Ok (tt, with_table s (<[Z.to_nat i := f e]> (arp_table s))).
Proof. intros Hi He. unfold upd_entry. by rewrite (entry_run _ _ _ _ Hi He). Qed.
Lemma lookup_updated s i e e' : arp_table s !! i = Some e -> arp_table (with_table s (<[i := e']> (arp_table s))) !! i = Some e'.
Proof. intros He. rewrite arp_table_with. apply list_lookup_insert_eq. by eapply lookup_lt_Some. Qed.

Ltac entry_here H := repeat (eapply lookup_updated); exact H.

(** Steps that keep the table, in a partial correctness proof. *)
Lemma wlp_same {A B} (m : M (stack U) A) (k : A -> M (stack U) B) (Q : B -> stack U -> Prop) s : pres same_net m ->
  (forall a s', same_net s s' -> wlp (k a) Q s') -> wlp (bind m k) Q s.
Proof. intros Hm Hk. apply wlp_bind. eapply wlp_mono; [apply Hm|]. intros a s' Hs. by apply Hk. Qed.

(** What an operation may have done to entry [i]: it is now [e]. *)
Definition now s (i : Z) (e : etharp_entry) s' : Prop := arp_table s' = <[Z.to_nat i := e]> (arp_table s) /\ nif s' = nif s.

Lemma free_entry_wlp s i e : 0 <= i -> arp_table s !! Z.to_nat i = Some e -> wlp (etharp_free_entry i) (fun _ s' => now s i empty_entry s') s.
Proof.
  intros Hi He. unfold wlp, etharp_free_entry. rewrite (entry_run _ _ _ _ Hi He). fold (wlp (S := stack U) (A := unit)). destruct (ar_q e =? NULL) eqn:Eq; cbn [negb].
  - rewrite bind_ret, (upd_entry_end _ _ _ _ Hi He). split; [|done]. apply Z.eqb_eq in Eq. destruct e. cbn in Eq. subst. done.
  - rewrite bind_assoc. pose proof (same_net_onmem (U := U) (pbuf_free (ar_q e)) s) as Hp. unfold wlp in Hp. unfold bind at 1.
    destruct (onmem (pbuf_free (ar_q e)) s) as [[c s1]| |]; [|done|done]. destruct Hp as [P1 P2]. rewrite <- P1 in He.
    rewrite (upd_entry_run _ _ _ _ _ Hi He), (upd_entry_end _ i (e <| ar_q := NULL |>)) by (try done; by apply lookup_updated with e).
    split; [|done]. rewrite !arp_table_with, list_insert_insert_eq, P1. by destruct e.
Qed.

Definition found s (a i : Z) s' : Prop :=
  nif s' = nif s /\
  (0 <= i < 10 /\ arp_table s' = arp_table s /\ (exists e, arp_table s !! Z.to_nat i = Some e /\ live e /\ ar_ipaddr e = a) \/
   0 <= i < 10 /\ no_match (Some a) (arp_table s) 10 /\ arp_table s' = <[Z.to_nat i := empty_entry <| ar_ipaddr := a |>]> (arp_table s) \/
   i = ERR_MEM /\ arp_table s' = arp_table s).

Lemma sweep_start t a : table_ok t ->
  match sweep (Some a) t 0 no_cands with
  | inl i => 0 <= i < 10 /\ exists e, t !! Z.to_nat i = Some e /\ live e /\ Some a = Some (ar_ipaddr e)
  | inr c => cands_ok t 10 c /\ no_match (Some a) t 10
  end.
Proof.
  intros Ht. apply (sweep_spec (Some a) t t 0 no_cands); [done|apply (to_len _ Ht)|lia|by apply table_ok_ctime| |by intros ? ? ?%Nat.nlt_0_r].
  assert (forall P, oldest t 0 P ARP_TABLE_SIZE 0) as Ho by (intros P; split; [by intros j e ?%Nat.nlt_0_r|by left]).
  split; [|apply Ho..]. left. split; [done|]. by intros j e ?%Nat.nlt_0_r.
Qed.

(** The end of the search: the entry gets the address. *)
Lemma found_finish s s1 a i : now s i empty_entry s1 -> 0 <= i < 10 -> length (arp_table s) = 10%nat -> no_match (Some a) (arp_table s) 10 ->
  exists s', (upd_entry i (fun e => e <| ar_ipaddr := a |>) ;;; upd_entry i (fun e => e <| ar_ctime := 0 |>) ;;; ret i) s1 = Ok (i, s') /\ found s a i s'.
Proof.
  intros [T1 N1] Hi Hl Hn. assert (arp_table s1 !! Z.to_nat i = Some empty_entry) as E1 by (rewrite T1; apply list_lookup_insert_eq; lia).
  rewrite (upd_entry_run _ _ _ _ _ (proj1 Hi) E1). rewrite (upd_entry_run _ i (empty_entry <| ar_ipaddr := a |>)) by (try lia; by eapply lookup_updated).
  eexists. split; [reflexivity|]. split; [done|]. right. left. split; [done|]. split; [done|]. rewrite !arp_table_with, list_insert_insert_eq, T1, list_insert_insert_eq. done.
Qed.

Lemma empty_now s i e : table_ok (arp_table s) -> arp_table s !! Z.to_nat i = Some e -> ~ live e -> now s i empty_entry s.
Proof.
  intros Ht He Hl. pose proof (Forall_lookup_1 _ _ _ _ (to_entries _ Ht) He) as Ho. destruct (live_dec e) as [|Es]; [done|]. unfold entry_ok in Ho. rewrite Es in Ho. subst e.
  split; [|done]. by rewrite list_insert_id.
Qed.

Lemma find_entry_wlp s a flags : table_ok (arp_table s) -> wlp (etharp_find_entry (Some a) flags) (fun i s' => found s a i s') s.
Proof.
  intros Ht. unfold etharp_find_entry. apply wlp_bind, wlp_gets. pose proof (sweep_start _ a Ht) as Hsw. destruct (sweep (Some a) (arp_table s) 0 no_cands) as [i|c].
  - destruct Hsw as (Hi & e & He & Hl & [= ->]). apply wlp_ret. split; [done|]. left. split; [done|]. split; [done|]. eauto.
  - destruct Hsw as [Hc Hn]. pose proof (to_len _ Ht) as Hlen. destruct (_ || _); [apply wlp_ret; split; [done|]; by right; right|]. cbv zeta.
    assert (forall x (P : etharp_entry -> Prop) ag, oldest (arp_table s) 10 P x ag -> x <? ARP_TABLE_SIZE = true ->
      wlp (etharp_free_entry x ;;; upd_entry x (fun e => e <| ar_ipaddr := a |>) ;;; upd_entry x (fun e => e <| ar_ctime := 0 |>) ;;; ret x) (fun i s' => found s a i s') s) as Hrec.
    { intros x P ag [_ Ho] Hx%Z.ltb_lt. destruct Ho as [[? _]|(Hx' & e & He & _)]; [lia|]. apply wlp_bind. eapply wlp_mono; [by eapply free_entry_wlp; [lia|]|].
      intros [] s1 Hnow. cbv beta. destruct (found_finish s s1 a x Hnow ltac:(lia) Hlen Hn) as (s' & E & Hf). unfold wlp. by rewrite E. }
    destruct (c_empty c <? ARP_TABLE_SIZE) eqn:E1.
    { apply Z.ltb_lt in E1. destruct (co_empty _ _ _ Hc) as [[E _]|(Hx & e & He & Hl)]; [lia|].
      destruct (found_finish s s a (c_empty c) (empty_now _ _ _ Ht He Hl) ltac:(lia) Hlen Hn) as (s' & E & Hf). unfold wlp. by rewrite E. }
    destruct (c_old_stable c <? ARP_TABLE_SIZE) eqn:E2; [eapply Hrec; [apply (co_stable _ _ _ Hc)|done]|].
    destruct (c_old_pending c <? ARP_TABLE_SIZE) eqn:E3; [eapply Hrec; [apply (co_pending _ _ _ Hc)|done]|].
    destruct (c_old_queue c <? ARP_TABLE_SIZE) eqn:E4; [eapply Hrec; [apply (co_queue _ _ _ Hc)|done]|].
    apply wlp_ret. split; [done|]. by right; right.
Qed.

(** ** Every operation keeps the invariant *)

Definition keeps {A} (m : M (stack U) A) : Prop := forall s, table_ok (arp_table s) -> wlp m (fun _ s' => table_ok (arp_table s')) s.
Lemma keeps_same {A} (m : M (stack U) A) : pres same_net m -> keeps m.
Proof. intros Hm s Ht. eapply wlp_mono; [apply Hm|]. intros a s' [E _]. by rewrite E. Qed.
Lemma keeps_bind {A B} (m : M (stack U) A) (k : A -> M (stack U) B) : keeps m -> (forall a, keeps (k a)) -> keeps (bind m k).
Proof. intros Hm Hk s Ht. apply wlp_bind. eapply wlp_mono; [by apply Hm|]. intros a s' Ht'. by apply Hk. Qed.
Lemma keeps_foreach {A} (l : list A) (f : A -> M (stack U) unit) : (forall x, x ∈ l -> keeps (f x)) -> keeps (mforeach l f).
Proof. intros Hf s Ht. apply (wlp_foreach l f (fun s => table_ok (arp_table s))); [done|]. intros x s' Hx Hs'. by apply Hf. Qed.

Lemma found_entry s a i s' : table_ok (arp_table s) -> found s a i s' -> 0 <= i -> 0 <= i < 10 /\
  exists e, arp_table s' !! Z.to_nat i = Some e /\ ar_ipaddr e = a /\ (arp_table s' = arp_table s /\ live e \/ e = empty_entry <| ar_ipaddr := a |>) /\
    forall e', ar_ipaddr e' = a -> entry_ok e' -> table_ok (<[Z.to_nat i := e']> (arp_table s')).
Proof.
  intros Ht [_ [(Hi & Et & e & He & Hl & Ea)|[(Hi & Hn & Et)|[-> _]]]] Hi0; [| |done]; (split; [done|]).
  - exists e. rewrite Et. split; [done|]. split; [done|]. split; [by left|]. intros e' Ea' Ho. eapply table_ok_same; [done|done|done|congruence|done].
  - exists (empty_entry <| ar_ipaddr := a |>). rewrite Et. split; [apply list_lookup_insert_eq; rewrite (to_len _ Ht); lia|]. split; [done|]. split; [by right|].
    intros e' Ea' Ho. rewrite list_insert_insert_eq. by eapply table_ok_new.
Qed.

Definition resolved (a : Z) (eth : bytes) : etharp_entry := mk_entry NULL a true eth 0 ETHARP_STATE_STABLE.

Lemma update_wlp s a eth flags : table_ok (arp_table s) ->
  wlp (etharp_update_arp_entry a eth flags) (fun r s' => table_ok (arp_table s') /\ nif s' = nif s /\
    (r = ERR_OK -> exists i, arp_table s' !! i = Some (resolved a eth))) s.
Proof.
  intros Ht. unfold etharp_update_arp_entry. apply wlp_bind, wlp_gets. destruct (non_unicast a (nif s)); [by apply wlp_ret|]. apply wlp_bind.
  eapply wlp_mono; [by apply find_entry_wlp|]. intros i s1 Hf. cbv beta. destruct (i <? 0) eqn:Ei.
  { apply Z.ltb_lt in Ei. apply wlp_ret. destruct Hf as [Hn [[? _]|[[? _]|[-> ->]]]]; [lia|lia|]. done. }
  apply Z.ltb_ge in Ei. destruct (found_entry _ _ _ _ Ht Hf Ei) as (Hi & e & He & Ea & _ & Hins). destruct Hf as [Hnif _]. unfold wlp.
  rewrite (upd_entry_run _ _ e _ _ Ei He). do 3 (erewrite upd_entry_run; [|done|entry_here He]). erewrite entry_run; [|done|entry_here He].
  set (e1 := _ <| ar_ctime := 0 |>). set (s2 := with_table _ _).
  assert (arp_table s2 = <[Z.to_nat i := e1]> (arp_table s1)) as E2 by (subst s2; rewrite !arp_table_with, !list_insert_insert_eq; done).
  assert (nif s2 = nif s) as N2 by exact Hnif. assert (arp_table s2 !! Z.to_nat i = Some e1) as L2 by (rewrite E2; apply list_lookup_insert_eq; by eapply lookup_lt_Some).
  assert (forall s', arp_table s' = <[Z.to_nat i := resolved a eth]> (arp_table s1) -> nif s' = nif s ->
    table_ok (arp_table s') /\ nif s' = nif s /\ (ERR_OK = ERR_OK -> exists i, arp_table s' !! i = Some (resolved a eth))) as Hend.
  { intros s' -> Hn'. split; [apply Hins; [done|unfold entry_ok; cbn; done]|]. split; [done|]. intros _. exists (Z.to_nat i). apply list_lookup_insert_eq. by eapply lookup_lt_Some. }
  change (ar_q e1) with (ar_q e). destruct (ar_q e =? NULL) eqn:Eq; cbn [negb].
  - apply Z.eqb_eq in Eq. apply Hend; [|done]. rewrite E2. f_equal. subst e1. destruct e. cbn in *. by subst.
  - rewrite !bind_assoc. rewrite (upd_entry_run _ _ _ _ _ Ei L2). set (s3 := with_table s2 _).
    assert (arp_table s3 = <[Z.to_nat i := resolved a eth]> (arp_table s1)) as E3.
    { subst s3. rewrite arp_table_with, E2, list_insert_insert_eq. f_equal. subst e1. destruct e. cbn in *. by subst. }
    assert (nif s3 = nif s) as N3 by exact N2. clearbody s3.
    match goal with |- match ?m ?st with _ => _ end => change (wlp m (fun r s' => table_ok (arp_table s') /\ nif s' = nif s /\
      (r = ERR_OK -> exists i, arp_table s' !! i = Some (resolved a eth))) st) end.
    apply wlp_same; [pres_walk (@same_net U)|]. intros _ s4 [A1 A2]. apply Hend; congruence.
Qed.

Lemma update_keeps a eth flags : keeps (etharp_update_arp_entry a eth flags).
Proof. intros s Ht. eapply wlp_mono; [by apply update_wlp|]. by intros r s' [? _]. Qed.

(** A change of one entry that keeps its address. *)
Lemma upd_keeps i f : (forall e, live e -> entry_ok e -> entry_ok (f e) /\ ar_ipaddr (f e) = ar_ipaddr e) ->
  forall s e, 0 <= i -> arp_table s !! Z.to_nat i = Some e -> live e -> table_ok (arp_table s) -> wlp (upd_entry i f) (fun _ s' => table_ok (arp_table s')) s.
Proof.
  intros Hf s e Hi He Hl Ht. unfold wlp. rewrite (upd_entry_end _ _ _ _ Hi He). rewrite arp_table_with.
  pose proof (Forall_lookup_1 _ _ _ _ (to_entries _ Ht) He) as Ho. destruct (Hf e Hl Ho) as [F1 F2]. by eapply table_ok_same.
Qed.

Lemma free_keeps s i e : 0 <= i -> arp_table s !! Z.to_nat i = Some e -> table_ok (arp_table s) ->
  wlp (etharp_free_entry i) (fun _ s' => table_ok (arp_table s')) s.
Proof. intros Hi He Ht. eapply wlp_mono; [by eapply free_entry_wlp|]. intros _ s' [-> _]. by apply table_ok_free. Qed.

Lemma indices_bound i : i ∈ table_indices -> 0 <= i < 10.
Proof. intros Hi. apply elem_of_seqZ in Hi. unfold ARP_TABLE_SIZE in Hi. lia. Qed.
Lemma table_lookup t i : table_ok t -> 0 <= i < 10 -> exists e, t !! Z.to_nat i = Some e.
Proof. intros Ht Hi. apply lookup_lt_is_Some_2. rewrite (to_len _ Ht). lia. Qed.

Lemma tmr_entry_keeps i : 0 <= i < 10 -> keeps (tmr_entry i).
Proof.
  intros Hi s Ht. destruct (table_lookup _ i Ht Hi) as [e He]. unfold wlp, tmr_entry. rewrite (entry_run _ _ _ _ (proj1 Hi) He).
  case_bool_decide as Es; [done|]. assert (live e) as Hl by done. pose proof (Forall_lookup_1 _ _ _ _ (to_entries _ Ht) He) as Ho. pose proof (entry_ok_ctime _ Ho) as Hc0.
  assert (ar_ctime e < ARP_MAXAGE) as Hc1 by (unfold entry_ok, ARP_MAXPENDING, ARP_MAXAGE in *; destruct (ar_state e); [by subst|lia..]). unfold ARP_MAXAGE in Hc1.
  erewrite upd_entry_run; [|lia|done]. cbv beta. rewrite u16_id by lia. set (e1 := e <| ar_ctime := _ |>). set (s1 := with_table s _).
  assert (arp_table s1 !! Z.to_nat i = Some e1) as He1 by (by eapply lookup_updated). rewrite (entry_run _ _ _ _ (proj1 Hi) He1).
  assert (entry_ok e1 -> table_ok (arp_table s1)) as Hs1 by (intros Ho1; by eapply table_ok_same).
  assert (table_ok (<[Z.to_nat i := empty_entry]> (arp_table s1))) as Hfr by (subst s1; rewrite arp_table_with, list_insert_insert_eq; by apply table_ok_free).
  assert (forall e', ar_ipaddr e' = ar_ipaddr e -> entry_ok e' -> table_ok (<[Z.to_nat i := e']> (arp_table s1))) as Hset.
  { intros e' E1 E2. subst s1. rewrite arp_table_with, list_insert_insert_eq. by eapply table_ok_same. }
  change (ar_ctime e1) with (ar_ctime e + 1). change (ar_state e1) with (ar_state e). change (ar_netif e1) with (ar_netif e).
  destruct (_ || _) eqn:Eold.
  { pose proof (free_entry_wlp s1 i e1 (proj1 Hi) He1) as Hw. unfold wlp in Hw. destruct (etharp_free_entry i s1) as [[u s2]| |]; [|done|done].
    destruct Hw as [-> _]. done. }
  apply orb_false_iff in Eold as [O1%Z.leb_gt O2]. unfold entry_ok in Ho. destruct (ar_state e) eqn:Est; [done| | | |].
  - rewrite bool_decide_true in O2 by done. cbn [andb] in O2. apply Z.leb_gt in O2. destruct Ho as [Hn _]. rewrite Hn.
    assert (table_ok (arp_table s1)) as Ht1 by (apply Hs1; unfold entry_ok; subst e1; cbn; rewrite Est; split; [done|lia]).
    change (wlp (etharp_request (ar_ipaddr e) ;;; ret tt) (fun _ s' => table_ok (arp_table s')) s1). apply wlp_same; [apply same_net_request|]. intros _ s2 [E _]. apply wlp_ret. by rewrite E.
  - apply Hs1. unfold entry_ok. subst e1. cbn. rewrite Est. destruct Ho as (H1 & H2 & _). split; [done|]. split; [done|lia].
  - rewrite (upd_entry_end _ _ _ _ (proj1 Hi) He1). apply Hset; [done|]. destruct Ho as (H1 & H2 & _). split; [done|]. split; [done|]. cbn. lia.
  - rewrite (upd_entry_end _ _ _ _ (proj1 Hi) He1). apply Hset; [done|]. destruct Ho as (H1 & H2 & _). split; [done|]. split; [done|]. cbn. lia.
Qed.
Lemma tmr_keeps : keeps etharp_tmr.
Proof. apply keeps_foreach. intros i Hi. by apply tmr_entry_keeps, indices_bound. Qed.

Lemma cleanup_keeps : keeps etharp_cleanup_netif.
Proof.
  apply keeps_foreach. intros i Hi%indices_bound s Ht. destruct (table_lookup _ i Ht Hi) as [e He]. unfold wlp. rewrite (entry_run _ _ _ _ (proj1 Hi) He).
  destruct (_ && _); [|done]. by apply (free_keeps s i e); [lia| |].
Qed.

(** A valid table with a live entry [i]. *)
Definition live_at (i : Z) s : Prop := table_ok (arp_table s) /\ 0 <= i /\ exists e, arp_table s !! Z.to_nat i = Some e /\ live e.
Lemma live_at_same i s s' : live_at i s -> same_net s s' -> live_at i s'.
Proof. intros (Ht & Hi & e & He & Hl) [E _]. unfold live_at. rewrite E. eauto. Qed.
Lemma live_at_upd i s f : live_at i s -> (forall e, live e -> entry_ok e -> live (f e) /\ entry_ok (f e) /\ ar_ipaddr (f e) = ar_ipaddr e) ->
  wlp (upd_entry i f) (fun _ s' => live_at i s') s.
Proof.
  intros (Ht & Hi & e & He & Hl) Hf. unfold wlp. rewrite (upd_entry_end _ _ _ _ Hi He). destruct (Hf e Hl (Forall_lookup_1 _ _ _ _ (to_entries _ Ht) He)) as (F1 & F2 & F3).
  split; [rewrite arp_table_with; by eapply table_ok_same|]. split; [done|]. exists (f e). split; [by eapply lookup_updated|done].
Qed.
(** A weakest precondition rule for reading the live entry. *)
Lemma live_at_entry {B} i s (k : etharp_entry -> M (stack U) B) Q : live_at i s ->
  (forall e, arp_table s !! Z.to_nat i = Some e -> live e -> entry_ok e -> wlp (k e) Q s) -> wlp (bind (entry i) k) Q s.
Proof.
  intros (Ht & Hi & e & He & Hl) Hk. unfold wlp. rewrite (entry_run _ _ _ _ Hi He). apply Hk; [done|done|]. by apply (Forall_lookup_1 _ _ _ _ (to_entries _ Ht) He).
Qed.

(** The entry found is made pending if it is new. *)
Lemma found_live s a i s1 e : table_ok (arp_table s) -> found s a i s1 -> 0 <= i -> arp_table s1 !! Z.to_nat i = Some e ->
  wlp (if bool_decide (ar_state e = ETHARP_STATE_EMPTY) then upd_entry i (fun e => e <| ar_state := ETHARP_STATE_PENDING |> <| ar_netif := true |>) else ret tt)
    (fun _ s' => live_at i s') s1.
Proof.
  intros Ht Hf Hi He. destruct (found_entry _ _ _ _ Ht Hf Hi) as (_ & e' & He' & Ea & Hor & Hins).
  assert (e' = e) as -> by congruence. clear He'. case_bool_decide as Es.
  - destruct Hor as [[_ Hl]| ->]; [done|]. unfold wlp. rewrite (upd_entry_end _ _ _ _ Hi He). split.
    + rewrite arp_table_with. apply Hins; done.
    + split; [done|]. eexists. split; [by eapply lookup_updated|done].
  - destruct Hor as [[Et Hl]| ->]; [|done]. apply wlp_ret. split; [by rewrite Et|]. eauto.
Qed.

Lemma hint_keeps i j s : live_at i s -> wlp (ETHARP_SET_ADDRHINT j) (fun _ s' => live_at i s') s.
Proof. intros Hs. unfold ETHARP_SET_ADDRHINT. apply wlp_modify. by destruct (nf_hint (nif s)). Qed.
Lemma wlp_same_live {A B} i (m : M (stack U) A) (k : A -> M (stack U) B) Q s : pres same_net m -> live_at i s ->
  (forall a s', live_at i s' -> wlp (k a) Q s') -> wlp (bind m k) Q s.
Proof. intros Hm Hs Hk. apply wlp_same; [done|]. intros a s' Hss. apply Hk. by eapply live_at_same. Qed.
Lemma wlp_end_live {A} i (m : M (stack U) A) s : pres same_net m -> live_at i s -> wlp m (fun _ s' => table_ok (arp_table s')) s.
Proof. intros Hm [Ht _]. by apply keeps_same. Qed.

Lemma query_keeps a q : keeps (etharp_query a q).
Proof.
  intros s Ht. unfold etharp_query. apply wlp_bind, wlp_gets. destruct (_ || _ || _); [by apply wlp_ret|]. apply wlp_bind. eapply wlp_mono; [by apply find_entry_wlp|].
  intros i s1 Hf. cbv beta. destruct (i <? 0) eqn:Ei.
  { apply Z.ltb_lt in Ei. apply wlp_ret. destruct Hf as [_ [[? _]|[[? _]|[_ ->]]]]; [lia|lia|done]. }
  apply Z.ltb_ge in Ei. destruct (found_entry _ _ _ _ Ht Hf Ei) as (_ & e & He & _). unfold wlp. rewrite (entry_run _ _ _ _ Ei He).
  match goal with |- match ?m ?st with _ => _ end => change (wlp m (fun _ s' => table_ok (arp_table s')) st) end.
  cbv zeta. set (new := bool_decide (ar_state e = ETHARP_STATE_EMPTY)). apply wlp_bind. eapply wlp_mono; [by eapply found_live|]. intros [] s2 H2. cbv beta. apply wlp_bind.
  assert (wlp (if new || (q =? NULL) then let* r := etharp_request a in let* e := entry i in
    (if (r =? ERR_OK) && bool_decide (ar_state e = ETHARP_STATE_PENDING) && negb new then upd_entry i (fun e => e <| ar_ctime := 0 |>) else ret tt) ;;; ret r else ret ERR_MEM)
    (fun _ s' => live_at i s') s2) as Hreq.
  { destruct (_ || _); [|by apply wlp_ret]. eapply wlp_same_live; [apply same_net_request|done|]. intros r s3 H3. apply (live_at_entry i); [done|]. intros e3 _ _ _. apply wlp_bind.
    destruct (_ && _); [|by apply wlp_ret, wlp_ret]. eapply wlp_mono; [apply live_at_upd; [done|]|by intros [] s4 H4; apply wlp_ret].
    intros e4 L4 O4. unfold live, entry_ok in *. cbn. destruct (ar_state e4); [done|..]; (split; [done|]); (split; [|done]); unfold ARP_MAXPENDING, ARP_MAXAGE in *; intuition lia. }
  eapply wlp_mono; [exact Hreq|]. intros r s3 H3. cbv beta. destruct (q =? NULL); [apply wlp_ret; apply H3|]. apply (live_at_entry i); [done|]. intros e3 He3 L3 O3.
  destruct (is_stable (ar_state e3)).
  - apply wlp_bind. eapply wlp_mono; [exact (hint_keeps i i s3 H3)|]. intros [] s4 H4. eapply wlp_end_live; [apply same_net_output|exact H4].
  - case_bool_decide as Ep; [|apply wlp_ret; apply H3]. destruct H3 as (T3 & _). apply wlp_same; [apply same_net_onmem|]. intros copy s4 [E4 _].
    apply wlp_same; [destruct copy; pres_walk (@same_net U)|]. intros p s5 [E5 _]. destruct (p =? NULL); [apply wlp_ret; congruence|].
    apply wlp_same; [destruct (negb _); pres_walk (@same_net U)|]. intros _ s6 [E6 _]. assert (arp_table s6 = arp_table s3) as E by congruence.
    unfold wlp. erewrite upd_entry_run; [|done|by rewrite E]. unfold ret. rewrite arp_table_with, E. eapply table_ok_same; [done|done|done|done|].
    unfold entry_ok in *. cbn. rewrite Ep in *. done.
Qed.

Lemma output_index_keeps q i s e : table_ok (arp_table s) -> 0 <= i -> arp_table s !! Z.to_nat i = Some e -> stable e ->
  wlp (etharp_output_to_arp_index q i) (fun _ s' => table_ok (arp_table s')) s.
Proof.
  intros Ht Hi He Hst. assert (live e) as Hl by (unfold live, stable in *; by destruct (ar_state e)).
  unfold wlp, etharp_output_to_arp_index. rewrite (entry_run _ _ _ _ Hi He). match goal with |- match ?m ?st with _ => _ end => change (wlp m (fun _ s' => table_ok (arp_table s')) st) end.
  assert (live_at i s) as Hs by (split; [done|eauto]). assert (forall a eth s', live_at i s' -> arp_table s' !! Z.to_nat i = Some e ->
    wlp (let* r := etharp_request_dst a eth in if r =? ERR_OK then upd_entry i (fun e => e <| ar_state := ETHARP_STATE_STABLE_REREQUESTING_1 |>) else ret tt) (fun _ s' => live_at i s') s') as Hreq.
  { intros a eth s' Hs' He'. apply wlp_same; [apply same_net_request_dst|]. intros r s1 [E1 E2]. destruct (r =? ERR_OK); [|apply wlp_ret; by eapply live_at_same].
    destruct Hs' as (T1 & _). unfold wlp. rewrite (upd_entry_end _ i e) by (done || by rewrite E1). split; [|split; [done|]].
    - rewrite arp_table_with, E1. eapply table_ok_same; [done|done|done|done|]. pose proof (Forall_lookup_1 _ _ _ _ (to_entries _ T1) He') as Ho. unfold entry_ok, stable in *. cbn. by destruct (ar_state e).
    - eexists. split; [eapply lookup_updated; by rewrite E1|done]. }
  apply wlp_bind. eapply (wlp_mono _ (fun _ s' => live_at i s')).
  { case_bool_decide; [|by apply wlp_ret]. destruct (_ <=? _); [by apply Hreq|]. destruct (_ <=? _); [by apply Hreq|by apply wlp_ret]. }
  intros [] s1 H1. apply wlp_bind, wlp_gets. apply (live_at_entry i); [done|]. intros e1 _ _ _. eapply wlp_end_live; [apply same_net_output|done].
Qed.

Lemma find_stable_spec t a : forall i, 0 <= i -> match find_stable t a i with
  | Some j => i <= j /\ exists e, t !! Z.to_nat (j - i) = Some e /\ stable e /\ ar_ipaddr e = a
  | None => Forall (fun e => ~ (stable e /\ ar_ipaddr e = a)) t end.
Proof.
  induction t as [|e t IH]; intros i Hi; cbn [find_stable]; [constructor|]. destruct (is_stable (ar_state e) && (a =? ar_ipaddr e)) eqn:E.
  - apply andb_true_iff in E as [E1 E2%Z.eqb_eq]. split; [lia|]. exists e. rewrite Z.sub_diag. done.
  - specialize (IH (i + 1) ltac:(lia)). destruct (find_stable t a (i + 1)) as [j|].
    + destruct IH as (Hj & e' & He' & Hp). split; [lia|]. exists e'. replace (Z.to_nat (j - i)) with (S (Z.to_nat (j - (i + 1)))) by lia. done.
    + constructor; [|done]. intros [S1 S2]. unfold stable in S1. rewrite S1, S2, Z.eqb_refl in E. done.
Qed.

(** The hint of a connection is the index of an entry. *)
Definition hint_ok (n : netif_t) : Prop := match nf_hint n with Some h => 0 <= h | None => True end.

Lemma output_keeps q a s : table_ok (arp_table s) -> hint_ok (nif s) -> wlp (etharp_output q a) (fun _ s' => table_ok (arp_table s')) s.
Proof.
  intros Ht Hh. unfold etharp_output. apply wlp_bind, wlp_gets. destruct (ip4_addr_isbroadcast_u32 a (nif s)); [by apply keeps_same; [apply same_net_output|]|].
  destruct (ip4_addr_ismulticast a); [by apply keeps_same; [apply same_net_output|]|]. cbv zeta. destruct (_ && _); [by apply wlp_ret|]. apply wlp_bind, wlp_gets.
  match goal with |- context [find_stable _ ?d 0] => set (dst := d) end. match goal with |- wlp (match ?x with Some h => _ | None => _ end) _ _ => set (hinted := x) end.
  assert (forall h, hinted = Some h -> 0 <= h /\ exists e, arp_table s !! Z.to_nat h = Some e /\ stable e) as Hhint.
  { intros h Eh. subst hinted. unfold hint_ok in Hh. destruct (nf_hint (nif s)) as [h'|]; [|done]. destruct (h' <? ARP_TABLE_SIZE); [|done].
    destruct (arp_table s !! Z.to_nat h') as [e|] eqn:E; [|done]. destruct (is_stable (ar_state e) && (dst =? ar_ipaddr e)) eqn:E2; [|done].
    simplify_eq. apply andb_true_iff in E2 as [E2 _]. split; [done|]. by exists e. }
  destruct hinted as [h|].
  - destruct (Hhint h eq_refl) as (H0 & e & He & Hst). by eapply output_index_keeps.
  - pose proof (find_stable_spec (arp_table s) dst 0 ltac:(lia)) as Hfs. destruct (find_stable (arp_table s) dst 0) as [j|]; [|by apply query_keeps].
    destruct Hfs as (Hj & e & He & Hst & _). rewrite Z.sub_0_r in He. apply wlp_bind. unfold ETHARP_SET_ADDRHINT. apply wlp_modify.
    assert (forall s', arp_table s' = arp_table s -> wlp (etharp_output_to_arp_index q j) (fun _ s' => table_ok (arp_table s')) s') as Hout.
    { intros s' E. eapply output_index_keeps; rewrite ?E; done. }
    apply Hout. by destruct (nf_hint (nif s)).
Qed.

Context (acd_keeps : forall h, keeps (acd_arp_reply h)).
Lemma input_keeps p : keeps (etharp_input acd_arp_reply p).
Proof.
  unfold etharp_input. apply keeps_bind; [apply keeps_same, same_net_onmem|]. intros b. apply keeps_bind; [apply keeps_same, same_net_onmem|]. intros h.
  destruct (_ || _); [apply keeps_same; pres_walk (@same_net U)|]. apply keeps_bind; [apply keeps_same, same_net_onmem|]. intros hdr. apply keeps_bind; [done|]. intros _. cbv zeta.
  apply keeps_bind; [apply keeps_same; pres_walk (@same_net U)|]. intros n. apply keeps_bind; [apply update_keeps|]. intros r.
  apply keeps_same. pres_walk (@same_net U).
Qed.
End Table.
