(* ===== verification/ArpProofs.v ===== *)
(** Address resolution: reachable tables are valid; what an ARP message looks
    like; a packet for an unknown address waits for the answer and is then sent. *)

From stdpp Require Import gmap.
From S2P Require Import Prelude Cmonad Cutils Heap Pbuf PbufProofs PbufChain Inet InetProofs Ethernet EthernetProofs Link Etharp EtharpProofs.

Section Arp.
Context `{PbufEnv} {U : Type}.
Implicit Types s : stack U.

(** ** Messages *)

(** RFC 826, for Ethernet and IPv4; protocol addresses in memory order. *)
Definition arp_message (opcode : Z) (shw : bytes) (sip : Z) (dhw : bytes) (dip : Z) : bytes :=
  be_bytes 2 1 ++ be_bytes 2 ETHTYPE_IP ++ [6; 4] ++ be_bytes 2 opcode ++ shw ++ le_bytes 4 sip ++ dhw ++ le_bytes 4 dip.
Definition arp_writes (opcode : Z) (shw : bytes) (sip : Z) (dhw : bytes) (dip : Z) : list (Z * bytes) :=
  [(6, be_bytes 2 opcode); (8, shw); (18, dhw); (14, le_bytes 4 sip); (24, le_bytes 4 dip);
   (0, be_bytes 2 1); (2, be_bytes 2 ETHTYPE_IP); (4, [6]); (5, [4])].
Lemma arp_blits opcode shw sip dhw dip c : length shw = 6%nat -> length dhw = 6%nat -> length c = 28%nat ->
  blits (arp_writes opcode shw sip dhw dip) c = arp_message opcode shw sip dhw dip.
Proof.
  intros Hs Hd Hc. pose proof (length_be_bytes 2 opcode) as HO. pose proof (length_le_bytes 4 sip) as HS. pose proof (length_le_bytes 4 dip) as HD.
  unfold arp_writes, arp_message. set (O := be_bytes 2 opcode) in *. set (S := le_bytes 4 sip) in *. set (D := le_bytes 4 dip) in *. clearbody O S D.
  destruct_len shw. destruct_len dhw. destruct_len c. destruct_len O. destruct_len S. destruct_len D. done.
Qed.
Lemma length_arp_message opcode shw sip dhw dip : length shw = 6%nat -> length dhw = 6%nat -> length (arp_message opcode shw sip dhw dip) = 28%nat.
Proof. intros Hs Hd. unfold arp_message. by rewrite !length_app, Hs, Hd, !length_be_bytes, !length_le_bytes. Qed.

(** Reading the fields back. *)
Lemma arp_fields opcode shw sip dhw dip : length shw = 6%nat -> length dhw = 6%nat -> 0 <= sip < 2 ^ 32 -> 0 <= dip < 2 ^ 32 ->
  let msg := arp_message opcode shw sip dhw dip in
  le_val (take 4 (drop 14 msg)) = sip /\ le_val (take 4 (drop 24 msg)) = dip /\ take 6 (drop 8 msg) = shw.
Proof.
  intros L1 L2 H1 H2 msg. pose proof (le_val_bytes 4 sip) as V1. pose proof (le_val_bytes 4 dip) as V2. rewrite Z.mod_small in V1, V2 by (change (256 ^ Z.of_nat 4) with (2 ^ 32); lia).
  pose proof (length_le_bytes 4 sip) as HS. pose proof (length_le_bytes 4 dip) as HD. pose proof (length_be_bytes 2 opcode) as HO.
  subst msg. unfold arp_message. set (S := le_bytes 4 sip) in *. set (D := le_bytes 4 dip) in *. set (O := be_bytes 2 opcode) in *. clearbody S D O.
  destruct_len shw. destruct_len dhw. destruct_len S. destruct_len D. destruct_len O. split; [exact V1|]. split; [exact V2|]. done.
Qed.

(** Packet memory after something was allocated and released again. *)
Definition bumped (m : lmem) : lmem := m <| mallocs := S (mallocs m) |> <| next_blk := next_blk m + 1 |>.
Definition arp_frame (ethsrc ethdst : bytes) (msg : bytes) : bytes := eth_header ethsrc ethdst (28 + 10) ETHTYPE_ARP ++ msg.

(** Releasing a lone cell of its own memory. *)
Lemma free_ram_cell (m m1 : lmem) q b : store_ok m -> q = next_blk m -> pbs m1 !! q = Some b -> pb_next b = NULL -> pb_ref b = 1 ->
  pbuf_get_allocsrc b = PBUF_TYPE_ALLOC_SRC_MASK_STD_HEAP -> (forall k, k <> q -> pbs m1 !! k = pbs m !! k /\ dat m1 !! k = dat m !! k) ->
  (forall x y, m1 <| pbs := x |> <| dat := y |> = (bumped m) <| pbs := x |> <| dat := y |>) -> pbuf_free q m1 = Ok (1, bumped m).
Proof.
  intros Hs -> Hb Hn Hr Hsrc Hk Hrest. pose proof (so_next _ Hs) as Hn0.
  assert (chain (pbs m1) (next_blk m) [(next_blk m, b)]) as Hc by (split; [done|]; split; [unfold NULL; lia|]; split; [done|]; done).
  rewrite (pbuf_free_run m1 _ _ Hc); [|constructor; [cbn; rewrite Hr; split; [by right; right|lia]|constructor]].
  unfold after_free, shared, src_count. cbn [sole snd]. rewrite Hr. cbn [length Z.eqb Pos.eqb sole drop fmap list_fmap fst dels drop_ref].
  rewrite !filter_cons. cbn [snd]. rewrite Hsrc. rewrite !decide_False by done. cbn [filter list_filter length].
  assert (delete (next_blk m) (pbs m1) = pbs m) as ->.
  { apply map_eq; intros k. destruct (decide (k = next_blk m)) as [->|Hne]; [rewrite lookup_delete_eq; symmetry; apply (so_pbs _ Hs); lia|].
    rewrite lookup_delete_ne by done. by apply Hk. }
  assert (delete (next_blk m) (dat m1) = dat m) as ->.
  { apply map_eq; intros k. destruct (decide (k = next_blk m)) as [->|Hne]; [rewrite lookup_delete_eq; symmetry; apply (so_dat _ Hs); lia|].
    rewrite lookup_delete_ne by done. by apply Hk. }
  rewrite Hrest. do 2 f_equal. specialize (Hrest (pbs m1) (dat m1)). unfold bumped in *. destruct m1, m. fields. unfold set in Hrest. cbn in Hrest.
  f_equal; injection Hrest; intros; subst; lia.
Qed.

Definition send (s : stack U) (m : lmem) (frame : bytes) : stack U := (with_mem s m) <| sent := sent s ++ [frame] |>.

Lemma etharp_raw_run s ethsrc ethdst hwsrc sip hwdst dip opcode : store_ok (mem s) -> length ethsrc = 6%nat -> length ethdst = 6%nat ->
  length hwsrc = 6%nat -> length hwdst = 6%nat -> 0 <= opcode < 65536 ->
  etharp_raw ethsrc ethdst hwsrc sip hwdst dip opcode s =
    if mem_gives (mallocs (mem s)) then Ok (ERR_OK, send s (bumped (mem s)) (arp_frame ethsrc ethdst (arp_message opcode hwsrc sip hwdst dip)))
    else Ok (ERR_MEM, with_mem s ((mem s) <| mallocs := S (mallocs (mem s)) |>)).
Proof.
  intros Hs L1 L2 L3 L4 Ho. set (m := mem s). set (q := next_blk m). pose proof (so_next _ Hs) as Hn. assert (PBUF_LINK ∈ layers) as Hly by (unfold layers; set_solver).
  pose proof (pbuf_alloc_ram_run m PBUF_LINK 28 Hs Hly ltac:(lia)) as Ea. unfold etharp_raw. change SIZEOF_ETHARP_HDR with 28.
  destruct (mem_gives (mallocs m)); rewrite (onmem_run s _ _ _ _ Ea); [|done]. fold q in Ea |- *.
  rewrite (proj2 (Z.eqb_neq q NULL)) by (subst q m; unfold NULL; lia).
  set (c := ram_cell q PBUF_LINK 28). set (m1 := ram_store m PBUF_LINK 28). set (s1 := with_mem s m1). pose proof (ram_packet m PBUF_LINK 28 Hs Hly ltac:(lia)) as Hp1. fold q c m1 in Hp1.
  destruct (packet_head _ _ _ _ _ Hp1) as (_ & Hq0 & Hc1 & Hco & _). rewrite (onmem_getp s1 _ _ _ Hq0 Hc1).
  set (rest := ethernet_output q ethsrc ethdst ETHTYPE_ARP ;;; onmem (pbuf_free q) ;;; ret ERR_OK).
  rewrite (htons_bytes opcode Ho). destruct (put_all_run c (arp_writes opcode hwsrc sip hwdst dip) rest s1 Hco) as (d & E & F & C).
  { unfold fits, arp_writes. cbn [forallb fst snd length]. rewrite L3, L4, !length_be_bytes, !length_le_bytes. done. }
  etransitivity; [exact E|]. clear E. rewrite (arp_blits _ _ _ _ _ _ L3 L4) in C
    by (pose proof (length_cell _ _ Hco) as HL; change (pb_len c) with 28 in HL; change (dat (mem s1)) with (dat m1); lia).
  set (s2 := with_mem s1 (with_dat (mem s1) d)). assert (packet (mem s2) q [(q, c)]) as Hp2 by (by apply (frame_packet _ m1 d _ _ F)).
  destruct (ethernet_output_run s2 q c [] ethsrc ethdst ETHTYPE_ARP Hp2) as (d2 & E2 & F2 & C2); try done. change (pb_len c) with 28 in E2. change (dat (mem s2)) with d in E2, F2.
  rewrite C in E2. subst rest. rewrite (bind_run _ _ _ _ _ E2). set (s3 := _ <| sent := _ |>).
  set (c' := moved c (- SIZEOF_ETH_HDR)). assert (pbuf_free q (mem s3) = Ok (1, bumped m)) as Ef.
  { apply (free_ram_cell m _ q c'); [done|done|apply lookup_insert_eq|done|done|done| |by destruct m].
    intros k Hk. change (pbs (mem s3)) with (<[q := c']> (<[q := c]> (pbs m))). change (dat (mem s3)) with d2. rewrite !lookup_insert_ne by done. split; [done|].
    rewrite (fr_out _ _ _ F2), (fr_out _ _ _ F) by (cbn; intros ?%list_elem_of_singleton; done). by apply ram_store_dat. }
  rewrite (onmem_run s3 _ _ _ _ Ef). unfold send, arp_frame. subst s3 s2 s1. destruct s. done.
Qed.

(** ** The search, as a run *)

Lemma find_hit_run s a i e flags : table_ok (arp_table s) -> arp_table s !! Z.to_nat i = Some e -> 0 <= i -> live e -> ar_ipaddr e = a ->
  etharp_find_entry (Some a) flags s = Ok (i, s).
Proof.
  intros Ht He Hi Hl Ea. unfold etharp_find_entry. rewrite (bind_run _ _ _ _ _ (eq_refl : gets arp_table s = Ok (arp_table s, s))). pose proof (sweep_start _ a Ht) as Hsw.
  destruct (sweep (Some a) (arp_table s) 0 no_cands) as [j|c].
  - destruct Hsw as (Hj & e' & He' & Hl' & [= Ea']). assert (Z.to_nat j = Z.to_nat i) by (eapply (to_unique _ Ht); [done|done|done|done|congruence]).
    unfold ret. do 2 f_equal. lia.
  - destruct Hsw as [_ Hn]. exfalso. apply (Hn (Z.to_nat i) e); [|done|done|congruence]. apply lookup_lt_Some in He. rewrite (to_len _ Ht) in He. done.
Qed.

Lemma find_new_run s a : table_ok (arp_table s) -> no_match (Some a) (arp_table s) 10 -> (exists j e, arp_table s !! j = Some e /\ ~ live e) ->
  exists i, 0 <= i < 10 /\ arp_table s !! Z.to_nat i = Some empty_entry /\
    etharp_find_entry (Some a) ETHARP_FLAG_TRY_HARD s = Ok (i, with_table s (<[Z.to_nat i := empty_entry <| ar_ipaddr := a |>]> (arp_table s))).
Proof.
  intros Ht Hn (j & e & He & Hl). unfold etharp_find_entry. rewrite (bind_run _ _ _ _ _ (eq_refl : gets arp_table s = Ok (arp_table s, s))). pose proof (sweep_start _ a Ht) as Hsw.
  destruct (sweep (Some a) (arp_table s) 0 no_cands) as [i|c].
  - destruct Hsw as (Hi & e' & He' & Hl' & Ea). exfalso. apply (Hn (Z.to_nat i) e'); [lia|done|done|done].
  - destruct Hsw as [Hc _]. destruct (co_empty _ _ _ Hc) as [[_ Hall]|(Hx & e' & He' & Hl')].
    { exfalso. apply Hl, (Hall j); [|done]. apply lookup_lt_Some in He. rewrite (to_len _ Ht) in He. done. }
    exists (c_empty c). split; [lia|]. assert (e' = empty_entry) as ->.
    { pose proof (Forall_lookup_1 _ _ _ _ (to_entries _ Ht) He') as Ho. destruct (live_dec e') as [|Es]; [done|]. unfold entry_ok in Ho. by rewrite Es in Ho. }
    split; [done|]. change (Z.land ETHARP_FLAG_TRY_HARD ETHARP_FLAG_FIND_ONLY) with 0. change (Z.land ETHARP_FLAG_TRY_HARD ETHARP_FLAG_TRY_HARD =? 0) with false.
    rewrite andb_false_r. cbn [Z.eqb negb orb]. rewrite (proj2 (Z.ltb_lt _ _)) by (unfold ARP_TABLE_SIZE; lia). cbv zeta.
    rewrite (upd_entry_run _ _ _ _ _ (proj1 Hx) He'). erewrite upd_entry_run; [|lia|by eapply lookup_updated]. rewrite with_table_table, arp_table_with, list_insert_insert_eq. done.
Qed.

(** ** A packet for an unknown address *)

(** The address the frame must go to: the destination, or the gateway. *)
Definition next_hop (n : netif_t) (a : Z) : option Z :=
  if negb (ip4_addr_net_eq a (nf_ip n) (nf_netmask n)) && negb (ip4_addr_islinklocal a)
  then if ip4_addr_isany_val (nf_gw n) then None else Some (nf_gw n) else Some a.
Definition unicast (n : netif_t) (a : Z) : Prop := ip4_addr_isbroadcast_u32 a n = false /\ ip4_addr_ismulticast a = false.
Lemma unicast_any n a : unicast n a -> ip4_addr_isany_val a = false.
Proof. intros [Hb _]. unfold ip4_addr_isbroadcast_u32, ip4_addr_isany_val in *. destruct (a =? IPADDR_ANY); [by rewrite orb_true_r in Hb|done]. Qed.
Definition waiting (a q : Z) : etharp_entry := mk_entry q a true ethzero 0 ETHARP_STATE_PENDING.

Lemma copy_needed_run (m : lmem) l : forall p fuel, chain (pbs m) p l -> Forall (fun x => PBUF_NEEDS_COPY (snd x) = false) l -> (length l < fuel)%nat ->
  copy_needed fuel p m = Ok (false, m).
Proof.
  induction l as [|[q b] l IH]; intros p fuel Hc Hv Hf; (destruct fuel as [|fuel]; [cbn in Hf; lia|]); cbn [copy_needed].
  - cbn in Hc. by subst.
  - destruct Hc as (-> & Hq & Hb & Hc). apply Forall_cons in Hv as [Hv1 Hv]. cbn [snd length] in *. rewrite (proj2 (Z.eqb_neq _ _) Hq), (getp_run _ _ _ _ Hq Hb), Hv1. apply IH; [done|done|lia].
Qed.

Definition refd (b : pbuf) : pbuf := b <| pb_ref := u8 (pb_ref b + 1) |>.

Lemma query_new_run s a q b l : store_ok (mem s) -> table_ok (arp_table s) -> no_match (Some a) (arp_table s) 10 -> (exists j e, arp_table s !! j = Some e /\ ~ live e) ->
  unicast (nif s) a -> length (nf_hwaddr (nif s)) = 6%nat -> mem_gives (mallocs (mem s)) = true ->
  chain (pbs (mem s)) q ((q, b) :: l) -> Forall (fun x => PBUF_NEEDS_COPY (snd x) = false) ((q, b) :: l) ->
  exists i, 0 <= i < 10 /\ arp_table s !! Z.to_nat i = Some empty_entry /\
    etharp_query a q s = Ok (ERR_OK, send (with_table s (<[Z.to_nat i := waiting a q]> (arp_table s))) (put_cell (bumped (mem s)) q (refd b))
      (arp_frame (nf_hwaddr (nif s)) ethbroadcast (arp_message ARP_REQUEST (nf_hwaddr (nif s)) (nf_ip (nif s)) ethzero a))).
Proof.
  intros Hs Ht Hn Hem Hu Hhw Hm Hc Hv. destruct (find_new_run s a Ht Hn Hem) as (i & Hi & He & Ef). exists i. split; [done|]. split; [done|].
  pose proof Hc as (_ & Hq0 & Hqb & _). unfold etharp_query. rewrite (bind_run _ _ _ _ _ (eq_refl : gets nif s = Ok (nif s, s))).
  rewrite (proj1 Hu), (proj2 Hu), (unicast_any _ _ Hu). cbn [orb]. rewrite (bind_run _ _ _ _ _ Ef), (proj2 (Z.ltb_ge _ _)) by lia.
  set (s1 := with_table s _). assert (arp_table s1 !! Z.to_nat i = Some (empty_entry <| ar_ipaddr := a |>)) as E1 by (by eapply lookup_updated).
  rewrite (entry_run _ _ _ _ (proj1 Hi) E1). change (bool_decide (ar_state (empty_entry <| ar_ipaddr := a |>) = ETHARP_STATE_EMPTY)) with true. cbv iota zeta beta.
  rewrite (upd_entry_run _ _ _ _ _ (proj1 Hi) E1). set (s2 := with_table s1 _).
  assert (s2 = with_table s (<[Z.to_nat i := waiting a NULL]> (arp_table s))) as Es2 by (subst s2 s1; rewrite with_table_table, arp_table_with, list_insert_insert_eq; done).
  assert (arp_table s2 !! Z.to_nat i = Some (waiting a NULL)) as E2 by (rewrite Es2; by eapply lookup_updated). clearbody s2. rewrite Es2 in *. clear s2 Es2.
  set (s2 := with_table s (<[Z.to_nat i := waiting a NULL]> (arp_table s))) in *.
  set (fr := arp_frame _ _ _). assert (etharp_request a s2 = Ok (ERR_OK, send s2 (bumped (mem s)) fr)) as Er.
  { unfold etharp_request, etharp_request_dst. rewrite (bind_run _ _ _ _ _ (eq_refl : gets nif s2 = Ok (nif s2, s2))). change (nif s2) with (nif s).
    rewrite etharp_raw_run by done. change (mem s2) with (mem s). by rewrite Hm. }
  set (s3 := send s2 (bumped (mem s)) fr) in *. assert (arp_table s3 !! Z.to_nat i = Some (waiting a NULL)) as E3 by exact E2. cbn [orb].
  rewrite bind_assoc, (bind_run _ _ _ _ _ Er), bind_assoc, (entry_run _ _ _ _ (proj1 Hi) E3). cbn [negb andb]. rewrite andb_false_r, bind_assoc, !bind_ret.
  rewrite (proj2 (Z.eqb_neq _ _) Hq0), (entry_run _ _ _ _ (proj1 Hi) E3). change (is_stable (ar_state (waiting a NULL))) with false.
  change (bool_decide (ar_state (waiting a NULL) = ETHARP_STATE_PENDING)) with true. cbv iota.
  assert ((let* k := chain_fuel in copy_needed k q) (mem s3) = Ok (false, mem s3)) as Ecp.
  { rewrite chain_fuel_run. apply (copy_needed_run _ ((q, b) :: l)); [done|done|]. pose proof (chain_size _ _ _ Hc) as Hz. change (pbs (mem s3)) with (pbs (mem s)). lia. }
  rewrite (onmem_run _ _ _ _ _ Ecp), with_mem_id. assert (pbuf_ref q (mem s3) = Ok (tt, put_cell (bumped (mem s)) q (refd b))) as Erf.
  { unfold pbuf_ref. rewrite (proj2 (Z.eqb_neq _ _) Hq0). unfold updp. rewrite (getp_run _ _ b _ Hq0) by exact Hqb. done. }
  rewrite bind_assoc, (onmem_run _ _ _ _ _ Erf), bind_ret, (proj2 (Z.eqb_neq _ _) Hq0). cbn [waiting ar_q Z.eqb NULL negb]. rewrite bind_ret.
  erewrite upd_entry_run; [|lia|exact E3]. unfold ret. do 2 f_equal. subst s3. unfold send. change (arp_table (with_mem _ _)) with (arp_table s2). subst s2.
  rewrite arp_table_with, list_insert_insert_eq. by destruct s.
Qed.

Lemma find_stable_none t a : forall i, (forall e, e ∈ t -> live e -> a <> ar_ipaddr e) -> find_stable t a i = None.
Proof.
  induction t as [|e t IH]; intros i Ht; cbn [find_stable]; [done|]. destruct (is_stable (ar_state e)) eqn:Es; cbn [andb].
  - rewrite (proj2 (Z.eqb_neq _ _)); [|apply Ht; [apply list_elem_of_here|unfold live; by intros E; rewrite E in Es]]. apply IH. intros e' He'. apply Ht. by apply list_elem_of_further.
  - apply IH. intros e' He'. apply Ht. by apply list_elem_of_further.
Qed.

(** Nobody knows the next hop: the packet is queued. *)
Lemma output_new_run s a hop q : table_ok (arp_table s) -> no_match (Some hop) (arp_table s) 10 -> unicast (nif s) a -> next_hop (nif s) a = Some hop ->
  etharp_output q a s = etharp_query hop q s.
Proof.
  intros Ht Hn [Hb Hm] Hh. unfold etharp_output. rewrite (bind_run _ _ _ _ _ (eq_refl : gets nif s = Ok (nif s, s))), Hb, Hm.
  assert (forall e, e ∈ arp_table s -> live e -> hop <> ar_ipaddr e) as Hne.
  { intros e [j Hj]%list_elem_of_lookup_1 Hl ->. apply (Hn j e); [|done|done|done]. apply lookup_lt_Some in Hj. by rewrite (to_len _ Ht) in Hj. }
  unfold next_hop in Hh. set (outside := _ && _) in *. assert (outside && ip4_addr_isany_val (nf_gw (nif s)) = false /\ (if outside then nf_gw (nif s) else a) = hop) as [-> ->].
  { destruct outside; [|by simplify_eq/=]. destruct (ip4_addr_isany_val _); by simplify_eq/=. }
  rewrite (bind_run _ _ _ _ _ (eq_refl : gets arp_table s = Ok (arp_table s, s))). cbv zeta. rewrite (find_stable_none _ _ _ Hne).
  destruct (nf_hint (nif s)) as [h|]; [|done]. destruct (h <? ARP_TABLE_SIZE); [|done]. destruct (arp_table s !! Z.to_nat h) as [e|] eqn:He; [|done].
  destruct (is_stable (ar_state e)) eqn:Es; [|done]. cbn [andb]. rewrite (proj2 (Z.eqb_neq _ _)); [done|]. apply Hne; [by apply list_elem_of_lookup_2 in He|].
  unfold live. intros E. by rewrite E in Es.
Qed.

(** ** The answer *)

(** The entry resolved, the waiting packet sent and released. *)
Lemma update_waiting_run s a mac flags i q b l e : table_ok (arp_table s) -> arp_table s !! Z.to_nat i = Some e -> 0 <= i -> live e -> ar_ipaddr e = a -> ar_q e = q ->
  unicast (nif s) a -> length (nf_hwaddr (nif s)) = 6%nat -> length mac = 6%nat ->
  packet (mem s) q ((q, b) :: l) -> contiguous_type b -> SIZEOF_ETH_HDR <= poff (pb_payload b) -> sum_len ((q, b) :: l) + SIZEOF_ETH_HDR < 65536 -> pb_len b + SIZEOF_ETH_HDR <= DATA_BUF_LEN -> releasable ((q, b) :: l) ->
  exists d, etharp_update_arp_entry a mac flags s =
    Ok (ERR_OK, send (with_table s (<[Z.to_nat i := resolved a mac]> (arp_table s))) (after_free (after_output (mem s) q b d) ((q, moved b (- SIZEOF_ETH_HDR)) :: l))
      (eth_header (nf_hwaddr (nif s)) mac (pb_len b + 10) ETHTYPE_IP ++ cell_data (dat (mem s)) b)) /\
    frame_dat [pblk (pb_payload b)] (dat (mem s)) d.
Proof.
  intros Ht He Hi Hl Ea Eq Hu Hhw Hmac Hp Hct Hoff Hsum Hfit Hrel. destruct (packet_head _ _ _ _ _ Hp) as (_ & Hq0 & _ & _ & _).
  unfold etharp_update_arp_entry. rewrite (bind_run _ _ _ _ _ (eq_refl : gets nif s = Ok (nif s, s))). unfold non_unicast. rewrite (proj1 Hu), (proj2 Hu), (unicast_any _ _ Hu). cbn [orb].
  rewrite (bind_run _ _ _ _ _ (find_hit_run s a i e flags Ht He Hi Hl Ea)), (proj2 (Z.ltb_ge _ _)) by lia.
  rewrite (upd_entry_run _ _ e _ _ Hi He). do 3 (erewrite upd_entry_run; [|done|repeat (eapply lookup_updated); exact He]). erewrite entry_run; [|done|repeat (eapply lookup_updated); exact He].
  set (e1 := _ <| ar_ctime := 0 |>). set (s2 := with_table _ _). assert (s2 = with_table s (<[Z.to_nat i := e1]> (arp_table s))) as E2.
  { subst s2. rewrite !with_table_table, !arp_table_with, !list_insert_insert_eq. done. }
  clearbody s2. subst s2. change (ar_q e1) with (ar_q e). rewrite Eq, (proj2 (Z.eqb_neq _ _) Hq0). cbn [negb]. rewrite !bind_assoc.
  erewrite upd_entry_run; [|done|by eapply lookup_updated]. rewrite with_table_table, arp_table_with, list_insert_insert_eq.
  assert (e1 <| ar_q := NULL |> = resolved a mac) as -> by (subst e1 a; by destruct e). set (s3 := with_table s _).
  destruct (ethernet_output_run s3 q b l (nf_hwaddr (nif s)) mac ETHTYPE_IP Hp Hct Hoff Hsum Hhw Hmac ltac:(done) Hfit) as (d & E & F & C).
  exists d. split; [|exact F]. rewrite bind_assoc, (bind_run _ _ _ _ _ E). set (s4 := _ <| sent := _ |>).
  assert (chain (pbs (mem s4)) q ((q, moved b (- SIZEOF_ETH_HDR)) :: l)) as Hc4.
  { pose proof (pk_chain _ _ _ Hp) as Hc. pose proof (chain_nodup _ _ _ Hc) as Hnd. apply NoDup_cons in Hnd as [Hnin _]. destruct Hc as (_ & _ & _ & Hc).
    split; [done|]. split; [done|]. split; [apply lookup_insert_eq|]. by apply chain_insert. }
  assert (releasable ((q, moved b (- SIZEOF_ETH_HDR)) :: l)) as Hr4 by (apply Forall_cons in Hrel as [R1 R2]; constructor; done).
  rewrite bind_assoc, (onmem_run s4 _ _ _ _ (pbuf_free_run _ _ _ Hc4 Hr4)), !bind_ret. by destruct s.
Qed.

(** What is left of etharp_input once the message is read. *)
Definition handle_message (acd_arp_reply : bytes -> M (stack U) unit) (p : Z) (msg : bytes) (opcode : Z) (shw : bytes) (sip dip : Z) : M (stack U) unit :=
  acd_arp_reply msg ;;;
  let* n := gets nif in
  let for_us := if ip4_addr_isany_val (nf_ip n) then false else dip =? nf_ip n in
  let from_us := if ip4_addr_isany_val (nf_ip n) then false else sip =? nf_ip n in
  etharp_update_arp_entry sip shw (if for_us then ETHARP_FLAG_TRY_HARD else ETHARP_FLAG_FIND_ONLY) ;;;
  (if (opcode =? ARP_REQUEST) && (for_us && negb from_us) then
     etharp_raw (nf_hwaddr n) shw (nf_hwaddr n) (nf_ip n) shw sip ARP_REPLY ;;; ret tt
   else ret tt) ;;;
  onmem (pbuf_free p) ;;; ret tt.

Lemma input_message_run acd s p c l opcode shw sip dhw dip pad : packet (mem s) p ((p, c) :: l) ->
  cell_data (dat (mem s)) c = arp_message opcode shw sip dhw dip ++ pad -> length shw = 6%nat -> length dhw = 6%nat ->
  0 <= sip < 2 ^ 32 -> 0 <= dip < 2 ^ 32 -> opcode = ARP_REQUEST \/ opcode = ARP_REPLY ->
  etharp_input acd p s = handle_message acd p (arp_message opcode shw sip dhw dip) opcode shw sip dip s.
Proof.
  intros Hp Hd L1 L2 Hs Hdi Hop. destruct (packet_head _ _ _ _ _ Hp) as (_ & Hp0 & Hc & Hco & _). set (msg := arp_message _ _ _ _ _) in *.
  pose proof (length_arp_message opcode shw sip dhw dip L1 L2) as Lm. fold msg in Lm. pose proof (length_cell _ _ Hco) as Hlc. rewrite Hd, length_app, Lm in Hlc.
  unfold etharp_input. rewrite (onmem_getp _ _ _ _ Hp0 Hc).
  assert (forall n, 0 <= n <= 28 -> pread (pb_payload c) n (mem s) = Ok (take (Z.to_nat n) msg, mem s)) as Hrd.
  { intros n Hn. pose proof (pread_cell (mem s) c 0 n Hco ltac:(lia) ltac:(lia) ltac:(lia)) as E. rewrite ptr_add_0, drop_0, Hd in E. rewrite take_app_le in E by lia. done. }
  rewrite (onmem_run _ _ _ _ _ (Hrd 8 ltac:(lia))), with_mem_id. change SIZEOF_ETHARP_HDR with 28.
  assert (take (Z.to_nat 8) msg = [0; 1; 8; 0; 6; 4; 0; opcode]) as -> by (destruct Hop as [-> | ->]; done).
  change (le_val (take 2 [0; 1; 8; 0; 6; 4; 0; opcode]) =? PP_HTONS LWIP_IANA_HWTYPE_ETHERNET) with true.
  change (le_val (take 2 (drop 2 [0; 1; 8; 0; 6; 4; 0; opcode])) =? PP_HTONS ETHTYPE_IP) with true. cbn [nth ETH_HWADDR_LEN Z.eqb Pos.eqb negb orb].
  rewrite (onmem_run _ _ _ _ _ (Hrd 28 ltac:(lia))), with_mem_id. rewrite take_ge by (rewrite Lm; lia).
  destruct (arp_fields opcode shw sip dhw dip L1 L2 Hs Hdi) as (F1 & F2 & F3). fold msg in F1, F2, F3. rewrite F1, F2, F3.
  assert ((le_val (take 2 (drop 6 msg)) =? PP_HTONS ARP_REQUEST) = (opcode =? ARP_REQUEST)) as -> by (destruct Hop as [-> | ->]; done).
  done.
Qed.

Lemma reply_run acd s p c i e q b l a mac dhw dip pad : table_ok (arp_table s) -> arp_table s !! Z.to_nat i = Some e -> 0 <= i -> live e -> ar_ipaddr e = a -> ar_q e = q ->
  unicast (nif s) a -> length (nf_hwaddr (nif s)) = 6%nat -> length mac = 6%nat -> length dhw = 6%nat -> 0 <= a < 2 ^ 32 -> 0 <= dip < 2 ^ 32 ->
  packet (mem s) q ((q, b) :: l) -> contiguous_type b -> SIZEOF_ETH_HDR <= poff (pb_payload b) -> sum_len ((q, b) :: l) + SIZEOF_ETH_HDR < 65536 -> pb_len b + SIZEOF_ETH_HDR <= DATA_BUF_LEN -> releasable ((q, b) :: l) ->
  packet (mem s) p [(p, c)] -> releasable [(p, c)] -> p ∉ ((q, b) :: l).*1 ->
  cell_data (dat (mem s)) c = arp_message ARP_REPLY mac a dhw dip ++ pad -> acd (arp_message ARP_REPLY mac a dhw dip) s = Ok (tt, s) ->
  exists d, etharp_input acd p s =
    Ok (tt, send (with_table s (<[Z.to_nat i := resolved a mac]> (arp_table s)))
      (after_free (after_free (after_output (mem s) q b d) ((q, moved b (- SIZEOF_ETH_HDR)) :: l)) [(p, c)])
      (eth_header (nf_hwaddr (nif s)) mac (pb_len b + 10) ETHTYPE_IP ++ cell_data (dat (mem s)) b)) /\
    frame_dat [pblk (pb_payload b)] (dat (mem s)) d.
Proof.
  intros Ht He Hi Hl Ea Eq Hu Hhw Hmac Hdhw Ha Hdip Hp Hct Hoff Hsum Hfit Hrel Hpc Hrc Hne Hd Hacd.
  rewrite (input_message_run acd s p c [] _ _ _ _ _ _ Hpc Hd Hmac Hdhw Ha Hdip (or_intror eq_refl)). unfold handle_message.
  rewrite (bind_run _ _ _ _ _ Hacd), (bind_run _ _ _ _ _ (eq_refl : gets nif s = Ok (nif s, s))). cbv zeta.
  set (flags := if (if ip4_addr_isany_val (nf_ip (nif s)) then false else dip =? nf_ip (nif s)) then ETHARP_FLAG_TRY_HARD else ETHARP_FLAG_FIND_ONLY).
  destruct (update_waiting_run s a mac flags i q b l e) as (d & E & F); try done. exists d. split; [|done]. rewrite (bind_run _ _ _ _ _ E). change (ARP_REPLY =? ARP_REQUEST) with false.
  cbn [andb]. rewrite bind_ret. set (s1 := send _ _ _). assert (chain (pbs (mem s1)) p [(p, c)]) as Hc1.
  { pose proof (pk_chain _ _ _ Hpc) as (_ & Hp0 & Hc & _). split; [done|]. split; [done|]. split; [|by destruct Hpc as [(_ & _ & _ & ?) _ _ _]].
    change (pbs (mem s1)) with (pbs (after_free (after_output (mem s) q b d) ((q, moved b (- SIZEOF_ETH_HDR)) :: l))). rewrite after_free_pbs by done.
    apply not_elem_of_cons in Hne as [Hne _]. change (pbs (after_output (mem s) q b d)) with (<[q := moved b (- SIZEOF_ETH_HDR)]> (pbs (mem s))). by rewrite lookup_insert_ne by done. }
  rewrite (onmem_run s1 _ _ _ _ (pbuf_free_run _ _ _ Hc1 Hrc)). by destruct s.
Qed.
End Arp.
