(* ===== verification/Acd.v ===== *)
(** arm_host/source/lwip/ipv4/acd.c: address conflict detection (RFC 5227).

    The modules of the interface are a linked list of structures; the callback of
    a module belongs to the user of the module and is an argument, as are the
    values of rand().  LWIP_SINGLE_NETIF is 1, so the timer serves one interface. *)

From stdpp Require Import gmap.
From S2P Require Import Prelude Cmonad Cutils Heap Pbuf Inet Ethernet Etharp.

Definition PROBE_WAIT : Z := 1.
Definition PROBE_MIN : Z := 1.
Definition PROBE_MAX : Z := 2.
Definition PROBE_NUM : Z := 3.
Definition ANNOUNCE_NUM : Z := 2.
Definition ANNOUNCE_INTERVAL : Z := 2.
Definition ANNOUNCE_WAIT : Z := 2.
Definition MAX_CONFLICTS : Z := 10.
Definition RATE_LIMIT_INTERVAL : Z := 60.
Definition DEFEND_INTERVAL : Z := 10.
Definition ACD_TMR_INTERVAL : Z := 100.
Definition ACD_TICKS_PER_SECOND : Z := 1000 / ACD_TMR_INTERVAL.

Inductive acd_state :=
| ACD_STATE_OFF | ACD_STATE_PROBE_WAIT | ACD_STATE_PROBING | ACD_STATE_ANNOUNCE_WAIT
| ACD_STATE_ANNOUNCING | ACD_STATE_ONGOING | ACD_STATE_PASSIVE_ONGOING | ACD_STATE_RATE_LIMIT.
#[export] Instance acd_state_eq_dec : EqDecision acd_state.
Proof. solve_decision. Defined.
Inductive acd_callback := ACD_IP_OK | ACD_RESTART_CLIENT | ACD_DECLINE.

(** [ac_user] names the registered callback function. *)
Record acd := mk_acd {
  ac_next : Z; ac_ipaddr : Z; ac_state : acd_state; ac_sent_num : Z; ac_ttw : Z; ac_lastconflict : Z; ac_num_conflicts : Z; ac_user : Z
}.
Definition eta_acd (a : acd) : acd :=
  mk_acd (ac_next a) (ac_ipaddr a) (ac_state a) (ac_sent_num a) (ac_ttw a) (ac_lastconflict a) (ac_num_conflicts a) (ac_user a).
#[export] Instance set_ac_next : Setter ac_next := ltac:(mk_setter eta_acd).
#[export] Instance set_ac_ipaddr : Setter ac_ipaddr := ltac:(mk_setter eta_acd).
#[export] Instance set_ac_state : Setter ac_state := ltac:(mk_setter eta_acd).
#[export] Instance set_ac_sent_num : Setter ac_sent_num := ltac:(mk_setter eta_acd).
#[export] Instance set_ac_ttw : Setter ac_ttw := ltac:(mk_setter eta_acd).
#[export] Instance set_ac_lastconflict : Setter ac_lastconflict := ltac:(mk_setter eta_acd).
#[export] Instance set_ac_num_conflicts : Setter ac_num_conflicts := ltac:(mk_setter eta_acd).
#[export] Instance set_ac_user : Setter ac_user := ltac:(mk_setter eta_acd).

(** The structures, netif->acd_list, the calls of rand() so far, and what lies above. *)
Record acd_net (V : Type) := mk_acd_net { acds : gmap Z acd; acd_list : Z; rands : nat; above : V }.
Arguments mk_acd_net {V}. Arguments acds {V} _. Arguments acd_list {V} _. Arguments rands {V} _. Arguments above {V} _.
Definition eta_acd_net {V} (u : acd_net V) : acd_net V := mk_acd_net (acds u) (acd_list u) (rands u) (above u).
#[export] Instance set_acds {V} : Setter (@acds V) := ltac:(mk_setter (@eta_acd_net V)).
#[export] Instance set_acd_list {V} : Setter (@acd_list V) := ltac:(mk_setter (@eta_acd_net V)).
#[export] Instance set_rands {V} : Setter (@rands V) := ltac:(mk_setter (@eta_acd_net V)).
#[export] Instance set_above {V} : Setter (@above V) := ltac:(mk_setter (@eta_acd_net V)).

Section Acd.
Context `{PbufEnv} {V : Type} (rand : nat -> Z).
Abbreviation net := (stack (acd_net V)).
Context (conflict_callback : Z -> acd_callback -> M net unit).

Definition get_acd (a : Z) : M net acd := fun s =>
  if a =? NULL then Fault NullDeref else match acds (upper s) !! a with Some c => Ok (c, s) | None => Fault UseAfterFree end.
Definition upd_acd (a : Z) (f : acd -> acd) : M net unit :=
  let* c := get_acd a in modify (fun s => s <| upper := (upper s) <| acds := <[a := f c]> (acds (upper s)) |> |>).
(** (u32_t)rand() *)
Definition LWIP_ACD_RAND : M net Z := fun s =>
  Ok (u32 (rand (rands (upper s))), s <| upper := (upper s) <| rands := S (rands (upper s)) |> |>).
Definition callback (a : Z) (st : acd_callback) : M net unit := let* c := get_acd a in conflict_callback (ac_user c) st.

(** ** The list of modules *)

(** ACD_FOREACH; the list has no more modules than there are structures. *)
Fixpoint foreach_acd (fuel : nat) (a : Z) (body : Z -> M net unit) : M net unit :=
  match fuel with
  | O => hang
  | S fuel => if a =? NULL then ret tt else body a ;;; let* c := get_acd a in foreach_acd fuel (ac_next c) body
  end.
Definition acd_fuel : M net nat := gets (fun s => S (size (acds (upper s)))).
Definition ACD_FOREACH (body : Z -> M net unit) : M net unit :=
  let* k := acd_fuel in let* a := gets (fun s => acd_list (upper s)) in foreach_acd k a body.

(** Is the module on the list?  Its predecessor or NULL. *)
Fixpoint find_acd (fuel : nat) (prev a x : Z) : M net (option Z) :=
  match fuel with
  | O => hang
  | S fuel => if a =? NULL then ret None else if a =? x then ret (Some prev) else let* c := get_acd a in find_acd fuel a (ac_next c) x
  end.
Definition find_on_list (x : Z) : M net (option Z) :=
  let* k := acd_fuel in let* a := gets (fun s => acd_list (upper s)) in find_acd k NULL a x.

Definition acd_add (x user : Z) : M net Z :=
  upd_acd x (fun c => c <| ac_user := user |>) ;;;
  let* r := find_on_list x in
  match r with
  | Some _ => ret ERR_OK
  | None =>
      let* head := gets (fun s => acd_list (upper s)) in
      upd_acd x (fun c => c <| ac_next := head |>) ;;;
      modify (fun s => s <| upper := (upper s) <| acd_list := x |> |>) ;;;
      ret ERR_OK
  end.
(** The assertion for a module that is not on the list only prints. *)
Definition acd_remove (x : Z) : M net unit :=
  let* r := find_on_list x in
  match r with
  | None => ret tt
  | Some prev =>
      let* c := get_acd x in
      if negb (prev =? NULL) then upd_acd prev (fun d => d <| ac_next := ac_next c |>)
      else modify (fun s => s <| upper := (upper s) <| acd_list := ac_next c |> |>)
  end.

(** ** Starting and stopping *)

Definition ACD_RANDOM_PROBE_WAIT : M net Z := let* r := LWIP_ACD_RAND in ret (r mod (PROBE_WAIT * ACD_TICKS_PER_SECOND)).
Definition ACD_RANDOM_PROBE_INTERVAL : M net Z :=
  let* r := LWIP_ACD_RAND in ret (r mod ((PROBE_MAX - PROBE_MIN) * ACD_TICKS_PER_SECOND) + PROBE_MIN * ACD_TICKS_PER_SECOND).

Definition acd_start (a ipaddr : Z) : M net Z :=
  upd_acd a (fun c => c <| ac_sent_num := 0 |> <| ac_lastconflict := 0 |> <| ac_ipaddr := ipaddr |> <| ac_state := ACD_STATE_PROBE_WAIT |>) ;;;
  let* t := ACD_RANDOM_PROBE_WAIT in
  upd_acd a (fun c => c <| ac_ttw := u16 t |>) ;;;
  ret ERR_OK.
Definition acd_stop (a : Z) : M net Z :=
  (if negb (a =? NULL) then upd_acd a (fun c => c <| ac_state := ACD_STATE_OFF |>) else ret tt) ;;; ret ERR_OK.
Definition acd_network_changed_link_down : M net unit := ACD_FOREACH (fun a => acd_stop a ;;; ret tt).

(** ** The timer *)

Definition tmr_probe (a : Z) : M net unit :=
  upd_acd a (fun c => c <| ac_state := ACD_STATE_PROBING |>) ;;;
  let* c := get_acd a in
  etharp_acd_probe (ac_ipaddr c) ;;;
  upd_acd a (fun c => c <| ac_sent_num := u8 (ac_sent_num c + 1) |>) ;;;
  let* c := get_acd a in
  if PROBE_NUM <=? ac_sent_num c then
    upd_acd a (fun c => c <| ac_state := ACD_STATE_ANNOUNCE_WAIT |> <| ac_sent_num := 0 |>
                          <| ac_ttw := u16 (ANNOUNCE_WAIT * ACD_TICKS_PER_SECOND) |>)
  else
    let* t := ACD_RANDOM_PROBE_INTERVAL in upd_acd a (fun c => c <| ac_ttw := u16 t |>).
Definition tmr_announce (a : Z) : M net unit :=
  let* c := get_acd a in
  (if ac_sent_num c =? 0 then upd_acd a (fun c => c <| ac_state := ACD_STATE_ANNOUNCING |> <| ac_num_conflicts := 0 |>) else ret tt) ;;;
  let* c := get_acd a in
  etharp_acd_announce (ac_ipaddr c) ;;;
  upd_acd a (fun c => c <| ac_ttw := u16 (ANNOUNCE_INTERVAL * ACD_TICKS_PER_SECOND) |> <| ac_sent_num := u8 (ac_sent_num c + 1) |>) ;;;
  let* c := get_acd a in
  if ANNOUNCE_NUM <=? ac_sent_num c then
    upd_acd a (fun c => c <| ac_state := ACD_STATE_ONGOING |> <| ac_sent_num := 0 |> <| ac_ttw := 0 |>) ;;;
    callback a ACD_IP_OK
  else ret tt.
Definition tmr_acd (a : Z) : M net unit :=
  let* c := get_acd a in
  (if 0 <? ac_lastconflict c then upd_acd a (fun c => c <| ac_lastconflict := ac_lastconflict c - 1 |>) else ret tt) ;;;
  (if 0 <? ac_ttw c then upd_acd a (fun c => c <| ac_ttw := ac_ttw c - 1 |>) else ret tt) ;;;
  let* c := get_acd a in
  match ac_state c with
  | ACD_STATE_PROBE_WAIT | ACD_STATE_PROBING => if ac_ttw c =? 0 then tmr_probe a else ret tt
  | ACD_STATE_ANNOUNCE_WAIT | ACD_STATE_ANNOUNCING => if ac_ttw c =? 0 then tmr_announce a else ret tt
  | ACD_STATE_RATE_LIMIT => if ac_ttw c =? 0 then acd_stop a ;;; callback a ACD_RESTART_CLIENT else ret tt
  | _ => ret tt
  end.
(** LWIP_SINGLE_NETIF is 1: the loop over the interfaces visits netif_default. *)
Definition acd_tmr : M net unit := ACD_FOREACH tmr_acd.

(** ** Conflicts *)

Definition acd_restart (a : Z) : M net unit :=
  upd_acd a (fun c => c <| ac_num_conflicts := u8 (ac_num_conflicts c + 1) |>) ;;;
  callback a ACD_DECLINE ;;;
  let* c := get_acd a in
  if MAX_CONFLICTS <=? ac_num_conflicts c then
    upd_acd a (fun c => c <| ac_state := ACD_STATE_RATE_LIMIT |> <| ac_ttw := u16 (RATE_LIMIT_INTERVAL * ACD_TICKS_PER_SECOND) |>)
  else
    acd_stop a ;;; callback a ACD_RESTART_CLIENT.

Definition acd_handle_arp_conflict (a : Z) : M net unit :=
  let* c := get_acd a in
  if bool_decide (ac_state c = ACD_STATE_PASSIVE_ONGOING) then acd_stop a ;;; callback a ACD_DECLINE
  else if 0 <? ac_lastconflict c then acd_restart a
  else
    etharp_acd_announce (ac_ipaddr c) ;;;
    upd_acd a (fun c => c <| ac_lastconflict := u8 (DEFEND_INTERVAL * ACD_TICKS_PER_SECOND) |>).

(** [hdr]: the bytes of the ARP message. *)
Definition acd_arp_reply (hdr : bytes) : M net unit :=
  let* n := gets nif in
  let netifaddr := nf_hwaddr n in
  let sipaddr := le_val (take 4 (drop 14 hdr)) in
  let dipaddr := le_val (take 4 (drop 24 hdr)) in
  let shwaddr := take 6 (drop 8 hdr) in
  ACD_FOREACH (fun a =>
    let* c := get_acd a in
    match ac_state c with
    | ACD_STATE_OFF | ACD_STATE_RATE_LIMIT => ret tt
    | ACD_STATE_PROBE_WAIT | ACD_STATE_PROBING | ACD_STATE_ANNOUNCE_WAIT =>
        if (sipaddr =? ac_ipaddr c) ||
           (ip4_addr_isany_val sipaddr && (dipaddr =? ac_ipaddr c) && negb (bool_decide (netifaddr = shwaddr)))
        then acd_restart a else ret tt
    | ACD_STATE_ANNOUNCING | ACD_STATE_ONGOING | ACD_STATE_PASSIVE_ONGOING =>
        if (sipaddr =? ac_ipaddr c) && negb (bool_decide (netifaddr = shwaddr)) then acd_handle_arp_conflict a else ret tt
    end).

Definition acd_put_in_passive_mode (a : Z) : M net unit :=
  let* c := get_acd a in
  match ac_state c with
  | ACD_STATE_OFF | ACD_STATE_PASSIVE_ONGOING => ret tt
  | ACD_STATE_PROBE_WAIT | ACD_STATE_PROBING | ACD_STATE_ANNOUNCE_WAIT | ACD_STATE_RATE_LIMIT => acd_stop a ;;; callback a ACD_DECLINE
  | ACD_STATE_ANNOUNCING | ACD_STATE_ONGOING => upd_acd a (fun c => c <| ac_state := ACD_STATE_PASSIVE_ONGOING |>)
  end.
Definition acd_netif_ip_addr_changed (old_addr new_addr : Z) : M net unit :=
  if ip4_addr_isany_val old_addr || ip4_addr_isany_val new_addr then ret tt else
  ACD_FOREACH (fun a =>
    let* c := get_acd a in
    if ac_ipaddr c =? old_addr then
      if ip4_addr_islinklocal old_addr && negb (ip4_addr_islinklocal new_addr) then acd_put_in_passive_mode a else ret tt
    else ret tt).

End Acd.
