(* ===== verification/AcdProofs.v ===== *)
(** Address conflict detection: an address nobody contests is announced in
    bounded time, and a conflict while probing gives the address up. *)

From stdpp Require Import gmap.
From S2P Require Import Prelude Cmonad Cutils Heap Pbuf PbufProofs PbufChain Inet InetProofs Ethernet EthernetProofs Etharp EtharpProofs ArpProofs Acd.

(** [n] calls in a row. *)
Fixpoint times {S} (n : nat) (m : M S unit) : M S unit := match n with O => ret tt | Datatypes.S n => m ;;; times n m end.
Lemma times_add {S} (m : M S unit) n k s : times (n + k) m s = (times n m ;;; times k m) s.
Proof.
  revert s. induction n as [|n IH]; intros s; cbn [Nat.add times]; [done|]. rewrite bind_assoc. unfold bind at 1 2. destruct (m s) as [[[] s']| |]; [|done|done]. apply IH.
Qed.
Lemma times_run {S} (m : M S unit) n k s s' : times n m s = Ok (tt, s') -> times (n + k) m s = times k m s'.
Proof. intros E. rewrite times_add. by rewrite (bind_run _ _ _ _ _ E). Qed.
Lemma times_1 {S} (m : M S unit) s : times 1 m s = m s.
Proof. cbn [times]. unfold bind, ret. by destruct (m s) as [[[] ?]| |]. Qed.

Lemma bumped_ok m : store_ok m -> store_ok (bumped m).
Proof.
  intros Hs. pose proof (so_next _ Hs). split; [cbn; lia|intros k Hk; apply (so_pbs _ Hs); cbn in Hk; lia|intros k Hk; apply (so_dat _ Hs); cbn in Hk; lia|apply (so_pool _ Hs)].
Qed.

Section Acd.
Context `{PbufEnv} {V : Type} (rand : nat -> Z).
Abbreviation net := (stack (acd_net V)).
Context (conflict_callback : Z -> acd_callback -> M net unit).
Implicit Types s : net.
Abbreviation acd_tmr := (acd_tmr rand conflict_callback).
Abbreviation acd_start := (acd_start rand).
Abbreviation acd_arp_reply := (acd_arp_reply conflict_callback).
Abbreviation callback := (callback conflict_callback).

Definition with_upper s (u : acd_net V) : net := s <| upper := u |>.
(** The interface's list holds [a] alone, with contents [c]. *)
Definition alone s (a : Z) (c : acd) : Prop := a <> NULL /\ acd_list (upper s) = a /\ acds (upper s) !! a = Some c /\ ac_next c = NULL.
Definition put_acd s (a : Z) (c : acd) : net := with_upper s ((upper s) <| acds := <[a := c]> (acds (upper s)) |>).

Lemma get_acd_run {B} s a c (k : acd -> M net B) : a <> NULL -> acds (upper s) !! a = Some c -> bind (get_acd a) k s = k c s.
Proof. intros Ha Hc. unfold bind, get_acd. by rewrite (proj2 (Z.eqb_neq _ _) Ha), Hc. Qed.
Lemma upd_acd_end s a c f : a <> NULL -> acds (upper s) !! a = Some c -> upd_acd a f s = Ok (tt, put_acd s a (f c)).
Proof. intros Ha Hc. unfold upd_acd. by rewrite (get_acd_run _ _ _ _ Ha Hc). Qed.
Lemma upd_acd_run {B} s a c f (k : M net B) : a <> NULL -> acds (upper s) !! a = Some c -> (upd_acd a f ;;; k) s = k (put_acd s a (f c)).
Proof. intros Ha Hc. by rewrite (bind_run _ _ _ _ _ (upd_acd_end _ _ _ _ Ha Hc)). Qed.
Lemma lookup_put s a c : acds (upper (put_acd s a c)) !! a = Some c.
Proof. apply lookup_insert_eq. Qed.
Lemma put_put s a c c' : put_acd (put_acd s a c) a c' = put_acd s a c'.
Proof. unfold put_acd, with_upper. destruct s as [m t n o [h l r v]]. unfold set. cbn. by rewrite insert_insert_eq. Qed.
Lemma put_id s a c : acds (upper s) !! a = Some c -> put_acd s a c = s.
Proof. intros Hc. unfold put_acd, with_upper. destruct s as [m t n o [h l r v]]. unfold set. cbn in *. by rewrite insert_id. Qed.
Lemma put_alone s a c c' : alone s a c -> ac_next c' = NULL -> alone (put_acd s a c') a c'.
Proof. intros (H1 & H2 & H3 & H4) Hn. split; [done|]. split; [done|]. split; [apply lookup_put|done]. Qed.

(** Nobody listens: ARP messages change nothing. *)
Lemma arp_reply_quiet s hdr : acd_list (upper s) = NULL -> acd_arp_reply hdr s = Ok (tt, s).
Proof.
  intros Hl. unfold Acd.acd_arp_reply, ACD_FOREACH. rewrite (bind_run _ _ _ _ _ (eq_refl : gets nif s = Ok (nif s, s))). cbv zeta.
  rewrite (bind_run _ _ _ _ _ (eq_refl : acd_fuel s = Ok (S (size (acds (upper s))), s))).
  rewrite (bind_run _ _ _ _ _ (eq_refl : gets (fun s => acd_list (upper s)) s = Ok (acd_list (upper s), s))). by rewrite Hl.
Qed.

(** A pass over a list of one module that stays on it. *)
Lemma foreach_alone s a c s' c' (body : Z -> M net unit) : alone s a c -> body a s = Ok (tt, s') -> acds (upper s') !! a = Some c' -> ac_next c' = NULL ->
  ACD_FOREACH body s = Ok (tt, s').
Proof.
  intros (Ha & Hl & Hc & Hn) Hb Hc' Hn'. unfold ACD_FOREACH. rewrite (bind_run _ _ _ _ _ (eq_refl : acd_fuel s = Ok (S (size (acds (upper s))), s))).
  rewrite (bind_run _ _ _ _ _ (eq_refl : gets (fun s => acd_list (upper s)) s = Ok (acd_list (upper s), s))). rewrite Hl.
  assert (size (acds (upper s)) <> 0%nat) as Hsz by (apply map_size_ne_0_lookup; eauto). destruct (size (acds (upper s))) as [|k]; [done|].
  cbn [foreach_acd]. rewrite (proj2 (Z.eqb_neq _ _) Ha), (bind_run _ _ _ _ _ Hb), (get_acd_run _ _ _ _ Ha Hc'), Hn'. done.
Qed.

(** ** Ticks *)

Definition probe_frame (n : netif_t) (ip : Z) : bytes :=
  arp_frame (nf_hwaddr n) ethbroadcast (arp_message ARP_REQUEST (nf_hwaddr n) IPADDR_ANY ethzero ip).
Definition announcement (n : netif_t) (ip : Z) : bytes :=
  arp_frame (nf_hwaddr n) ethbroadcast (arp_message ARP_REQUEST (nf_hwaddr n) ip ethzero ip).

Definition ticking (st : acd_state) : Prop :=
  st = ACD_STATE_PROBE_WAIT \/ st = ACD_STATE_PROBING \/ st = ACD_STATE_ANNOUNCE_WAIT \/ st = ACD_STATE_ANNOUNCING \/ st = ACD_STATE_RATE_LIMIT.
(** Counting down. *)
Lemma tick_wait s a c : alone s a c -> ac_lastconflict c = 0 -> ticking (ac_state c) -> 1 < ac_ttw c ->
  acd_tmr s = Ok (tt, put_acd s a (c <| ac_ttw := ac_ttw c - 1 |>)).
Proof.
  intros Hal Hlc Hst Ht. destruct (Hal) as (Ha & Hl & Hc & Hn). eapply (foreach_alone s a c _ (c <| ac_ttw := ac_ttw c - 1 |>)); [done| |apply lookup_put|done].
  unfold tmr_acd. rewrite (get_acd_run _ _ _ _ Ha Hc), Hlc. cbn [Z.ltb Z.compare]. rewrite bind_ret, (proj2 (Z.ltb_lt _ _)) by lia.
  rewrite (upd_acd_run _ _ _ _ _ Ha Hc), (get_acd_run _ _ _ _ Ha (lookup_put _ _ _)). change (ac_state (c <| ac_ttw := _ |>)) with (ac_state c).
  change (ac_ttw (c <| ac_ttw := ac_ttw c - 1 |>)) with (ac_ttw c - 1). rewrite (proj2 (Z.eqb_neq (ac_ttw c - 1) 0)) by lia.
  destruct Hst as [-> |[-> |[-> |[-> | ->]]]]; done.
Qed.
Lemma wait_run k : forall s a c, alone s a c -> ac_lastconflict c = 0 -> ticking (ac_state c) -> Z.of_nat k < ac_ttw c ->
  times k acd_tmr s = Ok (tt, put_acd s a (c <| ac_ttw := ac_ttw c - Z.of_nat k |>)).
Proof.
  induction k as [|k IH]; intros s a c Hal Hlc Hst Hk; cbn [times].
  - unfold ret. do 2 f_equal. symmetry. rewrite Z.sub_0_r. destruct Hal as (_ & _ & Hc & _). rewrite put_id; [done|]. by destruct c.
  - rewrite (bind_run _ _ _ _ _ (tick_wait s a c Hal Hlc Hst ltac:(lia))). rewrite (IH _ a (c <| ac_ttw := ac_ttw c - 1 |>)).
    + rewrite put_put. change (ac_ttw (c <| ac_ttw := ac_ttw c - 1 |>)) with (ac_ttw c - 1). replace (ac_ttw c - 1 - Z.of_nat k) with (ac_ttw c - Z.of_nat (S k)) by lia.
      by destruct c.
    + eapply put_alone; [done|]. by destruct Hal as (_ & _ & _ & ?).
    + done.
    + done.
    + change (ac_ttw (c <| ac_ttw := ac_ttw c - 1 |>)) with (ac_ttw c - 1). lia.
Qed.

(** The module is now [c] and the frames [fs] were sent; nothing else happened. *)
Record after s (fs : list bytes) (a : Z) (c : acd) s' : Prop := {
  af_alone : alone s' a c;
  af_nif : nif s' = nif s;
  af_mem : mem s' = Nat.iter (length fs) bumped (mem s);
  af_sent : sent s' = sent s ++ fs;
  af_above : above (upper s') = above (upper s);
  af_table : arp_table s' = arp_table s
}.
Lemma after_trans s fs a c s1 gs c' s2 : after s fs a c s1 -> after s1 gs a c' s2 -> after s (fs ++ gs) a c' s2.
Proof.
  intros [A1 A2 A3 A4 A5 A6] [B1 B2 B3 B4 B5 B6]. split; [done|congruence| |by rewrite B4, A4, app_assoc|congruence|congruence].
  rewrite B3, A3, length_app. symmetry. rewrite Nat.add_comm. apply Nat.iter_add.
Qed.
Lemma after_put s a c c' : alone s a c -> ac_next c' = NULL -> after s [] a c' (put_acd s a c').
Proof. intros Hal Hn. split; [by eapply put_alone|done|done|by rewrite app_nil_r|done|done]. Qed.
Lemma after_wait s a c k : alone s a c -> ac_lastconflict c = 0 -> ticking (ac_state c) -> Z.of_nat k < ac_ttw c ->
  exists s', times k acd_tmr s = Ok (tt, s') /\ after s [] a (c <| ac_ttw := ac_ttw c - Z.of_nat k |>) s'.
Proof.
  intros Hal Hlc Hst Hk. eexists. split; [by apply wait_run|]. eapply after_put; [done|]. by destruct Hal as (_ & _ & _ & ?).
Qed.

(** An ARP message leaves while the module is on the list. *)
Lemma after_send s a c f : alone s a c -> after s [f] a c (send s (bumped (mem s)) f).
Proof. intros Hal. by split. Qed.
Definition ready s : Prop := store_ok (mem s) /\ length (nf_hwaddr (nif s)) = 6%nat.
Lemma probe_run s ip : ready s -> mem_gives (mallocs (mem s)) = true ->
  etharp_acd_probe ip s = Ok (ERR_OK, send s (bumped (mem s)) (probe_frame (nif s) ip)).
Proof.
  intros [Hs Hhw] Hm. unfold etharp_acd_probe. rewrite (bind_run _ _ _ _ _ (eq_refl : gets nif s = Ok (nif s, s))). rewrite etharp_raw_run by done. by rewrite Hm.
Qed.
Lemma announce_run s ip : ready s -> mem_gives (mallocs (mem s)) = true ->
  etharp_acd_announce ip s = Ok (ERR_OK, send s (bumped (mem s)) (announcement (nif s) ip)).
Proof.
  intros [Hs Hhw] Hm. unfold etharp_acd_announce. rewrite (bind_run _ _ _ _ _ (eq_refl : gets nif s = Ok (nif s, s))). rewrite etharp_raw_run by done. by rewrite Hm.
Qed.

(** The countdown of a tick that acts. *)
Lemma tick_acts s a c s' c' : alone s a c -> ac_lastconflict c = 0 -> 0 <= ac_ttw c <= 1 ->
  (match ac_state c with
   | ACD_STATE_PROBE_WAIT | ACD_STATE_PROBING => tmr_probe rand a
   | ACD_STATE_ANNOUNCE_WAIT | ACD_STATE_ANNOUNCING => tmr_announce conflict_callback a
   | ACD_STATE_RATE_LIMIT => acd_stop a ;;; callback a ACD_RESTART_CLIENT
   | _ => ret tt end) (put_acd s a (c <| ac_ttw := 0 |>)) = Ok (tt, s') -> alone s' a c' ->
  acd_tmr s = Ok (tt, s').
Proof.
  intros Hal Hlc Ht Hb (_ & _ & Hc' & Hn'). destruct (Hal) as (Ha & Hl & Hc & Hn). eapply (foreach_alone s a c s' c'); [done| |done|done].
  unfold tmr_acd. rewrite (get_acd_run _ _ _ _ Ha Hc), Hlc. cbn [Z.ltb Z.compare]. rewrite bind_ret. destruct (decide (ac_ttw c = 0)) as [E|E].
  - rewrite E. cbn [Z.ltb Z.compare]. rewrite bind_ret, (get_acd_run _ _ _ _ Ha Hc), E. cbn [Z.eqb].
    assert (put_acd s a (c <| ac_ttw := 0 |>) = s) as Es by (apply put_id; rewrite Hc; f_equal; destruct c; cbn in E; by subst). rewrite Es in Hb.
    destruct (ac_state c); exact Hb.
  - assert (ac_ttw c = 1) as E1 by lia. rewrite E1. cbn [Z.ltb Z.compare]. rewrite (upd_acd_run _ _ _ _ _ Ha Hc), E1. change (1 - 1) with 0.
    rewrite (get_acd_run _ _ _ _ Ha (lookup_put _ _ _)). change (ac_ttw (c <| ac_ttw := 0 |>)) with 0. change (ac_state (c <| ac_ttw := 0 |>)) with (ac_state c). cbn [Z.eqb].
    destruct (ac_state c); exact Hb.
Qed.

Definition probing (st : acd_state) : Prop := st = ACD_STATE_PROBE_WAIT \/ st = ACD_STATE_PROBING.
Definition announcing (c : acd) : Prop := ac_state c = ACD_STATE_ANNOUNCE_WAIT /\ ac_sent_num c = 0 \/ ac_state c = ACD_STATE_ANNOUNCING /\ 0 < ac_sent_num c.

(** A probe; the next one is 10 to 19 ticks away, the announcement 20. *)
Lemma tick_probe s a c : alone s a c -> ready s -> mem_gives (mallocs (mem s)) = true -> ac_lastconflict c = 0 -> 0 <= ac_ttw c <= 1 -> probing (ac_state c) -> 0 <= ac_sent_num c < PROBE_NUM ->
  exists s' c', acd_tmr s = Ok (tt, s') /\ after s [probe_frame (nif s) (ac_ipaddr c)] a c' s' /\ ac_lastconflict c' = 0 /\ ac_ipaddr c' = ac_ipaddr c /\ ac_user c' = ac_user c /\
    if ac_sent_num c =? PROBE_NUM - 1 then ac_state c' = ACD_STATE_ANNOUNCE_WAIT /\ ac_sent_num c' = 0 /\ ac_ttw c' = 20
    else ac_state c' = ACD_STATE_PROBING /\ ac_sent_num c' = ac_sent_num c + 1 /\ 10 <= ac_ttw c' < 20.
Proof.
  intros Hal Hrd Hm Hlc Ht Hst Hsn. destruct (Hal) as (Ha & _ & Hc & Hn). unfold PROBE_NUM in *.
  set (c1 := c <| ac_ttw := 0 |> <| ac_state := ACD_STATE_PROBING |>). set (s1 := put_acd s a c1).
  assert (alone s1 a c1) as Hal1 by (eapply put_alone; [done|exact Hn]). set (s2 := send s1 (bumped (mem s1)) (probe_frame (nif s1) (ac_ipaddr c1))).
  pose proof (after_send s1 a c1 (probe_frame (nif s1) (ac_ipaddr c1)) Hal1) as A2. fold s2 in A2.
  set (c2 := c1 <| ac_sent_num := ac_sent_num c + 1 |>). set (s3 := put_acd s2 a c2).
  assert (forall s' c', after s3 [] a c' s' -> after s [probe_frame (nif s) (ac_ipaddr c)] a c' s') as Hend.
  { intros s' c' A. assert (after s [] a c1 s1) as A1 by (by eapply after_put). assert (after s2 [] a c2 s3) as A3 by (by eapply after_put; [apply A2|]).
    exact (after_trans _ _ _ _ _ _ _ _ (after_trans _ _ _ _ _ _ _ _ (after_trans _ _ _ _ _ _ _ _ A1 A2) A3) A). }
  assert (forall s' c', (if 3 <=? ac_sent_num c2 then
      upd_acd a (fun c => c <| ac_state := ACD_STATE_ANNOUNCE_WAIT |> <| ac_sent_num := 0 |> <| ac_ttw := u16 (ANNOUNCE_WAIT * ACD_TICKS_PER_SECOND) |>)
      else let* t := ACD_RANDOM_PROBE_INTERVAL rand in upd_acd a (fun c => c <| ac_ttw := u16 t |>)) s3 = Ok (tt, s') -> alone s' a c' -> acd_tmr s = Ok (tt, s')) as Hrun.
  { intros s' c' E Hal'. eapply tick_acts; [done|done|done| |exact Hal'].
    assert (tmr_probe rand a (put_acd s a (c <| ac_ttw := 0 |>)) = Ok (tt, s')) as Ep; [|destruct Hst as [-> | ->]; exact Ep].
    unfold tmr_probe. rewrite (upd_acd_run _ _ _ _ _ Ha (lookup_put _ _ _)), put_put. fold c1. rewrite (get_acd_run _ _ _ _ Ha (lookup_put _ _ _)). fold s1.
    rewrite (bind_run _ _ _ _ _ (probe_run s1 (ac_ipaddr c1) Hrd Hm)). fold s2. rewrite (upd_acd_run s2 a c1 _ _ Ha) by apply lookup_put.
    cbv beta. change (ac_sent_num c1) with (ac_sent_num c). rewrite (u8_id (ac_sent_num c + 1)) by (unfold byte_ok; lia). fold c2. by rewrite (get_acd_run _ _ _ _ Ha (lookup_put _ _ _)). }
  assert (alone s3 a c2) as Hal3 by (eapply put_alone; [apply A2|done]). change (ac_sent_num c2) with (ac_sent_num c + 1) in Hrun.
  destruct (ac_sent_num c =? 3 - 1) eqn:E; [apply Z.eqb_eq in E|apply Z.eqb_neq in E].
  - rewrite (proj2 (Z.leb_le _ _)) in Hrun by lia. rewrite (upd_acd_end s3 a c2 _ Ha) in Hrun by apply lookup_put. set (c3 := c2 <| ac_state := _ |> <| ac_sent_num := _ |> <| ac_ttw := _ |>) in *.
    exists (put_acd s3 a c3), c3. split; [apply (Hrun _ c3); [done|by eapply put_alone]|]. split; [apply Hend; by eapply after_put|done].
  - rewrite (proj2 (Z.leb_gt _ _)) in Hrun by lia. set (s4 := with_upper s3 ((upper s3) <| rands := S (rands (upper s3)) |>)).
    set (t := u32 (rand (rands (upper s3))) mod 10 + 10). set (c3 := c2 <| ac_ttw := u16 t |>).
    exists (put_acd s4 a c3), c3. assert (10 <= t < 20) as Htt by (subst t; zdm). split; [apply (Hrun _ c3)|split; [apply Hend|]].
    + unfold ACD_RANDOM_PROBE_INTERVAL. rewrite bind_assoc. rewrite (bind_run _ _ _ _ _ (eq_refl : LWIP_ACD_RAND rand s3 = Ok (u32 (rand (rands (upper s3))), s4))), bind_ret.
      change (u32 (rand (rands (upper s3))) mod ((PROBE_MAX - PROBE_MIN) * ACD_TICKS_PER_SECOND) + PROBE_MIN * ACD_TICKS_PER_SECOND) with t.
      rewrite (upd_acd_end s4 a c2 _ Ha) by apply lookup_put. done.
    + eapply (put_alone s4 a c2); done.
    + assert (after s3 [] a c2 s4) as A4 by (split; [done|done|done|by rewrite app_nil_r|done|done]). exact (after_trans _ _ _ _ _ _ _ _ A4 (after_put s4 a c2 c3 (af_alone _ _ _ _ _ A4) Hn)).
    + split; [done|]. split; [done|]. split; [done|]. split; [done|]. split; [done|]. subst c3. change (ac_ttw (c2 <| ac_ttw := u16 t |>)) with (u16 t). rewrite u16_id by lia. done.
Qed.

Lemma announce_core s a c : alone s a c -> ready s -> mem_gives (mallocs (mem s)) = true -> announcing c -> 0 <= ac_sent_num c < ANNOUNCE_NUM ->
  exists s' c', tmr_announce conflict_callback a s =
      (if ANNOUNCE_NUM <=? ac_sent_num c' then
         upd_acd a (fun c => c <| ac_state := ACD_STATE_ONGOING |> <| ac_sent_num := 0 |> <| ac_ttw := 0 |>) ;;; callback a ACD_IP_OK else ret tt) s' /\
    after s [announcement (nif s) (ac_ipaddr c)] a c' s' /\ ac_lastconflict c' = ac_lastconflict c /\ ac_ipaddr c' = ac_ipaddr c /\ ac_user c' = ac_user c /\
    ac_state c' = ACD_STATE_ANNOUNCING /\ ac_sent_num c' = ac_sent_num c + 1 /\ ac_ttw c' = 20.
Proof.
  intros Hal Hrd Hm Han Hsn. destruct (Hal) as (Ha & _ & Hc & Hn). unfold ANNOUNCE_NUM in *.
  assert (exists s1 c1, (forall (k : M net unit), ((if ac_sent_num c =? 0 then upd_acd a (fun c => c <| ac_state := ACD_STATE_ANNOUNCING |> <| ac_num_conflicts := 0 |>) else ret tt) ;;; k) s = k s1) /\
    after s [] a c1 s1 /\ ac_lastconflict c1 = ac_lastconflict c /\ ac_ipaddr c1 = ac_ipaddr c /\ ac_user c1 = ac_user c /\ ac_state c1 = ACD_STATE_ANNOUNCING /\ ac_sent_num c1 = ac_sent_num c)
    as (s1 & c1 & E1 & A1 & F1 & F2 & F3 & F4 & F5).
  { destruct Han as [[Hst H0]|[Hst H0]].
    - exists (put_acd s a (c <| ac_state := ACD_STATE_ANNOUNCING |> <| ac_num_conflicts := 0 |>)), (c <| ac_state := ACD_STATE_ANNOUNCING |> <| ac_num_conflicts := 0 |>).
      split; [|split; [by eapply after_put|done]]. intros k. rewrite H0. cbn [Z.eqb]. by rewrite (upd_acd_run _ _ _ _ _ Ha Hc).
    - exists s, c. split; [|split; [|done]]; [|split; [done|done|done|by rewrite app_nil_r|done|done]]. intros k. by rewrite (proj2 (Z.eqb_neq _ _)) by lia. }
  set (s2 := send s1 (bumped (mem s1)) (announcement (nif s1) (ac_ipaddr c1))). pose proof (after_send s1 a c1 (announcement (nif s1) (ac_ipaddr c1)) (af_alone _ _ _ _ _ A1)) as A2. fold s2 in A2.
  set (c2 := c1 <| ac_ttw := 20 |> <| ac_sent_num := ac_sent_num c1 + 1 |>). exists (put_acd s2 a c2), c2.
  destruct (af_alone _ _ _ _ _ A1) as (_ & _ & Hc1 & Hn1). pose proof (af_mem _ _ _ _ _ A1 : mem s1 = mem s) as Em1.
  assert (ready s1) as Hrd1 by (unfold ready; by rewrite Em1, (af_nif _ _ _ _ _ A1)). split; [|split].
  - unfold tmr_announce. rewrite (get_acd_run _ _ _ _ Ha Hc), E1, (get_acd_run _ _ _ _ Ha Hc1).
    rewrite (bind_run _ _ _ _ _ (announce_run s1 (ac_ipaddr c1) Hrd1 ltac:(by rewrite Em1))). fold s2.
    rewrite (upd_acd_run s2 a c1 _ _ Ha) by done. cbv beta. change (u16 (ANNOUNCE_INTERVAL * ACD_TICKS_PER_SECOND)) with 20.
    rewrite (u8_id (ac_sent_num c1 + 1)) by (unfold byte_ok; lia). fold c2. by rewrite (get_acd_run _ _ _ _ Ha (lookup_put _ _ _)).
  - assert (after s2 [] a c2 (put_acd s2 a c2)) as A3 by (by eapply after_put; [apply A2|]). pose proof (after_trans _ _ _ _ _ _ _ _ (after_trans _ _ _ _ _ _ _ _ A1 A2) A3) as A.
    by rewrite F2, (af_nif _ _ _ _ _ A1) in A.
  - subst c2. cbn -[Z.add]. repeat split; try done. by rewrite <- F5.
Qed.

(** ** From the start to the end *)

Definition gives_next s (n : nat) : Prop := forall k, (k < n)%nat -> mem_gives (mallocs (mem s) + k) = true.
Lemma iter_bumped k m : mallocs (Nat.iter k bumped m) = (mallocs m + k)%nat /\ (store_ok m -> store_ok (Nat.iter k bumped m)).
Proof.
  induction k as [|k [IH1 IH2]]; [split; [cbn; lia|done]|]. cbn [Nat.iter nat_rect]. split; [|intros Hs; by apply bumped_ok, IH2].
  change (S (mallocs (Nat.iter k bumped m)) = (mallocs m + S k)%nat). rewrite IH1. lia.
Qed.
Lemma after_ready s fs a c s' : after s fs a c s' -> ready s -> ready s'.
Proof. intros A [Hs Hw]. split; [rewrite (af_mem _ _ _ _ _ A); by apply iter_bumped|by rewrite (af_nif _ _ _ _ _ A)]. Qed.
Lemma after_gives s fs a c s' n : after s fs a c s' -> gives_next s (length fs + n) -> gives_next s' n.
Proof. intros A Hg k Hk. rewrite (af_mem _ _ _ _ _ A), (proj1 (iter_bumped _ _)), <- Nat.add_assoc. apply Hg. lia. Qed.
Lemma gives_now s n : gives_next s (S n) -> mem_gives (mallocs (mem s)) = true.
Proof. intros Hg. rewrite <- (Nat.add_0_r (mallocs _)). apply Hg. lia. Qed.

(** Waiting until the counter is at most 1. *)
Lemma wait_to_act s a c : alone s a c -> ac_lastconflict c = 0 -> ticking (ac_state c) -> 0 <= ac_ttw c ->
  exists s' t, 0 <= t <= 1 /\ times (Z.to_nat (ac_ttw c - 1)) acd_tmr s = Ok (tt, s') /\ after s [] a (c <| ac_ttw := t |>) s'.
Proof.
  intros Hal Hlc Hst Ht. destruct (decide (ac_ttw c = 0)) as [E|E].
  - exists s, 0. rewrite E. split; [lia|]. split; [done|]. assert (c <| ac_ttw := 0 |> = c) as -> by (destruct c; cbn in E; by subst).
    split; [done|done|done|by rewrite app_nil_r|done|done].
  - destruct (after_wait s a c (Z.to_nat (ac_ttw c - 1)) Hal Hlc Hst) as (s' & E' & A); [lia|]. exists s', (ac_ttw c - Z.of_nat (Z.to_nat (ac_ttw c - 1))). split; [lia|]. done.
Qed.

Lemma probe_phase s a c n : alone s a c -> ready s -> gives_next s (S n) -> ac_lastconflict c = 0 -> 0 <= ac_ttw c -> probing (ac_state c) -> 0 <= ac_sent_num c < PROBE_NUM ->
  exists s' c', times (S (Z.to_nat (ac_ttw c - 1))) acd_tmr s = Ok (tt, s') /\ after s [probe_frame (nif s) (ac_ipaddr c)] a c' s' /\ ready s' /\ gives_next s' n /\
    ac_lastconflict c' = 0 /\ ac_ipaddr c' = ac_ipaddr c /\ ac_user c' = ac_user c /\
    if ac_sent_num c =? PROBE_NUM - 1 then ac_state c' = ACD_STATE_ANNOUNCE_WAIT /\ ac_sent_num c' = 0 /\ ac_ttw c' = 20
    else ac_state c' = ACD_STATE_PROBING /\ ac_sent_num c' = ac_sent_num c + 1 /\ 10 <= ac_ttw c' < 20.
Proof.
  intros Hal Hrd Hg Hlc Ht Hst Hsn. assert (ticking (ac_state c)) as Hti by (unfold ticking; destruct Hst; tauto).
  destruct (wait_to_act s a c Hal Hlc Hti Ht) as (s1 & t & Htt & E1 & A1). pose proof (after_gives _ _ _ _ _ (S n) A1 Hg) as Hg1.
  destruct (tick_probe s1 a (c <| ac_ttw := t |>)) as (s2 & c2 & E2 & A2 & Hrest); [apply A1|by eapply after_ready|by eapply gives_now|done|done|done|done|].
  pose proof (after_trans _ _ _ _ _ _ _ _ A1 A2) as A. rewrite (af_nif _ _ _ _ _ A1) in A. exists s2, c2. split; [|split; [exact A|]].
  - replace (S (Z.to_nat (ac_ttw c - 1))) with (Z.to_nat (ac_ttw c - 1) + 1)%nat by lia. rewrite (times_run _ _ _ _ _ E1), times_1. done.
  - split; [by eapply after_ready|]. split; [|exact Hrest]. by eapply after_gives.
Qed.

(** The first announcement; 20 ticks later the last one is due. *)
Lemma announce_phase s a c n : alone s a c -> ready s -> gives_next s (S n) -> ac_lastconflict c = 0 -> ac_ttw c = 20 -> ac_state c = ACD_STATE_ANNOUNCE_WAIT -> ac_sent_num c = 0 ->
  exists s' c', times 20 acd_tmr s = Ok (tt, s') /\ after s [announcement (nif s) (ac_ipaddr c)] a c' s' /\ ready s' /\ gives_next s' n /\
    ac_lastconflict c' = 0 /\ ac_ipaddr c' = ac_ipaddr c /\ ac_user c' = ac_user c /\ ac_state c' = ACD_STATE_ANNOUNCING /\ ac_sent_num c' = 1 /\ ac_ttw c' = 20.
Proof.
  intros Hal Hrd Hg Hlc Ht Hst Hsn. assert (ticking (ac_state c)) as Hti by (unfold ticking; tauto).
  destruct (after_wait s a c 19 Hal Hlc Hti) as (s1 & E1 & A1); [lia|]. replace (ac_ttw c - Z.of_nat 19) with 1 in A1 by lia. pose proof (after_gives _ _ _ _ _ (S n) A1 Hg) as Hg1.
  set (c1 := c <| ac_ttw := 1 |>) in *. set (c0 := c1 <| ac_ttw := 0 |>). pose proof (after_put s1 a c1 c0 (af_alone _ _ _ _ _ A1) (proj2 (proj2 (proj2 Hal)))) as A0.
  pose proof (after_trans _ _ _ _ _ _ _ _ A1 A0) as A10. destruct (announce_core (put_acd s1 a c0) a c0) as (s2 & c2 & E2 & A2 & R1 & R2 & R3 & R4 & R5 & R6);
    [apply A0|by eapply after_ready|exact (gives_now _ n (after_gives _ _ _ _ _ (S n) A0 Hg1))|left; done|change (ac_sent_num c0) with (ac_sent_num c); rewrite Hsn; done|].
  change (ac_sent_num c0) with (ac_sent_num c) in R5. rewrite Hsn in R5. rewrite R5 in E2. change (ANNOUNCE_NUM <=? 0 + 1) with false in E2. cbv iota in E2.
  pose proof (after_trans _ _ _ _ _ _ _ _ A10 A2) as A. rewrite (af_nif _ _ _ _ _ A10) in A. exists s2, c2. split; [|split; [exact A|]].
  - change 20%nat with (19 + 1)%nat. rewrite (times_run _ _ _ _ _ E1), times_1. eapply (tick_acts s1 a c1); [apply A1|done|done| |apply A].
    change (ac_state c1) with (ac_state c). rewrite Hst. exact E2.
  - split; [by eapply after_ready|]. split; [by eapply after_gives|]. rewrite R1. done.
Qed.

(** The user of the module is told through its callback; here it only keeps a record. *)
Definition records (note : V -> Z -> acd_callback -> V) : Prop := forall user st s,
  conflict_callback user st s = Ok (tt, with_upper s ((upper s) <| above := note (above (upper s)) user st |>)).

Lemma last_phase note s a c : records note -> alone s a c -> ready s -> gives_next s 1 -> ac_lastconflict c = 0 -> ac_ttw c = 20 -> ac_state c = ACD_STATE_ANNOUNCING -> ac_sent_num c = 1 ->
  exists s' c', times 20 acd_tmr s = Ok (tt, s') /\ sent s' = sent s ++ [announcement (nif s) (ac_ipaddr c)] /\ alone s' a c' /\ ac_state c' = ACD_STATE_ONGOING /\ ac_ipaddr c' = ac_ipaddr c /\
    above (upper s') = note (above (upper s)) (ac_user c) ACD_IP_OK.
Proof.
  intros Hnote Hal Hrd Hg Hlc Ht Hst Hsn. assert (ticking (ac_state c)) as Hti by (unfold ticking; tauto). destruct (Hal) as (Ha & _ & _ & Hn).
  destruct (after_wait s a c 19 Hal Hlc Hti) as (s1 & E1 & A1); [lia|]. replace (ac_ttw c - Z.of_nat 19) with 1 in A1 by lia. pose proof (after_gives _ _ _ _ _ 1 A1 Hg) as Hg1.
  set (c1 := c <| ac_ttw := 1 |>) in *. set (c0 := c1 <| ac_ttw := 0 |>). pose proof (after_put s1 a c1 c0 (af_alone _ _ _ _ _ A1) Hn) as A0.
  pose proof (after_trans _ _ _ _ _ _ _ _ A1 A0) as A10. destruct (announce_core (put_acd s1 a c0) a c0) as (s2 & c2 & E2 & A2 & R1 & R2 & R3 & R4 & R5 & R6);
    [apply A0|by eapply after_ready|exact (gives_now _ 0 (after_gives _ _ _ _ _ 1 A0 Hg1))|right; change (ac_sent_num c0) with (ac_sent_num c); rewrite Hsn; split; [done|lia]|change (ac_sent_num c0) with (ac_sent_num c); rewrite Hsn; done|].
  change (ac_sent_num c0) with (ac_sent_num c) in R5. rewrite Hsn in R5. rewrite R5 in E2. change (ANNOUNCE_NUM <=? 1 + 1) with true in E2. cbv iota in E2.
  pose proof (after_trans _ _ _ _ _ _ _ _ A10 A2) as A. rewrite (af_nif _ _ _ _ _ A10) in A. destruct (af_alone _ _ _ _ _ A) as (_ & Hl2 & Hc2 & Hn2).
  set (c3 := c2 <| ac_state := ACD_STATE_ONGOING |> <| ac_sent_num := 0 |> <| ac_ttw := 0 |>). set (s3 := put_acd s2 a c3).
  rewrite (upd_acd_run _ _ _ _ _ Ha Hc2) in E2. fold c3 in E2. unfold Acd.callback in E2. rewrite (get_acd_run _ _ _ _ Ha (lookup_put _ _ _)), Hnote in E2. fold s3 in E2.
  set (s4 := with_upper s3 _) in E2. exists s4, c3. assert (alone s4 a c3) as Hal4 by (split; [done|]; split; [done|]; split; [apply lookup_insert_eq|done]). split; [|split; [exact (af_sent _ _ _ _ _ A)|]].
  - change 20%nat with (19 + 1)%nat. rewrite (times_run _ _ _ _ _ E1), times_1. eapply (tick_acts s1 a c1); [apply A1|done|done| |apply Hal4].
    change (ac_state c1) with (ac_state c). rewrite Hst. exact E2.
  - split; [done|]. split; [done|]. split; [done|]. change (above (upper s4)) with (note (above (upper s2)) (ac_user c3) ACD_IP_OK). rewrite (af_above _ _ _ _ _ A). by change (ac_user c3) with (ac_user c2); rewrite R3.
Qed.

Lemma start_run s a c ip : alone s a c -> exists s' c', acd_start a ip s = Ok (ERR_OK, s') /\ after s [] a c' s' /\ ac_lastconflict c' = 0 /\ ac_ipaddr c' = ip /\ ac_user c' = ac_user c /\
  ac_state c' = ACD_STATE_PROBE_WAIT /\ ac_sent_num c' = 0 /\ 0 <= ac_ttw c' < 10.
Proof.
  intros Hal. destruct (Hal) as (Ha & _ & Hc & Hn). set (c1 := c <| ac_sent_num := 0 |> <| ac_lastconflict := 0 |> <| ac_ipaddr := ip |> <| ac_state := ACD_STATE_PROBE_WAIT |>).
  set (s1 := put_acd s a c1). set (s2 := with_upper s1 ((upper s1) <| rands := S (rands (upper s1)) |>)). set (t := u32 (rand (rands (upper s1))) mod 10). assert (0 <= t < 10) as Ht by (subst t; zdm).
  set (c2 := c1 <| ac_ttw := u16 t |>). pose proof (after_put s a c c1 Hal Hn) as A1. assert (after s1 [] a c1 s2) as A2 by (split; [apply A1|done|done|by rewrite app_nil_r|done|done]).
  exists (put_acd s2 a c2), c2. split; [|split; [exact (after_trans _ _ _ _ _ _ _ _ (after_trans _ _ _ _ _ _ _ _ A1 A2) (after_put s2 a c1 c2 (af_alone _ _ _ _ _ A2) Hn))|]].
  - unfold Acd.acd_start. rewrite (upd_acd_run _ _ _ _ _ Ha Hc). fold c1. fold s1. unfold ACD_RANDOM_PROBE_WAIT. rewrite bind_assoc.
    rewrite (bind_run _ _ _ _ _ (eq_refl : LWIP_ACD_RAND rand s1 = Ok (u32 (rand (rands (upper s1))), s2))), bind_ret. rewrite (upd_acd_run s2 a c1 _ _ Ha) by apply lookup_put. done.
  - repeat split; try done; change (ac_ttw c2) with (u16 t); rewrite u16_id by lia; lia.
Qed.

Lemma uncontested note s a c ip : records note -> alone s a c -> ready s -> gives_next s 5 ->
  exists n s' c', (61 <= n <= 87)%nat /\ (acd_start a ip ;;; times n acd_tmr) s = Ok (tt, s') /\
    sent s' = sent s ++ replicate 3 (probe_frame (nif s) ip) ++ replicate 2 (announcement (nif s) ip) /\
    alone s' a c' /\ ac_state c' = ACD_STATE_ONGOING /\ ac_ipaddr c' = ip /\ above (upper s') = note (above (upper s)) (ac_user c) ACD_IP_OK.
Proof.
  intros Hnote Hal Hrd Hg. destruct (start_run s a c ip Hal) as (s0 & c0 & E0 & A0 & L0 & I0 & U0 & S0 & N0 & T0).
  destruct (probe_phase s0 a c0 4) as (s1 & c1 & E1 & A1 & R1 & G1 & L1 & I1 & U1 & P1); [apply A0|by eapply after_ready|by eapply after_gives|done|lia|by left|rewrite N0; done|].
  rewrite N0 in P1. change (0 =? PROBE_NUM - 1) with false in P1. destruct P1 as (S1 & N1 & T1).
  destruct (probe_phase s1 a c1 3) as (s2 & c2 & E2 & A2 & R2 & G2 & L2 & I2 & U2 & P2); [apply A1|done|done|done|lia|by right|rewrite N1; done|].
  rewrite N1 in P2. change (0 + 1 =? PROBE_NUM - 1) with false in P2. destruct P2 as (S2 & N2 & T2).
  destruct (probe_phase s2 a c2 2) as (s3 & c3 & E3 & A3 & R3 & G3 & L3 & I3 & U3 & P3); [apply A2|done|done|done|lia|by right|rewrite N2; done|].
  rewrite N2 in P3. change (0 + 1 + 1 =? PROBE_NUM - 1) with true in P3. destruct P3 as (S3 & N3 & T3).
  destruct (announce_phase s3 a c3 1) as (s4 & c4 & E4 & A4 & R4 & G4 & L4 & I4 & U4 & S4 & N4 & T4); [apply A3|done|done|done|done|done|done|].
  destruct (last_phase note s4 a c4 Hnote) as (s5 & c5 & E5 & X5 & A5 & S5 & I5 & U5); [apply A4|done|done|done|done|done|done|].
  pose proof (after_trans _ _ _ _ _ _ _ _ (after_trans _ _ _ _ _ _ _ _ (after_trans _ _ _ _ _ _ _ _ (after_trans _ _ _ _ _ _ _ _ A0 A1) A2) A3) A4) as A.
  set (n0 := S (Z.to_nat (ac_ttw c0 - 1))) in *. set (n1 := S (Z.to_nat (ac_ttw c1 - 1))) in *. set (n2 := S (Z.to_nat (ac_ttw c2 - 1))) in *.
  exists (n0 + (n1 + (n2 + (20 + 20))))%nat, s5, c5. split; [subst n0 n1 n2; lia|]. split; [|split].
  - rewrite (bind_run _ _ _ _ _ E0), (times_run _ _ _ _ _ E1), (times_run _ _ _ _ _ E2), (times_run _ _ _ _ _ E3), (times_run _ _ _ _ _ E4). exact E5.
  - rewrite X5, (af_sent _ _ _ _ _ A), (af_nif _ _ _ _ _ A), (af_nif _ _ _ _ _ A3), (af_nif _ _ _ _ _ A2), (af_nif _ _ _ _ _ A1), (af_nif _ _ _ _ _ A0), I4, I3, I2, I1, I0, <- !app_assoc. done.
  - split; [done|]. split; [done|]. split; [congruence|]. rewrite U5, (af_above _ _ _ _ _ A), U4, U3, U2, U1, U0. done.
Qed.

(** ** A conflict *)

(** While an address is probed, any ARP message from it, or a probe of another
    station for it, is a conflict. *)
Definition contested (n : netif_t) (c : acd) (shw : bytes) (sip dip : Z) : Prop :=
  sip = ac_ipaddr c \/ sip = IPADDR_ANY /\ dip = ac_ipaddr c /\ shw <> nf_hwaddr n.

Lemma conflict_while_probing note s a c opcode shw sip dhw dip : records note -> alone s a c -> (probing (ac_state c) \/ ac_state c = ACD_STATE_ANNOUNCE_WAIT) -> 0 <= ac_num_conflicts c < 255 ->
  length shw = 6%nat -> length dhw = 6%nat -> 0 <= sip < 2 ^ 32 -> 0 <= dip < 2 ^ 32 -> contested (nif s) c shw sip dip ->
  exists s' c', acd_arp_reply (arp_message opcode shw sip dhw dip) s = Ok (tt, s') /\ alone s' a c' /\ sent s' = sent s /\ mem s' = mem s /\
    let declined := note (above (upper s)) (ac_user c) ACD_DECLINE in
    if ac_num_conflicts c <? MAX_CONFLICTS - 1
    then ac_state c' = ACD_STATE_OFF /\ above (upper s') = note declined (ac_user c) ACD_RESTART_CLIENT
    else ac_state c' = ACD_STATE_RATE_LIMIT /\ ac_ttw c' = 600 /\ above (upper s') = declined.
Proof.
  intros Hnote Hal Hst Hnc L1 L2 Hs Hd Hcon. destruct (Hal) as (Ha & Hl & Hc & Hn). set (msg := arp_message _ _ _ _ _).
  set (c1 := c <| ac_num_conflicts := ac_num_conflicts c + 1 |>). set (s1 := put_acd s a c1).
  set (s2 := with_upper s1 ((upper s1) <| above := note (above (upper s1)) (ac_user c1) ACD_DECLINE |>)).
  assert (acds (upper s2) !! a = Some c1) as Hc2 by apply lookup_put.
  assert (forall s' c', (if MAX_CONFLICTS <=? ac_num_conflicts c1 then
      upd_acd a (fun c => c <| ac_state := ACD_STATE_RATE_LIMIT |> <| ac_ttw := u16 (RATE_LIMIT_INTERVAL * ACD_TICKS_PER_SECOND) |>)
      else acd_stop a ;;; callback a ACD_RESTART_CLIENT) s2 = Ok (tt, s') -> alone s' a c' -> acd_arp_reply msg s = Ok (tt, s')) as Hrun.
  { intros s' c' E (_ & _ & Hc' & Hn'). unfold Acd.acd_arp_reply. rewrite (bind_run _ _ _ _ _ (eq_refl : gets nif s = Ok (nif s, s))). cbv zeta.
    destruct (arp_fields opcode shw sip dhw dip L1 L2 Hs Hd) as (F1 & F2 & F3). fold msg in F1, F2, F3. rewrite F1, F2, F3.
    eapply (foreach_alone s a c); [done| |exact Hc'|done]. rewrite (get_acd_run _ _ _ _ Ha Hc).
    assert ((sip =? ac_ipaddr c) || (ip4_addr_isany_val sip && (dip =? ac_ipaddr c) && negb (bool_decide (nf_hwaddr (nif s) = shw))) = true) as ->.
    { destruct Hcon as [-> |(-> & -> & Hne)]; [by rewrite Z.eqb_refl|]. rewrite Z.eqb_refl, bool_decide_false by done. cbn. by rewrite orb_true_r. }
    assert (acd_restart conflict_callback a s = Ok (tt, s')) as Er; [|destruct Hst as [[-> | ->]| ->]; exact Er].
    unfold acd_restart. rewrite (upd_acd_run _ _ _ _ _ Ha Hc). cbv beta. rewrite (u8_id (ac_num_conflicts c + 1)) by (unfold byte_ok; lia). fold c1. unfold Acd.callback at 1.
    rewrite bind_assoc, (get_acd_run _ _ _ _ Ha (lookup_put _ _ _)), (bind_run _ _ _ _ _ (Hnote _ _ _)). fold s1. fold s2. by rewrite (get_acd_run _ _ _ _ Ha Hc2). }
  unfold MAX_CONFLICTS in *. change (ac_num_conflicts c1) with (ac_num_conflicts c + 1) in Hrun. destruct (ac_num_conflicts c <? 10 - 1) eqn:E; [apply Z.ltb_lt in E|apply Z.ltb_ge in E].
  - rewrite (proj2 (Z.leb_gt _ _)) in Hrun by lia. set (c3 := c1 <| ac_state := ACD_STATE_OFF |>). set (s3 := put_acd s2 a c3).
    set (s4 := with_upper s3 ((upper s3) <| above := note (above (upper s3)) (ac_user c3) ACD_RESTART_CLIENT |>)).
    assert (alone s4 a c3) as Hal4 by (split; [done|]; split; [done|]; split; [apply lookup_insert_eq|done]). exists s4, c3. split; [|done]. apply (Hrun _ c3); [|done].
    unfold acd_stop. rewrite (proj2 (Z.eqb_neq _ _) Ha). cbn [negb]. rewrite !bind_assoc, (upd_acd_run _ _ _ _ _ Ha Hc2), bind_ret. unfold Acd.callback.
    rewrite (get_acd_run _ _ _ _ Ha (lookup_put _ _ _)). apply Hnote.
  - rewrite (proj2 (Z.leb_le _ _)) in Hrun by lia. eexists _, _. split; [eapply Hrun; [by apply (upd_acd_end s2 a c1)|]; eapply (put_alone s2 a c1); [done|done]|].
    split; [eapply (put_alone s2 a c1); [done|done]|]. done.
Qed.
End Acd.
