(* ===== verification/NetProofs.v ===== *)
(** The theorems about lwIP below IP: packet buffers, checksums, framing, the
    receive path, address resolution and conflict detection. *)

From stdpp Require Import gmap.
From S2P Require Import Prelude Cmonad Cutils Heap Pbuf PbufProofs PbufChain PbufSearch Inet InetProofs Ethernet EthernetProofs Link Etharp EtharpProofs ArpProofs Acd AcdProofs.

(** ** A packet where its cells are unchanged *)

Lemma chain_ext h h' p l : (forall k, k ∈ l.*1 -> h' !! k = h !! k) -> chain h p l -> chain h' p l.
Proof.
  revert p. induction l as [|[q b] l IH]; intros p Hh Hc; [done|]. destruct Hc as (-> & Hq & Hb & Hc). split; [done|]. split; [done|].
  split; [rewrite Hh; [done|apply list_elem_of_here]|]. apply IH; [|done]. intros k Hk. apply Hh. by apply list_elem_of_further.
Qed.
Lemma packet_ext (m m' : lmem) p l : (forall k, k ∈ l.*1 -> pbs m' !! k = pbs m !! k) -> (forall k, k ∈ blocks l -> dat m' !! k = dat m !! k) ->
  packet m p l -> packet m' p l.
Proof. intros Hp Hd [H1 H2 H3 H4]. split; [by eapply chain_ext|by eapply cells_ext|done|done]. Qed.

(** A packet that nobody shares and that may wait where it is. *)
Definition plain (l : list (Z * pbuf)) : Prop :=
  Forall (fun x => pb_ref (snd x) = 1 /\ known_src (snd x) /\ PBUF_NEEDS_COPY (snd x) = false) l.
Lemma plain_releasable l : plain l -> releasable l.
Proof. intros Hl. eapply Forall_impl; [exact Hl|]. intros x (H1 & H2 & _). rewrite H1. split; [done|lia]. Qed.
Lemma plain_sole l : Forall (fun x => pb_ref (snd x) = 1) l -> sole l = l.
Proof. induction 1 as [|x l Hx Hl IH]; [done|]. cbn [sole]. by rewrite Hx, IH. Qed.

(** Taking a reference and giving it back. *)
Lemma free_ref (m : lmem) q b l : chain (pbs m) q ((q, b) :: l) -> pb_ref b = 1 -> known_src b -> releasable l ->
  pbuf_free q (put_cell m q (refd b)) = Ok (0, m).
Proof.
  intros Hc Hr Hk Hl. pose proof (chain_nodup _ _ _ Hc) as Hnd. apply NoDup_cons in Hnd as [Hni _]. destruct Hc as (_ & Hq & Hb & Hc).
  assert (pb_ref (refd b) = 2) as Er by (unfold refd; change (u8 (pb_ref b + 1) = 2); by rewrite Hr).
  assert (chain (pbs (put_cell m q (refd b))) q ((q, refd b) :: l)) as Hc'.
  { rewrite pbs_put. split; [done|]. split; [done|]. split; [apply lookup_insert_eq|]. by apply chain_insert. }
  rewrite (pbuf_free_run _ _ _ Hc'); [|constructor; [cbn [snd]; rewrite Er; split; [done|lia]|done]].
  unfold after_free, shared, src_count. cbn [sole snd]. rewrite Er. cbn [Z.eqb Pos.eqb length drop fmap list_fmap dels filter list_filter drop_ref].
  assert ((refd b) <| pb_ref := u8 (pb_ref (refd b) - 1) |> = b) as -> by (rewrite Er; destruct b; cbn in Hr; by subst).
  do 2 f_equal. rewrite pbs_put, insert_insert_eq, insert_id by done. unfold put_cell. destruct m. store_eq.
Qed.

(** ** Packet buffers *)

(** The store after start-up, and one with an environment that always has memory. *)
Definition fresh_store : lmem := mk_lmem ∅ ∅ PBUF_POOL_SIZE MEMP_NUM_PBUF 1 false 0 0.
Lemma fresh_store_ok : store_ok fresh_store.
Proof. by split. Qed.
Definition plenty : PbufEnv := {| stale := fun b i => u8 (b + i); mem_gives := fun _ => true; callback_ok := true |}.

(** What was written into a packet does not matter for its release. *)
Lemma after_free_written (m : lmem) (l : list (Z * pbuf)) d : sole l = l -> own l -> frame_dat (blocks l) (dat m) d -> after_free (m <| dat := d |>) l = after_free m l.
Proof.
  intros Hs Ho F. unfold after_free. rewrite Hs. change (dat (m <| dat := d |>)) with d. change (pbs (m <| dat := d |>)) with (pbs m).
  assert (dels d l.*1 = dels (dat m) l.*1) as ->; [|by destruct m]. apply map_eq. intros k. rewrite !lookup_dels. case_decide as D; [done|].
  apply (fr_out _ _ _ F). by rewrite (own_blocks _ Ho).
Qed.
Lemma pool_own l : Forall pool_cell l -> own l.
Proof. intros Hl. eapply Forall_impl; [exact Hl|]. by intros x (_ & _ & ? & _). Qed.

(** C15: a packet of [length data] bytes is allocated from the pool exactly when
    the pool has the elements it needs; filled by pbuf_take, every part of it is read
    back by pbuf_copy_partial, and pbuf_free returns all its elements: the store is
    again what it was, apart from the numbers of new blocks. *)
Theorem packet_lifecycle `{PbufEnv} (m : lmem) (layer : Z) (data : bytes) :
  let n := Z.of_nat (length data) in
  store_ok m -> layer ∈ layers -> 0 < n < 65536 -> pool_segments layer n <= pool_left m ->
  exists p m1 m2, pbuf_alloc layer n PBUF_POOL m = Ok (p, m1) /\ pool_left m1 = pool_left m - pool_segments layer n /\
    pbuf_take p (Some data) n m1 = Ok (ERR_OK, m2) /\
    (forall out len off, 0 <= len < 65536 -> 0 <= off < 65536 -> len <= Z.of_nat (length out) ->
       pbuf_copy_partial p (Some out) len off m2 =
         Ok ((Z.min len (Z.max 0 (n - off)), blit 0 (take (Z.to_nat len) (drop (Z.to_nat off) data)) out), m2)) /\
    pbuf_free p m2 = Ok (u8 (pool_segments layer n), m <| next_blk := next_blk m2 |>).
Proof.
  intros n Hs Hly Hn Hp. destruct (pbuf_alloc_pool_run m layer n Hs Hly ltac:(lia)) as [(_ & l & m1 & E & Hi & Hl)|[Hx _]]; [|lia].
  destruct (pool_inv_packet _ _ _ _ _ _ Hi ltac:(lia)) as (Hpk & Hown & Hsum). pose proof (so_next _ Hs) as Hnx.
  destruct (pbuf_take_run m1 (next_blk m) l data n Hpk Hown ltac:(unfold NULL; lia) ltac:(lia) ltac:(lia)) as (d & Et & F & C).
  rewrite (blit_all (take (Z.to_nat n) data)) in C by (pose proof (length_content _ _ (pk_cells _ _ _ Hpk)); rewrite length_take; lia). rewrite take_ge in C by lia.
  pose proof (frame_packet _ _ _ _ _ F Hpk) as Hpk2. exists (next_blk m), m1, (m1 <| dat := d |>). split; [done|]. split; [rewrite (pi_rest _ _ _ _ _ _ _ Hi), <- Hl; done|]. split; [done|]. split.
  - intros out len off H1 H2 H3. rewrite (pbuf_copy_partial_run _ _ _ _ _ _ Hpk2 H1 H2 H3), Hsum. change (dat (m1 <| dat := d |>)) with d. by rewrite C.
  - rewrite (pbuf_free_run _ _ _ (pk_chain _ _ _ Hpk2) (pool_releasable _ (pi_cells _ _ _ _ _ _ _ Hi))).
    rewrite (sole_all _ (pi_cells _ _ _ _ _ _ _ Hi)), Hl. do 2 f_equal. pose proof (pi_cells _ _ _ _ _ _ _ Hi) as Hcl.
    rewrite (after_free_written m1 l d (sole_all _ Hcl) (pool_own _ Hcl) F). apply (after_free_pool _ _ _ _ _ _ _ Hi Hs).
Qed.

Lemma packet_lifecycle_witness : let H := plenty in let data := repeat 7 1600 in
  exists p m1 m2, pbuf_alloc PBUF_TRANSPORT 1600 PBUF_POOL fresh_store = Ok (p, m1) /\ pool_left m1 = 510 /\
    pbuf_take p (Some data) 1600 m1 = Ok (ERR_OK, m2) /\
    (forall out len off, 0 <= len < 65536 -> 0 <= off < 65536 -> len <= Z.of_nat (length out) ->
       pbuf_copy_partial p (Some out) len off m2 =
         Ok ((Z.min len (Z.max 0 (1600 - off)), blit 0 (take (Z.to_nat len) (drop (Z.to_nat off) data)) out), m2)) /\
    pbuf_free p m2 = Ok (2, fresh_store <| next_blk := next_blk m2 |>).
Proof.
  exact (packet_lifecycle (H := plenty) fresh_store PBUF_TRANSPORT (repeat 7 1600) fresh_store_ok (list_elem_of_here _ _) (conj eq_refl eq_refl) ltac:(vm_compute; discriminate)).
Defined.

(** When the pool has too few elements pbuf_alloc returns NULL, gives back what
    it had taken, and asks the TCP layer to release out-of-order data, unless a
    request is already under way. *)
Theorem pool_exhausted `{PbufEnv} (m : lmem) (layer n : Z) :
  store_ok m -> layer ∈ layers -> 0 <= n < 65536 -> pool_left m < pool_segments layer n ->
  exists m', pbuf_alloc layer n PBUF_POOL m = Ok (NULL, m') /\ pbs m' = pbs m /\ dat m' = dat m /\ pool_left m' = pool_left m /\
    ooseq_calls m' = ooseq_calls m + (if ooseq_pending m then 0 else 1) /\ ooseq_pending m' = (ooseq_pending m || callback_ok).
Proof.
  intros Hs Hly Hn Hp. destruct (pbuf_alloc_pool_run m layer n Hs Hly Hn) as [(Hx & _)|[_ E]]; [lia|]. eexists. split; [exact E|].
  unfold out_of_pool. change (ooseq_pending (m <| next_blk := _ |>)) with (ooseq_pending m). destruct (ooseq_pending m) eqn:Ep; repeat split; try done.
  change (ooseq_calls m = ooseq_calls m + 0). lia.
Qed.
Lemma pool_exhausted_witness : let H := plenty in let m := fresh_store <| pool_left := 1 |> in
  exists m', pbuf_alloc PBUF_IP 1600 PBUF_POOL m = Ok (NULL, m') /\ pbs m' = ∅ /\ dat m' = ∅ /\ pool_left m' = 1 /\
    ooseq_calls m' = 1 /\ ooseq_pending m' = true.
Proof.
  refine (pool_exhausted (H := plenty) (fresh_store <| pool_left := 1 |>) PBUF_IP 1600 _ _ _ _); [by split|by apply list_elem_of_further, list_elem_of_here|lia|by vm_compute].
Defined.

(** [pbuf_cat] makes one packet of two, with the bytes of both in order; trimming
    it with pbuf_realloc to any shorter length keeps exactly that many bytes in front,
    so trimming to the old length gives the first packet back. *)
Theorem packet_join_trim (m : lmem) (h t : Z) (l1 l2 : list (Z * pbuf)) (n : Z) :
  packet m h l1 -> packet m t l2 -> h <> NULL -> t <> NULL -> own l1 -> own l2 -> releasable l1 -> releasable l2 ->
  (forall k, k ∈ l1.*1 -> k ∉ l2.*1) -> sum_len l1 + sum_len l2 < 65536 -> 0 <= n < sum_len l1 + sum_len l2 ->
  exists m1 m2 l l', pbuf_cat h t m = Ok (tt, m1) /\ packet m1 h l /\ content (dat m1) l = content (dat m) l1 ++ content (dat m) l2 /\
    pbuf_realloc h n m1 = Ok (tt, m2) /\ packet m2 h l' /\ content (dat m2) l' = take (Z.to_nat n) (content (dat m) l1 ++ content (dat m) l2).
Proof.
  intros H1 H2 Hh Ht O1 O2 R1 R2 Hd Hs Hn. destruct (exists_last (l := l1)) as (l & [r b] & ->); [intros ->; by destruct H1 as [-> _ _ _]|].
  pose proof (pbuf_cat_run m h l r b t l2 H1 H2 Ht Hd Hs) as E. pose proof (joined_packet m h l r b t l2 H1 H2 Hd Hs) as Hj.
  set (j := joined l r b t (sum_len l2)) in *. set (m1 := m <| pbs := _ |>) in *.
  assert (content (dat m1) (j ++ l2) = content (dat m) (l ++ [(r, b)]) ++ content (dat m) l2) as Hc.
  { subst j. unfold joined. by rewrite !content_app, content_longer. }
  assert (own (j ++ l2)) as Hown.
  { apply Forall_app_2; [|done]. apply Forall_app in O1 as [Oa Ob]. apply Forall_app_2; [by apply own_longer|]. by apply Forall_cons in Ob as [Ob _]; constructor. }
  assert (releasable (j ++ l2)) as Hrel.
  { apply Forall_app_2; [|done]. apply Forall_app in R1 as [Ra Rb]. apply Forall_app_2; [|by apply Forall_cons in Rb as [Rb _]; constructor].
    apply Forall_map. eapply Forall_impl; [exact Ra|]. by intros [k c]. }
  assert (sum_len (j ++ l2) = sum_len (l ++ [(r, b)]) + sum_len l2) as Hsum by (subst j; unfold joined; by rewrite !sum_len_app, sum_len_longer).
  destruct (pbuf_realloc_run m1 h (j ++ l2) n Hj Hrel ltac:(lia)) as (la & q & c & lb & rem & El & Hla & Hrem & Er).
  rewrite El in Hj, Hown, Hc, Er. destruct (trimmed_packet m1 h la q c lb rem Hj Hown Hrem) as (Hp & Hcc & _). rewrite Hla in Hp, Hcc. rewrite Hc in Hcc.
  eexists m1, _, _, _. split; [exact E|]. split; [exact Hj|]. split; [exact Hc|]. split; [exact Er|]. done.
Qed.

(** Two cells, each a packet. *)
Definition two_packets : lmem :=
  mk_lmem (<[1 := ram_cell 1 PBUF_RAW 4]> (<[2 := ram_cell 2 PBUF_RAW 3]> ∅)) (<[1 := repeat 1 100]> (<[2 := repeat 2 100]> ∅)) 512 1024 3 false 0 0.
Lemma two_packets_1 : packet two_packets 1 [(1, ram_cell 1 PBUF_RAW 4)].
Proof. split; [by repeat split|constructor; [split; [done|by exists (repeat 1 100)]|constructor]|done|done]. Qed.
Lemma two_packets_2 : packet two_packets 2 [(2, ram_cell 2 PBUF_RAW 3)].
Proof. split; [by repeat split|constructor; [split; [done|by exists (repeat 2 100)]|constructor]|done|done]. Qed.
Lemma ram_releasable q off n : releasable [(q, ram_cell q off n)].
Proof. constructor; [|constructor]. split; [by right; right|done]. Qed.

Lemma packet_join_trim_witness : exists m1 m2 l l', pbuf_cat 1 2 two_packets = Ok (tt, m1) /\ packet m1 1 l /\ content (dat m1) l = [1; 1; 1; 1; 2; 2; 2] /\
  pbuf_realloc 1 5 m1 = Ok (tt, m2) /\ packet m2 1 l' /\ content (dat m2) l' = [1; 1; 1; 1; 2].
Proof.
  exact (packet_join_trim two_packets 1 2 _ _ 5 two_packets_1 two_packets_2 ltac:(done) ltac:(done) ltac:(by constructor) ltac:(by constructor) (ram_releasable _ _ _) (ram_releasable _ _ _)
    ltac:(cbn; intros k ->%list_elem_of_singleton; by intros ?%list_elem_of_singleton) ltac:(done) ltac:(by cbn; lia)).
Defined.

(** ** Checksums *)

(** C16: the checksum that UDP and TCP use, computed over the cells of a packet with
    16-bit loads, byte swaps for odd cells and deferred carries, is stored in memory as
    the RFC 1071 checksum of the pseudo-header followed by the content of the packet,
    for every cutting into cells and every alignment. *)
Theorem checksum_rfc1071 `{Addresses} (m : lmem) (p : Z) (l : list (Z * pbuf)) (proto plen : Z) (src dest : bytes) :
  packet m p l -> bytes_of (dat m) l -> 0 <= proto < 256 -> 0 <= plen < 65536 -> length src = 4%nat -> length dest = 4%nat -> bytes_ok src -> bytes_ok dest ->
  exists c, inet_chksum_pseudo p proto plen (le_val src) (le_val dest) m = Ok (c, m) /\
    le_bytes 2 c = be_bytes 2 (rfc1071_checksum (pseudo_header src dest proto plen ++ content (dat m) l)).
Proof.
  intros Hp Hb Hpr Hpl Ls Ld Hs Hd. eexists. split; [by apply inet_chksum_pseudo_run|]. apply checksum_bytes, Forall_app_2; [by apply pseudo_header_ok|done].
Qed.
Lemma small_bytes n x : byte_ok x -> bytes_ok (repeat x n).
Proof. intros Hx. apply Forall_forall. by intros y ->%list_elem_of_In%repeat_spec. Qed.
Lemma checksum_rfc1071_witness : let H : Addresses := fun q => true in
  exists c, inet_chksum_pseudo 1 17 4 (le_val [192; 168; 1; 2]) (le_val [192; 168; 1; 1]) two_packets = Ok (c, two_packets) /\
    le_bytes 2 c = be_bytes 2 (rfc1071_checksum (pseudo_header [192; 168; 1; 2] [192; 168; 1; 1] 17 4 ++ [1; 1; 1; 1])).
Proof.
  exact (checksum_rfc1071 (H := fun q => true) two_packets 1 _ 17 4 [192; 168; 1; 2] [192; 168; 1; 1] two_packets_1 ltac:(by apply (small_bytes 4 1)) ltac:(lia) ltac:(lia) eq_refl eq_refl
    ltac:(by repeat constructor) ltac:(by repeat constructor)).
Defined.

(** A receiver that sums a packet whose checksum field holds what the sender
    computed with the field zero gets zero, however the two packets are cut into
    cells, as long as the field is at an even offset. *)
Theorem checksum_accepted `{Addresses} (m m' : lmem) (p p' : Z) (l l' : list (Z * pbuf)) (proto plen : Z) (src dest front back : bytes) :
  packet m p l -> packet m' p' l' -> bytes_ok front -> bytes_ok back -> Nat.Even (length front) ->
  0 <= proto < 256 -> 0 <= plen < 65536 -> length src = 4%nat -> length dest = 4%nat -> bytes_ok src -> bytes_ok dest ->
  content (dat m) l = front ++ [0; 0] ++ back ->
  exists c, inet_chksum_pseudo p proto plen (le_val src) (le_val dest) m = Ok (c, m) /\
    (content (dat m') l' = front ++ le_bytes 2 c ++ back -> inet_chksum_pseudo p' proto plen (le_val src) (le_val dest) m' = Ok (0, m')).
Proof.
  intros Hp Hp' Hf Hb He Hpr Hpl Ls Ld Hs Hd Hc. assert (bytes_ok [0; 0]) as H0 by (by repeat constructor).
  eexists. split; [apply inet_chksum_pseudo_run; try done; unfold bytes_of; rewrite Hc; by repeat apply Forall_app_2|]. rewrite Hc, (app_assoc (pseudo_header src dest proto plen) front ([0; 0] ++ back)). set (c := not16 _). intros Hc'.
  rewrite (inet_chksum_pseudo_run m' p' l'); try done; [|unfold bytes_of; rewrite Hc'; repeat apply Forall_app_2; [done|apply le_bytes_ok|done]]. rewrite Hc', (app_assoc (pseudo_header src dest proto plen) front).
  rewrite (checksum_zero (pseudo_header src dest proto plen ++ front) back c); [done|apply Forall_app_2; [by apply pseudo_header_ok|done]|done| |done].
  rewrite length_app. apply Nat.Even_Even_add; [|done]. unfold pseudo_header. rewrite !length_app, Ls, Ld, length_be_bytes. by exists 6%nat.
Qed.
Definition zero_field : lmem := two_packets <| dat := <[1 := repeat 0 100]> (dat two_packets) |>.
Lemma zero_field_packet : packet zero_field 1 [(1, ram_cell 1 PBUF_RAW 4)].
Proof. split; [by repeat split|constructor; [split; [done|by exists (repeat 0 100)]|constructor]|done|done]. Qed.
Definition filled_field : lmem := two_packets <| dat := <[1 := repeat 0 (Z.to_nat PBUF_RAW) ++ [0x7c; 0x96] ++ repeat 0 50]> (dat two_packets) |>.
Lemma filled_field_packet : packet filled_field 1 [(1, ram_cell 1 PBUF_RAW 4)].
Proof. split; [by repeat split|constructor; [split; [done|by eexists]|constructor]|done|done]. Qed.
Lemma checksum_accepted_witness : let H : Addresses := fun q => false in
  let chksum := inet_chksum_pseudo 1 17 4 (le_val [192; 168; 1; 2]) (le_val [192; 168; 1; 1]) in
  chksum zero_field = Ok (0x967c, zero_field) /\ content (dat filled_field) [(1, ram_cell 1 PBUF_RAW 4)] = le_bytes 2 0x967c ++ [0; 0] /\
  chksum filled_field = Ok (0, filled_field).
Proof.
  destruct (checksum_accepted (H := fun q => false) zero_field filled_field 1 1 _ _ 17 4 [192; 168; 1; 2] [192; 168; 1; 1] [] [0; 0] zero_field_packet filled_field_packet
    ltac:(constructor) ltac:(by repeat constructor) ltac:(by exists 0%nat) ltac:(lia) ltac:(lia) eq_refl eq_refl ltac:(by repeat constructor) ltac:(by repeat constructor) eq_refl) as (c & E & Hk).
  assert (c = 0x967c) as -> by (vm_compute in E; congruence). split; [exact E|]. split; [by vm_compute|]. apply Hk. by vm_compute.
Defined.

(** ** From one station to another *)

Section Stations.
Context `{PbufEnv} {U W : Type} (ip4_input etharp_input : Z -> M (stack W) unit).
Implicit Types (s : stack U) (r : stack W).

(** The frame that ethernet_output hands to the driver for a packet of one cell
    with at most 1408 bytes, received by another station, is given to IP or ARP as its
    type says, without the header and with its bytes unchanged. *)
Theorem link_roundtrip s r p b src dst eth_type (f : Z -> M (stack W) unit) :
  packet (mem s) p [(p, b)] -> contiguous_type b -> SIZEOF_ETH_HDR <= poff (pb_payload b) -> 0 < pb_len b <= first_room - SIZEOF_ETH_HDR ->
  length src = 6%nat -> length dst = 6%nat -> (eth_type = ETHTYPE_IP /\ f = ip4_input \/ eth_type = ETHTYPE_ARP /\ f = etharp_input) ->
  store_ok (mem r) -> 1 <= pool_left (mem r) -> Z.land (nf_flags (nif r)) NETIF_FLAG_ETHARP <> 0 ->
  exists s' frame q c m, ethernet_output p src dst eth_type s = Ok (ERR_OK, s') /\ sent s' = sent s ++ [frame] /\
    receive_frame ip4_input etharp_input frame r = (f q ;;; ret tt) (with_mem r m) /\
    packet m q [(q, c)] /\ content (dat m) [(q, c)] = cell_data (dat (mem s)) b.
Proof.
  intros Hp Hct Hoff Hlen Hsrc Hdst Hf Hs Hpool Hfl. change (first_room - SIZEOF_ETH_HDR) with 1408 in Hlen.
  assert (0 <= eth_type < 65536) as Hty by (destruct Hf as [[-> _]|[-> _]]; done). destruct (packet_head _ _ _ _ _ Hp) as (_ & _ & _ & Hc & _). pose proof (length_cell _ _ Hc) as Hlc.
  destruct (ethernet_output_run s p b [] src dst eth_type Hp Hct Hoff) as (d & E & _); [cbn [sum_len snd]; change SIZEOF_ETH_HDR with 24; lia|done|done|done|change SIZEOF_ETH_HDR with 24; change DATA_BUF_LEN with 1536; lia|].
  set (hdr := eth_header src dst (pb_len b + 10) eth_type) in E. set (rest := cell_data (dat (mem s)) b) in *. pose proof (length_eth_header src dst (pb_len b + 10) eth_type Hsrc Hdst) as Lh. fold hdr in Lh.
  assert (Z.of_nat (length (hdr ++ rest)) = 24 + pb_len b) as Lf by (rewrite length_app; lia).
  assert (pool_segments PBUF_IP (Z.of_nat (length (hdr ++ rest))) = 1) as Hseg by (rewrite Lf; unfold pool_segments; change PBUF_POOL_BUFSIZE_ALIGNED with 1516; change PBUF_IP with 84; zdm).
  destruct (receive_frame_run ip4_input etharp_input r hdr rest eth_type f) as (c & l & m & Er & Hpm & _ & Hl & _ & Hcont & _); try done.
  { intros E0. rewrite E0 in Hlc. cbn in Hlc. lia. }
  { rewrite Lf. change (DATA_BUF_LEN - 6) with 1530. lia. }
  { lia. }
  { subst hdr. unfold eth_header. rewrite !app_assoc, drop_app_length'; [done|]. rewrite !length_app, Hsrc, Hdst, length_be_bytes. done. }
  destruct l; [|cbn [length] in Hl; lia]. eexists _, (hdr ++ rest), _, c, m. split; [exact E|]. split; [done|]. split; [exact Er|]. split; [exact Hpm|].
  rewrite Hcont, Lf. change first_room with 1432. replace (Z.to_nat (24 + pb_len b - 1432)) with 0%nat by lia. rewrite app_nil_r. apply take_ge. lia.
Qed.

(** C39: of a frame longer than 1432 bytes only the first buffer is filled: what IP
    gets is the first 1408 bytes behind the header followed by whatever the second
    buffer of the pool held before. *)
Theorem long_frame_tail_lost r hdr rest eth_type (f : Z -> M (stack W) unit) :
  let len := Z.of_nat (length (hdr ++ rest)) in
  length hdr = 24%nat -> first_room < len <= DATA_BUF_LEN - 6 -> drop 22 hdr = be_bytes 2 eth_type ->
  (eth_type = ETHTYPE_IP /\ f = ip4_input \/ eth_type = ETHTYPE_ARP /\ f = etharp_input) ->
  store_ok (mem r) -> 2 <= pool_left (mem r) -> Z.land (nf_flags (nif r)) NETIF_FLAG_ETHARP <> 0 ->
  exists q l m, receive_frame ip4_input etharp_input (hdr ++ rest) r = (f q ;;; ret tt) (with_mem r m) /\ packet m q l /\
    content (dat m) l = take 1408 rest ++ stale_bytes (q + 1) (Z.to_nat (len - first_room)).
Proof.
  intros len Hh Hlen Hty Hf Hs Hpool Hfl. change first_room with 1432 in *. change (DATA_BUF_LEN - 6) with 1530 in Hlen.
  destruct (receive_frame_run ip4_input etharp_input r hdr rest eth_type f) as (c & l & m & Er & Hpm & _ & _ & _ & Hcont & _); try done.
  - intros ->. subst len. rewrite app_nil_r, Hh in Hlen. lia.
  - fold len. change (DATA_BUF_LEN - 6) with 1530. lia.
  - fold len. unfold pool_segments. change PBUF_POOL_BUFSIZE_ALIGNED with 1516. change PBUF_IP with 84. zdm.
  - eexists _, _, m. split; [exact Er|]. split; [exact Hpm|]. exact Hcont.
Qed.
End Stations.

(** ** Address resolution *)

Section Resolution.
Context `{PbufEnv} {V : Type} (conflict_callback : Z -> acd_callback -> M (stack (acd_net V)) unit) (ip4_input : Z -> M (stack (acd_net V)) unit).
Implicit Types s : stack (acd_net V).

(** The question and the answer. *)
Definition arp_question (n : netif_t) (ip : Z) : bytes := arp_frame (nf_hwaddr n) ethbroadcast (arp_message ARP_REQUEST (nf_hwaddr n) (nf_ip n) ethzero ip).
Definition arp_answer (n : netif_t) (ip : Z) (mac : bytes) : bytes := eth_header mac (nf_hwaddr n) 38 ETHTYPE_ARP ++ arp_message ARP_REPLY mac ip (nf_hwaddr n) (nf_ip n).

(** The interface and the packet [q] of a sender: one cell, no longer than a slot of
    the ring to the ARM7 holds with the header (LWIP_NETIF_TX_SINGLE_PBUF is 1). *)
Definition able_to_send s (q : Z) (b : pbuf) : Prop :=
  store_ok (mem s) /\ length (nf_hwaddr (nif s)) = 6%nat /\ packet (mem s) q [(q, b)] /\ plain [(q, b)] /\
  contiguous_type b /\ SIZEOF_ETH_HDR <= poff (pb_payload b) /\ pb_len b + SIZEOF_ETH_HDR <= DATA_BUF_LEN.
(** Nothing is known of [hop], and there is a free entry for it. *)
Definition unknown (t : list etharp_entry) (hop : Z) : Prop := no_match (Some hop) t 10 /\ exists j e, t !! j = Some e /\ ~ live e.

(** The packet waits. *)
Lemma output_waits s a hop q b : able_to_send s q b -> table_ok (arp_table s) -> unknown (arp_table s) hop -> unicast (nif s) a -> next_hop (nif s) a = Some hop -> unicast (nif s) hop ->
  mem_gives (mallocs (mem s)) = true ->
  exists i, 0 <= i < 10 /\ arp_table s !! Z.to_nat i = Some empty_entry /\
    (etharp_output q a ;;; onmem (pbuf_free q)) s = Ok (0, send (with_table s (<[Z.to_nat i := waiting hop q]> (arp_table s))) (bumped (mem s)) (arp_question (nif s) hop)).
Proof.
  intros (Hs & Hhw & Hp & Hpl & Hct & Hoff & Hfit) Ht [Hn He] Ha Hh Hu Hm. pose proof Hpl as Hpl'. apply Forall_cons in Hpl as [(Hr & Hk & _) Hpl]. cbn [snd] in *.
  destruct (query_new_run s hop q b [] Hs Ht Hn He Hu Hhw Hm (pk_chain _ _ _ Hp)) as (i & Hi & Ei & Eq).
  { eapply Forall_impl; [exact Hpl'|]. by intros x (_ & _ & ?). }
  exists i. split; [done|]. split; [done|]. rewrite <- (output_new_run s a hop q Ht Hn Ha Hh) in Eq. rewrite (bind_run _ _ _ _ _ Eq).
  set (s1 := send _ _ _). assert (pbuf_free q (mem s1) = Ok (0, bumped (mem s))) as Ef by (apply (free_ref (bumped (mem s)) q b []); [apply (pk_chain _ _ _ Hp)|done|done|by apply plain_releasable]).
  unfold onmem, zoom. rewrite Ef. do 2 f_equal.
Qed.

(** C6: a packet of one buffer for an address whose next hop nobody knows makes the interface ask
    for it by broadcast; the packet waits although the sender releases it, and when the
    answer arrives from the card it is sent to the address learnt, as it was, and all
    its memory is released; the table then holds the address. *)
Theorem arp_resolution s a hop q b mac : able_to_send s q b -> table_ok (arp_table s) -> unknown (arp_table s) hop -> unicast (nif s) a -> next_hop (nif s) a = Some hop -> unicast (nif s) hop ->
  0 <= hop < 2 ^ 32 -> 0 <= nf_ip (nif s) < 2 ^ 32 -> length mac = 6%nat -> Z.land (nf_flags (nif s)) NETIF_FLAG_ETHARP <> 0 -> acd_list (upper s) = NULL ->
  mem_gives (mallocs (mem s)) = true -> 1 <= pool_left (mem s) ->
  exists s', (etharp_output q a ;;; onmem (pbuf_free q) ;;; receive_frame ip4_input (etharp_input (acd_arp_reply conflict_callback)) (arp_answer (nif s) hop mac)) s = Ok (tt, s') /\
    sent s' = sent s ++ [arp_question (nif s) hop; eth_header (nf_hwaddr (nif s)) mac (pb_len b + 10) ETHTYPE_IP ++ cell_data (dat (mem s)) b] /\
    (exists i, arp_table s' = <[i := resolved hop mac]> (arp_table s) /\ (i < 10)%nat) /\ nif s' = nif s /\ upper s' = upper s /\
    forall k, k ∈ [(q, b)].*1 -> pbs (mem s') !! k = None.
Proof.
  intros Hable Ht Hunk Ha Hh Hu Hhop Hip Hmac Hfl Hacd Hm Hpool. destruct (output_waits s a hop q b Hable Ht Hunk Ha Hh Hu Hm) as (i & Hi & Ei & E1).
  destruct Hable as (Hs & Hhw & Hp & Hpl & Hct & Hoff & Hfit). rewrite <- (bind_assoc (etharp_output q a) (fun _ => onmem (pbuf_free q))). rewrite (bind_run _ _ _ _ _ E1). set (s1 := send _ _ _).
  set (msg := arp_message ARP_REPLY mac hop (nf_hwaddr (nif s)) (nf_ip (nif s))). pose proof (length_arp_message ARP_REPLY mac hop (nf_hwaddr (nif s)) (nf_ip (nif s)) Hmac Hhw) as Lm. fold msg in Lm.
  pose proof (length_eth_header mac (nf_hwaddr (nif s)) 38 ETHTYPE_ARP Hmac Hhw) as Lh. unfold arp_answer. fold msg. set (hdr := eth_header _ _ _ _) in *.
  assert (length (hdr ++ msg) = 52%nat) as Lf by (rewrite length_app; lia). assert (pool_segments PBUF_IP (Z.of_nat (length (hdr ++ msg))) = 1) as Hseg by (by rewrite Lf).
  destruct (receive_frame_run ip4_input (etharp_input (acd_arp_reply conflict_callback)) s1 hdr msg ETHTYPE_ARP (etharp_input (acd_arp_reply conflict_callback))) as (c & l' & m & Er & Hpc & Hcells & Hlen & Hold & Hcont & _);
    [by apply bumped_ok|done|by intros E; rewrite E in Lm|rewrite Lf; done|by rewrite Hseg|done| |by right|].
  { subst hdr. unfold eth_header. rewrite !app_assoc, drop_app_length'; [done|]. rewrite !length_app, Hmac, Hhw, length_be_bytes. done. }
  rewrite Hseg in Hlen. destruct l' as [|]; [|cbn in Hlen; lia]. set (p := next_blk (mem s1)) in *. rewrite Er. assert (p = next_blk (mem s) + 1) as Ep by done.
  rewrite Lf in Hcont. cbn [content map concat snd] in Hcont. change (Z.to_nat (Z.of_nat 52 - first_room)) with 0%nat in Hcont. rewrite take_ge in Hcont by (rewrite Lm; by apply Nat.leb_le).
  change (stale_bytes (p + 1) 0) with (@nil Z) in Hcont. assert (forall k, k ∈ [(q, b)].*1 -> k < next_blk (mem s)) as Hk1 by (by eapply chain_below; [|apply Hp]).
  assert (forall k, k ∈ blocks [(q, b)] -> k < next_blk (mem s)) as Hk2 by (by eapply cells_below; [|apply Hp]).
  assert (packet m q [(q, b)]) as Hpm.
  { eapply (packet_ext (mem s)); [| |done]; intros k Hk; [specialize (Hk1 k Hk)|specialize (Hk2 k Hk)]; apply (Hold k); lia. }
  apply Forall_cons in Hcells as [(C1 & C2 & C3) _]. cbn [snd fst] in *.
  assert (releasable [(p, c)]) as Hrc.
  { constructor; [|done]. cbn [snd]. rewrite C2. split; [|lia]. left. unfold pbuf_get_allocsrc. by rewrite C1. }
  assert (p ∉ [(q, b)].*1) as Hpn by (intros Hk%Hk1; lia). rewrite app_nil_r in Hcont. destruct (packet_head _ _ _ _ _ Hpc) as (_ & _ & _ & _ & _).
  assert (Hcell : cell_data (dat m) b = cell_data (dat (mem s)) b).
  { assert (pblk (pb_payload b) < p) as Hb by (specialize (Hk2 (pblk (pb_payload b)) ltac:(apply list_elem_of_here)); lia).
    unfold cell_data. by rewrite (proj2 (Hold _ Hb)). }
  destruct (reply_run (acd_arp_reply conflict_callback) (with_mem s1 m) p c i (waiting hop q) q b [] hop mac (nf_hwaddr (nif s)) (nf_ip (nif s)) []) as (d & E2 & F); try done.
  { apply table_ok_new with hop; [done|apply Hunk|done|done]. }
  { apply list_lookup_insert_eq. rewrite (to_len _ Ht). lia. }
  { lia. }
  { cbn [sum_len snd]. unfold DATA_BUF_LEN in Hfit. lia. }
  { by apply plain_releasable. }
  { by apply arp_reply_quiet. }
  rewrite (bind_run _ _ _ _ _ E2). eexists. split; [reflexivity|]. split; [|split; [|split; [done|split; [done|]]]].
  - rewrite <- Hcell. symmetry. apply (app_assoc (sent s) [arp_question (nif s) hop]).
  - exists (Z.to_nat i). split; [|lia]. apply (list_insert_insert_eq (arp_table s)).
  - intros k Hk. set (b' := moved b (- SIZEOF_ETH_HDR)). set (m1 := after_output m q b d). change (pbs (after_free (after_free m1 [(q, b')]) [(p, c)]) !! k = None).
    rewrite after_free_pbs by (intros ->%list_elem_of_singleton; done). apply (after_free_gone m1 q).
    + pose proof (pk_chain _ _ _ Hpm) as Hc. pose proof (chain_nodup _ _ _ Hc) as Hnd. apply NoDup_cons in Hnd as [Hnin _]. destruct Hc as (_ & Hq0 & _ & Hc).
      split; [done|]. split; [done|]. split; [apply lookup_insert_eq|]. by apply chain_insert.
    + rewrite plain_sole; [done|]. apply Forall_cons in Hpl as [(Hr & _) Hpl]. constructor; [done|]. eapply Forall_impl; [exact Hpl|]. by intros x [? _].
Qed.
End Resolution.


(** ** The table along any run *)

Section Reachable.
Context `{PbufEnv} {V : Type} (rand : nat -> Z) (conflict_callback : Z -> acd_callback -> M (stack (acd_net V)) unit).
Context (callback_keeps : forall user st, keeps (conflict_callback user st)).
Implicit Types s : stack (acd_net V).

Lemma get_acd_keeps a : keeps (get_acd (V := V) a).
Proof. apply keeps_same. intros s. unfold wlp, get_acd. destruct (a =? NULL); [done|]. by destruct (acds (upper s) !! a). Qed.
Lemma upd_acd_keeps a f : keeps (upd_acd (V := V) a f).
Proof. apply keeps_bind; [apply get_acd_keeps|]. intros c. apply keeps_same. by apply pres_modify. Qed.
Lemma callback_run_keeps a st : keeps (callback conflict_callback a st).
Proof. apply keeps_bind; [apply get_acd_keeps|]. intros c. apply callback_keeps. Qed.
Lemma keeps_ret {A} (x : A) : keeps (ret (S := stack (acd_net V)) x).
Proof. intros s Ht. by apply wlp_ret. Qed.
Lemma raw_keeps a b c d e f g : keeps (etharp_raw (U := acd_net V) a b c d e f g).
Proof. apply keeps_same, same_net_raw. Qed.
Lemma keeps_gets {A} (g : stack (acd_net V) -> A) : keeps (gets g).
Proof. intros s Ht. by apply wlp_gets. Qed.
Lemma rand_keeps : keeps (LWIP_ACD_RAND (V := V) rand).
Proof. intros s Ht. exact Ht. Qed.

(** Walks through the code of a handler. *)
Ltac keeps_walk := repeat lazymatch goal with
  | |- keeps (bind _ _) => apply keeps_bind; [|intros ?]
  | |- keeps (ret _) => apply keeps_ret
  | |- keeps (gets _) => apply keeps_gets
  | |- keeps (get_acd _) => apply get_acd_keeps
  | |- keeps (upd_acd _ _) => apply upd_acd_keeps
  | |- keeps (callback _ _ _) => apply callback_run_keeps
  | |- keeps (etharp_raw _ _ _ _ _ _ _) => apply raw_keeps
  | |- keeps (LWIP_ACD_RAND _) => apply rand_keeps
  | |- keeps (if ?b then _ else _) => destruct b
  | |- keeps (match ?x with _ => _ end) => destruct x
  end.

Lemma foreach_keeps body : (forall a, keeps (body a)) -> keeps (ACD_FOREACH (V := V) body).
Proof.
  intros Hb. apply keeps_bind; [apply keeps_gets|]. intros k. apply keeps_bind; [apply keeps_gets|].
  induction k as [|k IH]; intros a; [by intros s Ht|]. cbn [foreach_acd]. destruct (a =? NULL); [apply keeps_ret|]. apply keeps_bind; [apply Hb|]. intros _. apply keeps_bind; [apply get_acd_keeps|]. intros c. apply IH.
Qed.
Lemma acd_stop_keeps a : keeps (acd_stop (V := V) a).
Proof. unfold acd_stop. keeps_walk. Qed.
Lemma acd_restart_keeps a : keeps (acd_restart conflict_callback a).
Proof. unfold acd_restart. keeps_walk. apply acd_stop_keeps. Qed.
Lemma handle_conflict_keeps a : keeps (acd_handle_arp_conflict conflict_callback a).
Proof. unfold acd_handle_arp_conflict, etharp_acd_announce. keeps_walk; [apply acd_stop_keeps|apply acd_restart_keeps]. Qed.
Lemma acd_reply_keeps h : keeps (acd_arp_reply conflict_callback h).
Proof.
  unfold acd_arp_reply. apply keeps_bind; [apply keeps_gets|]. intros n. apply foreach_keeps. intros a.
  keeps_walk; first [apply acd_restart_keeps | apply handle_conflict_keeps].
Qed.
Lemma acd_tmr_keeps : keeps (acd_tmr rand conflict_callback).
Proof.
  apply foreach_keeps. intros a. unfold tmr_acd, tmr_probe, tmr_announce, etharp_acd_probe, etharp_acd_announce, ACD_RANDOM_PROBE_INTERVAL. keeps_walk. apply acd_stop_keeps.
Qed.

(** What can happen to the stack: the entry points of ARP, the timers, and
    anything else that leaves the table alone. *)
Inductive arp_step : stack (acd_net V) -> stack (acd_net V) -> Prop :=
| step_output q a s r s' : hint_ok (nif s) -> etharp_output q a s = Ok (r, s') -> arp_step s s'
| step_query q a s r s' : etharp_query a q s = Ok (r, s') -> arp_step s s'
| step_input p s s' : etharp_input (acd_arp_reply conflict_callback) p s = Ok (tt, s') -> arp_step s s'
| step_timer s s' : etharp_tmr s = Ok (tt, s') -> arp_step s s'
| step_acd_timer s s' : acd_tmr rand conflict_callback s = Ok (tt, s') -> arp_step s s'
| step_cleanup s s' : etharp_cleanup_netif s = Ok (tt, s') -> arp_step s s'
| step_other s s' : arp_table s' = arp_table s -> arp_step s s'.

Lemma step_keeps s s' : arp_step s s' -> table_ok (arp_table s) -> table_ok (arp_table s').
Proof.
  intros Hs Ht. assert (forall A (m : M (stack (acd_net V)) A) x, wlp m (fun _ s' => table_ok (arp_table s')) s -> m s = Ok (x, s') -> table_ok (arp_table s')) as Hw.
  { intros A m x Hm E. unfold wlp in Hm. by rewrite E in Hm. }
  destruct Hs; [eapply Hw; [by apply output_keeps|done]|eapply Hw; [by apply query_keeps|done]|eapply Hw; [by apply input_keeps; [apply acd_reply_keeps|]|done]
    |eapply Hw; [by apply tmr_keeps|done]|eapply Hw; [by apply acd_tmr_keeps|done]|eapply Hw; [by apply cleanup_keeps|done]|congruence].
Qed.

(** C17: from an empty table, whatever packets, messages and timer ticks come, the
    ARP table has one entry at most for an address, a resolved entry has no packet
    waiting and is younger than ARP_MAXAGE, a pending one is younger than
    ARP_MAXPENDING, and a free entry is all clear. *)
Theorem arp_table_invariant s s' : arp_table s = repeat empty_entry 10 -> rtc arp_step s s' ->
  length (arp_table s') = 10%nat /\ unique_ip (arp_table s') /\ Forall entry_ok (arp_table s').
Proof.
  intros E Hr. assert (table_ok (arp_table s)) as Ht by (rewrite E; apply empty_table_ok). clear E.
  induction Hr as [s|s s1 s' Hst _ IH]; [by destruct Ht|]. apply IH. by eapply step_keeps.
Qed.
End Reachable.

(** ** Address conflicts *)

Section Conflicts.
Context `{PbufEnv} {V : Type} (rand : nat -> Z) (conflict_callback : Z -> acd_callback -> M (stack (acd_net V)) unit) (note : V -> Z -> acd_callback -> V).
Implicit Types s : stack (acd_net V).

(** C36: after acd_start an address that nobody contests is probed three times and
    announced twice, with pauses drawn at random, and within 61 to 87 ticks of the
    timer the user of the module is told once that it may be used. *)
Theorem acd_accepts_address s a c ip : records conflict_callback note -> alone s a c -> ready s -> gives_next s 5 ->
  exists n s' c', (61 <= n <= 87)%nat /\ (acd_start rand a ip ;;; times n (acd_tmr rand conflict_callback)) s = Ok (tt, s') /\
    sent s' = sent s ++ replicate 3 (probe_frame (nif s) ip) ++ replicate 2 (announcement (nif s) ip) /\
    alone s' a c' /\ ac_state c' = ACD_STATE_ONGOING /\ ac_ipaddr c' = ip /\ above (upper s') = note (above (upper s)) (ac_user c) ACD_IP_OK.
Proof. apply uncontested. Qed.

(** While an address is probed, an ARP message from it or another station's probe
    for it makes the module decline the address and restart its user; from the tenth
    conflict on it only declines and pauses for a minute. *)
Theorem acd_gives_up s a c opcode shw sip dhw dip : records conflict_callback note -> alone s a c -> (probing (ac_state c) \/ ac_state c = ACD_STATE_ANNOUNCE_WAIT) ->
  0 <= ac_num_conflicts c < 255 -> length shw = 6%nat -> length dhw = 6%nat -> 0 <= sip < 2 ^ 32 -> 0 <= dip < 2 ^ 32 -> contested (nif s) c shw sip dip ->
  exists s' c', acd_arp_reply conflict_callback (arp_message opcode shw sip dhw dip) s = Ok (tt, s') /\ alone s' a c' /\ sent s' = sent s /\ mem s' = mem s /\
    let declined := note (above (upper s)) (ac_user c) ACD_DECLINE in
    if ac_num_conflicts c <? MAX_CONFLICTS - 1
    then ac_state c' = ACD_STATE_OFF /\ above (upper s') = note declined (ac_user c) ACD_RESTART_CLIENT
    else ac_state c' = ACD_STATE_RATE_LIMIT /\ ac_ttw c' = 600 /\ above (upper s') = declined.
Proof. apply conflict_while_probing. Qed.
End Conflicts.

(** ** Witnesses: a station 192.168.1.2/24 with gateway 192.168.1.1 *)

Definition mac_a : bytes := [0; 0x1F; 0x32; 1; 2; 3].
Definition mac_b : bytes := [0x10; 0x20; 0x30; 4; 5; 6].
Definition station : netif_t := mk_netif mac_a 0x0201A8C0 0x00FFFFFF 0x0101A8C0 0x3F 0 None.
Definition one_packet : lmem :=
  mk_lmem (<[1 := ram_cell 1 PBUF_IP 4]> ∅) (<[1 := repeat 0xC5 100]> ∅) 512 1024 2 false 0 0.
Lemma one_packet_packet : packet one_packet 1 [(1, ram_cell 1 PBUF_IP 4)].
Proof. split; [by repeat split|constructor; [split; [done|by exists (repeat 0xC5 100)]|constructor]|done|done]. Qed.
Lemma one_packet_ok : store_ok one_packet.
Proof. split; [done| | |done]; intros k Hk; cbn in Hk |- *; rewrite lookup_insert_ne by lia; done. Qed.
Definition demo_host {V} (v : V) : stack (acd_net V) := mk_stack one_packet (repeat empty_entry 10) station [] (mk_acd_net ∅ NULL 0 v).
Lemma demo_host_able {V} (v : V) : able_to_send (demo_host v) 1 (ram_cell 1 PBUF_IP 4).
Proof.
  split; [exact one_packet_ok|]. split; [done|]. split; [exact one_packet_packet|]. split; [|by vm_compute].
  constructor; [|constructor]. split; [done|]. split; [by right; right|done].
Qed.
Lemma empty_unknown hop : unknown (repeat empty_entry 10) hop.
Proof.
  split; [|exists 0%nat, empty_entry; split; [done|]; unfold live; naive_solver].
  intros j e _ He Hl. apply list_elem_of_lookup_2, list_elem_of_In, repeat_spec in He. by subst.
Qed.

(** 8.8.8.8 is reached through the gateway. *)
Lemma arp_resolution_witness : let H := plenty in
  exists s', (etharp_output 1 0x08080808 ;;; onmem (pbuf_free 1) ;;; receive_frame (fun _ => ret tt) (etharp_input (acd_arp_reply (fun _ _ => ret tt))) (arp_answer station 0x0101A8C0 mac_b)) (demo_host tt) = Ok (tt, s') /\
    sent s' = [arp_question station 0x0101A8C0; eth_header mac_a mac_b 14 ETHTYPE_IP ++ [0xC5; 0xC5; 0xC5; 0xC5]] /\
    (exists i, arp_table s' = <[i := resolved 0x0101A8C0 mac_b]> (repeat empty_entry 10) /\ (i < 10)%nat) /\ nif s' = station /\ upper s' = mk_acd_net ∅ NULL 0 tt /\
    forall k, k ∈ [1] -> pbs (mem s') !! k = None.
Proof.
  exact (arp_resolution (H := plenty) (fun _ _ => ret tt) (fun _ => ret tt) (demo_host tt) 0x08080808 0x0101A8C0 1 (ram_cell 1 PBUF_IP 4) mac_b
    (demo_host_able tt) empty_table_ok (empty_unknown _) ltac:(by vm_compute) eq_refl ltac:(by vm_compute) ltac:(lia) ltac:(by vm_compute) eq_refl ltac:(by vm_compute) eq_refl eq_refl ltac:(by vm_compute)).
Defined.

(** A request that waits, and two seconds. *)
Lemma arp_table_invariant_witness : let H := plenty in
  match (etharp_query 0x0101A8C0 NULL ;;; etharp_tmr ;;; etharp_tmr) (demo_host tt) with
  | Ok (_, s') => length (arp_table s') = 10%nat /\ unique_ip (arp_table s') /\ Forall entry_ok (arp_table s') /\
      arp_table s' !! 0%nat = Some ((waiting 0x0101A8C0 NULL) <| ar_ctime := 2 |>)
  | _ => False
  end.
Proof.
  assert (forall s', rtc (@arp_step plenty unit (fun _ => 0) (fun _ _ => ret tt)) (demo_host tt) s' ->
    length (arp_table s') = 10%nat /\ unique_ip (arp_table s') /\ Forall entry_ok (arp_table s')) as Hinv
    by (intros s'; exact (@arp_table_invariant plenty unit (fun _ => 0) (fun _ _ => ret tt) (fun _ _ s Ht => Ht) (demo_host tt) s' eq_refl)).
  cbv zeta. unfold bind. destruct (@etharp_query plenty (acd_net unit) 0x0101A8C0 NULL (demo_host tt)) as [[r s1]| |] eqn:E1; [|by vm_compute in E1|by vm_compute in E1].
  destruct (@etharp_tmr plenty (acd_net unit) s1) as [[[] s2]| |] eqn:E2; [|exfalso; vm_compute in E1; injection E1 as <- <-; by vm_compute in E2..].
  destruct (@etharp_tmr plenty (acd_net unit) s2) as [[[] s3]| |] eqn:E3; [|exfalso; vm_compute in E1; injection E1 as <- <-; vm_compute in E2; injection E2 as <-; by vm_compute in E3..].
  destruct (Hinv s3) as (I1 & I2 & I3).
  { eapply rtc_l; [exact (@step_query plenty unit (fun _ => 0) (fun _ _ => ret tt) NULL 0x0101A8C0 _ r s1 E1)|].
    eapply rtc_l; [exact (@step_timer plenty unit (fun _ => 0) (fun _ _ => ret tt) _ s2 E2)|]. apply rtc_once. exact (@step_timer plenty unit (fun _ => 0) (fun _ _ => ret tt) _ s3 E3). }
  split; [done|]. split; [done|]. split; [done|]. clear Hinv I1 I2 I3. vm_compute in E1. injection E1 as <- <-. vm_compute in E2. injection E2 as <-. vm_compute in E3. injection E3 as <-. by vm_compute.
Defined.

(** The station sends to one that has nothing in its buffers yet. *)
Lemma link_roundtrip_witness : let H := plenty in
  exists s' frame q c m, ethernet_output 1 mac_a mac_b ETHTYPE_IP (demo_host tt) = Ok (ERR_OK, s') /\ sent s' = [frame] /\
    receive_frame (fun _ => ret tt) (fun _ => ret tt) frame (demo_host tt) = Ok (tt, with_mem (demo_host tt) m) /\
    packet m q [(q, c)] /\ content (dat m) [(q, c)] = [0xC5; 0xC5; 0xC5; 0xC5].
Proof.
  exact (link_roundtrip (H := plenty) (fun _ => ret tt) (fun _ => ret tt) (demo_host tt) (demo_host tt) 1 (ram_cell 1 PBUF_IP 4) mac_a mac_b ETHTYPE_IP (fun _ => ret tt)
    one_packet_packet ltac:(by vm_compute) ltac:(by vm_compute) ltac:(by vm_compute) eq_refl eq_refl (or_introl (conj eq_refl eq_refl)) one_packet_ok ltac:(by vm_compute) ltac:(by vm_compute)).
Defined.
Lemma long_frame_tail_lost_witness : let H := plenty in let rest := repeat 0x55 1476 in
  exists q l m, receive_frame (fun _ => ret tt) (fun _ => ret tt) (eth_header mac_b mac_a 1486 ETHTYPE_IP ++ rest) (demo_host tt) = Ok (tt, with_mem (demo_host tt) m) /\ packet m q l /\
    content (dat m) l = take 1408 rest ++ stale_bytes (q + 1) 68.
Proof.
  exact (long_frame_tail_lost (H := plenty) (fun _ => ret tt) (fun _ => ret tt) (demo_host tt) (eth_header mac_b mac_a 1486 ETHTYPE_IP) (repeat 0x55 1476) ETHTYPE_IP (fun _ => ret tt)
    eq_refl ltac:(by vm_compute) eq_refl (or_introl (conj eq_refl eq_refl)) one_packet_ok ltac:(by vm_compute) ltac:(by vm_compute)).
Defined.

(** A user that writes down what it is told. *)
Definition diary : Type := list (Z * acd_callback).
Definition write_down (v : diary) (user : Z) (st : acd_callback) : diary := v ++ [(user, st)].
Definition diarist (user : Z) (st : acd_callback) : M (stack (acd_net diary)) unit := fun s =>
  Ok (tt, with_upper s ((upper s) <| above := write_down (above (upper s)) user st |>)).
Definition module (st : acd_state) (ip : Z) : acd := mk_acd NULL ip st 0 0 0 0 42.
Definition probing_host (c : acd) : stack (acd_net diary) := mk_stack one_packet (repeat empty_entry 10) station [] (mk_acd_net (<[7 := c]> ∅) 7 0 []).
Lemma probing_host_alone st ip : alone (probing_host (module st ip)) 7 (module st ip).
Proof. split; [done|]. split; [done|]. split; [apply lookup_insert_eq|done]. Qed.

Lemma acd_accepts_address_witness : let H := plenty in
  exists n s' c', (61 <= n <= 87)%nat /\ (acd_start Z.of_nat 7 0x0201A8C0 ;;; times n (acd_tmr Z.of_nat diarist)) (probing_host (module ACD_STATE_OFF 0)) = Ok (tt, s') /\
    sent s' = replicate 3 (probe_frame station 0x0201A8C0) ++ replicate 2 (announcement station 0x0201A8C0) /\
    alone s' 7 c' /\ ac_state c' = ACD_STATE_ONGOING /\ ac_ipaddr c' = 0x0201A8C0 /\ above (upper s') = [(42, ACD_IP_OK)].
Proof.
  exact (acd_accepts_address (H := plenty) Z.of_nat diarist write_down (probing_host (module ACD_STATE_OFF 0)) 7 (module ACD_STATE_OFF 0) 0x0201A8C0
    (fun _ _ _ => eq_refl) (probing_host_alone _ _) (conj one_packet_ok eq_refl) (fun _ _ => eq_refl)).
Defined.
Lemma acd_gives_up_witness : let H := plenty in
  exists s' c', acd_arp_reply diarist (arp_message ARP_REPLY mac_b 0x0201A8C0 mac_a 0) (probing_host (module ACD_STATE_PROBING 0x0201A8C0)) = Ok (tt, s') /\ alone s' 7 c' /\ sent s' = [] /\
    mem s' = one_packet /\ ac_state c' = ACD_STATE_OFF /\ above (upper s') = [(42, ACD_DECLINE); (42, ACD_RESTART_CLIENT)].
Proof.
  exact (acd_gives_up (H := plenty) diarist write_down (probing_host (module ACD_STATE_PROBING 0x0201A8C0)) 7 (module ACD_STATE_PROBING 0x0201A8C0) ARP_REPLY mac_b 0x0201A8C0 mac_a 0
    (fun _ _ _ => eq_refl) (probing_host_alone _ _) (or_introl (or_intror eq_refl)) ltac:(by vm_compute) eq_refl eq_refl ltac:(by vm_compute) ltac:(by vm_compute) (or_introl eq_refl)).
Defined.
