(* ===== verification/IpOutput.v ===== *)
(** arm_host/source/lwip/ipv4/ip4.c, the sending half, and ip4_frag of
    ipv4/ip4_frag.c: routing, the IP header with its checksum computed on the
    way, fragmentation.

    Configuration: LWIP_SINGLE_NETIF, IP_OPTIONS_SEND, IP_FRAG and
    LWIP_NETIF_TX_SINGLE_PBUF are 1, ENABLE_LOOPBACK and IP_FORWARD are 0, the
    interface is the one that ath_init_fn sets up: its [output] is
    [etharp_output], its [mtu] IF_MTU_SIZE.  Assertions only print. *)

From stdpp Require Import gmap.
From S2P Require Import Prelude Cmonad Cutils Heap Pbuf Inet Ethernet Etharp.

(** ** State *)

(** A datagram that waits for fragments; [rd_next] links the list, [rd_p] is its
    first fragment, [rd_iphdr] the header it will get. *)
Record ip_reassdata := mk_reassdata {
  rd_next : Z; rd_p : Z; rd_iphdr : bytes; rd_datagram_len : Z; rd_flags : Z; rd_timer : Z
}.
Definition eta_reassdata (r : ip_reassdata) : ip_reassdata :=
  mk_reassdata (rd_next r) (rd_p r) (rd_iphdr r) (rd_datagram_len r) (rd_flags r) (rd_timer r).
#[export] Instance set_rd_next : Setter rd_next := ltac:(mk_setter eta_reassdata).
#[export] Instance set_rd_p : Setter rd_p := ltac:(mk_setter eta_reassdata).
#[export] Instance set_rd_iphdr : Setter rd_iphdr := ltac:(mk_setter eta_reassdata).
#[export] Instance set_rd_datagram_len : Setter rd_datagram_len := ltac:(mk_setter eta_reassdata).
#[export] Instance set_rd_flags : Setter rd_flags := ltac:(mk_setter eta_reassdata).
#[export] Instance set_rd_timer : Setter rd_timer := ltac:(mk_setter eta_reassdata).

(** The static variables of ip4.c, the part of [ip_data] that is read, and those
    of ip4_frag.c: the list, its structures, the pool they come from. *)
Record ip_globals := mk_ip {
  ip_id : Z; current_iphdr_src : Z; current_iphdr_dest : Z; current_netif : bool; current_input_netif : bool;
  current_ip4_header : ptr; current_ip_header_tot_len : Z;
  reassdatagrams : Z; rds : gmap Z ip_reassdata; rd_left : Z; next_rd : Z; ip_reass_pbufcount : Z
}.
Definition eta_ip (g : ip_globals) : ip_globals :=
  mk_ip (ip_id g) (current_iphdr_src g) (current_iphdr_dest g) (current_netif g) (current_input_netif g)
    (current_ip4_header g) (current_ip_header_tot_len g) (reassdatagrams g) (rds g) (rd_left g) (next_rd g) (ip_reass_pbufcount g).
#[export] Instance set_ip_id : Setter ip_id := ltac:(mk_setter eta_ip).
#[export] Instance set_current_iphdr_src : Setter current_iphdr_src := ltac:(mk_setter eta_ip).
#[export] Instance set_current_iphdr_dest : Setter current_iphdr_dest := ltac:(mk_setter eta_ip).
#[export] Instance set_current_netif : Setter current_netif := ltac:(mk_setter eta_ip).
#[export] Instance set_current_input_netif : Setter current_input_netif := ltac:(mk_setter eta_ip).
#[export] Instance set_current_ip4_header : Setter current_ip4_header := ltac:(mk_setter eta_ip).
#[export] Instance set_current_ip_header_tot_len : Setter current_ip_header_tot_len := ltac:(mk_setter eta_ip).
#[export] Instance set_reassdatagrams : Setter reassdatagrams := ltac:(mk_setter eta_ip).
#[export] Instance set_rds : Setter rds := ltac:(mk_setter eta_ip).
#[export] Instance set_rd_left : Setter rd_left := ltac:(mk_setter eta_ip).
#[export] Instance set_next_rd : Setter next_rd := ltac:(mk_setter eta_ip).
#[export] Instance set_ip_reass_pbufcount : Setter ip_reass_pbufcount := ltac:(mk_setter eta_ip).

(** Where these variables live in the state above the Ethernet layer. *)
Class IpIn (U : Type) := {
  ip_get : U -> ip_globals;
  ip_put : ip_globals -> U -> U;
  ip_get_put : forall g u, ip_get (ip_put g u) = g;
  ip_put_get : forall u, ip_put (ip_get u) u = u;
  ip_put_put : forall g g' u, ip_put g' (ip_put g u) = ip_put g' u
}.
#[export] Instance ip_alone : IpIn ip_globals :=
  {| ip_get := fun g => g; ip_put := fun g _ => g;
     ip_get_put := fun _ _ => eq_refl; ip_put_get := fun _ => eq_refl; ip_put_put := fun _ _ _ => eq_refl |}.

(** ** Constants *)

Definition IF_MTU_SIZE : Z := 0x570.
Definition IP_HLEN : Z := 20.
Definition IP_HLEN_MAX : Z := 60.
Definition IP_MF : Z := 0x2000.
Definition IP_OFFMASK : Z := 0x1fff.
Definition IP_PROTO_ICMP : Z := 1.
Definition IP_PROTO_IGMP : Z := 2.
Definition IP_PROTO_UDP : Z := 17.
Definition IP_PROTO_TCP : Z := 6.
Definition IP_CLASSA_NET : Z := 0xff000000.
Definition IP_LOOPBACKNET : Z := 127.
Definition ip4_addr_isloopback (a : Z) : bool := Z.land a (PP_HTONL IP_CLASSA_NET) =? PP_HTONL (Z.shiftl IP_LOOPBACKNET 24).
Definition netif_is_up (n : netif_t) : bool := negb (Z.land (nf_flags n) NETIF_FLAG_UP =? 0).
Definition netif_is_link_up (n : netif_t) : bool := negb (Z.land (nf_flags n) NETIF_FLAG_LINK_UP =? 0).

(** Offsets in struct ip_hdr. *)
Definition IPH_VHL : Z := 0.
Definition IPH_TOS : Z := 1.
Definition IPH_LEN : Z := 2.
Definition IPH_ID : Z := 4.
Definition IPH_OFFSET : Z := 6.
Definition IPH_TTL : Z := 8.
Definition IPH_PROTO : Z := 9.
Definition IPH_CHKSUM : Z := 10.
Definition IPH_SRC : Z := 12.
Definition IPH_DEST : Z := 16.
Definition HL_BYTES (v_hl : Z) : Z := u8 (Z.land v_hl 0x0f * 4).

Section IpOutput.
Context `{PbufEnv} `{Addresses} {U : Type} `{IpIn U}.

Definition getip {A} (f : ip_globals -> A) : M (stack U) A := gets (fun s => f (ip_get (upper s))).
Definition modip (f : ip_globals -> ip_globals) : M (stack U) unit :=
  modify (fun s => s <| upper := ip_put (f (ip_get (upper s))) (upper s) |>).

(** Fields of [n] bytes behind a pointer. *)
Definition rd (q : ptr) (off n : Z) : M (stack U) Z := let* d := onmem (pread (ptr_add q off) n) in ret (le_val d).
Definition wr (q : ptr) (off : Z) (d : bytes) : M (stack U) unit := onmem (pwrite (ptr_add q off) d).
(** inet_chksum(q, n) *)
Definition chksum_at (q : ptr) (n : Z) : M (stack U) Z := let* d := onmem (pread q n) in ret (inet_chksum (odd_address q) d).

(** ** Routing *)

(** Is there a route?  The interface is netif_default. *)
Definition ip4_route (dest : Z) : M (stack U) bool :=
  let* n := gets nif in
  ret (negb (negb (netif_is_up n) || negb (netif_is_link_up n) || ip4_addr_isany_val (nf_ip n) || ip4_addr_isloopback dest)).

(** ** ip4_frag *)

Definition nfb : Z := u16 ((IF_MTU_SIZE - IP_HLEN) / 8).

(** [while (left)]: every turn sends at least one byte. *)
Fixpoint frag_loop (fuel : nat) (p : Z) (original_iphdr : ptr) (dest : Z) (mf_set : bool) (left ofo poff : Z) : M (stack U) Z :=
  match fuel with
  | O => hang
  | S fuel =>
      if left =? 0 then ret ERR_OK else
      let fragsize := Z.min left (u16 (nfb * 8)) in
      let* rambuf := onmem (pbuf_alloc PBUF_IP fragsize PBUF_RAM) in
      if rambuf =? NULL then ret ERR_MEM else
      let* b := onmem (getp rambuf) in
      let* out := onmem (pread (pb_payload b) fragsize) in
      let* '(copied, out) := onmem (pbuf_copy_partial p (Some out) fragsize poff) in
      onmem (pwrite (pb_payload b) out) ;;;
      let poff := u16 (poff + copied) in
      let* r := onmem (pbuf_add_header rambuf IP_HLEN) in
      if negb (r =? 0) then onmem (pbuf_free rambuf) ;;; ret ERR_MEM else
      let* b := onmem (getp rambuf) in
      let iphdr := pb_payload b in
      onmem (pmove iphdr original_iphdr IP_HLEN) ;;;
      let last := left <=? IF_MTU_SIZE - IP_HLEN in
      let tmp := Z.land IP_OFFMASK ofo in
      let tmp := if negb last || mf_set then Z.lor tmp IP_MF else tmp in
      wr iphdr IPH_OFFSET (le_bytes 2 (lwip_htons tmp)) ;;;
      wr iphdr IPH_LEN (le_bytes 2 (lwip_htons (u16 (fragsize + IP_HLEN)))) ;;;
      wr iphdr IPH_CHKSUM (le_bytes 2 0) ;;;
      let* c := chksum_at iphdr IP_HLEN in
      wr iphdr IPH_CHKSUM (le_bytes 2 c) ;;;
      etharp_output rambuf dest ;;;
      onmem (pbuf_free rambuf) ;;;
      frag_loop fuel p original_iphdr dest mf_set (u16 (left - fragsize)) (u16 (ofo + nfb)) poff
  end.

Definition ip4_frag (p dest : Z) : M (stack U) Z :=
  let* b := onmem (getp p) in
  let original_iphdr := pb_payload b in
  let* v_hl := rd original_iphdr IPH_VHL 1 in
  if negb (HL_BYTES v_hl =? IP_HLEN) then ret ERR_VAL else
  if pb_len b <? IP_HLEN then ret ERR_VAL else
  let* off := rd original_iphdr IPH_OFFSET 2 in
  let tmp := lwip_htons off in
  let left := u16 (pb_tot_len b - IP_HLEN) in
  frag_loop (S (Z.to_nat left)) p original_iphdr dest (nz (Z.land tmp IP_MF)) left (Z.land tmp IP_OFFMASK) IP_HLEN.

(** ** Output *)

(** The end: a packet longer than the MTU is cut. *)
Definition output_to (p dest : Z) : M (stack U) Z :=
  let* b := onmem (getp p) in
  if nz IF_MTU_SIZE && (IF_MTU_SIZE <? pb_tot_len b) then ip4_frag p dest else etharp_output p dest.

(** The options with their padding: their part of the header length and of the
    sum, or the error. *)
Definition put_options (p : Z) (ip_options : bytes) (optlen : Z) : M (stack U) (Z + Z * Z) :=
  if optlen =? 0 then ret (inr (IP_HLEN, 0)) else
  if IP_HLEN_MAX - IP_HLEN <? optlen then ret (inl ERR_VAL) else
  let optlen_aligned := u16 (Z.land (optlen + 3) (Z.lnot 3)) in
  let* r := onmem (pbuf_add_header p optlen_aligned) in
  if negb (r =? 0) then ret (inl ERR_BUF) else
  let* b := onmem (getp p) in
  if Z.of_nat (length ip_options) <? optlen then fail OobRead else
  onmem (pwrite (pb_payload b) (take (Z.to_nat optlen) ip_options)) ;;;
  wr (pb_payload b) optlen (repeat 0 (Z.to_nat (optlen_aligned - optlen))) ;;;
  let* d := onmem (pread (pb_payload b) optlen_aligned) in
  ret (inr (u16 (IP_HLEN + optlen_aligned), fst (add_words d 0))).

(** [src] is NULL or an address, [dest] LWIP_IP_HDRINCL or an address. *)
Definition ip4_output_if_opt_src (p : Z) (src dest : option Z) (ttl tos proto : Z) (ip_options : bytes) (optlen : Z) : M (stack U) Z :=
  match dest with
  | None =>
      let* b := onmem (getp p) in
      if pb_len b <? IP_HLEN then ret ERR_BUF else
      let* dest := rd (pb_payload b) IPH_DEST 4 in
      output_to p dest
  | Some dest =>
      let* o := put_options p ip_options optlen in
      match o with
      | inl e => ret e
      | inr (ip_hlen, chk_sum) =>
          let* r := onmem (pbuf_add_header p IP_HLEN) in
          if negb (r =? 0) then ret ERR_BUF else
          let* b := onmem (getp p) in
          let iphdr := pb_payload b in
          wr iphdr IPH_TTL [u8 ttl] ;;;
          wr iphdr IPH_PROTO [u8 proto] ;;;
          let chk_sum := u32 (chk_sum + PP_HTONS (Z.lor proto (Z.shiftl ttl 8))) in
          wr iphdr IPH_DEST (le_bytes 4 dest) ;;;
          let chk_sum := u32 (chk_sum + Z.land dest 0xFFFF) in
          let chk_sum := u32 (chk_sum + Z.shiftr dest 16) in
          let v_hl := u8 (Z.lor (Z.shiftl 4 4) (ip_hlen / 4)) in
          wr iphdr IPH_VHL [v_hl] ;;;
          wr iphdr IPH_TOS [tos] ;;;
          let chk_sum := u32 (chk_sum + PP_HTONS (Z.lor tos (Z.shiftl v_hl 8))) in
          let len := lwip_htons (pb_tot_len b) in
          wr iphdr IPH_LEN (le_bytes 2 len) ;;;
          let chk_sum := u32 (chk_sum + len) in
          wr iphdr IPH_OFFSET (le_bytes 2 0) ;;;
          let* id := getip ip_id in
          wr iphdr IPH_ID (le_bytes 2 (lwip_htons id)) ;;;
          let chk_sum := u32 (chk_sum + lwip_htons id) in
          modip (fun g => g <| ip_id := u16 (id + 1) |>) ;;;
          let src := match src with Some a => a | None => IPADDR_ANY end in
          wr iphdr IPH_SRC (le_bytes 4 src) ;;;
          let chk_sum := u32 (chk_sum + Z.land src 0xFFFF) in
          let chk_sum := u32 (chk_sum + Z.shiftr src 16) in
          let chk_sum := u32 (Z.shiftr chk_sum 16 + Z.land chk_sum 0xFFFF) in
          let chk_sum := u32 (Z.shiftr chk_sum 16 + chk_sum) in
          let chk_sum := not32 chk_sum in
          wr iphdr IPH_CHKSUM (le_bytes 2 (u16 chk_sum)) ;;;
          output_to p dest
      end
  end.

Definition ip4_output_if_src (p : Z) (src dest : option Z) (ttl tos proto : Z) : M (stack U) Z :=
  ip4_output_if_opt_src p src dest ttl tos proto [] 0.
Definition ip4_output_if_opt (p : Z) (src dest : option Z) (ttl tos proto : Z) (ip_options : bytes) (optlen : Z) : M (stack U) Z :=
  let* n := gets nif in
  let any := match src with Some a => ip4_addr_isany_val a | None => true end in
  let src_used := match dest with Some _ => if any then Some (nf_ip n) else src | None => src end in
  ip4_output_if_opt_src p src_used dest ttl tos proto ip_options optlen.
Definition ip4_output_if (p : Z) (src dest : option Z) (ttl tos proto : Z) : M (stack U) Z :=
  ip4_output_if_opt p src dest ttl tos proto [] 0.

(** [dest] is dereferenced by [ip4_route]. *)
Definition ip4_output (p : Z) (src : option Z) (dest ttl tos proto : Z) : M (stack U) Z :=
  let* r := ip4_route dest in
  if (r : bool) then ip4_output_if p src (Some dest) ttl tos proto else ret ERR_RTE.
(** The connection's hint is lent to the interface; its new value is returned. *)
Definition ip4_output_hinted (p : Z) (src : option Z) (dest ttl tos proto hint : Z) : M (stack U) (Z * Z) :=
  let* r := ip4_route dest in
  if (r : bool) then
    modify (fun s => s <| nif := (nif s) <| nf_hint := Some hint |> |>) ;;;
    let* err := ip4_output_if p src (Some dest) ttl tos proto in
    let* h := gets (fun s => nf_hint (nif s)) in
    modify (fun s => s <| nif := (nif s) <| nf_hint := None |> |>) ;;;
    ret (err, match h with Some h => h | None => hint end)
  else ret (ERR_RTE, hint).

End IpOutput.
