(* ===== verification/Icmp.v ===== *)
(** arm_host/source/lwip/ipv4/icmp.c: echo replies, made in place from the
    request, and the error messages about a packet.

    Configuration: LWIP_BROADCAST_PING and LWIP_MULTICAST_PING are 1, checksums
    are computed and checked, LWIP_ICMP_ECHO_CHECK_INPUT_PBUF_LEN is 1. *)

From stdpp Require Import gmap.
From S2P Require Import Prelude Cmonad Cutils Heap Pbuf Inet Ethernet Etharp IpOutput.

Definition ICMP_ER : Z := 0.
Definition ICMP_DUR : Z := 3.
Definition ICMP_ECHO : Z := 8.
Definition ICMP_TE : Z := 11.
Definition ICMP_DUR_PROTO : Z := 2.
Definition ICMP_DUR_PORT : Z := 3.
Definition ICMP_TE_FRAG : Z := 1.
Definition ICMP_TTL : Z := 255.
Definition ICMP_DEST_UNREACH_DATASIZE : Z := 8.
Definition SIZEOF_ICMP_HDR : Z := 8.
Definition SIZEOF_ICMP_ECHO_HDR : Z := 8.

(** Offsets in struct icmp_hdr and struct icmp_echo_hdr. *)
Definition ICMPH_TYPE : Z := 0.
Definition ICMPH_CODE : Z := 1.
Definition ICMPH_CHKSUM : Z := 2.
Definition ICMPH_DATA : Z := 4.

(** The checksum of a request whose type becomes that of the reply. *)
Definition adjust_chksum (chksum : Z) : Z :=
  if PP_HTONS (0xffff - Z.shiftl ICMP_ECHO 8) <? chksum
  then u16 (chksum + PP_HTONS (u16 (Z.shiftl ICMP_ECHO 8)) + 1)
  else u16 (chksum + PP_HTONS (Z.shiftl ICMP_ECHO 8)).

Section Icmp.
Context `{PbufEnv} `{Addresses} {U : Type} `{IpIn U}.

Definition icmp_send_response (p type code : Z) : M (stack U) unit :=
  let* b := onmem (getp p) in
  let response_pkt_len := IP_HLEN + ICMP_DEST_UNREACH_DATASIZE in
  let response_pkt_len := if pb_tot_len b <? response_pkt_len then pb_tot_len b else response_pkt_len in
  let* q := onmem (pbuf_alloc PBUF_IP (SIZEOF_ICMP_HDR + response_pkt_len) PBUF_RAM) in
  if q =? NULL then ret tt else
  let* bq := onmem (getp q) in
  let icmphdr := pb_payload bq in
  wr icmphdr ICMPH_TYPE [type] ;;;
  wr icmphdr ICMPH_CODE [code] ;;;
  wr icmphdr ICMPH_DATA (le_bytes 4 0) ;;;
  onmem (pbuf_copy_partial_pbuf q p response_pkt_len SIZEOF_ICMP_HDR) ;;;
  let* iphdr_src := rd (pb_payload b) IPH_SRC 4 in
  let* r := ip4_route iphdr_src in
  (if (r : bool) then
     wr icmphdr ICMPH_CHKSUM (le_bytes 2 0) ;;;
     let* c := chksum_at icmphdr (pb_len bq) in
     wr icmphdr ICMPH_CHKSUM (le_bytes 2 c) ;;;
     ip4_output_if q None (Some iphdr_src) ICMP_TTL 0 IP_PROTO_ICMP ;;; ret tt
   else ret tt) ;;;
  onmem (pbuf_free q) ;;; ret tt.
Definition icmp_dest_unreach (p t : Z) : M (stack U) unit := icmp_send_response p ICMP_DUR t.
Definition icmp_time_exceeded (p t : Z) : M (stack U) unit := icmp_send_response p ICMP_TE t.

(** The request, or a copy of it, in a packet with room for the link header;
    NULL is the way to the label icmperr. *)
Definition echo_packet (p : Z) (iphdr_in : ptr) (hlen : Z) : M (stack U) Z :=
  let room := hlen + PBUF_LINK_HLEN + PBUF_LINK_ENCAPSULATION_HLEN in
  let* r := onmem (pbuf_add_header p room) in
  if negb (r =? 0) then
    let* b := onmem (getp p) in
    let alloc_len := u16 (pb_tot_len b + hlen) in
    if alloc_len <? pb_tot_len b then ret NULL else
    let* r := onmem (pbuf_alloc PBUF_LINK alloc_len PBUF_RAM) in
    if r =? NULL then ret NULL else
    let* br := onmem (getp r) in
    if pb_len br <? hlen + SIZEOF_ICMP_ECHO_HDR then onmem (pbuf_free r) ;;; ret NULL else
    onmem (pmove (pb_payload br) iphdr_in hlen) ;;;
    let* e := onmem (pbuf_remove_header r hlen) in
    if negb (e =? 0) then onmem (pbuf_free r) ;;; ret NULL else
    let* e := onmem (pbuf_copy r p) in
    if negb (e =? ERR_OK) then onmem (pbuf_free r) ;;; ret NULL else
    onmem (pbuf_free p) ;;; ret r
  else
    let* e := onmem (pbuf_remove_header p room) in
    ret (if negb (e =? 0) then NULL else p).

(** The request becomes the reply, from [src], and is sent. *)
Definition echo_reply (p src hlen : Z) : M (stack U) unit :=
  let* b := onmem (getp p) in
  let iecho := pb_payload b in
  let* r := onmem (pbuf_add_header p hlen) in
  if negb (r =? 0) then ret tt else
  let* b := onmem (getp p) in
  let iphdr := pb_payload b in
  let* dest := getip current_iphdr_src in
  wr iphdr IPH_SRC (le_bytes 4 src) ;;;
  wr iphdr IPH_DEST (le_bytes 4 dest) ;;;
  wr iecho ICMPH_TYPE [ICMP_ER] ;;;
  let* chksum := rd iecho ICMPH_CHKSUM 2 in
  wr iecho ICMPH_CHKSUM (le_bytes 2 (adjust_chksum chksum)) ;;;
  wr iphdr IPH_TTL [ICMP_TTL] ;;;
  wr iphdr IPH_CHKSUM (le_bytes 2 0) ;;;
  let* c := chksum_at iphdr hlen in
  wr iphdr IPH_CHKSUM (le_bytes 2 c) ;;;
  ip4_output_if p (Some src) None ICMP_TTL 0 IP_PROTO_ICMP ;;; ret tt.

Definition icmp_input (p : Z) : M (stack U) unit :=
  let drop p := onmem (pbuf_free p) ;;; ret tt in
  let* iphdr_in := getip current_ip4_header in
  let* v_hl := rd iphdr_in IPH_VHL 1 in
  let hlen := HL_BYTES v_hl in
  let* b := onmem (getp p) in
  if (hlen <? IP_HLEN) || (pb_len b <? 4) then drop p else
  let* type := rd (pb_payload b) ICMPH_TYPE 1 in
  if type =? ICMP_ECHO then
    let* dest := getip current_iphdr_dest in
    let* n := gets nif in
    let src := dest in
    let src := if ip4_addr_ismulticast dest then nf_ip n else src in
    let src := if ip4_addr_isbroadcast_u32 dest n then nf_ip n else src in
    if pb_tot_len b <? SIZEOF_ICMP_ECHO_HDR then drop p else
    let* c := onmem (inet_chksum_pbuf p) in
    if negb (c =? 0) then drop p else
    let* q := echo_packet p iphdr_in hlen in
    if q =? NULL then drop p else
    echo_reply q src hlen ;;; drop q
  else drop p.

End Icmp.
