(* ===== verification/Reass.v ===== *)
(** arm_host/source/lwip/ipv4/ip4_frag.c, the receiving half: reassembly.

    A datagram keeps its fragments in a list by offset; the links of the list and
    the two ends of a fragment lie in the packet itself, over the first eight
    bytes of its IP header (struct ip_reass_helper).  IP_REASS_CHECK_OVERLAP and
    IP_REASS_FREE_OLDEST are 1; assertions only print. *)

From stdpp Require Import gmap.
From S2P Require Import Prelude Cmonad Cutils Heap Pbuf Inet Ethernet Etharp IpOutput Icmp.

Definition IP_REASS_MAX_PBUFS : Z := 64.
Definition IP_REASS_MAXAGE : Z := 15.
Definition MEMP_NUM_REASSDATA : Z := 32.
Definition IP_REASS_FLAG_LASTFRAG : Z := 0x01.

(** The values of IP_REASS_VALIDATE_*. *)
Inductive reass_result := TELEGRAM_FINISHED | PBUF_QUEUED | PBUF_DROPPED.

Section Reass.
Context `{PbufEnv} `{Addresses} {U : Type} `{IpIn U}.

(** ** The structures *)

Definition getr (r : Z) : M (stack U) ip_reassdata := fun s =>
  if r =? NULL then Fault NullDeref else
  match rds (ip_get (upper s)) !! r with Some d => Ok (d, s) | None => Fault UseAfterFree end.
Definition updr (r : Z) (f : ip_reassdata -> ip_reassdata) : M (stack U) unit :=
  let* d := getr r in modip (fun g => g <| rds := <[r := f d]> (rds g) |>).
(** memp_malloc(MEMP_REASSDATA) and the memset that follows it *)
Definition memp_malloc_reassdata : M (stack U) Z :=
  let* n := getip rd_left in
  if n =? 0 then ret NULL else
  let* r := getip next_rd in
  modip (fun g => g <| rd_left := n - 1 |> <| next_rd := r + 1 |>
                    <| rds := <[r := mk_reassdata NULL NULL (repeat 0 20) 0 0 0]> (rds g) |>) ;;;
  ret r.
Definition memp_free_reassdata (r : Z) : M (stack U) unit :=
  modip (fun g => g <| rds := delete r (rds g) |> <| rd_left := rd_left g + 1 |>).
Definition rd_fuel : M (stack U) nat := getip (fun g => S (size (rds g))).

(** struct ip_reass_helper: next_pbuf, start and end *)
Definition helper (q : ptr) : M (stack U) (Z * Z * Z) :=
  let* d := onmem (pread q 8) in
  ret (le_val (take 4 d), le_val (take 2 (drop 4 d)), le_val (take 2 (drop 6 d))).
Definition set_next_pbuf (q : ptr) (p : Z) : M (stack U) unit := wr q 0 (le_bytes 4 p).
Definition payload (p : Z) : M (stack U) ptr := let* b := onmem (getp p) in ret (pb_payload b).

(** IP_ADDRESSES_AND_ID_MATCH of two headers *)
Definition addresses_and_id_match (a b : bytes) : bool :=
  bool_decide (take 4 (drop 12 a) = take 4 (drop 12 b)) && bool_decide (take 4 (drop 16 a) = take 4 (drop 16 b)) &&
  bool_decide (take 2 (drop 4 a) = take 2 (drop 4 b)).

(** ** Removing a datagram *)

Definition ip_reass_dequeue_datagram (ipr prev : Z) : M (stack U) unit :=
  let* d := getr ipr in
  let* head := getip reassdatagrams in
  (if head =? ipr then modip (fun g => g <| reassdatagrams := rd_next d |>)
   else updr prev (fun e => e <| rd_next := rd_next d |>)) ;;;
  memp_free_reassdata ipr.

(** The fragments are released one by one; [freed] counts their cells. *)
Fixpoint free_fragments (fuel : nat) (p freed : Z) : M (stack U) Z :=
  match fuel with
  | O => hang
  | S fuel =>
      if p =? NULL then ret freed else
      let* q := payload p in
      let* '(next, _, _) := helper q in
      let* clen := onmem (pbuf_clen p) in
      onmem (pbuf_free p) ;;;
      free_fragments fuel next (u16 (freed + clen))
  end.
Definition ip_reass_free_complete_datagram (ipr prev : Z) : M (stack U) Z :=
  let* d := getr ipr in
  let p := rd_p d in
  let* q := payload p in
  let* '(next, start, _) := helper q in
  let* freed :=
    (if start =? 0 then
       updr ipr (fun d => d <| rd_p := next |>) ;;;
       onmem (pwrite q (take 20 (rd_iphdr d))) ;;;
       icmp_time_exceeded p ICMP_TE_FRAG ;;;
       let* clen := onmem (pbuf_clen p) in
       onmem (pbuf_free p) ;;; ret (u16 clen)
     else ret 0) in
  let* d := getr ipr in
  let* n := onmem chain_fuel in
  let* freed := free_fragments n (rd_p d) freed in
  ip_reass_dequeue_datagram ipr prev ;;;
  modip (fun g => g <| ip_reass_pbufcount := u16 (ip_reass_pbufcount g - freed) |>) ;;;
  ret freed.

(** ** The timer *)

Fixpoint reass_tmr_loop (fuel : nat) (r prev : Z) : M (stack U) unit :=
  match fuel with
  | O => hang
  | S fuel =>
      if r =? NULL then ret tt else
      let* d := getr r in
      if 0 <? rd_timer d then
        updr r (fun d => d <| rd_timer := u8 (rd_timer d - 1) |>) ;;;
        reass_tmr_loop fuel (rd_next d) r
      else
        ip_reass_free_complete_datagram r prev ;;; reass_tmr_loop fuel (rd_next d) prev
  end.
Definition ip_reass_tmr : M (stack U) unit :=
  let* n := rd_fuel in let* r := getip reassdatagrams in reass_tmr_loop n r NULL.

(** ** Making room *)

(** The oldest datagram but that of [fraghdr], its predecessor, and how many
    others there are. *)
Fixpoint oldest_loop (fuel : nat) (fraghdr : ptr) (r prev oldest oldest_prev others : Z) : M (stack U) (Z * Z * Z) :=
  match fuel with
  | O => hang
  | S fuel =>
      if r =? NULL then ret (oldest, oldest_prev, others) else
      let* d := getr r in
      let* h := onmem (pread fraghdr IP_HLEN) in
      let next_prev := if negb (rd_next d =? NULL) then r else prev in
      if negb (addresses_and_id_match (rd_iphdr d) h) then
        if oldest =? NULL then oldest_loop fuel fraghdr (rd_next d) next_prev r prev (others + 1) else
        let* o := getr oldest in
        if rd_timer d <=? rd_timer o then oldest_loop fuel fraghdr (rd_next d) next_prev r prev (others + 1)
        else oldest_loop fuel fraghdr (rd_next d) next_prev oldest oldest_prev (others + 1)
      else oldest_loop fuel fraghdr (rd_next d) next_prev oldest oldest_prev others
  end.
(** [do ... while]: every turn but the last frees a datagram. *)
Fixpoint remove_loop (fuel : nat) (fraghdr : ptr) (pbufs_needed pbufs_freed : Z) : M (stack U) Z :=
  match fuel with
  | O => hang
  | S fuel =>
      let* n := rd_fuel in
      let* r := getip reassdatagrams in
      let* '(oldest, oldest_prev, others) := oldest_loop n fraghdr r NULL NULL NULL 0 in
      let* now := (if negb (oldest =? NULL) then ip_reass_free_complete_datagram oldest oldest_prev else ret 0) in
      let pbufs_freed := pbufs_freed + now in
      if (pbufs_freed <? pbufs_needed) && (1 <? others) then remove_loop fuel fraghdr pbufs_needed pbufs_freed
      else ret pbufs_freed
  end.
Definition ip_reass_remove_oldest_datagram (fraghdr : ptr) (pbufs_needed : Z) : M (stack U) Z :=
  let* n := rd_fuel in remove_loop n fraghdr pbufs_needed 0.

Definition ip_reass_enqueue_new_datagram (fraghdr : ptr) (clen : Z) : M (stack U) Z :=
  let* ipr := memp_malloc_reassdata in
  let* ipr :=
    (if ipr =? NULL then
       let* n := ip_reass_remove_oldest_datagram fraghdr clen in
       if clen <=? n then memp_malloc_reassdata else ret NULL
     else ret ipr) in
  if ipr =? NULL then ret NULL else
  let* head := getip reassdatagrams in
  updr ipr (fun d => d <| rd_timer := IP_REASS_MAXAGE |> <| rd_next := head |>) ;;;
  modip (fun g => g <| reassdatagrams := ipr |>) ;;;
  let* h := onmem (pread fraghdr IP_HLEN) in
  updr ipr (fun d => d <| rd_iphdr := h |>) ;;;
  ret ipr.

(** ** Placing a fragment *)

(** The loop over the fragments: none when the new one is dropped, otherwise
    whether it was placed inside the list, its predecessor, and whether there
    was no hole so far. *)
Fixpoint place_loop (fuel : nat) (ipr new_p : Z) (iprh : ptr) (start stop q : Z) (prev : option ptr) (valid : bool)
    : M (stack U) (option (bool * option ptr * bool)) :=
  match fuel with
  | O => hang
  | S fuel =>
      if q =? NULL then ret (Some (false, prev, valid)) else
      let* iprh_tmp := payload q in
      let* '(tmp_next, tmp_start, tmp_end) := helper iprh_tmp in
      if start <? tmp_start then
        set_next_pbuf iprh q ;;;
        match prev with
        | Some iprh_prev =>
            let* '(_, _, prev_end) := helper iprh_prev in
            if (start <? prev_end) || (tmp_start <? stop) then ret None else
            set_next_pbuf iprh_prev new_p ;;;
            ret (Some (true, prev, valid && (prev_end =? start)))
        | None =>
            if tmp_start <? stop then ret None else
            updr ipr (fun d => d <| rd_p := new_p |>) ;;;
            ret (Some (true, prev, valid))
        end
      else if start =? tmp_start then ret None
      else if start <? tmp_end then ret None
      else
        let* valid :=
          match prev with
          | Some iprh_prev => let* '(_, _, prev_end) := helper iprh_prev in ret (valid && (prev_end =? tmp_start))
          | None => ret valid
          end in
        place_loop fuel ipr new_p iprh start stop tmp_next (Some iprh_tmp) valid
  end.

(** No hole from the fragment that ends at [prev_end] to the end of the list. *)
Fixpoint holes_loop (fuel : nat) (prev_end q : Z) : M (stack U) bool :=
  match fuel with
  | O => hang
  | S fuel =>
      if q =? NULL then ret true else
      let* iprh := payload q in
      let* '(next, start, stop) := helper iprh in
      if negb (prev_end =? start) then ret false else holes_loop fuel stop next
  end.

Definition ip_reass_chain_frag_into_datagram_and_validate (ipr new_p : Z) (is_last : bool) : M (stack U) reass_result :=
  let* iprh := payload new_p in
  let* len := rd iprh IPH_LEN 2 in
  let len := lwip_htons len in
  let* v_hl := rd iprh IPH_VHL 1 in
  let hlen := HL_BYTES v_hl in
  if len <? hlen then ret PBUF_DROPPED else
  let len := u16 (len - hlen) in
  let* off := rd iprh IPH_OFFSET 2 in
  let offset := u16 (Z.land (lwip_htons off) IP_OFFMASK * 8) in
  let start := offset in
  let stop := u16 (offset + len) in
  set_next_pbuf iprh NULL ;;;
  wr iprh 4 (le_bytes 2 start) ;;;
  wr iprh 6 (le_bytes 2 stop) ;;;
  if stop <? offset then ret PBUF_DROPPED else
  let* d := getr ipr in
  let* n := onmem chain_fuel in
  let* placed := place_loop n ipr new_p iprh start stop (rd_p d) None true in
  match placed with
  | None => ret PBUF_DROPPED
  | Some (inside, prev, valid) =>
      let* valid :=
        (if (inside : bool) then ret valid else
         match prev with
         | Some iprh_prev =>
             set_next_pbuf iprh_prev new_p ;;;
             let* '(_, _, prev_end) := helper iprh_prev in
             ret (valid && (prev_end =? start))
         | None => updr ipr (fun d => d <| rd_p := new_p |>) ;;; ret valid
         end) in
      let* d := getr ipr in
      if is_last || nz (Z.land (rd_flags d) IP_REASS_FLAG_LASTFRAG) then
        if negb valid then ret PBUF_QUEUED else
        if rd_p d =? NULL then ret PBUF_QUEUED else
        let* first := payload (rd_p d) in
        let* '(_, first_start, _) := helper first in
        if negb (first_start =? 0) then ret PBUF_QUEUED else
        let* '(next, _, _) := helper iprh in
        let* ok := holes_loop n stop next in
        ret (if (ok : bool) then TELEGRAM_FINISHED else PBUF_QUEUED)
      else ret PBUF_QUEUED
  end.

(** ** ip4_reass *)

(** The datagram of the fragment; the list has no more elements than there are
    structures. *)
Fixpoint find_datagram (fuel : nat) (fraghdr : ptr) (r : Z) : M (stack U) Z :=
  match fuel with
  | O => hang
  | S fuel =>
      if r =? NULL then ret NULL else
      let* d := getr r in
      let* h := onmem (pread fraghdr IP_HLEN) in
      if addresses_and_id_match (rd_iphdr d) h then ret r else find_datagram fuel fraghdr (rd_next d)
  end.
Fixpoint find_prev (fuel : nat) (ipr prev : Z) : M (stack U) Z :=
  match fuel with
  | O => hang
  | S fuel => if prev =? NULL then ret NULL else let* d := getr prev in if rd_next d =? ipr then ret prev else find_prev fuel ipr (rd_next d)
  end.

(** The fragments after the first lose their header and are appended. *)
Fixpoint join_loop (fuel : nat) (p r : Z) : M (stack U) unit :=
  match fuel with
  | O => hang
  | S fuel =>
      if r =? NULL then ret tt else
      let* iprh := payload r in
      onmem (pbuf_remove_header r IP_HLEN) ;;;
      onmem (pbuf_cat p r) ;;;
      let* '(next, _, _) := helper iprh in
      join_loop fuel p next
  end.

Definition reass_finish (ipr : Z) : M (stack U) Z :=
  let* d := getr ipr in
  let datagram_len := u16 (rd_datagram_len d + IP_HLEN) in
  let p := rd_p d in
  let* fraghdr := payload p in
  let* '(r, _, _) := helper fraghdr in
  onmem (pwrite fraghdr (take 20 (rd_iphdr d))) ;;;
  wr fraghdr IPH_LEN (le_bytes 2 (lwip_htons datagram_len)) ;;;
  wr fraghdr IPH_OFFSET (le_bytes 2 0) ;;;
  wr fraghdr IPH_CHKSUM (le_bytes 2 0) ;;;
  let* c := chksum_at fraghdr IP_HLEN in
  wr fraghdr IPH_CHKSUM (le_bytes 2 c) ;;;
  let* n := onmem chain_fuel in
  join_loop n p r ;;;
  let* head := getip reassdatagrams in
  let* k := rd_fuel in
  let* ipr_prev := (if ipr =? head then ret NULL else find_prev k ipr head) in
  ip_reass_dequeue_datagram ipr ipr_prev ;;;
  let* clen := onmem (pbuf_clen p) in
  modip (fun g => g <| ip_reass_pbufcount := u16 (ip_reass_pbufcount g - clen) |>) ;;;
  ret p.

Definition ip4_reass (p : Z) : M (stack U) Z :=
  let nullreturn := onmem (pbuf_free p) ;;; ret NULL in
  let nullreturn_ipr ipr :=
    let* d := getr ipr in
    (if rd_p d =? NULL then ip_reass_dequeue_datagram ipr NULL else ret tt) ;;; nullreturn in
  let* fraghdr := payload p in
  let* v_hl := rd fraghdr IPH_VHL 1 in
  if negb (HL_BYTES v_hl =? IP_HLEN) then nullreturn else
  let* off := rd fraghdr IPH_OFFSET 2 in
  let offset := u16 (Z.land (lwip_htons off) IP_OFFMASK * 8) in
  let* len := rd fraghdr IPH_LEN 2 in
  let len := lwip_htons len in
  let hlen := HL_BYTES v_hl in
  if len <? hlen then nullreturn else
  let len := u16 (len - hlen) in
  let* clen := onmem (pbuf_clen p) in
  let* count := getip ip_reass_pbufcount in
  let* full :=
    (if IP_REASS_MAX_PBUFS <? count + clen then
       let* n := ip_reass_remove_oldest_datagram fraghdr clen in
       let* count := getip ip_reass_pbufcount in
       ret ((n =? 0) || (IP_REASS_MAX_PBUFS <? count + clen))
     else ret false) in
  if (full : bool) then nullreturn else
  let* k := rd_fuel in
  let* head := getip reassdatagrams in
  let* found := find_datagram k fraghdr head in
  let* ipr :=
    (if found =? NULL then ip_reass_enqueue_new_datagram fraghdr clen else
     let* d := getr found in
     (if (Z.land (lwip_htons off) IP_OFFMASK =? 0) &&
         negb (Z.land (lwip_htons (le_val (take 2 (drop 6 (rd_iphdr d))))) IP_OFFMASK =? 0) then
        let* h := onmem (pread fraghdr IP_HLEN) in updr found (fun d => d <| rd_iphdr := h |>)
      else ret tt) ;;;
     ret found) in
  if ipr =? NULL then nullreturn else
  let is_last := Z.land off (PP_HTONS IP_MF) =? 0 in
  let datagram_len := u16 (offset + len) in
  if is_last && ((datagram_len <? offset) || (0xFFFF - IP_HLEN <? datagram_len)) then nullreturn_ipr ipr else
  let* valid := ip_reass_chain_frag_into_datagram_and_validate ipr p is_last in
  match valid with
  | PBUF_DROPPED => nullreturn_ipr ipr
  | _ =>
      modip (fun g => g <| ip_reass_pbufcount := u16 (ip_reass_pbufcount g + clen) |>) ;;;
      (if is_last then
         updr ipr (fun d => d <| rd_datagram_len := datagram_len |> <| rd_flags := Z.lor (rd_flags d) IP_REASS_FLAG_LASTFRAG |>)
       else ret tt) ;;;
      match valid with TELEGRAM_FINISHED => reass_finish ipr | _ => ret NULL end
  end.

End Reass.
