(* ===== verification/IpInput.v ===== *)
(** arm_host/source/lwip/ipv4/ip4.c, the receiving half.

    What lies above is an argument: raw sockets, UDP, TCP and IGMP.  LWIP_DHCP is
    1, so packets to the DHCP client port pass whatever their address; IP_FORWARD
    and LWIP_NETIF_LOOPBACK are 0, IP_OPTIONS_ALLOWED is 1. *)

From stdpp Require Import gmap.
From S2P Require Import Prelude Cmonad Cutils Heap Pbuf Inet Ethernet Etharp IpOutput Icmp Reass.

Definition LWIP_IANA_PORT_DHCP_CLIENT : Z := 68.
Definition IP4_ADDR (a b c d : Z) : Z := PP_HTONL (Z.lor (Z.lor (Z.lor (Z.shiftl a 24) (Z.shiftl b 16)) (Z.shiftl c 8)) d).
Inductive raw_input_state := RAW_INPUT_NONE | RAW_INPUT_EATEN | RAW_INPUT_DELIVERED.

(** The protocols above IP: each takes the packet over, [raw_input] only when it
    says so. *)
Class Transport (U : Type) := {
  raw_input : Z -> M (stack U) raw_input_state;
  udp_input : Z -> M (stack U) unit;
  tcp_input : Z -> M (stack U) unit;
  igmp_input : Z -> Z -> M (stack U) unit;
  igmp_lookfor_group : Z -> M (stack U) bool
}.

Section IpInput.
Context `{PbufEnv} `{Addresses} {U : Type} `{IpIn U} `{Transport U}.

Definition ip4_input_accept (dest : Z) (n : netif_t) : bool :=
  netif_is_up n && negb (ip4_addr_isany_val (nf_ip n)) && ((dest =? nf_ip n) || ip4_addr_isbroadcast_u32 dest n).

(** Is the packet for us, and is its source to be checked? *)
Definition choose_netif (iphdr : ptr) (iphdr_hlen : Z) : M (stack U) (bool * bool) :=
  let* dest := getip current_iphdr_dest in
  let* src := getip current_iphdr_src in
  let* n := gets nif in
  let* '(netif, check_ip_src) :=
    (if ip4_addr_ismulticast dest then
       let* group := (if Z.land (nf_flags n) NETIF_FLAG_IGMP =? 0 then ret false else igmp_lookfor_group dest) in
       if (group : bool) then ret (true, negb ((dest =? IP4_ADDR 224 0 0 1) && ip4_addr_isany_val src)) else ret (false, true)
     else ret (ip4_input_accept dest n, true)) in
  if (netif : bool) then ret (true, check_ip_src) else
  let* proto := rd iphdr IPH_PROTO 1 in
  if proto =? IP_PROTO_UDP then
    let* port := rd (ptr_add iphdr iphdr_hlen) 2 2 in
    ret (if port =? PP_HTONS LWIP_IANA_PORT_DHCP_CLIENT then (true, false) else (false, check_ip_src))
  else ret (false, check_ip_src).

(** The switch over the protocol; [iphdr_hlen] bytes of header are hidden. *)
Definition to_upper (p : Z) (iphdr : ptr) (iphdr_hlen : Z) (raw_status : raw_input_state) : M (stack U) unit :=
  onmem (pbuf_remove_header p iphdr_hlen) ;;;
  let* proto := rd iphdr IPH_PROTO 1 in
  if proto =? IP_PROTO_UDP then udp_input p
  else if proto =? IP_PROTO_TCP then tcp_input p
  else if proto =? IP_PROTO_ICMP then icmp_input p
  else if proto =? IP_PROTO_IGMP then let* dest := getip current_iphdr_dest in igmp_input p dest
  else
    (match raw_status with
     | RAW_INPUT_DELIVERED => ret tt
     | _ =>
         let* dest := getip current_iphdr_dest in
         let* n := gets nif in
         if negb (ip4_addr_isbroadcast_u32 dest n) && negb (ip4_addr_ismulticast dest) then
           onmem (pbuf_header_force p iphdr_hlen) ;;; icmp_dest_unreach p ICMP_DUR_PROTO
         else ret tt
     end) ;;;
    onmem (pbuf_free p) ;;; ret tt.

(** From the point where the packet is known to be for us and whole. *)
Definition deliver (p : Z) (iphdr_hlen : Z) : M (stack U) unit :=
  let* b := onmem (getp p) in
  let iphdr := pb_payload b in
  let* v_hl := rd iphdr IPH_VHL 1 in
  modip (fun g => g <| current_netif := true |> <| current_input_netif := true |> <| current_ip4_header := iphdr |>
                    <| current_ip_header_tot_len := HL_BYTES v_hl |>) ;;;
  let* raw_status := raw_input p in
  (match raw_status with RAW_INPUT_EATEN => ret tt | _ => to_upper p iphdr iphdr_hlen raw_status end) ;;;
  modip (fun g => g <| current_netif := false |> <| current_input_netif := false |> <| current_ip4_header := null_ptr |>
                    <| current_ip_header_tot_len := 0 |> <| current_iphdr_src := IPADDR_ANY |> <| current_iphdr_dest := IPADDR_ANY |>).

Definition ip4_input (p : Z) : M (stack U) unit :=
  let drop := onmem (pbuf_free p) ;;; ret tt in
  let* b := onmem (getp p) in
  let iphdr := pb_payload b in
  let* v_hl := rd iphdr IPH_VHL 1 in
  if negb (Z.shiftr v_hl 4 =? 4) then drop else
  let iphdr_hlen := HL_BYTES v_hl in
  let* len := rd iphdr IPH_LEN 2 in
  let iphdr_len := lwip_htons len in
  (if iphdr_len <? pb_tot_len b then onmem (pbuf_realloc p iphdr_len) else ret tt) ;;;
  let* b := onmem (getp p) in
  if (pb_len b <? iphdr_hlen) || (pb_tot_len b <? iphdr_len) || (iphdr_hlen <? IP_HLEN) then drop else
  let* c := chksum_at iphdr iphdr_hlen in
  if negb (c =? 0) then drop else
  let* dest := rd iphdr IPH_DEST 4 in
  let* src := rd iphdr IPH_SRC 4 in
  modip (fun g => g <| current_iphdr_dest := dest |> <| current_iphdr_src := src |>) ;;;
  let* '(netif, check_ip_src) := choose_netif iphdr iphdr_hlen in
  let* n := gets nif in
  if check_ip_src && negb (ip4_addr_isany_val src) && (ip4_addr_isbroadcast_u32 src n || ip4_addr_ismulticast src) then drop else
  if negb netif then drop else
  let* off := rd iphdr IPH_OFFSET 2 in
  if negb (Z.land off (PP_HTONS (Z.lor IP_OFFMASK IP_MF)) =? 0) then
    let* p := ip4_reass p in
    if p =? NULL then ret tt else deliver p iphdr_hlen
  else deliver p iphdr_hlen.

End IpInput.
