(* ===== verification/IpProofs.v ===== *)
(** IP headers: the one that is sent carries the RFC 1071 checksum although it
    is summed up field by field, and packets that leave reach the neighbour. *)

From stdpp Require Import gmap.
From S2P Require Import Prelude Cmonad Cutils Heap Pbuf PbufProofs PbufChain Inet InetProofs Ethernet Etharp EthernetProofs EtharpProofs ArpProofs IpOutput.

(** ** Headers *)

(** A header of 20 bytes and its options, with [chk] in the place of the checksum. *)
Definition ip_fields (v_hl tos len id off ttl proto : Z) (chk : bytes) (src dest : Z) : bytes :=
  [v_hl; tos] ++ be_bytes 2 len ++ be_bytes 2 id ++ be_bytes 2 off ++ [ttl; proto] ++ chk ++ le_bytes 4 src ++ le_bytes 4 dest.
Definition v_hl_of (opts : bytes) : Z := 0x45 + Z.of_nat (length opts) / 4.
(** The header with its checksum. *)
Definition ip_header (opts : bytes) (tos len id off ttl proto src dest : Z) : bytes :=
  let fields chk := ip_fields (v_hl_of opts) tos len id off ttl proto chk src dest ++ opts in
  fields (be_bytes 2 (rfc1071_checksum (fields [0; 0]))).

Lemma length_ip_fields v tos len id off ttl proto chk src dest : length chk = 2%nat ->
  length (ip_fields v tos len id off ttl proto chk src dest) = 20%nat.
Proof. intros Hc. unfold ip_fields. by rewrite !length_app, Hc, !length_be_bytes, !length_le_bytes. Qed.
Lemma length_ip_header opts tos len id off ttl proto src dest : length (ip_header opts tos len id off ttl proto src dest) = (20 + length opts)%nat.
Proof. unfold ip_header. by rewrite length_app, length_ip_fields by apply length_be_bytes. Qed.

(** Reading the fields back. *)
Lemma ip_fields_read v tos len id off ttl proto chk src dest x : length chk = 2%nat ->
  let h := ip_fields v tos len id off ttl proto chk src dest ++ x in
  take 1 h = [v] /\ take 2 (drop 2 h) = be_bytes 2 len /\ take 2 (drop 6 h) = be_bytes 2 off /\ take 1 (drop 9 h) = [proto] /\
  take 4 (drop 12 h) = le_bytes 4 src /\ take 4 (drop 16 h) = le_bytes 4 dest /\ take 2 (drop 4 h) = be_bytes 2 id.
Proof.
  intros Hk. unfold ip_fields. pose proof (length_be_bytes 2 len) as L1. pose proof (length_be_bytes 2 id) as L2. pose proof (length_be_bytes 2 off) as L3.
  pose proof (length_le_bytes 4 src) as L4. pose proof (length_le_bytes 4 dest) as L5.
  set (A := be_bytes 2 len) in *. set (B := be_bytes 2 id) in *. set (C := be_bytes 2 off) in *. set (D := le_bytes 4 src) in *. set (E := le_bytes 4 dest) in *.
  clearbody A B C D E. destruct_len A. destruct_len B. destruct_len C. destruct_len D. destruct_len E. destruct_len chk. done.
Qed.

Lemma ip_fields_ok v tos len id off ttl proto chk src dest : byte_ok v -> byte_ok tos -> byte_ok ttl -> byte_ok proto -> bytes_ok chk ->
  bytes_ok (ip_fields v tos len id off ttl proto chk src dest).
Proof.
  intros. unfold ip_fields. repeat first [apply Forall_app_2|apply be_bytes_ok|apply le_bytes_ok|apply Forall_nil_2|apply Forall_cons_2]; done.
Qed.

(** Every header made this way is accepted by the receiver's check. *)
Lemma ip_header_accepted odd opts tos len id off ttl proto src dest : (length opts <= 40)%nat -> bytes_ok opts ->
  byte_ok tos -> byte_ok ttl -> byte_ok proto -> inet_chksum odd (ip_header opts tos len id off ttl proto src dest) = 0.
Proof.
  intros Ho Hob H1 H2 H3. set (f chk := ip_fields (v_hl_of opts) tos len id off ttl proto chk src dest ++ opts).
  assert (byte_ok (v_hl_of opts)) as Hv by (unfold v_hl_of, byte_ok; zdm).
  assert (forall chk, bytes_ok chk -> bytes_ok (f chk)) as Hf by (intros chk Hc; apply Forall_app_2; [by apply ip_fields_ok|done]).
  change (ip_header opts tos len id off ttl proto src dest) with (f (be_bytes 2 (rfc1071_checksum (f [0; 0])))). unfold inet_chksum. rewrite standard_chksum_norm; [|apply Hf, be_bytes_ok|].
  2: { unfold f. rewrite length_app, length_ip_fields by apply length_be_bytes. lia. }
  rewrite <- checksum_bytes by (apply Hf; repeat constructor; unfold byte_ok; lia).
  set (a := [v_hl_of opts; tos] ++ be_bytes 2 len ++ be_bytes 2 id ++ be_bytes 2 off ++ [ttl; proto]). set (b := (le_bytes 4 src ++ le_bytes 4 dest) ++ opts).
  assert (forall chk, f chk = a ++ chk ++ b) as Ef by (intros chk; unfold f, ip_fields, a, b; by rewrite <- !app_assoc). rewrite !Ef.
  apply checksum_zero; [| |by exists 5%nat|done].
  - unfold a. repeat first [apply Forall_app_2|apply be_bytes_ok|apply Forall_nil_2|apply Forall_cons_2]; done.
  - unfold b. repeat first [apply Forall_app_2|apply le_bytes_ok]; done.
Qed.

(** ** The sum on the way *)

(** PP_NTOHS(lo | (hi << 8)) *)
Lemma htons_pair lo hi : byte_ok lo -> byte_ok hi -> PP_HTONS (Z.lor lo (Z.shiftl hi 8)) = hi + 256 * lo.
Proof.
  unfold byte_ok. intros Hl Hh. rewrite shiftl_mul, (lor_add_disjoint lo hi 8) by lia. unfold PP_HTONS. fold (SWAP_BYTES_IN_WORD (lo + hi * 2 ^ 8)).
  change (2 ^ 8) with 256. rewrite swap_val by lia. rewrite u16_id by zdm. zdm.
Qed.

(** Removes [u32] around sums that do not overflow, inside first. *)
Ltac strip_u32 := repeat match goal with |- context [u32 ?a] => lazymatch a with context [u32 _] => fail | _ => rewrite (u32_id a) by lia end end.

(** The two folds at the end, the second without a mask. *)
Lemma inline_fold t : 0 <= t < 0x1000000 ->
  u16 (not32 (u32 (Z.shiftr (u32 (Z.shiftr t 16 + Z.land t 0xFFFF)) 16 + u32 (Z.shiftr t 16 + Z.land t 0xFFFF)))) = not16 (norm t).
Proof.
  intros Ht. change (u32 (Z.shiftr t 16 + Z.land t 0xFFFF)) with (FOLD_U32T t). rewrite (fold_val t) by lia. set (x := t / 65536 + t mod 65536).
  assert (0 <= x < 131071) as Hx by (subst x; zdm). rewrite shiftr_div by lia. change (2 ^ 16) with 65536. rewrite (u32_id (x / 65536 + x)) by zdm.
  rewrite <- (norm_unique t (if x <? 65536 then x else x - 65535)).
  - unfold u16, not16, not32. destruct (x <? 65536) eqn:E; zdm.
  - destruct (x <? 65536) eqn:E; zdm.
  - unfold ceq. subst x. destruct (_ <? 65536) eqn:E; (split; [zdm|split; [lia|split; zdm]]).
Qed.

Definition opt_words (opts : bytes) : Z := fst (add_words opts 0).
Lemma add_words_acc d : forall a b, bytes_ok d -> 0 <= a -> 0 <= b -> a + b + 65535 * Z.of_nat (length d) < 4294967296 ->
  fst (add_words d (a + b)) = a + fst (add_words d b).
Proof.
  induction d as [|x|x y d IH] using pairs_ind; intros a b Hd Ha Hb Hl; [done|done|]. cbn [add_words length] in *.
  apply Forall_cons in Hd as [Hx Hd]. apply Forall_cons in Hd as [Hy Hd]. unfold byte_ok in *. rewrite !u32_id by lia.
  rewrite <- IH by (done || lia). f_equal. f_equal. lia.
Qed.
Lemma opt_words_range opts : bytes_ok opts -> (length opts <= 40)%nat -> 0 <= opt_words opts <= 65535 * 20.
Proof.
  intros Ho Hl. destruct (add_words_run opts Ho 0 ltac:(lia) ltac:(zdm)) as (t & r & E & Hr & _). unfold opt_words. rewrite E. cbn [fst]. zdm.
Qed.

(** Bytes in memory as words of the machine. *)
Lemma word_bytes w : w mod 256 + 256 * (w / 256) = w.
Proof. zdm. Qed.
Lemma le4_words z : 0 <= z < 4294967296 ->
  le_bytes 4 z = [z mod 65536 mod 256; z mod 65536 / 256; z / 65536 mod 256; z / 65536 / 256].
Proof. intros Hz. cbn [le_bytes]. unfold u8. f_equal; [zdm|]. f_equal; [zdm|]. f_equal; [zdm|]. f_equal; zdm. Qed.
Lemma be2_word z : 0 <= z < 65536 -> be_bytes 2 z = [SWAP_BYTES_IN_WORD z mod 256; SWAP_BYTES_IN_WORD z / 256].
Proof.
  intros Hz. unfold be_bytes. cbn [le_bytes]. change (reverse [?a; ?b]) with [b; a]. rewrite swap_val by done. unfold u8. f_equal; [zdm|]. f_equal; zdm.
Qed.

(** The fields' sum is the sum of the header's words. *)
Lemma header_words opts tos len id ttl proto src dest : bytes_ok opts -> (length opts <= 40)%nat -> Nat.Even (length opts) ->
  byte_ok tos -> byte_ok ttl -> byte_ok proto -> 0 <= len < 65536 -> 0 <= id < 65536 -> 0 <= src < 2 ^ 32 -> 0 <= dest < 2 ^ 32 ->
  let v := v_hl_of opts in
  let sum := opt_words opts + (ttl + 256 * proto) + dest mod 65536 + dest / 65536 + (v + 256 * tos) + SWAP_BYTES_IN_WORD len +
    SWAP_BYTES_IN_WORD id + src mod 65536 + src / 65536 in
  0 <= sum < 0x1000000 /\ norm sum = norm (le_val (ip_fields v tos len id 0 ttl proto [0; 0] src dest ++ opts)).
Proof.
  intros Ho Hl Hev H1 H2 H3 Hn Hi Hs Hd v sum. pose proof (opt_words_range _ Ho Hl) as Hr. assert (byte_ok v) as Hv by (unfold v, v_hl_of, byte_ok; zdm).
  change (2 ^ 32) with 4294967296 in *. pose proof (swap_range len Hn) as R1. pose proof (swap_range id Hi) as R2.
  set (hdr := ip_fields v tos len id 0 ttl proto [0; 0] src dest ++ opts).
  assert (bytes_ok hdr) as Hok by (apply Forall_app_2; [apply ip_fields_ok; try done; repeat constructor; unfold byte_ok; lia|done]).
  assert (length hdr = (20 + length opts)%nat) as Hlh by (unfold hdr; by rewrite length_app, length_ip_fields).
  unfold byte_ok in *. split; [subst sum; zdm|]. destruct (add_words_run hdr Hok 0 ltac:(lia) ltac:(zdm)) as (t & r & E & Ht & _ & Hr' & Hc).
  assert (r = []) as ->. { destruct Hr' as [->|(x & -> & Hodd)]; [done|]. destruct Hev as [k Hk]. rewrite Hlh, Hk in Hodd. zdm. }
  assert (t = sum) as ->.
  { change t with (fst (t, @nil Z)). rewrite <- E. unfold hdr, ip_fields. rewrite (le4_words src), (le4_words dest), (be2_word len), (be2_word id) by lia.
    change (be_bytes 2 0) with [0; 0]. cbn [app add_words].
    set (w := u32 (u32 _ + _)).
    assert (w = sum - opt_words opts + 0) as ->.
    { subst w sum. rewrite !word_bytes. pose proof (Z.mod_pos_bound src 65536). pose proof (Z.mod_pos_bound dest 65536).
      assert (0 <= src / 65536 < 65536 /\ 0 <= dest / 65536 < 65536) by zdm. strip_u32. lia. }
    rewrite add_words_acc; [unfold opt_words; lia|done|subst sum; zdm|lia|subst sum; zdm]. }
  apply norm_eq. cbn [le_val] in Hc. rewrite !Z.add_0_r, Z.add_0_l in Hc. exact Hc.
Qed.

(** The sum as the code computes it, over fields in the machine's byte order. *)
Definition inline_chksum (c0 vt len id tp src dest : Z) : Z :=
  let c := u32 (c0 + tp) in
  let c := u32 (u32 (c + Z.land dest 0xFFFF) + Z.shiftr dest 16) in
  let c := u32 (u32 (u32 (c + vt) + len) + id) in
  let c := u32 (u32 (c + Z.land src 0xFFFF) + Z.shiftr src 16) in
  let c := u32 (Z.shiftr c 16 + Z.land c 0xFFFF) in
  u16 (not32 (u32 (Z.shiftr c 16 + c))).
Lemma inline_chksum_run opts tos len id ttl proto src dest : bytes_ok opts -> (length opts <= 40)%nat -> Nat.Even (length opts) ->
  byte_ok tos -> byte_ok ttl -> byte_ok proto -> 0 <= len < 65536 -> 0 <= id < 65536 -> 0 <= src < 2 ^ 32 -> 0 <= dest < 2 ^ 32 ->
  let v := v_hl_of opts in
  le_bytes 2 (inline_chksum (opt_words opts) (v + 256 * tos) (SWAP_BYTES_IN_WORD len) (SWAP_BYTES_IN_WORD id) (ttl + 256 * proto) src dest) =
    be_bytes 2 (rfc1071_checksum (ip_fields v tos len id 0 ttl proto [0; 0] src dest ++ opts)).
Proof.
  intros Ho Hl Hev H1 H2 H3 Hn Hi Hs Hd v. destruct (header_words opts tos len id ttl proto src dest Ho Hl Hev H1 H2 H3 Hn Hi Hs Hd) as [Hr Hw]. fold v in Hr, Hw.
  assert (byte_ok v) as Hv by (unfold v, v_hl_of, byte_ok; zdm). pose proof (opt_words_range _ Ho Hl) as R0. pose proof (swap_range len Hn) as R1. pose proof (swap_range id Hi) as R2.
  rewrite <- checksum_bytes by (apply Forall_app_2; [apply ip_fields_ok; try done; repeat constructor; unfold byte_ok; lia|done]). rewrite <- Hw. f_equal.
  unfold inline_chksum. change 0xFFFF with (2 ^ 16 - 1). rewrite !(land_mask dest), !(land_mask src), !(shiftr_div dest), !(shiftr_div src) by lia. change (2 ^ 16) with 65536.
  unfold byte_ok in *. change (2 ^ 32) with 4294967296 in *. rewrite <- inline_fold by done.
  assert (0 <= src mod 65536 < 65536 /\ 0 <= dest mod 65536 < 65536) by zdm. assert (0 <= src / 65536 < 65536 /\ 0 <= dest / 65536 < 65536) by zdm.
  match goal with |- u16 (not32 (u32 (Z.shiftr (u32 (Z.shiftr ?c 16 + _)) 16 + _))) = _ => match goal with |- _ = u16 (not32 (u32 (Z.shiftr (u32 (Z.shiftr ?t 16 + _)) 16 + _))) =>
    replace c with t by (strip_u32; lia) end end. done.
Qed.

(** ** Writing the header *)

(** Options are padded with zeros to a multiple of four bytes. *)
Definition padded (opts : bytes) : bytes := opts ++ repeat 0 (Z.to_nat ((Z.of_nat (length opts) + 3) / 4 * 4 - Z.of_nat (length opts))).
Lemma length_padded opts : Z.of_nat (length (padded opts)) = (Z.of_nat (length opts) + 3) / 4 * 4.
Proof. unfold padded. rewrite length_app, repeat_length. zdm. Qed.
Lemma padded_ok opts : bytes_ok opts -> bytes_ok (padded opts).
Proof. intros Ho. apply Forall_app_2; [done|]. generalize (Z.to_nat ((Z.of_nat (length opts) + 3) / 4 * 4 - Z.of_nat (length opts))). intros n. induction n; by constructor. Qed.
Lemma align4 n : 0 <= n -> Z.land (n + 3) (Z.lnot 3) = (n + 3) / 4 * 4.
Proof. intros Hn. rewrite <- Z.ldiff_land. change 3 with (Z.ones 2) at 2. rewrite Z.ldiff_ones_r by lia. rewrite Z.shiftr_div_pow2, Z.shiftl_mul_pow2 by lia. done. Qed.

Section IpProofs.
Context `{PbufEnv} `{Addresses} {U : Type} `{IpIn U}.
Implicit Types s : stack U.

Definition with_ip s (g : ip_globals) : stack U := s <| upper := ip_put g (upper s) |>.
Definition ipg s : ip_globals := ip_get (upper s).

Lemma put_options_run s p b l opts : packet (mem s) p ((p, b) :: l) -> contiguous_type b ->
  Z.of_nat (length (padded opts)) <= poff (pb_payload b) -> sum_len ((p, b) :: l) + Z.of_nat (length (padded opts)) < 65536 ->
  bytes_ok opts -> (length opts <= 40)%nat ->
  let b' := moved b (- Z.of_nat (length (padded opts))) in
  exists d, put_options p opts (Z.of_nat (length opts)) s =
      Ok (inr (20 + Z.of_nat (length (padded opts)), opt_words (padded opts)), with_mem s (put_cell (with_dat (mem s) d) p b')) /\
    frame_dat [pblk (pb_payload b)] (dat (mem s)) d /\ cell_data d b' = padded opts ++ cell_data (dat (mem s)) b.
Proof.
  intros Hp Hct Ho Hl Hob Hlo. pose proof (length_padded opts) as Hal. destruct (packet_head _ _ _ _ _ Hp) as (_ & Hp0 & Hb & Hc & _ & Hlb & Hls).
  unfold put_options. destruct (Z.of_nat (length opts) =? 0) eqn:E0.
  { apply Z.eqb_eq in E0. destruct opts; [|cbn in E0; lia]. exists (dat (mem s)). change (- Z.of_nat (length (padded []))) with 0. rewrite moved_0. cbv zeta.
    rewrite with_dat_id, put_cell_id, with_mem_id by done. split; [done|]. split; [apply frame_refl|done]. }
  apply Z.eqb_neq in E0. rewrite (proj2 (Z.ltb_ge _ _)) by (change (IP_HLEN_MAX - IP_HLEN) with 40; lia). rewrite align4, <- Hal by lia.
  set (n := Z.of_nat (length (padded opts))) in *. rewrite (u16_id n) by zdm. cbv zeta.
  destruct (pbuf_add_header_run (mem s) p b l n Hp Hct ltac:(lia) Hl) as (Ea & Hp' & _). rewrite (onmem_run _ _ _ _ _ Ea). cbn [Z.eqb negb].
  destruct (cell_moved_back (dat (mem s)) b n Hc ltac:(lia)) as (Hc' & h & Hh & Eh). set (b' := moved b (- n)) in *. set (s1 := with_mem s (put_cell (mem s) p b')).
  rewrite (onmem_getp s1 p b' _ Hp0 (lookup_insert_eq _ _ _)), (proj2 (Z.ltb_ge _ _)) by lia. rewrite take_ge by lia.
  set (k := let* d := onmem (pread (pb_payload b') n) in ret (inr (u16 (IP_HLEN + n), (add_words d 0).1))).
  set (z := repeat 0 (Z.to_nat (n - Z.of_nat (length opts)))).
  assert (pb_len b' = pb_len b + n) as Hlb' by (change (pb_len b') with (pb_len b - - n); lia).
  destruct (put_all_run b' [(0, opts); (Z.of_nat (length opts), z)] k s1 Hc') as (d & E & F & C).
  { unfold fits. cbn [forallb fst snd]. unfold z. rewrite repeat_length, Hlb'. rewrite !andb_true_iff, !Z.leb_le. zdm. }
  change (put_all b' [(0, opts); (Z.of_nat (length opts), z)] k s1) with ((onmem (pwrite (ptr_add (pb_payload b') 0) opts) ;;; wr (pb_payload b') (Z.of_nat (length opts)) z ;;; k) s1) in E. rewrite ptr_add_0 in E.
  change (dat (mem s1)) with (dat (mem s)) in F, C. rewrite Eh in C.
  assert (cell_data d b' = padded opts ++ cell_data (dat (mem s)) b) as C'.
  { rewrite C. unfold blits. cbn [fold_left fst snd]. change (Z.to_nat 0) with 0%nat. rewrite Nat2Z.id. pose proof (blit_twice 0 opts z (h ++ cell_data (dat (mem s)) b)) as Eb. cbn [Nat.add] in Eb.
    rewrite Eb by (unfold z; rewrite repeat_length, length_app; zdm). replace (opts ++ z) with (padded opts) by (unfold padded, z; by rewrite <- Hal).
    rewrite blit_app_le by zdm. rewrite blit_all by (unfold n in Hh; lia). done. }
  exists d. split; [|done]. etransitivity; [exact E|]. subst k. set (s2 := with_mem s1 _). assert (cell_ok (dat (mem s2)) b') as Hc2 by (by eapply frame_cell_ok).
  pose proof (pread_cell (mem s2) b' 0 n Hc2 ltac:(lia) ltac:(zdm) ltac:(lia)) as Er. rewrite ptr_add_0, drop_0 in Er. rewrite (onmem_run s2 _ _ _ _ Er).
  change (dat (mem s2)) with d. rewrite C', take_app_length' by lia. rewrite u16_id by (change IP_HLEN with 20; zdm). unfold ret. do 2 f_equal.
Qed.

Lemma with_ip_mem s g m : with_mem (with_ip s g) m = with_ip (with_mem s m) g.
Proof. by destruct s. Qed.
Lemma packet_dat (m : lmem) d p l : frame_dat (blocks l) (dat m) d -> packet m p l -> packet (with_dat m d) p l.
Proof. apply frame_packet. Qed.

(** The writes of the header, in the order of the code. *)
Definition header_writes (v tos len id ttl proto : Z) (chk : bytes) (src dest : Z) : list (Z * bytes) :=
  [(IPH_TTL, [ttl]); (IPH_PROTO, [proto]); (IPH_DEST, le_bytes 4 dest); (IPH_VHL, [v]); (IPH_TOS, [tos]); (IPH_LEN, be_bytes 2 len);
   (IPH_OFFSET, le_bytes 2 0); (IPH_ID, be_bytes 2 id); (IPH_SRC, le_bytes 4 src); (IPH_CHKSUM, chk)].
Lemma header_blits v tos len id ttl proto chk src dest h rest : length h = 20%nat -> length chk = 2%nat ->
  blits (header_writes v tos len id ttl proto chk src dest) (h ++ rest) = ip_fields v tos len id 0 ttl proto chk src dest ++ rest.
Proof.
  intros Hh Hk. pose proof (length_be_bytes 2 len) as L1. pose proof (length_be_bytes 2 id) as L2. pose proof (length_le_bytes 4 src) as L3. pose proof (length_le_bytes 4 dest) as L4.
  unfold header_writes, ip_fields. change (be_bytes 2 0) with [0; 0]. change (le_bytes 2 0) with [0; 0].
  set (L := be_bytes 2 len) in *. set (I := be_bytes 2 id) in *. set (S := le_bytes 4 src) in *. set (D := le_bytes 4 dest) in *. clearbody L I S D.
  destruct_len h. destruct_len L. destruct_len I. destruct_len S. destruct_len D. destruct_len chk. done.
Qed.

Definition next_id (g : ip_globals) : ip_globals := g <| ip_id := u16 (ip_id g + 1) |>.

(** These writes, with the counter of the identification in between. *)
Lemma header_put {A} s b v tos len ttl proto src dest (chk : Z -> bytes) (k : M (stack U) A) : cell_ok (dat (mem s)) b -> 20 <= pb_len b ->
  let id := ip_id (ipg s) in 0 <= id < 65536 -> length (chk id) = 2%nat ->
  exists d,
    (wr (pb_payload b) IPH_TTL [ttl] ;;; wr (pb_payload b) IPH_PROTO [proto] ;;; wr (pb_payload b) IPH_DEST (le_bytes 4 dest) ;;;
     wr (pb_payload b) IPH_VHL [v] ;;; wr (pb_payload b) IPH_TOS [tos] ;;; wr (pb_payload b) IPH_LEN (be_bytes 2 len) ;;;
     wr (pb_payload b) IPH_OFFSET (le_bytes 2 0) ;;;
     let* id := getip ip_id in
     wr (pb_payload b) IPH_ID (le_bytes 2 (lwip_htons id)) ;;; modip (fun g => g <| ip_id := u16 (id + 1) |>) ;;;
     wr (pb_payload b) IPH_SRC (le_bytes 4 src) ;;; wr (pb_payload b) IPH_CHKSUM (chk id) ;;; k) s =
      k (with_ip (with_mem s (with_dat (mem s) d)) (next_id (ipg s))) /\
    frame_dat [pblk (pb_payload b)] (dat (mem s)) d /\ cell_data d b = blits (header_writes v tos len id ttl proto (chk id) src dest) (cell_data (dat (mem s)) b).
Proof.
  intros Hc Hl id Hid Hk. set (w1 := take 7 (header_writes v tos len id ttl proto (chk id) src dest)).
  set (w2 := [(IPH_ID, be_bytes 2 id)]). set (w3 := [(IPH_SRC, le_bytes 4 src); (IPH_CHKSUM, chk id)]).
  assert (fits (pb_len b) (w1 ++ w2 ++ w3) = true) as Hf.
  { unfold fits, w1, w2, w3, header_writes. cbn [take app forallb fst snd]. rewrite Hk, !length_be_bytes, !length_le_bytes. cbn [length].
    unfold IPH_TTL, IPH_PROTO, IPH_DEST, IPH_VHL, IPH_TOS, IPH_LEN, IPH_OFFSET, IPH_ID, IPH_SRC, IPH_CHKSUM. rewrite !andb_true_iff, !Z.leb_le. lia. }
  unfold fits in Hf. rewrite !forallb_app in Hf. apply andb_true_iff in Hf as [Hf1 [Hf2 Hf3]%andb_true_iff].
  set (k2 := fun id => modip (fun g => g <| ip_id := u16 (id + 1) |>) ;;; put_all b [(IPH_SRC, le_bytes 4 src); (IPH_CHKSUM, chk id)] k).
  destruct (put_all_run b w1 (let* id := getip ip_id in put_all b [(IPH_ID, le_bytes 2 (lwip_htons id))] (k2 id)) s Hc Hf1) as (d1 & E1 & F1 & C1).
  set (s1 := with_mem s (with_dat (mem s) d1)) in *. assert (cell_ok (dat (mem s1)) b) as Hc1 by (by eapply frame_cell_ok).
  destruct (put_all_run b w2 (k2 id) s1 Hc1 Hf2) as (d2 & E2 & F2 & C2). change (dat (mem s1)) with d1 in F2, C2.
  set (s2 := with_ip (with_mem s1 (with_dat (mem s1) d2)) (next_id (ipg s))). assert (cell_ok (dat (mem s2)) b) as Hc2 by (by eapply frame_cell_ok).
  destruct (put_all_run b w3 k s2 Hc2 Hf3) as (d3 & E3 & F3 & C3). change (dat (mem s2)) with d2 in F3, C3. exists d3. split; [|split].
  - etransitivity; [exact E1|]. rewrite (bind_run _ _ _ id s1) by done. rewrite htons_bytes by done. fold w2. rewrite E2.
    etransitivity; [|etransitivity; [exact E3|]]; [done|]. f_equal.
  - eauto using frame_trans.
  - rewrite C3, C2, C1. unfold blits. rewrite <- !fold_left_app. done.
Qed.

Lemma output_header_run s p b l opts src dest ttl tos proto :
  let n := 20 + Z.of_nat (length (padded opts)) in let total := sum_len ((p, b) :: l) + n in
  packet (mem s) p ((p, b) :: l) -> contiguous_type b -> n <= poff (pb_payload b) -> total < 65536 -> bytes_ok opts -> (length opts <= 40)%nat ->
  byte_ok tos -> byte_ok ttl -> byte_ok proto -> 0 <= src < 2 ^ 32 -> 0 <= dest < 2 ^ 32 -> 0 <= ip_id (ipg s) < 65536 ->
  exists d, let b' := moved b (- n) in
    let hdr := ip_header (padded opts) tos total (ip_id (ipg s)) 0 ttl proto src dest in
    ip4_output_if_opt_src p (Some src) (Some dest) ttl tos proto opts (Z.of_nat (length opts)) s =
      output_to p dest (with_ip (with_mem s (put_cell (with_dat (mem s) d) p b')) (next_id (ipg s))) /\
    frame_dat [pblk (pb_payload b)] (dat (mem s)) d /\ cell_data d b' = hdr ++ cell_data (dat (mem s)) b.
Proof.
  intros n total Hp Hct Ho Hl Hob Hlo H2 H3 H4 Hsrc Hdest Hid. set (al := Z.of_nat (length (padded opts))) in *.
  pose proof (length_padded opts) as Hal. fold al in Hal. destruct (packet_head _ _ _ _ _ Hp) as (_ & Hp0 & Hb & Hc & Htl & Hlb & Hls).
  destruct (put_options_run s p b l opts Hp Hct ltac:(fold al; lia) ltac:(fold al; lia) Hob Hlo) as (d1 & E1 & F1 & C1). fold al in E1, C1. set (b1 := moved b (- al)) in *.
  set (m1 := put_cell (with_dat (mem s) d1) p b1) in *. assert (cell_ok d1 b1) as Hc1 by (eapply frame_cell_ok; [exact F1|]; apply (cell_moved_back _ _ al Hc); lia).
  assert (packet (with_dat (mem s) d1) p ((p, b) :: l)) as Hp1' by (eapply frame_packet; [exact F1|done]).
  pose proof (packet_moved (with_dat (mem s) d1) p b l (- al) Hp1' Hc1 ltac:(lia)) as Hp1. fold b1 m1 in Hp1.
  unfold ip4_output_if_opt_src. rewrite (bind_run _ _ _ _ _ E1). cbv beta iota. cbn [sum_len snd] in *.
  assert (sum_len ((p, b1) :: l) = sum_len ((p, b) :: l) + al) as Hsl by (cbn [sum_len snd]; change (pb_len b1) with (pb_len b - - al); lia). cbn [sum_len snd] in Hsl.
  destruct (pbuf_add_header_run m1 p b1 l 20 Hp1 Hct ltac:(change (poff (pb_payload b1)) with (poff (pb_payload b) + - al); lia) ltac:(cbn [sum_len snd]; lia)) as (Ea & _).
  change IP_HLEN with 20 at 1. rewrite (onmem_run (with_mem s m1) _ _ _ _ Ea). cbn [Z.eqb negb]. rewrite with_mem_mem.
  destruct (cell_moved_back d1 b1 20 Hc1 ltac:(change (poff (pb_payload b1)) with (poff (pb_payload b) + - al); lia)) as (Hc2 & h & Hh & Eh).
  assert (moved b1 (- (20)) = moved b (- n)) as Emv by (unfold b1; rewrite moved_moved; f_equal; lia). rewrite Emv in *. set (b2 := moved b (- n)) in *.
  assert (put_cell m1 p b2 = put_cell (with_dat (mem s) d1) p b2) as -> by apply put_cell_put. set (s2 := with_mem s (put_cell (with_dat (mem s) d1) p b2)).
  rewrite (onmem_getp s2 p b2 _ Hp0 (lookup_insert_eq _ _ _)).
  assert (pb_tot_len b2 = total) as Ht2 by (change (pb_tot_len b2) with (pb_tot_len b - - n); lia). rewrite Ht2.
  assert (pb_len b2 = pb_len b + n) as Hlb2 by (change (pb_len b2) with (pb_len b - - n); lia).
  rewrite !(u8_id ttl), !(u8_id proto) by done.
  assert (u8 (Z.lor (Z.shiftl 4 4) ((20 + al) / 4)) = v_hl_of (padded opts)) as ->.
  { unfold v_hl_of. fold al. change (Z.shiftl 4 4) with (4 * 2 ^ 4). rewrite lor_disjoint_l by zdm. rewrite u8_id by (unfold byte_ok; zdm). zdm. }
  rewrite !htons_pair by (done || (unfold v_hl_of, byte_ok; fold al; zdm)). rewrite (htons_bytes total) by (cbn [sum_len snd] in *; lia).
  assert (lwip_htons total = SWAP_BYTES_IN_WORD total) as -> by (unfold lwip_htons, PP_HTONS; fold (SWAP_BYTES_IN_WORD total); apply u16_id, swap_range; lia).
  set (id := ip_id (ipg s)) in *. set (v := v_hl_of (padded opts)).
  assert (lwip_htons id = SWAP_BYTES_IN_WORD id) as Hsid by (unfold lwip_htons, PP_HTONS; fold (SWAP_BYTES_IN_WORD id); apply u16_id, swap_range; lia).
  destruct (header_put s2 b2 v tos total ttl proto src dest (fun id => le_bytes 2 (inline_chksum (opt_words (padded opts)) (v + 256 * tos) (SWAP_BYTES_IN_WORD total)
    (lwip_htons id) (ttl + 256 * proto) src dest)) (output_to p dest) Hc2 ltac:(lia) Hid ltac:(apply length_le_bytes)) as (d & E & F & C).
  exists d. split; [|split].
  - etransitivity; [exact E|]. subst s2. rewrite with_mem_mem. done.
  - change (dat (mem s2)) with d1 in F. change (pblk (pb_payload b2)) with (pblk (pb_payload b)) in F. by eapply frame_trans.
  - change (ip_id (ipg s2)) with id in C. change (dat (mem s2)) with d1 in C. rewrite Hsid, Eh, C1 in C. unfold v in C.
    rewrite inline_chksum_run in C; [|by apply padded_ok|subst al; zdm|exists (Z.to_nat (al / 2)); subst al; zdm|done|done|done|lia|done|done|done].
    rewrite C, header_blits; [|lia|apply length_be_bytes]. unfold ip_header. by rewrite <- !app_assoc.
Qed.

(** ** To the neighbour *)

(** The link-layer address for [a] is known and not due for a new request. *)
Record neighbour s (a : Z) (mac : bytes) : Prop := {
  nb_unicast : unicast (nif s) a;
  nb_hint : nf_hint (nif s) = None;
  nb_hwaddr : length (nf_hwaddr (nif s)) = 6%nat;
  nb_mac : length mac = 6%nat;
  nb_entry : exists hop i e, next_hop (nif s) a = Some hop /\ find_stable (arp_table s) hop 0 = Some i /\
    arp_table s !! Z.to_nat i = Some e /\ ar_ethaddr e = mac /\ (ar_state e = ETHARP_STATE_STABLE -> ar_ctime e < ARP_AGE_REREQUEST_USED_UNICAST)
}.
Definition ip_frame s (mac pkt : bytes) : bytes := eth_header (nf_hwaddr (nif s)) mac (Z.of_nat (length pkt) + 10) ETHTYPE_IP ++ pkt.

Lemma output_known_eq s p a mac : neighbour s a mac -> etharp_output p a s = ethernet_output p (nf_hwaddr (nif s)) mac ETHTYPE_IP s.
Proof.
  intros [[Hb Hm] Hh _ _ (hop & i & e & Hn & Hf & He & <- & Hage)]. unfold etharp_output.
  rewrite (bind_run _ _ _ _ _ (eq_refl : gets nif s = Ok (nif s, s))), Hb, Hm, Hh. unfold next_hop in Hn.
  pose proof (find_stable_spec (arp_table s) hop 0 ltac:(lia)) as Hsp. rewrite Hf, Z.sub_0_r in Hsp. destruct Hsp as (Hi & _).
  assert (etharp_output_to_arp_index p i s = ethernet_output p (nf_hwaddr (nif s)) (ar_ethaddr e) ETHTYPE_IP s) as Hout.
  { unfold etharp_output_to_arp_index. rewrite (entry_run _ _ _ _ Hi He). case_bool_decide as Es; [rewrite !(proj2 (Z.leb_gt _ _)) by
      (specialize (Hage Es); unfold ARP_AGE_REREQUEST_USED_BROADCAST, ARP_AGE_REREQUEST_USED_UNICAST, ARP_MAXAGE in *; lia)|];
    rewrite bind_ret, (bind_run _ _ _ _ _ (eq_refl : gets nif s = Ok (nif s, s))), (entry_run _ _ _ _ Hi He); done. }
  destruct (_ && _); [destruct (ip4_addr_isany_val (nf_gw (nif s))); [done|]|]; injection Hn as Hn; cbn [andb];
    rewrite ?Hn, (bind_run _ _ _ _ _ (eq_refl : gets arp_table s = Ok (arp_table s, s))), Hf;
    unfold ETHARP_SET_ADDRHINT; unfold bind at 1, modify; by rewrite Hh.
Qed.

Lemma output_known_run s p b l a mac : neighbour s a mac -> packet (mem s) p ((p, b) :: l) -> contiguous_type b ->
  SIZEOF_ETH_HDR <= poff (pb_payload b) -> sum_len ((p, b) :: l) + SIZEOF_ETH_HDR < 65536 -> pb_len b + SIZEOF_ETH_HDR <= DATA_BUF_LEN ->
  exists d, etharp_output p a s = Ok (ERR_OK, send s (after_output (mem s) p b d) (ip_frame s mac (cell_data (dat (mem s)) b))) /\
    frame_dat [pblk (pb_payload b)] (dat (mem s)) d.
Proof.
  intros Hn Hp Hct Ho Hl Hfit. rewrite (output_known_eq _ _ _ _ Hn). destruct (packet_head _ _ _ _ _ Hp) as (_ & _ & _ & Hc & _).
  destruct (ethernet_output_run s p b l (nf_hwaddr (nif s)) mac ETHTYPE_IP Hp Hct Ho Hl (nb_hwaddr _ _ _ Hn) (nb_mac _ _ _ Hn) ltac:(done) Hfit) as (d & E & F & _).
  exists d. split; [|done]. rewrite E. unfold ip_frame. by rewrite (length_cell _ _ Hc).
Qed.

(** ** A whole datagram *)

Lemma output_to_small s p b l dest : packet (mem s) p ((p, b) :: l) -> pb_tot_len b <= IF_MTU_SIZE -> output_to p dest s = etharp_output p dest s.
Proof.
  intros Hp Ht. destruct (packet_head _ _ _ _ _ Hp) as (_ & Hp0 & Hb & _). unfold output_to. rewrite (onmem_getp _ _ _ _ Hp0 Hb).
  change (nz IF_MTU_SIZE) with true. cbn [andb]. by rewrite (proj2 (Z.ltb_ge _ _)) by lia.
Qed.
Lemma neighbour_with s m g a mac : neighbour s a mac -> neighbour (with_ip (with_mem s m) g) a mac.
Proof. by intros [? ? ? ? ?]. Qed.

(** A packet of one cell with room for the headers leaves as one frame. *)
Lemma send_datagram_run s p b opts src dest ttl tos proto mac :
  let n := 20 + Z.of_nat (length (padded opts)) in
  let pkt := ip_header (padded opts) tos (pb_len b + n) (ip_id (ipg s)) 0 ttl proto src dest ++ cell_data (dat (mem s)) b in
  neighbour s dest mac -> packet (mem s) p [(p, b)] -> contiguous_type b -> n + SIZEOF_ETH_HDR <= poff (pb_payload b) -> pb_len b + n <= IF_MTU_SIZE ->
  bytes_ok opts -> (length opts <= 40)%nat -> byte_ok tos -> byte_ok ttl -> byte_ok proto -> 0 <= src < 2 ^ 32 -> 0 <= dest < 2 ^ 32 -> 0 <= ip_id (ipg s) < 65536 ->
  exists d, ip4_output_if_opt_src p (Some src) (Some dest) ttl tos proto opts (Z.of_nat (length opts)) s =
      Ok (ERR_OK, with_ip (send s (put_cell (with_dat (mem s) d) p (moved b (- (n + SIZEOF_ETH_HDR)))) (ip_frame s mac pkt)) (next_id (ipg s))) /\
    frame_dat [pblk (pb_payload b)] (dat (mem s)) d.
Proof.
  intros n pkt Hn Hp Hct Ho Hm Hob Hlo H2 H3 H4 Hs Hd Hid. change SIZEOF_ETH_HDR with 24 in *. change IF_MTU_SIZE with 1392 in *.
  destruct (packet_head _ _ _ _ _ Hp) as (_ & Hp0 & Hb & Hc & Htl & Hlb & _). cbn [sum_len] in Htl.
  destruct (output_header_run s p b [] opts src dest ttl tos proto Hp Hct ltac:(fold n; lia) ltac:(cbn [sum_len snd]; fold n; lia) Hob Hlo H2 H3 H4 Hs Hd Hid) as (d1 & E1 & F1 & C1).
  fold n in E1, C1. cbn [sum_len snd] in C1. rewrite Z.add_0_r in C1. fold pkt in C1. rewrite E1. set (b1 := moved b (- n)) in *. set (s1 := with_ip _ _).
  assert (cell_ok d1 b1) as Hc1 by (eapply frame_cell_ok; [exact F1|]; apply (cell_moved_back _ _ n Hc); lia).
  assert (packet (mem s1) p [(p, b1)]) as Hp1.
  { apply (packet_moved (with_dat (mem s) d1) p b [] (- n)); [eapply frame_packet; [exact F1|done]|done|cbn [sum_len snd]; lia]. }
  rewrite (output_to_small _ _ _ _ _ Hp1) by (change (pb_tot_len b1) with (pb_tot_len b - - n); change IF_MTU_SIZE with 1392; lia).
  destruct (output_known_run s1 p b1 [] dest mac (neighbour_with _ _ _ _ _ Hn) Hp1 Hct) as (d2 & E2 & F2).
  { change (poff (pb_payload b1)) with (poff (pb_payload b) + - n). change SIZEOF_ETH_HDR with 24. lia. }
  { cbn [sum_len snd]. change (pb_len b1) with (pb_len b - - n). change SIZEOF_ETH_HDR with 24. lia. }
  { change (pb_len b1) with (pb_len b - - n). change SIZEOF_ETH_HDR with 24. change DATA_BUF_LEN with 1536. lia. }
  change (dat (mem s1)) with d1 in E2, F2. rewrite C1 in E2. exists d2. split; [|by eapply frame_trans]. rewrite E2. do 2 f_equal.
  unfold after_output. change (mem s1) with (put_cell (with_dat (mem s) d1) p b1).
  assert (put_cell (with_dat (put_cell (with_dat (mem s) d1) p b1) d2) p (moved b1 (- SIZEOF_ETH_HDR)) = put_cell (with_dat (mem s) d2) p (moved b (- (n + 24)))) as ->; [|done].
  unfold b1. rewrite moved_moved. change SIZEOF_ETH_HDR with 24. replace (- n + - (24)) with (- (n + 24)) by lia. apply (put_cell_put (with_dat (mem s) d2)).
Qed.
End IpProofs.
