(* ===== verification/FragProofs.v ===== *)
(** Fragmentation: the frames that ip4_frag sends for a datagram, and what their
    offsets and flags say about it. *)

From stdpp Require Import gmap.
From S2P Require Import Prelude Cmonad Cutils Heap Pbuf PbufProofs PbufChain Inet InetProofs Ethernet Etharp EthernetProofs EtharpProofs ArpProofs IpOutput IpProofs.

(** ** The fragments of a datagram *)

(** The data of a fragment, its offset field, and what is left: by the code's
    test for the last fragment. *)
Definition FRAG_DATA : Z := nfb * 8.
Definition frag_off (mf_set : bool) (left ofo : Z) : Z :=
  let tmp := Z.land IP_OFFMASK ofo in if negb (left <=? IF_MTU_SIZE - IP_HLEN) || mf_set then Z.lor tmp IP_MF else tmp.
Fixpoint fragments (fuel : nat) (mf_set : bool) (ofo : Z) (data : bytes) : list (Z * bytes) :=
  match fuel, data with
  | S fuel, _ :: _ =>
      (frag_off mf_set (Z.of_nat (length data)) ofo, take (Z.to_nat FRAG_DATA) data) ::
      fragments fuel mf_set (u16 (ofo + nfb)) (drop (Z.to_nat FRAG_DATA) data)
  | _, _ => []
  end.

(** ** One turn *)

Lemma frag_blits v tos len0 id off0 ttl proto chk src dest len off rest : length chk = 2%nat ->
  blits [(IPH_OFFSET, be_bytes 2 off); (IPH_LEN, be_bytes 2 len); (IPH_CHKSUM, le_bytes 2 0)] (ip_fields v tos len0 id off0 ttl proto chk src dest ++ rest) =
    ip_fields v tos len id off ttl proto [0; 0] src dest ++ rest.
Proof.
  intros Hk. unfold ip_fields. pose proof (length_be_bytes 2 len) as L1. pose proof (length_be_bytes 2 len0) as L2. pose proof (length_be_bytes 2 off) as L3.
  pose proof (length_be_bytes 2 off0) as L4. pose proof (length_be_bytes 2 id) as L5. change (le_bytes 2 0) with [0; 0].
  set (A := be_bytes 2 len) in *. set (B := be_bytes 2 len0) in *. set (C := be_bytes 2 off) in *. set (D := be_bytes 2 off0) in *. set (I := be_bytes 2 id) in *.
  clearbody A B C D I. destruct_len A. destruct_len B. destruct_len C. destruct_len D. destruct_len I. destruct_len chk. done.
Qed.
Lemma chk_blit v tos len id off ttl proto chk src dest rest : length chk = 2%nat ->
  blit 10 chk (ip_fields v tos len id off ttl proto [0; 0] src dest ++ rest) = ip_fields v tos len id off ttl proto chk src dest ++ rest.
Proof.
  intros Hk. unfold ip_fields. pose proof (length_be_bytes 2 len) as L1. pose proof (length_be_bytes 2 off) as L3. pose proof (length_be_bytes 2 id) as L5.
  set (A := be_bytes 2 len) in *. set (C := be_bytes 2 off) in *. set (I := be_bytes 2 id) in *. clearbody A C I.
  destruct_len A. destruct_len C. destruct_len I. destruct_len chk. done.
Qed.

Section Frag.
Context `{PbufEnv} `{Addresses} {U : Type} `{IpIn U}.
Implicit Types s : stack U.

(** Reads and writes of a header through its cell. *)
Lemma wr_run {A} s b off d (k : M (stack U) A) : cell_ok (dat (mem s)) b -> 0 <= off -> off + Z.of_nat (length d) <= pb_len b ->
  exists d', (wr (pb_payload b) off d ;;; k) s = k (with_mem s (with_dat (mem s) d')) /\ frame_dat [pblk (pb_payload b)] (dat (mem s)) d' /\
    cell_data d' b = blit (Z.to_nat off) d (cell_data (dat (mem s)) b).
Proof.
  intros Hc Ho Hl. destruct (pwrite_cell (mem s) b off d Hc Ho Hl) as (d' & E & F & C). exists d'. unfold wr. by rewrite (onmem_run _ _ _ _ _ E).
Qed.
Lemma rd_run {A} s b off n (k : Z -> M (stack U) A) : cell_ok (dat (mem s)) b -> 0 <= off -> 0 <= n -> off + n <= pb_len b ->
  bind (rd (pb_payload b) off n) k s = k (le_val (take (Z.to_nat n) (drop (Z.to_nat off) (cell_data (dat (mem s)) b)))) s.
Proof.
  intros Hc Ho Hn Hl. unfold rd. rewrite bind_assoc, (onmem_run _ _ _ _ _ (pread_cell (mem s) b off n Hc Ho Hn Hl)), with_mem_id. done.
Qed.
Lemma chksum_at_run {A} s b n hdr rest (k : Z -> M (stack U) A) : cell_ok (dat (mem s)) b -> cell_data (dat (mem s)) b = hdr ++ rest ->
  n = Z.of_nat (length hdr) -> n <= 1500 -> bytes_ok hdr -> bind (chksum_at (pb_payload b) n) k s = k (not16 (norm (le_val hdr))) s.
Proof.
  intros Hc Hd -> Hn Hb. pose proof (length_cell _ _ Hc) as Hl. rewrite Hd, length_app in Hl. unfold chksum_at.
  pose proof (pread_cell (mem s) b 0 (Z.of_nat (length hdr)) Hc ltac:(lia) ltac:(lia) ltac:(lia)) as E. rewrite ptr_add_0, drop_0 in E.
  rewrite bind_assoc, (onmem_run _ _ _ _ _ E), with_mem_id, Hd, Nat2Z.id, take_app_length, bind_ret. unfold inet_chksum. by rewrite standard_chksum_norm by (done || lia).
Qed.

(** The fields that change, then the checksum over the new header. *)
Lemma frag_header_run {A} s c tos len0 id off0 ttl proto chk src dest len off rest (k : M (stack U) A) :
  cell_ok (dat (mem s)) c -> cell_data (dat (mem s)) c = ip_fields 0x45 tos len0 id off0 ttl proto chk src dest ++ rest -> length chk = 2%nat ->
  byte_ok tos -> byte_ok ttl -> byte_ok proto -> 0 <= len < 65536 -> 0 <= off < 65536 ->
  exists d, (wr (pb_payload c) IPH_OFFSET (le_bytes 2 (lwip_htons off)) ;;; wr (pb_payload c) IPH_LEN (le_bytes 2 (lwip_htons len)) ;;;
     wr (pb_payload c) IPH_CHKSUM (le_bytes 2 0) ;;; let* x := chksum_at (pb_payload c) IP_HLEN in wr (pb_payload c) IPH_CHKSUM (le_bytes 2 x) ;;; k) s =
      k (with_mem s (with_dat (mem s) d)) /\ frame_dat [pblk (pb_payload c)] (dat (mem s)) d /\
    cell_data d c = ip_header [] tos len id off ttl proto src dest ++ rest.
Proof.
  intros Hc Hd Hk H2 H3 H4 Hl Ho. pose proof (length_cell _ _ Hc) as Hlc. rewrite Hd, length_app, length_ip_fields in Hlc by done. rewrite !htons_bytes by done.
  set (k1 := let* x := chksum_at (pb_payload c) IP_HLEN in wr (pb_payload c) IPH_CHKSUM (le_bytes 2 x) ;;; k).
  destruct (put_all_run c [(IPH_OFFSET, be_bytes 2 off); (IPH_LEN, be_bytes 2 len); (IPH_CHKSUM, le_bytes 2 0)] k1 s Hc) as (d & E & F & C).
  { unfold fits. cbn [forallb fst snd]. rewrite !length_be_bytes, length_le_bytes. unfold IPH_OFFSET, IPH_LEN, IPH_CHKSUM. rewrite !andb_true_iff, !Z.leb_le. lia. }
  rewrite Hd, frag_blits in C by done. set (hdr := ip_fields 69 tos len id off ttl proto [0; 0] src dest) in *.
  assert (bytes_ok hdr) as Hb by (apply ip_fields_ok; try done; repeat constructor; unfold byte_ok; lia).
  set (s1 := with_mem s (with_dat (mem s) d)) in *. assert (cell_ok (dat (mem s1)) c) as Hc1 by (by eapply frame_cell_ok).
  assert (length hdr = 20%nat) as Hlh by (by apply length_ip_fields).
  destruct (wr_run s1 c IPH_CHKSUM (le_bytes 2 (not16 (norm (le_val hdr)))) k Hc1 ltac:(done) ltac:(rewrite length_le_bytes; unfold IPH_CHKSUM; lia)) as (d2 & E2 & F2 & C2).
  exists d2. split; [|split].
  - etransitivity; [exact E|]. unfold k1. rewrite (chksum_at_run s1 c IP_HLEN hdr rest) by (done || (by rewrite Hlh)). exact E2.
  - by eapply frame_trans.
  - change (dat (mem s1)) with d in C2. rewrite C2, C, checksum_bytes by done. change (Z.to_nat IPH_CHKSUM) with 10%nat. unfold hdr. rewrite chk_blit by apply length_be_bytes.
    unfold ip_header. cbn [app]. by rewrite !app_nil_r.
Qed.

(** The datagram that is being cut. *)
Record whole s (p : Z) (b : pbuf) (l : list (Z * pbuf)) (tos len0 id off0 ttl proto : Z) (chk : bytes) (src dest : Z) (data : bytes) : Prop := {
  wh_packet : packet (mem s) p ((p, b) :: l);
  wh_content : content (dat (mem s)) ((p, b) :: l) = ip_fields 0x45 tos len0 id off0 ttl proto chk src dest ++ data;
  wh_len : 20 <= pb_len b;
  wh_chk : length chk = 2%nat;
  wh_bytes : byte_ok tos /\ byte_ok ttl /\ byte_ok proto
}.

(** The store that holds the new cell [c] beside the old packets. *)
Definition with_cell (m : lmem) (n : Z) (d : gmap Z bytes) (c : pbuf) : lmem := put_cell (with_dat (ram_store m PBUF_IP n) d) (next_blk m) c.
Lemma with_cell_free (m : lmem) n d c : store_ok m -> frame_dat [next_blk m] (dat (ram_store m PBUF_IP n)) d -> pb_next c = NULL -> pb_ref c = 1 ->
  pbuf_get_allocsrc c = PBUF_TYPE_ALLOC_SRC_MASK_STD_HEAP -> pbuf_free (next_blk m) (with_cell m n d c) = Ok (1, bumped m).
Proof.
  intros Hs F Hx1 Hx2 Hx3. apply (free_ram_cell m _ _ c); [done|done|apply lookup_insert_eq|done|done|done| |by destruct m].
  intros k Hk. change (pbs (with_cell m n d c)) with (<[next_blk m := c]> (<[next_blk m := ram_cell (next_blk m) PBUF_IP n]> (pbs m))).
  rewrite !lookup_insert_ne by done. split; [done|]. change (dat (with_cell m n d c)) with d. rewrite (fr_out _ _ _ F) by (by intros ?%list_elem_of_singleton). by apply ram_store_dat.
Qed.
Lemma with_cell_packet (m : lmem) n d c p l : store_ok m -> frame_dat [next_blk m] (dat (ram_store m PBUF_IP n)) d -> packet m p l ->
  packet (with_cell m n d c) p l /\ content d l = content (dat m) l.
Proof.
  intros Hs F Hp. destruct (ram_store_packet m PBUF_IP n p l Hs Hp) as [Hp1 C1]. pose proof (cells_below _ _ Hs (pk_cells _ _ _ Hp)) as Hbl.
  pose proof (frame_packet _ _ d _ _ F Hp1) as Hp2. split.
  - destruct Hp2 as [Hc Ho Ht Hl]. split; [|done|done|done]. apply chain_insert; [done|]. intros Hin. pose proof (chain_below _ _ _ Hs (pk_chain _ _ _ Hp) _ Hin). lia.
  - rewrite (frame_content _ _ _ _ F); [done|]. intros k Hk ->%list_elem_of_singleton. specialize (Hbl _ Hk). lia.
Qed.
Lemma with_cell_own (m : lmem) n d k : store_ok m -> frame_dat [next_blk m] (dat (ram_store m PBUF_IP n)) d -> cell_ok d (moved (ram_cell (next_blk m) PBUF_IP n) k) ->
  0 <= n - k < 65536 -> packet (with_cell m n d (moved (ram_cell (next_blk m) PBUF_IP n) k)) (next_blk m) [(next_blk m, moved (ram_cell (next_blk m) PBUF_IP n) k)].
Proof.
  intros Hs F Hc Hn. pose proof (so_next _ Hs). split; [|by constructor| |].
  - split; [done|]. split; [unfold NULL; lia|]. split; [apply lookup_insert_eq|done].
  - split; [|done]. cbn. lia.
  - cbn. lia.
Qed.

(** A buffer with the next [n] bytes of the data behind a copy of the header. *)
Definition frag_fill {A} (p : Z) (original_iphdr : ptr) (fragsize poff : Z) (k : Z -> ptr -> Z -> M (stack U) A) (stop : M (stack U) A) : M (stack U) A :=
  let* rambuf := onmem (pbuf_alloc PBUF_IP fragsize PBUF_RAM) in
  if rambuf =? NULL then stop else
  let* b := onmem (getp rambuf) in
  let* out := onmem (pread (pb_payload b) fragsize) in
  let* '(copied, out) := onmem (pbuf_copy_partial p (Some out) fragsize poff) in
  onmem (pwrite (pb_payload b) out) ;;;
  let poff := u16 (poff + copied) in
  let* r := onmem (pbuf_add_header rambuf IP_HLEN) in
  if negb (r =? 0) then onmem (pbuf_free rambuf) ;;; stop else
  let* b := onmem (getp rambuf) in
  let iphdr := pb_payload b in
  onmem (pmove iphdr original_iphdr IP_HLEN) ;;; k rambuf iphdr poff.

Lemma frag_fill_run {A} s p b l tos len0 id off0 ttl proto chk src dest data done_ n (k : Z -> ptr -> Z -> M (stack U) A) stop :
  store_ok (mem s) -> whole s p b l tos len0 id off0 ttl proto chk src dest data -> 0 < n -> 0 <= done_ -> done_ + n <= Z.of_nat (length data) -> mem_gives (mallocs (mem s)) = true ->
  let q := next_blk (mem s) in let c := moved (ram_cell q PBUF_IP n) (- (20)) in
  exists d, frag_fill p (pb_payload b) n (20 + done_) k stop s = k q (pb_payload c) (20 + done_ + n) (with_mem s (with_cell (mem s) n d c)) /\
    frame_dat [q] (dat (ram_store (mem s) PBUF_IP n)) d /\ cell_ok d c /\
    cell_data d c = ip_fields 0x45 tos len0 id off0 ttl proto chk src dest ++ take (Z.to_nat n) (drop (Z.to_nat done_) data).
Proof.
  intros Hs Hw Hn Hd0 Hdn Hg q c. destruct Hw as [Hp Hct Hlb Hck Hby]. set (m := mem s) in *. assert (PBUF_IP ∈ layers) as Hly by (unfold layers; set_solver).
  pose proof (length_content _ _ (pk_cells _ _ _ Hp)) as Hlc. rewrite Hct, length_app, length_ip_fields in Hlc by done. pose proof (pk_len _ _ _ Hp) as Hpl.
  pose proof (pbuf_alloc_ram_run m PBUF_IP n Hs Hly ltac:(lia)) as Ea. rewrite Hg in Ea. fold q in Ea. set (m1 := ram_store m PBUF_IP n) in *. set (c0 := ram_cell q PBUF_IP n) in *.
  pose proof (ram_packet m PBUF_IP n Hs Hly ltac:(lia)) as Hp1. fold q c0 m1 in Hp1. destruct (packet_head _ _ _ _ _ Hp1) as (_ & Hq0 & Hc0 & Hco & _).
  unfold frag_fill. rewrite (onmem_run s _ _ _ _ Ea), (proj2 (Z.eqb_neq _ _) Hq0). set (s1 := with_mem s m1). rewrite (onmem_getp s1 _ _ _ Hq0 Hc0).
  pose proof (pread_cell m1 c0 0 n Hco ltac:(lia) ltac:(lia) ltac:(cbn; lia)) as Er. rewrite ptr_add_0, drop_0 in Er. rewrite (onmem_run s1 _ _ _ _ Er).
  set (out := take (Z.to_nat n) (cell_data (dat m1) c0)). assert (length out = Z.to_nat n) as Hlo by (subst out; rewrite length_take; pose proof (length_cell _ _ Hco) as HL; change (pb_len c0) with n in HL; lia).
  destruct (ram_store_packet m PBUF_IP n p _ Hs Hp) as [Hpm1 Cm1]. fold m1 in Hpm1, Cm1.
  pose proof (pbuf_copy_partial_run m1 p ((p, b) :: l) out n (20 + done_) Hpm1 ltac:(lia) ltac:(lia) ltac:(lia)) as Ecp. change (with_mem s1 m1) with (with_mem s m1). fold s1.
  rewrite Cm1, Hct, drop_app_ge in Ecp by (rewrite length_ip_fields by done; lia). rewrite length_ip_fields in Ecp by done.
  replace (Z.to_nat (20 + done_) - 20)%nat with (Z.to_nat done_) in Ecp by lia. set (chunk := take (Z.to_nat n) (drop (Z.to_nat done_) data)) in *.
  assert (length chunk = Z.to_nat n) as Hlch by (subst chunk; rewrite length_take, length_drop; lia). rewrite blit_all in Ecp by lia.
  replace (Z.min n (Z.max 0 (sum_len ((p, b) :: l) - (20 + done_)))) with n in Ecp by lia. rewrite (onmem_run s1 _ _ _ _ Ecp). cbv beta iota. change (with_mem s1 m1) with s1.
  destruct (pwrite_cell m1 c0 0 chunk Hco ltac:(lia) ltac:(cbn; lia)) as (d1 & E1 & F1 & C1). rewrite ptr_add_0 in E1. rewrite (onmem_run s1 _ _ _ _ E1).
  change (Z.to_nat 0) with 0%nat in C1. rewrite blit_all in C1 by (pose proof (length_cell _ _ Hco) as HL; change (pb_len c0) with n in HL; lia).
  pose proof (frame_packet _ _ d1 _ _ F1 Hp1) as Hp2. set (m2 := m1 <| dat := d1 |>) in *.
  destruct (pbuf_add_header_run m2 q c0 [] 20 Hp2 eq_refl ltac:(done) ltac:(cbn; lia)) as (Eh & _). fold c in Eh. change IP_HLEN with 20 at 1.
  rewrite (onmem_run (with_mem s1 m2) _ _ _ _ Eh). cbn [Z.eqb negb]. set (s3 := with_mem _ _). rewrite (onmem_getp s3 q c _ Hq0 (lookup_insert_eq _ _ _)).
  destruct (cell_moved_back d1 c0 20 ltac:(by eapply frame_cell_ok) ltac:(done)) as (Hc3 & h & Hh & Eh3). fold c in Hc3, Eh3. rewrite C1 in Eh3.
  assert (cell_ok d1 b) as Hbc by (eapply frame_cell_ok; [exact F1|]; apply (Forall_inv (pk_cells _ _ _ Hpm1))).
  destruct (pmove_run (mem s3) c b 0 0 20 Hc3 Hbc ltac:(lia) ltac:(lia) ltac:(lia) ltac:(cbn; lia) ltac:(lia)) as (d2 & E2 & F2 & C2). rewrite !ptr_add_0 in E2. change IP_HLEN with 20.
  rewrite (onmem_run s3 _ _ _ _ E2). rewrite u16_id by lia. exists d2. split; [|split; [by eapply frame_trans|split; [by eapply frame_cell_ok|]]].
  - f_equal.
  - change (dat (mem s3)) with d1 in C2. rewrite Eh3, drop_0 in C2. change (Z.to_nat 0) with 0%nat in C2. change (Z.to_nat 20) with 20%nat in C2. rewrite C2.
    assert (take 20 (cell_data d1 b) = ip_fields 69 tos len0 id off0 ttl proto chk src dest) as ->.
    { assert (cell_data d1 b = cell_data (dat m) b) as ->.
      { pose proof (cells_below _ _ Hs (pk_cells _ _ _ Hp) (pblk (pb_payload b)) (list_elem_of_here _ _)) as Hlt. rewrite (frame_cell_data _ _ _ _ F1) by (change (pblk (pb_payload c0)) with q; intros ?%list_elem_of_singleton; lia).
        unfold cell_data. unfold m1. by rewrite ram_store_dat by lia. }
      rewrite content_cons in Hct. cbn [snd] in Hct. pose proof (length_cell _ _ (Forall_inv (pk_cells _ _ _ Hp))) as HL. cbn [snd] in HL.
      apply (f_equal (take 20)) in Hct. rewrite take_app_le in Hct by lia. rewrite Hct. by rewrite take_app_length' by (by rewrite length_ip_fields). }
    rewrite blit_app_le by (rewrite length_ip_fields by done; lia). by rewrite blit_all by (rewrite length_ip_fields by done; lia).
Qed.

(** Frames for which a buffer each is allocated, sent and released, until none is left. *)
Fixpoint send_all s (frames : list bytes) : Z * stack U :=
  match frames with
  | [] => (ERR_OK, s)
  | f :: frames =>
      if mem_gives (mallocs (mem s)) then send_all (send s (bumped (mem s)) f) frames
      else (ERR_MEM, with_mem s ((mem s) <| mallocs := S (mallocs (mem s)) |>))
  end.

Lemma bumped_store_ok (m : lmem) : store_ok m -> store_ok (bumped m).
Proof. intros [? Hx1 Hx2 ?]. split; cbn; [lia| | |done]; intros k Hk; [apply Hx1|apply Hx2]; lia. Qed.
Lemma whole_send s f p b l tos len0 id off0 ttl proto chk src dest data : whole s p b l tos len0 id off0 ttl proto chk src dest data ->
  whole (send s (bumped (mem s)) f) p b l tos len0 id off0 ttl proto chk src dest data.
Proof. by intros [[? ? ? ?] ? ? ? ?]. Qed.
Lemma neighbour_send s m f a mac : neighbour s a mac -> neighbour (send s m f) a mac.
Proof. by intros [? ? ? ? ?]. Qed.

Lemma frag_off_range mf left ofo : 0 <= frag_off mf left ofo < 65536.
Proof.
  unfold frag_off. rewrite Z.land_comm. change IP_OFFMASK with (2 ^ 13 - 1). rewrite land_mask by lia. change IP_MF with (1 * 2 ^ 13).
  pose proof (Z.mod_pos_bound ofo (2 ^ 13)). destruct (_ || _); [rewrite lor_add_disjoint by lia|]; lia.
Qed.

Lemma neighbour_mem s m a mac : neighbour s a mac -> neighbour (with_mem s m) a mac.
Proof. by intros [? ? ? ? ?]. Qed.

(** The end of a turn: the frame leaves, the buffer is released. *)
Lemma frag_send_run {A} s n d pkt dest mac (k : M (stack U) A) : store_ok (mem s) -> neighbour s dest mac ->
  let q := next_blk (mem s) in let c := moved (ram_cell q PBUF_IP n) (- (20)) in
  frame_dat [q] (dat (ram_store (mem s) PBUF_IP n)) d -> cell_ok d c -> cell_data d c = pkt -> 0 <= n <= 1400 ->
  (etharp_output q dest ;;; onmem (pbuf_free q) ;;; k) (with_mem s (with_cell (mem s) n d c)) = k (send s (bumped (mem s)) (ip_frame s mac pkt)).
Proof.
  intros Hs Hn q c F Hc Hd Hr. set (s1 := with_mem s _). pose proof (with_cell_own (mem s) n d (- (20)) Hs F Hc ltac:(lia)) as Hp. fold q c in Hp.
  destruct (output_known_run s1 q c [] dest mac (neighbour_mem s _ _ _ Hn) Hp eq_refl) as (d2 & E2 & F2); [done|cbn [sum_len snd]; change (pb_len c) with (n - - (20)); change SIZEOF_ETH_HDR with 24; lia|change (pb_len c) with (n - - (20)); change SIZEOF_ETH_HDR with 24; change DATA_BUF_LEN with 1536; lia|].
  rewrite (bind_run _ _ _ _ _ E2). change (dat (mem s1)) with d in E2, F2. change (pblk (pb_payload c)) with q in F2. set (s2 := send _ _ _).
  set (c2 := moved c (- SIZEOF_ETH_HDR)). assert (mem s2 = with_cell (mem s) n d2 c2) as Em.
  { unfold s2, send, after_output. change (mem ((with_mem s1 ?m) <| sent := _ |>)) with m. change (mem s1) with (with_cell (mem s) n d c). unfold with_cell at 1.
    apply (put_cell_put (with_dat (ram_store (mem s) PBUF_IP n) d2)). }
  assert (pbuf_free q (mem s2) = Ok (1, bumped (mem s))) as Ef by (rewrite Em; apply with_cell_free; [done|by eapply frame_trans|done|done|done]).
  rewrite (onmem_run s2 _ _ _ _ Ef). f_equal. unfold s2. change (dat (mem s1)) with d. by rewrite Hd.
Qed.

Definition frag_frame s (mac : bytes) (tos id ttl proto src dest : Z) (f : Z * bytes) : bytes :=
  ip_frame s mac (ip_header [] tos (20 + Z.of_nat (length (snd f))) id (fst f) ttl proto src dest ++ snd f).

(** Cutting a datagram from byte [done_] of its data on. *)
Lemma frag_loop_run p b l tos len0 id off0 ttl proto chk src dst data dest mac mf fuel : forall s done_ ofo k,
  store_ok (mem s) -> whole s p b l tos len0 id off0 ttl proto chk src dst data -> neighbour s dest mac ->
  0 <= done_ <= Z.of_nat (length data) -> Z.of_nat (length data) - done_ < Z.of_nat fuel -> (length data - Z.to_nat done_ <= k)%nat ->
  frag_loop fuel p (pb_payload b) dest mf (Z.of_nat (length data) - done_) ofo (20 + done_) s =
    Ok (send_all s (map (frag_frame s mac tos id ttl proto src dst) (fragments k mf ofo (drop (Z.to_nat done_) data)))).
Proof.
  induction fuel as [|fuel IH]; intros s done_ ofo k Hs Hw Hn Hd Hf Hk; [lia|]. cbn [frag_loop]. set (left := Z.of_nat (length data) - done_) in *.
  assert (length (drop (Z.to_nat done_) data) = Z.to_nat left) as Hlr by (rewrite length_drop; lia). destruct (left =? 0) eqn:E0.
  { apply Z.eqb_eq in E0. destruct (drop (Z.to_nat done_) data); [by destruct k|cbn in Hlr; lia]. }
  apply Z.eqb_neq in E0. destruct k as [|k]; [lia|]. change (u16 (nfb * 8)) with 1368. set (n := Z.min left 1368).
  assert (left <= 65535) as Hleft.
  { pose proof (length_content _ _ (pk_cells _ _ _ (wh_packet _ _ _ _ _ _ _ _ _ _ _ _ _ _ Hw))) as HL. rewrite (wh_content _ _ _ _ _ _ _ _ _ _ _ _ _ _ Hw), length_app in HL.
    pose proof (pk_len _ _ _ (wh_packet _ _ _ _ _ _ _ _ _ _ _ _ _ _ Hw)). lia. }
  destruct (drop (Z.to_nat done_) data) as [|x rest] eqn:Edr; [cbn in Hlr; lia|]. cbn [fragments map]. rewrite <- Edr. rewrite <- Edr in Hlr. rewrite Hlr, Z2Nat.id by lia. cbn [send_all].
  set (off := frag_off mf left ofo). set (chunk := take (Z.to_nat FRAG_DATA) (drop (Z.to_nat done_) data)).
  assert (take (Z.to_nat n) (drop (Z.to_nat done_) data) = chunk) as Ech.
  { subst chunk n. change FRAG_DATA with 1368. destruct (Z_le_gt_dec left 1368); [|f_equal; lia]. rewrite !take_ge; [done|lia|lia]. }
  assert (Z.of_nat (length chunk) = n) as Hlch by (rewrite <- Ech, length_take, Hlr; lia).
  set (k0 := fun rambuf iphdr poff => (wr iphdr IPH_OFFSET (le_bytes 2 (lwip_htons off)) ;;; wr iphdr IPH_LEN (le_bytes 2 (lwip_htons (u16 (n + IP_HLEN)))) ;;;
     wr iphdr IPH_CHKSUM (le_bytes 2 0) ;;; let* x := chksum_at iphdr IP_HLEN in wr iphdr IPH_CHKSUM (le_bytes 2 x) ;;;
     etharp_output rambuf dest ;;; onmem (pbuf_free rambuf) ;;; frag_loop fuel p (pb_payload b) dest mf (u16 (left - n)) (u16 (ofo + nfb)) poff) : M (stack U) Z).
  change (frag_fill p (pb_payload b) n (20 + done_) k0 (ret ERR_MEM) s = Ok (if mem_gives (mallocs (mem s)) then send_all (send s (bumped (mem s)) (frag_frame s mac tos id ttl proto src dst (off, chunk)))
    (map (frag_frame s mac tos id ttl proto src dst) (fragments k mf (u16 (ofo + nfb)) (drop (Z.to_nat FRAG_DATA) (drop (Z.to_nat done_) data)))) else (ERR_MEM, with_mem s ((mem s) <| mallocs := S (mallocs (mem s)) |>)))).
  destruct (mem_gives (mallocs (mem s))) eqn:Hg.
  2: { unfold frag_fill. pose proof (pbuf_alloc_ram_run (mem s) PBUF_IP n Hs ltac:(unfold layers; set_solver) ltac:(lia)) as Ea. rewrite Hg in Ea. by rewrite (onmem_run s _ _ _ _ Ea). }
  destruct (frag_fill_run s p b l tos len0 id off0 ttl proto chk src dst data done_ n k0 (ret ERR_MEM) Hs Hw ltac:(lia) ltac:(lia) ltac:(lia) Hg) as (d & E & F & Hc & C).
  rewrite E, Ech in *. clear E. set (q := next_blk (mem s)) in *. set (c := moved (ram_cell q PBUF_IP n) (- (20))) in *. set (s1 := with_mem s _). unfold k0. rewrite u16_id by (change IP_HLEN with 20; lia).
  destruct (wh_bytes _ _ _ _ _ _ _ _ _ _ _ _ _ _ Hw) as (B1 & B2 & B3).
  destruct (frag_header_run s1 c tos len0 id off0 ttl proto chk src dst (n + IP_HLEN) off chunk (etharp_output q dest ;;; onmem (pbuf_free q) ;;;
    frag_loop fuel p (pb_payload b) dest mf (u16 (left - n)) (u16 (ofo + nfb)) (20 + done_ + n)) Hc C (wh_chk _ _ _ _ _ _ _ _ _ _ _ _ _ _ Hw) B1 B2 B3 ltac:(change IP_HLEN with 20; lia) (frag_off_range _ _ _)) as (d2 & E2 & F2 & C2).
  rewrite E2. clear E2. change (with_mem s1 (with_dat (mem s1) d2)) with (with_mem s (with_cell (mem s) n d2 c)). change (dat (mem s1)) with d in F2. change (pblk (pb_payload c)) with q in F2.
  rewrite (frag_send_run s n d2 _ dest mac _ Hs Hn) by (done || lia || (by eapply frame_trans) || (by eapply frame_cell_ok)).
  rewrite (Z.add_comm n). change IP_HLEN with 20. set (s2 := send _ _ _). rewrite u16_id by lia. replace (left - n) with (Z.of_nat (length data) - (done_ + n)) by lia.
  replace (20 + done_ + n) with (20 + (done_ + n)) by lia. rewrite (IH s2 (done_ + n) (u16 (ofo + nfb)) k); [|by apply bumped_store_ok|by apply whole_send|by apply neighbour_send|lia|lia|lia].
  unfold frag_frame at 2. cbn [fst snd]. rewrite Hlch. rewrite drop_drop. fold s2. do 2 f_equal. f_equal. f_equal.
  destruct (Z_le_gt_dec left 1368); [rewrite !drop_ge; [done|change FRAG_DATA with 1368; lia|lia]|f_equal; change FRAG_DATA with 1368; lia].
Qed.

Lemma htons_read z : 0 <= z < 65536 -> lwip_htons (le_val (be_bytes 2 z)) = z.
Proof.
  intros Hz. rewrite be2_word by done. cbn [le_val]. pose proof (swap_range z Hz) as R. replace (_ + 256 * _) with (SWAP_BYTES_IN_WORD z) by zdm.
  unfold lwip_htons, PP_HTONS. fold (SWAP_BYTES_IN_WORD (SWAP_BYTES_IN_WORD z)). rewrite u16_id by (by apply swap_range). rewrite !swap_val by (done || (rewrite swap_val by done; zdm)). zdm.
Qed.

Lemma ip4_frag_run s p b l tos len0 id off0 ttl proto chk src dst data dest mac k :
  store_ok (mem s) -> whole s p b l tos len0 id off0 ttl proto chk src dst data -> neighbour s dest mac -> 0 <= off0 < 65536 -> (length data <= k)%nat ->
  ip4_frag p dest s = Ok (send_all s (map (frag_frame s mac tos id ttl proto src dst) (fragments k (nz (Z.land off0 IP_MF)) (Z.land off0 IP_OFFMASK) data))).
Proof.
  intros Hs Hw Hn Ho Hk. destruct (Hw) as [Hp Hct Hlb Hck Hby]. destruct (packet_head _ _ _ _ _ Hp) as (_ & Hp0 & Hb & Hc & Htl & Hr & Hr2).
  pose proof (length_content _ _ (pk_cells _ _ _ Hp)) as HL. rewrite Hct, length_app, length_ip_fields in HL by done. pose proof (pk_len _ _ _ Hp) as Hpl. cbn [sum_len snd] in HL, Hpl.
  assert (exists rest, cell_data (dat (mem s)) b = ip_fields 69 tos len0 id off0 ttl proto chk src dst ++ rest) as [rest Hd].
  { rewrite content_cons in Hct. cbn [snd] in Hct. pose proof (length_cell _ _ Hc) as HLc. exists (drop 20 (cell_data (dat (mem s)) b)).
    rewrite <- (take_drop 20 (cell_data (dat (mem s)) b)) at 1. f_equal. apply (f_equal (take 20)) in Hct. rewrite take_app_le in Hct by lia. rewrite Hct.
    by rewrite take_app_length' by (by rewrite length_ip_fields). }
  unfold ip4_frag. rewrite (onmem_getp _ _ _ _ Hp0 Hb). rewrite (rd_run s b IPH_VHL 1) by (done || (unfold IPH_VHL; lia)). rewrite Hd.
  change (HL_BYTES (le_val (take (Z.to_nat 1) (drop (Z.to_nat IPH_VHL) (ip_fields 69 tos len0 id off0 ttl proto chk src dst ++ rest))))) with 20. cbn [Z.eqb Pos.eqb negb IP_HLEN].
  change IP_HLEN with 20. cbn [Z.eqb Pos.eqb negb]. rewrite (proj2 (Z.ltb_ge _ _)) by lia. rewrite (rd_run s b IPH_OFFSET 2) by (done || (unfold IPH_OFFSET; lia)). rewrite Hd.
  assert (take (Z.to_nat 2) (drop (Z.to_nat IPH_OFFSET) (ip_fields 69 tos len0 id off0 ttl proto chk src dst ++ rest)) = be_bytes 2 off0) as -> by done.
  rewrite htons_read by done. rewrite Htl, u16_id by lia. replace (pb_len b + sum_len l - 20) with (Z.of_nat (length data) - 0) by lia.
  apply (frag_loop_run p b l tos len0 id off0 ttl proto chk src dst data dest mac _ _ s 0 _ k Hs Hw Hn); lia.
Qed.
End Frag.

(** ** Their arithmetic *)

Definition frag_count (n : Z) : Z := (n + 1367) / 1368.

Lemma fragments_lookup k : forall mf ofo data i, (length data <= k)%nat -> 0 <= ofo -> 1368 * Z.of_nat i < Z.of_nat (length data) -> ofo + 171 * Z.of_nat i < 65536 ->
  fragments k mf ofo data !! i = Some (frag_off mf (Z.of_nat (length data) - 1368 * Z.of_nat i) (ofo + 171 * Z.of_nat i), take 1368 (drop (1368 * i) data)).
Proof.
  induction k as [|k IH]; intros mf ofo data i Hk Ho Hi Hw; [lia|]. destruct data as [|x data']; [cbn in Hi; lia|]. cbn [fragments]. set (data := x :: data') in *.
  destruct i as [|i]; cbn [lookup list_lookup].
  - change (Z.to_nat FRAG_DATA) with 1368%nat. rewrite Nat.mul_0_r, drop_0. repeat f_equal; lia.
  - change nfb with 171. change (Z.to_nat FRAG_DATA) with 1368%nat. rewrite u16_id by lia. rewrite IH; rewrite ?length_drop; [|lia|lia|lia|lia]. rewrite drop_drop.
    f_equal. f_equal; [f_equal; lia|]. f_equal. f_equal. lia.
Qed.
Lemma length_fragments k : forall mf ofo data, (length data <= k)%nat -> Z.of_nat (length (fragments k mf ofo data)) = frag_count (Z.of_nat (length data)).
Proof.
  induction k as [|k IH]; intros mf ofo data Hk; [by destruct data; [|cbn in Hk; lia]|]. destruct data as [|x data']; [done|]. cbn [fragments length]. set (data := x :: data') in *.
  change (Z.to_nat FRAG_DATA) with 1368%nat. rewrite Nat2Z.inj_succ, IH by (rewrite length_drop; lia). rewrite length_drop. unfold frag_count.
  change (S (length data')) with (length data).   assert (0 < Z.of_nat (length data)) by (unfold data; cbn; lia). rewrite Nat2Z.inj_sub_max. change (Z.of_nat 1368) with 1368. set (n := Z.of_nat (length data)) in *. clearbody n. destruct (Z_le_gt_dec n 1368); [rewrite Z.max_l by lia|rewrite Z.max_r by lia]; zdm.
Qed.
Lemma concat_fragments k : forall mf ofo data, (length data <= k)%nat -> concat (map snd (fragments k mf ofo data)) = data.
Proof.
  induction k as [|k IH]; intros mf ofo data Hk; [by destruct data; [|cbn in Hk; lia]|]. destruct data as [|x data']; [done|]. cbn [fragments map concat snd].
  rewrite IH by (rewrite length_drop; change (Z.to_nat FRAG_DATA) with 1368%nat; lia). apply take_drop.
Qed.
(** The offset field of the fragment at byte [1368 * i], in units of eight bytes. *)
Lemma frag_off_val left i : 0 <= i < 48 -> frag_off false left (171 * i) = 171 * i + (if left <=? 1372 then 0 else 8192).
Proof.
  intros Hi. unfold frag_off. rewrite Z.land_comm. change IP_OFFMASK with (2 ^ 13 - 1). rewrite land_mask by lia. rewrite Z.mod_small by lia. change (IF_MTU_SIZE - IP_HLEN) with 1372.
  destruct (left <=? 1372); cbn [negb orb]; [lia|]. change IP_MF with (1 * 2 ^ 13). rewrite lor_add_disjoint by lia. lia.
Qed.
