(* ===== verification/IcmpProofs.v ===== *)
(** Echo requests: the reply made in place has the right checksum and reaches
    the sender. *)

From stdpp Require Import gmap.
From S2P Require Import Prelude Cmonad Cutils Heap Pbuf PbufProofs PbufChain Inet InetProofs Ethernet Etharp EthernetProofs EtharpProofs ArpProofs IpOutput Icmp IpProofs FragProofs.

(** ** The checksum *)

(** A message whose checksum holds. *)
Definition checked_msg (l : bytes) : Prop := not16 (norm (le_val l)) = 0.
Definition echo_msg (type code chk : Z) (rest : bytes) : bytes := [type; code] ++ le_bytes 2 chk ++ rest.

Lemma adjust_val c : 0 <= c < 65536 -> adjust_chksum c = (if 0xfff7 <? c then c + 9 - 65536 else c + 8).
Proof.
  intros Hc. unfold adjust_chksum. change (PP_HTONS (0xffff - Z.shiftl ICMP_ECHO 8)) with 0xfff7. change (PP_HTONS (u16 (Z.shiftl ICMP_ECHO 8))) with 8.
  change (PP_HTONS (Z.shiftl ICMP_ECHO 8)) with 8. unfold u16. destruct (0xfff7 <? c) eqn:E; zdm.
Qed.
Lemma adjust_range c : 0 <= c < 65536 -> 0 < adjust_chksum c < 65536.
Proof. intros Hc. rewrite adjust_val by done. destruct (_ <? c) eqn:E; lia. Qed.

(** One's complement arithmetic: the type's weight moves into the checksum. *)
Lemma echo_reply_checked code chk rest : 0 <= code < 256 -> 0 <= chk < 65536 -> bytes_ok rest -> checked_msg (echo_msg ICMP_ECHO code chk rest) ->
  checked_msg (echo_msg ICMP_ER code (adjust_chksum chk) rest).
Proof.
  intros Hc Hk Hr Hm. assert (forall t c, 0 <= c < 65536 -> le_val (echo_msg t code c rest) = t + 256 * code + 65536 * (c + 65536 * le_val rest)) as Hv.
  { intros t c Hcr. unfold echo_msg. cbn [app le_bytes le_val]. unfold u8. zdm. }
  pose proof (adjust_range chk Hk) as Ha. pose proof (le_val_range _ Hr) as Hlr. unfold checked_msg in *. rewrite Hv in * by lia. change ICMP_ECHO with 8 in Hm. change ICMP_ER with 0.
  set (v := 8 + 256 * code + 65536 * (chk + 65536 * le_val rest)) in *. set (w := 0 + 256 * code + 65536 * (adjust_chksum chk + 65536 * le_val rest)).
  assert (norm w = norm v) as ->; [|done]. apply norm_eq. unfold ceq. split; [lia|]. split; [lia|]. split; [|lia].
  assert (exists q, w = v + 65535 * q) as [q ->]; [|rewrite Z.mul_comm, Z_mod_plus_full; done].
  subst v w. rewrite adjust_val by done. destruct (_ <? chk); [exists (9 - 1 - 65536)|exists 8]; lia.
Qed.

(** ** The reply *)

Section Icmp.
Context `{PbufEnv} `{Addresses} {U : Type} `{IpIn U}.
Implicit Types s : stack U.

Lemma ptr_add_add q a b : ptr_add (ptr_add q a) b = ptr_add q (a + b).
Proof. destruct q. unfold ptr_add. cbn. f_equal. lia. Qed.

Lemma blit_at (A B C : bytes) off x : off = length A -> length x = length B -> blit off x (A ++ B ++ C) = A ++ x ++ C.
Proof. intros -> Hx. rewrite blit_behind, blit_app_le by lia. by rewrite blit_all by done. Qed.

(** A header and an echo message, apart where the reply is written. *)
Definition echo_packet_bytes (h1 : bytes) (ttl proto : Z) (chk : bytes) (src dest : Z) (opts : bytes) (type code icmp_chk : Z) (rest : bytes) : bytes :=
  h1 ++ [ttl] ++ [proto] ++ chk ++ le_bytes 4 src ++ le_bytes 4 dest ++ opts ++ echo_msg type code icmp_chk rest.
Definition swap_writes (hlen src dest : Z) : list (Z * bytes) :=
  [(IPH_SRC, le_bytes 4 src); (IPH_DEST, le_bytes 4 dest); (hlen + ICMPH_TYPE, [ICMP_ER])].
Definition ttl_writes (hlen chk : Z) : list (Z * bytes) := [(hlen + ICMPH_CHKSUM, le_bytes 2 chk); (IPH_TTL, [ICMP_TTL]); (IPH_CHKSUM, le_bytes 2 0)].

Lemma swap_blits h1 ttl proto chk src0 dest0 opts t code c rest src dest hlen : length h1 = 8%nat -> length chk = 2%nat -> hlen = 20 + Z.of_nat (length opts) ->
  blits (swap_writes hlen src dest) (echo_packet_bytes h1 ttl proto chk src0 dest0 opts t code c rest) = echo_packet_bytes h1 ttl proto chk src dest opts ICMP_ER code c rest.
Proof.
  intros Hh Hk ->. unfold blits, swap_writes, echo_packet_bytes. cbn [fold_left fst snd]. pose proof (length_le_bytes 4) as L4.
  rewrite !(app_assoc h1), !(app_assoc (h1 ++ [ttl])), !(app_assoc ((h1 ++ [ttl]) ++ [proto])). set (A := ((h1 ++ [ttl]) ++ [proto]) ++ chk).
  assert (length A = 12%nat) as LA by (unfold A; rewrite !length_app, Hh, Hk; done).
  rewrite (blit_at A (le_bytes 4 src0)) by (rewrite ?L4; done). rewrite !(app_assoc A). rewrite (blit_at (A ++ le_bytes 4 src) (le_bytes 4 dest0)) by (rewrite ?length_app, ?LA, ?L4; done).
  rewrite !(app_assoc (A ++ le_bytes 4 src)), !(app_assoc ((A ++ le_bytes 4 src) ++ le_bytes 4 dest)). unfold echo_msg. cbn [app]. change (t :: ?x) with ([t] ++ x).
  rewrite blit_at; [done| |done]. rewrite !length_app, LA, !L4. unfold ICMPH_TYPE. lia.
Qed.
Lemma ttl_blits h1 ttl proto chk src dest opts t code c0 c rest hlen : length h1 = 8%nat -> length chk = 2%nat -> hlen = 20 + Z.of_nat (length opts) ->
  blits (ttl_writes hlen c) (echo_packet_bytes h1 ttl proto chk src dest opts t code c0 rest) = echo_packet_bytes h1 ICMP_TTL proto [0; 0] src dest opts t code c rest.
Proof.
  intros Hh Hk ->. unfold blits, ttl_writes, echo_packet_bytes, echo_msg. cbn [fold_left fst snd]. pose proof (length_le_bytes 4) as L4. pose proof (length_le_bytes 2) as L2.
  set (B := h1 ++ [ttl] ++ [proto] ++ chk ++ le_bytes 4 src ++ le_bytes 4 dest ++ opts ++ [t; code]).
  assert (forall y, h1 ++ [ttl] ++ [proto] ++ chk ++ le_bytes 4 src ++ le_bytes 4 dest ++ opts ++ [t; code] ++ y = B ++ y) as HB by (intros y; unfold B; by rewrite <- !app_assoc).
  rewrite HB. rewrite (blit_at B (le_bytes 2 c0)); [|unfold B; rewrite !length_app, Hh, Hk, !L4; cbn [length]; unfold ICMPH_CHKSUM; lia|by rewrite !L2]. rewrite <- HB.
  rewrite (blit_at h1 [ttl]) by (rewrite ?Hh; done). rewrite !(app_assoc h1), !(app_assoc (h1 ++ [ICMP_TTL])).
  rewrite (blit_at ((h1 ++ [ICMP_TTL]) ++ [proto]) chk); [|rewrite !length_app, Hh; done|by rewrite L2, Hk]. by rewrite <- !app_assoc.
Qed.
Lemma hdr_chk_blit h1 ttl proto chk src dest opts t code c rest x : length h1 = 8%nat -> length chk = 2%nat -> length x = 2%nat ->
  blit 10 x (echo_packet_bytes h1 ttl proto chk src dest opts t code c rest) = echo_packet_bytes h1 ttl proto x src dest opts t code c rest.
Proof.
  intros Hh Hk Hx. unfold echo_packet_bytes. rewrite !(app_assoc h1), !(app_assoc (h1 ++ [ttl])).
  rewrite (blit_at ((h1 ++ [ttl]) ++ [proto]) chk); [|rewrite !length_app, Hh; done|by rewrite Hx, Hk]. by rewrite <- !app_assoc.
Qed.

Lemma echo_bytes_header v tos len id off ttl proto chk src dest opts t code c rest :
  echo_packet_bytes ([v; tos] ++ be_bytes 2 len ++ be_bytes 2 id ++ be_bytes 2 off) ttl proto chk src dest opts t code c rest =
    (ip_fields v tos len id off ttl proto chk src dest ++ opts) ++ echo_msg t code c rest.
Proof. unfold echo_packet_bytes, ip_fields. by rewrite <- !app_assoc. Qed.
(** A field of the message, through the cell that shows the header too. *)
Lemma moved_field b hlen off : ptr_add (pb_payload b) off = ptr_add (pb_payload (moved b (- hlen))) (hlen + off).
Proof. change (pb_payload (moved b (- hlen))) with (ptr_add (pb_payload b) (- hlen)). rewrite ptr_add_add. f_equal. lia. Qed.

(** Writing the reply over the request, [k] is what sends it. *)
Lemma echo_rewrite_run {A} s b tos len id off ttl proto chk src0 dest0 opts code c rest src dest (k : M (stack U) A) :
  let hlen := 20 + Z.of_nat (length opts) in let b' := moved b (- hlen) in
  let fields chk := ip_fields (v_hl_of opts) tos len id off ICMP_TTL proto chk src dest ++ opts in
  cell_ok (dat (mem s)) b' -> cell_data (dat (mem s)) b' = (ip_fields (v_hl_of opts) tos len id off ttl proto chk src0 dest0 ++ opts) ++ echo_msg ICMP_ECHO code c rest ->
  length chk = 2%nat -> (length opts <= 40)%nat -> bytes_ok opts -> byte_ok tos -> byte_ok proto -> 0 <= c < 65536 ->
  exists d,
    (wr (pb_payload b') IPH_SRC (le_bytes 4 src) ;;; wr (pb_payload b') IPH_DEST (le_bytes 4 dest) ;;; wr (pb_payload b) ICMPH_TYPE [ICMP_ER] ;;;
     let* chksum := rd (pb_payload b) ICMPH_CHKSUM 2 in wr (pb_payload b) ICMPH_CHKSUM (le_bytes 2 (adjust_chksum chksum)) ;;;
     wr (pb_payload b') IPH_TTL [ICMP_TTL] ;;; wr (pb_payload b') IPH_CHKSUM (le_bytes 2 0) ;;;
     let* x := chksum_at (pb_payload b') hlen in wr (pb_payload b') IPH_CHKSUM (le_bytes 2 x) ;;; k) s = k (with_mem s (with_dat (mem s) d)) /\
    frame_dat [pblk (pb_payload b)] (dat (mem s)) d /\
    cell_data d b' = ip_header opts tos len id off ICMP_TTL proto src dest ++ echo_msg ICMP_ER code (adjust_chksum c) rest.
Proof.
  intros hlen b' fields Hc Hd Hk Hlo Hbo B1 B2 Hcr. set (h1 := [v_hl_of opts; tos] ++ be_bytes 2 len ++ be_bytes 2 id ++ be_bytes 2 off).
  assert (length h1 = 8%nat) as Hh by (unfold h1; rewrite !length_app, !length_be_bytes; done). rewrite <- echo_bytes_header in Hd. fold h1 in Hd.
  pose proof (length_cell _ _ Hc) as Hl. rewrite Hd in Hl. unfold echo_packet_bytes, echo_msg in Hl. rewrite !length_app, !length_le_bytes, Hh, Hk in Hl. cbn [length] in Hl.
  assert (forall o d, wr (pb_payload b) o d = wr (U := U) (pb_payload b') (hlen + o) d) as Hwr by (intros; unfold wr; by rewrite (moved_field b hlen)).
  assert (forall o n, rd (pb_payload b) o n = rd (U := U) (pb_payload b') (hlen + o) n) as Hrd by (intros; unfold rd; by rewrite (moved_field b hlen)). rewrite Hrd, !Hwr.
  set (k2 := let* x := chksum_at (pb_payload b') hlen in wr (pb_payload b') IPH_CHKSUM (le_bytes 2 x) ;;; k).
  set (k1 := let* chksum := rd (pb_payload b') (hlen + ICMPH_CHKSUM) 2 in
    wr (pb_payload b) ICMPH_CHKSUM (le_bytes 2 (adjust_chksum chksum)) ;;; put_all b' [(IPH_TTL, [ICMP_TTL]); (IPH_CHKSUM, le_bytes 2 0)] k2).
  destruct (put_all_run b' (swap_writes hlen src dest) k1 s Hc) as (d1 & E1 & F1 & C1).
  { unfold fits, swap_writes. cbn [forallb fst snd length]. rewrite !length_le_bytes. unfold IPH_SRC, IPH_DEST, ICMPH_TYPE. rewrite !andb_true_iff, !Z.leb_le. lia. }
  rewrite Hd, swap_blits in C1 by done. set (s1 := with_mem s (with_dat (mem s) d1)) in *. assert (cell_ok (dat (mem s1)) b') as Hc1 by (by eapply frame_cell_ok).
  assert (take (Z.to_nat 2) (drop (Z.to_nat (hlen + ICMPH_CHKSUM)) (cell_data (dat (mem s1)) b')) = le_bytes 2 c) as Hrc.
  { change (dat (mem s1)) with d1. rewrite C1. unfold echo_packet_bytes, echo_msg. rewrite !app_assoc, <- app_assoc. rewrite drop_app_length'; [by rewrite take_app_length' by (by rewrite length_le_bytes)|].
    rewrite !length_app, !length_le_bytes, Hh, Hk. cbn [length]. unfold ICMPH_CHKSUM. lia. }
  destruct (put_all_run b' (ttl_writes hlen (adjust_chksum c)) k2 s1 Hc1) as (d2 & E2 & F2 & C2).
  { unfold fits, ttl_writes. cbn [forallb fst snd length]. rewrite !length_le_bytes. unfold IPH_TTL, IPH_CHKSUM, ICMPH_CHKSUM. rewrite !andb_true_iff, !Z.leb_le. lia. }
  change (dat (mem s1)) with d1 in F2, C2. rewrite C1, ttl_blits in C2 by done. set (s2 := with_mem s1 (with_dat (mem s1) d2)) in *. assert (cell_ok (dat (mem s2)) b') as Hc2 by (by eapply frame_cell_ok).
  assert (byte_ok (v_hl_of opts)) as Hv by (unfold v_hl_of, byte_ok; zdm).
  assert (bytes_ok (fields [0; 0])) as Hfb by (apply Forall_app_2; [apply ip_fields_ok; try done; repeat constructor; unfold byte_ok; lia|done]).
  assert (length (fields [0; 0]) = Z.to_nat hlen) as Hfl by (unfold fields; rewrite length_app, length_ip_fields by done; lia).
  destruct (wr_run s2 b' IPH_CHKSUM (le_bytes 2 (not16 (norm (le_val (fields [0; 0]))))) k Hc2 ltac:(done) ltac:(rewrite length_le_bytes; unfold IPH_CHKSUM; lia)) as (d3 & E3 & F3 & C3).
  exists d3. split; [|split].
  - etransitivity; [exact E1|]. unfold k1. rewrite (rd_run s1 b' (hlen + ICMPH_CHKSUM) 2) by (done || (unfold ICMPH_CHKSUM; lia)). rewrite Hrc, le_val_bytes, Z.mod_small by done.
    rewrite Hwr. etransitivity; [exact E2|]. unfold k2. rewrite (chksum_at_run s2 b' hlen (fields [0; 0]) (echo_msg ICMP_ER code (adjust_chksum c) rest)); [|done| |lia|lia|done].
    + rewrite E3. done.
    + change (dat (mem s2)) with d2. rewrite C2. apply echo_bytes_header.
  - eauto using frame_trans.
  - change (dat (mem s2)) with d2 in C3. change (Z.to_nat IPH_CHKSUM) with 10%nat in C3. rewrite C3, C2, checksum_bytes by done.
    rewrite hdr_chk_blit by (done || apply length_be_bytes). apply echo_bytes_header.
Qed.

(** The address a reply is sent from. *)
Definition reply_source (n : netif_t) (dest : Z) : Z :=
  if ip4_addr_isbroadcast_u32 dest n then nf_ip n else if ip4_addr_ismulticast dest then nf_ip n else dest.

(** A request that has arrived: cell [b] shows the message, [moved b (- hlen)] the header too. *)
Record request s (p : Z) (b : pbuf) (tos len id off ttl : Z) (chk : bytes) (src dest : Z) (opts : bytes) (code c : Z) (rest : bytes) : Prop := {
  rq_packet : packet (mem s) p [(p, b)];
  rq_type : contiguous_type b;
  rq_free : releasable [(p, b)];
  rq_opts : (length opts <= 40)%nat /\ Z.of_nat (length opts) mod 4 = 0;
  rq_room : 20 + Z.of_nat (length opts) + SIZEOF_ETH_HDR <= poff (pb_payload b);
  rq_cell : cell_ok (dat (mem s)) (moved b (- (20 + Z.of_nat (length opts))));
  rq_data : cell_data (dat (mem s)) (moved b (- (20 + Z.of_nat (length opts)))) =
    (ip_fields (v_hl_of opts) tos len id off ttl IP_PROTO_ICMP chk src dest ++ opts) ++ echo_msg ICMP_ECHO code c rest;
  rq_bytes : bytes_ok opts /\ byte_ok tos /\ byte_ok code /\ bytes_ok rest;
  rq_chk : length chk = 2%nat;
  rq_range : 0 <= c < 65536 /\ 0 <= src < 2 ^ 32 /\ 0 <= dest < 2 ^ 32;
  rq_mtu : pb_len b + 20 + Z.of_nat (length opts) <= IF_MTU_SIZE
}.

Lemma cell_split d b n : 0 <= n -> cell_ok d (moved b (- n)) -> cell_ok d b -> cell_data d b = drop (Z.to_nat n) (cell_data d (moved b (- n))).
Proof.
  intros Hn Hc Hb. destruct Hc as (_ & ? & _ & Hp & _). change (poff (pb_payload (moved b (- n)))) with (poff (pb_payload b) + - n) in Hp.
  destruct (cell_moved_back d b n Hb ltac:(lia)) as (_ & h & Hh & ->). by rewrite drop_app_length' by lia.
Qed.
Lemma request_msg s p b tos len id off ttl chk src dest opts code c rest : request s p b tos len id off ttl chk src dest opts code c rest ->
  cell_data (dat (mem s)) b = echo_msg ICMP_ECHO code c rest.
Proof.
  intros Hr. destruct (packet_head _ _ _ _ _ (rq_packet _ _ _ _ _ _ _ _ _ _ _ _ _ _ _ Hr)) as (_ & _ & _ & Hc & _).
  rewrite (cell_split _ b (20 + Z.of_nat (length opts)) ltac:(lia) (rq_cell _ _ _ _ _ _ _ _ _ _ _ _ _ _ _ Hr) Hc), (rq_data _ _ _ _ _ _ _ _ _ _ _ _ _ _ _ Hr).
  rewrite drop_app_length'; [done|]. rewrite length_app, length_ip_fields by apply (rq_chk _ _ _ _ _ _ _ _ _ _ _ _ _ _ _ Hr). lia.
Qed.

(** There is room in front of the message, the request itself is used. *)
Lemma echo_packet_run s p b iphdr_in hlen : packet (mem s) p [(p, b)] -> contiguous_type b -> 0 <= hlen <= 60 -> hlen + SIZEOF_ETH_HDR <= poff (pb_payload b) -> pb_len b <= 2000 ->
  echo_packet p iphdr_in hlen s = Ok (p, s).
Proof.
  intros Hp Hct Hh Ho Hl. change SIZEOF_ETH_HDR with 24 in Ho. destruct (packet_head _ _ _ _ _ Hp) as (_ & Hp0 & Hb & Hc & Htl & Hlb & _). unfold echo_packet.
  replace (hlen + PBUF_LINK_HLEN + PBUF_LINK_ENCAPSULATION_HLEN) with (hlen + 16) by (change PBUF_LINK_HLEN with 16; change PBUF_LINK_ENCAPSULATION_HLEN with 0; lia).
  destruct (pbuf_add_header_run (mem s) p b [] (hlen + 16) Hp Hct ltac:(lia) ltac:(cbn [sum_len snd]; lia)) as (Ea & Hp1 & _). rewrite (onmem_run _ _ _ _ _ Ea). cbn [Z.eqb negb].
  set (b1 := moved b (- (hlen + 16))) in *. destruct (pbuf_remove_header_run _ p b1 [] (hlen + 16) Hp1) as (Er & _); [change (pb_len b1) with (pb_len b - - (hlen + 16)); lia|].
  rewrite (onmem_run (with_mem s _) _ _ _ _ Er). cbn [Z.eqb negb]. unfold b1. rewrite moved_moved, put_cell_put, with_mem_mem. replace (- (hlen + 16) + (hlen + 16)) with 0 by lia.
  by rewrite moved_0, put_cell_id, with_mem_id.
Qed.

Lemma echo_reply_run s p b tos len id off ttl chk src0 dest0 opts code c rest src mac :
  request s p b tos len id off ttl chk src0 dest0 opts code c rest -> 0 <= src < 2 ^ 32 -> current_iphdr_src (ipg s) = src0 -> neighbour s src0 mac ->
  let hlen := 20 + Z.of_nat (length opts) in
  exists d, echo_reply p src hlen s = Ok (tt, send s (put_cell (with_dat (mem s) d) p (moved b (- (hlen + SIZEOF_ETH_HDR))))
      (ip_frame s mac (ip_header opts tos len id off ICMP_TTL IP_PROTO_ICMP src src0 ++ echo_msg ICMP_ER code (adjust_chksum c) rest))) /\
    frame_dat [pblk (pb_payload b)] (dat (mem s)) d.
Proof.
  intros [Hp Hct Hfr [Hlo Hmo] Hro Hce Hda (Bo & Bt & Bc & Br) Hck (Rc & Rs & Rd) Hmt] Hsrc Hcur Hn hlen. fold hlen in Hro, Hce, Hda, Hmt. set (b1 := moved b (- hlen)) in *.
  change SIZEOF_ETH_HDR with 24 in *. change IF_MTU_SIZE with 1392 in *. destruct (packet_head _ _ _ _ _ Hp) as (_ & Hp0 & Hb & Hc & Htl & Hlb & _). cbn [sum_len] in Htl.
  unfold echo_reply. rewrite (onmem_getp _ _ _ _ Hp0 Hb). destruct (pbuf_add_header_run (mem s) p b [] hlen Hp Hct ltac:(lia) ltac:(cbn [sum_len snd]; lia)) as (Ea & Hp1 & _).
  rewrite (onmem_run _ _ _ _ _ Ea). cbn [Z.eqb negb]. fold b1 in Hp1 |- *. set (s1 := with_mem s (put_cell (mem s) p b1)). rewrite (onmem_getp s1 p b1 _ Hp0 (lookup_insert_eq _ _ _)).
  rewrite (bind_run (getip current_iphdr_src) _ s1 src0 s1) by (unfold getip, gets; by rewrite <- Hcur).
  destruct (echo_rewrite_run s1 b tos len id off ttl IP_PROTO_ICMP chk src0 dest0 opts code c rest src src0 (ip4_output_if p (Some src) None ICMP_TTL 0 IP_PROTO_ICMP ;;; ret tt)
    Hce Hda Hck Hlo Bo Bt ltac:(done) Rc) as (d1 & E1 & F1 & C1). fold hlen b1 in E1, C1. set (pkt := ip_header opts tos len id off ICMP_TTL IP_PROTO_ICMP src src0 ++ _) in *.
  set (s2 := with_mem s1 (with_dat (mem s1) d1)) in *. assert (packet (mem s2) p [(p, b1)]) as Hp2 by (eapply frame_packet; [exact F1|exact Hp1]).
  destruct (packet_head _ _ _ _ _ Hp2) as (_ & _ & Hb2 & Hc2 & _). change (dat (mem s2)) with d1 in Hc2.
  assert (pb_len b1 = pb_len b + hlen) as Hl1 by (change (pb_len b1) with (pb_len b - - hlen); lia).
  destruct (output_known_run s2 p b1 [] src0 mac) as (d2 & E2 & F2); [by destruct Hn|done|done|change (poff (pb_payload b1)) with (poff (pb_payload b) + - hlen); change SIZEOF_ETH_HDR with 24; lia|cbn [sum_len snd]; change SIZEOF_ETH_HDR with 24; lia|change SIZEOF_ETH_HDR with 24; change DATA_BUF_LEN with 1536; lia|].
  change (dat (mem s2)) with d1 in E2, F2. exists d2. split.
  2: { change (dat (mem s1)) with (dat (mem s)) in F1. by eapply frame_trans. }
  etransitivity; [exact E1|]. unfold ip4_output_if, ip4_output_if_opt, ip4_output_if_opt_src. rewrite !bind_assoc, (bind_run _ _ _ _ _ (eq_refl : gets nif s2 = Ok (nif s2, s2))).
  rewrite bind_assoc, (onmem_getp s2 p b1 _ Hp0 Hb2), (proj2 (Z.ltb_ge _ _)) by (change IP_HLEN with 20; lia). rewrite bind_assoc, (rd_run s2 b1 IPH_DEST 4) by (done || (unfold IPH_DEST; lia)).
  change (dat (mem s2)) with d1. rewrite C1.
  assert (take (Z.to_nat 4) (drop (Z.to_nat IPH_DEST) pkt) = le_bytes 4 src0) as ->.
  { unfold pkt, ip_header. rewrite <- app_assoc. by apply ip_fields_read, length_be_bytes. }
  rewrite le_val_bytes, Z.mod_small by (change (256 ^ Z.of_nat 4) with (2 ^ 32); lia). unfold bind at 1. rewrite (output_to_small s2 p b1 [] src0 Hp2) by (change (pb_tot_len b1) with (pb_tot_len b - - hlen); change IF_MTU_SIZE with 1392; lia).
  assert (after_output (mem s2) p b1 d2 = put_cell (with_dat (mem s) d2) p (moved b (- (hlen + 24)))) as Em; [|by rewrite E2, C1, Em].
  unfold after_output, b1. rewrite moved_moved. change SIZEOF_ETH_HDR with 24. replace (- hlen + - (24)) with (- (hlen + 24)) by lia. apply (put_cell_put (with_dat (mem s) d2)).
Qed.

Lemma v_hl_bytes opts : (length opts <= 40)%nat -> Z.of_nat (length opts) mod 4 = 0 -> HL_BYTES (v_hl_of opts) = 20 + Z.of_nat (length opts) /\ Z.shiftr (v_hl_of opts) 4 = 4.
Proof.
  intros Hl Hm. unfold HL_BYTES, v_hl_of. change 0x0f with (2 ^ 4 - 1). rewrite land_mask, shiftr_div by lia. change (2 ^ 4) with 16. unfold u8. split; zdm.
Qed.

Lemma releasable_moved p b n : releasable [(p, b)] -> releasable [(p, moved b n)].
Proof. intros Hr. apply Forall_cons in Hr as [Hr _]. by constructor. Qed.

(** An echo request is answered with one frame to the sender, and released. *)
Lemma icmp_echo_run s p b tos len id off ttl chk src dest opts code c rest mac :
  request s p b tos len id off ttl chk src dest opts code c rest -> checked_msg (echo_msg ICMP_ECHO code c rest) -> 4 <= Z.of_nat (length rest) ->
  current_iphdr_src (ipg s) = src -> current_iphdr_dest (ipg s) = dest -> current_ip4_header (ipg s) = pb_payload (moved b (- (20 + Z.of_nat (length opts)))) ->
  0 <= nf_ip (nif s) < 2 ^ 32 -> neighbour s src mac ->
  let frame := ip_frame s mac (ip_header opts tos len id off ICMP_TTL IP_PROTO_ICMP (reply_source (nif s) dest) src ++ echo_msg ICMP_ER code (adjust_chksum c) rest) in
  exists d, let c' := moved b (- (20 + Z.of_nat (length opts) + SIZEOF_ETH_HDR)) in
    icmp_input p s = Ok (tt, send s (after_free (put_cell (with_dat (mem s) d) p c') [(p, c')]) frame) /\ frame_dat [pblk (pb_payload b)] (dat (mem s)) d.
Proof.
  intros Hr Hm Hlr Hcs Hcd Hch Hni Hn frame. pose proof (request_msg _ _ _ _ _ _ _ _ _ _ _ _ _ _ _ Hr) as Hmsg. destruct (Hr) as [Hp Hct Hfr [Hlo Hmo] Hro Hce Hda (Bo & Bt & Bc & Br) Hck (Rc & Rs & Rd) Hmt].
  set (hlen := 20 + Z.of_nat (length opts)) in *. set (b1 := moved b (- hlen)) in *. destruct (packet_head _ _ _ _ _ Hp) as (_ & Hp0 & Hb & Hc & Htl & Hlb & _). cbn [sum_len] in Htl.
  pose proof (length_cell _ _ Hc) as Hl. rewrite Hmsg in Hl. unfold echo_msg in Hl. rewrite !length_app, length_le_bytes in Hl. cbn [length] in Hl.
  destruct (v_hl_bytes opts Hlo Hmo) as [Hhl _]. fold hlen in Hhl. change IF_MTU_SIZE with 1392 in Hmt. assert (pb_len b1 = pb_len b + hlen) as Hl1 by (change (pb_len b1) with (pb_len b - - hlen); lia).
  unfold icmp_input. rewrite (bind_run (getip current_ip4_header) _ s (pb_payload b1) s) by (unfold getip, gets; by rewrite <- Hch).
  rewrite (rd_run s b1 IPH_VHL 1) by (done || (unfold IPH_VHL; lia)). rewrite Hda. change (Z.to_nat 1) with 1%nat. rewrite drop_0.
  rewrite <- app_assoc, (proj1 (ip_fields_read _ _ _ _ _ _ _ _ _ _ _ Hck)). cbn [le_val]. rewrite Z.mul_0_r, Z.add_0_r, Hhl. rewrite (onmem_getp _ _ _ _ Hp0 Hb).
  rewrite !(proj2 (Z.ltb_ge _ _)) by (change IP_HLEN with 20; lia). cbn [orb]. rewrite (rd_run s b ICMPH_TYPE 1) by (done || (unfold ICMPH_TYPE; lia)). rewrite Hmsg.
  change (le_val (take (Z.to_nat 1) (drop (Z.to_nat ICMPH_TYPE) (echo_msg ICMP_ECHO code c rest)))) with 8. cbn [Z.eqb Pos.eqb ICMP_ECHO].
  change (8 =? ICMP_ECHO) with true. cbv iota. rewrite (bind_run (getip current_iphdr_dest) _ s dest s) by (unfold getip, gets; by rewrite <- Hcd).
  rewrite (bind_run _ _ _ _ _ (eq_refl : gets nif s = Ok (nif s, s))). rewrite (proj2 (Z.ltb_ge _ _)) by (change SIZEOF_ICMP_ECHO_HDR with 8; lia).
  assert (content (dat (mem s)) [(p, b)] = echo_msg ICMP_ECHO code c rest) as Hcont by (rewrite content_cons; cbn [content map concat snd]; by rewrite app_nil_r).
  pose proof (inet_chksum_pbuf_run (mem s) p [(p, b)] Hp) as Ei. rewrite Hcont in Ei. unfold checked_msg in Hm. rewrite Hm in Ei. rewrite (onmem_run s _ 0 (mem s)), with_mem_id.
  2: { apply Ei. change (bytes_ok (content (dat (mem s)) [(p, b)])). rewrite Hcont. unfold echo_msg. repeat apply Forall_app_2; [|apply le_bytes_ok|done]. repeat first [apply Forall_cons_2|apply Forall_nil_2]; done. }
  cbn [Z.eqb negb]. rewrite (bind_run _ _ _ _ _ (echo_packet_run s p b (pb_payload b1) hlen Hp Hct ltac:(lia) Hro ltac:(lia))). rewrite (proj2 (Z.eqb_neq _ _) Hp0).
  change (if ip4_addr_isbroadcast_u32 dest (nif s) then nf_ip (nif s) else if ip4_addr_ismulticast dest then nf_ip (nif s) else dest) with (reply_source (nif s) dest).
  destruct (echo_reply_run s p b tos len id off ttl chk src dest opts code c rest (reply_source (nif s) dest) mac Hr) as (d & E & F); [unfold reply_source; by repeat case_match|done|done|].
  exists d. split; [|done]. rewrite (bind_run _ _ _ _ _ E). set (c' := moved b (- (hlen + SIZEOF_ETH_HDR))). set (s1 := send _ _ _).
  assert (chain (pbs (mem s1)) p [(p, c')]) as Hch1 by (split; [done|]; split; [done|]; split; [apply lookup_insert_eq|]; change (pb_next c') with (pb_next b); by destruct (pk_chain _ _ _ Hp) as (_ & _ & _ & ?)).
  rewrite (onmem_run s1 _ _ _ _ (pbuf_free_run (mem s1) p [(p, c')] Hch1 (releasable_moved _ _ _ Hfr))). done.
Qed.
End Icmp.
