(* ===== verification/IpInProofs.v ===== *)
(** What arrives: a well-formed packet for this station reaches its protocol, and
    an echo request comes back as a reply. *)

From stdpp Require Import gmap.
From S2P Require Import Prelude Cmonad Cutils Heap Pbuf PbufProofs PbufChain Inet InetProofs Ethernet Etharp EthernetProofs Link EtharpProofs ArpProofs IpOutput Icmp Reass IpInput IpProofs FragProofs IcmpProofs.

Section IpIn.
Context `{PbufEnv} `{Addresses} {U : Type} `{IpIn U} `{Transport U}.
Implicit Types s : stack U.

(** ** The checks *)

(** The destination is this station, the source can be answered. *)
Record acceptable (n : netif_t) (src dest : Z) : Prop := {
  ac_dest : ip4_input_accept dest n = true;
  ac_uni : ip4_addr_ismulticast dest = false;
  ac_src : unicast n src
}.

Lemma cut_whole b : pb_tot_len b = pb_len b -> pb_next b = NULL -> cut b (pb_len b) = b.
Proof. destruct b. cbn. intros -> ->. done. Qed.
Lemma realloc_one (m : lmem) p b n : packet m p [(p, b)] -> releasable [(p, b)] -> 0 <= n <= pb_len b ->
  (if n <? pb_tot_len b then pbuf_realloc p n else ret tt) m = Ok (tt, put_cell m p (cut b n)) /\ packet (put_cell m p (cut b n)) p [(p, cut b n)].
Proof.
  intros Hp Hr Hn. destruct (packet_head _ _ _ _ _ Hp) as (_ & Hp0 & Hb & Hc & Htl & Hlb & _). cbn [sum_len] in Htl. rewrite Z.add_0_r in Htl.
  assert (pb_next b = NULL) as Hnx by (by destruct (pk_chain _ _ _ Hp) as (_ & _ & _ & ?)). split.
  - rewrite Htl. destruct (n <? pb_len b) eqn:E.
    + apply Z.ltb_lt in E. destruct (pbuf_realloc_run m p [(p, b)] n Hp Hr ltac:(cbn [sum_len snd]; lia)) as (l1 & q & b' & l2 & rem & El & Hs & Hrm & Er).
      destruct l1 as [|? l1]; [|by destruct l1]. cbn in El. injection El as <- <- <-. cbn [sum_len] in Hs. replace rem with n in * by lia. rewrite Er. do 2 f_equal.
      unfold after_realloc, after_free, shared, src_count. cbn [map puts foldr sole length drop fmap list_fmap dels drop_ref filter list_filter]. unfold put_cell. destruct m. fields. f_equal; lia.
    + apply Z.ltb_ge in E. replace n with (pb_len b) by lia. by rewrite cut_whole, put_cell_id.
  - split.
    + split; [done|]. split; [done|]. split; [apply lookup_insert_eq|done].
    + constructor; [|constructor]. destruct Hc as (_ & c & E & H1' & H2'). split; [cbn; lia|]. exists c. cbn. split; [done|]. lia.
    + split; [|done]. cbn. lia.
    + cbn. lia.
Qed.

(** The globals while a packet is being handled. *)
Definition handling (g : ip_globals) (src dest : Z) : ip_globals := g <| current_iphdr_dest := dest |> <| current_iphdr_src := src |>.

Lemma modip_run {A} s f (k : M (stack U) A) : (modip f ;;; k) s = k (with_ip s (f (ipg s))).
Proof. done. Qed.

Lemma onmem_if_run {A} s (c : bool) m t (k : unit -> M (stack U) A) : (if c then m else ret tt) (mem s) = Ok (tt, t) ->
  bind (if c then onmem m else ret tt) k s = k tt (with_mem s t).
Proof. destruct c; intros E; [by rewrite (onmem_run _ _ _ _ _ E)|]. injection E as <-. by rewrite with_mem_id. Qed.

(** Up to the question whether it is a fragment. *)
Lemma ip4_input_checks_run s p b opts tos id off ttl proto src dest payload pad :
  let hlen := 20 + Z.of_nat (length opts) in let len := hlen + Z.of_nat (length payload) in
  let b' := cut b len in
  packet (mem s) p [(p, b)] -> releasable [(p, b)] ->
  cell_data (dat (mem s)) b = (ip_header opts tos len id off ttl proto src dest ++ payload) ++ pad ->
  (length opts <= 40)%nat -> Z.of_nat (length opts) mod 4 = 0 -> bytes_ok opts -> byte_ok tos -> byte_ok ttl -> byte_ok proto ->
  0 <= off < 65536 -> 0 <= src < 2 ^ 32 -> 0 <= dest < 2 ^ 32 -> acceptable (nif s) src dest ->
  ip4_input p s = (if negb (Z.land (le_val (be_bytes 2 off)) (PP_HTONS (Z.lor IP_OFFMASK IP_MF)) =? 0) then let* q := ip4_reass p in if q =? NULL then ret tt else deliver q hlen
    else deliver p hlen) (with_ip (with_mem s (put_cell (mem s) p b')) (handling (ipg s) src dest)) /\ packet (put_cell (mem s) p b') p [(p, b')] /\
  cell_data (dat (mem s)) b' = ip_header opts tos len id off ttl proto src dest ++ payload.
Proof.
  intros hlen len b' Hp Hr Hd Hlo Hmo Bo Bt Bl Bp Ro Rs Rd [Had Hau [Has Ham]]. destruct (packet_head _ _ _ _ _ Hp) as (_ & Hp0 & Hb & Hc & Htl & Hlb & _).
  pose proof (length_cell _ _ Hc) as Hl. rewrite Hd, !length_app, length_ip_header in Hl. set (hdr := ip_header opts tos len id off ttl proto src dest) in *.
  assert (length hdr = Z.to_nat hlen) as Hlh by (unfold hdr; rewrite length_ip_header; lia). destruct (v_hl_bytes opts Hlo Hmo) as [Hhl Hver]. fold hlen in Hhl.
  destruct (realloc_one (mem s) p b len Hp Hr ltac:(unfold len, hlen; lia)) as [Er Hp']. fold b' in Er, Hp'.
  assert (cell_data (dat (mem s)) b' = hdr ++ payload) as Hd'.
  { unfold b'. rewrite cell_data_cut by (unfold len, hlen; lia). rewrite Hd, take_app_length'; [done|]. rewrite length_app, Hlh. unfold len. lia. }
  assert (cell_ok (dat (mem s)) b') as Hc' by apply (Forall_inv (pk_cells _ _ _ Hp')). split; [|done].
  assert (forall A o n (k : Z -> M (stack U) A) m, dat m = dat (mem s) -> 0 <= o -> 0 <= n -> o + n <= 20 ->
    bind (rd (pb_payload b) o n) k (with_mem s m) = k (le_val (take (Z.to_nat n) (drop (Z.to_nat o) (hdr ++ payload)))) (with_mem s m)) as Hrd.
  { intros A o n k m Em Ho Hn Hon. change (pb_payload b) with (pb_payload b'). rewrite (rd_run (with_mem s m) b' o n); change (dat (mem (with_mem s m))) with (dat m); rewrite ?Em; [by rewrite Hd'|done|done|done|].
    change (pb_len b') with len. unfold len, hlen. lia. }
  unfold hdr, ip_header in Hrd. match type of Hrd with context [ip_fields _ _ _ _ _ _ _ ?c _ _] => set (chk := c) in Hrd end. assert (length chk = 2%nat) as Hck by apply length_be_bytes.
  rewrite <- app_assoc in Hrd. destruct (ip_fields_read (v_hl_of opts) tos len id off ttl proto chk src dest (opts ++ payload) Hck) as (R1 & R2 & R3 & R4 & R5 & R6 & _).
  set (whole_pkt := ip_fields (v_hl_of opts) tos len id off ttl proto chk src dest ++ opts ++ payload) in *.
  unfold ip4_input. rewrite (onmem_getp _ _ _ _ Hp0 Hb). rewrite <- (with_mem_id s) at 1. rewrite (Hrd _ IPH_VHL 1) by (done || lia). change (drop (Z.to_nat IPH_VHL) whole_pkt) with whole_pkt. change (Z.to_nat 1) with 1%nat.
  rewrite R1. cbn [le_val]. rewrite Z.mul_0_r, Z.add_0_r, Hver, Hhl. cbn [Z.eqb Pos.eqb negb]. rewrite (Hrd _ IPH_LEN 2) by (done || lia). change (Z.to_nat IPH_LEN) with 2%nat. change (Z.to_nat 2) with 2%nat. rewrite R2.
  rewrite htons_read by (pose proof (pk_len _ _ _ Hp) as Hpl; cbn [sum_len snd] in Hpl; unfold len, hlen; lia). rewrite with_mem_id.
  rewrite (onmem_if_run _ _ _ _ _ Er). set (s1 := with_mem s (put_cell (mem s) p b')) in *. rewrite (onmem_getp s1 p b' _ Hp0 (lookup_insert_eq _ _ _)).
  change (pb_len b') with len. change (pb_tot_len b') with len. rewrite !(proj2 (Z.ltb_ge _ _)) by (change IP_HLEN with 20; unfold len, hlen; lia). cbn [orb].
  assert (chksum_at (pb_payload b) hlen s1 = Ok (0, s1)) as Ec.
  { unfold chksum_at. pose proof (pread_cell (mem s1) b' 0 hlen Hc' ltac:(lia) ltac:(lia) ltac:(change (pb_len b') with len; unfold len; lia)) as E. rewrite ptr_add_0, drop_0 in E.
    change (pb_payload b') with (pb_payload b) in E. rewrite (onmem_run s1 _ _ _ _ E). change (dat (mem s1)) with (dat (mem s)). rewrite Hd', take_app_length' by (by rewrite Hlh).
    unfold hdr. rewrite ip_header_accepted by done. done. }
  pose proof (fun A o n k => Hrd A o n k (put_cell (mem s) p b') eq_refl) as Hrd1. fold s1 in Hrd1.
  rewrite (bind_run _ _ _ _ _ Ec). cbn [Z.eqb negb]. rewrite (Hrd1 _ IPH_DEST 4) by (done || lia). change (Z.to_nat IPH_DEST) with 16%nat. change (Z.to_nat 4) with 4%nat. rewrite R6.
  rewrite (Hrd1 _ IPH_SRC 4) by (done || lia). change (Z.to_nat IPH_SRC) with 12%nat. change (Z.to_nat 4) with 4%nat. rewrite R5. rewrite !le_val_bytes, !Z.mod_small by (change (256 ^ Z.of_nat 4) with (2 ^ 32); lia).
  rewrite modip_run. set (s2 := with_ip s1 _). assert (choose_netif (pb_payload b) hlen s2 = Ok ((true, true), s2)) as Ech.
  { unfold choose_netif. rewrite (bind_run (getip current_iphdr_dest) _ s2 dest s2) by (unfold getip, gets, s2, with_ip; cbn; by rewrite ip_get_put).
    rewrite (bind_run (getip current_iphdr_src) _ s2 src s2) by (unfold getip, gets, s2, with_ip; cbn; by rewrite ip_get_put).
    rewrite (bind_run _ _ _ _ _ (eq_refl : gets nif s2 = Ok (nif s2, s2))), Hau, bind_ret. change (nif s2) with (nif s). by rewrite Had. }
  rewrite (bind_run _ _ _ _ _ Ech), (bind_run _ _ _ _ _ (eq_refl : gets nif s2 = Ok (nif s2, s2))). change (nif s2) with (nif s). rewrite Has, Ham, andb_false_r. cbn [negb].
  assert (forall A (k : Z -> M (stack U) A), bind (rd (pb_payload b) IPH_OFFSET 2) k s2 = k (le_val (be_bytes 2 off)) s2) as ->.
  { intros A k. change (pb_payload b) with (pb_payload b'). rewrite (rd_run s2 b' IPH_OFFSET 2); [|exact Hc'|done|done|change (pb_len b') with len; unfold len, hlen, IPH_OFFSET; lia].
    change (dat (mem s2)) with (dat (mem s)). rewrite Hd'. unfold hdr, ip_header. rewrite <- app_assoc. fold chk. fold whole_pkt.
    change (Z.to_nat IPH_OFFSET) with 6%nat. change (Z.to_nat 2) with 2%nat. by rewrite R3. }
  done.
Qed.

Lemma ip4_input_good_run s p b opts tos id off ttl proto src dest payload pad :
  let hlen := 20 + Z.of_nat (length opts) in let len := hlen + Z.of_nat (length payload) in
  let b' := cut b len in
  packet (mem s) p [(p, b)] -> releasable [(p, b)] ->
  cell_data (dat (mem s)) b = (ip_header opts tos len id off ttl proto src dest ++ payload) ++ pad ->
  (length opts <= 40)%nat -> Z.of_nat (length opts) mod 4 = 0 -> bytes_ok opts -> byte_ok tos -> byte_ok ttl -> byte_ok proto ->
  0 <= off < 65536 -> Z.land (le_val (be_bytes 2 off)) (PP_HTONS (Z.lor IP_OFFMASK IP_MF)) = 0 -> 0 <= src < 2 ^ 32 -> 0 <= dest < 2 ^ 32 -> acceptable (nif s) src dest ->
  ip4_input p s = deliver p hlen (with_ip (with_mem s (put_cell (mem s) p b')) (handling (ipg s) src dest)) /\ packet (put_cell (mem s) p b') p [(p, b')] /\
  cell_data (dat (mem s)) b' = ip_header opts tos len id off ttl proto src dest ++ payload.
Proof.
  intros hlen len b' Hp Hr Hd Hlo Hmo Bo Bt Bl Bp Ro Hoff Rs Rd Ha.
  destruct (ip4_input_checks_run s p b opts tos id off ttl proto src dest payload pad Hp Hr Hd Hlo Hmo Bo Bt Bl Bp Ro Rs Rd Ha) as (E & Hrest).
  rewrite Hoff in E. by split.
Qed.

(** ** Echo requests *)

(** What the globals are after a packet. *)
Definition idle (g : ip_globals) : ip_globals :=
  g <| current_netif := false |> <| current_input_netif := false |> <| current_ip4_header := null_ptr |>
    <| current_ip_header_tot_len := 0 |> <| current_iphdr_src := IPADDR_ANY |> <| current_iphdr_dest := IPADDR_ANY |>.
(** No raw socket takes the packets. *)
Definition no_raw : Prop := forall p s, raw_input p s = Ok (RAW_INPUT_NONE, s).

Lemma with_ip_ip s g g' : with_ip (with_ip s g) g' = with_ip s g'.
Proof. unfold with_ip. destruct s. cbn. by rewrite ip_put_put. Qed.
Lemma ipg_with_ip s g : ipg (with_ip s g) = g.
Proof. unfold ipg, with_ip. cbn. apply ip_get_put. Qed.
Lemma with_ip_id s : with_ip s (ipg s) = s.
Proof. unfold ipg, with_ip. destruct s. cbn. by rewrite ip_put_get. Qed.
Lemma send_with_ip s g m f : send (with_ip s g) m f = with_ip (send s m f) g.
Proof. by destruct s. Qed.

Lemma deliver_echo_run s p b opts tos len id off ttl src dest code c rest mac :
  let hlen := 20 + Z.of_nat (length opts) in
  let hdr := ip_header opts tos len id off ttl IP_PROTO_ICMP src dest in
  no_raw -> packet (mem s) p [(p, b)] -> contiguous_type b -> releasable [(p, b)] -> cell_data (dat (mem s)) b = hdr ++ echo_msg ICMP_ECHO code c rest ->
  (length opts <= 40)%nat -> Z.of_nat (length opts) mod 4 = 0 -> bytes_ok opts -> byte_ok tos -> byte_ok code -> bytes_ok rest -> 0 <= c < 65536 ->
  0 <= src < 2 ^ 32 -> 0 <= dest < 2 ^ 32 -> 0 <= nf_ip (nif s) < 2 ^ 32 -> SIZEOF_ETH_HDR <= poff (pb_payload b) -> pb_len b <= IF_MTU_SIZE ->
  current_iphdr_src (ipg s) = src -> current_iphdr_dest (ipg s) = dest ->
  checked_msg (echo_msg ICMP_ECHO code c rest) -> 4 <= Z.of_nat (length rest) -> neighbour s src mac ->
  let frame := ip_frame s mac (ip_header opts tos len id off ICMP_TTL IP_PROTO_ICMP (reply_source (nif s) dest) src ++ echo_msg ICMP_ER code (adjust_chksum c) rest) in
  exists d, let c' := moved b (- SIZEOF_ETH_HDR) in
    deliver p hlen s = Ok (tt, with_ip (send s (after_free (put_cell (with_dat (mem s) d) p c') [(p, c')]) frame) (idle (ipg s))) /\ frame_dat [pblk (pb_payload b)] (dat (mem s)) d.
Proof.
  intros hlen hdr Hraw Hp Hct Hfr Hd Hlo Hmo Bo Bt Bc Br Rc Rs Rd Rn Hro Hmt Hcs Hcd Hm Hlr Hn frame. destruct (packet_head _ _ _ _ _ Hp) as (_ & Hp0 & Hb & Hc & Htl & Hlb & _). cbn [sum_len] in Htl.
  pose proof (length_cell _ _ Hc) as Hl. unfold hdr in Hd. rewrite Hd, length_app, length_ip_header in Hl. destruct (v_hl_bytes opts Hlo Hmo) as [Hhl _]. fold hlen in Hhl.
  unfold ip_header in Hd. match type of Hd with context [ip_fields _ _ _ _ _ _ _ ?x _ _] => set (chk := x) in Hd end. assert (length chk = 2%nat) as Hck by apply length_be_bytes.
  pose proof (ip_fields_read (v_hl_of opts) tos len id off ttl IP_PROTO_ICMP chk src dest (opts ++ echo_msg ICMP_ECHO code c rest) Hck) as (R1 & _ & _ & R4 & _). rewrite app_assoc in R1, R4.
  unfold deliver. rewrite (onmem_getp _ _ _ _ Hp0 Hb). rewrite (rd_run s b IPH_VHL 1) by (done || (unfold IPH_VHL; lia)). rewrite Hd. change (Z.to_nat IPH_VHL) with 0%nat. change (Z.to_nat 1) with 1%nat.
  rewrite drop_0, R1. cbn [le_val]. rewrite Z.mul_0_r, Z.add_0_r, Hhl, modip_run. set (g1 := _ <| current_ip_header_tot_len := hlen |>). set (s1 := with_ip s g1). rewrite (bind_run _ _ _ _ _ (Hraw p s1)). cbv beta iota.
  destruct (pbuf_remove_header_run (mem s) p b [] hlen Hp ltac:(lia)) as (Er & Hp2 & _). set (b2 := moved b hlen) in *. unfold to_upper. rewrite bind_assoc, (onmem_run s1 _ _ _ _ Er).
  set (s2 := with_mem s1 (put_cell (mem s1) p b2)). change (put_cell (mem s1) p b2) with (put_cell (mem s) p b2) in *. rewrite bind_assoc, (rd_run s2 b IPH_PROTO 1) by (done || (unfold IPH_PROTO; lia)).
  change (dat (mem s2)) with (dat (mem s)). rewrite Hd. change (Z.to_nat IPH_PROTO) with 9%nat. change (Z.to_nat 1) with 1%nat. rewrite R4. cbn [le_val].
  change (IP_PROTO_ICMP + 256 * 0) with 1. change (1 =? IP_PROTO_UDP) with false. change (1 =? IP_PROTO_TCP) with false. change (1 =? IP_PROTO_ICMP) with true. cbv iota.
  assert (moved b2 (- hlen) = b) as Eb by (unfold b2; rewrite moved_moved; replace (hlen + - hlen) with 0 by lia; apply moved_0).
  assert (request s2 p b2 tos len id off ttl chk src dest opts code c rest) as Hrq.
  { split; try done; fold hlen; rewrite ?Eb.
    - by apply releasable_moved.
    - change (poff (pb_payload b2)) with (poff (pb_payload b) + hlen). lia.
    - done.
    - exact Hd.
    - change (pb_len b2) with (pb_len b - hlen). unfold hlen in *. lia. }
  assert (ipg s2 = g1) as Eg by (apply ip_get_put). assert (neighbour s2 src mac) as Hn2 by (by destruct Hn).
  destruct (icmp_echo_run s2 p b2 tos len id off ttl chk src dest opts code c rest mac Hrq Hm Hlr) as (d & E & F); rewrite ?Eg; try done; [fold hlen; by rewrite Eb|].
  exists d. fold hlen in E. set (c' := moved b (- SIZEOF_ETH_HDR)).
  assert (moved b2 (- (hlen + SIZEOF_ETH_HDR)) = c') as Ec by (unfold b2, c'; rewrite moved_moved; f_equal; lia). rewrite Ec in E. rewrite (bind_run _ _ _ _ _ E).
  split; [|exact F]. unfold modip, modify. do 2 f_equal. change (put_cell (with_dat (mem s2) d) p c') with (put_cell (put_cell (with_dat (mem s) d) p b2) p c'). rewrite put_cell_put. change (nif s2) with (nif s).
  change (ip_frame s2 mac) with (ip_frame s mac). fold frame. match goal with |- ?s3 <| upper := ?u |> = _ => change (with_ip s3 (idle (ipg s3)) = with_ip (send s (mem s3) frame) (idle (ipg s))) end.
  set (m3 := after_free _ _). change (mem (send s2 m3 frame)) with m3. change (send s2 m3 frame) with (with_ip (send s m3 frame) g1).
  rewrite with_ip_ip, ipg_with_ip. done.
Qed.

(** A lone pool cell that is handed back leaves the store as it was. *)
Lemma pool_cell_back (m m1 : lmem) p b : store_ok m -> p = next_blk m -> pbs m1 !! p = Some b -> pb_type b = pool_type -> pb_ref b = 1 ->
  (forall k, k <> p -> pbs m1 !! k = pbs m !! k /\ dat m1 !! k = dat m !! k) -> pool_left m1 = pool_left m - 1 ->
  let m' := after_free m1 [(p, b)] in pbs m' = pbs m /\ dat m' = dat m /\ pool_left m' = pool_left m.
Proof.
  intros Hs -> Hb Ht Hr Hk Hl. unfold after_free, shared. cbn [sole snd]. rewrite Hr. cbn [Z.eqb Pos.eqb length sole drop fmap list_fmap fst dels drop_ref].
  rewrite !src_count_cons. cbn [snd]. unfold pbuf_get_allocsrc. rewrite Ht. change (pbs (_ <| ref_left := _ |>)) with (delete (next_blk m) (pbs m1)).
  change (dat (_ <| ref_left := _ |>)) with (delete (next_blk m) (dat m1)).
  split; [|split].
  - apply map_eq; intros k. destruct (decide (k = next_blk m)) as [->|Hne]; [rewrite lookup_delete_eq; symmetry; apply (so_pbs _ Hs); lia|]. rewrite lookup_delete_ne by done. by apply Hk.
  - apply map_eq; intros k. destruct (decide (k = next_blk m)) as [->|Hne]; [rewrite lookup_delete_eq; symmetry; apply (so_dat _ Hs); lia|]. rewrite lookup_delete_ne by done. by apply Hk.
  - change (pool_left (_ <| ref_left := _ |>)) with (pool_left m1 + 1). lia.
Qed.

(** A frame that fits one buffer, up to the call of IP. *)
Lemma receive_one_run etharp_in s eth pkt : let frame := eth ++ pkt in let p := next_blk (mem s) in
  store_ok (mem s) -> 0 < pool_left (mem s) -> length eth = 24%nat -> drop 22 eth = be_bytes 2 ETHTYPE_IP -> pkt <> [] -> Z.of_nat (length frame) <= first_room ->
  Z.land (nf_flags (nif s)) NETIF_FLAG_ETHARP <> 0 ->
  exists b m, receive_frame ip4_input etharp_in frame s = (ip4_input p ;;; ret tt) (with_mem s m) /\ packet m p [(p, b)] /\ cell_data (dat m) b = pkt /\
    pb_type b = pool_type /\ pb_ref b = 1 /\ pblk (pb_payload b) = p /\ poff (pb_payload b) = PBUF_IP + SIZEOF_ETH_HDR /\ releasable [(p, b)] /\
    (forall k, k <> p -> pbs m !! k = pbs (mem s) !! k /\ dat m !! k = dat (mem s) !! k) /\ pool_left m = pool_left (mem s) - 1 /\ next_blk m = p + 1.
Proof.
  intros frame p Hs Hpool He Hty Hne Hfl Hea. change first_room with 1432 in Hfl.
  assert (Z.of_nat (length frame) = 24 + Z.of_nat (length pkt)) as Hlf by (unfold frame; rewrite length_app, He; lia).
  assert (pool_segments PBUF_IP (Z.of_nat (length frame)) = 1) as Hseg by (unfold pool_segments; change PBUF_IP with 84; change PBUF_POOL_BUFSIZE_ALIGNED with 1516; zdm).
  destruct (receive_frame_run ip4_input etharp_in s eth pkt ETHTYPE_IP ip4_input Hs He) as (b & l & m & Er & Hp & Hcells & Hlen & _ & Hcont & Hoffs & Hrest & Hleft & Hnb); try done.
  { change (DATA_BUF_LEN - 6) with 1530. fold frame. lia. }
  { fold frame. lia. }
  { by left. }
  fold p frame in Er, Hp, Hcells, Hlen, Hcont, Hrest, Hleft, Hnb. rewrite Hseg in Hlen, Hleft, Hnb. destruct l as [|? ?]; [|cbn in Hlen; lia].
  rewrite content_cons in Hcont. cbn [content map concat snd] in Hcont. rewrite !app_nil_r in Hcont. change first_room with 1432 in Hcont.
  replace (Z.to_nat (Z.of_nat (length frame) - 1432)) with 0%nat in Hcont by lia. rewrite take_ge in Hcont by lia. change (stale_bytes (p + 1) 0) with (@nil Z) in Hcont. rewrite app_nil_r in Hcont.
  apply Forall_cons in Hcells as [(T1 & T2 & T3) _]. cbn [fst snd] in T1, T2, T3.
  assert (releasable [(p, b)]) as Hrel by (constructor; [|constructor]; cbn [snd]; rewrite T2; split; [left; unfold pbuf_get_allocsrc; by rewrite T1|lia]).
  exists b, m. do 8 (split; [done|]). split; [|done]. intros k Hk. apply Hrest. by intros ->%list_elem_of_singleton.
Qed.

(** From the frame of the card to the frame of the answer. *)
Lemma ping_run etharp_in s eth opts tos id off ttl src dest code c rest pad mac :
  let hlen := 20 + Z.of_nat (length opts) in let icmp := echo_msg ICMP_ECHO code c rest in let len := hlen + Z.of_nat (length icmp) in
  let frame := eth ++ (ip_header opts tos len id off ttl IP_PROTO_ICMP src dest ++ icmp) ++ pad in
  no_raw -> store_ok (mem s) -> 0 < pool_left (mem s) -> length eth = 24%nat -> drop 22 eth = be_bytes 2 ETHTYPE_IP -> Z.of_nat (length frame) <= first_room ->
  Z.land (nf_flags (nif s)) NETIF_FLAG_ETHARP <> 0 -> 0 <= nf_ip (nif s) < 2 ^ 32 -> acceptable (nif s) src dest -> neighbour s src mac ->
  (length opts <= 40)%nat -> Z.of_nat (length opts) mod 4 = 0 -> bytes_ok opts -> byte_ok tos -> byte_ok ttl -> byte_ok code -> bytes_ok rest -> 0 <= c < 65536 ->
  0 <= off < 65536 -> Z.land (le_val (be_bytes 2 off)) (PP_HTONS (Z.lor IP_OFFMASK IP_MF)) = 0 -> 0 <= src < 2 ^ 32 -> 0 <= dest < 2 ^ 32 -> len <= IF_MTU_SIZE ->
  checked_msg icmp -> 4 <= Z.of_nat (length rest) ->
  exists s', receive_frame ip4_input etharp_in frame s = Ok (tt, s') /\
    sent s' = sent s ++ [ip_frame s mac (ip_header opts tos len id off ICMP_TTL IP_PROTO_ICMP (reply_source (nif s) dest) src ++ echo_msg ICMP_ER code (adjust_chksum c) rest)] /\
    arp_table s' = arp_table s /\ nif s' = nif s /\ upper s' = ip_put (idle (ipg s)) (upper s) /\
    pbs (mem s') = pbs (mem s) /\ dat (mem s') = dat (mem s) /\ pool_left (mem s') = pool_left (mem s).
Proof.
  intros hlen icmp len frame Hraw Hs Hpool He Hty Hfl Hea Rn Hacc Hn Hlo Hmo Bo Bt Bl Bc Br Rc Ro Hoff Rs Rd Hmt Hm Hlr. set (p := next_blk (mem s)).
  set (hdr := ip_header opts tos len id off ttl IP_PROTO_ICMP src dest) in *. set (pkt := (hdr ++ icmp) ++ pad) in *.
  assert (length hdr = (20 + length opts)%nat) as Hlh by apply length_ip_header.
  destruct (receive_one_run etharp_in s eth pkt) as (b & m & Er & Hp & Hcont & T1 & T2 & T3 & Hoffs & Hrel & Hrest & Hleft & _); try done. fold p frame in Er. fold p in Hp, T3, Hrel, Hrest. set (s1 := with_mem s m) in *.
  destruct (ip4_input_good_run s1 p b opts tos id off ttl IP_PROTO_ICMP src dest icmp pad Hp Hrel Hcont Hlo Hmo Bo Bt Bl ltac:(done) Ro Hoff Rs Rd Hacc) as (Ei & Hp2 & Hd2).
  fold hlen len in Ei, Hp2, Hd2. set (b2 := cut b len) in *. set (s2 := with_ip _ _) in Ei.
  assert (ipg s2 = handling (ipg s) src dest) as Eg by apply ipg_with_ip.
  destruct (deliver_echo_run s2 p b2 opts tos len id off ttl src dest code c rest mac Hraw Hp2) as (d & Ed & F); try done.
  { unfold contiguous_type. change (pb_type b2) with (pb_type b). by rewrite T1. }
  { by constructor; [apply Forall_cons in Hrel as [? _]|]. }
  { change (poff (pb_payload b2)) with (poff (pb_payload b)). rewrite Hoffs. done. }
  { by rewrite Eg. }
  { by rewrite Eg. }
  { by destruct Hn. }
  fold hlen in Ed. rewrite Er. unfold bind. rewrite Ei, Ed. change (nif s2) with (nif s). change (mem s2) with (put_cell m p b2). set (c' := moved b2 (- SIZEOF_ETH_HDR)).
  change (put_cell (with_dat (put_cell m p b2) d) p c') with (put_cell (put_cell (with_dat m d) p b2) p c'). rewrite put_cell_put. eexists. split; [reflexivity|].
  match goal with |- context [after_free ?x _] => set (m1 := x) end.
  destruct (pool_cell_back (mem s) m1 p c' Hs eq_refl (lookup_insert_eq _ _ _) T1 T2) as (P1 & P2 & P3).
  { intros k Hk. destruct (Hrest k Hk) as [Q1 Q2]. unfold m1. rewrite pbs_put, lookup_insert_ne by done. split; [done|]. change (dat (put_cell (with_dat m d) p c')) with d.
    change (dat (mem s2)) with (dat m) in F. change (pblk (pb_payload b2)) with (pblk (pb_payload b)) in F. rewrite T3 in F. rewrite (fr_out _ _ _ F) by (by intros ?%list_elem_of_singleton). done. }
  { exact Hleft. }
  split; [done|]. split; [done|]. split; [done|]. split; [|done]. rewrite Eg. unfold with_ip, send, s2. cbn. rewrite ip_put_put. by destruct (ipg s).
Qed.

(** ** Packets that are dropped *)

(** RFC 791 and 1122 of a header: version, lengths, checksum. *)
Definition header_valid (pkt : bytes) : bool :=
  let v := nth 0 pkt 0 in let hlen := v mod 16 * 4 in let total := be_val (take 2 (drop 2 pkt)) in
  (v / 16 =? 4) && (20 <=? hlen) && (hlen <=? total) && (total <=? Z.of_nat (length pkt)) && (rfc1071_checksum (take (Z.to_nat hlen) pkt) =? 0).

Lemma checksum_zero_iff l : bytes_ok l -> (not16 (norm (le_val l)) =? 0) = (rfc1071_checksum l =? 0).
Proof.
  intros Hl. pose proof (checksum_bytes l Hl) as E. pose proof (norm_range (le_val l)) as R1. unfold rfc1071_checksum in *. rewrite rfc1071_norm in * by done.
  pose proof (norm_range (256 * le_val l)) as R2. set (x := not16 _) in *. set (y := not16 _) in E |- *. assert (0 <= x < 65536 /\ 0 <= y < 65536) as [Hx Hy] by (unfold x, y, not16; lia).
  unfold be_bytes in E. cbn [le_bytes] in E. change (reverse [?a; ?b]) with [b; a] in E. unfold u8 in E. injection E as E1 E2. destruct (x =? 0) eqn:A, (y =? 0) eqn:B; zdm.
Qed.

Lemma be_val_htons a b : byte_ok a -> byte_ok b -> lwip_htons (le_val [a; b]) = be_val [a; b].
Proof.
  unfold byte_ok. intros Ha Hb. assert (be_bytes 2 (256 * a + b) = [a; b]) as E.
  { unfold be_bytes. cbn [le_bytes]. change (reverse [?x; ?y]) with [y; x]. unfold u8. f_equal; [zdm|]. f_equal. zdm. }
  rewrite <- E, htons_read by lia. by rewrite be_val_bytes, Z.mod_small by lia.
Qed.

Lemma ip4_input_bad_run s p b pkt : packet (mem s) p [(p, b)] -> releasable [(p, b)] -> cell_data (dat (mem s)) b = pkt -> bytes_ok pkt -> (4 <= length pkt)%nat ->
  header_valid pkt = false -> exists b', pb_type b' = pb_type b /\ pb_ref b' = pb_ref b /\
    ip4_input p s = Ok (tt, with_mem s (after_free (put_cell (mem s) p b') [(p, b')])).
Proof.
  intros Hp Hfr Hd Bp Hl4 Hbad. destruct (packet_head _ _ _ _ _ Hp) as (_ & Hp0 & Hb & Hc & Htl & Hlb & _). cbn [sum_len] in Htl. rewrite Z.add_0_r in Htl.
  pose proof (length_cell _ _ Hc) as Hl. rewrite Hd in Hl. destruct pkt as [|v [|x1 [|x2 [|x3 rest]]]]; cbn [length] in Hl4; try lia. set (pkt := v :: x1 :: x2 :: x3 :: rest) in *.
  pose proof Bp as Bp'. unfold pkt in Bp'. apply Forall_cons in Bp' as [Bv Bp']. apply Forall_cons in Bp' as [_ Bp']. apply Forall_cons in Bp' as [B2 Bp']. apply Forall_cons in Bp' as [B3 _].
  unfold ip4_input. rewrite (onmem_getp _ _ _ _ Hp0 Hb), (rd_run s b IPH_VHL 1) by (done || (unfold IPH_VHL; unfold pkt in Hl; cbn [length] in Hl; lia)). rewrite Hd.
  change (le_val (take (Z.to_nat 1) (drop (Z.to_nat IPH_VHL) pkt))) with (v + 256 * 0). rewrite Z.mul_0_r, Z.add_0_r, shiftr_div by lia. change (2 ^ 4) with 16.
  assert (forall b', chain (pbs (put_cell (mem s) p b')) p [(p, b')] -> releasable [(p, b')] -> (onmem (pbuf_free p) ;;; ret tt) (with_mem s (put_cell (mem s) p b')) =
    Ok (tt, with_mem s (after_free (put_cell (mem s) p b') [(p, b')]))) as Hdrop by (intros b' Hch Hr'; by rewrite (onmem_run (with_mem s _) _ _ _ _ (pbuf_free_run _ p [(p, b')] Hch Hr'))).
  assert (put_cell (mem s) p b = mem s) as Eid by (by apply put_cell_id). unfold header_valid in Hbad. change (nth 0 pkt 0) with v in Hbad. change (take 2 (drop 2 pkt)) with [x2; x3] in Hbad.
  destruct (v / 16 =? 4) eqn:Ev; cbn [negb andb] in Hbad |- *.
  2: { exists b. specialize (Hdrop b). rewrite Eid, with_mem_id in *. split; [done|]. split; [done|]. apply Hdrop; [apply (pk_chain _ _ _ Hp)|done]. }
  rewrite (rd_run s b IPH_LEN 2) by (done || (unfold IPH_LEN; unfold pkt in Hl; cbn [length] in Hl; lia)). rewrite Hd. change (take (Z.to_nat 2) (drop (Z.to_nat IPH_LEN) pkt)) with [x2; x3].
  rewrite be_val_htons by done. set (total := be_val [x2; x3]) in *. assert (0 <= total < 65536) as Ht.
  { assert (total = x3 + 256 * x2) as -> by (unfold total, be_val; change (reverse [x2; x3]) with [x3; x2]; cbn [le_val]; lia). unfold byte_ok in *. lia. }
  assert (HL_BYTES v = v mod 16 * 4) as -> by (unfold HL_BYTES; change 0x0f with (2 ^ 4 - 1); rewrite land_mask by lia; change (2 ^ 4) with 16; unfold u8; unfold byte_ok in Bv; zdm). set (hlen := v mod 16 * 4) in *.
  destruct (realloc_one (mem s) p b (Z.min total (pb_len b)) Hp Hfr ltac:(lia)) as [Er Hp']. set (b' := cut b (Z.min total (pb_len b))) in *.
  assert ((if total <? pb_tot_len b then pbuf_realloc p total else ret tt) (mem s) = Ok (tt, put_cell (mem s) p b')) as Er'.
  { rewrite <- Er. rewrite Htl. destruct (total <? pb_len b) eqn:E1; [rewrite (proj2 (Z.ltb_lt _ _)) by lia; by rewrite Z.min_l by lia|by rewrite (proj2 (Z.ltb_ge _ _)) by lia]. }
  exists b'. split; [done|]. split; [done|]. specialize (Hdrop b' (pk_chain _ _ _ Hp')). assert (releasable [(p, b')]) as Hfr' by (constructor; [by apply Forall_cons in Hfr as [? _]|constructor]). specialize (Hdrop Hfr').
  rewrite (onmem_if_run _ _ _ _ _ Er'). set (s1 := with_mem s (put_cell (mem s) p b')) in *. rewrite (onmem_getp s1 p b' _ Hp0 (lookup_insert_eq _ _ _)).
  change (pb_len b') with (Z.min total (pb_len b)). change (pb_tot_len b') with (Z.min total (pb_len b)). change IP_HLEN with 20.
  destruct ((_ || _) || _) eqn:Ebad; [exact Hdrop|]. apply orb_false_iff in Ebad as [[E1%Z.ltb_ge E2%Z.ltb_ge]%orb_false_iff E3%Z.ltb_ge].
  rewrite !(proj2 (Z.leb_le _ _)) in Hbad by lia. cbn [andb] in Hbad.
  assert (cell_ok (dat (mem s1)) b') as Hc' by apply (Forall_inv (pk_cells _ _ _ Hp')).
  assert (cell_data (dat (mem s1)) b' = take (Z.to_nat (Z.min total (pb_len b))) pkt) as Hd' by (change (dat (mem s1)) with (dat (mem s)); unfold b'; rewrite cell_data_cut by lia; by rewrite Hd).
  set (hdr := take (Z.to_nat hlen) pkt) in *. change (pb_payload b) with (pb_payload b').
  rewrite (chksum_at_run s1 b' hlen hdr (drop (Z.to_nat hlen) (take (Z.to_nat (Z.min total (pb_len b))) pkt)));
    [|done| |unfold hdr; rewrite length_take; lia|unfold hlen; zdm|by apply Forall_take].
  - rewrite checksum_zero_iff by (by apply Forall_take). rewrite Hbad. exact Hdrop.
  - rewrite Hd'. unfold hdr. rewrite <- (take_drop (Z.to_nat hlen) (take _ pkt)) at 1. f_equal. rewrite take_take. f_equal. lia.
Qed.

(** A frame whose header does not hold leaves nothing behind. *)
Lemma bad_frame_run etharp_in s eth pkt : store_ok (mem s) -> 0 < pool_left (mem s) -> length eth = 24%nat -> drop 22 eth = be_bytes 2 ETHTYPE_IP ->
  Z.of_nat (length (eth ++ pkt)) <= first_room -> Z.land (nf_flags (nif s)) NETIF_FLAG_ETHARP <> 0 -> bytes_ok pkt -> (4 <= length pkt)%nat -> header_valid pkt = false ->
  exists m, receive_frame ip4_input etharp_in (eth ++ pkt) s = Ok (tt, with_mem s m) /\ pbs m = pbs (mem s) /\ dat m = dat (mem s) /\ pool_left m = pool_left (mem s).
Proof.
  intros Hs Hpool He Hty Hfl Hea Bp Hl4 Hbad. destruct (receive_one_run etharp_in s eth pkt) as (b & m & Er & Hp & Hcont & T1 & T2 & T3 & _ & Hrel & Hrest & Hleft & _); try done.
  { intros ->. cbn in Hl4. lia. }
  destruct (ip4_input_bad_run (with_mem s m) (next_blk (mem s)) b pkt Hp Hrel Hcont Bp Hl4 Hbad) as (b' & U1 & U2 & Ei). set (p := next_blk (mem s)) in *.
  rewrite Er. unfold bind. rewrite Ei. change (mem (with_mem s m)) with m. eexists. split; [by rewrite with_mem_mem|].
  apply (pool_cell_back (mem s) (put_cell m p b') p b' Hs eq_refl (lookup_insert_eq _ _ _)); [congruence|congruence| |done].
  intros k Hk. destruct (Hrest k Hk). rewrite pbs_put, lookup_insert_ne by done. done.
Qed.
End IpIn.
