(* ===== verification/ReassProofs.v ===== *)
(** Reassembly: the fragments of a datagram form a list by offset in packet
    memory; a fragment is put in its place, and the list is turned into the
    datagram when no hole is left. *)

From stdpp Require Import gmap.
From S2P Require Import Prelude Cmonad Cutils Heap Pbuf PbufProofs PbufChain Inet InetProofs Ethernet Etharp EthernetProofs Link EtharpProofs ArpProofs IpOutput Icmp Reass IpInput IpProofs FragProofs IcmpProofs IpInProofs.

(** ** The list in memory *)

Record rfrag := mk_rf { f_p : Z; f_b : pbuf; f_start : Z; f_data : bytes }.
Definition f_stop (f : rfrag) : Z := f_start f + Z.of_nat (length (f_data f)).
Definition head_p (fs : list rfrag) : Z := match fs with [] => NULL | f :: _ => f_p f end.

(** A fragment that waits: one cell of the pool, the helper over its header. *)
Record frag_at (m : lmem) (f : rfrag) (nx : Z) : Prop := {
  fa_packet : packet m (f_p f) [(f_p f, f_b f)];
  fa_own : pblk (pb_payload (f_b f)) = f_p f;
  fa_pool : pb_type (f_b f) = pool_type /\ pb_ref (f_b f) = 1;
  fa_addr : 0 < f_p f < 2 ^ 32 /\ 0 <= nx < 2 ^ 32;
  fa_range : 0 <= f_start f /\ f_stop f < 65536 /\ f_data f <> [];
  fa_data : exists tail, length tail = 12%nat /\
    cell_data (dat m) (f_b f) = le_bytes 4 nx ++ le_bytes 2 (f_start f) ++ le_bytes 2 (f_stop f) ++ tail ++ f_data f
}.
Fixpoint frags (m : lmem) (fs : list rfrag) : Prop := match fs with [] => True | f :: fs => frag_at m f (head_p fs) /\ frags m fs end.

(** No hole between the fragments. *)
Fixpoint contiguous_frags (fs : list rfrag) : bool :=
  match fs with f :: ((g :: _) as l) => (f_stop f =? f_start g) && contiguous_frags l | _ => true end.
Definition contiguous_after (prev : option rfrag) (fs : list rfrag) : bool := match prev with Some f => contiguous_frags (f :: fs) | None => contiguous_frags fs end.
Definition last_of (prev : option rfrag) (fs : list rfrag) : option rfrag := match last fs with Some f => Some f | None => prev end.

Lemma frags_app m fs1 fs2 : frags m (fs1 ++ fs2) -> frags m fs2.
Proof. induction fs1 as [|f fs1 IH]; [done|]. intros [_ Hf]. by apply IH. Qed.
Lemma head_app fs1 fs2 : head_p (fs1 ++ fs2) = match fs1 with [] => head_p fs2 | f :: _ => f_p f end.
Proof. by destruct fs1. Qed.

Section Reass.
Context `{PbufEnv} `{Addresses} {U : Type} `{IpIn U}.
Implicit Types s : stack U.

Lemma payload_run {A} s p b l (k : ptr -> M (stack U) A) : packet (mem s) p ((p, b) :: l) -> bind (payload p) k s = k (pb_payload b) s.
Proof. intros Hp. destruct (packet_head _ _ _ _ _ Hp) as (_ & Hp0 & Hb & _). unfold payload. by rewrite bind_assoc, (onmem_getp _ _ _ _ Hp0 Hb). Qed.

Lemma helper_at m f nx d : frag_at m f nx -> take 8 (cell_data (dat m) (f_b f)) = d ->
  le_val (take 4 d) = nx /\ le_val (take 2 (drop 4 d)) = f_start f /\ le_val (take 2 (drop 6 d)) = f_stop f /\ 20 <= pb_len (f_b f).
Proof.
  intros Hf <-. destruct (fa_data _ _ _ Hf) as (t & Ht & E). destruct (fa_addr _ _ _ Hf) as [_ Hn]. destruct (fa_range _ _ _ Hf) as (Hs & He & _).
  pose proof (length_cell _ _ (Forall_inv (pk_cells _ _ _ (fa_packet _ _ _ Hf)))) as Hl. cbn [snd] in Hl. rewrite E in *. rewrite !length_app, !length_le_bytes, Ht in Hl.
  assert (f_start f <= f_stop f) by (unfold f_stop; lia).
  pose proof (le_val_bytes 4 nx) as V1. pose proof (le_val_bytes 2 (f_start f)) as V2. pose proof (le_val_bytes 2 (f_stop f)) as V3.
  rewrite Z.mod_small in V1 by (change (256 ^ Z.of_nat 4) with (2 ^ 32); lia). rewrite Z.mod_small in V2 by (change (256 ^ Z.of_nat 2) with 65536; lia).
  rewrite Z.mod_small in V3 by (change (256 ^ Z.of_nat 2) with 65536; lia). split; [done|]. split; [done|]. split; [done|]. lia.
Qed.
Lemma helper_run {A} s f nx (k : Z * Z * Z -> M (stack U) A) : frag_at (mem s) f nx -> bind (helper (pb_payload (f_b f))) k s = k (nx, f_start f, f_stop f) s.
Proof.
  intros Hf. destruct (helper_at _ _ _ _ Hf eq_refl) as (E1 & E2 & E3 & Hl). pose proof (Forall_inv (pk_cells _ _ _ (fa_packet _ _ _ Hf))) as Hc. cbn [snd] in Hc.
  pose proof (pread_cell (mem s) (f_b f) 0 8 Hc ltac:(lia) ltac:(lia) ltac:(lia)) as E. rewrite ptr_add_0, drop_0 in E. unfold helper. rewrite bind_assoc, (onmem_run _ _ _ _ _ E), with_mem_id, bind_ret.
  change (Z.to_nat 8) with 8%nat. by rewrite E1, E2, E3.
Qed.

(** A fragment does not notice writes to other blocks. *)
Lemma frag_at_frame m d f nx k : frag_at m f nx -> frame_dat [k] (dat m) d -> k <> f_p f -> frag_at (with_dat m d) f nx.
Proof.
  intros [Hp Ho Ht Ha Hr (t & Hlt & Hd)] F Hk. split; try done; [by eapply frame_packet|]. exists t. split; [done|].
  change (dat (with_dat m d)) with d. rewrite (frame_cell_data _ _ _ _ F); [done|]. rewrite Ho. intros ?%list_elem_of_singleton. congruence.
Qed.
Lemma frags_frame m d fs k : frags m fs -> frame_dat [k] (dat m) d -> k ∉ map f_p fs -> frags (with_dat m d) fs.
Proof.
  intros Hf F Hk. induction fs as [|f fs IH]; [done|]. destruct Hf as [Hf Hfs]. cbn in Hk. apply not_elem_of_cons in Hk as [Hk1 Hk2]. split; [by eapply frag_at_frame|by apply IH].
Qed.

Lemma set_next_run s f nx nx' : frag_at (mem s) f nx -> 0 <= nx' < 2 ^ 32 ->
  exists d, (forall A (k : M (stack U) A), (set_next_pbuf (pb_payload (f_b f)) nx' ;;; k) s = k (with_mem s (with_dat (mem s) d))) /\
    frame_dat [f_p f] (dat (mem s)) d /\ frag_at (with_dat (mem s) d) f nx'.
Proof.
  intros Hf Hn. destruct (helper_at _ _ _ _ Hf eq_refl) as (_ & _ & _ & Hl). destruct Hf as [Hp Ho Ht Ha Hr (t & Hlt & Hd)]. pose proof (Forall_inv (pk_cells _ _ _ Hp)) as Hc. cbn [snd] in Hc.
  destruct (pwrite_cell (mem s) (f_b f) 0 (le_bytes 4 nx') Hc ltac:(lia) ltac:(rewrite length_le_bytes; lia)) as (d & E & F & C). rewrite Ho in F. exists d.
  split; [intros A k; unfold set_next_pbuf, wr; by rewrite (onmem_run _ _ _ _ _ E)|]. split; [done|].
  split; try done; [by eapply frame_packet|tauto|]. exists t. split; [done|]. change (dat (with_dat (mem s) d)) with d. rewrite C, Hd. change (Z.to_nat 0) with 0%nat.
  rewrite blit_app_le by (rewrite !length_le_bytes; lia). by rewrite blit_all by (by rewrite !length_le_bytes).
Qed.

(** ** The search for the place *)

Lemma contiguous_step prev f fs : contiguous_after prev (f :: fs) = (match prev with Some g => f_stop g =? f_start f | None => true end) && contiguous_after (Some f) fs.
Proof. by destruct prev. Qed.

(** The fragments in front of the new one are passed without a change. *)
Lemma place_walk fs1 : forall s fs2 prev nxp fuel ipr new_p iprh start stop valid,
  frags (mem s) (fs1 ++ fs2) -> Forall (fun f => f_stop f <= start) fs1 -> match prev with Some g => frag_at (mem s) g nxp | None => True end ->
  place_loop (length fs1 + fuel) ipr new_p iprh start stop (head_p (fs1 ++ fs2)) (option_map (fun g => pb_payload (f_b g)) prev) valid s =
    place_loop fuel ipr new_p iprh start stop (head_p fs2) (option_map (fun g => pb_payload (f_b g)) (last_of prev fs1)) (valid && contiguous_after prev fs1) s.
Proof.
  induction fs1 as [|f fs1 IH]; intros s fs2 prev nxp fuel ipr new_p iprh start stop valid Hf Hlt Hprev.
  - cbn [app length Nat.add]. destruct prev; cbn; by rewrite andb_true_r.
  - apply Forall_cons in Hlt as [Hlt Hlts]. destruct Hf as [Hf Hfs]. cbn [length Nat.add place_loop app head_p]. destruct (fa_addr _ _ _ Hf) as [Ha _]. destruct (fa_range _ _ _ Hf) as (Hr1 & Hr2 & Hr3).
    assert (f_start f < f_stop f) as Hne by (unfold f_stop; destruct (f_data f); [done|cbn; lia]).
    rewrite (proj2 (Z.eqb_neq _ _)) by (unfold NULL; lia). rewrite (payload_run _ _ _ _ _ (fa_packet _ _ _ Hf)), (helper_run _ _ _ _ Hf). cbv beta iota.
    rewrite (proj2 (Z.ltb_ge _ _)), (proj2 (Z.eqb_neq _ _)), (proj2 (Z.ltb_ge _ _)) by lia.
    assert (forall k : bool -> M (stack U) (option (bool * option ptr * bool)), bind (match option_map (fun g => pb_payload (f_b g)) prev with
      | Some iprh_prev => let* '(_, _, prev_end) := helper iprh_prev in ret (valid && (prev_end =? f_start f)) | None => ret valid end) k s =
      k (valid && match prev with Some g => f_stop g =? f_start f | None => true end) s) as ->.
    { intros k. destruct prev as [g|]; cbn [option_map]; [by rewrite bind_assoc, (helper_run _ _ _ _ Hprev)|by rewrite andb_true_r]. }
    change (Some (pb_payload (f_b f))) with (option_map (fun g => pb_payload (f_b g)) (Some f)). rewrite (IH s fs2 (Some f) (head_p (fs1 ++ fs2)) fuel ipr new_p iprh start stop _ Hfs Hlts Hf).
    rewrite (contiguous_step prev), andb_assoc. f_equal. f_equal. unfold last_of. destruct fs1 as [|g fs1]; [done|]. change (last (f :: g :: fs1)) with (last (g :: fs1)). destruct (last (g :: fs1)) eqn:E; [done|]. by apply last_None in E.
Qed.

(** ** The place *)

Definition with_rd s (r : Z) (d : ip_reassdata) : stack U := with_ip s ((ipg s) <| rds := <[r := d]> (rds (ipg s)) |>).
Lemma getr_run {A} s r d (k : ip_reassdata -> M (stack U) A) : r <> NULL -> rds (ipg s) !! r = Some d -> bind (getr r) k s = k d s.
Proof. intros Hr Hd. unfold bind, getr. rewrite (proj2 (Z.eqb_neq _ _) Hr). unfold ipg in Hd. by rewrite Hd. Qed.
Lemma updr_run {A} s r d f (k : M (stack U) A) : r <> NULL -> rds (ipg s) !! r = Some d -> (updr r f ;;; k) s = k (with_rd s r (f d)).
Proof. intros Hr Hd. unfold updr. by rewrite bind_assoc, (getr_run _ _ _ _ Hr Hd). Qed.
Lemma with_rd_id s r d : rds (ipg s) !! r = Some d -> with_rd s r d = s.
Proof.
  intros Hd. unfold with_rd. rewrite insert_id by done. replace ((ipg s) <| rds := rds (ipg s) |>) with (ipg s) by (by destruct (ipg s)). apply with_ip_id.
Qed.
Lemma rd_p_same d : d <| rd_p := rd_p d |> = d.
Proof. by destruct d. Qed.

Lemma frags_glue m m' fs1 h fs2 fs3 : frags m (fs1 ++ h :: fs2) -> (forall g nx, g ∈ fs1 -> frag_at m g nx -> frag_at m' g nx) ->
  frag_at m' h (head_p fs3) -> frags m' fs3 -> frags m' (fs1 ++ h :: fs3).
Proof.
  intros Hf Hk Hh H3. induction fs1 as [|g fs1 IH]; cbn [app frags] in *; [done|]. destruct Hf as [Hg Hf]. split.
  - replace (head_p (fs1 ++ h :: fs3)) with (head_p (fs1 ++ h :: fs2)) by (by destruct fs1). apply Hk; [apply list_elem_of_here|done].
  - apply IH; [done|]. intros g' nx Hg'. apply Hk. by apply list_elem_of_further.
Qed.

(** The end of the search and the links that it sets; [drop] is not taken. *)
Definition place_and_link {A} (fuel : nat) (ipr : Z) (f : rfrag) (q : Z) (prev : option ptr) (valid : bool) (drop : M (stack U) A) (k : bool -> M (stack U) A) : M (stack U) A :=
  let* placed := place_loop fuel ipr (f_p f) (pb_payload (f_b f)) (f_start f) (f_stop f) q prev valid in
  match placed with
  | None => drop
  | Some (inside, prev, valid) =>
      let* valid :=
        (if (inside : bool) then ret valid else
         match prev with
         | Some iprh_prev =>
             set_next_pbuf iprh_prev (f_p f) ;;;
             let* '(_, _, prev_end) := helper iprh_prev in
             ret (valid && (prev_end =? f_start f))
         | None => updr ipr (fun d => d <| rd_p := f_p f |>) ;;; ret valid
         end) in
      k valid
  end.

(** First in the list. *)
Lemma place_first_run {A} s fs2 f ipr d fuel valid (drop : M (stack U) A) k : frags (mem s) fs2 -> frag_at (mem s) f NULL -> f_p f ∉ map f_p fs2 ->
  Forall (fun g => f_stop f <= f_start g) fs2 -> ipr <> NULL -> rds (ipg s) !! ipr = Some d ->
  exists e, place_and_link (S fuel) ipr f (head_p fs2) None valid drop k s = k valid (with_rd (with_mem s (with_dat (mem s) e)) ipr (d <| rd_p := f_p f |>)) /\
    frame_dat [f_p f] (dat (mem s)) e /\ frags (with_dat (mem s) e) (f :: fs2).
Proof.
  intros Hfs Hf Hni Hlt Hi Hd. unfold place_and_link. destruct (fa_range _ _ _ Hf) as (Hr1 & Hr2 & Hr3). assert (f_start f < f_stop f) as Hne by (unfold f_stop; destruct (f_data f); [done|cbn; lia]).
  destruct fs2 as [|g fs2]; cbn [place_loop head_p].
  - rewrite Z.eqb_refl, bind_ret, bind_assoc, (updr_run _ _ d) by done. exists (dat (mem s)). rewrite with_dat_id, with_mem_id. split; [done|]. split; [apply frame_refl|done].
  - destruct Hfs as [Hg Hfs]. apply Forall_cons in Hlt as [Hlt _]. destruct (fa_addr _ _ _ Hg) as [Ha _]. rewrite (proj2 (Z.eqb_neq _ _)) by (unfold NULL; lia).
    rewrite !bind_assoc, (payload_run _ _ _ _ _ (fa_packet _ _ _ Hg)), bind_assoc, (helper_run _ _ _ _ Hg). cbv beta iota. rewrite (proj2 (Z.ltb_lt _ _)) by lia.
    destruct (set_next_run s f NULL (f_p g) Hf ltac:(lia)) as (e & E & F & Hf').
    exists e. split; [|split; [done|split; [exact Hf'|]]].
    + rewrite bind_assoc, E, (proj2 (Z.ltb_ge _ _)) by lia. by rewrite bind_assoc, (updr_run _ _ d).
    + apply (frags_frame (mem s) e (g :: fs2) (f_p f)); done.
Qed.

(** Behind [h]. *)
Lemma place_after_run {A} s fs1 h fs2 f ipr d fuel valid (drop : M (stack U) A) k : frags (mem s) (fs1 ++ h :: fs2) -> frag_at (mem s) f NULL -> f_p f ∉ map f_p (fs1 ++ h :: fs2) ->
  NoDup (map f_p (fs1 ++ h :: fs2)) -> f_stop h <= f_start f -> Forall (fun g => f_stop f <= f_start g) fs2 -> ipr <> NULL -> rds (ipg s) !! ipr = Some d ->
  exists e, place_and_link (S fuel) ipr f (head_p fs2) (Some (pb_payload (f_b h))) valid drop k s =
      k (valid && (f_stop h =? f_start f)) (with_mem s (with_dat (mem s) e)) /\
    frame_dat (map f_p (fs1 ++ h :: f :: fs2)) (dat (mem s)) e /\ frags (with_dat (mem s) e) (fs1 ++ h :: f :: fs2).
Proof.
  intros Hfs Hf Hni Hnd Hle Hlt Hi Hd. unfold place_and_link. destruct (fa_range _ _ _ Hf) as (Hr1 & Hr2 & Hr3). assert (f_start f < f_stop f) as Hne by (unfold f_stop; destruct (f_data f); [done|cbn; lia]).
  destruct (frags_app _ _ _ Hfs) as [Hh Hfs2]. rewrite map_app in Hni, Hnd. cbn [map] in Hni, Hnd. apply not_elem_of_app in Hni as [Hn1 Hn2]. apply not_elem_of_cons in Hn2 as [Hn2 Hn3].
  apply NoDup_app in Hnd as (_ & Hnd1 & Hnd2). apply NoDup_cons in Hnd2 as [Hnd2 _]. destruct (fa_addr _ _ _ Hf) as [Haf _].
  assert (forall e1, frame_dat [f_p f] (dat (mem s)) e1 -> frag_at (with_dat (mem s) e1) f (head_p fs2) ->
    exists e, (forall B (k' : M (stack U) B), (set_next_pbuf (pb_payload (f_b h)) (f_p f) ;;; k') (with_mem s (with_dat (mem s) e1)) = k' (with_mem s (with_dat (mem s) e))) /\
      frame_dat (map f_p (fs1 ++ h :: f :: fs2)) (dat (mem s)) e /\ frag_at (with_dat (mem s) e) h (f_p f) /\ frags (with_dat (mem s) e) (fs1 ++ h :: f :: fs2)) as Hlink.
  { intros e1 F1 Hf1. set (s1 := with_mem s (with_dat (mem s) e1)). assert (frag_at (mem s1) h (head_p fs2)) as Hh1 by (eapply frag_at_frame; [exact Hh|exact F1|congruence]).
    destruct (set_next_run s1 h _ (f_p f) Hh1 ltac:(lia)) as (e & E & F2 & Hh2). change (dat (mem s1)) with e1 in F2. change (with_dat (mem s1) e) with (with_dat (mem s) e) in Hh2. exists e.
    assert (frag_at (with_dat (mem s) e) f (head_p fs2)) as Hf2 by (eapply (frag_at_frame (with_dat (mem s) e1)); [exact Hf1|exact F2|congruence]).
    split; [exact E|split; [|split; [done|]]].
    - eapply frame_trans; (eapply frame_mono; [|eassumption]); intros k0 ->%list_elem_of_singleton; rewrite map_app; cbn [map]; set_solver.
    - eapply (frags_glue (mem s)); [exact Hfs| |done|].
      + intros g nx Hg Hg0. assert (f_p g ∈ map f_p fs1) as Hin by (by apply list_elem_of_fmap_2). eapply (frag_at_frame (with_dat (mem s) e1)); [eapply frag_at_frame; [exact Hg0|exact F1|]|exact F2|]; [congruence|].
        intros E0. apply (Hnd1 _ Hin). rewrite <- E0. apply list_elem_of_here.
      + split; [done|]. eapply (frags_frame (with_dat (mem s) e1)); [eapply frags_frame; [exact Hfs2|exact F1|done]|exact F2|done]. }
  destruct fs2 as [|g fs2]; cbn [place_loop head_p].
  - rewrite Z.eqb_refl, bind_ret. destruct (Hlink (dat (mem s)) (frame_refl _ _)) as (e & E & F & Hh' & Hfs'); [by rewrite with_dat_id|].
    rewrite with_dat_id, with_mem_id in E. exists e. split; [|done]. rewrite bind_assoc, E, bind_assoc. by rewrite (helper_run (with_mem s (with_dat (mem s) e)) _ _ _ Hh').
  - destruct Hfs2 as [Hg Hfs2]. apply Forall_cons in Hlt as [Hlt _]. destruct (fa_addr _ _ _ Hg) as [Ha _]. rewrite (proj2 (Z.eqb_neq _ _)) by (unfold NULL; lia).
    rewrite !bind_assoc, (payload_run _ _ _ _ _ (fa_packet _ _ _ Hg)), bind_assoc, (helper_run _ _ _ _ Hg). cbv beta iota. rewrite (proj2 (Z.ltb_lt _ _)) by lia.
    destruct (set_next_run s f NULL (f_p g) Hf ltac:(lia)) as (e1 & E1 & F1 & Hf1). destruct (Hlink e1 F1 Hf1) as (e & E & F & Hh' & Hfs'). exists e. split; [|done].
    rewrite bind_assoc, E1. assert (frag_at (mem (with_mem s (with_dat (mem s) e1))) h (f_p g)) as Hh1 by (eapply frag_at_frame; [exact Hh|exact F1|congruence]).
    rewrite bind_assoc, (helper_run _ _ _ _ Hh1). cbv beta iota. rewrite !(proj2 (Z.ltb_ge _ _)) by lia. cbn [orb]. by rewrite bind_assoc, E.
Qed.

Lemma contiguous_split fs1 f fs2 : contiguous_frags (fs1 ++ f :: fs2) = contiguous_frags (fs1 ++ [f]) && contiguous_frags (f :: fs2).
Proof.
  induction fs1 as [|g fs1 IH]; [done|]. destruct fs1 as [|h fs1].
  - cbn [app contiguous_frags]. by rewrite andb_true_r.
  - cbn [app contiguous_frags] in *. by rewrite IH, andb_assoc.
Qed.
Lemma contiguous_last fs1 h f : contiguous_frags ((fs1 ++ [h]) ++ [f]) = contiguous_frags (fs1 ++ [h]) && (f_stop h =? f_start f).
Proof. rewrite <- app_assoc. cbn [app]. rewrite contiguous_split. f_equal. cbn [contiguous_frags]. by rewrite andb_true_r. Qed.

(** The new fragment [f] between the fragments in front of it and those behind. *)
Lemma place_run {A} s fs1 fs2 f ipr d fuel (drop : M (stack U) A) k : frags (mem s) (fs1 ++ fs2) -> frag_at (mem s) f NULL -> f_p f ∉ map f_p (fs1 ++ fs2) ->
  NoDup (map f_p (fs1 ++ fs2)) -> Forall (fun g => f_stop g <= f_start f) fs1 -> Forall (fun g => f_stop f <= f_start g) fs2 -> ipr <> NULL -> rds (ipg s) !! ipr = Some d ->
  rd_p d = head_p (fs1 ++ fs2) -> (length fs1 < fuel)%nat -> let all := fs1 ++ f :: fs2 in
  exists e, place_and_link fuel ipr f (rd_p d) None true drop k s =
      k (contiguous_frags (fs1 ++ [f])) (with_rd (with_mem s (with_dat (mem s) e)) ipr (d <| rd_p := head_p all |>)) /\
    frame_dat (map f_p all) (dat (mem s)) e /\ frags (with_dat (mem s) e) all.
Proof.
  intros Hfs Hf Hni Hnd Hlt1 Hlt2 Hi Hd Hq Hfu all. rewrite Hq. destruct fuel as [|fuel]; [lia|]. destruct fs1 as [|h fs1 _] using rev_ind.
  - destruct (place_first_run s fs2 f ipr d fuel true drop k Hfs Hf Hni Hlt2 Hi Hd) as (e & E & F & Hfs'). exists e. split; [exact E|]. split; [|done].
    eapply frame_mono; [|exact F]. intros k0 ->%list_elem_of_singleton. apply list_elem_of_here.
  - apply Forall_app in Hlt1 as [Hlt1 Hlth]. apply Forall_cons in Hlth as [Hlth _]. rewrite length_app in Hfu. cbn [length] in Hfu.
    pose proof (place_walk (fs1 ++ [h]) s fs2 None 0 (S fuel - S (length fs1)) ipr (f_p f) (pb_payload (f_b f)) (f_start f) (f_stop f) true Hfs) as Ew.
    rewrite length_app in Ew. cbn [length] in Ew. replace (length fs1 + 1 + (S fuel - S (length fs1)))%nat with (S fuel) in Ew by lia.
    assert (exists fuel', (S fuel - S (length fs1))%nat = S fuel') as [fuel' Ef] by (exists (S fuel - S (length fs1) - 1)%nat; lia). rewrite Ef in Ew.
    assert (last_of None (fs1 ++ [h]) = Some h) as El by (unfold last_of; by rewrite last_snoc). rewrite El in Ew. cbn [option_map contiguous_after andb] in Ew.
    rewrite <- app_assoc in Hfs, Hni, Hnd, Hq, Ew |- *. cbn [app] in *.
    destruct (place_after_run s fs1 h fs2 f ipr d fuel' (contiguous_frags (fs1 ++ [h])) drop k Hfs Hf Hni Hnd Hlth Hlt2 Hi Hd) as (e & E & F & Hfs').
    assert (all = fs1 ++ h :: f :: fs2) as Eall by (unfold all; by rewrite <- app_assoc). rewrite Eall.
    exists e. split; [|done]. unfold place_and_link in *. unfold bind at 1. rewrite Ew; [|by apply Forall_app; split; [|constructor]|done].
    unfold bind at 1 in E. rewrite E, contiguous_last. f_equal.
    rewrite with_rd_id; [done|]. change (ipg (with_mem s (with_dat (mem s) e))) with (ipg s). rewrite Hd. f_equal. replace (head_p (fs1 ++ h :: f :: fs2)) with (rd_p d) by (rewrite Hq; by destruct fs1). by rewrite rd_p_same.
Qed.

Lemma holes_run fs : forall s prev fuel, frags (mem s) fs -> (length fs < fuel)%nat -> holes_loop fuel (f_stop prev) (head_p fs) s = Ok (contiguous_frags (prev :: fs), s).
Proof.
  induction fs as [|f fs IH]; intros s prev fuel Hfs Hfu; (destruct fuel as [|fuel]; [cbn in Hfu; lia|]); cbn [holes_loop head_p]; [done|].
  destruct Hfs as [Hf Hfs]. destruct (fa_addr _ _ _ Hf) as [Ha _]. rewrite (proj2 (Z.eqb_neq _ _)) by (unfold NULL; lia). rewrite (payload_run _ _ _ _ _ (fa_packet _ _ _ Hf)), (helper_run _ _ _ _ Hf).
  cbn [contiguous_frags]. destruct (f_stop prev =? f_start f); cbn [negb andb]; [|done]. apply IH; [done|cbn in Hfu; lia].
Qed.

Lemma frags_size m fs : frags m fs -> NoDup (map f_p fs) -> (length fs <= size (pbs m))%nat.
Proof.
  intros Hf Hnd. rewrite <- size_dom. rewrite <- (length_map f_p fs). rewrite <- (size_list_to_set (C := gset Z) (map f_p fs)) by done. apply subseteq_size. clear Hnd.
  induction fs as [|f fs IH]; [set_solver|]. destruct Hf as [Hf Hfs]. cbn. apply union_subseteq. split; [|by apply IH]. destruct (packet_head _ _ _ _ _ (fa_packet _ _ _ Hf)) as (_ & _ & Hb & _).
  apply singleton_subseteq_l. by apply elem_of_dom_2 in Hb.
Qed.
End Reass.
