(* ===== verification/ReassWhole.v ===== *)
(** Reassembly, from the fragment that arrives to the datagram: the pieces of a
    datagram may come in any order, the last of them to arrive delivers it. *)

From stdpp Require Import gmap sorting.
From S2P Require Import Prelude Cmonad Cutils Heap Pbuf PbufProofs PbufChain Inet InetProofs Ethernet Etharp EthernetProofs Link EtharpProofs ArpProofs IpOutput Icmp Reass IpInput IpProofs FragProofs IcmpProofs IpInProofs ReassProofs.

(** Records of the globals, field by field. *)
Ltac ip_simpl := cbv beta iota delta [set set_ip_id set_current_iphdr_src set_current_iphdr_dest set_reassdatagrams set_rds set_rd_left set_next_rd set_ip_reass_pbufcount
  ip_id current_iphdr_src current_iphdr_dest current_netif current_input_netif current_ip4_header current_ip_header_tot_len reassdatagrams rds rd_left next_rd ip_reass_pbufcount set_rd_next set_rd_p set_rd_iphdr set_rd_datagram_len set_rd_flags set_rd_timer
  rd_next rd_p rd_iphdr rd_datagram_len rd_flags rd_timer].

Section Datagram.
Context `{PbufEnv} `{Addresses} {U : Type} `{IpIn U}.
Implicit Types s : stack U.
(** The fields that the fragments of the datagram share. *)
Context (tos id ttl proto src dest : Z).

Definition hdr_of (len off : Z) : bytes := ip_header [] tos len id off ttl proto src dest.

(** ** A fragment arrives *)

(** The packet as it comes from ip4_input; [off] is its offset field. *)
Record arrived (m : lmem) (f : rfrag) (off : Z) : Prop := {
  ar_packet : packet m (f_p f) [(f_p f, f_b f)];
  ar_own : pblk (pb_payload (f_b f)) = f_p f;
  ar_pool : pb_type (f_b f) = pool_type /\ pb_ref (f_b f) = 1;
  ar_addr : 0 < f_p f < 2 ^ 32;
  ar_range : 0 <= f_start f /\ f_stop f < 65536 - 20 /\ f_data f <> [];
  ar_off : 0 <= off < 65536 /\ f_start f = Z.land off IP_OFFMASK * 8;
  ar_data : cell_data (dat m) (f_b f) = hdr_of (20 + Z.of_nat (length (f_data f))) off ++ f_data f
}.

Lemma helper_blits h data nx st sp : length h = 20%nat -> exists tail, length tail = 12%nat /\
  blits [(0, le_bytes 4 nx); (4, le_bytes 2 st); (6, le_bytes 2 sp)] (h ++ data) = le_bytes 4 nx ++ le_bytes 2 st ++ le_bytes 2 sp ++ tail ++ data.
Proof.
  intros Hh. exists (drop 8 h). rewrite length_drop, Hh. split; [done|]. pose proof (length_le_bytes 4 nx) as L1. pose proof (length_le_bytes 2 st) as L2. pose proof (length_le_bytes 2 sp) as L3.
  set (A := le_bytes 4 nx) in *. set (B := le_bytes 2 st) in *. set (C := le_bytes 2 sp) in *. clearbody A B C. destruct_len A. destruct_len B. destruct_len C. destruct_len h. done.
Qed.

(** The helper is written over the header. *)
Lemma helper_put_run {A} s f off (k : M (stack U) A) : arrived (mem s) f off ->
  exists d, (set_next_pbuf (pb_payload (f_b f)) NULL ;;; wr (pb_payload (f_b f)) 4 (le_bytes 2 (f_start f)) ;;; wr (pb_payload (f_b f)) 6 (le_bytes 2 (f_stop f)) ;;; k) s =
      k (with_mem s (with_dat (mem s) d)) /\ frame_dat [f_p f] (dat (mem s)) d /\ frag_at (with_dat (mem s) d) f NULL.
Proof.
  intros [Hp Ho Ht Ha Hr Hoff Hd]. pose proof (Forall_inv (pk_cells _ _ _ Hp)) as Hc. cbn [snd] in Hc. pose proof (length_cell _ _ Hc) as Hl.
  rewrite Hd, length_app in Hl. unfold hdr_of in Hl. rewrite length_ip_header in Hl. cbn [length] in Hl.
  destruct (put_all_run (f_b f) [(0, le_bytes 4 NULL); (4, le_bytes 2 (f_start f)); (6, le_bytes 2 (f_stop f))] k s Hc) as (d & E & F & C).
  { unfold fits. cbn [forallb fst snd]. rewrite !length_le_bytes. rewrite !andb_true_iff, !Z.leb_le. lia. }
  rewrite Ho in F. exists d. split; [exact E|]. split; [done|].
  split; [by eapply frame_packet|done|done|split; [done|unfold NULL; lia]|destruct Hr as (R1 & R2 & R3); split; [done|split; [lia|done]]|].
  rewrite Hd in C. destruct (helper_blits (hdr_of (20 + Z.of_nat (length (f_data f))) off) (f_data f) NULL (f_start f) (f_stop f) (length_ip_header _ _ _ _ _ _ _ _ _)) as (t & Hlt & E2).
  exists t. split; [done|]. change (dat (with_dat (mem s) d)) with d. by rewrite C, E2.
Qed.

(** The header is read before the helper replaces it. *)
Lemma header_reads s f off : arrived (mem s) f off ->
  (forall A (k : Z -> M (stack U) A), bind (rd (pb_payload (f_b f)) IPH_LEN 2) k s = k (le_val (be_bytes 2 (20 + Z.of_nat (length (f_data f))))) s) /\
  (forall A (k : Z -> M (stack U) A), bind (rd (pb_payload (f_b f)) IPH_VHL 1) k s = k 0x45 s) /\
  (forall A (k : Z -> M (stack U) A), bind (rd (pb_payload (f_b f)) IPH_OFFSET 2) k s = k (le_val (be_bytes 2 off)) s) /\
  (forall A (k : bytes -> M (stack U) A), bind (onmem (pread (pb_payload (f_b f)) IP_HLEN)) k s = k (hdr_of (20 + Z.of_nat (length (f_data f))) off) s).
Proof.
  intros [Hp Ho Ht Ha Hr Hoff Hd]. pose proof (Forall_inv (pk_cells _ _ _ Hp)) as Hc. cbn [snd] in Hc. pose proof (length_cell _ _ Hc) as Hl.
  rewrite Hd, length_app in Hl. unfold hdr_of in Hl. rewrite length_ip_header in Hl. cbn [length] in Hl.
  assert (length (hdr_of (20 + Z.of_nat (length (f_data f))) off) = 20%nat) as Hlh by apply length_ip_header.
  pose proof Hd as Hd'. unfold hdr_of, ip_header in Hd'. rewrite <- app_assoc in Hd'. match type of Hd' with context [ip_fields _ _ _ _ _ _ _ ?c _ _] => set (chk := c) in Hd' end. assert (length chk = 2%nat) as Hck by apply length_be_bytes.
  cbn [app] in Hd'. pose proof (ip_fields_read (v_hl_of []) tos (20 + Z.of_nat (length (f_data f))) id off ttl proto chk src dest (f_data f) Hck) as (R1 & R2 & R3 & _).
  split; [|split; [|split]]; intros A k.
  - rewrite (rd_run s (f_b f) IPH_LEN 2) by (done || (unfold IPH_LEN; lia)). rewrite Hd'. change (Z.to_nat IPH_LEN) with 2%nat. change (Z.to_nat 2) with 2%nat. by rewrite R2.
  - rewrite (rd_run s (f_b f) IPH_VHL 1) by (done || (unfold IPH_VHL; lia)). rewrite Hd'. change (Z.to_nat IPH_VHL) with 0%nat. change (Z.to_nat 1) with 1%nat. by rewrite drop_0, R1.
  - rewrite (rd_run s (f_b f) IPH_OFFSET 2) by (done || (unfold IPH_OFFSET; lia)). rewrite Hd'. change (Z.to_nat IPH_OFFSET) with 6%nat. change (Z.to_nat 2) with 2%nat. by rewrite R3.
  - pose proof (pread_cell (mem s) (f_b f) 0 IP_HLEN Hc ltac:(lia) ltac:(done) ltac:(change IP_HLEN with 20; lia)) as E. rewrite ptr_add_0, drop_0 in E. rewrite (onmem_run _ _ _ _ _ E), with_mem_id, Hd.
    change (Z.to_nat IP_HLEN) with 20%nat. by rewrite take_app_length' by (by rewrite Hlh).
Qed.

Definition first_start (fs : list rfrag) : Z := match fs with [] => 0 | f :: _ => f_start f end.
Definition complete (fs : list rfrag) (last : bool) : bool := last && contiguous_frags fs && (first_start fs =? 0).

Lemma bind_getr {A} s r d (k : ip_reassdata -> M (stack U) A) : r <> NULL -> bind (getr r) k (with_rd s r d) = k d (with_rd s r d).
Proof. intros Hr. apply getr_run; [done|]. unfold with_rd. rewrite ipg_with_ip. apply lookup_insert_eq. Qed.

(** The end of the function: is the datagram complete? *)
Lemma complete_run s fs1 f fs2 ipr d n is_last : frags (mem s) (fs1 ++ f :: fs2) -> ipr <> NULL -> rds (ipg s) !! ipr = Some d -> rd_p d = head_p (fs1 ++ f :: fs2) -> (length fs2 < n)%nat ->
  (let* d := getr ipr in
   if is_last || nz (Z.land (rd_flags d) IP_REASS_FLAG_LASTFRAG) then
     if negb (contiguous_frags (fs1 ++ [f])) then ret PBUF_QUEUED else
     if rd_p d =? NULL then ret PBUF_QUEUED else
     let* first := payload (rd_p d) in
     let* '(_, first_start, _) := helper first in
     if negb (first_start =? 0) then ret PBUF_QUEUED else
     let* '(next, _, _) := helper (pb_payload (f_b f)) in
     let* ok := holes_loop n (f_stop f) next in
     ret (if (ok : bool) then TELEGRAM_FINISHED else PBUF_QUEUED)
   else ret PBUF_QUEUED) s =
    Ok (if complete (fs1 ++ f :: fs2) (is_last || nz (Z.land (rd_flags d) IP_REASS_FLAG_LASTFRAG)) then TELEGRAM_FINISHED else PBUF_QUEUED, s).
Proof.
  intros Hfs Hi Hd Hq Hn. unfold complete. rewrite (getr_run _ _ _ _ Hi Hd). destruct (is_last || _); cbn [andb]; [|done]. rewrite (contiguous_split fs1 f fs2). destruct (contiguous_frags (fs1 ++ [f])); cbn [negb andb]; [|done].
  destruct (frags_app _ _ _ Hfs) as [Hf Hfs2]. rewrite Hq.
  assert (exists g nx, head_p (fs1 ++ f :: fs2) = f_p g /\ first_start (fs1 ++ f :: fs2) = f_start g /\ frag_at (mem s) g nx) as (g & nx & -> & -> & Hg).
  { destruct fs1 as [|g fs1]; [by exists f, (head_p fs2)|]. exists g. eexists. split; [done|]. split; [done|]. exact (proj1 Hfs). }
  destruct (fa_addr _ _ _ Hg) as [Ha _]. rewrite (proj2 (Z.eqb_neq _ _)) by (unfold NULL; lia). rewrite (payload_run _ _ _ _ _ (fa_packet _ _ _ Hg)), (helper_run _ _ _ _ Hg). cbv beta iota.
  destruct (f_start g =? 0); cbn [negb]; rewrite ?andb_false_r, ?andb_true_r; [|done]. rewrite (helper_run _ _ _ _ Hf). cbv beta iota. by rewrite (bind_run _ _ _ _ _ (holes_run fs2 s f n Hfs2 Hn)).
Qed.

Lemma chain_frag_run s fs1 fs2 f off ipr d is_last : arrived (mem s) f off -> frags (mem s) (fs1 ++ fs2) -> f_p f ∉ map f_p (fs1 ++ fs2) -> NoDup (map f_p (fs1 ++ fs2)) ->
  Forall (fun g => f_stop g <= f_start f) fs1 -> Forall (fun g => f_stop f <= f_start g) fs2 -> ipr <> NULL -> rds (ipg s) !! ipr = Some d -> rd_p d = head_p (fs1 ++ fs2) ->
  let all := fs1 ++ f :: fs2 in
  exists e, ip_reass_chain_frag_into_datagram_and_validate ipr (f_p f) is_last s =
      Ok (if complete all (is_last || nz (Z.land (rd_flags d) IP_REASS_FLAG_LASTFRAG)) then TELEGRAM_FINISHED else PBUF_QUEUED, with_rd (with_mem s (with_dat (mem s) e)) ipr (d <| rd_p := head_p all |>)) /\
    frame_dat (map f_p all) (dat (mem s)) e /\ frags (with_dat (mem s) e) all.
Proof.
  intros Har Hfs Hni Hnd Hlt1 Hlt2 Hi Hd Hq all. pose proof Har as [Hp Ho Ht Ha (R1 & R2 & R3) [Ho1 Ho2] Hdt].
  set (f_len := Z.of_nat (length (f_data f))). assert (f_stop f = f_start f + f_len) as Hst by done. assert (0 < f_len) as Hlen by (unfold f_len; destruct (f_data f); [done|cbn; lia]).
  set (n := S (size (pbs (mem s)))). pose proof (frags_size _ _ Hfs Hnd) as Hsz. rewrite length_app in Hsz.
  destruct (header_reads s f off Har) as (E1 & E2 & E3 & _). unfold ip_reass_chain_frag_into_datagram_and_validate. rewrite (payload_run _ _ _ _ _ Hp), E1, E2. change (HL_BYTES 69) with 20. rewrite htons_read by lia.
  rewrite (proj2 (Z.ltb_ge _ _)) by lia. rewrite E3, htons_read by done. fold f_len. rewrite <- Ho2. rewrite (u16_id (f_start f)) by lia. replace (20 + f_len - 20) with f_len by lia. rewrite (u16_id f_len) by lia.
  rewrite <- Hst, (u16_id (f_stop f)) by lia.
  set (k := (if f_stop f <? f_start f then ret PBUF_DROPPED else
    let* d := getr ipr in let* n := onmem chain_fuel in place_and_link n ipr f (rd_p d) None true (ret PBUF_DROPPED) (fun valid =>
      let* d := getr ipr in
      if is_last || nz (Z.land (rd_flags d) IP_REASS_FLAG_LASTFRAG) then
        if negb valid then ret PBUF_QUEUED else
        if rd_p d =? NULL then ret PBUF_QUEUED else
        let* first := payload (rd_p d) in
        let* '(_, first_start, _) := helper first in
        if negb (first_start =? 0) then ret PBUF_QUEUED else
        let* '(next, _, _) := helper (pb_payload (f_b f)) in
        let* ok := holes_loop n (f_stop f) next in
        ret (if (ok : bool) then TELEGRAM_FINISHED else PBUF_QUEUED)
      else ret PBUF_QUEUED)) : M (stack U) reass_result).
  destruct (helper_put_run s f off k Har) as (e1 & E & F1 & Hf). set (s1 := with_mem s (with_dat (mem s) e1)) in *.
  pose proof (eq_refl (k s1)) as Ek. unfold k in Ek at 2. rewrite (proj2 (Z.ltb_ge _ _)) in Ek by lia. rewrite (getr_run s1 _ _ _ Hi Hd), (bind_run _ _ _ _ _ (eq_refl : onmem chain_fuel s1 = Ok (n, s1))) in Ek.
  match type of Ek with _ = place_and_link _ _ _ _ _ _ _ ?k0 _ => set (k1 := k0) in Ek end.
  assert (frags (mem s1) (fs1 ++ fs2)) as Hfs1 by (by eapply frags_frame).
  destruct (place_run s1 fs1 fs2 f ipr d n (ret PBUF_DROPPED) k1 Hfs1 Hf Hni Hnd Hlt1 Hlt2 Hi Hd Hq ltac:(unfold n; lia)) as (e & E' & F & Hall). fold all in E', F, Hall.
  exists e. split; [|split].
  - etransitivity; [exact E|]. rewrite Ek, E'. unfold k1. set (s2 := with_rd _ _ _). exact (complete_run s2 fs1 f fs2 ipr (d <| rd_p := head_p all |>) n is_last Hall Hi (eq_trans (f_equal (fun g => rds g !! ipr) (ipg_with_ip _ _)) (lookup_insert_eq _ _ _)) eq_refl ltac:(unfold n; lia)).
  - eapply frame_trans; [|exact F]. eapply frame_mono; [|exact F1]. intros k0 ->%list_elem_of_singleton. unfold all. rewrite map_app. cbn. set_solver.
  - exact Hall.
Qed.
End Datagram.

Section Join.
Context `{PbufEnv} `{Addresses} {U : Type} `{IpIn U}.
Implicit Types s : stack U.

(** ** The fragments become one packet *)

(** Cells of the pool, held once. *)
Definition pool_cells (l : list (Z * pbuf)) : Prop := Forall (fun x => pb_type (snd x) = pool_type /\ pb_ref (snd x) = 1 /\ pblk (pb_payload (snd x)) = fst x) l.
Definition data_len (fs : list rfrag) : Z := Z.of_nat (length (concat (map f_data fs))).

Lemma frag_len m f nx : frag_at m f nx -> pb_len (f_b f) = 20 + Z.of_nat (length (f_data f)).
Proof.
  intros Hf. destruct (fa_data _ _ _ Hf) as (t & Ht & E). pose proof (length_cell _ _ (Forall_inv (pk_cells _ _ _ (fa_packet _ _ _ Hf)))) as Hl. cbn [snd] in Hl.
  pose proof (proj1 (Forall_inv (pk_cells _ _ _ (fa_packet _ _ _ Hf)))) as Hp. cbn [snd] in Hp. rewrite E in Hl. rewrite !length_app, !length_le_bytes, Ht in Hl. lia.
Qed.
Lemma frags_count m fs : frags m fs -> Z.of_nat (length fs) <= data_len fs.
Proof.
  induction fs as [|f fs IH]; [done|]. intros [Hf Hfs]. specialize (IH Hfs). destruct (fa_range _ _ _ Hf) as (_ & _ & Hne). unfold data_len in *. cbn [map concat length]. rewrite length_app.
  destruct (f_data f); [done|cbn [length]; lia].
Qed.
Lemma frag_at_pbs m m' f nx : frag_at m f nx -> dat m' = dat m -> pbs m' !! f_p f = pbs m !! f_p f -> frag_at m' f nx.
Proof.
  intros [Hp Ho Ht Ha Hr Hd] Ed Eb. split; rewrite ?Ed; try done. destruct Hp as [Hc Hce Hto Hle]. split; rewrite ?Ed; try done. destruct Hc as (C1 & C2 & C3 & C4). by rewrite <- Eb in C3.
Qed.
Lemma frags_pbs m m' fs : frags m fs -> dat m' = dat m -> (forall k, k ∈ map f_p fs -> pbs m' !! k = pbs m !! k) -> frags m' fs.
Proof.
  intros Hf Ed Eb. induction fs as [|f fs IH]; [done|]. destruct Hf as [Hf Hfs]. split; [eapply frag_at_pbs; [exact Hf|done|apply Eb, list_elem_of_here]|].
  apply IH; [done|]. intros k Hk. apply Eb. by apply list_elem_of_further.
Qed.

Lemma pool_cells_joined l r b t n b' : pool_cells (l ++ [(r, b)]) -> pool_cells [(t, b')] -> pool_cells (joined l r b t n ++ [(t, b')]).
Proof.
  intros [Hl Hr]%Forall_app Ht. apply Forall_app. split; [|done]. unfold joined. apply Forall_app. split; [|apply Forall_cons in Hr as [Hr _]; by constructor].
  clear -Hl. induction Hl; by constructor.
Qed.
Lemma fst_joined l r b t n : (joined l r b t n).*1 = (l ++ [(r, b)]).*1.
Proof. unfold joined. rewrite !fmap_app. by rewrite (fst_longer n l). Qed.
Lemma content_joined d l r b t n : content d (joined l r b t n) = content d (l ++ [(r, b)]).
Proof. unfold joined. rewrite !content_app, content_longer. done. Qed.
Lemma sum_joined l r b t n : sum_len (joined l r b t n) = sum_len (l ++ [(r, b)]).
Proof. unfold joined. rewrite !sum_len_app, sum_len_longer. done. Qed.

Lemma join_run fs : forall s h l r b fuel, packet (mem s) h (l ++ [(r, b)]) -> pool_cells (l ++ [(r, b)]) -> frags (mem s) fs -> NoDup (map f_p fs) ->
  (forall k, k ∈ (l ++ [(r, b)]).*1 -> k ∉ map f_p fs) -> sum_len (l ++ [(r, b)]) + data_len fs < 65536 -> (length fs < fuel)%nat ->
  exists h' l', join_loop fuel h (head_p fs) s = Ok (tt, with_mem s ((mem s) <| pbs := h' |>)) /\ packet ((mem s) <| pbs := h' |>) h l' /\ pool_cells l' /\
    content (dat (mem s)) l' = content (dat (mem s)) (l ++ [(r, b)]) ++ concat (map f_data fs) /\ l'.*1 = (l ++ [(r, b)]).*1 ++ map f_p fs /\
    (forall k, k ∉ l'.*1 -> h' !! k = pbs (mem s) !! k).
Proof.
  induction fs as [|f fs IH]; intros s h l r b fuel Hp Hpc Hfs Hnd Hdis Hlen Hfu; (destruct fuel as [|fuel]; [cbn in Hfu; lia|]); cbn [join_loop head_p].
  - exists (pbs (mem s)), (l ++ [(r, b)]). replace ((mem s) <| pbs := pbs (mem s) |>) with (mem s) by (by destruct (mem s)). rewrite with_mem_id. cbn [map concat]. by rewrite !app_nil_r.
  - destruct Hfs as [Hf Hfs]. cbn [map] in Hnd, Hdis. apply NoDup_cons in Hnd as [Hnf Hnd]. pose proof (frag_len _ _ _ Hf) as Hfl. destruct (fa_addr _ _ _ Hf) as [Ha Hnx].
    unfold data_len in Hlen. cbn [map concat] in Hlen. rewrite length_app in Hlen. pose proof (fa_packet _ _ _ Hf) as Hfp. set (t := f_p f) in *. set (c := moved (f_b f) 20).
    rewrite (proj2 (Z.eqb_neq _ _)) by (unfold NULL; lia). rewrite (payload_run _ _ _ _ _ Hfp). destruct (pbuf_remove_header_run (mem s) t (f_b f) [] 20 Hfp ltac:(lia)) as (Er & Hp1 & C1). fold c in Er, Hp1, C1.
    change IP_HLEN with 20. rewrite (onmem_run _ _ _ _ _ Er). set (m1 := put_cell (mem s) t c) in *. set (s1 := with_mem s m1).
    assert (packet m1 h (l ++ [(r, b)])) as Hp1'.
    { destruct Hp as [Hc Hce Hto Hle]. split; [|done|done|done]. unfold m1. rewrite pbs_put. apply chain_insert; [done|]. intros Hin. apply (Hdis _ Hin), list_elem_of_here. }
    assert (sum_len [(t, c)] = Z.of_nat (length (f_data f))) as Hsum by (cbn [sum_len snd]; change (pb_len c) with (pb_len (f_b f) - 20); lia).
    pose proof (pbuf_cat_run m1 h l r b t [(t, c)] Hp1' Hp1 ltac:(unfold NULL; lia)) as Ec. pose proof (joined_packet m1 h l r b t [(t, c)] Hp1' Hp1) as Hj. rewrite Hsum in Ec, Hj.
    assert (forall k, k ∈ (l ++ [(r, b)]).*1 -> k ∉ ([(t, c)].*1 : list Z)) as Hd1 by (intros k Hk ->%list_elem_of_singleton; apply (Hdis _ Hk), list_elem_of_here).
    specialize (Ec Hd1 ltac:(lia)). specialize (Hj Hd1 ltac:(lia)). rewrite (onmem_run s1 _ _ _ _ Ec). set (J := joined l r b t (Z.of_nat (length (f_data f)))) in *. set (h1 := puts (pbs m1) J) in *.
    set (s2 := with_mem s1 _). assert (mem s2 = (mem s) <| pbs := h1 |>) as Em by done.
    assert (J.*1 = (l ++ [(r, b)]).*1) as HJ by apply fst_joined.
    assert (frag_at (mem s) f (head_p fs)) as Hf0 by exact Hf. pose proof (Forall_inv (pk_cells _ _ _ Hfp)) as Hcf. cbn [snd] in Hcf.
    destruct (helper_at _ _ _ _ Hf eq_refl) as (V1 & V2 & V3 & _). pose proof (pread_cell (mem s2) (f_b f) 0 8 Hcf ltac:(lia) ltac:(lia) ltac:(lia)) as Eh. rewrite ptr_add_0, drop_0 in Eh. change (dat (mem s2)) with (dat (mem s)) in Eh.
    unfold helper. rewrite bind_assoc, (onmem_run _ _ _ _ _ Eh), with_mem_id, bind_ret. change (Z.to_nat 8) with 8%nat. rewrite V1.
    assert (forall k, k <> t -> k ∉ (l ++ [(r, b)]).*1 -> h1 !! k = pbs (mem s) !! k) as Hout.
    { intros k Hk1 Hk2. unfold h1. rewrite lookup_puts by (by rewrite HJ). unfold m1. rewrite pbs_put. by apply lookup_insert_ne. }
    destruct (IH s2 h J t c fuel) as (h' & l' & E & Hp' & Hpc' & C' & K' & O'); clear IH.
    + exact Hj.
    + apply pool_cells_joined; [done|]. constructor; [|constructor]. cbn [snd fst]. destruct (fa_pool _ _ _ Hf) as [T1 T2]. split; [exact T1|]. split; [exact T2|]. exact (fa_own _ _ _ Hf).
    + eapply frags_pbs; [exact Hfs|done|]. intros k Hk. rewrite Em. change (pbs ((mem s) <| pbs := h1 |>)) with h1. apply Hout; [by intros ->|]. intros Hin. apply (Hdis _ Hin). by apply list_elem_of_further.
    + done.
    + intros k Hk Hin. rewrite fmap_app, HJ in Hk. apply elem_of_app in Hk as [Hk| ->%list_elem_of_singleton]; [|done]. apply (Hdis _ Hk). by apply list_elem_of_further.
    + rewrite sum_len_app, Hsum. unfold J. rewrite sum_joined. unfold data_len. lia.
    + cbn in Hfu. lia.
    + exists h', l'. change (dat (mem s2)) with (dat (mem s)) in C'. split; [exact E|]. split; [exact Hp'|]. split; [done|]. split; [|split].
      * rewrite C', content_app. unfold J. rewrite content_joined. cbn [map concat]. rewrite <- !app_assoc. f_equal. f_equal. rewrite C1, content_cons. cbn [content map concat snd]. rewrite app_nil_r.
        destruct (fa_data _ _ _ Hf) as (tl & Htl & ->). change (Z.to_nat 20) with 20%nat. rewrite !app_assoc. apply drop_app_length'. by rewrite !length_app, !length_le_bytes, Htl.
      * rewrite K', fmap_app, HJ. cbn [map]. rewrite <- app_assoc. done.
      * intros k Hk. rewrite O' by done. rewrite Em. change (pbs ((mem s) <| pbs := h1 |>)) with h1. rewrite K', fmap_app, HJ in Hk. apply not_elem_of_app in Hk as [[Hk1 Hk2]%not_elem_of_app _].
        apply Hout; [|done]. intros ->. apply Hk2, list_elem_of_here.
Qed.

Lemma clen_loop_run l : forall m p len fuel, chain (pbs m) p l -> (length l < fuel)%nat -> 0 <= len -> len + Z.of_nat (length l) < 65536 -> clen_loop fuel p len m = Ok (len + Z.of_nat (length l), m).
Proof.
  induction l as [|[q b] l IH]; intros m p len fuel Hc Hf Hl Hs; (destruct fuel as [|fuel]; [cbn in Hf; lia|]); cbn [clen_loop].
  - rewrite Hc. cbn. by rewrite Z.add_0_r.
  - destruct Hc as (-> & Hq & Hb & Hc). rewrite (proj2 (Z.eqb_neq _ _) Hq). unfold bind, getp. rewrite (proj2 (Z.eqb_neq _ _) Hq), Hb. cbn [length] in *. rewrite u16_id by lia. rewrite IH by (done || lia). do 2 f_equal. lia.
Qed.
Lemma pbuf_clen_run m p l : packet m p l -> Z.of_nat (length l) < 65536 -> pbuf_clen p m = Ok (Z.of_nat (length l), m).
Proof.
  intros Hp Hl. unfold pbuf_clen, chain_fuel, bind, gets. pose proof (chain_size _ _ _ (pk_chain _ _ _ Hp)). by rewrite (clen_loop_run l m p 0 _ (pk_chain _ _ _ Hp)) by lia.
Qed.
End Join.

Section Finish.
Context `{PbufEnv} `{Addresses} {U : Type} `{IpIn U}.
Implicit Types s : stack U.
Context (tos id ttl proto src dest : Z).
Hypothesis Htos : byte_ok tos.
Hypothesis Httl : byte_ok ttl.
Hypothesis Hproto : byte_ok proto.
Abbreviation hdr := (hdr_of tos id ttl proto src dest).

Lemma finish_blits v len0 off0 chk len data : length chk = 2%nat ->
  blits [(IPH_LEN, be_bytes 2 len); (IPH_OFFSET, le_bytes 2 0); (IPH_CHKSUM, le_bytes 2 0)] (ip_fields v tos len0 id off0 ttl proto chk src dest ++ data) =
    ip_fields v tos len id 0 ttl proto [0; 0] src dest ++ data.
Proof.
  intros Hk. unfold ip_fields. pose proof (length_be_bytes 2 len) as L1. pose proof (length_be_bytes 2 len0) as L2. pose proof (length_be_bytes 2 off0) as L4. pose proof (length_be_bytes 2 id) as L5.
  change (le_bytes 2 0) with [0; 0]. change (be_bytes 2 0) with [0; 0]. set (A := be_bytes 2 len) in *. set (B := be_bytes 2 len0) in *. set (D := be_bytes 2 off0) in *. set (I := be_bytes 2 id) in *.
  clearbody A B D I. destruct_len A. destruct_len B. destruct_len D. destruct_len I. destruct_len chk. done.
Qed.

(** The header of the whole datagram. *)
Lemma finish_header_run {A} s c h0 data len0 off0 len (k : M (stack U) A) : cell_ok (dat (mem s)) c -> cell_data (dat (mem s)) c = h0 ++ data -> length h0 = 20%nat -> 0 <= len < 65536 ->
  exists d, (onmem (pwrite (pb_payload c) (take 20 (hdr len0 off0))) ;;; wr (pb_payload c) IPH_LEN (le_bytes 2 (lwip_htons len)) ;;; wr (pb_payload c) IPH_OFFSET (le_bytes 2 0) ;;;
     wr (pb_payload c) IPH_CHKSUM (le_bytes 2 0) ;;; let* x := chksum_at (pb_payload c) IP_HLEN in wr (pb_payload c) IPH_CHKSUM (le_bytes 2 x) ;;; k) s =
      k (with_mem s (with_dat (mem s) d)) /\ frame_dat [pblk (pb_payload c)] (dat (mem s)) d /\ cell_data d c = hdr len 0 ++ data.
Proof.
  intros Hc Hd Hh Hl. pose proof (length_cell _ _ Hc) as Hlc. rewrite Hd, length_app, Hh in Hlc. rewrite htons_bytes by done.
  assert (take 20 (hdr len0 off0) = hdr len0 off0) as -> by (apply take_ge; unfold hdr_of; rewrite length_ip_header; cbn; lia).
  set (k1 := let* x := chksum_at (pb_payload c) IP_HLEN in wr (pb_payload c) IPH_CHKSUM (le_bytes 2 x) ;;; k).
  destruct (put_all_run c [(0, hdr len0 off0); (IPH_LEN, be_bytes 2 len); (IPH_OFFSET, le_bytes 2 0); (IPH_CHKSUM, le_bytes 2 0)] k1 s Hc) as (d & E & F & C).
  { unfold fits. cbn [forallb fst snd]. unfold hdr_of. rewrite length_ip_header, length_be_bytes, length_le_bytes. cbn [length]. unfold IPH_OFFSET, IPH_LEN, IPH_CHKSUM. rewrite !andb_true_iff, !Z.leb_le. lia. }
  cbn [put_all] in E. rewrite ptr_add_0 in E.
  assert (cell_data d c = ip_fields 69 tos len id 0 ttl proto [0; 0] src dest ++ data) as C'.
  { rewrite C, Hd. change (blits (?x :: ?l) ?y) with (blits l (blit (Z.to_nat (fst x)) (snd x) y)). cbn [fst snd]. change (Z.to_nat 0) with 0%nat.
    rewrite blit_app_le by (unfold hdr_of; rewrite length_ip_header; cbn; lia). rewrite blit_all by (unfold hdr_of; rewrite length_ip_header; cbn; lia).
    unfold hdr_of, ip_header. rewrite app_nil_r. apply finish_blits. apply length_be_bytes. }
  set (h1 := ip_fields 69 tos len id 0 ttl proto [0; 0] src dest) in *.
  assert (bytes_ok h1) as Hb by (apply ip_fields_ok; try done; repeat constructor; unfold byte_ok; lia).
  set (s1 := with_mem s (with_dat (mem s) d)) in *. assert (cell_ok (dat (mem s1)) c) as Hc1 by (by eapply frame_cell_ok). assert (length h1 = 20%nat) as Hlh by (by apply length_ip_fields).
  destruct (wr_run s1 c IPH_CHKSUM (le_bytes 2 (not16 (norm (le_val h1)))) k Hc1 ltac:(done) ltac:(rewrite length_le_bytes; unfold IPH_CHKSUM; lia)) as (d2 & E2 & F2 & C2).
  exists d2. split; [|split].
  - etransitivity; [exact E|]. unfold k1. rewrite (chksum_at_run s1 c IP_HLEN h1 data) by (done || (by rewrite Hlh)). exact E2.
  - by eapply frame_trans.
  - change (dat (mem s1)) with d in C2. rewrite C2, C', checksum_bytes by done. change (Z.to_nat IPH_CHKSUM) with 10%nat. unfold h1. rewrite chk_blit by apply length_be_bytes.
    unfold hdr_of, ip_header. by rewrite !app_nil_r.
Qed.

(** What is left in the globals. *)
Definition released (g : ip_globals) (ipr : Z) (d : ip_reassdata) (n : Z) : ip_globals :=
  g <| reassdatagrams := rd_next d |> <| rds := delete ipr (rds g) |> <| rd_left := rd_left g + 1 |> <| ip_reass_pbufcount := u16 (ip_reass_pbufcount g - n) |>.

Lemma reass_finish_run s f fs ipr d len0 off0 : frags (mem s) (f :: fs) -> NoDup (map f_p (f :: fs)) -> ipr <> NULL -> rds (ipg s) !! ipr = Some d -> rd_p d = f_p f ->
  rd_iphdr d = hdr len0 off0 -> rd_datagram_len d = data_len (f :: fs) -> data_len (f :: fs) < 65536 - 20 -> reassdatagrams (ipg s) = ipr ->
  let n := Z.of_nat (length (f :: fs)) in
  exists h' e l, reass_finish ipr s = Ok (f_p f, with_ip (with_mem s ((with_dat (mem s) e) <| pbs := h' |>)) (released (ipg s) ipr d n)) /\
    packet ((with_dat (mem s) e) <| pbs := h' |>) (f_p f) l /\ pool_cells l /\ l.*1 = map f_p (f :: fs) /\
    content e l = hdr (20 + data_len (f :: fs)) 0 ++ concat (map f_data (f :: fs)) /\
    frame_dat [f_p f] (dat (mem s)) e /\ (forall k, k ∉ map f_p (f :: fs) -> h' !! k = pbs (mem s) !! k).
Proof.
  intros [Hf Hfs] Hnd Hi Hd Hq Hih Hdl Hlt Hhead n. cbn [map] in Hnd. apply NoDup_cons in Hnd as [Hnf Hnd]. destruct (fa_addr _ _ _ Hf) as [Ha _]. pose proof (frag_len _ _ _ Hf) as Hfl.
  set (total := data_len (f :: fs)) in *.
  assert (total = Z.of_nat (length (f_data f)) + data_len fs) as Htot by (unfold total, data_len; cbn [map concat]; rewrite length_app; lia). assert (0 <= data_len fs) as Hdf by (unfold data_len; lia).
  unfold reass_finish. rewrite (getr_run _ _ _ _ Hi Hd), Hq, (payload_run _ _ _ _ _ (fa_packet _ _ _ Hf)), (helper_run _ _ _ _ Hf). cbv beta iota. rewrite Hdl, Hih. change IP_HLEN with 20 at 1. rewrite u16_id by lia.
  pose proof (Forall_inv (pk_cells _ _ _ (fa_packet _ _ _ Hf))) as Hc. cbn [snd] in Hc. destruct (fa_data _ _ _ Hf) as (t & Ht & Edat). rewrite !app_assoc in Edat.
  set (k := (let* n := onmem chain_fuel in join_loop n (f_p f) (head_p fs) ;;; let* head := getip reassdatagrams in let* k := rd_fuel in
    let* ipr_prev := (if ipr =? head then ret NULL else find_prev k ipr head) in ip_reass_dequeue_datagram ipr ipr_prev ;;; let* clen := onmem (pbuf_clen (f_p f)) in
    modip (fun g => g <| ip_reass_pbufcount := u16 (ip_reass_pbufcount g - clen) |>) ;;; ret (f_p f)) : M (stack U) Z).
  destruct (finish_header_run s (f_b f) _ (f_data f) len0 off0 (total + 20) k Hc Edat) as (e & E & F & C); [by rewrite !length_app, !length_le_bytes, Ht|lia|].
  rewrite (fa_own _ _ _ Hf) in F. set (s1 := with_mem s (with_dat (mem s) e)) in *. assert (packet (mem s1) (f_p f) ([] ++ [(f_p f, f_b f)])) as Hp1 by (eapply frame_packet; [exact F|apply (fa_packet _ _ _ Hf)]).
  destruct (join_run fs s1 (f_p f) [] (f_p f) (f_b f) (S (size (pbs (mem s)))) Hp1) as (h' & l & Ej & Hp' & Hpc & Cj & Kj & Oj).
  { constructor; [|constructor]. destruct (fa_pool _ _ _ Hf). split; [done|]. split; [done|]. apply (fa_own _ _ _ Hf). }
  { by eapply frags_frame. }
  { done. }
  { intros k0 Hk0. cbn in Hk0. by apply list_elem_of_singleton in Hk0 as ->. }
  { cbn [app sum_len snd]. lia. }
  { pose proof (frags_size _ _ Hfs Hnd). lia. }
  change (dat (mem s1)) with e in *. change (pbs (mem s1)) with (pbs (mem s)) in Oj. cbn [app fmap list_fmap fst] in Kj. cbn [app] in Cj. rewrite content_cons in Cj. cbn [app content map concat snd] in Cj. rewrite app_nil_r, C in Cj.
  exists h', e, l. set (m' := (with_dat (mem s) e) <| pbs := h' |>) in *. change ((mem s1) <| pbs := h' |>) with m' in *. set (s2 := with_mem s m') in *. change (with_mem s1 m') with s2 in Ej.
  assert (Z.of_nat (length l) = n) as Hll by (unfold n; rewrite <- (length_map f_p (f :: fs)); cbn [map]; rewrite <- Kj; by rewrite length_fmap).
  pose proof (pbuf_clen_run m' (f_p f) l Hp') as Ecl. pose proof (frags_count (mem s) (f :: fs) (conj Hf Hfs)) as Hcnt. fold n total in Hcnt.
  split; [|split; [done|split; [done|split; [done|split; [|split; [done|]]]]]].
  - etransitivity; [exact E|]. unfold k. rewrite (bind_run _ _ _ _ _ (eq_refl : onmem chain_fuel s1 = Ok (S (size (pbs (mem s))), s1))), (bind_run _ _ _ _ _ Ej).
    rewrite (bind_run _ _ _ ipr s2) by (unfold getip, gets; by rewrite <- Hhead). rewrite (bind_run rd_fuel _ s2 (S (size (rds (ipg s)))) s2) by done. rewrite Z.eqb_refl, bind_ret.
    unfold ip_reass_dequeue_datagram. rewrite bind_assoc, (getr_run s2 _ _ _ Hi Hd), bind_assoc, (bind_run _ _ _ ipr s2) by (unfold getip, gets; by rewrite <- Hhead). rewrite Z.eqb_refl, bind_assoc, modip_run.
    set (s3 := with_ip s2 _). unfold memp_free_reassdata. rewrite modip_run. set (s4 := with_ip s3 _). rewrite (onmem_run s4 _ _ _ _ (Ecl ltac:(lia))). rewrite modip_run, Hll. 
    change (Ok (f_p f, with_ip s4 ((ipg s4) <| ip_reass_pbufcount := u16 (ip_reass_pbufcount (ipg s4) - n) |>)) = Ok (f_p f, with_ip s2 (released (ipg s) ipr d n))).
    unfold s4, s3. rewrite !with_ip_ip, !ipg_with_ip. done.
  - rewrite Cj. rewrite (Z.add_comm total). cbn [map concat]. by rewrite app_assoc.
  - intros k0 Hk0. apply Oj. by rewrite Kj.
Qed.
End Finish.

Section One.
Context `{PbufEnv} `{Addresses} {U : Type} `{IpIn U}.
Implicit Types s : stack U.
Context (tos id ttl proto src dest : Z).
Abbreviation hdr := (hdr_of tos id ttl proto src dest).

(** ** One fragment *)

Definition is_last_of (off : Z) : bool := Z.land (le_val (be_bytes 2 off)) (PP_HTONS IP_MF) =? 0.
Definition nullreturn (p : Z) : M (stack U) Z := onmem (pbuf_free p) ;;; ret NULL.
(** ip4_reass once the structure of the datagram is there. *)
Definition reass_rest (ipr p clen : Z) (is_last : bool) (offset datagram_len : Z) : M (stack U) Z :=
  let nullreturn_ipr ipr := let* d := getr ipr in (if rd_p d =? NULL then ip_reass_dequeue_datagram ipr NULL else ret tt) ;;; nullreturn p in
  if ipr =? NULL then nullreturn p else
  if is_last && ((datagram_len <? offset) || (0xFFFF - IP_HLEN <? datagram_len)) then nullreturn_ipr ipr else
  let* valid := ip_reass_chain_frag_into_datagram_and_validate ipr p is_last in
  match valid with
  | PBUF_DROPPED => nullreturn_ipr ipr
  | _ =>
      modip (fun g => g <| ip_reass_pbufcount := u16 (ip_reass_pbufcount g + clen) |>) ;;;
      (if is_last then
         updr ipr (fun d => d <| rd_datagram_len := datagram_len |> <| rd_flags := Z.lor (rd_flags d) IP_REASS_FLAG_LASTFRAG |>)
       else ret tt) ;;;
      match valid with TELEGRAM_FINISHED => reass_finish ipr | _ => ret NULL end
  end.

Definition noted (d : ip_reassdata) (all : list rfrag) (f : rfrag) (is_last : bool) : ip_reassdata :=
  let d := d <| rd_p := head_p all |> in
  if is_last then d <| rd_datagram_len := f_stop f |> <| rd_flags := Z.lor (rd_flags d) IP_REASS_FLAG_LASTFRAG |> else d.

Lemma reass_rest_run s fs1 fs2 f off ipr d is_last : arrived tos id ttl proto src dest (mem s) f off -> frags (mem s) (fs1 ++ fs2) -> f_p f ∉ map f_p (fs1 ++ fs2) -> NoDup (map f_p (fs1 ++ fs2)) ->
  Forall (fun g => f_stop g <= f_start f) fs1 -> Forall (fun g => f_stop f <= f_start g) fs2 -> ipr <> NULL -> rds (ipg s) !! ipr = Some d -> rd_p d = head_p (fs1 ++ fs2) ->
  let all := fs1 ++ f :: fs2 in
  exists e, reass_rest ipr (f_p f) 1 is_last (f_start f) (f_stop f) s =
      (if complete all (is_last || nz (Z.land (rd_flags d) IP_REASS_FLAG_LASTFRAG)) then reass_finish ipr else ret NULL)
        (with_ip (with_mem s (with_dat (mem s) e)) ((ipg s) <| rds := <[ipr := noted d all f is_last]> (rds (ipg s)) |> <| ip_reass_pbufcount := u16 (ip_reass_pbufcount (ipg s) + 1) |>)) /\
    frame_dat (map f_p all) (dat (mem s)) e /\ frags (with_dat (mem s) e) all.
Proof.
  intros Har Hfs Hni Hnd Hlt1 Hlt2 Hi Hd Hq all. destruct (chain_frag_run tos id ttl proto src dest s fs1 fs2 f off ipr d is_last Har Hfs Hni Hnd Hlt1 Hlt2 Hi Hd Hq) as (e & E & F & Hall). fold all in E, F, Hall.
  exists e. split; [|done]. unfold reass_rest. rewrite (proj2 (Z.eqb_neq _ _) Hi). destruct (ar_range _ _ _ _ _ _ _ _ _ Har) as (R1 & R2 & R3). assert (f_start f <= f_stop f) by (unfold f_stop; lia).
  rewrite !(proj2 (Z.ltb_ge _ _)), andb_false_r by (change IP_HLEN with 20; lia). rewrite (bind_run _ _ _ _ _ E). set (c := complete _ _). set (s1 := with_rd _ _ _).
  assert (forall (k : M (stack U) Z), (modip (fun g => g <| ip_reass_pbufcount := u16 (ip_reass_pbufcount g + 1) |>) ;;;
      (if is_last then updr ipr (fun d => d <| rd_datagram_len := f_stop f |> <| rd_flags := Z.lor (rd_flags d) IP_REASS_FLAG_LASTFRAG |>) else ret tt) ;;; k) s1 =
    k (with_ip (with_mem s (with_dat (mem s) e)) ((ipg s) <| rds := <[ipr := noted d all f is_last]> (rds (ipg s)) |> <| ip_reass_pbufcount := u16 (ip_reass_pbufcount (ipg s) + 1) |>))) as Hk.
  { intros k. rewrite modip_run. unfold s1, with_rd. rewrite with_ip_ip, ipg_with_ip. set (s0 := with_mem s (with_dat (mem s) e)). set (s2 := with_ip s0 _). destruct is_last.
    - assert (rds (ipg s2) !! ipr = Some (d <| rd_p := head_p all |>)) as Hd2 by (unfold s2; rewrite ipg_with_ip; apply lookup_insert_eq). rewrite (updr_run _ _ _ _ _ Hi Hd2). f_equal.
      unfold with_rd, s2. rewrite with_ip_ip, ipg_with_ip. f_equal. unfold noted. change (ipg s0) with (ipg s). 
      change (<[ipr := ?x]> (rds (?g <| rds := <[ipr := ?y]> (rds ?g) |> <| ip_reass_pbufcount := ?z |>))) with (<[ipr := x]> (<[ipr := y]> (rds g))). rewrite insert_insert_eq. by destruct (ipg s).
    - done. }
  destruct c; apply Hk.
Qed.

(** The datagrams that are being put together, from [r] on. *)
Fixpoint rd_chain (h : gmap Z ip_reassdata) (r : Z) (l : list (Z * ip_reassdata)) : Prop :=
  match l with [] => r = NULL | (q, d) :: l => r = q /\ q <> NULL /\ h !! q = Some d /\ rd_chain h (rd_next d) l end.
(** Ours is not one of them. *)
Definition stranger (x : Z * ip_reassdata) : Prop := forall len off, addresses_and_id_match (rd_iphdr (snd x)) (hdr len off) = false.

Lemma same_datagram len off len' off' : addresses_and_id_match (hdr len off) (hdr len' off') = true.
Proof.
  unfold hdr_of, ip_header. pose proof (fun l o c Hc => ip_fields_read (v_hl_of []) tos l id o ttl proto c src dest [] Hc) as R. cbv zeta in R.
  match goal with |- addresses_and_id_match (ip_fields _ _ _ _ _ _ _ ?c _ _ ++ _) (ip_fields _ _ _ _ _ _ _ ?c' _ _ ++ _) = _ =>
    destruct (R len off c (length_be_bytes _ _)) as (_ & _ & _ & _ & A1 & A2 & A3); destruct (R len' off' c' (length_be_bytes _ _)) as (_ & _ & _ & _ & B1 & B2 & B3) end.
  unfold addresses_and_id_match. rewrite A1, A2, A3, B1, B2, B3. by rewrite !bool_decide_eq_true_2.
Qed.
Lemma find_none_run l : forall s f off r fuel, rd_chain (rds (ipg s)) r l -> Forall stranger l -> arrived tos id ttl proto src dest (mem s) f off -> (length l < fuel)%nat ->
  find_datagram fuel (pb_payload (f_b f)) r s = Ok (NULL, s).
Proof.
  induction l as [|[q d] l IH]; intros s f off r fuel Hc Hs Ha Hf; (destruct fuel as [|fuel]; [cbn in Hf; lia|]); cbn [find_datagram].
  - by rewrite Hc.
  - destruct Hc as (-> & Hq & Hd & Hc). apply Forall_cons in Hs as [Hd' Hs]. rewrite (proj2 (Z.eqb_neq _ _) Hq), (getr_run _ _ _ _ Hq Hd). destruct (header_reads tos id ttl proto src dest s f off Ha) as (_ & _ & _ & E).
    rewrite E, Hd'. apply (IH s f off); [done|done|done|cbn in Hf; lia].
Qed.
Lemma rd_chain_suffix h r l1 l2 : rd_chain h r (l1 ++ l2) -> exists r', rd_chain h r' l2.
Proof. revert r; induction l1 as [|[q d] l1 IH]; intros r Hc; [by exists r|]. destruct Hc as (_ & _ & _ & Hc). by eapply IH. Qed.
Lemma rd_chain_fun h l : forall r l', rd_chain h r l -> rd_chain h r l' -> l = l'.
Proof.
  induction l as [|[q d] l IH]; intros r [|[q' d'] l'] A B; [done|destruct B as (-> & Hq & _); done|destruct A as (-> & Hq & _); cbn in B; done|].
  destruct A as (-> & _ & A & C). destruct B as (-> & _ & B & D). simplify_eq. f_equal. by eapply IH.
Qed.
Lemma rd_chain_nodup h r l : rd_chain h r l -> NoDup l.*1.
Proof.
  revert r; induction l as [|[q d] l IH]; intros r Hc; [constructor|]. pose proof Hc as (-> & Hq & Hd & Hc'). cbn. constructor; [|by eapply IH].
  intros Hin. apply list_elem_of_fmap in Hin as ([q' d'] & -> & Hin). apply list_elem_of_split in Hin as (l1 & l2 & ->). cbn in *.
  assert (exists r', rd_chain h r' ((q', d') :: l2)) as [r' Hc2] by (by eapply rd_chain_suffix). pose proof Hc2 as (-> & _). pose proof (rd_chain_fun h ((q', d) :: l1 ++ (q', d') :: l2) q' _ Hc Hc2) as E.
  apply (f_equal length) in E. cbn in E. rewrite length_app in E. cbn in E. lia.
Qed.
Lemma rd_chain_size h r l : rd_chain h r l -> (length l <= size h)%nat.
Proof.
  intros Hc. rewrite <- size_dom, <- (length_fmap fst l). rewrite <- (size_list_to_set (C := gset Z) (l.*1)) by (by eapply rd_chain_nodup). apply subseteq_size.
  revert r Hc; induction l as [|[q d] l IH]; intros r Hc; [set_solver|]. destruct Hc as (_ & _ & Hd & Hc). cbn. apply union_subseteq. split; [|by eapply IH]. apply singleton_subseteq_l. by apply elem_of_dom_2 in Hd.
Qed.

(** The globals while [n] fragments wait under [d]; [g] is what there was before. *)
Definition holding (g : ip_globals) (d : ip_reassdata) (n : nat) : ip_globals :=
  match n with
  | O => g
  | _ => g <| reassdatagrams := next_rd g |> <| rds := <[next_rd g := d]> (rds g) |> <| rd_left := rd_left g - 1 |> <| next_rd := next_rd g + 1 |>
           <| ip_reass_pbufcount := ip_reass_pbufcount g + Z.of_nat n |>
  end.
Record rd_for (g : ip_globals) (fs : list rfrag) (last : bool) (total : Z) (d : ip_reassdata) : Prop := {
  rf_next : rd_next d = reassdatagrams g;
  rf_p : rd_p d = head_p fs;
  rf_hdr : exists len off, rd_iphdr d = hdr len off;
  rf_len : last = true -> rd_datagram_len d = total;
  rf_flag : rd_flags d = if last then 1 else 0
}.
(** Room for [n] more fragments and for the structure. *)
Record room (g : ip_globals) (n : Z) : Prop := {
  ro_next : 0 < next_rd g;
  ro_free : rds g !! next_rd g = None;
  ro_left : 0 < rd_left g;
  ro_count : 0 <= ip_reass_pbufcount g /\ ip_reass_pbufcount g + n <= IP_REASS_MAX_PBUFS;
  ro_others : exists l, rd_chain (rds g) (reassdatagrams g) l /\ Forall stranger l
}.

Lemma enqueue_run {A} s f off n (k : Z -> M (stack U) A) : room (ipg s) n -> arrived tos id ttl proto src dest (mem s) f off ->
  let d := mk_reassdata (reassdatagrams (ipg s)) NULL (hdr (20 + Z.of_nat (length (f_data f))) off) 0 0 IP_REASS_MAXAGE in
  let g := ipg s in
  bind (ip_reass_enqueue_new_datagram (pb_payload (f_b f)) 1) k s = k (next_rd (ipg s)) (with_ip s
    (g <| reassdatagrams := next_rd g |> <| rds := <[next_rd g := d]> (rds g) |> <| rd_left := rd_left g - 1 |> <| next_rd := next_rd g + 1 |>)).
Proof.
  intros [R1 R2 R3 _ _] Ha d g. unfold ip_reass_enqueue_new_datagram, memp_malloc_reassdata. set (r := next_rd g).
  assert (r <> NULL) as Hr by (unfold r, g, NULL; lia).
  rewrite !bind_assoc, (bind_run _ _ _ (rd_left g) s) by done. rewrite (proj2 (Z.eqb_neq _ _)) by (unfold g; lia). rewrite !bind_assoc, (bind_run _ _ _ r s) by done.
  rewrite !bind_assoc, modip_run. fold g. set (g1 := g <| rd_left := _ |> <| next_rd := _ |> <| rds := _ |>). set (s1 := with_ip s g1). rewrite bind_ret, bind_assoc, (proj2 (Z.eqb_neq _ _) Hr), bind_ret, (proj2 (Z.eqb_neq _ _) Hr).
  assert (ipg s1 = g1) as Eg1 by apply ipg_with_ip. rewrite !bind_assoc, (bind_run _ _ _ (reassdatagrams g) s1) by (unfold getip, gets; do 2 f_equal; exact (f_equal reassdatagrams Eg1)).
  rewrite !bind_assoc, (updr_run s1 r (mk_reassdata NULL NULL (repeat 0 20) 0 0 0)) by (done || (rewrite Eg1; apply lookup_insert_eq)). rewrite bind_assoc, modip_run. set (s2 := with_rd _ _ _).
  destruct (header_reads tos id ttl proto src dest (with_ip s2 ((ipg s2) <| reassdatagrams := r |>)) f off Ha) as (_ & _ & _ & E4). rewrite bind_assoc, E4. rewrite bind_assoc.
  erewrite (updr_run _ r); [rewrite bind_ret|done|rewrite ipg_with_ip; unfold s2, with_rd; rewrite ipg_with_ip; apply lookup_insert_eq]. f_equal.
  unfold with_rd, s2, with_rd. rewrite !with_ip_ip, !ipg_with_ip, Eg1. unfold s1. rewrite with_ip_ip. f_equal. subst d g1. fold g. clearbody g. clear. destruct g as [a1 a2 a3 a4 a5 a6 a7 a8 rr a10 a11 a12]. subst r.
  ip_simpl. f_equal. by rewrite !insert_insert_eq.
Qed.
End One.
