(* ===== verification/ReassTrip.v ===== *)
(** Reassembly of a whole datagram: its pieces arrive one frame each, in any
    order; every one is queued but the last, which hands the datagram over. *)

From stdpp Require Import gmap sorting.
From S2P Require Import Prelude Cmonad Cutils Heap Pbuf PbufProofs PbufChain Inet InetProofs Ethernet Etharp EthernetProofs Link EtharpProofs ArpProofs IpOutput Icmp Reass IpInput IpProofs FragProofs IcmpProofs IpInProofs ReassProofs ReassWhole.

Section Step.
Context `{PbufEnv} `{Addresses} {U : Type} `{IpIn U}.
Implicit Types s : stack U.
Context (tos id ttl proto src dest : Z).
Abbreviation hdr := (hdr_of tos id ttl proto src dest).

Lemma holding_step g d n d' : 0 <= ip_reass_pbufcount g -> ip_reass_pbufcount g + Z.of_nat (S (S n)) < 65536 ->
  (holding g d (S n)) <| rds := <[next_rd g := d']> (rds (holding g d (S n))) |> <| ip_reass_pbufcount := u16 (ip_reass_pbufcount (holding g d (S n)) + 1) |> = holding g d' (S (S n)).
Proof.
  intros H1' H2'. destruct g as [a1 a2 a3 a4 a5 a6 a7 a8 a9 a10 a11 a12]. unfold holding. ip_simpl. cbn [ip_reass_pbufcount] in H1', H2'. f_equal; [by rewrite insert_insert_eq|]. rewrite u16_id by lia. lia.
Qed.
Lemma noted_for g fs last total d all f is_last : rd_for tos id ttl proto src dest g fs last total d -> (is_last = true -> f_stop f = total) ->
  rd_for tos id ttl proto src dest g all (last || is_last) total (noted d all f is_last).
Proof.
  intros [R1 R2 (l & o & R3) R4 R5] Hl. unfold noted. destruct is_last; split; try done.
  - by exists l, o.
  - intros _. by apply Hl.
  - change (rd_flags (_ <| rd_flags := ?x |>)) with x. change (rd_flags (d <| rd_p := _ |>)) with (rd_flags d). rewrite R5. by destruct last.
  - by exists l, o.
  - intros E. apply R4. by rewrite orb_false_r in E.
  - change (rd_flags (d <| rd_p := _ |>)) with (rd_flags d). by rewrite R5, orb_false_r.
Qed.

Lemma ip4_reass_run s g d fs1 fs2 last f off total : let fs := fs1 ++ fs2 in let all := fs1 ++ f :: fs2 in
  room tos id ttl proto src dest g (Z.of_nat (length all)) -> ipg s = holding g d (length fs) ->
  match fs with [] => last = false | _ => rd_for tos id ttl proto src dest g fs last total d end ->
  arrived tos id ttl proto src dest (mem s) f off -> frags (mem s) fs -> f_p f ∉ map f_p fs -> NoDup (map f_p fs) ->
  Forall (fun g => f_stop g <= f_start f) fs1 -> Forall (fun g => f_stop f <= f_start g) fs2 -> (is_last_of off = true -> f_stop f = total) ->
  exists e d', ip4_reass (f_p f) s = (if complete all (last || is_last_of off) then reass_finish (next_rd g) else ret NULL) (with_ip (with_mem s (with_dat (mem s) e)) (holding g d' (length all))) /\
    rd_for tos id ttl proto src dest g all (last || is_last_of off) total d' /\ frame_dat (map f_p all) (dat (mem s)) e /\ frags (with_dat (mem s) e) all.
Proof.
  intros fs all Hroom Hg Hst Har Hfs Hni Hnd Hlt1 Hlt2 Htot. pose proof Hroom as [Q1 Q2 Q3 [Q4 Q5] (others & Q6 & Q7)]. pose proof Har as [Hp Ho Ht Ha (R1 & R2 & R3) [Ho1 Ho2] Hdt].
  change IP_REASS_MAX_PBUFS with 64 in Q5. assert (length all = S (length fs)) as Hlen by (unfold all, fs; rewrite !length_app; cbn; lia).
  set (f_len := Z.of_nat (length (f_data f))). assert (f_stop f = f_start f + f_len) as Hstop by done. assert (0 < f_len) as Hfl by (unfold f_len; destruct (f_data f); [done|cbn; lia]).
  destruct (header_reads tos id ttl proto src dest s f off Har) as (E1 & E2 & E3 & E4). set (r := next_rd g) in *. assert (r <> NULL) as Hr by (unfold NULL; lia).
  assert (forall B (k : Z -> M (stack U) B), bind (onmem (pbuf_clen (f_p f))) k s = k 1 s) as Ecl by (intros B k; pose proof (pbuf_clen_run (mem s) (f_p f) [(f_p f, f_b f)] Hp ltac:(cbn; lia)) as E; by rewrite (onmem_run _ _ _ _ _ E), with_mem_id).
  assert (ip_reass_pbufcount (ipg s) = ip_reass_pbufcount g + Z.of_nat (length fs)) as Hcnt by (rewrite Hg; destruct (length fs); [cbn; lia|done]).
  assert (exists k, ip4_reass (f_p f) s = (let* k0 := rd_fuel in let* head := getip reassdatagrams in let* found := find_datagram k0 (pb_payload (f_b f)) head in k found) s /\
    (forall found, k found = (let* ipr := (if found =? NULL then ip_reass_enqueue_new_datagram (pb_payload (f_b f)) 1 else let* d := getr found in
       (if (Z.land off IP_OFFMASK =? 0) && negb (Z.land (lwip_htons (le_val (take 2 (drop 6 (rd_iphdr d))))) IP_OFFMASK =? 0) then let* h := onmem (pread (pb_payload (f_b f)) IP_HLEN) in updr found (fun d => d <| rd_iphdr := h |>) else ret tt) ;;; ret found) in
      reass_rest ipr (f_p f) 1 (is_last_of off) (f_start f) (f_stop f)))) as (k & Ek & Hk).
  { eexists. split; [|intros found; reflexivity]. unfold ip4_reass. rewrite (payload_run _ _ _ _ _ Hp), E2. change (HL_BYTES 69) with 20. change IP_HLEN with 20 at 1. cbn [Z.eqb Pos.eqb negb]. rewrite E3, E1. rewrite !htons_read by (done || lia).
    rewrite (proj2 (Z.ltb_ge _ _)) by lia. rewrite Ecl. rewrite (bind_run _ _ _ (ip_reass_pbufcount (ipg s)) s) by done. change IP_REASS_MAX_PBUFS with 64.
    rewrite (proj2 (Z.ltb_ge _ _)) by lia. rewrite bind_ret. fold f_len. rewrite <- Ho2. rewrite (u16_id (f_start f)) by lia. replace (20 + f_len - 20) with f_len by lia. rewrite (u16_id f_len) by lia.
    rewrite <- Hstop, (u16_id (f_stop f)) by lia. done. }
  rewrite Ek, (bind_run rd_fuel _ s (S (size (rds (ipg s)))) s) by done. rewrite (bind_run _ _ _ (reassdatagrams (ipg s)) s) by done. unfold all. destruct fs as [|f0 fs0] eqn:Efs.
  - assert (fs1 = [] /\ fs2 = []) as [-> ->] by (by apply app_eq_nil). subst last. cbn [length holding] in Hg. unfold bind at 1. rewrite (find_none_run tos id ttl proto src dest others s f off); [|by rewrite Hg|done|done|rewrite Hg; pose proof (rd_chain_size _ _ _ Q6); lia].
    rewrite Hk. cbn [Z.eqb NULL]. rewrite (enqueue_run tos id ttl proto src dest s f off (Z.of_nat (length all))) by (by rewrite ?Hg). rewrite Hg. fold r. set (d0 := mk_reassdata _ _ _ _ _ _). set (s1 := with_ip s _).
    assert (rds (ipg s1) !! r = Some d0) as Hd1 by (unfold s1; rewrite ipg_with_ip; apply lookup_insert_eq).
    destruct (reass_rest_run tos id ttl proto src dest s1 [] [] f off r d0 (is_last_of off) Har Hfs Hni Hnd Hlt1 Hlt2 Hr Hd1 eq_refl) as (e & E & F & Hall). cbn [app] in *. change (nz (Z.land (rd_flags d0) IP_REASS_FLAG_LASTFRAG)) with false in E.
    rewrite orb_false_r in E. exists e, (noted d0 [f] f (is_last_of off)). split; [|split; [|done]].
    + rewrite E. change (orb false ?x) with x. f_equal. unfold s1. change (mem (with_ip s ?x)) with (mem s). rewrite ipg_with_ip. cbn [length].
      match goal with |- with_ip (with_mem (with_ip s ?a) ?m) ?x = _ => change (with_mem (with_ip s a) m) with (with_ip (with_mem s m) a) end. rewrite with_ip_ip. f_equal.
      unfold holding. fold r. clearbody d0. clear -Q4 Q5. cbn in Q5. destruct g as [a1 a2 a3 a4 a5 a6 a7 a8 a9 a10 a11 a12]. subst r. ip_simpl. cbn [ip_reass_pbufcount] in *. f_equal; [by rewrite insert_insert_eq|]. by rewrite u16_id by lia.
    + apply (noted_for g [] false total d0); [|done]. split; try done. by eexists _, _.
  - destruct Hst as [S1 S2 (lh & oh & S3) S4 S5]. pose proof Hg as Hg'. cbn [length] in Hg'. set (n := length fs0) in *. assert (reassdatagrams (ipg s) = r) as Hhd by (by rewrite Hg').
    assert (rds (ipg s) !! r = Some d) as Hd by (rewrite Hg'; apply lookup_insert_eq).
    assert (find_datagram (S (size (rds (ipg s)))) (pb_payload (f_b f)) (reassdatagrams (ipg s)) s = Ok (r, s)) as Ef.
    { rewrite Hhd. cbn [find_datagram]. rewrite (proj2 (Z.eqb_neq _ _) Hr), (getr_run _ _ _ _ Hr Hd), E4, S3, same_datagram. done. }
    rewrite (bind_run _ _ _ _ _ Ef), Hk, (proj2 (Z.eqb_neq _ _) Hr).
    assert (exists d1, rd_for tos id ttl proto src dest g (f0 :: fs0) last total d1 /\ forall B (k' : Z -> M (stack U) B), bind (let* d := getr r in
       (if (Z.land off IP_OFFMASK =? 0) && negb (Z.land (lwip_htons (le_val (take 2 (drop 6 (rd_iphdr d))))) IP_OFFMASK =? 0) then let* h := onmem (pread (pb_payload (f_b f)) IP_HLEN) in updr r (fun d => d <| rd_iphdr := h |>) else ret tt) ;;; ret r) k' s =
      k' r (with_rd s r d1)) as (d1 & Hd1 & Eh).
    { destruct ((Z.land off IP_OFFMASK =? 0) && negb (Z.land (lwip_htons (le_val (take 2 (drop 6 (rd_iphdr d))))) IP_OFFMASK =? 0)) eqn:Ec.
      - exists (d <| rd_iphdr := hdr (20 + Z.of_nat (length (f_data f))) off |>). split; [split; try done; by eexists _, _|]. intros B k'. rewrite bind_assoc, (getr_run _ _ _ _ Hr Hd), Ec, !bind_assoc, E4.
        by rewrite (updr_run _ _ _ _ _ Hr Hd).
      - exists d. split; [split; try done; by eexists _, _|]. intros B k'. rewrite bind_assoc, (getr_run _ _ _ _ Hr Hd), Ec, bind_assoc, bind_ret, bind_ret. by rewrite with_rd_id. }
    rewrite Eh. set (s1 := with_rd s r d1). assert (ipg s1 = holding g d1 (S n)) as Hg1.
    { unfold s1, with_rd. rewrite ipg_with_ip, Hg'. clear. destruct g as [a1 a2 a3 a4 a5 a6 a7 a8 a9 a10 a11 a12]. subst r. unfold holding. ip_simpl. f_equal. by rewrite insert_insert_eq. }
    assert (rds (ipg s1) !! r = Some d1) as Hd1' by (rewrite Hg1; apply lookup_insert_eq). rewrite <- Efs in *.
    destruct (reass_rest_run tos id ttl proto src dest s1 fs1 fs2 f off r d1 (is_last_of off) Har Hfs Hni Hnd Hlt1 Hlt2 Hr Hd1' (rf_p _ _ _ _ _ _ _ _ _ _ _ Hd1)) as (e & E & F & Hall). fold all in E, F, Hall.
    exists e, (noted d1 all f (is_last_of off)). split; [|split; [by eapply noted_for|done]]. rewrite E.
    assert (nz (Z.land (rd_flags d1) IP_REASS_FLAG_LASTFRAG) = last) as -> by (rewrite (rf_flag _ _ _ _ _ _ _ _ _ _ _ Hd1); by destruct last). rewrite orb_comm. f_equal.
    rewrite Hg1. fold r. assert (length fs = S n) as Hlf by (rewrite Efs; done). assert (Z.of_nat (length all) = Z.of_nat (S (S n))) as Hla by (rewrite Hlen, Hlf; done).
    fold all. rewrite Hlen, Hlf. unfold r. rewrite holding_step; [|done|lia].
    unfold s1, with_rd. change (mem (with_ip s ?x)) with (mem s). match goal with |- with_ip (with_mem (with_ip s ?a) ?m) ?x = _ => change (with_mem (with_ip s a) m) with (with_ip (with_mem s m) a) end. by rewrite with_ip_ip.
Qed.
End Step.

(** ** The pieces of a datagram *)

Definition before (f g : rfrag) : Prop := f_stop f <= f_start g.
Definition sorted_frags : list rfrag -> Prop := StronglySorted before.
Definition piece_of (f : rfrag) : Z * bytes := (f_start f, f_data f).
(** Consecutive pieces, each with its first byte. *)
Fixpoint cut_at (start : Z) (cs : list bytes) : list (Z * bytes) :=
  match cs with [] => [] | c :: cs => (start, c) :: cut_at (start + Z.of_nat (length c)) cs end.
Definition has_last (total : Z) (fs : list rfrag) : bool := existsb (fun f => f_stop f =? total) fs.

Lemma sorted_place fs f : sorted_frags fs -> Forall (fun g => f_start g <= f_stop g) fs -> f_start f <= f_stop f -> Forall (fun g => before g f \/ before f g) fs ->
  exists fs1 fs2, fs = fs1 ++ fs2 /\ Forall (fun g => f_stop g <= f_start f) fs1 /\ Forall (fun g => f_stop f <= f_start g) fs2 /\ sorted_frags (fs1 ++ f :: fs2).
Proof.
  intros Hs Hn Hf Hd. induction Hs as [|g fs Hs IH Hg]; [exists [], []; repeat constructor|]. apply Forall_cons in Hn as [Hng Hn]. apply Forall_cons in Hd as [Hdg Hd].
  destruct Hdg as [Hgf|Hfg].
  - destruct (IH Hn Hd) as (fs1 & fs2 & -> & H1 & H2 & H3). exists (g :: fs1), fs2. split; [done|]. split; [by constructor|]. split; [done|]. constructor; [done|].
    apply Forall_app in Hg as [Hg1 Hg2]. apply Forall_app. split; [done|]. by constructor.
  - assert (Forall (before f) (g :: fs)) as Hall.
    { constructor; [done|]. eapply Forall_impl; [exact Hg|]. unfold before in *. intros x Hx. lia. }
    exists [], (g :: fs). split; [done|]. split; [constructor|]. split; [exact Hall|]. constructor; [|done]. by constructor.
Qed.

Lemma cut_length st cs : Z.of_nat (length (concat (map snd (cut_at st cs)))) = Z.of_nat (length (concat cs)).
Proof. revert st; induction cs as [|c cs IH]; intros st; [done|]. cbn [cut_at map snd concat]. rewrite !length_app, !Nat2Z.inj_add, IH. done. Qed.
Lemma cut_bounds st cs x : x ∈ cut_at st cs -> st <= fst x /\ fst x + Z.of_nat (length (snd x)) <= st + Z.of_nat (length (concat cs)).
Proof.
  revert st; induction cs as [|c cs IH]; intros st; [by intros ?%not_elem_of_nil|]. cbn [cut_at concat]. rewrite length_app. intros [->|Hx]%elem_of_cons; [cbn; lia|]. specialize (IH _ Hx). lia.
Qed.

Lemma cut_nonempty cs : Forall (fun c => c <> []) cs -> forall st x, x ∈ cut_at st cs -> snd x <> [].
Proof.
  intros Hc. induction Hc as [|c cs Hc0 Hc IH]; intros st x; [by intros ?%not_elem_of_nil|]. cbn [cut_at]. intros [->|Hx]%elem_of_cons; [done|by eapply IH].
Qed.

(** Pieces in order are those of the datagram. *)
Definition piece_before (x y : Z * bytes) : Prop := fst x + Z.of_nat (length (snd x)) <= fst y.
Lemma cut_sorted st cs : StronglySorted piece_before (cut_at st cs).
Proof.
  revert st; induction cs as [|c cs IH]; intros st; [constructor|]. cbn [cut_at]. constructor; [apply IH|]. apply Forall_forall. intros x Hx. unfold piece_before. cbn [fst snd]. by apply cut_bounds in Hx as [? _].
Qed.
Lemma sorted_pieces fs : sorted_frags fs -> StronglySorted piece_before (map piece_of fs).
Proof. intros Hs. induction Hs as [|f fs Hs IH Hf]; [constructor|]. cbn [map]. constructor; [done|]. apply Forall_map. eapply Forall_impl; [exact Hf|]. done. Qed.
Lemma all_pieces fs cs : sorted_frags fs -> Forall (fun c => c <> []) cs -> map piece_of fs ≡ₚ cut_at 0 cs -> map piece_of fs = cut_at 0 cs.
Proof.
  intros Hs Hc Hp. eapply (StronglySorted_unique_strong piece_before); [|by apply sorted_pieces|apply cut_sorted|done].
  intros x y Hx Hy Hxy Hyx. exfalso. unfold piece_before in *. rewrite Hp in Hx. apply (cut_nonempty _ Hc) in Hx. destruct (snd x); [done|cbn in *; lia].
Qed.

Lemma contiguous_cut fs : forall st cs, map piece_of fs = cut_at st cs -> contiguous_frags fs = true /\ (fs <> [] -> first_start fs = st) /\ concat (map f_data fs) = concat cs.
Proof.
  induction fs as [|f fs IH]; intros st cs E; [by destruct cs|]. destruct cs as [|c cs]; [done|]. cbn [map cut_at] in E. injection E as E1 E2 E3. destruct (IH _ _ E3) as (I1 & I2 & I3). split; [|split].
  - destruct fs as [|g fs]; [done|]. cbn [contiguous_frags]. rewrite andb_true_iff, Z.eqb_eq. split; [|done]. specialize (I2 ltac:(done)). cbn [first_start] in I2. unfold f_stop. rewrite E1, E2. lia.
  - done.
  - cbn [map concat]. by rewrite E2, I3.
Qed.
Lemma cut_has_last fs : forall st cs, fs <> [] -> map piece_of fs = cut_at st cs -> has_last (st + Z.of_nat (length (concat cs))) fs = true.
Proof.
  induction fs as [|f fs IH]; intros st cs Hne E; [done|]. destruct cs as [|c cs]; [done|]. cbn [map cut_at] in E. injection E as E1 E2 E3. unfold has_last. cbn [existsb concat]. rewrite length_app. apply orb_true_iff.
  destruct fs as [|g fs].
  - left. destruct cs; [|done]. cbn [concat length]. unfold f_stop. rewrite E1, E2. apply Z.eqb_eq. lia.
  - right. rewrite <- (IH _ cs ltac:(done) E3). by rewrite <- Z.add_assoc, <- Nat2Z.inj_add.
Qed.
Lemma contiguous_stop fs : forall f g, contiguous_frags (f :: fs) = true -> g ∈ f :: fs -> f_stop g <= f_start f + data_len (f :: fs).
Proof.
  induction fs as [|h fs IH]; intros f g Hc Hg.
  - apply list_elem_of_singleton in Hg as ->. unfold f_stop, data_len. cbn [map concat]. rewrite app_nil_r. lia.
  - cbn [contiguous_frags] in Hc. apply andb_true_iff in Hc as [E%Z.eqb_eq Hc]. unfold data_len in *. cbn [map concat] in *. rewrite length_app. apply elem_of_cons in Hg as [->|Hg].
    + unfold f_stop. lia.
    + specialize (IH h g Hc Hg). unfold f_stop in E. lia.
Qed.
Lemma pairwise_perm {A} (R : A -> A -> Prop) l l' : (forall x y, R x y -> R y x) -> l ≡ₚ l' -> StronglySorted R l -> StronglySorted R l'.
Proof.
  intros Hsym Hp. induction Hp as [|x l l' Hp IH|x y l|l l' l'' _ IH1 _ IH2]; intros Hs; [done| | |auto].
  - apply StronglySorted_inv in Hs as [Hs Hx]. constructor; [auto|]. by rewrite <- Hp.
  - apply StronglySorted_inv in Hs as [Hs Hy]. apply StronglySorted_inv in Hs as [Hs Hx]. apply Forall_cons in Hy as [Hyx Hy]. constructor; [by constructor|]. constructor; [auto|done].
Qed.
(** Different pieces do not overlap. *)
Lemma pieces_disjoint l x l' cs : l ++ x :: l' ≡ₚ cut_at 0 cs -> Forall (fun y => piece_before y x \/ piece_before x y) l.
Proof.
  intros Hp. assert (StronglySorted (fun x y => piece_before x y \/ piece_before y x) (x :: l ++ l')) as Hs.
  { eapply pairwise_perm; [|rewrite Permutation_middle; symmetry; exact Hp|]; [tauto|]. pose proof (cut_sorted 0 cs) as Hc. clear Hp. induction Hc as [|y k Hc IH Hy]; [constructor|]. constructor; [done|]. eapply Forall_impl; [exact Hy|]. tauto. }
  apply StronglySorted_inv in Hs as [_ Hs]. apply Forall_app in Hs as [Hs _]. eapply Forall_impl; [exact Hs|]. cbn. tauto.
Qed.
(** Nothing is complete while a piece is missing. *)
Lemma missing_piece fs rest cs : map piece_of fs ++ rest ≡ₚ cut_at 0 cs -> rest <> [] -> Forall (fun c => c <> []) cs ->
  complete fs (has_last (Z.of_nat (length (concat cs))) fs) = false.
Proof.
  intros Hp Hr Hc. unfold complete. set (total := Z.of_nat (length (concat cs))). destruct (has_last total fs) eqn:El; [|done]. destruct (contiguous_frags fs) eqn:Ec; [|done]. cbn [andb]. apply Z.eqb_neq. intros E0.
  unfold has_last in El. apply existsb_exists in El as (g & Hg & Eg%Z.eqb_eq). apply list_elem_of_In in Hg. destruct fs as [|f fs]; [by apply not_elem_of_nil in Hg|]. cbn [first_start] in E0.
  pose proof (contiguous_stop fs f g Ec Hg) as Hs. rewrite E0, Eg in Hs.
  assert (Z.of_nat (length (concat (map snd (map piece_of (f :: fs) ++ rest)))) = total) as Hl.
  { unfold total. rewrite <- (cut_length 0 cs). f_equal. apply Permutation_length. clear -Hp. induction Hp as [|x l l' Hp IH|x y l|l l' l'' Hp1 IH1 Hp2 IH2]; cbn [map concat]; [done|by apply Permutation_app|rewrite !app_assoc; apply Permutation_app; [apply Permutation_app_comm|done]|by etransitivity]. }
  rewrite map_app, concat_app, length_app in Hl. rewrite map_map in Hl. change (map (fun x => snd (piece_of x)) (f :: fs)) with (map f_data (f :: fs)) in Hl. unfold data_len in Hs. set (have := concat (map f_data (f :: fs))) in *.
  destruct rest as [|x rest]; [done|]. assert (snd x <> []) as Hne by (apply (cut_nonempty _ Hc 0); rewrite <- Hp; apply elem_of_app; right; apply list_elem_of_here).
  cbn [map concat] in Hl. rewrite length_app in Hl. clearbody have. destruct (snd x); [done|]. cbn [length] in Hl. lia.
Qed.

(** ** The offset field *)

Definition off_field (start : Z) (last : bool) : Z := start / 8 + (if last then 0 else IP_MF).
Definition off_field_ok (x : Z) : bool :=
  forallb (fun last : bool => let off := x + (if last then 0 else IP_MF) in
    Bool.eqb (is_last_of off) last && (Z.land off IP_OFFMASK =? x) &&
    Bool.eqb (negb (Z.land (le_val (be_bytes 2 off)) (PP_HTONS (Z.lor IP_OFFMASK IP_MF)) =? 0)) (negb (last && (x =? 0)))) [true; false].
Lemma off_field_all : forallb off_field_ok (seqZ 0 8192) = true.
Proof. vm_compute. reflexivity. Qed.
Lemma off_field_spec start last : 0 <= start < 65536 -> start mod 8 = 0 -> let off := off_field start last in
  0 <= off < 65536 /\ is_last_of off = last /\ start = Z.land off IP_OFFMASK * 8 /\
  negb (Z.land (le_val (be_bytes 2 off)) (PP_HTONS (Z.lor IP_OFFMASK IP_MF)) =? 0) = negb (last && (start =? 0)).
Proof.
  intros Hs Hm off. assert (off_field_ok (start / 8) = true) as E.
  { pose proof (proj1 (forallb_forall _ _) off_field_all (start / 8)) as Hf. apply Hf. apply list_elem_of_In, elem_of_seqZ. zdm. }
  unfold off_field_ok in E. cbn [forallb] in E. rewrite !andb_true_iff in E. destruct E as [E1 [E2 _]]. change (start / 8 + 0) with (off_field start true) in E1. change (start / 8 + IP_MF) with (off_field start false) in E2.
  assert ((start / 8 =? 0) = (start =? 0)) as Ez by (destruct (start =? 0) eqn:E; zdm). split; [unfold off, off_field; change IP_MF with 8192; destruct last; zdm|].
  rewrite Ez in E1, E2. destruct last; [destruct E1 as [[A%eqb_prop B%Z.eqb_eq] C%eqb_prop]|destruct E2 as [[A%eqb_prop B%Z.eqb_eq] C%eqb_prop]]; unfold off; rewrite B; (split; [exact A|split; [zdm|exact C]]).
Qed.

(** ** The frames *)

Record incoming := mk_in { in_eth : bytes; in_start : Z; in_data : bytes; in_pad : bytes }.
Definition in_stop (x : incoming) : Z := in_start x + Z.of_nat (length (in_data x)).

Section Trip.
Context `{PbufEnv} `{Addresses} {U : Type} `{IpIn U} `{Transport U}.
Implicit Types s : stack U.
Context (etharp_in : Z -> M (stack U) unit) (tos id ttl proto src dest total : Z) (s0 : stack U).
Abbreviation hdr := (hdr_of tos id ttl proto src dest).

(** The header of a piece, and the frame that carries it. *)
Definition frag_packet (x : incoming) : bytes := hdr (20 + Z.of_nat (length (in_data x))) (off_field (in_start x) (in_stop x =? total)) ++ in_data x.
Definition frame_of (x : incoming) : bytes := in_eth x ++ frag_packet x ++ in_pad x.
Record good_frame (x : incoming) : Prop := {
  gf_eth : length (in_eth x) = 24%nat /\ drop 22 (in_eth x) = be_bytes 2 ETHTYPE_IP;
  gf_fits : Z.of_nat (length (frame_of x)) <= first_room;
  gf_start : 0 <= in_start x /\ in_start x mod 8 = 0;
  gf_stop : in_stop x <= total /\ in_data x <> [];
  gf_part : in_stop x = total -> in_start x <> 0
}.

(** The datagram so far: the fragments [fs] are there, the rest is as in [s0]. *)
Abbreviation g0 := (handling (ipg s0) src dest).
Record collecting s (fs : list rfrag) : Prop := {
  co_state : match fs with [] => ipg s = ipg s0 | _ => exists d, ipg s = holding g0 d (length fs) /\ rd_for tos id ttl proto src dest g0 fs (has_last total fs) total d end;
  co_same : s = with_ip (with_mem s0 (mem s)) (ipg s);
  co_store : store_ok (mem s);
  co_next : next_blk (mem s) = next_blk (mem s0) + Z.of_nat (length fs);
  co_pool : pool_left (mem s) = pool_left (mem s0) - Z.of_nat (length fs);
  co_frags : frags (mem s) fs;
  co_sorted : sorted_frags fs;
  co_nodup : NoDup (map f_p fs);
  co_keys : Forall (fun f => next_blk (mem s0) <= f_p f < next_blk (mem s)) fs;
  co_others : forall k, k ∉ map f_p fs -> pbs (mem s) !! k = pbs (mem s0) !! k /\ dat (mem s) !! k = dat (mem s0) !! k
}.

(** Fields of the environment that the fragments share. *)
Record readable : Prop := {
  re_bytes : byte_ok tos /\ byte_ok ttl /\ byte_ok proto;
  re_addrs : 0 <= src < 2 ^ 32 /\ 0 <= dest < 2 ^ 32;
  re_accept : acceptable (nif s0) src dest;
  re_etharp : Z.land (nf_flags (nif s0)) NETIF_FLAG_ETHARP <> 0;
  re_total : 0 < total < 65536 - 20
}.

Lemma collecting_start : store_ok (mem s0) -> collecting s0 [].
Proof.
  intros Hs. split; try done.
  - by rewrite with_mem_id, with_ip_id.
  - cbn. lia.
  - cbn. lia.
  - constructor.
  - constructor.
Qed.

Lemma frags_ext m m' fs : frags m fs -> (forall k, k ∈ map f_p fs -> pbs m' !! k = pbs m !! k /\ dat m' !! k = dat m !! k) -> frags m' fs.
Proof.
  intros Hf He. induction fs as [|f fs IH]; [done|]. destruct Hf as [Hf Hfs]. split; [|apply IH; [done|]; intros k Hk; apply He; by apply list_elem_of_further].
  destruct (He (f_p f) (list_elem_of_here _ _)) as [E1 E2]. destruct Hf as [[Hc Hce Hto Hle] Ho Ht Ha Hr Hd].
  assert (blocks [(f_p f, f_b f)] = [f_p f]) as Hbl by (cbn; by rewrite Ho).
  split; try done.
  - split; try done; [destruct Hc as (C1 & C2 & C3 & C4); rewrite <- E1 in C3; done|]. eapply cells_ext; [|exact Hce]. rewrite Hbl. by intros k ->%list_elem_of_singleton.
  - destruct Hd as (t & Hlt & Hd). exists t. split; [done|]. rewrite <- Hd. unfold cell_data. by rewrite Ho, E2.
Qed.
Lemma has_last_middle fs1 f fs2 : has_last total (fs1 ++ f :: fs2) = has_last total (fs1 ++ fs2) || (f_stop f =? total).
Proof. unfold has_last. rewrite !existsb_app. cbn [existsb]. by destruct (existsb _ fs1), (existsb _ fs2), (f_stop f =? total). Qed.
Lemma handling_holding d n : handling (holding g0 d n) src dest = holding g0 d n.
Proof. destruct (ipg s0). by destruct n. Qed.

(** The packet of a frame, ready for ip4_reass. *)
Lemma frame_arrives s x : readable -> good_frame x -> store_ok (mem s) -> 0 < pool_left (mem s) -> next_blk (mem s) < 2 ^ 32 -> nif s = nif s0 ->
  let p := next_blk (mem s) in let off := off_field (in_start x) (in_stop x =? total) in
  exists b m, let f := mk_rf p b (in_start x) (in_data x) in
    receive_frame ip4_input etharp_in (frame_of x) s = ((let* q := ip4_reass p in if q =? NULL then ret tt else deliver q 20) ;;; ret tt) (with_ip (with_mem s m) (handling (ipg s) src dest)) /\
    arrived tos id ttl proto src dest m f off /\ store_ok m /\ next_blk m = p + 1 /\ pool_left m = pool_left (mem s) - 1 /\
    (forall k, k <> p -> pbs m !! k = pbs (mem s) !! k /\ dat m !! k = dat (mem s) !! k).
Proof.
  intros [(B1 & B2 & B3) [A1 A2] Hacc Hea Hto] [[G1 G2] G3 [G4 G5] [G6 G7] G8] Hs Hpool Hp32 Hnif p off. set (n := Z.of_nat (length (in_data x))).
  assert (0 < n) as Hn by (unfold n; destruct (in_data x); [done|cbn; lia]). assert (in_stop x = in_start x + n) as Hst by done.
  destruct (off_field_spec (in_start x) (in_stop x =? total) ltac:(lia) G5) as (O1 & O2 & O3 & O4). fold off in O1, O2, O3, O4.
  assert ((in_stop x =? total) && (in_start x =? 0) = false) as Hpart.
  { destruct (in_stop x =? total) eqn:E1; [|done]. apply Z.eqb_neq. apply G8. by apply Z.eqb_eq. }
  rewrite Hpart in O4. cbn [negb] in O4. set (len := 20 + n). set (pkt := (ip_header [] tos len id off ttl proto src dest ++ in_data x) ++ in_pad x).
  assert (length (frag_packet x) = (20 + length (in_data x))%nat) as Hlp by (unfold frag_packet, hdr_of; rewrite length_app, length_ip_header; done).
  destruct (receive_one_run etharp_in s (in_eth x) pkt) as (b & m & Er & Hp & Hcont & T1 & T2 & T3 & _ & Hrel & Hrest & Hleft & Hnb); try done.
  { by rewrite Hnif. }
  fold p in Er, Hp, T3, Hrel, Hrest, Hnb. change (in_eth x ++ pkt) with (frame_of x) in Er. set (s1 := with_mem s m) in *.
  destruct (ip4_input_checks_run s1 p b [] tos id off ttl proto src dest (in_data x) (in_pad x) Hp Hrel Hcont) as (Ei & Hp2 & Hd2); try done; [cbn; lia|constructor|by change (nif s1) with (nif s); rewrite Hnif|].
  rewrite O4 in Ei. change (20 + Z.of_nat (@length Z [])) with 20 in Ei, Hp2, Hd2. fold n len in Ei, Hp2, Hd2. set (b2 := cut b len) in *. change (mem s1) with m in Ei, Hp2, Hd2.
  exists b2, (put_cell m p b2). split; [|split; [|split; [|split; [done|split; [done|]]]]].
  - rewrite Er. unfold bind at 1. rewrite Ei. done.
  - pose proof (so_next _ Hs). split; try done. split; [done|]. split; [|done]. change (f_stop _) with (in_start x + n). lia.
  - destruct Hs as [S1 S2 S3 S4]. split; change (next_blk (put_cell m p b2)) with (next_blk m); rewrite ?Hnb; [fold p in S1; lia| | |change (pool_left (put_cell m p b2)) with (pool_left m); lia].
    + intros k Hk. rewrite pbs_put, lookup_insert_ne by lia. rewrite (proj1 (Hrest k ltac:(lia))). apply S2. fold p. lia.
    + intros k Hk. change (dat (put_cell m p b2)) with (dat m). rewrite (proj2 (Hrest k ltac:(lia))). apply S3. fold p. lia.
  - intros k Hk. rewrite pbs_put, lookup_insert_ne by done. by apply Hrest.
Qed.

Lemma receive_step s fs x : readable -> collecting s fs -> good_frame x -> 0 < pool_left (mem s) -> next_blk (mem s) < 2 ^ 32 ->
  room tos id ttl proto src dest g0 (Z.of_nat (S (length fs))) -> Forall (fun g => f_stop g <= in_start x \/ in_stop x <= f_start g) fs ->
  exists f fs1 fs2 s', fs = fs1 ++ fs2 /\ piece_of f = (in_start x, in_data x) /\ collecting s' (fs1 ++ f :: fs2) /\
    receive_frame ip4_input etharp_in (frame_of x) s =
      (if complete (fs1 ++ f :: fs2) (has_last total (fs1 ++ f :: fs2)) then (let* q := reass_finish (next_rd g0) in if q =? NULL then ret tt else deliver q 20) ;;; ret tt else ret tt) s'.
Proof.
  intros Hre [C1 C3 C4 C5 C6 C7 C8 C9 C10 C11] Hx Hpool Hp32 Hroom Hdis. assert (nif s = nif s0) as Hnif by (by rewrite C3).
  destruct (frame_arrives s x Hre Hx C4 Hpool Hp32 Hnif) as (b & m & Er & Har & Hsm & Hnb & Hleft & Hrest). set (p := next_blk (mem s)) in *. set (f := mk_rf p b (in_start x) (in_data x)) in *. set (off := off_field (in_start x) (in_stop x =? total)) in *.
  set (s2 := with_ip (with_mem s m) (handling (ipg s) src dest)) in *.
  assert (exists d, ipg s2 = holding g0 d (length fs) /\ match fs with [] => has_last total fs = false | _ => rd_for tos id ttl proto src dest g0 fs (has_last total fs) total d end) as (d & Hg2 & Hd2).
  { unfold s2. rewrite ipg_with_ip. destruct fs as [|g fs]; [exists (mk_reassdata 0 0 [] 0 0 0); split; [cbn; by rewrite C1|done]|]. destruct C1 as (d & -> & Hd). exists d. by rewrite handling_holding. }
  assert (p ∉ map f_p fs) as Hni.
  { intros Hin. apply list_elem_of_fmap in Hin as (g & Eg & Hg). rewrite Forall_forall in C10. specialize (C10 _ Hg). lia. }
  assert (Forall (fun g => f_start g <= f_stop g) fs) as Hle by (apply Forall_forall; intros g _; unfold f_stop; lia).
  destruct (sorted_place fs f C8 Hle ltac:(unfold f_stop; lia) Hdis) as (fs1 & fs2 & Efs & L1 & L2 & Hsort).
  assert (frags m fs) as Hfm by (eapply frags_ext; [exact C7|]; intros k Hk; apply Hrest; congruence).
  destruct (off_field_spec (in_start x) (in_stop x =? total)) as (_ & O2 & _ & _); [|apply (gf_start _ Hx)|].
  { pose proof (gf_start _ Hx). pose proof (gf_stop _ Hx). pose proof (re_total Hre). unfold in_stop in *. lia. }
  fold off in O2.
  destruct (ip4_reass_run tos id ttl proto src dest s2 g0 d fs1 fs2 (has_last total fs) f off total) as (e & d' & E & Hd' & F & Hall); rewrite <- ?Efs.
  { rewrite length_app. cbn [length]. replace (length fs1 + S (length fs2))%nat with (S (length fs)) by (rewrite Efs, length_app; lia). done. }
  { exact Hg2. }
  { exact Hd2. }
  { exact Har. } { exact Hfm. } { exact Hni. } { done. } { done. } { done. }
  { rewrite O2. by intros ?%Z.eqb_eq. }
  rewrite O2 in E, Hd'. change (in_stop x) with (f_stop f) in E, Hd'. assert (has_last total fs || (f_stop f =? total) = has_last total (fs1 ++ f :: fs2)) as Elast by (rewrite Efs; symmetry; apply has_last_middle). rewrite Elast in E, Hd'. set (all := fs1 ++ f :: fs2) in *. set (s' := with_ip _ (holding g0 d' (length all))) in E.
  assert (length all = S (length fs)) as Hla by (unfold all; rewrite Efs, !length_app; cbn; lia).
  assert (map f_p all ≡ₚ p :: map f_p fs) as Hperm by (unfold all; rewrite Efs, !map_app; cbn [map]; symmetry; apply Permutation_middle).
  exists f, fs1, fs2, s'. split; [done|]. split; [done|]. fold all. split.
  - split.
    + assert (ipg s' = holding g0 d' (length all)) as Hg' by apply ipg_with_ip. assert (all <> []) as Hne by (intros E0; by rewrite E0 in Hla). clearbody all. destruct all; [done|]. exists d'. split; done.
    + change (mem s') with (with_dat m e). assert (ipg s' = holding g0 d' (length all)) as -> by apply ipg_with_ip. unfold s', s2. change (mem (with_ip ?a ?b)) with (mem a). change (mem (with_mem ?a ?b)) with b.
      rewrite with_ip_mem, with_ip_ip, with_mem_mem. rewrite C3. by rewrite with_ip_mem, with_ip_ip, with_mem_mem.
    + change (mem s') with (with_dat m e). destruct Hsm as [S1 S2 S3 S4]. split; [done|done| |done]. intros k Hk. change (next_blk (with_dat m e)) with (next_blk m) in Hk. change (dat (with_dat m e)) with e.
      rewrite (fr_out _ _ _ F); [by apply S3|]. rewrite Hperm. apply not_elem_of_cons. split; [lia|]. intros Hin. apply list_elem_of_fmap in Hin as (g & -> & Hg). rewrite Forall_forall in C10. specialize (C10 _ Hg). lia.
    + change (next_blk (mem s')) with (next_blk m). rewrite Hnb, Hla. unfold p. lia.
    + change (pool_left (mem s')) with (pool_left m). rewrite Hleft, Hla. lia.
    + exact Hall.
    + exact Hsort.
    + rewrite Hperm. by constructor.
    + change (next_blk (mem s')) with (next_blk m). rewrite Hnb. unfold all. rewrite Efs in C10. apply Forall_app in C10 as [D1 D2]. apply Forall_app. split; [|constructor].
      * eapply Forall_impl; [exact D1|]. cbn. intros g Hg. lia.
      * cbn [f f_p]. unfold p in *. lia.
      * eapply Forall_impl; [exact D2|]. cbn. intros g Hg. lia.
    + intros k Hk. rewrite Hperm in Hk. apply not_elem_of_cons in Hk as [Hk1 Hk2]. destruct (C11 k Hk2) as [K1 K2]. destruct (Hrest k Hk1) as [K3 K4]. change (pbs (mem s')) with (pbs m). change (dat (mem s')) with e.
      rewrite (fr_out _ _ _ F) by (rewrite Hperm; by apply not_elem_of_cons). change (dat (mem s2)) with (dat m). split; congruence.
  - change (f_p f) with p in E. rewrite Er. unfold bind. rewrite E. by destruct (complete all _).
Qed.

(** ** Any order *)

(** The datagram is complete: it is handed over, the structure is free again. *)
Lemma finish_run s fs cs : readable -> collecting s fs -> fs <> [] -> map piece_of fs = cut_at 0 cs -> total = Z.of_nat (length (concat cs)) -> has_last total fs = true ->
  room tos id ttl proto src dest g0 (Z.of_nat (length fs)) ->
  exists s' p l, ((let* q := reass_finish (next_rd g0) in if q =? NULL then ret tt else deliver q 20) ;;; ret tt) s = (deliver p 20 ;;; ret tt) s' /\
    packet (mem s') p l /\ pool_cells l /\ content (dat (mem s')) l = hdr (20 + total) 0 ++ concat cs /\
    s' = with_ip (with_mem s0 (mem s')) (g0 <| next_rd := next_rd g0 + 1 |>) /\ l.*1 = map f_p fs /\
    (forall k, k ∉ l.*1 -> pbs (mem s') !! k = pbs (mem s0) !! k /\ dat (mem s') !! k = dat (mem s0) !! k) /\
    pool_left (mem s') = pool_left (mem s0) - Z.of_nat (length l).
Proof.
  intros [(B1 & B2 & B3) _ _ _ Hto] [C1 C3 C4 C5 C6 C7 C8 C9 C10 C11] Hne Hcut Htot Hlast Hroom. destruct fs as [|f fs]; [done|]. clear Hne. destruct C1 as (d & Hg & C2).
  pose proof Hroom as [Q1 Q2 Q3 [Q4 Q5] _]. rewrite Hlast in C2. destruct C2 as [R1 R2 (lh & oh & R3) R4 R5]. destruct (contiguous_cut _ _ _ Hcut) as (_ & _ & Hcat).
  assert (data_len (f :: fs) = total) as Hdl by (unfold data_len; rewrite Hcat; done). set (r := next_rd g0) in *. assert (r <> NULL) as Hr by (unfold NULL; lia). set (n := length (f :: fs)) in *.
  assert (rds (ipg s) !! r = Some d) as Hd by (rewrite Hg; apply lookup_insert_eq).
  destruct (reass_finish_run tos id ttl proto src dest B1 B2 B3 s f fs r d lh oh C7 C9 Hr Hd R2 R3 ltac:(rewrite Hdl; by apply R4) ltac:(lia) ltac:(by rewrite Hg)) as (h' & e & l & E & Hp & Hpc & Hk & Hct & F & Hoth).
  rewrite Hdl, Hcat in Hct. set (m' := (with_dat (mem s) e) <| pbs := h' |>) in *. set (s' := with_ip (with_mem s m') _) in E. exists s', (f_p f), l.
  assert (released (ipg s) r d (Z.of_nat n) = g0 <| next_rd := next_rd g0 + 1 |>) as Erel.
  { rewrite Hg. unfold released. unfold n. cbn [length]. rewrite R1. change IP_REASS_MAX_PBUFS with 64 in Q5. fold n in Q5. clear -Q2 Q4 Q5. subst r n. cbn [length] in Q5. destruct (ipg s0) as [a1 a2 a3 a4 a5 a6 a7 a8 a9 a10 a11 a12]. unfold handling in *. unfold holding. 
    cbv beta iota delta [set set_current_iphdr_dest set_current_iphdr_src ip_reass_pbufcount rds next_rd] in Q2, Q4, Q5. ip_simpl.
    f_equal; [by rewrite delete_insert_id|lia|rewrite u16_id; lia]. }
  split; [|split; [exact Hp|split; [done|split; [exact Hct|split; [|split; [done|split]]]]]].
  - unfold bind. rewrite E. destruct (fa_addr _ _ _ (proj1 C7)) as [Ha _]. by rewrite (proj2 (Z.eqb_neq _ _)) by (unfold NULL; lia).
  - change (mem s') with m'. unfold s'. fold n. rewrite Erel. rewrite C3. by rewrite with_ip_mem, with_ip_ip, with_mem_mem.
  - intros k Hk'. rewrite Hk in Hk'. destruct (C11 k Hk') as [K1 K2]. change (pbs (mem s')) with h'. change (dat (mem s')) with e. rewrite Hoth by done. rewrite (fr_out _ _ _ F); [done|]. intros ->%list_elem_of_singleton. apply Hk', list_elem_of_here.
  - change (pool_left (mem s')) with (pool_left (mem s)). rewrite C6. f_equal. f_equal. unfold n. rewrite <- (length_fmap fst l), Hk. by rewrite length_map.
Qed.

Fixpoint receive_all (frames : list bytes) : M (stack U) unit :=
  match frames with [] => ret tt | f :: frames => receive_frame ip4_input etharp_in f ;;; receive_all frames end.
Definition in_piece (x : incoming) : Z * bytes := (in_start x, in_data x).

(** What the upper layers get: [s'] when the packet [p] is delivered. *)
Record reassembled (cs : list bytes) s' (p : Z) (l : list (Z * pbuf)) : Prop := {
  ra_packet : packet (mem s') p l;
  ra_cells : pool_cells l;
  ra_content : content (dat (mem s')) l = hdr (20 + total) 0 ++ concat cs;
  ra_state : s' = with_ip (with_mem s0 (mem s')) (g0 <| next_rd := next_rd g0 + 1 |>);
  ra_others : forall k, k ∉ l.*1 -> pbs (mem s') !! k = pbs (mem s0) !! k /\ dat (mem s') !! k = dat (mem s0) !! k;
  ra_count : length l = length cs;
  ra_pool : pool_left (mem s') = pool_left (mem s0) - Z.of_nat (length l)
}.

Lemma length_cut st cs : length (cut_at st cs) = length cs.
Proof. revert st; induction cs as [|c cs IH]; intros st; [done|]. cbn. by rewrite IH. Qed.

Lemma collect_run cs rest : forall s fs x, readable -> Forall (fun c => c <> []) cs -> total = Z.of_nat (length (concat cs)) -> Forall good_frame (x :: rest) -> collecting s fs ->
  map piece_of fs ++ map in_piece (x :: rest) ≡ₚ cut_at 0 cs -> room tos id ttl proto src dest g0 (Z.of_nat (length cs)) -> Z.of_nat (length cs) <= pool_left (mem s0) -> next_blk (mem s0) + Z.of_nat (length cs) <= 2 ^ 32 ->
  exists s' p l, receive_all (map frame_of (x :: rest)) s = (deliver p 20 ;;; ret tt) s' /\ reassembled cs s' p l.
Proof.
  induction rest as [|y rest IH]; intros s fs x Hre Hcs Htot Hgood Hco Hp Hroom Hpool Hnext.
  all: apply Forall_cons in Hgood as [Hx Hgood]; pose proof (Permutation_length Hp) as Hlen; rewrite length_cut, length_app, !length_map in Hlen; cbn [length] in Hlen.
  all: pose proof Hroom as [Q1 Q2 Q3 [Q4 Q5] Q6]; assert (room tos id ttl proto src dest g0 (Z.of_nat (S (length fs)))) as Hroom1 by (split; try done; split; [done|lia]).
  all: assert (Forall (fun g => f_stop g <= in_start x \/ in_stop x <= f_start g) fs) as Hdis by (pose proof (pieces_disjoint _ _ _ _ Hp) as Hd; apply Forall_map in Hd; exact Hd).
  all: destruct (receive_step s fs x Hre Hco Hx) as (f & fs1 & fs2 & s1 & Efs & Hf & Hco1 & E); [rewrite (co_pool _ _ Hco); lia|rewrite (co_next _ _ Hco); lia|done|done|]; set (all := fs1 ++ f :: fs2) in *.
  all: assert (map piece_of all ≡ₚ map piece_of fs ++ [in_piece x]) as Hall by (unfold all; rewrite Efs, !map_app; cbn [map]; rewrite Hf, <- Permutation_middle; apply Permutation_cons_append).
  - cbn [map receive_all] in *. assert (map piece_of all = cut_at 0 cs) as Hcut by (apply all_pieces; [apply (co_sorted _ _ Hco1)|done|by rewrite Hall]). destruct (contiguous_cut _ _ _ Hcut) as (Hc1 & Hc2 & Hc3).
    assert (all <> []) as Hne by (unfold all; by destruct fs1). assert (has_last total all = true) as Hla by (rewrite Htot; by apply (cut_has_last all 0 cs)).
    assert (complete all (has_last total all) = true) as Hcm by (unfold complete; rewrite Hla, Hc1; cbn [andb]; apply Z.eqb_eq; by apply Hc2). rewrite Hcm in E.
    assert (length all = length cs) as Hll by (rewrite <- (length_map piece_of all), Hcut; apply length_cut).
    destruct (finish_run s1 all cs Hre Hco1 Hne Hcut Htot Hla ltac:(by rewrite Hll)) as (s' & p & l & E' & G1 & G2 & G3 & G4 & G5 & G6 & G7). exists s', p, l. split.
    + unfold bind at 1. rewrite E, E'. unfold bind. by destruct (deliver p 20 s') as [[[] ?]| |].
    + split; try done. rewrite <- (length_fmap fst l), G5, length_map. exact Hll.
  - assert (map piece_of all ++ map in_piece (y :: rest) ≡ₚ cut_at 0 cs) as Hp1 by (rewrite Hall, <- app_assoc; exact Hp).
    assert (complete all (has_last total all) = false) as Hcm by (rewrite Htot; by eapply missing_piece). rewrite Hcm in E.
    destruct (IH s1 all y Hre Hcs Htot Hgood Hco1 Hp1 Hroom Hpool Hnext) as (s' & p & l & E' & Hra). exists s', p, l. split; [|done].
    cbn [map receive_all] in E' |- *. unfold bind at 1. rewrite E. exact E'.
Qed.

(** The pieces of a datagram, received in any order, are put together. *)
Lemma reassembly_run cs order : readable -> store_ok (mem s0) -> Forall (fun c => c <> []) cs -> total = Z.of_nat (length (concat cs)) -> Forall good_frame order ->
  map in_piece order ≡ₚ cut_at 0 cs -> room tos id ttl proto src dest g0 (Z.of_nat (length cs)) -> Z.of_nat (length cs) <= pool_left (mem s0) -> next_blk (mem s0) + Z.of_nat (length cs) <= 2 ^ 32 ->
  exists s' p l, receive_all (map frame_of order) s0 = (deliver p 20 ;;; ret tt) s' /\ reassembled cs s' p l.
Proof.
  intros Hre Hs Hcs Htot Hgood Hp Hroom Hpool Hnext. destruct order as [|x rest].
  - exfalso. apply Permutation_length in Hp. rewrite length_cut in Hp. destruct cs; [|done]. pose proof (re_total Hre). rewrite Htot in H3. cbn in H3. lia.
  - apply (collect_run cs rest s0 [] x); try done. by apply collecting_start.
Qed.
End Trip.
