(* ===== verification/IpTrip.v ===== *)
(** From station to station: a datagram that is cut into fragments is put
    together again by a receiver, whatever the order in which the frames arrive. *)

From stdpp Require Import gmap sorting.
From S2P Require Import Prelude Cmonad Cutils Heap Pbuf PbufProofs PbufChain Inet InetProofs Ethernet Etharp EthernetProofs Link EtharpProofs ArpProofs IpOutput Icmp Reass IpInput IpProofs FragProofs IcmpProofs IpInProofs ReassProofs ReassWhole ReassTrip.

(** ** The fragments as pieces *)

(** The lengths for which the test for the last fragment is right. *)
Definition even_cut (total : Z) : Prop := ~ (1 <= total mod 1368 <= 4).
Definition chunks (data : bytes) : list bytes := map snd (fragments (length data) false 0 data).

Lemma chunks_nonempty k mf ofo data : Forall (fun c => c <> []) (map snd (fragments k mf ofo data)).
Proof. revert ofo data; induction k as [|k IH]; intros ofo data; [constructor|]. destruct data as [|x data]; [constructor|]. cbn [fragments map snd]. constructor; [done|apply IH]. Qed.
Lemma chunk_lengths k mf ofo data : Forall (fun c => Z.of_nat (length c) <= 1368) (map snd (fragments k mf ofo data)).
Proof. revert ofo data; induction k as [|k IH]; intros ofo data; [constructor|]. destruct data as [|x data]; [constructor|]. cbn [fragments map snd]. constructor; [|apply IH]. rewrite length_take. change (Z.to_nat FRAG_DATA) with 1368%nat. lia. Qed.

Lemma fragments_fuel k : forall k' mf ofo data, (length data <= k)%nat -> (length data <= k')%nat -> fragments k mf ofo data = fragments k' mf ofo data.
Proof.
  induction k as [|k IH]; intros k' mf ofo data Hk Hk'; (destruct data as [|x data]; [by destruct k'|]); [cbn in Hk; lia|]. destruct k' as [|k']; [cbn in Hk'; lia|]. cbn [fragments]. f_equal.
  apply IH; rewrite length_drop; change (Z.to_nat FRAG_DATA) with 1368%nat; lia.
Qed.
Lemma frag_off_field total i n : 0 <= i < 48 -> 0 < n -> total = 1368 * i + n -> even_cut total ->
  frag_off false n (171 * i) = off_field (1368 * i) (1368 * i + Z.min n 1368 =? total).
Proof.
  intros Hi Hn Ht He. rewrite frag_off_val by done. unfold off_field. change IP_MF with 8192. replace (1368 * i / 8) with (171 * i) by zdm. f_equal.
  unfold even_cut in He. assert (total mod 1368 = n mod 1368) as Em by (rewrite Ht, Z.add_comm, Z.mul_comm; apply Z.mod_add; lia). rewrite Em in He.
  destruct (n <=? 1372) eqn:E1, (1368 * i + Z.min n 1368 =? total) eqn:E2; try done; exfalso; zdm.
Qed.

Section Fields.
Context (hw mac : bytes) (tos id ttl proto src dest total : Z).
Definition in_of (x : Z * bytes) : incoming := mk_in (eth_header hw mac (Z.of_nat (20 + length (snd x)) + 10) ETHTYPE_IP) (fst x) (snd x) [].
Definition frame_for (f : Z * bytes) : bytes :=
  let pkt := ip_header [] tos (20 + Z.of_nat (length (snd f))) id (fst f) ttl proto src dest ++ snd f in eth_header hw mac (Z.of_nat (length pkt) + 10) ETHTYPE_IP ++ pkt.

Lemma fragments_frames k : forall data i, (length data <= k)%nat -> total = 1368 * i + Z.of_nat (length data) -> 0 <= i -> total < 65516 -> even_cut total ->
  map frame_for (fragments k false (171 * i) data) = map (fun x => frame_of tos id ttl proto src dest total (in_of x)) (cut_at (1368 * i) (map snd (fragments k false (171 * i) data))).
Proof.
  induction k as [|k IH]; intros data i Hk Ht Hi Hlt He; [done|]. destruct data as [|x data']; [done|]. cbn [fragments map cut_at snd]. set (data := x :: data') in *.
  assert (0 < Z.of_nat (length data)) as Hpos by (unfold data; cbn [length]; lia). assert (Z.of_nat (length (take (Z.to_nat FRAG_DATA) data)) = Z.min (Z.of_nat (length data)) 1368) as Hlc by (rewrite length_take; change (Z.to_nat FRAG_DATA) with 1368%nat; lia).
  assert (fragments k false (u16 (171 * i + nfb)) (drop (Z.to_nat FRAG_DATA) data) = fragments k false (171 * (i + 1)) (drop (Z.to_nat FRAG_DATA) data)) as Enext by (f_equal; change nfb with 171; rewrite u16_id by lia; lia).
  f_equal.
  - unfold frame_for, frame_of, frag_packet, in_of, hdr_of, in_stop. cbn [in_eth in_start in_data in_pad fst snd]. rewrite app_nil_r, length_app, length_ip_header. cbn [length Nat.add]. fold data. rewrite Hlc.
    rewrite (frag_off_field total i (Z.of_nat (length data))) by (done || lia). done.
  - fold data. rewrite Enext. destruct (decide (drop (Z.to_nat FRAG_DATA) data = [])) as [E0|E0]; [rewrite E0; by destruct k|].
    assert (1368 < Z.of_nat (length data)) as Hbig.
    { destruct (Z_le_gt_dec (Z.of_nat (length data)) 1368) as [Hl|]; [|lia]. exfalso. apply E0. apply drop_ge. change (Z.to_nat FRAG_DATA) with 1368%nat. lia. }
    rewrite (IH _ (i + 1)); [|rewrite length_drop; change (Z.to_nat FRAG_DATA) with 1368%nat; lia|rewrite length_drop; change (Z.to_nat FRAG_DATA) with 1368%nat; lia|lia|done|done].
    do 2 f_equal. rewrite Hlc. lia.
Qed.
End Fields.

(** ** The sender *)

Section Sender.
Context `{PbufEnv} `{Addresses} {U : Type} `{IpIn U}.
Implicit Types s : stack U.

(** Every buffer that is asked for is there. *)
Definition buffers s (n : nat) : Prop := forall i, (i < n)%nat -> mem_gives (mallocs (mem s) + i) = true.
Lemma send_all_ok frames : forall s, buffers s (length frames) -> exists m, send_all s frames = (ERR_OK, (with_mem s m) <| sent := sent s ++ frames |>).
Proof.
  induction frames as [|f frames IH]; intros s Hb; cbn [send_all].
  - exists (mem s). rewrite app_nil_r. by destruct s.
  - pose proof (Hb 0%nat ltac:(cbn; lia)) as H00. rewrite Nat.add_0_r in H00. rewrite H00. destruct (IH (send s (bumped (mem s)) f)) as (m & E).
    + intros i Hi. change (mallocs (mem (send s (bumped (mem s)) f))) with (S (mallocs (mem s))). rewrite Nat.add_succ_comm. apply Hb. cbn. lia.
    + exists m. rewrite E. f_equal. change (sent (send s (bumped (mem s)) f)) with (sent s ++ [f]). rewrite <- app_assoc. by destruct s.
Qed.

(** A packet whose cells have memory of their own, of more than one frame. *)
Record sendable s (p : Z) (b : pbuf) (l : list (Z * pbuf)) (data : bytes) : Prop := {
  se_store : store_ok (mem s);
  se_packet : packet (mem s) p ((p, b) :: l);
  se_own : pblk (pb_payload b) ∉ blocks l;
  se_content : content (dat (mem s)) ((p, b) :: l) = data;
  se_room : contiguous_type b /\ IP_HLEN <= poff (pb_payload b);
  se_size : IF_MTU_SIZE < 20 + Z.of_nat (length data) < 65536
}.

Lemma large_datagram_run s p b l data src dest ttl tos proto mac : let n := frag_count (Z.of_nat (length data)) in
  sendable s p b l data -> neighbour s dest mac -> byte_ok tos -> byte_ok ttl -> byte_ok proto -> 0 <= src < 2 ^ 32 -> 0 <= dest < 2 ^ 32 -> 0 <= ip_id (ipg s) < 65536 -> buffers s (Z.to_nat n) ->
  exists s', ip4_output_if_opt_src p (Some src) (Some dest) ttl tos proto [] 0 s = Ok (ERR_OK, s') /\
    sent s' = sent s ++ map (frame_for (nf_hwaddr (nif s)) mac tos (ip_id (ipg s)) ttl proto src dest) (fragments (length data) false 0 data) /\ ip_id (ipg s') = u16 (ip_id (ipg s) + 1).
Proof.
  intros n [Hs Hp Hown Hct [Hcg Hro] Hsz] Hn B1 B2 B3 Rs Rd Rid Hbuf. change IP_HLEN with 20 in Hro. change IF_MTU_SIZE with 1392 in Hsz.
  pose proof (length_content _ _ (pk_cells _ _ _ Hp)) as Hlc. rewrite Hct in Hlc. set (total := Z.of_nat (length data)) in *. set (id := ip_id (ipg s)) in *.
  destruct (output_header_run s p b l [] src dest ttl tos proto Hp Hcg ltac:(change (padded []) with (@nil Z); cbn [length]; lia) ltac:(change (padded []) with (@nil Z); cbn [length]; lia) ltac:(constructor) ltac:(cbn; lia) B1 B2 B3 Rs Rd Rid) as (d & E & F & C).
  change (padded []) with (@nil Z) in E, C. change (20 + Z.of_nat (@length Z [])) with 20 in E, C. change (Z.of_nat (@length Z [])) with 0 in E. fold id in C. set (b1 := moved b (- (20))) in *.
  set (m1 := put_cell (with_dat (mem s) d) p b1) in *. set (s1 := with_ip (with_mem s m1) (next_id (ipg s))) in *. destruct (packet_head _ _ _ _ _ Hp) as (_ & Hp0 & Hb & Hc & Htl & Hlb & Hls).
  assert (cell_ok d b1) as Hc1 by (eapply frame_cell_ok; [exact F|]; apply (cell_moved_back _ _ 20 Hc); lia).
  assert (packet m1 p ((p, b1) :: l)) as Hp1 by (apply (packet_moved (with_dat (mem s) d) p b l (- (20))); [eapply frame_packet; [exact F|done]|done|lia]).
  assert (store_ok m1) as Hs1.
  { pose proof (chain_below _ _ _ Hs (pk_chain _ _ _ Hp) p (list_elem_of_here _ _)) as Hpb. destruct Hs as [S1 S2 S3 S4]. split; [done| | |done]; change (next_blk m1) with (next_blk (mem s)); intros k Hk.
    - unfold m1. rewrite pbs_put, lookup_insert_ne by lia. by apply S2.
    - change (dat m1) with d. rewrite (fr_out _ _ _ F); [by apply S3|]. intros ->%list_elem_of_singleton. destruct Hc as (_ & c & Ec & _). by rewrite (S3 _ Hk) in Ec. }
  assert (whole s1 p b1 l tos (sum_len ((p, b) :: l) + 20) id 0 ttl proto (be_bytes 2 (rfc1071_checksum (ip_fields (v_hl_of []) tos (sum_len ((p, b) :: l) + 20) id 0 ttl proto [0; 0] src dest ++ []))) src dest data) as Hw.
  { split; [exact Hp1| |change (pb_len b1) with (pb_len b - - (20)); lia|apply length_be_bytes|done]. change (dat (mem s1)) with d. rewrite content_cons. cbn [snd]. rewrite C.
    rewrite <- Hct, content_cons. cbn [snd]. rewrite (frame_content _ _ _ l F) by (by intros k Hk ->%list_elem_of_singleton). unfold ip_header. rewrite app_nil_r, <- app_assoc. done. }
  assert (output_to p dest s1 = ip4_frag p dest s1) as Eo.
  { unfold output_to. rewrite (onmem_getp s1 p b1 _ Hp0 (lookup_insert_eq _ _ _)). change (nz IF_MTU_SIZE) with true. cbn [andb]. change (pb_tot_len b1) with (pb_tot_len b - - (20)). change IF_MTU_SIZE with 1392.
    pose proof Hlc as Hlc'. cbn [sum_len snd] in Hlc'. by rewrite (proj2 (Z.ltb_lt _ _)) by lia. }
  pose proof (ip4_frag_run s1 p b1 l tos _ id 0 ttl proto _ src dest data dest mac (length data) Hs1 Hw (neighbour_with _ _ _ _ _ Hn) ltac:(lia) ltac:(lia)) as Ef.
  change (nz (Z.land 0 IP_MF)) with false in Ef. change (Z.land 0 IP_OFFMASK) with 0 in Ef. set (frames := map _ _) in Ef.
  destruct (send_all_ok frames s1) as (m & Em).
  { intros i Hi. change (mallocs (mem s1)) with (mallocs (mem s)). apply Hbuf. unfold frames in Hi. rewrite length_map in Hi. pose proof (length_fragments (length data) false 0 data ltac:(lia)) as Hlf. fold total n in Hlf. lia. }
  rewrite Em in Ef. eexists. split; [rewrite E, Eo; exact Ef|]. split; [done|]. unfold ipg. cbn. rewrite ip_get_put. done.
Qed.
End Sender.

(** ** The receiver *)

Section Receiver.
Context `{PbufEnv} `{Addresses} {V : Type} `{IpIn V} `{Transport V} (etharp_in : Z -> M (stack V) unit).
Implicit Types r : stack V.

(** The station takes datagrams from [src] to [dest], and has room for [n] fragments. *)
Record takes r (tos id ttl proto src dest n : Z) : Prop := {
  tk_store : store_ok (mem r);
  tk_accept : acceptable (nif r) src dest;
  tk_etharp : Z.land (nf_flags (nif r)) NETIF_FLAG_ETHARP <> 0;
  tk_room : room tos id ttl proto src dest (ipg r) n;
  tk_pool : n <= pool_left (mem r);
  tk_next : next_blk (mem r) + n <= 2 ^ 32
}.

Lemma room_handling tos id ttl proto src dest g n : room tos id ttl proto src dest g n -> room tos id ttl proto src dest (handling g src dest) n.
Proof. by intros [? ? ? ? ?]. Qed.

(** What is there when the datagram [pkt] is handed to the layer above. *)
Definition handed_over r src dest (pkt : bytes) (frames : list bytes) : Prop :=
  exists r' q l, receive_all etharp_in frames r = (deliver q 20 ;;; ret tt) r' /\ packet (mem r') q l /\ pool_cells l /\ content (dat (mem r')) l = pkt /\
    r' = with_ip (with_mem r (mem r')) ((handling (ipg r) src dest) <| next_rd := next_rd (ipg r) + 1 |>) /\
    (forall k, k ∉ l.*1 -> pbs (mem r') !! k = pbs (mem r) !! k /\ dat (mem r') !! k = dat (mem r) !! k) /\ pool_left (mem r') = pool_left (mem r) - Z.of_nat (length l).

Lemma cut_starts k mf ofo : forall data st, Forall (fun x => fst x mod 8 = st mod 8) (cut_at st (map snd (fragments k mf ofo data))).
Proof.
  revert ofo; induction k as [|k IH]; intros ofo data st; [constructor|]. destruct data as [|x data]; [constructor|]. cbn [fragments map cut_at snd]. constructor; [done|]. set (c := take _ _).
  destruct (decide (drop (Z.to_nat FRAG_DATA) (x :: data) = [])) as [->|Hd]; [destruct k; constructor|]. eapply Forall_impl; [apply IH|]. cbn. intros y ->.
  assert (Z.of_nat (length c) = 1368) as ->; [|zdm]. unfold c. rewrite length_take. change (Z.to_nat FRAG_DATA) with 1368%nat in *. destruct (le_lt_dec 1368 (length (x :: data))); [lia|]. exfalso. apply Hd. apply drop_ge. lia.
Qed.
Lemma cut_second st cs x : Forall (fun c => c <> []) cs -> (2 <= length cs)%nat -> x ∈ cut_at st cs -> fst x + Z.of_nat (length (snd x)) = st + Z.of_nat (length (concat cs)) -> fst x <> st.
Proof.
  intros Hc Hl Hx E. destruct cs as [|c [|c' cs]]; cbn [length] in Hl; [lia|lia|]. apply Forall_cons in Hc as [Hc0 Hc]. apply Forall_cons in Hc as [Hc1 _]. cbn [cut_at concat] in Hx, E. rewrite !length_app in E.
  destruct c as [|a c]; [done|]. destruct c' as [|a' c']; [done|]. cbn [length] in E. apply elem_of_cons in Hx as [->|Hx].
  - cbn [fst snd length] in E |- *. lia.
  - apply (cut_bounds _ ((a' :: c') :: cs)) in Hx as [Hx _]. cbn [length] in Hx. lia.
Qed.

Lemma receiver_run r hw mac tos id ttl proto src dest data order : let total := Z.of_nat (length data) in
  length hw = 6%nat -> length mac = 6%nat -> byte_ok tos -> byte_ok ttl -> byte_ok proto -> 0 <= src < 2 ^ 32 -> 0 <= dest < 2 ^ 32 -> 1368 < total < 65516 -> even_cut total ->
  takes r tos id ttl proto src dest (frag_count total) -> order ≡ₚ map (frame_for hw mac tos id ttl proto src dest) (fragments (length data) false 0 data) ->
  handed_over r src dest (ip_header [] tos (20 + total) id 0 ttl proto src dest ++ data) order.
Proof.
  intros total Hhw Hmac B1 B2 B3 Rs Rd Ht He [T1 T2 T3 T4 T5 T6] Hp. pose proof (fragments_frames hw mac tos id ttl proto src dest total (length data) data 0 ltac:(lia) ltac:(lia) ltac:(lia) ltac:(lia) He) as Ef.
  change (171 * 0) with 0 in Ef. change (1368 * 0) with 0 in Ef. fold (chunks data) in Ef. rewrite Ef in Hp. rewrite <- (map_map (in_of hw mac) (frame_of tos id ttl proto src dest total)) in Hp. set (cs := chunks data) in *.
  assert (Z.of_nat (length cs) = frag_count total) as Hlc by (unfold cs, chunks; rewrite length_map; apply length_fragments; lia).
  assert (concat cs = data) as Hcat by (apply concat_fragments; lia). assert (Forall (fun c => c <> []) cs) as Hne by apply chunks_nonempty.
  apply Permutation_map_inv in Hp as (xs & -> & Hp).
  assert (readable tos ttl proto src dest total r) as Hre by (split; try done; lia).
  assert (Forall (good_frame tos id ttl proto src dest total) xs) as Hgood.
  { rewrite <- Hp. apply Forall_map. apply Forall_forall. intros x Hx. pose proof (cut_bounds 0 cs x Hx) as [Hb1 Hb2]. rewrite Hcat in Hb2. fold total in Hb2.
    assert (Z.of_nat (length (snd x)) <= 1368) as Hcl.
    { pose proof (chunk_lengths (length data) false 0 data) as Hcl. fold (chunks data) in Hcl. fold cs in Hcl. clear -Hcl Hx. revert Hx. generalize 0. induction Hcl as [|c cs Hc0 Hc IH]; intros st; [by intros ?%not_elem_of_nil|]. cbn [cut_at]. intros [->|Hx]%elem_of_cons; [done|by eapply IH]. }
    split; unfold in_stop; cbn [in_of in_eth in_start in_data in_pad].
    - split; [by apply length_eth_header|]. unfold eth_header. rewrite !app_assoc, drop_app_length'; [done|]. rewrite !length_app, Hhw, Hmac, length_be_bytes. done.
    - unfold frame_of, frag_packet, hdr_of. cbn [in_of in_eth in_start in_data in_pad]. rewrite !length_app, length_ip_header, length_eth_header by done. change first_room with 1432. cbn [length]. lia.
    - split; [lia|]. pose proof (cut_starts (length data) false 0 data 0) as Hst. rewrite Forall_forall in Hst. by apply Hst.
    - split; [lia|]. by apply (cut_nonempty cs Hne 0).
    - intros E. apply (cut_second 0 cs x Hne); [|done|rewrite Hcat; lia]. unfold frag_count in Hlc. zdm. }
  destruct (reassembly_run etharp_in tos id ttl proto src dest total r cs xs Hre T1 Hne ltac:(by rewrite Hcat) Hgood) as (r' & q & l & E & [A1 A2 A3 A4 A5 A6 A7]).
  { rewrite <- Hp, map_map. cbn [in_of]. rewrite <- (map_id (cut_at 0 cs)) at 2. apply reflexive_eq. apply map_ext. by intros []. }
  { apply room_handling. by rewrite Hlc. }
  { lia. } { lia. }
  exists r', q, l. split; [exact E|]. split; [done|]. split; [done|]. split; [by rewrite A3, Hcat|]. split; [exact A4|]. split; [done|]. done.
Qed.
End Receiver.

(** ** The lengths for which the test is wrong *)

(** One to four bytes more than [m] whole fragments: the fragments are those of
    the datagram without these bytes, and one more. *)
Lemma fragments_early k : forall m data i j, (length data <= k)%nat -> Z.of_nat (length data) = 1368 * Z.of_nat (S m) + j -> 1 <= j <= 4 -> 0 <= i -> i + Z.of_nat (S m) < 48 ->
  fragments k false (171 * i) data = fragments k false (171 * i) (take (1368 * S m) data) ++ [(171 * (i + Z.of_nat (S m)), drop (1368 * S m) data)].
Proof.
  induction k as [|k IH]; intros m data i j Hk Hl Hj Hi Hb; [lia|]. assert (exists x data', data = x :: data') as (x & data' & Ed) by (destruct data as [|x data']; [cbn in Hl; lia|by exists x, data']).
  assert (exists x' data'', take (1368 * S m) data = x' :: data'') as (x' & data'' & Et) by (rewrite Ed; replace (1368 * S m)%nat with (S (1368 * m + 1367)) by lia; by eexists _, _).
  rewrite Et. rewrite Ed at 1. cbn [fragments]. rewrite <- Ed, <- Et. change (Z.to_nat FRAG_DATA) with 1368%nat. change nfb with 171. rewrite !u16_id by lia. replace (171 * i + 171) with (171 * (i + 1)) by lia.
  assert (length (take (1368 * S m) data) = (1368 * S m)%nat) as Hlt by (rewrite length_take; lia). rewrite Hlt. cbn [app].
  assert (frag_off false (Z.of_nat (length data)) (171 * i) = frag_off false (Z.of_nat (1368 * S m)) (171 * i)) as ->.
  { rewrite !frag_off_val by lia. f_equal. rewrite Nat2Z.inj_mul. change (Z.of_nat 1368) with 1368. destruct (Z.leb_spec (Z.of_nat (length data)) 1372), (Z.leb_spec (1368 * Z.of_nat (S m)) 1372); lia. }
  rewrite take_take, Nat.min_l by lia. f_equal. rewrite skipn_firstn_comm.
  destruct m as [|m].
  - replace (1368 * 1 - 1368)%nat with 0%nat by lia. replace (1368 * 1)%nat with 1368%nat by lia. cbn [take app]. assert (length (drop 1368 data) = Z.to_nat j) as Hld by (rewrite length_drop; lia). destruct k as [|k]; [lia|].
    destruct (drop 1368 data) as [|y rest] eqn:Er; [cbn in Hld; lia|]. cbn [fragments app]. change (Z.to_nat FRAG_DATA) with 1368%nat. rewrite take_ge, drop_ge by lia. rewrite frag_off_val by lia.
    rewrite (proj2 (Z.leb_le _ _)) by lia. rewrite Z.add_0_r. by destruct k.
  - rewrite (IH m (drop 1368 data) (i + 1) j); [|rewrite length_drop; lia|rewrite length_drop; lia|lia|lia|lia]. replace (1368 * S (S m) - 1368)%nat with (1368 * S m)%nat by lia. rewrite drop_drop.
    f_equal. f_equal. f_equal; [lia|f_equal; lia].
Qed.
