(* ===== verification/IpClaims.v ===== *)
(** What the IP layer promises: datagrams that leave, arrive, are cut and put
    together again, are answered, or are dropped. *)

From stdpp Require Import gmap sorting.
From S2P Require Import Prelude Cmonad Cutils Heap Pbuf PbufProofs PbufChain Inet InetProofs Ethernet Etharp EthernetProofs Link EtharpProofs ArpProofs NetProofs IpOutput Icmp Reass IpInput IpProofs FragProofs IcmpProofs IpInProofs ReassProofs ReassWhole ReassTrip IpTrip.

Section Claims.
Context `{PbufEnv} `{Addresses} {U V : Type} `{IpIn U} `{IpIn V} `{Transport V} (etharp_in : Z -> M (stack V) unit).

(** C7: a datagram of more than one frame, handed to ip4_output_if_opt_src, is cut into
    fragments, all sent to the neighbour; the receiving station, getting these frames
    in any order, hands exactly one datagram to the layer above when the last of them
    arrives: the original one, with a valid header of its full length.  Nothing else in
    the memory of the receiver has changed, and its reassembly structures are free
    again.  The length must not be one to four bytes above a multiple of 1368. *)
Theorem fragmentation_roundtrip (s : stack U) (r : stack V) p b l data src dest ttl tos proto mac : let total := Z.of_nat (length data) in let id := ip_id (ipg s) in
  sendable s p b l data -> neighbour s dest mac -> byte_ok tos -> byte_ok ttl -> byte_ok proto -> 0 <= src < 2 ^ 32 -> 0 <= dest < 2 ^ 32 -> 0 <= id < 65536 ->
  buffers s (Z.to_nat (frag_count total)) -> total < 65516 -> even_cut total -> takes r tos id ttl proto src dest (frag_count total) ->
  exists s' frames, ip4_output_if_opt_src p (Some src) (Some dest) ttl tos proto [] 0 s = Ok (ERR_OK, s') /\ sent s' = sent s ++ frames /\ Z.of_nat (length frames) = frag_count total /\
    forall order, order ≡ₚ frames -> handed_over etharp_in r src dest (ip_header [] tos (20 + total) id 0 ttl proto src dest ++ data) order.
Proof.
  intros total id Hse Hn B1 B2 B3 Rs Rd Rid Hbuf Hlt He Ht. destruct (large_datagram_run s p b l data src dest ttl tos proto mac Hse Hn B1 B2 B3 Rs Rd Rid Hbuf) as (s' & E & Es & _). fold id in Es.
  eexists s', _. split; [exact E|]. split; [exact Es|]. split; [rewrite length_map; apply length_fragments; lia|]. intros order Hp.
  pose proof (se_size _ _ _ _ _ Hse) as Hsz. change IF_MTU_SIZE with 1392 in Hsz. eapply receiver_run; try done; [apply (nb_hwaddr _ _ _ Hn)|apply (nb_mac _ _ _ Hn)|fold total; lia].
Qed.

(** C38: for a datagram of one to four bytes more than [m] whole fragments (two or more)
    the fragment before the last is not marked as having a successor: the receiver
    hands over a datagram without its last bytes, before the last frame arrives. *)
Theorem early_last_fragment (s : stack U) (r : stack V) p b l data src dest ttl tos proto mac m j : let total := 1368 * Z.of_nat m in let id := ip_id (ipg s) in
  sendable s p b l data -> Z.of_nat (length data) = total + j -> 1 <= j <= 4 -> (2 <= m < 47)%nat -> neighbour s dest mac -> byte_ok tos -> byte_ok ttl -> byte_ok proto ->
  0 <= src < 2 ^ 32 -> 0 <= dest < 2 ^ 32 -> 0 <= id < 65536 -> buffers s (S m) -> takes r tos id ttl proto src dest (Z.of_nat m) ->
  exists s' frames rest, ip4_output_if_opt_src p (Some src) (Some dest) ttl tos proto [] 0 s = Ok (ERR_OK, s') /\ sent s' = sent s ++ frames ++ [rest] /\
    forall order, order ≡ₚ frames -> handed_over etharp_in r src dest (ip_header [] tos (20 + total) id 0 ttl proto src dest ++ take (1368 * m) data) order.
Proof.
  intros total id Hse Hlen Hj Hm Hn B1 B2 B3 Rs Rd Rid Hbuf Ht. assert (frag_count (Z.of_nat (length data)) = Z.of_nat (S m)) as Hfc by (unfold frag_count; rewrite Hlen; unfold total; zdm).
  destruct (large_datagram_run s p b l data src dest ttl tos proto mac Hse Hn B1 B2 B3 Rs Rd Rid ltac:(by rewrite Hfc, Nat2Z.id)) as (s' & E & Es & _). fold id in Es.
  destruct m as [|m]; [lia|]. pose proof (fragments_early (length data) m data 0 j ltac:(lia) ltac:(lia) Hj ltac:(lia) ltac:(lia)) as Ef. change (171 * 0) with 0 in Ef. rewrite Ef, map_app in Es.
  assert (Z.of_nat (length (take (1368 * S m) data)) = total) as Hlt by (rewrite length_take; unfold total; lia).
  eexists s', _, _. split; [exact E|]. split; [exact Es|]. intros order Hp. rewrite <- Hlt.
  assert (fragments (length data) false 0 (take (1368 * S m) data) = fragments (length (take (1368 * S m) data)) false 0 (take (1368 * S m) data)) as Efu by (apply fragments_fuel; rewrite ?length_take; lia).
  rewrite Efu in Hp. eapply receiver_run; try done; [apply (nb_hwaddr _ _ _ Hn)|apply (nb_mac _ _ _ Hn)|rewrite Hlt; unfold total; lia|rewrite Hlt; unfold even_cut, total; zdm|].
  rewrite Hlt. unfold frag_count. replace ((total + 1367) / 1368) with (Z.of_nat (S m)) by (unfold total; zdm). done.
Qed.

(** C9: a datagram that fits one frame, with options or without, reaches the neighbour
    in one frame with a header that the receiver accepts; there it is handed to the
    layer above with the same header and data, the padding of the frame removed. *)
Theorem datagram_roundtrip (s : stack U) (r : stack V) p b opts src dest ttl tos proto mac pad :
  let hlen := 20 + Z.of_nat (length (padded opts)) in let data := cell_data (dat (mem s)) b in
  let pkt := ip_header (padded opts) tos (hlen + Z.of_nat (length data)) (ip_id (ipg s)) 0 ttl proto src dest ++ data in
  packet (mem s) p [(p, b)] -> contiguous_type b -> hlen + SIZEOF_ETH_HDR <= poff (pb_payload b) -> pb_len b + hlen <= IF_MTU_SIZE -> Z.of_nat (length pad) <= 16 ->
  bytes_ok opts -> (length opts <= 40)%nat -> byte_ok tos -> byte_ok ttl -> byte_ok proto -> 0 <= src < 2 ^ 32 -> 0 <= dest < 2 ^ 32 -> 0 <= ip_id (ipg s) < 65536 -> neighbour s dest mac ->
  store_ok (mem r) -> 0 < pool_left (mem r) -> acceptable (nif r) src dest -> Z.land (nf_flags (nif r)) NETIF_FLAG_ETHARP <> 0 ->
  exists s' frame, ip4_output_if_opt_src p (Some src) (Some dest) ttl tos proto opts (Z.of_nat (length opts)) s = Ok (ERR_OK, s') /\ sent s' = sent s ++ [frame] /\
    exists q c m, receive_frame ip4_input etharp_in (frame ++ pad) r = (deliver q hlen ;;; ret tt) (with_ip (with_mem r m) (handling (ipg r) src dest)) /\ packet m q [(q, c)] /\ cell_data (dat m) c = pkt.
Proof.
  intros hlen data pkt Hp Hct Ho Hm Hpad Bo Hlo B1 B2 B3 Rs Rd Rid Hn Hs Hpool Hacc Hea. destruct (packet_head _ _ _ _ _ Hp) as (_ & _ & _ & Hc & _ & Hlb & _). pose proof (length_cell _ _ Hc) as Hl. fold data in Hl.
  destruct (send_datagram_run s p b opts src dest ttl tos proto mac Hn Hp Hct Ho Hm Bo Hlo B1 B2 B3 Rs Rd Rid) as (d & E & _). fold hlen in E. replace (pb_len b + hlen) with (hlen + Z.of_nat (length data)) in E by lia. fold data in E. fold pkt in E.
  eexists _, _. split; [exact E|]. split; [done|]. assert (length (padded opts) <= 40)%nat as Hlp by (pose proof (length_padded opts) as Hal; zdm).
  assert (Z.of_nat (length (padded opts)) mod 4 = 0) as Hmo by (rewrite length_padded; zdm). unfold ip_frame. rewrite <- app_assoc. set (eth := eth_header _ _ _ _).
  assert (length pkt = Z.to_nat (hlen + Z.of_nat (length data))) as Hlk by (unfold pkt; rewrite length_app, length_ip_header; unfold hlen; lia). change IF_MTU_SIZE with 1392 in Hm.
  assert (length eth = 24%nat) as Hle by (apply length_eth_header; [apply (nb_hwaddr _ _ _ Hn)|apply (nb_mac _ _ _ Hn)]).
  destruct (receive_one_run etharp_in r eth (pkt ++ pad)) as (c & m & Er & Hpc & Hcont & _ & _ & _ & _ & Hrel & _); try done.
  { unfold eth, eth_header. rewrite !app_assoc, drop_app_length'; [done|]. rewrite !length_app, (nb_hwaddr _ _ _ Hn), (nb_mac _ _ _ Hn), length_be_bytes. done. }
  { rewrite !length_app, Hle, Hlk. change first_room with 1432. lia. }
  set (q := next_blk (mem r)) in *. destruct (ip4_input_good_run (with_mem r m) q c (padded opts) tos (ip_id (ipg s)) 0 ttl proto src dest data pad Hpc Hrel Hcont Hlp Hmo (padded_ok _ Bo) B1 B2 B3 ltac:(lia) eq_refl Rs Rd Hacc) as (Ei & Hp2 & Hd2).
  eexists q, _, _. split; [|split; [exact Hp2|exact Hd2]]. rewrite Er. unfold bind at 1. rewrite Ei. change (mem (with_mem r m)) with m. by rewrite with_mem_mem.
Qed.

(** C8: an echo request for this station, with any options and any data that fits one
    frame, is answered by one frame to its sender: source and destination exchanged,
    type echo reply, the checksum adjusted incrementally and valid, identifier,
    sequence number and data unchanged.  All memory is released. *)
Theorem ping_answered (r : stack V) eth opts tos id off ttl src dest code c rest pad mac :
  let hlen := 20 + Z.of_nat (length opts) in let icmp := echo_msg ICMP_ECHO code c rest in let len := hlen + Z.of_nat (length icmp) in
  let frame := eth ++ (ip_header opts tos len id off ttl IP_PROTO_ICMP src dest ++ icmp) ++ pad in
  no_raw (U := V) -> store_ok (mem r) -> 0 < pool_left (mem r) -> length eth = 24%nat -> drop 22 eth = be_bytes 2 ETHTYPE_IP -> Z.of_nat (length frame) <= first_room ->
  Z.land (nf_flags (nif r)) NETIF_FLAG_ETHARP <> 0 -> 0 <= nf_ip (nif r) < 2 ^ 32 -> acceptable (nif r) src dest -> neighbour r src mac ->
  (length opts <= 40)%nat -> Z.of_nat (length opts) mod 4 = 0 -> bytes_ok opts -> byte_ok tos -> byte_ok ttl -> byte_ok code -> bytes_ok rest -> 0 <= c < 65536 ->
  0 <= off < 65536 -> Z.land (le_val (be_bytes 2 off)) (PP_HTONS (Z.lor IP_OFFMASK IP_MF)) = 0 -> 0 <= src < 2 ^ 32 -> 0 <= dest < 2 ^ 32 -> len <= IF_MTU_SIZE ->
  checked_msg icmp -> 4 <= Z.of_nat (length rest) ->
  exists r' c', receive_frame ip4_input etharp_in frame r = Ok (tt, r') /\ checked_msg (echo_msg ICMP_ER code c' rest) /\
    sent r' = sent r ++ [ip_frame r mac (ip_header opts tos len id off ICMP_TTL IP_PROTO_ICMP (reply_source (nif r) dest) src ++ echo_msg ICMP_ER code c' rest)] /\
    arp_table r' = arp_table r /\ nif r' = nif r /\ upper r' = ip_put (idle (ipg r)) (upper r) /\ pbs (mem r') = pbs (mem r) /\ dat (mem r') = dat (mem r) /\ pool_left (mem r') = pool_left (mem r).
Proof.
  intros hlen icmp len frame Hraw Hs Hpool He Hty Hfl Hea Rn Hacc Hn Hlo Hmo Bo Bt Bl Bc Br Rc Ro Hoff Rs Rd Hmt Hm Hlr.
  destruct (ping_run etharp_in r eth opts tos id off ttl src dest code c rest pad mac Hraw Hs Hpool He Hty Hfl Hea Rn Hacc Hn Hlo Hmo Bo Bt Bl Bc Br Rc Ro Hoff Rs Rd Hmt Hm Hlr) as (r' & E & Hrest).
  exists r', (adjust_chksum c). split; [exact E|]. split; [|exact Hrest]. by apply echo_reply_checked.
Qed.

(** C37: a frame whose IP header is not of version 4, shorter than 20 bytes or than the
    header says, longer than the frame, or wrong in its checksum, is dropped: nothing
    is sent, no state changes, and its buffer is returned. *)
Theorem bad_header_dropped (r : stack V) eth pkt : store_ok (mem r) -> 0 < pool_left (mem r) -> length eth = 24%nat -> drop 22 eth = be_bytes 2 ETHTYPE_IP ->
  Z.of_nat (length (eth ++ pkt)) <= first_room -> Z.land (nf_flags (nif r)) NETIF_FLAG_ETHARP <> 0 -> bytes_ok pkt -> (4 <= length pkt)%nat -> header_valid pkt = false ->
  exists m, receive_frame ip4_input etharp_in (eth ++ pkt) r = Ok (tt, with_mem r m) /\ pbs m = pbs (mem r) /\ dat m = dat (mem r) /\ pool_left m = pool_left (mem r).
Proof. apply bad_frame_run. Qed.
End Claims.

(** ** Witnesses: 192.168.1.2 sends to its neighbour 192.168.1.3 *)

Definition even_addresses : Addresses := fun _ => false.
(** Above IP nobody listens: what arrives is released. *)
Definition nobody : Transport ip_globals :=
  let drop p := (onmem (pbuf_free p) ;;; ret tt) in
  {| raw_input := fun _ => ret RAW_INPUT_NONE; udp_input := drop; tcp_input := drop; igmp_input := fun p _ => drop p; igmp_lookfor_group := fun _ => ret false |}.

Definition globals0 : ip_globals := mk_ip 17 0 0 false false null_ptr 0 NULL ∅ 32 1 0.
Definition ip_a : Z := 0x0201A8C0.
Definition ip_b : Z := 0x0301A8C0.
Definition net_of (mac : bytes) (ip : Z) : netif_t := mk_netif mac ip 0x00FFFFFF 0x0101A8C0 0x0F 0 None.
Definition big_cell (n : Z) : pbuf := ram_cell 1 PBUF_TRANSPORT n.
(** A packet of [n] bytes to send, the neighbour known. *)
Definition sender (n : Z) : stack ip_globals :=
  mk_stack (mk_lmem (<[1 := big_cell n]> ∅) (<[1 := repeat 7 (Z.to_nat (PBUF_TRANSPORT + n))]> ∅) 512 1024 2 false 0 0)
    (resolved ip_b mac_b :: repeat empty_entry 9) (net_of mac_a ip_a) [] globals0.
(** An idle station. *)
Definition receiver : stack ip_globals :=
  mk_stack (mk_lmem ∅ ∅ 512 1024 1 false 0 0) (resolved ip_a mac_a :: repeat empty_entry 9) (net_of mac_b ip_b) [] globals0.

Lemma sender_packet n : 0 < n < 60000 -> packet (mem (sender n)) 1 [(1, big_cell n)].
Proof.
  intros Hn. split; [|constructor; [|constructor]| |].
  - split; [done|]. split; [done|]. split; [apply lookup_insert_eq|done].
  - split; [cbn; lia|]. eexists. split; [apply lookup_insert_eq|]. cbn [snd big_cell ram_cell pb_payload poff pb_len]. change PBUF_TRANSPORT with 104. rewrite repeat_length. lia.
  - split; [cbn; lia|done].
  - cbn. lia.
Qed.
Lemma one_block_ok b d n1 n2 : store_ok (mk_lmem (<[1 := b]> ∅) (<[1 := d]> ∅) 512 n1 2 false 0 n2).
Proof. split; [done| | |done]; intros k Hk; cbn in Hk |- *; rewrite lookup_insert_ne by lia; done. Qed.
Lemma sender_neighbour n : neighbour (sender n) ip_b mac_b.
Proof. split; [by vm_compute|done|done|done|]. exists ip_b, 0, (resolved ip_b mac_b). by vm_compute. Qed.
Lemma sender_sendable n : 1372 < n < 60000 -> sendable (sender n) 1 (big_cell n) [] (repeat 7 (Z.to_nat n)).
Proof.
  intros Hn. split; [apply one_block_ok|apply sender_packet; lia|by apply not_elem_of_nil| |by vm_compute|rewrite repeat_length; change IF_MTU_SIZE with 1392; lia].
  rewrite content_cons. cbn [content map concat snd]. rewrite app_nil_r. unfold cell_data. cbn [big_cell ram_cell pb_payload pblk poff pb_len]. change (dat (mem (sender n)) !! 1) with (Some (repeat 7 (Z.to_nat (PBUF_TRANSPORT + n)))).
  change PBUF_TRANSPORT with 104. rewrite Z2Nat.inj_add, repeat_app by lia. rewrite drop_app_length' by (by rewrite repeat_length). apply take_ge. rewrite repeat_length. lia.
Qed.
Lemma receiver_store : store_ok (mem receiver).
Proof. split; done. Qed.
Lemma receiver_accepts : acceptable (nif receiver) ip_a ip_b.
Proof. split; by vm_compute. Qed.
Lemma receiver_takes n : 0 <= n <= 64 -> takes receiver 0 17 255 17 ip_a ip_b n.
Proof.
  intros Hn. split; [exact receiver_store|exact receiver_accepts|by vm_compute| |cbn; lia|cbn; lia]. split; [done|done|done|cbn; unfold IP_REASS_MAX_PBUFS; lia|]. exists []. split; [done|constructor].
Qed.

(** 3000 bytes in three fragments. *)
Lemma fragmentation_roundtrip_witness : let He := plenty in let Ha := even_addresses in let Ht := nobody in
  exists s' frames, ip4_output_if_opt_src 1 (Some ip_a) (Some ip_b) 255 0 17 [] 0 (sender 3000) = Ok (ERR_OK, s') /\ sent s' = frames /\ Z.of_nat (length frames) = 3 /\
    forall order, order ≡ₚ frames -> handed_over (fun _ => ret tt) receiver ip_a ip_b (ip_header [] 0 3020 17 0 255 17 ip_a ip_b ++ repeat 7 3000) order.
Proof.
  exact (fragmentation_roundtrip (H := plenty) (H0 := even_addresses) (H3 := nobody) (fun _ => ret tt) (sender 3000) receiver 1 (big_cell 3000) [] (repeat 7 3000) ip_a ip_b 255 0 17 mac_b
    (sender_sendable 3000 ltac:(lia)) (sender_neighbour 3000) ltac:(done) ltac:(done) ltac:(done) ltac:(done) ltac:(done) ltac:(done) (fun _ _ => eq_refl) ltac:(by vm_compute) ltac:(by vm_compute; intros []) (receiver_takes 3 ltac:(lia))).
Defined.

(** 2738 bytes: two fragments and two bytes more. *)
Lemma early_last_fragment_witness : let He := plenty in let Ha := even_addresses in let Ht := nobody in
  exists s' frames rest, ip4_output_if_opt_src 1 (Some ip_a) (Some ip_b) 255 0 17 [] 0 (sender 2738) = Ok (ERR_OK, s') /\ sent s' = frames ++ [rest] /\
    forall order, order ≡ₚ frames -> handed_over (fun _ => ret tt) receiver ip_a ip_b (ip_header [] 0 2756 17 0 255 17 ip_a ip_b ++ repeat 7 2736) order.
Proof.
  exact (early_last_fragment (H := plenty) (H0 := even_addresses) (H3 := nobody) (fun _ => ret tt) (sender 2738) receiver 1 (big_cell 2738) [] (repeat 7 2738) ip_a ip_b 255 0 17 mac_b 2 2
    (sender_sendable 2738 ltac:(lia)) eq_refl ltac:(lia) ltac:(lia) (sender_neighbour 2738) ltac:(done) ltac:(done) ltac:(done) ltac:(done) ltac:(done) ltac:(done) (fun _ _ => eq_refl) (receiver_takes 2 ltac:(lia))).
Defined.

(** 100 bytes with a router alert, and two bytes of padding behind the frame. *)
Lemma datagram_roundtrip_witness : let He := plenty in let Ha := even_addresses in let Ht := nobody in
  let pkt := ip_header [0x94; 4; 0; 0] 0 124 17 0 255 17 ip_a ip_b ++ repeat 7 100 in
  exists s' frame, ip4_output_if_opt_src 1 (Some ip_a) (Some ip_b) 255 0 17 [0x94; 4; 0; 0] 4 (sender 100) = Ok (ERR_OK, s') /\ sent s' = [frame] /\
    exists q c m, receive_frame ip4_input (fun _ => ret tt) (frame ++ [0; 0]) receiver = (deliver q 24 ;;; ret tt) (with_ip (with_mem receiver m) (handling globals0 ip_a ip_b)) /\ packet m q [(q, c)] /\ cell_data (dat m) c = pkt.
Proof.
  exact (datagram_roundtrip (H := plenty) (H0 := even_addresses) (H3 := nobody) (fun _ => ret tt) (sender 100) receiver 1 (big_cell 100) [0x94; 4; 0; 0] ip_a ip_b 255 0 17 mac_b [0; 0]
    (sender_packet 100 ltac:(lia)) ltac:(by vm_compute) ltac:(by vm_compute) ltac:(by vm_compute) ltac:(by vm_compute) ltac:(repeat constructor; by vm_compute) ltac:(by vm_compute; lia) ltac:(done) ltac:(done) ltac:(done)
    ltac:(done) ltac:(done) ltac:(done) (sender_neighbour 100) receiver_store ltac:(by vm_compute) receiver_accepts ltac:(by vm_compute)).
Defined.

Definition ping_data : bytes := [0; 1; 0; 9] ++ repeat 0x61 32.
Definition ping_frame : bytes := eth_header mac_a mac_b 70 ETHTYPE_IP ++ (ip_header [] 0 60 5 0 64 IP_PROTO_ICMP ip_a ip_b ++ echo_msg ICMP_ECHO 0 0xDFE1 ping_data) ++ [].
Lemma ping_answered_witness : let He := plenty in let Ha := even_addresses in let Ht := nobody in
  exists r' c', receive_frame ip4_input (fun _ => ret tt) ping_frame receiver = Ok (tt, r') /\ checked_msg (echo_msg ICMP_ER 0 c' ping_data) /\
    sent r' = [ip_frame receiver mac_a (ip_header [] 0 60 5 0 ICMP_TTL IP_PROTO_ICMP ip_b ip_a ++ echo_msg ICMP_ER 0 c' ping_data)] /\
    arp_table r' = arp_table receiver /\ nif r' = nif receiver /\ upper r' = idle globals0 /\ pbs (mem r') = ∅ /\ dat (mem r') = ∅ /\ pool_left (mem r') = 512.
Proof.
  assert (neighbour receiver ip_a mac_a) as Hn by (split; [by vm_compute|done|done|done|]; exists ip_a, 0, (resolved ip_a mac_a); by vm_compute).
  exact (ping_answered (H := plenty) (H0 := even_addresses) (H3 := nobody) (fun _ => ret tt) receiver (eth_header mac_a mac_b 70 ETHTYPE_IP) [] 0 5 0 64 ip_a ip_b 0 0xDFE1 ping_data [] mac_a
    (fun _ _ => eq_refl) receiver_store ltac:(by vm_compute) eq_refl eq_refl ltac:(by vm_compute) ltac:(by vm_compute) ltac:(by vm_compute) receiver_accepts Hn ltac:(by vm_compute; lia) eq_refl ltac:(constructor)
    ltac:(done) ltac:(done) ltac:(done) ltac:(repeat constructor; by vm_compute) ltac:(done) ltac:(done) eq_refl ltac:(done) ltac:(done) ltac:(by vm_compute) ltac:(by vm_compute) ltac:(by vm_compute)).
Defined.
Lemma bad_header_dropped_witness : let He := plenty in let Ha := even_addresses in let Ht := nobody in
  exists m, receive_frame ip4_input (fun _ => ret tt) (eth_header mac_a mac_b 38 ETHTYPE_IP ++ repeat 0x45 28) receiver = Ok (tt, with_mem receiver m) /\ pbs m = ∅ /\ dat m = ∅ /\ pool_left m = 512.
Proof.
  exact (bad_header_dropped (H := plenty) (H0 := even_addresses) (H2 := ip_alone) (H3 := nobody) (fun _ => ret tt) receiver (eth_header mac_a mac_b 38 ETHTYPE_IP) (repeat 0x45 28) receiver_store ltac:(by vm_compute) eq_refl eq_refl
    ltac:(by vm_compute) ltac:(by vm_compute) ltac:(repeat constructor; by vm_compute) ltac:(by vm_compute; lia) ltac:(by vm_compute)).
Defined.
