(* ===== verification/IcmpErrors.v ===== *)
(** The error messages of ICMP: a report about a packet goes back to its sender
    with the first 28 bytes of the packet and a valid checksum. *)

From stdpp Require Import gmap.
From S2P Require Import Prelude Cmonad Cutils Heap Pbuf PbufProofs PbufChain Inet InetProofs Ethernet Etharp EthernetProofs EtharpProofs ArpProofs IpOutput Icmp IpProofs FragProofs IcmpProofs.

(** ** The message *)

(** RFC 792: type, code, checksum, an unused word, the packet reported. *)
Definition icmp_fields (type code : Z) (chk quoted : bytes) : bytes := [type; code] ++ chk ++ [0; 0; 0; 0] ++ quoted.
Definition icmp_error (type code : Z) (quoted : bytes) : bytes :=
  icmp_fields type code (be_bytes 2 (rfc1071_checksum (icmp_fields type code [0; 0] quoted))) quoted.

Lemma icmp_fields_ok type code chk quoted : byte_ok type -> byte_ok code -> bytes_ok chk -> bytes_ok quoted -> bytes_ok (icmp_fields type code chk quoted).
Proof. intros. unfold icmp_fields. repeat first [apply Forall_app_2|apply Forall_cons_2|apply Forall_nil_2]; try done; unfold byte_ok; lia. Qed.
Lemma icmp_error_checked type code quoted : byte_ok type -> byte_ok code -> bytes_ok quoted -> checked_msg (icmp_error type code quoted).
Proof.
  intros Ht Hc Hq. assert (bytes_ok (icmp_fields type code [0; 0] quoted)) as Hok by (apply icmp_fields_ok; try done; repeat constructor; unfold byte_ok; lia).
  unfold checked_msg, icmp_error. rewrite <- checksum_bytes by done. unfold icmp_fields. apply (checksum_zero [type; code] ([0; 0; 0; 0] ++ quoted)); [|apply Forall_app_2; [repeat constructor; unfold byte_ok; lia|done]|by exists 1%nat|done].
  repeat first [apply Forall_cons_2|apply Forall_nil_2]; done.
Qed.

Section Errors.
Context `{PbufEnv} `{Addresses} {U : Type} `{IpIn U}.
Implicit Types s : stack U.

(** Copying between two packets of one cell each, to the end of the first. *)
Lemma copy_one_run (m : lmem) q c p b off n : packet m q [(q, c)] -> packet m p [(p, b)] -> 0 < n -> 0 <= off -> off + n = pb_len c -> n <= pb_len b ->
  exists d, pbuf_copy_partial_pbuf q p n off m = Ok (ERR_OK, m <| dat := d |>) /\ frame_dat [pblk (pb_payload c)] (dat m) d /\
    cell_data d c = blit (Z.to_nat off) (take (Z.to_nat n) (cell_data (dat m) b)) (cell_data (dat m) c).
Proof.
  intros Hq Hp Hn Ho Hc Hb. destruct (packet_head _ _ _ _ _ Hq) as (_ & Hq0 & Hqc & Hcc & Hct & Hcl & _). destruct (packet_head _ _ _ _ _ Hp) as (_ & Hp0 & Hpb & Hbc & Hbt & Hbl & _). cbn [sum_len] in Hct, Hbt.
  destruct (pk_chain _ _ _ Hq) as (_ & _ & _ & Hqn). destruct (pk_chain _ _ _ Hp) as (_ & _ & _ & Hpn). cbn in Hqn, Hpn.
  destruct (pmove_run m c b off 0 n Hcc Hbc ltac:(lia) ltac:(lia) ltac:(lia) ltac:(lia) ltac:(lia)) as (d & E & F & C). exists d. split; [|split; [done|by rewrite drop_0 in C]].
  unfold pbuf_copy_partial_pbuf. rewrite (proj2 (Z.eqb_neq _ _) Hp0), (getp_run _ _ _ _ Hp0 Hpb), (proj2 (Z.ltb_ge _ _)) by lia. rewrite (proj2 (Z.eqb_neq _ _) Hq0), (getp_run _ _ _ _ Hq0 Hqc), (proj2 (Z.ltb_ge _ _)) by lia.
  rewrite chain_fuel_run. cbn [Nat.mul Nat.add copy_loop]. rewrite (getp_run _ _ _ _ Hq0 Hqc), (getp_run _ _ _ _ Hp0 Hpb). rewrite !u32_id by lia.
  replace (Z.min n (if pb_len b - 0 <=? pb_len c - off then pb_len b - 0 else pb_len c - off)) with n by (destruct (_ <=? _) eqn:El; lia). rewrite (bind_run _ _ _ _ _ E). rewrite !u32_id by lia.
  replace (u16 (n - n)) with 0 by (rewrite Z.sub_diag; done). rewrite Hc, (Z.eqb_refl (pb_len c)). change (0 + n) with n. rewrite Hqn. change (NULL =? NULL) with true.
  destruct (pb_len b <=? n) eqn:El; cbn [negb andb Z.eqb]; rewrite ?andb_false_r.
  - rewrite Hpn. done.
  - rewrite (proj2 (Z.eqb_neq _ _) Hp0). rewrite bind_assoc. assert (getp p (m <| dat := d |>) = Ok (b, m <| dat := d |>)) as Eg by (unfold getp; rewrite (proj2 (Z.eqb_neq _ _) Hp0); change (pbs (m <| dat := d |>)) with (pbs m); by rewrite Hpb).
    rewrite (bind_run _ _ _ _ _ Eg), Hpn. change (NULL =? NULL) with true. cbn [negb]. rewrite andb_false_r. done.
Qed.

(** The interface can send to the address. *)
Definition routed (n : netif_t) (a : Z) : Prop :=
  netif_is_up n = true /\ netif_is_link_up n = true /\ ip4_addr_isany_val (nf_ip n) = false /\ ip4_addr_isloopback a = false.
Lemma ip4_route_run s a : routed (nif s) a -> ip4_route a s = Ok (true, s).
Proof. intros (R1 & R2 & R3 & R4). unfold ip4_route. by rewrite (bind_run _ _ _ _ _ (eq_refl : gets nif s = Ok (nif s, s))), R1, R2, R3, R4. Qed.

(** The report written into the new buffer [c]; [k] sends it. *)
Lemma response_fill_run {A} s p b q c type code src quoted (k : M (stack U) A) : packet (mem s) q [(q, c)] -> packet (mem s) p [(p, b)] -> pblk (pb_payload c) <> pblk (pb_payload b) -> pb_len c = 36 -> 28 <= pb_len b ->
  take 28 (cell_data (dat (mem s)) b) = quoted -> bytes_ok quoted -> byte_ok type -> byte_ok code -> le_val (take 4 (drop 12 (cell_data (dat (mem s)) b))) = src -> routed (nif s) src ->
  exists d, (wr (pb_payload c) ICMPH_TYPE [type] ;;; wr (pb_payload c) ICMPH_CODE [code] ;;; wr (pb_payload c) ICMPH_DATA (le_bytes 4 0) ;;; onmem (pbuf_copy_partial_pbuf q p 28 SIZEOF_ICMP_HDR) ;;;
     let* iphdr_src := rd (pb_payload b) IPH_SRC 4 in let* r := ip4_route iphdr_src in
     (if (r : bool) then wr (pb_payload c) ICMPH_CHKSUM (le_bytes 2 0) ;;; let* x := chksum_at (pb_payload c) (pb_len c) in wr (pb_payload c) ICMPH_CHKSUM (le_bytes 2 x) ;;;
        ip4_output_if q None (Some iphdr_src) ICMP_TTL 0 IP_PROTO_ICMP ;;; ret tt else ret tt) ;;; k) s =
    (ip4_output_if q None (Some src) ICMP_TTL 0 IP_PROTO_ICMP ;;; k) (with_mem s (with_dat (mem s) d)) /\
    frame_dat [pblk (pb_payload c)] (dat (mem s)) d /\ cell_data d c = icmp_error type code quoted.
Proof.
  intros Hq Hp Hne Hlc Hlb Hquo Bq Bt Bc Hsrc Hrt. destruct (packet_head _ _ _ _ _ Hq) as (_ & _ & _ & Hcc & _). destruct (packet_head _ _ _ _ _ Hp) as (_ & _ & _ & Hbc & _).
  pose proof (length_cell _ _ Hcc) as Hl. pose proof (length_cell _ _ Hbc) as Hl'. assert (length quoted = 28%nat) as Hlq by (rewrite <- Hquo, length_take; lia).
  set (k2 := let* x := chksum_at (pb_payload c) (pb_len c) in wr (pb_payload c) ICMPH_CHKSUM (le_bytes 2 x) ;;; ip4_output_if q None (Some src) ICMP_TTL 0 IP_PROTO_ICMP ;;; k).
  set (k1 := onmem (pbuf_copy_partial_pbuf q p 28 SIZEOF_ICMP_HDR) ;;; let* iphdr_src := rd (pb_payload b) IPH_SRC 4 in let* r := ip4_route iphdr_src in
     (if (r : bool) then wr (pb_payload c) ICMPH_CHKSUM (le_bytes 2 0) ;;; let* x := chksum_at (pb_payload c) (pb_len c) in wr (pb_payload c) ICMPH_CHKSUM (le_bytes 2 x) ;;;
        ip4_output_if q None (Some iphdr_src) ICMP_TTL 0 IP_PROTO_ICMP ;;; ret tt else ret tt) ;;; k).
  destruct (put_all_run c [(ICMPH_TYPE, [type]); (ICMPH_CODE, [code]); (ICMPH_DATA, le_bytes 4 0)] k1 s Hcc) as (d1 & E1 & F1 & C1).
  { unfold fits. rewrite Hlc. done. }
  set (s1 := with_mem s (with_dat (mem s) d1)) in *. pose proof (frame_packet _ (mem s) d1 _ _ F1 Hq) as Hq1. pose proof (frame_packet _ (mem s) d1 _ _ F1 Hp) as Hp1.
  assert (cell_data d1 b = cell_data (dat (mem s)) b) as Hb1 by (apply (frame_cell_data _ _ _ _ F1); intros E%list_elem_of_singleton; congruence).
  destruct (copy_one_run (mem s1) q c p b 8 28 Hq1 Hp1 ltac:(lia) ltac:(lia) ltac:(lia) ltac:(lia)) as (d2 & E2 & F2 & C2). change (dat (mem s1)) with d1 in F2, C2. rewrite Hb1 in C2. change (Z.to_nat 28) with 28%nat in C2. rewrite Hquo in C2.
  set (s2 := with_mem s1 (with_dat (mem s1) d2)) in *. assert (cell_ok d2 c) as Hc2 by (eapply frame_cell_ok; [exact F2|]; by eapply frame_cell_ok). assert (cell_ok d2 b) as Hbc2 by (eapply frame_cell_ok; [exact F2|]; by eapply frame_cell_ok).
  assert (cell_data d2 b = cell_data (dat (mem s)) b) as Hb2 by (rewrite (frame_cell_data _ _ _ _ F2); [done|intros E%list_elem_of_singleton; congruence]).
  destruct (wr_run s2 c ICMPH_CHKSUM (le_bytes 2 0) k2 Hc2 ltac:(done) ltac:(rewrite length_le_bytes; unfold ICMPH_CHKSUM; lia)) as (d3 & E3 & F3 & C3). set (s3 := with_mem s2 (with_dat (mem s2) d3)) in *.
  assert (cell_ok d3 c) as Hc3 by (by eapply frame_cell_ok). change (dat (mem s2)) with d2 in F3, C3.
  assert (cell_data d3 c = icmp_fields type code [0; 0] quoted) as Hd3.
  { rewrite C3, C2, C1. assert (length (cell_data (dat (mem s)) c) = 36%nat) as HL by lia. revert HL. generalize (cell_data (dat (mem s)) c). intros x Hx. do 8 (destruct x as [|? x]; [done|]). cbn in Hx. unfold blits, icmp_fields. cbn [fold_left fst snd].
    change (Z.to_nat ICMPH_TYPE) with 0%nat. change (Z.to_nat ICMPH_CODE) with 1%nat. change (Z.to_nat ICMPH_DATA) with 4%nat. change (Z.to_nat ICMPH_CHKSUM) with 2%nat. change (Z.to_nat 8) with 8%nat.
    unfold blit. change (le_bytes 2 0) with [0; 0]. change (le_bytes 4 0) with [0; 0; 0; 0]. cbn [take drop app length Nat.add]. rewrite Hlq. cbn [take drop app length Nat.add]. rewrite drop_0, (drop_ge x 28) by lia. by rewrite app_nil_r. }
  assert (bytes_ok (icmp_fields type code [0; 0] quoted)) as Hok by (apply icmp_fields_ok; try done; repeat constructor; unfold byte_ok; lia).
  assert (length (icmp_fields type code [0; 0] quoted) = 36%nat) as Hl36 by (unfold icmp_fields; rewrite !length_app, Hlq; done).
  set (x := not16 (norm (le_val (icmp_fields type code [0; 0] quoted)))).
  destruct (wr_run s3 c ICMPH_CHKSUM (le_bytes 2 x) (ip4_output_if q None (Some src) ICMP_TTL 0 IP_PROTO_ICMP ;;; k) Hc3 ltac:(done) ltac:(rewrite length_le_bytes; unfold ICMPH_CHKSUM; lia)) as (d4 & E4 & F4 & C4).
  exists d4. change (dat (mem s3)) with d3 in F4, C4. split; [|split].
  - etransitivity; [exact E1|]. unfold k1. change SIZEOF_ICMP_HDR with 8. rewrite (onmem_run s1 _ _ _ _ E2). change (with_mem s1 ((mem s1) <| dat := d2 |>)) with s2. rewrite (rd_run s2 b IPH_SRC 4) by (done || (unfold IPH_SRC; lia)).
    change (dat (mem s2)) with d2. rewrite Hb2. change (Z.to_nat 4) with 4%nat. change (Z.to_nat IPH_SRC) with 12%nat. rewrite Hsrc, (bind_run _ _ _ _ _ (ip4_route_run s2 src Hrt)). cbv iota.
    etransitivity; [|etransitivity; [exact E3|]]. { unfold k2. rewrite bind_assoc. unfold bind. destruct (wr _ _ _ s2) as [[[] ?]| |]; [|done|done]. destruct (chksum_at _ _ _) as [[? ?]| |]; [|done|done]. destruct (wr _ _ _ _) as [[[] ?]| |]; [|done|done].
      destruct (ip4_output_if _ _ _ _ _ _ _) as [[? ?]| |]; done. }
    unfold k2. rewrite Hlc. rewrite (chksum_at_run s3 c 36 (icmp_fields type code [0; 0] quoted) []); [|done|by rewrite app_nil_r|by rewrite Hl36|lia|done]. exact E4.
  - eauto using frame_trans.
  - rewrite C4, Hd3. unfold x. rewrite checksum_bytes by done. unfold icmp_error, icmp_fields. change (Z.to_nat ICMPH_CHKSUM) with 2%nat. apply (blit_at [type; code] [0; 0]); [done|by rewrite length_be_bytes].
Qed.

(** A packet of one cell is reported: one frame leaves, the buffer is released. *)
Lemma icmp_response_run s p b type code src mac : let quoted := take 28 (cell_data (dat (mem s)) b) in
  store_ok (mem s) -> packet (mem s) p [(p, b)] -> 28 <= pb_len b -> mem_gives (mallocs (mem s)) = true -> bytes_ok quoted -> byte_ok type -> byte_ok code ->
  le_val (take 4 (drop 12 (cell_data (dat (mem s)) b))) = src -> routed (nif s) src -> neighbour s src mac -> 0 <= src < 2 ^ 32 -> 0 <= nf_ip (nif s) < 2 ^ 32 -> 0 <= ip_id (ipg s) < 65536 ->
  icmp_send_response p type code s = Ok (tt, with_ip (send s (bumped (mem s))
    (ip_frame s mac (ip_header [] 0 56 (ip_id (ipg s)) 0 ICMP_TTL IP_PROTO_ICMP (nf_ip (nif s)) src ++ icmp_error type code quoted))) (next_id (ipg s))).
Proof.
  intros quoted Hs Hp Hl Hg Bq Bt Bc Hsrc Hrt Hn Rs Rn Rid. set (m := mem s) in *. destruct (packet_head _ _ _ _ _ Hp) as (_ & Hp0 & Hb & Hc & Htl & Hlb & _). cbn [sum_len] in Htl. assert (PBUF_IP ∈ layers) as Hly by (unfold layers; set_solver).
  unfold icmp_send_response. rewrite (onmem_getp _ _ _ _ Hp0 Hb). change (IP_HLEN + ICMP_DEST_UNREACH_DATASIZE) with 28. rewrite (proj2 (Z.ltb_ge _ _)) by lia. change (SIZEOF_ICMP_HDR + 28) with 36.
  pose proof (pbuf_alloc_ram_run m PBUF_IP 36 Hs Hly ltac:(lia)) as Ea. rewrite Hg in Ea. set (q := next_blk m) in *. set (m1 := ram_store m PBUF_IP 36) in *. set (c := ram_cell q PBUF_IP 36).
  pose proof (ram_packet m PBUF_IP 36 Hs Hly ltac:(lia)) as Hq. fold q c m1 in Hq. destruct (packet_head _ _ _ _ _ Hq) as (_ & Hq0 & Hc0 & Hco & _).
  rewrite (onmem_run s _ _ _ _ Ea), (proj2 (Z.eqb_neq _ _) Hq0). set (s1 := with_mem s m1). rewrite (onmem_getp s1 _ _ _ Hq0 Hc0).
  destruct (ram_store_packet m PBUF_IP 36 p _ Hs Hp) as [Hp1 C1]. fold m1 in Hp1, C1. rewrite !content_cons in C1. cbn [content map concat snd] in C1. rewrite !app_nil_r in C1.
  pose proof (cells_below _ _ Hs (pk_cells _ _ _ Hp) (pblk (pb_payload b)) (list_elem_of_here _ _)) as Hlt.
  destruct (response_fill_run s1 p b q c type code src quoted (onmem (pbuf_free q) ;;; ret tt) Hq Hp1) as (d & E & F & C); try done.
  { change (pblk (pb_payload c)) with q. fold q in Hlt. lia. }
  { change (dat (mem s1)) with (dat m1). by rewrite C1. }
  { change (dat (mem s1)) with (dat m1). by rewrite C1. }
  change (dat (mem s1)) with (dat m1) in F. change (pblk (pb_payload c)) with q in F. etransitivity; [exact E|]. set (s2 := with_mem s1 (with_dat (mem s1) d)).
  assert (packet (mem s2) q [(q, c)]) as Hq2 by (eapply (frame_packet _ m1); [exact F|exact Hq]).
  destruct (send_datagram_run s2 q c [] (nf_ip (nif s)) src ICMP_TTL 0 IP_PROTO_ICMP mac) as (d2 & E2 & F2).
  { by destruct Hn. }
  { exact Hq2. }
  all: try first [done|apply Forall_nil_2|cbn; lia].
  change (padded []) with (@nil Z) in E2. change (20 + Z.of_nat (@length Z [])) with 20 in E2. change (Z.of_nat (@length Z [])) with 0 in E2. change (pb_len c + 20) with 56 in E2. change (dat (mem s2)) with d in E2, F2. rewrite C in E2. change (ipg s2) with (ipg s) in E2.
  rewrite (bind_run (ip4_output_if q None (Some src) ICMP_TTL 0 IP_PROTO_ICMP) _ s2 _ _ E2). set (c2 := moved c _) in E2 |- *. change (ip_frame s2) with (ip_frame s). set (fr := ip_frame s mac _). set (s3 := with_ip _ _).
  assert (mem s3 = with_cell m 36 d2 c2) as Em by done. assert (pbuf_free q (mem s3) = Ok (1, bumped m)) as Ef.
  { rewrite Em. apply with_cell_free; [done| |done|done|done]. fold q m1. change (pblk (pb_payload c)) with q in F2. by eapply frame_trans. }
  rewrite (onmem_run s3 _ _ _ _ Ef). done.
Qed.

End Errors.
