(* ===== verification/Udp.v ===== *)
(** arm_host/source/lwip/udp.c: ports, the table of control blocks, input and
    output of datagrams.

    Configuration: LWIP_IPV6, LWIP_UDPLITE and LWIP_CHECKSUM_ON_COPY are 0, SO_REUSE,
    SO_REUSE_RXTOALL, IP_SOF_BROADCAST, IP_SOF_BROADCAST_RECV, LWIP_NETIF_HWADDRHINT
    and, through LWIP_IGMP, LWIP_MULTICAST_TX_OPTIONS are 1; checksums are computed
    and checked.  Control blocks are cells of a pool; a released one is gone, so
    that its use is a fault.  The receive callbacks are the class [UdpApp]. *)

From stdpp Require Import gmap.
From S2P Require Import Prelude Cmonad Cutils Heap Pbuf Inet Ethernet Etharp IpOutput Icmp.

(** ** State *)

(** struct udp_pcb; [up_addr_hint] is the one field of netif_hints. *)
Record udp_pcb := mk_udp_pcb {
  up_local_ip : Z; up_remote_ip : Z; up_netif_idx : Z; up_so_options : Z; up_tos : Z; up_ttl : Z; up_addr_hint : Z;
  up_next : Z; up_flags : Z; up_local_port : Z; up_remote_port : Z; up_mcast_ip4 : Z; up_mcast_ifindex : Z; up_mcast_ttl : Z;
  up_recv : Z; up_recv_arg : Z
}.
Definition eta_udp_pcb (u : udp_pcb) : udp_pcb :=
  mk_udp_pcb (up_local_ip u) (up_remote_ip u) (up_netif_idx u) (up_so_options u) (up_tos u) (up_ttl u) (up_addr_hint u)
    (up_next u) (up_flags u) (up_local_port u) (up_remote_port u) (up_mcast_ip4 u) (up_mcast_ifindex u) (up_mcast_ttl u)
    (up_recv u) (up_recv_arg u).
#[export] Instance set_up_local_ip : Setter up_local_ip := ltac:(mk_setter eta_udp_pcb).
#[export] Instance set_up_remote_ip : Setter up_remote_ip := ltac:(mk_setter eta_udp_pcb).
#[export] Instance set_up_netif_idx : Setter up_netif_idx := ltac:(mk_setter eta_udp_pcb).
#[export] Instance set_up_so_options : Setter up_so_options := ltac:(mk_setter eta_udp_pcb).
#[export] Instance set_up_ttl : Setter up_ttl := ltac:(mk_setter eta_udp_pcb).
#[export] Instance set_up_addr_hint : Setter up_addr_hint := ltac:(mk_setter eta_udp_pcb).
#[export] Instance set_up_next : Setter up_next := ltac:(mk_setter eta_udp_pcb).
#[export] Instance set_up_flags : Setter up_flags := ltac:(mk_setter eta_udp_pcb).
#[export] Instance set_up_local_port : Setter up_local_port := ltac:(mk_setter eta_udp_pcb).
#[export] Instance set_up_remote_port : Setter up_remote_port := ltac:(mk_setter eta_udp_pcb).
#[export] Instance set_up_mcast_ttl : Setter up_mcast_ttl := ltac:(mk_setter eta_udp_pcb).
#[export] Instance set_up_recv : Setter up_recv := ltac:(mk_setter eta_udp_pcb).
#[export] Instance set_up_recv_arg : Setter up_recv_arg := ltac:(mk_setter eta_udp_pcb).

(** The static variables of udp.c and the pool of control blocks. *)
Record udp_globals := mk_udp {
  udp_port : Z; udp_pcbs : Z; upcbs : gmap Z udp_pcb; upcb_left : Z; next_upcb : Z
}.
Definition eta_udp (g : udp_globals) : udp_globals := mk_udp (udp_port g) (udp_pcbs g) (upcbs g) (upcb_left g) (next_upcb g).
#[export] Instance set_udp_port : Setter udp_port := ltac:(mk_setter eta_udp).
#[export] Instance set_udp_pcbs : Setter udp_pcbs := ltac:(mk_setter eta_udp).
#[export] Instance set_upcbs : Setter upcbs := ltac:(mk_setter eta_udp).
#[export] Instance set_upcb_left : Setter upcb_left := ltac:(mk_setter eta_udp).
#[export] Instance set_next_upcb : Setter next_upcb := ltac:(mk_setter eta_udp).

(** Where these variables live, beside those of IP. *)
Class UdpIn (U : Type) `{IpIn U} := {
  udp_get : U -> udp_globals;
  udp_put : udp_globals -> U -> U;
  udp_get_put : forall g u, udp_get (udp_put g u) = g;
  udp_put_get : forall u, udp_put (udp_get u) u = u;
  udp_put_put : forall g g' u, udp_put g' (udp_put g u) = udp_put g' u;
  udp_get_ip : forall g u, udp_get (ip_put g u) = udp_get u;
  ip_get_udp : forall g u, ip_get (udp_put g u) = ip_get u;
  ip_udp_put : forall g h u, ip_put g (udp_put h u) = udp_put h (ip_put g u)
}.
#[export] Instance ip_first : IpIn (ip_globals * udp_globals) :=
  {| ip_get := fst; ip_put := fun g u => (g, snd u);
     ip_get_put := fun _ _ => eq_refl; ip_put_get := fun u => match u with (_, _) => eq_refl end; ip_put_put := fun _ _ _ => eq_refl |}.
#[export] Instance udp_second : UdpIn (ip_globals * udp_globals) :=
  {| udp_get := snd; udp_put := fun g u => (fst u, g);
     udp_get_put := fun _ _ => eq_refl; udp_put_get := fun u => match u with (_, _) => eq_refl end; udp_put_put := fun _ _ _ => eq_refl;
     udp_get_ip := fun _ _ => eq_refl; ip_get_udp := fun _ _ => eq_refl; ip_udp_put := fun _ _ _ => eq_refl |}.

(** The receive callback [fn](arg, pcb, p, addr, port), which takes [p] over. *)
Class UdpApp (U : Type) := { call_recv : Z -> Z -> Z -> Z -> Z -> Z -> M (stack U) unit }.

(** ** Constants *)

Definition MEMP_NUM_UDP_PCB : Z := 20.
Definition UDP_LOCAL_PORT_RANGE_START : Z := 0xc000.
Definition UDP_LOCAL_PORT_RANGE_END : Z := 0xffff.
Definition UDP_ENSURE_LOCAL_PORT_RANGE (port : Z) : Z := u16 (Z.land port (u16 (Z.lnot UDP_LOCAL_PORT_RANGE_START)) + UDP_LOCAL_PORT_RANGE_START).
Definition UDP_HLEN : Z := 8.
Definition UDP_TTL : Z := 255.
Definition UDP_FLAGS_NOCHKSUM : Z := 0x01.
Definition UDP_FLAGS_CONNECTED : Z := 0x04.
Definition UDP_FLAGS_MULTICAST_LOOP : Z := 0x08.
Definition SOF_REUSEADDR : Z := 0x04.
Definition SOF_BROADCAST : Z := 0x20.
Definition PBUF_FLAG_MCASTLOOP : Z := 0x04.
Definition ERR_USE : Z := -8.

(** Offsets in struct udp_hdr. *)
Definition UDPH_SRC : Z := 0.
Definition UDPH_DEST : Z := 2.
Definition UDPH_LEN : Z := 4.
Definition UDPH_CHKSUM : Z := 6.

Definition ip_get_option (u : udp_pcb) (opt : Z) : bool := nz (Z.land (up_so_options u) opt).
Definition udp_is_flag_set (u : udp_pcb) (flag : Z) : bool := nz (Z.land (up_flags u) flag).

Section Udp.
Context `{PbufEnv} `{Addresses} {U : Type} `{UdpIn U}.

Definition getudp {A} (f : udp_globals -> A) : M (stack U) A := gets (fun s => f (udp_get (upper s))).
Definition modudp (f : udp_globals -> udp_globals) : M (stack U) unit :=
  modify (fun s => s <| upper := udp_put (f (udp_get (upper s))) (upper s) |>).
Definition getu (pcb : Z) : M (stack U) udp_pcb := fun s =>
  if pcb =? NULL then Fault NullDeref else
  match upcbs (udp_get (upper s)) !! pcb with Some u => Ok (u, s) | None => Fault UseAfterFree end.
Definition updu (pcb : Z) (f : udp_pcb -> udp_pcb) : M (stack U) unit :=
  let* u := getu pcb in modudp (fun g => g <| upcbs := <[pcb := f u]> (upcbs g) |>).
(** Walks along the list have a turn per control block. *)
Definition upcb_fuel : M (stack U) nat := getudp (fun g => S (size (upcbs g))).

(** ** Ports *)

(** [r] is what LWIP_RAND() gives. *)
Definition udp_init (r : Z) : M (stack U) unit := modudp (fun g => g <| udp_port := UDP_ENSURE_LOCAL_PORT_RANGE r |>).

(** Does a control block of the list from [pcb] on have the port? *)
Fixpoint port_in_use (fuel : nat) (pcb port : Z) : M (stack U) bool :=
  match fuel with
  | O => hang
  | S fuel =>
      if pcb =? NULL then ret false else
      let* u := getu pcb in
      if up_local_port u =? port then ret true else port_in_use fuel (up_next u) port
  end.

(** The label again. *)
Fixpoint new_port_loop (fuel : nat) (n : Z) : M (stack U) Z :=
  match fuel with
  | O => hang
  | S fuel =>
      let* port := getudp udp_port in
      modudp (fun g => g <| udp_port := u16 (port + 1) |>) ;;;
      (if port =? UDP_LOCAL_PORT_RANGE_END then modudp (fun g => g <| udp_port := UDP_LOCAL_PORT_RANGE_START |>) else ret tt) ;;;
      let* port := getudp udp_port in
      let* head := getudp udp_pcbs in
      let* k := upcb_fuel in
      let* used := port_in_use k head port in
      if (used : bool) then
        let n := u16 (n + 1) in
        if UDP_LOCAL_PORT_RANGE_END - UDP_LOCAL_PORT_RANGE_START <? n then ret 0 else new_port_loop fuel n
      else ret port
  end.
Definition new_port_turns : nat := Z.to_nat (UDP_LOCAL_PORT_RANGE_END - UDP_LOCAL_PORT_RANGE_START + 1).
Definition udp_new_port : M (stack U) Z := new_port_loop new_port_turns 0.

(** ** The table *)

(** Is [pcb] in the list from [ipcb] on? *)
Fixpoint on_list (fuel : nat) (pcb ipcb : Z) : M (stack U) bool :=
  match fuel with
  | O => hang
  | S fuel =>
      if ipcb =? NULL then ret false else
      if pcb =? ipcb then ret true else
      let* i := getu ipcb in on_list fuel pcb (up_next i)
  end.

(** Does another control block hold the address and the port? *)
Fixpoint bind_conflict (fuel : nat) (pcb ipcb ipaddr port : Z) : M (stack U) bool :=
  match fuel with
  | O => hang
  | S fuel =>
      if ipcb =? NULL then ret false else
      let* i := getu ipcb in
      let* u := getu pcb in
      if negb (pcb =? ipcb) && (negb (ip_get_option u SOF_REUSEADDR) || negb (ip_get_option i SOF_REUSEADDR)) &&
         (up_local_port i =? port) && ((up_local_ip i =? ipaddr) || ip4_addr_isany_val ipaddr || ip4_addr_isany_val (up_local_ip i))
      then ret true else bind_conflict fuel pcb (up_next i) ipaddr port
  end.

(** The end of udp_bind and of udp_connect: onto the list. *)
Definition push_front (pcb : Z) : M (stack U) unit :=
  let* head := getudp udp_pcbs in
  updu pcb (fun u => u <| up_next := head |>) ;;;
  modudp (fun g => g <| udp_pcbs := pcb |>).

(** [ipaddr] is NULL or an address. *)
Definition udp_bind (pcb : Z) (ipaddr : option Z) (port : Z) : M (stack U) Z :=
  let ipaddr := match ipaddr with Some a => a | None => IPADDR_ANY end in
  if pcb =? NULL then ret ERR_ARG else
  let* head := getudp udp_pcbs in
  let* k := upcb_fuel in
  let* rebind := on_list k pcb head in
  let* r := (if port =? 0 then
               let* port := udp_new_port in ret (if port =? 0 then None else Some port)
             else
               let* c := bind_conflict k pcb head ipaddr port in ret (if (c : bool) then None else Some port)) in
  match r with
  | None => ret ERR_USE
  | Some port =>
      updu pcb (fun u => u <| up_local_ip := ipaddr |>) ;;;
      updu pcb (fun u => u <| up_local_port := port |>) ;;;
      (if (rebind : bool) then ret tt else push_front pcb) ;;;
      ret ERR_OK
  end.

(** With the interface or with NULL. *)
Definition udp_bind_netif (pcb : Z) (netif : bool) : M (stack U) unit :=
  let* n := gets nif in
  updu pcb (fun u => u <| up_netif_idx := if netif then netif_get_index n else NETIF_NO_INDEX |>).

Definition udp_connect (pcb : Z) (ipaddr : option Z) (port : Z) : M (stack U) Z :=
  match ipaddr with
  | None => ret ERR_ARG
  | Some ipaddr =>
      if pcb =? NULL then ret ERR_ARG else
      let* u := getu pcb in
      let* err := (if up_local_port u =? 0 then udp_bind pcb (Some (up_local_ip u)) (up_local_port u) else ret ERR_OK) in
      if negb (err =? ERR_OK) then ret err else
      updu pcb (fun u => u <| up_remote_ip := ipaddr |>) ;;;
      updu pcb (fun u => u <| up_remote_port := port |>) ;;;
      updu pcb (fun u => u <| up_flags := Z.lor (up_flags u) UDP_FLAGS_CONNECTED |>) ;;;
      let* head := getudp udp_pcbs in
      let* k := upcb_fuel in
      let* there := on_list k pcb head in
      (if (there : bool) then ret tt else push_front pcb) ;;;
      ret ERR_OK
  end.

Definition udp_disconnect (pcb : Z) : M (stack U) unit :=
  if pcb =? NULL then ret tt else
  updu pcb (fun u => u <| up_remote_ip := IPADDR_ANY |>) ;;;
  updu pcb (fun u => u <| up_remote_port := 0 |>) ;;;
  updu pcb (fun u => u <| up_netif_idx := NETIF_NO_INDEX |>) ;;;
  updu pcb (fun u => u <| up_flags := u8 (Z.land (up_flags u) (u8 (Z.land (Z.lnot UDP_FLAGS_CONNECTED) 0xff))) |>).

Definition udp_recv (pcb recv recv_arg : Z) : M (stack U) unit :=
  if pcb =? NULL then ret tt else
  updu pcb (fun u => u <| up_recv := recv |>) ;;;
  updu pcb (fun u => u <| up_recv_arg := recv_arg |>).

(** The macros of include/lwip/ip.h by which an application sets and resets an option. *)
Definition ip_set_option (pcb opt : Z) : M (stack U) unit := updu pcb (fun u => u <| up_so_options := u8 (Z.lor (up_so_options u) opt) |>).
Definition ip_reset_option (pcb opt : Z) : M (stack U) unit := updu pcb (fun u => u <| up_so_options := u8 (Z.land (up_so_options u) (Z.lnot opt)) |>).

(** The search for the control block before [pcb]. *)
Fixpoint unlink_loop (fuel : nat) (pcb pcb2 : Z) : M (stack U) unit :=
  match fuel with
  | O => hang
  | S fuel =>
      if pcb2 =? NULL then ret tt else
      let* u2 := getu pcb2 in
      if negb (up_next u2 =? NULL) && (up_next u2 =? pcb) then
        let* u := getu pcb in updu pcb2 (fun u2 => u2 <| up_next := up_next u |>)
      else unlink_loop fuel pcb (up_next u2)
  end.
Definition memp_free_upcb (pcb : Z) : M (stack U) unit :=
  let* u := getu pcb in modudp (fun g => g <| upcbs := delete pcb (upcbs g) |> <| upcb_left := upcb_left g + 1 |>).
Definition udp_remove (pcb : Z) : M (stack U) unit :=
  if pcb =? NULL then ret tt else
  let* head := getudp udp_pcbs in
  (if head =? pcb then let* u := getu head in modudp (fun g => g <| udp_pcbs := up_next u |>)
   else let* k := upcb_fuel in unlink_loop k pcb head) ;;;
  memp_free_upcb pcb.

(** memp_malloc and memset *)
Definition memp_malloc_upcb : M (stack U) Z :=
  let* n := getudp upcb_left in
  if n =? 0 then ret NULL else
  let* r := getudp next_upcb in
  modudp (fun g => g <| upcb_left := n - 1 |> <| next_upcb := r + 1 |>
                     <| upcbs := <[r := mk_udp_pcb 0 0 0 0 0 0 0 NULL 0 0 0 0 0 0 NULL 0]> (upcbs g) |>) ;;;
  ret r.
Definition udp_new : M (stack U) Z :=
  let* pcb := memp_malloc_upcb in
  if pcb =? NULL then ret NULL else
  updu pcb (fun u => u <| up_ttl := UDP_TTL |>) ;;;
  updu pcb (fun u => u <| up_mcast_ttl := UDP_TTL |>) ;;;
  ret pcb.
Definition udp_new_ip_type (type : Z) : M (stack U) Z := udp_new.

Fixpoint addr_changed_loop (fuel : nat) (upcb old_addr new_addr : Z) : M (stack U) unit :=
  match fuel with
  | O => hang
  | S fuel =>
      if upcb =? NULL then ret tt else
      let* u := getu upcb in
      (if up_local_ip u =? old_addr then updu upcb (fun u => u <| up_local_ip := new_addr |>) else ret tt) ;;;
      let* u := getu upcb in
      addr_changed_loop fuel (up_next u) old_addr new_addr
  end.
Definition udp_netif_ip_addr_changed (old_addr new_addr : Z) : M (stack U) unit :=
  if negb (ip4_addr_isany_val old_addr) && negb (ip4_addr_isany_val new_addr) then
    let* head := getudp udp_pcbs in
    let* k := upcb_fuel in
    addr_changed_loop k head old_addr new_addr
  else ret tt.

(** ** Output *)

(** The header in front of [p], or in a packet of its own that [p] is chained to;
    NULL when there is no memory for it. *)
Definition header_packet (p : Z) : M (stack U) Z :=
  let* r := onmem (pbuf_add_header p UDP_HLEN) in
  if negb (r =? 0) then
    let* q := onmem (pbuf_alloc PBUF_IP UDP_HLEN PBUF_RAM) in
    if q =? NULL then ret NULL else
    let* b := onmem (getp p) in
    (if negb (pb_tot_len b =? 0) then onmem (pbuf_chain q p) else ret tt) ;;;
    ret q
  else ret p.

Definition udp_sendto_if_src (pcb p : Z) (dst_ip : option Z) (dst_port : Z) (src_ip : option Z) : M (stack U) Z :=
  match dst_ip, src_ip with
  | Some dst_ip, Some src_ip =>
      if (pcb =? NULL) || (p =? NULL) then ret ERR_ARG else
      let* u := getu pcb in
      let* n := gets nif in
      if negb (ip_get_option u SOF_BROADCAST) && ip4_addr_isbroadcast_u32 dst_ip n then ret ERR_VAL else
      let* err := (if up_local_port u =? 0 then udp_bind pcb (Some (up_local_ip u)) (up_local_port u) else ret ERR_OK) in
      if negb (err =? ERR_OK) then ret err else
      let* b := onmem (getp p) in
      if u16 (pb_tot_len b + UDP_HLEN) <? pb_tot_len b then ret ERR_MEM else
      let* q := header_packet p in
      if q =? NULL then ret ERR_MEM else
      let* bq := onmem (getp q) in
      let udphdr := pb_payload bq in
      let* u := getu pcb in
      wr udphdr UDPH_SRC (le_bytes 2 (lwip_htons (up_local_port u))) ;;;
      wr udphdr UDPH_DEST (le_bytes 2 (lwip_htons dst_port)) ;;;
      wr udphdr UDPH_CHKSUM (le_bytes 2 0) ;;;
      (if udp_is_flag_set u UDP_FLAGS_MULTICAST_LOOP && ip4_addr_ismulticast dst_ip then mark q PBUF_FLAG_MCASTLOOP else ret tt) ;;;
      wr udphdr UDPH_LEN (le_bytes 2 (lwip_htons (pb_tot_len bq))) ;;;
      (if negb (udp_is_flag_set u UDP_FLAGS_NOCHKSUM) then
         let* udpchksum := onmem (ip_chksum_pseudo q IP_PROTO_UDP (pb_tot_len bq) src_ip dst_ip) in
         let udpchksum := if udpchksum =? 0 then 0xffff else udpchksum in
         wr udphdr UDPH_CHKSUM (le_bytes 2 udpchksum)
       else ret tt) ;;;
      let ttl := if ip4_addr_ismulticast dst_ip then up_mcast_ttl u else up_ttl u in
      modify (fun s => s <| nif := (nif s) <| nf_hint := Some (up_addr_hint u) |> |>) ;;;
      let* err := ip4_output_if_src q (Some src_ip) (Some dst_ip) ttl (up_tos u) IP_PROTO_UDP in
      let* h := gets (fun s => nf_hint (nif s)) in
      updu pcb (fun u => u <| up_addr_hint := match h with Some h => h | None => up_addr_hint u end |>) ;;;
      modify (fun s => s <| nif := (nif s) <| nf_hint := None |> |>) ;;;
      (if negb (q =? p) then onmem (pbuf_free q) ;;; ret tt else ret tt) ;;;
      ret err
  | _, _ => ret ERR_ARG
  end.

(** The interface is there, since there is one only. *)
Definition udp_sendto_if (pcb p : Z) (dst_ip : option Z) (dst_port : Z) : M (stack U) Z :=
  match dst_ip with
  | None => ret ERR_ARG
  | Some dst_ip =>
      if (pcb =? NULL) || (p =? NULL) then ret ERR_ARG else
      let* u := getu pcb in
      let* n := gets nif in
      if ip4_addr_isany_val (up_local_ip u) || ip4_addr_ismulticast (up_local_ip u) then
        udp_sendto_if_src pcb p (Some dst_ip) dst_port (Some (nf_ip n))
      else if negb (up_local_ip u =? nf_ip n) then ret ERR_RTE
      else udp_sendto_if_src pcb p (Some dst_ip) dst_port (Some (up_local_ip u))
  end.

Definition netif_get_by_index (idx : Z) (n : netif_t) : bool := negb (idx =? NETIF_NO_INDEX) && (idx =? netif_get_index n).

(** Which interface: is there one? *)
Definition sendto_netif (u : udp_pcb) (dst_ip : Z) : M (stack U) bool :=
  let* n := gets nif in
  if negb (up_netif_idx u =? NETIF_NO_INDEX) then ret (netif_get_by_index (up_netif_idx u) n) else
  let* netif := (if ip4_addr_ismulticast dst_ip then
                   if negb (up_mcast_ifindex u =? NETIF_NO_INDEX) then ret (netif_get_by_index (up_mcast_ifindex u) n)
                   else if negb (ip4_addr_isany_val (up_mcast_ip4 u)) && negb (up_mcast_ip4 u =? IPADDR_BROADCAST) then ip4_route (up_mcast_ip4 u)
                   else ret false
                 else ret false) in
  if (netif : bool) then ret true else ip4_route dst_ip.

Definition udp_sendto (pcb p : Z) (dst_ip : option Z) (dst_port : Z) : M (stack U) Z :=
  match dst_ip with
  | None => ret ERR_ARG
  | Some dst_ip =>
      if (pcb =? NULL) || (p =? NULL) then ret ERR_ARG else
      let* u := getu pcb in
      let* netif := sendto_netif u dst_ip in
      if negb netif then ret ERR_RTE else udp_sendto_if pcb p (Some dst_ip) dst_port
  end.

Definition udp_send (pcb p : Z) : M (stack U) Z :=
  if (pcb =? NULL) || (p =? NULL) then ret ERR_ARG else
  let* u := getu pcb in udp_sendto pcb p (Some (up_remote_ip u)) (up_remote_port u).

(** ** Input *)

(** ip_data.current_netif and current_input_netif are the interface while a packet
    is handled, NULL otherwise. *)
Definition current_netif_t : M (stack U) netif_t :=
  let* c := getip current_netif in if (c : bool) then gets nif else fail NullDeref.
Definition current_input_netif_t : M (stack U) netif_t :=
  let* c := getip current_input_netif in if (c : bool) then gets nif else fail NullDeref.

Definition udp_input_local_match (u : udp_pcb) (broadcast : bool) : M (stack U) bool :=
  let* other := (if up_netif_idx u =? NETIF_NO_INDEX then ret false
                 else let* i := current_input_netif_t in ret (negb (up_netif_idx u =? netif_get_index i))) in
  if (other : bool) then ret false else
  let* inp := gets nif in
  let* dest := getip current_iphdr_dest in
  if broadcast then
    ret (ip_get_option u SOF_BROADCAST &&
         (ip4_addr_isany_val (up_local_ip u) || (dest =? IPADDR_BROADCAST) || ip4_addr_net_eq (up_local_ip u) dest (nf_netmask inp)))
  else ret (ip4_addr_isany_val (up_local_ip u) || (up_local_ip u =? dest)).

(** A matching control block that is not connected: the new uncon_pcb. *)
Definition better_unconnected (pcb : Z) (u : udp_pcb) (uncon_pcb : Z) (broadcast : bool) : M (stack U) Z :=
  if uncon_pcb =? NULL then ret pcb else
  let* inp := gets nif in
  let* dest := getip current_iphdr_dest in
  if broadcast && (dest =? IPADDR_BROADCAST) then
    let* c := getu uncon_pcb in
    ret (if negb (up_local_ip c =? nf_ip inp) && (up_local_ip u =? nf_ip inp) then pcb else uncon_pcb)
  else ret (if negb (ip4_addr_isany_val (up_local_ip u)) then pcb else uncon_pcb).

(** The walk: the fully matching control block, moved to the front, or NULL, and
    uncon_pcb. *)
Fixpoint lookup_loop (fuel : nat) (pcb prev uncon_pcb src dest : Z) (broadcast : bool) : M (stack U) (Z * Z) :=
  match fuel with
  | O => hang
  | S fuel =>
      if pcb =? NULL then ret (NULL, uncon_pcb) else
      let* u := getu pcb in
      let* m := (if up_local_port u =? dest then udp_input_local_match u broadcast else ret false) in
      let* uncon_pcb := (if m && negb (udp_is_flag_set u UDP_FLAGS_CONNECTED) then better_unconnected pcb u uncon_pcb broadcast else ret uncon_pcb) in
      let* cur_src := getip current_iphdr_src in
      if m && ((up_remote_port u =? src) && (ip4_addr_isany_val (up_remote_ip u) || (up_remote_ip u =? cur_src))) then
        (if negb (prev =? NULL) then
           updu prev (fun v => v <| up_next := up_next u |>) ;;;
           push_front pcb
         else ret tt) ;;;
        ret (pcb, uncon_pcb)
      else lookup_loop fuel (up_next u) pcb uncon_pcb src dest broadcast
  end.

Context `{UdpApp U}.

(** A copy for every other control block that matches. *)
Fixpoint to_all_loop (fuel : nat) (mpcb pcb p src dest : Z) (broadcast : bool) : M (stack U) unit :=
  match fuel with
  | O => hang
  | S fuel =>
      if mpcb =? NULL then ret tt else
      let* u := getu mpcb in
      let* m := (if negb (mpcb =? pcb) && (up_local_port u =? dest) then udp_input_local_match u broadcast else ret false) in
      (if m && negb (up_recv u =? NULL) then
         let* q := onmem (pbuf_clone PBUF_RAW PBUF_POOL p) in
         if negb (q =? NULL) then
           let* a := getip current_iphdr_src in call_recv (up_recv u) (up_recv_arg u) mpcb q a src
         else ret tt
       else ret tt) ;;;
      let* u := getu mpcb in
      to_all_loop fuel (up_next u) pcb p src dest broadcast
  end.

(** The packet, without its header, to its control block. *)
Definition udp_deliver (pcb p src dest : Z) (broadcast : bool) : M (stack U) unit :=
  let* u := getu pcb in
  let* cur_dest := getip current_iphdr_dest in
  (if ip_get_option u SOF_REUSEADDR && (broadcast || ip4_addr_ismulticast cur_dest) then
     let* head := getudp udp_pcbs in
     let* k := upcb_fuel in
     to_all_loop k head pcb p src dest broadcast
   else ret tt) ;;;
  let* u := getu pcb in
  if negb (up_recv u =? NULL) then
    let* a := getip current_iphdr_src in call_recv (up_recv u) (up_recv_arg u) pcb p a src
  else onmem (pbuf_free p) ;;; ret tt.

(** Nobody has the port. *)
Definition udp_unreachable (p : Z) (broadcast : bool) : M (stack U) unit :=
  let* cur_dest := getip current_iphdr_dest in
  (if negb broadcast && negb (ip4_addr_ismulticast cur_dest) then
     let* hlen := getip current_ip_header_tot_len in
     onmem (pbuf_header_force p (hlen + UDP_HLEN)) ;;;
     icmp_dest_unreach p ICMP_DUR_PORT
   else ret tt) ;;;
  onmem (pbuf_free p) ;;; ret tt.

Definition udp_input (p : Z) : M (stack U) unit :=
  let drop := onmem (pbuf_free p) ;;; ret tt in
  let* b := onmem (getp p) in
  if pb_len b <? UDP_HLEN then drop else
  let udphdr := pb_payload b in
  let* cur_dest := getip current_iphdr_dest in
  let* n := current_netif_t in
  let broadcast := ip4_addr_isbroadcast_u32 cur_dest n in
  let* src := rd udphdr UDPH_SRC 2 in
  let* dest := rd udphdr UDPH_DEST 2 in
  let src := lwip_htons src in
  let dest := lwip_htons dest in
  let* head := getudp udp_pcbs in
  let* k := upcb_fuel in
  let* '(pcb, uncon_pcb) := lookup_loop k head NULL NULL src dest broadcast in
  let pcb := if pcb =? NULL then uncon_pcb else pcb in
  let* inp := gets nif in
  let for_us := negb (pcb =? NULL) || (nf_ip inp =? cur_dest) in
  if for_us then
    let* chksum := rd udphdr UDPH_CHKSUM 2 in
    let* c := (if negb (chksum =? 0) then
                 let* cur_src := getip current_iphdr_src in onmem (ip_chksum_pseudo p IP_PROTO_UDP (pb_tot_len b) cur_src cur_dest)
               else ret 0) in
    if negb (c =? 0) then drop else
    let* r := onmem (pbuf_remove_header p UDP_HLEN) in
    if negb (r =? 0) then drop else
    if negb (pcb =? NULL) then udp_deliver pcb p src dest broadcast else udp_unreachable p broadcast
  else drop.

End Udp.
