(* ===== verification/UdpTable.v ===== *)
(** The table of UDP control blocks: what every call of the application keeps,
    and the choice of a free port. *)

From stdpp Require Import gmap.
From S2P Require Import Prelude Cmonad Cutils Heap Pbuf Inet Ethernet Etharp IpOutput Icmp Udp.

(** ** The invariant *)

(** The list from [p] on, as addresses. *)
Fixpoint ulist (m : gmap Z udp_pcb) (p : Z) (l : list Z) : Prop :=
  match l with
  | [] => p = NULL
  | i :: l => p = i /\ i <> NULL /\ exists u, m !! i = Some u /\ ulist m (up_next u) l
  end.

Definition reuses (u : udp_pcb) : Prop := ip_get_option u SOF_REUSEADDR = true.
(** Two addresses that a datagram can match at once. *)
Definition overlap (a b : Z) : Prop := a = b \/ a = IPADDR_ANY \/ b = IPADDR_ANY.
(** Two control blocks share a port only at different addresses or by consent. *)
Definition apart (u v : udp_pcb) : Prop :=
  up_local_port u = up_local_port v -> overlap (up_local_ip u) (up_local_ip v) -> reuses u /\ reuses v.

(** The table: [l] is the list of active blocks.  In a [strict] table no two of
    them share a port without consent. *)
Record udp_table (strict : bool) (g : udp_globals) (l : list Z) : Prop := {
  uv_list : ulist (upcbs g) (udp_pcbs g) l;
  uv_nodup : NoDup l;
  uv_port : UDP_LOCAL_PORT_RANGE_START <= udp_port g <= UDP_LOCAL_PORT_RANGE_END;
  uv_keys : forall i u, upcbs g !! i = Some u -> 0 < i < next_upcb g;
  uv_left : 0 <= upcb_left g /\ 0 < next_upcb g /\ Z.of_nat (size (upcbs g)) + upcb_left g = MEMP_NUM_UDP_PCB;
  uv_bound : forall i u, upcbs g !! i = Some u -> 0 <= up_local_port u < 65536 /\ (i ∈ l <-> up_local_port u <> 0);
  uv_apart : strict = true -> forall i j u v, i ∈ l -> j ∈ l -> i <> j -> upcbs g !! i = Some u -> upcbs g !! j = Some v -> apart u v
}.
Arguments uv_list {strict} g l _.
Arguments uv_nodup {strict} g l _.
Arguments uv_port {strict} g l _.
Arguments uv_keys {strict} g l _.
Arguments uv_left {strict} g l _.
Arguments uv_bound {strict} g l _.
Arguments uv_apart {strict} g l _.
Notation udp_valid := (udp_table true).
Definition udp_ok (g : udp_globals) : Prop := exists l, udp_valid g l.

Lemma ulist_in m p l i : ulist m p l -> i ∈ l -> i <> NULL /\ is_Some (m !! i).
Proof.
  revert p; induction l as [|j l IH]; intros p Hl Hi; [by apply elem_of_nil in Hi|]. destruct Hl as (-> & Hj & u & Hu & Hl).
  apply elem_of_cons in Hi as [->|Hi]; [split; [done|by exists u]|by eapply IH].
Qed.
Lemma ulist_size m p l : ulist m p l -> NoDup l -> (length l <= size m)%nat.
Proof.
  intros Hl Hn. rewrite <- size_dom, <- (size_list_to_set (C := gset Z) l) by done. apply subseteq_size. intros i Hi%elem_of_list_to_set.
  apply elem_of_dom. by eapply ulist_in.
Qed.
(** Updates that do not touch the links. *)
Lemma ulist_update m p l i u u' : ulist m p l -> m !! i = Some u -> up_next u' = up_next u -> ulist (<[i := u']> m) p l.
Proof.
  intros Hl Hu En. revert p Hl; induction l as [|j l IH]; intros p Hl; [done|]. destruct Hl as (-> & Hj & v & Hv & Hl). split; [done|]. split; [done|].
  destruct (decide (i = j)) as [->|Hij].
  - rewrite lookup_insert_eq. simplify_eq. exists u'. split; [done|]. rewrite En. by apply IH.
  - rewrite lookup_insert_ne by done. exists v. split; [done|by apply IH].
Qed.
Lemma ulist_insert m p l i u : ulist m p l -> i ∉ l -> ulist (<[i := u]> m) p l.
Proof.
  revert p; induction l as [|j l IH]; intros p Hl Hi; [done|]. apply not_elem_of_cons in Hi as [Hij Hi]. destruct Hl as (-> & Hj & v & Hv & Hl).
  split; [done|]. split; [done|]. exists v. rewrite lookup_insert_ne by done. split; [done|by apply IH].
Qed.
Lemma ulist_delete m p l i : ulist m p l -> i ∉ l -> ulist (delete i m) p l.
Proof.
  revert p; induction l as [|j l IH]; intros p Hl Hi; [done|]. apply not_elem_of_cons in Hi as [Hij Hi]. destruct Hl as (-> & Hj & v & Hv & Hl).
  split; [done|]. split; [done|]. exists v. rewrite lookup_delete_ne by done. split; [done|by apply IH].
Qed.
(** Taking one out behind [j]. *)
Lemma ulist_unlink m p l1 j i l2 u v : ulist m p (l1 ++ j :: i :: l2) -> NoDup (l1 ++ j :: i :: l2) -> m !! j = Some v -> m !! i = Some u ->
  ulist (<[j := v <| up_next := up_next u |>]> m) p (l1 ++ j :: l2).
Proof.
  revert p; induction l1 as [|k l1 IH]; intros p Hl Hn Hv Hu; cbn [app] in *.
  - destruct Hl as (-> & Hj & v' & Hv' & _ & Hi & u' & Hu' & Hl). simplify_eq. apply NoDup_cons in Hn as [Hj2 _]. split; [done|]. split; [done|].
    rewrite lookup_insert_eq. eexists. split; [done|]. cbn. apply ulist_insert; [done|]. intros Hin. apply Hj2. by apply list_elem_of_further.
  - destruct Hl as (-> & Hk & w & Hw & Hl). apply NoDup_cons in Hn as [Hk2 Hn]. split; [done|]. split; [done|]. exists w. split; [|by apply IH].
    rewrite lookup_insert_ne; [done|]. intros ->. apply Hk2. apply elem_of_app. right. apply list_elem_of_here.
Qed.
Lemma ulist_split m p l i : ulist m p l -> i ∈ l -> exists l1 l2, l = l1 ++ i :: l2.
Proof. intros _ Hi. by apply list_elem_of_split in Hi. Qed.
Lemma ulist_app m p l1 i l2 : ulist m p (l1 ++ i :: l2) -> ulist m i (i :: l2).
Proof. revert p; induction l1 as [|j l1 IH]; intros p Hl; cbn [app] in Hl; [destruct Hl as (-> & Hl); by split|]. destruct Hl as (_ & _ & u & _ & Hl). by eapply IH. Qed.

(** A block of the list has what [f] asks for. *)
Definition has (m : gmap Z udp_pcb) (f : Z -> udp_pcb -> bool) (l : list Z) : bool :=
  existsb (fun i => match m !! i with Some u => f i u | None => false end) l.
Lemma has_false m f l : has m f l = false -> forall i u, i ∈ l -> m !! i = Some u -> f i u = false.
Proof.
  induction l as [|j l IH]; cbn [has existsb]; intros E i u Hi Hu; [by apply elem_of_nil in Hi|]. apply orb_false_iff in E as [E1 E2].
  apply elem_of_cons in Hi as [->|Hi]; [by rewrite Hu in E1|by eapply IH].
Qed.
Lemma has_all_false m f l : (forall i u, i ∈ l -> m !! i = Some u -> f i u = false) -> has m f l = false.
Proof.
  induction l as [|j l IH]; intros Hf; [done|]. cbn [has existsb]. apply orb_false_iff. split.
  - destruct (m !! j) as [u|] eqn:Hu; [|done]. by apply Hf; [apply list_elem_of_here|].
  - apply IH. intros i u Hi. apply Hf. by apply list_elem_of_further.
Qed.

Section Table.
Context {U : Type} `{UdpIn U} {strict : bool}.
Implicit Types s : stack U.

Definition udpg s : udp_globals := udp_get (upper s).
Definition with_udp s (g : udp_globals) : stack U := s <| upper := udp_put g (upper s) |>.

Lemma udpg_with s g : udpg (with_udp s g) = g.
Proof. apply udp_get_put. Qed.
Lemma with_udp_udp s g g' : with_udp (with_udp s g) g' = with_udp s g'.
Proof. unfold with_udp. destruct s. cbn. by rewrite udp_put_put. Qed.
Lemma with_udp_id s : with_udp s (udpg s) = s.
Proof. unfold with_udp, udpg. destruct s. cbn. by rewrite udp_put_get. Qed.
Lemma modudp_run {A} s f (k : unit -> M (stack U) A) : bind (modudp f) k s = k tt (with_udp s (f (udpg s))).
Proof. done. Qed.
Lemma getudp_run {A B} s (f : udp_globals -> B) (k : B -> M (stack U) A) : bind (getudp f) k s = k (f (udpg s)) s.
Proof. done. Qed.
Lemma getu_run {A} s i u (k : udp_pcb -> M (stack U) A) : i <> NULL -> upcbs (udpg s) !! i = Some u -> bind (getu i) k s = k u s.
Proof. intros Hi Hu. unfold bind, getu. rewrite (proj2 (Z.eqb_neq _ _) Hi). unfold udpg in Hu. by rewrite Hu. Qed.
Definition put_upcb (g : udp_globals) (i : Z) (u : udp_pcb) : udp_globals := g <| upcbs := <[i := u]> (upcbs g) |>.
Lemma updu_run {A} s i u f (k : unit -> M (stack U) A) : i <> NULL -> upcbs (udpg s) !! i = Some u ->
  bind (updu i f) k s = k tt (with_udp s (put_upcb (udpg s) i (f u))).
Proof. intros Hi Hu. unfold updu. rewrite bind_assoc. by rewrite (getu_run _ _ _ _ Hi Hu). Qed.
Lemma updu_end s i u f : i <> NULL -> upcbs (udpg s) !! i = Some u -> updu i f s = Ok (tt, with_udp s (put_upcb (udpg s) i (f u))).
Proof. intros Hi Hu. unfold updu. by rewrite (getu_run _ _ _ _ Hi Hu). Qed.

(** ** The walks *)

Lemma port_in_use_run s l port : forall fuel p, ulist (upcbs (udpg s)) p l -> (length l < fuel)%nat ->
  port_in_use fuel p port s = Ok (has (upcbs (udpg s)) (fun _ u => up_local_port u =? port) l, s).
Proof.
  induction l as [|i l IH]; intros [|fuel] p Hl Hf; cbn [length] in Hf; try lia; cbn [port_in_use].
  - cbn in Hl. by subst p.
  - destruct Hl as (-> & Hi & u & Hu & Hl). rewrite (proj2 (Z.eqb_neq _ _) Hi), (getu_run _ _ _ _ Hi Hu). cbn [has existsb]. rewrite Hu.
    destruct (_ =? _); [done|]. apply IH; [done|lia].
Qed.
Lemma on_list_run s l pcb : forall fuel p, ulist (upcbs (udpg s)) p l -> (length l < fuel)%nat -> on_list fuel pcb p s = Ok (bool_decide (pcb ∈ l), s).
Proof.
  induction l as [|i l IH]; intros [|fuel] p Hl Hf; cbn [length] in Hf; try lia; cbn [on_list].
  - cbn in Hl. subst p. by rewrite bool_decide_eq_false_2 by apply not_elem_of_nil.
  - destruct Hl as (-> & Hi & u & Hu & Hl). rewrite (proj2 (Z.eqb_neq _ _) Hi). destruct (pcb =? i) eqn:E; [apply Z.eqb_eq in E as ->; by rewrite bool_decide_eq_true_2 by apply list_elem_of_here|].
    apply Z.eqb_neq in E. rewrite (getu_run _ _ _ _ Hi Hu), IH by (done || lia). do 2 f_equal. apply bool_decide_ext. by rewrite elem_of_cons; naive_solver.
Qed.
Definition conflicts (pcb ipaddr port : Z) (u : udp_pcb) (i : Z) (v : udp_pcb) : bool :=
  negb (pcb =? i) && (negb (ip_get_option u SOF_REUSEADDR) || negb (ip_get_option v SOF_REUSEADDR)) &&
  (up_local_port v =? port) && ((up_local_ip v =? ipaddr) || ip4_addr_isany_val ipaddr || ip4_addr_isany_val (up_local_ip v)).
Lemma bind_conflict_run s l pcb u ipaddr port : pcb <> NULL -> upcbs (udpg s) !! pcb = Some u -> forall fuel p, ulist (upcbs (udpg s)) p l -> (length l < fuel)%nat ->
  bind_conflict fuel pcb p ipaddr port s = Ok (has (upcbs (udpg s)) (conflicts pcb ipaddr port u) l, s).
Proof.
  intros Hp Hpu. induction l as [|i l IH]; intros [|fuel] p Hl Hf; cbn [length] in Hf; try lia; cbn [bind_conflict].
  - cbn in Hl. by subst p.
  - destruct Hl as (-> & Hi & v & Hv & Hl). rewrite (proj2 (Z.eqb_neq _ _) Hi), (getu_run _ _ _ _ Hi Hv), (getu_run _ _ _ _ Hp Hpu). cbn [has existsb]. rewrite Hv.
    fold (conflicts pcb ipaddr port u i v). destruct (conflicts _ _ _ _ _ _); [done|]. apply IH; [done|lia].
Qed.
Lemma fuel_enough s l : udp_table strict (udpg s) l -> (length l < S (size (upcbs (udpg s))))%nat.
Proof. intros Hv. pose proof (ulist_size _ _ _ (uv_list _ _ Hv) (uv_nodup _ _ Hv)). lia. Qed.
Lemma upcb_fuel_run {A} s (k : nat -> M (stack U) A) : bind upcb_fuel k s = k (S (size (upcbs (udpg s)))) s.
Proof. done. Qed.

(** ** Ports *)

Definition with_port (g : udp_globals) (x : Z) : udp_globals := g <| udp_port := x |>.
(** The [k]-th port after [p], around the range. *)
Definition nth_port (p k : Z) : Z := UDP_LOCAL_PORT_RANGE_START + (p - UDP_LOCAL_PORT_RANGE_START + k) mod 16384.
Definition taken (g : udp_globals) (l : list Z) (port : Z) : bool := has (upcbs g) (fun _ u => up_local_port u =? port) l.

Lemma nth_port_range p k : UDP_LOCAL_PORT_RANGE_START <= nth_port p k <= UDP_LOCAL_PORT_RANGE_END.
Proof. unfold nth_port, UDP_LOCAL_PORT_RANGE_START, UDP_LOCAL_PORT_RANGE_END. pose proof (Z.mod_pos_bound (p - 0xc000 + k) 16384 ltac:(lia)). lia. Qed.
Lemma nth_port_add p j k : nth_port (nth_port p j) k = nth_port p (j + k).
Proof. unfold nth_port. f_equal. rewrite Z.add_simpl_l, Zplus_mod_idemp_l. f_equal. lia. Qed.
Lemma nth_port_inj p j k : 0 <= j < 16384 -> 0 <= k < 16384 -> nth_port p j = nth_port p k -> j = k.
Proof. unfold nth_port. intros Hj Hk E. zdm. Qed.

(** One turn: the next port is taken, or it is the result. *)
Lemma new_port_turn s l fuel n : udp_table strict (udpg s) l -> let x := nth_port (udp_port (udpg s)) 1 in
  new_port_loop (S fuel) n s =
    (if taken (udpg s) l x then if UDP_LOCAL_PORT_RANGE_END - UDP_LOCAL_PORT_RANGE_START <? u16 (n + 1) then ret 0 else new_port_loop fuel (u16 (n + 1)) else ret x)
      (with_udp s (with_port (udpg s) x)).
Proof.
  intros Hv x. cbn [new_port_loop]. rewrite getudp_run, modudp_run. set (p := udp_port (udpg s)) in *. pose proof (uv_port _ _ Hv) as Hp. fold p in Hp.
  set (s1 := with_udp s (with_port (udpg s) x)).
  assert ((if p =? UDP_LOCAL_PORT_RANGE_END then modudp (fun g => g <| udp_port := UDP_LOCAL_PORT_RANGE_START |>) else ret tt) (with_udp s ((udpg s) <| udp_port := u16 (p + 1) |>)) = Ok (tt, s1)) as E.
  { unfold UDP_LOCAL_PORT_RANGE_START, UDP_LOCAL_PORT_RANGE_END in *. destruct (p =? 0xffff) eqn:Ep.
    - unfold modudp, modify. fold (udpg (with_udp s ((udpg s) <| udp_port := u16 (p + 1) |>))). rewrite udpg_with. set (g1 := _ <| udp_port := 0xc000 |>).
      change (Ok (tt, with_udp (with_udp s ((udpg s) <| udp_port := u16 (p + 1) |>)) g1) = Ok (tt, s1)). rewrite with_udp_udp. apply Z.eqb_eq in Ep. unfold s1, x, g1. rewrite Ep. done.
    - apply Z.eqb_neq in Ep. unfold s1, x, nth_port, UDP_LOCAL_PORT_RANGE_START. rewrite u16_id by lia. replace (p + 1) with (0xc000 + (p - 0xc000 + 1) mod 16384); [done|]. rewrite Z.mod_small by lia. lia. }
  rewrite (bind_run _ _ _ _ _ E).
  assert (udpg s1 = with_port (udpg s) x) as Eg by apply udpg_with. rewrite !getudp_run, upcb_fuel_run, Eg. change (udp_port (with_port (udpg s) x)) with x. change (udp_pcbs (with_port (udpg s) x)) with (udp_pcbs (udpg s)).
  rewrite (bind_run _ _ _ _ _ (port_in_use_run s1 l x _ (udp_pcbs (udpg s)) ltac:(rewrite Eg; apply (uv_list _ _ Hv)) ltac:(apply (fuel_enough _ _ Hv)))). rewrite Eg. fold (taken (udpg s) l x).
  change (has (upcbs (with_port (udpg s) x)) (fun _ u => up_local_port u =? x) l) with (taken (udpg s) l x). by destruct (taken _ _ _).
Qed.
Lemma valid_port g l x : UDP_LOCAL_PORT_RANGE_START <= x <= UDP_LOCAL_PORT_RANGE_END -> udp_table strict g l -> udp_table strict (with_port g x) l.
Proof. by intros Hx [? ? ? ? ? ? ?]. Qed.

(** The first free port behind [udp_port] is found. *)
Lemma new_port_loop_run l k : forall fuel n s, udp_table strict (udpg s) l -> (k < fuel)%nat -> 0 <= n -> n + Z.of_nat k <= 0x3fff -> let p := udp_port (udpg s) in
  (forall j, (j < k)%nat -> taken (udpg s) l (nth_port p (Z.of_nat j + 1)) = true) -> let x := nth_port p (Z.of_nat k + 1) in taken (udpg s) l x = false ->
  new_port_loop fuel n s = Ok (x, with_udp s (with_port (udpg s) x)).
Proof.
  induction k as [|k IH]; intros [|fuel] n s Hv Hf Hn Hk p Hused x Hfree; try lia; rewrite (new_port_turn s l fuel n Hv); fold p.
  - change (Z.of_nat 0 + 1) with 1 in x. fold x. by rewrite Hfree.
  - pose proof (Hused 0%nat ltac:(lia)) as H00. change (Z.of_nat 0 + 1) with 1 in H00. rewrite H00, u16_id by lia.
    rewrite (proj2 (Z.ltb_ge _ _)) by (unfold UDP_LOCAL_PORT_RANGE_END, UDP_LOCAL_PORT_RANGE_START; lia). set (s1 := with_udp s _). assert (udpg s1 = with_port (udpg s) (nth_port p 1)) as Eg by apply udpg_with.
    rewrite (IH fuel (n + 1) s1); rewrite ?Eg; try lia.
    + change (udp_port (with_port (udpg s) (nth_port p 1))) with (nth_port p 1). rewrite nth_port_add. replace (1 + (Z.of_nat k + 1)) with (Z.of_nat (S k) + 1) by lia. unfold s1. rewrite with_udp_udp. done.
    + apply valid_port; [apply nth_port_range|done].
    + intros j Hj. change (udp_port (with_port (udpg s) (nth_port p 1))) with (nth_port p 1). rewrite nth_port_add. pose proof (Hused (S j) ltac:(lia)) as Hj'. replace (1 + (Z.of_nat j + 1)) with (Z.of_nat (S j) + 1) by lia. exact Hj'.
    + change (udp_port (with_port (udpg s) (nth_port p 1))) with (nth_port p 1). rewrite nth_port_add. replace (1 + (Z.of_nat k + 1)) with (Z.of_nat (S k) + 1) by lia. exact Hfree.
Qed.

(** Fewer blocks than ports: one of the next ports is free. *)
Definition port_of (g : udp_globals) (i : Z) : Z := match upcbs g !! i with Some u => up_local_port u | None => 0 end.
Lemma taken_in g l port : taken g l port = true -> port ∈ map (port_of g) l.
Proof.
  unfold taken, has. intros (i & Hi & E)%existsb_exists. destruct (upcbs g !! i) as [u|] eqn:Hu; [|done]. apply Z.eqb_eq in E. apply list_elem_of_fmap. exists i.
  unfold port_of. rewrite Hu. split; [done|]. by apply list_elem_of_In.
Qed.
Lemma free_port g l p : Z.of_nat (length l) < 16383 -> exists k, (k <= length l)%nat /\ taken g l (nth_port p (Z.of_nat k + 1)) = false /\ forall j, (j < k)%nat -> taken g l (nth_port p (Z.of_nat j + 1)) = true.
Proof.
  intros Hl. set (f k := taken g l (nth_port p (Z.of_nat k + 1))).
  assert (forall n, (exists k, (k < n)%nat /\ f k = false /\ forall j, (j < k)%nat -> f j = true) \/ forall j, (j < n)%nat -> f j = true) as Hsearch.
  { induction n as [|n IHn]; [right; lia|]. destruct IHn as [(k & Hk & E)|Hall]; [left; exists k; split; [lia|done]|]. destruct (f n) eqn:E; [right|left; exists n; split; [lia|done]].
    intros j Hj. destruct (decide (j = n)) as [->|]; [done|]. apply Hall. lia. }
  destruct (Hsearch (S (length l))) as [(k & Hk & E)|Hall]; [exists k; split; [lia|done]|]. exfalso.
  pose proof (submseteq_length (map (fun j => nth_port p (Z.of_nat j + 1)) (seq 0 (S (length l)))) (map (port_of g) l)) as Hlen. rewrite !length_map, length_seq in Hlen.
  assert (S (length l) <= length l)%nat; [|lia]. apply Hlen. apply NoDup_submseteq.
  - apply NoDup_fmap_2_strong; [|apply NoDup_seq]. intros i j Hi%elem_of_seq Hj%elem_of_seq E. apply nth_port_inj in E; lia.
  - intros x (j & -> & Hj%elem_of_seq)%list_elem_of_fmap. apply taken_in, Hall. lia.
Qed.

Lemma table_length g l : udp_table strict g l -> (length l <= 20)%nat.
Proof. intros Hv. pose proof (ulist_size _ _ _ (uv_list _ _ Hv) (uv_nodup _ _ Hv)). destruct (uv_left _ _ Hv) as (? & ? & ?). unfold MEMP_NUM_UDP_PCB in *. lia. Qed.

(** With no more control blocks than the pool has, the search always succeeds. *)
Lemma udp_new_port_run s l : udp_table strict (udpg s) l -> exists x, udp_new_port s = Ok (x, with_udp s (with_port (udpg s) x)) /\
  UDP_LOCAL_PORT_RANGE_START <= x <= UDP_LOCAL_PORT_RANGE_END /\ taken (udpg s) l x = false.
Proof.
  intros Hv. pose proof (table_length _ _ Hv) as Hl. destruct (free_port (udpg s) l (udp_port (udpg s)) ltac:(lia)) as (k & Hk & Hf & Hu).
  eexists. split; [|split; [|exact Hf]]; [|apply nth_port_range]. unfold udp_new_port. apply (new_port_loop_run l k); try done; [|lia].
  unfold new_port_turns, UDP_LOCAL_PORT_RANGE_END, UDP_LOCAL_PORT_RANGE_START. lia.
Qed.

(** ** Updates *)

Lemma getu_with {A} s g i u (k : udp_pcb -> M (stack U) A) : i <> NULL -> upcbs g !! i = Some u -> bind (getu i) k (with_udp s g) = k u (with_udp s g).
Proof. intros Hi Hu. apply getu_run; [done|]. by rewrite udpg_with. Qed.
Lemma updu_with {A} s g i u f (k : unit -> M (stack U) A) : i <> NULL -> upcbs g !! i = Some u ->
  bind (updu i f) k (with_udp s g) = k tt (with_udp s (put_upcb g i (f u))).
Proof. intros Hi Hu. rewrite (updu_run _ i u) by (done || by rewrite udpg_with). by rewrite udpg_with, with_udp_udp. Qed.
Lemma updu_with_end s g i u f : i <> NULL -> upcbs g !! i = Some u -> updu i f (with_udp s g) = Ok (tt, with_udp s (put_upcb g i (f u))).
Proof. intros Hi Hu. rewrite (updu_end _ i u) by (done || by rewrite udpg_with). by rewrite udpg_with, with_udp_udp. Qed.
Lemma modudp_with {A} s g f (k : unit -> M (stack U) A) : bind (modudp f) k (with_udp s g) = k tt (with_udp s (f g)).
Proof. by rewrite modudp_run, udpg_with, with_udp_udp. Qed.
Lemma modudp_end s f : modudp f s = Ok (tt, with_udp s (f (udpg s))).
Proof. done. Qed.
Lemma put_udp_twice g i u v : put_upcb (put_upcb g i u) i v = put_upcb g i v.
Proof. unfold put_upcb. cbn. by rewrite insert_insert_eq. Qed.
Lemma put_get g i u : upcbs (put_upcb g i u) !! i = Some u.
Proof. apply lookup_insert_eq. Qed.

(** What an update must leave as it is. *)
Record harmless (u u' : udp_pcb) : Prop := {
  hl_next : up_next u' = up_next u;
  hl_port : up_local_port u' = up_local_port u;
  hl_ip : up_local_ip u' = up_local_ip u;
  hl_reuse : reuses u -> reuses u'
}.
Lemma apart_sym u v : apart u v -> apart v u.
Proof. unfold apart, overlap. naive_solver. Qed.
Lemma apart_harmless u u' v : harmless u u' -> apart u v -> apart u' v.
Proof. intros [_ Hp Hi Hr] Ha. unfold apart. rewrite Hp, Hi. intros E1 E2. destruct (Ha E1 E2). auto. Qed.

Lemma size_put (m : gmap Z udp_pcb) i u u' : m !! i = Some u -> size (<[i := u']> m) = size m.
Proof. intros Hu. rewrite map_size_insert, Hu. done. Qed.
(** A block is replaced by one with the same link and port. *)
Lemma valid_replace g l i u u' : udp_table strict g l -> upcbs g !! i = Some u -> up_next u' = up_next u -> up_local_port u' = up_local_port u ->
  (strict = true -> i ∈ l -> forall j v, j ∈ l -> j <> i -> upcbs g !! j = Some v -> apart u' v) -> udp_table strict (put_upcb g i u') l.
Proof.
  intros [V1 V2 V3 V4 V5 V6 V7] Hu Hn Hp Hap. split; cbn [put_upcb]; unfold put_upcb; cbn; try done.
  - by eapply ulist_update.
  - intros j v. destruct (decide (i = j)) as [<-|Hij]; [intros _; by eapply V4|rewrite lookup_insert_ne by done; apply V4].
  - by rewrite (size_put _ _ _ _ Hu).
  - intros j v. destruct (decide (i = j)) as [<-|Hij]; [rewrite lookup_insert_eq|rewrite lookup_insert_ne by done; apply V6]. intros [= <-]. rewrite Hp. by apply V6.
  - intros Hst j k v w Hj Hk Hjk Hv Hw. destruct (decide (i = j)) as [<-|Hij].
    + rewrite lookup_insert_eq in Hv. rewrite lookup_insert_ne in Hw by done. injection Hv as <-. by apply (Hap Hst Hj k).
    + rewrite lookup_insert_ne in Hv by done. destruct (decide (i = k)) as [<-|Hik].
      * rewrite lookup_insert_eq in Hw. injection Hw as <-. apply apart_sym. by apply (Hap Hst Hk j).
      * rewrite lookup_insert_ne in Hw by done. by eapply (V7 Hst j k).
Qed.
Lemma valid_put g l i u u' : udp_table strict g l -> upcbs g !! i = Some u -> harmless u u' -> udp_table strict (put_upcb g i u') l.
Proof.
  intros Hv Hu Hh. eapply valid_replace; [done|done|apply Hh|apply Hh|]. intros Hst Hi j v Hj Hji Hvj. eapply apart_harmless; [exact Hh|]. by apply (uv_apart _ _ Hv Hst i j).
Qed.

(** A block gets an address and a port, and a place in the list. *)
Definition named (u : udp_pcb) (a x : Z) : udp_pcb := u <| up_local_ip := a |> <| up_local_port := x |>.
Definition bound (g : udp_globals) (l : list Z) (pcb : Z) (u : udp_pcb) (a x : Z) : udp_globals :=
  if bool_decide (pcb ∈ l) then put_upcb g pcb (named u a x)
  else (put_upcb g pcb ((named u a x) <| up_next := udp_pcbs g |>)) <| udp_pcbs := pcb |>.
Definition bound_list (l : list Z) (pcb : Z) : list Z := if bool_decide (pcb ∈ l) then l else pcb :: l.

Lemma in_bound_list l pcb i : i ∈ bound_list l pcb <-> i = pcb \/ i ∈ l.
Proof. unfold bound_list. case_bool_decide; [|apply elem_of_cons]. split; [by right|]. by intros [->|?]. Qed.
Lemma bound_get g l pcb u a x : exists y, upcbs (bound g l pcb u a x) !! pcb = Some ((named u a x) <| up_next := y |>).
Proof. unfold bound. case_bool_decide; [exists (up_next u)|eexists]; (etransitivity; [apply lookup_insert_eq|by destruct u]). Qed.
Lemma bound_other g l pcb u a x i : i <> pcb -> upcbs (bound g l pcb u a x) !! i = upcbs g !! i.
Proof. intros Hi. unfold bound. case_bool_decide; cbn; by rewrite lookup_insert_ne by done. Qed.

Lemma valid_bound g l pcb u a x : udp_table strict g l -> upcbs g !! pcb = Some u -> 0 < x < 65536 ->
  (strict = true -> forall j v, j ∈ l -> j <> pcb -> upcbs g !! j = Some v -> apart (named u a x) v) -> udp_table strict (bound g l pcb u a x) (bound_list l pcb).
Proof.
  intros [V1 V2 V3 V4 V5 V6 V7] Hu Hx Hap. pose proof (V4 _ _ Hu) as Hp. destruct (bound_get g l pcb u a x) as (y & Hu'). set (u' := _ <| up_next := y |>) in Hu'.
  assert (forall j v, upcbs (bound g l pcb u a x) !! j = Some v -> (j = pcb /\ v = u') \/ (j <> pcb /\ upcbs g !! j = Some v)) as Hcase.
  { intros j v Hv. destruct (decide (j = pcb)) as [->|Hj]; [left; split; [done|congruence]|right; split; [done|]]. by rewrite bound_other in Hv. }
  assert (forall v, apart (named u a x) v -> apart u' v) as Hap'.
  { by intros v Hv. }
  split.
  - unfold bound, bound_list. case_bool_decide as Hin; cbn.
    + by eapply ulist_update.
    + split; [done|]. split; [unfold NULL; lia|]. rewrite lookup_insert_eq. eexists. split; [done|]. cbn. by apply ulist_insert.
  - unfold bound_list. case_bool_decide; [done|]. by constructor.
  - unfold bound. by case_bool_decide.
  - intros i v Hv. replace (next_upcb (bound g l pcb u a x)) with (next_upcb g) by (unfold bound; by case_bool_decide).
    destruct (Hcase _ _ Hv) as [[-> _]|[_ Hv']]; [by eapply V4|by eapply V4].
  - unfold bound. case_bool_decide; cbn; by rewrite (size_put _ _ _ _ Hu).
  - intros i v Hv. rewrite in_bound_list. destruct (Hcase _ _ Hv) as [[-> ->]|[Hi Hv']]; [change (up_local_port u') with x; split; [lia|]; split; [lia|by left]|]. destruct (V6 _ _ Hv') as [? ?]. split; [done|]. naive_solver.
  - intros Hst i j v w Hi Hj Hij Hv Hw. specialize (V7 Hst). specialize (Hap Hst). apply in_bound_list in Hi, Hj. destruct (Hcase _ _ Hv) as [[-> ->]|[Hi' Hv']], (Hcase _ _ Hw) as [[-> ->]|[Hj' Hw']]; try done.
    + apply Hap'. destruct Hj as [->|Hj]; [done|]. by eapply Hap.
    + apply apart_sym, Hap'. destruct Hi as [->|Hi]; [done|]. by eapply Hap.
    + destruct Hi as [->|Hi]; [done|]. destruct Hj as [->|Hj]; [done|]. by eapply (V7 i j).
Qed.

(** ** The calls *)

Lemma push_front_with {A} s g i u (k : unit -> M (stack U) A) : i <> NULL -> upcbs g !! i = Some u ->
  bind (push_front i) k (with_udp s g) = k tt (with_udp s ((put_upcb g i (u <| up_next := udp_pcbs g |>)) <| udp_pcbs := i |>)).
Proof.
  intros Hi Hu. unfold push_front. rewrite bind_assoc, getudp_run, udpg_with, bind_assoc, (updu_with _ _ _ _ _ _ Hi Hu). by rewrite modudp_with.
Qed.
Lemma conflict_apart g l pcb u a x : has (upcbs g) (conflicts pcb a x u) l = false -> forall j v, j ∈ l -> j <> pcb -> upcbs g !! j = Some v -> apart (named u a x) v.
Proof.
  intros Hc j v Hj Hne Hv. pose proof (has_false _ _ _ Hc _ _ Hj Hv) as E. unfold conflicts in E. unfold apart, overlap, reuses. cbn. intros Ep Ea.
  rewrite (proj2 (Z.eqb_neq pcb j)) in E by done. rewrite (proj2 (Z.eqb_eq _ _) (eq_sym Ep)) in E. change (ip_get_option (named u a x) SOF_REUSEADDR) with (ip_get_option u SOF_REUSEADDR).
  assert ((up_local_ip v =? a) || ip4_addr_isany_val a || ip4_addr_isany_val (up_local_ip v) = true) as Eo.
  { unfold ip4_addr_isany_val. rewrite !orb_true_iff, !Z.eqb_eq. naive_solver. }
  rewrite Eo in E. destruct (ip_get_option u _), (ip_get_option v _); done.
Qed.
Lemma free_apart g l pcb u a x : taken g l x = false -> forall j v, j ∈ l -> j <> pcb -> upcbs g !! j = Some v -> apart (named u a x) v.
Proof. intros Ht j v Hj _ Hv. pose proof (has_false _ _ _ Ht _ _ Hj Hv) as E%Z.eqb_neq. unfold apart. cbn. intros Ep. by symmetry in Ep. Qed.

(** The end of [udp_bind], from any state of the counter. *)
Lemma bind_end_run s g l pcb u a x : pcb <> NULL -> upcbs g !! pcb = Some u ->
  (updu pcb (fun u => u <| up_local_ip := a |>) ;;; updu pcb (fun u => u <| up_local_port := x |>) ;;;
   (if bool_decide (pcb ∈ l) then ret tt else push_front pcb) ;;; ret ERR_OK) (with_udp s g) = Ok (ERR_OK, with_udp s (bound g l pcb u a x)).
Proof.
  intros Hp Hu. rewrite (updu_with _ _ _ _ _ _ Hp Hu), (updu_with _ _ _ _ _ _ Hp (put_get _ _ _)), put_udp_twice. unfold bound, named. case_bool_decide; [done|].
  rewrite (push_front_with _ _ _ _ _ Hp (put_get _ _ _)), put_udp_twice. done.
Qed.

(** What [udp_bind] did: nothing because of a conflict, or the block has the port asked for, or a free one. *)
Inductive bind_result (g : udp_globals) (l : list Z) (pcb : Z) (u : udp_pcb) (a port : Z) : Z -> udp_globals -> Prop :=
| bind_refused : port <> 0 -> has (upcbs g) (conflicts pcb a port u) l = true -> bind_result g l pcb u a port ERR_USE g
| bind_chosen : port <> 0 -> has (upcbs g) (conflicts pcb a port u) l = false -> bind_result g l pcb u a port ERR_OK (bound g l pcb u a port)
| bind_free x : port = 0 -> UDP_LOCAL_PORT_RANGE_START <= x <= UDP_LOCAL_PORT_RANGE_END -> taken g l x = false ->
    bind_result g l pcb u a port ERR_OK (bound (with_port g x) l pcb u a x).

Lemma udp_bind_run s l pcb u ip port : udp_table strict (udpg s) l -> upcbs (udpg s) !! pcb = Some u -> let a := match ip with Some a => a | None => IPADDR_ANY end in
  exists r g, udp_bind pcb ip port s = Ok (r, with_udp s g) /\ bind_result (udpg s) l pcb u a port r g.
Proof.
  intros Hv Hu a. pose proof (uv_keys _ _ Hv _ _ Hu) as Hk. assert (pcb <> NULL) as Hp by (unfold NULL; lia). pose proof (fuel_enough _ _ Hv) as Hf. unfold udp_bind. fold a.
  rewrite (proj2 (Z.eqb_neq _ _) Hp), getudp_run, upcb_fuel_run, (bind_run _ _ _ _ _ (on_list_run s l pcb _ _ (uv_list _ _ Hv) Hf)). destruct (port =? 0) eqn:E0.
  - apply Z.eqb_eq in E0. destruct (udp_new_port_run s l Hv) as (x & Ex & Hx & Ht). eexists _, _. split; [|by apply bind_free].
    rewrite bind_assoc, (bind_run _ _ _ _ _ Ex), (proj2 (Z.eqb_neq x 0)) by (unfold UDP_LOCAL_PORT_RANGE_START in Hx; lia). rewrite bind_ret. by apply bind_end_run.
  - apply Z.eqb_neq in E0. rewrite bind_assoc, (bind_run _ _ _ _ _ (bind_conflict_run s l pcb u a port Hp Hu _ _ (uv_list _ _ Hv) Hf)), bind_ret.
    destruct (has _ _ _) eqn:Ec.
    + eexists _, _. split; [|by apply bind_refused]. by rewrite with_udp_id.
    + eexists _, _. split; [|by apply bind_chosen]. rewrite <- (bind_end_run s (udpg s) l pcb u a port Hp Hu). by rewrite with_udp_id.
Qed.
Lemma bind_result_valid g l pcb u a port r g' : udp_table strict g l -> upcbs g !! pcb = Some u -> 0 <= port < 65536 -> bind_result g l pcb u a port r g' ->
  udp_table strict g' (if r =? ERR_OK then bound_list l pcb else l).
Proof.
  intros Hv Hu Hport Hr. unfold UDP_LOCAL_PORT_RANGE_START, UDP_LOCAL_PORT_RANGE_END in *. destruct Hr as [Hn Hc|Hn Hc|x Hn Hx Ht].
  - done.
  - change (ERR_OK =? ERR_OK) with true. apply valid_bound; [done|done|lia|intros _; by eapply conflict_apart].
  - change (ERR_OK =? ERR_OK) with true. apply valid_bound; [by apply valid_port|done|unfold UDP_LOCAL_PORT_RANGE_START, UDP_LOCAL_PORT_RANGE_END in Hx; lia|intros _; by eapply free_apart].
Qed.

Definition connected (u : udp_pcb) (a port : Z) : udp_pcb :=
  u <| up_remote_ip := a |> <| up_remote_port := port |> <| up_flags := Z.lor (up_flags u) UDP_FLAGS_CONNECTED |>.
Lemma connected_harmless u a port : harmless u (connected u a port).
Proof. by split. Qed.

Lemma bound_in_list g l pcb u : udp_table strict g l -> upcbs g !! pcb = Some u -> up_local_port u <> 0 -> pcb ∈ l.
Proof. intros Hv Hu Hp. by apply (uv_bound _ _ Hv _ _ Hu). Qed.

(** A block that is to send or to be connected: without a port it gets a free one. *)
Definition ensure_port (pcb : Z) (u : udp_pcb) : M (stack U) Z := if up_local_port u =? 0 then udp_bind pcb (Some (up_local_ip u)) (up_local_port u) else ret ERR_OK.
Lemma ensure_port_run s l pcb u : udp_table strict (udpg s) l -> upcbs (udpg s) !! pcb = Some u ->
  exists g l' x y, ensure_port pcb u s = Ok (ERR_OK, with_udp s g) /\ udp_table strict g l' /\ pcb ∈ l' /\ upcbs g !! pcb = Some ((named u (up_local_ip u) x) <| up_next := y |>) /\ 0 < x < 65536 /\
    (if up_local_port u =? 0 then taken (udpg s) l x = false else x = up_local_port u).
Proof.
  intros Hv Hu. unfold ensure_port. destruct (up_local_port u =? 0) eqn:E0.
  - apply Z.eqb_eq in E0. destruct (udp_bind_run s l pcb u (Some (up_local_ip u)) (up_local_port u) Hv Hu) as (r & g & E & Hr). pose proof (bind_result_valid _ _ _ _ _ (up_local_port u) _ _ Hv Hu ltac:(lia) Hr) as Hv1.
    rewrite E. destruct Hr as [Hn|Hn|x Hn Hx Ht]; [done|done|]. destruct (bound_get (with_port (udpg s) x) l pcb u (up_local_ip u) x) as (y & Hu1). exists (bound (with_port (udpg s) x) l pcb u (up_local_ip u) x), (bound_list l pcb), x, y.
    split; [done|]. split; [done|]. split; [apply in_bound_list; by left|]. split; [exact Hu1|]. split; [|done]. unfold UDP_LOCAL_PORT_RANGE_START, UDP_LOCAL_PORT_RANGE_END in Hx. lia.
  - apply Z.eqb_neq in E0. exists (udpg s), l, (up_local_port u), (up_next u). rewrite with_udp_id. split; [done|]. split; [done|]. split; [by eapply bound_in_list|]. split; [rewrite Hu; by destruct u|]. split; [|done].
    destruct (uv_bound _ _ Hv _ _ Hu) as [? _]. lia.
Qed.

(** Connecting never fails. *)
Lemma udp_connect_run s l pcb u a port : udp_table strict (udpg s) l -> upcbs (udpg s) !! pcb = Some u ->
  exists g l' x y, udp_connect pcb (Some a) port s = Ok (ERR_OK, with_udp s g) /\ udp_table strict g l' /\ pcb ∈ l' /\
    upcbs g !! pcb = Some (connected ((named u (up_local_ip u) x) <| up_next := y |>) a port) /\ (up_local_port u <> 0 -> x = up_local_port u).
Proof.
  intros Hv Hu. pose proof (uv_keys _ _ Hv _ _ Hu) as Hk. assert (pcb <> NULL) as Hp by (unfold NULL; lia). unfold udp_connect. rewrite (proj2 (Z.eqb_neq _ _) Hp), (getu_run _ _ _ _ Hp Hu).
  destruct (ensure_port_run s l pcb u Hv Hu) as (g1 & l1 & x & y & E1 & Hv1 & Hin & Hu1 & _ & Hx). fold (ensure_port pcb u). set (u1 := _ <| up_next := y |>) in Hu1.
  rewrite (bind_run _ _ _ _ _ E1). change (negb (ERR_OK =? ERR_OK)) with false. cbv iota.
  rewrite (updu_with _ _ _ _ _ _ Hp Hu1), (updu_with _ _ _ _ _ _ Hp (put_get _ _ _)), put_udp_twice, (updu_with _ _ _ _ _ _ Hp (put_get _ _ _)), put_udp_twice.
  set (g2 := put_upcb g1 pcb _). assert (udp_table strict g2 l1) as Hv2 by (apply (valid_put g1 l1 pcb u1 (connected u1 a port) Hv1 Hu1 (connected_harmless _ _ _))).
  assert (udp_table strict (udpg (with_udp s g2)) l1) as Hv2' by (by rewrite udpg_with). rewrite getudp_run, upcb_fuel_run, (bind_run _ _ _ _ _ (on_list_run (with_udp s g2) l1 pcb _ _ (uv_list _ _ Hv2') (fuel_enough _ _ Hv2'))).
  rewrite bool_decide_eq_true_2 by done. exists g2, l1, x, y. split; [done|]. split; [done|]. split; [done|]. split; [apply put_get|]. intros Hn. by rewrite (proj2 (Z.eqb_neq _ _) Hn) in Hx.
Qed.

Lemma udp_disconnect_run s l pcb u : udp_table strict (udpg s) l -> upcbs (udpg s) !! pcb = Some u ->
  exists g, udp_disconnect pcb s = Ok (tt, with_udp s g) /\ udp_table strict g l /\ exists u', upcbs g !! pcb = Some u' /\ up_remote_port u' = 0 /\ up_remote_ip u' = IPADDR_ANY /\ udp_is_flag_set u' UDP_FLAGS_CONNECTED = false.
Proof.
  intros Hv Hu. pose proof (uv_keys _ _ Hv _ _ Hu) as Hk. assert (pcb <> NULL) as Hp by (unfold NULL; lia). unfold udp_disconnect. rewrite (proj2 (Z.eqb_neq _ _) Hp), (updu_run _ _ _ _ _ Hp Hu).
  do 2 rewrite (updu_with _ _ _ _ _ _ Hp (put_get _ _ _)), put_udp_twice. rewrite (updu_with_end _ _ _ _ _ Hp (put_get _ _ _)), put_udp_twice. eexists. split; [done|]. split; [by eapply valid_put; [| |split]|].
  eexists. split; [apply put_get|]. split; [done|]. split; [done|]. unfold udp_is_flag_set. cbn. unfold u8 at 1. change 256 with (2 ^ 8). unfold nz. rewrite <- Z.land_ones by lia.
  change (u8 (Z.land (Z.lnot UDP_FLAGS_CONNECTED) 255)) with 251. rewrite <- !Z.land_assoc. change (Z.land 251 (Z.land (Z.ones 8) UDP_FLAGS_CONNECTED)) with 0. by rewrite Z.land_0_r.
Qed.
Lemma udp_recv_run s l pcb u f x : udp_table strict (udpg s) l -> upcbs (udpg s) !! pcb = Some u ->
  exists g, udp_recv pcb f x s = Ok (tt, with_udp s g) /\ udp_table strict g l /\ upcbs g !! pcb = Some (u <| up_recv := f |> <| up_recv_arg := x |>).
Proof.
  intros Hv Hu. pose proof (uv_keys _ _ Hv _ _ Hu) as Hk. assert (pcb <> NULL) as Hp by (unfold NULL; lia). unfold udp_recv. rewrite (proj2 (Z.eqb_neq _ _) Hp), (updu_run _ _ _ _ _ Hp Hu).
  rewrite (updu_with_end _ _ _ _ _ Hp (put_get _ _ _)), put_udp_twice. eexists. split; [done|]. split; [by eapply valid_put; [| |split]|]. apply put_get.
Qed.
Lemma udp_bind_netif_run s l pcb u b : udp_table strict (udpg s) l -> upcbs (udpg s) !! pcb = Some u -> exists g, udp_bind_netif pcb b s = Ok (tt, with_udp s g) /\ udp_table strict g l.
Proof.
  intros Hv Hu. pose proof (uv_keys _ _ Hv _ _ Hu) as Hk. assert (pcb <> NULL) as Hp by (unfold NULL; lia). unfold udp_bind_netif. rewrite (bind_run _ _ _ _ _ (eq_refl : gets nif s = Ok (nif s, s))).
  rewrite (updu_end _ _ _ _ Hp Hu). eexists. split; [done|]. by eapply valid_put; [| |split].
Qed.

Lemma bit_set z b : 0 <= b -> nz (Z.land z (2 ^ b)) = Z.testbit z b.
Proof.
  intros Hb. unfold nz. destruct (Z.testbit z b) eqn:E.
  - apply negb_true_iff, Z.eqb_neq. intros E0. apply (f_equal (fun y => Z.testbit y b)) in E0. by rewrite Z.land_spec, Z.pow2_bits_true, E, Z.bits_0 in E0 by done.
  - apply negb_false_iff, Z.eqb_eq. apply Z.bits_inj'. intros n Hn. rewrite Z.land_spec, Z.bits_0, Z.pow2_bits_eqb by done. destruct (Z.eqb_spec b n) as [<-|]; [by rewrite E|apply andb_false_r].
Qed.
Lemma option_kept o opt b : 0 <= b < 8 -> nz (Z.land o (2 ^ b)) = true -> nz (Z.land (u8 (Z.lor o opt)) (2 ^ b)) = true.
Proof. intros Hb. rewrite !bit_set by lia. intros E. unfold u8. change 256 with (2 ^ 8). rewrite Z.mod_pow2_bits_low by lia. by rewrite Z.lor_spec, E. Qed.
Lemma option_reset o opt b : 0 <= b < 8 -> nz (Z.land opt (2 ^ b)) = false -> nz (Z.land o (2 ^ b)) = true -> nz (Z.land (u8 (Z.land o (Z.lnot opt))) (2 ^ b)) = true.
Proof. intros Hb. rewrite !bit_set by lia. intros E0 E. unfold u8. change 256 with (2 ^ 8). rewrite Z.mod_pow2_bits_low by lia. by rewrite Z.land_spec, Z.lnot_spec, E, E0 by lia. Qed.
Lemma ip_set_option_run s l pcb u opt : udp_table strict (udpg s) l -> upcbs (udpg s) !! pcb = Some u -> exists g, ip_set_option pcb opt s = Ok (tt, with_udp s g) /\ udp_table strict g l.
Proof.
  intros Hv Hu. pose proof (uv_keys _ _ Hv _ _ Hu) as Hk. assert (pcb <> NULL) as Hp by (unfold NULL; lia). unfold ip_set_option. rewrite (updu_end _ _ _ _ Hp Hu). eexists. split; [done|].
  eapply valid_put; [done|done|]. split; [done|done|done|]. unfold reuses, ip_get_option. cbn. apply (option_kept _ _ 2). lia.
Qed.

(** ** Release and creation *)

Lemma unlink_none s pcb : forall l fuel p, ulist (upcbs (udpg s)) p l -> pcb ∉ l -> (length l < fuel)%nat -> pcb <> NULL -> unlink_loop fuel pcb p s = Ok (tt, s).
Proof.
  induction l as [|i l IH]; intros [|fuel] p Hl Hin Hf Hp; cbn [length] in Hf; try lia; cbn [unlink_loop].
  - cbn in Hl. by subst p.
  - apply not_elem_of_cons in Hin as [Hi2 Hin]. destruct Hl as (-> & Hi & u & Hu & Hl). rewrite (proj2 (Z.eqb_neq _ _) Hi), (getu_run _ _ _ _ Hi Hu).
    assert (up_next u <> pcb) as Hn. { destruct l as [|j l]; cbn in Hl; [by rewrite Hl|]. destruct Hl as (-> & _). apply not_elem_of_cons in Hin as [? _]. done. }
    rewrite (proj2 (Z.eqb_neq _ _) Hn), andb_false_r. apply IH; try done. lia.
Qed.
Lemma unlink_found s pcb u j v l2 : forall l1 fuel p, ulist (upcbs (udpg s)) p (l1 ++ j :: pcb :: l2) -> NoDup (l1 ++ j :: pcb :: l2) -> (length l1 < fuel)%nat ->
  upcbs (udpg s) !! pcb = Some u -> upcbs (udpg s) !! j = Some v ->
  unlink_loop fuel pcb p s = Ok (tt, with_udp s (put_upcb (udpg s) j (v <| up_next := up_next u |>))).
Proof.
  induction l1 as [|i l1 IH]; intros [|fuel] p Hl Hnd Hf Hu Hv; cbn [length app] in *; try lia; cbn [unlink_loop]; destruct Hl as (-> & Hi & w & Hw & Hl).
  - simplify_eq. rewrite (proj2 (Z.eqb_neq _ _) Hi), (getu_run _ _ _ _ Hi Hw). destruct Hl as (-> & Hp & _). rewrite (proj2 (Z.eqb_neq _ _) Hp), Z.eqb_refl. cbn [negb andb].
    rewrite (getu_run _ _ _ _ Hp Hu), (updu_end _ _ _ _ Hi Hw). done.
  - rewrite (proj2 (Z.eqb_neq _ _) Hi), (getu_run _ _ _ _ Hi Hw). apply NoDup_cons in Hnd as [Hi2 Hnd].
    assert (up_next w <> pcb) as Hn.
    { intros E. destruct l1 as [|k l1]; cbn [app] in *; destruct Hl as (E2 & _); rewrite E in E2; subst; apply NoDup_cons in Hnd as [Hn _]; apply Hn; [apply list_elem_of_here|].
      apply elem_of_app. right. apply list_elem_of_further, list_elem_of_here. }
    rewrite (proj2 (Z.eqb_neq _ _) Hn), andb_false_r. apply IH; try done. lia.
Qed.

(** A block that is no longer linked can go. *)
Definition freed (g : udp_globals) (pcb : Z) : udp_globals := g <| upcbs := delete pcb (upcbs g) |> <| upcb_left := upcb_left g + 1 |>.
Lemma memp_free_run s g pcb u : pcb <> NULL -> upcbs g !! pcb = Some u -> memp_free_upcb pcb (with_udp s g) = Ok (tt, with_udp s (freed g pcb)).
Proof. intros Hp Hu. unfold memp_free_upcb. rewrite (getu_with _ _ _ _ _ Hp Hu), modudp_end, udpg_with, with_udp_udp. done. Qed.

Record same_table (m m' : gmap Z udp_pcb) : Prop := {
  st_some : forall i u', m' !! i = Some u' -> exists u, m !! i = Some u /\ u' = u <| up_next := up_next u' |>;
  st_size : size m' = size m
}.
Lemma valid_freed g l l' pcb m p : udp_table strict g l -> same_table (upcbs g) m -> is_Some (m !! pcb) -> (forall i, i <> pcb -> i ∈ l <-> i ∈ l') -> NoDup l' -> pcb ∉ l' ->
  ulist (delete pcb m) p l' -> udp_table strict (freed (g <| upcbs := m |> <| udp_pcbs := p |>) pcb) l'.
Proof.
  intros [V1 V2 V3 V4 V5 V6 V7] [Hst Hsz] [u Hu] Hl Hnd Hpl Hul. split; cbn; try done.
  - intros i v [_ Hv]%lookup_delete_Some. destruct (Hst _ _ Hv) as (w & Hw & _). by eapply V4.
  - destruct V5 as (? & ? & ?). split; [lia|]. split; [lia|]. rewrite map_size_delete_Some by (by exists u). rewrite Hsz. assert (size (upcbs g) <> 0)%nat; [|lia].
    rewrite <- Hsz. intros E0%map_size_empty_inv. by rewrite E0, lookup_empty in Hu.
  - intros i v [Hi Hv]%lookup_delete_Some. destruct (Hst _ _ Hv) as (w & Hw & ->). cbn. destruct (V6 _ _ Hw) as [? Hb]. split; [done|]. by rewrite <- Hb, Hl.
  - intros Hstr i j v w Hi Hj Hij [_ Hv]%lookup_delete_Some [_ Hw]%lookup_delete_Some. destruct (Hst _ _ Hv) as (v' & Hv' & ->), (Hst _ _ Hw) as (w' & Hw' & ->).
    apply (V7 Hstr i j v' w'); try done; apply Hl; try done; by intros ->.
Qed.

Lemma same_table_refl m : same_table m m.
Proof. split; [|done]. intros i u Hu. exists u. split; [done|]. by destruct u. Qed.
Lemma same_table_link m j v x : m !! j = Some v -> same_table m (<[j := v <| up_next := x |>]> m).
Proof.
  intros Hv. split; [|by apply (size_put _ _ _ _ Hv)]. intros i u' Hu'. destruct (decide (j = i)) as [<-|Hij].
  - rewrite lookup_insert_eq in Hu'. injection Hu' as <-. exists v. split; [done|]. by destruct v.
  - rewrite lookup_insert_ne in Hu' by done. exists u'. split; [done|]. by destruct u'.
Qed.
Lemma globals_eta (g : udp_globals) : g <| upcbs := upcbs g |> <| udp_pcbs := udp_pcbs g |> = g.
Proof. by destruct g. Qed.

Lemma udp_remove_run s l pcb u : udp_table strict (udpg s) l -> upcbs (udpg s) !! pcb = Some u ->
  exists g l', udp_remove pcb s = Ok (tt, with_udp s g) /\ udp_table strict g l' /\ upcbs g !! pcb = None /\ upcb_left g = upcb_left (udpg s) + 1 /\
    (forall i, i <> pcb -> is_Some (upcbs g !! i) <-> is_Some (upcbs (udpg s) !! i)).
Proof.
  intros Hv Hu. pose proof (uv_keys _ _ Hv _ _ Hu) as Hk. assert (pcb <> NULL) as Hp by (unfold NULL; lia). pose proof (uv_list _ _ Hv) as Hl. pose proof (uv_nodup _ _ Hv) as Hnd.
  assert (exists m p l', (if udp_pcbs (udpg s) =? pcb then let* u := getu (udp_pcbs (udpg s)) in modudp (fun g => g <| udp_pcbs := up_next u |>)
      else let* k := upcb_fuel in unlink_loop k pcb (udp_pcbs (udpg s))) s = Ok (tt, with_udp s ((udpg s) <| upcbs := m |> <| udp_pcbs := p |>)) /\
    same_table (upcbs (udpg s)) m /\ is_Some (m !! pcb) /\ (forall i, is_Some (m !! i) <-> is_Some (upcbs (udpg s) !! i)) /\ (forall i, i <> pcb -> i ∈ l <-> i ∈ l') /\ NoDup l' /\ pcb ∉ l' /\ ulist (delete pcb m) p l')
    as (m & p & l' & E & Hst & Hs & Hdom & Hll & Hnd' & Hpl & Hul).
  { destruct (udp_pcbs (udpg s) =? pcb) eqn:Eh.
    - apply Z.eqb_eq in Eh. destruct l as [|i l]; [cbn in Hl; congruence|]. destruct Hl as (Ei & _ & u' & Hu' & Hl). assert (i = pcb) as -> by congruence. assert (u' = u) as -> by congruence. apply NoDup_cons in Hnd as [Hn Hnd].
      exists (upcbs (udpg s)), (up_next u), l. rewrite Eh, (getu_run _ _ _ _ Hp Hu), modudp_end. split; [by destruct (udpg s)|]. split; [apply same_table_refl|]. split; [by exists u|]. split; [done|].
      split; [intros j Hj; rewrite elem_of_cons; naive_solver|]. split; [done|]. split; [done|]. by apply ulist_delete.
    - apply Z.eqb_neq in Eh. rewrite upcb_fuel_run. destruct (decide (pcb ∈ l)) as [Hin|Hin].
      + apply list_elem_of_split in Hin as (l1 & l2 & ->). destruct l1 as [|j0 l1 _] using rev_ind; [by destruct Hl as (E0 & _)|]. rewrite <- app_assoc in Hl, Hnd, Hv. cbn [app] in Hl, Hnd, Hv.
        destruct (ulist_in _ _ _ j0 Hl ltac:(apply elem_of_app; right; apply list_elem_of_here)) as [Hj0 [v Hv0]]. pose proof (fuel_enough _ _ Hv) as Hf. rewrite length_app in Hf. cbn [length] in Hf.
        exists (<[j0 := v <| up_next := up_next u |>]> (upcbs (udpg s))), (udp_pcbs (udpg s)), (l1 ++ j0 :: l2). rewrite (unlink_found s pcb u j0 v l2 l1 (S (size (upcbs (udpg s)))) _ Hl Hnd ltac:(lia) Hu Hv0).
        pose proof (ulist_unlink _ _ _ _ _ _ _ _ Hl Hnd Hv0 Hu) as Hul. assert (pcb <> j0 /\ pcb ∉ l1 /\ pcb ∉ l2) as (Hn1 & Hn2 & Hn3).
        { apply NoDup_app in Hnd as (_ & Hd & Hnd). apply NoDup_cons in Hnd as [Hj Hnd]. apply NoDup_cons in Hnd as [Hj2 _]. split; [|split; [|done]].
          - intros ->. apply Hj, list_elem_of_here.
          - intros Hc. apply (Hd _ Hc). apply list_elem_of_further, list_elem_of_here. }
        split; [by destruct (udpg s)|]. split; [by apply same_table_link|]. split; [rewrite lookup_insert_ne by done; by exists u|].
        split; [intros i; destruct (decide (j0 = i)) as [<-|]; [rewrite lookup_insert_eq, Hv0; split; intros _; eauto|by rewrite lookup_insert_ne]|].
        split; [intros i Hi; set_solver|]. split.
        { clear -Hnd. apply NoDup_app in Hnd as (A1 & A2 & A3). apply NoDup_app. split; [done|]. apply NoDup_cons in A3 as [B1 B2]. apply NoDup_cons in B2 as [B3 B4]. split; [intros y Hy Hc; apply (A2 y Hy); set_solver|]. constructor; [set_solver|done]. }
        assert (pcb ∉ l1 ++ j0 :: l2) as Hnin by (rewrite elem_of_app, elem_of_cons; naive_solver). split; [done|]. by apply ulist_delete.
      + exists (upcbs (udpg s)), (udp_pcbs (udpg s)), l. rewrite (unlink_none s pcb l _ _ Hl Hin (fuel_enough _ _ Hv) Hp). split; [by rewrite globals_eta, with_udp_id|]. split; [apply same_table_refl|].
        split; [by exists u|]. split; [done|]. split; [done|]. split; [done|]. split; [done|]. by apply ulist_delete. }
  set (g1 := (udpg s) <| upcbs := m |> <| udp_pcbs := p |>) in *. destruct Hs as [u1 Hu1]. exists (freed g1 pcb), l'. unfold udp_remove. rewrite (proj2 (Z.eqb_neq _ _) Hp), getudp_run, (bind_run _ _ _ _ _ E).
  rewrite (memp_free_run s g1 pcb u1 Hp Hu1). split; [done|]. split; [by apply (valid_freed (udpg s) l l' pcb m p)|]. split; [apply lookup_delete_eq|]. split; [done|]. intros i Hi. cbn. rewrite lookup_delete_ne by done. apply Hdom.
Qed.

Definition fresh_pcb : udp_pcb := mk_udp_pcb 0 0 0 0 0 UDP_TTL 0 NULL 0 0 0 0 0 UDP_TTL NULL 0.
Lemma udp_new_run s l : udp_table strict (udpg s) l -> exists r g, udp_new s = Ok (r, with_udp s g) /\ udp_table strict g l /\
  ((r = NULL /\ upcb_left (udpg s) = 0 /\ g = udpg s) \/ (upcbs (udpg s) !! r = None /\ r <> NULL /\ upcbs g = <[r := fresh_pcb]> (upcbs (udpg s)))).
Proof.
  intros Hv. destruct (uv_left _ _ Hv) as (L1 & L2 & L3). unfold udp_new, memp_malloc_upcb. rewrite bind_assoc, getudp_run. destruct (upcb_left (udpg s) =? 0) eqn:E0.
  - apply Z.eqb_eq in E0. exists NULL, (udpg s). rewrite with_udp_id. split; [done|]. split; [done|]. by left.
  - apply Z.eqb_neq in E0. rewrite bind_assoc, getudp_run, bind_assoc, modudp_run, bind_ret. set (r := next_upcb (udpg s)) in *. assert (r <> NULL) as Hr by (unfold NULL; lia). rewrite (proj2 (Z.eqb_neq _ _) Hr).
    set (g1 := (udpg s) <| upcb_left := _ |> <| next_upcb := _ |> <| upcbs := _ |>). assert (upcbs g1 !! r = Some (mk_udp_pcb 0 0 0 0 0 0 0 NULL 0 0 0 0 0 0 NULL 0)) as Hg1 by apply lookup_insert_eq.
    rewrite (updu_with _ _ _ _ _ _ Hr Hg1), (updu_with _ _ _ _ _ _ Hr (put_get _ _ _)), put_udp_twice. assert (upcbs (udpg s) !! r = None) as Hfree.
    { destruct (upcbs (udpg s) !! r) as [w|] eqn:Ew; [|done]. apply (uv_keys _ _ Hv) in Ew. lia. }
    set (g2 := put_upcb g1 r _). assert (upcbs g2 = <[r := fresh_pcb]> (upcbs (udpg s))) as Eg by (unfold g2, g1; cbn; apply insert_insert_eq).
    assert (r ∉ l) as Hrl by (intros Hin; destruct (ulist_in _ _ _ _ (uv_list _ _ Hv) Hin) as [_ [w Hw]]; congruence).
    exists r, g2. split; [done|]. split; [|by right]. destruct Hv as [V1 V2 V3 V4 V5 V6 V7]. split; rewrite ?Eg; try done.
    + by apply ulist_insert.
    + intros i w Hw. change (next_upcb g2) with (r + 1). destruct (decide (r = i)) as [<-|Hi]; [lia|]. rewrite lookup_insert_ne in Hw by done. apply V4 in Hw. lia.
    + change (upcb_left g2) with (upcb_left (udpg s) - 1). change (next_upcb g2) with (r + 1). rewrite map_size_insert_None by done. lia.
    + intros i w Hw. destruct (decide (r = i)) as [<-|Hi]; [|rewrite lookup_insert_ne in Hw by done; by apply V6]. rewrite lookup_insert_eq in Hw. injection Hw as <-. by cbn.
    + intros Hst i j v w Hi Hj Hij Hv Hw. rewrite lookup_insert_ne in Hv, Hw by (intros ->; done). by eapply (V7 Hst i j).
Qed.

End Table.
