(* ===== verification/UdpCalls.v ===== *)
(** The calls an application makes of UDP, in any order: what they keep of the
    table of control blocks. *)

From stdpp Require Import gmap.
From S2P Require Import Prelude Cmonad Cutils Heap Pbuf Inet Ethernet Etharp IpOutput Icmp Udp UdpTable.

(** ** Sending leaves the table alone *)

Section Output.
Context `{PbufEnv} `{Addresses} {U : Type} `{UdpIn U}.

Definition same_udp (s s' : stack U) : Prop := udp_get (upper s') = udp_get (upper s).
#[export] Instance same_udp_preorder : PreOrder same_udp.
Proof. split; [done|]. intros s1 s2 s3 E1 E2. unfold same_udp in *. congruence. Qed.

Lemma same_onmem {A} (m : M lmem A) : pres same_udp (onmem m).
Proof. by apply pres_zoom. Qed.
Lemma same_modify f : (forall s, same_udp s (f s)) -> pres same_udp (modify f).
Proof. apply (pres_modify same_udp). Qed.
Lemma same_modip f : pres same_udp (modip f).
Proof. apply same_modify. intros s. apply udp_get_ip. Qed.
Lemma same_getip {A} (f : ip_globals -> A) : pres same_udp (getip f).
Proof. apply (pres_gets same_udp). Qed.
Lemma same_entry i : pres same_udp (entry i).
Proof. intros s. unfold wlp, entry. destruct (_ !! _); [|done]. by destruct (0 <=? i). Qed.
Lemma same_hint i : pres same_udp (ETHARP_SET_ADDRHINT i).
Proof. apply same_modify. intros s. by destruct (nf_hint (nif s)). Qed.
#[local] Hint Resolve same_onmem same_modip same_getip same_entry same_hint : pres.
#[local] Hint Extern 1 (pres same_udp (modify _)) => apply same_modify; intros ?; reflexivity : pres.
Ltac same := pres_walk same_udp.

Lemma same_rd q off n : pres same_udp (rd q off n).
Proof. unfold rd. same. Qed.
Lemma same_wr q off d : pres same_udp (wr q off d).
Proof. unfold wr. same. Qed.
Lemma same_chksum q n : pres same_udp (chksum_at q n).
Proof. unfold chksum_at. same. Qed.
Lemma same_upd i f : pres same_udp (upd_entry i f).
Proof. unfold upd_entry. same. Qed.
Lemma same_linkoutput p : pres same_udp (linkoutput p).
Proof. unfold linkoutput. same. Qed.
#[local] Hint Resolve same_rd same_wr same_chksum same_upd same_linkoutput : pres.
Lemma same_ethernet p src dst ty : pres same_udp (ethernet_output p src dst ty).
Proof. unfold ethernet_output. same. Qed.
Lemma same_free i : pres same_udp (etharp_free_entry i).
Proof. unfold etharp_free_entry. same. Qed.
#[local] Hint Resolve same_ethernet same_free : pres.
Lemma same_find a flags : pres same_udp (etharp_find_entry a flags).
Proof. unfold etharp_find_entry. same. Qed.
Lemma same_raw a b c d e f g : pres same_udp (etharp_raw a b c d e f g).
Proof. unfold etharp_raw. same. Qed.
#[local] Hint Resolve same_find same_raw : pres.
Lemma same_request_dst a h : pres same_udp (etharp_request_dst a h).
Proof. unfold etharp_request_dst. same. Qed.
#[local] Hint Resolve same_request_dst : pres.
Lemma same_request a : pres same_udp (etharp_request a).
Proof. unfold etharp_request. same. Qed.
#[local] Hint Resolve same_request : pres.
Lemma same_to_index q i : pres same_udp (etharp_output_to_arp_index q i).
Proof. unfold etharp_output_to_arp_index. same. Qed.
Lemma same_query a q : pres same_udp (etharp_query a q).
Proof. unfold etharp_query. same. Qed.
#[local] Hint Resolve same_to_index same_query : pres.
Lemma same_etharp_output q a : pres same_udp (etharp_output q a).
Proof. unfold etharp_output. same. Qed.
#[local] Hint Resolve same_etharp_output : pres.
Lemma same_frag_loop fuel p h d mf left ofo poff : pres same_udp (frag_loop fuel p h d mf left ofo poff).
Proof. revert left ofo poff. induction fuel; intros; cbn [frag_loop]; [apply pres_hang|]. same. Qed.
#[local] Hint Resolve same_frag_loop : pres.
Lemma same_frag p d : pres same_udp (ip4_frag p d).
Proof. unfold ip4_frag. same. Qed.
#[local] Hint Resolve same_frag : pres.
Lemma same_output_to p d : pres same_udp (output_to p d).
Proof. unfold output_to. same. Qed.
Lemma same_put_options p o n : pres same_udp (put_options p o n).
Proof. unfold put_options. same. Qed.
#[local] Hint Resolve same_output_to same_put_options : pres.
Lemma same_ip4_output p src dest ttl tos proto : pres same_udp (ip4_output_if_src p src dest ttl tos proto).
Proof. unfold ip4_output_if_src, ip4_output_if_opt_src. same. Qed.
Lemma same_header p : pres same_udp (header_packet p).
Proof. unfold header_packet. same. Qed.
Lemma same_route d : pres same_udp (ip4_route d).
Proof. unfold ip4_route. same. Qed.
Lemma same_mark p f : pres same_udp (mark p f).
Proof. unfold mark. same. Qed.
#[local] Hint Resolve same_route : pres.
Lemma same_sendto_netif u d : pres same_udp (sendto_netif u d).
Proof. unfold sendto_netif. same. Qed.
End Output.

(** ** What is kept *)

Definition utable_ok (strict : bool) (g : udp_globals) : Prop := exists l, udp_table strict g l.

Lemma table_weaken strict g : utable_ok strict g -> utable_ok false g.
Proof. intros [l [V1 V2 V3 V4 V5 V6 _]]. exists l. by split. Qed.

Section Sends.
Context `{PbufEnv} `{Addresses} {U : Type} `{UdpIn U} (strict : bool).
Implicit Types s : stack U.

Definition kept s s' : Prop := utable_ok strict (udpg s) -> utable_ok strict (udpg s').
#[export] Instance kept_preorder : PreOrder kept.
Proof. split; [by intros s Hs|]. intros s1 s2 s3 E1 E2 Hs. by apply E2, E1. Qed.

Lemma same_kept {A} (m : M (stack U) A) : pres same_udp m -> pres kept m.
Proof. intros Hm s. eapply wlp_mono; [apply Hm|]. intros a s' E. unfold kept, udpg. by rewrite E. Qed.

(** A block that is read is in the table. *)
Lemma kept_getu {A} pcb (k : udp_pcb -> M (stack U) A) : (forall u s, upcbs (udpg s) !! pcb = Some u -> pcb <> NULL -> wlp (k u) (fun _ s' => kept s s') s) -> pres kept (bind (getu pcb) k).
Proof.
  intros Hk s. unfold wlp, bind, getu. destruct (Z.eqb_spec pcb NULL) as [|Hp]; [done|]. destruct (upcbs (udp_get (upper s)) !! pcb) as [u|] eqn:Hu; [|done]. exact (Hk u s Hu Hp).
Qed.
Lemma kept_updu pcb f : (forall u, harmless u (f u)) -> pres kept (updu pcb f).
Proof.
  intros Hf. unfold updu. apply kept_getu. intros u s Hu Hp [l Hv]. exists l. change (udp_table strict (udpg (with_udp s (put_upcb (udpg s) pcb (f u)))) l).
  rewrite udpg_with. by eapply valid_put.
Qed.
Lemma kept_ensure {A} pcb u s (k : Z -> M (stack U) A) : upcbs (udpg s) !! pcb = Some u -> (forall r, pres kept (k r)) ->
  wlp (bind (ensure_port pcb u) k) (fun _ s' => kept s s') s.
Proof.
  intros Hu Hk. unfold wlp. destruct (bind (ensure_port pcb u) k s) as [[a s']| |] eqn:E; [|done|done]. intros [l Hv].
  destruct (ensure_port_run s l pcb u Hv Hu) as (g & l' & x & y & E1 & Hv1 & _). rewrite (bind_run _ _ _ _ _ E1) in E.
  apply (pres_run kept _ _ _ _ (Hk ERR_OK) E). rewrite udpg_with. by exists l'.
Qed.

#[local] Hint Extern 2 (pres kept _) => apply same_kept; first [apply same_onmem|apply same_wr|apply same_header|apply same_mark|apply same_ip4_output|apply same_sendto_netif] : pres.
#[local] Hint Extern 1 (pres kept (modify _)) => apply same_kept, same_modify; intros ?; reflexivity : pres.
#[local] Hint Extern 1 (pres kept (updu _ _)) => apply kept_updu; intros ?; by split : pres.
Lemma kept_getu_any pcb : pres kept (getu pcb).
Proof. intros s. unfold wlp, getu. destruct (_ =? _); [done|]. by destruct (_ !! _). Qed.
#[local] Hint Resolve kept_getu_any : pres.
Ltac keep := pres_walk kept.

Lemma kept_sendto_if_src pcb p dst port src : pres kept (udp_sendto_if_src pcb p dst port src).
Proof.
  unfold udp_sendto_if_src. destruct dst as [dst|]; [|keep]. destruct src as [src|]; [|keep]. destruct (_ || _); [keep|].
  apply kept_getu. intros u s Hu Hp. apply wlp_bind, wlp_gets. destruct (_ && _); [by apply wlp_ret|]. fold (ensure_port pcb u). apply (kept_ensure _ _ _ _ Hu).
  intros r. keep.
Qed.
#[local] Hint Resolve kept_sendto_if_src : pres.
Lemma kept_sendto_if pcb p dst port : pres kept (udp_sendto_if pcb p dst port).
Proof. unfold udp_sendto_if. keep. Qed.
#[local] Hint Resolve kept_sendto_if : pres.
Lemma kept_sendto pcb p dst port : pres kept (udp_sendto pcb p dst port).
Proof. unfold udp_sendto. keep. Qed.
#[local] Hint Resolve kept_sendto : pres.
Lemma kept_send pcb p : pres kept (udp_send pcb p).
Proof. unfold udp_send. keep. Qed.
End Sends.

(** ** A new address of the interface *)

Fixpoint readdressed (m : gmap Z udp_pcb) (l : list Z) (old_addr new_addr : Z) : gmap Z udp_pcb :=
  match l with
  | [] => m
  | i :: l => readdressed (match m !! i with Some u => if up_local_ip u =? old_addr then <[i := u <| up_local_ip := new_addr |>]> m else m | None => m end) l old_addr new_addr
  end.
Lemma readdressed_get old_addr new_addr l : forall m i, NoDup l -> readdressed m l old_addr new_addr !! i =
  (fun u => if bool_decide (i ∈ l) && (up_local_ip u =? old_addr) then u <| up_local_ip := new_addr |> else u) <$> m !! i.
Proof.
  induction l as [|j l IH]; intros m i Hn; cbn [readdressed]; [by destruct (m !! i)|]. apply NoDup_cons in Hn as [Hj Hn]. rewrite (IH _ i Hn). destruct (decide (i = j)) as [->|Hij].
  - rewrite (bool_decide_eq_false_2 (j ∈ l)), (bool_decide_eq_true_2 (j ∈ j :: l)) by (done || apply list_elem_of_here). cbn [andb]. destruct (m !! j) as [u|] eqn:Hu; cbn [fmap option_fmap option_map]; [|by rewrite Hu].
    destruct (_ =? old_addr); [by rewrite lookup_insert_eq|by rewrite Hu].
  - assert (bool_decide (i ∈ j :: l) = bool_decide (i ∈ l)) as -> by (apply bool_decide_ext; rewrite elem_of_cons; naive_solver).
    destruct (m !! j) as [u|]; [|done]. destruct (_ =? old_addr); [|done]. by rewrite lookup_insert_ne.
Qed.

Lemma readdressed_list old_addr new_addr p l l0 : forall m, ulist m p l -> ulist (readdressed m l0 old_addr new_addr) p l.
Proof.
  induction l0 as [|i l0 IH]; intros m Hl; [done|]. cbn [readdressed]. apply IH. destruct (m !! i) as [u|] eqn:Hu; [|done]. destruct (_ =? _); [|done]. by eapply ulist_update.
Qed.
Lemma readdressed_size old_addr new_addr l0 : forall m, size (readdressed m l0 old_addr new_addr) = size m.
Proof.
  induction l0 as [|i l0 IH]; intros m; [done|]. cbn [readdressed]. rewrite IH. destruct (m !! i) as [u|] eqn:Hu; [|done]. destruct (_ =? _); [|done]. by eapply size_put.
Qed.

(** No block at the old address meets, at the new one, another block with its port. *)
Definition move_free (g : udp_globals) (old_addr new_addr : Z) : Prop :=
  forall i j u v, i <> j -> upcbs g !! i = Some u -> upcbs g !! j = Some v -> up_local_port u <> 0 -> up_local_port u = up_local_port v ->
    up_local_ip u = old_addr -> up_local_ip v = new_addr -> reuses u /\ reuses v.

Lemma moved_apart g old_addr new_addr : old_addr <> IPADDR_ANY -> new_addr <> IPADDR_ANY -> move_free g old_addr new_addr ->
  let f u := if up_local_ip u =? old_addr then u <| up_local_ip := new_addr |> else u in
  forall i j u v, i <> j -> upcbs g !! i = Some u -> upcbs g !! j = Some v -> up_local_port u <> 0 -> apart u v -> apart (f u) (f v).
Proof.
  intros Ho Hn Hm f i j u v Hij Hu Hv Hp Ha. assert (forall w, up_local_port (f w) = up_local_port w /\ (reuses (f w) <-> reuses w)) as Hf by (intros w; unfold f; by destruct (_ =? _)).
  unfold apart. rewrite (proj1 (Hf u)), (proj1 (Hf v)), (proj2 (Hf u)), (proj2 (Hf v)). intros Ep Eo. unfold f in Eo.
  destruct (Z.eqb_spec (up_local_ip u) old_addr) as [Eu|Eu], (Z.eqb_spec (up_local_ip v) old_addr) as [Ev|Ev]; cbn in Eo.
  - apply Ha; [done|]. left. congruence.
  - destruct Eo as [Eo|[Eo|Eo]]; [|done|apply Ha; [done|by right; right]]. by apply (Hm i j).
  - destruct Eo as [Eo|[Eo|Eo]]; [|apply Ha; [done|by right; left]|done]. destruct (Hm j i v u); try done; congruence.
  - by apply Ha.
Qed.
Lemma readdressed_table strict g l old_addr new_addr : udp_table strict g l -> old_addr <> IPADDR_ANY -> new_addr <> IPADDR_ANY -> (strict = true -> move_free g old_addr new_addr) ->
  udp_table strict (g <| upcbs := readdressed (upcbs g) l old_addr new_addr |>) l.
Proof.
  intros [V1 V2 V3 V4 V5 V6 V7] Ho Hn Hm. set (f u := if up_local_ip u =? old_addr then u <| up_local_ip := new_addr |> else u).
  assert (forall i u', readdressed (upcbs g) l old_addr new_addr !! i = Some u' -> exists u, upcbs g !! i = Some u /\ up_local_port u' = up_local_port u /\ (i ∈ l -> u' = f u)) as Hget.
  { intros i u'. rewrite readdressed_get by done. intros (u & Hu & ->)%fmap_Some_1. exists u. split; [done|]. split; [by destruct (_ && _)|]. intros Hi. by rewrite bool_decide_eq_true_2. }
  split; cbn; try done.
  - by apply readdressed_list.
  - intros i u' Hu'. destruct (Hget _ _ Hu') as (u & Hu & _). by eapply V4.
  - by rewrite readdressed_size.
  - intros i u' Hu'. destruct (Hget _ _ Hu') as (u & Hu & -> & _). by apply V6.
  - intros Hst i j u' v' Hi Hj Hij Hu' Hv'. destruct (Hget _ _ Hu') as (u & Hu & _ & Eu). destruct (Hget _ _ Hv') as (v & Hv & _ & Ev). rewrite (Eu Hi), (Ev Hj).
    apply (moved_apart g old_addr new_addr Ho Hn (Hm Hst) i j u v Hij Hu Hv); [by apply (V6 _ _ Hu)|by apply (V7 Hst i j)].
Qed.

Section Calls.
Context `{PbufEnv} `{Addresses} {U : Type} `{UdpIn U}.
Implicit Types s : stack U.

Lemma addr_changed_loop_run old_addr new_addr l : forall fuel p s, ulist (upcbs (udpg s)) p l -> NoDup l -> (length l < fuel)%nat ->
  addr_changed_loop fuel p old_addr new_addr s = Ok (tt, with_udp s ((udpg s) <| upcbs := readdressed (upcbs (udpg s)) l old_addr new_addr |>)).
Proof.
  induction l as [|i l IH]; intros [|fuel] p s Hl Hn Hf; cbn [length] in Hf; try lia; cbn [addr_changed_loop readdressed].
  - cbn in Hl. subst p. change (NULL =? NULL) with true. unfold ret. do 2 f_equal. rewrite <- (with_udp_id s) at 1. by destruct (udpg s).
  - apply NoDup_cons in Hn as [Hi2 Hn]. destruct Hl as (-> & Hi & u & Hu & Hl). rewrite (proj2 (Z.eqb_neq _ _) Hi), (getu_run _ _ _ _ Hi Hu), Hu. destruct (up_local_ip u =? old_addr).
    + rewrite (updu_run _ _ _ _ _ Hi Hu), (getu_with _ _ _ _ _ Hi (put_get _ _ _)). rewrite IH; rewrite ?udpg_with, ?with_udp_udp; try done; [|lia]. by apply ulist_insert.
    + rewrite bind_ret, (getu_run _ _ _ _ Hi Hu). apply IH; [done|done|lia].
Qed.
Lemma addr_changed_run {strict} s l old_addr new_addr : udp_table strict (udpg s) l -> old_addr <> IPADDR_ANY -> new_addr <> IPADDR_ANY ->
  udp_netif_ip_addr_changed old_addr new_addr s = Ok (tt, with_udp s ((udpg s) <| upcbs := readdressed (upcbs (udpg s)) l old_addr new_addr |>)).
Proof.
  intros Hv Ho Hn. unfold udp_netif_ip_addr_changed, ip4_addr_isany_val. rewrite (proj2 (Z.eqb_neq _ _) Ho), (proj2 (Z.eqb_neq _ _) Hn). cbn [negb andb].
  rewrite getudp_run, upcb_fuel_run. apply addr_changed_loop_run; [apply (uv_list _ _ Hv)|apply (uv_nodup _ _ Hv)|apply (fuel_enough _ _ Hv)].
Qed.
(** A block that follows the interface to an address where another block is bound to the same port ends up there
    beside it, although [udp_bind] would have refused that. *)
Lemma address_change_clash {strict} s l i j u v old_addr new_addr : udp_table strict (udpg s) l -> i ∈ l -> j ∈ l -> i <> j -> upcbs (udpg s) !! i = Some u -> upcbs (udpg s) !! j = Some v -> ~ reuses u ->
  up_local_ip u = old_addr -> up_local_ip v = new_addr -> up_local_port u = up_local_port v -> old_addr <> IPADDR_ANY -> new_addr <> IPADDR_ANY -> old_addr <> new_addr ->
  exists g u', udp_netif_ip_addr_changed old_addr new_addr s = Ok (tt, with_udp s g) /\ upcbs g !! i = Some u' /\ upcbs g !! j = Some v /\ ~ apart u' v.
Proof.
  intros Hv Hi Hj Hij Hu Hvv Hr Eo En Ep Ho Hn Hon. rewrite (addr_changed_run s l _ _ Hv Ho Hn). eexists _, (u <| up_local_ip := new_addr |>). split; [done|]. cbn.
  rewrite !readdressed_get, Hu, Hvv by apply (uv_nodup _ _ Hv). cbn. rewrite !bool_decide_eq_true_2 by done. rewrite (proj2 (Z.eqb_eq _ _) Eo), (proj2 (Z.eqb_neq (up_local_ip v) old_addr)) by congruence. cbn [andb].
  split; [done|]. split; [done|]. intros Ha. apply Hr. apply Ha; [done|]. left. cbn. done.
Qed.

(** ** The calls *)

(** The functions of udp.c, with the macros for the options of a block and the
    notice of a new address; [p] is the packet to send. *)
Inductive udp_call :=
| C_new
| C_bind (pcb : Z) (ip : option Z) (port : Z)
| C_bind_netif (pcb : Z) (netif : bool)
| C_connect (pcb : Z) (ip : option Z) (port : Z)
| C_disconnect (pcb : Z)
| C_recv (pcb recv arg : Z)
| C_set_option (pcb opt : Z)
| C_reset_option (pcb opt : Z)
| C_remove (pcb : Z)
| C_addr_changed (old_addr new_addr : Z)
| C_send (pcb p : Z)
| C_sendto (pcb p : Z) (dst : option Z) (port : Z)
| C_sendto_if (pcb p : Z) (dst : option Z) (port : Z)
| C_sendto_if_src (pcb p : Z) (dst : option Z) (port : Z) (src : option Z).
Definition exec (c : udp_call) : M (stack U) unit :=
  match c with
  | C_new => udp_new ;;; ret tt
  | C_bind pcb ip port => udp_bind pcb ip port ;;; ret tt
  | C_bind_netif pcb netif => udp_bind_netif pcb netif
  | C_connect pcb ip port => udp_connect pcb ip port ;;; ret tt
  | C_disconnect pcb => udp_disconnect pcb
  | C_recv pcb recv arg => udp_recv pcb recv arg
  | C_set_option pcb opt => ip_set_option pcb opt
  | C_reset_option pcb opt => ip_reset_option pcb opt
  | C_remove pcb => udp_remove pcb
  | C_addr_changed old_addr new_addr => udp_netif_ip_addr_changed old_addr new_addr
  | C_send pcb p => udp_send pcb p ;;; ret tt
  | C_sendto pcb p dst port => udp_sendto pcb p dst port ;;; ret tt
  | C_sendto_if pcb p dst port => udp_sendto_if pcb p dst port ;;; ret tt
  | C_sendto_if_src pcb p dst port src => udp_sendto_if_src pcb p dst port src ;;; ret tt
  end.
Definition sends (c : udp_call) : bool :=
  match c with C_send _ _ | C_sendto _ _ _ _ | C_sendto_if _ _ _ _ | C_sendto_if_src _ _ _ _ _ => true | _ => false end.
(** The call is about a block that is in use, and its port has 16 bits. *)
Definition handle_ok (g : udp_globals) (c : udp_call) : Prop :=
  match c with
  | C_new | C_addr_changed _ _ => True
  | C_bind pcb _ port | C_connect pcb _ port => is_Some (upcbs g !! pcb) /\ 0 <= port < 65536
  | C_bind_netif pcb _ | C_disconnect pcb | C_recv pcb _ _ | C_set_option pcb _ | C_reset_option pcb _ | C_remove pcb
  | C_send pcb _ | C_sendto pcb _ _ _ | C_sendto_if pcb _ _ _ | C_sendto_if_src pcb _ _ _ _ => is_Some (upcbs g !! pcb)
  end.
(** No block takes back its consent while it shares its port, and no address
    change brings two blocks together. *)
Definition clash_free (g : udp_globals) (c : udp_call) : Prop :=
  match c with
  | C_reset_option pcb opt => nz (Z.land opt SOF_REUSEADDR) = false \/
      forall u j v, upcbs g !! pcb = Some u -> upcbs g !! j = Some v -> j <> pcb -> up_local_port u <> 0 -> up_local_port u = up_local_port v -> ~ overlap (up_local_ip u) (up_local_ip v)
  | C_addr_changed old_addr new_addr => old_addr = IPADDR_ANY \/ new_addr = IPADDR_ANY \/ move_free g old_addr new_addr
  | _ => True
  end.
(** Calls one after the other, clash-free ones only if [strict]. *)
Inductive udp_run (strict : bool) : stack U -> stack U -> Prop :=
| run_none s : udp_run strict s s
| run_call s c s1 s2 : handle_ok (udpg s) c -> (strict = true -> clash_free (udpg s) c) -> exec c s = Ok (tt, s1) -> udp_run strict s1 s2 -> udp_run strict s s2.

Lemma ip_reset_option_run {strict} s l pcb u opt : udp_table strict (udpg s) l -> upcbs (udpg s) !! pcb = Some u -> (strict = true -> clash_free (udpg s) (C_reset_option pcb opt)) ->
  exists g, ip_reset_option pcb opt s = Ok (tt, with_udp s g) /\ udp_table strict g l.
Proof.
  intros Hv Hu Hf. pose proof (uv_keys _ _ Hv _ _ Hu) as Hk. assert (pcb <> NULL) as Hp by (unfold NULL; lia). unfold ip_reset_option. rewrite (updu_end _ _ _ _ Hp Hu). eexists. split; [done|].
  eapply valid_replace; [done|done|done|done|]. intros Hst Hi j v Hj Hji Hvj. pose proof (uv_apart _ _ Hv Hst pcb j u v Hi Hj (not_eq_sym Hji) Hu Hvj) as Ha. destruct (Hf Hst) as [Ho|Halone].
  - eapply apart_harmless; [|exact Ha]. split; [done|done|done|]. unfold reuses, ip_get_option. cbn. apply (option_reset _ _ 2); [lia|exact Ho].
  - intros Ep Eo. exfalso. apply (Halone u j v Hu Hvj Hji); [by apply (uv_bound _ _ Hv _ _ Hu)|exact Ep|exact Eo].
Qed.
(** Without that: of two blocks that share a port by consent, one takes its
    consent back, and both stay where they are. *)
Lemma reset_option_clash {strict} s l i j u v : udp_table strict (udpg s) l -> i <> j -> upcbs (udpg s) !! i = Some u -> upcbs (udpg s) !! j = Some v ->
  up_local_port u = up_local_port v -> overlap (up_local_ip u) (up_local_ip v) ->
  exists g u', ip_reset_option i SOF_REUSEADDR s = Ok (tt, with_udp s g) /\ upcbs g !! i = Some u' /\ upcbs g !! j = Some v /\ ~ apart u' v.
Proof.
  intros Hv Hij Hu Hvv Ep Eo. pose proof (uv_keys _ _ Hv _ _ Hu) as Hk. assert (i <> NULL) as Hp by (unfold NULL; lia). unfold ip_reset_option. rewrite (updu_end _ _ _ _ Hp Hu). eexists _, _.
  split; [done|]. split; [apply put_get|]. split; [etransitivity; [by apply lookup_insert_ne|done]|]. intros Ha. destruct (Ha Ep Eo) as [Hr _]. revert Hr. unfold reuses, ip_get_option, SOF_REUSEADDR.
  match goal with |- nz (Z.land (up_so_options (set _ _ _)) _) = true -> _ => change (nz (Z.land (u8 (Z.land (up_so_options u) (Z.lnot 4))) (2 ^ 2)) = true -> False) end.
  rewrite bit_set by lia. unfold u8. change 256 with (2 ^ 8). rewrite Z.mod_pow2_bits_low, Z.land_spec, Z.lnot_spec by lia. by rewrite andb_false_r.
Qed.
Lemma addr_changed_ok {strict} s l old_addr new_addr : udp_table strict (udpg s) l -> (strict = true -> clash_free (udpg s) (C_addr_changed old_addr new_addr)) ->
  exists g, udp_netif_ip_addr_changed old_addr new_addr s = Ok (tt, with_udp s g) /\ udp_table strict g l.
Proof.
  intros Hv Hf. destruct (decide (old_addr = IPADDR_ANY \/ new_addr = IPADDR_ANY)) as [Ha|Ha].
  - exists (udpg s). rewrite with_udp_id. split; [|done]. unfold udp_netif_ip_addr_changed, ip4_addr_isany_val. destruct Ha as [-> | ->]; rewrite Z.eqb_refl; cbn [negb andb]; [done|by rewrite andb_false_r].
  - apply Decidable.not_or in Ha as [Ho Hn]. rewrite (addr_changed_run s l _ _ Hv Ho Hn). eexists. split; [done|]. apply readdressed_table; try done. intros Hst. by destruct (Hf Hst) as [|[|]].
Qed.

(** Every call that does not send completes and keeps the table. *)
Lemma exec_run {strict} s c : utable_ok strict (udpg s) -> sends c = false -> handle_ok (udpg s) c -> (strict = true -> clash_free (udpg s) c) ->
  exists g, exec c s = Ok (tt, with_udp s g) /\ utable_ok strict g.
Proof.
  intros [l Hv] Hn Hc Hf. destruct c as [|pcb ip port|pcb b|pcb ip port|pcb|pcb f x|pcb opt|pcb opt|pcb|o n| | | |]; cbn [exec handle_ok] in *; try done.
  - destruct (udp_new_run s l Hv) as (r & g & E & Hg & _). exists g. rewrite (bind_run _ _ _ _ _ E). split; [done|by exists l].
  - destruct Hc as [[u Hu] Hp]. destruct (udp_bind_run s l pcb u ip port Hv Hu) as (r & g & E & Hr). exists g. rewrite (bind_run _ _ _ _ _ E). split; [done|]. eexists. by eapply bind_result_valid.
  - destruct Hc as [u Hu]. destruct (udp_bind_netif_run s l pcb u b Hv Hu) as (g & E & Hg). exists g. split; [done|by exists l].
  - destruct Hc as [[u Hu] Hp]. destruct ip as [a|]; [|exists (udpg s); rewrite with_udp_id; split; [done|by exists l]].
    destruct (udp_connect_run s l pcb u a port Hv Hu) as (g & l' & ? & ? & E & Hg & _). exists g. rewrite (bind_run _ _ _ _ _ E). split; [done|by exists l'].
  - destruct Hc as [u Hu]. destruct (udp_disconnect_run s l pcb u Hv Hu) as (g & E & Hg & _). exists g. split; [done|by exists l].
  - destruct Hc as [u Hu]. destruct (udp_recv_run s l pcb u f x Hv Hu) as (g & E & Hg & _). exists g. split; [done|by exists l].
  - destruct Hc as [u Hu]. destruct (ip_set_option_run s l pcb u opt Hv Hu) as (g & E & Hg). exists g. split; [done|by exists l].
  - destruct Hc as [u Hu]. destruct (ip_reset_option_run s l pcb u opt Hv Hu Hf) as (g & E & Hg). exists g. split; [done|by exists l].
  - destruct Hc as [u Hu]. destruct (udp_remove_run s l pcb u Hv Hu) as (g & l' & E & Hg & _). exists g. split; [done|by exists l'].
  - destruct (addr_changed_ok s l o n Hv Hf) as (g & E & Hg). exists g. split; [done|by exists l].
Qed.
(** A call that sends keeps it when it returns. *)
Lemma exec_sends strict c : sends c = true -> pres (kept strict) (exec c).
Proof.
  intros Hc. destruct c; try done; cbn [exec]; apply (pres_bind (kept strict)); intros; try apply (pres_ret (kept strict));
    [apply kept_send|apply kept_sendto|apply kept_sendto_if|apply kept_sendto_if_src].
Qed.
Lemma udp_run_ok strict s s' : udp_run strict s s' -> utable_ok strict (udpg s) -> utable_ok strict (udpg s').
Proof.
  induction 1 as [s|s c s1 s2 Hc Hf E Hr IH]; intros Hok; [done|]. apply IH. destruct (sends c) eqn:Es.
  - by apply (pres_run (kept strict) _ _ _ _ (exec_sends strict c Es) E).
  - destruct (exec_run s c Hok Es Hc Hf) as (g & E' & Hg). rewrite E in E'. injection E' as ->. by rewrite udpg_with.
Qed.
End Calls.
