(* ===== verification/UdpProofs.v ===== *)
(** UDP datagrams: which control block gets one, the header and its checksum in
    both directions. *)

From stdpp Require Import gmap.
From S2P Require Import Prelude Cmonad Cutils Heap Pbuf PbufProofs PbufChain Inet InetProofs Ethernet Etharp EthernetProofs EtharpProofs ArpProofs Link IpOutput Icmp Reass IpInput IpProofs FragProofs IcmpProofs IpInProofs IcmpErrors Udp UdpTable.

(** ** Matching *)

(** Is a datagram to [dest] for this block, as far as the addresses go? *)
Definition local_match (n : netif_t) (dest : Z) (broadcast : bool) (u : udp_pcb) : bool :=
  ((up_netif_idx u =? NETIF_NO_INDEX) || (up_netif_idx u =? netif_get_index n)) &&
  if broadcast then
    ip_get_option u SOF_BROADCAST &&
      (ip4_addr_isany_val (up_local_ip u) || (dest =? IPADDR_BROADCAST) || ip4_addr_net_eq (up_local_ip u) dest (nf_netmask n))
  else ip4_addr_isany_val (up_local_ip u) || (up_local_ip u =? dest).
Definition wants (n : netif_t) (dest : Z) (broadcast : bool) (port : Z) (u : udp_pcb) : bool :=
  (up_local_port u =? port) && local_match n dest broadcast u.
(** Is the sender the one it is connected to? *)
Definition knows (src sport : Z) (u : udp_pcb) : bool := (up_remote_port u =? sport) && (ip4_addr_isany_val (up_remote_ip u) || (up_remote_ip u =? src)).

(** Without SOF_REUSEADDR a block is the only one for its unicast datagrams. *)
Lemma only_one g l n dest port i u : udp_valid g l -> i ∈ l -> upcbs g !! i = Some u -> ~ reuses u -> wants n dest false port u = true ->
  forall j v, j ∈ l -> j <> i -> upcbs g !! j = Some v -> wants n dest false port v = false.
Proof.
  intros Hv Hi Hu Hr Hw j v Hj Hij Hjv. destruct (wants n dest false port v) eqn:Ew; [|done]. exfalso. apply Hr. unfold wants, local_match in Hw, Ew.
  rewrite !andb_true_iff, !orb_true_iff, !Z.eqb_eq in Hw, Ew. destruct Hw as (E1 & _ & E2), Ew as (E3 & _ & E4). unfold ip4_addr_isany_val in *. rewrite !Z.eqb_eq in E2, E4.
  apply (uv_apart _ _ Hv eq_refl i j u v Hi Hj (not_eq_sym Hij) Hu Hjv); [congruence|]. unfold overlap. naive_solver congruence.
Qed.

Section Lookup.
Context {U : Type} `{UdpIn U}.
Implicit Types s : stack U.

Lemma local_match_run s u broadcast : current_input_netif (ipg s) = true ->
  udp_input_local_match u broadcast s = Ok (local_match (nif s) (current_iphdr_dest (ipg s)) broadcast u, s).
Proof.
  intros Hc. unfold udp_input_local_match, local_match.
  assert ((if up_netif_idx u =? NETIF_NO_INDEX then ret false else let* i := current_input_netif_t in ret (negb (up_netif_idx u =? netif_get_index i))) s =
    Ok (negb ((up_netif_idx u =? NETIF_NO_INDEX) || (up_netif_idx u =? netif_get_index (nif s))), s)) as E.
  { destruct (_ =? NETIF_NO_INDEX); [done|]. unfold current_input_netif_t. rewrite bind_assoc. unfold getip. unfold bind at 1, gets. unfold ipg in Hc. by rewrite Hc. }
  rewrite (bind_run _ _ _ _ _ E). destruct (_ || _); cbn [negb andb]; [|done]. by destruct broadcast.
Qed.

(** The test that the loop makes of a block. *)
Lemma wants_run {A} s u port broadcast (k : bool -> M (stack U) A) : current_input_netif (ipg s) = true ->
  bind (if up_local_port u =? port then udp_input_local_match u broadcast else ret false) k s = k (wants (nif s) (current_iphdr_dest (ipg s)) broadcast port u) s.
Proof. intros Hc. unfold wants. destruct (_ =? port); [|done]. cbn [andb]. by rewrite (bind_run _ _ _ _ _ (local_match_run s u broadcast Hc)). Qed.

Section Walk.
Context s (src port : Z) (broadcast : bool).
Hypothesis Hcur : current_input_netif (ipg s) = true.
Let m := upcbs (udpg s).
Definition unwanted (l : list Z) : Prop := forall j v, j ∈ l -> m !! j = Some v -> wants (nif s) (current_iphdr_dest (ipg s)) broadcast port v = false.

Lemma lookup_skip l1 p l2 : forall fuel prev uncon, ulist m p (l1 ++ l2) -> unwanted l1 -> (length l1 < fuel)%nat ->
  exists q, ulist m q l2 /\ lookup_loop fuel p prev uncon src port broadcast s = lookup_loop (fuel - length l1) q (default prev (last l1)) uncon src port broadcast s.
Proof.
  revert p; induction l1 as [|i l1 IH]; intros p [|fuel] prev uncon Hl Hu Hf; cbn [length app] in *; try lia.
  - exists p. split; [done|]. by rewrite Nat.sub_0_r.
  - destruct Hl as (-> & Hi & u & Hiu & Hl). destruct (IH _ fuel i uncon Hl) as (q & Hq & E); [intros j v Hj; apply Hu; by apply list_elem_of_further|lia|]. exists q. split; [done|].
    cbn [lookup_loop]. rewrite (proj2 (Z.eqb_neq _ _) Hi), (getu_run _ _ _ _ Hi Hiu), (wants_run _ _ _ _ _ Hcur), (Hu i u) by (done || apply list_elem_of_here). cbn [andb].
    rewrite bind_ret. unfold getip. unfold bind at 1, gets. rewrite E. rewrite last_cons. cbn [Nat.sub]. by destruct (last l1).
Qed.
Lemma lookup_none l p fuel prev uncon : ulist m p l -> unwanted l -> (length l < fuel)%nat -> lookup_loop fuel p prev uncon src port broadcast s = Ok ((NULL, uncon), s).
Proof.
  intros Hl Hu Hf. destruct (lookup_skip l p [] fuel prev uncon) as (q & Hq & E); [by rewrite app_nil_r|done|done|]. cbn in Hq. subst q. rewrite E.
  destruct (fuel - length l)%nat as [|k] eqn:Ek; [lia|]. done.
Qed.
End Walk.

(** Links change, nothing else. *)
Lemma valid_relink g l l' m p : udp_valid g l -> same_table (upcbs g) m -> (forall i, i ∈ l <-> i ∈ l') -> NoDup l' -> ulist m p l' ->
  udp_valid (g <| upcbs := m |> <| udp_pcbs := p |>) l'.
Proof.
  intros [V1 V2 V3 V4 V5 V6 V7] [Hst Hsz] Hl Hnd Hul. split; cbn; try done.
  - intros i v Hv. destruct (Hst _ _ Hv) as (w & Hw & _). by eapply V4.
  - by rewrite Hsz.
  - intros i v Hv. destruct (Hst _ _ Hv) as (w & Hw & ->). cbn. rewrite <- Hl. by apply V6.
  - intros Hstr i j v w Hi Hj Hij Hv Hw. destruct (Hst _ _ Hv) as (v' & Hv' & ->), (Hst _ _ Hw) as (w' & Hw' & ->). apply (V7 Hstr i j v' w'); try done; by apply Hl.
Qed.
Lemma same_table_trans m1 m2 m3 : same_table m1 m2 -> same_table m2 m3 -> same_table m1 m3.
Proof.
  intros [A1 A2] [B1 B2]. split; [|congruence]. intros i u Hu. destruct (B1 _ _ Hu) as (v & Hv & E). destruct (A1 _ _ Hv) as (w & Hw & E'). exists w. split; [done|]. rewrite E, E'. by destruct w.
Qed.

(** Moving a block to the front. *)
Lemma move_front_run {A} s l1 j i l2 u (k : unit -> M (stack U) A) : udp_valid (udpg s) (l1 ++ j :: i :: l2) -> upcbs (udpg s) !! i = Some u ->
  exists g u', bind (updu j (fun v => v <| up_next := up_next u |>) ;;; push_front i) k s = k tt (with_udp s g) /\
    udp_valid g (i :: l1 ++ j :: l2) /\ upcbs g !! i = Some u' /\ u' = u <| up_next := up_next u' |>.
Proof.
  intros Hv Hu. pose proof (uv_list _ _ Hv) as Hl. pose proof (uv_nodup _ _ Hv) as Hnd. destruct (ulist_in _ _ _ j Hl ltac:(apply elem_of_app; right; apply list_elem_of_here)) as [Hj [v Hjv]].
  destruct (ulist_in _ _ _ i Hl ltac:(apply elem_of_app; right; apply list_elem_of_further, list_elem_of_here)) as [Hi _].
  pose proof (ulist_unlink _ _ _ _ _ _ _ _ Hl Hnd Hjv Hu) as Hul. assert (i <> j /\ i ∉ l1 /\ i ∉ l2) as (Hn1 & Hn2 & Hn3).
  { apply NoDup_app in Hnd as (_ & Hd & Hnd). apply NoDup_cons in Hnd as [Hj' Hnd]. apply NoDup_cons in Hnd as [Hj2 _]. split; [|split; [|done]].
    - intros ->. apply Hj', list_elem_of_here.
    - intros Hc. apply (Hd _ Hc). apply list_elem_of_further, list_elem_of_here. }
  assert (i ∉ l1 ++ j :: l2) as Hnin by (rewrite elem_of_app, elem_of_cons; naive_solver).
  assert (NoDup (l1 ++ j :: l2)) as Hnd2.
  { clear -Hnd. apply NoDup_app in Hnd as (A1 & A2 & A3). apply NoDup_app. split; [done|]. apply NoDup_cons in A3 as [B1 B2]. apply NoDup_cons in B2 as [B3 B4]. split; [intros y Hy Hc; apply (A2 y Hy); set_solver|]. constructor; [set_solver|done]. }
  set (m1 := <[j := v <| up_next := up_next u |>]> (upcbs (udpg s))) in *. set (p := udp_pcbs (udpg s)) in *.
  exists ((udpg s) <| upcbs := <[i := u <| up_next := p |>]> m1 |> <| udp_pcbs := i |>), (u <| up_next := p |>). split.
  - rewrite bind_assoc, (updu_run _ _ _ _ _ Hj Hjv), (push_front_with _ _ i u) by (done || (cbn; by rewrite lookup_insert_ne)). unfold put_upcb, m1, p. done.
  - split; [|split; [apply lookup_insert_eq|by destruct u]]. assert (m1 !! i = Some u) as Hm1 by (unfold m1; by rewrite lookup_insert_ne).
    eapply valid_relink; [exact Hv| | | |].
    + apply (same_table_trans _ m1); [exact (same_table_link _ j v (up_next u) Hjv)|exact (same_table_link _ i u p Hm1)].
    + set_solver.
    + by constructor.
    + split; [done|]. split; [done|]. rewrite lookup_insert_eq. eexists. split; [done|]. cbn. by apply ulist_insert.
Qed.

(** The one block that wants the datagram gets it, unless it is connected to
    somebody else; when it is connected to the sender it moves to the front. *)
Lemma lookup_only s l i u src sport port broadcast : current_input_netif (ipg s) = true -> current_iphdr_src (ipg s) = src -> udp_valid (udpg s) l -> i ∈ l -> upcbs (udpg s) !! i = Some u ->
  wants (nif s) (current_iphdr_dest (ipg s)) broadcast port u = true ->
  (forall j v, j ∈ l -> j <> i -> upcbs (udpg s) !! j = Some v -> wants (nif s) (current_iphdr_dest (ipg s)) broadcast port v = false) ->
  exists pcb uncon g l' u', lookup_loop (S (size (upcbs (udpg s)))) (udp_pcbs (udpg s)) NULL NULL sport port broadcast s = Ok ((pcb, uncon), with_udp s g) /\ udp_valid g l' /\ i ∈ l' /\
    upcbs g !! i = Some u' /\ u' = u <| up_next := up_next u' |> /\
    (if pcb =? NULL then uncon else pcb) = (if knows src sport u || negb (udp_is_flag_set u UDP_FLAGS_CONNECTED) then i else NULL).
Proof.
  intros Hcur Hsrc Hv Hin Hu Hw Hother. pose proof (uv_list _ _ Hv) as Hl. pose proof (uv_nodup _ _ Hv) as Hnd. pose proof (fuel_enough _ _ Hv) as Hf. destruct (ulist_in _ _ _ _ Hl Hin) as [Hi _].
  pose proof Hin as Hsplit. apply list_elem_of_split in Hsplit as (l1 & l2 & El). subst l. apply NoDup_app in Hnd as (_ & Hd & Hnd). apply NoDup_cons in Hnd as [Hi2 Hnd].
  assert (i ∉ l1) as Hi1 by (intros Hc; apply (Hd _ Hc), list_elem_of_here).
  assert (unwanted s port broadcast l1) as Hu1 by (intros j v Hj Hjv; apply (Hother j v); [apply elem_of_app; by left|by intros ->|done]).
  assert (unwanted s port broadcast l2) as Hu2 by (intros j v Hj Hjv; apply (Hother j v); [apply elem_of_app; right; by apply list_elem_of_further|by intros ->|done]).
  rewrite length_app in Hf. cbn [length] in Hf. destruct (lookup_skip s sport port broadcast Hcur l1 (udp_pcbs (udpg s)) (i :: l2) (S (size (upcbs (udpg s)))) NULL NULL Hl Hu1 ltac:(lia)) as (q & Hq & ->).
  destruct (S (size (upcbs (udpg s))) - length l1)%nat as [|fuel] eqn:Ef; [lia|]. destruct Hq as (-> & _ & u0 & Hu0 & Hq). assert (u0 = u) as -> by congruence.
  cbn [lookup_loop]. rewrite (proj2 (Z.eqb_neq _ _) Hi), (getu_run _ _ _ _ Hi Hu), (wants_run _ _ _ _ _ Hcur), Hw. cbn [andb].
  set (uncon := if negb (udp_is_flag_set u UDP_FLAGS_CONNECTED) then i else NULL).
  assert ((if negb (udp_is_flag_set u UDP_FLAGS_CONNECTED) then better_unconnected i u NULL broadcast else ret NULL) s = Ok (uncon, s)) as Eu by (unfold uncon; by destruct (negb _)).
  rewrite (bind_run _ _ _ _ _ Eu). unfold getip. unfold bind at 1, gets. fold (ipg s). rewrite Hsrc. fold (knows src sport u). destruct (knows src sport u); cbn [orb].
  - destruct l1 as [|j l1 _] using rev_ind.
    + cbn [last default]. change (NULL =? NULL) with true. cbn [negb]. exists i, uncon, (udpg s), (i :: l2), u. rewrite with_udp_id. split; [done|]. split; [done|]. split; [apply list_elem_of_here|]. split; [done|]. split; [by destruct u|].
      by rewrite (proj2 (Z.eqb_neq _ _) Hi).
    + rewrite last_snoc. change (default NULL (Some j)) with j. rewrite <- app_assoc in Hv. cbn [app] in Hv. destruct (ulist_in _ _ _ j (uv_list _ _ Hv) ltac:(apply elem_of_app; right; apply list_elem_of_here)) as [Hj _].
      rewrite (proj2 (Z.eqb_neq _ _) Hj). cbn [negb]. destruct (move_front_run s l1 j i l2 u (fun _ => ret (i, uncon)) Hv Hu) as (g & u' & E & Hg & Hu' & Eu').
      exists i, uncon, g, (i :: l1 ++ j :: l2), u'. rewrite E. split; [done|]. split; [done|]. split; [apply list_elem_of_here|]. split; [done|]. split; [done|]. by rewrite (proj2 (Z.eqb_neq _ _) Hi).
  - rewrite (lookup_none s sport port broadcast Hcur l2) by (done || lia). exists NULL, uncon, (udpg s), (l1 ++ i :: l2), u. rewrite with_udp_id. split; [done|]. split; [done|]. split; [done|]. split; [done|]. split; [by destruct u|].
    change (NULL =? NULL) with true. done.
Qed.

End Lookup.

(** ** The header *)

Definition udp_dgram (sport dport : Z) (chk data : bytes) : bytes :=
  be_bytes 2 sport ++ be_bytes 2 dport ++ be_bytes 2 (8 + Z.of_nat (length data)) ++ chk ++ data.
(** What the checksum of RFC 768 is taken over. *)
Definition udp_covered (src dest sport dport : Z) (chk data : bytes) : bytes :=
  pseudo_header (le_bytes 4 src) (le_bytes 4 dest) IP_PROTO_UDP (8 + Z.of_nat (length data)) ++ udp_dgram sport dport chk data.
Definition udp_checksum (src dest sport dport : Z) (data : bytes) : Z :=
  let c := rfc1071_checksum (udp_covered src dest sport dport [0; 0] data) in if c =? 0 then 0xffff else c.
Definition udp_message (src dest sport dport : Z) (data : bytes) : bytes := udp_dgram sport dport (be_bytes 2 (udp_checksum src dest sport dport data)) data.

Lemma length_dgram sport dport chk data : length chk = 2%nat -> length (udp_dgram sport dport chk data) = (8 + length data)%nat.
Proof. intros Hc. unfold udp_dgram. rewrite !length_app, !length_be_bytes, Hc. lia. Qed.
Lemma dgram_read sport dport chk data : length chk = 2%nat -> let h := udp_dgram sport dport chk data in
  take 2 h = be_bytes 2 sport /\ take 2 (drop 2 h) = be_bytes 2 dport /\ take 2 (drop 6 h) = chk /\ drop 8 h = data.
Proof.
  intros Hk. cbv zeta. unfold udp_dgram. pose proof (length_be_bytes 2 sport) as L1. pose proof (length_be_bytes 2 dport) as L2. pose proof (length_be_bytes 2 (8 + Z.of_nat (length data))) as L3.
  revert L1 L2 L3. generalize (be_bytes 2 sport), (be_bytes 2 dport), (be_bytes 2 (8 + Z.of_nat (length data))). intros A B C L1 L2 L3. destruct_len A. destruct_len B. destruct_len C. destruct_len chk. done.
Qed.
Lemma dgram_ok sport dport chk data : bytes_ok chk -> bytes_ok data -> bytes_ok (udp_dgram sport dport chk data).
Proof. intros. unfold udp_dgram. repeat first [apply Forall_app_2|apply be_bytes_ok]; done. Qed.
Lemma covered_ok src dest sport dport chk data : bytes_ok chk -> bytes_ok data -> bytes_ok (udp_covered src dest sport dport chk data).
Proof. intros Hc Hd. apply Forall_app_2; [apply pseudo_header_ok; (apply le_bytes_ok || (unfold IP_PROTO_UDP; lia))|by apply dgram_ok]. Qed.
Lemma covered_split src dest sport dport chk data : udp_covered src dest sport dport chk data =
  (pseudo_header (le_bytes 4 src) (le_bytes 4 dest) IP_PROTO_UDP (8 + Z.of_nat (length data)) ++ be_bytes 2 sport ++ be_bytes 2 dport ++ be_bytes 2 (8 + Z.of_nat (length data))) ++ chk ++ data.
Proof. unfold udp_covered, udp_dgram. by rewrite <- !app_assoc. Qed.

Lemma norm_ffff x k : 0 <= x -> 0 <= k -> norm x = 65535 -> norm (x + 65535 * k) = 65535.
Proof.
  unfold norm. intros H0 Hk. destruct (Z.eqb_spec x 0) as [|Hx]; [done|]. intros E. rewrite (proj2 (Z.eqb_neq _ _)) by lia.
  replace (x + 65535 * k - 1) with (x - 1 + k * 65535) by lia. by rewrite Z.mod_add.
Qed.

(** What the code writes is the checksum of RFC 768. *)
Lemma stored_checksum src dest sport dport data : bytes_ok data -> let c := not16 (norm (le_val (udp_covered src dest sport dport [0; 0] data))) in
  le_bytes 2 (if c =? 0 then 0xffff else c) = be_bytes 2 (udp_checksum src dest sport dport data).
Proof.
  intros Hd c. assert (bytes_ok (udp_covered src dest sport dport [0; 0] data)) as Hok by (apply covered_ok; [repeat constructor; unfold byte_ok; lia|done]).
  unfold udp_checksum. unfold c. rewrite checksum_zero_iff by done. destruct (rfc1071_checksum _ =? 0); [done|]. by apply checksum_bytes.
Qed.
(** And it is accepted; zero, which means that there is none, is never sent. *)
Lemma udp_message_accepted src dest sport dport data : bytes_ok data ->
  not16 (norm (le_val (udp_covered src dest sport dport (be_bytes 2 (udp_checksum src dest sport dport data)) data))) = 0.
Proof.
  intros Hd. rewrite <- stored_checksum by done. set (c := not16 (norm (le_val (udp_covered src dest sport dport [0; 0] data)))). rewrite covered_split. set (a := pseudo_header _ _ _ _ ++ _).
  assert (bytes_ok a) as Ha by (unfold a; repeat first [apply pseudo_header_ok|apply be_bytes_ok|apply Forall_app_2]; (apply le_bytes_ok || (unfold IP_PROTO_UDP; lia))).
  assert (Nat.Even (length a)) as Hev by (exists 9%nat; unfold a, pseudo_header; rewrite !length_app, !length_be_bytes, !length_le_bytes; done).
  assert (c = not16 (norm (le_val (a ++ [0; 0] ++ data)))) as Ec by (unfold c; by rewrite covered_split).
  destruct (c =? 0) eqn:E0; [|by apply checksum_zero]. apply Z.eqb_eq in E0. rewrite E0 in Ec. unfold not16 in Ec |- *. assert (norm (le_val (a ++ [0; 0] ++ data)) = 65535) as En by lia.
  assert (le_val (a ++ le_bytes 2 0xffff ++ data) = le_val (a ++ [0; 0] ++ data) + 65535 * 256 ^ Z.of_nat (length a)) as ->.
  { rewrite !le_val_app. change (length (le_bytes 2 0xffff)) with 2%nat. change (length [0; 0]) with 2%nat. change (le_val (le_bytes 2 0xffff)) with 65535. change (le_val [0; 0]) with 0. lia. }
  rewrite norm_ffff; [done| |lia|done]. apply le_val_range. apply Forall_app_2; [exact Ha|]. apply Forall_app_2; [repeat constructor; unfold byte_ok; lia|done].
Qed.
Lemma udp_checksum_nonzero src dest sport dport data : bytes_ok data -> 0 < udp_checksum src dest sport dport data < 65536.
Proof.
  intros Hd. unfold udp_checksum, rfc1071_checksum. pose proof (norm_range (256 * le_val (udp_covered src dest sport dport [0; 0] data))) as Hn.
  rewrite rfc1071_norm by (apply covered_ok; [repeat constructor; unfold byte_ok; lia|done]). unfold not16. destruct (_ =? 0) eqn:E; lia.
Qed.

(** ** Input *)

Section Input.
Context `{PbufEnv} `{Addresses} {U : Type} `{UdpIn U} `{UdpApp U}.
Implicit Types s : stack U.

(** The rest of [udp_input] behind the search. *)
Definition to_block (pcb p sport dport : Z) (broadcast : bool) : M (stack U) unit :=
  if negb (pcb =? NULL) then udp_deliver pcb p sport dport broadcast else udp_unreachable p broadcast.

Lemma onmem_end {A} s (m : M lmem A) a t : m (mem s) = Ok (a, t) -> onmem m s = Ok (a, with_mem s t).
Proof. intros E. unfold onmem, zoom. by rewrite E. Qed.

(** The checksum is right, or there is none. *)
Definition checksum_good (src dest sport dport : Z) (chk data : bytes) : Prop :=
  le_val chk = 0 \/ not16 (norm (le_val (udp_covered src dest sport dport chk data))) = 0.

Record arrived s (p : Z) (b : pbuf) (src dest sport dport : Z) (chk data : bytes) : Prop := {
  ar_packet : packet (mem s) p [(p, b)];
  ar_data : cell_data (dat (mem s)) b = udp_dgram sport dport chk data;
  ar_chk : length chk = 2%nat /\ bytes_ok chk /\ bytes_ok data;
  ar_ports : 0 <= sport < 65536 /\ 0 <= dport < 65536;
  ar_addrs : 0 <= src < 2 ^ 32 /\ 0 <= dest < 2 ^ 32;
  ar_netif : current_netif (ipg s) = true /\ current_input_netif (ipg s) = true;
  ar_cur : current_iphdr_src (ipg s) = src /\ current_iphdr_dest (ipg s) = dest
}.

Lemma udp_input_run s p b src dest sport dport chk data pcb uncon g : let broadcast := ip4_addr_isbroadcast_u32 dest (nif s) in let chosen := if pcb =? NULL then uncon else pcb in
  arrived s p b src dest sport dport chk data -> checksum_good src dest sport dport chk data ->
  lookup_loop (S (size (upcbs (udpg s)))) (udp_pcbs (udpg s)) NULL NULL sport dport broadcast s = Ok ((pcb, uncon), with_udp s g) -> chosen <> NULL \/ nf_ip (nif s) = dest ->
  udp_input p s = to_block chosen p sport dport broadcast (with_udp (with_mem s (put_cell (mem s) p (moved b 8))) g).
Proof.
  intros broadcast chosen [Hp Hd (Lk & Bk & Bd) (Rs & Rd) (Ra & Rb) (N1 & N2) (C1 & C2)] Hgood Hl Hus. destruct (packet_head _ _ _ _ _ Hp) as (_ & Hp0 & Hb & Hc & Htl & Hlb & _). cbn [sum_len] in Htl. rewrite Z.add_0_r in Htl.
  pose proof (length_cell _ _ Hc) as Hlen. rewrite Hd, length_dgram in Hlen by done. pose proof (dgram_read sport dport chk data Lk) as (R1 & R2 & R3 & R4).
  unfold udp_input. rewrite (onmem_getp _ _ _ _ Hp0 Hb), (proj2 (Z.ltb_ge _ _)) by (change UDP_HLEN with 8; lia).
  rewrite (bind_run (getip current_iphdr_dest) _ s dest s) by (unfold getip, gets; by rewrite <- C2). rewrite (bind_run current_netif_t _ s (nif s) s).
  2: { unfold current_netif_t, getip, bind, gets. unfold ipg in N1. by rewrite N1. }
  rewrite (rd_run s b UDPH_SRC 2), (rd_run s b UDPH_DEST 2) by (done || (unfold UDPH_SRC, UDPH_DEST; lia)). rewrite Hd. change (Z.to_nat UDPH_SRC) with 0%nat. change (Z.to_nat UDPH_DEST) with 2%nat. change (Z.to_nat 2) with 2%nat.
  rewrite drop_0, R1, R2, !htons_read by done. rewrite getudp_run, upcb_fuel_run. fold broadcast. rewrite (bind_run _ _ _ _ _ Hl). cbv beta iota. fold chosen. set (s1 := with_udp s g).
  rewrite (bind_run _ _ _ _ _ (eq_refl : gets nif s1 = Ok (nif s, s1))).
  assert (negb (chosen =? NULL) || (nf_ip (nif s) =? dest) = true) as ->.
  { destruct Hus as [Hus|Hus]; [by rewrite (proj2 (Z.eqb_neq _ _) Hus)|]. rewrite (proj2 (Z.eqb_eq _ _) Hus). apply orb_true_r. }
  rewrite (rd_run s1 b UDPH_CHKSUM 2) by (done || (unfold UDPH_CHKSUM; lia)). change (dat (mem s1)) with (dat (mem s)). rewrite Hd. change (Z.to_nat UDPH_CHKSUM) with 6%nat. change (Z.to_nat 2) with 2%nat. rewrite R3.
  assert ((if negb (le_val chk =? 0) then let* cur_src := getip current_iphdr_src in onmem (ip_chksum_pseudo p IP_PROTO_UDP (pb_tot_len b) cur_src dest) else ret 0) s1 = Ok (0, s1)) as Ec.
  { destruct (le_val chk =? 0) eqn:E0; [done|]. apply Z.eqb_neq in E0. destruct Hgood as [?|Hgood]; [done|]. cbn [negb].
    assert (ipg s1 = ipg s) as Eg by (unfold ipg, s1, with_udp; cbn; apply ip_get_udp). rewrite (bind_run (getip current_iphdr_src) _ s1 src s1) by (unfold getip, gets; fold (ipg s1); by rewrite Eg, C1).
    rewrite (onmem_end s1 _ 0 (mem s1)); [by rewrite with_mem_id|]. unfold ip_chksum_pseudo.
    assert (content (dat (mem s)) [(p, b)] = udp_dgram sport dport chk data) as Hcont by (rewrite content_cons; cbn [content map concat snd]; by rewrite app_nil_r).
    pose proof (inet_chksum_pseudo_run (mem s) p [(p, b)] IP_PROTO_UDP (pb_tot_len b) (le_bytes 4 src) (le_bytes 4 dest) Hp) as Er.
    rewrite Hcont, !le_val_bytes in Er. change (256 ^ Z.of_nat 4) with (2 ^ 32) in Er. rewrite !(Z.mod_small _ (2 ^ 32)) in Er by done. change (mem s1) with (mem s). rewrite Er.
    - f_equal. f_equal. rewrite <- Hgood. unfold udp_covered. replace (pb_tot_len b) with (8 + Z.of_nat (length data)) by lia. done.
    - change (bytes_ok (content (dat (mem s)) [(p, b)])). rewrite Hcont. by apply dgram_ok.
    - unfold IP_PROTO_UDP; lia.
    - lia.
    - apply length_le_bytes.
    - apply length_le_bytes.
    - apply le_bytes_ok.
    - apply le_bytes_ok. }
  rewrite (bind_run _ _ _ _ _ Ec). cbn [Z.eqb negb]. change UDP_HLEN with 8. destruct (pbuf_remove_header_run (mem s) p b [] 8 Hp ltac:(lia)) as (Er & _). rewrite (onmem_run s1 _ _ _ _ Er). cbn [Z.eqb negb].
  unfold to_block. destruct (negb (chosen =? NULL)); done.
Qed.
End Input.

(** ** Output *)

Section Output.
Context `{PbufEnv} `{Addresses} {U : Type} `{UdpIn U}.
Implicit Types s : stack U.

(** The hint that a connection lends to the interface. *)
Definition with_hint s (o : option Z) : stack U := s <| nif := (nif s) <| nf_hint := o |> |>.

Lemma to_index_run s p i e : 0 <= i -> arp_table s !! Z.to_nat i = Some e -> (ar_state e = ETHARP_STATE_STABLE -> ar_ctime e < ARP_AGE_REREQUEST_USED_UNICAST) ->
  etharp_output_to_arp_index p i s = ethernet_output p (nf_hwaddr (nif s)) (ar_ethaddr e) ETHTYPE_IP s.
Proof.
  intros Hi He Hage. unfold etharp_output_to_arp_index. rewrite (entry_run _ _ _ _ Hi He). case_bool_decide as Es; [rewrite !(proj2 (Z.leb_gt _ _)) by
      (specialize (Hage Es); unfold ARP_AGE_REREQUEST_USED_BROADCAST, ARP_AGE_REREQUEST_USED_UNICAST, ARP_MAXAGE in *; lia)|];
    rewrite bind_ret, (bind_run _ _ _ _ _ (eq_refl : gets nif s = Ok (nif s, s))), (entry_run _ _ _ _ Hi He); done.
Qed.

(** A hint only saves the search: in a valid table there is one entry for the address. *)
Lemma output_hinted_eq s p a mac h : neighbour s a mac -> table_ok (arp_table s) -> 0 <= h ->
  exists i, 0 <= i /\ etharp_output p a (with_hint s (Some h)) = ethernet_output p (nf_hwaddr (nif s)) mac ETHTYPE_IP (with_hint s (Some i)).
Proof.
  intros [[Hb Hm] Hh _ _ (hop & i & e & Hn & Hf & He & <- & Hage)] Ht Hh0. pose proof (find_stable_spec (arp_table s) hop 0 ltac:(lia)) as Hsp. rewrite Hf, Z.sub_0_r in Hsp. destruct Hsp as (Hi & Hsp).
  set (s1 := with_hint s (Some h)). assert (etharp_output p a s1 =
    match (if h <? ARP_TABLE_SIZE then match arp_table s !! Z.to_nat h with Some e => if is_stable (ar_state e) && (hop =? ar_ipaddr e) then Some h else None | None => None end else None) with
    | Some h => etharp_output_to_arp_index p h s1 | None => etharp_output_to_arp_index p i (with_hint s (Some i)) end) as E.
  { unfold etharp_output. rewrite (bind_run _ _ _ _ _ (eq_refl : gets nif s1 = Ok (nif s1, s1))). change (ip4_addr_isbroadcast_u32 a (nif s1)) with (ip4_addr_isbroadcast_u32 a (nif s)). rewrite Hb, Hm.
    change (nf_ip (nif s1)) with (nf_ip (nif s)). change (nf_netmask (nif s1)) with (nf_netmask (nif s)). change (nf_gw (nif s1)) with (nf_gw (nif s)). unfold next_hop in Hn.
    set (outside := _ && _) in *. assert (outside && ip4_addr_isany_val (nf_gw (nif s)) = false /\ (if outside then nf_gw (nif s) else a) = hop) as [-> ->].
    { destruct outside; [|by simplify_eq/=]. destruct (ip4_addr_isany_val _); by simplify_eq/=. }
    rewrite (bind_run _ _ _ _ _ (eq_refl : gets arp_table s1 = Ok (arp_table s, s1))). change (nf_hint (nif s1)) with (Some h). cbv zeta iota. destruct (if h <? ARP_TABLE_SIZE then _ else _); [done|]. by rewrite Hf. }
  rewrite E. clear E. destruct (if h <? ARP_TABLE_SIZE then _ else _) as [k|] eqn:Ek.
  - exists h. split; [done|]. destruct (h <? ARP_TABLE_SIZE); [|done]. destruct (arp_table s !! Z.to_nat h) as [e2|] eqn:He2; [|done]. destruct (is_stable (ar_state e2) && (hop =? ar_ipaddr e2)) eqn:Est; [|done]. injection Ek as <-.
    assert (e2 = e) as ->; [|by apply (to_index_run s1)]. apply andb_true_iff in Est as [S1 S2%Z.eqb_eq]. destruct Hsp as (e' & He' & S3 & S4). assert (e' = e) as -> by congruence.
    assert (Z.to_nat h = Z.to_nat i) as Eij; [|congruence]. apply (to_unique _ Ht (Z.to_nat h) (Z.to_nat i) e2 e He2 He); [unfold live; intros E; by rewrite E in S1|unfold live; intros E; unfold stable in S3; by rewrite E in S3|congruence].
  - exists i. split; [done|]. by apply (to_index_run (with_hint s (Some i))).
Qed.

Lemma with_hint_hint s o o' : with_hint (with_hint s o) o' = with_hint s o'.
Proof. by destruct s as [? ? [] ? ?]. Qed.
Lemma with_hint_id s : with_hint s (nf_hint (nif s)) = s.
Proof. by destruct s as [? ? [] ? ?]. Qed.

(** A datagram of one cell leaves as one frame, whatever the hint. *)
Lemma send_hinted_run s p b src dest ttl tos proto mac h :
  let pkt := ip_header [] tos (pb_len b + 20) (ip_id (ipg s)) 0 ttl proto src dest ++ cell_data (dat (mem s)) b in
  neighbour s dest mac -> table_ok (arp_table s) -> 0 <= h -> packet (mem s) p [(p, b)] -> contiguous_type b -> 20 + SIZEOF_ETH_HDR <= poff (pb_payload b) -> pb_len b + 20 <= IF_MTU_SIZE ->
  byte_ok tos -> byte_ok ttl -> byte_ok proto -> 0 <= src < 2 ^ 32 -> 0 <= dest < 2 ^ 32 -> 0 <= ip_id (ipg s) < 65536 ->
  exists d i, 0 <= i /\ ip4_output_if_src p (Some src) (Some dest) ttl tos proto (with_hint s (Some h)) =
      Ok (ERR_OK, with_hint (with_ip (send s (put_cell (with_dat (mem s) d) p (moved b (- (20 + SIZEOF_ETH_HDR)))) (ip_frame s mac pkt)) (next_id (ipg s))) (Some i)) /\
    frame_dat [pblk (pb_payload b)] (dat (mem s)) d.
Proof.
  intros pkt Hn Ht Hh Hp Hct Ho Hm H2' H3' H4' Hs Hd Hid. change SIZEOF_ETH_HDR with 24 in *. change IF_MTU_SIZE with 1392 in *.
  destruct (packet_head _ _ _ _ _ Hp) as (_ & Hp0 & Hb & Hc & Htl & Hlb & _). cbn [sum_len] in Htl. set (sh := with_hint s (Some h)).
  destruct (output_header_run sh p b [] [] src dest ttl tos proto Hp Hct ltac:(change (padded []) with (@nil Z); cbn [length]; lia) ltac:(change (padded []) with (@nil Z); cbn [length sum_len snd]; lia) ltac:(constructor) ltac:(cbn; lia) H2' H3' H4' Hs Hd Hid) as (d1 & E1 & F1 & C1).
  change (padded []) with (@nil Z) in E1, C1. change (20 + Z.of_nat (@length Z [])) with 20 in E1, C1. cbn [sum_len snd] in C1. rewrite Z.add_0_r in C1. change (ipg sh) with (ipg s) in E1, C1. change (mem sh) with (mem s) in E1, F1, C1.
  fold pkt in C1. unfold ip4_output_if_src. change (Z.of_nat (@length Z [])) with 0 in E1. rewrite E1. set (b1 := moved b (- (20))) in *. set (m1 := put_cell (with_dat (mem s) d1) p b1) in *.
  set (s1 := with_ip (with_mem s m1) (next_id (ipg s))). change (with_ip (with_mem sh m1) (next_id (ipg s))) with (with_hint s1 (Some h)).
  assert (cell_ok d1 b1) as Hc1 by (eapply frame_cell_ok; [exact F1|]; apply (cell_moved_back _ _ 20 Hc); lia).
  assert (packet (mem s1) p [(p, b1)]) as Hp1.
  { apply (packet_moved (with_dat (mem s) d1) p b [] (- (20))); [eapply frame_packet; [exact F1|done]|done|cbn [sum_len snd]; lia]. }
  rewrite (output_to_small (with_hint s1 (Some h)) p b1 [] dest Hp1) by (change (pb_tot_len b1) with (pb_tot_len b - - (20)); change IF_MTU_SIZE with 1392; lia).
  destruct (output_hinted_eq s1 p dest mac h (neighbour_with _ _ _ _ _ Hn) Ht Hh) as (i & Hi & Ei).
  destruct (ethernet_output_run (with_hint s1 (Some i)) p b1 [] (nf_hwaddr (nif s)) mac ETHTYPE_IP Hp1 Hct ltac:(change (poff (pb_payload b1)) with (poff (pb_payload b) + - (20)); change SIZEOF_ETH_HDR with 24; lia)
    ltac:(cbn [sum_len snd]; change (pb_len b1) with (pb_len b - - (20)); change SIZEOF_ETH_HDR with 24; lia) (nb_hwaddr _ _ _ Hn) (nb_mac _ _ _ Hn) ltac:(done)
    ltac:(change (pb_len b1) with (pb_len b - - (20)); change SIZEOF_ETH_HDR with 24; change DATA_BUF_LEN with 1536; lia)) as (d2 & E2 & F2 & _).
  change (dat (mem (with_hint s1 (Some i)))) with d1 in E2, F2. rewrite C1 in E2. exists d2, i. split; [done|]. split; [|by eapply frame_trans]. rewrite Ei. change (nf_hwaddr (nif s1)) with (nf_hwaddr (nif s)). rewrite E2. do 2 f_equal.
  unfold after_output. change (mem (with_hint s1 (Some i))) with m1. unfold ip_frame. replace (Z.of_nat (length pkt)) with (pb_len b1) by (rewrite <- C1; symmetry; by apply length_cell).
  assert (put_cell (with_dat m1 d2) p (moved b1 (- SIZEOF_ETH_HDR)) = put_cell (with_dat (mem s) d2) p (moved b (- (20 + 24)))) as ->; [|done].
  unfold m1, b1. rewrite moved_moved. change SIZEOF_ETH_HDR with 24. replace (- (20) + - (24)) with (- (20 + 24)) by lia. apply (put_cell_put (with_dat (mem s) d2)).
Qed.
(** ** A datagram leaves *)

Lemma dgram_blits h data sport dport len chk x : length h = 8%nat -> 0 <= sport < 65536 -> 0 <= dport < 65536 -> len = 8 + Z.of_nat (length data) -> len < 65536 -> length chk = 2%nat ->
  blits [(UDPH_SRC, le_bytes 2 (lwip_htons sport)); (UDPH_DEST, le_bytes 2 (lwip_htons dport)); (UDPH_CHKSUM, chk)] (h ++ data) = x ->
  blit (Z.to_nat UDPH_LEN) (le_bytes 2 (lwip_htons len)) x = udp_dgram sport dport chk data.
Proof.
  intros Hh Hs Hd Hl Hl2 Hk <-. rewrite !htons_bytes by lia. subst len. unfold blits, udp_dgram. cbn [fold_left fst snd].
  pose proof (length_be_bytes 2 sport) as L1. pose proof (length_be_bytes 2 dport) as L2. pose proof (length_be_bytes 2 (8 + Z.of_nat (length data))) as L3.
  revert L1 L2 L3. generalize (be_bytes 2 sport), (be_bytes 2 dport), (be_bytes 2 (8 + Z.of_nat (length data))). intros A B C L1 L2 L3. destruct_len A. destruct_len B. destruct_len C. destruct_len chk. do 8 (destruct h as [|? h]; [done|]). by destruct h.
Qed.
Lemma dgram_chk_blit sport dport chk chk' data : length chk = 2%nat -> length chk' = 2%nat -> blit (Z.to_nat UDPH_CHKSUM) chk' (udp_dgram sport dport chk data) = udp_dgram sport dport chk' data.
Proof.
  intros Hk Hk'. unfold udp_dgram. rewrite !(app_assoc (be_bytes 2 sport)), !(app_assoc (be_bytes 2 sport ++ be_bytes 2 dport)). apply blit_at; [|congruence]. rewrite !length_app, !length_be_bytes. done.
Qed.

(** The datagram as it is sent: UDP_FLAGS_NOCHKSUM leaves the checksum out. *)
Definition udp_sent (u : udp_pcb) (src dest sport dport : Z) (data : bytes) : bytes :=
  if udp_is_flag_set u UDP_FLAGS_NOCHKSUM then udp_dgram sport dport [0; 0] data else udp_message src dest sport dport data.

(** The header is written in front of the data; [k] sends the packet. *)
Lemma udp_header_run {A} s p b u src dest sport dport data (k : M (stack U) A) : let b1 := moved b (- (8)) in let len := 8 + Z.of_nat (length data) in
  packet (mem s) p [(p, b1)] -> cell_data (dat (mem s)) b = data -> 8 <= poff (pb_payload b) -> cell_ok (dat (mem s)) b -> bytes_ok data -> 0 <= sport < 65536 -> 0 <= dport < 65536 -> 0 <= src < 2 ^ 32 -> 0 <= dest < 2 ^ 32 ->
  exists d, (wr (pb_payload b1) UDPH_SRC (le_bytes 2 (lwip_htons sport)) ;;; wr (pb_payload b1) UDPH_DEST (le_bytes 2 (lwip_htons dport)) ;;; wr (pb_payload b1) UDPH_CHKSUM (le_bytes 2 0) ;;;
     ret tt ;;; wr (pb_payload b1) UDPH_LEN (le_bytes 2 (lwip_htons len)) ;;;
     (if negb (udp_is_flag_set u UDP_FLAGS_NOCHKSUM) then
        let* udpchksum := onmem (ip_chksum_pseudo p IP_PROTO_UDP len src dest) in let udpchksum := if udpchksum =? 0 then 0xffff else udpchksum in wr (pb_payload b1) UDPH_CHKSUM (le_bytes 2 udpchksum)
      else ret tt) ;;; k) s = k (with_mem s (with_dat (mem s) d)) /\
    frame_dat [pblk (pb_payload b)] (dat (mem s)) d /\ cell_data d b1 = udp_sent u src dest sport dport data.
Proof.
  intros b1 len Hp Hd Ho Hcb Bd Rs Rd Ra Rb. destruct (packet_head _ _ _ _ _ Hp) as (_ & Hp0 & Hb & Hc & Htl & Hlb & _). pose proof (length_cell _ _ Hcb) as Hlc. rewrite Hd in Hlc.
  destruct (cell_moved_back (dat (mem s)) b 8 Hcb ltac:(lia)) as (_ & h & Hh & Eh). rewrite Hd in Eh. fold b1 in Eh. assert (pb_len b1 = len) as Hl1 by (change (pb_len b1) with (pb_len b - - (8)); unfold len; lia).
  set (k2 := (if negb (udp_is_flag_set u UDP_FLAGS_NOCHKSUM) then _ else ret tt) ;;; k). set (k1 := ret tt ;;; wr (pb_payload b1) UDPH_LEN (le_bytes 2 (lwip_htons len)) ;;; k2).
  destruct (put_all_run b1 [(UDPH_SRC, le_bytes 2 (lwip_htons sport)); (UDPH_DEST, le_bytes 2 (lwip_htons dport)); (UDPH_CHKSUM, le_bytes 2 0)] k1 s Hc) as (d1 & E1 & F1 & C1).
  { unfold fits. cbn [forallb fst snd]. rewrite !length_le_bytes. unfold UDPH_SRC, UDPH_DEST, UDPH_CHKSUM. rewrite !andb_true_iff, !Z.leb_le. lia. }
  set (s1 := with_mem s (with_dat (mem s) d1)) in *. assert (cell_ok d1 b1) as Hc1 by (by eapply frame_cell_ok). rewrite Eh in C1.
  destruct (wr_run s1 b1 UDPH_LEN (le_bytes 2 (lwip_htons len)) k2 Hc1 ltac:(done) ltac:(rewrite length_le_bytes; unfold UDPH_LEN; lia)) as (d2 & E2 & F2 & C2).
  change (dat (mem s1)) with d1 in F2, C2. rewrite (dgram_blits h data sport dport len (le_bytes 2 0) _) in C2; [|rewrite Hh; done|done|done|done|lia|apply length_le_bytes|by symmetry].
  assert (frame_dat [pblk (pb_payload b)] (dat (mem s)) d2) as F12 by (by eapply frame_trans). set (s2 := with_mem s1 (with_dat (mem s1) d2)) in *.
  assert ((wr (pb_payload b1) UDPH_SRC (le_bytes 2 (lwip_htons sport)) ;;; wr (pb_payload b1) UDPH_DEST (le_bytes 2 (lwip_htons dport)) ;;; wr (pb_payload b1) UDPH_CHKSUM (le_bytes 2 0) ;;; k1) s = k2 s2) as E.
  { etransitivity; [exact E1|]. unfold k1. rewrite bind_ret. exact E2. }
  assert (s2 = with_mem s (with_dat (mem s) d2)) as Es2 by done. unfold udp_sent. destruct (udp_is_flag_set u UDP_FLAGS_NOCHKSUM).
  - exists d2. split; [exact E|]. split; [done|exact C2].
  - cbn [negb] in k2. assert (cell_ok d2 b1) as Hc2 by (by eapply frame_cell_ok). set (c := not16 (norm (le_val (udp_covered src dest sport dport [0; 0] data)))).
    destruct (wr_run s2 b1 UDPH_CHKSUM (le_bytes 2 (if c =? 0 then 0xffff else c)) k Hc2 ltac:(done) ltac:(rewrite length_le_bytes; unfold UDPH_CHKSUM; lia)) as (d3 & E3 & F3 & C3).
    exists d3. change (dat (mem s2)) with d2 in F3, C3. split; [|split].
    + etransitivity; [exact E|]. unfold k2. rewrite bind_assoc. rewrite (onmem_run s2 _ c (mem s2)), with_mem_id; [exact E3|].
      assert (packet (mem s2) p [(p, b1)]) as Hp2 by (rewrite Es2; eapply frame_packet; [exact F12|done]).
      assert (content (dat (mem s2)) [(p, b1)] = udp_dgram sport dport [0; 0] data) as Hcont by (rewrite content_cons; cbn [content map concat snd]; rewrite app_nil_r; exact C2).
      pose proof (inet_chksum_pseudo_run (mem s2) p [(p, b1)] IP_PROTO_UDP len (le_bytes 4 src) (le_bytes 4 dest) Hp2) as Er.
      rewrite Hcont, !le_val_bytes in Er. change (256 ^ Z.of_nat 4) with (2 ^ 32) in Er. rewrite !(Z.mod_small _ (2 ^ 32)) in Er by done. unfold ip_chksum_pseudo. apply Er.
      * change (bytes_ok (content (dat (mem s2)) [(p, b1)])). rewrite Hcont. apply dgram_ok; [repeat constructor; unfold byte_ok; lia|done].
      * unfold IP_PROTO_UDP. lia.
      * lia.
      * apply length_le_bytes.
      * apply length_le_bytes.
      * apply le_bytes_ok.
      * apply le_bytes_ok.
    + by eapply frame_trans.
    + rewrite C3, C2. unfold c. rewrite stored_checksum by done. unfold udp_message. apply dgram_chk_blit; apply length_be_bytes || done.
Qed.

Record can_send s (pcb : Z) (u : udp_pcb) (p : Z) (b : pbuf) (data : bytes) (dest dport : Z) (mac : bytes) : Prop := {
  cs_pcb : upcbs (udpg s) !! pcb = Some u;
  cs_local : up_netif_idx u = NETIF_NO_INDEX /\ (up_local_ip u = IPADDR_ANY \/ up_local_ip u = nf_ip (nif s));
  cs_fields : byte_ok (up_tos u) /\ byte_ok (up_ttl u) /\ 0 <= up_addr_hint u;
  cs_packet : packet (mem s) p [(p, b)];
  cs_data : cell_data (dat (mem s)) b = data /\ bytes_ok data;
  cs_room : contiguous_type b /\ 8 + 20 + SIZEOF_ETH_HDR <= poff (pb_payload b) /\ pb_len b + 28 <= IF_MTU_SIZE;
  cs_arp : table_ok (arp_table s) /\ neighbour s dest mac;
  cs_route : routed (nif s) dest /\ ip4_addr_ismulticast (nf_ip (nif s)) = false;
  cs_ranges : 0 <= nf_ip (nif s) < 2 ^ 32 /\ 0 <= dest < 2 ^ 32 /\ 0 <= dport < 65536 /\ 0 <= ip_id (ipg s) < 65536
}.

Lemma udp_sendto_run s l pcb u p b data dest dport mac : udp_valid (udpg s) l -> can_send s pcb u p b data dest dport mac ->
  let src := nf_ip (nif s) in
  exists s' sport, udp_sendto pcb p (Some dest) dport s = Ok (ERR_OK, s') /\
    sent s' = sent s ++ [ip_frame s mac (ip_header [] (up_tos u) (28 + Z.of_nat (length data)) (ip_id (ipg s)) 0 (up_ttl u) IP_PROTO_UDP src dest ++ udp_sent u src dest sport dport data)] /\
    (if up_local_port u =? 0 then taken (udpg s) l sport = false else sport = up_local_port u) /\ 0 < sport < 65536 /\ udp_ok (udpg s') /\ nif s' = nif s /\ arp_table s' = arp_table s.
Proof.
  intros Hv [Hu (L1 & L2) (F1 & F2 & F3) Hp (Hd & Bd) (Hct & Ho & Hm) (Ht & Hn) (Hrt & Hmc) (Rs & Rd & Rp & Rid)] src. change SIZEOF_ETH_HDR with 24 in Ho. change IF_MTU_SIZE with 1392 in Hm.
  pose proof (uv_keys _ _ Hv _ _ Hu) as Hk. assert (pcb <> NULL) as Hpcb by (unfold NULL; lia). destruct (packet_head _ _ _ _ _ Hp) as (_ & Hp0 & Hb & Hc & Htl & Hlb & _). cbn [sum_len] in Htl.
  pose proof (length_cell _ _ Hc) as Hlc. rewrite Hd in Hlc. destruct (nb_unicast _ _ _ Hn) as [Hbc Hmd].
  unfold udp_sendto. rewrite (proj2 (Z.eqb_neq _ _) Hpcb), (proj2 (Z.eqb_neq _ _) Hp0). cbn [orb]. rewrite (getu_run _ _ _ _ Hpcb Hu). rewrite (bind_run (sendto_netif u dest) _ s true s).
  2: { unfold sendto_netif. rewrite (bind_run _ _ _ _ _ (eq_refl : gets nif s = Ok (nif s, s))), L1. change (negb (NETIF_NO_INDEX =? NETIF_NO_INDEX)) with false. cbv iota. rewrite Hmd, bind_ret.
    by apply ip4_route_run. }
  cbn [negb]. unfold udp_sendto_if. rewrite (proj2 (Z.eqb_neq _ _) Hpcb), (proj2 (Z.eqb_neq _ _) Hp0). cbn [orb]. rewrite (getu_run _ _ _ _ Hpcb Hu), (bind_run _ _ _ _ _ (eq_refl : gets nif s = Ok (nif s, s))).
  assert ((if ip4_addr_isany_val (up_local_ip u) || ip4_addr_ismulticast (up_local_ip u) then udp_sendto_if_src pcb p (Some dest) dport (Some (nf_ip (nif s)))
    else if negb (up_local_ip u =? nf_ip (nif s)) then ret ERR_RTE else udp_sendto_if_src pcb p (Some dest) dport (Some (up_local_ip u))) = udp_sendto_if_src pcb p (Some dest) dport (Some src)) as ->.
  { destruct L2 as [->| ->]; [done|]. rewrite Hmc, Z.eqb_refl. by destruct (ip4_addr_isany_val _). }
  unfold udp_sendto_if_src. rewrite (proj2 (Z.eqb_neq _ _) Hpcb), (proj2 (Z.eqb_neq _ _) Hp0). cbn [orb]. rewrite (getu_run _ _ _ _ Hpcb Hu), (bind_run _ _ _ _ _ (eq_refl : gets nif s = Ok (nif s, s))), Hbc, andb_false_r.
  fold (ensure_port pcb u). destruct (ensure_port_run s l pcb u Hv Hu) as (g1 & l1 & sport & y & E1 & Hv1 & Hin & Hu1 & Hsp & Hx). set (u1 := _ <| up_next := y |>) in Hu1. rewrite (bind_run _ _ _ _ _ E1). set (sb := with_udp s g1).
  change (negb (ERR_OK =? ERR_OK)) with false. cbv iota. rewrite (onmem_getp sb p b _ Hp0 Hb). change UDP_HLEN with 8. rewrite u16_id by lia. rewrite (proj2 (Z.ltb_ge _ _)) by lia.
  destruct (pbuf_add_header_run (mem s) p b [] 8 Hp Hct ltac:(lia) ltac:(cbn [sum_len snd]; lia)) as (Ea & Hp1 & _). set (b1 := moved b (- (8))) in *. set (m1 := put_cell (mem s) p b1) in *. set (s1 := with_mem sb m1).
  rewrite (bind_run (header_packet p) _ sb p s1).
  2: { unfold header_packet. change UDP_HLEN with 8. rewrite (onmem_run sb _ _ _ _ Ea). done. }
  rewrite (proj2 (Z.eqb_neq _ _) Hp0), (onmem_getp s1 p b1 _ Hp0 (lookup_insert_eq _ _ _)). assert (udpg s1 = g1) as Eg1 by (apply udpg_with). rewrite (getu_run s1 pcb u1) by (done || by rewrite Eg1).
  change (up_local_port u1) with sport. change (udp_is_flag_set u1) with (udp_is_flag_set u). rewrite Hmd, andb_false_r.
  assert (pb_tot_len b1 = 8 + Z.of_nat (length data)) as Htl1 by (change (pb_tot_len b1) with (pb_tot_len b - - (8)); lia). rewrite Htl1.
  change (up_mcast_ttl u1) with (up_mcast_ttl u). change (up_ttl u1) with (up_ttl u). change (up_tos u1) with (up_tos u). change (up_addr_hint u1) with (up_addr_hint u). change (up_flags u1) with (up_flags u).
  match goal with |- context [modify ?f ;;; ?k] => set (send_it := modify f ;;; k) end.
  destruct (udp_header_run s1 p b u src dest sport dport data send_it Hp1 Hd ltac:(lia) Hc Bd ltac:(lia) Rp Rs Rd) as (d & E & Fd & Cd). fold b1 in E, Cd. set (s2 := with_mem s1 (with_dat (mem s1) d)) in *.
  change (dat (mem s1)) with (dat (mem s)) in Fd. assert (packet (mem s2) p [(p, b1)]) as Hp2 by (eapply (frame_packet _ (mem s1)); [exact Fd|exact Hp1]).
  assert (ipg s2 = ipg s) as Eip by (unfold ipg, s2, s1, sb, with_udp, with_mem; cbn; apply ip_get_udp).
  destruct (send_hinted_run s2 p b1 src dest (up_ttl u) (up_tos u) IP_PROTO_UDP mac (up_addr_hint u)) as (d2 & i & Hi & E2 & F2').
  { by destruct Hn. }
  { exact Ht. }
  { exact F3. }
  { exact Hp2. }
  { exact Hct. }
  { change (poff (pb_payload b1)) with (poff (pb_payload b) + - (8)). change SIZEOF_ETH_HDR with 24. lia. }
  { change (pb_len b1) with (pb_len b - - (8)). change IF_MTU_SIZE with 1392. lia. }
  1-6: try done; by rewrite Eip || (unfold IP_PROTO_UDP, byte_ok; lia).
  change (dat (mem s2)) with d in E2. rewrite Cd, Eip in E2. replace (pb_len b1 + 20) with (28 + Z.of_nat (length data)) in E2 by (change (pb_len b1) with (pb_len b - - (8)); lia).
  match type of E2 with _ = Ok (_, with_hint ?x _) => set (s3 := x) in E2 end.
  assert (udpg s3 = g1) as Eg3 by (unfold udpg, s3, send, with_ip; cbn; rewrite udp_get_ip; exact Eg1). set (g4 := put_upcb g1 pcb (u1 <| up_addr_hint := i |>)).
  exists (with_hint (with_udp s3 g4) None), sport. split.
  - etransitivity; [exact E|]. unfold send_it. unfold bind at 1, modify. fold (with_hint s2 (Some (up_addr_hint u))). rewrite (bind_run _ _ _ _ _ E2).
    rewrite (bind_run (gets (fun s => nf_hint (nif s))) _ (with_hint s3 (Some i)) (Some i) (with_hint s3 (Some i))) by done.
    rewrite (updu_run (with_hint s3 (Some i)) pcb u1) by (done || (change (udpg (with_hint s3 (Some i))) with (udpg s3); by rewrite Eg3)). change (udpg (with_hint s3 (Some i))) with (udpg s3). rewrite Eg3. fold g4.
    unfold bind at 1, modify. rewrite Z.eqb_refl. cbn [negb]. unfold bind, ret. done.
  - split; [done|]. split; [done|]. split; [done|]. split; [|split; [|done]].
    + change (udpg (with_hint (with_udp s3 g4) None)) with (udpg (with_udp s3 g4)). rewrite udpg_with. exists l1. eapply (valid_put g1 l1 pcb u1); [done|done|by split].
    + change (nif (with_hint (with_udp s3 g4) None)) with ((nif s) <| nf_hint := None |>). rewrite <- (nb_hint _ _ _ Hn). by destruct (nif s).
Qed.

End Output.
