(* ===== verification/UdpTrip.v ===== *)
(** UDP from station to station: a frame with a datagram reaches the callback of
    the control block that listens. *)

From stdpp Require Import gmap.
From S2P Require Import Prelude Cmonad Cutils Heap Pbuf PbufProofs PbufChain Inet InetProofs Ethernet Etharp EthernetProofs EtharpProofs ArpProofs Link IpOutput Icmp Reass IpInput IpProofs FragProofs IcmpProofs IpInProofs IcmpErrors Udp UdpTable UdpProofs.

Lemma ip_header_ok opts tos len id off ttl proto src dest : (length opts <= 40)%nat -> bytes_ok opts -> byte_ok tos -> byte_ok ttl -> byte_ok proto -> bytes_ok (ip_header opts tos len id off ttl proto src dest).
Proof. intros Hl Ho Ht Hl' Hp. unfold ip_header. apply Forall_app_2; [|done]. apply ip_fields_ok; try done; [unfold v_hl_of, byte_ok; zdm|apply be_bytes_ok]. Qed.

(** ** From IP to UDP *)

Section ToUdp.
Context `{PbufEnv} `{Addresses} {V : Type} `{IpIn V} `{Transport V}.
Implicit Types r : stack V.

(** The globals while a packet is handled by the layer above. *)
Definition handed (g : ip_globals) (iphdr : ptr) (hlen : Z) : ip_globals :=
  g <| current_netif := true |> <| current_input_netif := true |> <| current_ip4_header := iphdr |> <| current_ip_header_tot_len := hlen |>.

Lemma deliver_udp_run r p b opts tos len id off ttl src dest payload : let hlen := 20 + Z.of_nat (length opts) in
  no_raw (U := V) -> packet (mem r) p [(p, b)] -> cell_data (dat (mem r)) b = ip_header opts tos len id off ttl IP_PROTO_UDP src dest ++ payload ->
  (length opts <= 40)%nat -> Z.of_nat (length opts) mod 4 = 0 ->
  deliver p hlen r = (IpInput.udp_input p ;;; modip idle) (with_ip (with_mem r (put_cell (mem r) p (moved b hlen))) (handed (ipg r) (pb_payload b) hlen)).
Proof.
  intros hlen Hraw Hp Hd Hlo Hmo. destruct (packet_head _ _ _ _ _ Hp) as (_ & Hp0 & Hb & Hc & Htl & Hlb & _). cbn [sum_len] in Htl.
  pose proof (length_cell _ _ Hc) as Hl. rewrite Hd, length_app, length_ip_header in Hl. destruct (v_hl_bytes opts Hlo Hmo) as [Hhl _]. fold hlen in Hhl.
  unfold ip_header in Hd. match type of Hd with context [ip_fields _ _ _ _ _ _ _ ?x _ _] => set (chk := x) in Hd end. assert (length chk = 2%nat) as Hck by apply length_be_bytes.
  pose proof (ip_fields_read (v_hl_of opts) tos len id off ttl IP_PROTO_UDP chk src dest (opts ++ payload) Hck) as (R1 & _ & _ & R4 & _). rewrite app_assoc in R1, R4.
  unfold deliver. rewrite (onmem_getp _ _ _ _ Hp0 Hb). rewrite (rd_run r b IPH_VHL 1) by (done || (unfold IPH_VHL; lia)). rewrite Hd. change (Z.to_nat IPH_VHL) with 0%nat. change (Z.to_nat 1) with 1%nat.
  rewrite drop_0, R1. cbn [le_val]. rewrite Z.mul_0_r, Z.add_0_r, Hhl, modip_run. fold (handed (ipg r) (pb_payload b) hlen). set (r1 := with_ip r _). rewrite (bind_run _ _ _ _ _ (Hraw p r1)). cbv beta iota.
  destruct (pbuf_remove_header_run (mem r) p b [] hlen Hp ltac:(lia)) as (Er & Hp2 & _). unfold to_upper. rewrite bind_assoc, (onmem_run r1 _ _ _ _ Er). change (with_mem r1 (put_cell (mem r) p (moved b hlen))) with (with_ip (with_mem r (put_cell (mem r) p (moved b hlen))) (handed (ipg r) (pb_payload b) hlen)).
  set (r2 := with_ip (with_mem r _) _). rewrite bind_assoc, (rd_run r2 b IPH_PROTO 1) by (done || (unfold IPH_PROTO; lia)).
  change (dat (mem r2)) with (dat (mem r)). rewrite Hd. change (Z.to_nat IPH_PROTO) with 9%nat. change (Z.to_nat 1) with 1%nat. rewrite R4. cbn [le_val]. change (IP_PROTO_UDP + 256 * 0) with 17. change (17 =? IP_PROTO_UDP) with true. cbv iota. done.
Qed.
End ToUdp.

(** ** To the callback *)

Section Receive.
Context `{PbufEnv} `{Addresses} {V : Type} `{UdpIn V} `{UdpApp V} (T : Transport V) (etharp_in : Z -> M (stack V) unit).
Implicit Types r : stack V.

(** IP with UDP above it, the other protocols as in [T]. *)
Definition over_udp : Transport V :=
  {| raw_input := @raw_input V T; IpInput.udp_input := udp_input; tcp_input := @tcp_input V T; igmp_input := @igmp_input V T; igmp_lookfor_group := @igmp_lookfor_group V T |}.
#[local] Existing Instance over_udp.
Definition udp_ip4_input : Z -> M (stack V) unit := ip4_input.

(** The station takes packets from [src]; nobody has a raw socket. *)
Record listening r (src : Z) : Prop := {
  ls_raw : no_raw (U := V);
  ls_store : store_ok (mem r) /\ 0 < pool_left (mem r);
  ls_etharp : Z.land (nf_flags (nif r)) NETIF_FLAG_ETHARP <> 0;
  ls_accept : acceptable (nif r) src (nf_ip (nif r));
  ls_unicast : unicast (nif r) (nf_ip (nif r));
  ls_range : 0 <= nf_ip (nif r) < 2 ^ 32
}.
(** A block for datagrams to [port] of this station. *)
Record listener r (i : Z) (v : udp_pcb) (port : Z) : Prop := {
  li_pcb : upcbs (udpg r) !! i = Some v;
  li_port : up_local_port v = port /\ port <> 0;
  li_addr : up_netif_idx v = NETIF_NO_INDEX /\ (up_local_ip v = IPADDR_ANY \/ up_local_ip v = nf_ip (nif r));
  li_alone : ~ reuses v;
  li_recv : up_recv v <> NULL
}.

Lemma udp_deliver_run r i v p sport dport : upcbs (udpg r) !! i = Some v -> i <> NULL -> ~ reuses v -> up_recv v <> NULL ->
  udp_deliver i p sport dport false r = call_recv (up_recv v) (up_recv_arg v) i p (current_iphdr_src (ipg r)) sport r.
Proof.
  intros Hv Hi Hr Hf. unfold udp_deliver. rewrite (getu_run _ _ _ _ Hi Hv). rewrite (bind_run (getip current_iphdr_dest) _ r (current_iphdr_dest (ipg r)) r) by done.
  unfold reuses in Hr. destruct (ip_get_option v SOF_REUSEADDR); [done|]. cbn [andb]. rewrite bind_ret, (getu_run _ _ _ _ Hi Hv), (proj2 (Z.eqb_neq _ _) Hf). cbn [negb]. done.
Qed.

(** The packet [q] that a frame with a datagram became, when UDP gets it in state [r']: its cell shows the datagram,
    the IP header is in front of it, and nothing else in memory has changed. *)
Record arrival r (r' : stack V) (q : Z) (c : pbuf) (hdr : bytes) (src dest sport dport : Z) (chk data : bytes) : Prop := {
  av_arrived : arrived r' q c src dest sport dport chk data;
  av_header : cell_ok (dat (mem r')) (moved c (- (20))) /\ cell_data (dat (mem r')) (moved c (- (20))) = hdr ++ udp_dgram sport dport chk data;
  av_ip : ipg r' = handed (handling (ipg r) src dest) (pb_payload (moved c (- (20)))) 20;
  av_upper : upper r' = ip_put (ipg r') (upper r);
  av_rest : nif r' = nif r /\ arp_table r' = arp_table r /\ sent r' = sent r;
  av_cell : pb_type c = pool_type /\ pb_ref c = 1 /\ q = next_blk (mem r) /\ pblk (pb_payload c) = q /\ releasable [(q, c)] /\ 20 <= poff (pb_payload c);
  av_mem : (forall k, k <> q -> pbs (mem r') !! k = pbs (mem r) !! k /\ dat (mem r') !! k = dat (mem r) !! k) /\ pool_left (mem r') = pool_left (mem r) - 1 /\ next_blk (mem r') = q + 1
}.

Section Frame.
Context r (eth : bytes) (tos id ttl src sport dport : Z) (chk data pad : bytes).
Let dest := nf_ip (nif r).
Let hdr := ip_header [] tos (28 + Z.of_nat (length data)) id 0 ttl IP_PROTO_UDP src dest.
Let frame := eth ++ (hdr ++ udp_dgram sport dport chk data) ++ pad.

(** A frame that the station accepts, with a datagram. *)
Record datagram_frame : Prop := {
  df_station : listening r src;
  df_eth : length eth = 24%nat /\ drop 22 eth = be_bytes 2 ETHTYPE_IP;
  df_bytes : byte_ok tos /\ byte_ok ttl /\ 0 <= src < 2 ^ 32;
  df_ports : 0 <= sport < 65536 /\ 0 <= dport < 65536;
  df_chk : length chk = 2%nat /\ bytes_ok chk /\ bytes_ok data;
  df_length : Z.of_nat (length frame) <= first_room
}.

Lemma udp_arrives : datagram_frame ->
  exists q c r', receive_frame udp_ip4_input etharp_in frame r = (udp_input q ;;; modip idle ;;; ret tt) r' /\ arrival r r' q c hdr src dest sport dport chk data.
Proof.
  intros [[Hraw (Hs & Hpool) Hea Hacc Huni Rd] (He & Hty) (Bt & Bl & Rs) (Rsp & Rdp) (Lk & Bk & Bd) Hfl].
  pose proof (length_dgram sport dport chk data Lk) as Hld. assert (no_raw (U := V)) as Hraw' by exact Hraw.
  destruct (receive_one_run etharp_in r eth ((hdr ++ udp_dgram sport dport chk data) ++ pad)) as (b & m & Er & Hp & Hcont & T1 & T2 & T3 & Hoffs & Hrel & Hrest & Hleft & Hnext); try done.
  fold frame in Er. set (q := next_blk (mem r)) in *. set (r1 := with_mem r m) in *. unfold hdr in Hcont.
  assert (28 + Z.of_nat (length data) = 20 + Z.of_nat (@length Z []) + Z.of_nat (length (udp_dgram sport dport chk data))) as El by (rewrite Hld; cbn [length]; lia). rewrite El in Hcont.
  destruct (ip4_input_good_run r1 q b [] tos id 0 ttl IP_PROTO_UDP src dest (udp_dgram sport dport chk data) pad Hp Hrel Hcont ltac:(cbn; lia) ltac:(done) ltac:(constructor) Bt Bl ltac:(unfold IP_PROTO_UDP, byte_ok; lia)
    ltac:(lia) ltac:(done) Rs Rd Hacc) as (Ei & Hp2 & Hd2).
  rewrite <- El in Ei, Hp2, Hd2. change (20 + Z.of_nat (@length Z [])) with 20 in Ei. fold hdr in Hd2. set (b2 := cut b _) in *. set (r2 := with_ip _ _) in Ei.
  assert (deliver q 20 r2 = _) as Ed by (apply (deliver_udp_run r2 q b2 [] tos (28 + Z.of_nat (length data)) id 0 ttl src dest (udp_dgram sport dport chk data) Hraw' Hp2 Hd2); [cbn; lia|done]).
  set (r3 := with_ip _ _) in Ed. set (b3 := moved b2 20). change (mem r2) with (put_cell m q b2) in Ed.
  assert (ipg r2 = handling (ipg r) src dest) as Eg2 by apply ipg_with_ip. assert (ipg r3 = handed (ipg r2) (pb_payload b2) 20) as Eg3 by apply ipg_with_ip.
  destruct (packet_head _ _ _ _ _ Hp2) as (_ & _ & _ & Hc2 & _). pose proof (length_cell _ _ Hc2) as Hl2. change (dat (put_cell (mem r1) q b2)) with (dat m) in Hl2, Hc2. change (dat (mem r1)) with (dat m) in Hd2.
  rewrite Hd2, length_app, Hld in Hl2. unfold hdr in Hl2. rewrite length_ip_header in Hl2. cbn [length] in Hl2.
  destruct (pbuf_remove_header_run (put_cell m q b2) q b2 [] 20 Hp2 ltac:(lia)) as (_ & Hp3 & Hc3). fold b3 in Hp3, Hc3.
  assert (moved b3 (- (20)) = b2) as Eb by (unfold b3; rewrite moved_moved; apply moved_0).
  assert (cell_data (dat m) b3 = udp_dgram sport dport chk data) as Hd3.
  { change (dat (put_cell m q b2)) with (dat m) in Hc3. rewrite !content_cons in Hc3. cbn [content map concat snd] in Hc3. rewrite !app_nil_r, Hd2 in Hc3. rewrite Hc3. rewrite drop_app_length'; [done|]. unfold hdr. by rewrite length_ip_header. }
  exists q, b3, r3. split.
  - unfold udp_ip4_input. rewrite Er. unfold bind at 1. rewrite Ei, Ed. unfold bind at 1 2. change (@IpInput.udp_input V over_udp q r3) with (udp_input q r3). unfold bind. by destruct (udp_input q r3) as [[[] ?]| |].
  - split; rewrite ?Eb.
    + split; try done; rewrite Eg3, Eg2; done.
    + by split.
    + by rewrite Eg3, Eg2.
    + rewrite Eg3. change (upper r3) with (ip_put (handed (ipg r2) (pb_payload b2) 20) (ip_put (handling (ipg r) src dest) (upper r))). apply ip_put_put.
    + done.
    + split; [done|]. split; [done|]. split; [done|]. split; [done|]. split; [by constructor; [apply Forall_cons in Hrel as [? _]|]|]. change (poff (pb_payload b3)) with (poff (pb_payload b) + 20). rewrite Hoffs. done.
    + split; [|done]. intros k Hk. destruct (Hrest k Hk) as [Q1 Q2]. split; [|done]. change (pbs (mem r3)) with (<[q := b3]> (<[q := b2]> (pbs m))). by rewrite !lookup_insert_ne.
Qed.
End Frame.

(** A datagram for a block reaches its callback, with the data alone in the packet. *)
Lemma udp_receive_run r l i v eth tos id ttl src sport chk data pad : let dport := up_local_port v in
  datagram_frame r eth tos id ttl src sport dport chk data pad -> udp_valid (udpg r) l -> listener r i v dport -> checksum_good src (nf_ip (nif r)) sport dport chk data ->
  udp_is_flag_set v UDP_FLAGS_CONNECTED = false \/ knows src sport v = true ->
  exists q c r', receive_frame udp_ip4_input etharp_in (eth ++ (ip_header [] tos (28 + Z.of_nat (length data)) id 0 ttl IP_PROTO_UDP src (nf_ip (nif r)) ++ udp_dgram sport dport chk data) ++ pad) r =
      (call_recv (up_recv v) (up_recv_arg v) i q src sport ;;; modip idle ;;; ret tt) r' /\
    packet (mem r') q [(q, c)] /\ cell_data (dat (mem r')) c = data /\ udp_ok (udpg r') /\ nif r' = nif r /\ sent r' = sent r.
Proof.
  intros dport Hdf Hv [Hi (_ & Hp0) (L1 & L2) Hal Hre] Hgood Hto. destruct (udp_arrives _ _ _ _ _ _ _ _ _ _ _ Hdf) as (q & c & r3 & Er & [Har _ Eg3 Eup (Enif & _ & Esent) _ _]). pose proof (ls_unicast _ _ (df_station _ _ _ _ _ _ _ _ _ _ _ Hdf)) as Huni.
  destruct (df_chk _ _ _ _ _ _ _ _ _ _ _ Hdf) as (Lk & _ & _). set (dest := nf_ip (nif r)) in *. assert (udpg r3 = udpg r) as Eu by (unfold udpg; rewrite Eup; apply udp_get_ip). pose proof (bound_in_list _ _ _ _ Hv Hi Hp0) as Hin.
  assert (ip4_addr_isbroadcast_u32 dest (nif r3) = false) as Hbc by (rewrite Enif; apply Huni).
  assert (wants (nif r3) (current_iphdr_dest (ipg r3)) false dport v = true) as Hw.
  { rewrite Eg3, Enif. change (current_iphdr_dest (handed (handling (ipg r) src dest) _ 20)) with dest. unfold wants, local_match. rewrite L1. unfold dport. rewrite Z.eqb_refl. cbn [andb].
    destruct L2 as [->| ->]; [done|]. fold dest. rewrite (Z.eqb_refl dest). rewrite orb_true_l, andb_true_l. apply orb_true_r. }
  destruct (lookup_only r3 l i v src sport dport false) as (pcb & uncon & g & l' & v' & El' & Hg & Hin' & Hv' & Ev' & Ech); rewrite ?Eu; try done.
  { rewrite Eg3. done. }
  { rewrite Eg3. done. }
  { apply (only_one (udpg r) l (nif r3) (current_iphdr_dest (ipg r3)) dport i v Hv Hin Hi Hal Hw). }
  assert ((if pcb =? NULL then uncon else pcb) = i) as Ech'.
  { rewrite Ech. destruct Hto as [->| ->]; [|done]. by rewrite orb_true_r. }
  destruct (ulist_in _ _ _ _ (uv_list _ _ Hv) Hin) as [Hi0 _]. rewrite Eu in El'.
  pose proof (udp_input_run r3 q c src dest sport dport chk data pcb uncon g Har Hgood) as Ein. rewrite Hbc, Eu, Ech' in Ein. specialize (Ein El' (or_introl Hi0)).
  set (r4 := with_udp _ g) in Ein. assert (udpg r4 = g) as Eu4 by apply udpg_with. assert (ipg r4 = ipg r3) as Eg4 by (unfold ipg, r4, with_udp; cbn; apply ip_get_udp).
  destruct Har as [Hp3 Hd3 _ _ _ _ _]. destruct (packet_head _ _ _ _ _ Hp3) as (_ & _ & _ & Hc3 & _). pose proof (length_cell _ _ Hc3) as Hl3. rewrite Hd3, length_dgram in Hl3 by done.
  exists q, (moved c 8), r4. destruct (pbuf_remove_header_run (mem r3) q c [] 8 Hp3 ltac:(lia)) as (_ & Hp4 & Hc4). split; [|split; [|split; [|split; [|done]]]].
  - rewrite Er. unfold bind at 1. rewrite Ein. unfold to_block. rewrite (proj2 (Z.eqb_neq _ _) Hi0). cbn [negb].
    rewrite (udp_deliver_run r4 i v') by (rewrite ?Eu4; try done; rewrite Ev'; done). rewrite Ev', Eg4, Eg3. done.
  - exact Hp4.
  - change (dat (mem r4)) with (dat (mem r3)). rewrite !content_cons in Hc4. cbn [content map concat snd] in Hc4. rewrite !app_nil_r, Hd3 in Hc4. rewrite Hc4. change (Z.to_nat 8) with 8%nat. apply (dgram_read sport dport chk data Lk).
  - rewrite Eu4. by exists l'.
Qed.
(** ** Nobody has the port *)

Lemma header_force_run (m : lmem) p b l n : packet m p ((p, b) :: l) -> contiguous_type b -> 0 < n <= poff (pb_payload b) -> sum_len ((p, b) :: l) + n < 65536 ->
  pbuf_header_force p n m = Ok (0, put_cell m p (moved b (- n))).
Proof.
  intros Hp Hc Hn Hs. destruct (pbuf_add_header_run m p b l n Hp Hc ltac:(lia) Hs) as (E & _). rewrite <- E. destruct (packet_head _ _ _ _ _ Hp) as (_ & Hp0 & Hb & _).
  unfold pbuf_header_force, pbuf_header_impl, pbuf_add_header, pbuf_add_header_impl. rewrite (proj2 (Z.ltb_ge n 0)) by lia. destruct (_ || _); [done|]. destruct (n =? 0); [done|].
  rewrite !(getp_run _ _ _ _ Hp0 Hb). destruct (_ <? _); [done|]. unfold contiguous_type in Hc. by rewrite Hc.
Qed.
Lemma udp_unreachable_run r l eth tos id ttl src sport dport chk data pad mac : let dest := nf_ip (nif r) in let hdr := ip_header [] tos (28 + Z.of_nat (length data)) id 0 ttl IP_PROTO_UDP src dest in
  datagram_frame r eth tos id ttl src sport dport chk data pad -> checksum_good src dest sport dport chk data -> udp_valid (udpg r) l -> taken (udpg r) l dport = false ->
  neighbour r src mac -> routed (nif r) src -> (forall n, mem_gives n = true) -> 0 <= ip_id (ipg r) < 65536 ->
  exists r', receive_frame udp_ip4_input etharp_in (eth ++ (hdr ++ udp_dgram sport dport chk data) ++ pad) r = Ok (tt, r') /\
    sent r' = sent r ++ [ip_frame r mac (ip_header [] 0 56 (ip_id (ipg r)) 0 ICMP_TTL IP_PROTO_ICMP dest src ++ icmp_error ICMP_DUR ICMP_DUR_PORT (hdr ++ take 8 (udp_dgram sport dport chk data)))] /\
    upper r' = ip_put (idle (next_id (ipg r))) (upper r) /\ nif r' = nif r /\ arp_table r' = arp_table r /\ pbs (mem r') = pbs (mem r) /\ dat (mem r') = dat (mem r) /\ pool_left (mem r') = pool_left (mem r).
Proof.
  intros dest hdr Hdf Hgood Hv Hfree Hn Hrt Hgives Rid. destruct (udp_arrives _ _ _ _ _ _ _ _ _ _ _ Hdf) as (q & c & r3 & Er & [Har (Hch & Hdh) Eg3 Eup (Enif & Earp & Esent) (T1 & T2 & T3 & T4 & Hrel & Hoff) (Hrest & Hleft & Hnext)]).
  destruct (df_station _ _ _ _ _ _ _ _ _ _ _ Hdf) as [_ (Hs & _) _ _ Huni Rn]. destruct (df_bytes _ _ _ _ _ _ _ _ _ _ _ Hdf) as (Bt & Bl & Rs). destruct (df_chk _ _ _ _ _ _ _ _ _ _ _ Hdf) as (Lk & Bk & Bd). fold dest in Har, Hdh, Eg3, Er. fold hdr in Hdh, Er.
  assert (udpg r3 = udpg r) as Eu by (unfold udpg; rewrite Eup; apply udp_get_ip). assert (ip4_addr_isbroadcast_u32 dest (nif r3) = false) as Hbc by (rewrite Enif; apply Huni).
  assert (lookup_loop (S (size (upcbs (udpg r3)))) (udp_pcbs (udpg r3)) NULL NULL sport dport (ip4_addr_isbroadcast_u32 dest (nif r3)) r3 = Ok ((NULL, NULL), with_udp r3 (udpg r3))) as El.
  { rewrite with_udp_id. rewrite Eu. apply (lookup_none r3 sport dport _ ltac:(by rewrite Eg3) l); rewrite ?Eu; [apply (uv_list _ _ Hv)| |apply (fuel_enough _ _ Hv)].
    intros j v Hj Hjv. rewrite Eu in Hjv. unfold wants. by rewrite (has_false _ _ _ Hfree j v Hj Hjv). }
  pose proof (udp_input_run r3 q c src dest sport dport chk data NULL NULL (udpg r3) Har Hgood El ltac:(right; by rewrite Enif)) as Ein. rewrite Hbc in Ein. change (if NULL =? NULL then NULL else NULL) with NULL in Ein.
  destruct Har as [Hp3 Hd3 _ _ _ _ _]. destruct (packet_head _ _ _ _ _ Hp3) as (_ & Hq0 & Hb3 & Hc3 & _ & Hlb & _). pose proof (length_cell _ _ Hc3) as Hl3. rewrite Hd3, length_dgram in Hl3 by done.
  destruct (pbuf_remove_header_run (mem r3) q c [] 8 Hp3 ltac:(lia)) as (_ & Hp4 & _). set (m4 := put_cell (mem r3) q (moved c 8)) in *.
  assert (with_udp (with_mem r3 m4) (udpg r3) = with_mem r3 m4) as E4 by (apply (with_udp_id (with_mem r3 m4))). rewrite E4 in Ein. set (r4 := with_mem r3 m4) in *.
  unfold to_block in Ein. change (negb (NULL =? NULL)) with false in Ein. cbv iota in Ein. unfold udp_unreachable in Ein. rewrite (bind_run (getip current_iphdr_dest) _ r4 dest r4) in Ein by (unfold getip, gets; fold (ipg r4); change (ipg r4) with (ipg r3); by rewrite Eg3).
  rewrite (proj2 Huni : ip4_addr_ismulticast dest = false) in Ein. cbn [negb andb] in Ein. rewrite !bind_assoc in Ein. rewrite (bind_run (getip current_ip_header_tot_len) _ r4 20 r4) in Ein by (unfold getip, gets; fold (ipg r4); change (ipg r4) with (ipg r3); by rewrite Eg3).
  change (20 + UDP_HLEN) with 28 in Ein. destruct (packet_head _ _ _ _ _ Hp4) as (_ & _ & _ & Hc4 & _). change (dat m4) with (dat (mem r3)) in Hc4. set (b5 := moved c (- (20))) in *.
  pose proof (header_force_run m4 q (moved c 8) [] 28 Hp4) as Ef. rewrite moved_moved in Ef. change (8 + - (28)) with (- (20)) in Ef. fold b5 in Ef. unfold m4 at 2 in Ef. rewrite put_cell_put in Ef. set (m5 := put_cell (mem r3) q b5) in *.
  specialize (Ef ltac:(unfold contiguous_type; change (pb_type (moved c 8)) with (pb_type c); by rewrite T1) ltac:(change (poff (pb_payload (moved c 8))) with (poff (pb_payload c) + 8); lia) ltac:(cbn [sum_len snd]; change (pb_len (moved c 8)) with (pb_len c - 8); pose proof (df_length _ _ _ _ _ _ _ _ _ _ _ Hdf) as HL; rewrite !length_app, length_dgram in HL by done; change first_room with 1432 in HL; lia)).
  rewrite bind_assoc, (onmem_run r4 _ _ _ _ Ef) in Ein. set (r5 := with_mem r4 m5) in *. fold dest in Rn.
  assert (pb_len b5 = 28 + Z.of_nat (length data)) as Hl5 by (change (pb_len b5) with (pb_len c - - (20)); lia).
  assert (packet m5 q [(q, b5)]) as Hp5 by (apply (packet_moved (mem r3) q c [] (- (20)) Hp3 Hch); cbn [sum_len snd]; pose proof (df_length _ _ _ _ _ _ _ _ _ _ _ Hdf) as HL; rewrite !length_app, length_dgram in HL by done; change first_room with 1432 in HL; lia).
  assert (store_ok m5) as Hs5.
  { destruct Hs as [S1 S2 S3 S4]. split; change (next_blk m5) with (next_blk (mem r3)); rewrite ?Hnext; [lia| | |change (pool_left m5) with (pool_left (mem r3)); pose proof (ls_store _ _ (df_station _ _ _ _ _ _ _ _ _ _ _ Hdf)) as [_ ?]; lia].
    - intros k Hk. change (pbs m5) with (<[q := b5]> (pbs (mem r3))). rewrite lookup_insert_ne by lia. rewrite (proj1 (Hrest k ltac:(lia))). apply S2. lia.
    - intros k Hk. change (dat m5) with (dat (mem r3)). rewrite (proj2 (Hrest k ltac:(lia))). apply S3. lia. }
  set (quoted := hdr ++ take 8 (udp_dgram sport dport chk data)). assert (length hdr = 20%nat) as Hlh by apply length_ip_header.
  assert (take 28 (cell_data (dat m5) b5) = quoted) as Hquo by (change (dat m5) with (dat (mem r3)); rewrite Hdh, take_app, Hlh; rewrite take_ge by lia; done).
  assert (bytes_ok quoted) as Bq by (apply Forall_app_2; [apply ip_header_ok; (done || (unfold IP_PROTO_UDP, byte_ok; lia) || (cbn; lia) || constructor)|apply Forall_take; by apply dgram_ok]).
  assert (le_val (take 4 (drop 12 (cell_data (dat m5) b5))) = src) as Hsrc.
  { change (dat m5) with (dat (mem r3)). rewrite Hdh. unfold hdr, ip_header. rewrite <- app_assoc. pose proof (ip_fields_read (v_hl_of []) tos (28 + Z.of_nat (length data)) id 0 ttl IP_PROTO_UDP
      (be_bytes 2 (rfc1071_checksum (ip_fields (v_hl_of []) tos (28 + Z.of_nat (length data)) id 0 ttl IP_PROTO_UDP [0; 0] src dest ++ []))) src dest ([] ++ udp_dgram sport dport chk data) (length_be_bytes _ _)) as (_ & _ & _ & _ & R & _).
    rewrite R, le_val_bytes. apply Z.mod_small. exact Rs. }
  assert (neighbour r5 src mac) as Hn5 by (destruct Hn as [N1 N2 N3 N4 N5]; split; change (nif r5) with (nif r3); change (arp_table r5) with (arp_table r3); rewrite ?Enif, ?Earp; done).
  pose proof (icmp_response_run r5 q b5 ICMP_DUR ICMP_DUR_PORT src mac Hs5 Hp5 ltac:(lia) (Hgives _)) as Eic. change (mem r5) with m5 in Eic. rewrite Hquo in Eic. change (nif r5) with (nif r3) in Eic. change (ipg r5) with (ipg r3) in Eic. rewrite Enif in Eic.
  assert (ip_id (ipg r3) = ip_id (ipg r)) as Eid by (by rewrite Eg3). rewrite Eid in Eic. specialize (Eic Bq ltac:(done) ltac:(done) Hsrc Hrt Hn5 Rs Rn Rid). fold dest in Eic.
  rewrite (bind_run (icmp_dest_unreach q ICMP_DUR_PORT) _ r5 _ _ Eic) in Ein. set (fr := ip_frame r5 mac _) in Ein. set (r6 := with_ip _ _) in Ein.
  assert (chain (pbs (mem r6)) q [(q, b5)]) as Hch6 by (apply (pk_chain _ _ _ Hp5)).
  rewrite (onmem_run r6 _ _ _ _ (pbuf_free_run (mem r6) q [(q, b5)] Hch6 (releasable_moved _ _ _ Hrel))) in Ein. change (mem r6) with (bumped m5) in Ein. set (m7 := after_free (bumped m5) [(q, b5)]) in *.
  eexists. split; [rewrite Er; unfold bind at 1; rewrite Ein; reflexivity|].
  destruct (pool_cell_back (mem r) (bumped m5) q b5 Hs T3 (lookup_insert_eq _ _ _) T1 T2) as (P1 & P2 & P3).
  { intros k Hk. destruct (Hrest k Hk) as [Q1 Q2]. change (pbs (bumped m5)) with (<[q := b5]> (pbs (mem r3))). rewrite lookup_insert_ne by done. done. }
  { exact Hleft. }
  split; [|split; [|split; [|split; [|split; [|split]]]]]; try done.
  - cbn. change (sent r5) with (sent r3). rewrite Esent. unfold fr, ip_frame. change (nif r5) with (nif r3). by rewrite Enif.
  - cbn. rewrite ip_get_put, !ip_put_put. change (upper r5) with (upper r3). rewrite Eup, ip_put_put. fold (ipg r3). rewrite Eg3. by destruct (ipg r).
Qed.
End Receive.

(** ** From station to station *)

Section Trip.
Context `{PbufEnv} `{Addresses} {U V : Type} `{UdpIn U} `{UdpIn V} `{UdpApp V} (T : Transport V) (etharp_in : Z -> M (stack V) unit).

Lemma udp_sent_dgram u src dest sport dport data : bytes_ok data -> exists chk, udp_sent u src dest sport dport data = udp_dgram sport dport chk data /\ length chk = 2%nat /\ bytes_ok chk /\ checksum_good src dest sport dport chk data.
Proof.
  intros Hd. unfold udp_sent. destruct (udp_is_flag_set u UDP_FLAGS_NOCHKSUM).
  - exists [0; 0]. split; [done|]. split; [done|]. split; [repeat constructor; unfold byte_ok; lia|by left].
  - exists (be_bytes 2 (udp_checksum src dest sport dport data)). split; [done|]. split; [apply length_be_bytes|]. split; [apply be_bytes_ok|right; by apply udp_message_accepted].
Qed.

Lemma udp_roundtrip_run (s : stack U) (r : stack V) l pcb u p b data dport mac lr i v pad : let src := nf_ip (nif s) in let dest := nf_ip (nif r) in
  udp_valid (udpg s) l -> can_send s pcb u p b data dest dport mac -> udp_valid (udpg r) lr -> listening T r src -> listener r i v dport ->
  udp_is_flag_set v UDP_FLAGS_CONNECTED = false \/ (up_local_port u <> 0 /\ knows src (up_local_port u) v = true) -> Z.of_nat (length pad) <= 16 ->
  exists s' sport frame, udp_sendto pcb p (Some dest) dport s = Ok (ERR_OK, s') /\ sent s' = sent s ++ [frame] /\ udp_ok (udpg s') /\
    (if up_local_port u =? 0 then taken (udpg s) l sport = false else sport = up_local_port u) /\ 0 < sport < 65536 /\
    exists q c r', receive_frame (udp_ip4_input T) etharp_in (frame ++ pad) r = (call_recv (up_recv v) (up_recv_arg v) i q src sport ;;; modip idle ;;; ret tt) r' /\
      packet (mem r') q [(q, c)] /\ cell_data (dat (mem r')) c = data /\ udp_ok (udpg r').
Proof.
  intros src dest Hv Hcs Hvr Hls Hli Hto Hpad. destruct (udp_sendto_run s l pcb u p b data dest dport mac Hv Hcs) as (s' & sport & Es & Esent & Hport & Rsp & Hok & _). fold src in Esent.
  destruct Hcs as [_ _ (F1 & F2 & _) Hp (Hd & Bd) (_ & _ & Hm) (_ & Hn) _ (Rs & Rd & Rp & _)]. destruct (packet_head _ _ _ _ _ Hp) as (_ & _ & _ & Hc & _). pose proof (length_cell _ _ Hc) as Hlc. rewrite Hd in Hlc. change IF_MTU_SIZE with 1392 in Hm.
  destruct (udp_sent_dgram u src dest sport dport data Bd) as (chk & Ech & Lk & Bk & Hgood). rewrite Ech in Esent. eexists s', sport, _. split; [exact Es|]. split; [exact Esent|]. split; [done|]. split; [done|]. split; [done|].
  unfold ip_frame. rewrite <- app_assoc. set (eth := eth_header _ _ _ _). pose proof (li_port _ _ _ _ Hli) as [Epv _].
  assert (length eth = 24%nat) as Hle by (apply length_eth_header; [apply (nb_hwaddr _ _ _ Hn)|apply (nb_mac _ _ _ Hn)]).
  destruct (udp_receive_run T etharp_in r lr i v eth (up_tos u) (ip_id (ipg s)) (up_ttl u) src sport chk data pad) as (q & c & r' & E & Hq & Hdq & Hok' & _).
  - split; try done.
    + split; [done|]. unfold eth, eth_header. rewrite !app_assoc, drop_app_length'; [done|]. rewrite !length_app, (nb_hwaddr _ _ _ Hn), (nb_mac _ _ _ Hn), length_be_bytes. done.
    + rewrite Epv. lia.
    + rewrite !length_app, Hle, length_ip_header, length_dgram by done. change first_room with 1432. cbn [length]. lia.
  - done.
  - by rewrite Epv.
  - by rewrite Epv.
  - destruct Hto as [?|[Hn0 Hk]]; [by left|right]. rewrite (proj2 (Z.eqb_neq _ _) Hn0) in Hport. by rewrite Hport.
  - rewrite Epv in E. exists q, c, r'. split; [exact E|done].
Qed.
End Trip.
