(* ===== verification/UdpClaims.v ===== *)
(** The theorems about UDP, with a station that sends to its neighbour as their
    witness. *)

From stdpp Require Import gmap.
From S2P Require Import Prelude Cmonad Cutils Heap Pbuf PbufProofs PbufChain Inet InetProofs Ethernet Etharp EthernetProofs Link EtharpProofs ArpProofs NetProofs IpOutput Icmp Reass IpInput IpProofs FragProofs IcmpProofs IpInProofs IcmpErrors Udp UdpTable UdpCalls UdpProofs UdpTrip IpClaims.

Section Claims.
Context `{PbufEnv} `{Addresses} {U V : Type} `{UdpIn U} `{UdpIn V} `{UdpApp V} (T : Transport V) (etharp_in : Z -> M (stack V) unit).

(** C10: what [udp_sendto] sends to a neighbour arrives.  A control block without a
    port first gets a free one.  One frame leaves, with a checksum that the receiver
    accepts (or none, with UDP_FLAGS_NOCHKSUM).  At the other station the callback of
    the block that listens on the port is called once, with a packet that holds exactly
    the data and with the address and the port of the sender, whatever other blocks
    there are; both tables stay valid. *)
Theorem udp_roundtrip (s : stack U) (r : stack V) l pcb u p b data dport mac lr i v pad : let src := nf_ip (nif s) in let dest := nf_ip (nif r) in
  udp_valid (udpg s) l -> can_send s pcb u p b data dest dport mac -> udp_valid (udpg r) lr -> listening T r src -> listener r i v dport ->
  udp_is_flag_set v UDP_FLAGS_CONNECTED = false \/ (up_local_port u <> 0 /\ knows src (up_local_port u) v = true) -> Z.of_nat (length pad) <= 16 ->
  exists s' sport frame, udp_sendto pcb p (Some dest) dport s = Ok (ERR_OK, s') /\ sent s' = sent s ++ [frame] /\ udp_ok (udpg s') /\
    (if up_local_port u =? 0 then taken (udpg s) l sport = false else sport = up_local_port u) /\ 0 < sport < 65536 /\
    exists q c r', receive_frame (udp_ip4_input T) etharp_in (frame ++ pad) r = (call_recv (up_recv v) (up_recv_arg v) i q src sport ;;; modip idle ;;; ret tt) r' /\
      packet (mem r') q [(q, c)] /\ cell_data (dat (mem r')) c = data /\ udp_ok (udpg r').
Proof. apply udp_roundtrip_run. Qed.

(** C11: in whatever order the application makes the calls of [udp_call] (new, bind,
    bind to the interface, connect, disconnect, callback, options set and reset, remove,
    the four functions that send, and the notice of a new address) of blocks that are in
    use, the list of active blocks stays a list of distinct blocks in use, those with a
    port, within the pool, and every further call that does not send completes without
    touching a released block (of a call that sends: when it returns, the table is kept).
    When moreover no call of the run resets SOF_REUSEADDR of a block that shares its
    port, and no address change brings a block to the address and port of another one
    ([strict]), no two active blocks share a port at overlapping addresses unless both
    have SOF_REUSEADDR. *)
Theorem udp_calls_keep_table (strict : bool) (s s' : stack U) : utable_ok strict (udpg s) -> udp_run strict s s' ->
  utable_ok strict (udpg s') /\ forall c, sends c = false -> handle_ok (udpg s') c -> exists g, exec c s' = Ok (tt, with_udp s' g) /\ utable_ok false g.
Proof.
  intros Hok Hr. pose proof (udp_run_ok _ _ _ Hr Hok) as Hok'. split; [done|]. intros c Hs Hc. apply exec_run; [by eapply table_weaken|done|done|done].
Qed.

(** C34: [udp_bind] refuses a port exactly when another block holds it at an overlapping
    address without both having SOF_REUSEADDR, and then changes nothing; otherwise the
    block has the address and the port.  Asked for any port it always finds one, of the
    dynamic range, that no block has: the search for it ends. *)
Theorem udp_bind_outcome (s : stack U) l pcb u ip port : udp_valid (udpg s) l -> upcbs (udpg s) !! pcb = Some u -> 0 <= port < 65536 ->
  let a := match ip with Some a => a | None => IPADDR_ANY end in
  exists r g, udp_bind pcb ip port s = Ok (r, with_udp s g) /\ bind_result (udpg s) l pcb u a port r g /\ udp_valid g (if r =? ERR_OK then bound_list l pcb else l).
Proof. intros Hv Hu Hp a. destruct (udp_bind_run s l pcb u ip port Hv Hu) as (r & g & E & Hr). exists r, g. split; [done|]. split; [done|]. by eapply bind_result_valid. Qed.

(** C35: a datagram to this station for a port that no block has is answered by one
    ICMP message, destination unreachable with code port, that quotes the IP header and
    the UDP header and has a valid checksum; all memory is released and the table of
    blocks is as before. *)
Theorem udp_port_unreachable (r : stack V) l eth tos id ttl src sport dport chk data pad mac : let dest := nf_ip (nif r) in
  let hdr := ip_header [] tos (28 + Z.of_nat (length data)) id 0 ttl IP_PROTO_UDP src dest in let quoted := hdr ++ take 8 (udp_dgram sport dport chk data) in
  datagram_frame T r eth tos id ttl src sport dport chk data pad -> checksum_good src dest sport dport chk data -> udp_valid (udpg r) l -> taken (udpg r) l dport = false ->
  neighbour r src mac -> routed (nif r) src -> (forall n, mem_gives n = true) -> 0 <= ip_id (ipg r) < 65536 ->
  exists r', receive_frame (udp_ip4_input T) etharp_in (eth ++ (hdr ++ udp_dgram sport dport chk data) ++ pad) r = Ok (tt, r') /\
    sent r' = sent r ++ [ip_frame r mac (ip_header [] 0 56 (ip_id (ipg r)) 0 ICMP_TTL IP_PROTO_ICMP dest src ++ icmp_error ICMP_DUR ICMP_DUR_PORT quoted)] /\
    checked_msg (icmp_error ICMP_DUR ICMP_DUR_PORT quoted) /\
    upper r' = ip_put (idle (next_id (ipg r))) (upper r) /\ pbs (mem r') = pbs (mem r) /\ dat (mem r') = dat (mem r) /\ pool_left (mem r') = pool_left (mem r).
Proof.
  intros dest hdr quoted Hdf Hgood Hv Hfree Hn Hrt Hg Rid. destruct (udp_unreachable_run T etharp_in r l eth tos id ttl src sport dport chk data pad mac Hdf Hgood Hv Hfree Hn Hrt Hg Rid) as (r' & E & Es & Eu & _ & _ & E1 & E2 & E3).
  exists r'. split; [exact E|]. split; [exact Es|]. split; [|done]. apply icmp_error_checked; [done|done|]. destruct (df_bytes _ _ _ _ _ _ _ _ _ _ _ _ Hdf) as (Bt & Bl & _). destruct (df_chk _ _ _ _ _ _ _ _ _ _ _ _ Hdf) as (_ & Bk & Bd).
  apply Forall_app_2; [apply ip_header_ok; (done || (unfold IP_PROTO_UDP, byte_ok; lia) || (cbn; lia) || constructor)|apply Forall_take; by apply dgram_ok].
Qed.
End Claims.

(** ** Witnesses *)

(** 192.168.1.2 sends with a new control block to port 7 of 192.168.1.3. *)
Definition no_blocks : udp_globals := mk_udp UDP_LOCAL_PORT_RANGE_START NULL ∅ MEMP_NUM_UDP_PCB 1.
Definition new_block_table : udp_globals := mk_udp UDP_LOCAL_PORT_RANGE_START NULL {[1 := fresh_pcb]} 19 2.
Definition echo_block : udp_pcb := mk_udp_pcb IPADDR_ANY IPADDR_ANY 0 0 0 UDP_TTL 0 NULL 0 7 0 0 0 UDP_TTL 100 200.
Definition echo_table : udp_globals := mk_udp UDP_LOCAL_PORT_RANGE_START 1 {[1 := echo_block]} 19 2.

Lemma no_blocks_ok : udp_valid no_blocks [].
Proof. split; try done; constructor. Qed.
(** One block, active or not. *)
Lemma one_block_valid u (l : list Z) : (l = [] /\ up_local_port u = 0) \/ (l = [1] /\ 0 < up_local_port u < 65536 /\ up_next u = NULL) ->
  udp_valid (mk_udp UDP_LOCAL_PORT_RANGE_START (if up_local_port u =? 0 then NULL else 1) {[1 := u]} 19 2) l.
Proof.
  intros Hl. assert (forall i v, ({[1 := u]} : gmap Z udp_pcb) !! i = Some v -> i = 1 /\ v = u) as Hone by (intros i v [<- <-]%lookup_singleton_Some; done).
  split; cbn [upcbs udp_pcbs udp_port upcb_left next_upcb]; try done.
  - destruct Hl as [[-> ->]|[-> [Hp Hn]]]; [done|]. rewrite (proj2 (Z.eqb_neq _ _)) by lia. split; [done|]. split; [done|]. exists u. by rewrite lookup_singleton_eq.
  - destruct Hl as [[-> _]|[-> _]]; [constructor|apply NoDup_singleton].
  - intros i v [-> _]%Hone. lia.
  - intros i v [-> ->]%Hone. destruct Hl as [[-> Hp]|[-> [Hp _]]]; [split; [lia|]|split; [lia|]].
    + split; [by intros ?%not_elem_of_nil|lia].
    + split; [lia|intros _; apply list_elem_of_here].
  - intros _ i j v w Hi Hj Hij [-> _]%Hone [-> _]%Hone. done.
Qed.

Definition udp_sender (n : Z) : stack (ip_globals * udp_globals) :=
  mk_stack (mem (sender n)) (arp_table (sender n)) (nif (sender n)) [] (globals0, new_block_table).
Definition udp_receiver (g : udp_globals) : stack (ip_globals * udp_globals) := mk_stack (mem receiver) (arp_table receiver) (nif receiver) [] (globals0, g).
(** The callback releases the packet. *)
Definition discards : UdpApp (ip_globals * udp_globals) := {| call_recv := fun _ _ _ p _ _ => onmem (pbuf_free p) ;;; ret tt |}.
Definition others : Transport (ip_globals * udp_globals) :=
  let drop p := (onmem (pbuf_free p) ;;; ret tt) in
  {| raw_input := fun _ => ret RAW_INPUT_NONE; IpInput.udp_input := drop; tcp_input := drop; igmp_input := fun p _ => drop p; igmp_lookfor_group := fun _ => ret false |}.

#[local] Existing Instances plenty even_addresses discards.

Lemma sender_table_ok : table_ok (arp_table (udp_sender 100)).
Proof.
  split; [done| |].
  - intros i j e e' Hi Hj Hle Hle' _. assert (forall k f, arp_table (udp_sender 100) !! k = Some f -> live f -> k = 0%nat) as Hz; [|by rewrite (Hz i e Hi Hle), (Hz j e' Hj Hle')].
    intros [|k] f Hf Hlf; [done|]. cbn in Hf. assert (f = empty_entry) as -> by (change (replicate 9 empty_entry !! k = Some f) in Hf; by apply lookup_replicate in Hf as [-> _]). exfalso. revert Hlf. by vm_compute.
  - repeat constructor; vm_compute; congruence.
Qed.
Lemma udp_sender_can_send : can_send (udp_sender 100) 1 fresh_pcb 1 (big_cell 100) (repeat 7 100) ip_b 7 mac_b.
Proof.
  split.
  - done.
  - split; [done|by left].
  - done.
  - exact (sender_packet 100 ltac:(lia)).
  - split; [by vm_compute|]. apply (small_bytes 100 7). done.
  - by vm_compute.
  - split; [exact sender_table_ok|]. split; [by vm_compute|done|done|done|]. exists ip_b, 0, (resolved ip_b mac_b). by vm_compute.
  - by vm_compute.
  - by vm_compute.
Qed.
Lemma udp_receiver_listens g : listening others (udp_receiver g) ip_a.
Proof. split; [by intros p s|split; [exact receiver_store|done]|by vm_compute|split; by vm_compute|by vm_compute|by vm_compute]. Qed.
Lemma echo_listens : listener (udp_receiver echo_table) 1 echo_block 7.
Proof. split; [done|done|split; [done|by left]|by vm_compute|done]. Qed.

Lemma udp_roundtrip_witness : let He := plenty in let Ha := even_addresses in let Hd := discards in
  exists s' sport frame, udp_sendto 1 1 (Some ip_b) 7 (udp_sender 100) = Ok (ERR_OK, s') /\ sent s' = [frame] /\ udp_ok (udpg s') /\ taken new_block_table [] sport = false /\ 0 < sport < 65536 /\
    exists q c r', receive_frame (udp_ip4_input others) (fun _ => ret tt) (frame ++ [0; 0]) (udp_receiver echo_table) = (call_recv 100 200 1 q ip_a sport ;;; modip idle ;;; ret tt) r' /\
      packet (mem r') q [(q, c)] /\ cell_data (dat (mem r')) c = repeat 7 100 /\ udp_ok (udpg r').
Proof.
  exact (udp_roundtrip (H := plenty) (H0 := even_addresses) (H5 := discards) others (fun _ => ret tt) (udp_sender 100) (udp_receiver echo_table) [] 1 fresh_pcb 1 (big_cell 100) (repeat 7 100) 7 mac_b [1] 1 echo_block [0; 0]
    (one_block_valid fresh_pcb [] (or_introl (conj eq_refl eq_refl))) udp_sender_can_send (one_block_valid echo_block [1] ltac:(right; done)) (udp_receiver_listens _) echo_listens (or_introl eq_refl) ltac:(by vm_compute)).
Defined.

(** A block is bound to port 53, shares it by consent with a second one, sends, the
    second one is removed and the consent is taken back. *)
Lemma udp_calls_keep_table_witness : exists s' : stack (ip_globals * udp_globals), udp_run true (udp_sender 100) s' /\ utable_ok true (udpg s') /\
  forall c, sends c = false -> handle_ok (udpg s') c -> exists g, exec c s' = Ok (tt, with_udp s' g) /\ utable_ok false g.
Proof.
  assert (utable_ok true (udpg (udp_sender 100))) as Hok by (exists []; exact (one_block_valid fresh_pcb [] (or_introl (conj eq_refl eq_refl)))). eassert (udp_run true (udp_sender 100) _) as Hr.
  { eapply (run_call _ _ (C_set_option 1 SOF_REUSEADDR)); [by vm_compute; eexists|done|vm_compute; reflexivity|].
    eapply (run_call _ _ (C_bind 1 None 53)); [split; [by vm_compute; eexists|lia]|done|vm_compute; reflexivity|].
    eapply (run_call _ _ C_new); [exact I|done|vm_compute; reflexivity|].
    eapply (run_call _ _ (C_set_option 2 SOF_REUSEADDR)); [by vm_compute; eexists|done|vm_compute; reflexivity|].
    eapply (run_call _ _ (C_bind 2 (Some ip_a) 53)); [split; [by vm_compute; eexists|lia]|done|vm_compute; reflexivity|].
    eapply (run_call _ _ (C_sendto 1 1 (Some ip_b) 7)); [by vm_compute; eexists|done|vm_compute; reflexivity|].
    eapply (run_call _ _ (C_remove 2)); [by vm_compute; eexists|done|vm_compute; reflexivity|].
    eapply (run_call _ _ (C_reset_option 1 SOF_REUSEADDR)); [by vm_compute; eexists| |vm_compute; reflexivity|apply run_none].
    intros _. right. intros u j v _ Hj%elem_of_map_to_list Hn. exfalso. vm_compute in Hj. apply list_elem_of_singleton in Hj. apply (f_equal fst) in Hj. exact (Hn Hj). }
  eexists. split; [exact Hr|]. exact (udp_calls_keep_table true (udp_sender 100) _ Hok Hr).
Defined.

Lemma udp_bind_outcome_witness : exists r g, udp_bind 1 None 0 (udp_receiver new_block_table) = Ok (r, with_udp (udp_receiver new_block_table) g) /\
  bind_result new_block_table [] 1 fresh_pcb IPADDR_ANY 0 r g /\ udp_valid g (if r =? ERR_OK then [1] else []).
Proof.
  exact (udp_bind_outcome (udp_receiver new_block_table) [] 1 fresh_pcb None 0 (one_block_valid fresh_pcb [] (or_introl (conj eq_refl eq_refl))) eq_refl ltac:(lia)).
Defined.

(** A datagram without checksum to port 9, which nobody has. *)
Definition stray_data : bytes := repeat 0x55 12.
Definition stray_hdr : bytes := ip_header [] 0 40 5 0 64 IP_PROTO_UDP ip_a ip_b.
Definition stray_frame : bytes := eth_header mac_a mac_b 50 ETHTYPE_IP ++ (stray_hdr ++ udp_dgram 1000 9 [0; 0] stray_data) ++ [].
Lemma udp_port_unreachable_witness : let quoted := stray_hdr ++ take 8 (udp_dgram 1000 9 [0; 0] stray_data) in
  exists r', receive_frame (udp_ip4_input others) (fun _ => ret tt) stray_frame (udp_receiver echo_table) = Ok (tt, r') /\
    sent r' = [ip_frame (udp_receiver echo_table) mac_a (ip_header [] 0 56 17 0 ICMP_TTL IP_PROTO_ICMP ip_b ip_a ++ icmp_error ICMP_DUR ICMP_DUR_PORT quoted)] /\
    checked_msg (icmp_error ICMP_DUR ICMP_DUR_PORT quoted) /\ upper r' = (idle (next_id globals0), echo_table) /\ pbs (mem r') = ∅ /\ dat (mem r') = ∅ /\ pool_left (mem r') = 512.
Proof.
  assert (neighbour (udp_receiver echo_table) ip_a mac_a) as Hn by (split; [by vm_compute|done|done|done|]; exists ip_a, 0, (resolved ip_a mac_a); by vm_compute).
  assert (datagram_frame others (udp_receiver echo_table) (eth_header mac_a mac_b 50 ETHTYPE_IP) 0 5 64 ip_a 1000 9 [0; 0] stray_data []) as Hdf.
  { split; [apply udp_receiver_listens|by vm_compute|by vm_compute|by vm_compute| |by vm_compute]. split; [done|]. split; [repeat constructor; by vm_compute|apply (small_bytes 12 0x55); done]. }
  exact (udp_port_unreachable (H := plenty) (H0 := even_addresses) (H5 := discards) others (fun _ => ret tt) (udp_receiver echo_table) [1] (eth_header mac_a mac_b 50 ETHTYPE_IP) 0 5 64 ip_a 1000 9 [0; 0] stray_data [] mac_a
    Hdf (or_introl eq_refl) (one_block_valid echo_block [1] ltac:(right; done)) ltac:(by vm_compute) Hn ltac:(by vm_compute) (fun _ => eq_refl) ltac:(by vm_compute)).
Defined.
