(* ===== verification/Timers.v ===== *)
(** arm_host/source/lwip/timeouts.c and the clock of sys_arch.c: the list of
    timeouts and the cyclic timers of the stack.

    A timeout is a cell of a pool; a released one is gone, so that its use is a
    fault.  The functions behind the pointers are values of [handler]; the timer
    functions of the other modules run on the rest of the stack ([rest]) and are the
    class [StackTimers]: in this configuration none of them sets or removes a
    timeout.  The functions that an application registers may do so and are the class
    [UserTimers].  Assertions only print; NO_SYS is 0, so that
    PBUF_CHECK_FREE_OOSEQ is empty.  The loop of [sys_check_timeouts] ends when no
    timeout is due, which depends on the functions that it calls: it is cut after
    [poll_fuel] turns. *)

From stdpp Require Import gmap.
From S2P Require Import Prelude Cmonad Cutils Heap Pbuf Inet Ethernet Etharp Acd.

(** ** The table of cyclic timers *)

Inductive stack_timer := TCP_TMR | IP_REASS_TMR | ETHARP_TMR | DHCP_COARSE_TMR | DHCP_FINE_TMR | ACD_TMR | IGMP_TMR | DNS_TMR.
#[export] Instance stack_timer_dec : EqDecision stack_timer.
Proof. solve_decision. Defined.

Definition TCP_TMR_INTERVAL : Z := 250.
Definition IP_TMR_INTERVAL : Z := 1000.
Definition ARP_TMR_INTERVAL : Z := 1000.
Definition DHCP_COARSE_TIMER_MSECS : Z := 60 * 1000.
Definition DHCP_FINE_TIMER_MSECS : Z := 500.
Definition IGMP_TMR_INTERVAL : Z := 100.
Definition DNS_TMR_INTERVAL : Z := 1000.

(** struct lwip_cyclic_timer: interval_ms and handler *)
Definition lwip_cyclic_timers : list (Z * stack_timer) :=
  [(TCP_TMR_INTERVAL, TCP_TMR); (IP_TMR_INTERVAL, IP_REASS_TMR); (ARP_TMR_INTERVAL, ETHARP_TMR); (DHCP_COARSE_TIMER_MSECS, DHCP_COARSE_TMR);
   (DHCP_FINE_TIMER_MSECS, DHCP_FINE_TMR); (ACD_TMR_INTERVAL, ACD_TMR); (IGMP_TMR_INTERVAL, IGMP_TMR); (DNS_TMR_INTERVAL, DNS_TMR)].

(** ** State *)

(** sys_timeout_handler: what a timeout calls. *)
Inductive handler := H_NULL | H_lwip_cyclic_timer | H_tcpip_tcp_timer | H_user (f : Z).
#[export] Instance handler_dec : EqDecision handler.
Proof. solve_decision. Defined.

(** struct sys_timeo; the argument of [lwip_cyclic_timer] is an index of the table. *)
Record sys_timeo := mk_timeo { to_next : Z; to_time : Z; to_h : handler; to_arg : Z }.
Definition eta_timeo (t : sys_timeo) : sys_timeo := mk_timeo (to_next t) (to_time t) (to_h t) (to_arg t).
#[export] Instance set_to_next : Setter to_next := ltac:(mk_setter eta_timeo).
#[export] Instance set_to_time : Setter to_time := ltac:(mk_setter eta_timeo).
#[export] Instance set_to_h : Setter to_h := ltac:(mk_setter eta_timeo).
#[export] Instance set_to_arg : Setter to_arg := ltac:(mk_setter eta_timeo).

(** The static variables of timeouts.c, the clock [val] of sys_arch.c, and the pool. *)
Record timers := mk_timers {
  val : Z; next_timeout : Z; current_timeout_due_time : Z; tcpip_tcp_timer_active : bool;
  timeos : gmap Z sys_timeo; timeo_left : Z; next_timeo : Z
}.
Definition eta_timers (g : timers) : timers :=
  mk_timers (val g) (next_timeout g) (current_timeout_due_time g) (tcpip_tcp_timer_active g) (timeos g) (timeo_left g) (next_timeo g).
#[export] Instance set_val : Setter val := ltac:(mk_setter eta_timers).
#[export] Instance set_next_timeout : Setter next_timeout := ltac:(mk_setter eta_timers).
#[export] Instance set_current_timeout_due_time : Setter current_timeout_due_time := ltac:(mk_setter eta_timers).
#[export] Instance set_tcpip_tcp_timer_active : Setter tcpip_tcp_timer_active := ltac:(mk_setter eta_timers).
#[export] Instance set_timeos : Setter timeos := ltac:(mk_setter eta_timers).
#[export] Instance set_timeo_left : Setter timeo_left := ltac:(mk_setter eta_timers).
#[export] Instance set_next_timeo : Setter next_timeo := ltac:(mk_setter eta_timers).

Record clocked (R : Type) := mk_clocked { tmr : timers; rest : R }.
Arguments mk_clocked {R} tmr rest.
Arguments tmr {R} _.
Arguments rest {R} _.

Class StackTimers (R : Type) := {
  run_tmr : stack_timer -> M R unit;
  tcp_pcbs : R -> bool  (* tcp_active_pcbs || tcp_tw_pcbs *)
}.
Class UserTimers (R : Type) := { call_timeout : Z -> Z -> M (clocked R) unit }.

Definition LWIP_MAX_TIMEOUT : Z := 0x7fffffff.
Definition TIME_LESS_THAN (t compare_to : Z) : bool := LWIP_MAX_TIMEOUT <? u32 (t - compare_to).
Definition SYS_TIMEOUTS_SLEEPTIME_INFINITE : Z := 0xFFFFFFFF.
(** One for each timer of the table. *)
Definition MEMP_NUM_SYS_TIMEOUT : Z := 8.

Section Timers.
Context {R : Type}.

Definition gettm {A} (f : timers -> A) : M (clocked R) A := gets (fun s => f (tmr s)).
Definition modtm (f : timers -> timers) : M (clocked R) unit := modify (fun s => mk_clocked (f (tmr s)) (rest s)).
Definition onrest {A} (m : M R A) : M (clocked R) A := zoom rest (fun r s => mk_clocked (tmr s) r) m.
Definition gett (t : Z) : M (clocked R) sys_timeo := fun s =>
  if t =? NULL then Fault NullDeref else
  match timeos (tmr s) !! t with Some d => Ok (d, s) | None => Fault UseAfterFree end.
Definition updt (t : Z) (f : sys_timeo -> sys_timeo) : M (clocked R) unit :=
  let* d := gett t in modtm (fun g => g <| timeos := <[t := f d]> (timeos g) |>).
Definition timeo_fuel : M (clocked R) nat := gettm (fun g => S (size (timeos g))).

Definition sys_now : M (clocked R) Z := gettm val.
Definition sys_now_inc (amt : Z) : M (clocked R) unit := modtm (fun g => g <| val := u32 (val g + amt) |>).

Definition memp_malloc_timeo : M (clocked R) Z :=
  let* n := gettm timeo_left in
  if n =? 0 then ret NULL else
  let* r := gettm next_timeo in
  modtm (fun g => g <| timeo_left := n - 1 |> <| next_timeo := r + 1 |> <| timeos := <[r := mk_timeo NULL 0 H_NULL 0]> (timeos g) |>) ;;;
  ret r.
Definition memp_free_timeo (t : Z) : M (clocked R) unit :=
  let* d := gett t in modtm (fun g => g <| timeos := delete t (timeos g) |> <| timeo_left := timeo_left g + 1 |>).

(** ** The list *)

(** The place behind the last timeout that is not later. *)
Fixpoint insert_loop (fuel : nat) (t timeout : Z) : M (clocked R) unit :=
  match fuel with
  | O => hang
  | S fuel =>
      if t =? NULL then ret tt else
      let* d := gett t in
      let* here := (if to_next d =? NULL then ret true
                    else let* n := gett timeout in let* e := gett (to_next d) in ret (TIME_LESS_THAN (to_time n) (to_time e))) in
      if (here : bool) then
        updt timeout (fun n => n <| to_next := to_next d |>) ;;;
        updt t (fun d => d <| to_next := timeout |>)
      else insert_loop fuel (to_next d) timeout
  end.

Definition sys_timeout_abs (abs_time : Z) (h : handler) (arg : Z) : M (clocked R) unit :=
  let* timeout := memp_malloc_timeo in
  if timeout =? NULL then ret tt else
  updt timeout (fun t => t <| to_next := NULL |>) ;;;
  updt timeout (fun t => t <| to_h := h |>) ;;;
  updt timeout (fun t => t <| to_arg := arg |>) ;;;
  updt timeout (fun t => t <| to_time := abs_time |>) ;;;
  let* head := gettm next_timeout in
  if head =? NULL then modtm (fun g => g <| next_timeout := timeout |>) else
  let* n := gett timeout in
  let* e := gett head in
  if TIME_LESS_THAN (to_time n) (to_time e) then
    updt timeout (fun t => t <| to_next := head |>) ;;;
    modtm (fun g => g <| next_timeout := timeout |>)
  else
    let* k := timeo_fuel in insert_loop k head timeout.

Definition sys_timeout (msecs : Z) (h : handler) (arg : Z) : M (clocked R) unit :=
  let* now := sys_now in
  sys_timeout_abs (u32 (now + msecs)) h arg.

Fixpoint untimeout_loop (fuel : nat) (t prev_t : Z) (h : handler) (arg : Z) : M (clocked R) unit :=
  match fuel with
  | O => hang
  | S fuel =>
      if t =? NULL then ret tt else
      let* d := gett t in
      if bool_decide (to_h d = h) && (to_arg d =? arg) then
        (if prev_t =? NULL then modtm (fun g => g <| next_timeout := to_next d |>)
         else updt prev_t (fun p => p <| to_next := to_next d |>)) ;;;
        memp_free_timeo t
      else untimeout_loop fuel (to_next d) t h arg
  end.
Definition sys_untimeout (h : handler) (arg : Z) : M (clocked R) unit :=
  let* head := gettm next_timeout in
  if head =? NULL then ret tt else
  let* k := timeo_fuel in untimeout_loop k head NULL h arg.

Fixpoint restart_loop (fuel : nat) (t base now : Z) : M (clocked R) unit :=
  match fuel with
  | O => hang
  | S fuel =>
      if t =? NULL then ret tt else
      updt t (fun d => d <| to_time := u32 ((to_time d - base) + now) |>) ;;;
      let* d := gett t in
      restart_loop fuel (to_next d) base now
  end.
Definition sys_restart_timeouts : M (clocked R) unit :=
  let* head := gettm next_timeout in
  if head =? NULL then ret tt else
  let* now := sys_now in
  let* d := gett head in
  let* k := timeo_fuel in
  restart_loop k head (to_time d) now.

Definition sys_timeouts_sleeptime : M (clocked R) Z :=
  let* head := gettm next_timeout in
  if head =? NULL then ret SYS_TIMEOUTS_SLEEPTIME_INFINITE else
  let* now := sys_now in
  let* d := gett head in
  if TIME_LESS_THAN (to_time d) now then ret 0 else ret (u32 (to_time d - now)).

(** ** Timers *)

Context `{StackTimers R}.

(** [arg] is an index of the table. *)
Definition lwip_cyclic_timer (arg : Z) : M (clocked R) unit :=
  let* '(interval_ms, h) := ofopt OobRead (lwip_cyclic_timers !! Z.to_nat arg) in
  onrest (run_tmr h) ;;;
  let* now := sys_now in
  let* due := gettm current_timeout_due_time in
  let next_timeout_time := u32 (due + interval_ms) in
  if TIME_LESS_THAN next_timeout_time now then sys_timeout_abs (u32 (now + interval_ms)) H_lwip_cyclic_timer arg
  else sys_timeout_abs next_timeout_time H_lwip_cyclic_timer arg.

Definition tcpip_tcp_timer : M (clocked R) unit :=
  onrest (run_tmr TCP_TMR) ;;;
  let* needed := gets (fun s => tcp_pcbs (rest s)) in
  if (needed : bool) then sys_timeout TCP_TMR_INTERVAL H_tcpip_tcp_timer 0
  else modtm (fun g => g <| tcpip_tcp_timer_active := false |>).

Definition tcp_timer_needed : M (clocked R) unit :=
  let* active := gettm tcpip_tcp_timer_active in
  let* needed := gets (fun s => tcp_pcbs (rest s)) in
  if negb active && needed then
    modtm (fun g => g <| tcpip_tcp_timer_active := true |>) ;;;
    sys_timeout TCP_TMR_INTERVAL H_tcpip_tcp_timer 0
  else ret tt.

(** All but the one of TCP, at index 0. *)
Definition sys_timeouts_init : M (clocked R) unit :=
  mforeach (seq 1 (length lwip_cyclic_timers - 1)) (fun i =>
    let* '(interval_ms, _) := ofopt OobRead (lwip_cyclic_timers !! i) in
    sys_timeout interval_ms H_lwip_cyclic_timer (Z.of_nat i)).

Context `{UserTimers R} `{Fuel}.

Definition call_handler (h : handler) (arg : Z) : M (clocked R) unit :=
  match h with
  | H_NULL => ret tt
  | H_lwip_cyclic_timer => lwip_cyclic_timer arg
  | H_tcpip_tcp_timer => tcpip_tcp_timer
  | H_user f => call_timeout f arg
  end.

(** A turn of the loop: is there no timeout that is due? *)
Definition check_turn (now : Z) : M (clocked R) (option unit) :=
  let* tmptimeout := gettm next_timeout in
  if tmptimeout =? NULL then ret (Some tt) else
  let* d := gett tmptimeout in
  if TIME_LESS_THAN now (to_time d) then ret (Some tt) else
  modtm (fun g => g <| next_timeout := to_next d |>) ;;;
  modtm (fun g => g <| current_timeout_due_time := to_time d |>) ;;;
  memp_free_timeo tmptimeout ;;;
  call_handler (to_h d) (to_arg d) ;;;
  ret None.
Definition sys_check_timeouts : M (clocked R) unit :=
  let* now := sys_now in
  mloop poll_fuel (check_turn now).

End Timers.
