(* ===== verification/TimerQueue.v ===== *)
(** The list of timeouts is a queue sorted by deadline in unbounded time: the
    operations of timeouts.c against that queue, with the clock and the deadlines
    kept modulo 2^32. *)

From stdpp Require Import gmap sorting.
From S2P Require Import Prelude Cmonad Cutils Heap Pbuf Timers.

(** ** The queue *)

Record entry := mk_entry { deadline : Z; calls : handler; with_arg : Z }.
#[export] Instance entry_dec : EqDecision entry.
Proof. solve_decision. Defined.

Definition no_later (e f : entry) : Prop := deadline e <= deadline f.
(** Behind the entries that are not later. *)
Fixpoint enqueue (e : entry) (q : list entry) : list entry :=
  match q with
  | [] => [e]
  | x :: q => if deadline e <? deadline x then e :: x :: q else x :: enqueue e q
  end.
(** Without the first that has the function and the argument. *)
Definition is_call (h : handler) (arg : Z) (e : entry) : bool := bool_decide (calls e = h) && (with_arg e =? arg).
Fixpoint cancel (h : handler) (arg : Z) (q : list entry) : list entry :=
  match q with
  | [] => []
  | x :: q => if is_call h arg x then q else x :: cancel h arg q
  end.
Definition move (by_ : Z) (e : entry) : entry := mk_entry (deadline e + by_) (calls e) (with_arg e).
(** Rebased to the time [T]. *)
Definition rebase (T : Z) (q : list entry) : list entry :=
  match q with [] => [] | x :: _ => map (move (T - deadline x)) q end.
Definition sleep (T : Z) (q : list entry) : Z :=
  match q with [] => SYS_TIMEOUTS_SLEEPTIME_INFINITE | x :: _ => Z.max 0 (deadline x - T) end.

(** Half of what the comparison of two times modulo 2^32 can tell apart. *)
Definition horizon : Z := 2 ^ 30.
Definition near (T : Z) (e : entry) : Prop := T - horizon < deadline e < T + horizon.

Lemma enqueue_perm e q : enqueue e q ≡ₚ e :: q.
Proof.
  induction q as [|x q IH]; cbn [enqueue]; [done|]. destruct (_ <? _); [done|]. rewrite IH. apply perm_swap.
Qed.
Lemma enqueue_sorted e q : StronglySorted no_later q -> StronglySorted no_later (enqueue e q).
Proof.
  induction q as [|x q IH]; cbn [enqueue]; intros Hs; [by repeat constructor|]. inversion Hs as [|? ? Hq Hx]; subst. destruct (deadline e <? deadline x) eqn:E.
  - apply Z.ltb_lt in E. constructor; [done|]. constructor; [unfold no_later; lia|]. eapply Forall_impl; [exact Hx|]. unfold no_later. lia.
  - apply Z.ltb_ge in E. constructor; [by apply IH|]. rewrite enqueue_perm. constructor; [done|done].
Qed.
Lemma cancel_split h arg q : (forall e, e ∈ q -> is_call h arg e = false) /\ cancel h arg q = q \/
  exists q1 e q2, q = q1 ++ e :: q2 /\ is_call h arg e = true /\ (forall f, f ∈ q1 -> is_call h arg f = false) /\ cancel h arg q = q1 ++ q2.
Proof.
  induction q as [|x q IH]; cbn [cancel]; [left; split; [by intros e ?%not_elem_of_nil|done]|]. destruct (is_call h arg x) eqn:E.
  - right. exists [], x, q. split; [done|]. split; [done|]. split; [by intros f ?%not_elem_of_nil|done].
  - destruct IH as [[Hn ->]|(q1 & e & q2 & -> & He & Hn & ->)].
    + left. split; [|done]. intros f [->|Hf]%elem_of_cons; [done|by apply Hn].
    + right. exists (x :: q1), e, q2. split; [done|]. split; [done|]. split; [|done]. intros f [->|Hf]%elem_of_cons; [done|by apply Hn].
Qed.
Lemma sorted_drop (q1 q2 : list entry) e : StronglySorted no_later (q1 ++ e :: q2) -> StronglySorted no_later (q1 ++ q2).
Proof.
  induction q1 as [|x q1 IH]; cbn [app]; intros Hs; [by inversion Hs|]. inversion Hs as [|? ? Hq Hx]; subst. constructor; [by apply IH|].
  apply Forall_app in Hx as [H1 H2]. apply Forall_app. split; [done|by inversion H2].
Qed.
Lemma move_sorted d q : StronglySorted no_later q -> StronglySorted no_later (map (move d) q).
Proof.
  induction 1 as [|x q Hs IH Hx]; cbn [map]; [constructor|]. constructor; [done|]. apply Forall_map. eapply Forall_impl; [exact Hx|]. unfold no_later. cbn. lia.
Qed.

(** Times modulo 2^32 that are not too far apart compare as they are. *)
Lemma time_less_than a b : - 2 ^ 31 <= a - b < 2 ^ 31 -> TIME_LESS_THAN (u32 a) (u32 b) = (a <? b).
Proof.
  intros Hd. unfold TIME_LESS_THAN, LWIP_MAX_TIMEOUT. assert (u32 (u32 a - u32 b) = u32 (a - b)) as -> by (unfold u32; by rewrite <- Zminus_mod).
  unfold u32. change 4294967296 with (2 ^ 32). destruct (a <? b) eqn:E.
  - apply Z.ltb_lt in E. apply Z.ltb_lt. rewrite <- (Z.mod_add _ 1) by lia. rewrite Z.mod_small; lia.
  - apply Z.ltb_ge in E. apply Z.ltb_ge. rewrite Z.mod_small; lia.
Qed.
Lemma near_less T e f : near T e -> near T f -> TIME_LESS_THAN (u32 (deadline e)) (u32 (deadline f)) = (deadline e <? deadline f).
Proof. unfold near, horizon. intros He Hf. apply time_less_than. lia. Qed.
Lemma u32_shift a b c : u32 (u32 a - u32 b + u32 c) = u32 (a - b + c).
Proof. unfold u32. rewrite Zplus_mod, Zminus_mod_idemp_l, Zminus_mod_idemp_r, Z.mod_mod, <- Zplus_mod by lia. done. Qed.

(** ** The list of cells *)

Definition holds (d : sys_timeo) (e : entry) : Prop := to_time d = u32 (deadline e) /\ to_h d = calls e /\ to_arg d = with_arg e.
Fixpoint tlist (m : gmap Z sys_timeo) (p : Z) (l : list Z) (q : list entry) : Prop :=
  match l, q with
  | [], [] => p = NULL
  | i :: l, e :: q => p = i /\ i <> NULL /\ exists d, m !! i = Some d /\ holds d e /\ tlist m (to_next d) l q
  | _, _ => False
  end.

(** At the (unbounded) time [T] the list holds the queue [q]; no other cell is in use. *)
Record queued (T : Z) (g : timers) (l : list Z) (q : list entry) : Prop := {
  qd_list : tlist (timeos g) (next_timeout g) l q;
  qd_nodup : NoDup l;
  qd_keys : forall i, is_Some (timeos g !! i) -> i ∈ l;
  qd_fresh : 0 < next_timeo g /\ forall i, i ∈ l -> 0 < i < next_timeo g;
  qd_left : 0 <= timeo_left g /\ timeo_left g + Z.of_nat (length q) = MEMP_NUM_SYS_TIMEOUT;
  qd_now : val g = u32 T;
  qd_sorted : StronglySorted no_later q;
  qd_near : Forall (near T) q
}.

Lemma tlist_length m p l q : tlist m p l q -> length l = length q.
Proof. revert p q; induction l as [|i l IH]; intros p [|e q] Hl; try done. destruct Hl as (_ & _ & d & _ & _ & Hl). cbn. f_equal. by eapply IH. Qed.
Lemma tlist_in m p l q i : tlist m p l q -> i ∈ l -> i <> NULL /\ is_Some (m !! i).
Proof.
  revert p q; induction l as [|j l IH]; intros p [|e q] Hl Hi; try done; [by apply elem_of_nil in Hi|]. destruct Hl as (-> & Hj & d & Hd & _ & Hl).
  apply elem_of_cons in Hi as [->|Hi]; [split; [done|by exists d]|by eapply IH].
Qed.
Lemma tlist_frame m m' p l q : tlist m p l q -> (forall i, i ∈ l -> m' !! i = m !! i) -> tlist m' p l q.
Proof.
  revert p q; induction l as [|j l IH]; intros p [|e q] Hl Hm; try done. destruct Hl as (-> & Hj & d & Hd & He & Hl). split; [done|]. split; [done|]. exists d.
  rewrite Hm by apply list_elem_of_here. split; [done|]. split; [done|]. apply IH; [done|]. intros i Hi. apply Hm. by apply list_elem_of_further.
Qed.
Lemma tlist_size m p l q : tlist m p l q -> NoDup l -> (length l <= size m)%nat.
Proof.
  intros Hl Hn. rewrite <- size_dom, <- (size_list_to_set (C := gset Z) l) by done. apply subseteq_size. intros i Hi%elem_of_list_to_set.
  apply elem_of_dom. by eapply tlist_in.
Qed.
Lemma tlist_null m p l q : tlist m p l q -> p = NULL <-> q = [].
Proof. destruct l, q; cbn; try done. by intros (-> & Hz & _). Qed.
(** The list splits where its queue does. *)
Lemma tlist_split m p l q1 e q2 : tlist m p l (q1 ++ e :: q2) -> exists l1 i l2 d, l = l1 ++ i :: l2 /\ length l1 = length q1 /\ i <> NULL /\ m !! i = Some d /\ holds d e /\ tlist m (to_next d) l2 q2.
Proof.
  revert p l; induction q1 as [|x q1 IH]; intros p [|j l] Hl; try done; cbn [app] in Hl; destruct Hl as (-> & Hj & d & Hd & He & Hl).
  - exists [], j, l, d. done.
  - destruct (IH _ _ Hl) as (l1 & i & l2 & d' & -> & Hlen & Hrest). exists (j :: l1), i, l2, d'. cbn. by rewrite Hlen.
Qed.
(** Taking the one behind [j] out. *)
Lemma tlist_unlink m p l1 j i l2 q1 x e q2 v d : tlist m p (l1 ++ j :: i :: l2) (q1 ++ x :: e :: q2) -> length l1 = length q1 -> NoDup (l1 ++ j :: i :: l2) -> m !! j = Some v -> m !! i = Some d ->
  tlist (<[j := v <| to_next := to_next d |>]> m) p (l1 ++ j :: l2) (q1 ++ x :: q2).
Proof.
  revert p q1; induction l1 as [|k l1 IH]; intros p [|y q1] Hl Hlen Hn Hv Hd; try done; cbn [app] in *.
  - destruct Hl as (-> & Hj & v' & Hv' & Hx & _ & Hi & d' & Hd' & He & Hl). simplify_eq. apply NoDup_cons in Hn as [Hj2 _]. split; [done|]. split; [done|].
    rewrite lookup_insert_eq. eexists. split; [done|]. split; [done|]. cbn. eapply tlist_frame; [done|]. intros k Hk. rewrite lookup_insert_ne; [done|]. intros ->. apply Hj2. by apply list_elem_of_further.
  - destruct Hl as (-> & Hk & w & Hw & Hy & Hl). apply NoDup_cons in Hn as [Hk2 Hn]. split; [done|]. split; [done|]. exists w. split; [|split; [done|apply IH; [done|by injection Hlen|done|done|done]]].
    rewrite lookup_insert_ne; [done|]. intros ->. apply Hk2. apply elem_of_app. right. apply list_elem_of_here.
Qed.

Section Queue.
Context {R : Type}.
Implicit Types (g : timers) (r : R).
Abbreviation at_ g r := (mk_clocked g r).

Lemma gett_run {A} g r i d (k : sys_timeo -> M (clocked R) A) : i <> NULL -> timeos g !! i = Some d -> bind (gett i) k (at_ g r) = k d (at_ g r).
Proof. intros Hi Hd. unfold bind, gett. rewrite (proj2 (Z.eqb_neq _ _) Hi). cbn [tmr]. by rewrite Hd. Qed.
Definition put_timeo g (i : Z) (d : sys_timeo) : timers := g <| timeos := <[i := d]> (timeos g) |>.
Lemma updt_run {A} g r i d f (k : unit -> M (clocked R) A) : i <> NULL -> timeos g !! i = Some d -> bind (updt i f) k (at_ g r) = k tt (at_ (put_timeo g i (f d)) r).
Proof. intros Hi Hd. unfold updt. rewrite bind_assoc. by rewrite (gett_run _ _ _ _ _ Hi Hd). Qed.
Lemma updt_end g r i d f : i <> NULL -> timeos g !! i = Some d -> updt (R := R) i f (at_ g r) = Ok (tt, at_ (put_timeo g i (f d)) r).
Proof. intros Hi Hd. unfold updt. by rewrite (gett_run _ _ _ _ _ Hi Hd). Qed.
Lemma put_timeo_get g i d : timeos (put_timeo g i d) !! i = Some d.
Proof. cbn. apply lookup_insert_eq. Qed.
Lemma put_timeo_twice g i d e : put_timeo (put_timeo g i d) i e = put_timeo g i e.
Proof. unfold put_timeo. destruct g. cbn. by rewrite insert_insert_eq. Qed.

(** ** Insertion *)

(** What [insert_loop] does behind an entry that is not later. *)
Lemma insert_loop_run T r t n e : t <> NULL -> to_time n = u32 (deadline e) -> to_h n = calls e -> to_arg n = with_arg e -> near T e ->
  forall l q fuel i x g, tlist (timeos g) i (i :: l) (x :: q) -> timeos g !! t = Some n -> t ∉ i :: l -> NoDup (i :: l) -> Forall (near T) (x :: q) -> deadline x <= deadline e -> (length l < fuel)%nat ->
  exists m l', insert_loop (R := R) fuel i t (at_ g r) = Ok (tt, at_ (g <| timeos := m |>) r) /\ tlist m i (i :: l') (x :: enqueue e q) /\ l' ≡ₚ t :: l /\ forall j, j ∉ t :: i :: l -> m !! j = timeos g !! j.
Proof.
  intros Ht En Eh Ea Hne. induction l as [|i2 l IH]; intros q [|fuel] i x g Hl Hn Hti Hnd Hnear Hle Hf; cbn [length] in Hf; try lia; cbn [insert_loop];
    destruct Hl as (_ & Hi & d & Hd & Hx & Hl); rewrite (proj2 (Z.eqb_neq _ _) Hi), (gett_run _ _ _ _ _ Hi Hd); apply not_elem_of_cons in Hti as [Hti Htl];
    apply NoDup_cons in Hnd as [Hil Hnd]; apply Forall_cons in Hnear as [Hnx Hnq].
  - destruct q as [|y q]; [|done]. cbn in Hl. rewrite Hl, Z.eqb_refl. rewrite bind_ret. rewrite (updt_run _ _ _ _ _ _ Ht Hn).
    assert (timeos (put_timeo g t (n <| to_next := NULL |>)) !! i = Some d) as Hd2 by (cbn; by rewrite lookup_insert_ne by done). rewrite (updt_end _ _ _ _ _ Hi Hd2).
    eexists (<[i := _]> (<[t := _]> (timeos g))), [t]. split; [by destruct g|]. split; [|split; [done|]].
    + split; [done|]. split; [done|]. rewrite lookup_insert_eq. eexists. split; [done|]. split; [done|]. cbn. split; [done|]. split; [done|].
      rewrite lookup_insert_ne, lookup_insert_eq by done. eexists. split; [done|]. done.
    + intros j Hj. rewrite !not_elem_of_cons in Hj. rewrite !lookup_insert_ne by naive_solver. done.
  - destruct q as [|y q]; [done|]. apply Forall_cons in Hnq as [Hny Hnq]. pose proof Hl as Hl0. destruct Hl as (E2 & Hi2 & d2 & Hd2 & Hy & Hl). rewrite E2, (proj2 (Z.eqb_neq _ _) Hi2).
    rewrite !bind_assoc, (gett_run _ _ _ _ _ Ht Hn), bind_assoc, (gett_run _ _ _ _ _ Hi2 Hd2), bind_ret, En, (proj1 Hy), (near_less T) by done.
    cbn [enqueue]. destruct (deadline e <? deadline y) eqn:El.
    + rewrite (updt_run _ _ _ _ _ _ Ht Hn). assert (timeos (put_timeo g t (n <| to_next := i2 |>)) !! i = Some d) as Hd3 by (cbn; by rewrite lookup_insert_ne by done).
      rewrite (updt_end _ _ _ _ _ Hi Hd3). eexists (<[i := _]> (<[t := _]> (timeos g))), (t :: i2 :: l). split; [by destruct g|]. split; [|split; [done|]].
      * split; [done|]. split; [done|]. rewrite lookup_insert_eq. eexists. split; [done|]. split; [done|]. cbn [to_next]. split; [done|]. split; [done|].
        rewrite lookup_insert_ne, lookup_insert_eq by done. eexists. split; [done|]. split; [done|]. eapply tlist_frame; [rewrite E2 in Hl0; exact Hl0|].
        intros j Hj. rewrite !lookup_insert_ne; [done|by intros ->|by intros ->].
      * intros j Hj. rewrite !not_elem_of_cons in Hj. rewrite !lookup_insert_ne by naive_solver. done.
    + apply Z.ltb_ge in El. destruct (IH q fuel i2 y g) as (m & l' & E & Hl' & Hp & Hm); [by rewrite E2 in Hl0|done|done|done|by constructor|done|lia|].
      rewrite E. exists m, (i2 :: l'). split; [done|]. split; [|split].
      * split; [done|]. split; [done|]. exists d. rewrite Hm by (rewrite !not_elem_of_cons in *; naive_solver). rewrite E2. done.
      * rewrite Hp. apply perm_swap.
      * intros j Hj. apply Hm. rewrite !not_elem_of_cons in *. naive_solver.
Qed.

(** The variables that the operations on the list leave alone. *)
Definition aside g g' : Prop := current_timeout_due_time g' = current_timeout_due_time g /\ tcpip_tcp_timer_active g' = tcpip_tcp_timer_active g.

(** After [memp_malloc] and the assignments: the new cell is [n]. *)
Definition with_new g n : timers := put_timeo (g <| timeo_left := timeo_left g - 1 |> <| next_timeo := next_timeo g + 1 |>) (next_timeo g) n.
Lemma new_cell_run {A} g r a h arg (z : M (clocked R) A) (k : Z -> M (clocked R) A) : timeo_left g <> 0 -> next_timeo g <> NULL ->
  (let* timeout := memp_malloc_timeo in
   if timeout =? NULL then z else
   updt timeout (fun t => t <| to_next := NULL |>) ;;; updt timeout (fun t => t <| to_h := h |>) ;;;
   updt timeout (fun t => t <| to_arg := arg |>) ;;; updt timeout (fun t => t <| to_time := a |>) ;;; k timeout) (at_ g r) =
  k (next_timeo g) (at_ (with_new g (mk_timeo NULL a h arg)) r).
Proof.
  intros Hl Hn. unfold memp_malloc_timeo. rewrite bind_assoc. unfold bind at 1. cbn [gettm gets tmr]. rewrite (proj2 (Z.eqb_neq _ _) Hl), bind_assoc. unfold bind at 1. cbn [gettm gets tmr].
  rewrite bind_assoc. unfold bind at 1. cbn [modtm modify tmr rest]. rewrite bind_ret, (proj2 (Z.eqb_neq _ _) Hn).
  set (g1 := g <| timeo_left := timeo_left g - 1 |> <| next_timeo := next_timeo g + 1 |>). match goal with |- _ (mk_clocked ?x r) = _ => change x with (put_timeo g1 (next_timeo g) (mk_timeo NULL 0 H_NULL 0)) end.
  do 4 (rewrite (updt_run _ _ _ _ _ _ Hn (put_timeo_get _ _ _)), put_timeo_twice). done.
Qed.
Lemma put_fresh g n T l q : queued T g l q -> (timeos g !! next_timeo g = None) /\ next_timeo g ∉ l /\ next_timeo g <> NULL /\ forall i, i ∈ l -> timeos (with_new g n) !! i = timeos g !! i.
Proof.
  intros [Hl _ Hk [Hf Hfr] _ _ _ _]. assert (next_timeo g ∉ l) as Hni by (intros Hi; specialize (Hfr _ Hi); lia). split; [|split; [done|split; [unfold NULL; lia|]]].
  - destruct (timeos g !! next_timeo g) eqn:E; [|done]. exfalso. apply Hni, Hk. by exists s.
  - intros i Hi. cbn. rewrite lookup_insert_ne; [done|]. by intros <-.
Qed.

(** A list that holds the new entry makes the state hold the new queue. *)
Lemma queued_enqueue T g l q e n m p l' : queued T g l q -> near T e -> timeo_left g <> 0 -> tlist m p l' (enqueue e q) -> l' ≡ₚ next_timeo g :: l ->
  (forall j, j ∉ next_timeo g :: l -> m !! j = timeos g !! j) ->
  queued T ((with_new g n) <| timeos := m |> <| next_timeout := p |>) l' (enqueue e q).
Proof.
  intros Hq He Hlft Hl Hp Hm. pose proof (put_fresh g n T l q Hq) as (_ & Hni & _ & _). destruct Hq as [_ Hnd Hk [Hf Hfr] [Hge Hleft] Hnow Hs Hn]. split; cbn.
  - done.
  - rewrite Hp. by constructor.
  - intros i [d Hd]. rewrite Hp. destruct (decide (i ∈ next_timeo g :: l)) as [Hi|Hi]; [done|]. rewrite Hm in Hd by done. apply list_elem_of_further, Hk. by exists d.
  - split; [lia|]. intros i. rewrite Hp. intros [->|Hi]%elem_of_cons; [lia|]. specialize (Hfr _ Hi). lia.
  - rewrite (Permutation_length (enqueue_perm e q)). cbn [length]. lia.
  - done.
  - by apply enqueue_sorted.
  - rewrite enqueue_perm. by constructor.
Qed.

Lemma sys_timeout_abs_run T g r l q a h arg : queued T g l q -> near T (mk_entry a h arg) -> exists g' l', sys_timeout_abs (u32 a) h arg (at_ g r) = Ok (tt, at_ g' r) /\ aside g g' /\
  queued T g' l' (if Z.of_nat (length q) =? MEMP_NUM_SYS_TIMEOUT then q else enqueue (mk_entry a h arg) q).
Proof.
  intros Hq He. set (e := mk_entry a h arg). destruct (qd_left _ _ _ _ Hq) as [Hge Hleft]. destruct (Z.of_nat (length q) =? MEMP_NUM_SYS_TIMEOUT) eqn:Efull.
  { exists g, l. apply Z.eqb_eq in Efull. split; [|by split]. unfold sys_timeout_abs, memp_malloc_timeo. rewrite bind_assoc. unfold bind at 1. cbn [gettm gets tmr].
    by rewrite (proj2 (Z.eqb_eq (timeo_left g) 0)) by lia. }
  apply Z.eqb_neq in Efull. assert (timeo_left g <> 0) as Hlft by lia. set (n := mk_timeo NULL (u32 a) h arg). pose proof (put_fresh g n T l q Hq) as (Hnone & Hni & Hnn & Hsame).
  unfold sys_timeout_abs. rewrite new_cell_run by done. fold n. set (i := next_timeo g) in *. set (g1 := with_new g n) in *. assert (timeos g1 !! i = Some n) as Hn by apply put_timeo_get.
  assert (tlist (timeos g1) (next_timeout g) l q) as Hl1 by (eapply tlist_frame; [exact (qd_list _ _ _ _ Hq)|done]).
  assert (forall d j, j ∉ i :: l -> <[i := d]> (timeos g1) !! j = timeos g !! j) as Hout by (intros d j Hj; rewrite !not_elem_of_cons in Hj; cbn; rewrite !lookup_insert_ne by naive_solver; done).
  unfold bind at 1. cbn [gettm gets tmr]. change (next_timeout g1) with (next_timeout g). destruct q as [|x q].
  - destruct l as [|? ?]; [|done]. cbn in Hl1. rewrite Hl1, Z.eqb_refl. exists (g1 <| timeos := timeos g1 |> <| next_timeout := i |>), [i]. split; [by destruct g1|]. split; [done|].
    change [e] with (enqueue e []). apply (queued_enqueue T g [] [] e n); try done. { split; [done|]. split; [done|]. exists n. done. } intros j Hj. rewrite <- (Hout n j Hj). cbn. by rewrite insert_insert_eq.
  - destruct l as [|i1 l]; [done|]. pose proof Hl1 as Hl2. destruct Hl1 as (Eh & Hi1 & d1 & Hd1 & Hx & Hl1). rewrite Eh in *. rewrite (proj2 (Z.eqb_neq _ _) Hi1).
    rewrite (gett_run _ _ _ _ _ Hnn Hn), (gett_run _ _ _ _ _ Hi1 Hd1). rewrite (proj1 Hx). change (to_time n) with (u32 (deadline e)).
    pose proof (qd_near _ _ _ _ Hq) as Hnear. rewrite (near_less T) by (done || by inversion Hnear). cbn [enqueue]. destruct (deadline e <? deadline x) eqn:El.
    + rewrite (updt_run _ _ _ _ _ _ Hnn Hn). eexists (g1 <| timeos := <[i := n <| to_next := i1 |>]> (timeos g1) |> <| next_timeout := i |>), (i :: i1 :: l). split; [by destruct g1|]. split; [done|].
      pose proof (queued_enqueue T g (i1 :: l) (x :: q) e n (<[i := n <| to_next := i1 |>]> (timeos g1)) i (i :: i1 :: l)) as HQ. cbn [enqueue] in HQ. rewrite El in HQ. apply HQ; try done.
      * split; [done|]. split; [done|]. rewrite lookup_insert_eq. eexists. split; [done|]. split; [done|]. eapply tlist_frame; [exact Hl2|]. intros j Hj. rewrite lookup_insert_ne; [done|]. by intros <-.
      * by apply Hout.
    + apply Z.ltb_ge in El. unfold bind at 1. cbn [timeo_fuel gettm gets tmr].
      destruct (insert_loop_run T r i n e Hnn eq_refl eq_refl eq_refl He l q (S (size (timeos g1))) i1 x g1 Hl2 Hn Hni (qd_nodup _ _ _ _ Hq) Hnear El) as (m & l' & E & Hl' & Hp & Hm).
      { pose proof (tlist_size _ _ _ _ Hl2 (qd_nodup _ _ _ _ Hq)) as Hsz. cbn [length] in Hsz. lia. }
      rewrite E. exists (g1 <| timeos := m |> <| next_timeout := i1 |>), (i1 :: l'). split; [by rewrite <- Eh|]. split; [done|].
      pose proof (queued_enqueue T g (i1 :: l) (x :: q) e n m i1 (i1 :: l')) as HQ. cbn [enqueue] in HQ. rewrite (proj2 (Z.ltb_ge _ _) El) in HQ. apply HQ; try done.
      * rewrite Hp. apply perm_swap.
      * intros j Hj. rewrite Hm by done. rewrite not_elem_of_cons in Hj. cbn. by rewrite lookup_insert_ne by naive_solver.
Qed.

Lemma sys_timeout_run T g r l q msecs h arg : queued T g l q -> 0 <= msecs < horizon -> exists g' l', sys_timeout msecs h arg (at_ g r) = Ok (tt, at_ g' r) /\ aside g g' /\
  queued T g' l' (if Z.of_nat (length q) =? MEMP_NUM_SYS_TIMEOUT then q else enqueue (mk_entry (T + msecs) h arg) q).
Proof.
  intros Hq Hms. unfold sys_timeout. unfold bind at 1. cbn [sys_now gettm gets tmr]. rewrite (qd_now _ _ _ _ Hq).
  assert (u32 (u32 T + msecs) = u32 (T + msecs)) as -> by (unfold u32; by rewrite Zplus_mod_idemp_l). eapply sys_timeout_abs_run; [exact Hq|]. unfold near. cbn. unfold horizon in *. lia.
Qed.

(** ** Removal *)

Lemma memp_free_timeo_run g r i d : i <> NULL -> timeos g !! i = Some d ->
  memp_free_timeo (R := R) i (at_ g r) = Ok (tt, at_ (g <| timeos := delete i (timeos g) |> <| timeo_left := timeo_left g + 1 |>) r).
Proof. intros Hi Hd. unfold memp_free_timeo. by rewrite (gett_run _ _ _ _ _ Hi Hd). Qed.
(** The walk up to the first match. *)
Lemma untimeout_walk g r h arg : forall l q p prev fuel, tlist (timeos g) p l q -> (length l < fuel)%nat -> (forall e, e ∈ q -> is_call h arg e = false) ->
  untimeout_loop (R := R) fuel p prev h arg (at_ g r) = Ok (tt, at_ g r).
Proof.
  induction l as [|i l IH]; intros [|x q] p prev [|fuel] Hl Hf Hn; cbn [length] in Hf; try done; try lia; cbn [untimeout_loop].
  - cbn in Hl. subst p. done.
  - destruct Hl as (-> & Hi & d & Hd & (_ & Eh & Ea) & Hl). rewrite (proj2 (Z.eqb_neq _ _) Hi), (gett_run _ _ _ _ _ Hi Hd), Eh, Ea. fold (is_call h arg x). rewrite (Hn x) by apply list_elem_of_here.
    eapply IH; [done|lia|]. intros e He. apply Hn. by apply list_elem_of_further.
Qed.
Lemma untimeout_skip g r h arg : forall l1 q1 p prev fuel i l2 q2, tlist (timeos g) p (l1 ++ i :: l2) (q1 ++ q2) -> length l1 = length q1 -> (forall e, e ∈ q1 -> is_call h arg e = false) ->
  untimeout_loop (R := R) (length l1 + fuel) p prev h arg (at_ g r) = untimeout_loop fuel i (List.last l1 prev) h arg (at_ g r).
Proof.
  induction l1 as [|j l1 IH]; intros [|x q1] p prev fuel i l2 q2 Hl Hlen Hn; try done; cbn [app length plus] in *.
  - destruct q2 as [|? ?]; [done|]. destruct Hl as (-> & _). done.
  - destruct Hl as (-> & Hi & d & Hd & (_ & Eh & Ea) & Hl). cbn [untimeout_loop]. rewrite (proj2 (Z.eqb_neq _ _) Hi), (gett_run _ _ _ _ _ Hi Hd), Eh, Ea. fold (is_call h arg x).
    rewrite (Hn x) by apply list_elem_of_here. rewrite (IH q1 _ j fuel i l2 q2) by (done || (by injection Hlen) || (intros e He; apply Hn; by apply list_elem_of_further)).
    f_equal. destruct l1 as [|k l1]; [done|]. cbn [List.last]. clear. revert k; induction l1 as [|k' l1 IH]; intros k; [done|]. cbn [List.last] in *. apply IH.
Qed.

(** One entry less. *)
Lemma queued_remove T g l1 i l2 q1 e q2 m p : queued T g (l1 ++ i :: l2) (q1 ++ e :: q2) -> tlist m p (l1 ++ l2) (q1 ++ q2) -> (forall j, is_Some (m !! j) -> is_Some (timeos g !! j) /\ j <> i) ->
  queued T (g <| next_timeout := p |> <| timeos := m |> <| timeo_left := timeo_left g + 1 |>) (l1 ++ l2) (q1 ++ q2).
Proof.
  intros [Hl Hnd Hk [Hf Hfr] [Hge Hleft] Hnow Hs Hn] Hl' Hm. assert (l1 ++ i :: l2 ≡ₚ i :: l1 ++ l2) as Hp by (symmetry; apply Permutation_middle). split; cbn; try done.
  - rewrite Hp in Hnd. by inversion Hnd.
  - intros j Hj. destruct (Hm j Hj) as [Hj1 Hj2]. apply Hk in Hj1. rewrite Hp in Hj1. apply elem_of_cons in Hj1 as [->|?]; done.
  - split; [done|]. intros j Hj. apply Hfr. rewrite Hp. by apply list_elem_of_further.
  - rewrite !length_app in *. cbn [length] in Hleft. lia.
  - by eapply sorted_drop.
  - rewrite Forall_app, Forall_cons in Hn. apply Forall_app. tauto.
Qed.

Lemma sys_untimeout_run T g r l q h arg : queued T g l q -> exists g' l', sys_untimeout h arg (at_ g r) = Ok (tt, at_ g' r) /\ aside g g' /\ queued T g' l' (cancel h arg q).
Proof.
  intros Hq. pose proof (qd_list _ _ _ _ Hq) as Hl. pose proof (tlist_size _ _ _ _ Hl (qd_nodup _ _ _ _ Hq)) as Hsz. unfold sys_untimeout. unfold bind at 1. cbn [gettm gets tmr].
  destruct (next_timeout g =? NULL) eqn:E0.
  { apply Z.eqb_eq in E0. exists g, l. apply (tlist_null _ _ _ _ Hl) in E0. subst q. done. }
  unfold bind at 1. cbn [timeo_fuel gettm gets tmr]. destruct (cancel_split h arg q) as [[Hn ->]|(q1 & e & q2 & -> & He & Hn & ->)].
  { exists g, l. split; [|by split]. eapply untimeout_walk; [done|lia|done]. }
  destruct (tlist_split _ _ _ _ _ _ Hl) as (l1 & i & l2 & d & -> & Hlen & Hi & Hd & Hde & Hl2). pose proof Hde as (_ & Eh & Ea). rewrite length_app in Hsz. cbn [length] in Hsz.
  replace (S (size (timeos g))) with (length l1 + S (size (timeos g) - length l1))%nat by lia. rewrite (untimeout_skip g r h arg l1 q1 _ _ _ i l2 (e :: q2)) by done.
  cbn [untimeout_loop]. rewrite (proj2 (Z.eqb_neq _ _) Hi), (gett_run _ _ _ _ _ Hi Hd), Eh, Ea. fold (is_call h arg e). rewrite He. pose proof (qd_nodup _ _ _ _ Hq) as Hnd.
  destruct (decide (l1 = [])) as [->|Hne].
  - destruct q1; [|done]. cbn [List.last app]. rewrite Z.eqb_refl. unfold bind at 1. cbn [modtm modify tmr rest].
    set (g1 := g <| next_timeout := to_next d |>). eexists _, l2. split; [exact (memp_free_timeo_run g1 r i d Hi Hd)|]. split; [done|].
    apply (queued_remove T g [] i l2 [] e q2 (delete i (timeos g)) (to_next d) Hq).
    + cbn. eapply tlist_frame; [done|]. intros j Hj. rewrite lookup_delete_ne; [done|]. intros ->. apply NoDup_cons in Hnd as [Hnd _]. done.
    + intros j [v Hv]. apply lookup_delete_Some in Hv as [Hij Hv]. split; [by exists v|done].
  - destruct (exists_last Hne) as (l1' & j & ->). rewrite last_last. assert (exists q1' x, q1 = q1' ++ [x] /\ length l1' = length q1') as (q1' & x & -> & Hlen').
    { destruct q1 as [|? ?] using rev_ind; [by rewrite length_app in Hlen; cbn in Hlen; lia|]. eexists _, _. split; [done|]. rewrite !length_app in Hlen. cbn in Hlen. lia. }
    rewrite <- !app_assoc in *. cbn [app] in *. destruct (tlist_split _ _ _ _ _ _ Hl) as (l1'' & j'' & l2'' & v & El & Hlen'' & Hj & Hv & Hvx & _).
    assert (l1' = l1'' /\ j :: i :: l2 = j'' :: l2'') as [<- [= <- <-]] by (apply app_inj_1; [congruence|done]). rewrite (proj2 (Z.eqb_neq _ _) Hj), (updt_run _ _ _ _ _ _ Hj Hv).
    assert (j <> i) as Hji by (intros ->; apply NoDup_app in Hnd as (_ & _ & Hnd); apply NoDup_cons in Hnd as [Hnd _]; apply Hnd; apply list_elem_of_here).
    assert (timeos (put_timeo g j (v <| to_next := to_next d |>)) !! i = Some d) as Hd2 by (cbn; by rewrite lookup_insert_ne by done).
    rewrite (memp_free_timeo_run _ _ _ _ Hi Hd2). eexists _, (l1' ++ [j] ++ l2). split; [done|]. split; [done|].
    pose proof (queued_remove T g (l1' ++ [j]) i l2 (q1' ++ [x]) e q2 (delete i (<[j := v <| to_next := to_next d |>]> (timeos g))) (next_timeout g)) as HQ. rewrite <- !app_assoc in HQ. apply HQ; [done| |].
    + eapply tlist_frame; [by eapply tlist_unlink|]. intros k Hk. rewrite lookup_delete_ne; [done|]. intros ->.
      assert (l1' ++ j :: k :: l2 ≡ₚ k :: l1' ++ j :: l2) as Hp by (change (j :: k :: l2) with ([j] ++ k :: l2); rewrite app_assoc, <- Permutation_middle, <- app_assoc; done). rewrite Hp in Hnd. apply NoDup_cons in Hnd as [Hnd _]. done.
    + intros k [w Hw]. apply lookup_delete_Some in Hw as [Hik Hw]. split; [|done]. destruct (decide (j = k)) as [->|Hjk]; [by exists v|]. rewrite lookup_insert_ne in Hw by done. by exists w.
Qed.

(** ** Rebasing, the time to the next, the clock *)

Lemma restart_loop_run r b T : forall l q p fuel g, tlist (timeos g) p l q -> NoDup l -> (length l < fuel)%nat ->
  exists m, restart_loop (R := R) fuel p (u32 b) (u32 T) (at_ g r) = Ok (tt, at_ (g <| timeos := m |>) r) /\ tlist m p l (map (move (T - b)) q) /\ forall j, j ∉ l -> m !! j = timeos g !! j.
Proof.
  induction l as [|i l IH]; intros [|x q] p [|fuel] g Hl Hnd Hf; cbn [length] in Hf; try done; try lia; cbn [restart_loop].
  - cbn in Hl. subst p. rewrite Z.eqb_refl. exists (timeos g). split; [by destruct g|done].
  - destruct Hl as (-> & Hi & d & Hd & (Et & Eh & Ea) & Hl). apply NoDup_cons in Hnd as [Hil Hnd]. rewrite (proj2 (Z.eqb_neq _ _) Hi), (updt_run _ _ _ _ _ _ Hi Hd), (gett_run _ _ _ _ _ Hi (put_timeo_get _ _ _)).
    cbn [to_next]. rewrite Et, u32_shift. set (d' := d <| to_time := u32 (deadline x - b + T) |>). change (to_next d') with (to_next d).
    destruct (IH q (to_next d) fuel (put_timeo g i d')) as (m & E & Hm & Hout); [|done|lia|].
    { eapply tlist_frame; [exact Hl|]. intros j Hj. cbn. rewrite lookup_insert_ne; [done|]. by intros <-. }
    rewrite E. exists m. split; [by destruct g|]. split.
    + split; [done|]. split; [done|]. exists d'. rewrite Hout by done. split; [apply put_timeo_get|]. split; [|exact Hm]. split; [|done]. cbn. f_equal. lia.
    + intros j [Hji Hj]%not_elem_of_cons. rewrite Hout by done. cbn. by rewrite lookup_insert_ne.
Qed.
Lemma sys_restart_timeouts_run T g r l q : queued T g l q -> (forall e f, e ∈ q -> f ∈ q -> deadline e - deadline f < horizon) ->
  exists g', sys_restart_timeouts (at_ g r) = Ok (tt, at_ g' r) /\ aside g g' /\ queued T g' l (rebase T q).
Proof.
  intros Hq Hsp. pose proof (qd_list _ _ _ _ Hq) as Hl. unfold sys_restart_timeouts. unfold bind at 1. cbn [gettm gets tmr]. destruct q as [|x q].
  { rewrite (proj2 (tlist_null _ _ _ _ Hl) eq_refl), Z.eqb_refl. exists g. done. }
  destruct l as [|i l]; [done|]. pose proof Hl as (E0 & Hi & d & Hd & (Et & _) & _). rewrite E0, (proj2 (Z.eqb_neq _ _) Hi). unfold bind at 1. cbn [sys_now gettm gets tmr].
  rewrite (gett_run _ _ _ _ _ Hi Hd), Et, (qd_now _ _ _ _ Hq). unfold bind at 1. cbn [timeo_fuel gettm gets tmr]. rewrite E0 in Hl.
  pose proof (tlist_size _ _ _ _ Hl (qd_nodup _ _ _ _ Hq)) as Hsz. destruct (restart_loop_run r (deadline x) T (i :: l) (x :: q) i (S (size (timeos g))) g Hl (qd_nodup _ _ _ _ Hq)) as (m & E & Hm & Hout); [lia|].
  rewrite E. exists (g <| timeos := m |>). split; [done|]. split; [done|]. destruct Hq as [_ Hnd Hk Hf Hleft Hnow Hs Hn]. unfold rebase. split; cbn [timeos next_timeout timeo_left val next_timeo]; try done.
  - change (next_timeout (g <| timeos := m |>)) with (next_timeout g). by rewrite E0.
  - intros j [v Hv]. destruct (decide (j ∈ i :: l)) as [Hj|Hj]; [done|]. apply Hk. rewrite <- Hout by done. by exists v.
  - rewrite length_map. done.
  - by apply move_sorted.
  - apply Forall_map, Forall_forall. intros e He. unfold near. cbn. pose proof (Hsp e x He (list_elem_of_here _ _)). inversion Hs as [|? ? _ Hx]; subst.
    apply elem_of_cons in He as [->|He]; [unfold horizon in *; lia|]. rewrite Forall_forall in Hx. specialize (Hx e He). unfold no_later in Hx. unfold horizon in *. lia.
Qed.
Lemma sys_timeouts_sleeptime_run T g r l q : queued T g l q -> sys_timeouts_sleeptime (at_ g r) = Ok (sleep T q, at_ g r).
Proof.
  intros Hq. pose proof (qd_list _ _ _ _ Hq) as Hl. unfold sys_timeouts_sleeptime. unfold bind at 1. cbn [gettm gets tmr]. destruct q as [|x q].
  { by rewrite (proj2 (tlist_null _ _ _ _ Hl) eq_refl), Z.eqb_refl. }
  destruct l as [|i l]; [done|]. pose proof Hl as (E0 & Hi & d & Hd & (Et & _) & _). rewrite E0, (proj2 (Z.eqb_neq _ _) Hi). unfold bind at 1. cbn [sys_now gettm gets tmr].
  rewrite (gett_run _ _ _ _ _ Hi Hd), Et, (qd_now _ _ _ _ Hq). pose proof (qd_near _ _ _ _ Hq) as Hn. apply Forall_cons in Hn as [Hn _]. unfold near, horizon in Hn.
  rewrite time_less_than by lia. unfold sleep. destruct (deadline x <? T) eqn:E; [apply Z.ltb_lt in E|apply Z.ltb_ge in E]; [by rewrite Z.max_l by lia|].
  rewrite Z.max_r by lia. assert (u32 (u32 (deadline x) - u32 T) = deadline x - T) as ->; [|done]. unfold u32. rewrite <- Zminus_mod, Z.mod_small; lia.
Qed.
Lemma sys_now_inc_run T g r l q k : queued T g l q -> 0 <= k -> (forall e, e ∈ q -> T + k - horizon < deadline e) ->
  exists g', sys_now_inc k (at_ g r) = Ok (tt, at_ g' r) /\ aside g g' /\ queued (T + k) g' l q.
Proof.
  intros [Hl Hnd Hkk Hf Hleft Hnow Hs Hn] Hk He. eexists. split; [done|]. split; [done|]. split; cbn; try done.
  - rewrite Hnow. unfold u32. by rewrite Zplus_mod_idemp_l.
  - apply Forall_forall. intros e Hin. specialize (He e Hin). rewrite Forall_forall in Hn. specialize (Hn e Hin). unfold near in *. lia.
Qed.
End Queue.

(** ** The refinement *)

Inductive tm_call :=
| C_timeout (msecs : Z) (h : handler) (arg : Z)
| C_untimeout (h : handler) (arg : Z)
| C_restart
| C_sleeptime
| C_elapse (ms : Z).

(** On the queue, in unbounded time; a full pool refuses. *)
Definition queue_call (c : tm_call) (T : Z) (q : list entry) : Z * Z * list entry :=
  match c with
  | C_timeout msecs h arg => (0, T, if Z.of_nat (length q) =? MEMP_NUM_SYS_TIMEOUT then q else enqueue (mk_entry (T + msecs) h arg) q)
  | C_untimeout h arg => (0, T, cancel h arg q)
  | C_restart => (0, T, rebase T q)
  | C_sleeptime => (sleep T q, T, q)
  | C_elapse ms => (0, T + ms, q)
  end.
(** sys_timeout allows a quarter of the range of the clock; a timeout may not be
    overdue by more, and to be rebased the timeouts must lie no further apart. *)
Definition call_ok (c : tm_call) (T : Z) (q : list entry) : Prop :=
  match c with
  | C_timeout msecs _ _ => 0 <= msecs < horizon
  | C_restart => forall e f, e ∈ q -> f ∈ q -> deadline e - deadline f < horizon
  | C_elapse ms => 0 <= ms /\ forall e, e ∈ q -> T + ms - horizon < deadline e
  | _ => True
  end.
Definition run_call {R} (c : tm_call) : M (clocked R) Z :=
  match c with
  | C_timeout msecs h arg => sys_timeout msecs h arg ;;; ret 0
  | C_untimeout h arg => sys_untimeout h arg ;;; ret 0
  | C_restart => sys_restart_timeouts ;;; ret 0
  | C_sleeptime => sys_timeouts_sleeptime
  | C_elapse ms => sys_now_inc ms ;;; ret 0
  end.
Fixpoint run_calls {R} (cs : list tm_call) : M (clocked R) (list Z) :=
  match cs with [] => ret [] | c :: cs => let* v := run_call c in let* vs := run_calls cs in ret (v :: vs) end.
Fixpoint queue_calls (cs : list tm_call) (T : Z) (q : list entry) : list Z * Z * list entry :=
  match cs with [] => ([], T, q) | c :: cs => let '(v, T, q) := queue_call c T q in let '(vs, T, q) := queue_calls cs T q in (v :: vs, T, q) end.
Fixpoint calls_ok (cs : list tm_call) (T : Z) (q : list entry) : Prop :=
  match cs with [] => True | c :: cs => call_ok c T q /\ let '(_, T, q) := queue_call c T q in calls_ok cs T q end.

Lemma run_call_refines {R} c T q g (r : R) l : queued T g l q -> call_ok c T q ->
  let '(v, T', q') := queue_call c T q in exists g' l', run_call c (mk_clocked g r) = Ok (v, mk_clocked g' r) /\ aside g g' /\ queued T' g' l' q'.
Proof.
  intros Hq Hc. destruct c as [msecs h arg|h arg| | |ms]; cbn [queue_call run_call] in *.
  - destruct (sys_timeout_run T g r l q msecs h arg Hq Hc) as (g' & l' & E & Ha & Hq'). exists g', l'. by rewrite (bind_run _ _ _ _ _ E).
  - destruct (sys_untimeout_run T g r l q h arg Hq) as (g' & l' & E & Ha & Hq'). exists g', l'. by rewrite (bind_run _ _ _ _ _ E).
  - destruct (sys_restart_timeouts_run T g r l q Hq Hc) as (g' & E & Ha & Hq'). exists g', l. by rewrite (bind_run _ _ _ _ _ E).
  - exists g, l. by rewrite (sys_timeouts_sleeptime_run T g r l q Hq).
  - destruct Hc as [Hms He]. destruct (sys_now_inc_run T g r l q ms Hq Hms He) as (g' & E & Ha & Hq'). exists g', l. by rewrite (bind_run _ _ _ _ _ E).
Qed.
Lemma run_calls_refine {R} cs : forall T q g (r : R) l, queued T g l q -> calls_ok cs T q ->
  let '(vs, T', q') := queue_calls cs T q in exists g' l', run_calls cs (mk_clocked g r) = Ok (vs, mk_clocked g' r) /\ aside g g' /\ queued T' g' l' q'.
Proof.
  induction cs as [|c cs IH]; intros T q g r l Hq Hc; cbn [queue_calls run_calls calls_ok] in *; [exists g, l; done|]. destruct Hc as [Hc Hcs]. pose proof (run_call_refines c T q g r l Hq Hc) as H1.
  destruct (queue_call c T q) as [[v T1] q1]. destruct H1 as (g1 & l1 & E1 & Ha1 & Hq1). specialize (IH T1 q1 g1 r l1 Hq1 Hcs). destruct (queue_calls cs T1 q1) as [[vs T2] q2].
  destruct IH as (g2 & l2 & E2 & Ha2 & Hq2). exists g2, l2. rewrite (bind_run _ _ _ _ _ E1), (bind_run _ _ _ _ _ E2). split; [done|]. split; [|done]. unfold aside in *. destruct Ha1, Ha2. split; congruence.
Qed.
