(* ===== verification/TimerProofs.v ===== *)
(** The cyclic timers of the stack run on time: each as often as its interval fits
    into the time that has passed, however the polls are spread. *)

From stdpp Require Import gmap sorting.
From S2P Require Import Prelude Cmonad Cutils Heap Pbuf Timers TimerQueue.

(** ** Entries of cyclic timers *)

Definition slot (e : entry) : nat := Z.to_nat (with_arg e).
Definition period_at (i : nat) : Z := match lwip_cyclic_timers !! i with Some (p, _) => p | None => 0 end.
Definition timer_at (i : nat) : stack_timer := match lwip_cyclic_timers !! i with Some (_, h) => h | None => TCP_TMR end.
Definition cyclic (e : entry) : Prop := calls e = H_lwip_cyclic_timer /\ (slot e < length lwip_cyclic_timers)%nat.
Definition due (T : Z) (e : entry) : bool := deadline e <=? T.
(** Its next run: a period later, or a period from now if that is over. *)
Definition again (T : Z) (e : entry) : entry :=
  mk_entry (if deadline e + period_at (slot e) <? T then T + period_at (slot e) else deadline e + period_at (slot e)) (calls e) (with_arg e).
Definition renew (T : Z) (e : entry) : entry := if due T e then again T e else e.
(** Not overdue by a whole period. *)
Definition in_time (T : Z) (e : entry) : Prop := cyclic e /\ T < deadline e + period_at (slot e).

Lemma cyclic_lookup e : cyclic e -> lwip_cyclic_timers !! slot e = Some (period_at (slot e), timer_at (slot e)) /\ 100 <= period_at (slot e) <= 60000.
Proof. intros [_ Hl]. revert Hl. unfold period_at, timer_at. generalize (slot e). intros n Hl. do 8 (destruct n as [|n]; [split; [reflexivity|vm_compute; split; congruence]|]). cbn in Hl. lia. Qed.
Lemma again_not_due T e : in_time T e -> due T (again T e) = false.
Proof. intros [_ Hd]. apply Z.leb_gt. cbn. rewrite (proj2 (Z.ltb_ge _ _)) by lia. exact Hd. Qed.
Lemma again_in_time T e : in_time T e -> in_time T (again T e).
Proof. intros [Hc Hd]. pose proof (cyclic_lookup e Hc) as [_ Hp]. split; [exact Hc|]. change (slot (again T e)) with (slot e). unfold again. cbn [deadline]. rewrite (proj2 (Z.ltb_ge _ _)) by lia. lia. Qed.

(** What is not due goes behind what is. *)
Lemma enqueue_due T e q : due T e = false -> filter (fun x => due T x = true) (enqueue e q) = filter (fun x => due T x = true) q.
Proof.
  intros He. induction q as [|x q IH]; cbn [enqueue]; [by rewrite filter_cons_False by congruence|]. destruct (_ <? _); [by rewrite filter_cons_False by congruence|].
  rewrite !filter_cons, IH. done.
Qed.
Lemma renew_id T q : Forall (fun e => due T e = false) q -> map (renew T) q = q.
Proof. induction 1 as [|e q He _ IH]; [done|]. cbn [map]. unfold renew at 1. by rewrite He, IH. Qed.
Lemma sorted_none_due T x q : StronglySorted no_later (x :: q) -> due T x = false -> Forall (fun e => due T e = false) (x :: q).
Proof.
  intros Hs Hx. constructor; [done|]. inversion Hs as [|? ? _ Ha]; subst. eapply Forall_impl; [exact Ha|]. unfold no_later, due in *. intros e He. apply Z.leb_gt. apply Z.leb_gt in Hx. lia.
Qed.

Lemma mforeach_app {S A} (f : A -> M S unit) l1 l2 s : mforeach (l1 ++ l2) f s = (mforeach l1 f ;;; mforeach l2 f) s.
Proof. revert s; induction l1 as [|x l1 IH]; intros s; [done|]. cbn [mforeach app]. rewrite bind_assoc. unfold bind at 1 2. destruct (f x s) as [[[] s']| |]; [apply IH|done|done]. Qed.

Section Cyclic.
Context {R : Type} `{StackTimers R} `{UserTimers R} (inv : R -> Prop).
Hypothesis timers_run : forall h r, inv r -> exists r', run_tmr h r = Ok (tt, r') /\ inv r'.
Implicit Types r : R.

Lemma lwip_cyclic_timer_run T g l q x r : queued T g l q -> Z.of_nat (length q) < MEMP_NUM_SYS_TIMEOUT -> cyclic x -> near T x -> due T x = true -> current_timeout_due_time g = u32 (deadline x) -> inv r ->
  exists g' l' r', lwip_cyclic_timer (with_arg x) (mk_clocked g r) = Ok (tt, mk_clocked g' r') /\ run_tmr (timer_at (slot x)) r = Ok (tt, r') /\ inv r' /\ queued T g' l' (enqueue (again T x) q).
Proof.
  intros Hq Hroom Hc Hn Hd Edue Hr. apply Z.leb_le in Hd. destruct (cyclic_lookup x Hc) as [Hlk Hper]. destruct (timers_run (timer_at (slot x)) r Hr) as (r' & Er & Hr').
  unfold lwip_cyclic_timer. fold (slot x). rewrite Hlk. unfold bind at 1. cbn [ofopt]. unfold bind at 1, onrest, zoom. cbn [rest]. rewrite Er. unfold bind at 1. cbn [sys_now gettm gets tmr].
  unfold bind at 1. cbn [gettm gets tmr]. rewrite Edue, (qd_now _ _ _ _ Hq). assert (u32 (u32 (deadline x) + period_at (slot x)) = u32 (deadline x + period_at (slot x))) as -> by (unfold u32; by rewrite Zplus_mod_idemp_l).
  unfold near, horizon in Hn. rewrite time_less_than by lia. unfold again. rewrite (proj1 Hc). set (p := period_at (slot x)) in *. set (b := deadline x + p <? T).
  assert (u32 (u32 T + p) = u32 (T + p)) as -> by (unfold u32; by rewrite Zplus_mod_idemp_l).
  destruct (sys_timeout_abs_run T g r' l q (if b then T + p else deadline x + p) H_lwip_cyclic_timer (with_arg x) Hq) as (g' & l' & E & _ & Hq').
  { unfold near, horizon. cbn. destruct b; lia. }
  rewrite (proj2 (Z.eqb_neq _ _)) in Hq' by lia. exists g', l', r'. split; [destruct b; exact E|done].
Qed.

Lemma check_turn_due T g l q x r : queued T g l (x :: q) -> due T x = true -> cyclic x -> inv r ->
  exists g' l' r', check_turn (u32 T) (mk_clocked g r) = Ok (None, mk_clocked g' r') /\ run_tmr (timer_at (slot x)) r = Ok (tt, r') /\ inv r' /\ queued T g' l' (enqueue (again T x) q).
Proof.
  intros Hq Hd Hx Hr. pose proof (qd_list _ _ _ _ Hq) as Hl. destruct l as [|i l]; [done|]. destruct Hl as (E0 & Hi & d & Hdd & (Et & Eh & Ea) & Hl).
  unfold check_turn. unfold bind at 1. cbn [gettm gets tmr]. rewrite E0, (proj2 (Z.eqb_neq _ _) Hi), (gett_run _ _ _ _ _ Hi Hdd), Et. pose proof (qd_near _ _ _ _ Hq) as Hn. apply Forall_cons in Hn as [Hn Hnq].
  pose proof Hn as Hn2. unfold near, horizon in Hn2. apply Z.leb_le in Hd. rewrite time_less_than, (proj2 (Z.ltb_ge _ _)) by lia.
  unfold bind at 1. cbn [modtm modify tmr rest]. unfold bind at 1. cbn [modtm modify tmr rest].
  set (g1 := g <| next_timeout := to_next d |> <| current_timeout_due_time := u32 (deadline x) |>). rewrite (bind_run _ _ _ _ _ (memp_free_timeo_run g1 r i d Hi Hdd)), Eh, Ea, (proj1 Hx). cbn [call_handler].
  set (g2 := g1 <| timeos := delete i (timeos g1) |> <| timeo_left := timeo_left g1 + 1 |>). assert (queued T g2 l q) as Hq2.
  { destruct (queued_remove T g [] i l [] x q (delete i (timeos g)) (to_next d) Hq) as [K1 K2 K3 K4 K5 K6 K7 K8]; [| |split; done].
    - eapply tlist_frame; [exact Hl|]. intros j Hj. rewrite lookup_delete_ne; [done|]. intros ->. pose proof (qd_nodup _ _ _ _ Hq) as Hnd. by apply NoDup_cons in Hnd as [Hnd _].
    - intros j [v Hv]. apply lookup_delete_Some in Hv as [Hij Hv]. split; [by exists v|done]. }
  destruct (lwip_cyclic_timer_run T g2 l q x r Hq2) as (g' & l' & r' & E & Er & Hr' & Hq'); try done.
  { pose proof (qd_left _ _ _ _ Hq) as [? Hlft]. cbn [length] in Hlft. lia. }
  { by apply Z.leb_le. }
  exists g', l', r'. by rewrite (bind_run _ _ _ _ _ E).
Qed.
Lemma check_turn_none T g l q r : queued T g l q -> Forall (fun e => due T e = false) q -> check_turn (u32 T) (mk_clocked g r) = Ok (Some tt, mk_clocked g r).
Proof.
  intros Hq Hd. pose proof (qd_list _ _ _ _ Hq) as Hl. unfold check_turn. unfold bind at 1. cbn [gettm gets tmr]. destruct q as [|x q].
  { by rewrite (proj2 (tlist_null _ _ _ _ Hl) eq_refl), Z.eqb_refl. }
  destruct l as [|i l]; [done|]. destruct Hl as (E0 & Hi & d & Hdd & (Et & _) & _). rewrite E0, (proj2 (Z.eqb_neq _ _) Hi), (gett_run _ _ _ _ _ Hi Hdd), Et.
  pose proof (qd_near _ _ _ _ Hq) as Hn. apply Forall_cons in Hn as [Hn _]. unfold near, horizon in Hn. apply Forall_cons in Hd as [Hd _]. apply Z.leb_gt in Hd.
  by rewrite time_less_than, (proj2 (Z.ltb_lt _ _)) by lia.
Qed.

(** The loop runs the timers that are due, in the order of the queue, once each. *)
Lemma check_loop_run T : forall n q g l r fuel, queued T g l q -> Forall (in_time T) q -> inv r -> length (filter (fun x => due T x = true) q) = n -> (n < fuel)%nat ->
  exists g' l' q' r', mloop fuel (check_turn (u32 T)) (mk_clocked g r) = Ok (tt, mk_clocked g' r') /\
    mforeach (map (fun x => timer_at (slot x)) (filter (fun x => due T x = true) q)) run_tmr r = Ok (tt, r') /\ inv r' /\ queued T g' l' q' /\ q' ≡ₚ map (renew T) q.
Proof.
  induction n as [|n IH]; intros q g l r [|fuel] Hq Ht Hr Hlen Hf; try lia; cbn [mloop].
  - apply nil_length_inv in Hlen. assert (Forall (fun e => due T e = false) q) as Hnone.
    { apply Forall_forall. intros e He. destruct (due T e) eqn:Ed; [|done]. exfalso. assert (e ∈ filter (fun x => due T x = true) q) as Hin by by apply list_elem_of_filter. rewrite Hlen in Hin. by apply elem_of_nil in Hin. }
    rewrite (bind_run _ _ _ _ _ (check_turn_none T g l q r Hq Hnone)). exists g, l, q, r. split; [done|]. rewrite Hlen. split; [done|]. split; [done|]. split; [done|]. by rewrite renew_id.
  - destruct q as [|x q]; [done|]. pose proof (qd_sorted _ _ _ _ Hq) as Hs. destruct (due T x) eqn:Ed.
    2: { exfalso. pose proof (sorted_none_due T x q Hs Ed) as Hnone. rewrite Forall_forall in Hnone. destruct (filter _ (x :: q)) as [|y ys] eqn:Ef; [done|].
         assert (y ∈ filter (fun z => due T z = true) (x :: q)) as Hy by (rewrite Ef; apply list_elem_of_here). apply list_elem_of_filter in Hy as [Hy1 Hy2]. by rewrite (Hnone y Hy2) in Hy1. }
    apply Forall_cons in Ht as [Hx Ht]. destruct (check_turn_due T g l q x r Hq Ed (proj1 Hx) Hr) as (g1 & l1 & r1 & E1 & Er1 & Hr1 & Hq1). rewrite (bind_run _ _ _ _ _ E1).
    rewrite filter_cons_True in Hlen |- * by done. cbn [length] in Hlen. pose proof (again_not_due T x Hx) as Hnd.
    destruct (IH (enqueue (again T x) q) g1 l1 r1 fuel Hq1) as (g' & l' & q' & r' & E & Er & Hr' & Hq' & Hp); [|done| |lia|].
    + rewrite enqueue_perm. constructor; [by apply again_in_time|done].
    + rewrite enqueue_due by done. lia.
    + exists g', l', q', r'. split; [exact E|]. rewrite enqueue_due in Er by done. cbn [map mforeach]. rewrite (bind_run _ _ _ _ _ Er1). split; [done|]. split; [done|]. split; [done|].
      rewrite Hp, enqueue_perm. cbn [map]. unfold renew at 1 3. by rewrite Hnd, Ed.
Qed.

(** ** However late *)

(** How often a timer runs: twice when the run after the due one falls on now. *)
Definition weight (T : Z) (e : entry) : nat := if due T e then (if deadline e + period_at (slot e) =? T then 2 else 1) else 0.
Definition weights (T : Z) (q : list entry) : nat := fold_right (fun e n => (weight T e + n)%nat) 0%nat q.
Definition scheduled (T : Z) (e : entry) : Prop := cyclic e /\ deadline e <= T + period_at (slot e).

Lemma weights_perm T q q' : q ≡ₚ q' -> weights T q = weights T q'.
Proof. unfold weights. induction 1; cbn; lia. Qed.
Lemma weight_again T e : cyclic e -> due T e = true -> weight T e = S (weight T (again T e)) /\ (due T (again T e) = true -> deadline (again T e) = T).
Proof.
  intros Hc Hd. pose proof (cyclic_lookup e Hc) as [_ Hp]. unfold weight. rewrite Hd. change (slot (again T e)) with (slot e). unfold due, again in *. cbn [deadline]. apply Z.leb_le in Hd.
  destruct (_ <? T) eqn:E; [apply Z.ltb_lt in E|apply Z.ltb_ge in E].
  - rewrite (proj2 (Z.eqb_neq _ _)), (proj2 (Z.leb_gt _ _)) by lia. done.
  - destruct (_ =? T) eqn:E2; [apply Z.eqb_eq in E2|apply Z.eqb_neq in E2].
    + rewrite E2, (proj2 (Z.leb_le _ _)), (proj2 (Z.eqb_neq _ _)) by lia. done.
    + rewrite (proj2 (Z.leb_gt _ _)) by lia. done.
Qed.
Lemma again_scheduled T e : scheduled T e -> due T e = true -> scheduled T (again T e).
Proof.
  intros [Hc Hs] Hd. pose proof (cyclic_lookup e Hc) as [_ Hp]. split; [exact Hc|]. change (slot (again T e)) with (slot e). unfold again. cbn [deadline]. apply Z.leb_le in Hd. destruct (_ <? _); lia.
Qed.
Lemma weights_due T q : weights T q = 0%nat -> Forall (fun e => due T e = false) q.
Proof.
  induction q as [|e q IH]; cbn [weights fold_right]; intros E; [constructor|]. constructor; [|apply IH; unfold weights; lia]. unfold weight in E. destruct (due T e); [|done]. destruct (_ =? T); lia.
Qed.
Lemma weights_bound T q : (weights T q <= 2 * length q)%nat.
Proof. induction q as [|e q IH]; cbn [weights fold_right length]; [lia|]. fold (weights T q). unfold weight. destruct (due T e); [|lia]. destruct (_ =? T); lia. Qed.

Lemma weights_due_bound T q : (weights T q <= 2 * length (filter (fun e => due T e = true) q))%nat.
Proof.
  induction q as [|e q IH]; [done|]. cbn [weights fold_right]. fold (weights T q). rewrite filter_cons. unfold weight. destruct (due T e); [rewrite decide_True by done|rewrite decide_False by done; lia].
  cbn [length]. destruct (_ =? T); lia.
Qed.

(** The loop ends; what was due has run, nothing else has, and nothing is due. *)
Lemma catch_up_run T : forall n q g l r fuel, queued T g l q -> Forall (scheduled T) q -> inv r -> weights T q = n -> (n < fuel)%nat ->
  exists g' l' q' r' fired, mloop fuel (check_turn (u32 T)) (mk_clocked g r) = Ok (tt, mk_clocked g' r') /\ mforeach fired run_tmr r = Ok (tt, r') /\ inv r' /\ queued T g' l' q' /\
    map slot q' ≡ₚ map slot q /\ Forall (fun e => scheduled T e /\ T < deadline e) q' /\ length fired = n /\
    forall h, h ∈ fired <-> exists e, e ∈ q /\ due T e = true /\ h = timer_at (slot e).
Proof.
  induction n as [|n IH]; intros q g l r [|fuel] Hq Hs Hr Hw Hf; try lia; cbn [mloop].
  - pose proof (weights_due T q Hw) as Hnone. rewrite (bind_run _ _ _ _ _ (check_turn_none T g l q r Hq Hnone)). exists g, l, q, r, []. split; [done|]. split; [done|]. split; [done|]. split; [done|]. split; [done|].
    split; [|split; [done|]].
    + rewrite Forall_forall in Hs, Hnone |- *. intros e He. split; [by apply Hs|]. apply Z.leb_gt. by apply Hnone.
    + intros h. split; [by intros ?%not_elem_of_nil|]. intros (e & He & Hd & _). rewrite Forall_forall in Hnone. by rewrite (Hnone e He) in Hd.
  - destruct q as [|x q]; [done|]. pose proof (qd_sorted _ _ _ _ Hq) as Hso. destruct (due T x) eqn:Ed.
    2: { exfalso. pose proof (sorted_none_due T x q Hso Ed) as Hnone. clear - Hnone Hw. enough (weights T (x :: q) = 0%nat) by lia. clear Hw. induction Hnone as [|e l He _ IH]; [done|]. cbn. unfold weight at 1. rewrite He. exact IH. }
    apply Forall_cons in Hs as [Hx Hs]. destruct (check_turn_due T g l q x r Hq Ed (proj1 Hx) Hr) as (g1 & l1 & r1 & E1 & Er1 & Hr1 & Hq1). rewrite (bind_run _ _ _ _ _ E1).
    destruct (weight_again T x (proj1 Hx) Ed) as [Hwx _]. cbn [weights fold_right] in Hw. fold (weights T q) in Hw.
    destruct (IH (enqueue (again T x) q) g1 l1 r1 fuel Hq1) as (g' & l' & q' & r' & fired & E & Er & Hr' & Hq' & Hsl & Hall & Hlen & Hmem); [|done| |lia|].
    + rewrite enqueue_perm. constructor; [by apply again_scheduled|done].
    + rewrite (weights_perm _ _ _ (enqueue_perm _ _)). cbn [weights fold_right]. fold (weights T q). lia.
    + exists g', l', q', r', (timer_at (slot x) :: fired). split; [exact E|]. cbn [mforeach]. rewrite (bind_run _ _ _ _ _ Er1). split; [done|]. split; [done|]. split; [done|].
      split; [by rewrite Hsl, enqueue_perm|]. split; [done|]. split; [cbn; lia|]. intros h. rewrite elem_of_cons, Hmem. setoid_rewrite elem_of_cons. split.
      * intros [->|(e & He & Hd & ->)]; [exists x; auto|]. rewrite enqueue_perm in He. apply elem_of_cons in He as [->|He]; [exists x; auto|exists e; auto].
      * intros (e & [->|He] & Hd & ->); [auto|]. right. exists e. split; [rewrite enqueue_perm; by apply list_elem_of_further|done].
Qed.

(** ** From the start on *)

(** The first multiple of the period behind [T]. *)
Definition next_due (T0 T p : Z) : Z := T0 + p * ((T - T0) / p + 1).
Definition standing_at (T0 T : Z) (i : nat) : entry := mk_entry (next_due T0 T (period_at i)) H_lwip_cyclic_timer (Z.of_nat i).
Definition standing (T0 T : Z) : list entry := map (standing_at T0 T) (seq 1 7).
Definition count (h : stack_timer) (l : list stack_timer) : Z := Z.of_nat (length (filter (fun x => x = h) l)).
Definition elapsed (ks : list Z) : Z := fold_right Z.add 0 ks.

Lemma count_app h l1 l2 : count h (l1 ++ l2) = count h l1 + count h l2.
Proof. unfold count. rewrite filter_app, length_app. lia. Qed.
Lemma next_due_step T0 T p k : T0 <= T -> 100 <= p -> 0 <= k <= 100 -> let D := next_due T0 T p in
  T < D <= T + p /\ (if D <=? T + k then D + p else D) = next_due T0 (T + k) p /\ (T + k - T0) / p = (T - T0) / p + (if D <=? T + k then 1 else 0).
Proof.
  intros HT Hp Hk D. unfold D, next_due. set (n := (T - T0) / p). pose proof (Z.div_mod (T - T0) p ltac:(lia)) as Hdm. fold n in Hdm. pose proof (Z.mod_pos_bound (T - T0) p ltac:(lia)) as Hm.
  destruct (_ <=? _) eqn:E; [apply Z.leb_le in E|apply Z.leb_gt in E].
  - assert ((T + k - T0) / p = n + 1) as -> by (symmetry; apply Z.div_unique with (r := T + k - T0 - p * (n + 1)); nia). nia.
  - assert ((T + k - T0) / p = n) as -> by (symmetry; apply Z.div_unique with (r := T + k - T0 - p * n); nia). nia.
Qed.
Lemma standing_period i : i ∈ seq 1 7 -> 100 <= period_at i <= 60000 /\ (i < length lwip_cyclic_timers)%nat.
Proof. intros Hi. apply elem_of_seq in Hi. do 8 (destruct i as [|i]; [split; [vm_compute; split; congruence|cbn; lia]|]). lia. Qed.
Lemma slot_standing T0 T i : slot (standing_at T0 T i) = i.
Proof. apply Nat2Z.id. Qed.
Lemma standing_step T0 T k : T0 <= T -> 0 <= k <= 100 -> Forall (in_time (T + k)) (standing T0 T) /\ map (renew (T + k)) (standing T0 T) = standing T0 (T + k).
Proof.
  intros HT Hk. unfold standing. split.
  - apply Forall_map, Forall_forall. intros i Hi. destruct (standing_period i Hi) as [Hp Hl]. split; [split; [done|by rewrite slot_standing]|].
    rewrite slot_standing. cbn. pose proof (next_due_step T0 T (period_at i) k HT ltac:(lia) Hk) as [? _]. lia.
  - rewrite map_map. apply map_ext_in. intros i Hi. apply list_elem_of_In in Hi. destruct (standing_period i Hi) as [Hp Hl].
    pose proof (next_due_step T0 T (period_at i) k HT ltac:(lia) Hk) as (HD & E & _). unfold renew, due, again. rewrite slot_standing. unfold standing_at. cbn [deadline calls with_arg].
    rewrite <- E. rewrite (proj2 (Z.ltb_ge _ _)) by lia. by destruct (_ <=? _).
Qed.
(** How often a poll runs a timer. *)
Lemma fired_count h T (e : nat -> entry) js : count h (map (fun x => timer_at (slot x)) (filter (fun x => due T x = true) (map e js))) =
  fold_right (fun i n => (if bool_decide (timer_at (slot (e i)) = h) && due T (e i) then 1 else 0) + n) 0 js.
Proof.
  induction js as [|i js IH]; [done|]. cbn [map fold_right]. rewrite <- IH. rewrite filter_cons. destruct (due T (e i)); [rewrite decide_True by done|rewrite decide_False by done].
  - cbn [map]. unfold count. rewrite filter_cons. case_decide; [rewrite bool_decide_eq_true_2 by done|rewrite bool_decide_eq_false_2 by done]; cbn [andb length]; lia.
  - rewrite andb_false_r. lia.
Qed.
Lemma standing_count T0 T T' i : i ∈ seq 1 7 ->
  count (timer_at i) (map (fun x => timer_at (slot x)) (filter (fun x => due T' x = true) (standing T0 T))) = if next_due T0 T (period_at i) <=? T' then 1 else 0.
Proof.
  intros Hi. unfold standing. rewrite fired_count. apply elem_of_seq in Hi. cbn [seq fold_right]. rewrite !slot_standing. unfold due, standing_at. cbn [deadline].
  do 8 (destruct i as [|i]; [(lia || (unfold timer_at; cbn; repeat case_bool_decide; try done; cbn [andb]; destruct (_ <=? _); lia))|]). lia.
Qed.

Lemma init_run T : forall js q g l r, queued T g l q -> Z.of_nat (length q + length js) <= MEMP_NUM_SYS_TIMEOUT -> Forall (fun i => i ∈ seq 1 7) js ->
  exists g' l' q', mforeach js (fun i => let* '(interval_ms, _) := ofopt OobRead (lwip_cyclic_timers !! i) in sys_timeout interval_ms H_lwip_cyclic_timer (Z.of_nat i)) (mk_clocked g r) = Ok (tt, mk_clocked g' r) /\
    queued T g' l' q' /\ q' ≡ₚ map (fun i => mk_entry (T + period_at i) H_lwip_cyclic_timer (Z.of_nat i)) js ++ q.
Proof.
  induction js as [|i js IH]; intros q g l r Hq Hlen Hin; cbn [mforeach]; [exists g, l, q; done|]. apply Forall_cons in Hin as [Hi Hin]. destruct (standing_period i Hi) as [Hp Hil]. cbn [length] in Hlen.
  assert (lwip_cyclic_timers !! i = Some (period_at i, timer_at i)) as Hlk by (unfold period_at, timer_at; by destruct (lookup_lt_is_Some_2 lwip_cyclic_timers i Hil) as [[? ?] ->]).
  destruct (sys_timeout_run T g r l q (period_at i) H_lwip_cyclic_timer (Z.of_nat i) Hq) as (g1 & l1 & E1 & _ & Hq1); [unfold horizon; lia|]. rewrite (proj2 (Z.eqb_neq _ _)) in Hq1 by lia.
  destruct (IH _ g1 l1 r Hq1) as (g' & l' & q' & E & Hq' & Hp'); [rewrite (Permutation_length (enqueue_perm _ _)); cbn [length]; lia|done|].
  exists g', l', q'. rewrite Hlk. unfold bind at 1. unfold bind at 1. cbn [ofopt]. rewrite E1. split; [exact E|]. split; [done|]. rewrite Hp', enqueue_perm. cbn [map app]. by rewrite Permutation_middle.
Qed.

Context `{Fuel}.
Lemma poll_run T0 T k g l q r : queued T g l q -> q ≡ₚ standing T0 T -> T0 <= T -> 0 <= k <= 100 -> inv r -> (7 < poll_fuel)%nat ->
  exists g' l' q' r' fired, (sys_now_inc k ;;; sys_check_timeouts) (mk_clocked g r) = Ok (tt, mk_clocked g' r') /\ mforeach fired run_tmr r = Ok (tt, r') /\ inv r' /\
    queued (T + k) g' l' q' /\ q' ≡ₚ standing T0 (T + k) /\ forall i, i ∈ seq 1 7 -> (T + k - T0) / period_at i = (T - T0) / period_at i + count (timer_at i) fired.
Proof.
  intros Hq Hp HT Hk Hr Hf. destruct (standing_step T0 T k HT Hk) as [Hin Hren]. assert (Forall (in_time (T + k)) q) as Hinq by by rewrite Hp.
  destruct (sys_now_inc_run T g r l q k Hq (proj1 Hk)) as (g1 & E1 & _ & Hq1).
  { intros e He. rewrite Forall_forall in Hinq. destruct (Hinq e He) as [Hc Hd]. pose proof (cyclic_lookup e Hc) as [_ ?]. unfold horizon. lia. }
  rewrite (bind_run _ _ _ _ _ E1). unfold sys_check_timeouts. unfold bind at 1. cbn [sys_now gettm gets tmr]. rewrite (qd_now _ _ _ _ Hq1).
  assert (length (filter (fun x => due (T + k) x = true) q) <= 7)%nat as Hle by (etrans; [apply length_filter|]; by rewrite Hp).
  destruct (check_loop_run (T + k) _ q g1 l r poll_fuel Hq1 Hinq Hr eq_refl) as (g' & l' & q' & r' & E & Er & Hr' & Hq' & Hp'); [lia|].
  exists g', l', q', r', (map (fun x => timer_at (slot x)) (filter (fun x => due (T + k) x = true) q)). split; [exact E|]. split; [done|]. split; [done|]. split; [done|]. split; [by rewrite Hp', Hp, Hren|].
  intros i Hi. destruct (standing_period i Hi) as [Hper _]. pose proof (next_due_step T0 T (period_at i) k HT ltac:(lia) Hk) as (_ & _ & ->). f_equal. rewrite <- standing_count by done.
  unfold count. by rewrite Hp.
Qed.
Lemma polls_run T0 : forall ks T g l q r, queued T g l q -> q ≡ₚ standing T0 T -> T0 <= T -> Forall (fun k => 0 <= k <= 100) ks -> inv r -> (7 < poll_fuel)%nat ->
  exists g' l' q' r' fired, mforeach ks (fun k => sys_now_inc k ;;; sys_check_timeouts) (mk_clocked g r) = Ok (tt, mk_clocked g' r') /\ mforeach fired run_tmr r = Ok (tt, r') /\ inv r' /\
    queued (T + elapsed ks) g' l' q' /\ q' ≡ₚ standing T0 (T + elapsed ks) /\ forall i, i ∈ seq 1 7 -> (T + elapsed ks - T0) / period_at i = (T - T0) / period_at i + count (timer_at i) fired.
Proof.
  induction ks as [|k ks IH]; intros T g l q r Hq Hp HT Hks Hr Hf; cbn [mforeach elapsed fold_right].
  - exists g, l, q, r, []. rewrite Z.add_0_r. split; [done|]. split; [done|]. split; [done|]. split; [done|]. split; [done|]. intros i _. unfold count. cbn. lia.
  - apply Forall_cons in Hks as [Hk Hks]. destruct (poll_run T0 T k g l q r Hq Hp HT Hk Hr Hf) as (g1 & l1 & q1 & r1 & f1 & E1 & Er1 & Hr1 & Hq1 & Hp1 & Hc1).
    destruct (IH (T + k) g1 l1 q1 r1 Hq1 Hp1 ltac:(lia) Hks Hr1 Hf) as (g' & l' & q' & r' & f2 & E & Er & Hr' & Hq' & Hp' & Hc). fold (elapsed ks). rewrite Z.add_assoc.
    exists g', l', q', r', (f1 ++ f2). rewrite (bind_run _ _ _ _ _ E1). split; [exact E|]. split; [by rewrite mforeach_app, (bind_run _ _ _ _ _ Er1)|]. split; [done|]. split; [done|]. split; [done|].
    intros i Hi. rewrite Hc, Hc1, count_app by done. lia.
Qed.
End Cyclic.
