(* ===== verification/TimerClaims.v ===== *)
(** The theorems about the timers of lwIP, with their witnesses. *)

From stdpp Require Import gmap sorting.
From S2P Require Import Prelude Cmonad Cutils Heap Pbuf Timers TimerQueue TimerProofs.

(** C13: the list of timeouts refines a queue in unbounded time.  Whatever timeouts
    are set, removed and rebased while the clock advances, also past 2^32 ms, the
    functions complete, answer as the queue does and leave a list that holds it, sorted
    by deadline, equal ones in the order in which they were set.  Timeouts are set for
    less than 2^30 ms ahead, as the source asserts, and none may be overdue by 2^30 ms
    or more when a function is called. *)
Theorem timeouts_refine_queue {R} cs T q g (r : R) l : queued T g l q -> calls_ok cs T q ->
  let '(vs, T', q') := queue_calls cs T q in exists g' l', run_calls cs (mk_clocked g r) = Ok (vs, mk_clocked g' r) /\ queued T' g' l' q'.
Proof.
  intros Hq Hc. pose proof (run_calls_refine cs T q g r l Hq Hc) as H. destruct (queue_calls cs T q) as [[vs T'] q']. destruct H as (g' & l' & E & _ & Hq'). by exists g', l'.
Qed.

Section Cyclic.
Context {R : Type} `{StackTimers R} `{UserTimers R} `{Fuel} (inv : R -> Prop).
Hypothesis timers_run : forall h r, inv r -> exists r', run_tmr h r = Ok (tt, r') /\ inv r'.

(** C12: the timers of the stack run on time.  From an empty list of timeouts, when [sys_check_timeouts] is called at
    least every 100 ms, however irregularly, each timer of the table has been run
    exactly as often as its interval fits into the time since the start: late polls
    do not add up, and the wrap-around of the clock does not matter. *)
Theorem cyclic_timers_on_time T0 g r ks : queued T0 g [] [] -> Forall (fun k => 0 <= k <= 100) ks -> inv r -> (7 < poll_fuel)%nat ->
  exists g' r' fired, (sys_timeouts_init ;;; mforeach ks (fun k => sys_now_inc k ;;; sys_check_timeouts)) (mk_clocked g r) = Ok (tt, mk_clocked g' r') /\
    mforeach fired run_tmr r = Ok (tt, r') /\ val g' = u32 (T0 + elapsed ks) /\ forall i, (1 <= i < length lwip_cyclic_timers)%nat -> count (timer_at i) fired = elapsed ks / period_at i.
Proof.
  intros Hq Hks Hr Hf. destruct (init_run T0 (seq 1 7) [] g [] r Hq) as (g1 & l1 & q1 & E1 & Hq1 & Hp1); [done|by apply Forall_forall|]. rewrite app_nil_r in Hp1.
  assert (q1 ≡ₚ standing T0 T0) as Hst.
  { rewrite Hp1. unfold standing. erewrite map_ext_in; [reflexivity|]. intros i Hi%list_elem_of_In. destruct (standing_period i Hi) as [Hp _]. unfold standing_at, next_due. f_equal. rewrite Z.sub_diag, Z.div_0_l by lia. lia. }
  destruct (polls_run inv timers_run T0 ks T0 g1 l1 q1 r Hq1 Hst ltac:(lia) Hks Hr Hf) as (g' & l' & q' & r' & fired & E & Er & _ & Hq' & _ & Hc).
  exists g', r', fired. unfold sys_timeouts_init. rewrite (bind_run _ _ _ _ _ E1). split; [exact E|]. split; [done|]. split; [exact (qd_now _ _ _ _ Hq')|].
  intros i Hi. specialize (Hc i ltac:(apply elem_of_seq; cbn in Hi; lia)). rewrite Z.sub_diag in Hc. assert (period_at i <> 0) by (pose proof (standing_period i ltac:(apply elem_of_seq; cbn in Hi; lia)); lia).
  rewrite Z.div_0_l in Hc by done. replace (T0 + elapsed ks - T0) with (elapsed ks) in Hc by lia. lia.
Qed.

(** C14: a poll catches up.  However late it comes (within 2^30 ms), it ends: the
    timers that were due have run and no others, in total at most twice as many runs
    as timers were due, instead of one for each period missed; none is due any more, and each is
    set for a time within its period. *)
Theorem late_poll_catches_up T g l q r : queued T g l q -> Forall (scheduled T) q -> inv r -> (2 * length q < poll_fuel)%nat ->
  exists g' l' q' r' fired, sys_check_timeouts (mk_clocked g r) = Ok (tt, mk_clocked g' r') /\ mforeach fired run_tmr r = Ok (tt, r') /\ queued T g' l' q' /\ map slot q' ≡ₚ map slot q /\
    Forall (fun e => T < deadline e <= T + period_at (slot e)) q' /\ (length fired <= 2 * length (filter (fun e => due T e = true) q))%nat /\
    forall h, h ∈ fired <-> exists e, e ∈ q /\ due T e = true /\ h = timer_at (slot e).
Proof.
  intros Hq Hs Hr Hf. pose proof (weights_bound T q) as Hb. unfold sys_check_timeouts. unfold bind at 1. cbn [sys_now gettm gets tmr]. rewrite (qd_now _ _ _ _ Hq).
  destruct (catch_up_run inv timers_run T (weights T q) q g l r poll_fuel Hq Hs Hr eq_refl ltac:(lia)) as (g' & l' & q' & r' & fired & E & Er & _ & Hq' & Hsl & Hall & Hlen & Hmem).
  exists g', l', q', r', fired. split; [exact E|]. split; [done|]. split; [done|]. split; [done|]. split; [|split; [|done]].
  - eapply Forall_impl; [exact Hall|]. intros e [[_ Hd] Ht]. lia.
  - rewrite Hlen. apply weights_due_bound.
Qed.
End Cyclic.

(** ** Witnesses *)

(** No timeout yet, half a second before the clock wraps around. *)
Definition no_timeouts (T : Z) : timers := mk_timers (u32 T) NULL 0 false ∅ MEMP_NUM_SYS_TIMEOUT 1.
Lemma no_timeouts_queued T : queued T (no_timeouts T) [] [].
Proof. split; try done; [constructor|by intros i [? ?]|split; [done|by intros i ?%not_elem_of_nil]|constructor]. Qed.
Definition T_wrap : Z := 2 ^ 32 - 500.

(** The stack is the list of the timers run; there are no timeouts of applications. *)
Definition logged : StackTimers (list stack_timer) := {| run_tmr := fun h l => Ok (tt, l ++ [h]); tcp_pcbs := fun _ => false |}.
Definition no_user : UserTimers (list stack_timer) := {| call_timeout := fun _ _ => ret tt |}.
Definition twenty : Fuel := 20%nat.
#[local] Existing Instances logged no_user twenty.
Lemma logged_runs h (r : list stack_timer) : True -> exists r', run_tmr h r = Ok (tt, r') /\ True.
Proof. intros _. eexists. done. Qed.

(** Three timeouts, of which the second is due first and the third is removed. *)
Lemma timeouts_refine_queue_witness : exists g' l', run_calls [C_timeout 700 (H_user 1) 0; C_timeout 300 (H_user 2) 5; C_timeout 300 (H_user 3) 6; C_untimeout (H_user 3) 6; C_elapse 250; C_sleeptime] (mk_clocked (no_timeouts T_wrap) tt) = Ok ([0; 0; 0; 0; 0; 50], mk_clocked g' tt) /\
  queued (T_wrap + 250) g' l' [mk_entry (T_wrap + 300) (H_user 2) 5; mk_entry (T_wrap + 700) (H_user 1) 0].
Proof.
  refine (timeouts_refine_queue [C_timeout 700 (H_user 1) 0; C_timeout 300 (H_user 2) 5; C_timeout 300 (H_user 3) 6; C_untimeout (H_user 3) 6; C_elapse 250; C_sleeptime] T_wrap [] (no_timeouts T_wrap) tt [] (no_timeouts_queued _) _).
  cbn [calls_ok queue_call call_ok]. repeat split; try (vm_compute; congruence). intros e He.
  change (e ∈ [mk_entry (T_wrap + 300) (H_user 2) 5; mk_entry (T_wrap + 700) (H_user 1) 0]) in He. rewrite !elem_of_cons in He. destruct He as [->|[->|He]]; [by vm_compute..|by apply not_elem_of_nil in He].
Defined.

(** Ten polls, 100 ms apart. *)
Lemma cyclic_timers_on_time_witness : exists g' r' fired, (sys_timeouts_init ;;; mforeach (repeat 100 10) (fun k => sys_now_inc k ;;; sys_check_timeouts)) (mk_clocked (no_timeouts T_wrap) []) = Ok (tt, mk_clocked g' r') /\
  mforeach fired run_tmr [] = Ok (tt, r') /\ val g' = u32 (T_wrap + elapsed (repeat 100 10)) /\ forall i, (1 <= i < length lwip_cyclic_timers)%nat -> count (timer_at i) fired = elapsed (repeat 100 10) / period_at i.
Proof.
  refine (cyclic_timers_on_time (fun _ => True) logged_runs T_wrap (no_timeouts T_wrap) [] (repeat 100 10) (no_timeouts_queued _) _ I _); [|by vm_compute; lia].
  repeat constructor; lia.
Defined.

(** Two timers, a week late. *)
Definition week_late : list entry := [mk_entry (T_wrap - 604800000) H_lwip_cyclic_timer 2; mk_entry (T_wrap - 604700000) H_lwip_cyclic_timer 5].
Definition late_cells : timers := mk_timers (u32 T_wrap) 1 0 false {[1 := mk_timeo 2 (u32 (T_wrap - 604800000)) H_lwip_cyclic_timer 2; 2 := mk_timeo NULL (u32 (T_wrap - 604700000)) H_lwip_cyclic_timer 5]} 6 3.
Lemma week_late_queued : queued T_wrap late_cells [1; 2] week_late.
Proof.
  split; try done.
  - split; [done|]. split; [done|]. eexists. split; [done|]. split; [done|]. split; [done|]. split; [done|]. eexists. split; [done|]. done.
  - by apply (bool_decide_unpack _); vm_compute.
  - intros i [d Hd]. cbn in Hd. rewrite lookup_insert_Some, lookup_singleton_Some in Hd. rewrite !elem_of_cons. naive_solver.
  - split; [done|]. intros i Hi. rewrite !elem_of_cons in Hi. destruct Hi as [->|[->|Hi]]; [by vm_compute..|by apply not_elem_of_nil in Hi].
  - repeat constructor; vm_compute; congruence.
  - repeat constructor; vm_compute; congruence.
Qed.
Lemma late_poll_catches_up_witness : exists g' l' q' r' fired, sys_check_timeouts (mk_clocked late_cells []) = Ok (tt, mk_clocked g' r') /\ mforeach fired run_tmr [] = Ok (tt, r') /\ queued T_wrap g' l' q' /\ map slot q' ≡ₚ [2; 5]%nat /\
  Forall (fun e => T_wrap < deadline e <= T_wrap + period_at (slot e)) q' /\ (length fired <= 4)%nat /\ forall h, h ∈ fired <-> exists e, e ∈ week_late /\ due T_wrap e = true /\ h = timer_at (slot e).
Proof.
  refine (late_poll_catches_up (fun _ => True) logged_runs T_wrap late_cells [1; 2] week_late [] week_late_queued _ I _); [|by vm_compute; lia].
  repeat constructor; vm_compute; congruence.
Defined.
